(* ===== verification/_CoqProject ===== *)
-Q . S2P
Prelude.v
GoStr.v
Paths.v
Regex.v
SiteInput.v
AgentValidate.v
Cron.v
Sql.v
JobStore.v
Accounts.v
Sites.v
Backups.v
Float.v
Json.v
Net.v
Guards.v
Base64.v
Password.v
Secrets.v
Clock.v
Servers.v
BackupPlan.v
Records.v
Plans.v
Extras.v
Frame.v
Panel.v
Fleet.v
Agent.v
Nginx.v
Worker.v
Drain.v
Scheduler.v
Http.v
Starter.v
Host.v
AgentSite.v
AgentApp.v
AgentUnit.v
AgentDb.v
AgentSql.v
AgentBackup.v
AgentTasks.v
AgentAnswers.v
AgentSafety.v
Access.v
Routes.v
SitesApi.v
AppApi.v
SiteTools.v
JobsApi.v
Mysql.v
MysqlText.v
DatabasesApi.v
FileSystem.v
FileManager.v
FileLinks.v
Dispatch.v
Isolation.v
Login.v
UsersApi.v
BillingApi.v
BackupsApi.v
BackupPlansApi.v
