(* ===== verification/Prelude.v ===== *)
(** SigardaPanel, verified: root file of the development.

    * The program

    SigardaPanel is a hosting control panel in two processes written in Go.  The backend
    (src/internal/backendserver, apihttp, store, jobs) serves the HTTP API over one SQLite
    database and runs two loops beside it, a worker and a scheduler.  An agent on every
    server (agenthttp, executor) runs commands as root on request of the backend.

    A change of a site travels like this.  A handler of the API checks the caller and the
    input (siteinput) and writes a row and a job, one transaction or statement at a time.
    The worker claims the oldest due job, sends it to the agent of the site's server
    (agentclient) and records the outcome: succeeded, queued again with a back-off, or
    failed.  The scheduler writes jobs of its own: backups that are due, deletions of old
    ones, certificates that run out.  The agent validates everything again before it
    touches paths, SQL or processes.

    * Files

    Foundations.
    - Prelude: notations, tactics, hints and lemmas on lists, strings and integers.
    - GoStr: the functions of [strings], [strconv] and [path] that the sources use.  Paths:
      where a path lies, by its segments.
    - Regex: anchored regular expressions, a matcher by derivatives and its correctness.
    - Float, Json: [float64] and [encoding/json] as far as payloads go through them.
    - Base64: [encoding/base64].  Clock: times as texts.  Net: addresses and CIDR blocks of
      [net], as far as the panel checks them.
    - Sql: tables, statements that may fail, the state monad [M] of the store functions,
      weakest preconditions [wp] and the classes [HasId] and [Has], by which a store works
      on any database that has its tables.
    - Host: programs of effects on a server ([prog]), executor/executor.go over them, and
      [always], what holds of every effect and result whatever the host answers.
    - FileSystem: trees of files with symbolic links, and the walks of the kernel and of
      [filepath.EvalSymlinks].

    Validation.
    - SiteInput: siteinput/siteinput.go.
    - AgentValidate: agenthttp/validate.go, agenthttp/sqlinject.go, the allowlist of
      executor/executor.go.

    Stores, one function per method, the row types as Records.
    - JobStore: store/jobs.go, jobmodel/jobs.go.
    - Accounts: store/users.go, user_sites.go, sessions.go, twofa.go, service_tokens.go,
      ip_restrictions.go, the roles of auth/auth.go; one Module per store.
    - Sites: store/sites.go.  Backups: store/backups.go.
    - Servers: store/servers.go, agents.go, alerts.go, notify/sender.go,
      jobs/healthcheck.go.
    - BackupPlan: store/backup_providers.go, backupschedules.go, backup_configs.go,
      backup_config_scope.go and the settings.  Cron: the cron expressions.
    - Records: store/databases.go, backup_credentials.go, dbserver/dbserver.go (what it
      stores), audit/audit.go, store/audit_logs.go, notifications.go, notify_helper.go.
    - Plans: store/plans.go, orders.go, licenses.go, feature_flags.go, features/features.go.
    - Extras: store/site_advanced.go, job_logs.go, security_baseline.go, metrics.go,
      cloudflare.go.
    - Secrets: secrets/secrets.go and payload.go.
    - Panel: the database of all these tables with its foreign keys ([db], store/store.go).
    - Fleet: what the operations of Servers do on that database.
    - Frame: which tables an operation leaves alone, whatever fails, with its automation.

    Processes.
    - Nginx: nginx/template.go; a reader of nginx syntax against which it is proved.
    - Agent: agentclient/client.go.  Worker: jobs/worker.go, with Drain, the polls of a
      queue until it is done.  Scheduler: jobs/scheduler.go.
    - Mysql: dbserver/dbserver.go over a connection; MysqlText: how its statements are read.

    The agent, agenthttp.
    - AgentSite, AgentApp, AgentDb, AgentBackup: the handlers of router.go, git.go,
      app_process.go and validate.go for sites, certificates, logs, deploys, apps, git,
      databases and backups, as programs of Host.  Starter: the first files of a site.
    - AgentTasks: the 22 tasks ([run_task]), their routes and the decoding of their bodies.
    - AgentUnit, AgentSql: how systemd, MySQL and PostgreSQL read what the tasks write.
      AgentAnswers, AgentSafety: what they answer, and what they do to a server.

    API.
    - Password: auth/password.go.  Guards: the limiters of apihttp/auth.go, the token
      bucket of ratelimit.go, the CSRF tokens of csrf.go.
    - Http: replies, the echo context, the middlewares of apihttp/middleware.go.
    - Routes: every route of apihttp/router.go and member/router.go with its guards.
    - Login: apihttp/auth.go, twofa.go, impersonate.go, service_tokens.go.
    - Access: who may touch a site.  SitesApi: apihttp/sites.go, cloudflare/domain.go.
      AppApi: apihttp/app_process.go, php_config.go, ssl.go.  SiteTools:
      apihttp/sites_advanced.go, ip_restrictions.go, on a machine with files.  JobsApi:
      apihttp/jobs.go, job_logs.go, notifications.go, webhooks.go.
    - Isolation: the theorems about access over these handlers.  Dispatch: what the agent
      makes of the jobs they queue.
    - DatabasesApi: apihttp/databases.go.  FileManager: apihttp/filemanager.go, with
      FileLinks, what links do to it.  UsersApi: users.go, user_sites.go.  BillingApi:
      plans.go, orders.go, licenses.go.  BackupsApi: backups.go.  BackupPlansApi:
      backup_providers.go, backup_configs.go, backup_schedules.go.

    * How state and effects are modelled

    A store function is a program of the monad [M D] over a [world D]: the database [D],
    the clock, and a list of faults that says which of the next statements fail.  A failed
    statement or transaction changes nothing.  A theorem about all worlds therefore holds
    for every pattern of database failures; one about [World d n []] is about a run in
    which none fails.  [time.Now] and [CURRENT_TIMESTAMP] read the clock of the world, which
    stands still during one operation; a stored time is a number of seconds, a Go time a
    number of nanoseconds.  Machine integers are [Z] with the wrap-around written where it
    can happen.  A nil pointer dereference, or a failed type assertion, of a handler is
    the reply [Panics].  A handler of the agent is a tree of effects (files, commands): a
    theorem about it speaks of every answer of the host, or of those a named predicate
    admits ([host_ok] in AgentSafety, [accounts] in AgentUnit).  The handlers of databases,
    of the file manager and of backups act on the database together with a database
    server, a tree of files, or the files of the panel's host.

    * What the theorems show

    - The job queue.  A claim changes one row and never hands a job out twice
      ([ClaimNext_spec], [claims_NoDup]); every operation keeps the invariant and moves
      jobs along the status machine ([run_op_inv]); the worker's attempt has exactly the
      outcome the agent's answer and the remaining attempts call for
      ([runClaimedJob_outcome]); a queue that is polled is done after a time that its
      attempts bound ([queue_drains]); every answer of the agent can be read
      ([job_answers_typed]), and the jobs of sites and apps arrive as they were meant
      ([jobs_arrive]).
    - Who gets in.  A login without password and second factor opens no session
      ([login_sound]); a session lives until it expires or is logged out
      ([session_lifecycle]); every route but the public ones wants a live token
      ([route_access]), the administrators' routes a role ([admin_access]);
      impersonation by an administrator, no super administrator, stays within what he
      created ([impersonate_sound]); the limiters keep their bounds ([allow_window], [failureTracker_refines],
      [markUsed_refines]) and hashes verify ([Password_roundtrip]).
    - Who reaches what.  A request about a site, its databases or its backups changes nothing
      unless its caller may touch the site ([tenant_isolation], [databases_isolation],
      [backups_isolation]); the file manager, archives apart, stays in the directory of the
      site as long as no link below it dangles and none from elsewhere leads into it
      ([files_confined]; [links_leave_site] is what happens else); an administrator changes
      the accounts he created, and any account's plan ([admins_confined]); a list shows only
      what the caller has a claim to ([list_sites_entitled]); a new site stays where its owner may put it
      ([create_site_confined]); payloads are shown without their secrets
      ([redactSensitivePayload_hides]).
    - What gets through.  A generated nginx configuration has the blocks and directives of
      its template and no others ([GenerateVhost_structure]); a statement to a database
      server is read as it was meant, from the agent ([db_tasks_statements]) and, for
      privileges that were checked, from the panel ([account_statements]); so is the unit
      of an app ([app_units_good]); the 22 tasks of the agent keep to their directories and
      give no option they do not mean to ([agent_files_confined],
      [agent_no_option_injection]).
    - What is kept.  Retention never deletes the newest backups ([DeleteOldest_keeps_newest],
      [runCleanup_keeps_latest]), deletions reach the rows they should ([Delete_site_spec]),
      registration tokens work once ([register_all_once]), secrets are stored encrypted and
      come back ([payload_roundtrip], [EncryptPayload_marks]); names of users stay unique
      ([run_user_op_inv]).  A schedule is run at the least minute that matches it
      ([NextCronRun_least]).
    - What the code gets wrong: a blocked address injects directives
      ([GenerateVhost_blocked_ip_injects]), the transfer of a site always panics
      ([transfer_panics]), jobs and address rules of other tenants can be changed
      ([job_cancel_any_caller], [ip_delete_any_rule]), backups with a server are never
      dispatched ([processOne_backup_requeued]), a schedule for databases refuses its own records
      ([processSchedule_databases]), a cron range can run for ever
      ([NextCronRun_range_diverges]), an empty token bucket can starve a client
      ([bucket_starves]), setup of two-factor authentication replaces a secret in use
      ([setup2FA_spec]), the deploys of the panel are refused by its agents
      ([deploys_refused]), any user stops the scheduler ([any_user_stops_scheduler]),
      an administrator takes over any account ([service_token_takes_over]), and whoever
      manages a database any account of the database server
      ([grant_takes_over_account]).

    * Bounds and fuel

    [NextCronRun] searches one year of minutes, as the code does; [for_steps], the loop of
    a cron field, takes fuel and [NextCronRun_range_diverges] shows which input needs more
    than any; [NextCronRun_least] holds for all fuel from some amount on.  The scheduler
    passes its [fuel] on to it, and its theorems hold for any amount.  JSON is parsed with the
    length of the text as fuel, which the round trips show to be enough.  [probe_loop] and
    [MkdirAll] of the file manager go up a path, and one more than its length is enough.
    The kernel follows 40 links of a path, [filepath.EvalSymlinks] 255.  Everything else
    recurs on its data.

    * Parameters

    Outside src/, hence a parameter, with its documented behaviour as a named hypothesis
    where a theorem needs it: AES-GCM (classes [AEAD], [AEADLaws]) and the random source;
    argon2id ([Argon2]), SHA-256 ([HashToken]), the TOTP algorithm; the agent's HTTP
    answer ([post]) and the delivery of a notification ([deliver]); the order of SQLite on
    two formats of time ([text_before_time] and the like) and its LIKE; the answers of the
    database server ([MySQLServer]), what the system says of a file beside its kind and the
    archive [archive/zip] writes ([FileInfo]), the order in which Go ranges over a map
    ([MapRange]), [du] and the tool for S3; symbolic links outside the file manager, removal of
    files and free ports of the host.

    * Not modelled

    The routes of the agent beyond the 22 tasks: Docker, Python apps, pm2, email, firewall,
    fail2ban, the bot blocker, Redis, stack and templates, terminals and [command/exec], and
    its monitoring; none of the theorems about the agent speaks of them.  Of the panel's API, the
    handlers of servers, agents (and the script that installs one), stack, terminals and the
    other handlers not named above.  The nginx templates for TLS; the command line; the
    clients of Cloudflare, of the licence service and of the notification services; the
    samplers of metrics; configuration, migrations (their schema is in the row types and
    foreign keys) and process start; logging; the web interface.  Of echo, only what the
    middlewares and handlers observe.  Two statements of one handler may interleave with
    another request's, and somebody else may change a tree between the check of a path and its
    use: the theorems are about one operation at a time, except where they quantify over
    sequences of operations or over what the host answers. *)
From Stdlib Require Export ZArith Lia Ascii String List.
From stdpp Require Export base tactics list strings gmap numbers sorting.

(** * Notations of the development *)

Declare Scope panel_scope.
Delimit Scope panel_scope with panel.

(** Go's [error]: [nil] is [None], an error carries its message. *)
Definition error : Type := option string.
Definition nil_error : error := None.
Definition errorf (msg : string) : error := Some msg.

(** [if err := e; err != nil { return err }; k]. *)
Notation "'try' e ;; k" := (match e with Some m => Some m | None => k end)
  (at level 60, e at next level, k at level 200, right associativity) : panel_scope.

(** * Tactics *)

(** Case analysis on the scrutinee of some [match] or [if] of the goal. *)
Ltac case_goal :=
  match goal with
  | |- context [match ?x with _ => _ end] =>
      lazymatch x with
      | context [match _ with _ => _ end] => fail
      | _ => let E := fresh "E" in destruct x eqn:E
      end
  end.

(** The same on a hypothesis. *)
Ltac case_hyp H :=
  match type of H with
  | context [match ?x with _ => _ end] =>
      lazymatch x with
      | context [match _ with _ => _ end] => fail
      | _ => let E := fresh "E" in destruct x eqn:E
      end
  end.

(** Turn the boolean connectives of the hypotheses into propositions. *)
Ltac bool_hyps :=
  repeat match goal with
  | H : _ && _ = true |- _ => apply andb_prop in H; destruct H
  | H : _ && _ = false |- _ => apply andb_false_iff in H
  | H : _ || _ = true |- _ => apply orb_prop in H
  | H : _ || _ = false |- _ => apply orb_false_iff in H; destruct H
  | H : negb _ = true |- _ => apply negb_true_iff in H
  | H : negb _ = false |- _ => apply negb_false_iff in H
  | H : bool_decide _ = true |- _ => apply bool_decide_eq_true in H
  | H : bool_decide _ = false |- _ => apply bool_decide_eq_false in H
  | H : (_ =? _)%Z = true |- _ => apply Z.eqb_eq in H
  | H : (_ =? _)%Z = false |- _ => apply Z.eqb_neq in H
  | H : (_ <? _)%Z = true |- _ => apply Z.ltb_lt in H
  | H : (_ <? _)%Z = false |- _ => apply Z.ltb_ge in H
  | H : (_ <=? _)%Z = true |- _ => apply Z.leb_le in H
  | H : (_ <=? _)%Z = false |- _ => apply Z.leb_gt in H
  | H : (_ =? _)%string = true |- _ => apply String.eqb_eq in H
  | H : (_ =? _)%string = false |- _ => apply String.eqb_neq in H
  end.

(** Linear arithmetic with quotients and remainders by constants. *)
Ltac dlia := Z.div_mod_to_equations; lia.

(** Finish a branch of a symbolic execution. *)
Ltac branch := bool_hyps; simplify_eq/=; try done; try lia; try congruence.

(** * Hint database of the development *)

Create HintDb panel.

(** * Machine integers *)

(** Go's [int] and [int64] on the 64-bit targets the panel is built for. *)
Definition min_int64 : Z := - 2 ^ 63.
Definition max_int64 : Z := 2 ^ 63 - 1.

(** Two's complement wrap-around of a 64-bit signed operation. *)
Definition wrap64 (z : Z) : Z := (z + 2 ^ 63) mod 2 ^ 64 - 2 ^ 63.

Lemma wrap64_id (z : Z) : (min_int64 ≤ z ≤ max_int64)%Z → wrap64 z = z.
Proof.
  unfold wrap64, min_int64, max_int64. intros H.
  rewrite Z.mod_small; lia.
Qed.

Lemma wrap64_range (z : Z) : (min_int64 ≤ wrap64 z ≤ max_int64)%Z.
Proof.
  unfold wrap64, min_int64, max_int64.
  pose proof (Z.mod_pos_bound (z + 2 ^ 63) (2 ^ 64) eq_refl). lia.
Qed.

(** * Lists *)

Lemma forallb_True {A} (p : A → bool) (l : list A) :
  forallb p l = true ↔ Forall (λ x, p x = true) l.
Proof.
  rewrite forallb_forall, Forall_forall.
  split; intros H x Hx; apply H; by apply list_elem_of_In.
Qed.

Lemma existsb_True {A} (p : A → bool) (l : list A) :
  existsb p l = true ↔ Exists (λ x, p x = true) l.
Proof.
  rewrite existsb_exists, Exists_exists.
  split; intros (x & Hx & Hp); exists x; split; try done; by apply list_elem_of_In.
Qed.

Lemma existsb_False {A} (p : A → bool) (l : list A) :
  existsb p l = false ↔ Forall (λ x, p x = false) l.
Proof.
  induction l as [|x l IH]; simpl; [by split|].
  rewrite orb_false_iff, Forall_cons, IH. done.
Qed.

Lemma sorted_app_inv {A} (R : A → A → Prop) (l k : list A) :
  StronglySorted R (l ++ k) → StronglySorted R l ∧ StronglySorted R k.
Proof.
  induction l as [|x l IH]; cbn; [by repeat constructor|]. intros [Hs Hx]%StronglySorted_inv.
  destruct (IH Hs) as [Hl Hk]. apply Forall_app in Hx as [Hx _]. by repeat constructor.
Qed.

Lemma sorted_take {A} (R : A → A → Prop) (n : nat) (l : list A) :
  StronglySorted R l → StronglySorted R (take n l).
Proof. rewrite <- (take_drop n l) at 1. by intros [H _]%sorted_app_inv. Qed.

Lemma sorted_drop {A} (R : A → A → Prop) (n : nat) (l : list A) :
  StronglySorted R l → StronglySorted R (drop n l).
Proof. rewrite <- (take_drop n l) at 1. by intros [_ H]%sorted_app_inv. Qed.

Lemma in_take_drop {A} (n k : nat) (l : list A) x : In x (take n (drop k l)) → In x l.
Proof.
  intros H. rewrite <- (take_drop k l), in_app_iff. right.
  rewrite <- (take_drop n (drop k l)), in_app_iff. by left.
Qed.

Lemma in_drop {A} (k : nat) (l : list A) x : In x (drop k l) → In x l.
Proof. rewrite <- (firstn_all (drop k l)). apply in_take_drop. Qed.

Lemma forallb_filter_id {A} (p : A → bool) (l : list A) : forallb p l = true → List.filter p l = l.
Proof. induction l as [|x l IH]; cbn; [done|]. intros H. bool_hyps. rewrite H. by f_equal; apply IH. Qed.

Lemma filter_false {A} (l : list A) : List.filter (λ _, false) l = [].
Proof. by induction l. Qed.

Lemma filter_filter_imp {A} (p q : A → bool) (l : list A) :
  (∀ x, p x = true → q x = true) → List.filter p (List.filter q l) = List.filter p l.
Proof.
  intros H. induction l as [|x l IH]; cbn; [done|]. specialize (H x).
  destruct (q x) eqn:E; cbn; destruct (p x) eqn:Ep; rewrite ?IH; try done. specialize (H eq_refl). done.
Qed.

Lemma filter_filter_none {A} (p q : A → bool) (l : list A) :
  (∀ x, p x = true → q x = false) → List.filter p (List.filter q l) = [].
Proof.
  intros H. induction l as [|x l IH]; cbn; [done|]. specialize (H x).
  destruct (q x) eqn:E; cbn; destruct (p x) eqn:Ep; rewrite ?IH; try done. specialize (H eq_refl). done.
Qed.

Lemma filter_comm {A} (p q s : A → bool) (l : list A) :
  (∀ x, In x l → q x = s x) → List.filter p (List.filter q l) = List.filter s (List.filter p l).
Proof.
  induction l as [|x l IH]; intros H; cbn; [done|]. rewrite (H x) by (by left).
  specialize (IH (λ y Hy, H y (or_intror Hy))).
  destruct (p x) eqn:Ep, (s x) eqn:Es; cbn; rewrite ?Ep, ?Es, ?IH; done.
Qed.

(** Membership in a list of strings: a Go [map[string]bool] literal, read with
    a missing key as [false]. *)
Definition str_in (l : list string) (s : string) : bool := existsb (String.eqb s) l.

Lemma str_in_spec (l : list string) (s : string) : str_in l s = true ↔ s ∈ l.
Proof.
  unfold str_in. rewrite existsb_True, Exists_exists. split.
  - intros (u & Hu & Hs). by apply String.eqb_eq in Hs as ->.
  - intros Hs. exists s. by rewrite String.eqb_refl.
Qed.

Lemma str_in_false (l : list string) (s : string) : str_in l s = false ↔ s ∉ l.
Proof. by rewrite <- str_in_spec, not_true_iff_false. Qed.
