(* ===== verification/GoStr.v ===== *)
(** The functions of Go's [strings], [strconv] and [path] packages that the
    panel uses, on byte strings.  A Go [string] is a sequence of bytes: here a
    [String.string] whose characters are those bytes.  Every separator and
    pattern the sources pass to these functions is ASCII. *)
From S2P Require Import Prelude.

Local Open Scope string_scope.
Local Open Scope Z_scope.

Definition byte (n : nat) : ascii := ascii_of_nat n.
Definition code (c : ascii) : Z := Z.of_nat (nat_of_ascii c).

(** Line feed, the only control character that occurs in a pattern. *)
Definition LF : ascii := byte 10.
Definition CR : ascii := byte 13.
Definition DQ : ascii := byte 34.
Definition BS : ascii := byte 92.
Definition SQ : ascii := byte 39.

Definition chr_in (cs : string) (c : ascii) : bool :=
  existsb (Ascii.eqb c) (list_ascii_of_string cs).
Definition chr_range (a b : ascii) (c : ascii) : bool := (code a <=? code c) && (code c <=? code b).

Definition is_digit (c : ascii) : bool := chr_range "0" "9" c.
Definition is_lower (c : ascii) : bool := chr_range "a" "z" c.
Definition is_upper (c : ascii) : bool := chr_range "A" "Z" c.
Definition is_alnum (c : ascii) : bool := is_lower c || is_upper c || is_digit c.

(** ** Scanning *)

Fixpoint str_all (p : ascii → bool) (s : string) : bool :=
  match s with
  | EmptyString => true
  | String c s' => p c && str_all p s'
  end.

(** [strings.HasPrefix(s, p)]. *)
Definition has_prefix (s p : string) : bool := String.prefix p s.

(** [strings.Contains(s, sub)]. *)
Fixpoint contains (s sub : string) : bool :=
  String.prefix sub s ||
  match s with
  | EmptyString => false
  | String _ s' => contains s' sub
  end.

(** [strings.ContainsAny(s, chars)] *)
Definition contains_any (s chars : string) : bool := negb (str_all (λ c, negb (chr_in chars c)) s).

(** [strings.IndexByte]-style search; [None] is Go's [-1]. *)
Fixpoint index_chr (c : ascii) (s : string) : option nat :=
  match s with
  | EmptyString => None
  | String d s' => if Ascii.eqb c d then Some O else S <$> index_chr c s'
  end.

Fixpoint last_index_chr (c : ascii) (s : string) : option nat :=
  match s with
  | EmptyString => None
  | String d s' =>
      match last_index_chr c s' with
      | Some n => Some (S n)
      | None => if Ascii.eqb c d then Some O else None
      end
  end.

(** [strings.Index(s, sub)]. *)
Fixpoint index_sub (s sub : string) : option nat :=
  if String.prefix sub s then Some O
  else match s with
       | EmptyString => None
       | String _ s' => S <$> index_sub s' sub
       end.

(** [s[n:]] and [s[:n]], for [n] inside the string. *)
Fixpoint str_drop (n : nat) (s : string) : string :=
  match n, s with
  | S k, String _ s' => str_drop k s'
  | _, _ => s
  end.
Fixpoint str_take (n : nat) (s : string) : string :=
  match n, s with
  | S k, String c s' => String c (str_take k s')
  | _, _ => EmptyString
  end.

(** [strings.TrimPrefix(s, p)]. *)
Definition trim_prefix (s p : string) : string :=
  if String.prefix p s then str_drop (String.length p) s
  else s.

Fixpoint str_rev_app (s acc : string) : string :=
  match s with
  | EmptyString => acc
  | String c s' => str_rev_app s' (String c acc)
  end.
Definition str_rev (s : string) : string := str_rev_app s EmptyString.

(** [strings.HasSuffix(s, p)]. *)
Definition has_suffix (s p : string) : bool := String.prefix (str_rev p) (str_rev s).

(** ** Splitting and joining *)

(** [strings.Split(s, sep)] for a one-byte separator. *)
Fixpoint split (sep : ascii) (s : string) : list string :=
  match s with
  | EmptyString => [EmptyString]
  | String c s' =>
      if Ascii.eqb c sep then EmptyString :: split sep s'
      else match split sep s' with
           | w :: ws => String c w :: ws
           | [] => [String c EmptyString]
           end
  end.

(** [strings.SplitN(s, sep, 2)]: the part before the first separator, and the
    part after it when there is one. *)
Fixpoint split2 (sep : ascii) (s : string) : string * option string :=
  match s with
  | EmptyString => (EmptyString, None)
  | String c s' =>
      if Ascii.eqb c sep then (EmptyString, Some s')
      else let '(w, r) := split2 sep s' in (String c w, r)
  end.

(** [strings.Join(l, sep)]. *)
Fixpoint join (sep : string) (l : list string) : string :=
  match l with
  | [] => EmptyString
  | [w] => w
  | w :: ws => w +:+ sep +:+ join sep ws
  end.

(** ** White space *)

(** [unicode.IsSpace]: one-, two- and three-byte UTF-8 encodings. *)
Definition space1 (a : ascii) : bool :=
  let n := code a in ((9 <=? n) && (n <=? 13)) || (n =? 32).
Definition space2 (a b : ascii) : bool :=
  (code a =? 194) && ((code b =? 133) || (code b =? 160)).
Definition space3 (a b c : ascii) : bool :=
  let '(x, y, z) := (code a, code b, code c) in
  ((x =? 225) && (y =? 154) && (z =? 128)) ||
  ((x =? 226) && (y =? 128) &&
     (((128 <=? z) && (z <=? 138)) || (z =? 168) || (z =? 169) || (z =? 175))) ||
  ((x =? 226) && (y =? 129) && (z =? 159)) ||
  ((x =? 227) && (y =? 128) && (z =? 128)).

Fixpoint trim_with (f2 : ascii → ascii → bool) (f3 : ascii → ascii → ascii → bool)
    (s : string) : string :=
  match s with
  | EmptyString => EmptyString
  | String a s1 =>
      if space1 a then trim_with f2 f3 s1
      else match s1 with
           | EmptyString => s
           | String b s2 =>
               if f2 a b then trim_with f2 f3 s2
               else match s2 with
                    | EmptyString => s
                    | String c s3 => if f3 a b c then trim_with f2 f3 s3 else s
                    end
           end
  end.

Definition trim_left (s : string) : string := trim_with space2 space3 s.
Definition trim_right (s : string) : string :=
  str_rev (trim_with (λ a b, space2 b a) (λ a b c, space3 c b a) (str_rev s)).
(** [strings.TrimSpace]. *)
Definition trim_space (s : string) : string := trim_right (trim_left s).

(** [strings.Fields]. *)
Definition push_word (p : string * list string) : list string :=
  let '(w, ws) := p in if (w =? "")%string then ws else w :: ws.

Fixpoint fields_from (s : string) : string * list string :=
  match s with
  | EmptyString => (EmptyString, [])
  | String a s1 =>
      let plain := let '(w, ws) := fields_from s1 in (String a w, ws) in
      if space1 a then (EmptyString, push_word (fields_from s1))
      else match s1 with
           | EmptyString => plain
           | String b s2 =>
               if space2 a b then (EmptyString, push_word (fields_from s2))
               else match s2 with
                    | EmptyString => plain
                    | String c s3 =>
                        if space3 a b c then (EmptyString, push_word (fields_from s3)) else plain
                    end
           end
  end.
Definition fields (s : string) : list string := push_word (fields_from s).

(** [strings.Trim(s, "/")] and the like: a cutset of one byte. *)
Fixpoint trim_left_chr (c : ascii) (s : string) : string :=
  match s with
  | String d s' => if Ascii.eqb c d then trim_left_chr c s' else s
  | EmptyString => EmptyString
  end.
Definition trim_chr (c : ascii) (s : string) : string :=
  str_rev (trim_left_chr c (str_rev (trim_left_chr c s))).

(** ** Letter case *)

Definition upper1 (c : ascii) : ascii := if is_lower c then byte (nat_of_ascii c - 32) else c.
Definition lower1 (c : ascii) : ascii := if is_upper c then byte (nat_of_ascii c + 32) else c.

(** [strings.ToUpper].  The dotless i (C4 B1) and the long s (C5 BF) are the
    only non-ASCII letters whose upper case is ASCII; the other non-ASCII
    letters map to non-ASCII letters and are left as they are, which the
    callers, who compare with ASCII words, cannot tell apart. *)
Fixpoint to_upper (s : string) : string :=
  match s with
  | EmptyString => EmptyString
  | String a s1 =>
      match s1 with
      | String b s2 =>
          if (code a =? 196) && (code b =? 177) then String "I" (to_upper s2)
          else if (code a =? 197) && (code b =? 191) then String "S" (to_upper s2)
          else String (upper1 a) (to_upper s1)
      | EmptyString => String (upper1 a) EmptyString
      end
  end.

(** [strings.ToLower] on ASCII letters. *)
Fixpoint to_lower (s : string) : string :=
  match s with
  | EmptyString => EmptyString
  | String a s1 => String (lower1 a) (to_lower s1)
  end.

(** ** Replacement *)

(** [strings.ReplaceAll(s, pat, rep)] for a non-empty pattern: [skip] bytes of
    a match are still to be dropped. *)
Fixpoint replace_from (skip : nat) (pat rep s : string) : string :=
  match s with
  | EmptyString => EmptyString
  | String c s' =>
      match skip with
      | S k => replace_from k pat rep s'
      | O =>
          if String.prefix pat s then rep +:+ replace_from (String.length pat - 1) pat rep s'
          else String c (replace_from O pat rep s')
      end
  end.
Definition replace_all (s pat rep : string) : string := replace_from O pat rep s.

(** A replacement of single bytes: [strings.NewReplacer] on one-byte patterns,
    and [strings.ReplaceAll] of a one-byte pattern. *)
Fixpoint replace_chr (f : ascii → option string) (s : string) : string :=
  match s with
  | EmptyString => EmptyString
  | String c s' => match f c with
                   | Some r => r +:+ replace_chr f s'
                   | None => String c (replace_chr f s')
                   end
  end.

(** ** [strconv.Atoi] *)

Fixpoint digits_val (acc : Z) (s : string) : option Z :=
  match s with
  | EmptyString => Some acc
  | String c s' => if is_digit c then digits_val (10 * acc + (code c - 48)) s' else None
  end.

(** The value Go returns together with whether the error is nil.  A syntax
    error returns 0; a range error returns the nearest bound of [int]. *)
Definition atoi (s : string) : Z * bool :=
  let '(sign, body) :=
    match s with
    | String c s' => if Ascii.eqb c "-" then (-1, s')
                     else if Ascii.eqb c "+" then (1, s') else (1, s)
    | EmptyString => (1, s)
    end in
  match body with
  | EmptyString => (0, false)
  | _ => match digits_val 0 body with
         | None => (0, false)
         | Some n =>
             let v := sign * n in
             if v <? min_int64 then (min_int64, false)
             else if max_int64 <? v then (max_int64, false)
             else (v, true)
         end
  end.

(** [%d] of an integer. *)
Fixpoint print_pos (fuel : nat) (n : Z) (acc : string) : string :=
  match fuel with
  | O => acc
  | S f => let acc' := String (byte (Z.to_nat (48 + n mod 10))) acc in
           if n <? 10 then acc' else print_pos f (n / 10) acc'
  end.
Definition itoa (n : Z) : string :=
  if n <? 0 then String "-" (print_pos 20 (- n) EmptyString) else print_pos 20 n EmptyString.

(** The longest prefix of characters of a class, and the rest. *)
Fixpoint span (p : ascii → bool) (s : string) : string * string :=
  match s with
  | String c s' => if p c then let '(a, b) := span p s' in (String c a, b) else (EmptyString, s)
  | EmptyString => (EmptyString, EmptyString)
  end.

(** ** [path.Clean] and [filepath] on Unix *)

(** The segments of a path after lexical cleaning, innermost first: [stack]
    holds the segments kept so far.  [..] removes a segment, is kept at the
    front of a relative path and is dropped at the root. *)
Fixpoint clean_segs (rooted : bool) (stack : list string) (segs : list string) : list string :=
  match segs with
  | [] => stack
  | w :: ws =>
      if (w =? "")%string || (w =? ".")%string then clean_segs rooted stack ws
      else if (w =? "..")%string then
        match stack with
        | [] => if rooted then clean_segs rooted [] ws else clean_segs rooted [w] ws
        | t :: st => if (t =? "..")%string then clean_segs rooted (w :: stack) ws
                     else clean_segs rooted st ws
        end
      else clean_segs rooted (w :: stack) ws
  end.

Definition is_rooted (p : string) : bool := String.prefix "/" p.
Definition path_segs (p : string) : list string := rev (clean_segs (is_rooted p) [] (split "/" p)).

(** [path.Clean], [filepath.Clean]. *)
Definition path_clean (p : string) : string :=
  let segs := path_segs p in
  if is_rooted p then "/" +:+ join "/" segs
  else match segs with [] => "." | _ => join "/" segs end.

(** [filepath.Base]: trailing slashes stripped, then the part after the last one. *)
Definition path_base (p : string) : string :=
  match p with
  | EmptyString => "."
  | _ =>
      let q := str_rev (trim_left_chr "/" (str_rev p)) in
      match q with
      | EmptyString => "/"
      | _ => match last_index_chr "/" q with
             | Some i => str_drop (S i) q
             | None => q
             end
      end
  end.

(** [filepath.Dir]: everything up to the last slash, cleaned. *)
Definition path_dir (p : string) : string :=
  match last_index_chr "/" p with
  | Some i => path_clean (str_take (S i) p)
  | None => "."
  end.

(** * Lemmas *)

(** ** Appending *)

Lemma app_cons (c : ascii) (s t : string) : (String c s +:+ t) = String c (s +:+ t).
Proof. reflexivity. Qed.

Lemma app_nil_r (s : string) : (s +:+ EmptyString) = s.
Proof. induction s as [|c s IH]; [done|]. by rewrite app_cons, IH. Qed.

Lemma app_assoc_s (s t u : string) : ((s +:+ t) +:+ u) = (s +:+ (t +:+ u)).
Proof. induction s as [|c s IH]; [done|]. by rewrite !app_cons, IH. Qed.

Lemma length_app_s (s t : string) :
  String.length (s +:+ t) = (String.length s + String.length t)%nat.
Proof. induction s as [|c s IH]; [done|]. by rewrite app_cons; simpl; rewrite IH. Qed.

Lemma prefix_spec (p s : string) : String.prefix p s = true ↔ ∃ r, s = p +:+ r.
Proof.
  revert s. induction p as [|c p IH]; intros s.
  - split; [by exists s | intros _; by destruct s].
  - destruct s as [|d s]; simpl.
    + split; [done|]. by intros [r Hr].
    + destruct (ascii_dec c d) as [->|Hne].
      * rewrite IH. split; intros [r Hr]; exists r; simplify_eq; [done|].
        rewrite app_cons in Hr. by simplify_eq.
      * split; [done|]. intros [r Hr]. rewrite app_cons in Hr. by simplify_eq.
Qed.

Lemma prefix_empty (s : string) : String.prefix EmptyString s = true.
Proof. by destruct s. Qed.

Lemma prefix_app (p r : string) : String.prefix p (p +:+ r) = true.
Proof. apply prefix_spec. by exists r. Qed.

Lemma str_drop_app (p r : string) : str_drop (String.length p) (p +:+ r) = r.
Proof. induction p as [|c p IH]; [by destruct r|]. apply IH. Qed.

(** ** Character classes *)

Lemma str_all_app (p : ascii → bool) (s t : string) :
  str_all p (s +:+ t) = str_all p s && str_all p t.
Proof. induction s as [|c s IH]; [done|]. rewrite app_cons. simpl. by rewrite IH, andb_assoc. Qed.

Lemma str_all_impl (p q : ascii → bool) (s : string) :
  (∀ c, p c = true → q c = true) → str_all p s = true → str_all q s = true.
Proof.
  intros Hpq. induction s as [|c s IH]; [done|]. simpl. intros H. bool_hyps.
  by rewrite Hpq, IH.
Qed.

Lemma str_all_app_inv (p : ascii → bool) (s t : string) :
  str_all p (s +:+ t) = true → str_all p s = true ∧ str_all p t = true.
Proof. rewrite str_all_app. apply andb_prop. Qed.

Lemma str_rev_app_all (p : ascii → bool) (s acc : string) :
  str_all p (str_rev_app s acc) = str_all p s && str_all p acc.
Proof.
  revert acc. induction s as [|c s IH]; intros acc; [done|]. simpl. rewrite IH. simpl.
  destruct (p c), (str_all p s); done.
Qed.

Lemma str_rev_all (p : ascii → bool) (s : string) : str_all p (str_rev s) = str_all p s.
Proof. unfold str_rev. rewrite str_rev_app_all. simpl. apply andb_true_r. Qed.

(** Decision over the 256 bytes, for inclusions between character classes. *)
Definition all_bytes : list ascii := map ascii_of_nat (seq 0 256).

Lemma all_bytes_in (c : ascii) : In c all_bytes.
Proof.
  apply in_map_iff. exists (nat_of_ascii c). split; [apply ascii_nat_embedding|].
  apply in_seq. pose proof (nat_ascii_bounded c). lia.
Qed.

Definition cls_incl (p q : ascii → bool) : bool := forallb (λ c, implb (p c) (q c)) all_bytes.

Lemma cls_incl_spec (p q : ascii → bool) :
  cls_incl p q = true → ∀ c, p c = true → q c = true.
Proof.
  unfold cls_incl. rewrite forallb_forall. intros H c Hp.
  specialize (H c (all_bytes_in c)). by rewrite Hp in H.
Qed.

(** ** Splitting and joining *)

Definition no_chr (c : ascii) (s : string) : bool := str_all (λ d, negb (Ascii.eqb d c)) s.

Lemma split_nonempty (c : ascii) (s : string) : split c s ≠ [].
Proof. destruct s as [|d s]; simpl; repeat case_goal; discriminate. Qed.

Lemma split_no_sep (c : ascii) (s : string) : Forall (λ w, no_chr c w = true) (split c s).
Proof.
  induction s as [|d s IH]; simpl; [by repeat constructor|].
  destruct (Ascii.eqb d c) eqn:E; [by constructor|].
  destruct (split c s) as [|w ws]; [constructor; [unfold no_chr; simpl; by rewrite E|done]|].
  inversion IH; subst. constructor; [|done]. unfold no_chr in *; simpl. by rewrite E.
Qed.

Lemma split_no_chr (c : ascii) (s : string) : no_chr c s = true → split c s = [s].
Proof.
  induction s as [|d s IH]; [done|]. unfold no_chr in *. simpl. intros H. bool_hyps.
  by rewrite H, IH.
Qed.

Lemma split_app_sep (c : ascii) (s t : string) :
  split c (s +:+ String c t) = (split c s ++ split c t)%list.
Proof.
  induction s as [|d s IH]; simpl.
  - change (EmptyString +:+ String c t) with (String c t). simpl.
    by rewrite Ascii.eqb_refl.
  - rewrite IH. destruct (Ascii.eqb d c); [done|].
    destruct (split c s) as [|w ws] eqn:E; [by destruct (split_nonempty c s)|done].
Qed.

Lemma join_cons (sep w : string) (ws : list string) :
  ws ≠ [] → join sep (w :: ws) = w +:+ sep +:+ join sep ws.
Proof. by destruct ws. Qed.

Lemma join_split (c : ascii) (s : string) : join (String c EmptyString) (split c s) = s.
Proof.
  induction s as [|d s IH]; [done|]. simpl.
  destruct (split c s) as [|w ws] eqn:E; [by destruct (split_nonempty c s)|].
  destruct (Ascii.eqb d c) eqn:Ed.
  - apply Ascii.eqb_eq in Ed as ->. rewrite join_cons by done. by rewrite IH.
  - destruct ws as [|w' ws]; simpl in *; [by subst|]. by rewrite <- IH.
Qed.

Lemma split_join (c : ascii) (l : list string) :
  l ≠ [] → Forall (λ w, no_chr c w = true) l → split c (join (String c EmptyString) l) = l.
Proof.
  induction l as [|w l IH]; [done|]. intros _ Hl. inversion Hl; subst.
  destruct l as [|w' l]; [by apply split_no_chr|].
  rewrite join_cons by done.
  change (w +:+ String c EmptyString +:+ join (String c EmptyString) (w' :: l))
    with (w +:+ String c (join (String c EmptyString) (w' :: l))).
  rewrite split_app_sep, split_no_chr by done. by rewrite IH.
Qed.

(** ** [path.Clean] *)

(** A segment that survives cleaning of a rooted path. *)
Definition plain_seg (w : string) : bool :=
  negb (w =? "")%string && negb (w =? ".")%string && negb (w =? "..")%string && no_chr "/" w.

Lemma clean_segs_plain (segs stack : list string) :
  Forall (λ w, no_chr "/" w = true) segs → Forall (λ w, plain_seg w = true) stack →
  Forall (λ w, plain_seg w = true) (clean_segs true stack segs).
Proof.
  revert stack. induction segs as [|w ws IH]; intros stack Hs Hst; [done|].
  inversion Hs as [|? ? Hw Hws]; subst. simpl.
  destruct ((w =? "")%string || (w =? ".")%string) eqn:E1; [by apply IH|].
  apply orb_false_iff in E1 as [E1 E1'].
  destruct ((w =? "..")%string) eqn:E2.
  - destruct stack as [|t st]; [by apply IH|]. inversion Hst as [|? ? Ht Hst']; subst.
    unfold plain_seg in Ht. destruct ((t =? "..")%string); [by rewrite !andb_false_r in Ht|].
    by apply IH.
  - apply IH; [done|]. constructor; [|done]. unfold plain_seg. by rewrite E1, E1', E2, Hw.
Qed.

Lemma path_segs_plain (p : string) :
  is_rooted p = true → Forall (λ w, plain_seg w = true) (path_segs p).
Proof.
  intros H. unfold path_segs. rewrite H. apply Forall_rev.
  apply clean_segs_plain; [apply split_no_sep|constructor].
Qed.

Lemma plain_seg_no_slash (l : list string) :
  Forall (λ w, plain_seg w = true) l → Forall (λ w, no_chr "/" w = true) l.
Proof.
  intros Hl. apply (Forall_impl _ _ _ Hl). unfold plain_seg. intros w H. by bool_hyps.
Qed.

Lemma is_rooted_cons (s : string) : is_rooted (String "/" s) = true.
Proof. by destruct s. Qed.

Lemma path_clean_rooted (p : string) :
  is_rooted p = true → path_clean p = String "/" (join "/" (path_segs p)).
Proof. unfold path_clean. by intros ->. Qed.

(** The segments of a rooted path can be read off the cleaned string. *)
Lemma split_path_clean (p : string) :
  is_rooted p = true → path_segs p ≠ [] →
  split "/" (path_clean p) = EmptyString :: path_segs p.
Proof.
  intros H Hne. rewrite path_clean_rooted by done. simpl.
  rewrite split_join; [done|done|]. by apply plain_seg_no_slash, path_segs_plain.
Qed.

Lemma clean_segs_id (rooted : bool) (l stack : list string) :
  Forall (λ w, plain_seg w = true) l → clean_segs rooted stack l = (rev l ++ stack)%list.
Proof.
  revert stack. induction l as [|w l IH]; intros stack H; [done|].
  inversion H as [|? ? Hw Hl]; subst. simpl. unfold plain_seg in Hw. bool_hyps.
  repeat match goal with H : (_ =? _)%string = _ |- _ => rewrite H end.
  repeat match goal with
  | H : ?w ≠ ?x |- context [(?w =? ?x)%string] => rewrite (proj2 (String.eqb_neq w x) H)
  end. simpl. rewrite IH by done. by rewrite <- app_assoc.
Qed.

(** Cleaning is idempotent on rooted paths. *)
Lemma path_clean_idem (p : string) :
  is_rooted p = true → path_clean (path_clean p) = path_clean p.
Proof.
  intros H. pose proof (path_segs_plain p H) as Hpl.
  assert (Hr : is_rooted (path_clean p) = true) by (by rewrite path_clean_rooted, is_rooted_cons).
  assert (Hs : path_segs (path_clean p) = path_segs p).
  { destruct (decide (path_segs p = [])) as [E|E].
    - rewrite path_clean_rooted by done. by rewrite E.
    - unfold path_segs at 1. rewrite Hr, split_path_clean by done. simpl.
      rewrite clean_segs_id by done. by rewrite List.app_nil_r, rev_involutive. }
  by rewrite path_clean_rooted, Hs, <- path_clean_rooted.
Qed.

(** Segments kept by cleaning, rooted or not, are non-empty and hold no slash. *)
Definition named_seg (w : string) : bool := negb (w =? "")%string && no_chr "/" w.

Lemma clean_segs_named (rooted : bool) (segs stack : list string) :
  Forall (λ w, no_chr "/" w = true) segs → Forall (λ w, named_seg w = true) stack →
  Forall (λ w, named_seg w = true) (clean_segs rooted stack segs).
Proof.
  revert stack. induction segs as [|w ws IH]; intros stack Hs Hst; [done|].
  inversion Hs as [|? ? Hw Hws]; subst.
  assert (Hn : w ≠ "" → named_seg w = true).
  { intros Hne. unfold named_seg. rewrite Hw. by apply String.eqb_neq in Hne as ->. }
  simpl. repeat case_goal; bool_hyps; subst; apply IH; auto using Forall_nil_2.
  all: try (constructor; [apply Hn|]; done); by inversion Hst.
Qed.

Lemma path_segs_named (p : string) : Forall (λ w, named_seg w = true) (path_segs p).
Proof.
  unfold path_segs. apply Forall_rev, clean_segs_named; [apply split_no_sep|constructor].
Qed.

(** Cleaning a path that is not rooted does not make it rooted. *)
Lemma path_clean_unrooted (p : string) :
  is_rooted p = false → is_rooted (path_clean p) = false ∧ path_clean p ≠ "".
Proof.
  intros H. unfold path_clean. rewrite H. pose proof (path_segs_named p) as Hs.
  destruct (path_segs p) as [|w ws]; [done|]. inversion Hs as [|? ? Hw _]; subst.
  unfold named_seg, no_chr in Hw. destruct w as [|c w]; [done|]. simpl in Hw. bool_hyps.
  assert (∀ t, is_rooted (String c t) = false ∧ String c t ≠ "") as Hc.
  { intros t. split; [|done]. unfold is_rooted. cbn [String.prefix].
    by destruct (ascii_dec "/" c) as [<-|]. }
  destruct ws; cbn [join]; rewrite ?app_cons; apply Hc.
Qed.

(** A cleaned path [p] that starts with the cleaned [dir] followed by a slash
    has the segments of [dir] as a proper prefix of its own. *)
Lemma clean_prefix_segs (dir p : string) :
  is_rooted p = true →
  String.prefix (path_clean dir +:+ "/") (path_clean p) = true →
  is_rooted dir = true ∧ ∃ rest, rest ≠ [] ∧ path_segs p = (path_segs dir ++ rest)%list.
Proof.
  intros Hp. rewrite prefix_spec. intros [r Hr].
  rewrite app_assoc_s in Hr. change ("/" +:+ r) with (String "/" r) in Hr.
  rewrite path_clean_rooted in Hr by done.
  destruct (is_rooted dir) eqn:Hd.
  2: { exfalso. destruct (path_clean_unrooted dir Hd) as [Hu Hne].
       destruct (path_clean dir) as [|c j]; [done|]. rewrite app_cons in Hr. simplify_eq.
       by rewrite is_rooted_cons in Hu. }
  split; [done|]. rewrite path_clean_rooted, app_cons in Hr by done. injection Hr as Hr.
  pose proof (plain_seg_no_slash _ (path_segs_plain p Hp)) as Hpp.
  pose proof (plain_seg_no_slash _ (path_segs_plain dir Hd)) as Hdp.
  assert (Hpne : path_segs p ≠ []).
  { intros E. rewrite E in Hr. by destruct (join "/" (path_segs dir)). }
  apply (f_equal (split "/")) in Hr. rewrite split_app_sep, split_join in Hr by done.
  destruct (decide (path_segs dir = [])) as [E|E].
  - exists (path_segs p). by rewrite E.
  - rewrite split_join in Hr by done. exists (split "/" r). split; [apply split_nonempty|done].
Qed.

Lemma path_clean_inj (p q : string) :
  is_rooted p = true → path_clean p = path_clean q →
  is_rooted q = true ∧ path_segs p = path_segs q.
Proof.
  intros Hp Heq.
  assert (Hq : is_rooted q = true).
  { destruct (is_rooted q) eqn:E; [done|]. destruct (path_clean_unrooted q E) as [Hu _].
    by rewrite <- Heq, path_clean_rooted, is_rooted_cons in Hu. }
  split; [done|]. rewrite !path_clean_rooted in Heq by done. injection Heq as Heq.
  pose proof (plain_seg_no_slash _ (path_segs_plain p Hp)).
  pose proof (plain_seg_no_slash _ (path_segs_plain q Hq)).
  pose proof (path_segs_named p) as Np. pose proof (path_segs_named q) as Nq.
  assert (Hne : ∀ w ws, Forall (λ w, named_seg w = true) (w :: ws) → join "/" (w :: ws) ≠ "").
  { intros w ws Hw. inversion Hw; subst. destruct w; [done|]. by destruct ws. }
  destruct (path_segs p) as [|a l] eqn:El, (path_segs q) as [|b m] eqn:Em; [done|..].
  - by destruct (Hne b m Nq).
  - by destruct (Hne a l Np).
  - apply (f_equal (split "/")) in Heq. by rewrite !split_join in Heq.
Qed.

(** [p] is [dir] or inside it, on cleaned paths. *)
Lemma under_segs (dir p : string) :
  is_rooted p = true →
  (path_clean p =? path_clean dir)%string || has_prefix (path_clean p) (path_clean dir +:+ "/") = true →
  is_rooted dir = true ∧ path_segs dir `prefix_of` path_segs p.
Proof.
  intros Hp H. apply orb_prop in H as [H|H].
  - apply String.eqb_eq in H. destruct (path_clean_inj _ _ Hp H) as [Hd ->]. done.
  - destruct (clean_prefix_segs dir p Hp H) as (Hd & rest & _ & ->).
    split; [done|]. by exists rest.
Qed.

(** ** Reversing and trimming *)

Lemma str_rev_app_spec (s acc : string) : str_rev_app s acc = str_rev s +:+ acc.
Proof.
  unfold str_rev. revert acc. induction s as [|c s IH]; intros acc; [done|]. simpl.
  rewrite IH, (IH (String c EmptyString)). by rewrite app_assoc_s.
Qed.

Lemma str_rev_cons (c : ascii) (s : string) : str_rev (String c s) = str_rev s +:+ String c EmptyString.
Proof. unfold str_rev at 1. simpl. apply str_rev_app_spec. Qed.

Lemma str_rev_append (s t : string) : str_rev (s +:+ t) = str_rev t +:+ str_rev s.
Proof.
  induction s as [|c s IH]; [by rewrite app_nil_r|].
  rewrite app_cons, !str_rev_cons, IH. by rewrite app_assoc_s.
Qed.

Lemma str_rev_involutive (s : string) : str_rev (str_rev s) = s.
Proof. induction s as [|c s IH]; [done|]. rewrite str_rev_cons, str_rev_append, IH. done. Qed.

Lemma trim_left_chr_no (c : ascii) (s : string) :
  no_chr c (str_take 1 s) = true → trim_left_chr c s = s.
Proof.
  destruct s as [|d s]; [done|]. unfold no_chr. simpl. rewrite andb_true_r.
  intros H. bool_hyps. by rewrite Ascii.eqb_sym, H.
Qed.

Lemma named_seg_rev (w : string) :
  named_seg w = true → ∃ c t, str_rev w = String c t ∧ Ascii.eqb c "/" = false.
Proof.
  unfold named_seg, no_chr. intros H. bool_hyps. rewrite <- str_rev_all in H0.
  destruct (str_rev w) as [|c t] eqn:E.
  - apply (f_equal str_rev) in E. by rewrite str_rev_involutive in E.
  - simpl in H0. bool_hyps. by exists c, t.
Qed.

Lemma join_rev_last (l : list string) :
  Forall (λ w, named_seg w = true) l → l ≠ [] →
  ∃ c t, str_rev (join "/" l) = String c t ∧ Ascii.eqb c "/" = false.
Proof.
  induction l as [|w l IH]; [done|]. intros Hl _. inversion Hl as [|? ? Hw Hl']; subst.
  destruct l as [|w' l]; [by apply named_seg_rev|].
  destruct (IH Hl') as (c & t & Hr & Hc); [done|].
  rewrite join_cons, !str_rev_append, Hr by done. 
  exists c. eexists. split; [reflexivity|done].
Qed.

(** [strings.Split(strings.Trim(path.Clean(p), "/"), "/")] are the segments of
    a rooted path other than the root. *)
Lemma trimmed_segs (p : string) :
  is_rooted p = true →
  split "/" (trim_chr "/" (path_clean p)) = match path_segs p with [] => [""] | l => l end.
Proof.
  intros Hp. pose proof (path_segs_named p) as Hn.
  rewrite path_clean_rooted by done. unfold trim_chr. simpl.
  destruct (path_segs p) as [|w ws] eqn:E; [done|].
  assert (Hfirst : trim_left_chr "/" (join "/" (w :: ws)) = join "/" (w :: ws)).
  { apply trim_left_chr_no. inversion Hn as [|? ? Hw _]; subst. unfold named_seg in Hw.
    destruct w as [|c w]; [done|]. unfold no_chr in *. simpl in Hw. bool_hyps.
    destruct ws; cbn [join]; rewrite ?app_cons; simpl; by rewrite H. }
  rewrite Hfirst. destruct (join_rev_last (w :: ws) Hn) as (c & t & Hr & Hc); [done|].
  rewrite trim_left_chr_no.
  - rewrite str_rev_involutive, split_join; [done|done|].
    rewrite <- E. apply plain_seg_no_slash. by apply path_segs_plain.
  - rewrite Hr. unfold no_chr. simpl. by rewrite Hc.
Qed.

(** ** Searching *)

Lemma last_index_none (c : ascii) (s : string) : no_chr c s = true → last_index_chr c s = None.
Proof.
  unfold no_chr. induction s as [|d s IH]; [done|]. simpl. intros H. bool_hyps.
  rewrite IH by done. by rewrite Ascii.eqb_sym, H.
Qed.

Lemma last_index_app (c : ascii) (s t : string) :
  no_chr c t = true → last_index_chr c (s +:+ String c t) = Some (String.length s).
Proof.
  intros Ht. induction s as [|d s IH].
  - change (EmptyString +:+ String c t) with (String c t). simpl.
    by rewrite last_index_none, Ascii.eqb_refl.
  - rewrite app_cons. simpl. by rewrite IH.
Qed.

Lemma index_chr_app (c : ascii) (s t : string) :
  no_chr c s = true → index_chr c (s +:+ String c t) = Some (String.length s).
Proof.
  unfold no_chr. induction s as [|d s IH].
  - intros _. change (EmptyString +:+ String c t) with (String c t). simpl. by rewrite Ascii.eqb_refl.
  - rewrite app_cons. simpl. intros H. bool_hyps. by rewrite Ascii.eqb_sym, H, IH.
Qed.

Lemma index_chr_none (c : ascii) (s : string) : no_chr c s = true → index_chr c s = None.
Proof.
  unfold no_chr. induction s as [|d s IH]; [done|]. simpl. intros H. bool_hyps.
  by rewrite Ascii.eqb_sym, H, IH.
Qed.

Lemma str_take_app (s t : string) : str_take (String.length s) (s +:+ t) = s.
Proof. induction s as [|c s IH]; [by destruct t|]. rewrite app_cons. simpl. by rewrite IH. Qed.

Lemma path_segs_clean (p : string) : is_rooted p = true → path_segs (path_clean p) = path_segs p.
Proof. intros Hp. by destruct (path_clean_inj p (path_clean p) Hp (eq_sym (path_clean_idem p Hp))). Qed.
