(* ===== verification/Paths.v ===== *)
(** Where a path lies: [inside] and [below] a directory, by the segments of the cleaned
    path, and what joining, taking the directory and appending to a path do to it.  The
    vocabulary of the theorems about the files that the agent touches. *)
From S2P Require Import Prelude GoStr.
Local Open Scope Z_scope.
Local Open Scope panel_scope.

Set Default Proof Using "Type".

(** [p] is [dir] or lies in it; [p] lies in it. *)
Definition inside (dir p : string) : Prop := is_rooted p = true ∧ path_segs dir `prefix_of` path_segs p.
Definition below (dir p : string) : Prop := is_rooted p = true ∧ ∃ rest, rest ≠ [] ∧ path_segs p = path_segs dir ++ rest.

Lemma below_inside (dir p : string) : below dir p → inside dir p.
Proof. intros (H & rest & _ & Hs). split; [done|]. by exists rest. Qed.
Lemma inside_below (d e p : string) : below d e → inside e p → below d p.
Proof.
  intros (_ & rest & Hr & He) [Hp (more & Hm)]. split; [done|]. exists (rest ++ more).
  split; [by destruct rest|]. by rewrite Hm, He, List.app_assoc.
Qed.
Lemma below_below (d e p : string) : inside d e → below e p → below d p.
Proof.
  intros [_ (more & He)] (Hp & rest & Hr & Hs). split; [done|]. exists (more ++ rest).
  split; [destruct rest; [done|]; by destruct more|]. by rewrite Hs, He, List.app_assoc.
Qed.
Lemma inside_refl (d : string) : is_rooted d = true → inside d d.
Proof. by split. Qed.
Lemma inside_trans (d e p : string) : inside d e → inside e p → inside d p.
Proof. intros [_ ?] [? ?]. split; [done|]. by etrans. Qed.
#[export] Hint Resolve below_inside inside_refl : paths.

(** ** Cleaning without dot-dot *)

(** A segment that cleaning keeps. *)
Definition kept (w : string) : bool := negb ((w =? "")%string || (w =? ".")%string).
Definition no_up (segs : list string) : Prop := Forall (λ w, w ≠ "..") segs.

Lemma clean_segs_app (rooted : bool) (st l m : list string) : clean_segs rooted st (l ++ m) = clean_segs rooted (clean_segs rooted st l) m.
Proof.
  revert st. induction l as [|w l IH]; intros st; [done|]. cbn.
  case_goal; [apply IH|]. case_goal; [|apply IH]. destruct st; [case_goal; apply IH|]. case_goal; apply IH.
Qed.
Lemma clean_segs_down (rooted : bool) (st l : list string) :
  no_up l → clean_segs rooted st l = rev (List.filter kept l) ++ st.
Proof.
  revert st. induction l as [|w l IH]; intros st H; [done|]. apply Forall_cons in H as [Hw H].
  cbn. unfold kept at 1. case_goal; cbn [negb]; [by apply IH|].
  rewrite (proj2 (String.eqb_neq w "..")) by done. rewrite IH by done. cbn. by rewrite <- List.app_assoc.
Qed.
Lemma path_segs_down (p : string) : no_up (split "/" p) → path_segs p = List.filter kept (split "/" p).
Proof. intros H. unfold path_segs. rewrite clean_segs_down by done. by rewrite List.app_nil_r, rev_involutive. Qed.

Lemma prefix_empty_dots (w s t : string) : s = w +:+ ".." +:+ t → contains s ".." = true.
Proof.
  intros ->. induction w as [|c w IH]; [change ("" +:+ ".." +:+ t) with (".." +:+ t); by destruct t|].
  rewrite app_cons. cbn [contains]. rewrite IH. apply orb_true_r.
Qed.
Lemma split_in_contains (c : ascii) (w s : string) : w ∈ split c s → ∃ a b, s = a +:+ w +:+ b.
Proof.
  revert w. induction s as [|d s IH]; intros w H.
  - apply list_elem_of_singleton in H as ->. by exists "", "".
  - cbn in H. destruct (split c s) as [|x xs] eqn:E; [by destruct (split_nonempty c s)|].
    assert (K : ∀ y, y ∈ x :: xs → ∃ a b, String d s = a +:+ y +:+ b).
    { intros y (a & b & ->)%IH. by exists (String d a), b. }
    case_hyp H.
    + apply elem_of_cons in H as [->|H]; [by exists "", (String d s)|by apply K].
    + apply elem_of_cons in H as [->|H]; [|apply K; set_solver].
      pose proof (join_split c s) as J. rewrite E in J. exists "". rewrite <- J. destruct xs as [|y ys].
      * exists "". cbn [join]. by rewrite app_nil_r.
      * exists (String c "" +:+ join (String c "") (y :: ys)). by rewrite join_cons.
Qed.
Lemma no_up_contains (p : string) : contains p ".." = false → no_up (split "/" p).
Proof.
  intros H. apply Forall_forall. intros w Hw ->. apply split_in_contains in Hw as (a & b & Hp).
  by rewrite (prefix_empty_dots _ _ _ Hp) in H.
Qed.
Lemma no_up_segs (p : string) : is_rooted p = true → no_up (path_segs p).
Proof.
  intros H. eapply Forall_impl; [by apply path_segs_plain|]. intros w Hw ->. by vm_compute in Hw.
Qed.

(** ** Joining *)

Lemma is_rooted_app (p q : string) : is_rooted p = true → is_rooted (p +:+ q) = true.
Proof. unfold is_rooted. intros (r & ->)%prefix_spec. rewrite app_assoc_s. apply prefix_app. Qed.
Lemma path_segs_append (d b : string) :
  is_rooted d = true → path_segs (d +:+ "/" +:+ b) = rev (clean_segs true (rev (path_segs d)) (split "/" b)).
Proof.
  intros H. unfold path_segs. rewrite is_rooted_app, H by done. change (d +:+ "/" +:+ b) with (d +:+ String "/" b).
  by rewrite split_app_sep, clean_segs_app, rev_involutive.
Qed.
Lemma clean_rooted (p : string) : is_rooted p = true → is_rooted (path_clean p) = true.
Proof. intros H. by rewrite path_clean_rooted, is_rooted_cons. Qed.
Lemma inside_clean (d p : string) : inside d p → inside d (path_clean p).
Proof. intros [H Hp]. split; [by apply clean_rooted|]. by rewrite path_segs_clean. Qed.
Lemma below_clean (d p : string) : below d p → below d (path_clean p).
Proof. intros (H & Hp). split; [by apply clean_rooted|]. by rewrite path_segs_clean. Qed.
Lemma inside_append (d b : string) : is_rooted d = true → no_up (split "/" b) → inside d (d +:+ "/" +:+ b).
Proof.
  intros H Hb. split; [by apply is_rooted_app|]. rewrite path_segs_append, clean_segs_down by done.
  rewrite List.rev_app_distr, !rev_involutive. by eexists.
Qed.
Lemma below_append (d b : string) :
  is_rooted d = true → no_up (split "/" b) → existsb kept (split "/" b) = true → below d (d +:+ "/" +:+ b).
Proof.
  intros H Hb Hk. split; [by apply is_rooted_app|]. exists (List.filter kept (split "/" b)). split.
  - intros E. apply List.existsb_exists in Hk as (w & Hin & Hw). assert (Hf : In w (List.filter kept (split "/" b))) by by apply List.filter_In.
    by rewrite E in Hf.
  - rewrite path_segs_append, clean_segs_down by done. by rewrite List.rev_app_distr, !rev_involutive.
Qed.
(** A name that is a segment by itself. *)
Lemma plain_seg_split (w : string) : plain_seg w = true → split "/" w = [w] ∧ w ≠ ".." ∧ kept w = true.
Proof.
  unfold plain_seg, kept. intros H. bool_hyps. split; [by apply split_no_chr|]. split; [by intros ->|].
  repeat match goal with H : ?w ≠ ?x |- context [(?w =? ?x)%string] => rewrite (proj2 (String.eqb_neq w x) H) end. done.
Qed.
Lemma below_name (d w : string) : is_rooted d = true → plain_seg w = true → below d (d +:+ "/" +:+ w).
Proof.
  intros H (Hs & Hu & Hk)%plain_seg_split. apply below_append; [done|..]; rewrite Hs; [by repeat constructor|]. cbn. by rewrite Hk.
Qed.

(** ** The last segment *)

Lemma split_append_last (c : ascii) (p q : string) (init : list string) (w : string) :
  no_chr c q = true → split c p = init ++ [w] → split c (p +:+ q) = init ++ [w +:+ q].
Proof.
  intros Hq. revert init w. induction p as [|d p IH]; intros init w H; cbn in H.
  - destruct init as [|x [|]]; simplify_eq/=. change ("" +:+ q) with q. by apply split_no_chr.
  - rewrite app_cons. cbn. destruct (split c p) as [|x xs] eqn:E; [by destruct (split_nonempty c p)|].
    destruct (exists_last (l := x :: xs)) as (i & l & Hl); [done|].
    rewrite (IH i l) by done. destruct (Ascii.eqb d c).
    + rewrite Hl in H. change ("" :: i ++ [l]) with (("" :: i) ++ [l]) in H.
      apply app_inj_tail in H as [<- <-]. done.
    + destruct i as [|y i]; cbn in *; simplify_eq.
      * destruct init as [|z [|]]; simplify_eq/=. done.
      * change (String d y :: i ++ [l]) with ((String d y :: i) ++ [l]) in H. apply app_inj_tail in H as [<- <-]. done.
Qed.
Lemma filter_snoc {A} (f : A → bool) (l : list A) (x : A) : List.filter f (l ++ [x]) = List.filter f l ++ (if f x then [x] else []).
Proof. rewrite List.filter_app. cbn. by destruct (f x). Qed.

(** What is appended to a path below a directory stays below it. *)
Lemma below_suffix (d p q : string) :
  below d p → contains p ".." = false → no_chr "/" q = true → (2 < String.length q)%nat → below d (p +:+ q).
Proof.
  intros (Hp & rest & Hrest & Hs) Hup Hq Hlen. split; [by apply is_rooted_app|].
  pose proof (no_up_contains p Hup) as Hn.
  destruct (exists_last (split_nonempty "/" p)) as (init & w & Hw).
  assert (Hlong : ∀ x, (String.length x ≤ 2)%nat → w +:+ q ≠ x).
  { intros x Hx E. apply (f_equal String.length) in E. rewrite length_app_s in E. lia. }
  assert (Hn' : no_up (split "/" (p +:+ q))).
  { rewrite (split_append_last _ _ _ _ _ Hq Hw). rewrite Hw in Hn. apply Forall_app in Hn as [Hn _].
    apply Forall_app. split; [done|]. repeat constructor. apply Hlong. cbn. lia. }
  assert (Hk : kept (w +:+ q) = true).
  { unfold kept. rewrite !(proj2 (String.eqb_neq _ _)); [done| |]; apply Hlong; cbn; lia. }
  rewrite path_segs_down in * by done. rewrite (split_append_last _ _ _ _ _ Hq Hw), filter_snoc, Hk.
  rewrite Hw, filter_snoc in Hs. destruct (kept w).
  - destruct (exists_last Hrest) as (rest' & y & ->). rewrite List.app_assoc in Hs. apply app_inj_tail in Hs as [-> _].
    exists (rest' ++ [w +:+ q]). split; [by destruct rest'|]. by rewrite List.app_assoc.
  - rewrite List.app_nil_r in Hs. rewrite Hs. exists (rest ++ [w +:+ q]). split; [by destruct rest|]. by rewrite List.app_assoc.
Qed.

(** ** The directory and the base *)

Lemma contains_intro (s sub x y : string) : s = x +:+ sub +:+ y → contains s sub = true.
Proof.
  intros ->. induction x as [|c x IH].
  - change (EmptyString +:+ sub +:+ y) with (sub +:+ y). pose proof (prefix_app sub y) as H.
    by destruct (sub +:+ y); cbn in *; rewrite H.
  - rewrite app_cons. cbn [contains]. rewrite IH. apply orb_true_r.
Qed.
Lemma contains_elim (s sub : string) : contains s sub = true → ∃ x y, s = x +:+ sub +:+ y.
Proof.
  induction s as [|c s IH]; cbn [contains]; intros H; apply orb_prop in H as [(r & Hr)%prefix_spec|H]; try done.
  - by exists "", r.
  - by exists "", r.
  - destruct (IH H) as (x & y & ->). by exists (String c x), y.
Qed.
Lemma contains_part (a b c sub : string) : contains (a +:+ b +:+ c) sub = false → contains b sub = false.
Proof.
  intros H. destruct (contains b sub) eqn:E; [|done]. apply contains_elim in E as (x & y & ->).
  rewrite (contains_intro _ sub (a +:+ x) (y +:+ c)) in H; [done|]. by rewrite !app_assoc_s.
Qed.
Lemma last_slash (p : string) : is_rooted p = true → ∃ q b, p = q +:+ String "/" b ∧ no_chr "/" b = true.
Proof.
  intros (r & ->)%prefix_spec. change ("/" +:+ r) with (String "/" r).
  assert (∀ r c, (∃ q b, String c r = q +:+ String "/" b ∧ no_chr "/" b = true) ∨ no_chr "/" (String c r) = true) as K.
  { clear. intros r. induction r as [|d r IH]; intros c.
    - unfold no_chr. cbn. destruct (Ascii.eqb c "/") eqn:E; [|by right]. apply Ascii.eqb_eq in E as ->. left. by exists "", "".
    - destruct (IH d) as [(q & b & Hq & Hb)|Hn]; [left; exists (String c q), b; by rewrite Hq|].
      destruct (Ascii.eqb c "/") eqn:E; [apply Ascii.eqb_eq in E as ->; left; by exists "", (String d r)|].
      right. unfold no_chr in *. cbn in *. by rewrite E. }
  destruct (K r "/"%char) as [?|Hn]; [done|]. by unfold no_chr in Hn.
Qed.
Lemma str_take_S (q : string) (c : ascii) (b : string) : str_take (S (String.length q)) (q +:+ String c b) = q +:+ String c "".
Proof. induction q as [|d q IH]; [by destruct b|]. rewrite !app_cons. cbn [String.length str_take]. by rewrite <- IH. Qed.
Lemma path_dir_inside (d p : string) : below d p → contains p ".." = false → inside d (path_dir p).
Proof.
  intros (Hp & rest & Hrest & Hs) Hup. destruct (last_slash p Hp) as (q & b & -> & Hb).
  unfold path_dir. rewrite last_index_app, str_take_S by done. apply inside_clean. split.
  - revert Hp. unfold is_rooted. destruct q as [|c q]; [done|]. rewrite !app_cons. cbn [String.prefix]. destruct (ascii_dec "/" c); [intros _; apply prefix_empty|done].
  - pose proof (no_up_contains _ Hup) as Hn. rewrite path_segs_down in Hs by done. rewrite split_app_sep in *.
    apply Forall_app in Hn as [Hn _].
    rewrite (path_segs_down (q +:+ String "/" "")); rewrite split_app_sep; [|apply Forall_app; split; [done|by repeat constructor]].
    rewrite List.filter_app in *. cbn [split List.filter kept]. rewrite List.app_nil_r.
    rewrite (split_no_chr _ b) in Hs by done. change [b] with ([] ++ [b]) in Hs. rewrite filter_snoc in Hs. destruct (kept b); cbn in Hs.
    + destruct (exists_last Hrest) as (rest' & y & ->). rewrite List.app_assoc in Hs. apply app_inj_tail in Hs as [-> _]. by eexists.
    + rewrite List.app_nil_r in Hs. rewrite Hs. by eexists.
Qed.
Lemma trim_left_chr_suffix (c : ascii) (s : string) : ∃ x, s = x +:+ trim_left_chr c s.
Proof.
  induction s as [|d s (x & Hx)]; [by exists ""|]. cbn. case_goal; [|by exists ""].
  exists (String d x). by rewrite app_cons, <- Hx.
Qed.
Lemma str_drop_suffix (n : nat) (s : string) : ∃ x, s = x +:+ str_drop n s.
Proof.
  revert s. induction n as [|n IH]; intros s; [by exists ""|]. destruct s as [|d s]; [by exists ""|].
  destruct (IH s) as (x & Hx). exists (String d x). cbn. by rewrite app_cons, <- Hx.
Qed.
Lemma path_base_no_up (p : string) : contains p ".." = false → no_up (split "/" (path_base p)).
Proof.
  intros H. unfold path_base. destruct p as [|c0 p0]; [by repeat constructor|]. set (p := String c0 p0) in *.
  destruct (trim_left_chr_suffix "/" (str_rev p)) as (x & Hx). set (q := str_rev (trim_left_chr "/" (str_rev p))).
  assert (Hq : p = q +:+ str_rev x) by (unfold q; by rewrite <- (str_rev_involutive p), Hx at 1; rewrite str_rev_append).
  assert (Hc : contains q ".." = false) by (apply (contains_part "" q (str_rev x)); change ("" +:+ q +:+ str_rev x) with (q +:+ str_rev x); by rewrite <- Hq).
  destruct q as [|c q]; [by repeat constructor|]. destruct (last_index_chr "/" (String c q)) as [i|]; [|by apply no_up_contains].
  apply no_up_contains. destruct (str_drop_suffix (S i) (String c q)) as (y & Hy).
  apply (contains_part y _ ""). by rewrite app_nil_r, <- Hy.
Qed.

(** ** Numbers in names *)

Lemma itoa_chars (n : Z) : str_all (λ c, is_digit c || Ascii.eqb c "-") (itoa n) = true.
Proof.
  assert (K : ∀ f m acc, str_all is_digit acc = true → str_all is_digit (print_pos f m acc) = true).
  { intros f. induction f as [|f IH]; intros m acc H; [done|]. cbn [print_pos].
    assert (Hd : str_all is_digit (String (byte (Z.to_nat (48 + m mod 10))) acc) = true).
    { cbn [str_all]. rewrite H, andb_true_r. pose proof (Z.mod_pos_bound m 10 eq_refl) as Hb.
      assert (m mod 10 ∈ seqZ 0 10) as Hin by (apply elem_of_seqZ; lia). revert Hin. generalize (m mod 10). clear.
      apply Forall_forall. by repeat (constructor; [reflexivity|]). }
    destruct (m <? 10); [done|by apply IH]. }
  assert (L : ∀ s, str_all is_digit s = true → str_all (λ c, is_digit c || Ascii.eqb c "-") s = true)
    by (intros s; apply str_all_impl; by intros c ->).
  unfold itoa. case_goal; [|by apply L, K]. cbn [str_all]. apply andb_true_intro. split; [done|by apply L, K].
Qed.
