(* ===== verification/Regex.v ===== *)
(** Anchored regular expressions, as Go's [regexp] matches the patterns of the
    sources, all of which have the form [^...$].  A declarative semantics, an
    executable matcher by derivatives, their equivalence, and the analysis the
    validators are proved with: which bytes the words of a pattern are made of. *)
From S2P Require Import Prelude GoStr.

Local Open Scope string_scope.
Local Open Scope nat_scope.

Inductive re : Type :=
  | Void
  | Eps
  | Cls (p : ascii → bool)
  | Cat (r1 r2 : re)
  | Alt (r1 r2 : re)
  | Star (r : re)
  | Rep (r : re) (lo hi : nat).

(** [r+], [r?] and a literal. *)
Definition Plus (r : re) : re := Cat r (Star r).
Definition Opt (r : re) : re := Alt Eps r.
Fixpoint Lit (s : string) : re :=
  match s with
  | EmptyString => Eps
  | String c s' => Cat (Cls (Ascii.eqb c)) (Lit s')
  end.

(** ** Semantics *)

(** [words P n s]: [s] is the concatenation of [n] words of [P]. *)
Inductive words (P : string → Prop) : nat → string → Prop :=
  | words_0 : words P 0 EmptyString
  | words_S n s t : P s → words P n t → words P (S n) (s +:+ t).

Fixpoint denote (r : re) (s : string) : Prop :=
  match r with
  | Void => False
  | Eps => s = EmptyString
  | Cls p => ∃ c, s = String c EmptyString ∧ p c = true
  | Cat r1 r2 => ∃ t u, s = t +:+ u ∧ denote r1 t ∧ denote r2 u
  | Alt r1 r2 => denote r1 s ∨ denote r2 s
  | Star r => ∃ n, words (denote r) n s
  | Rep r lo hi => ∃ n, lo ≤ n ≤ hi ∧ words (denote r) n s
  end.

(** ** Matcher *)

Fixpoint nullable (r : re) : bool :=
  match r with
  | Void | Cls _ => false
  | Eps | Star _ => true
  | Cat r1 r2 => nullable r1 && nullable r2
  | Alt r1 r2 => nullable r1 || nullable r2
  | Rep r lo hi => (lo <=? hi)%nat && ((lo =? 0)%nat || nullable r)
  end.

(** Constructors that keep derivatives small. *)
Definition cat' (r1 r2 : re) : re :=
  match r1, r2 with
  | Void, _ | _, Void => Void
  | Eps, _ => r2
  | _, Eps => r1
  | _, _ => Cat r1 r2
  end.
Definition alt' (r1 r2 : re) : re :=
  match r1, r2 with
  | Void, _ => r2
  | _, Void => r1
  | _, _ => Alt r1 r2
  end.

Fixpoint deriv (c : ascii) (r : re) : re :=
  match r with
  | Void | Eps => Void
  | Cls p => if p c then Eps else Void
  | Cat r1 r2 =>
      alt' (cat' (deriv c r1) r2) (if nullable r1 then deriv c r2 else Void)
  | Alt r1 r2 => alt' (deriv c r1) (deriv c r2)
  | Star r => cat' (deriv c r) (Star r)
  | Rep r lo hi =>
      match hi with
      | O => Void
      | S h => cat' (deriv c r) (Rep r (Nat.pred lo) h)
      end
  end.

Fixpoint re_match (r : re) (s : string) : bool :=
  match s with
  | EmptyString => nullable r
  | String c s' => re_match (deriv c r) s'
  end.

(** ** Correctness of the matcher *)

Lemma denote_cat' r1 r2 s : denote (cat' r1 r2) s ↔ denote (Cat r1 r2) s.
Proof.
  assert (H1 : denote (Cat Void r2) s ↔ denote Void s) by (simpl; naive_solver).
  assert (H2 : denote (Cat r1 Void) s ↔ denote Void s) by (simpl; naive_solver).
  assert (H3 : denote (Cat Eps r2) s ↔ denote r2 s).
  { simpl. split; [by intros (t & u & -> & -> & H)|]. intros H. by exists EmptyString, s. }
  assert (H4 : denote (Cat r1 Eps) s ↔ denote r1 s).
  { simpl. split.
    - intros (t & u & -> & H & ->). by rewrite app_nil_r.
    - intros H. exists s, EmptyString. by rewrite app_nil_r. }
  destruct r1, r2; simpl cat'; try done; first [by rewrite H1 | by rewrite H2 | by rewrite H3 | by rewrite H4].
Qed.

Lemma denote_alt' r1 r2 s : denote (alt' r1 r2) s ↔ denote (Alt r1 r2) s.
Proof. destruct r1, r2; simpl; naive_solver. Qed.

Lemma words_empty (P : string → Prop) n : P EmptyString → words P n EmptyString.
Proof.
  intros HP. induction n as [|n IH]; [constructor|].
  by apply (words_S P n EmptyString EmptyString).
Qed.

Lemma words_empty_inv (P : string → Prop) n : words P (S n) EmptyString → P EmptyString.
Proof.
  intros H. inversion H as [|n' s t Hs Ht Hn Happ]. destruct s; [by rewrite Happ|discriminate].
Qed.

Lemma nullable_spec r : nullable r = true ↔ denote r EmptyString.
Proof.
  induction r as [| | |r1 IH1 r2 IH2|r1 IH1 r2 IH2|r IH|r IH lo hi]; simpl.
  - done.
  - done.
  - split; [done|]. by intros (c & ? & _).
  - rewrite andb_true_iff, IH1, IH2. split.
    + intros [? ?]. by exists EmptyString, EmptyString.
    + intros (t & u & Heq & Ht & Hu). destruct t; [|done]. change (EmptyString +:+ u) with u in Heq. by subst u.
  - by rewrite orb_true_iff, IH1, IH2.
  - split; [|done]. intros _. exists 0. constructor.
  - rewrite andb_true_iff, orb_true_iff, Nat.leb_le, Nat.eqb_eq, IH. split.
    + intros [Hle [->|HP]]; [exists 0; split; [lia|constructor]|].
      exists lo. split; [lia|by apply words_empty].
    + intros (n & Hn & Hw). split; [lia|]. destruct n as [|n]; [left; lia|].
      right. by apply (words_empty_inv _ n).
Qed.

(** A word of [n] pieces that starts with [c] has a first non-empty piece; the
    empty pieces before it can be moved behind it. *)
Lemma words_cons (P : string → Prop) n c s :
  words P n (String c s) →
  ∃ t u, s = t +:+ u ∧ P (String c t) ∧ words P (Nat.pred n) u ∧ 0 < n.
Proof.
  remember (String c s) as w eqn:Hw. intros H. revert c s Hw.
  induction H as [|n a b Ha Hb IH]; intros c s Hw; [done|].
  destruct a as [|d a].
  - change (EmptyString +:+ b) with b in Hw. destruct (IH c s Hw) as (t & u & -> & HP & Hu & Hn).
    exists t, u. split_and!; try done; [|lia]. simpl.
    destruct n as [|n]; [lia|]. by apply (words_S P n EmptyString u).
  - rewrite app_cons in Hw. simplify_eq. exists a, b. split_and!; try done. lia.
Qed.

Lemma deriv_spec c r s : denote (deriv c r) s ↔ denote r (String c s).
Proof.
  revert s. induction r as [| |p|r1 IH1 r2 IH2|r1 IH1 r2 IH2|r IH|r IH lo hi]; intros s; simpl deriv.
  - done.
  - by simpl.
  - simpl. destruct (p c) eqn:E; simpl.
    + split; [intros ->; by exists c|]. by intros (d & ? & ?); simplify_eq.
    + split; [done|]. intros (d & ? & ?). simplify_eq. congruence.
  - rewrite denote_alt'. simpl. rewrite denote_cat'. simpl. split.
    + intros [(t & u & -> & Ht & Hu)|H].
      * exists (String c t), u. rewrite app_cons. split_and!; try done. by apply IH1.
      * destruct (nullable r1) eqn:E; [|done]. apply nullable_spec in E.
        exists EmptyString, (String c s). split_and!; try done. by apply IH2.
    + intros (t & u & Heq & Ht & Hu). destruct t as [|d t].
      * right. apply nullable_spec in Ht. rewrite Ht. apply IH2.
        change (EmptyString +:+ u) with u in Heq. by subst.
      * left. rewrite app_cons in Heq. simplify_eq. exists t, u. by rewrite IH1.
  - rewrite denote_alt'. simpl. by rewrite IH1, IH2.
  - rewrite denote_cat'. simpl. split.
    + intros (t & u & -> & Ht & n & Hu). exists (S n).
      change (String c (t +:+ u)) with (String c t +:+ u). constructor; [by apply IH|done].
    + intros (n & Hw). destruct (words_cons _ _ _ _ Hw) as (t & u & -> & Ht & Hu & _).
      exists t, u. split_and!; try done; [by apply IH|]. by exists (Nat.pred n).
  - destruct hi as [|h].
    + simpl. split; [done|]. intros (n & Hn & Hw).
      destruct (words_cons _ _ _ _ Hw) as (? & ? & _ & _ & _ & ?). lia.
    + rewrite denote_cat'. simpl. split.
      * intros (t & u & -> & Ht & n & Hn & Hu). exists (S n). split; [lia|].
        change (String c (t +:+ u)) with (String c t +:+ u). constructor; [by apply IH|done].
      * intros (n & Hn & Hw). destruct (words_cons _ _ _ _ Hw) as (t & u & -> & Ht & Hu & Hpos).
        exists t, u. split_and!; try done; [by apply IH|].
        exists (Nat.pred n). split; [lia|done].
Qed.

Lemma re_match_spec r s : re_match r s = true ↔ denote r s.
Proof.
  revert r. induction s as [|c s IH]; intros r; simpl; [apply nullable_spec|].
  by rewrite IH, deriv_spec.
Qed.

(** ** Bytes of the words of a pattern *)

(** Every byte a word of [r] can contain satisfies [q]. *)
Fixpoint re_within (q : ascii → bool) (r : re) : bool :=
  match r with
  | Void | Eps => true
  | Cls p => cls_incl p q
  | Cat r1 r2 | Alt r1 r2 => re_within q r1 && re_within q r2
  | Star r | Rep r _ _ => re_within q r
  end.

Lemma words_all (P : string → Prop) (q : ascii → bool) n s :
  (∀ t, P t → str_all q t = true) → words P n s → str_all q s = true.
Proof.
  intros HP H. induction H as [|n s t Hs Ht IH]; [done|].
  by rewrite str_all_app, HP, IH.
Qed.

Lemma re_within_sound q r s : re_within q r = true → denote r s → str_all q s = true.
Proof.
  revert s. induction r as [| |p|r1 IH1 r2 IH2|r1 IH1 r2 IH2|r IH|r IH lo hi];
    intros s; simpl; intros Hq Hd; bool_hyps.
  - done.
  - by subst.
  - destruct Hd as (c & -> & Hc). simpl. by rewrite (cls_incl_spec _ _ Hq).
  - destruct Hd as (t & u & -> & Ht & Hu). by rewrite str_all_app, IH1, IH2.
  - destruct Hd; auto.
  - destruct Hd as (n & Hw). eapply words_all; [|done]. auto.
  - destruct Hd as (n & _ & Hw). eapply words_all; [|done]. auto.
Qed.

Lemma re_match_within q r s :
  re_within q r = true → re_match r s = true → str_all q s = true.
Proof. rewrite re_match_spec. apply re_within_sound. Qed.

(** The first byte of a word, for patterns that do not match the empty word. *)
Fixpoint re_first (q : ascii → bool) (r : re) : bool :=
  match r with
  | Void | Eps => true
  | Cls p => cls_incl p q
  | Cat r1 r2 => re_first q r1 && (negb (nullable r1) || re_first q r2)
  | Alt r1 r2 => re_first q r1 && re_first q r2
  | Star r | Rep r _ _ => re_first q r
  end.

Lemma re_first_sound q r c s : re_first q r = true → denote r (String c s) → q c = true.
Proof.
  revert c s. induction r as [| |p|r1 IH1 r2 IH2|r1 IH1 r2 IH2|r IH|r IH lo hi];
    intros c s; simpl; intros Hq Hd; bool_hyps.
  - done.
  - done.
  - destruct Hd as (d & ? & Hc). simplify_eq. by apply (cls_incl_spec _ _ Hq).
  - destruct Hd as (t & u & Heq & Ht & Hu). destruct t as [|d t].
    + apply nullable_spec in Ht. change (EmptyString +:+ u) with u in Heq. subst u.
      match goal with H : _ ∨ _ |- _ => destruct H as [H|H] end; [bool_hyps; congruence|eauto].
    + rewrite app_cons in Heq. simplify_eq. eauto.
  - destruct Hd; eauto.
  - destruct Hd as (n & Hw). apply words_cons in Hw as (t & _ & _ & Ht & _). eauto.
  - destruct Hd as (n & _ & Hw). apply words_cons in Hw as (t & _ & _ & Ht & _). eauto.
Qed.

(** The longest word of a pattern, [None] when there is no bound. *)
Fixpoint re_maxlen (r : re) : option nat :=
  match r with
  | Void | Eps => Some 0
  | Cls _ => Some 1
  | Cat r1 r2 =>
      match re_maxlen r1, re_maxlen r2 with Some a, Some b => Some (a + b) | _, _ => None end
  | Alt r1 r2 =>
      match re_maxlen r1, re_maxlen r2 with Some a, Some b => Some (a `max` b) | _, _ => None end
  | Star _ => None
  | Rep r _ hi => match re_maxlen r with Some a => Some (a * hi) | None => None end
  end.

Lemma words_length (P : string → Prop) k n s :
  (∀ t, P t → String.length t ≤ k) → words P n s → String.length s ≤ k * n.
Proof.
  intros HP H. induction H as [|n s t Hs Ht IH]; [simpl; lia|].
  rewrite length_app_s. specialize (HP s Hs). lia.
Qed.

Lemma re_maxlen_sound r s k : re_maxlen r = Some k → denote r s → String.length s ≤ k.
Proof.
  revert s k. induction r as [| |p|r1 IH1 r2 IH2|r1 IH1 r2 IH2|r IH|r IH lo hi];
    intros s k; simpl; intros Hk Hd.
  - done.
  - subst; simpl; lia.
  - destruct Hd as (c & -> & _). simplify_eq. simpl. lia.
  - repeat case_hyp Hk; simplify_eq. destruct Hd as (t & u & -> & Ht & Hu).
    rewrite length_app_s. specialize (IH1 _ _ eq_refl Ht). specialize (IH2 _ _ eq_refl Hu). lia.
  - repeat case_hyp Hk; simplify_eq. destruct Hd as [Hd|Hd];
      [specialize (IH1 _ _ eq_refl Hd)|specialize (IH2 _ _ eq_refl Hd)]; lia.
  - done.
  - destruct (re_maxlen r) as [a|]; simplify_eq. destruct Hd as (m & Hm & Hw).
    pose proof (words_length (denote r) a m s (λ t Ht, IH t a eq_refl Ht) Hw). nia.
Qed.
