(* ===== verification/SiteInput.v ===== *)
(** [src/internal/siteinput/siteinput.go]: the validators of user-influenced
    values that reach root-run commands, nginx configuration and docker
    arguments.  Each validator is the function of the source, its regular
    expressions as patterns of [Regex]. *)
From S2P Require Import Prelude GoStr Regex.

Local Open Scope string_scope.
Local Open Scope Z_scope.
Local Open Scope panel_scope.

(** * Patterns *)

Definition alnum : re := Cls is_alnum.
Definition alnum_dash : re := Cls (λ c, is_alnum c || chr_in "-" c).
Definition digit : re := Cls is_digit.

(** One DNS label: [[a-zA-Z0-9]([a-zA-Z0-9\-]{0,61}[a-zA-Z0-9])?]. *)
Definition label : re := Cat alnum (Opt (Cat (Rep alnum_dash 0 61) alnum)).

Definition domainRe : re :=
  Cat (Opt (Lit "*.")) (Cat label (Plus (Cat (Lit ".") label))).
Definition rootPathRe : re :=
  Cat (Lit "/") (Star (Cls (λ c, is_alnum c || chr_in "._@+/-" c))).
Definition proxyPassRe : re :=
  Cat (Lit "http") (Cat (Opt (Lit "s")) (Cat (Lit "://")
    (Cat (Plus (Cls (λ c, is_alnum c || chr_in ".-" c)))
    (Cat (Opt (Cat (Lit ":") (Rep digit 1 5)))
         (Opt (Cat (Lit "/") (Star (Cls (λ c, is_alnum c || chr_in "._~/%+-" c))))))))).
Definition phpVersionRe : re := Cat digit (Cat (Lit ".") (Rep digit 1 2)).
Definition systemUserRe : re :=
  Cat (Cls (λ c, is_lower c || chr_in "_" c))
      (Rep (Cls (λ c, is_lower c || is_digit c || chr_in "_-" c)) 0 31).
Definition lowdig : re := Cls (λ c, is_lower c || is_digit c).
Definition dockerImageRe : re :=
  Cat (Plus lowdig)
   (Cat (Star (Cat (Cls (chr_in "._-/")) (Plus lowdig)))
        (Opt (Cat (Lit ":") (Cat (Cls (λ c, is_alnum c || chr_in "_" c))
                                 (Rep (Cls (λ c, is_alnum c || chr_in "_.-" c)) 0 127))))).
Definition dockerNameRe : re :=
  Cat alnum (Rep (Cls (λ c, is_alnum c || chr_in "_.-" c)) 0 63).
Definition dockerPortRe : re :=
  Cat (Opt (Lit "127.0.0.1:")) (Cat (Rep digit 1 5) (Cat (Lit ":") (Cat (Rep digit 1 5)
      (Opt (Cat (Lit "/") (Alt (Lit "tcp") (Lit "udp"))))))).
Definition dockerEnvRe : re :=
  Cat (Cls (λ c, is_lower c || is_upper c || chr_in "_" c))
   (Cat (Star (Cls (λ c, is_alnum c || chr_in "_" c)))
    (Cat (Lit "=") (Star (Cls (λ c, 31 <? code c))))).
Definition dockerTargetRe : re :=
  Cat (Lit "/") (Star (Cls (λ c, is_alnum c || chr_in "._/-" c))).
Definition dockerLanguageRe : re := Rep lowdig 1 16.
Definition dbHostRe : re := Rep (Cls (λ c, is_alnum c || chr_in "_.%-" c)) 1 255.

Definition dockerRestarts : list string := [""; "no"; "always"; "unless-stopped"; "on-failure"].
Definition reservedUsers : list string :=
  ["root"; "daemon"; "bin"; "sys"; "nobody"; "www-data"; "sigardapanel"].
Definition protectedTopDirs : list string :=
  ["etc"; "usr"; "bin"; "sbin"; "lib"; "lib32"; "lib64";
   "boot"; "dev"; "proc"; "sys"; "run"; "root"; "snap"].
Definition dbPrivileges : list string :=
  ["ALL"; "ALL PRIVILEGES"; "SELECT"; "INSERT"; "UPDATE"; "DELETE";
   "CREATE"; "DROP"; "ALTER"; "INDEX"; "REFERENCES";
   "CREATE TEMPORARY TABLES"; "LOCK TABLES"; "EXECUTE"; "CREATE VIEW";
   "SHOW VIEW"; "CREATE ROUTINE"; "ALTER ROUTINE"; "EVENT"; "TRIGGER"].

(** * Validators *)

Definition len (s : string) : Z := Z.of_nat (String.length s).

Definition Domain (s : string) : error :=
  if (253 <? len s) || negb (re_match domainRe s) then errorf "invalid domain" else nil_error.

Definition RootPath (s : string) : error :=
  if (512 <? len s) || negb (re_match rootPathRe s) then errorf "invalid root_path"
  else if existsb (λ seg, (seg =? "..")%string) (split "/" s) then errorf "invalid root_path"
  else nil_error.

Definition UnderRoot (dir p : string) : bool :=
  let '(dir, p) := (path_clean dir, path_clean p) in
  (p =? dir)%string || has_prefix p (dir +:+ "/").

(** Go's [-1] for a missing index. *)
Definition idx (o : option nat) : Z := match o with Some n => Z.of_nat n | None => -1 end.

Definition ProxyPassURL (s : string) : error :=
  if (512 <? len s) || negb (re_match proxyPassRe s)
  then errorf "invalid proxy_pass_url (expected http(s)://host[:port][/path])"
  else
    let i := idx (last_index_chr ":" s) in
    if idx (index_sub s "//") + 1 <? i then
      let rest := str_drop (Z.to_nat (i + 1)) s in
      let rest := match index_chr "/" rest with Some j => str_take j rest | None => rest end in
      let '(n, ok) := atoi rest in
      if ok && ((n <? 1) || (65535 <? n)) then errorf "invalid proxy_pass_url port" else nil_error
    else nil_error.

Definition PHPVersion (s : string) : error :=
  if negb (re_match phpVersionRe s) then errorf "invalid php_version" else nil_error.

Definition SystemUser (s : string) : error :=
  if negb (re_match systemUserRe s) || str_in reservedUsers s then errorf "invalid system_user"
  else nil_error.

(** The literal two-byte sequence backslash, n. *)
Definition bs_n : string := String BS "n".

Definition PHPIni (s : string) : error :=
  if contains_any s (String DQ (String "{" (String "}" (String ";" (String CR "")))))
  then errorf "invalid php_ini"
  else if contains (replace_all s bs_n "") (String BS "") then errorf "invalid php_ini"
  else if negb (str_all (λ r, negb ((code r <? 32) && negb (Ascii.eqb r LF))) s)
  then errorf "invalid php_ini"
  else nil_error.

Definition DockerImage (s : string) : error :=
  if (255 <? len s) || negb (re_match dockerImageRe s) then errorf "invalid docker_image"
  else nil_error.

Definition DockerName (s : string) : error :=
  if negb (re_match dockerNameRe s) then errorf "invalid docker_name" else nil_error.

Definition DockerRestart (s : string) : error :=
  if negb (str_in dockerRestarts s) then errorf "invalid docker_restart" else nil_error.

(** [strings.FieldsFunc] with the colon as the only separator. *)
Definition colon_fields (s : string) : list string :=
  List.filter (λ w, negb (w =? "")%string) (split ":" s).

Definition DockerPort (s : string) : error :=
  if negb (re_match dockerPortRe s) then errorf "invalid docker_ports"
  else if forallb (λ part, let '(n, ok) := atoi part in ok && negb ((n <? 1) || (65535 <? n)))
            (colon_fields (trim_prefix (fst (split2 "/" s)) "127.0.0.1:"))
  then nil_error else errorf "invalid docker_ports".

Definition DockerEnvLine (s : string) : error :=
  if (4096 <? len s) || negb (re_match dockerEnvRe s) then errorf "invalid docker_env entry"
  else nil_error.

Definition is_nil (e : error) : bool := match e with None => true | Some _ => false end.

Definition DockerVolume (v siteRoot : string) : error :=
  match split ":" v with
  | host :: target :: opts =>
      match opts with
      | [] | [_] =>
          if match opts with [m] => negb (m =? "ro")%string && negb (m =? "rw")%string | _ => false end
          then errorf "invalid docker_volume"
          else if negb (is_nil (RootPath host)) || negb (re_match dockerTargetRe target)
                  || (siteRoot =? "")%string || negb (UnderRoot siteRoot host)
          then errorf "docker_volume host path must be inside the site root"
          else nil_error
      | _ => errorf "invalid docker_volume"
      end
  | _ => errorf "invalid docker_volume"
  end.

Definition RootPathAllowed (p : string) : error :=
  try RootPath p ;;
  let segs := split "/" (trim_chr "/" (path_clean p)) in
  let head := hd "" segs in
  if (Z.of_nat (length segs) <? 2) || str_in protectedTopDirs head
     || ((head =? "home")%string && (Z.of_nat (length segs) <? 3))
  then errorf "root_path is not an allowed location" else nil_error.

Definition DockerLanguage (s : string) : error :=
  if negb (s =? "")%string && negb (re_match dockerLanguageRe s) then errorf "invalid docker_language"
  else nil_error.

(** [for _, x := range l { if x = TrimSpace(x); x != "" { if err := f(x) ... } } }] *)
Fixpoint each_trimmed (f : string → error) (l : list string) : error :=
  match l with
  | [] => nil_error
  | x :: xs =>
      let x := trim_space x in
      if (x =? "")%string then each_trimmed f xs else try f x ;; each_trimmed f xs
  end.

Definition unless_empty (f : string → error) (s : string) : error :=
  if (s =? "")%string then nil_error else f s.

Definition DockerOptions (image name ports env volumes restart language siteRoot : string) : error :=
  try unless_empty DockerImage image ;;
  try unless_empty DockerName name ;;
  try unless_empty DockerPort ports ;;
  try each_trimmed DockerEnvLine (split LF env) ;;
  try each_trimmed (λ v, DockerVolume v siteRoot) (split "," volumes) ;;
  try DockerRestart restart ;;
  DockerLanguage language.

(** A privilege as it is looked up: upper case, runs of white space as one blank. *)
Definition norm_privilege (p : string) : string := join " " (fields (to_upper p)).

(** [%q], for a string without bytes that Go would escape. *)
Definition quoted (s : string) : string := String DQ (s +:+ String DQ "").

Definition DBPrivileges (s : string) : error :=
  if (trim_space s =? "")%string || (256 <? len s) then errorf "invalid privileges"
  else match List.find (λ p, negb (str_in dbPrivileges (norm_privilege p))) (split "," s) with
       | Some p => errorf ("invalid privileges: " +:+ quoted (norm_privilege p) +:+ " is not allowed")
       | None => nil_error
       end.

Definition DBPassword (s : string) : error :=
  if (len s <? 8) || (128 <? len s) then errorf "password must be 8-128 characters"
  else if negb (str_all (λ r, negb ((code r <? 32) || (code r =? 127) || Ascii.eqb r BS)) s)
  then errorf "password contains unsupported characters (control characters and backslash are not allowed)"
  else nil_error.

Definition DBHost (s : string) : error :=
  if negb (re_match dbHostRe s) then errorf "invalid host_pattern" else nil_error.

(** * Bytes of accepted values *)

(** A byte that cannot end or split a word of the nginx configuration syntax:
    no control character, blank, quote, brace, semicolon, backslash, hash,
    dollar sign (variables) or backquote. *)
Definition nginx_plain (c : ascii) : bool :=
  (32 <? code c) && (code c <? 127) && negb (chr_in "'{};\#$`" c) && negb (Ascii.eqb c DQ).

Lemma or_not_match {s : string} {b : bool} {r : re} :
  b || negb (re_match r s) = false → re_match r s = true.
Proof. intros H. by bool_hyps. Qed.

(** What each validator says about its input, as its pattern and side conditions. *)
Lemma Domain_ok (s : string) : Domain s = nil_error → re_match domainRe s = true ∧ len s ≤ 253.
Proof. unfold Domain. case_goal; [done|]. intros _. split; [by apply or_not_match in E|]. branch. Qed.

Lemma RootPath_ok (s : string) :
  RootPath s = nil_error →
  re_match rootPathRe s = true ∧ len s ≤ 512 ∧ Forall (λ seg, seg ≠ "..") (split "/" s).
Proof.
  unfold RootPath. case_goal; [done|]. case_goal; [done|]. intros _.
  split_and!; [by apply or_not_match in E|branch|].
  apply existsb_False in E0. apply (Forall_impl _ _ _ E0). intros w Hw. by apply String.eqb_neq.
Qed.

Lemma ProxyPassURL_ok (s : string) : ProxyPassURL s = nil_error → re_match proxyPassRe s = true.
Proof. unfold ProxyPassURL. case_goal; [done|]. intros _. by apply or_not_match in E. Qed.

Lemma PHPVersion_ok (s : string) : PHPVersion s = nil_error → re_match phpVersionRe s = true.
Proof. unfold PHPVersion. case_goal; [done|]. intros _. by bool_hyps. Qed.

#[export] Hint Resolve Domain_ok RootPath_ok ProxyPassURL_ok PHPVersion_ok : panel.

(** A pattern all of whose bytes are in [q] only accepts words over [q]. *)
Ltac within r := eapply (re_match_within _ r); [vm_compute; reflexivity|done].

(** the four values the nginx generator interpolates outside quotes (domain,
    document root, proxy target, PHP version) consist, once accepted, of bytes
    that can neither end the directive they are placed in nor open a block, a
    quote, a comment or a variable. *)
Theorem accepted_values_nginx_plain (s : string) :
  Domain s = nil_error ∨ RootPath s = nil_error ∨
  ProxyPassURL s = nil_error ∨ PHPVersion s = nil_error →
  str_all nginx_plain s = true.
Proof.
  intros [H|[H|[H|H]]].
  - apply Domain_ok in H as [H _]. within domainRe.
  - apply RootPath_ok in H as [H _]. within rootPathRe.
  - apply ProxyPassURL_ok in H. within proxyPassRe.
  - apply PHPVersion_ok in H. within phpVersionRe.
Qed.

Lemma accepted_values_nginx_plain_witness :
  Domain "*.example.com" = nil_error ∧ str_all nginx_plain "*.example.com" = true.
Proof.
  split; [reflexivity|]. apply accepted_values_nginx_plain. left. reflexivity.
Defined.

(** ** Docker arguments *)

(** an accepted docker image, container name, port mapping, environment line
    or target path never starts with a dash, so none can be taken for an option
    of the docker command line; image and name contain no white space and no
    shell metacharacter. *)
Theorem docker_arguments_no_option (s : string) :
  DockerImage s = nil_error ∨ DockerName s = nil_error ∨
  DockerPort s = nil_error ∨ DockerEnvLine s = nil_error →
  ∃ c s', s = String c s' ∧ Ascii.eqb c "-" = false ∧ space1 c = false.
Proof.
  intros H.
  assert (Hm : ∃ r, r ∈ [dockerImageRe; dockerNameRe; dockerPortRe; dockerEnvRe] ∧ re_match r s = true).
  { unfold DockerImage, DockerName, DockerPort, DockerEnvLine in H.
    repeat destruct H as [H|H]; repeat case_hyp H; simplify_eq; bool_hyps;
      eexists; (split; [|done]); set_solver. }
  destruct Hm as (r & Hr & Hs). apply re_match_spec in Hs.
  assert (Hf : nullable r = false ∧ re_first (λ c, negb (Ascii.eqb c "-") && negb (space1 c)) r = true).
  { repeat (apply elem_of_cons in Hr as [->|Hr]); [..|by apply elem_of_nil in Hr]; by vm_compute. }
  destruct Hf as [Hn Hf]. destruct s as [|c s].
  - apply nullable_spec in Hs. congruence.
  - pose proof (re_first_sound _ _ _ _ Hf Hs) as Hq. cbv beta in Hq. bool_hyps.
    by exists c, s.
Qed.

Lemma docker_arguments_no_option_witness :
  DockerImage "node:20-alpine" = nil_error ∧
  ∃ c s', "node:20-alpine" = String c s' ∧ Ascii.eqb c "-" = false ∧ space1 c = false.
Proof.
  split; [reflexivity|]. apply docker_arguments_no_option. left. reflexivity.
Defined.

(** an accepted system user is a conventional unprivileged account name: not
    one of the reserved accounts, at most 32 bytes long, starting with a
    lower-case letter or an underscore, without upper-case letters, dots,
    colons or slashes. *)
Theorem SystemUser_spec (s : string) :
  SystemUser s = nil_error ↔
  re_match systemUserRe s = true ∧ ¬ s ∈ reservedUsers.
Proof.
  unfold SystemUser.
  destruct (re_match systemUserRe s); cbn [negb orb]; [|split; [done|by intros [? _]]].
  destruct (str_in reservedUsers s) eqn:E.
  - apply str_in_spec in E. split; [done|]. by intros [_ ?].
  - apply str_in_false in E. by split.
Qed.

(** ** PHP directives *)

(** The part of a configuration text after a double-quoted word: nginx reads a
    backslash and the byte after it as one unit, and ends the word at the first
    double quote outside such a unit. *)
Fixpoint after_quoted (s : string) : option string :=
  match s with
  | EmptyString => None
  | String c s1 =>
      if Ascii.eqb c DQ then Some s1
      else if Ascii.eqb c BS then
        match s1 with String _ s2 => after_quoted s2 | EmptyString => None end
      else after_quoted s1
  end.

(** Every backslash is the first byte of a literal backslash-n. *)
Fixpoint bs_paired (s : string) : bool :=
  match s with
  | EmptyString => true
  | String c s1 =>
      if Ascii.eqb c BS then
        match s1 with String d s2 => Ascii.eqb d "n" && bs_paired s2 | EmptyString => false end
      else bs_paired s1
  end.

Lemma bs_paired_of_replace (s : string) :
  contains (replace_all s bs_n "") (String BS "") = false → bs_paired s = true.
Proof.
  unfold replace_all.
  assert (H : ∀ n s, (String.length s ≤ n)%nat →
    contains (replace_from 0 bs_n "" s) (String BS "") = false → bs_paired s = true).
  { induction n as [|n IH]; intros [|c s1] Hl; simpl in Hl; try done; try lia.
    unfold bs_n at 1. cbn [replace_from String.prefix]. simpl bs_paired.
    destruct (ascii_dec BS c) as [<-|Hc].
    - rewrite Ascii.eqb_refl. destruct s1 as [|d s2]; [by vm_compute|]. cbn [String.prefix].
      destruct (ascii_dec "n" d) as [<-|Hd].
      + rewrite Ascii.eqb_refl.
        rewrite prefix_empty. cbn [String.length Nat.sub].
        cbn [replace_from]. intros H. apply IH; [simpl in Hl; lia|done].
      + cbn [contains String.prefix]. destruct (ascii_dec BS BS); [|congruence].
        by rewrite prefix_empty.
    - destruct (Ascii.eqb_spec c BS); [congruence|]. intros H. apply IH; [lia|].
      cbn [contains String.prefix] in H. by destruct (ascii_dec BS c). }
  by apply (H (String.length s)).
Qed.

Lemma bs_paired_quoted (s rest : string) :
  bs_paired s = true → str_all (λ c, negb (Ascii.eqb c DQ)) s = true →
  after_quoted (s +:+ String DQ rest) = Some rest.
Proof.
  assert (H : ∀ n s, (String.length s ≤ n)%nat → bs_paired s = true →
    str_all (λ c, negb (Ascii.eqb c DQ)) s = true →
    after_quoted (s +:+ String DQ rest) = Some rest).
  { induction n as [|n IH]; intros [|c s1] Hl Hp Hq; simpl in Hl; try done; try lia.
    rewrite app_cons. cbn [after_quoted]. simpl in Hq, Hp. bool_hyps.
    match goal with H : Ascii.eqb c DQ = false |- _ => rewrite H end.
    destruct (Ascii.eqb c BS); [|apply IH; [lia|done|done]].
    destruct s1 as [|d s2]; [done|]. rewrite app_cons. simpl in *. bool_hyps.
    apply IH; [lia|done|done]. }
  by apply (H (String.length s)).
Qed.

Lemma PHPIni_ok (s : string) :
  PHPIni s = nil_error →
  str_all (λ c, negb (chr_in (String DQ (String "{" (String "}" (String ";" (String CR "")))) ) c)) s = true ∧
  bs_paired s = true.
Proof.
  unfold PHPIni, contains_any. intros H. repeat case_hyp H; simplify_eq. bool_hyps.
  split; [done|]. by apply bs_paired_of_replace.
Qed.

(** the generator places accepted PHP directives between double quotes, as in
    fastcgi_param PHP_VALUE; the quoted word then ends exactly at the quote the
    generator wrote, so the directives cannot leave it. *)
Theorem PHPIni_stays_quoted (s rest : string) :
  PHPIni s = nil_error → after_quoted (s +:+ String DQ rest) = Some rest.
Proof.
  intros H. apply PHPIni_ok in H as [Hc Hb]. apply bs_paired_quoted; [done|].
  revert Hc. apply str_all_impl. apply cls_incl_spec. vm_compute. done.
Qed.

Lemma PHPIni_stays_quoted_witness :
  PHPIni "memory_limit=1G\nmax_input_time=5" = nil_error ∧
  after_quoted ("memory_limit=1G\nmax_input_time=5" +:+ String DQ "; }") = Some "; }".
Proof. split; [reflexivity|]. apply PHPIni_stays_quoted. reflexivity. Defined.

(** contrary to its comment, which announces no control characters and only
    the two-byte separator, the validator lets a raw line feed through. *)
Theorem PHPIni_accepts_line_feed : PHPIni (String "a" (String LF "b")) = nil_error.
Proof. reflexivity. Qed.

(** ** Site roots *)

Lemma RootPath_rooted (s : string) : RootPath s = nil_error → is_rooted s = true.
Proof.
  intros H. apply RootPath_ok in H as [H _]. apply re_match_spec in H.
  destruct H as (t & u & -> & (a & b & -> & (c & -> & Hc) & ->) & _).
  apply Ascii.eqb_eq in Hc as <-. by destruct u.
Qed.

(** a root is allowed exactly when it passes [RootPath] and its cleaned form
    has at least two segments, the first of which is no protected system
    directory, and at least three under home: neither a system tree nor a bare
    home directory can become the root that deleting a site removes. *)
Theorem RootPathAllowed_spec (p : string) :
  RootPathAllowed p = nil_error ↔
  RootPath p = nil_error ∧
  ∃ top rest, path_segs p = top :: rest ∧ rest ≠ [] ∧ top ∉ protectedTopDirs ∧
              (top = "home" → (2 ≤ length rest)%nat).
Proof.
  unfold RootPathAllowed. destruct (RootPath p) as [m|] eqn:ER; [split; [done|by intros [? _]]|].
  pose proof (RootPath_rooted p ER) as Hr. rewrite trimmed_segs by done.
  destruct (path_segs p) as [|top rest] eqn:Es; [split; [done|naive_solver]|].
  pose proof (str_in_false protectedTopDirs top) as Hf. cbn [hd]. split.
  - intros H. case_hyp H; [done|]. bool_hyps. split; [done|]. exists top, rest.
    split_and!; try done; [|by apply Hf|].
    + intros ->. simpl in *. lia.
    + intros ->. match goal with H : _ ∨ _ |- _ => destruct H end; bool_hyps; [done|simpl in *; lia].
  - intros (_ & t & r & [= <- <-] & Hne & Hp & Hh). apply Hf in Hp as ->.
    replace (Z.of_nat (length (top :: rest)) <? 2) with false
      by (symmetry; apply Z.ltb_ge; destruct rest; [done|simpl; lia]).
    destruct (String.eqb_spec top "home") as [->|]; [|done].
    replace (Z.of_nat (length ("home" :: rest)) <? 3) with false; [done|].
    symmetry. apply Z.ltb_ge. specialize (Hh eq_refl). simpl. lia.
Qed.

(** the host part of an accepted volume is an absolute path without dot-dot
    segments that lies, lexically, in the site root: the cleaned segments of the
    site root are a prefix of its own. *)
Theorem DockerVolume_confined (v siteRoot : string) :
  DockerVolume v siteRoot = nil_error →
  ∃ host target opts, split ":" v = host :: target :: opts ∧
    is_rooted host = true ∧ is_rooted siteRoot = true ∧
    Forall (λ seg, seg ≠ "..") (split "/" host) ∧
    path_segs siteRoot `prefix_of` path_segs host.
Proof.
  unfold DockerVolume. intros H.
  destruct (split ":" v) as [|host [|target opts]] eqn:Es; [done|done|].
  exists host, target, opts.
  assert (Hc : is_nil (RootPath host) = true ∧ UnderRoot siteRoot host = true).
  { destruct opts as [|? [|? ?]]; [| |done]; repeat case_hyp H; simplify_eq; by bool_hyps. }
  destruct Hc as [Hn Hu]. destruct (RootPath host) as [|] eqn:ER; [done|].
  pose proof (RootPath_rooted host ER) as Hr. apply RootPath_ok in ER as (_ & _ & Hdd).
  destruct (under_segs siteRoot host Hr Hu) as [Hd Hp]. by split_and!.
Qed.

Lemma DockerVolume_confined_witness :
  DockerVolume "/home/u/s/../s/data:/data:ro" "/home/u/s" = Some "docker_volume host path must be inside the site root"
  ∧ ∃ host target opts, split ":" "/home/u/s/data:/data" = host :: target :: opts ∧
    is_rooted host = true ∧ is_rooted "/home/u/s" = true ∧
    Forall (λ seg, seg ≠ "..") (split "/" host) ∧
    path_segs "/home/u/s" `prefix_of` path_segs host.
Proof. split; [reflexivity|]. apply DockerVolume_confined. reflexivity. Defined.

(** ** Database privileges and passwords *)

(** every entry of an accepted privilege list is, up to case and white space,
    one of the per-database privileges of the table; in particular none is a
    grant option, a proxy right, or one of the global rights FILE, SUPER,
    PROCESS, RELOAD, SHUTDOWN, CREATE USER. *)
Theorem DBPrivileges_allowed (s : string) :
  DBPrivileges s = nil_error →
  Forall (λ p, norm_privilege p ∈ dbPrivileges) (split "," s) ∧
  Forall (λ p, norm_privilege p ∉
    ["GRANT OPTION"; "PROXY"; "FILE"; "SUPER"; "PROCESS"; "RELOAD"; "SHUTDOWN"; "CREATE USER"; ""])
    (split "," s).
Proof.
  unfold DBPrivileges. intros H. case_hyp H; [done|]. case_hyp H; [done|].
  assert (HF : Forall (λ p, norm_privilege p ∈ dbPrivileges) (split "," s)).
  { apply Forall_forall. intros p Hp. apply list_elem_of_In in Hp.
    pose proof (List.find_none _ _ E0 p Hp) as Hn. cbv beta in Hn. bool_hyps. by apply str_in_spec. }
  split; [done|]. apply (Forall_impl _ _ _ HF). intros p Hin Hbad.
  assert (Hd : Forall (λ x, x ∉ ["GRANT OPTION"; "PROXY"; "FILE"; "SUPER"; "PROCESS"; "RELOAD";
                                 "SHUTDOWN"; "CREATE USER"; ""]) dbPrivileges).
  { apply (bool_decide_unpack _). by vm_compute. }
  rewrite Forall_forall in Hd. by apply (Hd _ Hin).
Qed.

Lemma DBPrivileges_allowed_witness :
  DBPrivileges "select,  Create   View" = nil_error ∧
  Forall (λ p, norm_privilege p ∈ dbPrivileges) (split "," "select,  Create   View").
Proof. split; [reflexivity|]. apply DBPrivileges_allowed. reflexivity. Defined.

(** An accepted password has no backslash, so its bytes read the same under the
    SQL literal syntax with and without backslash escapes. *)
Lemma DBPassword_ok (s : string) :
  DBPassword s = nil_error →
  8 ≤ len s ≤ 128 ∧ str_all (λ c, negb (Ascii.eqb c BS)) s = true ∧
  str_all (λ c, 31 <? code c) s = true.
Proof.
  unfold DBPassword. intros H. case_hyp H; [done|]. case_hyp H; [done|]. bool_hyps.
  split; [lia|]. split; revert E0; apply str_all_impl, cls_incl_spec; by vm_compute.
Qed.

(** in an accepted proxy URL of the form scheme://host:digits/path the digits
    denote a TCP port: the last colon of the string is the one before them. *)
Theorem ProxyPassURL_port (scheme host d p : string) (n : Z) :
  scheme ∈ ["http"; "https"] → no_chr ":" host = true →
  str_all is_digit d = true → no_chr ":" p = true → p = "" ∨ is_rooted p = true →
  atoi d = (n, true) →
  ProxyPassURL (scheme +:+ "://" +:+ host +:+ String ":" (d +:+ p)) = nil_error →
  1 ≤ n ≤ 65535.
Proof.
  intros Hs Hh Hd Hp Hr Hn. unfold ProxyPassURL. intros H. case_hyp H; [done|].
  assert (Hdc : ∀ c, is_digit c = false → no_chr c d = true).
  { intros c Hc. revert Hd. apply str_all_impl. intros x Hx. apply negb_true_iff.
    destruct (Ascii.eqb_spec x c); congruence. }
  rewrite <- !app_assoc_s, last_index_app in H
    by (unfold no_chr in *; rewrite str_all_app, Hp, andb_true_r; by apply Hdc).
  set (pre := (scheme +:+ "://") +:+ host) in *. cbn [idx] in H.
  assert (Hi : idx (index_sub (pre +:+ String ":" (d +:+ p)) "//") = Z.of_nat (String.length scheme) + 1
               ∧ Z.of_nat (String.length pre) = Z.of_nat (String.length scheme) + 3 + Z.of_nat (String.length host)).
  { subst pre. rewrite !app_assoc_s, !length_app_s.
    apply elem_of_cons in Hs as [->|Hs]; [|apply elem_of_cons in Hs as [->|Hs];
      [|by apply elem_of_nil in Hs]]; (split; [|simpl; lia]).
    all: destruct host; reflexivity. }
  destruct Hi as [Hi Hl]. rewrite Hi in H.
  replace (Z.of_nat (String.length scheme) + 1 + 1 <? Z.of_nat (String.length pre)) with true in H
    by (symmetry; apply Z.ltb_lt; lia).
  replace (Z.to_nat (Z.of_nat (String.length pre) + 1)) with (String.length (pre +:+ ":")) in H
    by (rewrite length_app_s; simpl; lia).
  replace (pre +:+ String ":" (d +:+ p)) with ((pre +:+ ":") +:+ (d +:+ p)) in H
    by (by rewrite app_assoc_s).
  rewrite str_drop_app in H.
  assert (Hrest : match index_chr "/" (d +:+ p) with
                  | Some j => str_take j (d +:+ p) | None => d +:+ p end = d).
  { destruct Hr as [->|Hr].
    - rewrite app_nil_r, index_chr_none by by apply Hdc. done.
    - apply prefix_spec in Hr as (r & ->). change ("/" +:+ r) with (String "/" r).
      rewrite index_chr_app by by apply Hdc. apply str_take_app. }
  rewrite Hrest, Hn in H. case_hyp H; [done|]. cbn [andb] in *. bool_hyps. lia.
Qed.

Lemma ProxyPassURL_port_witness :
  ProxyPassURL "http://localhost:8080/app" = nil_error ∧ 1 ≤ 8080 ≤ 65535.
Proof.
  split; [reflexivity|].
  apply (ProxyPassURL_port "http" "localhost" "8080" "/app"); try reflexivity.
  - apply list_elem_of_here.
  - right. reflexivity.
Defined.
