(* ===== verification/AgentValidate.v ===== *)
(** [src/internal/agenthttp/validate.go], [sqlinject.go] and the command
    allowlist of [src/internal/executor/executor.go]: what the root-run agent
    checks again before it touches paths, git, SQL or processes. *)
From S2P Require Import Prelude GoStr Regex SiteInput.

Local Open Scope string_scope.
Local Open Scope Z_scope.
Local Open Scope panel_scope.

(** * Patterns *)

Definition domainRegex : re :=
  Cat alnum (Opt (Cat (Rep (Cls (λ c, is_alnum c || chr_in "-." c)) 0 253) alnum)).
Definition pathRegex : re := Cat (Lit "/") (Plus (Cls (λ c, is_alnum c || chr_in "_-./" c))).
Definition gitURLRegex : re :=
  Cat (Alt (Cat (Lit "http") (Cat (Opt (Lit "s")) (Lit "://"))) (Alt (Lit "git@") (Lit "file://")))
      (Plus (Cls (λ c, is_alnum c || chr_in "._-/:" c))).
Definition gitRefRegex : re := Rep (Cls (λ c, is_alnum c || chr_in "._/-" c)) 1 255.
Definition dbNameRegex : re := Rep (Cls (λ c, is_alnum c || chr_in "_" c)) 1 64.
Definition dbHostRegex : re := Rep (Cls (λ c, is_alnum c || chr_in "_.%-" c)) 1 255.
Definition dbPrivRegex : re := Rep (Cls (λ c, is_upper c || chr_in "_, " c)) 1 128.

Definition isValidDomain (d : string) : bool := re_match domainRegex d.
Definition isValidPath (p : string) : bool := if contains p ".." then false else re_match pathRegex p.
Definition isValidGitURL (u : string) : bool := re_match gitURLRegex u.
Definition isValidGitRef (ref : string) : bool :=
  if (ref =? "")%string || has_prefix ref "-" then false
  else if contains ref ".." then false
  else re_match gitRefRegex ref.
Definition isValidDBIdentifier (v : string) : bool := re_match dbNameRegex v.
Definition isValidDBHostPattern (v : string) : bool := re_match dbHostRegex v.
Definition isValidDBPrivileges (v : string) : bool := re_match dbPrivRegex v.

(** [sqlinject.go]: the second family of database validators. *)
Definition validDBNameRegex : re := Plus (Cls (λ c, is_alnum c || chr_in "_-" c)).
Definition validDBUsernameRegex : re := Plus (Cls (λ c, is_alnum c || chr_in "_-." c)).
Definition validDBHostRegex : re := Plus (Cls (λ c, is_alnum c || chr_in "_-.%*?" c)).

Definition ValidateDBName (name : string) : bool :=
  if (len name =? 0) || (64 <? len name) then false else re_match validDBNameRegex name.
Definition ValidateDBUsername (username : string) : bool :=
  if (len username =? 0) || (32 <? len username) then false else re_match validDBUsernameRegex username.
Definition ValidateDBHost (host : string) : bool :=
  if (len host =? 0) || (255 <? len host) then false else re_match validDBHostRegex host.

Definition allowedPrivileges : list string :=
  ["ALL"; "SELECT"; "INSERT"; "UPDATE"; "DELETE"; "CREATE"; "DROP"; "ALTER"; "INDEX"; "EXECUTE";
   "PROCESS"; "RELOAD"; "SHUTDOWN"; "SUPER"; "FILE"; "LOCK TABLES"; "REFERENCES";
   "REPLICATION CLIENT"; "REPLICATION SLAVE"; "CREATE VIEW"; "SHOW VIEW"; "CREATE ROUTINE";
   "ALTER ROUTINE"; "CREATE TEMPORARY TABLES"; "EVENT"; "TRIGGER"; "CREATE TABLESPACE";
   "CREATE USER"].
Definition ValidateDBPrivileges (privileges : string) : bool :=
  if len privileges =? 0 then false
  else forallb (λ part, str_in allowedPrivileges (trim_space (to_upper part))) (split "," privileges).

(** * SQL text *)

Definition sqlQuote (value : string) : string :=
  "'" +:+ replace_chr (λ c, if Ascii.eqb c SQ then Some "''" else None) value +:+ "'".

Definition NUL : ascii := byte 0.

Definition SanitizeSQLString (s : string) : string :=
  let s := replace_chr (λ c, if Ascii.eqb c BS then Some (String BS (String BS "")) else None) s in
  let s := replace_chr (λ c, if Ascii.eqb c SQ then Some "''" else None) s in
  let s := replace_chr (λ c, if Ascii.eqb c NUL then Some "" else None) s in
  let s := replace_chr (λ c, if Ascii.eqb c LF then Some bs_n else None) s in
  replace_chr (λ c, if Ascii.eqb c CR then Some (String BS "r") else None) s.

(** The bytes [SanitizeSQLIdent] removes. *)
Definition ident_bad (c : ascii) : bool :=
  chr_in "`;'" c || Ascii.eqb c BS || Ascii.eqb c LF || Ascii.eqb c CR || Ascii.eqb c NUL || Ascii.eqb c DQ.
Definition SanitizeSQLIdent (s : string) : string :=
  replace_chr (λ c, if ident_bad c then Some "" else None) s.

(** * Paths *)

(** The [Router] fields the path checks read. *)
Record Router := { siteRootDir : string; backupDir : string }.

Definition isAllowedSitePath (r : Router) (path : string) : bool :=
  if negb (isValidPath path) then false
  else if (siteRootDir r =? "")%string then is_nil (RootPathAllowed (path_clean path))
  else
    let cleanRoot := path_clean (siteRootDir r) in
    let cleanPath := path_clean path in
    if (cleanPath =? cleanRoot)%string then false
    else has_prefix cleanPath (cleanRoot +:+ "/").

Definition is_backup_seg (part : string) : bool := (part =? "backup")%string || (part =? "backups")%string.

(** The loop over the segments of the cleaned path: [Some b] is [return b],
    [None] falls through. *)
Fixpoint backup_scan (i n : Z) (parts : list string) : option bool :=
  match parts with
  | [] => None
  | part :: ps =>
      if (part =? "..")%string then Some false
      else if is_backup_seg part && (0 <? i) && (i <? n - 1) then Some true
      else backup_scan (i + 1) n ps
  end.

Definition isAllowedBackupPath (r : Router) (path : string) : bool :=
  if negb (isValidPath path) then false
  else
    let cleanPath := path_clean path in
    let cleanRoot := path_clean (backupDir r) in
    if has_prefix cleanPath (cleanRoot +:+ "/") then true
    else
      let parts := split "/" cleanPath in
      match backup_scan 0 (Z.of_nat (length parts)) parts with
      | Some b => b
      | None =>
          if negb (siteRootDir r =? "")%string then
            let cleanSiteRoot := path_clean (siteRootDir r) in
            if has_prefix cleanPath (cleanSiteRoot +:+ "/") then
              match split "/" (trim_prefix cleanPath (cleanSiteRoot +:+ "/")) with
              | _ :: d :: _ => is_backup_seg d
              | _ => false
              end
            else false
          else false
      end.

(** [removeGeneratedFile]: the path handed to the recursive removal, or
    [errUnsafePath]. *)
Definition removeGeneratedFile (path root : string) : error * option string :=
  let cleanRoot := path_clean root in
  let cleanPath := path_clean path in
  if (cleanPath =? cleanRoot)%string || negb (has_prefix cleanPath (cleanRoot +:+ "/"))
  then (errorf "unsafe path", None)
  else (nil_error, Some cleanPath).

Definition backupFileExts : list string := [".tar.gz"; ".tgz"; ".sql"; ".sql.gz"; ".zip"].

(** [filepath.Join] of a directory and a base name. *)
Definition path_join (dir base : string) : string := path_clean (dir +:+ "/" +:+ base).

Section Filesystem.
(** [filepath.EvalSymlinks] ([None]: an error) and [os.Lstat] ([None]: no
    such file, [Some b]: whether the mode is regular). *)
Context (eval_symlinks : string → option string) (lstat_regular : string → option bool).

Definition resolveBackupFile (r : Router) (path : string) : option string :=
  if negb (isAllowedBackupPath r path) then None
  else if negb (existsb (λ ext, has_suffix (to_lower path) ext) backupFileExts) then None
  else match eval_symlinks (path_dir (path_clean path)) with
       | None => None
       | Some dir =>
           let real := path_join dir (path_base path) in
           if negb (isAllowedBackupPath r real) then None
           else if negb (is_nil (RootPathAllowed dir)) then None
           else if has_prefix real "/var/backups/"
                   && negb (has_prefix real (path_clean (backupDir r) +:+ "/")) then None
           else match lstat_regular real with
                | Some false => None
                | _ => Some real
                end
       end.
End Filesystem.

(** * Executor *)

Definition allowedCommands : list string :=
  ["systemctl"; "service"; "nginx"; "certbot"; "git"; "tar"; "tail"; "openssl"; "mysql"; "mysqldump";
   "psql"; "pg_dump"; "stat"; "mkdir"; "echo"; "aws"; "sh"; "bash"; "cp"; "mv"; "find"; "sysctl"; "du";
   "cat"; "wc"; "head"; "sleep"; "curl"; "apt-get"; "apt-cache"; "apt"; "yum"; "dnf"; "apk"; "docker";
   "node"; "npm"; "pip"; "pip3"; "go"; "redis-server"; "redis-cli"; "memcached"; "ufw"; "supervisord";
   "mariadb"; "php"; "php8.4"; "php8.3"; "php8.2"; "php8.1"; "php8.0"; "make"; "gcc"; "python3"; "python";
   "fail2ban-client"; "which"; "chown"; "journalctl"; "test"].

Definition isAllowedCommand (name : string) : bool := str_in allowedCommands (path_base name).

(** * SQL literals *)

(** The value of a quoted literal and the text after it, as a server without
    backslash escapes reads it: a doubled quote is a quote, a single one ends. *)
Fixpoint lex_ansi_body (s : string) : option (string * string) :=
  match s with
  | EmptyString => None
  | String c s1 =>
      if Ascii.eqb c SQ then
        match s1 with
        | String d s2 =>
            if Ascii.eqb d SQ then
              match lex_ansi_body s2 with Some (v, r) => Some (String SQ v, r) | None => None end
            else Some (EmptyString, s1)
        | EmptyString => Some (EmptyString, EmptyString)
        end
      else match lex_ansi_body s1 with Some (v, r) => Some (String c v, r) | None => None end
  end.

(** The byte a MySQL escape stands for. *)
Definition unescape (c : ascii) : ascii :=
  if Ascii.eqb c "n" then LF else if Ascii.eqb c "r" then CR else c.

(** The same for a server with backslash escapes. *)
Fixpoint lex_mysql_body (s : string) : option (string * string) :=
  match s with
  | EmptyString => None
  | String c s1 =>
      if Ascii.eqb c BS then
        match s1 with
        | String d s2 =>
            match lex_mysql_body s2 with Some (v, r) => Some (String (unescape d) v, r) | None => None end
        | EmptyString => None
        end
      else if Ascii.eqb c SQ then
        match s1 with
        | String d s2 =>
            if Ascii.eqb d SQ then
              match lex_mysql_body s2 with Some (v, r) => Some (String SQ v, r) | None => None end
            else Some (EmptyString, s1)
        | EmptyString => Some (EmptyString, EmptyString)
        end
      else match lex_mysql_body s1 with Some (v, r) => Some (String c v, r) | None => None end
  end.

Definition lex_with (body : string → option (string * string)) (s : string) : option (string * string) :=
  match s with
  | String c s1 => if Ascii.eqb c SQ then body s1 else None
  | EmptyString => None
  end.
Definition lex_ansi : string → option (string * string) := lex_with lex_ansi_body.
Definition lex_mysql : string → option (string * string) := lex_with lex_mysql_body.

(** The text that follows a literal does not start with a quote. *)
Definition ends_literal (rest : string) : bool :=
  match rest with String c _ => negb (Ascii.eqb c SQ) | EmptyString => true end.

Definition esc_quote (value : string) : string :=
  replace_chr (λ c, if Ascii.eqb c SQ then Some "''" else None) value.

Lemma lex_ansi_close (rest : string) :
  ends_literal rest = true → lex_ansi_body (String SQ rest) = Some (EmptyString, rest).
Proof. destruct rest as [|c rest]; simpl; intros H; bool_hyps; [done|]. by rewrite H. Qed.

Lemma lex_mysql_close (rest : string) :
  ends_literal rest = true → lex_mysql_body (String SQ rest) = Some (EmptyString, rest).
Proof. destruct rest as [|c rest]; simpl; intros H; bool_hyps; [done|]. by rewrite H. Qed.

Lemma sqlQuote_app (v rest : string) :
  sqlQuote v +:+ rest = String SQ (esc_quote v +:+ String SQ rest).
Proof. unfold sqlQuote. rewrite !app_assoc_s. done. Qed.

Lemma esc_quote_cons (c : ascii) (v t : string) :
  esc_quote (String c v) +:+ t =
  if Ascii.eqb c SQ then String SQ (String SQ (esc_quote v +:+ t)) else String c (esc_quote v +:+ t).
Proof. unfold esc_quote. simpl. by destruct (Ascii.eqb c SQ). Qed.

Lemma sqlQuote_ansi (v rest : string) :
  ends_literal rest = true → lex_ansi (sqlQuote v +:+ rest) = Some (v, rest).
Proof.
  intros Hr. rewrite sqlQuote_app. unfold lex_ansi. simpl.
  induction v as [|c v IH]; [by apply lex_ansi_close|].
  rewrite esc_quote_cons. destruct (Ascii.eqb c SQ) eqn:E; simpl.
  - apply Ascii.eqb_eq in E as ->. by rewrite IH.
  - by rewrite E, IH.
Qed.

(** a quoted value is read back as itself by a server without backslash
    escapes, and the statement continues right after it: no value of any bytes
    leaves its literal. *)
Theorem sqlQuote_roundtrip (v rest : string) :
  ends_literal rest = true → lex_ansi (sqlQuote v +:+ rest) = Some (v, rest).
Proof. exact (sqlQuote_ansi v rest). Qed.

Lemma sqlQuote_roundtrip_witness :
  ends_literal "; --" = true ∧ lex_ansi (sqlQuote "x'; DROP TABLE users; --" +:+ "; --")
    = Some ("x'; DROP TABLE users; --", "; --").
Proof. split; [reflexivity|]. apply sqlQuote_roundtrip. reflexivity. Defined.

Lemma sqlQuote_mysql (v rest : string) :
  str_all (λ c, negb (Ascii.eqb c BS)) v = true → ends_literal rest = true →
  lex_mysql (sqlQuote v +:+ rest) = Some (v, rest).
Proof.
  intros Hv Hr. rewrite sqlQuote_app. unfold lex_mysql. simpl.
  induction v as [|c v IH]; [by apply lex_mysql_close|].
  simpl in Hv. bool_hyps. rewrite esc_quote_cons. destruct (Ascii.eqb c SQ) eqn:E; simpl.
  - apply Ascii.eqb_eq in E as ->. by rewrite IH.
  - match goal with H : (c =? BS)%char = false |- _ => rewrite H end. by rewrite E, IH.
Qed.

(** the values the agent quotes into MySQL statements (an accepted password,
    a database identifier, a host pattern) are read back as themselves whether
    or not the server has NO_BACKSLASH_ESCAPES. *)
Theorem sqlQuote_dialect_independent (v rest : string) :
  DBPassword v = nil_error ∨ isValidDBIdentifier v = true ∨ isValidDBHostPattern v = true →
  ends_literal rest = true →
  lex_mysql (sqlQuote v +:+ rest) = Some (v, rest) ∧
  lex_ansi (sqlQuote v +:+ rest) = Some (v, rest).
Proof.
  intros Hv Hr. split; [|by apply sqlQuote_ansi].
  apply sqlQuote_mysql; [|done]. destruct Hv as [Hv|[Hv|Hv]].
  - by apply DBPassword_ok in Hv as (_ & ? & _).
  - within dbNameRegex.
  - within dbHostRegex.
Qed.

Lemma sqlQuote_dialect_independent_witness :
  DBPassword "it's a'pass" = nil_error ∧
  lex_mysql (sqlQuote "it's a'pass" +:+ ";") = Some ("it's a'pass", ";").
Proof. split; [reflexivity|]. apply sqlQuote_dialect_independent; [left|]; reflexivity. Defined.

(** [sqlQuote] alone is not enough on a server with backslash escapes: a value
    that ends in a backslash swallows the closing quote. *)
Example sqlQuote_backslash : lex_mysql (sqlQuote (String BS "") +:+ ";") = None.
Proof. reflexivity. Qed.

Fixpoint drop_nul (s : string) : string :=
  match s with
  | EmptyString => EmptyString
  | String c s' => if Ascii.eqb c NUL then drop_nul s' else String c (drop_nul s')
  end.

Lemma replace_chr_app f (s t : string) : replace_chr f (s +:+ t) = replace_chr f s +:+ replace_chr f t.
Proof.
  induction s as [|c s IH]; [done|]. rewrite app_cons. simpl. rewrite IH.
  destruct (f c); [by rewrite app_assoc_s|done].
Qed.

(** What the five replacements do to one byte. *)
Definition sanitize1 (c : ascii) : string :=
  if Ascii.eqb c BS then String BS (String BS "") else if Ascii.eqb c SQ then "''"
  else if Ascii.eqb c NUL then "" else if Ascii.eqb c LF then bs_n
  else if Ascii.eqb c CR then String BS "r" else String c "".

Lemma SanitizeSQLString_cons (c : ascii) (s : string) :
  SanitizeSQLString (String c s) = sanitize1 c +:+ SanitizeSQLString s.
Proof.
  unfold SanitizeSQLString. change (String c s) with (String c "" +:+ s).
  rewrite !replace_chr_app. f_equal. apply String.eqb_eq.
  assert (H : forallb (λ c, (SanitizeSQLString (String c "") =? sanitize1 c)%string) all_bytes = true)
    by (vm_compute; reflexivity).
  rewrite forallb_forall in H. apply (H c (all_bytes_in c)).
Qed.

(** a server with backslash escapes reads the sanitised value back as the
    original one without its null bytes. *)
Theorem SanitizeSQLString_roundtrip (s rest : string) :
  ends_literal rest = true →
  lex_mysql (String SQ (SanitizeSQLString s +:+ String SQ rest)) = Some (drop_nul s, rest).
Proof.
  intros Hr. unfold lex_mysql. simpl.
  induction s as [|c s IH]; [by apply lex_mysql_close|].
  rewrite SanitizeSQLString_cons, app_assoc_s. unfold sanitize1. cbn [drop_nul].
  repeat match goal with
  | |- context [Ascii.eqb c ?d] => destruct (Ascii.eqb_spec c d) as [->|?]; simpl
  end; change (EmptyString +:+ ?t) with t; first [congruence | by rewrite IH].
Qed.

Lemma SanitizeSQLString_roundtrip_witness :
  ends_literal ";" = true ∧
  lex_mysql (String SQ (SanitizeSQLString (String BS "' OR 1=1") +:+ String SQ ";"))
    = Some (String BS "' OR 1=1", ";").
Proof. split; [reflexivity|]. apply (SanitizeSQLString_roundtrip (String BS "' OR 1=1") ";"). reflexivity. Defined.

(** a sanitised identifier contains no quote of any kind, no backslash, no
    semicolon, no line break and no null byte, and the other bytes are kept in
    order. *)
Theorem SanitizeSQLIdent_spec (s : string) :
  str_all (λ c, negb (ident_bad c)) (SanitizeSQLIdent s) = true ∧
  list_ascii_of_string (SanitizeSQLIdent s) =
    List.filter (λ c, negb (ident_bad c)) (list_ascii_of_string s).
Proof.
  unfold SanitizeSQLIdent. induction s as [|c s [IH1 IH2]]; [done|]. simpl.
  destruct (ident_bad c) eqn:E; simpl; [done|]. by rewrite E, IH1, IH2.
Qed.

(** * Paths *)

Lemma isValidPath_ok (p : string) :
  isValidPath p = true → re_match pathRegex p = true ∧ contains p ".." = false ∧ is_rooted p = true.
Proof.
  unfold isValidPath. intros H. case_hyp H; [done|]. split_and!; try done.
  apply re_match_spec in H. destruct H as (t & u & -> & (a & b & -> & (c & -> & Hc) & ->) & _).
  apply Ascii.eqb_eq in Hc as <-. by destruct u.
Qed.

(** with a configured site root, a path the agent accepts as a site path is
    rooted, made of safe bytes, has no dot-dot in it, and lies strictly below the
    site root: the segments of the root are a proper prefix of its own. *)
Theorem isAllowedSitePath_confined (r : Router) (path : string) :
  siteRootDir r ≠ "" → isAllowedSitePath r path = true →
  is_rooted (siteRootDir r) = true ∧ contains path ".." = false ∧
  str_all nginx_plain path = true ∧
  ∃ rest, rest ≠ [] ∧ path_segs path = (path_segs (siteRootDir r) ++ rest)%list.
Proof.
  unfold isAllowedSitePath. intros Hne H. repeat case_hyp H; simplify_eq; bool_hyps; [done|].
  apply isValidPath_ok in E as (Hm & Hdd & Hr).
  destruct (clean_prefix_segs _ _ Hr H) as (Hd & rest & Hrest & Hs).
  split_and!; try done; [|by exists rest]. within pathRegex.
Qed.

Lemma isAllowedSitePath_confined_witness :
  let r := {| siteRootDir := "/home"; backupDir := "/var/backups/sp" |} in
  isAllowedSitePath r "/home/u/htdocs/x.org" = true ∧
  ∃ rest, rest ≠ [] ∧ path_segs "/home/u/htdocs/x.org" = (path_segs "/home" ++ rest)%list.
Proof.
  split; [reflexivity|].
  apply (isAllowedSitePath_confined {| siteRootDir := "/home"; backupDir := "/var/backups/sp" |}).
  - discriminate.
  - reflexivity.
Defined.

(** without a configured site root the cleaned path has at least two segments
    and is not below a protected system directory, nor a bare home directory. *)
Theorem isAllowedSitePath_unconfigured (r : Router) (path : string) :
  siteRootDir r = "" → isAllowedSitePath r path = true →
  ∃ top rest, path_segs (path_clean path) = top :: rest ∧ rest ≠ [] ∧ top ∉ protectedTopDirs ∧
              (top = "home" → (2 ≤ length rest)%nat).
Proof.
  unfold isAllowedSitePath. intros -> H. case_hyp H; [done|]. cbn in H.
  destruct (RootPathAllowed (path_clean path)) as [|] eqn:ER; [done|].
  by apply RootPathAllowed_spec in ER as [_ ?].
Qed.

Lemma isAllowedSitePath_unconfigured_witness :
  let r := {| siteRootDir := ""; backupDir := "/var/backups/sp" |} in
  isAllowedSitePath r "/srv/app" = true ∧ isAllowedSitePath r "/usr/lib" = false ∧
  ∃ top rest, path_segs (path_clean "/srv/app") = top :: rest ∧ rest ≠ [] ∧
    top ∉ protectedTopDirs ∧ (top = "home" → (2 ≤ length rest)%nat).
Proof.
  split; [reflexivity|]. split; [reflexivity|].
  apply (isAllowedSitePath_unconfigured {| siteRootDir := ""; backupDir := "/var/backups/sp" |}); reflexivity.
Defined.

(** whatever the file system answers, a backup file the agent resolves is an
    allowed backup path of a real directory that is not a system tree, is not a
    directory or device, and below /var/backups only in the agent's own
    directory. *)
Theorem resolveBackupFile_safe eval_symlinks lstat (r : Router) (path real : string) :
  resolveBackupFile eval_symlinks lstat r path = Some real →
  isAllowedBackupPath r path = true ∧ isAllowedBackupPath r real = true ∧
  lstat real ≠ Some false ∧
  (has_prefix real "/var/backups/" = true → has_prefix real (path_clean (backupDir r) +:+ "/") = true) ∧
  (∃ dir, eval_symlinks (path_dir (path_clean path)) = Some dir ∧ RootPathAllowed dir = nil_error ∧
          real = path_join dir (path_base path)).
Proof.
  unfold resolveBackupFile. intros H. case_hyp H; [done|]. case_hyp H; [done|].
  destruct (eval_symlinks _) as [dir|] eqn:Ev; [|done].
  case_hyp H; [done|]. case_hyp H; [done|]. case_hyp H; [done|].
  assert (real = path_join dir (path_base path) ∧ lstat (path_join dir (path_base path)) ≠ Some false)
    as [-> Hl] by (repeat case_hyp H; simplify_eq; done).
  destruct (RootPathAllowed dir) eqn:ER; [done|].
  split_and!; try done; try (by bool_hyps).
  - intros Hv. rewrite Hv in E3. simpl in E3. by bool_hyps.
  - by exists dir.
Qed.

Lemma resolveBackupFile_safe_witness :
  let r := {| siteRootDir := "/home"; backupDir := "/var/backups/sp" |} in
  let p := "/home/u/htdocs/x.org/backups/site.tar.gz" in
  resolveBackupFile (λ d, Some d) (λ _, Some true) r p = Some p ∧
  isAllowedBackupPath r p = true.
Proof.
  split; [vm_compute; reflexivity|].
  apply (resolveBackupFile_safe (λ d, Some d) (λ _, Some true)
    {| siteRootDir := "/home"; backupDir := "/var/backups/sp" |}
    "/home/u/htdocs/x.org/backups/site.tar.gz" "/home/u/htdocs/x.org/backups/site.tar.gz").
  vm_compute. reflexivity.
Defined.

(** the only path the agent removes recursively on behalf of a generated file
    lies strictly below the given root. *)
Theorem removeGeneratedFile_confined (path root target : string) :
  is_rooted path = true → snd (removeGeneratedFile path root) = Some target →
  is_rooted root = true ∧ target = path_clean path ∧
  ∃ rest, rest ≠ [] ∧ path_segs target = (path_segs root ++ rest)%list.
Proof.
  unfold removeGeneratedFile. intros Hr H. case_hyp H; [done|]. simpl in H. simplify_eq. bool_hyps.
  destruct (clean_prefix_segs _ _ Hr H0) as (Hd & rest & Hrest & Hs).
  split_and!; try done. exists rest. split; [done|]. rewrite <- Hs. by apply path_segs_clean.
Qed.

Lemma removeGeneratedFile_confined_witness :
  snd (removeGeneratedFile "/etc/nginx/conf.d/a.conf" "/etc/nginx/conf.d") = Some "/etc/nginx/conf.d/a.conf" ∧
  is_rooted "/etc/nginx/conf.d" = true.
Proof.
  split; [reflexivity|].
  apply (removeGeneratedFile_confined "/etc/nginx/conf.d/a.conf" "/etc/nginx/conf.d" "/etc/nginx/conf.d/a.conf");
    reflexivity.
Defined.

(** an accepted git reference is a non-empty name of safe bytes that git
    cannot read as an option and that contains no dot-dot. *)
Theorem isValidGitRef_safe (ref : string) :
  isValidGitRef ref = true →
  ref ≠ "" ∧ has_prefix ref "-" = false ∧ contains ref ".." = false ∧
  str_all nginx_plain ref = true ∧ len ref ≤ 255.
Proof.
  unfold isValidGitRef. intros H. case_hyp H; [done|]. case_hyp H; [done|]. bool_hyps.
  split_and!; try done.
  - within gitRefRegex.
  - apply re_match_spec in H.
    pose proof (re_maxlen_sound gitRefRegex ref 255 eq_refl H). unfold len. lia.
Qed.

Lemma isValidGitRef_safe_witness :
  isValidGitRef "release/v1.0" = true ∧ has_prefix "release/v1.0" "-" = false.
Proof. split; [reflexivity|]. apply isValidGitRef_safe. reflexivity. Defined.
