(* ===== verification/Cron.v ===== *)
(** The cron expressions of the backup schedules
    (src/internal/store/backupschedules.go): [parseCronField] and
    [NextCronRun], over a model of the proleptic Gregorian calendar that Go's
    [time] package implements.  A [time.Time] is its wall clock in nanoseconds
    since 1970-01-01 00:00 in a zone of fixed offset, so [Add] and [time.Date]
    agree; a zone change inside the searched year is outside the model. *)
From S2P Require Import Prelude GoStr.
Local Open Scope Z_scope.
Local Open Scope panel_scope.

(** * The calendar *)

(** The first day, from 1970-01-01, of the year of number [y] when years start
    in March, and of its month [mp] (0 is March). *)
Definition march_year (y : Z) : Z := 365 * y + y / 4 - y / 100 + y / 400 - 719468.
Definition march_month (M : Z) : Z := march_year (M / 12) + (153 * (M mod 12) + 2) / 5.

(** Days from 1970-01-01 to the day [d] of month [m] of year [y]; a month past
    December belongs to a later year and the days are counted linearly. *)
Definition days_from_civil (y m d : Z) : Z := march_month (12 * y + m - 3) + (d - 1).

Record civil := Civil { c_year : Z; c_month : Z; c_day : Z }.

(** The era of 400 years, its century, the four-year cycle of the century and
    the year of the cycle, then the month of the March year. *)
Definition civil_from_days (z : Z) : civil :=
  let z' := z + 719468 in
  let era := z' / 146097 in
  let doe := z' mod 146097 in
  let c := Z.min (doe / 36524) 3 in
  let doc := doe - 36524 * c in
  let q := doc / 1461 in
  let doq := doc - 1461 * q in
  let r := Z.min (doq / 365) 3 in
  let doy := doq - 365 * r in
  let mp := (5 * doy + 2) / 153 in
  let m := if mp <? 10 then mp + 3 else mp - 9 in
  Civil (400 * era + 100 * c + 4 * q + r + (if mp <? 10 then 0 else 1)) m
        (doy - (153 * mp + 2) / 5 + 1).

Definition Second : Z := 1000000000.
Definition Minute : Z := 60 * Second.
Definition Hour : Z := 60 * Minute.
Definition DayNs : Z := 24 * Hour.

(** The accessors of [time.Time] and [time.Date] with zero seconds and
    nanoseconds, which normalises a month past December and a day past the
    end of its month. *)
Definition t_civil (t : Z) : civil := civil_from_days (t / DayNs).
Definition t_year (t : Z) : Z := c_year (t_civil t).
Definition t_month (t : Z) : Z := c_month (t_civil t).
Definition t_day (t : Z) : Z := c_day (t_civil t).
Definition t_hour (t : Z) : Z := (t mod DayNs) / Hour.
Definition t_minute (t : Z) : Z := (t mod Hour) / Minute.
Definition t_weekday (t : Z) : Z := (t / DayNs + 4) mod 7.

Definition time_Date (y m d h mi : Z) : Z :=
  days_from_civil y m d * DayNs + h * Hour + mi * Minute.

(** * [parseCronField] *)

(** [for i := start; i <= end; i += step], adding the [i] of the field's range
    to the set; the increment wraps around like Go's [int].  [None]: the fuel
    is used up. *)
Fixpoint for_steps (fuel : nat) (i stop step lo hi : Z) (set : gset Z) : option (gset Z) :=
  match fuel with
  | O => None
  | S f =>
      if i <=? stop then
        for_steps f (wrap64 (i + step)) stop step lo hi
          (if (lo <=? i) && (i <=? hi) then {[ i ]} ∪ set else set)
      else Some set
  end.

(** One comma-separated part, already trimmed. *)
Definition parse_part (fuel : nat) (part : string) (lo hi : Z) (set : gset Z) : option (gset Z) :=
  if contains part "/" then
    let '(p0, p1) := split2 "/" part in
    let start := if (p0 =? "*")%string then lo else fst (atoi p0) in
    let step := fst (atoi (default "" p1)) in
    for_steps fuel start hi (if step <=? 0 then 1 else step) lo hi set
  else if contains part "-" then
    let '(p0, p1) := split2 "-" part in
    for_steps fuel (fst (atoi p0)) (fst (atoi (default "" p1))) 1 lo hi set
  else
    let v := fst (atoi part) in
    Some (if (lo <=? v) && (v <=? hi) then {[ v ]} ∪ set else set).

Fixpoint parse_parts (fuel : nat) (parts : list string) (lo hi : Z) (set : gset Z) : option (gset Z) :=
  match parts with
  | [] => Some set
  | p :: ps => match parse_part fuel (trim_space p) lo hi set with
               | None => None
               | Some set' => parse_parts fuel ps lo hi set'
               end
  end.

(** The Go map is a set, read only through membership and size, so the order
    of [toSlice] is not observable. *)
Definition parseCronField (fuel : nat) (field : string) (lo hi : Z) : option (gset Z) :=
  if (field =? "*")%string then for_steps fuel lo hi 1 lo hi ∅
  else parse_parts fuel (split "," field) lo hi ∅.

(** * [NextCronRun] *)

Record cron_sets := CronSets {
  minutes : gset Z; hours : gset Z; daysOfMonth : gset Z; months : gset Z; daysOfWeek : gset Z }.

Definition containsInt (s : gset Z) (v : Z) : bool := bool_decide (v ∈ s).

(** The day test, with the two day fields combined as the code does. *)
Definition day_matched (c : cron_sets) (t : Z) : bool :=
  let dayMatch := containsInt (daysOfMonth c) (t_day t) in
  let weekMatch := containsInt (daysOfWeek c) (t_weekday t) in
  let domAll := Nat.eqb (size (daysOfMonth c)) 31 in
  let dowAll := Nat.eqb (size (daysOfWeek c)) 7 in
  if domAll && dowAll then true
  else if domAll && negb dowAll then weekMatch
  else if negb domAll && dowAll then dayMatch
  else dayMatch || weekMatch.

(** The jumps to the start of the next month and of the next day. *)
Definition next_month (t : Z) : Z := time_Date (t_year t) (t_month t + 1) 1 0 0.
Definition next_day (t : Z) : Z := time_Date (t_year t) (t_month t) (t_day t + 1) 0 0.

(** The search loop; [None] is the loop left by its bound. *)
Fixpoint cron_search (n : nat) (c : cron_sets) (next : Z) : option Z :=
  match n with
  | O => None
  | S n' =>
      if negb (containsInt (months c) (t_month next)) then
        cron_search n' c (next_month next)
      else if negb (day_matched c next) then
        cron_search n' c (next_day next)
      else if containsInt (hours c) (t_hour next) && containsInt (minutes c) (t_minute next) then
        Some next
      else cron_search n' c (next + Minute)
  end.

Definition search_bound : Z := 525960.

Definition first_candidate (after : Z) : Z :=
  let next := after + Minute in
  time_Date (t_year next) (t_month next) (t_day next) (t_hour next) (t_minute next).

Definition parse_cron (fuel : nat) (f0 f1 f2 f3 f4 : string) : option cron_sets :=
  match parseCronField fuel f0 0 59, parseCronField fuel f1 0 23, parseCronField fuel f2 1 31,
        parseCronField fuel f3 1 12, parseCronField fuel f4 0 6 with
  | Some mi, Some h, Some dm, Some mo, Some dw => Some (CronSets mi h dm mo dw)
  | _, _, _, _, _ => None
  end.

(** [None]: the fuel of the field loops is used up. *)
Definition NextCronRun (fuel : nat) (cronExpr : string) (after : Z) : option Z :=
  match fields cronExpr with
  | [f0; f1; f2; f3; f4] =>
      match parse_cron fuel f0 f1 f2 f3 f4 with
      | None => None
      | Some c =>
          Some (default (after + 24 * Hour)
                  (cron_search (Z.to_nat search_bound) c (first_candidate after)))
      end
  | _ => Some (after + 24 * Hour)
  end.

(** * Facts about the calendar *)

(** The months numbered from March of year 0. *)
Definition month_index (c : civil) : Z := 12 * c_year c + c_month c - 3.

Lemma march_year_next (y : Z) : march_year y + 365 ≤ march_year (y + 1).
Proof. unfold march_year. dlia. Qed.

Lemma march_month_next (M : Z) : march_month M < march_month (M + 1).
Proof.
  unfold march_month. pose proof (march_year_next (M / 12)).
  destruct (Z.eq_dec (M mod 12) 11).
  - replace ((M + 1) / 12) with (M / 12 + 1) by dlia.
    replace ((M + 1) mod 12) with 0 by dlia. rewrite e. dlia.
  - replace ((M + 1) / 12) with (M / 12) by dlia. dlia.
Qed.

Lemma march_month_mono (M N : Z) : M ≤ N → march_month M ≤ march_month N.
Proof.
  intros H. replace N with (M + Z.of_nat (Z.to_nat (N - M))) by lia.
  generalize (Z.to_nat (N - M)). clear H. induction n as [|n IH]; [rewrite Z.add_0_r; done|].
  pose proof (march_month_next (M + Z.of_nat n)).
  replace (M + Z.of_nat (S n)) with (M + Z.of_nat n + 1) by lia. lia.
Qed.

(** The decomposition of a day number that [civil_from_days] computes. *)
Lemma civil_decompose (z : Z) :
  ∃ y mp d, let c := civil_from_days z in
    0 ≤ mp ≤ 11 ∧ 1 ≤ d ≤ 31 ∧ c_day c = d ∧ month_index c = 12 * y + mp ∧ 1 ≤ c_month c ≤ 12 ∧
    z = march_year y + (153 * mp + 2) / 5 + (d - 1) ∧ z < march_month (12 * y + mp + 1).
Proof.
  unfold civil_from_days, month_index, march_month. cbn [c_year c_month c_day].
  pose proof (Z.mod_pos_bound (z + 719468) 146097 eq_refl) as Hb.
  pose proof (Z.div_mod (z + 719468) 146097 ltac:(lia)) as Hz.
  set (era := (z + 719468) / 146097) in *. set (doe := (z + 719468) mod 146097) in *.
  clearbody era doe.
  remember (Z.min (doe / 36524) 3) as c eqn:Ec. assert (Hc : 0 ≤ c ≤ 3 ∧ 0 ≤ doe - 36524 * c ≤ 36524 ∧
    (doe - 36524 * c = 36524 → c = 3)) by dlia.
  remember (doe - 36524 * c) as doc eqn:Edoc. assert (Hdoe : doe = 36524 * c + doc) by lia. clear Ec Edoc.
  remember (doc / 1461) as q eqn:Eq. assert (Hq : 0 ≤ q ≤ 24 ∧ 0 ≤ doc - 1461 * q ≤ 1460 ∧
    (doc - 1461 * q = 1460 → q = 24 → c = 3)) by dlia.
  remember (doc - 1461 * q) as doq eqn:Edoq. assert (Hdoc : doc = 1461 * q + doq) by lia. clear Eq Edoq.
  remember (Z.min (doq / 365) 3) as r eqn:Er. assert (Hr : 0 ≤ r ≤ 3 ∧ 0 ≤ doq - 365 * r ≤ 365 ∧
    (doq - 365 * r = 365 → r = 3 ∧ (q = 24 → c = 3))) by dlia.
  remember (doq - 365 * r) as doy eqn:Edoy. assert (Hdoq : doq = 365 * r + doy) by lia. clear Er Edoy.
  remember ((5 * doy + 2) / 153) as mp eqn:Emp. assert (Hmp : 0 ≤ mp ≤ 11) by dlia.
  assert (Hd : (153 * mp + 2) / 5 ≤ doy ≤ (153 * mp + 2) / 5 + 30 ∧
    doy < (153 * (mp + 1) + 2) / 5) by dlia. clear Emp.
  remember (400 * era + 100 * c + 4 * q + r) as y eqn:Ey.
  assert (Hy : y / 4 = 100 * era + 25 * c + q ∧ y / 100 = 4 * era + c ∧ y / 400 = era) by dlia.
  assert (Hn : (doy = 365 → march_year (y + 1) = march_year y + 366)).
  { intros. unfold march_year.
    replace ((y + 1) / 4) with (100 * era + 25 * c + q + 1) by dlia.
    replace ((y + 1) / 100) with (4 * era + c + (if q =? 24 then 1 else 0)) by (case_match; dlia).
    replace ((y + 1) / 400) with (era + (if q =? 24 then 1 else 0)) by (case_match; dlia).
    case_match; dlia. }
  exists y, mp, (doy - (153 * mp + 2) / 5 + 1).
  assert (Hm : (12 * y + mp + 1) / 12 = (if mp =? 11 then y + 1 else y) ∧
               (12 * y + mp + 1) mod 12 = (if mp =? 11 then 0 else mp + 1))
    by (case_match; dlia).
  destruct Hm as [-> ->]. pose proof (march_year_next y).
  repeat split; try dlia.
  1-3: destruct (mp <? 10) eqn:E; dlia.
  - unfold march_year. dlia.
  - assert (z = march_year y + doy) by (unfold march_year; dlia).
    destruct (mp =? 11) eqn:E; dlia.
Qed.

Lemma civil_facts (z : Z) :
  let c := civil_from_days z in
  1 ≤ c_month c ≤ 12 ∧ 1 ≤ c_day c ≤ 31 ∧
  days_from_civil (c_year c) (c_month c) (c_day c) = z ∧
  march_month (month_index c) ≤ z < march_month (month_index c + 1).
Proof.
  destruct (civil_decompose z) as (y & mp & d & H). cbn zeta in *.
  destruct H as (Hmp & Hd & Ed & Ei & Hm & Ez & Hn).
  assert (march_month (month_index (civil_from_days z)) = march_year y + (153 * mp + 2) / 5) as Em.
  { rewrite Ei. unfold march_month. f_equal; [f_equal; dlia|]. do 2 f_equal. dlia. }
  unfold days_from_civil. unfold month_index in *. rewrite Ei in *. rewrite Em. dlia.
Qed.

(** The month does not change before the first day of the next one. *)
Lemma same_month (z x : Z) :
  z ≤ x < march_month (month_index (civil_from_days z) + 1) →
  c_month (civil_from_days x) = c_month (civil_from_days z).
Proof.
  intros [Hl Hu].
  destruct (civil_facts z) as (Hm & _ & _ & Hz). destruct (civil_facts x) as (Hm' & _ & _ & Hx).
  assert (month_index (civil_from_days x) = month_index (civil_from_days z)) as E.
  { destruct (Z.lt_trichotomy (month_index (civil_from_days x)) (month_index (civil_from_days z)))
      as [H|[H|H]]; [|done|].
    - pose proof (march_month_mono (month_index (civil_from_days x) + 1)
                    (month_index (civil_from_days z)) ltac:(lia)). lia.
    - pose proof (march_month_mono (month_index (civil_from_days z) + 1)
                    (month_index (civil_from_days x)) ltac:(lia)). lia. }
  unfold month_index in E. lia.
Qed.

(** * The search *)

#[local] Opaque civil_from_days.

(** The reference: the minute [t] satisfies the parsed expression. *)
Definition cron_matches (c : cron_sets) (t : Z) : bool :=
  containsInt (months c) (t_month t) && day_matched c t &&
  containsInt (hours c) (t_hour t) && containsInt (minutes c) (t_minute t).

Definition on_minute (t : Z) : Prop := t mod Minute = 0.

Lemma days_linear (y m d k : Z) : days_from_civil y m (d + k) = days_from_civil y m d + k.
Proof. unfold days_from_civil. lia. Qed.

Lemma on_minute_inv (t : Z) : on_minute t → t = t / Minute * Minute.
Proof. unfold on_minute, Minute, Second. intros H. dlia. Qed.

Lemma on_minute_mul (k : Z) : on_minute (k * Minute).
Proof. apply Z.mod_mul. done. Qed.

(** The day, hour and minute of a time from its minute number. *)
Lemma day_of_minute (t : Z) : t / DayNs = t / Minute / 1440.
Proof. rewrite Z.div_div by done. done. Qed.

Lemma hour_of_minute (t : Z) : t_hour t = (t / Minute) mod 1440 / 60.
Proof.
  unfold t_hour. change DayNs with (Minute * 1440). change Hour with (Minute * 60).
  rewrite Z.rem_mul_r, <- Z.div_div by done.
  rewrite (Z.mul_comm Minute), Z_div_plus, (Z.div_small (t mod Minute)) by
    (done || by apply Z.mod_pos_bound). done.
Qed.

Lemma minute_of_minute (t : Z) : t_minute t = (t / Minute) mod 60.
Proof.
  unfold t_minute. change Hour with (Minute * 60).
  rewrite Z.rem_mul_r by done.
  rewrite (Z.mul_comm Minute), Z_div_plus, (Z.div_small (t mod Minute)) by
    (done || by apply Z.mod_pos_bound). done.
Qed.

Lemma Date_minutes (y m d h mi : Z) :
  time_Date y m d h mi = (days_from_civil y m d * 1440 + h * 60 + mi) * Minute.
Proof. unfold time_Date, DayNs, Hour. lia. Qed.

(** Pass from times on a minute to their minute numbers. *)
Ltac to_minutes :=
  repeat match goal with
  | H : on_minute ?t |- _ =>
      is_var t; apply on_minute_inv in H;
      let k := fresh "k" in let E := fresh in remember (t / Minute) as k eqn:E; clear E; subst t
  end;
  rewrite ?day_of_minute, ?Z.div_mul in * by done; unfold Minute, Second in *.

(** Jumping to the next day skips the rest of the day only. *)
Lemma next_day_eq (t : Z) : next_day t = (t / DayNs + 1) * 1440 * Minute.
Proof.
  destruct (civil_facts (t / DayNs)) as (_ & _ & Hd & _).
  unfold next_day. rewrite Date_minutes, days_linear. unfold t_year, t_month, t_day, t_civil.
  rewrite Hd. clear Hd. generalize (t / DayNs). intros z. f_equal. lia.
Qed.

Lemma next_day_later (t : Z) : on_minute t → t + Minute ≤ next_day t.
Proof.
  intros Ht. rewrite next_day_eq. to_minutes.
  assert (k + 1 ≤ (k / 1440 + 1) * 1440) by dlia. lia.
Qed.

Lemma next_day_same (t x : Z) : on_minute t → on_minute x → t ≤ x < next_day t → x / DayNs = t / DayNs.
Proof.
  rewrite next_day_eq. intros Ht Hox Hx. to_minutes.
  assert (k0 ≤ k < (k0 / 1440 + 1) * 1440) as H by lia. clear Hx. dlia.
Qed.

(** Jumping to the next month skips the rest of the month only. *)
Lemma next_month_eq (t : Z) : next_month t = march_month (month_index (t_civil t) + 1) * 1440 * Minute.
Proof.
  unfold next_month. rewrite Date_minutes. unfold t_year, t_month, days_from_civil, month_index.
  generalize (t_civil t). intros c.
  replace (12 * c_year c + (c_month c + 1) - 3) with (12 * c_year c + c_month c - 3 + 1) by lia.
  generalize (march_month (12 * c_year c + c_month c - 3 + 1)). intros z. f_equal. lia.
Qed.

Lemma next_month_later (t : Z) : on_minute t → t + Minute ≤ next_month t.
Proof.
  intros Ht. rewrite next_month_eq. unfold t_civil.
  destruct (civil_facts (t / DayNs)) as (_ & _ & _ & _ & Hu).
  revert Hu. generalize (march_month (month_index (civil_from_days (t / DayNs)) + 1)).
  intros e Hu. to_minutes.
  assert (k + 1 ≤ e * 1440) by dlia. lia.
Qed.

Lemma next_month_same (t x : Z) :
  on_minute t → on_minute x → t ≤ x < next_month t → t_month x = t_month t.
Proof.
  rewrite next_month_eq. intros Ht Hox Hx. unfold t_month, t_civil in *. apply same_month.
  revert Hx. generalize (march_month (month_index (civil_from_days (t / DayNs)) + 1)).
  intros e Hx. to_minutes.
  assert (k0 ≤ k < e * 1440) as H by lia. clear Hx. dlia.
Qed.

Lemma day_matched_day (c : cron_sets) (x t : Z) :
  x / DayNs = t / DayNs → day_matched c x = day_matched c t.
Proof. intros E. unfold day_matched, t_day, t_civil, t_weekday. by rewrite E. Qed.

(** No minute of [a, b) matches. *)
Definition no_match (c : cron_sets) (a b : Z) : Prop :=
  ∀ x, a ≤ x < b → on_minute x → cron_matches c x = false.

Lemma no_match_join (c : cron_sets) (a m b : Z) : no_match c a m → no_match c m b → no_match c a b.
Proof. intros H1 H2 x Hx Ho. destruct (Z.lt_ge_cases x m); [apply H1 | apply H2]; (done || lia). Qed.

Lemma no_match_minute (c : cron_sets) (t : Z) :
  on_minute t → cron_matches c t = false → no_match c t (t + Minute).
Proof.
  intros Ht Hc x Hx Ho. assert (x = t) as -> by (clear Hc; to_minutes; lia). done.
Qed.

Definition search_ok (c : cron_sets) (n : nat) (t : Z) (o : option Z) : Prop :=
  match o with
  | Some r => t ≤ r ∧ on_minute r ∧ cron_matches c r = true ∧ no_match c t r
  | None => no_match c t (t + Z.of_nat n * Minute)
  end.

Lemma search_ok_step (c : cron_sets) (n : nat) (t t' : Z) (o : option Z) :
  t + Minute ≤ t' → no_match c t t' → search_ok c n t' o → search_ok c (S n) t o.
Proof.
  intros Hs Hn Ho. destruct o as [r|]; cbn in *.
  - destruct Ho as (H1 & H2 & H3 & H4). unfold Minute, Second in *. repeat split; [lia|done|done|].
    by apply no_match_join with t'.
  - intros x Hx. apply (no_match_join _ _ _ _ Hn Ho). unfold Minute, Second in *. lia.
Qed.

Lemma cron_search_ok (c : cron_sets) (n : nat) (t : Z) :
  on_minute t → search_ok c n t (cron_search n c t).
Proof.
  revert t. induction n as [|n IH]; intros t Ht; cbn [cron_search].
  { intros x Hx. lia. }
  destruct (containsInt (months c) (t_month t)) eqn:Em; cbn [negb].
  2: { apply search_ok_step with (next_month t); [by apply next_month_later| |].
       - intros x Hx Hox. unfold cron_matches. by rewrite (next_month_same t x), Em.
       - apply IH. rewrite next_month_eq. apply on_minute_mul. }
  destruct (day_matched c t) eqn:Ed; cbn [negb].
  2: { apply search_ok_step with (next_day t); [by apply next_day_later| |].
       - intros x Hx Hox. unfold cron_matches.
         by rewrite (day_matched_day c x t (next_day_same t x Ht Hox Hx)), Ed, andb_false_r.
       - apply IH. rewrite next_day_eq. apply on_minute_mul. }
  assert (cron_matches c t = containsInt (hours c) (t_hour t) && containsInt (minutes c) (t_minute t)) as E
    by (unfold cron_matches; by rewrite Em, Ed).
  rewrite <- E. destruct (cron_matches c t) eqn:Ec.
  - cbn. repeat split; [lia|done|done|]. intros x Hx. lia.
  - apply search_ok_step with (t + Minute); [lia|by apply no_match_minute|].
    apply IH. apply on_minute_inv in Ht. rewrite Ht.
    replace (t / Minute * Minute + Minute) with ((t / Minute + 1) * Minute) by lia.
    apply on_minute_mul.
Qed.

Lemma first_candidate_eq (t : Z) : first_candidate t = (t / Minute + 1) * Minute.
Proof.
  unfold first_candidate. rewrite Date_minutes, hour_of_minute, minute_of_minute.
  unfold t_year, t_month, t_day, t_civil.
  destruct (civil_facts ((t + Minute) / DayNs)) as (_ & _ & -> & _).
  rewrite day_of_minute. replace (t + Minute) with (t + 1 * Minute) by lia.
  rewrite Z_div_plus by done. f_equal. dlia.
Qed.

Lemma first_candidate_spec (t : Z) :
  on_minute (first_candidate t) ∧ t < first_candidate t.
Proof.
  rewrite first_candidate_eq. split; [apply on_minute_mul|].
  pose proof (Z.mod_pos_bound t Minute eq_refl). pose proof (Z.div_mod t Minute ltac:(done)). lia.
Qed.

(** * The fields *)

(** What one trimmed part denotes, as an arithmetical predicate. *)
Definition part_mem (lo hi : Z) (part : string) (v : Z) : bool :=
  (lo <=? v) && (v <=? hi) &&
  (if contains part "/" then
     let '(p0, p1) := split2 "/" part in
     let start := if (p0 =? "*")%string then lo else fst (atoi p0) in
     let step := Z.max 1 (fst (atoi (default "" p1))) in
     (start <=? v) && ((v - start) mod step =? 0)
   else if contains part "-" then
     let '(p0, p1) := split2 "-" part in
     (fst (atoi p0) <=? v) && (v <=? fst (atoi (default "" p1)))
   else v =? fst (atoi part)).

Definition field_mem (lo hi : Z) (field : string) (v : Z) : bool :=
  if (field =? "*")%string then (lo <=? v) && (v <=? hi)
  else existsb (λ p, part_mem lo hi (trim_space p) v) (split "," field).

(** The numbers of a part do not drive its loop across the end of [int]. *)
Definition part_bounded (hi : Z) (part : string) : bool :=
  if contains part "/" then
    fst (atoi (default "" (snd (split2 "/" part)))) <=? max_int64 - hi
  else if contains part "-" then
    fst (atoi (default "" (snd (split2 "-" part)))) <? max_int64
  else true.

Definition field_bounded (hi : Z) (field : string) : bool :=
  forallb (λ p, part_bounded hi (trim_space p)) (split "," field).

Lemma atoi_range (s : string) : min_int64 ≤ fst (atoi s) ≤ max_int64.
Proof.
  unfold atoi. repeat case_goal; bool_hyps; cbn [fst]; unfold min_int64, max_int64 in *; lia.
Qed.

Definition eventually (P : nat → Prop) : Prop := ∃ f0, ∀ f, (f0 ≤ f)%nat → P f.

Lemma eventually_and (P Q : nat → Prop) :
  eventually P → eventually Q → eventually (λ f, P f ∧ Q f).
Proof.
  intros [a Ha] [b Hb]. exists (a `max` b)%nat. intros f Hf.
  split; [apply Ha | apply Hb]; lia.
Qed.

Lemma eventually_mono (P Q : nat → Prop) : (∀ f, P f → Q f) → eventually P → eventually Q.
Proof. intros H [a Ha]. exists a. intros f Hf. apply H, Ha, Hf. Qed.

Definition adds (set s : gset Z) (p : Z → bool) : Prop :=
  ∀ v, v ∈ s ↔ v ∈ set ∨ p v = true.

Definition step_mem (i stop step lo hi v : Z) : bool :=
  (lo <=? v) && (v <=? hi) && ((i <=? v) && (v <=? stop) && ((v - i) mod step =? 0)).

Lemma step_mem_next (i stop step lo hi v : Z) :
  0 < step → i ≤ stop →
  step_mem i stop step lo hi v =
    (lo <=? v) && (v <=? hi) && (v =? i) || step_mem (i + step) stop step lo hi v.
Proof.
  intros Hs Hi. unfold step_mem.
  destruct ((lo <=? v) && (v <=? hi)); cbn [andb orb]; [|done].
  apply eq_true_iff_eq.
  rewrite orb_true_iff, !andb_true_iff, !Z.leb_le, !Z.eqb_eq.
  replace (v - i) with (v - (i + step) + 1 * step) by lia. rewrite Z_mod_plus_full.
  split.
  - intros [[H1 H2] H3]. destruct (Z.eq_dec v i) as [->|Hn]; [by left|]. right.
    repeat split; [|done|done].
    apply Z.mod_divide in H3; [|lia]. destruct H3 as [k Hk].
    assert (0 ≤ k ∨ k ≤ -1) as [|] by lia; nia.
  - intros [->|[[H1 H2] H3]].
    + repeat split; [lia|lia|]. apply Z.mod_divide; [lia|]. exists (-1). lia.
    + repeat split; [lia|lia|done].
Qed.

Lemma for_steps_spec (i stop step lo hi : Z) (set : gset Z) :
  0 < step → min_int64 ≤ i → stop + step ≤ max_int64 →
  eventually (λ f, ∃ s, for_steps f i stop step lo hi set = Some s ∧
                        adds set s (step_mem i stop step lo hi)).
Proof.
  intros Hs. remember (Z.to_nat (stop + 1 - i)) as n eqn:En. revert i set En.
  induction (lt_wf n) as [n _ IH]. intros i set En Hi Hm.
  destruct (Z.leb_spec i stop) as [Hl|Hl].
  - destruct (IH (Z.to_nat (stop + 1 - (i + step))) ltac:(lia) (i + step)
      (if (lo <=? i) && (i <=? hi) then {[ i ]} ∪ set else set) eq_refl ltac:(lia) Hm) as [f0 Hf].
    exists (S f0). intros [|f] Hle; [lia|]. cbn [for_steps].
    rewrite (proj2 (Z.leb_le i stop) Hl), wrap64_id by lia.
    destruct (Hf f ltac:(lia)) as (s & Es & Hadd). exists s. split; [done|].
    intros v. rewrite (Hadd v), (step_mem_next i) by done. rewrite orb_true_iff.
    destruct ((lo <=? i) && (i <=? hi)) eqn:E.
    + rewrite elem_of_union, elem_of_singleton. split.
      * intros [[->|]|]; [right; left; by rewrite E, Z.eqb_refl|by left|by right; right].
      * intros [|[H|]]; [tauto| |tauto]. bool_hyps. tauto.
    + split; [tauto|]. intros [|[H|]]; [tauto| |tauto].
      bool_hyps. subst v. destruct E; bool_hyps; lia.
  - exists 1%nat. intros [|f] Hle; [lia|]. cbn [for_steps].
    rewrite (proj2 (Z.leb_gt i stop) Hl). exists set. split; [done|].
    intros v. unfold step_mem. split; [by left|]. intros [|H]; [done|]. bool_hyps. lia.
Qed.

Lemma adds_ext (set s : gset Z) (p q : Z → bool) : (∀ v, p v = q v) → adds set s p → adds set s q.
Proof. intros E H v. by rewrite (H v), E. Qed.

Lemma parse_part_spec (part : string) (lo hi : Z) (set : gset Z) :
  min_int64 ≤ lo → part_bounded hi part = true → hi < max_int64 →
  eventually (λ f, ∃ s, parse_part f part lo hi set = Some s ∧ adds set s (part_mem lo hi part)).
Proof.
  unfold part_bounded, parse_part, part_mem. intros Hlo Hb Hhi. repeat case_hyp Hb.
  - destruct (split2 "/" part) as [p0 p1]. cbn [snd] in Hb. bool_hyps.
    set (step := fst (atoi (default "" p1))) in *.
    replace (Z.max 1 step) with (if step <=? 0 then 1 else step) by (case_match; bool_hyps; lia).
    set (step' := if step <=? 0 then 1 else step).
    set (start := if (p0 =? "*")%string then lo else fst (atoi p0)).
    assert (min_int64 ≤ start) by (subst start; case_match; [done|apply atoi_range]).
    eapply eventually_mono; [|apply (for_steps_spec start hi step' lo hi set); [|done|]].
    + intros f (s & Es & Ha). exists s. split; [done|]. revert Ha. apply adds_ext.
      intros v. unfold step_mem. destruct (lo <=? v), (v <=? hi), (start <=? v); done.
    + subst step'. case_match; bool_hyps; lia.
    + subst step'. case_match; bool_hyps; lia.
  - destruct (split2 "-" part) as [p0 p1]. cbn [snd] in Hb. bool_hyps.
    pose proof (atoi_range p0).
    eapply eventually_mono; [|apply (for_steps_spec (fst (atoi p0)) (fst (atoi (default "" p1))) 1 lo hi set); lia].
    intros f (s & E' & Ha). exists s. split; [done|]. revert Ha. apply adds_ext.
    intros v. unfold step_mem. by rewrite Z.mod_1_r, Z.eqb_refl, andb_true_r.
  - exists O. intros f _. eexists. split; [done|]. intros v.
    destruct ((lo <=? fst (atoi part)) && (fst (atoi part) <=? hi)) eqn:Er.
    + rewrite elem_of_union, elem_of_singleton, andb_true_iff, Z.eqb_eq. split; [|tauto].
      intros [->|]; [by right|by left].
    + split; [by left|]. intros [|H]; [done|]. bool_hyps. subst v. destruct Er; bool_hyps; lia.
Qed.

Lemma parse_parts_spec (parts : list string) (lo hi : Z) (set : gset Z) :
  min_int64 ≤ lo → hi < max_int64 → forallb (λ p, part_bounded hi (trim_space p)) parts = true →
  eventually (λ f, ∃ s, parse_parts f parts lo hi set = Some s ∧
                        adds set s (λ v, existsb (λ p, part_mem lo hi (trim_space p) v) parts)).
Proof.
  intros Hlo Hhi. revert set. induction parts as [|p ps IH]; intros set Hb; cbn in *.
  { exists O. intros f _. exists set. split; [done|]. intros v. split; [by left|by intros [|]]. }
  apply andb_prop in Hb as [Hp Hps].
  destruct (parse_part_spec (trim_space p) lo hi set Hlo Hp Hhi) as [f0 Hf].
  destruct (Hf f0 (le_n _)) as (s0 & E0 & A0).
  eapply eventually_mono; [|apply eventually_and; [exists f0; exact Hf|exact (IH s0 Hps)]].
  cbn beta. intros f ((s1 & E1 & A1) & (s & E2 & A2)). rewrite E1.
  assert (s1 = s0) as -> by (apply set_eq; intros v; by rewrite (A1 v), (A0 v)).
  exists s. split; [done|]. intros v. rewrite (A2 v), (A0 v), orb_true_iff. tauto.
Qed.

Lemma parseCronField_spec (field : string) (lo hi : Z) :
  min_int64 ≤ lo → hi < max_int64 → field_bounded hi field = true →
  eventually (λ f, ∃ s, parseCronField f field lo hi = Some s ∧
                        ∀ v, v ∈ s ↔ field_mem lo hi field v = true).
Proof.
  intros Hlo Hhi Hb. unfold parseCronField, field_mem. case_goal.
  - eapply eventually_mono; [|apply (for_steps_spec lo hi 1 lo hi ∅); lia].
    intros f (s & E1 & A). exists s. split; [done|]. intros v. rewrite (A v). unfold step_mem.
    rewrite Z.mod_1_r, Z.eqb_refl, andb_true_r, andb_diag. split; [|by right]. by intros [H%elem_of_empty|].
  - eapply eventually_mono; [|exact (parse_parts_spec (split "," field) lo hi ∅ Hlo Hhi Hb)].
    intros f (s & E1 & A). exists s. split; [done|]. intros v. rewrite (A v).
    split; [|by right]. by intros [H%elem_of_empty|].
Qed.

Definition field_all (lo hi : Z) (field : string) : bool :=
  forallb (field_mem lo hi field) (seqZ lo (hi - lo + 1)).

(** The reference reading of a five-field expression: no set, no jump. *)
Definition expr_matches (f0 f1 f2 f3 f4 : string) (t : Z) : bool :=
  let dom := field_mem 1 31 f2 (t_day t) in
  let dow := field_mem 0 6 f4 (t_weekday t) in
  let day := if field_all 1 31 f2 then if field_all 0 6 f4 then true else dow
             else if field_all 0 6 f4 then dom else dom || dow in
  field_mem 1 12 f3 (t_month t) && day &&
  field_mem 0 23 f1 (t_hour t) && field_mem 0 59 f0 (t_minute t).

Lemma field_mem_range (lo hi : Z) (field : string) (v : Z) : field_mem lo hi field v = true → lo ≤ v ≤ hi.
Proof.
  unfold field_mem. case_goal; intros H; [bool_hyps; lia|].
  apply existsb_True, Exists_exists in H as (p & _ & H). unfold part_mem in H.
  apply andb_prop in H as [H _]. bool_hyps. lia.
Qed.

Lemma size_full (s : gset Z) (lo hi : Z) (field : string) (n : nat) :
  (∀ v, v ∈ s ↔ field_mem lo hi field v = true) → Z.of_nat n = hi - lo + 1 →
  Nat.eqb (size s) n = field_all lo hi field.
Proof.
  intros Hs Hn. set (R := list_to_set (seqZ lo (hi - lo + 1)) : gset Z).
  assert (size R = n) as HR.
  { unfold R. rewrite size_list_to_set by apply NoDup_seqZ. rewrite length_seqZ. lia. }
  assert (s ⊆ R) as Hsub.
  { intros v Hv%Hs%field_mem_range. apply elem_of_list_to_set, elem_of_seqZ. lia. }
  apply eq_true_iff_eq. unfold field_all. rewrite Nat.eqb_eq, forallb_True, Forall_forall. split.
  - intros Hsz v Hv. apply Hs. destruct (decide (R ⊆ s)) as [H|H].
    + apply H, elem_of_list_to_set, Hv.
    + pose proof (subset_size s R (conj Hsub H)). lia.
  - intros Hall. rewrite <- HR. f_equal. apply set_eq. intros v. split; [apply Hsub|].
    intros Hv%elem_of_list_to_set. by apply Hs, Hall.
Qed.

Lemma containsInt_field (s : gset Z) (lo hi : Z) (field : string) (v : Z) :
  (∀ v, v ∈ s ↔ field_mem lo hi field v = true) → containsInt s v = field_mem lo hi field v.
Proof. intros Hs. unfold containsInt. apply eq_true_iff_eq. by rewrite bool_decide_eq_true, Hs. Qed.

Definition expr_bounded (f0 f1 f2 f3 f4 : string) : bool :=
  field_bounded 59 f0 && field_bounded 23 f1 && field_bounded 31 f2 &&
  field_bounded 12 f3 && field_bounded 6 f4.

Lemma parse_cron_spec (f0 f1 f2 f3 f4 : string) :
  expr_bounded f0 f1 f2 f3 f4 = true →
  eventually (λ f, ∃ c, parse_cron f f0 f1 f2 f3 f4 = Some c ∧
                        ∀ t, cron_matches c t = expr_matches f0 f1 f2 f3 f4 t).
Proof.
  unfold expr_bounded, parse_cron. intros Hb.
  apply andb_prop in Hb as [Hb H4]. apply andb_prop in Hb as [Hb H3].
  apply andb_prop in Hb as [Hb H2]. apply andb_prop in Hb as [H0 H1].
  eapply eventually_mono; [|
    apply eventually_and; [exact (parseCronField_spec f0 0 59 ltac:(done) ltac:(done) H0)|
    apply eventually_and; [exact (parseCronField_spec f1 0 23 ltac:(done) ltac:(done) H1)|
    apply eventually_and; [exact (parseCronField_spec f2 1 31 ltac:(done) ltac:(done) H2)|
    apply eventually_and; [exact (parseCronField_spec f3 1 12 ltac:(done) ltac:(done) H3)|
                           exact (parseCronField_spec f4 0 6 ltac:(done) ltac:(done) H4)]]]]].
  cbn beta. intros f ((s0 & -> & S0) & (s1 & -> & S1) & (s2 & -> & S2) & (s3 & -> & S3) & (s4 & -> & S4)).
  eexists. split; [done|]. intros t. unfold cron_matches, expr_matches, day_matched. cbn.
  rewrite (containsInt_field s0 _ _ _ _ S0), (containsInt_field s1 _ _ _ _ S1),
    (containsInt_field s2 _ _ _ _ S2), (containsInt_field s3 _ _ _ _ S3), (containsInt_field s4 _ _ _ _ S4).
  rewrite (size_full s2 1 31 f2 31 S2), (size_full s4 0 6 f4 7 S4) by done.
  by destruct (field_all 1 31 f2), (field_all 0 6 f4).
Qed.

(** Whatever the expression, the next run is later: a whole minute or one day on. *)
Lemma NextCronRun_later (fuel : nat) (cronExpr : string) (after r : Z) :
  NextCronRun fuel cronExpr after = Some r → after < r ∧ (on_minute r ∨ r = after + 24 * Hour).
Proof.
  assert (after < after + 24 * Hour) as Hd by (unfold Hour, Minute, Second; lia).
  unfold NextCronRun. generalize (Z.to_nat search_bound). intros n.
  destruct (fields cronExpr) as [|f0 [|f1 [|f2 [|f3 [|f4 [|f5 l]]]]]];
    try (intros [= <-]; split; [exact Hd|by right]).
  destruct (parse_cron fuel f0 f1 f2 f3 f4) as [c|]; [|done]. intros [= <-].
  destruct (first_candidate_spec after) as [Ho Hl]. pose proof (cron_search_ok c n _ Ho) as Hs.
  destruct (cron_search _ c _) as [r|]; cbn [from_option id]; [|split; [exact Hd|by right]].
  destruct Hs as (H1 & H2 & _). split; [lia|by left].
Qed.

(** C34: [NextCronRun] is the least matching minute.  For a five-field expression
    whose numbers stay clear of the end of [int], the code returns, the time is
    later than [after], and it is either the first minute after [after] that the
    expression matches, or, when no minute matches within the 525,960 minutes
    that follow, the fallback one day later. *)
Theorem NextCronRun_least (cronExpr f0 f1 f2 f3 f4 : string) (after : Z)
    (Hf : fields cronExpr = [f0; f1; f2; f3; f4])
    (Hb : expr_bounded f0 f1 f2 f3 f4 = true) :
  eventually (λ fuel, ∃ r, NextCronRun fuel cronExpr after = Some r ∧ after < r ∧
    ((on_minute r ∧ expr_matches f0 f1 f2 f3 f4 r = true ∧
      ∀ t, on_minute t → after < t < r → expr_matches f0 f1 f2 f3 f4 t = false) ∨
     (r = after + 24 * Hour ∧
      ∀ t, on_minute t → after < t ≤ after + search_bound * Minute →
           expr_matches f0 f1 f2 f3 f4 t = false))).
Proof.
  eapply eventually_mono; [|exact (parse_cron_spec f0 f1 f2 f3 f4 Hb)].
  intros fuel (c & Ec & Hc). unfold NextCronRun. rewrite Hf, Ec. eexists. split; [done|].
  destruct (first_candidate_spec after) as [Ho Hl].
  pose proof (cron_search_ok c (Z.to_nat search_bound) _ Ho) as Hs.
  assert (∀ t, on_minute t → after < t → first_candidate after ≤ t) as Hfirst.
  { intros t Ht Hat. rewrite first_candidate_eq. apply on_minute_inv in Ht. rewrite Ht in Hat |- *.
    revert Hat. generalize (t / Minute). intros k Hk. unfold Minute, Second in *. dlia. }
  destruct (cron_search _ c _) as [r|]; cbn in Hs |- *.
  - destruct Hs as (H1 & H2 & H3 & H4). split; [lia|]. left.
    split; [done|]. rewrite <- Hc. split; [done|]. intros t Ht Hat. rewrite <- Hc.
    apply H4; [|done]. split; [apply Hfirst; [done|lia]|lia].
  - split; [unfold Hour, Minute, Second; lia|]. right. split; [done|]. intros t Ht Hat.
    rewrite <- Hc. apply Hs; [|done]. split; [apply Hfirst; [done|lia]|].
    revert Hat. rewrite Z2Nat.id by done. lia.
Qed.

(** Every day at 02:00, seen from 03:00 on 1 March 2025. *)
Lemma NextCronRun_least_witness :
  let after := time_Date 2025 3 1 3 0 in
  NextCronRun 100 "0 2 * * *" after = Some (time_Date 2025 3 2 2 0) ∧
  eventually (λ fuel, ∃ r, NextCronRun fuel "0 2 * * *" after = Some r ∧ after < r ∧
    ((on_minute r ∧ expr_matches "0" "2" "*" "*" "*" r = true ∧
      ∀ t, on_minute t → after < t < r → expr_matches "0" "2" "*" "*" "*" t = false) ∨
     (r = after + 24 * Hour ∧
      ∀ t, on_minute t → after < t ≤ after + search_bound * Minute →
           expr_matches "0" "2" "*" "*" "*" t = false))).
Proof.
  split; [vm_compute; reflexivity|].
  apply (NextCronRun_least "0 2 * * *" "0" "2" "*" "*" "*" _); vm_compute; reflexivity.
Defined.

Lemma for_steps_diverges (f : nat) (i lo hi : Z) (set : gset Z) :
  i ≤ max_int64 → for_steps f i max_int64 1 lo hi set = None.
Proof.
  revert i set. induction f as [|f IH]; intros i set Hi; [done|]. cbn [for_steps].
  rewrite (proj2 (Z.leb_le i max_int64) Hi). apply IH, wrap64_range.
Qed.

(** A range up to the largest [int]: the counter of its loop wraps around. *)
Definition hanging_cron : string := "0-9223372036854775807 * * * *".
Lemma hanging_cron_None (fuel : nat) (after : Z) : NextCronRun fuel hanging_cron after = None.
Proof.
  unfold NextCronRun, hanging_cron. change (fields _) with ["0-9223372036854775807"; "*"; "*"; "*"; "*"].
  cbn beta iota. unfold parse_cron, parseCronField at 1.
  change (_ =? "*")%string with false. cbn beta iota.
  change (split "," _) with ["0-9223372036854775807"]. cbn [parse_parts].
  change (trim_space _) with "0-9223372036854775807". unfold parse_part.
  change (contains _ "/") with false. change (contains _ "-") with true. cbn beta iota.
  change (split2 "-" _) with ("0", Some "9223372036854775807"). cbn beta iota.
  change (fst (atoi "0")) with 0. change (fst (atoi (default "" _))) with max_int64.
  by rewrite for_steps_diverges.
Qed.

(** a range whose upper bound is the largest [int] hangs the parser: the
    counter wraps around and the loop condition is always true, so no amount of
    fuel gives a result.  The API only checks that the expression is not empty. *)
Theorem NextCronRun_range_diverges (fuel : nat) (after : Z) :
  NextCronRun fuel "0-9223372036854775807 * * * *" after = None.
Proof. apply hanging_cron_None. Qed.

(** A step on a range is read as a step from zero: the lower and upper bounds
    are lost, because [Atoi] fails on the text before the slash. *)
Example range_step_loses_bounds :
  field_mem 0 59 "10-20/5" 0 = true ∧ field_mem 0 59 "10-20/5" 55 = true.
Proof. split; vm_compute; reflexivity. Qed.
