(* ===== verification/Sql.v ===== *)
(** The part of [database/sql] and SQLite that the stores use: tables with an
    [INTEGER PRIMARY KEY AUTOINCREMENT] column, statements that may fail, and
    the state monad in which the store functions are written.  A statement that
    fails changes nothing; whether it fails is read from the list of faults of
    the world, so every theorem holds for every pattern of failures. *)
From S2P Require Import Prelude.
Local Open Scope Z_scope.
Local Open Scope panel_scope.

(** * Tables *)

Class HasId (A : Type) := row_id : A → Z.

(** The rows in increasing order of id, and the last id handed out
    ([sqlite_sequence]); ids are never reused. *)
Record table (A : Type) := Table { t_rows : list A; t_seq : Z }.
Arguments Table {A}. Arguments t_rows {A}. Arguments t_seq {A}.

Section Table.
Context {A : Type} `{HasId A}.
Implicit Types (t : table A) (p : A → bool) (f : A → A).

Definition empty_table : table A := Table [] 0.

Definition insert_row (mk : Z → A) (t : table A) : Z * table A :=
  let id := t_seq t + 1 in (id, Table (t_rows t ++ [mk id]) id).

Definition update_where (p : A → bool) (f : A → A) (t : table A) : table A :=
  Table (map (λ r, if p r then f r else r) (t_rows t)) (t_seq t).

Definition delete_where (p : A → bool) (t : table A) : table A :=
  Table (List.filter (λ r, negb (p r)) (t_rows t)) (t_seq t).

(** In id order; [select_desc] is [ORDER BY id DESC]. *)
Definition select_where (p : A → bool) (t : table A) : list A := List.filter p (t_rows t).
Definition select_desc (p : A → bool) (t : table A) : list A := rev (select_where p t).
Definition select_one (p : A → bool) (t : table A) : option A := List.find p (t_rows t).
Definition count_where (p : A → bool) (t : table A) : Z := Z.of_nat (length (select_where p t)).

Definition by_id (id : Z) (r : A) : bool := row_id r =? id.
Definition get_row (id : Z) (t : table A) : option A := select_one (by_id id) t.

(** [LIMIT n OFFSET k]. *)
Definition limit_offset (n k : Z) (l : list A) : list A := take (Z.to_nat n) (drop (Z.to_nat k) l).

(** ** The table invariant *)

Definition id_lt (a b : A) : Prop := row_id a < row_id b.

Record table_wf (t : table A) : Prop := {
  wf_sorted : StronglySorted id_lt (t_rows t);
  wf_range : Forall (λ r, 0 < row_id r ≤ t_seq t) (t_rows t);
  wf_seq : 0 ≤ t_seq t }.

Lemma empty_wf : table_wf empty_table.
Proof. split; cbn; [constructor|constructor|lia]. Qed.

Lemma sorted_snoc (l : list A) (x : A) :
  StronglySorted id_lt l → Forall (λ r, row_id r < row_id x) l → StronglySorted id_lt (l ++ [x]).
Proof.
  induction 1 as [|y l Hs IH Hy]; intros HF; cbn; [repeat constructor|].
  apply Forall_cons in HF as [Hx HF]. constructor; [by apply IH|].
  apply Forall_app. split; [done|]. by repeat constructor.
Qed.

Lemma insert_wf (mk : Z → A) t :
  (∀ i, row_id (mk i) = i) → table_wf t → table_wf (insert_row mk t).2.
Proof.
  intros Hmk [Hs Hr Hq]. split; cbn.
  - apply sorted_snoc; [done|]. rewrite Hmk. eapply Forall_impl; [exact Hr|]. cbn. lia.
  - apply Forall_app. split; [eapply Forall_impl; [exact Hr|cbn; lia]|].
    constructor; [|constructor]. rewrite Hmk. lia.
  - lia.
Qed.

Lemma map_sorted (l : list A) (f : A → A) :
  (∀ r, row_id (f r) = row_id r) → StronglySorted id_lt l → StronglySorted id_lt (map f l).
Proof.
  intros Hf. induction 1 as [|y l Hs IH Hy]; cbn; constructor; [done|].
  apply List.Forall_map. eapply Forall_impl; [exact Hy|]. intros a Ha. unfold id_lt in *. by rewrite !Hf.
Qed.

Lemma update_wf p f t : (∀ r, row_id (f r) = row_id r) → table_wf t → table_wf (update_where p f t).
Proof.
  intros Hf [Hs Hr Hq]. split; cbn; [| |done].
  - apply map_sorted; [|done]. intros r. destruct (p r); [apply Hf|done].
  - apply List.Forall_map. eapply Forall_impl; [exact Hr|]. intros r Hx. cbn in *.
    destruct (p r); [by rewrite Hf|done].
Qed.

Lemma filter_sorted (q : A → bool) (l : list A) :
  StronglySorted id_lt l → StronglySorted id_lt (List.filter q l).
Proof.
  induction 1 as [|y l Hs IH Hy]; cbn; [constructor|]. destruct (q y); [|done].
  constructor; [done|]. apply List.Forall_forall. intros x [Hx _]%List.filter_In.
  rewrite List.Forall_forall in Hy. by apply Hy.
Qed.

Lemma delete_wf p t : table_wf t → table_wf (delete_where p t).
Proof.
  intros [Hs Hr Hq]. split; cbn; [by apply filter_sorted| |done].
  apply List.Forall_forall. intros x [Hx _]%List.filter_In. rewrite List.Forall_forall in Hr. by apply Hr.
Qed.

(** ** A property of every row *)

Definition table_all (P : A → Prop) (t : table A) : Prop := Forall P (t_rows t).

Lemma table_all_in (P : A → Prop) t r : table_all P t → In r (t_rows t) → P r.
Proof. unfold table_all. rewrite List.Forall_forall. auto. Qed.

Lemma insert_all (P : A → Prop) mk t : (∀ i, P (mk i)) → table_all P t → table_all P (insert_row mk t).2.
Proof. intros Hm Ht. apply Forall_app. split; [done|]. by repeat constructor. Qed.

Lemma update_all (P : A → Prop) p f t :
  (∀ r, p r = true → P r → P (f r)) → table_all P t → table_all P (update_where p f t).
Proof.
  intros Hf Ht. apply List.Forall_map. eapply Forall_impl; [exact Ht|]. intros r Hr. cbn.
  destruct (p r) eqn:E; auto.
Qed.

Lemma delete_all (P : A → Prop) p t : table_all P t → table_all P (delete_where p t).
Proof.
  intros Ht. apply List.Forall_forall. intros r [Hr _]%filter_In. by apply (table_all_in P t).
Qed.

(** ** Looking rows up *)

Lemma find_spec (p : A → bool) (l : list A) r : List.find p l = Some r → p r = true ∧ In r l.
Proof. intros Hf%List.find_some. tauto. Qed.

Lemma sorted_find (l : list A) r :
  StronglySorted id_lt l → In r l → List.find (by_id (row_id r)) l = Some r.
Proof.
  unfold by_id. induction 1 as [|y l Hs IH Hy]; [done|]. intros [->|Hr]; cbn.
  - by rewrite Z.eqb_refl.
  - rewrite List.Forall_forall in Hy. specialize (Hy r Hr). unfold id_lt in Hy.
    rewrite (proj2 (Z.eqb_neq _ _)) by lia. by apply IH.
Qed.

Lemma get_row_spec t id r : table_wf t → get_row id t = Some r ↔ In r (t_rows t) ∧ row_id r = id.
Proof.
  intros [Hs _ _]. split.
  - intros Hf%find_spec. unfold by_id in Hf. rewrite Z.eqb_eq in Hf. tauto.
  - intros [Hr <-]. by apply sorted_find.
Qed.

Lemma get_row_id t id r : get_row id t = Some r → row_id r = id.
Proof. intros [Hf _]%find_spec. by apply Z.eqb_eq in Hf. Qed.

Lemma wf_unique t r s : table_wf t → In r (t_rows t) → In s (t_rows t) → row_id r = row_id s → r = s.
Proof.
  intros Hw Hr Hs E. apply (sorted_find _ _ (wf_sorted _ Hw)) in Hr, Hs.
  rewrite E in Hr. congruence.
Qed.

(** [WHERE id = ?] updates one row and leaves the others. *)
Lemma get_update_id t f id i :
  (∀ r, row_id (f r) = row_id r) →
  get_row i (update_where (by_id id) f t) =
    (if i =? id then f <$> get_row i t else get_row i t).
Proof.
  intros Hf. unfold get_row, select_one, update_where, by_id. cbn.
  induction (t_rows t) as [|r l IH]; cbn; [by case_goal|].
  destruct (row_id r =? id) eqn:E1; [rewrite Hf|]; destruct (row_id r =? i) eqn:E2;
    destruct (i =? id) eqn:E3; bool_hyps; cbn; try lia; try done; apply IH.
Qed.

Lemma get_update_other t p f i :
  (∀ r, row_id (f r) = row_id r) →
  get_row i (update_where p f t) = (λ r, if p r then f r else r) <$> get_row i t.
Proof.
  intros Hf. unfold get_row, select_one, update_where, by_id. cbn.
  induction (t_rows t) as [|r l IH]; cbn; [done|].
  replace (row_id (if p r then f r else r)) with (row_id r) by (destruct (p r); [by rewrite Hf|done]).
  destruct (row_id r =? i); [done|apply IH].
Qed.

Lemma find_app (p : A → bool) (l k : list A) :
  List.find p (l ++ k) = match List.find p l with Some r => Some r | None => List.find p k end.
Proof. induction l as [|x l IH]; cbn; [done|]. by destruct (p x). Qed.

Lemma get_insert t mk i :
  (∀ i, row_id (mk i) = i) → table_wf t →
  get_row i (insert_row mk t).2 = if i =? t_seq t + 1 then Some (mk (t_seq t + 1)) else get_row i t.
Proof.
  intros Hmk [_ Hr _]. unfold get_row, select_one. cbn. rewrite find_app. cbn. unfold by_id at 2.
  rewrite Hmk. rewrite (Z.eqb_sym (t_seq t + 1)). destruct (i =? t_seq t + 1) eqn:E; bool_hyps.
  - subst i. destruct (List.find _ _) as [r|] eqn:Ef; [|done].
    apply find_spec in Ef as [Hi Hin]. apply Z.eqb_eq in Hi.
    rewrite List.Forall_forall in Hr. specialize (Hr r Hin). lia.
  - by destruct (List.find _ _).
Qed.

Lemma get_delete t p i :
  table_wf t →
  get_row i (delete_where p t) = match get_row i t with
                                 | Some r => if p r then None else Some r
                                 | None => None
                                 end.
Proof.
  intros Hw. destruct (get_row i (delete_where p t)) as [r|] eqn:E.
  - apply get_row_spec in E as [Hr Hi]; [|by apply delete_wf]. cbn in Hr.
    apply List.filter_In in Hr as [Hr Hp]. bool_hyps.
    rewrite (proj2 (get_row_spec t i r Hw)) by done. by rewrite Hp.
  - destruct (get_row i t) as [r|] eqn:Eg; [|done]. destruct (p r) eqn:Ep; [done|].
    apply get_row_spec in Eg as [Hr Hi]; [|done].
    assert (get_row i (delete_where p t) = Some r) as E'; [|congruence].
    apply get_row_spec; [by apply delete_wf|]. split; [|done]. apply List.filter_In. by rewrite Ep.
Qed.

Lemma select_where_spec t p r : In r (select_where p t) ↔ In r (t_rows t) ∧ p r = true.
Proof. apply List.filter_In. Qed.

Lemma count_pos t p : (0 <? count_where p t) = true ↔ ∃ r, In r (t_rows t) ∧ p r = true.
Proof.
  unfold count_where. rewrite Z.ltb_lt. split.
  - intros Hl. destruct (select_where p t) as [|r l] eqn:E; [cbn in Hl; lia|].
    exists r. apply select_where_spec. rewrite E. by left.
  - intros (r & Hr). apply select_where_spec in Hr. destruct (select_where p t); [done|cbn; lia].
Qed.

(** [ORDER BY id DESC] is the reverse of a strictly increasing sequence. *)
Lemma select_desc_sorted t p : table_wf t → StronglySorted (λ a b, row_id b < row_id a) (select_desc p t).
Proof.
  intros Hw. pose proof (filter_sorted p _ (wf_sorted _ Hw)) as Hs.
  unfold select_desc, select_where. induction Hs as [|x l Hs IH Hx]; cbn; [constructor|].
  revert IH. apply List.Forall_rev in Hx. revert Hx. generalize (rev l). intros k Hx IH.
  induction IH as [|y k Hk IHk Hy]; cbn; [repeat constructor|].
  apply Forall_cons in Hx as [Hyx Hx]. constructor; [by apply IHk|].
  apply Forall_app. split; [done|]. repeat constructor. exact Hyx.
Qed.

(** Keeping the rows of a list that are not past its [k] first ones. *)
Lemma keep_first (L : list A) (k : nat) :
  StronglySorted (λ a b, row_id b < row_id a) L →
  List.filter (λ x, negb (existsb (by_id (row_id x)) (drop k L))) L = take k L.
Proof.
  intros Hs. transitivity (List.filter (λ x, negb (existsb (by_id (row_id x)) (drop k L)))
                             (take k L ++ drop k L)); [by rewrite take_drop|].
  rewrite <- (take_drop k L) in Hs at 1.
  rewrite List.filter_app. revert Hs. generalize (take k L) (drop k L). intros l m Hs.
  rewrite (forallb_filter_id (A := A)), (List.filter_ext_in _ (λ _, false) m), filter_false, app_nil_r.
  - done.
  - intros x Hx. apply negb_false_iff, existsb_exists. exists x. split; [done|]. apply Z.eqb_refl.
  - apply forallb_forall. intros x Hx. apply negb_true_iff, not_true_iff_false.
    intros (y & Hy & He)%existsb_exists. apply Z.eqb_eq in He.
    enough (row_id y < row_id x) by lia. clear He. induction l as [|z l IH]; [done|].
    apply StronglySorted_inv in Hs as [Hs Hz]. destruct Hx as [->|Hx]; [|by apply IH].
    rewrite List.Forall_forall in Hz. apply Hz, in_app_iff. by right.
Qed.

Lemma select_desc_update (p q : A → bool) f t :
  (∀ r, q r = true → p (f r) = false) →
  select_desc p (update_where q f t) = List.filter (λ r, negb (q r)) (select_desc p t).
Proof.
  intros Hf. unfold select_desc, select_where, update_where. cbn. rewrite List.filter_rev. f_equal.
  induction (t_rows t) as [|r l IH]; cbn; [done|]. destruct (q r) eqn:Eq; cbn.
  - rewrite (Hf r Eq). destruct (p r); cbn; [rewrite Eq; exact IH|exact IH].
  - destruct (p r); cbn; [rewrite Eq; cbn; f_equal; exact IH|exact IH].
Qed.

Lemma count_desc p t : count_where p t = Z.of_nat (length (select_desc p t)).
Proof. unfold count_where, select_desc. by rewrite length_rev. Qed.

(** The first row in id order that satisfies the condition. *)
Lemma find_least (l : list A) (p : A → bool) r :
  StronglySorted id_lt l → List.find p l = Some r →
  ∀ s, In s l → p s = true → row_id r ≤ row_id s.
Proof.
  induction 1 as [|y l Hs IH Hy]; cbn; [done|]. destruct (p y) eqn:E.
  - intros [= ->] s [->|Hin] Hp; [lia|]. rewrite List.Forall_forall in Hy.
    specialize (Hy s Hin). unfold id_lt in Hy. lia.
  - intros Hf s [->|Hin] Hp; [congruence|]. by apply IH.
Qed.
End Table.

#[export] Hint Resolve empty_wf insert_wf update_wf delete_wf insert_all update_all delete_all : panel.

(** * Results *)

(** A Go pair [(T, error)] of which one half is meaningful. *)
Inductive res (A : Type) := Ok (a : A) | Err (e : string).
Arguments Ok {A}. Arguments Err {A}.

Definition res_error {A} (r : res A) : error := match r with Ok _ => None | Err e => Some e end.

(** * The monad of the code that uses the database *)

(** [data]: the tables; [clock]: the time of the day, in nanoseconds since the
    epoch, constant during one operation; [faults]: for each statement to come,
    the error it fails with. *)
Record world (D : Type) := World { data : D; clock : Z; faults : list (option string) }.
Arguments World {D}. Arguments data {D}. Arguments clock {D}. Arguments faults {D}.

Definition M (D A : Type) : Type := world D → A * world D.

Definition mret {D A} (a : A) : M D A := λ w, (a, w).
Definition mbind {D A B} (m : M D A) (k : A → M D B) : M D B := λ w, let '(a, w') := m w in k a w'.

Notation "'let*' x := m 'in' k" := (mbind m (λ x, k))
  (at level 200, x pattern at level 0, m at level 100, k at level 200) : panel_scope.

(** [x, err := m; if err != nil { return err }; k]. *)
Notation "'let?' x := m 'in' k" :=
  (mbind m (λ r, match r with Ok x => k | Err e => mret (Err e) end))
  (at level 200, x name, m at level 100, k at level 200) : panel_scope.

(** [fmt.Errorf("p: %w", err)]. *)
Definition wrap {D A} (p : string) (m : M D (res A)) : M D (res A) :=
  mbind m (λ r, mret match r with Ok a => Ok a | Err e => Err (p +:+ ": " +:+ e) end).

(** One statement.  [f] is its effect and its own outcome (a constraint may
    refuse it, in which case [f] returns the tables it was given). *)
Definition stmt {D A} (f : Z → D → res A * D) : M D (res A) := λ w,
  match faults w with
  | Some e :: fs => (Err e, World (data w) (clock w) fs)
  | fs => let '(r, d) := f (clock w) (data w) in (r, World d (clock w) (tl fs))
  end.

Definition query {D A} (f : Z → D → A) : M D (res A) := stmt (λ n d, (Ok (f n d), d)).
Definition exec {D A} (f : Z → D → A * D) : M D (res A) :=
  stmt (λ n d, let '(a, d') := f n d in (Ok a, d')).

Definition time_Now {D} : M D Z := λ w, (clock w, w).

(** Several statements, in order. *)
Fixpoint mfor {D A} (l : list A) (body : A → M D unit) : M D unit :=
  match l with
  | [] => mret ()
  | x :: l' => let* _ := body x in mfor l' body
  end.

(** CURRENT_TIMESTAMP: whole seconds. *)
Definition current_timestamp (n : Z) : Z := n / 1000000000.

(** One database holds one table of type [A]. *)
Class Has (A D : Type) := {
  tab : D → table A;
  set_tab : table A → D → D;
  tab_set t d : tab (set_tab t d) = t;
  set_tab_id d : set_tab (tab d) d = d;
  set_tab_twice t s d : set_tab t (set_tab s d) = set_tab t d }.

Definition on_tab {A D B} `{Has A D} (f : table A → B * table A) (d : D) : B * D :=
  let '(b, t) := f (tab d) in (b, set_tab t d).

(** The database that is one table. *)
#[export] Instance has_self A : Has A (table A).
Proof. refine {| tab t := t; set_tab t _ := t |}; done. Defined.

(** What a statement leaves of the world. *)
Lemma stmt_clock {D A} (f : Z → D → res A * D) w : clock (stmt f w).2 = clock w.
Proof. unfold stmt. destruct (faults w) as [|[e|] fs]; [| |]; try case_goal; done. Qed.

(** The induction principle of one statement: it failed and changed nothing,
    or it had its effect. *)
Lemma stmt_elim {D A} (f : Z → D → res A * D) (w : world D) (P : res A * world D → Prop) :
  (∀ e fs, P (Err e, World (data w) (clock w) fs)) →
  (∀ fs, P ((f (clock w) (data w)).1, World (f (clock w) (data w)).2 (clock w) fs)) →
  P (stmt f w).
Proof.
  intros He Hf. unfold stmt. destruct (faults w) as [|[e|] fs]; [|apply He|].
  - specialize (Hf []). destruct (f (clock w) (data w)) as [r d]. exact Hf.
  - specialize (Hf fs). destruct (f (clock w) (data w)) as [r d]. exact Hf.
Qed.

(** Without faults every statement has its effect. *)
Lemma stmt_ok {D A} (f : Z → D → res A * D) d n :
  stmt f (World d n []) = (let '(r, d') := f n d in (r, World d' n [])).
Proof. unfold stmt. cbn. by case_goal. Qed.

(** * Weakest preconditions *)

(** [wp m Q w]: running [m] in [w] ends in a result and a world that satisfy
    [Q]; the operations are total, so this is total correctness. *)
Definition wp {D A} (m : M D A) (Q : A → world D → Prop) (w : world D) : Prop :=
  let '(a, w') := m w in Q a w'.

Section Wp.
Context {D : Type}.
Implicit Types w : world D.

Lemma wp_ret {A} (a : A) (Q : A → world D → Prop) w : Q a w → wp (mret a) Q w.
Proof. done. Qed.

Lemma wp_bind {A B} (m : M D A) (k : A → M D B) (Q : B → world D → Prop) w :
  wp m (λ a, wp (k a) Q) w → wp (mbind m k) Q w.
Proof. unfold wp, mbind. by destruct (m w) as [a w']. Qed.

Lemma wp_stmt {A} (f : Z → D → res A * D) (Q : res A → world D → Prop) w :
  (∀ e fs, Q (Err e) (World (data w) (clock w) fs)) →
  (∀ fs, Q (f (clock w) (data w)).1 (World (f (clock w) (data w)).2 (clock w) fs)) →
  wp (stmt f) Q w.
Proof.
  intros He Hf. unfold wp.
  pose proof (stmt_elim f w (λ p, Q p.1 p.2) He Hf) as H. by destruct (stmt f w).
Qed.

Lemma wp_query {A} (f : Z → D → A) (Q : res A → world D → Prop) w :
  (∀ e fs, Q (Err e) (World (data w) (clock w) fs)) →
  (∀ fs, Q (Ok (f (clock w) (data w))) (World (data w) (clock w) fs)) →
  wp (query f) Q w.
Proof. intros He Hf. by apply wp_stmt. Qed.

Lemma wp_exec {A} (f : Z → D → A * D) (Q : res A → world D → Prop) w :
  (∀ e fs, Q (Err e) (World (data w) (clock w) fs)) →
  (∀ fs, Q (Ok (f (clock w) (data w)).1) (World (f (clock w) (data w)).2 (clock w) fs)) →
  wp (exec f) Q w.
Proof.
  intros He Hf. apply wp_stmt; [done|]. intros fs. specialize (Hf fs). cbv beta.
  by destruct (f (clock w) (data w)).
Qed.

Lemma wp_now (Q : Z → world D → Prop) w : Q (clock w) w → wp time_Now Q w.
Proof. done. Qed.

Lemma wp_wrap {A} (p : string) (m : M D (res A)) (Q : res A → world D → Prop) w :
  wp m (λ r, Q match r with Ok a => Ok a | Err e => Err (p +:+ ": " +:+ e) end) w →
  wp (wrap p m) Q w.
Proof. intros H. by apply wp_bind. Qed.

Lemma wp_mono {A} (m : M D A) (Q R : A → world D → Prop) w :
  (∀ a w', Q a w' → R a w') → wp m Q w → wp m R w.
Proof. unfold wp. intros H. destruct (m w). apply H. Qed.

Lemma wp_and {A} (m : M D A) (Q R : A → world D → Prop) w :
  wp m Q w → wp m R w → wp m (λ a w', Q a w' ∧ R a w') w.
Proof. unfold wp. by destruct (m w). Qed.

(** A loop preserves what its body preserves. *)
Lemma wp_mfor {A} (l : list A) (body : A → M D ()) (I : world D → Prop) w :
  (∀ x w, In x l → I w → wp (body x) (λ _, I) w) → I w → wp (mfor l body) (λ _, I) w.
Proof.
  revert w. induction l as [|x l IH]; intros w Hb Hi; cbn; [done|].
  apply wp_bind. eapply wp_mono; [|apply Hb; [by left|done]]. intros ? w' Hi'.
  apply IH; [|done]. intros y w'' Hy. apply Hb. by right.
Qed.
End Wp.

(** Symbolic execution of one construct of the monad. *)
Ltac wp_step :=
  lazymatch goal with
  | |- wp (mbind _ _) _ _ => apply wp_bind
  | |- wp (wrap _ _) _ _ => apply wp_wrap
  | |- wp (mret _) _ _ => apply wp_ret
  | |- wp time_Now _ _ => apply wp_now
  | |- wp (query _) _ _ => apply wp_query; [intros ? ? | intros ?]
  | |- wp (exec _) _ _ => apply wp_exec; [intros ? ? | intros ?]
  | |- wp (stmt _) _ _ => apply wp_stmt; [intros ? ? | intros ?]
  | |- wp (match ?x with _ => _ end) _ _ => let E := fresh "E" in destruct x eqn:E
  end; cbv beta iota.
Ltac wp_run := repeat (wp_step; cbn [data clock fst snd]).

(** * Constraints and transactions *)

(** The text of a refused UNIQUE or CHECK constraint. *)
Definition constraint_error : string := "constraint failed".

(** An INSERT that the constraint [ok] may refuse; its result is the new id. *)
Definition insert_checked {A D} `{Has A D} (ok : table A → bool) (mk : Z → Z → A) : M D (res Z) :=
  stmt (λ n d, if ok (tab d)
               then let '(id, t) := insert_row (mk n) (tab d) in (Ok id, set_tab t d)
               else (Err constraint_error, d)).

(** A step of a transaction: the prefix of its error, and its effect, which may
    be to give up with an error of its own. *)
Definition tx_step (D : Type) : Type := string * (Z → D → res D).

Fixpoint tx_run {D} (steps : list (tx_step D)) (d : D) : M D (res D) :=
  match steps with
  | [] => mret (Ok d)
  | (msg, f) :: l =>
      let? r := wrap msg (query (λ n _, f n d)) in
      match r with
      | Err e => mret (Err e)
      | Ok d' => tx_run l d'
      end
  end.

(** [BeginTx], the steps, [Commit], with [defer tx.Rollback()]. *)
Definition transaction {D} (begin : string) (steps : list (tx_step D)) (commit : string) : M D (res ()) :=
  let? d := wrap begin (query (λ _ d, d)) in
  let? d' := tx_run steps d in
  wrap commit (exec (λ _ _, ((), d'))).

(** The effect of the steps when nothing fails. *)
Fixpoint apply_steps {D} (steps : list (tx_step D)) (n : Z) (d : D) : res D :=
  match steps with
  | [] => Ok d
  | (_, f) :: l => match f n d with Ok d' => apply_steps l n d' | Err e => Err e end
  end.

Lemma tx_run_spec {D} (steps : list (tx_step D)) (d : D) (w : world D) :
  wp (tx_run steps d) (λ r w', data w' = data w ∧ clock w' = clock w ∧
    match r with Ok d' => apply_steps steps (clock w) d = Ok d' | Err _ => True end) w.
Proof.
  revert d w. induction steps as [|[msg f] l IH]; intros d w; cbn [tx_run apply_steps]; [by wp_run|].
  wp_step. wp_step. wp_step; [by wp_run|]. destruct (f (clock w) d) as [d'|e]; [|by wp_run].
  eapply wp_mono; [|apply IH]. done.
Qed.

(** All the steps or none of them. *)
Lemma transaction_spec {D} (b c : string) (steps : list (tx_step D)) (w : world D) :
  wp (transaction b steps c) (λ r w', clock w' = clock w ∧
    match r with
    | Ok _ => apply_steps steps (clock w) (data w) = Ok (data w')
    | Err _ => data w' = data w
    end) w.
Proof.
  unfold transaction. wp_step. wp_step. wp_step; [by wp_run|].
  wp_step. eapply wp_mono; [|apply tx_run_spec]. intros [d'|e] w' (E1 & E2 & E3); cbn in *; [|by wp_run].
  wp_step. wp_step; by rewrite ?E1, ?E2.
Qed.

Lemma wp_insert_checked {A D} `{Has A D} (ok : table A → bool) (mk : Z → Z → A)
    (Q : res Z → world D → Prop) (w : world D) :
  (∀ e fs, Q (Err e) (World (data w) (clock w) fs)) →
  (∀ fs, ok (tab (data w)) = true →
     Q (Ok (t_seq (tab (data w)) + 1))
       (World (set_tab (insert_row (mk (clock w)) (tab (data w))).2 (data w)) (clock w) fs)) →
  wp (insert_checked ok mk) Q w.
Proof.
  intros He Hf. apply wp_stmt; [done|]. intros fs. destruct (ok (tab (data w))) eqn:E; cbn; auto.
Qed.
