(* ===== verification/JobStore.v ===== *)
(** The job queue: src/internal/jobmodel/jobs.go and
    src/internal/store/jobs.go.  One row per job, the store functions in the
    order of the file, and what they guarantee to the worker and the
    scheduler.  A stored time is a number of seconds (the text
    [YYYY-MM-DD HH:MM:SS] in UTC, whose order is the order of time). *)
From S2P Require Import Prelude Sql.
Local Open Scope Z_scope.
Local Open Scope panel_scope.

(** * jobmodel *)

Definition StatusQueued := "queued".
Definition StatusRunning := "running".
Definition StatusSucceeded := "succeeded".
Definition StatusFailed := "failed".
Definition StatusCanceled := "canceled".

Definition TypeSiteCreate := "site.create".
Definition TypeSSLIssue := "ssl.issue".
Definition TypeSSLRenew := "ssl.renew".
Definition TypeBackupCreate := "backup.create".
Definition TypeBackupRestore := "backup.restore".
Definition TypeDBBackupCreate := "db_backup.create".
Definition TypeBackupDelete := "backup.delete".

Record Job := mkJob {
  j_id : Z; j_server : option Z; j_site : option Z; j_type : string; j_status : string;
  j_payload : string; j_result : string; j_error : string; j_descr : string;
  j_attempts : Z; j_max_attempts : Z; j_created : Z; j_updated : Z;
  j_started : option Z; j_completed : option Z; j_next_retry : option Z }.

(** A row of the table [jobs]; the text columns that may be NULL are options. *)
Record job_row := JobRow {
  jr_id : Z; jr_server : option Z; jr_site : option Z; jr_type : string; jr_status : string;
  jr_payload : option string; jr_result : option string; jr_error : option string;
  jr_descr : option string; jr_attempts : Z; jr_max_attempts : Z; jr_created : Z; jr_updated : Z;
  jr_started : option Z; jr_completed : option Z; jr_next_retry : option Z }.

#[export] Instance job_row_id : HasId job_row := jr_id.

(** [scanJob] over [jobColumns]: COALESCE turns NULL into the empty text. *)
Definition scanJob (r : job_row) : Job :=
  mkJob (jr_id r) (jr_server r) (jr_site r) (jr_type r) (jr_status r)
    (default "" (jr_payload r)) (default "" (jr_result r)) (default "" (jr_error r))
    (default "" (jr_descr r)) (jr_attempts r) (jr_max_attempts r) (jr_created r) (jr_updated r)
    (jr_started r) (jr_completed r) (jr_next_retry r).

Record JobListFilter := mkJobListFilter {
  f_server : Z; f_site : Z; f_status : string; f_type : string; f_limit : Z; f_offset : Z }.

(** ** Column updates *)

Definition upd_status (s : string) (r : job_row) : job_row :=
  JobRow (jr_id r) (jr_server r) (jr_site r) (jr_type r) s (jr_payload r) (jr_result r) (jr_error r)
    (jr_descr r) (jr_attempts r) (jr_max_attempts r) (jr_created r) (jr_updated r) (jr_started r)
    (jr_completed r) (jr_next_retry r).
Definition upd_payload (p : option string) (r : job_row) : job_row :=
  JobRow (jr_id r) (jr_server r) (jr_site r) (jr_type r) (jr_status r) p (jr_result r) (jr_error r)
    (jr_descr r) (jr_attempts r) (jr_max_attempts r) (jr_created r) (jr_updated r) (jr_started r)
    (jr_completed r) (jr_next_retry r).
Definition upd_result (x : option string) (r : job_row) : job_row :=
  JobRow (jr_id r) (jr_server r) (jr_site r) (jr_type r) (jr_status r) (jr_payload r) x (jr_error r)
    (jr_descr r) (jr_attempts r) (jr_max_attempts r) (jr_created r) (jr_updated r) (jr_started r)
    (jr_completed r) (jr_next_retry r).
Definition upd_error (x : option string) (r : job_row) : job_row :=
  JobRow (jr_id r) (jr_server r) (jr_site r) (jr_type r) (jr_status r) (jr_payload r) (jr_result r) x
    (jr_descr r) (jr_attempts r) (jr_max_attempts r) (jr_created r) (jr_updated r) (jr_started r)
    (jr_completed r) (jr_next_retry r).
Definition upd_attempts (a : Z) (r : job_row) : job_row :=
  JobRow (jr_id r) (jr_server r) (jr_site r) (jr_type r) (jr_status r) (jr_payload r) (jr_result r)
    (jr_error r) (jr_descr r) a (jr_max_attempts r) (jr_created r) (jr_updated r) (jr_started r)
    (jr_completed r) (jr_next_retry r).
Definition touch (n : Z) (r : job_row) : job_row :=
  JobRow (jr_id r) (jr_server r) (jr_site r) (jr_type r) (jr_status r) (jr_payload r) (jr_result r)
    (jr_error r) (jr_descr r) (jr_attempts r) (jr_max_attempts r) (jr_created r) n (jr_started r)
    (jr_completed r) (jr_next_retry r).
Definition upd_started (x : option Z) (r : job_row) : job_row :=
  JobRow (jr_id r) (jr_server r) (jr_site r) (jr_type r) (jr_status r) (jr_payload r) (jr_result r)
    (jr_error r) (jr_descr r) (jr_attempts r) (jr_max_attempts r) (jr_created r) (jr_updated r) x
    (jr_completed r) (jr_next_retry r).
Definition upd_completed (x : option Z) (r : job_row) : job_row :=
  JobRow (jr_id r) (jr_server r) (jr_site r) (jr_type r) (jr_status r) (jr_payload r) (jr_result r)
    (jr_error r) (jr_descr r) (jr_attempts r) (jr_max_attempts r) (jr_created r) (jr_updated r)
    (jr_started r) x (jr_next_retry r).
Definition upd_retry (x : option Z) (r : job_row) : job_row :=
  JobRow (jr_id r) (jr_server r) (jr_site r) (jr_type r) (jr_status r) (jr_payload r) (jr_result r)
    (jr_error r) (jr_descr r) (jr_attempts r) (jr_max_attempts r) (jr_created r) (jr_updated r)
    (jr_started r) (jr_completed r) x.

(** [sql.NullString{String: s, Valid: s != ""}]. *)
Definition null_if_empty (s : string) : option string := if (s =? "")%string then None else Some s.

(** What the store needs from the payload encryption: [EncryptPayload] of
    src/internal/secrets/payload.go, an error being a payload it cannot read. *)
Class PayloadCipher := {
  EncryptPayload : string → res string;
  DecryptPayload : string → res string }.

Section JobStore.
Context {D : Type} `{HJ : Has job_row D} `{HC : PayloadCipher}.

(** How the SQLite driver orders a stored text time against a bound
    [time.Time] (true: the stored time is the smaller one). *)
Context (text_before_time : Z → Z → bool).

Notation jobs := (tab (A := job_row)).

Definition update_jobs (p : Z → job_row → bool) (f : Z → job_row → job_row) : M D (res ()) :=
  exec (λ n d, ((), set_tab (update_where (p (current_timestamp n)) (f (current_timestamp n)) (jobs d)) d)).

(** The defaults are also written to the caller's job. *)
Definition job_defaults (j : Job) : Job :=
  mkJob (j_id j) (j_server j) (j_site j) (j_type j)
    (if (j_status j =? "")%string then StatusQueued else j_status j)
    (j_payload j) (j_result j) (j_error j) (j_descr j) (j_attempts j)
    (if j_max_attempts j =? 0 then 3 else j_max_attempts j)
    (j_created j) (j_updated j) (j_started j) (j_completed j) (j_next_retry j).

Definition stored_payload (p : string) : string :=
  match EncryptPayload p with Ok enc => enc | Err _ => p end.

(** The row an INSERT of [Create] makes: [attempts] and [completed_at] and the
    like take the defaults of the schema. *)
Definition new_row (j : Job) (n id : Z) : job_row :=
  JobRow id (j_server j) (j_site j) (j_type j) (j_status j) (Some (stored_payload (j_payload j)))
    None None (Some (j_descr j)) 0 (j_max_attempts j) (current_timestamp n) (current_timestamp n)
    None None None.

(** Returns the id stored in [j.ID]. *)
Definition Create (j : Job) : M D (res Z) :=
  wrap "insert job"
    (exec (λ n d, on_tab (insert_row (new_row (job_defaults j) n)) d)).

Definition GetByID (id : Z) : M D (res (option Job)) :=
  wrap "scan job" (query (λ _ d, scanJob <$> get_row id (jobs d))).

Definition job_filter (f : JobListFilter) (r : job_row) : bool :=
  (if 0 <? f_server f then bool_decide (jr_server r = Some (f_server f)) else true) &&
  (if 0 <? f_site f then bool_decide (jr_site r = Some (f_site f)) else true) &&
  (if negb (f_status f =? "")%string then (jr_status r =? f_status f)%string else true) &&
  (if negb (f_type f =? "")%string then (jr_type r =? f_type f)%string else true).

Definition List (f : JobListFilter) : M D (res (list Job)) :=
  let limit := if f_limit f <=? 0 then 100 else f_limit f in
  wrap "query jobs"
    (query (λ _ d, map scanJob (limit_offset limit (f_offset f) (select_desc (job_filter f) (jobs d))))).

Definition claimable (jobType : string) (n : Z) (r : job_row) : bool :=
  (jr_status r =? StatusQueued)%string &&
  (if negb (jobType =? "")%string then (jr_type r =? jobType)%string else true) &&
  match jr_next_retry r with None => true | Some t => t <=? n end.

Definition claim_row (n : Z) (r : job_row) : job_row :=
  touch n (upd_attempts (jr_attempts r + 1) (upd_started (Some n) (upd_status StatusRunning r))).

(** The transaction: begin, select, update, commit.  An error of any of the
    four rolls the update back. *)
Definition ClaimNext (jobType : string) : M D (res (option Job)) :=
  let? _ := wrap "begin tx" (query (λ _ _, ())) in
  let? o := wrap "select next job"
              (query (λ n d, select_one (claimable jobType (current_timestamp n)) (jobs d))) in
  match o with
  | None => mret (Ok None)
  | Some r =>
      let? d' := wrap "claim job"
                   (query (λ n d, set_tab (update_where (by_id (jr_id r)) (claim_row (current_timestamp n))
                                             (jobs d)) d)) in
      let? _ := wrap "commit" (exec (λ _ _, ((), d'))) in
      mret (Ok (Some (scanJob (upd_attempts (jr_attempts r + 1) (upd_status StatusRunning r)))))
  end.

Definition UpdateStatus (id : Z) (status : string) : M D (res ()) :=
  wrap "update job status" (update_jobs (λ _, by_id id) (λ n r, touch n (upd_status status r))).

Definition Cancel (id : Z) : M D (res ()) :=
  wrap "cancel job"
    (update_jobs (λ _ r, by_id id r && (jr_status r =? StatusQueued)%string)
                 (λ n r, touch n (upd_status StatusCanceled r))).

Definition SetError (id : Z) (errMsg : string) : M D (res ()) :=
  wrap "set job error" (update_jobs (λ _, by_id id) (λ n r, touch n (upd_error (null_if_empty errMsg) r))).

Definition SetResult (id : Z) (result : string) : M D (res ()) :=
  wrap "set job result" (update_jobs (λ _, by_id id) (λ n r, touch n (upd_result (Some result) r))).

Definition MarkStarted (id : Z) : M D (res ()) :=
  wrap "mark job started" (update_jobs (λ _, by_id id) (λ n r, touch n (upd_started (Some n) r))).

(** [retryAt] is stored with the precision of a second. *)
Definition ScheduleRetry (id : Z) (retryAt : Z) : M D (res ()) :=
  wrap "schedule retry"
    (update_jobs (λ _, by_id id)
       (λ n r, touch n (upd_retry (Some (current_timestamp retryAt)) (upd_status StatusQueued r)))).

Definition complete_row (success : bool) (result errMsg : string) (n : Z) (r : job_row) : job_row :=
  touch n (upd_error (null_if_empty errMsg) (upd_result (Some result) (upd_completed (Some n)
    (upd_status (if success then StatusSucceeded else StatusFailed) r)))).

Definition MarkCompleted (id : Z) (success : bool) (result errMsg : string) : M D (res ()) :=
  wrap "mark job completed" (update_jobs (λ _, by_id id) (complete_row success result errMsg)).

Definition active_row (jobType : string) (siteID : Z) (r : job_row) : bool :=
  (jr_type r =? jobType)%string && bool_decide (jr_site r = Some siteID) &&
  ((jr_status r =? StatusQueued)%string || (jr_status r =? StatusRunning)%string).

Definition HasActiveJob (jobType : string) (siteID : Z) : M D (res bool) :=
  let? c := wrap "check active job" (query (λ _ d, count_where (active_row jobType siteID) (jobs d))) in
  mret (Ok (0 <? c)).

Definition running_backup (serverID : Z) (r : job_row) : bool :=
  bool_decide (jr_server r = Some serverID) && (jr_status r =? StatusRunning)%string &&
  ((jr_type r =? "backup.create")%string || (jr_type r =? "db_backup.create")%string).

Definition CountRunningByServer (serverID : Z) : M D (res Z) :=
  wrap "count running backups" (query (λ _ d, count_where (running_backup serverID) (jobs d))).

(** An UPDATE that reports the number of rows it matched. *)
Definition update_count (p : Z → job_row → bool) (f : Z → job_row → job_row) : M D (res Z) :=
  exec (λ n d, let c := current_timestamp n in
    (count_where (p c) (jobs d), set_tab (update_where (p c) (f c) (jobs d)) d)).

Definition stuck_row (cutoff : Z) (r : job_row) : bool :=
  (jr_status r =? "running")%string && text_before_time (jr_updated r) cutoff.

Definition CleanupStuckRunning (staleAfter : Z) : M D (res Z) :=
  let* now := time_Now in
  wrap "cleanup stuck jobs"
    (update_count (λ _, stuck_row (now - staleAfter))
       (λ n r, touch n (upd_error (Some "cleanup: stuck in running state") (upd_status "failed" r)))).

Definition terminal (s : string) : bool :=
  (s =? StatusSucceeded)%string || (s =? StatusFailed)%string || (s =? StatusCanceled)%string.

Definition scrub_row (cutoff : Z) (r : job_row) : bool :=
  match jr_payload r with None => false | Some p => negb (p =? "")%string end &&
  terminal (jr_status r) && (default (jr_updated r) (jr_completed r) <? cutoff).

Definition ScrubTerminalPayloads (olderThan : Z) : M D (res Z) :=
  let* now := time_Now in
  wrap "scrub terminal payloads"
    (update_count (λ _, scrub_row (current_timestamp (now - olderThan))) (λ _, upd_payload (Some ""))).

(** * Facts *)

(** ** Claims *)

Lemma claim_next (ty : string) (w : world D) (Hw : table_wf (jobs (data w))) :
  wp (ClaimNext ty) (λ r w', match r with
    | Err _ => data w' = data w
    | Ok None => data w' = data w ∧
        ∀ s, In s (t_rows (jobs (data w))) → claimable ty (current_timestamp (clock w)) s = false
    | Ok (Some j) => ∃ r, In r (t_rows (jobs (data w))) ∧
        claimable ty (current_timestamp (clock w)) r = true ∧
        (∀ s, In s (t_rows (jobs (data w))) →
              claimable ty (current_timestamp (clock w)) s = true → jr_id r ≤ jr_id s) ∧
        j = scanJob (upd_attempts (jr_attempts r + 1) (upd_status StatusRunning r)) ∧
        jobs (data w') =
          update_where (by_id (jr_id r)) (claim_row (current_timestamp (clock w))) (jobs (data w))
    end) w.
Proof.
  unfold ClaimNext. wp_run; try done.
  - unfold select_one in E. apply find_spec in E as E'. exists j. destruct E' as [Hc Hin].
    repeat split; [done|done| |].
    + intros s Hs Hcs. apply (find_least _ _ _ (wf_sorted _ Hw) E s Hs Hcs).
    + by rewrite tab_set.
  - split; [done|]. intros s Hs. by apply (List.find_none _ _ E).
Qed.

(** C1: what [ClaimNext] does.  On an error the table is as before; with no
    claimable job it returns nil and changes nothing; otherwise it returns the
    claimable job with the least id, and exactly that row becomes running,
    with one more attempt and a start time. *)
Theorem ClaimNext_spec (ty : string) (w : world D) (Hw : table_wf (jobs (data w))) :
  wp (ClaimNext ty) (λ r w', match r with
    | Err _ => data w' = data w
    | Ok None => data w' = data w ∧
        ∀ s, In s (t_rows (jobs (data w))) → claimable ty (current_timestamp (clock w)) s = false
    | Ok (Some j) => ∃ r, In r (t_rows (jobs (data w))) ∧
        claimable ty (current_timestamp (clock w)) r = true ∧
        (∀ s, In s (t_rows (jobs (data w))) →
              claimable ty (current_timestamp (clock w)) s = true → jr_id r ≤ jr_id s) ∧
        j = scanJob (upd_attempts (jr_attempts r + 1) (upd_status StatusRunning r)) ∧
        jobs (data w') =
          update_where (by_id (jr_id r)) (claim_row (current_timestamp (clock w))) (jobs (data w))
    end) w.
Proof. exact (claim_next ty w Hw). Qed.

(** ** Several claims *)

Fixpoint claims (tys : list string) : M D (list Z) :=
  match tys with
  | [] => mret []
  | ty :: tys' =>
      let* r := ClaimNext ty in
      let* l := claims tys' in
      mret (match r with Ok (Some j) => j_id j :: l | _ => l end)
  end.

Definition queued_in (i : Z) (d : D) : Prop :=
  ∃ r, In r (t_rows (jobs d)) ∧ jr_id r = i ∧ jr_status r = StatusQueued.

Lemma claim_wf t r n : table_wf t → table_wf (update_where (by_id r) (claim_row n) t).
Proof. by apply update_wf. Qed.

Lemma claim_queued_in (w : world D) r n d' i :
  table_wf (jobs (data w)) →
  jobs d' = update_where (by_id (jr_id r)) (claim_row n) (jobs (data w)) →
  queued_in i d' → i ≠ jr_id r ∧ queued_in i (data w).
Proof.
  intros Hw E (s & Hs & Hi & Hq). rewrite E in Hs. apply in_map_iff in Hs as (s0 & Es & Hs0).
  unfold by_id in Es. destruct (row_id s0 =? jr_id r) eqn:Ei; [by subst s|]. subst s0. bool_hyps.
  split; [by subst i|]. by exists s.
Qed.

(** The ids a sequence of claims returns were queued before it and are all
    different. *)
Lemma claims_queued (tys : list string) (w : world D) :
  table_wf (jobs (data w)) →
  wp (claims tys) (λ l _, NoDup l ∧ Forall (λ i, queued_in i (data w)) l) w.
Proof.
  revert w. induction tys as [|ty tys IH]; intros w Hw; cbn [claims].
  { wp_run. split; constructor. }
  apply wp_bind. eapply wp_mono; [|exact (claim_next ty w Hw)]. intros r w' H. cbv beta in H.
  apply wp_bind. destruct r as [[j|]|e].
  - destruct H as (r & Hin & Hc & _ & -> & E).
    assert (table_wf (jobs (data w'))) as Hw' by (rewrite E; by apply claim_wf).
    eapply wp_mono; [|exact (IH w' Hw')]. intros l w'' [Hn Hl]. wp_run. cbn [j_id scanJob].
    split.
    + constructor; [|done]. intros Hx. rewrite Forall_forall in Hl.
      destruct (claim_queued_in w r _ _ _ Hw E (Hl _ Hx)) as [Hne _]. by apply Hne.
    + constructor.
      * exists r. unfold claimable in Hc. bool_hyps. done.
      * eapply Forall_impl; [exact Hl|]. intros i Hi. cbn in Hi.
        by destruct (claim_queued_in w r _ _ _ Hw E Hi).
  - destruct H as [E _]. eapply wp_mono; [|apply IH; by rewrite E]. intros l w2 Hl. wp_run.
    by rewrite E in Hl.
  - eapply wp_mono; [|apply IH; by rewrite H]. intros l w'' H'. wp_run. by rewrite H in H'.
Qed.

(** C2: two claims never return the same job: along any sequence of claims, of
    any types and with any failing statements, the ids returned are pairwise
    different. *)
Theorem claims_NoDup (tys : list string) (w : world D) (Hw : table_wf (jobs (data w))) :
  wp (claims tys) (λ l _, NoDup l) w.
Proof. eapply wp_mono; [|exact (claims_queued tys w Hw)]. by intros l w' [H _]. Qed.

(** ** The life of a job *)

(** The calls the panel makes on the queue: [Create] always with the status
    queued, and the deletion of a site's jobs with the site. *)
Inductive job_op :=
| OpCreate (j : Job) (Hq : j_status j = "" ∨ j_status j = StatusQueued)
| OpClaim (ty : string)
| OpCancel (id : Z)
| OpSetError (id : Z) (e : string)
| OpRetry (id retryAt : Z)
| OpComplete (id : Z) (success : bool) (result e : string)
| OpStuck (staleAfter : Z)
| OpScrub (olderThan : Z)
| OpDeleteSite (site : Z).

Definition ignore {A} (m : M D A) : M D () := let* _ := m in mret ().

Definition run_op (o : job_op) : M D () :=
  match o with
  | OpCreate j _ => ignore (Create j)
  | OpClaim ty => ignore (ClaimNext ty)
  | OpCancel id => ignore (Cancel id)
  | OpSetError id e => ignore (SetError id e)
  | OpRetry id t => ignore (ScheduleRetry id t)
  | OpComplete id ok x e => ignore (MarkCompleted id ok x e)
  | OpStuck s => ignore (CleanupStuckRunning s)
  | OpScrub s => ignore (ScrubTerminalPayloads s)
  | OpDeleteSite site =>
      ignore (exec (λ _ d, ((), set_tab (delete_where (λ r, bool_decide (jr_site r = Some site)) (jobs d)) d)))
  end.

(** The edges of the status machine. *)
Definition status_edge (a b : string) : Prop :=
  (a = StatusQueued ∧ (b = StatusRunning ∨ b = StatusCanceled)) ∨
  (a = StatusRunning ∧ b = StatusFailed) ∨
  b = StatusQueued ∨ b = StatusSucceeded ∨ b = StatusFailed.

(** What a row may become, the age of the row aside. *)
Record row_step (r s : job_row) : Prop := {
  step_id : jr_id s = jr_id r;
  step_server : jr_server s = jr_server r ∧ jr_site s = jr_site r ∧ jr_type s = jr_type r;
  step_max : jr_max_attempts s = jr_max_attempts r;
  step_status : jr_status s = jr_status r ∨ status_edge (jr_status r) (jr_status s);
  step_attempts :
    jr_attempts s = jr_attempts r ∨
    (jr_attempts s = jr_attempts r + 1 ∧ jr_status r = StatusQueued ∧ jr_status s = StatusRunning) }.

Record row_inv (r : job_row) : Prop := {
  inv_status : jr_status r ∈ [StatusQueued; StatusRunning; StatusSucceeded; StatusFailed; StatusCanceled];
  inv_attempts : 0 ≤ jr_attempts r;
  inv_running : jr_status r = StatusRunning → jr_started r ≠ None ∧ 1 ≤ jr_attempts r;
  inv_succeeded : jr_status r = StatusSucceeded → jr_completed r ≠ None ∧ jr_result r ≠ None;
  inv_payload : jr_payload r ≠ None }.

Definition jobs_inv (d : D) : Prop := table_wf (jobs d) ∧ table_all row_inv (jobs d).

(** Every row afterwards is a new one or comes from a row by [row_step]. *)
Definition jobs_step (d d' : D) : Prop :=
  ∀ s, In s (t_rows (jobs d')) →
       (t_seq (jobs d) < jr_id s ∧ jr_status s = StatusQueued ∧ jr_attempts s = 0) ∨
       ∃ r, In r (t_rows (jobs d)) ∧ row_step r s.

Lemma row_step_refl r : row_step r r.
Proof. split; auto. Qed.

Lemma jobs_step_refl d : jobs_step d d.
Proof. intros s Hs. right. exists s. split; [done|apply row_step_refl]. Qed.

Definition op_ok (w w' : world D) : Prop := jobs_inv (data w') ∧ jobs_step (data w) (data w').

(** An UPDATE that takes each row it matches through a good step. *)
Lemma update_ok (p : job_row → bool) (f : job_row → job_row) (w : world D) fs :
  (∀ r, p r = true → row_inv r → row_inv (f r)) → (∀ r, p r = true → row_step r (f r)) →
  (∀ r, jr_id (f r) = jr_id r) →
  jobs_inv (data w) →
  op_ok w (World (set_tab (update_where p f (jobs (data w))) (data w)) (clock w) fs).
Proof.
  intros Hi Hs Hid [Hw Ha]. unfold op_ok, jobs_inv, jobs_step. cbn. rewrite tab_set.
  split; [split|].
  - by apply update_wf.
  - by apply update_all.
  - intros s Hx. apply in_map_iff in Hx as (r & <- & Hr). right. exists r. split; [done|].
    destruct (p r) eqn:E; [by apply Hs|apply row_step_refl].
Qed.

Lemma op_ok_refl w fs : jobs_inv (data w) → op_ok w (World (data w) (clock w) fs).
Proof. intros H. split; [done|apply jobs_step_refl]. Qed.

Lemma ignore_ok {A} (m : M D A) (w : world D) :
  wp m (λ _ w', op_ok w w') w → wp (ignore m) (λ _ w', op_ok w w') w.
Proof. intros H. unfold ignore. wp_step. eapply wp_mono; [|exact H]. done. Qed.

(** A good row step that an update makes. *)
Definition good_update (p : job_row → bool) (f : job_row → job_row) : Prop :=
  (∀ r, p r = true → row_inv r → row_inv (f r)) ∧ (∀ r, p r = true → row_step r (f r)) ∧
  (∀ r, jr_id (f r) = jr_id r).

Lemma update_jobs_ok msg (p : Z → job_row → bool) (f : Z → job_row → job_row) (w : world D) :
  (∀ n, good_update (p n) (f n)) → jobs_inv (data w) →
  wp (ignore (wrap msg (update_jobs p f))) (λ _ w', op_ok w w') w.
Proof.
  intros Hg Hw. apply ignore_ok. unfold update_jobs. wp_run; [by apply op_ok_refl|].
  destruct (Hg (current_timestamp (clock w))) as (H1 & H2 & H3). by apply update_ok.
Qed.

Lemma update_count_ok (p : Z → job_row → bool) (f : Z → job_row → job_row) (w : world D) :
  (∀ n, good_update (p n) (f n)) → jobs_inv (data w) →
  wp (update_count p f) (λ _ w', op_ok w w') w.
Proof.
  intros Hg Hw. unfold update_count. wp_run; [by apply op_ok_refl|].
  destruct (Hg (current_timestamp (clock w))) as (H1 & H2 & H3). by apply update_ok.
Qed.

Ltac row_solve :=
  try solve [done | lia | compute_done | intros _; split; [done|lia] |
             tauto | intuition congruence].
Ltac good :=
  split; [intros r Hp [I1 I2 I3 I4 I5]; split | split; [intros r Hp; split|]]; cbn;
  unfold status_edge; bool_hyps;
  row_solve.

Lemma cancel_good id n :
  good_update (λ r, by_id id r && (jr_status r =? StatusQueued)%string)
              (λ r, touch n (upd_status StatusCanceled r)).
Proof. good. Qed.

Lemma set_error_good p e n : good_update p (λ r, touch n (upd_error e r)).
Proof. good. Qed.

Lemma retry_good p t n : good_update p (λ r, touch n (upd_retry t (upd_status StatusQueued r))).
Proof. good. Qed.

Lemma complete_good p ok x e n : good_update p (complete_row ok x e n).
Proof. destruct ok; good. Qed.

Lemma stuck_good c n e :
  good_update (stuck_row c) (λ r, touch n (upd_error e (upd_status "failed" r))).
Proof. unfold stuck_row. good. Qed.

Lemma scrub_good p : good_update p (upd_payload (Some "")).
Proof. good. Qed.

Lemma claim_good_row r n :
  jr_status r = StatusQueued →
  (row_inv r → row_inv (claim_row n r)) ∧ row_step r (claim_row n r).
Proof.
  intros Hp. split; [intros [I1 I2 I3 I4 I5]; split | split]; cbn; unfold status_edge; bool_hyps;
  row_solve.
Qed.

Lemma claim_ok ty (w : world D) :
  jobs_inv (data w) → wp (ClaimNext ty) (λ _ w', op_ok w w') w.
Proof.
  intros [Hw Ha]. eapply wp_mono; [|exact (claim_next ty w Hw)]. intros r w' H. cbv beta in H.
  destruct r as [[j|]|e].
  2: { destruct H as [E _]. split; rewrite E; [done|apply jobs_step_refl]. }
  2: { split; rewrite H; [done|apply jobs_step_refl]. }
  destruct H as (r & Hin & Hc & _ & _ & E).
  assert (jr_status r = StatusQueued) as Hq by (unfold claimable in Hc; bool_hyps; done).
  assert (∀ s, In s (t_rows (jobs (data w))) → by_id (jr_id r) s = true → s = r) as Hu.
  { intros s Hs Hb. apply Z.eqb_eq in Hb. by apply (wf_unique _ s r Hw Hs Hin). }
  unfold op_ok, jobs_inv, jobs_step. rewrite E. split; [split|].
  - by apply claim_wf.
  - apply List.Forall_map, List.Forall_forall. intros s Hs. cbn.
    pose proof (table_all_in _ _ s Ha Hs). destruct (by_id (jr_id r) s) eqn:Eb; [|done].
    rewrite (Hu s Hs Eb). by apply claim_good_row, (table_all_in _ _ r Ha Hin).
  - intros s Hx. apply in_map_iff in Hx as (s0 & <- & Hs). right. exists s0. split; [done|].
    destruct (by_id (jr_id r) s0) eqn:Eb; [|apply row_step_refl].
    rewrite (Hu s0 Hs Eb). by apply claim_good_row.
Qed.

Lemma create_ok j (w : world D) :
  (j_status j = "" ∨ j_status j = StatusQueued) → jobs_inv (data w) →
  wp (Create j) (λ _ w', op_ok w w') w.
Proof.
  intros Hq [Hw Ha]. unfold Create, on_tab. wp_run; [by apply op_ok_refl|].
  assert (j_status (job_defaults j) = StatusQueued) as Eq.
  { unfold job_defaults. cbn. by destruct Hq as [-> | ->]. }
  unfold op_ok, jobs_inv, jobs_step. cbn. rewrite tab_set. split; [split|].
  - apply insert_wf; [done|done].
  - apply insert_all; [|done]. intros i. split; cbn -[job_defaults]; rewrite ?Eq;
      first [done | lia | compute_done].
  - cbn. intros s [Hs|[<-|[]]]%in_app_iff; [right; exists s; split; [done|apply row_step_refl]|].
    left. cbn -[job_defaults]. rewrite Eq. split; [lia|done].
Qed.

(** C3: the operations of the panel on the queue keep its invariant, whichever
    statements fail: every job has one of the five statuses, a running job has
    a start time and at least one attempt, a succeeded one has a completion
    time and a result, ids are unique and increasing. *)
Theorem run_op_inv (o : job_op) (w : world D) (Hi : jobs_inv (data w)) :
  wp (run_op o) (λ _ w', jobs_inv (data w') ∧ jobs_step (data w) (data w')) w.
Proof.
  change (wp (run_op o) (λ _ w', op_ok w w') w). destruct o; cbn [run_op].
  - by apply ignore_ok, create_ok.
  - by apply ignore_ok, claim_ok.
  - apply update_jobs_ok; [intros n; apply cancel_good|done].
  - apply update_jobs_ok; [intros n; apply set_error_good|done].
  - apply update_jobs_ok; [intros n; apply retry_good|done].
  - apply update_jobs_ok; [intros n; apply complete_good|done].
  - apply ignore_ok. unfold CleanupStuckRunning. wp_step. wp_step. wp_step.
    apply update_count_ok; [intros n; apply stuck_good|done].
  - apply ignore_ok. unfold ScrubTerminalPayloads. wp_step. wp_step. wp_step.
    apply update_count_ok; [intros n; apply scrub_good|done].
  - apply ignore_ok. wp_run; [by apply op_ok_refl|]. destruct Hi as [Hw Ha].
    unfold op_ok, jobs_inv, jobs_step. cbn. rewrite tab_set. split; [split|].
    + by apply delete_wf.
    + by apply delete_all.
    + intros s [Hs _]%filter_In. right. exists s. split; [done|apply row_step_refl].
Qed.

(** [Cancel] is guarded: a job that is not queued when the statement runs
    is left exactly as it was, whatever its id, and so is every other job; the
    job with that id, when queued, becomes canceled. *)
Theorem Cancel_only_queued (id i : Z) (w : world D) (r : job_row)
    (Hr : get_row i (jobs (data w)) = Some r) :
  wp (Cancel id) (λ e w', get_row i (jobs (data w')) =
    Some match e with
         | Err _ => r
         | Ok _ => if (i =? id) && (jr_status r =? StatusQueued)%string
                   then touch (current_timestamp (clock w)) (upd_status StatusCanceled r) else r
         end) w.
Proof.
  unfold Cancel, update_jobs. wp_run; [done|]. rewrite tab_set, get_update_other by done.
  rewrite Hr. cbn. unfold by_id. by rewrite (get_row_id _ _ _ Hr).
Qed.

(** after a scrub no terminal job older than the limit has a payload, the
    payload of a queued or running job is untouched, the number reported is
    the number of payloads cleared, and a second scrub has nothing to do. *)
Theorem ScrubTerminalPayloads_spec (olderThan : Z) (w : world D) :
  wp (ScrubTerminalPayloads olderThan) (λ r w', match r with
    | Err _ => data w' = data w
    | Ok c =>
        let cutoff := current_timestamp (clock w - olderThan) in
        Forall2 (λ a b, b = if scrub_row cutoff a then upd_payload (Some "") a else a)
          (t_rows (jobs (data w))) (t_rows (jobs (data w'))) ∧
        c = count_where (scrub_row cutoff) (jobs (data w)) ∧
        Forall (λ b, terminal (jr_status b) = true → default (jr_updated b) (jr_completed b) < cutoff →
                     default "" (jr_payload b) = "") (t_rows (jobs (data w'))) ∧
        count_where (scrub_row cutoff) (jobs (data w')) = 0
    end) w.
Proof.
  unfold ScrubTerminalPayloads, update_count. wp_run; [done|]. rewrite tab_set.
  set (c := current_timestamp (clock w - olderThan)). generalize (jobs (data w)). intros [l q]. cbn.
  assert (Hs : ∀ a, scrub_row c (if scrub_row c a then upd_payload (Some "") a else a) = false).
  { intros a. destruct (scrub_row c a) eqn:E; [done|done]. }
  split; [|split; [done|split]].
  - induction l as [|a l IH]; cbn; constructor; done.
  - apply List.Forall_map, List.Forall_forall. intros a _ Ht Hc. specialize (Hs a).
    destruct (scrub_row c a) eqn:E; [done|]. unfold scrub_row in Hs.
    rewrite Ht, (proj2 (Z.ltb_lt _ _) Hc) in Hs. destruct (jr_payload a) as [x|]; [|done].
    cbn [default from_option] in *. destruct x; done.
  - unfold count_where, select_where. cbn. induction l as [|a l IH]; cbn; [done|]. by rewrite Hs.
Qed.

(** what [Create] stores is what [GetByID] returns: the defaults of status
    and attempts, the encrypted payload, no attempt yet, under an id that no
    row had. *)
Theorem Create_GetByID (j : Job) (d : D) (n : Z) (Hw : table_wf (jobs d)) :
  let '(r, w) := Create j (World d n []) in
  match r with
  | Err _ => False
  | Ok id =>
      get_row id (jobs d) = None ∧
      (GetByID id w).1 = Ok (Some (mkJob id (j_server j) (j_site j) (j_type j)
        (if (j_status j =? "")%string then StatusQueued else j_status j) (stored_payload (j_payload j))
        "" "" (j_descr j) 0 (if j_max_attempts j =? 0 then 3 else j_max_attempts j)
        (current_timestamp n) (current_timestamp n) None None None))
  end.
Proof.
  cbv [Create GetByID wrap mbind mret exec query stmt on_tab]. cbn -[job_defaults new_row get_row].
  rewrite tab_set. split.
  - destruct (get_row _ (jobs d)) as [r|] eqn:E; [|done].
    apply get_row_spec in E as [Hr Hi]; [|done]. destruct Hw as [_ Hw _].
    rewrite List.Forall_forall in Hw. specialize (Hw r Hr). lia.
  - change (Table (t_rows (jobs d) ++ [new_row (job_defaults j) n (t_seq (jobs d) + 1)]) (t_seq (jobs d) + 1))
      with (insert_row (new_row (job_defaults j) n) (jobs d)).2.
    rewrite get_insert by done. by rewrite Z.eqb_refl.
Qed.

(** [List] returns, newest first, the jobs that satisfy every filter that is
    set, at most [Limit] of them (100 when no limit is given), and all of them
    when the page is large enough. *)
Theorem List_spec (f : JobListFilter) (w : world D) (Hw : table_wf (jobs (data w))) :
  wp (List f) (λ r w', match r with
    | Err _ => data w' = data w
    | Ok l =>
        StronglySorted (λ a b, j_id b < j_id a) l ∧
        Z.of_nat (length l) ≤ (if f_limit f <=? 0 then 100 else f_limit f) ∧
        (∀ j, In j l → ∃ r, In r (t_rows (jobs (data w))) ∧ job_filter f r = true ∧ j = scanJob r) ∧
        (f_offset f ≤ 0 →
         count_where (job_filter f) (jobs (data w)) ≤ (if f_limit f <=? 0 then 100 else f_limit f) →
         ∀ r, In r (t_rows (jobs (data w))) → job_filter f r = true → In (scanJob r) l)
    end) w.
Proof.
  unfold List. wp_run; [done|]. set (n := if f_limit f <=? 0 then 100 else f_limit f).
  assert (0 < n) as Hn by (subst n; case_goal; bool_hyps; lia). clearbody n.
  unfold limit_offset. set (l := select_desc (job_filter f) (jobs (data w))).
  assert (StronglySorted (λ a b, jr_id b < jr_id a) (take (Z.to_nat n) (drop (Z.to_nat (f_offset f)) l))) as Hs.
  { apply sorted_take, sorted_drop. exact (select_desc_sorted _ (job_filter f) Hw). }
  assert (∀ x, In x l ↔ In x (t_rows (jobs (data w))) ∧ job_filter f x = true) as Hl.
  { intros x. subst l. unfold select_desc. rewrite <- in_rev. apply select_where_spec. }
  split; [|split; [|split]].
  - induction Hs as [|x k Hk IH Hx]; cbn; constructor; [done|]. by apply List.Forall_map.
  - rewrite length_map, length_take. lia.
  - intros j (x & <- & Hx)%in_map_iff. apply in_take_drop, Hl in Hx as [Hx Hp]. by exists x.
  - intros Ho Hc r Hr Hp. apply in_map. replace (Z.to_nat (f_offset f)) with O by lia.
    rewrite drop_0, take_ge; [by apply Hl|]. unfold count_where in Hc. subst l.
    unfold select_desc. rewrite length_rev. lia.
Qed.

(** the duplicate check of the scheduler: [HasActiveJob] says yes exactly
    when a job of that type for that site is queued or running. *)
Theorem HasActiveJob_spec (ty : string) (site : Z) (w : world D) :
  wp (HasActiveJob ty site) (λ r w', data w' = data w ∧ match r with
    | Err _ => True
    | Ok b => b = true ↔ ∃ r, In r (t_rows (jobs (data w))) ∧ jr_type r = ty ∧ jr_site r = Some site ∧
                          (jr_status r = StatusQueued ∨ jr_status r = StatusRunning)
    end) w.
Proof.
  unfold HasActiveJob. wp_run; [done|]. split; [done|]. rewrite count_pos.
  unfold active_row. setoid_rewrite andb_true_iff. setoid_rewrite andb_true_iff.
  setoid_rewrite orb_true_iff. setoid_rewrite String.eqb_eq. setoid_rewrite bool_decide_eq_true.
  naive_solver.
Qed.
End JobStore.

(** * Witnesses *)

(** A queue with a finished job that still has its payload, a running one and
    two queued ones, the second of which waits for its retry. *)
Definition sample_row (id : Z) (status : string) (attempts : Z) (started completed retry : option Z) : job_row :=
  JobRow id (Some 1) (Some 7) TypeBackupCreate status (Some "{}") (Some "{}") None (Some "") attempts 3
    100 100 started completed retry.
Definition sample_jobs : table job_row :=
  Table [sample_row 1 StatusSucceeded 1 (Some 100) (Some 110) None;
         sample_row 2 StatusRunning 1 (Some 120) None None;
         sample_row 4 StatusQueued 0 None None None;
         sample_row 5 StatusQueued 1 (Some 90) None (Some 9000)] 5.
Definition plain_cipher : PayloadCipher := {| EncryptPayload p := Ok p; DecryptPayload p := Ok p |}.
Definition sample_world : world (table job_row) := World sample_jobs 5000000000000 [].

Lemma sample_wf : table_wf sample_jobs.
Proof.
  split; [| |done].
  - repeat constructor.
  - cbn. repeat constructor; cbn; lia.
Qed.

(** The oldest claimable job is 4: 5 waits for its retry. *)
Lemma ClaimNext_spec_witness :
  (match (ClaimNext "" sample_world).1 with Ok (Some j) => j_id j | _ => 0 end) = 4 ∧
  wp (ClaimNext "") (λ r w', match r with
      | Err _ => data w' = sample_jobs
      | Ok None => data w' = sample_jobs ∧
          ∀ s, In s (t_rows sample_jobs) → claimable "" 5000 s = false
      | Ok (Some j) => ∃ r, In r (t_rows sample_jobs) ∧ claimable "" 5000 r = true ∧
          (∀ s, In s (t_rows sample_jobs) → claimable "" 5000 s = true → jr_id r ≤ jr_id s) ∧
          j = scanJob (upd_attempts (jr_attempts r + 1) (upd_status StatusRunning r)) ∧
          data w' = update_where (by_id (jr_id r)) (claim_row 5000) sample_jobs
      end) sample_world.
Proof. split; [reflexivity|]. exact (ClaimNext_spec "" sample_world sample_wf). Defined.

Lemma claims_NoDup_witness :
  (claims [""; ""; "x"] sample_world).1 = [4] ∧
  wp (claims [""; ""; "x"]) (λ l _, NoDup l) sample_world.
Proof. split; [reflexivity|]. exact (claims_NoDup _ sample_world sample_wf). Defined.

Lemma sample_inv : jobs_inv sample_jobs.
Proof.
  split; [exact sample_wf|]. cbn.
  repeat constructor; cbn; solve [compute_done | lia | done | intros _; split; (done || lia)].
Qed.

Lemma run_op_inv_witness :
  jobs_inv sample_jobs ∧
  wp (run_op (λ _ _, true) (HC := plain_cipher) (OpStuck 0))
    (λ _ w', jobs_inv (data w') ∧ jobs_step (data sample_world) (data w')) sample_world.
Proof.
  split; [exact sample_inv|].
  exact (run_op_inv (HC := plain_cipher) (λ _ _, true) (OpStuck 0) sample_world sample_inv).
Defined.

(** Canceling the running job changes nothing. *)
Lemma Cancel_only_queued_witness :
  (Cancel 2 sample_world).2 = sample_world ∧
  wp (Cancel 4) (λ e w', get_row 4 (data w') =
      Some match e with
           | Err _ => sample_row 4 StatusQueued 0 None None None
           | Ok _ => touch 5000 (upd_status StatusCanceled (sample_row 4 StatusQueued 0 None None None))
           end) sample_world.
Proof.
  split; [reflexivity|]. exact (Cancel_only_queued 4 4 sample_world _ eq_refl).
Defined.

Definition sample_job : Job :=
  mkJob 0 (Some 1) (Some 7) TypeSSLIssue "" "{}" "" "" "" 0 0 0 0 None None None.

Lemma Create_GetByID_witness :
  let '(r, w) := Create (HC := plain_cipher) sample_job sample_world in
  match r with
  | Err _ => False
  | Ok id =>
      get_row id sample_jobs = None ∧
      (GetByID id w).1 = Ok (Some (mkJob id (Some 1) (Some 7) TypeSSLIssue StatusQueued "{}"
        "" "" "" 0 3 5000 5000 None None None))
  end.
Proof. exact (Create_GetByID (HC := plain_cipher) sample_job sample_jobs 5000000000000 sample_wf). Defined.

(** The two newest jobs of the site. *)
Lemma List_spec_witness :
  let f := mkJobListFilter 0 7 "" "" 2 0 in
  (match (List f sample_world).1 with Ok l => map j_id l | Err _ => [] end) = [5; 4] ∧
  wp (List f) (λ r w', match r with
      | Err _ => data w' = sample_jobs
      | Ok l =>
          StronglySorted (λ a b, j_id b < j_id a) l ∧ Z.of_nat (length l) ≤ 2 ∧
          (∀ j, In j l → ∃ r, In r (t_rows sample_jobs) ∧ job_filter f r = true ∧ j = scanJob r) ∧
          (0 ≤ 0 → count_where (job_filter f) sample_jobs ≤ 2 →
           ∀ r, In r (t_rows sample_jobs) → job_filter f r = true → In (scanJob r) l)
      end) sample_world.
Proof. split; [reflexivity|]. exact (List_spec _ sample_world sample_wf). Defined.
