(* ===== verification/Accounts.v ===== *)
(** The accounts of the panel: src/internal/store/users.go, user_sites.go,
    sessions.go, twofa.go, service_tokens.go and ip_restrictions.go, one Module
    per store.  A row that other tables refer to is deleted with the foreign keys of the
    schema ([References]), which Panel.v gives for the database of the panel. *)
From S2P Require Import Prelude GoStr Sql.
Local Open Scope Z_scope.
Local Open Scope panel_scope.

(** * Rows *)

(** A row of [users]; [u_totp_secret] and [u_totp_enabled] may be NULL. *)
Record user_row := UserRow {
  u_id : Z; u_username : string; u_email : string; u_password : string; u_role : string;
  u_created_by : option Z; u_created : Z; u_disk_limit : option Z; u_max_sites : option Z; u_plan
  : option Z; u_totp_secret : option string; u_totp_enabled : option Z; u_password_changed :
  option Z; u_updated : Z }.

#[export] Instance user_row_id : HasId user_row := u_id.

Definition set_password (v0 : string) (v1 : option Z) (r : user_row) : user_row :=
  UserRow (u_id r) (u_username r) (u_email r) v0 (u_role r) (u_created_by r) (u_created r)
    (u_disk_limit r) (u_max_sites r) (u_plan r) (u_totp_secret r) (u_totp_enabled r) v1
    (u_updated r).
Definition set_email (v : string) (r : user_row) : user_row :=
  UserRow (u_id r) (u_username r) v (u_password r) (u_role r) (u_created_by r) (u_created r)
    (u_disk_limit r) (u_max_sites r) (u_plan r) (u_totp_secret r) (u_totp_enabled r)
    (u_password_changed r) (u_updated r).
Definition set_disk_limit (v : option Z) (r : user_row) : user_row :=
  UserRow (u_id r) (u_username r) (u_email r) (u_password r) (u_role r) (u_created_by r)
    (u_created r) v (u_max_sites r) (u_plan r) (u_totp_secret r) (u_totp_enabled r)
    (u_password_changed r) (u_updated r).
Definition set_max_sites (v : option Z) (r : user_row) : user_row :=
  UserRow (u_id r) (u_username r) (u_email r) (u_password r) (u_role r) (u_created_by r)
    (u_created r) (u_disk_limit r) v (u_plan r) (u_totp_secret r) (u_totp_enabled r)
    (u_password_changed r) (u_updated r).
Definition set_role (v : string) (r : user_row) : user_row :=
  UserRow (u_id r) (u_username r) (u_email r) (u_password r) v (u_created_by r) (u_created r)
    (u_disk_limit r) (u_max_sites r) (u_plan r) (u_totp_secret r) (u_totp_enabled r)
    (u_password_changed r) (u_updated r).
Definition set_plan (v : option Z) (r : user_row) : user_row :=
  UserRow (u_id r) (u_username r) (u_email r) (u_password r) (u_role r) (u_created_by r)
    (u_created r) (u_disk_limit r) (u_max_sites r) v (u_totp_secret r) (u_totp_enabled r)
    (u_password_changed r) (u_updated r).
Definition set_created_by (v : option Z) (r : user_row) : user_row :=
  UserRow (u_id r) (u_username r) (u_email r) (u_password r) (u_role r) v (u_created r)
    (u_disk_limit r) (u_max_sites r) (u_plan r) (u_totp_secret r) (u_totp_enabled r)
    (u_password_changed r) (u_updated r).
Definition set_totp_secret (v : option string) (r : user_row) : user_row :=
  UserRow (u_id r) (u_username r) (u_email r) (u_password r) (u_role r) (u_created_by r)
    (u_created r) (u_disk_limit r) (u_max_sites r) (u_plan r) v (u_totp_enabled r)
    (u_password_changed r) (u_updated r).
Definition set_totp_enabled (v : option Z) (r : user_row) : user_row :=
  UserRow (u_id r) (u_username r) (u_email r) (u_password r) (u_role r) (u_created_by r)
    (u_created r) (u_disk_limit r) (u_max_sites r) (u_plan r) (u_totp_secret r) v
    (u_password_changed r) (u_updated r).
Definition user_touch (v : Z) (r : user_row) : user_row :=
  UserRow (u_id r) (u_username r) (u_email r) (u_password r) (u_role r) (u_created_by r)
    (u_created r) (u_disk_limit r) (u_max_sites r) (u_plan r) (u_totp_secret r) (u_totp_enabled r)
    (u_password_changed r) v.

Record user_site_row := UserSiteRow {
  us_id : Z; us_user : Z; us_site : Z; us_permission : string; us_created : Z }.

#[export] Instance user_site_row_id : HasId user_site_row := us_id.

Definition set_permission (v : string) (r : user_site_row) : user_site_row :=
  UserSiteRow (us_id r) (us_user r) (us_site r) v (us_created r).

(** Times in seconds, as the column texts. *)
Record session_row := SessionRow {
  se_id : Z; se_user : Z; se_token_hash : string; se_expires : Z; se_created : Z; se_revoked :
  option Z; se_impersonated_by : option Z }.

#[export] Instance session_row_id : HasId session_row := se_id.

Definition set_revoked (v : option Z) (r : session_row) : session_row :=
  SessionRow (se_id r) (se_user r) (se_token_hash r) (se_expires r) (se_created r) v
    (se_impersonated_by r).

Record recovery_row := RecoveryRow {
  rc_id : Z; rc_user : Z; rc_code_hash : string; rc_used : bool }.

#[export] Instance recovery_row_id : HasId recovery_row := rc_id.

Definition set_used (v : bool) (r : recovery_row) : recovery_row :=
  RecoveryRow (rc_id r) (rc_user r) (rc_code_hash r) v.

Record token_row := TokenRow {
  tk_id : Z; tk_name : string; tk_key_hash : string; tk_scopes : string; tk_created : Z;
  tk_expires : option Z; tk_last_used : option Z }.

#[export] Instance token_row_id : HasId token_row := tk_id.

Definition set_last_used (v : option Z) (r : token_row) : token_row :=
  TokenRow (tk_id r) (tk_name r) (tk_key_hash r) (tk_scopes r) (tk_created r) (tk_expires r) v.

Record ip_row := IPRow {
  ip_id : Z; ip_site : Z; ip_addr : string; ip_action : string; ip_reason : string; ip_created : Z }.

#[export] Instance ip_row_id : HasId ip_row := ip_id.


(** The other columns of a user, as [scanUser] reads them. *)
Definition totp_secret (r : user_row) : string := default "" (u_totp_secret r).
Definition totp_enabled (r : user_row) : bool := default 0 (u_totp_enabled r) =? 1.

(** [UPDATE t SET ... WHERE id = ?] and friends, with the time of the statement
    in seconds. *)
Definition update_tab {A D} `{Has A D} (p : A → bool) (f : Z → A → A) : M D (res ()) :=
  exec (λ n d, ((), set_tab (update_where p (f (current_timestamp n)) (tab d)) d)).
Definition delete_tab {A D} `{Has A D} (p : A → bool) : M D (res ()) :=
  exec (λ _ d, ((), set_tab (delete_where p (tab d)) d)).
(** The same, with the number of rows the statement touched. *)
Definition update_tab_n {A D} `{Has A D} (p : A → bool) (f : Z → A → A) : M D (res Z) :=
  exec (λ n d, (count_where p (tab d), set_tab (update_where p (f (current_timestamp n)) (tab d)) d)).
Definition delete_tab_n {A D} `{Has A D} (p : A → bool) : M D (res Z) :=
  exec (λ _ d, (count_where p (tab d), set_tab (delete_where p (tab d)) d)).
Definition has_row {A} (p : A → bool) (t : table A) : bool := existsb p (t_rows t).

(** Deleting rows other tables refer to.  The connection has [foreign_keys(ON)]: the
    referring rows are deleted too where the schema says ON DELETE CASCADE
    ([fk_cascade]), and a row that would be left referring to nothing makes the
    statement fail ([fk_blocked]). *)
Class References (A D : Type) := {
  fk_cascade : (A → bool) → D → D;
  fk_blocked : (A → bool) → D → bool }.
(** A row may be inserted only if the rows its columns refer to are there. *)
Class Parents (A D : Type) := parents_exist : A → D → bool.
(** A table nothing refers to. *)
Definition no_references (A D : Type) : References A D :=
  {| fk_cascade _ d := d; fk_blocked _ _ := false |}.
Definition fk_error : string := "constraint failed: FOREIGN KEY constraint failed (787)".
Definition delete_parent_row {A D} `{Has A D} `{References A D} (p : A → bool) (d : D) : res D :=
  if fk_blocked p d then Err fk_error else Ok (set_tab (delete_where p (tab d)) (fk_cascade p d)).
Definition delete_parent {A D} `{Has A D} `{References A D} (p : A → bool) : M D (res ()) :=
  stmt (λ _ d, match delete_parent_row p d with Ok d' => (Ok (), d') | Err e => (Err e, d) end).

(** [ORDER BY]: an insertion sort; rows the order does not separate stay in
    the order of the scan. *)
Fixpoint insert_by {A} (le : A → A → bool) (x : A) (l : list A) : list A :=
  match l with
  | [] => [x]
  | y :: l' => if le y x then y :: insert_by le x l' else x :: y :: l'
  end.
Definition order_by {A} (le : A → A → bool) (l : list A) : list A := fold_left (λ acc x, insert_by le x acc) l [].
Definition order_desc {A} (key : A → Z) : list A → list A := order_by (λ a b, key b <=? key a).

Lemma in_insert_by {A} (le : A → A → bool) (x y : A) (l : list A) : In y (insert_by le x l) ↔ y = x ∨ In y l.
Proof.
  induction l as [|z l IH]; cbn; [intuition congruence|]. destruct (le z x); cbn; rewrite ?IH; intuition congruence.
Qed.

Lemma in_order_by {A} (le : A → A → bool) (y : A) (l : list A) : In y (order_by le l) ↔ In y l.
Proof.
  unfold order_by. assert (∀ acc, In y (fold_left (λ a x, insert_by le x a) l acc) ↔ In y l ∨ In y acc) as H.
  { induction l as [|x l IH]; intros acc; cbn; [tauto|]. rewrite IH, in_insert_by. intuition congruence. }
  rewrite H. cbn. tauto.
Qed.

(** * Roles: src/internal/auth/auth.go *)

Definition RoleSuperAdmin := "super_admin".
Definition RoleAdmin := "admin".
Definition RoleUser := "user".

Definition IsValidRole (role : string) : bool :=
  (role =? RoleSuperAdmin)%string || (role =? RoleAdmin)%string || (role =? RoleUser)%string.

Definition HasRole (userRole requiredRole : string) : bool :=
  if (requiredRole =? RoleSuperAdmin)%string then (userRole =? RoleSuperAdmin)%string
  else if (requiredRole =? RoleAdmin)%string then
    (userRole =? RoleSuperAdmin)%string || (userRole =? RoleAdmin)%string
  else if (requiredRole =? RoleUser)%string then
    (userRole =? RoleSuperAdmin)%string || (userRole =? RoleAdmin)%string || (userRole =? RoleUser)%string
  else false.

(** ValidateScopes of service_token.go. *)
Definition ValidateScopes (tokenScopes requiredScope : string) : bool :=
  if (tokenScopes =? "*")%string then true
  else existsb (λ s, (trim_space s =? requiredScope)%string) (split "," tokenScopes).

(** * users.go *)

Module Users.
Section Users.
Context {D : Type} `{HU : Has user_row D}.
(** [auth.HashPassword] with its random salt. *)
Context (HashPassword : string → res string).

Notation users := (tab (A := user_row)).

Record User := mkUser {
  Username : string; Email : string; Password : string; Role : string;
  CreatedBy : option Z; DiskLimit : option Z; MaxSites : option Z; PlanID : option Z }.

(** UNIQUE(username) and UNIQUE(email). *)
Definition unique_user (u : User) (t : table user_row) : bool :=
  negb (has_row (λ r, (u_username r =? Username u)%string || (u_email r =? Email u)%string) t).
(** The foreign key [created_by], which the new row itself may satisfy; no caller gives a plan. *)
Definition creator_exists (u : User) (t : table user_row) : bool :=
  match CreatedBy u with None => true | Some i => has_row (by_id i) t || (i =? t_seq t + 1) end.

Definition new_user (u : User) (hash : string) (n id : Z) : user_row :=
  UserRow id (Username u) (Email u) hash (Role u) (CreatedBy u) (current_timestamp n) (DiskLimit u)
    (MaxSites u) (PlanID u) None None None (current_timestamp n).

Definition Create (u : User) : M D (res Z) :=
  if negb (IsValidRole (Role u)) then
    mret (Err ("invalid role " +:+ Role u +:+ ": must be super_admin, admin or user"))
  else
    match HashPassword (Password u) with
    | Err e => mret (Err ("hash password: " +:+ e))
    | Ok hash => wrap "insert user" (insert_checked (λ t, unique_user u t && creator_exists u t) (new_user u hash))
    end.

Definition scan_query {B} (f : table user_row → B) : M D (res B) :=
  wrap "scan user" (query (λ _ d, f (users d))).

Definition GetByID (id : Z) : M D (res (option user_row)) := scan_query (get_row id).
Definition GetByEmail (email : string) : M D (res (option user_row)) :=
  scan_query (select_one (λ r, (u_email r =? email)%string)).
Definition GetByUsername (username : string) : M D (res (option user_row)) :=
  scan_query (select_one (λ r, (u_username r =? username)%string)).

Definition UpdatePassword (userID : Z) (newHash : string) : M D (res ()) :=
  wrap "update password" (update_tab (by_id userID) (λ n r, user_touch n (set_password newHash (Some n) r))).
(** UNIQUE(email): another row may not have it. *)
Definition UpdateEmail (userID : Z) (email : string) : M D (res ()) :=
  wrap "update email"
    (stmt (λ n d, if has_row (λ r, (u_email r =? email)%string && negb (by_id userID r)) (users d) &&
                     has_row (by_id userID) (users d)
                  then (Err constraint_error, d)
                  else (Ok (), set_tab (update_where (by_id userID)
                          (λ r, user_touch (current_timestamp n) (set_email email r)) (users d)) d))).
Definition UpdateDiskLimit (userID : Z) (v : option Z) : M D (res ()) :=
  wrap "update disk limit" (update_tab (by_id userID) (λ n r, user_touch n (set_disk_limit v r))).
Definition UpdateMaxSites (userID : Z) (v : option Z) : M D (res ()) :=
  wrap "update max sites" (update_tab (by_id userID) (λ n r, user_touch n (set_max_sites v r))).
Definition UpdatePlan (userID : Z) (v : option Z) : M D (res ()) :=
  wrap "update plan" (update_tab (by_id userID) (λ n r, user_touch n (set_plan v r))).
Definition UpdateRole (userID : Z) (role : string) : M D (res ()) :=
  if negb (IsValidRole role) then
    mret (Err ("invalid role " +:+ role +:+ ": must be super_admin, admin or user"))
  else wrap "update role" (update_tab (by_id userID) (λ n r, user_touch n (set_role role r))).
Definition NullifyCreatedBy (userID : Z) : M D (res ()) :=
  update_tab (λ r : user_row, bool_decide (u_created_by r = Some userID)) (λ _, set_created_by None).

Definition List (createdBy : Z) : M D (res (list user_row)) :=
  wrap "list users"
    (query (λ _ d, select_where (λ r, if 0 <? createdBy then bool_decide (u_created_by r = Some createdBy)
                                      else true) (users d))).

Definition Delete `{HRF : References user_row D} (userID : Z) : M D (res ()) :=
  wrap "delete user" (delete_parent (by_id (A := user_row) userID)).
End Users.
End Users.

(** * user_sites.go *)

Module UserSites.
Section UserSites.
Context {D : Type} `{HUS : Has user_site_row D}.
Notation grants := (tab (A := user_site_row)).

Definition ErrNoRows := "sql: no rows in result set".

Definition is_grant (userID siteID : Z) (r : user_site_row) : bool :=
  (us_user r =? userID) && (us_site r =? siteID).
(** CHECK (permission IN ('read','write','admin')). *)
Definition valid_permission (p : string) : bool := str_in ["read"; "write"; "admin"] p.

(** INSERT ... ON CONFLICT(user_id, site_id) DO UPDATE. *)
Definition upsert (userID siteID : Z) (permission : string) (n : Z) (t : table user_site_row) :
    table user_site_row :=
  if has_row (is_grant userID siteID) t
  then update_where (is_grant userID siteID) (set_permission permission) t
  else (insert_row (λ id, UserSiteRow id userID siteID permission (current_timestamp n)) t).2.

Definition Assign `{HPA : Parents user_site_row D} (userID siteID : Z) (permission : string) : M D (res ()) :=
  let p := if (permission =? "")%string then "read" else permission in
  stmt (λ n d,
    if negb (valid_permission p) then (Err constraint_error, d)
    else if has_row (is_grant userID siteID) (grants d) || parents_exist (UserSiteRow 0 userID siteID p 0) d
    then (Ok (), set_tab (upsert userID siteID p n (grants d)) d)
    else (Err fk_error, d)).

Definition Unassign (userID siteID : Z) : M D (res ()) :=
  let? n := delete_tab_n (is_grant userID siteID) in
  mret (if n =? 0 then Err ErrNoRows else Ok ()).

Definition UpdatePermission (userID siteID : Z) (permission : string) : M D (res ()) :=
  let? n := stmt (λ _ d,
      if has_row (is_grant userID siteID) (grants d) && negb (valid_permission permission)
      then (Err constraint_error, d)
      else (Ok (count_where (is_grant userID siteID) (grants d)),
            set_tab (update_where (is_grant userID siteID) (set_permission permission) (grants d)) d)) in
  mret (if n =? 0 then Err ErrNoRows else Ok ()).

Definition HasAccess (userID siteID : Z) : M D (res bool) :=
  query (λ _ d, has_row (is_grant userID siteID) (grants d)).

Definition GetPermission (userID siteID : Z) : M D (res string) :=
  let? o := query (λ _ d, select_one (is_grant userID siteID) (grants d)) in
  mret (match o with None => Err ErrNoRows | Some r => Ok (us_permission r) end).
End UserSites.
End UserSites.

(** * sessions.go *)

Module Sessions.
Section Sessions.
Context {D : Type} `{HSE : Has session_row D}.
Notation sessions := (tab (A := session_row)).

Record Session := mkSession {
  UserID : Z; TokenHash : string; ExpiresAt : Z; ImpersonatedBy : option Z }.

(** UNIQUE(token_hash); the expiry is stored with the precision of a second. *)
Definition new_session (s : Session) (n id : Z) : session_row :=
  SessionRow id (UserID s) (TokenHash s) (current_timestamp (ExpiresAt s)) (current_timestamp n) None
    (ImpersonatedBy s).
Definition Create (s : Session) : M D (res Z) :=
  wrap "insert session"
    (insert_checked (λ t, negb (has_row (λ r, (se_token_hash r =? TokenHash s)%string) t)) (new_session s)).

Definition live_hash (hash : string) (r : session_row) : bool :=
  (se_token_hash r =? hash)%string && bool_decide (se_revoked r = None).
Definition GetByTokenHash (hash : string) : M D (res (option session_row)) :=
  wrap "scan session" (query (λ _ d, select_one (live_hash hash) (sessions d))).

Definition Revoke (id : Z) : M D (res ()) :=
  wrap "revoke session" (update_tab (by_id id) (λ n, set_revoked (Some n))).
Definition RevokeByTokenHash (hash : string) : M D (res ()) :=
  wrap "revoke session by token hash"
    (update_tab (λ r : session_row, (se_token_hash r =? hash)%string) (λ n, set_revoked (Some n))).

Definition CleanupExpired : M D (res ()) :=
  wrap "cleanup expired sessions"
    (exec (λ n d, ((), set_tab (delete_where (λ r : session_row,
       bool_decide (se_revoked r ≠ None) || (se_expires r <? current_timestamp n)) (sessions d)) d))).

(** Not revoked and not expired at second [n]. *)
Definition active (userID n : Z) (r : session_row) : bool :=
  (se_user r =? userID) && bool_decide (se_revoked r = None) && (n <? se_expires r).

(** [ORDER BY id DESC LIMIT -1 OFFSET maxSessions]: all but the newest. *)
Definition overflow (userID maxSessions n : Z) (t : table session_row) : list session_row :=
  drop (Z.to_nat maxSessions) (select_desc (active userID n) t).
Definition RevokeOldest (userID maxSessions : Z) : M D (res ()) :=
  wrap "revoke oldest sessions"
    (exec (λ n d, let c := current_timestamp n in
       ((), set_tab (update_where (λ r, existsb (by_id (se_id r)) (overflow userID maxSessions c (sessions d)))
                       (set_revoked (Some c)) (sessions d)) d))).

Definition CountActive (userID : Z) : M D (res Z) :=
  wrap "count active sessions"
    (query (λ n d, count_where (active userID (current_timestamp n)) (sessions d))).
End Sessions.
End Sessions.

(** * twofa.go *)

Module TwoFactor.
Section TwoFactor.
Context {D : Type} `{HU : Has user_row D} `{HRC : Has recovery_row D}.
Notation users := (tab (A := user_row)).
Notation codes := (tab (A := recovery_row)).

Definition user_column {B} (msg : string) (f : user_row → B) (userID : Z) : M D (res B) :=
  let? o := wrap msg (query (λ _ d, get_row userID (users d))) in
  mret (match o with None => Err (msg +:+ ": sql: no rows in result set") | Some r => Ok (f r) end).

Definition GetTOTPSecret : Z → M D (res string) := user_column "get totp secret" totp_secret.
Definition IsTOTPEnabled : Z → M D (res bool) := user_column "check totp enabled" totp_enabled.
Definition SetTOTPSecret (userID : Z) (secret : string) : M D (res ()) :=
  wrap "set totp secret" (update_tab (by_id userID) (λ n r, user_touch n (set_totp_secret (Some secret) r))).
Definition EnableTOTP (userID : Z) : M D (res ()) :=
  wrap "enable totp" (update_tab (by_id userID) (λ n r, user_touch n (set_totp_enabled (Some 1) r))).
Definition DisableTOTP (userID : Z) : M D (res ()) :=
  wrap "disable totp"
    (update_tab (by_id userID)
       (λ n r, user_touch n (set_totp_secret (Some "") (set_totp_enabled (Some 0) r)))).

Definition of_user (userID : Z) (r : recovery_row) : bool := rc_user r =? userID.
Definition insert_code (userID : Z) (h : string) (d : D) : D :=
  set_tab (insert_row (λ id, RecoveryRow id userID h false) (codes d)).2 d.
Definition StoreRecoveryCodes (userID : Z) (codeHashes : list string) : M D (res ()) :=
  transaction "begin tx"
    (("delete old recovery codes", λ _ d, Ok (set_tab (delete_where (of_user userID) (codes d)) d))
     :: ("prepare insert", λ _ d, Ok d)
     :: map (λ h, ("insert recovery code", λ _ d, Ok (insert_code userID h d))) codeHashes)
    "commit".

Definition unused_code (userID : Z) (codeHash : string) (r : recovery_row) : bool :=
  (rc_user r =? userID) && (rc_code_hash r =? codeHash)%string && negb (rc_used r).
Definition VerifyRecoveryCode (userID : Z) (codeHash : string) : M D (res bool) :=
  let? n := wrap "verify recovery code"
              (update_tab_n (unused_code userID codeHash) (λ _, set_used true)) in
  mret (Ok (n =? 1)).
Definition DeleteRecoveryCodes (userID : Z) : M D (res ()) :=
  wrap "delete recovery codes" (delete_tab (of_user userID)).
End TwoFactor.
End TwoFactor.

(** * service_tokens.go *)

Module ServiceTokens.
Section ServiceTokens.
Context {D : Type} `{HTK : Has token_row D}.
Notation tokens := (tab (A := token_row)).

(** UNIQUE(name) and UNIQUE(key_hash). *)
Definition Create (name keyHash scopes : string) (expiresAt : option Z) : M D (res Z) :=
  wrap "insert service token"
    (insert_checked
       (λ t, negb (has_row (λ r, (tk_name r =? name)%string || (tk_key_hash r =? keyHash)%string) t))
       (λ n id, TokenRow id name keyHash scopes (current_timestamp n)
                  (current_timestamp <$> expiresAt) None)).
Definition GetByKeyHash (keyHash : string) : M D (res (option token_row)) :=
  wrap "scan service token"
    (query (λ _ d, select_one (λ r, (tk_key_hash r =? keyHash)%string) (tokens d))).
Definition List : M D (res (list token_row)) :=
  wrap "query service tokens" (query (λ _ d, order_desc tk_created (t_rows (tokens d)))).
Definition Delete (id : Z) : M D (res ()) :=
  wrap "delete service token" (delete_tab (by_id (A := token_row) id)).
Definition UpdateLastUsed (id : Z) : M D (res ()) :=
  wrap "update service token last_used_at" (update_tab (by_id id) (λ n, set_last_used (Some n))).
End ServiceTokens.
End ServiceTokens.

(** * ip_restrictions.go *)

Module IPRestrictions.
Section IPRestrictions.
Context {D : Type} `{HIP : Has ip_row D}.
Notation rules := (tab (A := ip_row)).

Definition Create (site : Z) (ip action reason : string) : M D (res Z) :=
  wrap "create ip restriction"
    (insert_checked (λ _, true) (λ n id, IPRow id site ip action reason (current_timestamp n))).
Definition of_site (site : Z) (r : ip_row) : bool := ip_site r =? site.
Definition List (site : Z) : M D (res (list ip_row)) :=
  wrap "list ip restrictions" (query (λ _ d, order_desc ip_created (select_where (of_site site) (rules d)))).
Definition Delete (id : Z) : M D (res ()) :=
  wrap "delete ip restriction" (delete_tab (by_id (A := ip_row) id)).
Definition DeleteBySite (site : Z) : M D (res ()) :=
  wrap "delete ip restrictions by site" (delete_tab (of_site site)).

Definition rule_for (site : Z) (ip action : string) (r : ip_row) : bool :=
  (ip_site r =? site) && (ip_addr r =? ip)%string && (ip_action r =? action)%string.
(** The boolean goes with the error: the first query fails open. *)
Definition IsAllowed (site : Z) (ip : string) : M D (bool * error) :=
  let* c := wrap "check ip restrictions" (query (λ _ d, count_where (of_site site) (rules d))) in
  match c with
  | Err e => mret (true, errorf e)
  | Ok count =>
      if count =? 0 then mret (true, nil_error) else
      let* a := wrap "check ip allowed" (query (λ _ d, count_where (rule_for site ip "allow") (rules d))) in
      match a with
      | Err e => mret (false, errorf e)
      | Ok allowed =>
          if 0 <? allowed then mret (true, nil_error) else
          let* b := wrap "check ip denied" (query (λ _ d, count_where (rule_for site ip "deny") (rules d))) in
          match b with
          | Err e => mret (false, errorf e)
          | Ok denied => if 0 <? denied then mret (false, nil_error) else mret (false, nil_error)
          end
      end
  end.
End IPRestrictions.
End IPRestrictions.

(** * Facts *)

(** roles form a hierarchy: [HasRole] is transitive, a valid role has itself,
    and an unknown role has nothing and satisfies nothing. *)
Theorem HasRole_order (a b c : string) :
  (HasRole a b = true → HasRole b c = true → HasRole a c = true) ∧
  HasRole a a = IsValidRole a ∧
  (IsValidRole a = false → HasRole a b = false ∧ HasRole b a = false).
Proof.
  unfold HasRole, IsValidRole, RoleSuperAdmin, RoleAdmin, RoleUser.
  split; [|split].
  - repeat case_goal; intros; bool_hyps; subst; try done;
      repeat match goal with H : _ ∨ _ |- _ => destruct H; bool_hyps; subst; try done end.
  - repeat case_goal; bool_hyps; subst; try done.
  - intros H. bool_hyps. destruct (String.eqb_spec a "super_admin"), (String.eqb_spec a "admin"),
      (String.eqb_spec a "user"); try done. split; [|done]. by repeat case_goal.
Qed.

Section AccountFacts.
Context {D : Type}.

Lemma revoked_inactive `{HSE : Has session_row D} (u n c : Z) r :
  Sessions.active u n (set_revoked (Some c) r) = false.
Proof. unfold Sessions.active. by rewrite (bool_decide_eq_false_2 (se_revoked _ = None)), andb_false_r. Qed.

(** The newest active sessions stay. *)
Lemma revoke_desc `{HSE : Has session_row D} (u k c : Z) (t : table session_row) : table_wf t →
  select_desc (Sessions.active u c)
    (update_where (λ r, existsb (by_id (se_id r)) (Sessions.overflow u k c t)) (set_revoked (Some c)) t) =
  take (Z.to_nat k) (select_desc (Sessions.active u c) t).
Proof.
  intros Hw. rewrite select_desc_update by (intros r _; apply revoked_inactive).
  apply keep_first, select_desc_sorted, Hw.
Qed.

(** [RevokeOldest] bounds the sessions of a user: afterwards the active
    sessions of the user are exactly the [k] newest of those active before,
    unchanged, so no more than [k], and no session of another user and no
    inactive session is touched. *)
Theorem RevokeOldest_spec `{HSE : Has session_row D} (u k : Z) (w : world D)
    (Hw : table_wf (tab (A := session_row) (data w))) (Hk : 0 ≤ k) :
  wp (Sessions.RevokeOldest u k) (λ r w', match r with
    | Err _ => data w' = data w
    | Ok _ =>
        let c := current_timestamp (clock w) in
        let before := tab (A := session_row) (data w) in
        let after := tab (A := session_row) (data w') in
        select_desc (Sessions.active u c) after = take (Z.to_nat k) (select_desc (Sessions.active u c) before) ∧
        count_where (Sessions.active u c) after ≤ k ∧
        Forall2 (λ a b, Sessions.active u c a = false → b = a) (t_rows before) (t_rows after)
    end) w.
Proof.
  unfold Sessions.RevokeOldest. wp_run; [done|]. rewrite tab_set.
  set (c := current_timestamp (clock w)). set (t := tab (data w)) in *.
  pose proof (revoke_desc u k c t Hw) as E.
  split; [done|]. split.
  - rewrite count_desc, E, length_take. lia.
  - unfold update_where. cbn. apply Forall2_fmap_r, Forall_Forall2_diag, List.Forall_forall.
    intros a Ha Hac. cbn. destruct (existsb _ _) eqn:Ex; [|done].
    apply existsb_exists in Ex as (b & Hb & He). apply Z.eqb_eq in He.
    unfold Sessions.overflow in Hb. rewrite <- (firstn_all (drop _ _)) in Hb.
    apply in_take_drop in Hb. unfold select_desc in Hb. rewrite <- in_rev in Hb.
    apply select_where_spec in Hb as [Hb Hp]. rewrite (wf_unique t b a Hw Hb Ha He) in Hp. congruence.
Qed.

(** ** Recovery codes *)

Lemma count_where_zero {A} (p : A → bool) (t : table A) :
  (∀ r, In r (t_rows t) → p r = false) → count_where p t = 0.
Proof.
  unfold count_where, select_where. intros H. rewrite (List.filter_ext_in _ (λ _, false)) by done.
  by rewrite filter_false.
Qed.

Lemma used_none (u : Z) (h : string) (t : table recovery_row) :
  count_where (TwoFactor.unused_code u h) (update_where (TwoFactor.unused_code u h) (set_used true) t) = 0.
Proof.
  apply count_where_zero. intros r (s & <- & _)%in_map_iff.
  destruct (TwoFactor.unused_code u h s) eqn:E; [|done]. unfold TwoFactor.unused_code. cbn.
  by rewrite andb_false_r.
Qed.

(** a recovery code is spent once: of two verifications of the same code of
    the same user, in any order of failures and with nothing stored in between,
    at most one answers yes. *)
Theorem VerifyRecoveryCode_once `{HRC : Has recovery_row D} (u : Z) (h : string) (w : world D) :
  wp (let* a := TwoFactor.VerifyRecoveryCode u h in
      let* b := TwoFactor.VerifyRecoveryCode u h in mret (a, b))
     (λ r _, r.1 = Ok true → r.2 ≠ Ok true) w.
Proof.
  unfold TwoFactor.VerifyRecoveryCode, update_tab_n. wp_run; cbn; try done; try congruence.
  rewrite tab_set, used_none. intros _ [=].
Qed.

(** storing recovery codes replaces the old ones, all or nothing: after a
    success the codes of the user are exactly the given ones, in order and
    unused, and those of other users are untouched; after a failure nothing
    has changed. *)
Theorem StoreRecoveryCodes_replaces `{HRC : Has recovery_row D} (u : Z) (hs : list string) (w : world D) :
  wp (TwoFactor.StoreRecoveryCodes u hs) (λ r w', match r with
    | Err _ => data w' = data w
    | Ok _ =>
        map (λ c, (rc_code_hash c, rc_used c))
          (select_where (TwoFactor.of_user u) (tab (A := recovery_row) (data w'))) = map (λ h, (h, false)) hs ∧
        (∀ v, v ≠ u → select_where (TwoFactor.of_user v) (tab (A := recovery_row) (data w')) =
                      select_where (TwoFactor.of_user v) (tab (A := recovery_row) (data w)))
    end) w.
Proof.
  unfold TwoFactor.StoreRecoveryCodes. eapply wp_mono; [|apply transaction_spec].
  intros [[]|e] w' [_ H]; [|done]. cbn [apply_steps] in H.
  set (d0 := set_tab (delete_where (TwoFactor.of_user u) (tab (data w))) (data w)) in H.
  assert (Ho : ∀ v, select_where (TwoFactor.of_user v) (tab d0) =
               if v =? u then [] else select_where (TwoFactor.of_user v) (tab (A := recovery_row) (data w))).
  { intros v. subst d0. rewrite tab_set. unfold select_where, delete_where, TwoFactor.of_user. cbn.
    destruct (v =? u) eqn:E; bool_hyps.
    - subst v. apply filter_filter_none. intros x Hx. by rewrite Hx.
    - apply filter_filter_imp. intros x Hx. bool_hyps. apply negb_true_iff, Z.eqb_neq. lia. }
  clearbody d0. revert d0 H Ho.
  assert (Hg : ∀ l d d', apply_steps (map (λ h, ("insert recovery code",
                 λ (_ : Z) d, Ok (TwoFactor.insert_code u h d))) l) (clock w) d = Ok d' →
            ∀ v, ∃ k, select_where (TwoFactor.of_user v) (tab (A := recovery_row) d') =
              select_where (TwoFactor.of_user v) (tab d) ++ k ∧
              map (λ c, (rc_code_hash c, rc_used c)) k = if v =? u then map (λ h, (h, false)) l else []).
  { induction l as [|h l IH]; intros d d' H v; cbn in H.
    - injection H as <-. exists []. rewrite List.app_nil_r. by destruct (v =? u).
    - destruct (IH _ _ H v) as (k & E1 & E2). rewrite E1. unfold TwoFactor.insert_code. rewrite tab_set.
      unfold select_where, insert_row, TwoFactor.of_user. cbn. rewrite List.filter_app. cbn.
      rewrite (Z.eqb_sym u v). destruct (v =? u) eqn:E; bool_hyps; cbn.
      + exists (RecoveryRow (t_seq (tab d) + 1) u h false :: k). rewrite <- List.app_assoc. cbn. by rewrite E2.
      + exists k. by rewrite List.app_nil_r. }
  intros d0 H Ho. split.
  - destruct (Hg _ _ _ H u) as (k & -> & Ek). rewrite Ho, Z.eqb_refl in *. cbn. done.
  - intros v Hv. destruct (Hg _ _ _ H v) as (k & -> & Ek). rewrite Ho, (proj2 (Z.eqb_neq _ _) Hv) in *.
    apply map_eq_nil in Ek as ->. apply List.app_nil_r.
Qed.
End AccountFacts.

(** ** The invariant of the users *)

Section UserInvariant.
Context {D : Type} `{HU : Has user_row D} `{HRF : !References user_row D} (HashPassword : string → res string).
Notation users := (tab (A := user_row)).

Record users_inv (t : table user_row) : Prop := {
  ui_wf : table_wf t;
  ui_role : table_all (λ r, IsValidRole (u_role r) = true) t;
  ui_username : ∀ r s, In r (t_rows t) → In s (t_rows t) → u_username r = u_username s → r = s;
  ui_email : ∀ r s, In r (t_rows t) → In s (t_rows t) → u_email r = u_email s → r = s }.

(** Every statement that changes the users, as a whole. *)
Inductive user_op :=
| OpCreate (u : Users.User)
| OpPassword (id : Z) (hash : string)
| OpEmail (id : Z) (email : string)
| OpRole (id : Z) (role : string)
| OpDisk (id : Z) (v : option Z)
| OpMaxSites (id : Z) (v : option Z)
| OpPlan (id : Z) (v : option Z)
| OpNullify (id : Z)
| OpDelete (id : Z)
| OpTOTPSecret (id : Z) (s : string)
| OpTOTPEnable (id : Z)
| OpTOTPDisable (id : Z).

Definition run_user_op (o : user_op) : M D error :=
  match o with
  | OpCreate u => let* r := Users.Create HashPassword u in mret (res_error r)
  | OpPassword id h => let* r := Users.UpdatePassword id h in mret (res_error r)
  | OpEmail id e => let* r := Users.UpdateEmail id e in mret (res_error r)
  | OpRole id x => let* r := Users.UpdateRole id x in mret (res_error r)
  | OpDisk id v => let* r := Users.UpdateDiskLimit id v in mret (res_error r)
  | OpMaxSites id v => let* r := Users.UpdateMaxSites id v in mret (res_error r)
  | OpPlan id v => let* r := Users.UpdatePlan id v in mret (res_error r)
  | OpNullify id => let* r := Users.NullifyCreatedBy id in mret (res_error r)
  | OpDelete id => let* r := Users.Delete id in mret (res_error r)
  | OpTOTPSecret id s => let* r := TwoFactor.SetTOTPSecret id s in mret (res_error r)
  | OpTOTPEnable id => let* r := TwoFactor.EnableTOTP id in mret (res_error r)
  | OpTOTPDisable id => let* r := TwoFactor.DisableTOTP id in mret (res_error r)
  end.

Lemma has_row_false {A} (p : A → bool) (t : table A) r : has_row p t = false → In r (t_rows t) → p r = false.
Proof.
  unfold has_row. intros H%existsb_False Hr. rewrite List.Forall_forall in H. by apply H.
Qed.

(** An update of the columns that carry no constraint. *)
Definition keeps_keys (f : user_row → user_row) : Prop :=
  ∀ r, u_id (f r) = u_id r ∧ u_username (f r) = u_username r ∧ u_email (f r) = u_email r ∧
       (IsValidRole (u_role r) = true → IsValidRole (u_role (f r)) = true).

Lemma update_users_inv (p : user_row → bool) (f : user_row → user_row) (t : table user_row) :
  keeps_keys f → users_inv t → users_inv (update_where p f t).
Proof.
  intros Hf [Hw Hr Hu He].
  assert (Hi : ∀ r, row_id (f r) = row_id r) by (intros r; apply Hf).
  split.
  - by apply update_wf.
  - apply update_all; [|done]. intros r _. apply Hf.
  - intros r s (r0 & <- & Hr0)%in_map_iff (s0 & <- & Hs0)%in_map_iff E.
    assert (r0 = s0) as ->; [|done]. apply Hu; [done|done|].
    destruct (Hf r0) as (_ & E1 & _), (Hf s0) as (_ & E2 & _). destruct (p r0), (p s0); congruence.
  - intros r s (r0 & <- & Hr0)%in_map_iff (s0 & <- & Hs0)%in_map_iff E.
    assert (r0 = s0) as ->; [|done]. apply He; [done|done|].
    destruct (Hf r0) as (_ & _ & E1 & _), (Hf s0) as (_ & _ & E2 & _). destruct (p r0), (p s0); congruence.
Qed.

Lemma delete_users_inv (p : user_row → bool) (t : table user_row) : users_inv t → users_inv (delete_where p t).
Proof.
  intros [Hw Hr Hu He]. split; [by apply delete_wf|by apply delete_all| |];
    intros r s [H1 _]%List.filter_In [H2 _]%List.filter_In; by auto.
Qed.

Lemma update_tab_inv msg (p : user_row → bool) (f : Z → user_row → user_row) (w : world D) :
  (∀ n, keeps_keys (f n)) → users_inv (users (data w)) →
  wp (wrap msg (update_tab p f)) (λ _ w', users_inv (users (data w'))) w.
Proof.
  intros Hf Hi. unfold update_tab. wp_run; [done|]. rewrite tab_set. by apply update_users_inv.
Qed.

Lemma create_user_inv (u : Users.User) (w : world D) :
  users_inv (users (data w)) → wp (Users.Create HashPassword u) (λ _ w', users_inv (users (data w'))) w.
Proof.
  intros Hi. unfold Users.Create. destruct (IsValidRole (Users.Role u)) eqn:Er; cbn [negb]; [|by wp_run].
  destruct (HashPassword (Users.Password u)) as [h|e]; [|by wp_run].
  wp_step. apply wp_insert_checked; [done|]. intros fs Hok. cbn. rewrite tab_set.
  apply andb_prop in Hok as [Hok%negb_true_iff _]. destruct Hi as [Hw Hr Hu He]. split.
  - by apply insert_wf.
  - apply insert_all; [|done]. intros i. exact Er.
  - intros r s [Hr0|[<-|[]]]%in_app_iff [Hs0|[<-|[]]]%in_app_iff E; try done; [by apply Hu| |].
    + pose proof (has_row_false _ _ _ Hok Hr0). cbn in *. bool_hyps. congruence.
    + pose proof (has_row_false _ _ _ Hok Hs0). cbn in *. bool_hyps. congruence.
  - intros r s [Hr0|[<-|[]]]%in_app_iff [Hs0|[<-|[]]]%in_app_iff E; try done; [by apply He| |].
    + pose proof (has_row_false _ _ _ Hok Hr0). cbn in *. bool_hyps. congruence.
    + pose proof (has_row_false _ _ _ Hok Hs0). cbn in *. bool_hyps. congruence.
Qed.

Lemma email_inv (id : Z) (email : string) (w : world D) :
  users_inv (users (data w)) → wp (Users.UpdateEmail id email) (λ _ w', users_inv (users (data w'))) w.
Proof.
  intros Hi. unfold Users.UpdateEmail. wp_step. wp_step; [done|]. cbv beta.
  destruct (has_row _ _ && has_row _ _) eqn:E; cbn; [done|]. rewrite tab_set.
  destruct Hi as [Hw Hr Hu He].
  set (f := λ r, user_touch (current_timestamp (clock w)) (set_email email r)).
  assert (Hold : has_row (by_id id) (users (data w)) = true →
            ∀ r, In r (t_rows (users (data w))) → u_email r = email → by_id id r = true).
  { intros Hx r Hin Hem. rewrite Hx, andb_true_r in E. pose proof (has_row_false _ _ _ E Hin) as H.
    cbn in H. rewrite Hem, String.eqb_refl in H. by apply negb_false_iff in H. }
  assert (Hids : ∀ r s, In r (t_rows (users (data w))) → In s (t_rows (users (data w))) →
            by_id id r = true → by_id id s = true → r = s).
  { intros r s H1 H2 E1 E2. apply Z.eqb_eq in E1, E2. apply (wf_unique _ r s Hw H1 H2). congruence. }
  assert (Hhas : ∀ r, In r (t_rows (users (data w))) → by_id id r = true →
            has_row (by_id id) (users (data w)) = true).
  { intros r Hin Eid. apply existsb_exists. by exists r. }
  split.
  - by apply update_wf.
  - apply update_all; [|done]. by intros r _.
  - intros r s (r0 & <- & Hr0)%in_map_iff (s0 & <- & Hs0)%in_map_iff Ex.
    assert (r0 = s0) as ->; [|done]. apply Hu; [done|done|].
    destruct (by_id id r0), (by_id id s0); exact Ex.
  - intros r s (r0 & <- & Hr0)%in_map_iff (s0 & <- & Hs0)%in_map_iff Ex.
    assert (r0 = s0) as ->; [|done].
    destruct (by_id id r0) eqn:E1, (by_id id s0) eqn:E2.
    + by apply Hids.
    + apply Hids; [done|done|done|]. apply Hold; eauto.
    + apply Hids; [done|done| |done]. apply Hold; eauto.
    + by apply He.
Qed.

(** C38: usernames and emails stay unique and every role stays valid under every
    operation of the users and two-factor stores, whatever fails, where the deletion of
    a user deletes no other user with it; so [GetByEmail] and [GetByUsername] name one user. *)
Theorem run_user_op_inv (Hcascade : ∀ p d, users (fk_cascade (A := user_row) p d) = users d) (o : user_op) (w : world D)
    (Hi : users_inv (users (data w))) :
  wp (run_user_op o) (λ _ w', users_inv (users (data w'))) w.
Proof.
  destruct o; cbn [run_user_op]; wp_step;
    (eapply wp_mono; [by intros a w' H; wp_run; exact H|]).
  - by apply create_user_inv.
  - by apply update_tab_inv.
  - by apply email_inv.
  - unfold Users.UpdateRole. destruct (IsValidRole role) eqn:E; cbn [negb]; [|by wp_run].
    apply update_tab_inv; [|done]. intros n r. cbn. rewrite E. done.
  - by apply update_tab_inv.
  - by apply update_tab_inv.
  - by apply update_tab_inv.
  - unfold Users.NullifyCreatedBy, update_tab. wp_run; [done|]. rewrite tab_set. by apply update_users_inv.
  - unfold Users.Delete, delete_parent, delete_parent_row. wp_step. wp_step; [done|]. destruct (fk_blocked _ _); cbn; [done|].
    rewrite tab_set. by apply delete_users_inv.
  - by apply update_tab_inv.
  - by apply update_tab_inv.
  - by apply update_tab_inv.
Qed.
End UserInvariant.

(** the IP rules of a site: with no error, an address is let in exactly when
    the site has no rule at all or an allow rule names the address; a deny rule
    next to it does not matter. *)
Theorem IsAllowed_spec {D : Type} `{HIP : Has ip_row D} (site : Z) (ip : string) (w : world D) :
  wp (IPRestrictions.IsAllowed site ip) (λ r w', data w' = data w ∧
    (r.2 = nil_error → (r.1 = true ↔
       (∀ x, In x (t_rows (tab (A := ip_row) (data w))) → ip_site x ≠ site) ∨
       (∃ x, In x (t_rows (tab (A := ip_row) (data w))) ∧ ip_site x = site ∧ ip_addr x = ip ∧ ip_action x = "allow")))) w.
Proof.
  set (t := tab (data w)).
  assert (Hz : count_where (IPRestrictions.of_site site) t = 0 ↔ ∀ x, In x (t_rows t) → ip_site x ≠ site).
  { split.
    - intros H x Hx He. assert ((0 <? count_where (IPRestrictions.of_site site) t) = true) as Hp; [|bool_hyps; lia].
      apply count_pos. exists x. split; [done|]. by apply Z.eqb_eq.
    - intros H. apply count_where_zero. intros x Hx. by apply Z.eqb_neq, H. }
  assert (Ha : (0 <? count_where (IPRestrictions.rule_for site ip "allow") t) = true ↔
     ∃ x, In x (t_rows t) ∧ ip_site x = site ∧ ip_addr x = ip ∧ ip_action x = "allow").
  { rewrite count_pos. unfold IPRestrictions.rule_for. setoid_rewrite andb_true_iff.
    setoid_rewrite andb_true_iff. setoid_rewrite Z.eqb_eq. setoid_rewrite String.eqb_eq. naive_solver. }
  eapply (wp_mono _ (λ r w', data w' = data w ∧ (r.2 = nil_error → (r.1 = true ↔
    count_where (IPRestrictions.of_site site) t = 0 ∨
    (0 <? count_where (IPRestrictions.rule_for site ip "allow") t) = true)))).
  { intros r w' [E H]. split; [done|]. intros Hr. rewrite (H Hr), Ha, Hz. done. }
  clear Hz Ha. subst t. unfold IPRestrictions.IsAllowed. wp_run; cbn; try done;
    bool_hyps; (split; [done|]); intros _; (split; [intros|intros [H|H]]); try done; try tauto;
    cbn in *; lia.
Qed.

(** * Witnesses *)

Definition sample_session (id expires : Z) (revoked : option Z) : session_row :=
  SessionRow id 7 "h" expires 0 revoked None.
Definition sample_sessions : table session_row :=
  Table [sample_session 1 500 None; sample_session 2 50 None; sample_session 3 500 (Some 20);
         sample_session 4 500 None; sample_session 6 500 None] 6.

Lemma sample_sessions_wf : table_wf sample_sessions.
Proof. split; [| |done]; cbn; repeat constructor; cbn; lia. Qed.

(** At second 100, two sessions are kept out of three active ones. *)
Lemma RevokeOldest_spec_witness :
  let w := World sample_sessions 100000000000 [] in
  map se_id (select_desc (Sessions.active 7 100) (data (Sessions.RevokeOldest 7 2 w).2)) = [6; 4] ∧
  wp (Sessions.RevokeOldest 7 2) (λ r w', match r with
      | Err _ => data w' = data w
      | Ok _ =>
          let c := current_timestamp (clock w) in
          let before := tab (A := session_row) (data w) in
          let after := tab (A := session_row) (data w') in
          select_desc (Sessions.active 7 c) after = take (Z.to_nat 2) (select_desc (Sessions.active 7 c) before) ∧
          count_where (Sessions.active 7 c) after ≤ 2 ∧
          Forall2 (λ a b, Sessions.active 7 c a = false → b = a) (t_rows before) (t_rows after)
      end) w.
Proof.
  split; [reflexivity|]. apply (RevokeOldest_spec 7 2); [exact sample_sessions_wf|lia].
Defined.

Definition sample_user (id : Z) (name role : string) : user_row :=
  UserRow id name (name +:+ "@example.com") "x" role None 0 None None None None None None 0.
Definition sample_users : table user_row := Table [sample_user 1 "root" RoleSuperAdmin; sample_user 2 "ann" RoleUser] 2.

Lemma sample_users_inv : users_inv sample_users.
Proof.
  split.
  - split; [| |done]; cbn; repeat constructor; cbn; lia.
  - repeat constructor.
  - intros r s [<-|[<-|[]]] [<-|[<-|[]]]; cbn; done.
  - intros r s [<-|[<-|[]]] [<-|[<-|[]]]; cbn; done.
Qed.

(** The email of another user is refused; the deletion of a user keeps the invariant. *)
Lemma run_user_op_inv_witness :
  let w := World sample_users 0 [] in
  (Users.UpdateEmail 2 "root@example.com" w).1 = Err "update email: constraint failed" ∧
  wp (run_user_op (HRF := no_references user_row _) Ok (OpDelete 2)) (λ _ w', users_inv (data w')) w.
Proof. split; [reflexivity|]. exact (run_user_op_inv (HRF := no_references user_row _) Ok (λ _ _, eq_refl) _ (World sample_users 0 []) sample_users_inv). Defined.
