(* ===== verification/Sites.v ===== *)
(** The sites: src/internal/store/sites.go, with the tables its transactions
    reach.  A [sql.NullX] is an option; [s_ssl_expires] holds the [time.Time]
    bound by [UpdateSSL], in nanoseconds. *)
From S2P Require Import Prelude GoStr Sql JobStore Accounts.
Local Open Scope Z_scope.
Local Open Scope panel_scope.

(** * Rows *)

(** A row of [sites], which is also the struct [Site]. *)
Record site_row := SiteRow {
  s_id : Z; s_server : Z; s_name : string; s_domain : string; s_runtime : string; s_root_path :
  string; s_status : string; s_owner : option Z; s_ssl_status : option string; s_ssl_issuer :
  option string; s_ssl_expires : option Z; s_ssl_last_check : option Z; s_git_repo : option
  string; s_git_branch : option string; s_git_commit : option string; s_deploy_key : option
  string; s_webhook_secret : option string; s_managed_by : option string; s_system_user : option
  string; s_conf_file : option string; s_proxy_pass_url : option string; s_app_port : option Z;
  s_app_command : option string; s_app_status : option string; s_app_memory_max : option Z;
  s_php_version : option string; s_php_ini : option string; s_backup_provider : option Z;
  s_created : Z; s_updated : Z }.

#[export] Instance site_row_id : HasId site_row := s_id.

Definition set_main (v0 : string) (v1 : string) (v2 : string) (v3 : string) (v4 : string) (r : site_row) : site_row :=
  SiteRow (s_id r) (s_server r) v0 v1 v2 v3 v4 (s_owner r) (s_ssl_status r) (s_ssl_issuer r)
    (s_ssl_expires r) (s_ssl_last_check r) (s_git_repo r) (s_git_branch r) (s_git_commit r)
    (s_deploy_key r) (s_webhook_secret r) (s_managed_by r) (s_system_user r) (s_conf_file r)
    (s_proxy_pass_url r) (s_app_port r) (s_app_command r) (s_app_status r) (s_app_memory_max r)
    (s_php_version r) (s_php_ini r) (s_backup_provider r) (s_created r) (s_updated r).
Definition set_site_status (v : string) (r : site_row) : site_row :=
  SiteRow (s_id r) (s_server r) (s_name r) (s_domain r) (s_runtime r) (s_root_path r) v
    (s_owner r) (s_ssl_status r) (s_ssl_issuer r) (s_ssl_expires r) (s_ssl_last_check r)
    (s_git_repo r) (s_git_branch r) (s_git_commit r) (s_deploy_key r) (s_webhook_secret r)
    (s_managed_by r) (s_system_user r) (s_conf_file r) (s_proxy_pass_url r) (s_app_port r)
    (s_app_command r) (s_app_status r) (s_app_memory_max r) (s_php_version r) (s_php_ini r)
    (s_backup_provider r) (s_created r) (s_updated r).
Definition set_conf_file (v : option string) (r : site_row) : site_row :=
  SiteRow (s_id r) (s_server r) (s_name r) (s_domain r) (s_runtime r) (s_root_path r)
    (s_status r) (s_owner r) (s_ssl_status r) (s_ssl_issuer r) (s_ssl_expires r)
    (s_ssl_last_check r) (s_git_repo r) (s_git_branch r) (s_git_commit r) (s_deploy_key r)
    (s_webhook_secret r) (s_managed_by r) (s_system_user r) v (s_proxy_pass_url r) (s_app_port r)
    (s_app_command r) (s_app_status r) (s_app_memory_max r) (s_php_version r) (s_php_ini r)
    (s_backup_provider r) (s_created r) (s_updated r).
Definition set_ssl (v0 : option string) (v1 : option string) (v2 : option Z) (v3 : option Z) (r : site_row) : site_row :=
  SiteRow (s_id r) (s_server r) (s_name r) (s_domain r) (s_runtime r) (s_root_path r)
    (s_status r) (s_owner r) v0 v1 v2 v3 (s_git_repo r) (s_git_branch r) (s_git_commit r)
    (s_deploy_key r) (s_webhook_secret r) (s_managed_by r) (s_system_user r) (s_conf_file r)
    (s_proxy_pass_url r) (s_app_port r) (s_app_command r) (s_app_status r) (s_app_memory_max r)
    (s_php_version r) (s_php_ini r) (s_backup_provider r) (s_created r) (s_updated r).
Definition set_git (v0 : option string) (v1 : option string) (r : site_row) : site_row :=
  SiteRow (s_id r) (s_server r) (s_name r) (s_domain r) (s_runtime r) (s_root_path r)
    (s_status r) (s_owner r) (s_ssl_status r) (s_ssl_issuer r) (s_ssl_expires r)
    (s_ssl_last_check r) v0 v1 (s_git_commit r) (s_deploy_key r) (s_webhook_secret r)
    (s_managed_by r) (s_system_user r) (s_conf_file r) (s_proxy_pass_url r) (s_app_port r)
    (s_app_command r) (s_app_status r) (s_app_memory_max r) (s_php_version r) (s_php_ini r)
    (s_backup_provider r) (s_created r) (s_updated r).
Definition set_git_commit (v : option string) (r : site_row) : site_row :=
  SiteRow (s_id r) (s_server r) (s_name r) (s_domain r) (s_runtime r) (s_root_path r)
    (s_status r) (s_owner r) (s_ssl_status r) (s_ssl_issuer r) (s_ssl_expires r)
    (s_ssl_last_check r) (s_git_repo r) (s_git_branch r) v (s_deploy_key r) (s_webhook_secret r)
    (s_managed_by r) (s_system_user r) (s_conf_file r) (s_proxy_pass_url r) (s_app_port r)
    (s_app_command r) (s_app_status r) (s_app_memory_max r) (s_php_version r) (s_php_ini r)
    (s_backup_provider r) (s_created r) (s_updated r).
Definition set_proxy (v : option string) (r : site_row) : site_row :=
  SiteRow (s_id r) (s_server r) (s_name r) (s_domain r) (s_runtime r) (s_root_path r)
    (s_status r) (s_owner r) (s_ssl_status r) (s_ssl_issuer r) (s_ssl_expires r)
    (s_ssl_last_check r) (s_git_repo r) (s_git_branch r) (s_git_commit r) (s_deploy_key r)
    (s_webhook_secret r) (s_managed_by r) (s_system_user r) (s_conf_file r) v (s_app_port r)
    (s_app_command r) (s_app_status r) (s_app_memory_max r) (s_php_version r) (s_php_ini r)
    (s_backup_provider r) (s_created r) (s_updated r).
Definition set_app (v0 : option Z) (v1 : option string) (v2 : option string) (r : site_row) : site_row :=
  SiteRow (s_id r) (s_server r) (s_name r) (s_domain r) (s_runtime r) (s_root_path r)
    (s_status r) (s_owner r) (s_ssl_status r) (s_ssl_issuer r) (s_ssl_expires r)
    (s_ssl_last_check r) (s_git_repo r) (s_git_branch r) (s_git_commit r) (s_deploy_key r)
    (s_webhook_secret r) (s_managed_by r) (s_system_user r) (s_conf_file r) (s_proxy_pass_url r)
    v0 v1 v2 (s_app_memory_max r) (s_php_version r) (s_php_ini r) (s_backup_provider r)
    (s_created r) (s_updated r).
Definition set_app_status (v : option string) (r : site_row) : site_row :=
  SiteRow (s_id r) (s_server r) (s_name r) (s_domain r) (s_runtime r) (s_root_path r)
    (s_status r) (s_owner r) (s_ssl_status r) (s_ssl_issuer r) (s_ssl_expires r)
    (s_ssl_last_check r) (s_git_repo r) (s_git_branch r) (s_git_commit r) (s_deploy_key r)
    (s_webhook_secret r) (s_managed_by r) (s_system_user r) (s_conf_file r) (s_proxy_pass_url r)
    (s_app_port r) (s_app_command r) v (s_app_memory_max r) (s_php_version r) (s_php_ini r)
    (s_backup_provider r) (s_created r) (s_updated r).
Definition set_app_memory (v : option Z) (r : site_row) : site_row :=
  SiteRow (s_id r) (s_server r) (s_name r) (s_domain r) (s_runtime r) (s_root_path r)
    (s_status r) (s_owner r) (s_ssl_status r) (s_ssl_issuer r) (s_ssl_expires r)
    (s_ssl_last_check r) (s_git_repo r) (s_git_branch r) (s_git_commit r) (s_deploy_key r)
    (s_webhook_secret r) (s_managed_by r) (s_system_user r) (s_conf_file r) (s_proxy_pass_url r)
    (s_app_port r) (s_app_command r) (s_app_status r) v (s_php_version r) (s_php_ini r)
    (s_backup_provider r) (s_created r) (s_updated r).
Definition set_php (v0 : option string) (v1 : option string) (r : site_row) : site_row :=
  SiteRow (s_id r) (s_server r) (s_name r) (s_domain r) (s_runtime r) (s_root_path r)
    (s_status r) (s_owner r) (s_ssl_status r) (s_ssl_issuer r) (s_ssl_expires r)
    (s_ssl_last_check r) (s_git_repo r) (s_git_branch r) (s_git_commit r) (s_deploy_key r)
    (s_webhook_secret r) (s_managed_by r) (s_system_user r) (s_conf_file r) (s_proxy_pass_url r)
    (s_app_port r) (s_app_command r) (s_app_status r) (s_app_memory_max r) v0 v1
    (s_backup_provider r) (s_created r) (s_updated r).
Definition set_webhook_secret (v : option string) (r : site_row) : site_row :=
  SiteRow (s_id r) (s_server r) (s_name r) (s_domain r) (s_runtime r) (s_root_path r)
    (s_status r) (s_owner r) (s_ssl_status r) (s_ssl_issuer r) (s_ssl_expires r)
    (s_ssl_last_check r) (s_git_repo r) (s_git_branch r) (s_git_commit r) (s_deploy_key r) v
    (s_managed_by r) (s_system_user r) (s_conf_file r) (s_proxy_pass_url r) (s_app_port r)
    (s_app_command r) (s_app_status r) (s_app_memory_max r) (s_php_version r) (s_php_ini r)
    (s_backup_provider r) (s_created r) (s_updated r).
Definition set_owner (v : option Z) (r : site_row) : site_row :=
  SiteRow (s_id r) (s_server r) (s_name r) (s_domain r) (s_runtime r) (s_root_path r)
    (s_status r) v (s_ssl_status r) (s_ssl_issuer r) (s_ssl_expires r) (s_ssl_last_check r)
    (s_git_repo r) (s_git_branch r) (s_git_commit r) (s_deploy_key r) (s_webhook_secret r)
    (s_managed_by r) (s_system_user r) (s_conf_file r) (s_proxy_pass_url r) (s_app_port r)
    (s_app_command r) (s_app_status r) (s_app_memory_max r) (s_php_version r) (s_php_ini r)
    (s_backup_provider r) (s_created r) (s_updated r).
Definition set_transfer (v0 : option Z) (v1 : string) (v2 : option string) (r : site_row) : site_row :=
  SiteRow (s_id r) (s_server r) (s_name r) (s_domain r) (s_runtime r) v1 (s_status r) v0
    (s_ssl_status r) (s_ssl_issuer r) (s_ssl_expires r) (s_ssl_last_check r) (s_git_repo r)
    (s_git_branch r) (s_git_commit r) (s_deploy_key r) (s_webhook_secret r) (s_managed_by r) v2
    (s_conf_file r) (s_proxy_pass_url r) (s_app_port r) (s_app_command r) (s_app_status r)
    (s_app_memory_max r) (s_php_version r) (s_php_ini r) (s_backup_provider r) (s_created r)
    (s_updated r).
Definition set_backup_provider (v : option Z) (r : site_row) : site_row :=
  SiteRow (s_id r) (s_server r) (s_name r) (s_domain r) (s_runtime r) (s_root_path r)
    (s_status r) (s_owner r) (s_ssl_status r) (s_ssl_issuer r) (s_ssl_expires r)
    (s_ssl_last_check r) (s_git_repo r) (s_git_branch r) (s_git_commit r) (s_deploy_key r)
    (s_webhook_secret r) (s_managed_by r) (s_system_user r) (s_conf_file r) (s_proxy_pass_url r)
    (s_app_port r) (s_app_command r) (s_app_status r) (s_app_memory_max r) (s_php_version r)
    (s_php_ini r) v (s_created r) (s_updated r).
Definition site_touch (v : Z) (r : site_row) : site_row :=
  SiteRow (s_id r) (s_server r) (s_name r) (s_domain r) (s_runtime r) (s_root_path r)
    (s_status r) (s_owner r) (s_ssl_status r) (s_ssl_issuer r) (s_ssl_expires r)
    (s_ssl_last_check r) (s_git_repo r) (s_git_branch r) (s_git_commit r) (s_deploy_key r)
    (s_webhook_secret r) (s_managed_by r) (s_system_user r) (s_conf_file r) (s_proxy_pass_url r)
    (s_app_port r) (s_app_command r) (s_app_status r) (s_app_memory_max r) (s_php_version r)
    (s_php_ini r) (s_backup_provider r) (s_created r) v.

Record database_row := DatabaseRow {
  db_id : Z; db_site : Z; db_name : string; db_type : string; db_charset : string; db_collation :
  string; db_size : Z; db_created : Z }.

#[export] Instance database_row_id : HasId database_row := db_id.

Definition set_charset (v0 : string) (v1 : string) (r : database_row) : database_row :=
  DatabaseRow (db_id r) (db_site r) (db_name r) (db_type r) v0 v1 (db_size r) (db_created r).

Record cron_row := CronRow {
  cj_id : Z; cj_site : Z; cj_schedule : string; cj_command : string; cj_created : Z }.

#[export] Instance cron_row_id : HasId cron_row := cj_id.


(** A row of [site_ssh_ftp]. *)
Record ssh_row := SSHRow {
  sh_id : Z; sh_site : Z; sh_username : string; sh_password : string; sh_keys : string; sh_home :
  string; sh_private : string; sh_public : string; sh_created : Z }.

#[export] Instance ssh_row_id : HasId ssh_row := sh_id.


Record audit_row := AuditRow {
  au_id : Z; au_user : option Z; au_action : string; au_resource : string; au_resource_id : option
  Z; au_details : option string; au_created : Z }.

#[export] Instance audit_row_id : HasId audit_row := au_id.

Definition set_audit_user (v : option Z) (r : audit_row) : audit_row :=
  AuditRow (au_id r) v (au_action r) (au_resource r) (au_resource_id r) (au_details r)
    (au_created r).

(** A row of [backups]: [b_created] and [b_completed] in seconds, [b_expires] a bound
    [time.Time] in nanoseconds. *)
Record backup_row := BackupRow {
  b_id : Z; b_site : Z; b_status : string; b_storage_type : string; b_storage_path : option
  string; b_type : option string; b_s3_path : option string; b_progress : option string; b_size :
  Z; b_file_count : Z; b_error : option string; b_created : Z; b_completed : option Z; b_expires :
  option Z }.

#[export] Instance backup_row_id : HasId backup_row := b_id.

Definition set_b_status (v : string) (r : backup_row) : backup_row :=
  BackupRow (b_id r) (b_site r) v (b_storage_type r) (b_storage_path r) (b_type r) (b_s3_path r)
    (b_progress r) (b_size r) (b_file_count r) (b_error r) (b_created r) (b_completed r)
    (b_expires r).
Definition set_b_progress (v : option string) (r : backup_row) : backup_row :=
  BackupRow (b_id r) (b_site r) (b_status r) (b_storage_type r) (b_storage_path r) (b_type r)
    (b_s3_path r) v (b_size r) (b_file_count r) (b_error r) (b_created r) (b_completed r)
    (b_expires r).
Definition set_b_s3_path (v : option string) (r : backup_row) : backup_row :=
  BackupRow (b_id r) (b_site r) (b_status r) (b_storage_type r) (b_storage_path r) (b_type r) v
    (b_progress r) (b_size r) (b_file_count r) (b_error r) (b_created r) (b_completed r)
    (b_expires r).
Definition set_b_done (v0 : string) (v1 : option string) (v2 : option string) (v3 : Z) (v4 : Z) (v5 : option Z) (r : backup_row) : backup_row :=
  BackupRow (b_id r) (b_site r) v0 (b_storage_type r) v1 (b_type r) (b_s3_path r) v2 v3 v4
    (b_error r) (b_created r) v5 (b_expires r).
Definition set_b_failed (v0 : string) (v1 : option string) (v2 : option string) (v3 : option Z) (r : backup_row) : backup_row :=
  BackupRow (b_id r) (b_site r) v0 (b_storage_type r) (b_storage_path r) (b_type r)
    (b_s3_path r) v1 (b_size r) (b_file_count r) v2 (b_created r) v3 (b_expires r).
Definition set_b_storage_path (v : option string) (r : backup_row) : backup_row :=
  BackupRow (b_id r) (b_site r) (b_status r) (b_storage_type r) v (b_type r) (b_s3_path r)
    (b_progress r) (b_size r) (b_file_count r) (b_error r) (b_created r) (b_completed r)
    (b_expires r).
Definition set_b_expires (v : option Z) (r : backup_row) : backup_row :=
  BackupRow (b_id r) (b_site r) (b_status r) (b_storage_type r) (b_storage_path r) (b_type r)
    (b_s3_path r) (b_progress r) (b_size r) (b_file_count r) (b_error r) (b_created r)
    (b_completed r) v.

(** * sites.go *)

Section Sites.
Context {D : Type} `{HS : Has site_row D}.
Notation sites := (tab (A := site_row)).

(** SQLite's LIKE (pattern, text); the order of a bound [time.Time] stored in a
    column against another one; whether the kernel lets the panel listen on a
    port; [auth.NewToken]. *)
Context (like : string → string → bool) (time_le : Z → Z → bool) (os_free : Z → bool)
        (NewToken : res string).

Record SiteInput := mkSite {
  ServerID : Z; Name : string; Domain : string; Runtime : string; RootPath : string; Status : string;
  OwnerID : option Z; SSLStatus : option string; ManagedBy : option string; SystemUser : option string;
  ConfFile : option string; ProxyPassURL : option string; AppPort : option Z;
  AppCommand : option string; AppStatus : option string; AppMemoryMax : option Z;
  PHPVersion : option string; PHPIni : option string }.

Definition empty_opt (o : option string) : bool := (default "" o =? "")%string.

(** The document root a site gets when none is given. *)
Definition default_root (s : SiteInput) : string :=
  let user := if negb (empty_opt (SystemUser s)) then default "" (SystemUser s) else Domain s in
  "/home/" +:+ user +:+ "/htdocs/" +:+ Domain s.

Definition new_site (s : SiteInput) (n id : Z) : site_row :=
  SiteRow id (ServerID s) (Name s) (Domain s) (Runtime s)
    (if (RootPath s =? "")%string then default_root s else RootPath s)
    (if (Status s =? "")%string then "pending" else Status s)
    (OwnerID s) (if empty_opt (SSLStatus s) then Some "none" else SSLStatus s) None None None
    None None None None None
    (if empty_opt (ManagedBy s) then Some "sigardapanel" else ManagedBy s)
    (SystemUser s) (ConfFile s) (ProxyPassURL s) (AppPort s) (AppCommand s) (AppStatus s)
    (AppMemoryMax s) (PHPVersion s) (PHPIni s) None (current_timestamp n) (current_timestamp n).

Definition Create (s : SiteInput) : M D (res Z) :=
  wrap "insert site" (insert_checked (λ _, true) (new_site s)).

Definition GetByID (id : Z) : M D (res (option site_row)) :=
  wrap "scan site" (query (λ _ d, get_row id (sites d))).
Definition GetByDomain (domain : string) : M D (res (option site_row)) :=
  wrap "scan site" (query (λ _ d, select_one (λ r, (s_domain r =? domain)%string) (sites d))).

Record SiteListFilter := mkSiteListFilter {
  sf_server : Z; sf_owner : Z; sf_runtime : string; sf_status : string; sf_search : string;
  sf_limit : Z; sf_offset : Z }.

Definition site_filter (f : SiteListFilter) (r : site_row) : bool :=
  (if 0 <? sf_server f then s_server r =? sf_server f else true) &&
  (if 0 <? sf_owner f then bool_decide (s_owner r = Some (sf_owner f)) else true) &&
  (if negb (sf_runtime f =? "")%string then (s_runtime r =? sf_runtime f)%string else true) &&
  (if negb (sf_status f =? "")%string then (s_status r =? sf_status f)%string else true) &&
  (if negb (sf_search f =? "")%string then
     let p := "%" +:+ sf_search f +:+ "%" in like p (s_domain r) || like p (s_name r)
   else true).

Definition List (f : SiteListFilter) : M D (res (list site_row)) :=
  let limit := if sf_limit f <=? 0 then 100 else sf_limit f in
  wrap "query sites"
    (query (λ _ d, limit_offset limit (sf_offset f) (select_desc (site_filter f) (sites d)))).
Definition Count (f : SiteListFilter) : M D (res Z) :=
  wrap "count sites" (query (λ _ d, count_where (site_filter f) (sites d))).
Definition CountByOwner (ownerID : Z) : M D (res Z) :=
  wrap "count sites" (query (λ _ d, count_where (λ r, bool_decide (s_owner r = Some ownerID)) (sites d))).

Definition update_site (msg : string) (id : Z) (f : Z → site_row → site_row) : M D (res ()) :=
  wrap msg (update_tab (by_id id) (λ n r, site_touch n (f n r))).

Definition Update (id : Z) (name domain runtime root status : string) : M D (res ()) :=
  update_site "update site" id (λ _, set_main name domain runtime root status).
Definition UpdateStatus (id : Z) (status : string) : M D (res ()) :=
  update_site "update site status" id (λ _, set_site_status status).
Definition UpdateConfFile (id : Z) (confFile : string) : M D (res ()) :=
  update_site "update conf_file" id (λ _, set_conf_file (Some confFile)).
Definition UpdateSSL (id : Z) (status issuer : string) (expiresAt : Z) : M D (res ()) :=
  update_site "update site ssl" id (λ n, set_ssl (Some status) (Some issuer) (Some expiresAt) (Some n)).
Definition UpdateGitConfig (id : Z) (repo branch : string) : M D (res ()) :=
  update_site "update git config" id (λ _, set_git (Some repo) (Some branch)).
Definition UpdateGitCommit (id : Z) (commit : string) : M D (res ()) :=
  update_site "update git commit" id (λ _, set_git_commit (Some commit)).
Definition UpdateProxyPassURL (id : Z) (url : string) : M D (res ()) :=
  update_site "update proxy pass url" id (λ _, set_proxy (Some url)).
Definition UpdateAppConfig (id port : Z) (command status : string) : M D (res ()) :=
  update_site "update app config" id
    (λ _, set_app (if 0 <? port then Some port else None) (Some command) (Some status)).
Definition UpdateAppMemory (id memoryMax : Z) : M D (res ()) :=
  update_site "update app memory" id (λ _, set_app_memory (Some memoryMax)).
Definition UpdatePHPConfig (id : Z) (version ini : string) : M D (res ()) :=
  update_site "update php config" id (λ _, set_php (Some version) (Some ini)).
Definition UpdateAppStatus (id : Z) (status : string) : M D (res ()) :=
  update_site "update app status" id (λ _, set_app_status (Some status)).
Definition ClearAppPort (id : Z) : M D (res ()) :=
  update_tab (by_id id) (λ n r, site_touch n (set_app None None (Some "stopped") r)).
Definition UpdateBackupProvider (id : Z) (provider : option Z) : M D (res ()) :=
  update_tab (by_id id) (λ n r, site_touch n (set_backup_provider provider r)).
Definition NullifyOwner (userID : Z) : M D (res ()) :=
  update_tab (λ r : site_row, bool_decide (s_owner r = Some userID)) (λ n r, site_touch n (set_owner None r)).

Definition GenerateWebhookSecret (id : Z) : M D (res string) :=
  match NewToken with
  | Err e => mret (Err ("generate token: " +:+ e))
  | Ok secret =>
      let? _ := update_site "update webhook secret" id (λ _, set_webhook_secret (Some secret)) in
      mret (Ok secret)
  end.

(** Certificates that run out before [now + within], soonest first. *)
Definition expiring (cutoff : Z) (r : site_row) : bool :=
  bool_decide (s_ssl_status r = Some "active") &&
  match s_ssl_expires r with None => false | Some t => time_le t cutoff end.
Definition ListSSLEpiring (within : Z) : M D (res (list site_row)) :=
  let* now := time_Now in
  wrap "list ssl expiring"
    (query (λ _ d, order_by (λ a b, time_le (default 0 (s_ssl_expires a)) (default 0 (s_ssl_expires b)))
                     (select_where (expiring (now + within)) (sites d)))).

(** ** Ports *)

Definition has_port (port : Z) (r : site_row) : bool := bool_decide (s_app_port r = Some port).

Definition IsPortAvailable (port : Z) : M D bool :=
  let* c := query (λ _ d, count_where (has_port port) (sites d)) in
  mret match c with
       | Err _ => false
       | Ok count => if 0 <? count then false else os_free port
       end.

(** The loop of [FindFreePort] over the [n] ports from [port]. *)
Fixpoint find_port (n : nat) (used : list Z) (port : Z) : option Z :=
  match n with
  | O => None
  | S n' =>
      if existsb (Z.eqb port) used then find_port n' used (port + 1)
      else if os_free port then Some port
      else find_port n' (port :: used) (port + 1)
  end.
Definition used_ports (t : table site_row) : list Z := omap s_app_port (t_rows t).
Definition FindFreePort (minPort maxPort : Z) : M D (res Z) :=
  let? used := wrap "query used ports" (query (λ _ d, used_ports (sites d))) in
  mret match find_port (Z.to_nat (maxPort - minPort + 1)) used minPort with
       | Some p => Ok p
       | None => Err "no free port in range"
       end.

(** The boolean and the reason; the reason's text names the site. *)
Definition CheckPortAvailable (excludeSiteID port : Z) : M D (res (bool * string)) :=
  let? o := wrap "check port db"
              (query (λ _ d, select_one (λ r, has_port port r && negb (by_id excludeSiteID r)) (sites d))) in
  match o with
  | Some owner =>
      let* dom := query (λ _ d, s_domain <$> get_row (s_id owner) (sites d)) in
      let domain := match dom with Ok (Some x) => x | _ => "" end in
      mret (Ok (false, if negb (domain =? "")%string then "used by site " +:+ domain
                       else "used by another site"))
  | None => mret (Ok (if os_free port then (true, "") else (false, "in use on this server")))
  end.

(** ** The transactions *)

Context `{HUS : Has user_site_row D} `{HU : Has user_row D} `{HJ : Has job_row D}
        `{HDB : Has database_row D} `{HCJ : Has cron_row D} `{HSH : Has ssh_row D}
        `{HB : Has backup_row D} `{HA : Has audit_row D} `{HRF : References site_row D}
        `{HRD : References database_row D} `{HRJ : References job_row D}.

Definition del_step {A} `{Has A D} (msg : string) (p : A → bool) : tx_step D :=
  (msg, λ _ d, Ok (set_tab (delete_where p (tab d)) d)).

Definition delete_steps (id : Z) : list (tx_step D) :=
  [ del_step "delete site user_sites" (λ r : user_site_row, us_site r =? id);
    ("delete site jobs", λ _ d, delete_parent_row (λ r : job_row, bool_decide (jr_site r = Some id)) d);
    ("delete site databases", λ _ d, delete_parent_row (λ r : database_row, db_site r =? id) d);
    del_step "delete site cron_jobs" (λ r : cron_row, cj_site r =? id);
    del_step "delete site ssh_ftp_users" (λ r : ssh_row, sh_site r =? id);
    del_step "delete site backups" (λ r : backup_row, b_site r =? id);
    del_step "delete site audit_logs"
      (λ r : audit_row, (au_resource r =? "site")%string && bool_decide (au_resource_id r = Some id));
    ("delete site", λ _ d, delete_parent_row (by_id (A := site_row) id) d) ].

Definition Delete (id : Z) : M D (res ()) :=
  transaction "delete site begin tx" (delete_steps id) "delete site commit".

Definition transfer_steps (siteID newOwnerID : Z) (newRoot newUsername : string) : list (tx_step D) :=
  [ ("transfer site", λ n d,
       if has_row (by_id siteID) (sites d)
       then Ok (set_tab (update_where (by_id siteID)
                  (λ r, site_touch (current_timestamp n)
                          (set_transfer (Some newOwnerID) newRoot (Some newUsername) r)) (sites d)) d)
       else Err "site not found");
    del_step "transfer site user_sites delete" (UserSites.is_grant newOwnerID siteID);
    ("transfer site user_sites insert", λ n d,
       Ok (set_tab (UserSites.upsert newOwnerID siteID "admin" n (tab (A := user_site_row) d)) d)) ].

(** The outcome, and the move of the files that is started in the background:
    the old root, the domain and the new owner. *)
Definition Transfer (siteID newOwnerID : Z) : M D (res (option (string * string * string))) :=
  let? site := wrap "get site" (GetByID siteID) in
  match site with
  | None => mret (Err "site not found")
  | Some s =>
      let? user := wrap "target user not found"
                     (query (λ _ d, u_username <$> get_row newOwnerID (tab (A := user_row) d))) in
      match user with
      | None => mret (Err "target user not found: sql: no rows in result set")
      | Some newUsername =>
          let newRoot := "/home/" +:+ newUsername +:+ "/htdocs/" +:+ s_domain s in
          let? _ := transaction "transfer site begin tx"
                      (transfer_steps siteID newOwnerID newRoot newUsername) "transfer site commit" in
          mret (Ok (if negb (s_root_path s =? "")%string && negb (s_root_path s =? newRoot)%string
                    then Some (s_root_path s, s_domain s, newUsername) else None))
      end
  end.
End Sites.

(** * Facts *)

Lemma find_port_spec (os_free : Z → bool) (n : nat) (used : list Z) (p : Z) :
  match find_port os_free n used p with
  | Some q => p ≤ q < p + Z.of_nat n ∧ existsb (Z.eqb q) used = false ∧ os_free q = true ∧
              ∀ x, p ≤ x < q → existsb (Z.eqb x) used = true ∨ os_free x = false
  | None => ∀ x, p ≤ x < p + Z.of_nat n → existsb (Z.eqb x) used = true ∨ os_free x = false
  end.
Proof.
  revert used p. induction n as [|n IH]; intros used p; cbn [find_port]; [lia|].
  destruct (existsb (Z.eqb p) used) eqn:Eu; [|destruct (os_free p) eqn:Ef].
  - specialize (IH used (p + 1)). destruct (find_port os_free n used (p + 1)) as [q|].
    + destruct IH as (H1 & H2 & H3 & H4). repeat split; try done; try lia. intros x Hx.
      destruct (Z.eq_dec x p) as [->|]; [by left|]. apply H4. lia.
    + intros x Hx. destruct (Z.eq_dec x p) as [->|]; [by left|]. apply IH. lia.
  - repeat split; try done; lia.
  - specialize (IH (p :: used) (p + 1)).
    assert (Hd : ∀ x, p + 1 ≤ x → existsb (Z.eqb x) (p :: used) = existsb (Z.eqb x) used).
    { intros x Hx. cbn. by rewrite (proj2 (Z.eqb_neq x p)) by lia. }
    destruct (find_port os_free n (p :: used) (p + 1)) as [q|].
    + destruct IH as (H1 & H2 & H3 & H4). rewrite Hd in H2 by lia. repeat split; try done; try lia. intros x Hx.
      destruct (Z.eq_dec x p) as [->|]; [by right|]. rewrite <- Hd by lia. apply H4. lia.
    + intros x Hx. destruct (Z.eq_dec x p) as [->|]; [by right|]. rewrite <- Hd by lia. apply IH. lia.
Qed.

Lemma used_ports_spec (t : table site_row) (q : Z) :
  existsb (Z.eqb q) (used_ports t) = true ↔ ∃ r, In r (t_rows t) ∧ s_app_port r = Some q.
Proof.
  unfold used_ports. rewrite existsb_exists. split.
  - intros (x & Hx & E). apply Z.eqb_eq in E as <-. apply list_elem_of_In, list_elem_of_omap in Hx as (r & Hr & E).
    exists r. split; [by apply list_elem_of_In|done].
  - intros (r & Hr & E). exists q. split; [|apply Z.eqb_refl]. apply list_elem_of_In, list_elem_of_omap.
    exists r. split; [by apply list_elem_of_In|done].
Qed.

(** [FindFreePort] returns the least port of the range that no site has in
    the database and that the kernel lets the panel listen on; it reports an
    error exactly when the range holds no such port. *)
Theorem FindFreePort_least {D : Type} `{HS : Has site_row D} (os_free : Z → bool) (lo hi : Z) (w : world D) :
  let taken q := ∃ r, In r (t_rows (tab (A := site_row) (data w))) ∧ s_app_port r = Some q in
  wp (FindFreePort os_free lo hi) (λ r w', data w' = data w ∧ match r with
    | Ok q => lo ≤ q ≤ hi ∧ ¬ taken q ∧ os_free q = true ∧ (∀ x, lo ≤ x < q → taken x ∨ os_free x = false)
    | Err e => e = "no free port in range" → ∀ x, lo ≤ x ≤ hi → taken x ∨ os_free x = false
    end) w.
Proof.
  intros taken. unfold FindFreePort. wp_run; (split; [done|]); [done|].
  set (used := used_ports (tab (data w))).
  assert (Ht : ∀ q, existsb (Z.eqb q) used = true ↔ taken q) by (intros q; apply used_ports_spec).
  pose proof (find_port_spec os_free (Z.to_nat (hi - lo + 1)) used lo) as H.
  destruct (find_port _ _ _ _) as [q|].
  - destruct H as (H1 & H2 & H3 & H4). split; [lia|]. split; [by rewrite <- Ht, H2|]. split; [done|].
    intros x Hx. rewrite <- Ht. by apply H4.
  - intros _ x Hx. rewrite <- Ht. apply H. lia.
Qed.
