(* ===== verification/Backups.v ===== *)
(** The backup records: src/internal/store/backups.go.  The row is
    [Sites.backup_row]. *)
From S2P Require Import Prelude GoStr Sql JobStore Accounts Sites.
Local Open Scope Z_scope.
Local Open Scope panel_scope.

Set Default Proof Using "Type".

Section Backups.
Context {D : Type} `{HB : Has backup_row D}.
Notation backups := (tab (A := backup_row)).

(** The SQLite driver: what LastInsertId says after an INSERT that inserted no
    row; a text time against a bound [time.Time] (the text is the smaller);
    a stored bound time against a text time. *)
Context (last_rowid : Z) (text_before_time : Z → Z → bool) (time_before_text : Z → Z → bool).
(** [os.Remove] on the panel's host. *)
Context (os_remove : string → bool).

Definition ErrDuplicateBackup := "backup already in progress".

Record BackupInput := mkBackup {
  SiteID : Z; Status : string; StorageType : string; StoragePath : option string; BackupType : string;
  ExpiresAt : option Z }.

Definition backup_defaults (b : BackupInput) : BackupInput :=
  mkBackup (SiteID b) (if (Status b =? "")%string then "pending" else Status b)
    (if (StorageType b =? "")%string then "local" else StorageType b) (StoragePath b)
    (if (BackupType b =? "")%string then "files" else BackupType b) (ExpiresAt b).

Definition in_progress (s : string) : bool := str_in ["pending"; "running"; "archiving"] s.
(** [WHERE site_id = ? AND backup_type = ? AND status IN (...)]. *)
Definition active_backup (site : Z) (ty : string) (r : backup_row) : bool :=
  (b_site r =? site) && bool_decide (b_type r = Some ty) && in_progress (b_status r).

(** The columns of the INSERT: [expires_at] is not among them. *)
Definition new_backup (b : BackupInput) (n id : Z) : backup_row :=
  BackupRow id (SiteID b) (Status b) (StorageType b) (StoragePath b) (Some (BackupType b)) None (Some "")
    0 0 None (current_timestamp n) None None.

Definition may_insert (b : BackupInput) (t : table backup_row) : bool :=
  negb (in_progress (Status b)) || negb (has_row (active_backup (SiteID b) (BackupType b)) t).

Definition Create (b0 : BackupInput) : M D (res Z) :=
  let b := backup_defaults b0 in
  let? id := wrap "insert backup"
    (exec (λ n d, if may_insert b (backups d) then on_tab (insert_row (new_backup b n)) d
                  else (last_rowid, d))) in
  mret (if id =? 0 then Err ErrDuplicateBackup else Ok id).

(** The columns that come from [sites] by the join are left out. *)
Definition GetByID (id : Z) : M D (res (option backup_row)) :=
  wrap "scan backup" (query (λ _ d, get_row id (backups d))).
Definition ListBySite (site limit offset : Z) : M D (res (list backup_row)) :=
  wrap "query backups by site"
    (query (λ _ d, limit_offset (if limit <=? 0 then 100 else limit) offset
                     (order_desc b_created (select_where (λ r, b_site r =? site) (backups d))))).
Definition ListAll (limit offset : Z) : M D (res (list backup_row)) :=
  wrap "query backups"
    (query (λ _ d, limit_offset (if limit <=? 0 then 100 else limit) offset
                     (order_desc b_created (t_rows (backups d))))).

Definition UpdateStatus (id : Z) (status : string) : M D (res ()) :=
  wrap "update backup status" (update_tab (by_id id) (λ _, set_b_status status)).
Definition UpdateProgress (id : Z) (progress : string) : M D (res ()) :=
  wrap "update backup progress" (update_tab (by_id id) (λ _, set_b_progress (Some progress))).
Definition UpdateS3Path (id : Z) (s3Path : string) : M D (res ()) :=
  wrap "update backup s3_path" (update_tab (by_id id) (λ _, set_b_s3_path (Some s3Path))).
Definition MarkCompleted (id sizeBytes fileCount : Z) (path : string) : M D (res ()) :=
  wrap "mark backup completed"
    (update_tab (by_id id)
       (λ n, set_b_done "completed" (null_if_empty path) (Some "completed") sizeBytes fileCount (Some n))).
Definition MarkFailed (id : Z) (errMsg : string) : M D (res ()) :=
  wrap "mark backup failed"
    (update_tab (by_id id) (λ n, set_b_failed "failed" (Some "failed") (null_if_empty errMsg) (Some n))).
Definition Delete (id : Z) : M D (res ()) :=
  wrap "delete backup" (delete_tab (by_id (A := backup_row) id)).
Definition ClearStoragePath (id : Z) : M D (res ()) :=
  update_tab (by_id id) (λ _, set_b_storage_path None).

(** ** Retention *)

Definition type_of (r : backup_row) : string := default "files" (b_type r).

(** [ROW_NUMBER() OVER (PARTITION BY site_id, COALESCE(backup_type,'files')
    ORDER BY id DESC) > keep]: past the first [keep] of its partition. *)
Definition partition_of (site : Z) (ty : string) (t : table backup_row) : list backup_row :=
  select_desc (λ r, (b_site r =? site) && (type_of r =? ty)%string) t.
Definition surplus (site keep : Z) (t : table backup_row) (r : backup_row) : bool :=
  (b_site r =? site) &&
  existsb (by_id (b_id r)) (drop (Z.to_nat keep) (partition_of site (type_of r) t)).

(** Two statements: the surplus is read, then deleted by id. *)
Definition DeleteOldest (site keep : Z) : M D (res (list backup_row)) :=
  let? deleted := wrap "query oldest backups"
                    (query (λ _ d, select_where (surplus site keep (backups d)) (backups d))) in
  match deleted with
  | [] => mret (Ok [])
  | _ :: _ =>
      let? _ := wrap "delete oldest backups"
                  (delete_tab (λ r : backup_row, existsb (by_id (b_id r)) deleted)) in
      mret (Ok deleted)
  end.

Definition keep_last (k : Z) : Z := if k <=? 0 then 3 else k.

(** [ORDER BY COALESCE(completed_at, created_at) DESC, id DESC]. *)
Definition newer (a b : backup_row) : bool :=
  let ka := default (b_created a) (b_completed a) in
  let kb := default (b_created b) (b_completed b) in
  (kb <? ka) || ((ka =? kb) && (b_id b <=? b_id a)).
(** The completed backups of a site, latest first. *)
Definition ranked (site : Z) (t : table backup_row) : list backup_row :=
  order_by newer (select_where (λ r, (b_site r =? site) && (b_status r =? "completed")%string) t).
Definition retained (keepLast : Z) (t : table backup_row) (r : backup_row) : bool :=
  existsb (by_id (b_id r)) (take (Z.to_nat keepLast) (ranked (b_site r) t)).
Definition expired (n : Z) (r : backup_row) : bool :=
  match b_expires r with None => false | Some e => time_before_text e n end.

Definition CleanupExpired (keepLast0 : Z) : M D (res Z) :=
  let k := keep_last keepLast0 in
  wrap "cleanup expired backups"
    (exec (λ n d, let p r := expired (current_timestamp n) r && negb (retained k (backups d) r) in
       (count_where p (backups d), set_tab (delete_where p (backups d)) d))).

(** A path that is not NULL, not empty and NOT LIKE 's3://%' (LIKE folds the
    case of ASCII letters). *)
Definition local_path (o : option string) : option string :=
  match o with
  | Some p => if negb (p =? "")%string && negb (has_prefix (to_lower p) "s3://") then Some p else None
  | None => None
  end.

Record ExpiredLocalBackup := mkExpiredLocal { e_id : Z; e_server : option Z; e_site : Z; e_path : string }.

(** [server_of] is the LEFT JOIN with sites and servers. *)
Definition ListExpiredLocal (server_of : D → Z → option Z) (keepLast0 : Z) : M D (res (list ExpiredLocalBackup)) :=
  let k := keep_last keepLast0 in
  wrap "list expired local backups"
    (query (λ n d, omap (λ r, match local_path (b_storage_path r) with
         | Some p => if expired (current_timestamp n) r && negb (retained k (backups d) r)
                     then Some (mkExpiredLocal (b_id r) (server_of d (b_site r)) (b_site r) p) else None
         | None => None
         end) (t_rows (backups d)))).

Definition on_s3 (r : backup_row) : bool :=
  (b_status r =? "completed")%string && negb (default "" (b_s3_path r) =? "")%string &&
  match local_path (b_storage_path r) with Some _ => true | None => false end.

(** The files to remove are read first; each row is cleared when its file is
    gone, and the error of that statement is dropped. *)
Fixpoint clean_each (l : list backup_row) (cleaned : Z) : M D Z :=
  match l with
  | [] => mret cleaned
  | r :: l' =>
      if os_remove (default "" (b_storage_path r)) then
        let* _ := ClearStoragePath (b_id r) in clean_each l' (cleaned + 1)
      else clean_each l' cleaned
  end.
Definition CleanupLocalAfterS3 : M D (res Z) :=
  let? l := query (λ _ d, select_where on_s3 (backups d)) in
  let* n := clean_each l 0 in mret (Ok n).

Definition CleanupStuckRunning (staleAfter : Z) : M D (res Z) :=
  let* now := time_Now in
  wrap "cleanup stuck backups"
    (update_tab_n (λ r, (b_status r =? "running")%string && text_before_time (b_created r) (now - staleAfter))
       (λ n, set_b_failed "failed" (Some "failed") (Some "cleanup: stuck in running state") (Some n))).
Definition CleanupOrphanedPending (olderThan : Z) : M D (res Z) :=
  let* now := time_Now in
  wrap "cleanup orphaned pending backups"
    (delete_tab_n (λ r, (b_status r =? "pending")%string && text_before_time (b_created r) (now - olderThan))).

(** * Facts *)

(** At most one backup in progress of each site and type. *)
Definition one_in_progress (t : table backup_row) : Prop :=
  ∀ r s, In r (t_rows t) → In s (t_rows t) → b_site r = b_site s → b_type r = b_type s →
         in_progress (b_status r) = true → in_progress (b_status s) = true → b_id r = b_id s.

(** no two backups of one site and type are in progress through [Create]:
    if the rows have at most one such backup each, they still do after it, and
    an insertion refused as a duplicate changes nothing. *)
Theorem Create_no_duplicate (b : BackupInput) (w : world D) (Hp : one_in_progress (backups (data w))) :
  wp (Create b) (λ r w', one_in_progress (backups (data w')) ∧
    (last_rowid = 0 →
     in_progress (Status (backup_defaults b)) = true →
     has_row (active_backup (SiteID b) (BackupType (backup_defaults b))) (backups (data w)) = true →
     data w' = data w ∧ ∀ id, r ≠ Ok id)) w.
Proof.
  unfold Create, on_tab. set (c := backup_defaults b).
  assert (Es : SiteID b = SiteID c) by done. rewrite Es. clearbody c. clear Es b.
  wp_step. wp_step. wp_step; [by wp_run|].
  destruct (may_insert c (backups (data w))) eqn:E; cbn [fst snd data clock].
  2: { wp_run; (split; [done|]); intros Hz; rewrite Hz in *; done. }
  assert (one_in_progress (insert_row (new_backup c (clock w)) (backups (data w))).2) as Hn.
  { unfold may_insert in E. apply orb_prop in E. intros r s. cbn. rewrite !in_app_iff.
    assert (Ho : ∀ x, In x (t_rows (backups (data w))) → b_site x = SiteID c → b_type x = Some (BackupType c) →
              in_progress (b_status x) = true → in_progress (Status c) = true → False).
    { intros x Hx H1 H2 H3 H4. destruct E as [E|E]; apply negb_true_iff in E; [congruence|].
      pose proof (has_row_false _ _ _ E Hx) as H. unfold active_backup in H.
      rewrite H1, Z.eqb_refl, H2, bool_decide_eq_true_2, H3 in H by done. done. }
    intros [Hr|[<-|[]]] [Hs|[<-|[]]]; cbn; intros H1 H2 H3 H4; [by eapply Hp|..|done].
    - exfalso. by apply (Ho r).
    - exfalso. by apply (Ho s). }
  assert (Hd : in_progress (Status c) = true →
            has_row (active_backup (SiteID c) (BackupType c)) (backups (data w)) = true → False).
  { intros H1 H2. unfold may_insert in E. by rewrite H1, H2 in E. }
  unfold insert_row in *. cbn in *. wp_run. rewrite tab_set. split; [exact Hn|].
  intros _ H1 H2. destruct (Hd H1 H2).
Qed.

(** the retention of [DeleteOldest]: after a success the backups of the
    site and of each type are exactly the [keep] newest by id, at most [keep]
    of them, and the rows returned are the ones deleted. *)
Theorem DeleteOldest_keeps_newest (site keep : Z) (w : world D)
    (Hw : table_wf (backups (data w))) (Hk : 0 ≤ keep) :
  wp (DeleteOldest site keep) (λ r w', match r with
    | Err _ => data w' = data w
    | Ok deleted =>
        (∀ ty, partition_of site ty (backups (data w')) =
               take (Z.to_nat keep) (partition_of site ty (backups (data w)))) ∧
        (∀ x, In x (t_rows (backups (data w'))) ↔ In x (t_rows (backups (data w))) ∧ ¬ In x deleted) ∧
        Forall (λ x, b_site x = site) deleted
    end) w.
Proof.
  clear last_rowid text_before_time time_before_text os_remove.
  unfold DeleteOldest. set (t := backups (data w)) in *.
  set (dl := select_where (surplus site keep t) t).
  assert (Hdl : ∀ x, In x (t_rows t) → existsb (by_id (b_id x)) dl = surplus site keep t x).
  { intros x Hx. apply eq_true_iff_eq. rewrite existsb_exists. split.
    - intros (y & Hy & Hid). apply Z.eqb_eq in Hid. apply select_where_spec in Hy as [Hy Hs].
      by rewrite <- (wf_unique t y x Hw Hy Hx Hid).
    - intros Hs. exists x. split; [by apply select_where_spec|]. apply Z.eqb_refl. }
  assert (Hin : ∀ x, In x (t_rows t) → In x dl ↔ surplus site keep t x = true).
  { intros x Hx. unfold dl. rewrite select_where_spec. tauto. }
  assert (Hsite : Forall (λ x, b_site x = site) dl).
  { apply List.Forall_forall. intros x [_ Hs]%select_where_spec. unfold surplus in Hs. bool_hyps. done. }
  assert (Hkeep : ∀ ty, List.filter (λ r, negb (surplus site keep t r)) (partition_of site ty t) =
                        take (Z.to_nat keep) (partition_of site ty t)).
  { intros ty. rewrite <- (keep_first _ (Z.to_nat keep)) by (apply select_desc_sorted, Hw).
    apply List.filter_ext_in. intros x Hx. unfold partition_of, select_desc in Hx. rewrite <- in_rev in Hx.
    apply select_where_spec in Hx as [_ Hx]. bool_hyps. unfold surplus. subst ty.
    by rewrite (proj2 (Z.eqb_eq _ _)) by done. }
  assert (Hpart : ∀ ty q, (∀ x, In x (t_rows t) → q x = surplus site keep t x) →
            partition_of site ty (delete_where q t) = take (Z.to_nat keep) (partition_of site ty t)).
  { intros ty q Hq. rewrite <- Hkeep. unfold partition_of, select_desc, select_where, delete_where. cbn.
    rewrite List.filter_rev. f_equal. apply filter_comm. intros x Hx. by rewrite Hq. }
  assert (Hnodl : dl = [] → ∀ x, In x (t_rows t) → surplus site keep t x = false).
  { intros E x Hx. rewrite <- (Hdl x Hx), E. done. }
  wp_step. wp_step. wp_step; [done|]. fold t dl. destruct dl as [|d0 dl'] eqn:Ed.
  - wp_step. cbn. fold t. split; [|split; [tauto|done]]. intros ty. rewrite <- (Hpart ty (λ _, false)).
    + f_equal. unfold delete_where. cbn. destruct t as [l q]. cbn. f_equal. clear.
      induction l as [|x l IH]; cbn; [done|]. by f_equal.
    + intros x Hx. by rewrite Hnodl.
  - rewrite <- Ed in *. wp_step. wp_step. unfold delete_tab. wp_step; [by wp_run|]. wp_run. rewrite tab_set. fold t.
    split; [|split; [|done]].
    + intros ty. apply Hpart. intros x Hx. by apply Hdl.
    + intros x. unfold delete_where. cbn. rewrite List.filter_In, negb_true_iff, <- not_true_iff_false.
      split; intros [H1 H2]; (split; [exact H1|]); intros H; apply H2.
      * rewrite Hdl by exact H1. by apply Hin.
      * apply Hin; [exact H1|]. rewrite <- Hdl by exact H1. exact H.
Qed.

(** [CleanupExpired] deletes expired backups only and never a retained one:
    of every site the [keepLast] latest completed backups (3 when the setting
    is not positive) are all still there, and the number reported is the
    number of rows deleted. *)
Theorem CleanupExpired_retains (k : Z) (w : world D) (Hw : table_wf (backups (data w))) :
  wp (CleanupExpired k) (λ r w', match r with
    | Err _ => data w' = data w
    | Ok n =>
        let t := backups (data w) in
        (∀ x, In x (t_rows (backups (data w'))) → In x (t_rows t)) ∧
        (∀ x, In x (t_rows t) → ¬ In x (t_rows (backups (data w'))) →
              expired (current_timestamp (clock w)) x = true) ∧
        (∀ site x, In x (take (Z.to_nat (keep_last k)) (ranked site t)) → In x (t_rows (backups (data w')))) ∧
        n = Z.of_nat (length (t_rows t)) - Z.of_nat (length (t_rows (backups (data w'))))
    end) w.
Proof.
  unfold CleanupExpired. wp_run; [done|]. rewrite tab_set. set (t := backups (data w)) in *.
  set (p := λ r, expired (current_timestamp (clock w)) r && negb (retained (keep_last k) t r)).
  unfold delete_where. cbn. split; [|split; [|split]].
  - by intros x [Hx _]%List.filter_In.
  - intros x Hx Hn. destruct (p x) eqn:E; [unfold p in E; bool_hyps; done|].
    destruct Hn. apply List.filter_In. by rewrite E.
  - intros site x Hx.
    assert (In x (select_where (λ r, (b_site r =? site) && (b_status r =? "completed")%string) t)) as Hs.
    { rewrite <- (drop_0 (ranked site t)) in Hx. apply in_take_drop in Hx.
      unfold ranked in Hx. by apply in_order_by in Hx. }
    apply select_where_spec in Hs as [Hin Hs]. apply List.filter_In. split; [done|].
    apply negb_true_iff. unfold p. apply andb_false_iff. right. apply negb_false_iff.
    unfold retained. apply existsb_exists. exists x. split; [|apply Z.eqb_refl]. bool_hyps. by subst site.
  - unfold count_where, select_where. rewrite <- (filter_length p (t_rows t)) at 1. lia.
Qed.
End Backups.

(** * Witnesses *)

Definition sample_backup (id : Z) (status : string) (completed expires : option Z) : backup_row :=
  BackupRow id 7 status "local" (Some "/backups/a.tgz") (Some "files") None None 0 0 None 10 completed expires.
Definition sample_backups : table backup_row :=
  Table [sample_backup 1 "completed" (Some 20) (Some 50); sample_backup 2 "failed" (Some 30) (Some 50);
         sample_backup 3 "completed" (Some 40) (Some 50); sample_backup 5 "pending" None None] 5.
Definition before_sec (e n : Z) : bool := current_timestamp e <? n.

Lemma sample_backups_wf : table_wf sample_backups.
Proof. split; [| |done]; cbn; repeat constructor; cbn; lia. Qed.

Lemma sample_backups_one : one_in_progress sample_backups.
Proof. intros r s [<-|[<-|[<-|[<-|[]]]]] [<-|[<-|[<-|[<-|[]]]]]; done. Qed.

Definition again : BackupInput := mkBackup 7 "" "" None "" None.

(** A second backup of the files of site 7 is refused. *)
Lemma Create_no_duplicate_witness :
  (Create 0 again (World sample_backups 0 [])).1 = Err ErrDuplicateBackup ∧
  wp (Create 0 again) (λ r w', one_in_progress (data w') ∧
      (0 = 0 → in_progress (Status (backup_defaults again)) = true →
       has_row (active_backup 7 "files") sample_backups = true →
       data w' = sample_backups ∧ ∀ id, r ≠ Ok id)) (World sample_backups 0 []).
Proof.
  split; [reflexivity|]. exact (Create_no_duplicate (HB := has_self _) 0 again (World sample_backups 0 []) sample_backups_one).
Defined.

Lemma DeleteOldest_keeps_newest_witness :
  map b_id (t_rows (data (DeleteOldest 7 2 (World sample_backups 0 [])).2)) = [3; 5] ∧
  wp (DeleteOldest 7 2) (λ r w', match r with
      | Err _ => data w' = sample_backups
      | Ok deleted =>
          (∀ ty, partition_of 7 ty (data w') = take (Z.to_nat 2) (partition_of 7 ty sample_backups)) ∧
          (∀ x, In x (t_rows (data w')) ↔ In x (t_rows sample_backups) ∧ ¬ In x deleted) ∧
          Forall (λ x, b_site x = 7) deleted
      end) (World sample_backups 0 []).
Proof.
  split; [reflexivity|].
  apply (DeleteOldest_keeps_newest (HB := has_self _) 7 2 (World sample_backups 0 [])); [exact sample_backups_wf|lia].
Defined.

(** One completed backup is retained: the other one and the failed one go. *)
Lemma CleanupExpired_retains_witness :
  let w := World sample_backups 100000000000 [] in
  map b_id (t_rows (data (CleanupExpired before_sec 1 w).2)) = [3; 5] ∧
  wp (CleanupExpired before_sec 1) (λ r w', match r with
      | Err _ => data w' = data w
      | Ok n =>
          (∀ x, In x (t_rows (data w')) → In x (t_rows sample_backups)) ∧
          (∀ x, In x (t_rows sample_backups) → ¬ In x (t_rows (data w')) → expired before_sec 100 x = true) ∧
          (∀ site x, In x (take (Z.to_nat (keep_last 1)) (ranked site sample_backups)) → In x (t_rows (data w'))) ∧
          n = Z.of_nat (length (t_rows sample_backups)) - Z.of_nat (length (t_rows (data w')))
      end) w.
Proof.
  split; [reflexivity|].
  exact (CleanupExpired_retains (HB := has_self _) before_sec 1 (World sample_backups 100000000000 []) sample_backups_wf).
Defined.
