(* ===== verification/Float.v ===== *)
(** Go's [float64], by exact arithmetic on fractions and rounding to nearest even:
    [strconv.ParseFloat], the shortest text [encoding/json] prints, and the few
    operations on positive values that the sources perform. *)
From S2P Require Import Prelude GoStr.
Local Open Scope Z_scope.
Local Open Scope panel_scope.

(** * Reading and printing *)

(** Sign, digits and power of ten of a text of the grammar. *)
Definition digits_int (s : string) : Z := default 0 (digits_val 0 s).
Definition exponent (r : string) : Z :=
  match r with
  | String _ (String "-" ds) => - digits_int ds
  | String _ (String "+" ds) => digits_int ds
  | String _ ds => digits_int ds
  | EmptyString => 0
  end.
Definition decimal (t : string) : bool * Z * Z :=
  let '(neg, u) := match t with String "-" u => (true, u) | _ => (false, t) end in
  let '(i, r) := span is_digit u in
  let '(f, r') := match r with String "." r' => span is_digit r' | _ => (EmptyString, r) end in
  (neg, digits_int (i +:+ f), exponent r' - Z.of_nat (String.length f)).

Definition round_half_even (p q : Z) : Z :=
  let d := p / q in
  let r := 2 * (p mod q) in
  if (r <? q) || ((r =? q) && Z.even d) then d else d + 1.
(** [m * 10 ^ e] as a fraction. *)
Definition ratio (m b e : Z) : Z * Z := if 0 <=? e then (m * b ^ e, 1) else (m, b ^ (- e)).
Definition scaled (p q k : Z) : Z * Z := if 0 <=? k then (p, q * 2 ^ k) else (p * 2 ^ (- k), q).
(** The number of decimal digits of [m > 0]. *)
Fixpoint num_digits (fuel : nat) (m : Z) : Z :=
  match fuel with O => 0 | S f => if m <=? 0 then 0 else 1 + num_digits f (m / 10) end.
Definition decimal_digits (m : Z) : Z := num_digits (S (Z.to_nat (Z.log2 m))) m.

(** The [float64] [n * 2 ^ k] nearest to [p / q > 0], ties to even: [n < 2 ^ 53] and
    [k >= -1074]. *)
Definition nearest (p q : Z) : Z * Z :=
  let k0 := Z.log2 p - Z.log2 q - 52 in
  let '(p0, q0) := scaled p q k0 in
  let k := Z.max (if p0 / q0 <? 2 ^ 52 then k0 - 1 else k0) (-1074) in
  let '(p1, q1) := scaled p q k in
  let n := round_half_even p1 q1 in
  if n =? 2 ^ 53 then (2 ^ 52, k + 1) else if n =? 0 then (0, 0) else (n, k).

(** The [float64] of [m * 10 ^ e]; [None] when it overflows. *)
Definition nearest_float (m e : Z) : option (Z * Z) :=
  if m =? 0 then Some (0, 0)
  else if 310 <? decimal_digits m + e then None
  else if decimal_digits m + e <? -330 then Some (0, 0)
  else let '(p, q) := ratio m 10 e in
       let '(n, k) := nearest p q in
       if 971 <? k then None else Some (n, k).
Definition parse_float (t : string) : option (bool * (Z * Z)) :=
  let '(neg, m, e) := decimal t in
  match nearest_float m e with Some f => Some (neg, f) | None => None end.

Fixpoint zeros (n : nat) : string := match n with O => EmptyString | S n' => String "0" (zeros n') end.
Fixpoint strip_zeros (fuel : nat) (c x : Z) : Z * Z :=
  match fuel with
  | O => (c, x)
  | S f => if (c mod 10 =? 0) && (0 <? c) then strip_zeros f (c / 10) (x + 1) else (c, x)
  end.
(** [c * 10 ^ x] in the format of [encoding/json]. *)
Definition format_decimal (c x : Z) : string :=
  let '(c, x) := strip_zeros 20 c x in
  let ds := itoa c in
  let l := Z.of_nat (String.length ds) in
  let dp := l + x in
  if (-5 <=? dp) && (dp <=? 21) then
    if 0 <=? x then ds +:+ zeros (Z.to_nat x)
    else if 0 <? dp then str_take (Z.to_nat dp) ds +:+ "." +:+ str_drop (Z.to_nat dp) ds
    else "0." +:+ zeros (Z.to_nat (- dp)) +:+ ds
  else
    (if l =? 1 then ds else str_take 1 ds +:+ "." +:+ str_drop 1 ds) +:+ "e" +:+
    (if dp - 1 <? 0 then EmptyString else "+") +:+ itoa (dp - 1).
(** The two decimals of [d] digits around [n * 2 ^ k], the nearer first. *)
Definition around (n k d : Z) : list string :=
  let '(p, q) := ratio n 2 k in
  let x0 := decimal_digits (p / q) in
  let x := if 0 <? x0 then x0 else 1 - decimal_digits (q / p) in
  let y := d - x in
  let '(p1, q1) := if 0 <=? y then (p * 10 ^ y, q) else (p, q * 10 ^ (- y)) in
  let c := p1 / q1 in
  let near := round_half_even p1 q1 in
  let far := if near =? c then c + 1 else c in
  [format_decimal near (- y); format_decimal far (- y)].
(** The texts of one to 17 digits, shortest first. *)
Definition candidates (f : option (bool * (Z * Z))) : list string :=
  match f with
  | None => []
  | Some (neg, (n, k)) =>
      map (λ s, if neg : bool then "-" +:+ s else s)
        (if n =? 0 then ["0"%string]
         else flat_map (around n k) (map Z.of_nat (seq 1 17)))
  end.
(** An integer of at most 53 bits is exact, and printed as it was. *)
Definition exact_int (t : string) : bool :=
  let '(n, ok) := atoi t in ok && (Z.abs n <=? 2 ^ 53) && (itoa n =? t)%string.
(** What [Marshal] prints for the [float64] of a text: the shortest decimal that
    reads as that [float64]. *)
Definition float_text (t : string) : string :=
  if exact_int t then t
  else match List.find (λ c, bool_decide (parse_float c = parse_float t)) (candidates (parse_float t)) with
       | Some c => c
       | None => t
       end.
(** A text whose [float64] overflows is an error. *)
Definition float_ok (t : string) : bool :=
  exact_int t || match parse_float t with Some _ => true | None => false end.

Lemma float_text_same (t : string) : parse_float (float_text t) = parse_float t.
Proof.
  unfold float_text. destruct (exact_int t); [done|]. destruct (List.find _ _) as [c|] eqn:E; [|done].
  apply List.find_some in E as [_ E]. by apply bool_decide_eq_true in E.
Qed.

Lemma float_text_idem (t : string) : float_text (float_text t) = float_text t.
Proof.
  unfold float_text at 1. destruct (exact_int (float_text t)) eqn:Ex; [done|]. rewrite float_text_same.
  revert Ex. unfold float_text. destruct (exact_int t) eqn:Et; [congruence|]. by destruct (List.find _ _).
Qed.

Lemma float_ok_text (t : string) : float_ok t = true → float_ok (float_text t) = true.
Proof.
  intros H. destruct (exact_int t) eqn:Et; [unfold float_text; by rewrite Et|].
  unfold float_ok in *. rewrite Et in H. rewrite float_text_same. destruct (parse_float t); [|done]. apply orb_true_r.
Qed.

(** * Arithmetic on positive values *)

(** A [float64] [n * 2 ^ k], [0 <= n], far from overflow. *)
Definition float : Type := Z * Z.
Definition of_ratio (p q : Z) : float := if p =? 0 then (0, 0) else nearest p q.
Definition float_of_int (n : Z) : float := of_ratio n 1.
Definition num (f : float) : Z := (ratio f.1 2 f.2).1.
Definition den (f : float) : Z := (ratio f.1 2 f.2).2.
Definition float_add (a b : float) : float := of_ratio (num a * den b + num b * den a) (den a * den b).
Definition float_mul (a b : float) : float := of_ratio (num a * num b) (den a * den b).
Definition float_div (a b : float) : float := of_ratio (num a * den b) (den a * num b).
(** [int(f)]. *)
Definition int_of_float (f : float) : Z := num f / den f.

(** [time.Duration.Seconds], of a duration in nanoseconds. *)
Definition duration_Seconds (d : Z) : float :=
  float_add (float_of_int (d / 1000000000)) (float_div (float_of_int (d mod 1000000000)) (float_of_int 1000000000)).
