(* ===== verification/Json.v ===== *)
(** The part of Go's [encoding/json] that the job payloads go through:
    [Unmarshal] into [any] and into a struct with one integer field, and
    [Marshal].  Texts are byte strings in UTF-8.  A number is a text; into [any] Go
    decodes it to a [float64], whose shortest text [float_text] gives. *)
From Stdlib Require Import OrdersEx.
From S2P Require Import Prelude GoStr Regex Float.
Local Open Scope Z_scope.
Local Open Scope panel_scope.

Inductive json :=
| JNull
| JBool (b : bool)
| JNum (text : string)
| JStr (s : string)
| JArr (l : list json)
| JObj (l : list (string * json)).

(** A Go map with string keys, as [Marshal] visits it: sorted by key. *)
Fixpoint obj_insert {A} (k : string) (v : A) (l : list (string * A)) : list (string * A) :=
  match l with
  | [] => [(k, v)]
  | (k', v') :: l' =>
      match String.compare k k' with
      | Lt => (k, v) :: l
      | Eq => (k, v) :: l'
      | Gt => (k', v') :: obj_insert k v l'
      end
  end.
(** The members of a text in order: a later one replaces an earlier one. *)
Definition obj_of_list {A} (l : list (string * A)) : list (string * A) :=
  fold_left (λ m p, obj_insert p.1 p.2 m) l [].
Definition obj_get {A} (k : string) (l : list (string * A)) : option A :=
  snd <$> List.find (λ p, (p.1 =? k)%string) l.
Definition obj_delete {A} (k : string) (l : list (string * A)) : list (string * A) :=
  List.filter (λ p, negb (p.1 =? k)%string) l.

(** * Marshal *)

Definition hex_digit (n : Z) : ascii := byte (Z.to_nat (if n <? 10 then n + 48 else n + 87)).
Definition u_escape (n : Z) : string :=
  String BS (String "u" (String (hex_digit (n / 4096)) (String (hex_digit (n / 256 mod 16))
    (String (hex_digit (n / 16 mod 16)) (String (hex_digit (n mod 16)) EmptyString))))).
Definition esc (c : ascii) : string := String BS (String c EmptyString).

(** One byte of a text: quotes, the control characters and the characters that
    matter to HTML are escaped. *)
Definition print_byte (c : ascii) : string :=
  if Ascii.eqb c DQ then esc DQ
  else if Ascii.eqb c BS then esc BS
  else if Ascii.eqb c (byte 8) then esc "b"
  else if Ascii.eqb c (byte 12) then esc "f"
  else if Ascii.eqb c LF then esc "n"
  else if Ascii.eqb c CR then esc "r"
  else if Ascii.eqb c (byte 9) then esc "t"
  else if (code c <? 32) || chr_in "<>&" c then u_escape (code c)
  else String c EmptyString.

(** U+2028 and U+2029 (E2 80 A8 and E2 80 A9) are escaped as well. *)
Fixpoint print_body (s : string) : string :=
  match s with
  | EmptyString => EmptyString
  | String c s1 =>
      match s1 with
      | String d (String e s3) =>
          if (code c =? 226) && (code d =? 128) && ((code e =? 168) || (code e =? 169))
          then u_escape (8064 + code e) +:+ print_body s3
          else print_byte c +:+ print_body s1
      | _ => print_byte c +:+ print_body s1
      end
  end.
Definition print_str (s : string) : string := String DQ (print_body s +:+ String DQ EmptyString).

Definition commas (l : list string) : string := join "," l.

Fixpoint Marshal (v : json) : string :=
  match v with
  | JNull => "null"
  | JBool b => if b then "true" else "false"
  | JNum t => t
  | JStr s => print_str s
  | JArr l => "[" +:+ commas (map Marshal l) +:+ "]"
  | JObj l => "{" +:+ commas (map (λ p, print_str p.1 +:+ ":" +:+ Marshal p.2) l) +:+ "}"
  end.

(** * Unmarshal *)

Definition is_ws (c : ascii) : bool := chr_in (String " " (String (byte 9) (String LF (String CR EmptyString)))) c.
Fixpoint skip_ws (s : string) : string :=
  match s with
  | String c s' => if is_ws c then skip_ws s' else s
  | EmptyString => EmptyString
  end.

Definition hex_val (c : ascii) : option Z :=
  if is_digit c then Some (code c - 48)
  else if chr_range "a" "f" c then Some (code c - 87)
  else if chr_range "A" "F" c then Some (code c - 55)
  else None.
Definition hex4 (a b c d : ascii) : option Z :=
  match hex_val a, hex_val b, hex_val c, hex_val d with
  | Some x, Some y, Some z, Some t => Some (x * 4096 + y * 256 + z * 16 + t)
  | _, _, _, _ => None
  end.

Definition utf8 (n : Z) : string :=
  let b k := byte (Z.to_nat k) in
  if n <? 128 then String (b n) EmptyString
  else if n <? 2048 then String (b (192 + n / 64)) (String (b (128 + n mod 64)) EmptyString)
  else if n <? 65536 then
    String (b (224 + n / 4096)) (String (b (128 + n / 64 mod 64)) (String (b (128 + n mod 64)) EmptyString))
  else String (b (240 + n / 262144)) (String (b (128 + n / 4096 mod 64))
         (String (b (128 + n / 64 mod 64)) (String (b (128 + n mod 64)) EmptyString))).

Definition replacement : string := utf8 65533.
Definition is_surrogate (n : Z) : bool := (55296 <=? n) && (n <? 57344).

Definition simple_escape (c : ascii) : option ascii :=
  if Ascii.eqb c DQ then Some DQ
  else if Ascii.eqb c BS then Some BS
  else if Ascii.eqb c "/" then Some "/"%char
  else if Ascii.eqb c "b" then Some (byte 8)
  else if Ascii.eqb c "f" then Some (byte 12)
  else if Ascii.eqb c "n" then Some LF
  else if Ascii.eqb c "r" then Some CR
  else if Ascii.eqb c "t" then Some (byte 9)
  else None.

Definition prepend (p : string) (o : option (string * string)) : option (string * string) :=
  match o with Some (b, r) => Some (p +:+ b, r) | None => None end.

(** After the opening quote: the decoded text and what follows the closing
    quote.  A lone surrogate becomes U+FFFD. *)
Fixpoint parse_body (s : string) : option (string * string) :=
  match s with
  | EmptyString => None
  | String c s1 =>
      if Ascii.eqb c DQ then Some (EmptyString, s1)
      else if code c <? 32 then None
      else if negb (Ascii.eqb c BS) then prepend (String c EmptyString) (parse_body s1)
      else
        match s1 with
        | String "u" (String a (String b (String d (String e s6)))) =>
            match hex4 a b d e with
            | None => None
            | Some n =>
                if negb (is_surrogate n) then prepend (utf8 n) (parse_body s6)
                else
                  match s6 with
                  | String x (String "u" (String a' (String b' (String d' (String e' s12))))) =>
                      match hex4 a' b' d' e' with
                      | Some m =>
                          if Ascii.eqb x BS && (n <? 56320) && (56320 <=? m) && (m <? 57344)
                          then prepend (utf8 (65536 + (n - 55296) * 1024 + (m - 56320))) (parse_body s12)
                          else prepend replacement (parse_body s6)
                      | None => prepend replacement (parse_body s6)
                      end
                  | _ => prepend replacement (parse_body s6)
                  end
            end
        | String k s2 =>
            match simple_escape k with
            | Some c' => prepend (String c' EmptyString) (parse_body s2)
            | None => None
            end
        | EmptyString => None
        end
  end.

Definition digits : re := Star (Cls is_digit).
(** The grammar of a number. *)
Definition numberRe : re :=
  Cat (Opt (Lit "-"))
 (Cat (Alt (Lit "0") (Cat (Cls (chr_range "1" "9")) digits))
 (Cat (Opt (Cat (Lit ".") (Plus (Cls is_digit))))
      (Opt (Cat (Cls (chr_in "eE")) (Cat (Opt (Cls (chr_in "+-"))) (Plus (Cls is_digit))))))).
Definition num_char (c : ascii) : bool := is_digit c || chr_in "+-.eE" c.

Definition expect (lit : string) (v : json) (s : string) : option (json * string) :=
  if has_prefix s lit then Some (v, str_drop (String.length lit) s) else None.

(** The fuel is the nesting plus the number of members left to read. *)
Fixpoint parse_value (fuel : nat) (s : string) : option (json * string) :=
  match fuel with
  | O => None
  | S f =>
      match skip_ws s with
      | EmptyString => None
      | String c s1 =>
          if Ascii.eqb c DQ then
            match parse_body s1 with Some (b, r) => Some (JStr b, r) | None => None end
          else if Ascii.eqb c "{" then
            match skip_ws s1 with
            | String "}" r => Some (JObj [], r)
            | _ => match parse_members f s1 with
                   | Some (l, r) => Some (JObj l, r)
                   | None => None
                   end
            end
          else if Ascii.eqb c "[" then
            match skip_ws s1 with
            | String "]" r => Some (JArr [], r)
            | _ => match parse_elems f s1 with Some (l, r) => Some (JArr l, r) | None => None end
            end
          else if Ascii.eqb c "t" then expect "true" (JBool true) (String c s1)
          else if Ascii.eqb c "f" then expect "false" (JBool false) (String c s1)
          else if Ascii.eqb c "n" then expect "null" JNull (String c s1)
          else let '(t, r) := span num_char (String c s1) in
               if re_match numberRe t then Some (JNum t, r) else None
      end
  end
with parse_elems (fuel : nat) (s : string) : option (list json * string) :=
  match fuel with
  | O => None
  | S f =>
      match parse_value f s with
      | None => None
      | Some (v, r) =>
          match skip_ws r with
          | String "," r' => match parse_elems f r' with Some (l, r'') => Some (v :: l, r'') | None => None end
          | String "]" r' => Some ([v], r')
          | _ => None
          end
      end
  end
with parse_members (fuel : nat) (s : string) : option (list (string * json) * string) :=
  match fuel with
  | O => None
  | S f =>
      match skip_ws s with
      | String q s1 =>
          if negb (Ascii.eqb q DQ) then None else
          match parse_body s1 with
          | None => None
          | Some (k, r) =>
              match skip_ws r with
              | String ":" r1 =>
                  match parse_value f r1 with
                  | None => None
                  | Some (v, r2) =>
                      match skip_ws r2 with
                      | String "," r3 =>
                          match parse_members f r3 with Some (l, r4) => Some ((k, v) :: l, r4) | None => None end
                      | String "}" r3 => Some ([(k, v)], r3)
                      | _ => None
                      end
                  end
              | _ => None
              end
          end
      | EmptyString => None
      end
  end.

(** A text of [n] bytes needs at most [2 n + 2] steps. *)
Definition parse_text (s : string) : option json :=
  match parse_value (2 * String.length s + 2) s with
  | Some (v, r) => match skip_ws r with EmptyString => Some v | _ => None end
  | None => None
  end.

(** [Unmarshal] into [struct { F int64 `json:"name"` }], 0 when the field is
    missing or null: the members are matched without regard to case, in order,
    and a member of another type is an error.  [None] is an error. *)
Definition decode_int (acc : option Z) (v : json) : option Z :=
  match acc, v with
  | None, _ => None
  | Some _, JNum t => let '(n, ok) := atoi t in if ok then Some n else None
  | Some a, JNull => Some a
  | Some _, _ => None
  end.
Definition int_field (name : string) (v : json) : option Z :=
  match v with
  | JObj l => fold_left (λ acc p, if (to_lower p.1 =? name)%string then decode_int acc p.2 else acc) l (Some 0)
  | JNull => Some 0
  | _ => None
  end.
Definition unmarshal_int (name : string) (s : string) : option Z :=
  match parse_text s with Some v => int_field name v | None => None end.

(** The same for a field of type string and of type bool. *)
Definition decode_str (acc : option string) (v : json) : option string :=
  match acc, v with
  | None, _ => None
  | Some _, JStr s => Some s
  | Some a, JNull => Some a
  | Some _, _ => None
  end.
Definition decode_bool (acc : option bool) (v : json) : option bool :=
  match acc, v with
  | None, _ => None
  | Some _, JBool b => Some b
  | Some a, JNull => Some a
  | Some _, _ => None
  end.
Definition field_with {A} (decode : option A → json → option A) (zero : A) (name : string) (v : json) : option A :=
  match v with
  | JObj l => fold_left (λ acc p, if (to_lower p.1 =? name)%string then decode acc p.2 else acc) l (Some zero)
  | JNull => Some zero
  | _ => None
  end.
Definition str_field : string → json → option string := field_with decode_str "".
Definition bool_field : string → json → option bool := field_with decode_bool false.
Definition unmarshal_str (name : string) (s : string) : option string :=
  match parse_text s with Some v => str_field name v | None => None end.

Definition JInt (n : Z) : json := JNum (itoa n).
(** [json.Marshal] of a [map[string]any]. *)
Definition marshal_map (l : list (string * json)) : string := Marshal (JObj (obj_of_list l)).

(** Into [any]: an object becomes a map, a number a [float64]. *)
Fixpoint canon (v : json) : json :=
  match v with
  | JNum t => JNum (float_text t)
  | JArr l => JArr (map canon l)
  | JObj l => JObj (obj_of_list (map (λ p, (p.1, canon p.2)) l))
  | _ => v
  end.
Fixpoint floats_ok (v : json) : bool :=
  match v with
  | JNum t => float_ok t
  | JArr l => forallb floats_ok l
  | JObj l => forallb (λ p, floats_ok p.2) l
  | _ => true
  end.
Definition Unmarshal (s : string) : option json :=
  match parse_text s with Some v => if floats_ok v then Some (canon v) else None | None => None end.

(** * Unmarshal reads what Marshal prints *)

Section JsonInd.
Variable P : json → Prop.
Hypothesis HNull : P JNull.
Hypothesis HBool : ∀ b, P (JBool b).
Hypothesis HNum : ∀ t, P (JNum t).
Hypothesis HStr : ∀ s, P (JStr s).
Hypothesis HArr : ∀ l, Forall P l → P (JArr l).
Hypothesis HObj : ∀ l, Forall (λ p, P p.2) l → P (JObj l).

Fixpoint json_nested_ind (v : json) : P v :=
  match v with
  | JNull => HNull
  | JBool b => HBool b
  | JNum t => HNum t
  | JStr s => HStr s
  | JArr l => HArr l ((fix go l : Forall P l :=
      match l with [] => Forall_nil_2 _ | x :: l' => Forall_cons_2 _ _ _ (json_nested_ind x) (go l') end) l)
  | JObj l => HObj l ((fix go l : Forall (λ p, P p.2) l :=
      match l with
      | [] => Forall_nil_2 _
      | x :: l' => Forall_cons_2 (λ p, P p.2) x l' (json_nested_ind x.2) (go l')
      end) l)
  end.
End JsonInd.

(** Texts of ASCII characters and numbers of the grammar. *)
Definition ascii_str (s : string) : bool := str_all (λ c, code c <? 128) s.
Fixpoint json_ok (v : json) : bool :=
  match v with
  | JNum t => re_match numberRe t && str_all num_char t
  | JStr s => ascii_str s
  | JArr l => forallb json_ok l
  | JObj l => forallb (λ p, ascii_str p.1 && json_ok p.2) l
  | _ => true
  end.

Lemma print_byte_read (c : ascii) (r : string) :
  code c <? 128 = true → parse_body (print_byte c +:+ r) = prepend (String c EmptyString) (parse_body r).
Proof. destruct c as [[] [] [] [] [] [] [] []]; intros H; first [discriminate H | reflexivity]. Qed.

Lemma print_body_ascii (c : ascii) (s : string) :
  code c <? 128 = true → print_body (String c s) = print_byte c +:+ print_body s.
Proof.
  intros H. bool_hyps. cbn [print_body]. destruct s as [|d [|e s]]; [done|done|].
  rewrite (proj2 (Z.eqb_neq (code c) 226)) by lia. done.
Qed.

Lemma print_str_read (s r : string) :
  ascii_str s = true → parse_body (print_body s +:+ String DQ r) = Some (s, r).
Proof.
  induction s as [|c s IH]; intros H; [done|]. cbn in H. apply andb_prop in H as [Hc Hs].
  rewrite print_body_ascii, app_assoc_s, print_byte_read, (IH Hs) by done. done.
Qed.

#[local] Arguments num_char : simpl never.
#[local] Arguments code : simpl never.

(** What may follow a value: not a character of a number. *)
Definition stops (r : string) : bool := match r with String c _ => negb (num_char c) | EmptyString => true end.

Lemma span_all (t r : string) : str_all num_char t = true → stops r = true → span num_char (t +:+ r) = (t, r).
Proof.
  induction t as [|c t IH]; intros Ht Hr.
  - destruct r as [|c r]; [done|]. cbn [stops] in Hr. apply negb_true_iff in Hr.
    change (EmptyString +:+ String c r) with (String c r). cbn [span]. by rewrite Hr.
  - cbn [str_all] in Ht. bool_hyps. rewrite app_cons. cbn [span]. by rewrite H, (IH H0 Hr).
Qed.

(** The first character of a printed value decides how it is read. *)
Definition value_start (c : ascii) : bool := chr_in "{[tfn-0123456789" c || Ascii.eqb c DQ.

Lemma number_start (t : string) : re_match numberRe t = true → str_all num_char t = true →
  ∃ c t', t = String c t' ∧ num_char c = true ∧ chr_in "+eE." c = false.
Proof.
  destruct t as [|c t]; [done|]. intros Hm Hn. exists c, t. cbn in Hn. apply andb_prop in Hn as [Hn _].
  split; [done|]. split; [done|]. destruct (chr_in "+eE." c) eqn:E; [|done]. exfalso.
  assert (deriv c numberRe = Void) as Ev
    by (destruct c as [[] [] [] [] [] [] [] []]; first [discriminate E | vm_compute; reflexivity]).
  cbn [re_match] in Hm; rewrite Ev in Hm; clear - Hm; induction t as [|d t IH]; [done|by apply IH].
Qed.

Fixpoint need (v : json) : nat :=
  match v with
  | JArr l => S (fold_right (λ v n, S (Nat.max (need v) n)) O l)
  | JObj l => S (fold_right (λ p n, S (Nat.max (need p.2) n)) O l)
  | _ => 1
  end.

(** The reading of a printed value, of the rest of an array and of an object,
    with fuel to spare. *)
Definition reads (v : json) : Prop :=
  json_ok v = true → ∀ f r, (need v ≤ f)%nat → stops r = true →
  parse_value f (Marshal v +:+ r) = Some (v, r).

Lemma commas_cons (a : string) (l : list string) :
  commas (a :: l) = match l with [] => a | _ :: _ => a +:+ "," +:+ commas l end.
Proof. destruct l; done. Qed.

Lemma stops_close (c : ascii) (r : string) : chr_in ",]}:" c = true → stops (String c r) = true.
Proof. cbn [stops]. destruct c as [[] [] [] [] [] [] [] []]; intros H; first [discriminate H | reflexivity]. Qed.

Lemma elems_read (l : list json) (f : nat) (r : string) :
  l ≠ [] → Forall reads l → forallb json_ok l = true →
  (fold_right (λ v n, S (Nat.max (need v) n)) O l ≤ f)%nat →
  parse_elems f (commas (map Marshal l) +:+ String "]" r) = Some (l, r).
Proof.
  revert f. induction l as [|v l IH]; [done|]. intros f _ [Hv Hl]%Forall_cons Hok Hf.
  cbn [forallb] in Hok. apply andb_prop in Hok as [Hov Hol]. cbn [fold_right] in Hf.
  destruct f as [|f]; [lia|].
  assert (Hs : ∀ r', commas (map Marshal (v :: l)) +:+ r' = Marshal v +:+
     (match l with [] => r' | _ :: _ => String "," (commas (map Marshal l) +:+ r') end)).
  { intros r'. cbn [map]. rewrite commas_cons. destruct l as [|w l]; cbn [map]; [done|].
    by rewrite !app_assoc_s. }
  rewrite Hs. cbn [parse_elems]. destruct l as [|w l].
  - rewrite Hv by (done || lia || by apply stops_close). cbn [skip_ws]. change (is_ws "]") with false. done.
  - rewrite Hv by (done || lia || by apply stops_close). cbn [skip_ws]. change (is_ws ",") with false. cbn iota.
    rewrite IH by (done || lia). done.
Qed.

Definition member (p : string * json) : string := print_str p.1 +:+ ":" +:+ Marshal p.2.

Lemma members_read (l : list (string * json)) (f : nat) (r : string) :
  l ≠ [] → Forall (λ p, reads p.2) l → forallb (λ p, ascii_str p.1 && json_ok p.2) l = true →
  (fold_right (λ p n, S (Nat.max (need p.2) n)) O l ≤ f)%nat →
  parse_members f (commas (map member l) +:+ String "}" r) = Some (l, r).
Proof.
  revert f. induction l as [|[k v] l IH]; [done|]. intros f _ [Hv Hl]%Forall_cons Hok Hf.
  cbn [forallb fst snd] in Hok, Hv. apply andb_prop in Hok as [[Hk Hov]%andb_prop Hol].
  cbn [fold_right snd] in Hf. destruct f as [|f]; [lia|].
  assert (Hs : ∀ r', commas (map member ((k, v) :: l)) +:+ r' =
     String DQ (print_body k +:+ String DQ (String ":" (Marshal v +:+
        (match l with [] => r' | _ :: _ => String "," (commas (map member l) +:+ r') end))))).
  { intros r'. cbn [map]. rewrite commas_cons.
    assert (En : ∀ x, EmptyString +:+ x = x) by done.
    destruct l as [|p l]; cbn [map]; change (member (k, v)) with (print_str k +:+ ":" +:+ Marshal v); unfold print_str;
      repeat first [rewrite app_cons | rewrite app_assoc_s | rewrite En]; reflexivity. }
  rewrite Hs. cbn [parse_members skip_ws]. change (is_ws DQ) with false. cbn iota. change (negb (Ascii.eqb DQ DQ)) with false.
  cbn iota. rewrite print_str_read by done. cbn [skip_ws]. change (is_ws ":") with false. cbn iota.
  destruct l as [|p l].
  - rewrite Hv by (done || lia || by apply stops_close). cbn [skip_ws]. change (is_ws "}") with false. done.
  - rewrite Hv by (done || lia || by apply stops_close). cbn [skip_ws]. change (is_ws ",") with false. cbn iota.
    rewrite IH by (done || lia). done.
Qed.

Lemma expect_read (lit : string) (v : json) (r : string) : expect lit v (lit +:+ r) = Some (v, r).
Proof. unfold expect, has_prefix. by rewrite prefix_app, str_drop_app. Qed.

Lemma marshal_reads (v : json) : reads v.
Proof.
  induction v as [|b|t|s|l IH|l IH] using json_nested_ind; intros Hok f r Hf Hr;
    (destruct f as [|f]; [cbn in Hf; lia|]).
  - exact (expect_read "null" JNull r).
  - destruct b; [exact (expect_read "true" (JBool true) r)|exact (expect_read "false" (JBool false) r)].
  - cbn [json_ok] in Hok. apply andb_prop in Hok as [Hm Hn]. cbn [Marshal].
    pose proof (span_all t r Hn Hr) as Hs.
    destruct (number_start t Hm Hn) as (c & t' & -> & Hc & Hb). rewrite app_cons in *.
    assert (is_ws c = false ∧ Ascii.eqb c DQ = false ∧ Ascii.eqb c "{" = false ∧ Ascii.eqb c "[" = false ∧
            Ascii.eqb c "t" = false ∧ Ascii.eqb c "f" = false ∧ Ascii.eqb c "n" = false)
      as (E1 & E2 & E3 & E4 & E5 & E6 & E7).
    { clear - Hc. destruct c as [[] [] [] [] [] [] [] []]; first [discriminate Hc | by repeat split]. }
    cbn [parse_value skip_ws]. rewrite E1, E2, E3, E4, E5, E6, E7, Hs, Hm. done.
  - cbn [json_ok Marshal] in *. unfold print_str. rewrite app_cons, app_assoc_s.
    change ((String DQ EmptyString) +:+ r) with (String DQ r). cbn [parse_value skip_ws].
    change (is_ws DQ) with false. cbn iota. change (Ascii.eqb DQ DQ) with true. cbn iota.
    by rewrite print_str_read.
  - cbn [json_ok Marshal] in *. rewrite app_assoc_s, app_cons, app_assoc_s. change ("]" +:+ r) with (String "]" r). cbn [need] in Hf.
    destruct l as [|v l]; [reflexivity|].
    pose proof (elems_read (v :: l) f r ltac:(done) IH Hok ltac:(lia)) as He.
    revert He. set (x := commas (map Marshal (v :: l)) +:+ String "]" r). intros He.
    change (EmptyString +:+ x) with x. cbn [parse_value skip_ws].
    change (is_ws "[") with false. cbn iota. change (Ascii.eqb "[" DQ) with false.
    change (Ascii.eqb "[" "{") with false. change (Ascii.eqb "[" "[") with true. cbn iota. rewrite He.
    destruct (skip_ws x) as [|c y] eqn:Ex; [done|].
    assert (c ≠ "]"%char); [|destruct c as [[] [] [] [] [] [] [] []]; first [done|congruence]].
    intros ->. destruct f as [|f]; [done|]. cbn [parse_elems] in He.
    destruct f as [|f]; [done|]. cbn [parse_value] in He. rewrite Ex in He. by cbn in He.
  - cbn [json_ok Marshal] in *. rewrite app_assoc_s, app_cons, app_assoc_s. change ("}" +:+ r) with (String "}" r). cbn [need] in Hf.
    destruct l as [|p l]; [reflexivity|].
    pose proof (members_read (p :: l) f r ltac:(done) IH Hok ltac:(lia)) as He.
    unfold member in He. revert He.
    set (x := commas (map _ (p :: l)) +:+ String "}" r). intros He.
    change (EmptyString +:+ x) with x. cbn [parse_value skip_ws].
    change (is_ws "{") with false. cbn iota. change (Ascii.eqb "{" DQ) with false.
    change (Ascii.eqb "{" "{") with true. cbn iota. rewrite He.
    destruct (skip_ws x) as [|c y] eqn:Ex; [done|].
    assert (c ≠ "}"%char); [|destruct c as [[] [] [] [] [] [] [] []]; first [done|congruence]].
    intros ->. destruct f as [|f]; [done|]. cbn [parse_members] in He. rewrite Ex in He. by cbn in He.
Qed.

Lemma length_commas (l : list string) : (String.length (commas l) + 1 = fold_right (λ s n, String.length s + 1 + n) 0 l ∨ l = [])%nat.
Proof.
  induction l as [|a l IH]; [by right|left]. rewrite commas_cons. destruct l as [|b l]; [cbn; lia|].
  destruct IH as [IH|IH]; [|done]. cbn [fold_right] in *. rewrite !length_app_s. cbn [String.length]. lia.
Qed.

Lemma need_length (v : json) : json_ok v = true → (need v ≤ 2 * String.length (Marshal v))%nat.
Proof.
  induction v as [|b|t|s|l IH|l IH] using json_nested_ind; intros Hok; cbn [need Marshal].
  - cbn; lia.
  - destruct b; cbn; lia.
  - cbn in Hok. apply andb_prop in Hok as [Hm Hn]. destruct (number_start t Hm Hn) as (c & t' & -> & _).
    cbn [String.length]. lia.
  - unfold print_str. cbn [String.length]. lia.
  - rewrite !length_app_s. cbn [String.length json_ok] in *.
    assert (fold_right (λ v n, S (Nat.max (need v) n)) O l ≤
            2 * fold_right (λ s n, String.length s + 1 + n)%nat O (map Marshal l))%nat as H.
    { induction l as [|v l IHl]; [done|]. apply Forall_cons in IH as [Hv Hl]. cbn [forallb] in Hok.
      apply andb_prop in Hok as [Ho1 Ho2]. specialize (Hv Ho1). specialize (IHl Hl Ho2). cbn. lia. }
    destruct (length_commas (map Marshal l)) as [E|E]; [lia|]. apply map_eq_nil in E as ->. cbn. lia.
  - rewrite !length_app_s. cbn [String.length json_ok] in *.
    remember (λ p : string * json, print_str p.1 +:+ ":" +:+ Marshal p.2) as pm eqn:Epm.
    assert (fold_right (λ p n, S (Nat.max (need p.2) n)) O l ≤
            2 * fold_right (λ s n, String.length s + 1 + n)%nat O (map pm l))%nat as H.
    { induction l as [|p l IHl]; [done|]. apply Forall_cons in IH as [Hv Hl]. cbn [forallb] in Hok.
      apply andb_prop in Hok as [[_ Ho1]%andb_prop Ho2]. specialize (Hv Ho1). specialize (IHl Hl Ho2).
      assert (String.length (Marshal p.2) ≤ String.length (pm p))%nat by (subst pm; rewrite !length_app_s; lia).
      cbn [map fold_right]. lia. }
    destruct (length_commas (map pm l)) as [E|E]; [lia|]. apply map_eq_nil in E as ->. cbn. lia.
Qed.

Lemma parse_marshal (v : json) : json_ok v = true → parse_text (Marshal v) = Some v.
Proof.
  intros Hok. unfold parse_text. rewrite <- (app_nil_r (Marshal v)) at 2.
  by rewrite (marshal_reads v Hok) by (done || (pose proof (need_length v Hok); lia)).
Qed.

Lemma unmarshal_int_marshal (name : string) (v : json) :
  json_ok v = true → unmarshal_int name (Marshal v) = int_field name v.
Proof. intros H. unfold unmarshal_int. by rewrite parse_marshal. Qed.

(** * Maps in key order *)

Definition key_lt {A} (a b : string * A) : Prop := String.compare a.1 b.1 = Lt.

Lemma key_lt_trans {A} (a b c : string * A) : key_lt a b → key_lt b c → key_lt a c.
Proof. apply (StrictOrder_Transitive (R := OrdersEx.String_as_OT.lt)). Qed.

Definition sorted_keys {A} (l : list (string * A)) : Prop := StronglySorted key_lt l.

Lemma obj_insert_in {A} (k : string) (v : A) (l : list (string * A)) (p : string * A) :
  In p (obj_insert k v l) → p = (k, v) ∨ In p l.
Proof.
  induction l as [|[k' v'] l IH]; cbn; [naive_solver|].
  destruct (String.compare k k'); cbn; naive_solver.
Qed.

Lemma obj_insert_sorted {A} (k : string) (v : A) (l : list (string * A)) :
  sorted_keys l → sorted_keys (obj_insert k v l).
Proof.
  unfold sorted_keys. induction 1 as [|[k' v'] l Hs IH Hx]; cbn; [repeat constructor|].
  rewrite List.Forall_forall in Hx. destruct (String.compare k k') eqn:E.
  - apply String.compare_eq_iff in E as ->. constructor; [done|]. by apply List.Forall_forall.
  - constructor; [by constructor; [|apply List.Forall_forall]|]. constructor; [exact E|].
    apply List.Forall_forall. intros p Hp. apply (key_lt_trans _ (k', v')); [exact E|by apply Hx].
  - constructor; [done|]. apply List.Forall_forall. intros p [->|Hp]%obj_insert_in; [|by apply Hx].
    unfold key_lt. cbn. rewrite String.compare_antisym, E. done.
Qed.

Lemma obj_of_list_sorted {A} (l : list (string * A)) : sorted_keys (obj_of_list l).
Proof.
  unfold obj_of_list. assert (∀ acc, sorted_keys acc → sorted_keys (fold_left (λ m p, obj_insert p.1 p.2 m) l acc)) as H.
  { induction l as [|p l IH]; intros acc Ha; cbn; [done|]. by apply IH, obj_insert_sorted. }
  apply H. constructor.
Qed.

Lemma obj_insert_last {A} (k : string) (v : A) (acc : list (string * A)) :
  Forall (λ p, key_lt p (k, v)) acc → obj_insert k v acc = acc ++ [(k, v)].
Proof.
  induction 1 as [|[k' v'] acc Hk _ IH]; cbn; [done|]. unfold key_lt in Hk. cbn in Hk.
  rewrite String.compare_antisym, Hk. cbn. by rewrite IH.
Qed.

Lemma obj_of_list_id {A} (l : list (string * A)) : sorted_keys l → obj_of_list l = l.
Proof.
  unfold obj_of_list. intros Hs.
  enough (∀ acc, sorted_keys (acc ++ l) → fold_left (λ m p, obj_insert p.1 p.2 m) l acc = acc ++ l) as H by (by apply (H [])).
  clear Hs. induction l as [|[k v] l IH]; intros acc Hs; cbn; [by rewrite List.app_nil_r|].
  rewrite obj_insert_last; [by rewrite IH; rewrite <- List.app_assoc|].
  clear IH. induction acc as [|p acc IHa]; cbn in *; constructor.
  - apply StronglySorted_inv in Hs as [_ Hf]. rewrite List.Forall_forall in Hf. apply Hf, in_app_iff. right. by left.
  - apply IHa. by apply StronglySorted_inv in Hs as [Hs _].
Qed.

Lemma obj_get_insert {A} (k i : string) (v : A) (l : list (string * A)) : sorted_keys l →
  obj_get i (obj_insert k v l) = if (i =? k)%string then Some v else obj_get i l.
Proof.
  unfold obj_get. induction 1 as [|[k' v'] l Hs IH Hx]; cbn.
  - rewrite (String.eqb_sym i k). by destruct (k =? i)%string.
  - destruct (String.compare k k') eqn:E; cbn.
    + apply String.compare_eq_iff in E as ->. rewrite (String.eqb_sym i k'). by destruct (k' =? i)%string.
    + rewrite (String.eqb_sym i k). by destruct (k =? i)%string.
    + destruct (String.eqb_spec k' i) as [->|Hne]; [|exact IH].
      destruct (String.eqb_spec i k) as [->|]; [|done].
      pose proof (String.compare_antisym k k) as Ha. by rewrite E in Ha.
Qed.

Lemma obj_get_delete {A} (k i : string) (l : list (string * A)) :
  obj_get i (obj_delete k l) = if (i =? k)%string then None else obj_get i l.
Proof.
  unfold obj_get, obj_delete. induction l as [|[k' v'] l IH]; cbn; [by destruct (i =? k)%string|].
  destruct (String.eqb_spec k' k) as [->|Hk]; cbn.
  - rewrite IH, (String.eqb_sym k i). by destruct (i =? k)%string.
  - destruct (String.eqb_spec k' i) as [->|]; [|exact IH]. by rewrite (proj2 (String.eqb_neq i k) Hk).
Qed.

Lemma obj_delete_sorted {A} (k : string) (l : list (string * A)) : sorted_keys l → sorted_keys (obj_delete k l).
Proof.
  unfold sorted_keys, obj_delete. induction 1 as [|p l Hs IH Hx]; cbn; [constructor|].
  destruct (negb _); [|done]. constructor; [done|]. apply List.Forall_forall. intros q [Hq _]%List.filter_In.
  rewrite List.Forall_forall in Hx. auto.
Qed.

(** * Canonical values: every map in key order *)

Definition keys_sorted (l : list string) : bool :=
  (fix go l := match l with
               | [] => true
               | k :: r => forallb (λ k', match String.compare k k' with Lt => true | _ => false end) r && go r
               end) l.
Fixpoint canonical (v : json) : bool :=
  match v with
  | JNum t => float_ok t && (float_text t =? t)%string
  | JArr l => forallb canonical l
  | JObj l => keys_sorted (map fst l) && forallb (λ p, canonical p.2) l
  | _ => true
  end.

Lemma keys_sorted_spec {A} (l : list (string * A)) : keys_sorted (map fst l) = true ↔ sorted_keys l.
Proof.
  unfold sorted_keys. induction l as [|p l IH]; [split; [constructor|done]|].
  change (keys_sorted (map fst (p :: l))) with
    (forallb (λ k', match String.compare p.1 k' with Lt => true | _ => false end) (map fst l) && keys_sorted (map fst l)).
  rewrite andb_true_iff, IH, forallb_forall. split.
  - intros [H Hs]. constructor; [done|]. apply List.Forall_forall. intros q Hq.
    specialize (H q.1 (in_map fst _ _ Hq)). unfold key_lt. by destruct (String.compare p.1 q.1).
  - intros [Hs Hf]%StronglySorted_inv. split; [|done]. intros k (q & <- & Hq)%in_map_iff.
    rewrite List.Forall_forall in Hf. by rewrite (Hf q Hq).
Qed.

Lemma obj_of_list_in {A} (l : list (string * A)) p : In p (obj_of_list l) → In p l.
Proof.
  unfold obj_of_list.
  enough (∀ acc, In p (fold_left (λ m q, obj_insert q.1 q.2 m) l acc) → In p acc ∨ In p l) as H.
  { intros Hp. by destruct (H [] Hp). }
  induction l as [|q l IH]; intros acc Hp; cbn in *; [by left|].
  apply IH in Hp as [Hp|Hp]; [|by right; right]. apply obj_insert_in in Hp as [->|Hp]; [|by left].
  right. left. by destruct q.
Qed.

Lemma canonical_canon (v : json) : floats_ok v = true → canonical (canon v) = true.
Proof.
  induction v as [|b|t|x|l IH|l IH] using json_nested_ind; intros Hf; try done; cbn [canon canonical floats_ok] in *.
  - rewrite float_ok_text, float_text_idem by done. apply String.eqb_refl.
  - rewrite forallb_forall in Hf. apply forallb_forall. intros x (y & <- & Hy)%in_map_iff.
    rewrite List.Forall_forall in IH. auto.
  - rewrite forallb_forall in Hf. apply andb_true_iff. split; [apply keys_sorted_spec, obj_of_list_sorted|].
    apply forallb_forall. intros p Hp%obj_of_list_in. apply in_map_iff in Hp as (q & <- & Hq).
    rewrite List.Forall_forall in IH. by apply IH; [|apply Hf].
Qed.

Lemma canonical_floats (v : json) : canonical v = true → floats_ok v = true.
Proof.
  induction v as [|b|t|x|l IH|l IH] using json_nested_ind; intros H; try done; cbn [canonical floats_ok] in *;
    [by bool_hyps| |apply andb_true_iff in H as [_ H]];
    rewrite forallb_forall in H; apply forallb_forall; rewrite List.Forall_forall in IH; auto.
Qed.

Lemma canon_canonical (v : json) : canonical v = true → canon v = v.
Proof.
  induction v as [|b|t|x|l IH|l IH] using json_nested_ind; intros H; try done; cbn [canon canonical] in *;
    try rewrite List.Forall_forall in IH; f_equal.
  - bool_hyps. done.
  - rewrite forallb_forall in H. rewrite <- (map_id l) at 2. apply map_ext_in. auto.
  - apply andb_true_iff in H as [Hs H]. rewrite forallb_forall in H.
    rewrite (map_ext_in _ (λ p, p)), map_id; [|intros [k x] Hp; f_equal; exact (IH _ Hp (H _ Hp))].
    by apply obj_of_list_id, keys_sorted_spec.
Qed.

Lemma Unmarshal_canonical (s : string) (v : json) : Unmarshal s = Some v → canonical v = true.
Proof.
  unfold Unmarshal. destruct (parse_text s) as [u|]; [|done]. destruct (floats_ok u) eqn:E; [|done].
  intros [= <-]. by apply canonical_canon.
Qed.

(** [Unmarshal] reads back what [Marshal] prints, for every value of ASCII
    texts, numbers as [Marshal] prints them and maps in key order: the payload a
    job is stored with is the payload the worker sees. *)
Lemma Marshal_roundtrip (v : json) (Hok : json_ok v = true) (Hc : canonical v = true) :
  Unmarshal (Marshal v) = Some v.
Proof. unfold Unmarshal. rewrite parse_marshal, canonical_floats by done. by rewrite canon_canonical. Qed.

(** * Integers *)

(** A non-empty run of digits without a leading zero, and what it reads as. *)
Definition numeral (n : Z) (ds : string) : Prop :=
  str_all is_digit ds = true ∧
  (∀ a r, digits_val a (ds +:+ r) = digits_val (a * 10 ^ Z.of_nat (String.length ds) + n) r) ∧
  match ds with
  | EmptyString => False
  | String c t => if n =? 0 then ds = "0" else chr_range "1" "9" c = true
  end.

Lemma digit_byte (d : Z) : 0 ≤ d < 10 →
  is_digit (byte (Z.to_nat (48 + d))) = true ∧ code (byte (Z.to_nat (48 + d))) = 48 + d ∧
  (0 < d → chr_range "1" "9" (byte (Z.to_nat (48 + d))) = true).
Proof.
  intros H. assert (d = 0 ∨ d = 1 ∨ d = 2 ∨ d = 3 ∨ d = 4 ∨ d = 5 ∨ d = 6 ∨ d = 7 ∨ d = 8 ∨ d = 9) as Hd by lia.
  destruct_or! Hd; subst d; vm_compute; naive_solver.
Qed.

Lemma print_pos_spec (f : nat) (n : Z) (acc : string) :
  (0 < f)%nat → 0 ≤ n < 10 ^ Z.of_nat f → ∃ ds, print_pos f n acc = ds +:+ acc ∧ numeral n ds.
Proof.
  revert n acc. induction f as [|f IH]; intros n acc Hf Hn; [lia|]. cbn [print_pos].
  destruct (digit_byte (n mod 10)) as (Hd & Hc & Hp); [dlia|]. set (c := byte (Z.to_nat (48 + n mod 10))) in *.
  destruct (Z.ltb_spec n 10) as [Hlt|Hge].
  - exists (String c EmptyString). split; [done|]. rewrite Z.mod_small in * by lia.
    split; [cbn; by rewrite Hd|]. split.
    + intros a r. rewrite app_cons. cbn [digits_val String.length]. rewrite Hd, Hc. f_equal. lia.
    + destruct (Z.eqb_spec n 0) as [->|]; [by subst c|apply Hp; lia].
  - assert (0 < f)%nat by (destruct f; [change (10 ^ Z.of_nat 1) with 10 in Hn; lia|lia]).
    destruct (IH (n / 10) (String c acc)) as (ds & E & Ha & Hv & Hl); [done| |].
    { rewrite Nat2Z.inj_succ, Z.pow_succ_r in Hn by lia. dlia. }
    exists (ds +:+ String c EmptyString). split; [rewrite E; by rewrite app_assoc_s|].
    split; [rewrite str_all_app, Ha; cbn; by rewrite Hd|]. split.
    + intros a r. rewrite app_assoc_s, Hv, length_app_s. rewrite app_cons. cbn [digits_val String.length]. rewrite Hd, Hc.
      f_equal. rewrite Nat2Z.inj_add, Z.pow_add_r by lia. change (10 ^ Z.of_nat 1) with 10. dlia.
    + destruct ds as [|e t]; [done|]. cbn. destruct (Z.eqb_spec n 0); [lia|].
      destruct (Z.eqb_spec (n / 10) 0); [dlia|done].
Qed.

Definition int64 (n : Z) : Prop := min_int64 ≤ n ≤ max_int64.

Lemma itoa_numeral (n : Z) : int64 n →
  ∃ ds, numeral (Z.abs n) ds ∧ itoa n = (if n <? 0 then String "-" ds else ds).
Proof.
  unfold int64, min_int64, max_int64, itoa. intros H.
  assert (10 ^ Z.of_nat 20 = 100000000000000000000) as E by (vm_compute; reflexivity).
  destruct (Z.ltb_spec n 0).
  - destruct (print_pos_spec 20 (- n) EmptyString) as (ds & -> & Hn); [apply Nat.lt_0_succ|rewrite E; lia|]. exists ds.
    rewrite app_nil_r. replace (Z.abs n) with (- n) by lia. split; [exact Hn|reflexivity].
  - destruct (print_pos_spec 20 n EmptyString) as (ds & -> & Hn); [apply Nat.lt_0_succ|rewrite E; lia|]. exists ds.
    rewrite app_nil_r. replace (Z.abs n) with n by lia. split; [exact Hn|reflexivity].
Qed.

(** Reading back the [%d] of an [int64]. *)
Lemma atoi_itoa (n : Z) : int64 n → atoi (itoa n) = (n, true).
Proof.
  intros H. destruct (itoa_numeral n H) as (ds & (Ha & Hv & Hl) & ->).
  destruct ds as [|c t]; [done|]. specialize (Hv 0 EmptyString). rewrite app_nil_r in Hv.
  rewrite Z.mul_0_l, Z.add_0_l in Hv. change (digits_val (Z.abs n) EmptyString) with (Some (Z.abs n)) in Hv. unfold int64 in H. destruct (Z.ltb_spec n 0) as [Hlt|Hge]; unfold atoi.
  - rewrite Ascii.eqb_refl, Hv. destruct (Z.ltb_spec (-1 * Z.abs n) min_int64); [lia|].
    destruct (Z.ltb_spec max_int64 (-1 * Z.abs n)); [lia|]. f_equal. lia.
  - cbn [str_all] in Ha. apply andb_prop in Ha as [Hc _].
    assert (Ascii.eqb c "-" = false ∧ Ascii.eqb c "+" = false) as [-> ->].
    { split; apply Ascii.eqb_neq; intros ->; by vm_compute in Hc. }
    rewrite Hv. destruct (Z.ltb_spec (1 * Z.abs n) min_int64); [lia|].
    destruct (Z.ltb_spec max_int64 (1 * Z.abs n)); [lia|]. f_equal. lia.
Qed.

Lemma digits_words (s : string) : str_all is_digit s = true → denote digits s.
Proof.
  intros H. exists (String.length s). induction s as [|c s IH]; [constructor|]. cbn in H. apply andb_prop in H as [Hc H].
  change (String c s) with (String c EmptyString +:+ s). constructor; [by exists c|by apply IH].
Qed.

Lemma numeral_number (n : Z) (ds : string) (neg : bool) :
  numeral n ds → re_match numberRe (if neg then String "-" ds else ds) = true.
Proof.
  intros (Ha & _ & Hl). apply re_match_spec. unfold numberRe, Opt.
  assert (denote (Alt (Lit "0") (Cat (Cls (chr_range "1" "9")) digits)) ds) as Hd.
  { destruct ds as [|c t]; [done|]. destruct (n =? 0).
    - left. rewrite Hl. exists "0", "". split; [done|]. split; [|done]. by exists "0"%char.
    - right. exists (String c EmptyString), t. cbn in Ha. apply andb_prop in Ha as [_ Ha].
      split; [done|]. split; [by exists c|]. by apply digits_words. }
  exists (if neg then "-" else ""), ds. split; [by destruct neg|]. split.
  - destruct neg; [right|by left]. exists "-", "". split; [done|]. split; [|done]. by exists "-"%char.
  - exists ds, "". split; [by rewrite app_nil_r|]. split; [done|]. exists "", "". split; [done|]. split; by left.
Qed.

Lemma JInt_ok (n : Z) : int64 n → json_ok (JInt n) = true.
Proof.
  intros H. destruct (itoa_numeral n H) as (ds & Hn & E). unfold JInt, json_ok. rewrite E.
  rewrite (numeral_number _ _ (n <? 0) Hn). destruct Hn as (Ha & _). apply (str_all_impl _ num_char) in Ha.
  - destruct (n <? 0); [|done]. cbn. by rewrite Ha.
  - intros c Hc. unfold num_char. by rewrite Hc.
Qed.

(** An integer a [float64] holds exactly. *)
Lemma JInt_exact (n : Z) : Z.abs n ≤ 2 ^ 53 → json_ok (JInt n) = true ∧ canonical (JInt n) = true ∧ int64 n.
Proof.
  intros H. assert (int64 n) as Hn by (unfold int64, min_int64, max_int64; lia).
  split; [by apply JInt_ok|]. split; [|done].
  assert (exact_int (itoa n) = true) as He.
  { unfold exact_int. rewrite atoi_itoa by done. rewrite String.eqb_refl. cbn. rewrite andb_true_r. by apply Z.leb_le. }
  unfold JInt. cbn [canonical]. unfold float_ok, float_text. rewrite He. apply String.eqb_refl.
Qed.

(** ** Lists of integers and texts *)

Definition int_elem (v : json) : Z :=
  match v with JNum t => let '(n, ok) := atoi t in if ok then n else 0 | _ => 0 end.
Definition str_elem (v : json) : string := match v with JStr s => s | _ => "" end.

Lemma ints_roundtrip (l : list Z) : Forall int64 l →
  ∃ v, parse_text (Marshal (JArr (map JInt l))) = Some (JArr v) ∧ map int_elem v = l.
Proof.
  intros H. exists (map JInt l). split.
  - apply parse_marshal. cbn. apply forallb_forall. intros v (n & <- & Hn)%in_map_iff. apply JInt_ok.
    rewrite List.Forall_forall in H. auto.
  - induction H as [|n l Hn _ IH]; cbn; [done|]. rewrite atoi_itoa by done. by rewrite IH.
Qed.
