(* ===== verification/Net.v ===== *)
(** Go's [net.ParseIP] and [net.ParseCIDR], as far as they tell an address from another
    text. *)
From S2P Require Import Prelude GoStr Json.
Local Open Scope Z_scope.
Local Open Scope panel_scope.

(** One field of a dotted quad: no leading zero, at most 255. *)
Definition v4_field (w : string) : bool :=
  negb (w =? "")%string && str_all is_digit w && negb (has_prefix w "0" && (1 <? String.length w)%nat) &&
  match digits_val 0 w with Some n => n <=? 255 | None => false end.
Definition parseIPv4 (s : string) : bool :=
  let fields := split "." s in (length fields =? 4)%nat && forallb v4_field fields.

Definition is_hex (c : ascii) : bool := bool_decide (hex_val c ≠ None).
(** The loop of [parseIPv6]: [i] bytes are known, [ellipsis] tells whether there was a
    double colon. *)
Fixpoint v6_fields (fuel : nat) (i : Z) (ellipsis : bool) (s : string) : bool :=
  match fuel with
  | O => false
  | S f =>
      if 16 <=? i then (s =? "")%string && negb ellipsis
      else
        let '(d, rest) := span is_hex s in
        if (d =? "")%string || (4 <? String.length d)%nat then false
        else
          match rest with
          | EmptyString => (i + 2 =? 16) && negb ellipsis || (i + 2 <? 16) && ellipsis
          | String "." _ =>
              (if ellipsis then i + 4 <=? 16 else i =? 12) && parseIPv4 s && ((i + 4 =? 16) && negb ellipsis || (i + 4 <? 16) && ellipsis)
          | String ":" EmptyString => false
          | String ":" (String ":" rest') =>
              if ellipsis then false
              else if (rest' =? "")%string then i + 2 <? 16 else v6_fields f (i + 2) true rest'
          | String ":" rest' => v6_fields f (i + 2) ellipsis rest'
          | _ => false
          end
  end.
Definition parseIPv6 (s : string) : bool :=
  match s with
  | String ":" (String ":" EmptyString) => true
  | String ":" (String ":" rest) => v6_fields 9 0 true rest
  | _ => v6_fields 9 0 false s
  end.

(** The number of bits of the address, which has no zone: the first dot, colon or percent
    sign decides. *)
Definition ParseAddr (s : string) : option Z :=
  match span (λ c, negb (chr_in ".:%" c)) s with
  | (_, String "." _) => if parseIPv4 s then Some 32 else None
  | (_, String ":" _) => if negb (contains s "%") && parseIPv6 s then Some 128 else None
  | _ => None
  end.
Definition ParseIP (s : string) : bool := bool_decide (ParseAddr s ≠ None).
Definition ParseCIDR (s : string) : bool :=
  match split2 "/" s with
  | (addr, Some mask) =>
      match ParseAddr addr with
      | Some bits => negb (mask =? "")%string && str_all is_digit mask &&
                     match digits_val 0 mask with Some n => n <=? bits | None => false end
      | None => false
      end
  | _ => false
  end.

Example parse_ip_examples :
  map ParseIP ["1.2.3.4"; "01.2.3.4"; "1.2.3"; "256.1.1.1"; "::"; "::1"; "1::"; "2001:db8::1"; "1:2:3:4:5:6:7:8"; "1:2:3:4:5:6:7::";
    "1:2:3:4:5:6:7:8::"; "1:2:3:4:5:6:7:8:9"; "::ffff:1.2.3.4"; "1:2:3:4:5:6:1.2.3.4"; "1:2:3:4:5:6:7:1.2.3.4"; "fe80::1%eth0"; "1:"; ":1"; "::1::"; "12345::"] =
  [true; false; false; false; true; true; true; true; true; true; false; false; true; true; false; false; false; false; false; false].
Proof. by vm_compute. Qed.
Example parse_cidr_examples :
  map ParseCIDR ["10.0.0.0/8"; "10.0.0.0/33"; "2001:db8::/32"; "2001:db8::/129"; "10.0.0.0"; "10.0.0.0/"; "10.0.0.0/8x"] =
  [true; false; true; false; false; false; false].
Proof. by vm_compute. Qed.

(** * Facts *)

(** The bytes of an address, and of a network. *)
Definition addr_char (c : ascii) : bool := is_hex c || chr_in ".:" c.

Lemma span_app (p : ascii → bool) (s : string) : s = (span p s).1 +:+ (span p s).2 ∧ str_all p (span p s).1 = true.
Proof.
  induction s as [|c s [IH1 IH2]]; [done|]. cbn [span]. destruct (p c) eqn:E; [|done].
  destruct (span p s) as [a b]. cbn [fst snd] in *. split; [by rewrite app_cons, <- IH1|]. cbn [str_all]. by rewrite E, IH2.
Qed.

Lemma split_all (p : ascii → bool) (c : ascii) (s : string) :
  p c = true → Forall (λ w, str_all p w = true) (split c s) → str_all p s = true.
Proof.
  intros Hc. induction s as [|d s IH]; [done|]. cbn [split str_all]. destruct (Ascii.eqb d c) eqn:E.
  - apply Ascii.eqb_eq in E as ->. intros [_ H]%Forall_cons. by rewrite Hc, IH.
  - destruct (split c s) as [|w ws] eqn:Es; [by destruct (split_nonempty c s)|].
    intros [Hw H]%Forall_cons. cbn [str_all] in Hw. bool_hyps. rewrite H0. apply IH. by constructor.
Qed.

Lemma digit_addr_char (c : ascii) : is_digit c = true → addr_char c = true.
Proof. destruct c as [[] [] [] [] [] [] [] []]; intros H; first [discriminate H | reflexivity]. Qed.

Lemma parseIPv4_chars (s : string) : parseIPv4 s = true → str_all addr_char s = true.
Proof.
  unfold parseIPv4. intros H. bool_hyps. apply (split_all _ "."); [done|]. apply forallb_True in H0.
  apply (Forall_impl _ _ _ H0). intros w Hw. unfold v4_field in Hw. bool_hyps.
  by apply (str_all_impl _ _ _ digit_addr_char).
Qed.

Lemma hex_addr_char (c : ascii) : is_hex c = true → addr_char c = true.
Proof. unfold addr_char. by intros ->. Qed.

Lemma v6_fields_chars (f : nat) (i : Z) (ell : bool) (s : string) : v6_fields f i ell s = true → str_all addr_char s = true.
Proof.
  revert i ell s. induction f as [|f IH]; intros i ell s; cbn [v6_fields]; [done|].
  destruct (16 <=? i). { intros H. bool_hyps. by subst. }
  destruct (span_app is_hex s) as [Es Hd]. destruct (span is_hex s) as [d rest] eqn:Esp. cbn [fst snd] in Es, Hd.
  apply (str_all_impl _ addr_char _ hex_addr_char) in Hd.
  destruct (_ || _); [done|]. destruct rest as [|c rest]; [intros _; by rewrite Es, GoStr.app_nil_r|].
  destruct (Ascii.eqb c ".") eqn:E1; [apply Ascii.eqb_eq in E1 as ->; intros H; bool_hyps; by apply parseIPv4_chars|].
  destruct (Ascii.eqb c ":") eqn:E2.
  - apply Ascii.eqb_eq in E2 as ->. intros H. rewrite Es, str_all_app, Hd. cbn [str_all].
    destruct rest as [|e rest]; [done|]. destruct (Ascii.eqb e ":") eqn:E3.
    + apply Ascii.eqb_eq in E3 as ->. destruct ell; [done|]. destruct (rest =? "")%string eqn:E4.
      { apply String.eqb_eq in E4 as ->. reflexivity. }
      cbn [str_all]. apply (IH _ _ _ H).
    + assert (v6_fields f (i + 2) ell (String e rest) = true) as H'.
      { destruct e as [[] [] [] [] [] [] [] []]; first [discriminate E3 | exact H]. }
      exact (IH _ _ _ H').
  - intros H. exfalso. destruct c as [[] [] [] [] [] [] [] []]; first [discriminate E1 | discriminate E2 | discriminate H].
Qed.

Lemma ParseAddr_chars (s : string) (bits : Z) : ParseAddr s = Some bits → str_all addr_char s = true.
Proof.
  unfold ParseAddr. destruct (span _ s) as [a [|c rest]]; [done|]. intros H.
  assert (parseIPv4 s = true ∨ parseIPv6 s = true) as [H'|H'].
  { destruct c as [[] [] [] [] [] [] [] []]; try discriminate H; case_hyp H; try discriminate H; bool_hyps; auto. }
  - by apply parseIPv4_chars.
  - clear H a c rest. unfold parseIPv6 in H'. destruct s as [|c s]; [done|].
    destruct (Ascii.eqb c ":") eqn:E1.
    + apply Ascii.eqb_eq in E1 as ->. destruct s as [|d s]; [discriminate H'|]. destruct (Ascii.eqb d ":") eqn:E2.
      * apply Ascii.eqb_eq in E2 as ->. destruct s as [|e s]; [done|]. exact (v6_fields_chars _ _ _ _ H').
      * destruct d as [[] [] [] [] [] [] [] []]; first [discriminate E2 | exact (v6_fields_chars _ _ _ _ H')].
    + destruct c as [[] [] [] [] [] [] [] []]; first [discriminate E1 | exact (v6_fields_chars _ _ _ _ H')].
Qed.

Lemma ParseIP_chars (s : string) : ParseIP s = true → str_all addr_char s = true.
Proof.
  unfold ParseIP. intros H. bool_hyps. destruct (ParseAddr s) as [bits|] eqn:E; [|done]. exact (ParseAddr_chars s bits E).
Qed.

Lemma split2_app (c : ascii) (s a : string) (b : string) : split2 c s = (a, Some b) → s = a +:+ String c b.
Proof.
  revert a. induction s as [|d s IH]; intros a; [done|]. cbn [split2]. destruct (Ascii.eqb d c) eqn:E.
  - apply Ascii.eqb_eq in E as ->. by intros [= <- <-].
  - destruct (split2 c s) as [a' [b'|]]; intros [= <- <-]. by rewrite app_cons, (IH _ eq_refl).
Qed.

(** An address or a network consists of hexadecimal digits, dots, colons and a slash. *)
Definition net_char (c : ascii) : bool := addr_char c || Ascii.eqb c "/".
Lemma network_chars (s : string) : ParseIP s || ParseCIDR s = true → str_all net_char s = true.
Proof.
  assert (Hnet : ∀ c, addr_char c = true → net_char c = true) by (unfold net_char; by intros c ->).
  intros [H|H]%orb_prop; [by apply (str_all_impl _ _ _ Hnet), ParseIP_chars|].
  unfold ParseCIDR in H. destruct (split2 "/" s) as [a [m|]] eqn:E; [|done].
  destruct (ParseAddr a) as [bits|] eqn:Ea; [|done]. bool_hyps. apply split2_app in E as ->.
  rewrite str_all_app. cbn [str_all]. rewrite (str_all_impl _ _ _ Hnet (ParseAddr_chars _ _ Ea)). cbn.
  match goal with H : str_all is_digit m = true |- _ => revert H end. apply str_all_impl. intros c Hc. by apply Hnet, digit_addr_char.
Qed.
