(* ===== verification/Guards.v ===== *)
(** The guards of the API that live in memory: the login limiters of
    src/internal/apihttp/auth.go, the token bucket of ratelimit.go and the CSRF tokens of
    csrf.go.  A call is given the time it is made at, in nanoseconds; their mutexes make
    the calls atomic, so a run is a sequence of calls, and the clock never goes back. *)
From S2P Require Import Prelude GoStr Float Json.
Local Open Scope Z_scope.
Local Open Scope panel_scope.

Set Default Proof Using "Type".

Definition Minute : Z := 60 * 1000000000.

(** * Runs *)

Section Runs.
Context {I O S T : Type}.

(** Calls, each with its time, one after the other. *)
Fixpoint run {S} (f : Z → I → S → O * S) (calls : list (Z * I)) (s : S) : list O * S :=
  match calls with
  | [] => ([], s)
  | (n, i) :: l => let '(o, s') := f n i s in let '(os, s'') := run f l s' in (o :: os, s'')
  end.

Definition in_order (calls : list (Z * I)) : Prop := StronglySorted (λ a b, a.1 ≤ b.1) calls.

(** A simulation indexed by the time makes the answers equal. *)
Lemma run_simulation (R : Z → S → T → Prop) (V : I → Prop) f g :
  (∀ n n' i s t, n ≤ n' → V i → R n s t → (f n' i s).1 = (g n' i t).1 ∧ R n' (f n' i s).2 (g n' i t).2) →
  ∀ calls n s t, in_order calls → Forall (λ c, n ≤ c.1 ∧ V c.2) calls → R n s t →
    (run f calls s).1 = (run g calls t).1.
Proof.
  intros Hstep. induction calls as [|[n' i] calls IH]; intros n s t Ho Hn HR; [done|]. cbn.
  apply StronglySorted_inv in Ho as [Ho Hl]. apply Forall_cons in Hn as [[Hn Hi] Hr]. cbn in *.
  destruct (Hstep _ _ _ _ _ Hn Hi HR) as [E HR']. destruct (f n' i s) as [o s'], (g n' i t) as [o' t']. cbn in *. subst o'.
  rewrite List.Forall_forall in Hl, Hr. specialize (IH n' s' t' Ho). destruct (run f calls s'), (run g calls t'). cbn in *.
  f_equal. apply IH; [|done]. apply List.Forall_forall. intros c Hc. split; [by apply Hl|by apply Hr].
Qed.
End Runs.

(** * Attempts by key: rateLimiter and failureTracker *)

(** The times after [now - window]: [prune], and the first loop of [allow]. *)
Definition recent (window now : Z) (l : list Z) : list Z := List.filter (λ t, now - window <? t) l.
Definition entry (k : string) (m : gmap string (list Z)) : list Z := default [] (m !! k).
(** An empty entry is dropped. *)
Definition set_entry (k : string) (l : list Z) (m : gmap string (list Z)) : gmap string (list Z) :=
  match l with [] => delete k m | _ => <[k := l]> m end.

Record rateLimiter := mkLimiter { attempts : gmap string (list Z); limit : Z; window : Z }.
Definition newRateLimiter (limit window : Z) : rateLimiter := mkLimiter ∅ limit window.

(** [dev]: SIGARDAPANEL_DEV is "true". *)
Definition allow (dev : bool) (now : Z) (ip : string) (rl : rateLimiter) : bool * rateLimiter :=
  if dev then (true, rl) else
  let valid := recent (window rl) now (entry ip (attempts rl)) in
  let m := set_entry ip valid (attempts rl) in
  if limit rl <=? Z.of_nat (length valid) then (false, mkLimiter m (limit rl) (window rl))
  else (true, mkLimiter (<[ip := valid ++ [now]]> m) (limit rl) (window rl)).

Record failureTracker := mkTracker { fails : gmap string (list Z); f_limit : Z; f_window : Z }.
Definition newFailureTracker (limit window : Z) : failureTracker := mkTracker ∅ limit window.

Definition prune (key : string) (now : Z) (f : failureTracker) : list Z * failureTracker :=
  let valid := recent (f_window f) now (entry key (fails f)) in
  (valid, mkTracker (set_entry key valid (fails f)) (f_limit f) (f_window f)).
Definition blocked (now : Z) (key : string) (f : failureTracker) : bool * failureTracker :=
  let '(valid, f') := prune key now f in (f_limit f <=? Z.of_nat (length valid), f').
Definition fail (now : Z) (key : string) (f : failureTracker) : failureTracker :=
  let '(valid, f') := prune key now f in
  mkTracker (<[key := valid ++ [now]]> (fails f')) (f_limit f) (f_window f).
Definition reset (key : string) (f : failureTracker) : failureTracker :=
  mkTracker (delete key (fails f)) (f_limit f) (f_window f).

(** * One-time passwords already used *)

Definition totp_key (userID : Z) (code : string) : string := itoa userID +:+ ":" +:+ code.
(** [seen]; the nil map of a fresh handler is the empty one. *)
Definition markUsed (now : Z) (userID : Z) (code : string) (seen : gmap string Z) : bool * gmap string Z :=
  let seen' := filter (λ e : string * Z, now - e.2 ≤ 2 * Minute) seen in
  match seen' !! totp_key userID code with
  | Some _ => (false, seen')
  | None => (true, <[totp_key userID code := now]> seen')
  end.

(** * The token bucket of ratelimit.go *)

Record visitor := mkVisitor { tokens : Z; lastSeen : Z }.
Record RateLimiter := mkBucket { visitors : gmap string visitor; rate : Z; interval : Z }.
Definition NewRateLimiter (rate interval : Z) : RateLimiter := mkBucket ∅ rate interval.

Definition cleanup (now : Z) (rl : RateLimiter) : RateLimiter :=
  mkBucket (filter (λ e : string * visitor, now - lastSeen e.2 ≤ interval rl * 2) (visitors rl)) (rate rl) (interval rl).

(** [int(elapsed.Seconds() * float64(rl.rate) / rl.interval.Seconds())]. *)
Definition tokensToAdd (rl : RateLimiter) (elapsed : Z) : Z :=
  int_of_float (float_div (float_mul (duration_Seconds elapsed) (float_of_int (rate rl)))
                          (duration_Seconds (interval rl))).

Definition Allow (dev : bool) (now : Z) (ip : string) (rl : RateLimiter) : bool * RateLimiter :=
  if dev then (true, rl) else
  let put v := mkBucket (<[ip := v]> (visitors rl)) (rate rl) (interval rl) in
  match visitors rl !! ip with
  | None => (true, put (mkVisitor (rate rl - 1) now))
  | Some v =>
      let t := Z.min (tokens v + tokensToAdd rl (now - lastSeen v)) (rate rl) in
      if t <=? 0 then (false, put (mkVisitor t now)) else (true, put (mkVisitor (t - 1) now))
  end.
Definition StrictLimiter : RateLimiter := NewRateLimiter 10 (15 * Minute).
Definition APIlimiter : RateLimiter := NewRateLimiter 100 Minute.

(** * The CSRF tokens of csrf.go *)

Record csrfToken := mkCsrf { csrf_token : string; expiresAt : Z }.
Definition CSRFProtection := gmap string csrfToken.

Definition csrf_cleanup (now : Z) (c : CSRFProtection) : CSRFProtection :=
  filter (λ e : string * csrfToken, now ≤ expiresAt e.2) c.
(** [token]: the hex digits of 32 random bytes. *)
Definition GenerateToken (now : Z) (token sessionID : string) (c : CSRFProtection) : CSRFProtection :=
  <[sessionID := mkCsrf token (now + 60 * Minute)]> c.
Definition ValidateToken (now : Z) (sessionID token : string) (c : CSRFProtection) : bool :=
  match c !! sessionID with
  | None => false
  | Some stored => negb (expiresAt stored <? now) && (csrf_token stored =? token)%string
  end.

(** What the middlewares read of a request.  [Cookie] and [FormValue] are the parsers of
    [net/http]; a header or form value that is missing is "". *)
Record request := mkRequest {
  Method : string; URLPath : string; Header : string → string; Cookie : string → option string;
  FormValue : string → string; RealIP : string; RemoteAddr : string }.

Definition getSessionID (r : request) : string :=
  match Cookie r "session_id" with
  | Some v => v
  | None =>
      let auth := Header r "Authorization" in
      if (7 <? Z.of_nat (String.length auth)) && (str_take 7 auth =? "Bearer ")%string then str_drop 7 auth else ""
  end.

Inductive verdict := Pass | Forbidden (msg : string).
Definition csrf_middleware (now : Z) (r : request) (c : CSRFProtection) : verdict :=
  if str_in ["GET"; "HEAD"; "OPTIONS"] (Method r) then Pass
  else if str_in ["/api/v1/auth/login"; "/api/v1/auth/register"; "/health"; "/api/v1/health"] (URLPath r) then Pass
  else
    let sessionID := getSessionID r in
    if (sessionID =? "")%string then Pass else
    let h := Header r "X-CSRF-Token" in
    let token := if (h =? "")%string then FormValue r "csrf_token" else h in
    if (token =? "")%string then Forbidden "CSRF token missing"
    else if negb (ValidateToken now sessionID token c) then Forbidden "Invalid CSRF token"
    else Pass.

(** [RateLimiter.Middleware]: whether the request goes through. *)
Definition bucket_middleware (dev : bool) (now : Z) (r : request) (rl : RateLimiter) : bool * RateLimiter :=
  Allow dev now (if (RealIP r =? "")%string then RemoteAddr r else RealIP r) rl.

(** * Facts *)

(** ** The limiters are logs *)

(** Events of a key after [now - window], oldest first. *)
Definition log := list (string * Z).
Definition in_window (window now : Z) (k : string) (e : string * Z) : bool := (e.1 =? k)%string && (now - window <? e.2).
Definition hits (window now : Z) (k : string) (l : log) : Z := Z.of_nat (length (List.filter (in_window window now k) l)).

(** The limiter as a log of every accepted attempt. *)
Definition log_allow (limit window now : Z) (ip : string) (l : log) : bool * log :=
  if limit <=? hits window now ip l then (false, l) else (true, l ++ [(ip, now)]).

(** The map holds, for every key, what is left of the log. *)
Definition tracks (window now : Z) (m : gmap string (list Z)) (l : log) : Prop :=
  ∀ k n, now ≤ n → recent window n (entry k m) = map snd (List.filter (in_window window n k) l).

Lemma entry_set (i k : string) (l : list Z) m : entry i (set_entry k l m) = if (i =? k)%string then l else entry i m.
Proof.
  unfold entry, set_entry. destruct (String.eqb_spec i k) as [->|H].
  - destruct l; [by rewrite lookup_delete_eq|by rewrite lookup_insert_eq].
  - destruct l; [by rewrite lookup_delete_ne|by rewrite lookup_insert_ne].
Qed.

Lemma entry_insert (i k : string) (l : list Z) m : entry i (<[k := l]> m) = if (i =? k)%string then l else entry i m.
Proof.
  unfold entry. destruct (String.eqb_spec i k) as [->|H]; [by rewrite lookup_insert_eq|by rewrite lookup_insert_ne].
Qed.

Lemma recent_recent (window n n' : Z) (l : list Z) : n ≤ n' → recent window n' (recent window n l) = recent window n' l.
Proof.
  intros H. unfold recent. rewrite filter_filter_imp; [done|]. intros t Ht. bool_hyps. apply Z.ltb_lt. lia.
Qed.

Lemma tracks_later (window n n' : Z) m l : n ≤ n' → tracks window n m l → tracks window n' m l.
Proof. intros H Ht k i Hi. apply Ht. lia. Qed.

Lemma tracks_prune (window n : Z) (k : string) m l :
  tracks window n m l → tracks window n (set_entry k (recent window n (entry k m)) m) l.
Proof.
  intros Ht i n' Hn. rewrite entry_set. destruct (String.eqb_spec i k) as [->|]; [|by apply Ht].
  rewrite recent_recent by done. by apply Ht.
Qed.

Lemma tracks_append (window n : Z) (k : string) m l :
  tracks window n m l → tracks window n (<[k := recent window n (entry k m) ++ [n]]> m) (l ++ [(k, n)]).
Proof.
  intros Ht i n' Hn. rewrite entry_insert, List.filter_app, map_app.
  destruct (String.eqb_spec i k) as [->|Hi].
  - unfold recent at 1. rewrite List.filter_app. fold (recent window n' (recent window n (entry k m))).
    rewrite recent_recent, (Ht k n') by done. f_equal. cbn. unfold in_window. cbn. rewrite String.eqb_refl. cbn.
    by destruct (n' - window <? n).
  - assert (in_window window n' i (k, n) = false) as E
      by (unfold in_window; cbn [fst]; by rewrite (proj2 (String.eqb_neq k i)) by congruence).
    rewrite (Ht i n') by done. cbn [List.filter]. by rewrite E, List.app_nil_r.
Qed.

Lemma tracks_reset (window n : Z) (k : string) m l :
  tracks window n m l → tracks window n (delete k m) (List.filter (λ e, negb (e.1 =? k)%string) l).
Proof.
  intros Ht i n' Hn. change (delete k m) with (set_entry k [] m). rewrite entry_set.
  destruct (String.eqb_spec i k) as [->|Hi].
  - rewrite filter_filter_none; [done|]. intros e He. apply andb_prop in He as [He _]. by rewrite He.
  - rewrite filter_filter_imp; [by apply Ht|]. intros e He. unfold in_window in He. bool_hyps. subst i.
    by apply negb_true_iff, String.eqb_neq.
Qed.

Lemma tracks_hits (window now : Z) (k : string) m l :
  tracks window now m l → Z.of_nat (length (recent window now (entry k m))) = hits window now k l.
Proof. intros H. unfold hits. rewrite (H k now) by lia. by rewrite length_map. Qed.

Lemma tracks_nil (window now : Z) : tracks window now ∅ [].
Proof. intros k n _. done. Qed.

Lemma allow_step (limit window n n' : Z) (ip : string) (rl : rateLimiter) (l : log) :
  n ≤ n' → (Guards.limit rl = limit ∧ Guards.window rl = window ∧ tracks window n (attempts rl) l) →
  (allow false n' ip rl).1 = (log_allow limit window n' ip l).1 ∧
  let rl' := (allow false n' ip rl).2 in
  Guards.limit rl' = limit ∧ Guards.window rl' = window ∧
  tracks window n' (attempts rl') (log_allow limit window n' ip l).2.
Proof.
  intros Hn (<- & <- & Ht). apply (tracks_later _ _ _ _ _ Hn) in Ht. unfold allow, log_allow.
  rewrite (tracks_hits _ _ _ _ _ Ht). destruct (_ <=? _); cbn; (split; [done|]; split; [done|]; split; [done|]).
  - by apply tracks_prune.
  - replace (<[ip := _]> _) with
      (<[ip := recent (Guards.window rl) n' (entry ip (attempts rl)) ++ [n']]> (attempts rl)); [by apply tracks_append|].
    apply map_eq. intros i. destruct (decide (i = ip)) as [->|Hi]; [by rewrite !lookup_insert_eq|].
    rewrite !lookup_insert_ne by done. unfold set_entry. destruct (recent _ _ _); [by rewrite lookup_delete_ne|by rewrite lookup_insert_ne].
Qed.

(** [rateLimiter] answers like the complete log of the accepted attempts. *)
Lemma allow_is_log (limit window : Z) (calls : list (Z * string)) : in_order calls →
  (run (allow false) calls (newRateLimiter limit window)).1 = (run (log_allow limit window) calls []).1.
Proof.
  intros Ho. destruct calls as [|[n0 ip0] calls]; [done|].
  apply (run_simulation (λ n rl l, Guards.limit rl = limit ∧ Guards.window rl = window ∧ tracks window n (attempts rl) l) (λ _, True))
    with n0.
  - intros n n' ip rl l Hn _ HR. by apply allow_step with n.
  - done.
  - apply StronglySorted_inv in Ho as [_ Hf]. constructor; [done|]. eapply Forall_impl; [exact Hf|]. done.
  - split; [done|]. split; [done|]. apply tracks_nil.
Qed.

Definition times (k : string) (l : log) : list Z := map snd (List.filter (λ e, (e.1 =? k)%string) l).
(** The number of times in the window that ends at [T]. *)
Definition burst (window T : Z) (l : list Z) : Z :=
  Z.of_nat (length (List.filter (λ t, (T - window <? t) && (t <=? T)) l)).
(** When a key's attempts were accepted. *)
Definition accepted (k : string) (calls : list (Z * string)) (outs : list bool) : list Z :=
  map (λ c, c.1.1) (List.filter (λ c, c.2 && (c.1.2 =? k)%string) (combine calls outs)).

Lemma hits_times (window n : Z) (k : string) (l : log) :
  hits window n k l = Z.of_nat (length (List.filter (λ t, n - window <? t) (times k l))).
Proof.
  unfold hits, times, in_window. f_equal. induction l as [|[i t] l IH]; cbn; [done|].
  destruct (i =? k)%string; cbn; [|done]. destruct (n - window <? t); cbn; by rewrite IH.
Qed.

Lemma burst_app (window T : Z) (l l' : list Z) : burst window T (l ++ l') = burst window T l + burst window T l'.
Proof. unfold burst. rewrite List.filter_app, length_app. lia. Qed.

Lemma times_app (k : string) (l l' : log) : times k (l ++ l') = times k l ++ times k l'.
Proof. unfold times. by rewrite List.filter_app, map_app. Qed.

(** A window that holds an accepted attempt holds no more than the limit. *)
Lemma burst_accept (limit window n T : Z) (k ip : string) (l : log) :
  burst window T (times k l) ≤ limit → hits window n ip l < limit → burst window T (times k (l ++ [(ip, n)])) ≤ limit.
Proof.
  intros Hb Hh. rewrite times_app, burst_app. unfold times at 2. cbn. destruct (String.eqb_spec ip k) as [->|]; cbn [map]; [|change (burst window T []) with 0; lia].
  unfold burst at 2. cbn. destruct (Z.leb_spec n T); [|rewrite andb_false_r; cbn; lia].
  assert (burst window T (times k l) ≤ hits window n k l).
  { rewrite hits_times. unfold burst. clear - H. induction (times k l) as [|t ts IH]; [done|]. cbn [List.filter].
    destruct (Z.ltb_spec (T - window) t), (Z.leb_spec t T), (Z.ltb_spec (n - window) t); cbn [andb length]; lia. }
  destruct (_ && _); cbn [length]; lia.
Qed.

Lemma log_burst (limit window T : Z) (k : string) (calls : list (Z * string)) (l : log) :
  burst window T (times k l) ≤ limit →
  burst window T (times k l ++ accepted k calls (run (log_allow limit window) calls l).1) ≤ limit.
Proof.
  revert l. induction calls as [|[n ip] calls IH]; intros l Hb; cbn; [by rewrite List.app_nil_r|].
  unfold log_allow at 1. destruct (Z.leb_spec limit (hits window n ip l)).
  - specialize (IH l Hb). by destruct (run _ calls l).
  - specialize (IH (l ++ [(ip, n)]) (burst_accept _ _ _ _ _ _ _ Hb H)).
    destruct (run _ calls _) as [os s]. cbn in *. unfold accepted in *. cbn.
    rewrite times_app in IH. unfold times at 2 in IH. cbn in IH. destruct (ip =? k)%string; cbn in *.
    + by rewrite <- List.app_assoc in IH.
    + by rewrite List.app_nil_r in IH.
Qed.

(** C40: the login limiter keeps its promise: whatever the calls, in any window of the given
    length no address has more than [limit] accepted attempts, although the limiter
    forgets every attempt older than the window. *)
Theorem allow_window (limit window T : Z) (ip : string) (calls : list (Z * string)) (Hl : 0 ≤ limit) (Ho : in_order calls) :
  burst window T (accepted ip calls (run (allow false) calls (newRateLimiter limit window)).1) ≤ limit.
Proof. rewrite allow_is_log by done. by apply (log_burst limit window T ip calls []). Qed.

(** ** Failed logins *)

Inductive fail_call := Blocked (key : string) | Fail (key : string) | Reset (key : string).
Definition tracker_step (now : Z) (c : fail_call) (f : failureTracker) : option bool * failureTracker :=
  match c with
  | Blocked k => let '(b, f') := blocked now k f in (Some b, f')
  | Fail k => (None, fail now k f)
  | Reset k => (None, reset k f)
  end.
(** What it is for: the failures of every account since its last success. *)
Definition failures_step (limit window now : Z) (c : fail_call) (l : log) : option bool * log :=
  match c with
  | Blocked k => (Some (limit <=? hits window now k l), l)
  | Fail k => (None, l ++ [(k, now)])
  | Reset k => (None, List.filter (λ e, negb (e.1 =? k)%string) l)
  end.

Lemma tracker_simulates (limit window n n' : Z) (c : fail_call) (f : failureTracker) (l : log) :
  n ≤ n' → (f_limit f = limit ∧ f_window f = window ∧ tracks window n (fails f) l) →
  (tracker_step n' c f).1 = (failures_step limit window n' c l).1 ∧
  let f' := (tracker_step n' c f).2 in
  f_limit f' = limit ∧ f_window f' = window ∧ tracks window n' (fails f') (failures_step limit window n' c l).2.
Proof.
  intros Hn (<- & <- & Ht). apply (tracks_later _ _ _ _ _ Hn) in Ht. destruct c as [k|k|k]; cbn.
  - rewrite (tracks_hits _ _ _ _ _ Ht). split; [done|]. split; [done|]. split; [done|]. by apply tracks_prune.
  - split; [done|]. split; [done|]. split; [done|]. replace (<[k := _]> _) with
      (<[k := recent (f_window f) n' (entry k (fails f)) ++ [n']]> (fails f)); [by apply tracks_append|].
    apply map_eq. intros i. destruct (decide (i = k)) as [->|Hi]; [by rewrite !lookup_insert_eq|].
    rewrite !lookup_insert_ne by done. unfold set_entry. destruct (recent _ _ _); [by rewrite lookup_delete_ne|by rewrite lookup_insert_ne].
  - split; [done|]. split; [done|]. split; [done|]. by apply tracks_reset.
Qed.

(** C30: [failureTracker] implements the log of the failures of every account since its last
    success: an account is blocked exactly when the log has [limit] of them in the last
    window, however the map was pruned in between. *)
Theorem failureTracker_refines (limit window : Z) (calls : list (Z * fail_call)) (Ho : in_order calls) :
  (run tracker_step calls (newFailureTracker limit window)).1 = (run (failures_step limit window) calls []).1.
Proof.
  destruct calls as [|[n0 c0] calls]; [done|].
  apply (run_simulation (λ n f l, f_limit f = limit ∧ f_window f = window ∧ tracks window n (fails f) l) (λ _, True)) with n0.
  - intros n n' c f l Hn _ HR. by apply tracker_simulates with n.
  - done.
  - apply StronglySorted_inv in Ho as [_ Hf]. constructor; [done|]. eapply Forall_impl; [exact Hf|]. done.
  - split; [done|]. split; [done|]. apply tracks_nil.
Qed.

(** ** Replayed codes *)

Lemma str_first_chr (p : ascii → bool) (c : ascii) (a b x y : string) :
  p c = false → str_all p a = true → str_all p b = true →
  a +:+ String c x = b +:+ String c y → a = b ∧ x = y.
Proof.
  intros Hc. revert b. induction a as [|d a IH]; intros [|e b] Ha Hb E; cbn in *.
  - by injection E as ->.
  - injection E as <- _. by rewrite Hc in Hb.
  - injection E as -> _. by rewrite Hc in Ha.
  - injection E as -> E. apply andb_prop in Ha as [_ Ha], Hb as [_ Hb]. destruct (IH b Ha Hb E) as [-> ->]. done.
Qed.

Lemma itoa_digits (n : Z) : int64 n → str_all (λ c, is_digit c || Ascii.eqb c "-") (itoa n) = true.
Proof.
  intros H. destruct (itoa_numeral n H) as (ds & (Ha & _) & ->).
  assert (str_all (λ c, is_digit c || Ascii.eqb c "-") ds = true) as E
    by (eapply str_all_impl; [|exact Ha]; intros c Hc; by rewrite Hc).
  destruct (n <? 0); [|done]. cbn. by rewrite E.
Qed.

Lemma totp_key_inj (u v : Z) (c d : string) : int64 u → int64 v → totp_key u c = totp_key v d → u = v ∧ c = d.
Proof.
  intros Hu Hv E. unfold totp_key in E. apply (str_first_chr (λ c, is_digit c || Ascii.eqb c "-")) in E as [E ->];
    [|done|by apply itoa_digits..].
  split; [|done]. pose proof (atoi_itoa u Hu) as Eu. rewrite E, (atoi_itoa v Hv) in Eu. congruence.
Qed.

Definition used_step (now : Z) (c : Z * string) (seen : gmap string Z) : bool * gmap string Z := markUsed now c.1 c.2 seen.
(** What it is for: the codes every user was let in with. *)
Definition uses (u : Z) (code : string) (now : Z) (e : Z * string * Z) : bool :=
  (e.1.1 =? u) && (e.1.2 =? code)%string && (now - e.2 <=? 2 * Minute).
Definition replay_step (now : Z) (c : Z * string) (l : list (Z * string * Z)) : bool * list (Z * string * Z) :=
  if existsb (uses c.1 c.2 now) l then (false, l) else (true, l ++ [(c, now)]).

Definition fresh (now : Z) (o : option Z) : bool := match o with Some t => now - t <=? 2 * Minute | None => false end.
Definition remembers (now : Z) (seen : gmap string Z) (l : list (Z * string * Z)) : Prop :=
  ∀ u code n, now ≤ n → int64 u → fresh n (seen !! totp_key u code) = existsb (uses u code n) l.

Lemma lookup_fresh (now : Z) (seen : gmap string Z) (k : string) :
  filter (λ e : string * Z, now - e.2 ≤ 2 * Minute) seen !! k = if fresh now (seen !! k) then seen !! k else None.
Proof.
  rewrite map_lookup_filter. destruct (seen !! k) as [t|]; cbn; [|done].
  destruct (Z.leb_spec (now - t) (2 * Minute)); [by rewrite option_guard_True|by rewrite option_guard_False by lia].
Qed.

Lemma uses_earlier (u : Z) (code : string) (n n' : Z) (l : list (Z * string * Z)) :
  n ≤ n' → existsb (uses u code n) l = false → existsb (uses u code n') l = false.
Proof.
  intros Hn. rewrite !existsb_False. intros H. eapply Forall_impl; [exact H|]. unfold uses. intros e He.
  destruct (e.1.1 =? u); [|done]. destruct (e.1.2 =? code)%string; [|done]. cbn in *. bool_hyps. apply Z.leb_gt. lia.
Qed.

Lemma remembers_step (n n' : Z) (c : Z * string) (seen : gmap string Z) (l : list (Z * string * Z)) :
  n ≤ n' → int64 c.1 → remembers n seen l →
  (used_step n' c seen).1 = (replay_step n' c l).1 ∧ remembers n' (used_step n' c seen).2 (replay_step n' c l).2.
Proof.
  destruct c as [u code]. cbn [fst]. intros Hn Hu HR. unfold used_step, replay_step, markUsed. cbn [fst snd].
  set (seen' := filter _ seen).
  assert (Hl : ∀ k, seen' !! k = if fresh n' (seen !! k) then seen !! k else None) by (intros k; apply lookup_fresh).
  assert (HR' : remembers n' seen' l).
  { intros v d m Hm Hv. rewrite <- (HR v d m) by (done || lia). rewrite Hl.
    destruct (seen !! totp_key v d) as [t|]; cbn; [|done]. destruct (Z.leb_spec (n' - t) (2 * Minute)); cbn; [done|].
    symmetry. apply Z.leb_gt. lia. }
  pose proof (HR u code n' Hn Hu) as E. pose proof (Hl (totp_key u code)) as El. rewrite E in El.
  destruct (existsb (uses u code n') l) eqn:Ex.
  - rewrite El. destruct (seen !! totp_key u code) as [t|]; [by split|done].
  - rewrite El. cbn. split; [done|]. intros v d m Hm Hv. rewrite existsb_app. cbn. rewrite orb_false_r. unfold uses at 2. cbn.
    destruct (decide (totp_key u code = totp_key v d)) as [Ek|Ek].
    + rewrite Ek, lookup_insert_eq. apply totp_key_inj in Ek as [-> ->]; [|done..].
      rewrite Z.eqb_refl, String.eqb_refl, (uses_earlier _ _ _ _ _ Hm Ex). done.
    + rewrite lookup_insert_ne by done. rewrite (HR' v d m) by done.
      destruct (Z.eqb_spec u v) as [->|]; cbn; [|by rewrite orb_false_r].
      destruct (String.eqb_spec code d) as [->|]; [done|]. cbn. by rewrite orb_false_r.
Qed.

(** a code is accepted exactly when the same user was not let in with the same code in
    the last two minutes: [markUsed] answers like a record of every code ever accepted,
    and one user's codes never shadow another's although they share a map of texts. *)
Theorem markUsed_refines (calls : list (Z * (Z * string))) (Ho : in_order calls) (Hi : Forall (λ c, int64 c.2.1) calls) :
  (run used_step calls ∅).1 = (run replay_step calls []).1.
Proof.
  destruct calls as [|[n0 c0] calls]; [done|].
  apply (run_simulation remembers (λ c, int64 c.1)) with n0.
  - intros n n' c s l Hn Hc HR. by apply remembers_step with n.
  - done.
  - apply StronglySorted_inv in Ho as [_ Hf]. apply Forall_cons in Hi as [Hi0 Hi]. constructor; [done|].
    rewrite List.Forall_forall in Hf, Hi |- *. intros c Hc. split; [by apply Hf|by apply Hi].
  - intros u code n _ _. done.
Qed.

(** ** The token bucket *)

(** Calls from one address, each so soon after the one before that no whole token has
    been earned. *)
Fixpoint too_soon (earned : Z → Z) (last : Z) (calls : list Z) : Prop :=
  match calls with [] => True | n :: l => earned (n - last) = 0 ∧ too_soon earned n l end.

Lemma Allow_put (now : Z) (ip : string) (rl : RateLimiter) (v : visitor) :
  visitors rl !! ip = Some v → tokensToAdd rl (now - lastSeen v) = 0 → tokens v ≤ rate rl →
  Allow false now ip rl =
    if tokens v <=? 0 then (false, mkBucket (<[ip := mkVisitor (tokens v) now]> (visitors rl)) (rate rl) (interval rl))
    else (true, mkBucket (<[ip := mkVisitor (tokens v - 1) now]> (visitors rl)) (rate rl) (interval rl)).
Proof. intros E H0 Hr. unfold Allow. rewrite E, H0, Z.add_0_r, Z.min_l by lia. done. Qed.

(** a refused call still moves [lastSeen] forward, so an empty bucket stays empty for a
    client that keeps asking faster than whole tokens are earned: every one of its calls
    is refused, for however long. *)
Theorem bucket_starves (rl : RateLimiter) (ip : string) (v : visitor) (calls : list Z)
    (Hv : visitors rl !! ip = Some v) (He : tokens v ≤ 0) (Hr : 0 ≤ rate rl) (Hs : too_soon (tokensToAdd rl) (lastSeen v) calls) :
  (run (Allow false) (map (λ n, (n, ip)) calls) rl).1 = map (λ _, false) calls.
Proof.
  revert rl v Hv He Hr Hs. induction calls as [|n calls IH]; intros rl v Hv He Hr Hs; [done|]. cbn [map run].
  destruct Hs as [H0 Hs]. rewrite (Allow_put _ _ _ v), (proj2 (Z.leb_le _ _)) by (done || lia).
  set (rl' := mkBucket _ _ _). specialize (IH rl' (mkVisitor (tokens v) n)).
  destruct (run (Allow false) (map (λ n, (n, ip)) calls) rl') as [os s] eqn:E. cbn [fst snd map] in *. f_equal. apply IH; [apply lookup_insert_eq|exact He|exact Hr|exact Hs].
Qed.

(** ** CSRF *)

(** Behind the middleware, an unsafe request of a session carries the last token made for
    the session, less than an hour ago. *)
Lemma csrf_pass (now : Z) (r : request) (c : CSRFProtection) :
  csrf_middleware now r c = Pass →
  str_in ["GET"; "HEAD"; "OPTIONS"] (Method r) = true ∨
  str_in ["/api/v1/auth/login"; "/api/v1/auth/register"; "/health"; "/api/v1/health"] (URLPath r) = true ∨
  getSessionID r = "" ∨
  ∃ t, c !! getSessionID r = Some t ∧ now ≤ expiresAt t ∧
       csrf_token t = (if (Header r "X-CSRF-Token" =? "")%string then FormValue r "csrf_token" else Header r "X-CSRF-Token").
Proof.
  unfold csrf_middleware, ValidateToken. destruct (str_in _ (Method r)); [by left|].
  destruct (str_in _ (URLPath r)); [by right; left|]. destruct (getSessionID r =? "")%string eqn:E; [bool_hyps; by right; right; left|].
  set (tok := if (Header r "X-CSRF-Token" =? "")%string then _ else _).
  destruct (tok =? "")%string; [done|]. destruct (c !! getSessionID r) as [t|]; [|done].
  destruct (negb (expiresAt t <? now) && _) eqn:Ev; [|done]. intros _. bool_hyps. right; right; right. exists t. done.
Qed.

(** A browser session is carried by the cookie [sp_session], which the middleware does not
    look at: without an Authorization header every request passes. *)
Lemma csrf_cookie_session (now : Z) (r : request) (c : CSRFProtection) :
  Cookie r "session_id" = None → Header r "Authorization" = "" → csrf_middleware now r c = Pass.
Proof.
  intros Hc Ha. unfold csrf_middleware, getSessionID. rewrite Hc, Ha. repeat case_goal; done.
Qed.

(** * Witnesses *)

Ltac in_order_tac := unfold in_order; repeat constructor; cbn; lia.

(** Two attempts in ten seconds: the third is refused, the fourth comes late enough. *)
Definition some_attempts : list (Z * string) :=
  [(1, "10.0.0.1"); (2, "10.0.0.1"); (3, "10.0.0.1"); (3, "10.0.0.2"); (12, "10.0.0.1")].

Lemma allow_window_witness :
  (run (allow false) some_attempts (newRateLimiter 2 10)).1 = [true; true; false; true; true] ∧
  burst 10 12 (accepted "10.0.0.1" some_attempts (run (allow false) some_attempts (newRateLimiter 2 10)).1) ≤ 2.
Proof. split; [vm_compute; reflexivity|]. apply (allow_window 2 10 12 "10.0.0.1" some_attempts); [lia|in_order_tac]. Defined.

Definition some_failures : list (Z * fail_call) :=
  [(1, Fail "ann"); (2, Fail "ann"); (3, Blocked "ann"); (3, Blocked "bob"); (4, Reset "ann"); (5, Blocked "ann")].

Lemma failureTracker_refines_witness :
  (run tracker_step some_failures (newFailureTracker 2 10)).1 = [None; None; Some true; Some false; None; Some false] ∧
  (run tracker_step some_failures (newFailureTracker 2 10)).1 = (run (failures_step 2 10) some_failures []).1.
Proof. split; [vm_compute; reflexivity|]. apply (failureTracker_refines 2 10 some_failures). in_order_tac. Defined.

(** The same code again, of another user, and after two minutes. *)
Definition some_codes : list (Z * (Z * string)) :=
  [(0, (7, "123456")); (Minute, (7, "123456")); (Minute, (8, "123456")); (3 * Minute, (7, "123456"))].

Lemma markUsed_refines_witness :
  (run used_step some_codes ∅).1 = [true; false; true; true] ∧
  (run used_step some_codes ∅).1 = (run replay_step some_codes []).1.
Proof.
  split; [vm_compute; reflexivity|]. apply (markUsed_refines some_codes).
  - unfold in_order, some_codes, Minute. repeat constructor; cbn; lia.
  - unfold some_codes, int64, min_int64, max_int64. repeat constructor; cbn; lia.
Defined.

(** The login limiter, ten attempts in a quarter of an hour: ten calls at once, then one
    every 89 seconds. *)
Definition spent_bucket : RateLimiter :=
  (run (Allow false) (repeat (0, "10.0.0.1") 10) StrictLimiter).2.
Definition every_89s : list Z := map (λ i, Z.of_nat i * 89 * 1000000000) (seq 1 60).

Lemma bucket_starves_witness :
  visitors spent_bucket !! "10.0.0.1" = Some (mkVisitor 0 0) ∧
  (run (Allow false) (map (λ n, (n, "10.0.0.1")) every_89s) spent_bucket).1 = map (λ _, false) every_89s.
Proof.
  split; [vm_compute; reflexivity|]. apply (bucket_starves spent_bucket "10.0.0.1" (mkVisitor 0 0) every_89s).
  - vm_compute; reflexivity.
  - cbn; lia.
  - vm_compute; discriminate.
  - vm_compute. repeat split.
Defined.
