(* ===== verification/Base64.v ===== *)
(** Go's [encoding/base64]: [StdEncoding], with padding, and [RawStdEncoding],
    without, which the secrets and the password hashes use. *)
From S2P Require Import Prelude GoStr.
Local Open Scope Z_scope.
Local Open Scope panel_scope.

Definition b64_char (i : Z) : ascii :=
  byte (Z.to_nat (if i <? 26 then 65 + i else if i <? 52 then 71 + i else if i <? 62 then i - 4
                  else if i =? 62 then 43 else 47)).

Definition b64_val (c : ascii) : option Z :=
  if is_upper c then Some (code c - 65)
  else if is_lower c then Some (code c - 71)
  else if is_digit c then Some (code c + 4)
  else if Ascii.eqb c "+" then Some 62
  else if Ascii.eqb c "/" then Some 63
  else None.

Definition chr (n : Z) : ascii := byte (Z.to_nat n).

Definition padding (pad : bool) (s : string) : string := if pad then s else EmptyString.

Fixpoint b64_encode (pad : bool) (s : string) : string :=
  match s with
  | EmptyString => EmptyString
  | String a EmptyString =>
      let n := code a * 16 in
      String (b64_char (n / 64)) (String (b64_char (n mod 64)) (padding pad "=="))
  | String a (String b EmptyString) =>
      let n := (code a * 256 + code b) * 4 in
      String (b64_char (n / 4096)) (String (b64_char (n / 64 mod 64)) (String (b64_char (n mod 64))
        (padding pad "=")))
  | String a (String b (String c s')) =>
      let n := code a * 65536 + code b * 256 + code c in
      String (b64_char (n / 262144)) (String (b64_char (n / 4096 mod 64))
        (String (b64_char (n / 64 mod 64)) (String (b64_char (n mod 64)) (b64_encode pad s'))))
  end.

Definition two (a b : ascii) : option string :=
  match b64_val a, b64_val b with
  | Some x, Some y => Some (String (chr ((x * 64 + y) / 16)) EmptyString)
  | _, _ => None
  end.
Definition three (a b c : ascii) : option string :=
  match b64_val a, b64_val b, b64_val c with
  | Some x, Some y, Some z =>
      let n := (x * 64 + y) * 64 + z in
      Some (String (chr (n / 1024)) (String (chr (n / 4 mod 256)) EmptyString))
  | _, _, _ => None
  end.

(** The groups of four; the last one may be shorter without padding, or padded.
    The unused bits of a last group are not checked. *)
Fixpoint b64_groups (pad : bool) (s : string) : option string :=
  match s with
  | EmptyString => Some EmptyString
  | String a (String b (String c (String d s'))) =>
      if pad && Ascii.eqb d "=" then
        match s' with
        | EmptyString => if Ascii.eqb c "=" then two a b else three a b c
        | _ => None
        end
      else
        match b64_val a, b64_val b, b64_val c, b64_val d, b64_groups pad s' with
        | Some x, Some y, Some z, Some t, Some r =>
            let n := ((x * 64 + y) * 64 + z) * 64 + t in
            Some (String (chr (n / 65536)) (String (chr (n / 256 mod 256)) (String (chr (n mod 256)) r)))
        | _, _, _, _, _ => None
        end
  | String a (String b (String c EmptyString)) => if pad then None else three a b c
  | String a (String b EmptyString) => if pad then None else two a b
  | _ => None
  end.

(** New lines are ignored. *)
Fixpoint drop_newlines (s : string) : string :=
  match s with
  | String c s' => if Ascii.eqb c LF || Ascii.eqb c CR then drop_newlines s' else String c (drop_newlines s')
  | EmptyString => EmptyString
  end.
Definition b64_decode (pad : bool) (s : string) : option string := b64_groups pad (drop_newlines s).

(** * Decoding inverts encoding *)

Lemma code_range (c : ascii) : 0 ≤ code c < 256.
Proof. unfold code. pose proof (nat_ascii_bounded c). lia. Qed.

Lemma chr_code (c : ascii) : chr (code c) = c.
Proof. unfold chr, code, byte. rewrite Nat2Z.id. apply ascii_nat_embedding. Qed.

Definition b64_char_ok (i : Z) : bool :=
  match b64_val (b64_char i) with Some j => j =? i | None => false end &&
  negb (Ascii.eqb (b64_char i) "=") && negb (Ascii.eqb (b64_char i) LF || Ascii.eqb (b64_char i) CR).

Lemma b64_char_all (i : Z) : 0 ≤ i < 64 → b64_char_ok i = true.
Proof.
  intros Hi. assert (forallb b64_char_ok (map Z.of_nat (seq 0 64)) = true) as H by (vm_compute; reflexivity).
  rewrite forallb_forall in H. apply H. apply in_map_iff. exists (Z.to_nat i). split; [lia|]. apply in_seq. lia.
Qed.

Lemma b64_val_char (i : Z) : 0 ≤ i < 64 → b64_val (b64_char i) = Some i.
Proof.
  intros Hi%b64_char_all. unfold b64_char_ok in Hi. bool_hyps. destruct (b64_val _); [|done]. bool_hyps. by subst.
Qed.

Lemma b64_char_not_pad (i : Z) : 0 ≤ i < 64 → Ascii.eqb (b64_char i) "=" = false.
Proof. intros Hi%b64_char_all. unfold b64_char_ok in Hi. by bool_hyps. Qed.

Lemma b64_char_newline (i : Z) : 0 ≤ i < 64 → Ascii.eqb (b64_char i) LF || Ascii.eqb (b64_char i) CR = false.
Proof. intros Hi%b64_char_all. unfold b64_char_ok in Hi. bool_hyps. by apply orb_false_iff. Qed.

(** The characters of an encoded text. *)
Definition b64_alphabet (c : ascii) : bool :=
  is_alnum c || chr_in "+/=" c.

Lemma b64_char_alphabet (i : Z) : 0 ≤ i < 64 → b64_alphabet (b64_char i) = true.
Proof.
  intros Hi. assert (forallb (λ i, b64_alphabet (b64_char i)) (map Z.of_nat (seq 0 64)) = true) as H
    by (vm_compute; reflexivity).
  rewrite forallb_forall in H. apply H. apply in_map_iff. exists (Z.to_nat i). split; [lia|]. apply in_seq. lia.
Qed.

(** Induction by groups of three bytes. *)
Lemma triple_ind (P : string → Prop) :
  P EmptyString → (∀ a, P (String a EmptyString)) → (∀ a b, P (String a (String b EmptyString))) →
  (∀ a b c s, P s → P (String a (String b (String c s)))) → ∀ s, P s.
Proof.
  intros H0 H1 H2 H3. enough (∀ n s, (String.length s ≤ n)%nat → P s) as H by (intros s; by apply (H (String.length s))).
  induction n as [|n IH]; intros s Hs; [destruct s; [done|cbn in Hs; lia]|].
  destruct s as [|a [|b [|c s]]]; [done|apply H1|apply H2|]. apply H3, IH. cbn in Hs. lia.
Qed.

#[local] Arguments Z.div : simpl never.
#[local] Arguments Z.modulo : simpl never.
#[local] Arguments Z.mul : simpl never.
#[local] Arguments Z.add : simpl never.

Ltac code_ranges :=
  repeat match goal with
  | |- context [code ?c] =>
      lazymatch goal with H : 0 ≤ code c < 256 |- _ => fail | _ => pose proof (code_range c) end
  end.

Lemma drop_newlines_encode (pad : bool) (s : string) : drop_newlines (b64_encode pad s) = b64_encode pad s.
Proof.
  induction s as [|a|a b|a b c s IH] using triple_ind; cbn [b64_encode]; [done|..]; code_ranges;
    cbn [drop_newlines]; rewrite !b64_char_newline by dlia; rewrite ?IH; try done; by destruct pad.
Qed.

Lemma b64_groups_encode (pad : bool) (s : string) : b64_groups pad (b64_encode pad s) = Some s.
Proof.
  induction s as [|a|a b|a b c s IH] using triple_ind; cbn [b64_encode]; [done|..]; code_ranges.
  - assert (two (b64_char (code a * 16 / 64)) (b64_char ((code a * 16) mod 64)) = Some (String a EmptyString)) as H2.
    { unfold two. rewrite !b64_val_char by dlia. do 2 f_equal. rewrite <- (chr_code a) at 3. f_equal. dlia. }
    by destruct pad.
  - remember (code a * 256 + code b) as n eqn:En.
    assert (three (b64_char (n * 4 / 4096)) (b64_char (n * 4 / 64 mod 64)) (b64_char ((n * 4) mod 64)) =
            Some (String a (String b EmptyString))) as H3.
    { unfold three. rewrite !b64_val_char by dlia.
      replace ((n * 4 / 4096 * 64 + n * 4 / 64 mod 64) * 64 + (n * 4) mod 64) with (n * 4) by dlia.
      replace (n * 4 / 1024) with (code a) by dlia. replace (n * 4 / 4 mod 256) with (code b) by dlia.
      by rewrite !chr_code. }
    destruct pad; cbn [padding b64_groups]; [|done]. cbn [andb].
    change (Ascii.eqb "=" "=") with true. cbn iota. rewrite b64_char_not_pad by dlia. done.
  - remember (code a * 65536 + code b * 256 + code c) as n eqn:En.
    cbn [b64_groups]. rewrite b64_char_not_pad, andb_false_r by dlia. rewrite !b64_val_char, IH by dlia.
    replace (((n / 262144 * 64 + n / 4096 mod 64) * 64 + n / 64 mod 64) * 64 + n mod 64) with n by dlia.
    replace (n / 65536) with (code a) by dlia. replace (n / 256 mod 256) with (code b) by dlia.
    replace (n mod 256) with (code c) by dlia. by rewrite !chr_code.
Qed.

Lemma b64_roundtrip (pad : bool) (s : string) : b64_decode pad (b64_encode pad s) = Some s.
Proof. unfold b64_decode. by rewrite drop_newlines_encode, b64_groups_encode. Qed.

Lemma b64_encode_alphabet (pad : bool) (s : string) : str_all b64_alphabet (b64_encode pad s) = true.
Proof.
  induction s as [|a|a b|a b c s IH] using triple_ind; cbn [b64_encode]; [done|..]; code_ranges;
    cbn [str_all]; rewrite !b64_char_alphabet by dlia; rewrite ?IH; try done; by destruct pad.
Qed.
