(* ===== verification/Password.v ===== *)
(** Passwords and tokens: src/internal/auth/password.go, crypto.go and token.go.  The hash
    functions argon2id and SHA-256 are parameters, and so are the random bytes. *)
From S2P Require Import Prelude GoStr Float Json Base64 Sql.
Local Open Scope Z_scope.
Local Open Scope panel_scope.

Set Default Proof Using "Type".

(** [argon2.IDKey password salt time memory threads keyLen].  It panics when [time] or
    [threads] is 0, which no hash made by [HashPassword] has. *)
Class Argon2 := IDKey : string → string → Z → Z → Z → Z → string.

(** * fmt.Sscanf *)

(** White space, except a line end. *)
Definition scan_space (s : string) : option string :=
  let t := trim_left s in
  if chr_in (str_take (String.length s - String.length t) s) LF then None else Some t.
Definition scan_lit (lit s : string) : option string :=
  if has_prefix s lit then Some (str_drop (String.length lit) s) else None.
(** [%d] into a [uint] of [bits] bits, and into an [int]. *)
Definition scan_uint (bits : Z) (s : string) : option (Z * string) :=
  match scan_space s with
  | None => None
  | Some t =>
      let '(ds, r) := span is_digit t in
      if (ds =? "")%string then None
      else match digits_val 0 ds with
           | Some n => if n <? 2 ^ bits then Some (n, r) else None
           | None => None
           end
  end.
Definition scan_int (s : string) : option (Z * string) :=
  match scan_space s with
  | None => None
  | Some t =>
      let '(sign, u) := match t with
                        | String c u => if Ascii.eqb c "-" || Ascii.eqb c "+" then (String c "", u) else ("", t)
                        | EmptyString => ("", t)
                        end in
      let '(ds, r) := span is_digit u in
      let '(n, ok) := atoi (sign +:+ ds) in if ok then Some (n, r) else None
  end.

(** * password.go *)

Definition argon2Version : Z := 19.
Definition argon2Time : Z := 1.
Definition argon2Memory : Z := 64 * 1024.
Definition argon2Threads : Z := 2.
Definition argon2KeyLen : Z := 32.

Record phcParams := mkPHC { p_time : Z; p_memory : Z; p_threads : Z }.

(** ["v=%d"] and ["m=%d,t=%d,p=%d"]; what follows is not read. *)
Definition scan_version (s : string) : option Z :=
  match scan_lit "v=" s with Some t => fst <$> scan_int t | None => None end.
Definition scan_params (s : string) : option phcParams :=
  match scan_lit "m=" s with
  | None => None
  | Some s1 =>
      match scan_uint 32 s1 with
      | None => None
      | Some (m, s2) =>
          match scan_lit ",t=" s2 with
          | None => None
          | Some s3 =>
              match scan_uint 32 s3 with
              | None => None
              | Some (t, s4) =>
                  match scan_lit ",p=" s4 with
                  | None => None
                  | Some s5 => match scan_uint 8 s5 with Some (p, _) => Some (mkPHC t m p) | None => None end
                  end
              end
          end
      end
  end.

(** The messages of the scanners and decoders are left out. *)
Definition parsePHC (phc : string) : res (phcParams * string * string) :=
  match split "$" phc with
  | [_; alg; v; ps; salt; hash] =>
      if negb (alg =? "argon2id")%string || negb (has_prefix v "v=") then Err "invalid PHC format"
      else
        match scan_version v with
        | None => Err "parse version"
        | Some _ =>
            match scan_params ps with
            | None => Err "parse params"
            | Some params =>
                match b64_decode false salt with
                | None => Err "decode salt"
                | Some s => match b64_decode false hash with Some h => Ok (params, s, h) | None => Err "decode hash" end
                end
            end
        end
  | _ => Err "invalid PHC format"
  end.

Section Passwords.
Context `{HA : Argon2}.

(** [salt]: what [generateSalt] drew, or its error. *)
Definition HashPassword (salt : res string) (plain : string) : res string :=
  match salt with
  | Err e => Err ("generate salt: " +:+ e)
  | Ok salt =>
      let hash := IDKey plain salt argon2Time argon2Memory argon2Threads argon2KeyLen in
      Ok ("$argon2id$v=" +:+ itoa argon2Version +:+ "$m=" +:+ itoa argon2Memory +:+ ",t=" +:+ itoa argon2Time +:+ ",p=" +:+
          itoa argon2Threads +:+ "$" +:+ b64_encode false salt +:+ "$" +:+ b64_encode false hash)
  end.

Definition VerifyPassword (hash plain : string) : res bool :=
  match parsePHC hash with
  | Err e => Err ("parse hash: " +:+ e)
  | Ok (params, salt, storedHash) =>
      Ok (IDKey plain salt (p_time params) (p_memory params) (p_threads params) argon2KeyLen =? storedHash)%string
  end.

(** * Facts *)

Lemma b64_no_dollar (s : string) : no_chr "$" (b64_encode false s) = true.
Proof.
  eapply str_all_impl; [|apply b64_encode_alphabet]. intros c. destruct c as [[] [] [] [] [] [] [] []]; by vm_compute.
Qed.

Lemma split_sep_cons (c : ascii) (a s : string) : no_chr c a = true → split c (a +:+ String c s) = a :: split c s.
Proof. intros H. rewrite split_app_sep, split_no_chr by done. done. Qed.

Lemma parse_hash (salt hash : string) :
  parsePHC ("$argon2id$v=19$m=65536,t=1,p=2$" +:+ b64_encode false salt +:+ "$" +:+ b64_encode false hash) =
  Ok (mkPHC 1 65536 2, salt, hash).
Proof.
  unfold parsePHC. set (s := b64_encode false salt). set (h := b64_encode false hash).
  assert (split "$" ("$argon2id$v=19$m=65536,t=1,p=2$" +:+ s +:+ "$" +:+ h) =
          [""; "argon2id"; "v=19"; "m=65536,t=1,p=2"; s; h]) as ->.
  { change ("$argon2id$v=19$m=65536,t=1,p=2$" +:+ s +:+ "$" +:+ h) with
      ("" +:+ String "$" ("argon2id" +:+ String "$" ("v=19" +:+ String "$" ("m=65536,t=1,p=2" +:+ String "$" (s +:+ String "$" h))))).
    rewrite !split_sep_cons by (done || apply b64_no_dollar). by rewrite split_no_chr by apply b64_no_dollar. }
  unfold s, h. by rewrite !b64_roundtrip.
Qed.

(** a stored password verifies: whatever salt was drawn, the hash of a password parses,
    and a candidate is accepted exactly when argon2id maps it, under the same salt and
    cost, to the key of the password; so the password itself is always accepted, and
    another one only if it collides. *)
Theorem Password_roundtrip (salt plain candidate : string) :
  ∃ h, HashPassword (Ok salt) plain = Ok h ∧
    VerifyPassword h candidate =
      Ok (IDKey candidate salt argon2Time argon2Memory argon2Threads argon2KeyLen =?
          IDKey plain salt argon2Time argon2Memory argon2Threads argon2KeyLen)%string ∧
    VerifyPassword h plain = Ok true.
Proof.
  eexists. split; [reflexivity|]. unfold VerifyPassword.
  set (h := IDKey plain salt _ _ _ _).
  change (parsePHC _) with (parsePHC ("$argon2id$v=19$m=65536,t=1,p=2$" +:+ b64_encode false salt +:+ "$" +:+ b64_encode false h)).
  rewrite parse_hash. split; [done|]. cbn. by rewrite String.eqb_refl.
Qed.
End Passwords.
