(* ===== verification/Secrets.v ===== *)
(** Credentials at rest: src/internal/secrets/secrets.go and payload.go.  The
    block cipher is a parameter; its keys, the random source and the JSON
    payloads are as in the code. *)
From S2P Require Import Prelude GoStr Regex Json Base64 Sql JobStore.
Local Open Scope Z_scope.
Local Open Scope panel_scope.

(** AES-256-GCM of [crypto/cipher] under the panel's key: [Seal] and [Open] with
    a nonce, and whether [aes.NewCipher] accepts the key. *)
Class AEAD := {
  key_ok : bool;
  Seal : string → string → string;
  Open : string → string → option string }.

(** Opening what was sealed under the same nonce gives the plaintext back. *)
Class AEADLaws `{AEAD} := {
  key_valid : key_ok = true;
  open_seal nonce p : Open nonce (Seal nonce p) = Some p }.

(** The [i]-th read of the random source: twelve bytes. *)
Definition random : Type := nat → res string.
Definition random_ok (rand : random) : Prop := ∀ i, ∃ n, rand i = Ok n ∧ String.length n = 12%nat.

Section Secrets.
Context `{HA : AEAD} (rand : random).

Definition secret_prefix := "enc:v1:".

Definition encryptWith (i : nat) (plaintext : string) : res string :=
  if (plaintext =? "")%string then Ok ""
  else if negb key_ok then Err "crypto/aes: invalid key size"
  else match rand i with
       | Err e => Err e
       | Ok nonce => Ok (secret_prefix +:+ b64_encode true (nonce +:+ Seal nonce plaintext))
       end.

Definition IsEncrypted (value : string) : bool := has_prefix value secret_prefix.

Definition decryptWith (value : string) : res string :=
  if negb (has_prefix value secret_prefix) then Ok value
  else match b64_decode true (trim_prefix value secret_prefix) with
       | None => Err "illegal base64 data"
       | Some raw =>
           if negb key_ok then Err "crypto/aes: invalid key size"
           else if Z.of_nat (String.length raw) <? 12 then Err "ciphertext too short"
           else match Open (str_take 12 raw) (str_drop 12 raw) with
                | None => Err "cipher: message authentication failed"
                | Some pt => Ok pt
                end
       end.

Definition SensitiveKeys (k : string) : bool :=
  str_in ["access_key"; "secret_key"; "db_password"; "password"; "secret"; "token"] k.

Definition encryptStr (i : nat) (s : string) : res string :=
  if IsEncrypted s then Ok s else encryptWith i s.
Definition decryptStr (_ : nat) (s : string) : res string := decryptWith s.

(** A loop over a container that threads the number of calls and stops at the
    first error. *)
Definition map_thread {A B} (f : A → nat → res (B * nat)) : list A → nat → res (list B * nat) :=
  fix go l i :=
    match l with
    | [] => Ok ([], i)
    | x :: l' =>
        match f x i with
        | Err e => Err e
        | Ok (y, i1) => match go l' i1 with
                        | Err e => Err e
                        | Ok (l1, i2) => Ok (y :: l1, i2)
                        end
        end
    end.

(** [fn] is called once for each sensitive text, with the number of the call;
    the members of an object are visited in key order here, in any order by Go,
    which only changes which nonce goes where. *)
Fixpoint walk (fn : nat → string → res string) (v : json) (sensitive : bool) (i : nat) : res (json * nat) :=
  match v with
  | JObj l =>
      match map_thread (λ p i, match walk fn p.2 (SensitiveKeys p.1) i with
                               | Err e => Err e
                               | Ok (x, i1) => Ok ((p.1, x), i1)
                               end) l i with
      | Err e => Err e
      | Ok (l1, i1) => Ok (JObj l1, i1)
      end
  | JArr l =>
      match map_thread (λ x i, walk fn x sensitive i) l i with
      | Err e => Err e
      | Ok (l1, i1) => Ok (JArr l1, i1)
      end
  | JStr s => if sensitive then match fn i s with Ok s' => Ok (JStr s', S i) | Err e => Err e end else Ok (v, i)
  | _ => Ok (v, i)
  end.

Definition transformPayload (payload : string) (fn : nat → string → res string) : res string :=
  if (payload =? "")%string then Ok payload
  else match Unmarshal payload with
       | None => Ok payload
       | Some v => match walk fn v false 0 with
                   | Err e => Err e
                   | Ok (out, _) => Ok (Marshal out)
                   end
       end.

Definition EncryptPayload (payload : string) : res string := transformPayload payload encryptStr.
Definition DecryptPayload (payload : string) : res string := transformPayload payload decryptStr.

(** The queue's view of this component. *)
Definition payload_cipher : PayloadCipher :=
  {| JobStore.EncryptPayload := EncryptPayload; JobStore.DecryptPayload := DecryptPayload |}.

(** * Facts *)

(** A text that no earlier encryption marked: the marked ones are left alone. *)
Definition unmarked (s : string) : bool := negb (IsEncrypted s).
(** Every sensitive text of the value satisfies [p]. *)
Fixpoint sensitive_all (p : string → bool) (v : json) (sensitive : bool) : bool :=
  match v with
  | JObj l => forallb (λ q, sensitive_all p q.2 (SensitiveKeys q.1)) l
  | JArr l => forallb (λ x, sensitive_all p x sensitive) l
  | JStr s => implb sensitive (p s)
  | _ => true
  end.

Lemma map_thread_cons {A B} (f : A → nat → res (B * nat)) (x : A) (l : list A) (i : nat) :
  map_thread f (x :: l) i =
    match f x i with
    | Err e => Err e
    | Ok (y, i1) => match map_thread f l i1 with Err e => Err e | Ok (l1, i2) => Ok (y :: l1, i2) end
    end.
Proof. reflexivity. Qed.

Lemma map_thread_inv {A B} (f : A → nat → res (B * nat)) (l : list A) i l' j :
  map_thread f l i = Ok (l', j) → Forall2 (λ x y, ∃ a b, f x a = Ok (y, b)) l l'.
Proof.
  revert i l' j. induction l as [|x l IH]; intros i l' j E.
  - injection E as <- <-. constructor.
  - rewrite map_thread_cons in E. destruct (f x i) as [[y i1]|e] eqn:Ex; [|done].
    destruct (map_thread f l i1) as [[l1 i2]|e] eqn:El; [|done].
    injection E as <- <-. constructor; [by exists i, i1|by apply (IH i1 _ i2)].
Qed.

Lemma map_thread_total {A B} (f : A → nat → res (B * nat)) (l : list A) :
  Forall (λ x, ∀ i, ∃ y j, f x i = Ok (y, j)) l → ∀ i, ∃ l' j, map_thread f l i = Ok (l', j).
Proof.
  induction 1 as [|x l Hx _ IH]; intros i; [by eexists _, _|]. rewrite map_thread_cons.
  destruct (Hx i) as (y & j & ->). destruct (IH j) as (l' & j' & ->). by eexists _, _.
Qed.

Lemma map_thread_to {A B} (f : A → nat → res (B * nat)) (l : list A) (l' : list B) :
  Forall2 (λ x y, ∀ i, ∃ j, f x i = Ok (y, j)) l l' → ∀ i, ∃ j, map_thread f l i = Ok (l', j).
Proof.
  induction 1 as [|x y l l' Hx _ IH]; intros i; [by eexists|]. rewrite map_thread_cons.
  destruct (Hx i) as (j & ->). destruct (IH j) as (j' & ->). by eexists.
Qed.

(** [walk] on an object and on an array, read backwards. *)
Lemma walk_obj fn (l : list (string * json)) s i v j :
  walk fn (JObj l) s i = Ok (v, j) → ∃ l', v = JObj l' ∧
    Forall2 (λ p q, p.1 = q.1 ∧ ∃ a b, walk fn p.2 (SensitiveKeys p.1) a = Ok (q.2, b)) l l'.
Proof.
  cbn [walk]. destruct (map_thread _ l i) as [[l1 i1]|e] eqn:E; intros [= <- <-]. exists l1. split; [done|].
  apply map_thread_inv in E. eapply Forall2_impl; [exact E|]. intros [k x] [k' x'] (a & b & H). cbn [fst snd] in H |- *.
  destruct (walk fn x (SensitiveKeys k) a) as [[y c]|e] eqn:Ex; [|done]. injection H as <- <- <-.
  split; [done|]. by exists a, c.
Qed.

Lemma walk_arr fn (l : list json) s i v j :
  walk fn (JArr l) s i = Ok (v, j) → ∃ l', v = JArr l' ∧
    Forall2 (λ p q, ∃ a b, walk fn p s a = Ok (q, b)) l l'.
Proof.
  cbn [walk]. destruct (map_thread _ l i) as [[l1 i1]|e] eqn:E; intros [= <- <-]. exists l1. split; [done|].
  by apply map_thread_inv in E.
Qed.

(** [walk] succeeds when its function does on every sensitive text. *)
Lemma walk_total fn (p : string → bool) (v : json) :
  (∀ i s, p s = true → ∃ s', fn i s = Ok s') →
  ∀ s i, sensitive_all p v s = true → ∃ v' j, walk fn v s i = Ok (v', j).
Proof.
  intros Hf. induction v as [|b|t|x|l IH|l IH] using json_nested_ind; intros s i H.
  1-3: by eexists _, _.
  - cbn in *. destruct s; [|by eexists _, _]. destruct (Hf i x H) as [s' ->]. by eexists _, _.
  - cbn [sensitive_all walk] in *. apply forallb_True in H.
    destruct (map_thread_total (λ x i, walk fn x s i) l) with i as (l' & j & ->); [|by eexists _, _].
    apply List.Forall_forall. rewrite List.Forall_forall in IH, H. auto.
  - cbn [sensitive_all walk] in *. apply forallb_True in H.
    set (f := λ p i, match walk fn p.2 (SensitiveKeys p.1) i with
                     | Ok (x, i1) => Ok ((p.1, x), i1) | Err e => Err e end).
    destruct (map_thread_total f l) with i as (l' & j & ->); [|by eexists _, _].
    apply List.Forall_forall. rewrite List.Forall_forall in IH, H. intros q Hq a. subst f. cbn beta.
    destruct (IH q Hq _ a (H q Hq)) as (x & c & ->). by eexists _, _.
Qed.

(** A function undone by another one on every sensitive text is undone on the
    whole value. *)
Lemma walk_inverse fn gn (p : string → bool) (v : json) :
  (∀ i s s', p s = true → fn i s = Ok s' → ∀ j, gn j s' = Ok s) →
  ∀ s i v' j, sensitive_all p v s = true → walk fn v s i = Ok (v', j) → ∀ a, ∃ b, walk gn v' s a = Ok (v, b).
Proof.
  intros Hf. induction v as [|b|t|x|l IH|l IH] using json_nested_ind; intros s i v' j Hp H a.
  1-3: injection H as <- <-; by eexists.
  - cbn in H. destruct s; [|injection H as <- <-; by eexists].
    destruct (fn i x) as [x'|e] eqn:E; [|done]. injection H as <- <-. cbn. cbn in Hp.
    rewrite (Hf i x x' Hp E a). by eexists.
  - apply walk_arr in H as (l' & -> & HF). cbn [sensitive_all walk] in *. apply forallb_True in Hp.
    destruct (map_thread_to (λ x i, walk gn x s i) l' l) with a as (b & ->); [|by eexists].
    clear a. induction HF as [|x x' l l' (c & d & Hx) HF IHl]; constructor.
    + apply Forall_cons in IH as [IHx _], Hp as [H1 _]. intros a. by eapply IHx.
    + apply IHl; [by apply Forall_cons in IH as [_ IH]|by apply Forall_cons in Hp as [_ Hp]].
  - apply walk_obj in H as (l' & -> & HF). cbn [sensitive_all walk] in *. apply forallb_True in Hp.
    set (f := λ p i, match walk gn p.2 (SensitiveKeys p.1) i with
                     | Ok (x, i1) => Ok ((p.1, x), i1) | Err e => Err e end).
    destruct (map_thread_to f l' l) with a as (b & ->); [|by eexists].
    clear a. induction HF as [|[k x] [k' x'] l l' (Ek & c & d & Hx) HF IHl]; constructor.
    + cbn [fst snd] in *. subst k'. apply Forall_cons in IH as [IHx _], Hp as [H1 _]. intros a. subst f. cbn [fst snd] in H1 |- *.
      destruct (IHx (SensitiveKeys k) c x' d H1 Hx a) as [b ->]. by eexists.
    + apply IHl; [by apply Forall_cons in IH as [_ IH]|by apply Forall_cons in Hp as [_ Hp]].
Qed.

(** What the function makes of the sensitive texts holds of the result. *)
Lemma walk_post fn (q : string → bool) (v : json) :
  (∀ i s s', fn i s = Ok s' → q s' = true) →
  ∀ s i v' j, walk fn v s i = Ok (v', j) → sensitive_all q v' s = true.
Proof.
  intros Hf. induction v as [|b|t|x|l IH|l IH] using json_nested_ind; intros s i v' j H.
  1-3: by injection H as <- <-.
  - cbn in H. destruct s; [|by injection H as <- <-].
    destruct (fn i x) as [x'|e] eqn:E; [|done]. injection H as <- <-. cbn. by eapply Hf.
  - apply walk_arr in H as (l' & -> & HF). cbn [sensitive_all]. apply forallb_True.
    induction HF as [|x x' l l' (c & d & Hx) HF IHl]; constructor.
    + apply Forall_cons in IH as [IHx IH]. by eapply IHx.
    + apply IHl. by apply Forall_cons in IH as [_ IH].
  - apply walk_obj in H as (l' & -> & HF). cbn [sensitive_all]. apply forallb_True.
    induction HF as [|p p' l l' (Ek & c & d & Hx) HF IHl]; constructor.
    + apply Forall_cons in IH as [IHx IH]. rewrite <- Ek. by eapply IHx.
    + apply IHl. by apply Forall_cons in IH as [_ IH].
Qed.

(** Encryption keeps values canonical and within ASCII. *)
Lemma encryptStr_ascii i s s' : encryptStr i s = Ok s' → ascii_str s = true → ascii_str s' = true.
Proof.
  unfold encryptStr, encryptWith. intros H Hs. repeat case_match; simplify_eq; try done.
  unfold ascii_str. rewrite str_all_app. apply andb_true_iff. split; [done|].
  eapply str_all_impl; [|apply b64_encode_alphabet]. intros c. destruct c as [[] [] [] [] [] [] [] []]; by vm_compute.
Qed.

Lemma walk_keeps fn (v : json) :
  (∀ i s s', fn i s = Ok s' → ascii_str s = true → ascii_str s' = true) →
  ∀ s i v' j, walk fn v s i = Ok (v', j) →
    (json_ok v = true → json_ok v' = true) ∧ (canonical v = true → canonical v' = true).
Proof.
  intros Hf. induction v as [|b|t|x|l IH|l IH] using json_nested_ind; intros s i v' j H.
  1-3: by injection H as <- <-.
  - cbn in H. destruct s; [|by injection H as <- <-].
    destruct (fn i x) as [x'|e] eqn:E; [|done]. injection H as <- <-. split; [|done]. by apply (Hf i).
  - apply walk_arr in H as (l' & -> & HF). cbn [json_ok canonical].
    enough ((forallb json_ok l = true → forallb json_ok l' = true) ∧
            (forallb canonical l = true → forallb canonical l' = true)) by tauto.
    induction HF as [|x x' l l' (c & d & Hx) HF IHl]; [done|]. apply Forall_cons in IH as [IHx IH].
    destruct (IHx _ _ _ _ Hx), (IHl IH). cbn. rewrite !andb_true_iff. tauto.
  - apply walk_obj in H as (l' & -> & HF). cbn [json_ok canonical].
    assert (map fst l = map fst l') as Ek by (clear IH; induction HF as [|p q l l' [E _] _ IHl]; cbn; congruence).
    rewrite Ek, !andb_true_iff. clear Ek.
    enough ((forallb (λ p, ascii_str p.1 && json_ok p.2) l = true → forallb (λ p, ascii_str p.1 && json_ok p.2) l' = true) ∧
            (forallb (λ p, canonical p.2) l = true → forallb (λ p, canonical p.2) l' = true)) by tauto.
    induction HF as [|p q l l' (E & c & d & Hx) HF IHl]; [done|]. apply Forall_cons in IH as [IHx IH].
    destruct (IHx _ _ _ _ Hx), (IHl IH). cbn. rewrite E, !andb_true_iff. tauto.
Qed.

(** Decryption undoes encryption on a text that was not marked. *)
Lemma decrypt_encrypt {HL : AEADLaws} : random_ok rand →
  ∀ i s s', unmarked s = true → encryptStr i s = Ok s' → ∀ j, decryptStr j s' = Ok s.
Proof.
  intros Hr i s s' Hu H j. unfold encryptStr, unmarked in *. apply negb_true_iff in Hu. rewrite Hu in H.
  unfold decryptStr. unfold encryptWith in H. destruct (String.eqb_spec s "") as [->|Hne]; [by injection H as <-|].
  rewrite key_valid in H. cbn [negb] in H. destruct (Hr i) as (no & En & Hn). rewrite En in H. injection H as <-.
  unfold decryptWith, has_prefix, trim_prefix. rewrite prefix_app, str_drop_app, b64_roundtrip, key_valid. cbn [negb].
  rewrite length_app_s, Hn. destruct (Z.ltb_spec (Z.of_nat (12 + String.length (Seal no s))) 12); [lia|].
  rewrite <- Hn at 1. rewrite <- Hn at 1. rewrite str_take_app, str_drop_app, open_seal. done.
Qed.

Lemma encrypt_total {HL : AEADLaws} : random_ok rand → ∀ i s, ∃ s', encryptStr i s = Ok s'.
Proof.
  intros Hr i s. unfold encryptStr, encryptWith. destruct (IsEncrypted s); [by eexists|].
  destruct (s =? "")%string; [by eexists|]. rewrite key_valid. destruct (Hr i) as (n & -> & _). by eexists.
Qed.

Lemma encryptStr_marked i s s' : encryptStr i s = Ok s' → (s' =? "")%string || IsEncrypted s' = true.
Proof.
  unfold encryptStr, encryptWith. intros H. repeat case_match; simplify_eq; try done.
  all: apply orb_true_iff; right; apply prefix_app || assumption.
Qed.

(** What a payload of ASCII JSON is turned into, and how it reads. *)
Lemma transform_reads fn (payload : string) (v v' : json) (j : nat) :
  (∀ i s s', fn i s = Ok s' → ascii_str s = true → ascii_str s' = true) →
  Unmarshal payload = Some v → json_ok v = true → walk fn v false 0 = Ok (v', j) →
  transformPayload payload fn = Ok (Marshal v') ∧ Unmarshal (Marshal v') = Some v'.
Proof.
  intros Hf Hu Hok Hw. split.
  - unfold transformPayload. destruct (String.eqb_spec payload "") as [->|Hne]; [by vm_compute in Hu|]. by rewrite Hu, Hw.
  - destruct (walk_keeps _ _ Hf _ _ _ _ Hw) as [H1 H2].
    apply Marshal_roundtrip; [by apply H1|]. by eapply H2, Unmarshal_canonical.
Qed.

Lemma sensitive_all_total (v : json) : ∀ s, sensitive_all (λ _, true) v s = true.
Proof.
  induction v as [|b|t|x|l IH|l IH] using json_nested_ind; intros s; try done; cbn.
  - by destruct s.
  - rewrite List.Forall_forall in IH. apply forallb_forall. auto.
  - rewrite List.Forall_forall in IH. apply forallb_forall. auto.
Qed.

(** C33: what a job's payload is stored as decrypts, when the job is claimed, to a text
    of the same JSON value: for every payload of ASCII JSON none of whose sensitive
    texts already carries the marker, [EncryptPayload] succeeds and [DecryptPayload]
    of its result is the canonical text of the payload's value. *)
Theorem payload_roundtrip {HL : AEADLaws} (Hr : random_ok rand) (payload : string) (v : json)
  (Hu : Unmarshal payload = Some v) (Hok : json_ok v = true)
  (Hm : sensitive_all unmarked v false = true) :
  ∃ stored, EncryptPayload payload = Ok stored ∧
    DecryptPayload stored = Ok (Marshal v) ∧ Unmarshal (Marshal v) = Some v.
Proof.
  destruct (walk_total encryptStr (λ _, true) v) with false 0%nat as (v' & j & Hw).
  { intros i s _. by apply encrypt_total. }
  { apply sensitive_all_total. }
  destruct (transform_reads encryptStr payload v v' j encryptStr_ascii Hu Hok Hw) as [E1 E2].
  exists (Marshal v'). split; [exact E1|].
  destruct (walk_inverse encryptStr decryptStr unmarked v (decrypt_encrypt Hr) _ _ _ _ Hm Hw 0) as [b Hb].
  assert (Unmarshal (Marshal v) = Some v) as Ev.
  { apply Marshal_roundtrip; [done|]. by eapply Unmarshal_canonical. }
  split; [|exact Ev]. unfold DecryptPayload, transformPayload.
  destruct (String.eqb_spec (Marshal v') "") as [E|Hne]; [rewrite E in E2; by vm_compute in E2|]. by rewrite E2, Hb.
Qed.

(** no credential is stored in the clear: in whatever [EncryptPayload] makes of an
    ASCII JSON payload, every text under a sensitive key is empty or carries the
    marker of an encrypted value. *)
Theorem EncryptPayload_marks (payload stored : string) (v : json)
  (Hu : Unmarshal payload = Some v) (Hok : json_ok v = true) (H : EncryptPayload payload = Ok stored) :
  ∃ v', Unmarshal stored = Some v' ∧
    sensitive_all (λ s, (s =? "")%string || IsEncrypted s) v' false = true.
Proof.
  assert (Hn : payload ≠ "") by (intros ->; by vm_compute in Hu).
  unfold EncryptPayload, transformPayload in H. destruct (String.eqb_spec payload ""); [done|].
  rewrite Hu in H. destruct (walk encryptStr v false 0) as [[v' j]|e] eqn:Hw; [|done]. injection H as <-.
  exists v'. split; [by eapply transform_reads; [exact encryptStr_ascii|..]|].
  eapply walk_post; [exact encryptStr_marked|exact Hw].
Qed.
End Secrets.

(** * Witnesses: a cipher that keeps the text *)

Definition sample_aead : AEAD :=
  {| key_ok := true; Seal _ p := p; Open _ c := Some c |}.
Definition sample_random : random := λ _, Ok "twelve bytes".
Definition sample_payload :=
  Marshal (JObj [("name", JStr "db1"); ("password", JStr "hunter2"); ("s3_config", JObj [("secret_key", JStr "k")])]).

Lemma sample_aead_laws : @AEADLaws sample_aead.
Proof. by split. Qed.

Lemma payload_roundtrip_witness :
  ∃ stored, @EncryptPayload sample_aead sample_random sample_payload = Ok stored ∧
    @DecryptPayload sample_aead stored = Ok sample_payload ∧ Unmarshal sample_payload ≠ None.
Proof.
  destruct (@payload_roundtrip sample_aead sample_random sample_aead_laws) with sample_payload
    (JObj [("name", JStr "db1"); ("password", JStr "hunter2"); ("s3_config", JObj [("secret_key", JStr "k")])])
    as (stored & E & D & _).
  - intros i. by exists "twelve bytes".
  - vm_compute. reflexivity.
  - vm_compute. reflexivity.
  - vm_compute. reflexivity.
  - exists stored. split; [exact E|split; [exact D|by vm_compute]].
Defined.

Lemma EncryptPayload_marks_witness :
  ∃ stored v', @EncryptPayload sample_aead sample_random sample_payload = Ok stored ∧
    Unmarshal stored = Some v' ∧ sensitive_all (λ s, (s =? "")%string || IsEncrypted s) v' false = true.
Proof.
  destruct (@EncryptPayload sample_aead sample_random sample_payload) as [stored|e] eqn:E; [|by vm_compute in E].
  exists stored.
  destruct (@EncryptPayload_marks sample_aead sample_random sample_payload stored
    (JObj [("name", JStr "db1"); ("password", JStr "hunter2"); ("s3_config", JObj [("secret_key", JStr "k")])]))
    as (v' & Hv & Hs); [by vm_compute|by vm_compute|exact E|].
  by exists v'.
Defined.
