(* ===== verification/Clock.v ===== *)
(** Go's [time.Time.Format] for the layouts of the API, in UTC. *)
From S2P Require Import Prelude GoStr Json Cron.
Local Open Scope Z_scope.
Local Open Scope panel_scope.

(** A number of at least [w] digits. *)
Definition pad (w : nat) (n : Z) : string :=
  let s := itoa n in join "" (repeat "0" (w - String.length s)) +:+ s.

(** "2006-01-02T15:04:05" of a time in nanoseconds. *)
Definition date_time (t : Z) : string :=
  pad 4 (t_year t) +:+ "-" +:+ pad 2 (t_month t) +:+ "-" +:+ pad 2 (t_day t) +:+ "T" +:+
  pad 2 (t_hour t) +:+ ":" +:+ pad 2 (t_minute t) +:+ ":" +:+ pad 2 (t mod Minute / Second).

(** The layout "2006-01-02T15:04:05Z", which [time.RFC3339] agrees with in UTC, of a stored time. *)
Definition format_seconds (s : Z) : string := date_time (s * Second) +:+ "Z".

(** The decimals of [time.RFC3339Nano]: nine digits without the zeros at the end. *)
Fixpoint trim_zeros (s : string) : string :=
  match s with
  | EmptyString => ""
  | String c r => match trim_zeros r with
                  | EmptyString => if Ascii.eqb c "0" then "" else String c ""
                  | r' => String c r'
                  end
  end.
(** How [encoding/json] prints a [time.Time]. *)
Definition JTime (t : Z) : json :=
  let frac := trim_zeros (pad 9 (t mod Second)) in
  JStr (date_time t +:+ (if (frac =? "")%string then "" else "." +:+ frac) +:+ "Z").
Definition JSeconds (s : Z) : json := JTime (s * Second).

Example format_epoch : format_seconds 1700000000 = "2023-11-14T22:13:20Z".
Proof. by vm_compute. Qed.
Example json_time : JTime 1700000000120000000 = JStr "2023-11-14T22:13:20.12Z".
Proof. by vm_compute. Qed.
