(* ===== verification/Servers.v ===== *)
(** The servers of the fleet and the alerts about them: src/internal/store/servers.go,
    agents.go and alerts.go, src/internal/notify/sender.go and
    src/internal/jobs/healthcheck.go. *)
From S2P Require Import Prelude GoStr Sql JobStore Accounts.
Local Open Scope Z_scope.
Local Open Scope panel_scope.

Set Default Proof Using "Type".

(** * Rows *)

(** A row of [servers]. *)
Record server_row := ServerRow {
  sv_id : Z; sv_name : string; sv_hostname : string; sv_agent_url : option string; sv_ip : option
  string; sv_ipv6 : option string; sv_ssh_port : Z; sv_description : string; sv_status : string;
  sv_provider : option string; sv_agent_token : string; sv_last_check : option Z; sv_health :
  string; sv_latency : Z; sv_created : Z; sv_updated : Z }.

#[export] Instance server_row_id : HasId server_row := sv_id.

Definition set_server (v0 : string) (v1 : string) (v2 : option string) (v3 : option string) (v4 : option string) (v5 : Z) (v6 : string) (v7 : string) (v8 : option string) (r : server_row) : server_row :=
  ServerRow (sv_id r) v0 v1 v2 v3 v4 v5 v6 v7 v8 (sv_agent_token r) (sv_last_check r)
    (sv_health r) (sv_latency r) (sv_created r) (sv_updated r).
Definition set_sv_status (v : string) (r : server_row) : server_row :=
  ServerRow (sv_id r) (sv_name r) (sv_hostname r) (sv_agent_url r) (sv_ip r) (sv_ipv6 r)
    (sv_ssh_port r) (sv_description r) v (sv_provider r) (sv_agent_token r) (sv_last_check r)
    (sv_health r) (sv_latency r) (sv_created r) (sv_updated r).
Definition set_health (v0 : string) (v1 : Z) (v2 : option Z) (r : server_row) : server_row :=
  ServerRow (sv_id r) (sv_name r) (sv_hostname r) (sv_agent_url r) (sv_ip r) (sv_ipv6 r)
    (sv_ssh_port r) (sv_description r) (sv_status r) (sv_provider r) (sv_agent_token r) v2 v0 v1
    (sv_created r) (sv_updated r).
Definition sv_touch (v : Z) (r : server_row) : server_row :=
  ServerRow (sv_id r) (sv_name r) (sv_hostname r) (sv_agent_url r) (sv_ip r) (sv_ipv6 r)
    (sv_ssh_port r) (sv_description r) (sv_status r) (sv_provider r) (sv_agent_token r)
    (sv_last_check r) (sv_health r) (sv_latency r) (sv_created r) v.

(** A row of [registration_tokens]; [rt_expires] is a bound [time.Time], in nanoseconds. *)
Record reg_row := RegRow {
  rt_id : Z; rt_hash : string; rt_created_by : option Z; rt_expires : Z; rt_used : option Z;
  rt_created : Z }.

#[export] Instance reg_row_id : HasId reg_row := rt_id.

Definition set_rt_used (v : option Z) (r : reg_row) : reg_row :=
  RegRow (rt_id r) (rt_hash r) (rt_created_by r) (rt_expires r) v (rt_created r).

(** A row of [alert_channels]. *)
Record channel_row := ChannelRow {
  ch_id : Z; ch_name : string; ch_type : string; ch_enabled : bool; ch_config : string; ch_created
  : Z; ch_updated : Z }.

#[export] Instance channel_row_id : HasId channel_row := ch_id.

Definition set_channel (v0 : string) (v1 : string) (v2 : bool) (v3 : string) (v4 : Z) (r : channel_row) : channel_row :=
  ChannelRow (ch_id r) v0 v1 v2 v3 (ch_created r) v4.

(** A row of [alerts]. *)
Record alert_row := AlertRow {
  al_id : Z; al_channel : Z; al_severity : string; al_subject : string; al_message : string;
  al_status : string; al_error : option string; al_created : Z; al_sent : option Z }.

#[export] Instance alert_row_id : HasId alert_row := al_id.

Definition set_sent (v0 : string) (v1 : option Z) (r : alert_row) : alert_row :=
  AlertRow (al_id r) (al_channel r) (al_severity r) (al_subject r) (al_message r) v0
    (al_error r) (al_created r) v1.
Definition set_failed (v0 : string) (v1 : option string) (r : alert_row) : alert_row :=
  AlertRow (al_id r) (al_channel r) (al_severity r) (al_subject r) (al_message r) v0 v1
    (al_created r) (al_sent r).

(** * servers.go *)

Record Server := mkServer {
  Name : string; Hostname : string; AgentURL : option string; IPAddress : option string;
  IPv6 : option string; SSHPort : Z; Description : string; Status : string; Provider : option string;
  AgentToken : string; HealthStatus : string }.

Definition new_server (s : Server) (n id : Z) : server_row :=
  ServerRow id (Name s) (Hostname s) (AgentURL s) (IPAddress s) (IPv6 s) (SSHPort s) (Description s)
    (if (Status s =? "")%string then "pending" else Status s) (Provider s) (AgentToken s) None
    (if (HealthStatus s =? "")%string then "unknown" else HealthStatus s) 0
    (current_timestamp n) (current_timestamp n).

Module Servers.
Section Servers.
Context {D : Type} `{HV : Has server_row D}.
Notation servers := (tab (A := server_row)).

Definition Create (s : Server) : M D (res Z) :=
  wrap "insert server" (insert_checked (λ _, true) (new_server s)).
Definition GetByID (id : Z) : M D (res (option server_row)) :=
  wrap "scan server" (query (λ _ d, get_row id (servers d))).
Definition List : M D (res (list server_row)) :=
  wrap "query servers" (query (λ _ d, t_rows (servers d))).
Definition Update (id : Z) (s : Server) : M D (res ()) :=
  wrap "update server" (update_tab (by_id id) (λ n r, sv_touch n
    (set_server (Name s) (Hostname s) (AgentURL s) (IPAddress s) (IPv6 s) (SSHPort s) (Description s)
       (Status s) (Provider s) r))).
Definition UpdateHealth (id : Z) (status : string) (latencyMs : Z) : M D (res ()) :=
  wrap "update server health"
    (update_tab (by_id id) (λ n r, sv_touch n (set_health status latencyMs (Some n) r))).
Definition UpdateStatus (id : Z) (status : string) : M D (res ()) :=
  wrap "update server status" (update_tab (by_id id) (λ n r, sv_touch n (set_sv_status status r))).
Definition Delete `{HRF : References server_row D} (id : Z) : M D (res ()) :=
  wrap "delete server" (delete_parent (by_id (A := server_row) id)).
End Servers.
End Servers.

(** * agents.go *)

Module RegistrationTokens.
Section RegistrationTokens.
Context {D : Type} `{HR : Has reg_row D}.
Notation tokens := (tab (A := reg_row)).

Definition Create (hash : string) (createdBy : option Z) (expiresAt : Z) : M D (res Z) :=
  wrap "insert registration token"
    (insert_checked (λ _, true) (λ n id, RegRow id hash createdBy expiresAt None (current_timestamp n))).
Definition GetByHash (hash : string) : M D (res (option reg_row)) :=
  wrap "scan registration token" (query (λ _ d, select_one (λ r, (rt_hash r =? hash)%string) (tokens d))).

Definition unused (id : Z) (r : reg_row) : bool := by_id id r && bool_decide (rt_used r = None).
Definition MarkUsed (id : Z) : M D (res ()) :=
  let? rows := wrap "mark registration token used" (update_tab_n (unused id) (λ n, set_rt_used (Some n))) in
  mret (if rows =? 1 then Ok () else Err "registration token already used or missing").
End RegistrationTokens.
End RegistrationTokens.

Section Register.
Context {D : Type} `{HR : Has reg_row D} `{HV : Has server_row D}.
Notation tokens := (tab (A := reg_row)).
Notation servers := (tab (A := server_row)).

(** How SQLite orders a stored [time.Time] against CURRENT_TIMESTAMP (true: the
    stored time is the greater one). *)
Context (time_after_text : Z → Z → bool).

Definition consumable (id n : Z) (r : reg_row) : bool :=
  RegistrationTokens.unused id r && time_after_text (rt_expires r) n.

(** Claim the token, then create the server. *)
Definition consume_steps (tokenID : Z) (srv : Server) : list (tx_step D) :=
  [ ("claim registration token", λ n d,
       let c := current_timestamp n in
       if count_where (consumable tokenID c) (tokens d) =? 1
       then Ok (set_tab (update_where (consumable tokenID c) (set_rt_used (Some c)) (tokens d)) d)
       else Err "registration token already used, expired, or missing");
    ("insert registered server", λ n d, Ok (set_tab (insert_row (new_server srv n) (servers d)).2 d)) ].

Definition valid_registration (srv : Server) : bool :=
  negb (Name srv =? "")%string && negb (Hostname srv =? "")%string && negb (AgentToken srv =? "")%string.

(** The result is the id the committed INSERT gave ([srv.ID]). *)
Definition ConsumeRegistrationTokenAndCreateServer (tokenID : Z) (srv : Server) : M D (res Z) :=
  if negb (valid_registration srv) then mret (Err "invalid server registration")
  else let? _ := transaction "begin agent registration" (consume_steps tokenID srv) "commit agent registration" in
       λ w, (Ok (t_seq (servers (data w))), w).
End Register.

(** * alerts.go *)

Module AlertChannels.
Section AlertChannels.
Context {D : Type} `{HCH : Has channel_row D}.
Notation channels := (tab (A := channel_row)).

Definition Create (name type : string) (enabled : bool) (config : string) : M D (res Z) :=
  wrap "insert alert channel" (insert_checked (λ _, true) (λ n id,
    ChannelRow id name type enabled config (current_timestamp n) (current_timestamp n))).
Definition GetByID (id : Z) : M D (res (option channel_row)) :=
  wrap "scan alert channel" (query (λ _ d, get_row id (channels d))).
Definition List : M D (res (list channel_row)) :=
  wrap "query alert channels" (query (λ _ d, t_rows (channels d))).
Definition Update (id : Z) (name type : string) (enabled : bool) (config : string) : M D (res ()) :=
  wrap "update alert channel" (update_tab (by_id id) (λ n, set_channel name type enabled config n)).
Definition Delete `{HRF : References channel_row D} (id : Z) : M D (res ()) :=
  wrap "delete alert channel" (delete_parent (by_id (A := channel_row) id)).
End AlertChannels.
End AlertChannels.

Module Alerts.
Section Alerts.
Context {D : Type} `{HAL : Has alert_row D}.
Notation alerts := (tab (A := alert_row)).

Definition new_alert (channel : Z) (severity subject message status : string) (n id : Z) : alert_row :=
  AlertRow id channel severity subject message (if (status =? "")%string then "pending" else status)
    None (current_timestamp n) None.
Definition Create (channel : Z) (severity subject message status : string) : M D (res Z) :=
  wrap "insert alert" (insert_checked (λ _, true) (new_alert channel severity subject message status)).
Definition List (limit : Z) : M D (res (list alert_row)) :=
  wrap "query alerts"
    (query (λ _ d, limit_offset (if limit <=? 0 then 100 else limit) 0 (select_desc (λ _, true) (alerts d)))).
Definition MarkSent (id : Z) : M D (res ()) :=
  wrap "mark alert sent" (update_tab (by_id id) (λ n, set_sent "sent" (Some n))).
Definition MarkFailed (id : Z) (errMsg : string) : M D (res ()) :=
  wrap "mark alert failed" (update_tab (by_id id) (λ _, set_failed "failed" (null_if_empty errMsg))).
End Alerts.
End Alerts.

(** * notify/sender.go *)

(** [NewNotifier]: the channel types there is a notifier for. *)
Definition NewNotifier (channelType : string) : error :=
  if str_in ["telegram"; "discord"; "email"; "webhook"] channelType then None
  else Some ("unknown channel type: " +:+ channelType).

Section Sender.
Context {D : Type} `{HCH : Has channel_row D} `{HAL : Has alert_row D}.

(** [notifier.Send]: the delivery to a channel of a severity, a subject and a
    message. *)
Context (deliver : channel_row → string → string → string → error).

Definition send_one (ch : channel_row) (severity subject message : string) : M D () :=
  if negb (ch_enabled ch) then mret ()
  else
    let* r := Alerts.Create (ch_id ch) severity subject message "pending" in
    match r with
    | Err _ => mret ()
    | Ok id =>
        match NewNotifier (ch_type ch) with
        | Some e => let* _ := Alerts.MarkFailed id e in mret ()
        | None =>
            match deliver ch severity subject message with
            | Some e => let* _ := Alerts.MarkFailed id e in mret ()
            | None => let* _ := Alerts.MarkSent id in mret ()
            end
        end
    end.

Definition Send (severity subject message : string) : M D () :=
  let* r := AlertChannels.List in
  match r with
  | Err _ => mret ()
  | Ok channels => mfor channels (λ ch, send_one ch severity subject message)
  end.
End Sender.

(** * jobs/healthcheck.go *)

(** What [hc.client.Do] and the reading of the body gave: whether the request
    could be built, the latency in milliseconds, and the response, if any: the
    status code and, when the body is the expected JSON, its status field. *)
Record probe := Probe { p_request_ok : bool; p_latency : Z; p_response : option (Z * option string) }.

(** The status [checkServer] passes on, with the latency. *)
Definition health_of (p : probe) : string * Z :=
  if negb (p_request_ok p) then ("offline", 0)
  else match p_response p with
       | None | Some (_, None) => ("offline", p_latency p)
       | Some (code, Some st) =>
           if (500 <=? code) || negb (st =? "ok")%string then ("offline", p_latency p)
           else if 1000 <? p_latency p then ("degraded", p_latency p)
           else ("online", p_latency p)
       end.

Section HealthCheck.
Context {D : Type} `{HV : Has server_row D} `{HCH : Has channel_row D} `{HAL : Has alert_row D}.
Context (deliver : channel_row → string → string → string → error).

(** [srv] is the row [checkAll] read. *)
Definition updateAndAlert (srv : server_row) (status : string) (latencyMs : Z) : M D () :=
  let previousStatus := sv_health srv in
  let* r := Servers.UpdateHealth (sv_id srv) status latencyMs in
  match r with
  | Err _ => mret ()
  | Ok _ =>
      let* _ := if (status =? "online")%string && str_in ["pending"; "offline"] (sv_status srv)
                then let* _ := Servers.UpdateStatus (sv_id srv) "online" in mret () else mret () in
      let* _ := if (status =? "offline")%string && str_in ["online"; "degraded"] (sv_status srv)
                then let* _ := Servers.UpdateStatus (sv_id srv) "offline" in mret () else mret () in
      let* _ := if (status =? "offline")%string && str_in ["online"; "degraded"; "unknown"] previousStatus
                then Send deliver "warning" "Server Offline"
                       ("Server '" +:+ sv_name srv +:+ "' (" +:+ sv_hostname srv +:+ ") is unreachable")
                else mret () in
      if str_in ["online"; "degraded"] status && (previousStatus =? "offline")%string
      then Send deliver "info" "Server Recovered"
             ("Server '" +:+ sv_name srv +:+ "' (" +:+ sv_hostname srv +:+ ") is back online")
      else mret ()
  end.

Definition checkServer (srv : server_row) (p : probe) : M D () :=
  let '(status, latency) := health_of p in updateAndAlert srv status latency.
End HealthCheck.
