(* ===== verification/BackupPlan.v ===== *)
(** What the panel backs up, where and when: src/internal/store/backup_providers.go,
    backupschedules.go (its store), backup_configs.go, backup_config_scope.go and
    the settings. *)
From S2P Require Import Prelude GoStr Json Sql JobStore Accounts Sites Cron.
Local Open Scope Z_scope.
Local Open Scope panel_scope.

Set Default Proof Using "Type".

(** * Rows *)

(** A row of [backup_storage_providers]. *)
Record provider_row := ProviderRow {
  pv_id : Z; pv_name : string; pv_type : string; pv_bucket : string; pv_endpoint : string;
  pv_region : string; pv_access_key : string; pv_secret_key : string; pv_default : bool;
  pv_retention : Z; pv_created : Z; pv_updated : Z }.

#[export] Instance provider_row_id : HasId provider_row := pv_id.

Definition set_pv (v0 : string) (v1 : string) (v2 : string) (v3 : string) (v4 : string) (v5 : string) (v6 : string) (v7 : bool) (v8 : Z) (v9 : Z) (r : provider_row) : provider_row :=
  ProviderRow (pv_id r) v0 v1 v2 v3 v4 v5 v6 v7 v8 (pv_created r) v9.
Definition set_pv_default (v : bool) (r : provider_row) : provider_row :=
  ProviderRow (pv_id r) (pv_name r) (pv_type r) (pv_bucket r) (pv_endpoint r) (pv_region r)
    (pv_access_key r) (pv_secret_key r) v (pv_retention r) (pv_created r) (pv_updated r).

(** A row of [backup_schedules]; [sc_last] and [sc_next] are bound [time.Time]s, in
    nanoseconds. *)
Record schedule_row := ScheduleRow {
  sc_id : Z; sc_site : Z; sc_provider : option Z; sc_cron : string; sc_type : string; sc_enabled :
  bool; sc_last : option Z; sc_next : option Z; sc_created : Z; sc_updated : Z }.

#[export] Instance schedule_row_id : HasId schedule_row := sc_id.

Definition set_sc (v0 : option Z) (v1 : string) (v2 : string) (v3 : bool) (r : schedule_row) : schedule_row :=
  ScheduleRow (sc_id r) (sc_site r) v0 v1 v2 v3 (sc_last r) (sc_next r) (sc_created r)
    (sc_updated r).
Definition set_sc_run (v0 : option Z) (v1 : option Z) (r : schedule_row) : schedule_row :=
  ScheduleRow (sc_id r) (sc_site r) (sc_provider r) (sc_cron r) (sc_type r) (sc_enabled r) v0 v1
    (sc_created r) (sc_updated r).
Definition sc_touch (v : Z) (r : schedule_row) : schedule_row :=
  ScheduleRow (sc_id r) (sc_site r) (sc_provider r) (sc_cron r) (sc_type r) (sc_enabled r)
    (sc_last r) (sc_next r) (sc_created r) v.

(** A row of [backup_configs]: the lists are JSON texts, the times whole seconds. *)
Record config_row := ConfigRow {
  cf_id : Z; cf_name : string; cf_scope : string; cf_sites : string; cf_provider : option Z;
  cf_cron : string; cf_enabled : bool; cf_retention : Z; cf_exclude : string; cf_dbs : string;
  cf_last : option Z; cf_next : option Z; cf_created : Z; cf_updated : Z }.

#[export] Instance config_row_id : HasId config_row := cf_id.

Definition set_cf (v0 : string) (v1 : string) (v2 : string) (v3 : option Z) (v4 : string) (v5 : bool) (v6 : Z) (v7 : string) (v8 : string) (v9 : option Z) (r : config_row) : config_row :=
  ConfigRow (cf_id r) v0 v1 v2 v3 v4 v5 v6 v7 v8 (cf_last r) v9 (cf_created r) (cf_updated r).
Definition set_cf_run (v0 : option Z) (v1 : option Z) (r : config_row) : config_row :=
  ConfigRow (cf_id r) (cf_name r) (cf_scope r) (cf_sites r) (cf_provider r) (cf_cron r)
    (cf_enabled r) (cf_retention r) (cf_exclude r) (cf_dbs r) v0 v1 (cf_created r) (cf_updated r).
Definition cf_touch (v : Z) (r : config_row) : config_row :=
  ConfigRow (cf_id r) (cf_name r) (cf_scope r) (cf_sites r) (cf_provider r) (cf_cron r)
    (cf_enabled r) (cf_retention r) (cf_exclude r) (cf_dbs r) (cf_last r) (cf_next r)
    (cf_created r) v.

(** A row of [app_settings]; [se_id] is the rowid. *)
Record setting_row := SettingRow {
  se_id : Z; se_key : string; se_value : string; se_updated : Z }.

#[export] Instance setting_row_id : HasId setting_row := se_id.

Definition set_se (v0 : string) (v1 : Z) (r : setting_row) : setting_row :=
  SettingRow (se_id r) (se_key r) v0 v1.

(** * backup_providers.go *)

Record Provider := mkProvider {
  ProviderName : string; ProviderType : string; Bucket : string; Endpoint : string; Region : string;
  AccessKey : string; SecretKey : string; IsDefault : bool; ProviderRetention : Z }.

Module BackupProviders.
Section BackupProviders.
Context {D : Type} `{HP : Has provider_row D}.
Notation providers := (tab (A := provider_row)).

Definition new_provider (p : Provider) (n id : Z) : provider_row :=
  ProviderRow id (ProviderName p) (ProviderType p) (Bucket p) (Endpoint p) (Region p) (AccessKey p)
    (SecretKey p) (IsDefault p) (ProviderRetention p) (current_timestamp n) (current_timestamp n).

(** Two statements, not one transaction. *)
Definition Create (p : Provider) : M D (res Z) :=
  let? _ := if IsDefault p
            then wrap "clear defaults" (update_tab (λ _ : provider_row, true) (λ _, set_pv_default false))
            else mret (Ok ()) in
  wrap "insert backup provider" (insert_checked (λ _, true) (new_provider p)).
Definition GetByID (id : Z) : M D (res (option provider_row)) :=
  wrap "scan backup provider" (query (λ _ d, get_row id (providers d))).
(** [ORDER BY is_default DESC, name ASC]. *)
Definition default_first (a b : provider_row) : bool :=
  if eqb (pv_default a) (pv_default b)
  then match String.compare (pv_name a) (pv_name b) with Gt => false | _ => true end
  else pv_default a.
Definition List : M D (res (list provider_row)) :=
  wrap "query backup providers" (query (λ _ d, order_by default_first (t_rows (providers d)))).
Definition Update (id : Z) (p : Provider) : M D (res ()) :=
  let? _ := if IsDefault p
            then wrap "clear defaults" (update_tab (λ r : provider_row, negb (by_id id r)) (λ _, set_pv_default false))
            else mret (Ok ()) in
  wrap "update backup provider" (update_tab (by_id id) (λ n,
    set_pv (ProviderName p) (ProviderType p) (Bucket p) (Endpoint p) (Region p) (AccessKey p)
      (SecretKey p) (IsDefault p) (ProviderRetention p) n)).
Definition Delete (id : Z) : M D (res ()) :=
  wrap "delete backup provider" (delete_tab (by_id (A := provider_row) id)).
Definition GetDefault : M D (res (option provider_row)) :=
  wrap "scan backup provider" (query (λ _ d, select_one pv_default (providers d))).
End BackupProviders.
End BackupProviders.

(** * backupschedules.go *)

(** The functions that call [NextCronRun] have results in [option]: [None] is a
    call that has not returned within the bound [fuel] of the field loops. *)
Module BackupSchedules.
Section BackupSchedules.
Context {D : Type} `{HSC : Has schedule_row D} (fuel : nat).
Notation schedules := (tab (A := schedule_row)).

(** How SQLite orders a stored [time.Time] against CURRENT_TIMESTAMP (true: the
    stored time is not the greater one). *)
Context (time_le_text : Z → Z → bool).

Definition Create (site : Z) (provider : option Z) (cronExpr backupType : string) (enabled : bool) : M D (res Z) :=
  wrap "insert backup schedule" (insert_checked (λ _, true) (λ n id,
    ScheduleRow id site provider cronExpr (if (backupType =? "")%string then "files" else backupType) enabled
      None None (current_timestamp n) (current_timestamp n))).
Definition GetByID (id : Z) : M D (res (option schedule_row)) :=
  wrap "scan backup schedule" (query (λ _ d, get_row id (schedules d))).
Definition ListBySite (site : Z) : M D (res (list schedule_row)) :=
  wrap "query backup schedules by site" (query (λ _ d, select_desc (λ r, sc_site r =? site) (schedules d))).
Definition Update (id : Z) (provider : option Z) (cronExpr backupType : string) (enabled : bool) : M D (res ()) :=
  wrap "update backup schedule"
    (update_tab (by_id id) (λ n r, sc_touch n (set_sc provider cronExpr backupType enabled r))).
Definition Delete (id : Z) : M D (res ()) :=
  wrap "delete backup schedule" (delete_tab (by_id (A := schedule_row) id)).
Definition due (n : Z) (r : schedule_row) : bool :=
  sc_enabled r && match sc_next r with None => true | Some t => time_le_text t n end.
Definition ListDue : M D (res (list schedule_row)) :=
  wrap "query due backup schedules"
    (query (λ n d, select_where (due (current_timestamp n)) (schedules d))).
Definition MarkRun (id : Z) : M D (option (res ())) :=
  let* c := wrap "get cron expr" (query (λ _ d, sc_cron <$> get_row id (schedules d))) in
  match c with
  | Err e => mret (Some (Err e))
  | Ok None => mret (Some (Err "get cron expr: sql: no rows in result set"))
  | Ok (Some cronExpr) =>
      let* now := time_Now in
      match NextCronRun fuel cronExpr now with
      | None => mret None
      | Some nextRun =>
          let* r := wrap "mark run"
            (update_tab (by_id id) (λ n r, sc_touch n (set_sc_run (Some now) (Some nextRun) r))) in
          mret (Some r)
      end
  end.
End BackupSchedules.
End BackupSchedules.

(** * The settings *)

Module Settings.
Section Settings.
Context {D : Type} `{HSE : Has setting_row D}.
Notation settings := (tab (A := setting_row)).

Definition for_key (key : string) (r : setting_row) : bool := (se_key r =? key)%string.
Definition GetSetting (key : string) : M D (res string) :=
  let? o := query (λ _ d, se_value <$> select_one (for_key key) (settings d)) in
  mret match o with Some v => Ok v | None => Err "sql: no rows in result set" end.
(** The upsert. *)
Definition upsert (key value : string) (n : Z) (t : table setting_row) : table setting_row :=
  if has_row (for_key key) t then update_where (for_key key) (set_se value n) t
  else (insert_row (λ id, SettingRow id key value n) t).2.
Definition SetSetting (key value : string) : M D (res ()) :=
  exec (λ n d, ((), set_tab (upsert key value (current_timestamp n) (settings d)) d)).
End Settings.
End Settings.

(** * backup_configs.go *)

Record BackupConfig := mkConfig {
  ID : Z; ConfigName : string; ScopeType : string; SiteIDs : list Z; ProviderID : option Z;
  CronExpr : string; Enabled : bool; RetentionDays : Z; ExcludePatterns : list string;
  DatabaseIDs : list Z }.

Definition marshalInt64Slice (vals : list Z) : string := Marshal (JArr (map JInt vals)).
Definition marshalStringSlice (vals : list string) : string := Marshal (JArr (map JStr vals)).
(** The error of [json.Unmarshal] is dropped: elements of another type stay zero. *)
Definition unmarshalInt64Slice (s : string) : list Z :=
  if (s =? "")%string || (s =? "null")%string then []
  else match parse_text s with Some (JArr l) => map int_elem l | _ => [] end.
Definition unmarshalStringSlice (s : string) : list string :=
  if (s =? "")%string || (s =? "null")%string then []
  else match parse_text s with Some (JArr l) => map str_elem l | _ => [] end.

(** The columns the scheduler and the API use. *)
Definition scanBackupConfig (r : config_row) : BackupConfig :=
  mkConfig (cf_id r) (cf_name r) (cf_scope r) (unmarshalInt64Slice (cf_sites r)) (cf_provider r)
    (cf_cron r) (cf_enabled r) (cf_retention r) (unmarshalStringSlice (cf_exclude r))
    (unmarshalInt64Slice (cf_dbs r)).

Module BackupConfigs.
Section BackupConfigs.
Context {D : Type} `{HCF : Has config_row D} (fuel : nat).
Notation configs := (tab (A := config_row)).

Definition new_config (c : BackupConfig) (next n id : Z) : config_row :=
  ConfigRow id (ConfigName c) (if (ScopeType c =? "")%string then "files" else ScopeType c)
    (marshalInt64Slice (SiteIDs c)) (ProviderID c) (CronExpr c) (Enabled c) (RetentionDays c)
    (marshalStringSlice (ExcludePatterns c)) (marshalInt64Slice (DatabaseIDs c))
    None (Some (current_timestamp next)) (current_timestamp n) (current_timestamp n).

Definition Create (c : BackupConfig) : M D (option (res Z)) :=
  let* now := time_Now in
  match NextCronRun fuel (CronExpr c) now with
  | None => mret None
  | Some next =>
      let* r := wrap "insert backup config" (insert_checked (λ _, true) (new_config c next)) in mret (Some r)
  end.
Definition GetByID (id : Z) : M D (res (option BackupConfig)) :=
  wrap "scan backup config" (query (λ _ d, scanBackupConfig <$> get_row id (configs d))).
Definition ListAll : M D (res (list BackupConfig)) :=
  wrap "query backup configs" (query (λ _ d, map scanBackupConfig (select_desc (λ _, true) (configs d)))).
Definition Update (c : BackupConfig) : M D (option (res ())) :=
  let* now := time_Now in
  match NextCronRun fuel (CronExpr c) now with
  | None => mret None
  | Some next =>
      let* r := wrap "update backup config" (update_tab (by_id (ID c)) (λ n r, cf_touch n
        (set_cf (ConfigName c) (ScopeType c) (marshalInt64Slice (SiteIDs c)) (ProviderID c) (CronExpr c)
           (Enabled c) (RetentionDays c) (marshalStringSlice (ExcludePatterns c))
           (marshalInt64Slice (DatabaseIDs c)) (Some (current_timestamp next)) r))) in
      mret (Some r)
  end.
Definition Delete (id : Z) : M D (res ()) :=
  wrap "delete backup config" (delete_tab (by_id (A := config_row) id)).
Definition due (n : Z) (r : config_row) : bool :=
  cf_enabled r && match cf_next r with None => true | Some t => t <=? n end.
Definition ListDue : M D (res (list BackupConfig)) :=
  wrap "query due backup configs"
    (query (λ n d, map scanBackupConfig (select_where (due (current_timestamp n)) (configs d)))).
Definition MarkRun (id : Z) : M D (option (res ())) :=
  let* c := wrap "get cron expr" (query (λ _ d, cf_cron <$> get_row id (configs d))) in
  match c with
  | Err e => mret (Some (Err e))
  | Ok None => mret (Some (Err "get cron expr: sql: no rows in result set"))
  | Ok (Some cronExpr) =>
      let* now := time_Now in
      match NextCronRun fuel cronExpr now with
      | None => mret None
      | Some nextRun =>
          let* r := wrap "mark run" (update_tab (by_id id) (λ n r, cf_touch n
            (set_cf_run (Some (current_timestamp now)) (Some (current_timestamp nextRun)) r))) in
          mret (Some r)
      end
  end.
End BackupConfigs.
End BackupConfigs.

(** * backup_config_scope.go *)

Definition scope_sites (l : list site_row) : list Z :=
  omap (λ s, if (s_status s =? "active")%string then Some (s_id s) else None) l.

Section Scope.
Context {D : Type} `{HS : Has site_row D} (like : string → string → bool).

Definition ResolveBackupConfigSiteIDs (cfg : BackupConfig) : M D (res (list Z)) :=
  match SiteIDs cfg with
  | _ :: _ => mret (Ok (SiteIDs cfg))
  | [] =>
      if negb (ScopeType cfg =? "database")%string && negb (ScopeType cfg =? "both")%string then mret (Ok [])
      else let? sites := Sites.List like (mkSiteListFilter 0 0 "" "" "" 10000 0) in
           mret (Ok (scope_sites sites))
  end.
End Scope.

(** [jobs.effectiveBackupSiteIDs], the same choice on a list of sites. *)
Definition effectiveBackupSiteIDs (cfg : BackupConfig) (sites : list site_row) : list Z :=
  match SiteIDs cfg with
  | _ :: _ => SiteIDs cfg
  | [] => if negb (ScopeType cfg =? "database")%string && negb (ScopeType cfg =? "both")%string then []
          else scope_sites sites
  end.

(** * Facts *)

(** ** Due times *)

Lemma next_run_second (fuel : nat) (e : string) (now next : Z) :
  NextCronRun fuel e now = Some next → current_timestamp now < current_timestamp next.
Proof.
  intros [Hl [Ho| ->]]%NextCronRun_later; unfold current_timestamp.
  - apply on_minute_inv in Ho. rewrite Ho in Hl |- *. revert Hl. generalize (next / Minute). intros k Hk.
    unfold Minute, Second in *. dlia.
  - unfold Hour, Minute, Second. dlia.
Qed.

Section PlanFacts.
Context {D : Type}.

(** running a configuration moves it past its due time: when [MarkRun] succeeds,
    the row's next run is what [NextCronRun] gives for its expression, the row is not
    due again at any second from now until then, and no other row changes; when it
    fails, or the expression keeps the parser in its loop, nothing changes. *)
Theorem MarkRun_not_due `{HCF : Has config_row D} (fuel : nat) (id : Z) (w : world D)
    (Hw : table_wf (tab (A := config_row) (data w))) :
  wp (BackupConfigs.MarkRun fuel id) (λ r w', match r with
    | Some (Ok _) => ∃ row next row',
        get_row id (tab (A := config_row) (data w)) = Some row ∧
        NextCronRun fuel (cf_cron row) (clock w) = Some next ∧
        get_row id (tab (A := config_row) (data w')) = Some row' ∧
        cf_next row' = Some (current_timestamp next) ∧
        (∀ s, current_timestamp (clock w) ≤ s < current_timestamp next → BackupConfigs.due s row' = false) ∧
        (∃ s, current_timestamp (clock w) ≤ s < current_timestamp next) ∧
        (∀ i, i ≠ id → get_row i (tab (A := config_row) (data w')) = get_row i (tab (A := config_row) (data w)))
    | _ => data w' = data w
    end) w.
Proof.
  unfold BackupConfigs.MarkRun. wp_step. wp_step. wp_step; [by wp_run|]. cbn [data clock].
  destruct (get_row id (tab (data w))) as [row|] eqn:Er; cbn [fmap option_fmap option_map]; [|by wp_run].
  wp_step. wp_step. cbn [clock].
  destruct (NextCronRun fuel (cf_cron row) (clock w)) as [next|] eqn:En; [|by wp_run].
  wp_step. wp_step. unfold update_tab. wp_step; [by wp_run|]. wp_run. rewrite tab_set.
  pose proof (next_run_second _ _ _ _ En) as Hlt.
  exists row, next. eexists. split; [done|]. split; [exact En|]. split.
  { rewrite get_update_id by done. by rewrite Z.eqb_refl, Er. }
  split; [done|]. split; [|split].
  - intros s Hs. unfold BackupConfigs.due. cbn.
    destruct (Z.leb_spec (current_timestamp next) s); [lia|]. by rewrite andb_false_r.
  - exists (current_timestamp (clock w)). lia.
  - intros i Hi. rewrite get_update_id by done. by rewrite (proj2 (Z.eqb_neq i id)).
Qed.

(** ** The default provider *)

Definition one_default (t : table provider_row) : Prop :=
  ∀ r s, In r (t_rows t) → In s (t_rows t) → pv_default r = true → pv_default s = true → pv_id r = pv_id s.

Inductive provider_op :=
| PCreate (p : Provider) | PUpdate (id : Z) (p : Provider) | PDelete (id : Z).
Definition run_provider_op `{Has provider_row D} (o : provider_op) : M D () :=
  match o with
  | PCreate p => let* _ := BackupProviders.Create p in mret ()
  | PUpdate id p => let* _ := BackupProviders.Update id p in mret ()
  | PDelete id => let* _ := BackupProviders.Delete id in mret ()
  end.

Lemma one_default_cleared (t : table provider_row) (q : provider_row → bool) :
  one_default t → one_default (update_where q (set_pv_default false) t).
Proof.
  intros H r s Hr Hs. cbn in Hr, Hs. apply in_map_iff in Hr as (r0 & <- & Hr), Hs as (s0 & <- & Hs).
  destruct (q r0), (q s0); cbn; try done. by apply H.
Qed.

Lemma none_default_cleared (t : table provider_row) (q : provider_row → bool) r :
  In r (t_rows (update_where q (set_pv_default false) t)) → q r = true → (∀ r, q (set_pv_default false r) = q r) →
  pv_default r = false.
Proof.
  cbn. intros (r0 & <- & Hr)%in_map_iff Hq Hc. destruct (q r0) eqn:E; [done|]. congruence.
Qed.

Lemma one_default_insert (t : table provider_row) (p : Provider) (n : Z) :
  one_default t → (IsDefault p = true → ∀ r, In r (t_rows t) → pv_default r = false) →
  one_default (insert_row (BackupProviders.new_provider p n) t).2.
Proof.
  intros H Hp r s. cbn. rewrite !in_app_iff. intros [Hr|[<-|[]]] [Hs|[<-|[]]] Hdr Hds; [by apply H| | |done]; cbn in *.
  - by rewrite (Hp Hds r Hr) in Hdr.
  - by rewrite (Hp Hdr s Hs) in Hds.
Qed.

Lemma one_default_update (t : table provider_row) (id : Z) (f : provider_row → provider_row) :
  one_default t → (∀ r, row_id (f r) = row_id r) →
  ((∀ r, pv_default (f r) = false) ∨ (∀ r, In r (t_rows t) → pv_id r ≠ id → pv_default r = false)) →
  one_default (update_where (by_id id) f t).
Proof.
  intros H Hf Hd r s Hr Hs. cbn in Hr, Hs. apply in_map_iff in Hr as (r0 & <- & Hr), Hs as (s0 & <- & Hs).
  unfold by_id. change (row_id (A := provider_row)) with pv_id in *.
  destruct (Z.eqb_spec (pv_id r0) id), (Z.eqb_spec (pv_id s0) id); intros H1 H2; rewrite ?Hf; [congruence| | |by apply H];
    (destruct Hd as [Hd|Hd]; [rewrite Hd in *; done|]).
  - by rewrite (Hd s0 Hs) in H2.
  - by rewrite (Hd r0 Hr) in H1.
Qed.

(** whatever statements fail, the operations on the providers keep at most one
    provider marked as the default, though the two statements of a change are not one
    transaction. *)
Theorem provider_ops_one_default `{HP : Has provider_row D} (ops : list provider_op) (w : world D)
    (H : one_default (tab (data w))) :
  wp (mfor ops run_provider_op) (λ _ w', one_default (tab (data w'))) w.
Proof.
  apply wp_mfor; [|done]. clear w H. intros o w _ H. clear ops. destruct o as [p|id p|id]; cbn [run_provider_op].
  - unfold BackupProviders.Create, update_tab. destruct (IsDefault p) eqn:Ed.
    + wp_step. wp_step. wp_step. wp_step; [by wp_run|]. wp_step. cbn [data clock].
      apply wp_insert_checked; [by intros; wp_run; rewrite ?tab_set; apply one_default_cleared|].
      intros fs2 _. wp_run. rewrite !tab_set. apply one_default_insert; [by apply one_default_cleared|].
      intros _ r Hr. by apply (none_default_cleared _ _ r Hr).
    + wp_step. wp_step. wp_step. wp_step. apply wp_insert_checked; [by intros; wp_run|].
      intros fs _. wp_run. rewrite tab_set. apply one_default_insert; [done|congruence].
  - unfold BackupProviders.Update, update_tab. destruct (IsDefault p) eqn:Ed.
    + wp_step. wp_step. wp_step. wp_step; [by wp_run|]. wp_step. cbn [data clock].
      wp_step; [by wp_run; rewrite tab_set; apply one_default_cleared|]. wp_run. rewrite !tab_set.
      apply one_default_update; [by apply one_default_cleared|done|]. right. intros r Hr Hi.
      apply (none_default_cleared _ _ r Hr); [|done]. unfold by_id. by rewrite (proj2 (Z.eqb_neq _ _)).
    + wp_run; [done|]. rewrite tab_set. apply one_default_update; [done|done|]. by left.
  - unfold BackupProviders.Delete, delete_tab. wp_run; [done|]. rewrite tab_set. intros r s.
    cbn. intros [Hr _]%List.filter_In [Hs _]%List.filter_In. by apply H.
Qed.

(** ** Configurations *)

Lemma int64_slice_roundtrip (l : list Z) : Forall int64 l → unmarshalInt64Slice (marshalInt64Slice l) = l.
Proof.
  intros (v & E & Hv)%ints_roundtrip. unfold unmarshalInt64Slice, marshalInt64Slice. rewrite E, Hv.
  cbn [Marshal]. by destruct (map Marshal (map JInt l)) as [|s [|]].
Qed.

Lemma string_slice_roundtrip (l : list string) :
  forallb ascii_str l = true → unmarshalStringSlice (marshalStringSlice l) = l.
Proof.
  intros H. unfold unmarshalStringSlice, marshalStringSlice. rewrite parse_marshal.
  - rewrite map_map. cbn [str_elem]. rewrite map_id. cbn [Marshal]. by destruct (map Marshal (map JStr l)) as [|s [|]].
  - cbn. rewrite forallb_forall in H. apply forallb_forall. intros v (s & <- & Hs)%in_map_iff. by apply H.
Qed.

(** The configuration as it is stored: the id is the table's, the scope has its default. *)
Definition saved (c : BackupConfig) (id : Z) : BackupConfig :=
  mkConfig id (ConfigName c) (if (ScopeType c =? "")%string then "files" else ScopeType c) (SiteIDs c)
    (ProviderID c) (CronExpr c) (Enabled c) (RetentionDays c) (ExcludePatterns c) (DatabaseIDs c).
Definition create_then_get `{HCF : Has config_row D} (fuel : nat) (c : BackupConfig) :
    M D (option (Z * res (option BackupConfig))) :=
  let* r := BackupConfigs.Create fuel c in
  match r with
  | Some (Ok id) => let* g := BackupConfigs.GetByID id in mret (Some (id, g))
  | _ => mret None
  end.

(** a configuration is read back as it was created: the site and database ids and the
    exclude patterns survive the JSON columns, for ids that are [int64]s and patterns
    of ASCII texts. *)
Theorem BackupConfig_roundtrip `{HCF : Has config_row D} (fuel : nat) (c : BackupConfig) (w : world D)
    (Hw : table_wf (tab (A := config_row) (data w)))
    (Hs : Forall int64 (SiteIDs c)) (Hd : Forall int64 (DatabaseIDs c))
    (He : forallb ascii_str (ExcludePatterns c) = true) :
  wp (create_then_get fuel c) (λ o _, match o with
    | Some (id, Ok g) => g = Some (saved c id)
    | _ => True
    end) w.
Proof.
  unfold create_then_get, BackupConfigs.Create. wp_step. wp_step. wp_step. cbn [clock].
  destruct (NextCronRun fuel (CronExpr c) (clock w)) as [next|]; [|by wp_run].
  wp_step. wp_step. apply wp_insert_checked; [by intros; wp_run|]. intros fs _.
  unfold BackupConfigs.GetByID. wp_run; [done|]. rewrite tab_set, get_insert by done. rewrite Z.eqb_refl.
  cbn [fmap option_fmap option_map]. f_equal. unfold scanBackupConfig, BackupConfigs.new_config, saved.
  cbn [cf_id cf_name cf_scope cf_sites cf_provider cf_cron cf_enabled cf_retention cf_exclude cf_dbs].
  by rewrite !int64_slice_roundtrip, string_slice_roundtrip by done.
Qed.

(** both copies of the scope rule agree: what [ResolveBackupConfigSiteIDs] returns is
    what the scheduler's [effectiveBackupSiteIDs] gives on the sites of the database,
    newest first, as long as the panel has at most 10,000 of them. *)
Theorem ResolveBackupConfigSiteIDs_effective `{HS : Has site_row D} (like : string → string → bool)
    (cfg : BackupConfig) (w : world D) (Hn : Z.of_nat (length (t_rows (tab (A := site_row) (data w)))) ≤ 10000) :
  wp (ResolveBackupConfigSiteIDs like cfg) (λ r w', data w' = data w ∧ match r with
    | Ok ids => ids = effectiveBackupSiteIDs cfg (rev (t_rows (tab (A := site_row) (data w))))
    | Err _ => True
    end) w.
Proof.
  unfold ResolveBackupConfigSiteIDs, effectiveBackupSiteIDs. destruct (SiteIDs cfg); [|by wp_run].
  destruct (_ && _); [by wp_run|]. unfold Sites.List. wp_run; [done|]. split; [done|].
  unfold select_desc, select_where. rewrite (forallb_filter_id (A := site_row)).
  - unfold limit_offset. cbn [sf_offset Z.to_nat drop]. rewrite take_ge; [done|].
    etransitivity; [apply Nat.eq_le_incl, List.length_rev|]. change (if sf_limit _ <=? 0 then _ else _) with 10000. lia.
  - by apply forallb_forall.
Qed.
End PlanFacts.

(** * Witnesses *)

Definition sample_config : BackupConfig :=
  mkConfig 0 "nightly" "" [3; 14] None "0 2 * * *" true 7 ["*.log"; "cache/<tmp>"] [].
Definition sample_configs : table config_row :=
  Table [BackupConfigs.new_config sample_config 0 0 1] 1.

Lemma sample_configs_wf : table_wf sample_configs.
Proof. split; [| |done]; cbn; repeat constructor; cbn; lia. Qed.

Lemma MarkRun_not_due_witness :
  wp (BackupConfigs.MarkRun 100 1) (λ r w', match r with
    | Some (Ok _) => ∃ row next row',
        get_row 1 sample_configs = Some row ∧
        NextCronRun 100 (cf_cron row) 0 = Some next ∧
        get_row 1 (data w') = Some row' ∧
        cf_next row' = Some (current_timestamp next) ∧
        (∀ s, current_timestamp 0 ≤ s < current_timestamp next → BackupConfigs.due s row' = false) ∧
        (∃ s, current_timestamp 0 ≤ s < current_timestamp next) ∧
        (∀ i, i ≠ 1 → get_row i (data w') = get_row i sample_configs)
    | _ => data w' = sample_configs
    end) (World sample_configs 0 []).
Proof. exact (MarkRun_not_due (HCF := has_self _) 100 1 (World sample_configs 0 []) sample_configs_wf). Defined.

Definition sample_provider (b : bool) : Provider := mkProvider "r2" "s3" "b" "e" "auto" "ak" "sk" b 0.
Definition sample_provider_ops : list provider_op :=
  [PCreate (sample_provider true); PCreate (sample_provider true); PUpdate 1 (sample_provider true)].

Lemma provider_ops_one_default_witness :
  map pv_default (t_rows (data (mfor sample_provider_ops run_provider_op (World empty_table 0 [])).2)) = [true; false] ∧
  wp (mfor sample_provider_ops run_provider_op) (λ _ w', one_default (data w')) (World empty_table 0 [None; Some "busy"]).
Proof.
  split; [reflexivity|].
  apply (provider_ops_one_default (HP := has_self _) sample_provider_ops (World empty_table 0 [None; Some "busy"])).
  by intros r s [].
Defined.

Lemma BackupConfig_roundtrip_witness :
  wp (create_then_get 100 sample_config) (λ o _, match o with
    | Some (id, Ok g) => g = Some (saved sample_config id)
    | _ => True
    end) (World sample_configs 0 []).
Proof.
  apply (BackupConfig_roundtrip (HCF := has_self _) 100 sample_config (World sample_configs 0 []));
    [exact sample_configs_wf|cbn; repeat constructor; done|constructor|reflexivity].
Defined.

Definition sample_plan_sites : table site_row :=
  Table [new_site (mkSite 1 "a" "a.test" "php" "" "active" None None None None None None None None None None None None) 0 10;
         new_site (mkSite 1 "b" "b.test" "php" "" "pending" None None None None None None None None None None None None) 0 11;
         new_site (mkSite 1 "c" "c.test" "php" "" "active" None None None None None None None None None None None None) 0 12] 12.
Definition all_sites_config : BackupConfig := mkConfig 0 "all" "both" [] None "0 2 * * *" true 7 [] [].

Lemma ResolveBackupConfigSiteIDs_effective_witness :
  (ResolveBackupConfigSiteIDs (λ _ _, true) all_sites_config (World sample_plan_sites 0 [])).1 = Ok [12; 10] ∧
  wp (ResolveBackupConfigSiteIDs (λ _ _, true) all_sites_config) (λ r w', data w' = sample_plan_sites ∧ match r with
    | Ok ids => ids = effectiveBackupSiteIDs all_sites_config (rev (t_rows sample_plan_sites))
    | Err _ => True
    end) (World sample_plan_sites 0 []).
Proof.
  split; [reflexivity|].
  apply (ResolveBackupConfigSiteIDs_effective (HS := has_self _) (λ _ _, true) all_sites_config (World sample_plan_sites 0 [])).
  cbn. lia.
Defined.
