(* ===== verification/Records.v ===== *)
(** The databases of the sites and their credentials (src/internal/store/databases.go,
    backup_credentials.go, the store half of src/internal/dbserver/dbserver.go), the
    audit log (src/internal/audit/audit.go, store/audit_logs.go) and the in-app
    notifications (store/notifications.go, notify_helper.go). *)
From S2P Require Import Prelude GoStr Json Base64 Sql JobStore Accounts Sites Secrets.
Local Open Scope Z_scope.
Local Open Scope panel_scope.

Set Default Proof Using "Type".

(** * Rows *)

(** A row of [db_users]. *)
Record db_user_row := DBUserRow {
  du_id : Z; du_database : Z; du_username : string; du_hash : string; du_encrypted : string;
  du_host : string; du_privileges : string; du_created : Z }.

#[export] Instance db_user_row_id : HasId db_user_row := du_id.

Definition set_du_hash (v : string) (r : db_user_row) : db_user_row :=
  DBUserRow (du_id r) (du_database r) (du_username r) v (du_encrypted r) (du_host r)
    (du_privileges r) (du_created r).
Definition set_du_encrypted (v : string) (r : db_user_row) : db_user_row :=
  DBUserRow (du_id r) (du_database r) (du_username r) (du_hash r) v (du_host r)
    (du_privileges r) (du_created r).
Definition set_du_grants (v0 : string) (v1 : string) (r : db_user_row) : db_user_row :=
  DBUserRow (du_id r) (du_database r) (du_username r) (du_hash r) (du_encrypted r) v0 v1
    (du_created r).

(** A row of [database_servers], which is also the struct [dbserver.Server]. *)
Record db_server_row := DBServerRow {
  ds_id : Z; ds_name : string; ds_engine : string; ds_host : string; ds_port : Z; ds_username :
  string; ds_password : string; ds_backup_user : string; ds_backup_password : string; ds_active :
  bool; ds_default : bool; ds_created : Z; ds_updated : Z }.

#[export] Instance db_server_row_id : HasId db_server_row := ds_id.

Definition set_ds (v0 : string) (v1 : string) (v2 : string) (v3 : Z) (v4 : string) (v5 : string) (v6 : string) (v7 : string) (v8 : bool) (v9 : bool) (v10 : Z) (r : db_server_row) : db_server_row :=
  DBServerRow (ds_id r) v0 v1 v2 v3 v4 v5 v6 v7 v8 v9 (ds_created r) v10.
Definition set_ds_username (v : string) (r : db_server_row) : db_server_row :=
  DBServerRow (ds_id r) (ds_name r) (ds_engine r) (ds_host r) (ds_port r) v (ds_password r)
    (ds_backup_user r) (ds_backup_password r) (ds_active r) (ds_default r) (ds_created r)
    (ds_updated r).

(** A row of [notifications]. *)
Record notification_row := NotificationRow {
  no_id : Z; no_user : Z; no_type : string; no_title : string; no_message : string; no_severity :
  string; no_read : bool; no_entity : string; no_entity_id : Z; no_created : Z; no_read_at :
  option Z }.

#[export] Instance notification_row_id : HasId notification_row := no_id.

Definition set_no_read (v0 : bool) (v1 : option Z) (r : notification_row) : notification_row :=
  NotificationRow (no_id r) (no_user r) (no_type r) (no_title r) (no_message r) (no_severity r)
    v0 (no_entity r) (no_entity_id r) (no_created r) v1.

(** * databases.go *)

Module Databases.
Section Databases.
Context {D : Type} `{HDB : Has database_row D}.
Notation databases := (tab (A := database_row)).

Definition or_default (x d : string) : string := if (x =? "")%string then d else x.
Definition Create (site : Z) (name type charset collation : string) (size : Z) : M D (res Z) :=
  wrap "insert database" (insert_checked (λ _, true) (λ n id,
    DatabaseRow id site name type (or_default charset "utf8mb4") (or_default collation "utf8mb4_unicode_ci")
      size (current_timestamp n))).
Definition GetByID (id : Z) : M D (res (option database_row)) :=
  wrap "scan database" (query (λ _ d, get_row id (databases d))).
Definition GetByName (name : string) : M D (res (option database_row)) :=
  wrap "scan database" (query (λ _ d, select_one (λ r, (db_name r =? name)%string) (databases d))).
Definition ListBySite (site : Z) : M D (res (list database_row)) :=
  wrap "query databases" (query (λ _ d, select_where (λ r, db_site r =? site) (databases d))).
Definition ListAll : M D (res (list database_row)) :=
  wrap "query all databases" (query (λ _ d, t_rows (databases d))).
Definition UpdateCharset (id : Z) (charset collation : string) : M D (res ()) :=
  wrap "update database charset" (update_tab (by_id id) (λ _, set_charset charset collation)).
Definition Delete `{HRF : References database_row D} (id : Z) : M D (res ()) :=
  wrap "delete database" (delete_parent (by_id (A := database_row) id)).
End Databases.
End Databases.

Module DBUsers.
Section DBUsers.
Context {D : Type} `{HDU : Has db_user_row D}.
Notation users := (tab (A := db_user_row)).

Definition Create (database : Z) (username hash encrypted host privileges : string) : M D (res Z) :=
  wrap "insert db user" (insert_checked (λ _, true) (λ n id,
    DBUserRow id database username hash encrypted host privileges (current_timestamp n))).
Definition GetByID (id : Z) : M D (res (option db_user_row)) :=
  wrap "scan db user" (query (λ _ d, get_row id (users d))).
Definition GetByUsernameAndDatabase (username : string) (database : Z) : M D (res (option db_user_row)) :=
  wrap "scan db user" (query (λ _ d,
    select_one (λ r, (du_username r =? username)%string && (du_database r =? database)) (users d))).
Definition ListByDatabase (database : Z) : M D (res (list db_user_row)) :=
  wrap "query db users" (query (λ _ d, select_where (λ r, du_database r =? database) (users d))).
Definition UpdatePassword (id : Z) (hash : string) : M D (res ()) :=
  wrap "update db user password" (update_tab (by_id id) (λ _, set_du_hash hash)).
Definition UpdateEncryptedPassword (id : Z) (encrypted : string) : M D (res ()) :=
  wrap "update encrypted password" (update_tab (by_id id) (λ _, set_du_encrypted encrypted)).
Definition UpdateHostAndPrivileges (id : Z) (host privileges : string) : M D (res ()) :=
  wrap "update host/privs" (update_tab (by_id id) (λ _, set_du_grants host privileges)).
Definition Delete (id : Z) : M D (res ()) :=
  wrap "delete db user" (delete_tab (by_id (A := db_user_row) id)).
End DBUsers.
End DBUsers.

(** * dbserver.go: the store and the stored passwords *)

Module DBServer.
Section Passwords.
Context `{HA : AEAD} (rand : random).

(** [i]: which read of the random source this call makes. *)
Definition EncryptPassword (i : nat) (plaintext : string) : res string :=
  if negb key_ok then Err "crypto/aes: invalid key size"
  else match rand i with
       | Err e => Err e
       | Ok nonce => Ok (b64_encode true (nonce +:+ Seal nonce plaintext))
       end.
Definition DecryptPassword (encrypted : string) : res string :=
  match b64_decode true encrypted with
  | None => Err "illegal base64 data"
  | Some raw =>
      if negb key_ok then Err "crypto/aes: invalid key size"
      else if Z.of_nat (String.length raw) <? 12 then Err "ciphertext too short"
      else match Open (str_take 12 raw) (str_drop 12 raw) with
           | None => Err "cipher: message authentication failed"
           | Some pt => Ok pt
           end
  end.
End Passwords.

Section Store.
Context {D : Type} `{HDS : Has db_server_row D}.
Notation servers := (tab (A := db_server_row)).

Definition default_server (r : db_server_row) : bool := ds_default r && ds_active r.
Definition GetDefault : M D (res (option db_server_row)) :=
  query (λ _ d, select_one default_server (servers d)).
Definition GetBackupCredentials : M D (res (string * string)) :=
  let? o := query (λ _ d, select_one default_server (servers d)) in
  mret match o with
       | None => Err UserSites.ErrNoRows
       | Some r =>
           if (trim_space (ds_backup_user r) =? "")%string || (trim_space (ds_backup_password r) =? "")%string
           then Err "dedicated database backup credential is not configured"
           else Ok (ds_backup_user r, ds_backup_password r)
       end.
(** The id is stored in the caller's struct. *)
Definition SetServer (s : db_server_row) : M D (res Z) :=
  if 0 <? ds_id s then
    let? _ := update_tab (by_id (ds_id s)) (λ n, set_ds (ds_name s) (ds_engine s) (ds_host s) (ds_port s)
                (ds_username s) (ds_password s) (ds_backup_user s) (ds_backup_password s) (ds_active s)
                (ds_default s) n) in
    mret (Ok (ds_id s))
  else insert_checked (λ _, true) (λ n id, DBServerRow id (ds_name s) (ds_engine s) (ds_host s) (ds_port s)
         (ds_username s) (ds_password s) (ds_backup_user s) (ds_backup_password s) (ds_active s)
         (ds_default s) (current_timestamp n) (current_timestamp n)).
End Store.
End DBServer.

(** * backup_credentials.go *)

(** [strings.EqualFold] with a lower-case ASCII text. *)
Definition equal_fold (s lower : string) : bool := (to_lower s =? lower)%string.
Definition mysql_like (d : database_row) : bool := equal_fold (db_type d) "mysql" || equal_fold (db_type d) "mariadb".

Section Credentials.
Context {D : Type} `{HDS : Has db_server_row D} `{HDU : Has db_user_row D} `{HA : AEAD}.

(** [dbserver.Connect] and [DatabaseAccessible] against the server, under its
    user name, with a password, for a schema. *)
Context (accessible : db_server_row → string → string → res bool).

(** Without a default server GetBackupCredentials has failed before the nil pointer is used. *)
Definition BackupDatabaseExists (database : database_row) : M D (res bool) :=
  if negb (mysql_like database) then mret (Ok true)
  else
    let? server := wrap "get database server" DBServer.GetDefault in
    let? c := DBServer.GetBackupCredentials in
    let '(username, encrypted) := c in
    mret match DBServer.DecryptPassword encrypted, server with
         | Err e, _ => Err ("decrypt dedicated backup credential: " +:+ e)
         | Ok password, Some s => accessible (set_ds_username username s) password (db_name database)
         | Ok _, None => Err "invalid memory address or nil pointer dereference"
         end.

(** The first user of the database whose password decrypts to a non-empty one. *)
Fixpoint first_decryptable (l : list db_user_row) : option (string * string) :=
  match l with
  | [] => None
  | u :: l' =>
      match DBServer.DecryptPassword (du_encrypted u) with
      | Ok p => if negb (p =? "")%string then Some (du_username u, p) else first_decryptable l'
      | Err _ => first_decryptable l'
      end
  end.

Definition DatabaseBackupCredentials (database : database_row) : M D (res (string * string)) :=
  if mysql_like database then
    let? c := DBServer.GetBackupCredentials in
    let '(username, encrypted) := c in
    mret match DBServer.DecryptPassword encrypted with
         | Err e => Err ("decrypt dedicated backup credential: " +:+ e)
         | Ok password =>
             if (password =? "")%string
             then Err "decrypt dedicated backup credential: empty dedicated backup password"
             else Ok (username, password)
         end
  else
    let? users := wrap "list database users" (DBUsers.ListByDatabase (db_id database)) in
    mret match first_decryptable users with
         | Some c => Ok c
         | None => Err "no decryptable database user password"
         end.
End Credentials.

(** * audit.go *)

Module Audit.
Section Audit.
Context {D : Type} `{HAU : Has audit_row D}.

Definition positive (i : Z) : option Z := if 0 <? i then Some i else None.
(** [details]: the JSON of the details, [None] for nil. *)
Definition RecordAction (userID : Z) (action resource : string) (resourceID : Z) (details : option json) : M D () :=
  let* _ := insert_checked (λ _, true) (λ n id,
    AuditRow id (positive userID) action resource (positive resourceID) (Marshal <$> details)
      (current_timestamp n)) in
  mret ().
Definition NullifyUser (userID : Z) : M D (res ()) :=
  update_tab (λ r : audit_row, bool_decide (au_user r = Some userID)) (λ _, set_audit_user None).

Record AuditLogFilter := mkAuditLogFilter {
  af_user : Z; af_resource : string; af_action : string; af_limit : Z; af_offset : Z }.
Definition audit_filter (f : AuditLogFilter) (r : audit_row) : bool :=
  (if 0 <? af_user f then bool_decide (au_user r = Some (af_user f)) else true) &&
  (if negb (af_resource f =? "")%string then (au_resource r =? af_resource f)%string else true) &&
  (if negb (af_action f =? "")%string then (au_action r =? af_action f)%string else true).
Definition List (f : AuditLogFilter) : M D (res (list audit_row)) :=
  let limit := if af_limit f <=? 0 then 100 else af_limit f in
  wrap "query audit logs"
    (query (λ _ d, limit_offset limit (af_offset f) (select_desc (audit_filter f) (tab d)))).
End Audit.
End Audit.

(** * notifications.go, notify_helper.go *)

Module Notifications.
Section Notifications.
Context {D : Type} `{HN : Has notification_row D}.
Notation notes := (tab (A := notification_row)).

Definition Create (user : Z) (type title message severity entity : string) (entityID : Z) : M D (res Z) :=
  wrap "insert notification" (insert_checked (λ _, true) (λ n id,
    NotificationRow id user type title message severity false entity entityID (current_timestamp n) None)).
Definition GetByID (id : Z) : M D (res (option notification_row)) :=
  wrap "scan notification" (query (λ _ d, get_row id (notes d))).
Definition of_user (user : Z) (r : notification_row) : bool := no_user r =? user.
Definition unread (user : Z) (r : notification_row) : bool := of_user user r && negb (no_read r).
Definition ListByUser (user limit offset : Z) : M D (res (list notification_row * Z)) :=
  let? total := wrap "count notifications" (query (λ _ d, count_where (of_user user) (notes d))) in
  let? l := wrap "query notifications"
    (query (λ _ d, limit_offset (if limit <=? 0 then 50 else limit) offset
                     (order_desc no_created (select_where (of_user user) (notes d))))) in
  mret (Ok (l, total)).
Definition CountUnread (user : Z) : M D (res Z) :=
  wrap "count unread" (query (λ _ d, count_where (unread user) (notes d))).
Definition MarkRead (id : Z) : M D (res ()) :=
  update_tab (λ r : notification_row, by_id id r && negb (no_read r)) (λ n, set_no_read true (Some n)).
Definition MarkAllRead (user : Z) : M D (res ()) := update_tab (unread user) (λ n, set_no_read true (Some n)).
Definition Delete (id : Z) : M D (res ()) := delete_tab (by_id (A := notification_row) id).
Definition DeleteAllRead (user : Z) : M D (res ()) :=
  delete_tab (λ r : notification_row, of_user user r && no_read r).
End Notifications.
End Notifications.

Section Notify.
Context {D : Type} `{HN : Has notification_row D} `{HU : Has user_row D}.

Definition Notify (user : Z) (type title message severity entity : string) (entityID : Z) : M D () :=
  let* _ := Notifications.Create user type title message severity entity entityID in mret ().
Definition NotifyAdmins (type title message severity entity : string) (entityID : Z) : M D () :=
  let* r := Users.List 0 in
  match r with
  | Err _ => mret ()
  | Ok admins =>
      mfor admins (λ u, if (u_role u =? "admin")%string || (u_role u =? "super_admin")%string
                        then Notify (u_id u) type title message severity entity entityID else mret ())
  end.
End Notify.

(** * Facts *)

(** a stored database password decrypts to what was encrypted, the empty one
    included, under any key and any nonces of twelve bytes. *)
Theorem DBServer_password_roundtrip `{HA : AEAD} {HL : AEADLaws} (rand : random) (Hr : random_ok rand) (i : nat) (p : string) :
  ∃ enc, DBServer.EncryptPassword rand i p = Ok enc ∧ DBServer.DecryptPassword enc = Ok p.
Proof.
  unfold DBServer.EncryptPassword, DBServer.DecryptPassword. rewrite key_valid. cbn [negb].
  destruct (Hr i) as (no & -> & Hn). eexists. split; [done|].
  rewrite b64_roundtrip, length_app_s, Hn. destruct (Z.ltb_spec (Z.of_nat (12 + String.length (Seal no p))) 12); [lia|].
  rewrite <- Hn at 1. rewrite <- Hn at 1. by rewrite str_take_app, str_drop_app, open_seal.
Qed.

Lemma DBServer_password_roundtrip_witness :
  ∃ enc, @DBServer.EncryptPassword sample_aead sample_random 0 "s3cret" = Ok enc ∧
         @DBServer.DecryptPassword sample_aead enc = Ok "s3cret".
Proof.
  apply (@DBServer_password_roundtrip sample_aead sample_aead_laws sample_random).
  intros i. by exists "twelve bytes".
Defined.
