(* ===== verification/Plans.v ===== *)
(** Licensing and billing: src/internal/store/plans.go, orders.go, licenses.go and
    feature_flags.go, src/internal/features/features.go and the licence checks of
    src/internal/apihttp/middleware.go. *)
From S2P Require Import Prelude GoStr Sql JobStore Accounts.
Local Open Scope Z_scope.
Local Open Scope panel_scope.

Set Default Proof Using "Type".

(** * Rows *)

(** A row of [plans], which is also the struct [Plan]. *)
Record plan_row := PlanRow {
  pl_id : Z; pl_name : string; pl_slug : string; pl_price : Z; pl_cycle : string; pl_features :
  string; pl_active : bool; pl_created : Z; pl_updated : Z }.

#[export] Instance plan_row_id : HasId plan_row := pl_id.

Definition set_plan_row (v0 : string) (v1 : string) (v2 : Z) (v3 : string) (v4 : string) (v5 : bool) (v6 : Z) (r : plan_row) : plan_row :=
  PlanRow (pl_id r) v0 v1 v2 v3 v4 v5 (pl_created r) v6.

(** A row of [license_orders]. *)
Record order_row := OrderRow {
  or_id : Z; or_user : Z; or_plan : Z; or_status : string; or_method : option string; or_proof :
  option string; or_amount : Z; or_notes : option string; or_admin_notes : option string;
  or_approved_by : option Z; or_created : Z; or_updated : Z }.

#[export] Instance order_row_id : HasId order_row := or_id.

Definition set_or_status (v0 : string) (v1 : option string) (v2 : option Z) (v3 : Z) (r : order_row) : order_row :=
  OrderRow (or_id r) (or_user r) (or_plan r) v0 (or_method r) (or_proof r) (or_amount r)
    (or_notes r) v1 v2 (or_created r) v3.

(** A row of [licenses]. *)
Record license_row := LicenseRow {
  li_id : Z; li_key : string; li_tier : string; li_activated : option Z; li_expires : option Z;
  li_max_servers : Z; li_features : string; li_created : Z }.

#[export] Instance license_row_id : HasId license_row := li_id.

Definition set_li_active (v0 : string) (v1 : Z) (v2 : option Z) (r : license_row) : license_row :=
  LicenseRow (li_id r) (li_key r) v0 v2 (li_expires r) v1 (li_features r) (li_created r).
Definition set_li_activated (v : option Z) (r : license_row) : license_row :=
  LicenseRow (li_id r) (li_key r) (li_tier r) v (li_expires r) (li_max_servers r)
    (li_features r) (li_created r).

(** A row of [feature_flags]. *)
Record flag_row := FlagRow {
  ff_id : Z; ff_key : string; ff_name : string; ff_tier : string; ff_enabled : bool; ff_created :
  Z }.

#[export] Instance flag_row_id : HasId flag_row := ff_id.

Definition set_ff (v0 : string) (v1 : string) (v2 : bool) (r : flag_row) : flag_row :=
  FlagRow (ff_id r) (ff_key r) v0 v1 v2 (ff_created r).

(** * plans.go *)

Module Plans.
Section Plans.
Context {D : Type} `{HP : Has plan_row D}.
Notation plans := (tab (A := plan_row)).

(** The plan a caller fills in: name, slug, price, billing cycle, features, active. *)
Record Plan := mkPlan {
  Name : string; Slug : string; PriceIDR : Z; BillingCycle : string; Features : string; IsActive : bool }.

(** The UNIQUE columns, but for the row [id] itself. *)
Definition unique_plan (id : Z) (p : Plan) (t : table plan_row) : bool :=
  negb (has_row (λ r, negb (by_id id r) && ((pl_name r =? Name p)%string || (pl_slug r =? Slug p)%string)) t).

Definition Create (p : Plan) : M D (res Z) :=
  wrap "insert plan" (insert_checked (unique_plan 0 p) (λ n id,
    PlanRow id (Name p) (Slug p) (PriceIDR p) (BillingCycle p) (Features p) (IsActive p)
      (current_timestamp n) (current_timestamp n))).
Definition GetByID (id : Z) : M D (res (option plan_row)) :=
  wrap "scan plan" (query (λ _ d, get_row id (plans d))).
Definition GetBySlug (slug : string) : M D (res (option plan_row)) :=
  wrap "scan plan" (query (λ _ d, select_one (λ r, (pl_slug r =? slug)%string) (plans d))).
Definition List (activeOnly : bool) : M D (res (list plan_row)) :=
  wrap "list plans" (query (λ _ d, select_where (λ r, if activeOnly then pl_active r else true) (plans d))).
Definition Update (id : Z) (p : Plan) : M D (res ()) :=
  wrap "update plan"
    (stmt (λ n d, if has_row (by_id id) (plans d) && negb (unique_plan id p (plans d)) then (Err constraint_error, d)
                  else (Ok (), set_tab (update_where (by_id id)
                          (set_plan_row (Name p) (Slug p) (PriceIDR p) (BillingCycle p) (Features p) (IsActive p)
                             (current_timestamp n)) (plans d)) d))).
Definition Delete `{HR : References plan_row D} (id : Z) : M D (res ()) :=
  wrap "delete plan" (delete_parent (by_id (A := plan_row) id)).
Definition Count : M D (res Z) := wrap "count plans" (query (λ _ d, count_where (λ _, true) (plans d))).
End Plans.
End Plans.

(** * orders.go *)

Module Orders.
Section Orders.
Context {D : Type} `{HO : Has order_row D} `{HU : Has user_row D} `{HP : Has plan_row D}.
Notation orders := (tab (A := order_row)).

Record LicenseOrder := mkOrder {
  UserID : Z; PlanID : Z; Status : string; PaymentMethod : option string; PaymentProof : option string;
  AmountIDR : Z; Notes : option string }.

(** The foreign keys [user_id] and [plan_id]. *)
Definition Create (o : LicenseOrder) : M D (res Z) :=
  wrap "insert order"
    (stmt (λ n d,
       if has_row (by_id (A := user_row) (UserID o)) (tab d) && has_row (by_id (A := plan_row) (PlanID o)) (tab d)
       then let '(id, t) := insert_row (λ id, OrderRow id (UserID o) (PlanID o) (Status o) (PaymentMethod o)
                              (PaymentProof o) (AmountIDR o) (Notes o) None None
                              (current_timestamp n) (current_timestamp n)) (orders d) in (Ok id, set_tab t d)
       else (Err constraint_error, d))).
Definition GetByID (id : Z) : M D (res (option order_row)) :=
  wrap "scan order" (query (λ _ d, get_row id (orders d))).

(** An empty status and a user of 0 filter nothing. *)
Definition order_filter (status : string) (user : Z) (r : order_row) : bool :=
  (if negb (status =? "")%string then (or_status r =? status)%string else true) &&
  (if 0 <? user then or_user r =? user else true).
Definition List (status : string) (user : Z) : M D (res (list order_row)) :=
  wrap "list orders" (query (λ _ d, select_desc (order_filter status user) (orders d))).

(** The foreign key [approved_by]. *)
Definition UpdateStatus (id : Z) (status adminNotes : string) (approvedBy : Z) : M D (res ()) :=
  wrap "update order status"
    (stmt (λ n d,
       if has_row (by_id id) (orders d) && negb (has_row (by_id (A := user_row) approvedBy) (tab d))
       then (Err constraint_error, d)
       else (Ok (), set_tab (update_where (by_id id)
               (set_or_status status (Some adminNotes) (Some approvedBy) (current_timestamp n)) (orders d)) d))).
Definition Count : M D (res Z) := wrap "count orders" (query (λ _ d, count_where (λ _, true) (orders d))).
End Orders.
End Orders.

(** * licenses.go *)

Module Licenses.
Section Licenses.
Context {D : Type} `{HL : Has license_row D}.
Notation licenses := (tab (A := license_row)).

Definition activated (r : license_row) : bool := bool_decide (li_activated r ≠ None).
(** In force at the second [s]. *)
Definition in_force (s : Z) (r : license_row) : bool :=
  activated r && match li_expires r with None => true | Some e => s <? e end.
Definition latest (a b : license_row) : bool := default 0 (li_activated b) <=? default 0 (li_activated a).
Definition GetActive : M D (res (option license_row)) :=
  wrap "get active license"
    (query (λ n d, head (order_by latest (select_where (in_force (current_timestamp n)) (licenses d))))).

Definition has_key (key : string) (r : license_row) : bool := (li_key r =? key)%string.
Definition getByKey (key : string) : M D (res (option license_row)) :=
  wrap "get license by key" (query (λ _ d, select_one (has_key key) (licenses d))).
Definition GetByKeyHash (keyHash : string) : M D (res (option license_row)) := getByKey keyHash.

Definition Activate (key tier : string) (maxServers : Z) : M D (res (option license_row)) :=
  let? n := wrap "activate license update"
              (update_tab_n (has_key key) (λ s, set_li_active tier maxServers (Some s))) in
  if 0 <? n then
    let? _ := wrap "deactivate other licenses"
                (update_tab (λ r, negb (has_key key r)) (λ _, set_li_activated None)) in
    getByKey key
  else
    let? _ := wrap "deactivate existing" (update_tab activated (λ _, set_li_activated None)) in
    let? id := wrap "insert license"
                 (insert_checked (λ t, negb (has_row (has_key key) t)) (λ n id,
                    LicenseRow id key tier (Some (current_timestamp n)) None maxServers "{}" (current_timestamp n))) in
    let? o := wrap "fetch activated license" (query (λ _ d, get_row id (licenses d))) in
    mret match o with
         | Some l => Ok (Some l)
         | None => Err "fetch activated license: sql: no rows in result set"
         end.
Definition Deactivate : M D (res ()) :=
  wrap "deactivate licenses" (update_tab activated (λ _, set_li_activated None)).
End Licenses.
End Licenses.

(** * feature_flags.go *)

Module FeatureFlags.
Section FeatureFlags.
Context {D : Type} `{HF : Has flag_row D}.
Notation flags := (tab (A := flag_row)).

Definition has_key (key : string) (r : flag_row) : bool := (ff_key r =? key)%string.
Definition GetByKey (key : string) : M D (res (option flag_row)) :=
  wrap "get feature flag" (query (λ _ d, select_one (has_key key) (flags d))).
Definition List : M D (res (list flag_row)) := wrap "query feature flags" (query (λ _ d, t_rows (flags d))).
(** INSERT ... ON CONFLICT(key) DO UPDATE. *)
Definition Upsert (key name tier : string) (enabled : bool) : M D (res ()) :=
  wrap ("upsert feature flag " +:+ key)
    (exec (λ n d, ((), set_tab (if has_row (has_key key) (flags d)
                                then update_where (has_key key) (set_ff name tier enabled) (flags d)
                                else (insert_row (λ id, FlagRow id key name tier enabled (current_timestamp n)) (flags d)).2) d))).
Definition Delete (key : string) : M D (res ()) := wrap "delete feature flag" (delete_tab (has_key key)).

Definition default_flags : list (string * string * string) := [
  ("single_server", "Single Server", "free"); ("static_sites", "Static Sites", "free"); ("php", "PHP Support", "free");
  ("ssl_certificates", "SSL Certificates", "free"); ("basic_monitoring", "Basic Monitoring", "free");
  ("file_manager", "File Manager", "free"); ("terminal", "Terminal", "free"); ("job_history", "Job History", "free");
  ("multi_server", "Multi Server", "pro"); ("advanced_runtimes", "Advanced Runtimes", "pro");
  ("database_management", "Database Management", "pro"); ("cloud_backups", "Cloud Backups", "pro");
  ("user_management", "User Management", "pro"); ("alerting", "Alerting", "pro");
  ("scheduled_backups", "Scheduled Backups", "pro"); ("agent_management", "Agent Management", "pro");
  ("custom_domains", "Custom Domains", "pro"); ("docker", "Docker", "pro");
  ("white_label", "White Label", "enterprise"); ("api_access", "API Access", "enterprise");
  ("audit_log", "Audit Log", "enterprise"); ("priority_support", "Priority Support", "enterprise") ].
Fixpoint upsert_all (l : list (string * string * string)) : M D (res ()) :=
  match l with
  | [] => mret (Ok ())
  | (key, name, tier) :: l' => let? _ := Upsert key name tier true in upsert_all l'
  end.
Definition SeedDefaultFlags : M D (res ()) := upsert_all default_flags.
End FeatureFlags.
End FeatureFlags.

(** * features.go *)

(** A Go map with constant entries. *)
Definition assoc {A} (k : string) (l : list (string * A)) : option A := snd <$> List.find (λ p, (p.1 =? k)%string) l.

Definition TierFree := "free".
Definition TierBasic := "basic".
Definition TierPro := "pro".
Definition TierEnterprise := "enterprise".
Definition TierMax := "max".
Definition TierLevel : list (string * Z) :=
  [(TierFree, 0); (TierBasic, 1); (TierPro, 2); (TierEnterprise, 2); (TierMax, 3)].
Definition TierDescriptions : list (string * string) :=
  [(TierFree, "Free"); (TierBasic, "Basic"); (TierPro, "Pro"); (TierEnterprise, "Enterprise"); (TierMax, "Max")].
Definition FeatureTierMap : list (string * string) := [
  ("single_server", TierFree); ("static_sites", TierFree); ("php", TierFree); ("ssl_certificates", TierFree);
  ("basic_monitoring", TierFree); ("file_manager", TierFree); ("terminal", TierFree); ("job_history", TierFree);
  ("ssl", TierFree); ("api_access", TierFree); ("backups", TierFree); ("backup_restore", TierFree);
  ("cloud_backups", TierFree);
  ("nodejs", TierBasic); ("python", TierBasic); ("database", TierBasic); ("cron_jobs", TierBasic);
  ("multi_server", TierPro); ("advanced_runtimes", TierPro); ("database_management", TierPro);
  ("user_management", TierPro); ("alerting", TierPro); ("scheduled_backups", TierPro); ("agent_management", TierPro);
  ("custom_domains", TierPro); ("docker", TierPro); ("git_deploy", TierPro); ("advanced_vhost", TierPro);
  ("ssl_manager", TierPro); ("monitoring", TierPro); ("service_tokens", TierPro);
  ("white_label", TierEnterprise); ("audit_log", TierEnterprise); ("priority_support", TierEnterprise);
  ("cloudflare", TierMax) ].
(** The servers and the sites of a tier; -1 is unlimited. *)
Definition TierLimits : list (string * (Z * Z)) :=
  [(TierFree, (1, 5)); (TierBasic, (3, 20)); (TierPro, (10, -1)); (TierEnterprise, (50, -1)); (TierMax, (-1, -1))].

Definition HasFeature (tier feature : string) : bool :=
  match assoc feature FeatureTierMap with
  | None => false
  | Some requiredTier => default 0 (assoc requiredTier TierLevel) <=? default 0 (assoc tier TierLevel)
  end.
Definition IsPro (tier : string) : bool :=
  match assoc tier TierLevel with None => false | Some lvl => default 0 (assoc TierPro TierLevel) <=? lvl end.
Definition IsEnterprise (tier : string) : bool :=
  match assoc tier TierLevel with None => false | Some lvl => default 0 (assoc TierEnterprise TierLevel) <=? lvl end.
Definition TierFeatures (tier : string) : list (string * bool) :=
  map (λ p, (p.1, HasFeature tier p.1)) FeatureTierMap.
Definition MinTier (feature : string) : string := default TierFree (assoc feature FeatureTierMap).

(** * The checks of middleware.go *)

Definition tierLevelNum (tier : string) : Z :=
  if (tier =? "free")%string then 0 else if (tier =? "pro")%string then 1 else if (tier =? "enterprise")%string then 2 else 0.
Definition featureMinTier (feature : string) : string :=
  if str_in ["single_server"; "static_sites"; "php"; "ssl_certificates"; "basic_monitoring"; "file_manager";
             "terminal"; "job_history"] feature then "free"
  else if str_in ["multi_server"; "advanced_runtimes"; "database_management"; "cloud_backups"; "user_management";
                  "alerting"; "scheduled_backups"; "agent_management"; "custom_domains"; "docker"] feature then "pro"
  else if str_in ["white_label"; "api_access"; "audit_log"; "priority_support"] feature then "enterprise"
  else "free".
Definition featureHasAccess (tier feature : string) : bool :=
  tierLevelNum (featureMinTier feature) <=? tierLevelNum tier.
