(* ===== verification/Extras.v ===== *)
(** What else the panel stores: src/internal/store/site_advanced.go, job_logs.go,
    security_baseline.go, metrics.go and cloudflare.go. *)
From S2P Require Import Prelude GoStr Json Sql JobStore Accounts Sites BackupPlan.
Local Open Scope Z_scope.
Local Open Scope panel_scope.

Set Default Proof Using "Type".

(** * Rows *)

(** A row of [site_vhost]. *)
Record vhost_row := VhostRow {
  vh_id : Z; vh_site : Z; vh_config : string; vh_updated : Z }.

#[export] Instance vhost_row_id : HasId vhost_row := vh_id.

Definition set_vh (v0 : string) (v1 : Z) (r : vhost_row) : vhost_row :=
  VhostRow (vh_id r) (vh_site r) v0 v1.

(** A row of [site_varnish]. *)
Record varnish_row := VarnishRow {
  va_id : Z; va_site : Z; va_enabled : bool; va_cache_time : Z; va_hit_rate : string; va_host :
  string; va_port : Z; va_updated : Z }.

#[export] Instance varnish_row_id : HasId varnish_row := va_id.

Definition set_va (v0 : bool) (v1 : Z) (v2 : string) (v3 : string) (v4 : Z) (v5 : Z) (r : varnish_row) : varnish_row :=
  VarnishRow (va_id r) (va_site r) v0 v1 v2 v3 v4 v5.

(** A row of [site_security]. *)
Record security_row := SecurityRow {
  sy_id : Z; sy_site : Z; sy_auth : bool; sy_username : string; sy_password : string; sy_blocked :
  string; sy_updated : Z }.

#[export] Instance security_row_id : HasId security_row := sy_id.

Definition set_sy (v0 : bool) (v1 : string) (v2 : string) (v3 : string) (v4 : Z) (r : security_row) : security_row :=
  SecurityRow (sy_id r) (sy_site r) v0 v1 v2 v3 v4.

(** A row of [job_logs]. *)
Record log_row := LogRow {
  lo_id : Z; lo_job : Z; lo_line : Z; lo_message : string; lo_stream : string; lo_created : Z }.

#[export] Instance log_row_id : HasId log_row := lo_id.


(** A row of [security_baselines]. *)
Record baseline_row := BaselineRow {
  bl_id : Z; bl_server : Z; bl_path : string; bl_sha256 : string; bl_mode : string; bl_uid : Z;
  bl_size : Z; bl_updated : Z }.

#[export] Instance baseline_row_id : HasId baseline_row := bl_id.


(** What is measured; a [REAL] is its decimal text. *)
Record sample := mkSample {
  CPUPercent : option string; MemUsed : option Z; MemTotal : option Z; DiskUsed : option Z; DiskTotal : option Z;
  SwapUsed : option Z; SwapTotal : option Z; NetInBytes : option Z; NetOutBytes : option Z;
  GPUName : option string; GPUCount : option Z; GPUUtilization : option string; GPUMemoryUsed : option Z;
  GPUMemoryTotal : option Z; GPUTemperature : option string; GPUPowerDraw : option string; GPUFanSpeed : option string }.
(** A row of [server_metrics]. *)
Record metric_row := MetricRow {
  me_id : Z; me_server : Z; me_collected : Z; me_sample : sample }.

#[export] Instance metric_row_id : HasId metric_row := me_id.


(** A row of [cloudflare_config]. *)
Record cloudflare_row := CloudflareRow {
  cl_id : Z; cl_token : string; cl_email : option string; cl_user : option Z; cl_updated : Z }.

#[export] Instance cloudflare_row_id : HasId cloudflare_row := cl_id.


(** * site_advanced.go *)

Definition ErrNoRows : string := "sql: no rows in result set".

(** The row of a site in a table with [site_id] UNIQUE, and
    INSERT ... ON CONFLICT(site_id) DO UPDATE. *)
Definition get_by {A D} `{Has A D} (col : A → Z) (site : Z) : M D (res A) :=
  let? o := query (λ _ d, select_one (λ r, col r =? site) (tab d)) in
  mret match o with Some r => Ok r | None => Err ErrNoRows end.
Definition upsert_by {A D} `{Has A D} (col : A → Z) (site : Z) (mk : Z → Z → A) (set : Z → A → A) : M D (res ()) :=
  exec (λ n d, ((), set_tab
    (if has_row (λ r, col r =? site) (tab d)
     then update_where (λ r, col r =? site) (set (current_timestamp n)) (tab d)
     else (insert_row (mk (current_timestamp n)) (tab d)).2) d)).

Module Vhosts.
Section Vhosts.
Context {D : Type} `{HV : Has vhost_row D}.
Definition GetBySiteID (site : Z) : M D (res vhost_row) := get_by vh_site site.
Definition Upsert (site : Z) (config : string) : M D (res ()) :=
  upsert_by vh_site site (λ n id, VhostRow id site config n) (λ n, set_vh config n).
End Vhosts.
End Vhosts.

Module Varnish.
Section Varnish.
Context {D : Type} `{HV : Has varnish_row D}.
Definition GetBySiteID (site : Z) : M D (res varnish_row) := get_by va_site site.
Definition Upsert (site : Z) (enabled : bool) (cacheTime : Z) (hitRate host : string) (port : Z) : M D (res ()) :=
  upsert_by va_site site (λ n id, VarnishRow id site enabled cacheTime hitRate host port n)
    (λ n, set_va enabled cacheTime hitRate host port n).
End Varnish.
End Varnish.

Module Security.
Section Security.
Context {D : Type} `{HS : Has security_row D}.
(** [bcrypt.GenerateFromPassword] at the default cost. *)
Context (bcrypt : string → res string).

Record SiteSecurity := mkSecurity {
  BasicAuthEnabled : bool; BasicAuthUsername : string; BasicAuthPassword : string; BlockedIPs : list string }.

Definition GetBySiteID (site : Z) : M D (res SiteSecurity) :=
  let? r := get_by sy_site site in
  mret (Ok (mkSecurity (sy_auth r) (sy_username r) (sy_password r)
              match parse_text (sy_blocked r) with Some (JArr l) => map str_elem l | _ => [] end)).
(** A password bcrypt refuses (one longer than 72 bytes) is stored as it is. *)
Definition hashed (s : SiteSecurity) : string :=
  if (BasicAuthPassword s =? "")%string then ""
  else match bcrypt (BasicAuthPassword s) with Ok h => h | Err _ => BasicAuthPassword s end.
Definition Upsert (site : Z) (s : SiteSecurity) : M D (res ()) :=
  let blocked := marshalStringSlice (BlockedIPs s) in
  upsert_by sy_site site (λ n id, SecurityRow id site (BasicAuthEnabled s) (BasicAuthUsername s) (hashed s) blocked n)
    (λ n, set_sy (BasicAuthEnabled s) (BasicAuthUsername s) (hashed s) blocked n).
End Security.
End Security.

Module SSH.
Section SSH.
Context {D : Type} `{HS : Has ssh_row D}.
Notation users := (tab (A := ssh_row)).

Definition ListBySiteID (site : Z) : M D (res (list ssh_row)) :=
  query (λ _ d, order_desc sh_created (select_where (λ r, sh_site r =? site) (users d))).
Definition GetByID (id : Z) : M D (res (option ssh_row)) := query (λ _ d, get_row id (users d)).
(** [ORDER BY site_id, username]. *)
Definition by_site_name (a b : ssh_row) : bool :=
  (sh_site a <? sh_site b) || ((sh_site a =? sh_site b) && String.leb (sh_username a) (sh_username b)).
Definition ListAll : M D (res (list ssh_row)) := query (λ _ d, order_by by_site_name (t_rows (users d))).
(** [UNIQUE(site_id, username)]. *)
Definition Create (site : Z) (username password keys home private public : string) : M D (res Z) :=
  let homeDir := if (home =? "")%string then "/home/" +:+ username else home in
  insert_checked (λ t, negb (has_row (λ r, (sh_site r =? site) && (sh_username r =? username)%string) t))
    (λ n id, SSHRow id site username password keys homeDir private public (current_timestamp n)).
Definition Delete (id : Z) : M D (res ()) := delete_tab (by_id (A := ssh_row) id).
End SSH.
End SSH.

Module CronJobs.
Section CronJobs.
Context {D : Type} `{HC : Has cron_row D}.
Definition ListBySiteID (site : Z) : M D (res (list cron_row)) :=
  query (λ _ d, order_desc cj_created (select_where (λ r, cj_site r =? site) (tab d))).
Definition Create (site : Z) (schedule command : string) : M D (res Z) :=
  insert_checked (λ _, true) (λ n id, CronRow id site schedule command (current_timestamp n)).
Definition Delete (id : Z) : M D (res ()) := delete_tab (by_id (A := cron_row) id).
End CronJobs.
End CronJobs.

(** * job_logs.go *)

Module JobLogs.
Section JobLogs.
Context {D : Type} `{HL : Has log_row D} `{HJ : Has job_row D}.
Notation logs := (tab (A := log_row)).

(** The foreign key [job_id]. *)
Definition Append (job line : Z) (message stream : string) : M D (res Z) :=
  wrap "insert job log"
    (stmt (λ n d,
       if has_row (by_id (A := job_row) job) (tab d)
       then let '(id, t) := insert_row (λ id, LogRow id job line message stream (current_timestamp n)) (logs d) in (Ok id, set_tab t d)
       else (Err constraint_error, d))).
Definition since (job line : Z) (r : log_row) : bool := (lo_job r =? job) && (line <? lo_line r).
Definition GetSince (job sinceLine limit : Z) : M D (res (list log_row)) :=
  let limit := if (limit <=? 0) || (10000 <? limit) then 1000 else limit in
  wrap "query logs"
    (query (λ _ d, limit_offset limit 0 (order_by (λ a b, lo_line a <=? lo_line b) (select_where (since job sinceLine) (logs d))))).
Definition GetAll (job : Z) : M D (res (list log_row)) := GetSince job 0 10000.
Definition Count (job : Z) : M D (res Z) := query (λ _ d, count_where (λ r, lo_job r =? job) (logs d)).
End JobLogs.
End JobLogs.

(** * security_baseline.go *)

Module SecurityBaselines.
Section SecurityBaselines.
Context {D : Type} `{HB : Has baseline_row D}.
Notation baselines := (tab (A := baseline_row)).

Record SecurityBaseline := mkBaseline { Path : string; SHA256 : string; Mode : string; UID : Z; Size : Z }.

Definition of_server (server : Z) (r : baseline_row) : bool := bl_server r =? server.
(** [UNIQUE(server_id, path)]. *)
Definition insert_baseline (server : Z) (e : SecurityBaseline) : tx_step D :=
  ("", λ n d, if has_row (λ r, of_server server r && (bl_path r =? Path e)%string) (baselines d)
              then Err constraint_error
              else Ok (set_tab (insert_row (λ id, BaselineRow id server (Path e) (SHA256 e) (Mode e) (UID e) (Size e)
                                  (current_timestamp n)) (baselines d)).2 d)).
Definition replace_steps (server : Z) (entries : list SecurityBaseline) : list (tx_step D) :=
  ("", λ _ d, Ok (set_tab (delete_where (of_server server) (baselines d)) d)) :: map (insert_baseline server) entries.
(** The errors of the driver are returned as they are. *)
Definition ReplaceForServer (server : Z) (entries : list SecurityBaseline) : M D (res ()) :=
  let* r := transaction "" (replace_steps server entries) "" in
  mret match r with Ok a => Ok a | Err e => Err (str_drop 2 e) end.
Definition ListByServer (server : Z) : M D (res (list baseline_row)) :=
  query (λ _ d, order_by (λ a b, String.leb (bl_path a) (bl_path b)) (select_where (of_server server) (baselines d))).
End SecurityBaselines.
End SecurityBaselines.

(** * metrics.go *)

Module Metrics.
Section Metrics.
Context {D : Type} `{HM : Has metric_row D}.
Notation metrics := (tab (A := metric_row)).
(** The order of [collected_at], a text of whole seconds, and a bound [time.Time]. *)
Context (text_before_time : Z → Z → bool).

Definition Insert (server : Z) (s : sample) : M D (res Z) :=
  wrap "insert metric" (insert_checked (λ _, true) (λ n id, MetricRow id server (current_timestamp n) s)).
(** [ORDER BY collected_at DESC, id DESC]: the rows of the scan come in order of id. *)
Definition newest (server : Z) (t : table metric_row) : list metric_row :=
  order_desc me_collected (select_desc (λ r, me_server r =? server) t).
Definition GetLatest (server : Z) : M D (res (option metric_row)) :=
  wrap "scan metric" (query (λ _ d, head (newest server (metrics d)))).
Definition GetRange (server since limit : Z) : M D (res (list metric_row)) :=
  let limit := if (limit <=? 0) || (10000 <? limit) then 1000 else limit in
  wrap "query metrics"
    (query (λ _ d, limit_offset limit 0 (order_desc me_collected
       (select_where (λ r, (me_server r =? server) && negb (text_before_time (me_collected r) since)) (metrics d))))).
Definition CleanupOlderThan (before : Z) : M D (res Z) :=
  delete_tab_n (λ r : metric_row, text_before_time (me_collected r) before).
End Metrics.
End Metrics.

(** * cloudflare.go *)

Module Cloudflare.
Section Cloudflare.
Context {D : Type} `{HC : Has cloudflare_row D}.
Notation configs := (tab (A := cloudflare_row)).

Record CloudflareConfig := mkCloudflare { UserID : Z; APIToken : string; Email : string }.

Definition of_user (user : Z) (r : cloudflare_row) : bool := bool_decide (cl_user r = Some user).
Definition with_token (r : cloudflare_row) : bool := negb (cl_token r =? "")%string.
Definition GetConfig (user : Z) : M D (res CloudflareConfig) :=
  let? o := query (λ _ d, select_one (of_user user) (configs d)) in
  mret (Ok match o with
           | None => mkCloudflare 0 "" ""
           | Some r => mkCloudflare user (cl_token r) (default "" (cl_email r))
           end).
(** [sites] has no column [owner]. *)
Definition GetConfigByDomain (domain : string) : M D (res CloudflareConfig) :=
  stmt (λ _ d, (Err "SQL logic error: no such column: s.owner (1)", d)).
Definition SaveConfig (user : Z) (token email : string) : M D (res ()) :=
  let? _ := delete_tab (of_user user) in
  let? _ := insert_checked (λ t, negb (has_row (of_user user) t)) (λ n id,
              CloudflareRow id token (if (email =? "")%string then None else Some email) (Some user) (current_timestamp n)) in
  mret (Ok ()).
Definition HasConfig (user : Z) : M D (res bool) :=
  let? n := query (λ _ d, count_where (λ r, of_user user r && with_token r) (configs d)) in mret (Ok (0 <? n)).
Definition HasAnyConfig : M D (res bool) :=
  let? n := query (λ _ d, count_where with_token (configs d)) in mret (Ok (0 <? n)).
Definition DeleteConfig (user : Z) : M D (res Z) := delete_tab_n (of_user user).
End Cloudflare.
End Cloudflare.
