(* ===== verification/Frame.v ===== *)
(** Operations that leave a part of the database alone, whatever fails. *)
From S2P Require Import Prelude Sql Accounts.
Local Open Scope Z_scope.
Local Open Scope panel_scope.

Set Default Proof Using "Type".

Section Frame.
Context {D X : Type} (f : D → X).

(** [m] leaves what [f] shows, and the time, as they were. *)
Definition frame {A} (m : M D A) : Prop :=
  ∀ w, wp m (λ _ w', f (data w') = f (data w) ∧ clock w' = clock w) w.

Lemma frame_ret {A} (a : A) : frame (mret a).
Proof. by intros w. Qed.
Lemma frame_now : frame time_Now.
Proof. by intros w. Qed.
Lemma frame_bind {A B} (m : M D A) (k : A → M D B) : frame m → (∀ a, frame (k a)) → frame (mbind m k).
Proof.
  intros Hm Hk w. apply wp_bind. eapply wp_mono; [|exact (Hm w)]. intros a w' [E1 E2].
  eapply wp_mono; [|exact (Hk a w')]. intros b w'' [F1 F2]. split; congruence.
Qed.
Lemma frame_wrap {A} (p : string) (m : M D (res A)) : frame m → frame (wrap p m).
Proof. intros H. apply frame_bind; [done|]. intros a. apply frame_ret. Qed.
Lemma frame_stmt {A} (g : Z → D → res A * D) : (∀ n d, f (g n d).2 = f d) → frame (stmt g).
Proof. intros Hg w. apply wp_stmt; [done|]. intros fs. by split; [apply Hg|]. Qed.
Lemma frame_query {A} (g : Z → D → A) : frame (query g).
Proof. by apply frame_stmt. Qed.
Lemma frame_exec {A} (g : Z → D → A * D) : (∀ n d, f (g n d).2 = f d) → frame (exec g).
Proof. intros Hg. apply frame_stmt. intros n d. specialize (Hg n d). by destruct (g n d). Qed.
Lemma frame_update {A} `{Hh : Has A D} (p : A → bool) (g : Z → A → A) :
  (∀ t d, f (set_tab (Has := Hh) t d) = f d) → frame (update_tab p g).
Proof. intros Hf. apply frame_exec. intros n d. apply Hf. Qed.
Lemma frame_delete {A} `{Hh : Has A D} (p : A → bool) :
  (∀ t d, f (set_tab (Has := Hh) t d) = f d) → frame (delete_tab p).
Proof. intros Hf. apply frame_exec. intros n d. apply Hf. Qed.
Lemma frame_insert {A} `{Hh : Has A D} (ok : table A → bool) (mk : Z → Z → A) :
  (∀ t d, f (set_tab (Has := Hh) t d) = f d) → frame (insert_checked ok mk).
Proof. intros Hf. apply frame_stmt. intros n d. destruct (ok (tab d)); [apply Hf|done]. Qed.
Lemma frame_mfor {A} (l : list A) (body : A → M D ()) : (∀ x, frame (body x)) → frame (mfor l body).
Proof. intros Hb. induction l as [|x l IH]; cbn [mfor]; [apply frame_ret|]. by apply frame_bind. Qed.
End Frame.

Create HintDb frame.
#[export] Hint Resolve frame_ret frame_now frame_query : frame.

(** One step of the proof of a frame. *)
Ltac frame_step :=
  lazymatch goal with
  | |- ∀ _, _ => intros ?
  | |- frame _ (mbind _ _) => apply frame_bind
  | |- frame _ (wrap _ _) => apply frame_wrap
  | |- frame _ (update_tab _ _) => apply frame_update; [done]
  | |- frame _ (delete_tab _) => apply frame_delete; [done]
  | |- frame _ (insert_checked _ _) => apply frame_insert; [done]
  | |- frame _ (exec _) => apply frame_exec; [done]
  | |- frame _ (mfor _ _) => apply frame_mfor
  | |- frame _ (match ?x with _ => _ end) => destruct x
  | |- frame _ _ => solve [auto with frame]
  end.
Ltac frame_auto := repeat frame_step.
