(* ===== verification/Panel.v ===== *)
(** The database of the panel: src/internal/store/store.go puts every store over one
    database.  Here are the properties of the operations that reach several
    tables. *)
From S2P Require Import Prelude GoStr Sql JobStore Accounts Sites Backups Servers BackupPlan Json Secrets Records Plans Extras.
Local Open Scope Z_scope.
Local Open Scope panel_scope.

Set Default Proof Using "Type".

(** * The database *)

Record db := DB {
  t_users : table user_row; t_user_sites : table user_site_row; t_sessions : table session_row;
  t_recovery_codes : table recovery_row; t_service_tokens : table token_row; t_ip_restrictions :
  table ip_row; t_jobs : table job_row; t_sites : table site_row; t_databases : table
  database_row; t_crons : table cron_row; t_ssh_users : table ssh_row; t_audit_logs : table
  audit_row; t_backups : table backup_row; t_servers : table server_row; t_reg_tokens : table
  reg_row; t_channels : table channel_row; t_alerts : table alert_row; t_providers : table
  provider_row; t_schedules : table schedule_row; t_configs : table config_row; t_app_settings :
  table setting_row; t_db_users : table db_user_row; t_db_servers : table db_server_row;
  t_notifications : table notification_row; t_plans : table plan_row; t_orders : table
  order_row; t_licenses : table license_row; t_flags : table flag_row; t_vhosts : table
  vhost_row; t_varnish : table varnish_row; t_security : table security_row; t_job_logs : table
  log_row; t_baselines : table baseline_row; t_metrics : table metric_row; t_cloudflare : table
  cloudflare_row }.

Definition empty_db : db :=
  DB empty_table empty_table empty_table empty_table empty_table empty_table empty_table
    empty_table empty_table empty_table empty_table empty_table empty_table empty_table
    empty_table empty_table empty_table empty_table empty_table empty_table empty_table
    empty_table empty_table empty_table empty_table empty_table empty_table empty_table
    empty_table empty_table empty_table empty_table empty_table empty_table empty_table.

#[export] Instance has_users : Has user_row db.
Proof.
  refine {| tab := t_users;
    set_tab t d := DB t (t_user_sites d) (t_sessions d) (t_recovery_codes d)
      (t_service_tokens d) (t_ip_restrictions d) (t_jobs d) (t_sites d) (t_databases d)
      (t_crons d) (t_ssh_users d) (t_audit_logs d) (t_backups d) (t_servers d) (t_reg_tokens d)
      (t_channels d) (t_alerts d) (t_providers d) (t_schedules d) (t_configs d)
      (t_app_settings d) (t_db_users d) (t_db_servers d) (t_notifications d) (t_plans d)
      (t_orders d) (t_licenses d) (t_flags d) (t_vhosts d) (t_varnish d) (t_security d)
      (t_job_logs d) (t_baselines d) (t_metrics d) (t_cloudflare d) |}; [done| |done]. by intros [].
Defined.
#[export] Instance has_user_sites : Has user_site_row db.
Proof.
  refine {| tab := t_user_sites;
    set_tab t d := DB (t_users d) t (t_sessions d) (t_recovery_codes d) (t_service_tokens d)
      (t_ip_restrictions d) (t_jobs d) (t_sites d) (t_databases d) (t_crons d) (t_ssh_users d)
      (t_audit_logs d) (t_backups d) (t_servers d) (t_reg_tokens d) (t_channels d) (t_alerts d)
      (t_providers d) (t_schedules d) (t_configs d) (t_app_settings d) (t_db_users d)
      (t_db_servers d) (t_notifications d) (t_plans d) (t_orders d) (t_licenses d) (t_flags d)
      (t_vhosts d) (t_varnish d) (t_security d) (t_job_logs d) (t_baselines d) (t_metrics d)
      (t_cloudflare d) |}; [done| |done]. by intros [].
Defined.
#[export] Instance has_sessions : Has session_row db.
Proof.
  refine {| tab := t_sessions;
    set_tab t d := DB (t_users d) (t_user_sites d) t (t_recovery_codes d) (t_service_tokens d)
      (t_ip_restrictions d) (t_jobs d) (t_sites d) (t_databases d) (t_crons d) (t_ssh_users d)
      (t_audit_logs d) (t_backups d) (t_servers d) (t_reg_tokens d) (t_channels d) (t_alerts d)
      (t_providers d) (t_schedules d) (t_configs d) (t_app_settings d) (t_db_users d)
      (t_db_servers d) (t_notifications d) (t_plans d) (t_orders d) (t_licenses d) (t_flags d)
      (t_vhosts d) (t_varnish d) (t_security d) (t_job_logs d) (t_baselines d) (t_metrics d)
      (t_cloudflare d) |}; [done| |done]. by intros [].
Defined.
#[export] Instance has_recovery_codes : Has recovery_row db.
Proof.
  refine {| tab := t_recovery_codes;
    set_tab t d := DB (t_users d) (t_user_sites d) (t_sessions d) t (t_service_tokens d)
      (t_ip_restrictions d) (t_jobs d) (t_sites d) (t_databases d) (t_crons d) (t_ssh_users d)
      (t_audit_logs d) (t_backups d) (t_servers d) (t_reg_tokens d) (t_channels d) (t_alerts d)
      (t_providers d) (t_schedules d) (t_configs d) (t_app_settings d) (t_db_users d)
      (t_db_servers d) (t_notifications d) (t_plans d) (t_orders d) (t_licenses d) (t_flags d)
      (t_vhosts d) (t_varnish d) (t_security d) (t_job_logs d) (t_baselines d) (t_metrics d)
      (t_cloudflare d) |}; [done| |done]. by intros [].
Defined.
#[export] Instance has_service_tokens : Has token_row db.
Proof.
  refine {| tab := t_service_tokens;
    set_tab t d := DB (t_users d) (t_user_sites d) (t_sessions d) (t_recovery_codes d) t
      (t_ip_restrictions d) (t_jobs d) (t_sites d) (t_databases d) (t_crons d) (t_ssh_users d)
      (t_audit_logs d) (t_backups d) (t_servers d) (t_reg_tokens d) (t_channels d) (t_alerts d)
      (t_providers d) (t_schedules d) (t_configs d) (t_app_settings d) (t_db_users d)
      (t_db_servers d) (t_notifications d) (t_plans d) (t_orders d) (t_licenses d) (t_flags d)
      (t_vhosts d) (t_varnish d) (t_security d) (t_job_logs d) (t_baselines d) (t_metrics d)
      (t_cloudflare d) |}; [done| |done]. by intros [].
Defined.
#[export] Instance has_ip_restrictions : Has ip_row db.
Proof.
  refine {| tab := t_ip_restrictions;
    set_tab t d := DB (t_users d) (t_user_sites d) (t_sessions d) (t_recovery_codes d)
      (t_service_tokens d) t (t_jobs d) (t_sites d) (t_databases d) (t_crons d) (t_ssh_users d)
      (t_audit_logs d) (t_backups d) (t_servers d) (t_reg_tokens d) (t_channels d) (t_alerts d)
      (t_providers d) (t_schedules d) (t_configs d) (t_app_settings d) (t_db_users d)
      (t_db_servers d) (t_notifications d) (t_plans d) (t_orders d) (t_licenses d) (t_flags d)
      (t_vhosts d) (t_varnish d) (t_security d) (t_job_logs d) (t_baselines d) (t_metrics d)
      (t_cloudflare d) |}; [done| |done]. by intros [].
Defined.
#[export] Instance has_jobs : Has job_row db.
Proof.
  refine {| tab := t_jobs;
    set_tab t d := DB (t_users d) (t_user_sites d) (t_sessions d) (t_recovery_codes d)
      (t_service_tokens d) (t_ip_restrictions d) t (t_sites d) (t_databases d) (t_crons d)
      (t_ssh_users d) (t_audit_logs d) (t_backups d) (t_servers d) (t_reg_tokens d)
      (t_channels d) (t_alerts d) (t_providers d) (t_schedules d) (t_configs d)
      (t_app_settings d) (t_db_users d) (t_db_servers d) (t_notifications d) (t_plans d)
      (t_orders d) (t_licenses d) (t_flags d) (t_vhosts d) (t_varnish d) (t_security d)
      (t_job_logs d) (t_baselines d) (t_metrics d) (t_cloudflare d) |}; [done| |done]. by intros [].
Defined.
#[export] Instance has_sites : Has site_row db.
Proof.
  refine {| tab := t_sites;
    set_tab t d := DB (t_users d) (t_user_sites d) (t_sessions d) (t_recovery_codes d)
      (t_service_tokens d) (t_ip_restrictions d) (t_jobs d) t (t_databases d) (t_crons d)
      (t_ssh_users d) (t_audit_logs d) (t_backups d) (t_servers d) (t_reg_tokens d)
      (t_channels d) (t_alerts d) (t_providers d) (t_schedules d) (t_configs d)
      (t_app_settings d) (t_db_users d) (t_db_servers d) (t_notifications d) (t_plans d)
      (t_orders d) (t_licenses d) (t_flags d) (t_vhosts d) (t_varnish d) (t_security d)
      (t_job_logs d) (t_baselines d) (t_metrics d) (t_cloudflare d) |}; [done| |done]. by intros [].
Defined.
#[export] Instance has_databases : Has database_row db.
Proof.
  refine {| tab := t_databases;
    set_tab t d := DB (t_users d) (t_user_sites d) (t_sessions d) (t_recovery_codes d)
      (t_service_tokens d) (t_ip_restrictions d) (t_jobs d) (t_sites d) t (t_crons d)
      (t_ssh_users d) (t_audit_logs d) (t_backups d) (t_servers d) (t_reg_tokens d)
      (t_channels d) (t_alerts d) (t_providers d) (t_schedules d) (t_configs d)
      (t_app_settings d) (t_db_users d) (t_db_servers d) (t_notifications d) (t_plans d)
      (t_orders d) (t_licenses d) (t_flags d) (t_vhosts d) (t_varnish d) (t_security d)
      (t_job_logs d) (t_baselines d) (t_metrics d) (t_cloudflare d) |}; [done| |done]. by intros [].
Defined.
#[export] Instance has_crons : Has cron_row db.
Proof.
  refine {| tab := t_crons;
    set_tab t d := DB (t_users d) (t_user_sites d) (t_sessions d) (t_recovery_codes d)
      (t_service_tokens d) (t_ip_restrictions d) (t_jobs d) (t_sites d) (t_databases d) t
      (t_ssh_users d) (t_audit_logs d) (t_backups d) (t_servers d) (t_reg_tokens d)
      (t_channels d) (t_alerts d) (t_providers d) (t_schedules d) (t_configs d)
      (t_app_settings d) (t_db_users d) (t_db_servers d) (t_notifications d) (t_plans d)
      (t_orders d) (t_licenses d) (t_flags d) (t_vhosts d) (t_varnish d) (t_security d)
      (t_job_logs d) (t_baselines d) (t_metrics d) (t_cloudflare d) |}; [done| |done]. by intros [].
Defined.
#[export] Instance has_ssh_users : Has ssh_row db.
Proof.
  refine {| tab := t_ssh_users;
    set_tab t d := DB (t_users d) (t_user_sites d) (t_sessions d) (t_recovery_codes d)
      (t_service_tokens d) (t_ip_restrictions d) (t_jobs d) (t_sites d) (t_databases d)
      (t_crons d) t (t_audit_logs d) (t_backups d) (t_servers d) (t_reg_tokens d) (t_channels d)
      (t_alerts d) (t_providers d) (t_schedules d) (t_configs d) (t_app_settings d)
      (t_db_users d) (t_db_servers d) (t_notifications d) (t_plans d) (t_orders d)
      (t_licenses d) (t_flags d) (t_vhosts d) (t_varnish d) (t_security d) (t_job_logs d)
      (t_baselines d) (t_metrics d) (t_cloudflare d) |}; [done| |done]. by intros [].
Defined.
#[export] Instance has_audit_logs : Has audit_row db.
Proof.
  refine {| tab := t_audit_logs;
    set_tab t d := DB (t_users d) (t_user_sites d) (t_sessions d) (t_recovery_codes d)
      (t_service_tokens d) (t_ip_restrictions d) (t_jobs d) (t_sites d) (t_databases d)
      (t_crons d) (t_ssh_users d) t (t_backups d) (t_servers d) (t_reg_tokens d) (t_channels d)
      (t_alerts d) (t_providers d) (t_schedules d) (t_configs d) (t_app_settings d)
      (t_db_users d) (t_db_servers d) (t_notifications d) (t_plans d) (t_orders d)
      (t_licenses d) (t_flags d) (t_vhosts d) (t_varnish d) (t_security d) (t_job_logs d)
      (t_baselines d) (t_metrics d) (t_cloudflare d) |}; [done| |done]. by intros [].
Defined.
#[export] Instance has_backups : Has backup_row db.
Proof.
  refine {| tab := t_backups;
    set_tab t d := DB (t_users d) (t_user_sites d) (t_sessions d) (t_recovery_codes d)
      (t_service_tokens d) (t_ip_restrictions d) (t_jobs d) (t_sites d) (t_databases d)
      (t_crons d) (t_ssh_users d) (t_audit_logs d) t (t_servers d) (t_reg_tokens d)
      (t_channels d) (t_alerts d) (t_providers d) (t_schedules d) (t_configs d)
      (t_app_settings d) (t_db_users d) (t_db_servers d) (t_notifications d) (t_plans d)
      (t_orders d) (t_licenses d) (t_flags d) (t_vhosts d) (t_varnish d) (t_security d)
      (t_job_logs d) (t_baselines d) (t_metrics d) (t_cloudflare d) |}; [done| |done]. by intros [].
Defined.
#[export] Instance has_servers : Has server_row db.
Proof.
  refine {| tab := t_servers;
    set_tab t d := DB (t_users d) (t_user_sites d) (t_sessions d) (t_recovery_codes d)
      (t_service_tokens d) (t_ip_restrictions d) (t_jobs d) (t_sites d) (t_databases d)
      (t_crons d) (t_ssh_users d) (t_audit_logs d) (t_backups d) t (t_reg_tokens d)
      (t_channels d) (t_alerts d) (t_providers d) (t_schedules d) (t_configs d)
      (t_app_settings d) (t_db_users d) (t_db_servers d) (t_notifications d) (t_plans d)
      (t_orders d) (t_licenses d) (t_flags d) (t_vhosts d) (t_varnish d) (t_security d)
      (t_job_logs d) (t_baselines d) (t_metrics d) (t_cloudflare d) |}; [done| |done]. by intros [].
Defined.
#[export] Instance has_reg_tokens : Has reg_row db.
Proof.
  refine {| tab := t_reg_tokens;
    set_tab t d := DB (t_users d) (t_user_sites d) (t_sessions d) (t_recovery_codes d)
      (t_service_tokens d) (t_ip_restrictions d) (t_jobs d) (t_sites d) (t_databases d)
      (t_crons d) (t_ssh_users d) (t_audit_logs d) (t_backups d) (t_servers d) t (t_channels d)
      (t_alerts d) (t_providers d) (t_schedules d) (t_configs d) (t_app_settings d)
      (t_db_users d) (t_db_servers d) (t_notifications d) (t_plans d) (t_orders d)
      (t_licenses d) (t_flags d) (t_vhosts d) (t_varnish d) (t_security d) (t_job_logs d)
      (t_baselines d) (t_metrics d) (t_cloudflare d) |}; [done| |done]. by intros [].
Defined.
#[export] Instance has_channels : Has channel_row db.
Proof.
  refine {| tab := t_channels;
    set_tab t d := DB (t_users d) (t_user_sites d) (t_sessions d) (t_recovery_codes d)
      (t_service_tokens d) (t_ip_restrictions d) (t_jobs d) (t_sites d) (t_databases d)
      (t_crons d) (t_ssh_users d) (t_audit_logs d) (t_backups d) (t_servers d) (t_reg_tokens d)
      t (t_alerts d) (t_providers d) (t_schedules d) (t_configs d) (t_app_settings d)
      (t_db_users d) (t_db_servers d) (t_notifications d) (t_plans d) (t_orders d)
      (t_licenses d) (t_flags d) (t_vhosts d) (t_varnish d) (t_security d) (t_job_logs d)
      (t_baselines d) (t_metrics d) (t_cloudflare d) |}; [done| |done]. by intros [].
Defined.
#[export] Instance has_alerts : Has alert_row db.
Proof.
  refine {| tab := t_alerts;
    set_tab t d := DB (t_users d) (t_user_sites d) (t_sessions d) (t_recovery_codes d)
      (t_service_tokens d) (t_ip_restrictions d) (t_jobs d) (t_sites d) (t_databases d)
      (t_crons d) (t_ssh_users d) (t_audit_logs d) (t_backups d) (t_servers d) (t_reg_tokens d)
      (t_channels d) t (t_providers d) (t_schedules d) (t_configs d) (t_app_settings d)
      (t_db_users d) (t_db_servers d) (t_notifications d) (t_plans d) (t_orders d)
      (t_licenses d) (t_flags d) (t_vhosts d) (t_varnish d) (t_security d) (t_job_logs d)
      (t_baselines d) (t_metrics d) (t_cloudflare d) |}; [done| |done]. by intros [].
Defined.
#[export] Instance has_providers : Has provider_row db.
Proof.
  refine {| tab := t_providers;
    set_tab t d := DB (t_users d) (t_user_sites d) (t_sessions d) (t_recovery_codes d)
      (t_service_tokens d) (t_ip_restrictions d) (t_jobs d) (t_sites d) (t_databases d)
      (t_crons d) (t_ssh_users d) (t_audit_logs d) (t_backups d) (t_servers d) (t_reg_tokens d)
      (t_channels d) (t_alerts d) t (t_schedules d) (t_configs d) (t_app_settings d)
      (t_db_users d) (t_db_servers d) (t_notifications d) (t_plans d) (t_orders d)
      (t_licenses d) (t_flags d) (t_vhosts d) (t_varnish d) (t_security d) (t_job_logs d)
      (t_baselines d) (t_metrics d) (t_cloudflare d) |}; [done| |done]. by intros [].
Defined.
#[export] Instance has_schedules : Has schedule_row db.
Proof.
  refine {| tab := t_schedules;
    set_tab t d := DB (t_users d) (t_user_sites d) (t_sessions d) (t_recovery_codes d)
      (t_service_tokens d) (t_ip_restrictions d) (t_jobs d) (t_sites d) (t_databases d)
      (t_crons d) (t_ssh_users d) (t_audit_logs d) (t_backups d) (t_servers d) (t_reg_tokens d)
      (t_channels d) (t_alerts d) (t_providers d) t (t_configs d) (t_app_settings d)
      (t_db_users d) (t_db_servers d) (t_notifications d) (t_plans d) (t_orders d)
      (t_licenses d) (t_flags d) (t_vhosts d) (t_varnish d) (t_security d) (t_job_logs d)
      (t_baselines d) (t_metrics d) (t_cloudflare d) |}; [done| |done]. by intros [].
Defined.
#[export] Instance has_configs : Has config_row db.
Proof.
  refine {| tab := t_configs;
    set_tab t d := DB (t_users d) (t_user_sites d) (t_sessions d) (t_recovery_codes d)
      (t_service_tokens d) (t_ip_restrictions d) (t_jobs d) (t_sites d) (t_databases d)
      (t_crons d) (t_ssh_users d) (t_audit_logs d) (t_backups d) (t_servers d) (t_reg_tokens d)
      (t_channels d) (t_alerts d) (t_providers d) (t_schedules d) t (t_app_settings d)
      (t_db_users d) (t_db_servers d) (t_notifications d) (t_plans d) (t_orders d)
      (t_licenses d) (t_flags d) (t_vhosts d) (t_varnish d) (t_security d) (t_job_logs d)
      (t_baselines d) (t_metrics d) (t_cloudflare d) |}; [done| |done]. by intros [].
Defined.
#[export] Instance has_app_settings : Has setting_row db.
Proof.
  refine {| tab := t_app_settings;
    set_tab t d := DB (t_users d) (t_user_sites d) (t_sessions d) (t_recovery_codes d)
      (t_service_tokens d) (t_ip_restrictions d) (t_jobs d) (t_sites d) (t_databases d)
      (t_crons d) (t_ssh_users d) (t_audit_logs d) (t_backups d) (t_servers d) (t_reg_tokens d)
      (t_channels d) (t_alerts d) (t_providers d) (t_schedules d) (t_configs d) t (t_db_users d)
      (t_db_servers d) (t_notifications d) (t_plans d) (t_orders d) (t_licenses d) (t_flags d)
      (t_vhosts d) (t_varnish d) (t_security d) (t_job_logs d) (t_baselines d) (t_metrics d)
      (t_cloudflare d) |}; [done| |done]. by intros [].
Defined.
#[export] Instance has_db_users : Has db_user_row db.
Proof.
  refine {| tab := t_db_users;
    set_tab t d := DB (t_users d) (t_user_sites d) (t_sessions d) (t_recovery_codes d)
      (t_service_tokens d) (t_ip_restrictions d) (t_jobs d) (t_sites d) (t_databases d)
      (t_crons d) (t_ssh_users d) (t_audit_logs d) (t_backups d) (t_servers d) (t_reg_tokens d)
      (t_channels d) (t_alerts d) (t_providers d) (t_schedules d) (t_configs d)
      (t_app_settings d) t (t_db_servers d) (t_notifications d) (t_plans d) (t_orders d)
      (t_licenses d) (t_flags d) (t_vhosts d) (t_varnish d) (t_security d) (t_job_logs d)
      (t_baselines d) (t_metrics d) (t_cloudflare d) |}; [done| |done]. by intros [].
Defined.
#[export] Instance has_db_servers : Has db_server_row db.
Proof.
  refine {| tab := t_db_servers;
    set_tab t d := DB (t_users d) (t_user_sites d) (t_sessions d) (t_recovery_codes d)
      (t_service_tokens d) (t_ip_restrictions d) (t_jobs d) (t_sites d) (t_databases d)
      (t_crons d) (t_ssh_users d) (t_audit_logs d) (t_backups d) (t_servers d) (t_reg_tokens d)
      (t_channels d) (t_alerts d) (t_providers d) (t_schedules d) (t_configs d)
      (t_app_settings d) (t_db_users d) t (t_notifications d) (t_plans d) (t_orders d)
      (t_licenses d) (t_flags d) (t_vhosts d) (t_varnish d) (t_security d) (t_job_logs d)
      (t_baselines d) (t_metrics d) (t_cloudflare d) |}; [done| |done]. by intros [].
Defined.
#[export] Instance has_notifications : Has notification_row db.
Proof.
  refine {| tab := t_notifications;
    set_tab t d := DB (t_users d) (t_user_sites d) (t_sessions d) (t_recovery_codes d)
      (t_service_tokens d) (t_ip_restrictions d) (t_jobs d) (t_sites d) (t_databases d)
      (t_crons d) (t_ssh_users d) (t_audit_logs d) (t_backups d) (t_servers d) (t_reg_tokens d)
      (t_channels d) (t_alerts d) (t_providers d) (t_schedules d) (t_configs d)
      (t_app_settings d) (t_db_users d) (t_db_servers d) t (t_plans d) (t_orders d)
      (t_licenses d) (t_flags d) (t_vhosts d) (t_varnish d) (t_security d) (t_job_logs d)
      (t_baselines d) (t_metrics d) (t_cloudflare d) |}; [done| |done]. by intros [].
Defined.
#[export] Instance has_plans : Has plan_row db.
Proof.
  refine {| tab := t_plans;
    set_tab t d := DB (t_users d) (t_user_sites d) (t_sessions d) (t_recovery_codes d)
      (t_service_tokens d) (t_ip_restrictions d) (t_jobs d) (t_sites d) (t_databases d)
      (t_crons d) (t_ssh_users d) (t_audit_logs d) (t_backups d) (t_servers d) (t_reg_tokens d)
      (t_channels d) (t_alerts d) (t_providers d) (t_schedules d) (t_configs d)
      (t_app_settings d) (t_db_users d) (t_db_servers d) (t_notifications d) t (t_orders d)
      (t_licenses d) (t_flags d) (t_vhosts d) (t_varnish d) (t_security d) (t_job_logs d)
      (t_baselines d) (t_metrics d) (t_cloudflare d) |}; [done| |done]. by intros [].
Defined.
#[export] Instance has_orders : Has order_row db.
Proof.
  refine {| tab := t_orders;
    set_tab t d := DB (t_users d) (t_user_sites d) (t_sessions d) (t_recovery_codes d)
      (t_service_tokens d) (t_ip_restrictions d) (t_jobs d) (t_sites d) (t_databases d)
      (t_crons d) (t_ssh_users d) (t_audit_logs d) (t_backups d) (t_servers d) (t_reg_tokens d)
      (t_channels d) (t_alerts d) (t_providers d) (t_schedules d) (t_configs d)
      (t_app_settings d) (t_db_users d) (t_db_servers d) (t_notifications d) (t_plans d) t
      (t_licenses d) (t_flags d) (t_vhosts d) (t_varnish d) (t_security d) (t_job_logs d)
      (t_baselines d) (t_metrics d) (t_cloudflare d) |}; [done| |done]. by intros [].
Defined.
#[export] Instance has_licenses : Has license_row db.
Proof.
  refine {| tab := t_licenses;
    set_tab t d := DB (t_users d) (t_user_sites d) (t_sessions d) (t_recovery_codes d)
      (t_service_tokens d) (t_ip_restrictions d) (t_jobs d) (t_sites d) (t_databases d)
      (t_crons d) (t_ssh_users d) (t_audit_logs d) (t_backups d) (t_servers d) (t_reg_tokens d)
      (t_channels d) (t_alerts d) (t_providers d) (t_schedules d) (t_configs d)
      (t_app_settings d) (t_db_users d) (t_db_servers d) (t_notifications d) (t_plans d)
      (t_orders d) t (t_flags d) (t_vhosts d) (t_varnish d) (t_security d) (t_job_logs d)
      (t_baselines d) (t_metrics d) (t_cloudflare d) |}; [done| |done]. by intros [].
Defined.
#[export] Instance has_flags : Has flag_row db.
Proof.
  refine {| tab := t_flags;
    set_tab t d := DB (t_users d) (t_user_sites d) (t_sessions d) (t_recovery_codes d)
      (t_service_tokens d) (t_ip_restrictions d) (t_jobs d) (t_sites d) (t_databases d)
      (t_crons d) (t_ssh_users d) (t_audit_logs d) (t_backups d) (t_servers d) (t_reg_tokens d)
      (t_channels d) (t_alerts d) (t_providers d) (t_schedules d) (t_configs d)
      (t_app_settings d) (t_db_users d) (t_db_servers d) (t_notifications d) (t_plans d)
      (t_orders d) (t_licenses d) t (t_vhosts d) (t_varnish d) (t_security d) (t_job_logs d)
      (t_baselines d) (t_metrics d) (t_cloudflare d) |}; [done| |done]. by intros [].
Defined.
#[export] Instance has_vhosts : Has vhost_row db.
Proof.
  refine {| tab := t_vhosts;
    set_tab t d := DB (t_users d) (t_user_sites d) (t_sessions d) (t_recovery_codes d)
      (t_service_tokens d) (t_ip_restrictions d) (t_jobs d) (t_sites d) (t_databases d)
      (t_crons d) (t_ssh_users d) (t_audit_logs d) (t_backups d) (t_servers d) (t_reg_tokens d)
      (t_channels d) (t_alerts d) (t_providers d) (t_schedules d) (t_configs d)
      (t_app_settings d) (t_db_users d) (t_db_servers d) (t_notifications d) (t_plans d)
      (t_orders d) (t_licenses d) (t_flags d) t (t_varnish d) (t_security d) (t_job_logs d)
      (t_baselines d) (t_metrics d) (t_cloudflare d) |}; [done| |done]. by intros [].
Defined.
#[export] Instance has_varnish : Has varnish_row db.
Proof.
  refine {| tab := t_varnish;
    set_tab t d := DB (t_users d) (t_user_sites d) (t_sessions d) (t_recovery_codes d)
      (t_service_tokens d) (t_ip_restrictions d) (t_jobs d) (t_sites d) (t_databases d)
      (t_crons d) (t_ssh_users d) (t_audit_logs d) (t_backups d) (t_servers d) (t_reg_tokens d)
      (t_channels d) (t_alerts d) (t_providers d) (t_schedules d) (t_configs d)
      (t_app_settings d) (t_db_users d) (t_db_servers d) (t_notifications d) (t_plans d)
      (t_orders d) (t_licenses d) (t_flags d) (t_vhosts d) t (t_security d) (t_job_logs d)
      (t_baselines d) (t_metrics d) (t_cloudflare d) |}; [done| |done]. by intros [].
Defined.
#[export] Instance has_security : Has security_row db.
Proof.
  refine {| tab := t_security;
    set_tab t d := DB (t_users d) (t_user_sites d) (t_sessions d) (t_recovery_codes d)
      (t_service_tokens d) (t_ip_restrictions d) (t_jobs d) (t_sites d) (t_databases d)
      (t_crons d) (t_ssh_users d) (t_audit_logs d) (t_backups d) (t_servers d) (t_reg_tokens d)
      (t_channels d) (t_alerts d) (t_providers d) (t_schedules d) (t_configs d)
      (t_app_settings d) (t_db_users d) (t_db_servers d) (t_notifications d) (t_plans d)
      (t_orders d) (t_licenses d) (t_flags d) (t_vhosts d) (t_varnish d) t (t_job_logs d)
      (t_baselines d) (t_metrics d) (t_cloudflare d) |}; [done| |done]. by intros [].
Defined.
#[export] Instance has_job_logs : Has log_row db.
Proof.
  refine {| tab := t_job_logs;
    set_tab t d := DB (t_users d) (t_user_sites d) (t_sessions d) (t_recovery_codes d)
      (t_service_tokens d) (t_ip_restrictions d) (t_jobs d) (t_sites d) (t_databases d)
      (t_crons d) (t_ssh_users d) (t_audit_logs d) (t_backups d) (t_servers d) (t_reg_tokens d)
      (t_channels d) (t_alerts d) (t_providers d) (t_schedules d) (t_configs d)
      (t_app_settings d) (t_db_users d) (t_db_servers d) (t_notifications d) (t_plans d)
      (t_orders d) (t_licenses d) (t_flags d) (t_vhosts d) (t_varnish d) (t_security d) t
      (t_baselines d) (t_metrics d) (t_cloudflare d) |}; [done| |done]. by intros [].
Defined.
#[export] Instance has_baselines : Has baseline_row db.
Proof.
  refine {| tab := t_baselines;
    set_tab t d := DB (t_users d) (t_user_sites d) (t_sessions d) (t_recovery_codes d)
      (t_service_tokens d) (t_ip_restrictions d) (t_jobs d) (t_sites d) (t_databases d)
      (t_crons d) (t_ssh_users d) (t_audit_logs d) (t_backups d) (t_servers d) (t_reg_tokens d)
      (t_channels d) (t_alerts d) (t_providers d) (t_schedules d) (t_configs d)
      (t_app_settings d) (t_db_users d) (t_db_servers d) (t_notifications d) (t_plans d)
      (t_orders d) (t_licenses d) (t_flags d) (t_vhosts d) (t_varnish d) (t_security d)
      (t_job_logs d) t (t_metrics d) (t_cloudflare d) |}; [done| |done]. by intros [].
Defined.
#[export] Instance has_metrics : Has metric_row db.
Proof.
  refine {| tab := t_metrics;
    set_tab t d := DB (t_users d) (t_user_sites d) (t_sessions d) (t_recovery_codes d)
      (t_service_tokens d) (t_ip_restrictions d) (t_jobs d) (t_sites d) (t_databases d)
      (t_crons d) (t_ssh_users d) (t_audit_logs d) (t_backups d) (t_servers d) (t_reg_tokens d)
      (t_channels d) (t_alerts d) (t_providers d) (t_schedules d) (t_configs d)
      (t_app_settings d) (t_db_users d) (t_db_servers d) (t_notifications d) (t_plans d)
      (t_orders d) (t_licenses d) (t_flags d) (t_vhosts d) (t_varnish d) (t_security d)
      (t_job_logs d) (t_baselines d) t (t_cloudflare d) |}; [done| |done]. by intros [].
Defined.
#[export] Instance has_cloudflare : Has cloudflare_row db.
Proof.
  refine {| tab := t_cloudflare;
    set_tab t d := DB (t_users d) (t_user_sites d) (t_sessions d) (t_recovery_codes d)
      (t_service_tokens d) (t_ip_restrictions d) (t_jobs d) (t_sites d) (t_databases d)
      (t_crons d) (t_ssh_users d) (t_audit_logs d) (t_backups d) (t_servers d) (t_reg_tokens d)
      (t_channels d) (t_alerts d) (t_providers d) (t_schedules d) (t_configs d)
      (t_app_settings d) (t_db_users d) (t_db_servers d) (t_notifications d) (t_plans d)
      (t_orders d) (t_licenses d) (t_flags d) (t_vhosts d) (t_varnish d) (t_security d)
      (t_job_logs d) (t_baselines d) (t_metrics d) t |}; [done| |done]. by intros [].
Defined.

(** ** Foreign keys *)

(** The row the column value [o] names is among the deleted rows of [t]. *)
Definition gone {A} `{HasId A} (p : A → bool) (t : table A) (o : option Z) : bool :=
  match o with Some i => existsb (λ r, p r && by_id i r) (t_rows t) | None => false end.

(** ON DELETE CASCADE of one referring column. *)
Definition cascade {A B} `{HasId A} `{Has A db} `{Has B db} (p : A → bool) (col : B → option Z) (d : db) : db :=
  set_tab (delete_where (λ r, gone p (tab (A := A) d) (col r)) (tab (A := B) d)) d.

#[export] Instance channel_references : References channel_row db :=
  {| fk_cascade p d := cascade p (λ r : alert_row, Some (al_channel r)) d; fk_blocked _ _ := false |}.
#[export] Instance database_references : References database_row db :=
  {| fk_cascade p d := cascade p (λ r : db_user_row, Some (du_database r)) d; fk_blocked _ _ := false |}.

#[export] Instance job_references : References job_row db :=
  {| fk_cascade p d := cascade p (λ r : log_row, Some (lo_job r)) d; fk_blocked _ _ := false |}.

(** The databases of a site take their users with them, its jobs their logs. *)
Definition site_cascade (p : site_row → bool) (d : db) : db :=
  let d1 := cascade p (λ r : user_site_row, Some (us_site r)) d in
  let d1' := fk_cascade (λ r : job_row, gone p (t_sites d1) (jr_site r)) d1 in
  let d2 := cascade p jr_site d1' in
  let d3 := fk_cascade (λ r : database_row, gone p (t_sites d2) (Some (db_site r))) d2 in
  let d4 := cascade p (λ r : database_row, Some (db_site r)) d3 in
  let d5 := cascade p (λ r : cron_row, Some (cj_site r)) d4 in
  let d6 := cascade p (λ r : ssh_row, Some (sh_site r)) d5 in
  let d7 := cascade p (λ r : backup_row, Some (b_site r)) d6 in
  let d8 := cascade p (λ r : ip_row, Some (ip_site r)) d7 in
  let d9 := cascade p (λ r : schedule_row, Some (sc_site r)) d8 in
  let d10 := cascade p (λ r : vhost_row, Some (vh_site r)) d9 in
  let d11 := cascade p (λ r : varnish_row, Some (va_site r)) d10 in
  cascade p (λ r : security_row, Some (sy_site r)) d11.
#[export] Instance site_references : References site_row db :=
  {| fk_cascade := site_cascade; fk_blocked _ _ := false |}.

(** The sites of a server go as if they were deleted themselves. *)
#[export] Instance server_references : References server_row db :=
  {| fk_cascade p d :=
       let on_server (r : site_row) := gone p (t_servers d) (Some (s_server r)) in
       let d1 := site_cascade on_server d in
       let d2 := set_tab (delete_where on_server (t_sites d1)) d1 in
       let d3 := fk_cascade (λ r : job_row, gone p (t_servers d2) (jr_server r)) d2 in
       let d4 := cascade p jr_server d3 in
       cascade p (λ r : metric_row, Some (me_server r)) d4;
     fk_blocked _ _ := false |}.

Definition user_cascade (p : user_row → bool) (d : db) : db :=
  let d1 := cascade p (λ r : user_site_row, Some (us_user r)) d in
  let d2 := cascade p (λ r : session_row, Some (se_user r)) d1 in
  cascade p (λ r : recovery_row, Some (rc_user r)) d2.
(** [users.created_by], [sites.owner_id], [audit_logs.user_id], [license_orders.user_id]
    and [approved_by], and [sessions.impersonated_by] have no ON DELETE action. *)
#[export] Instance user_references : References user_row db :=
  {| fk_cascade := user_cascade;
     fk_blocked p d :=
       let d' := user_cascade p d in
       has_row (λ r : user_row, negb (p r) && gone p (t_users d) (u_created_by r)) (t_users d) ||
       has_row (λ r : site_row, gone p (t_users d) (s_owner r)) (t_sites d) ||
       has_row (λ r : audit_row, gone p (t_users d) (au_user r)) (t_audit_logs d) ||
       has_row (λ r : order_row, gone p (t_users d) (Some (or_user r)) || gone p (t_users d) (or_approved_by r)) (t_orders d) ||
       has_row (λ r : session_row, gone p (t_users d) (se_impersonated_by r)) (t_sessions d') |}.

(** The foreign keys of [user_sites]. *)
#[export] Instance grant_parents : Parents user_site_row db := λ g d,
  has_row (by_id (us_user g)) (t_users d) && has_row (by_id (us_site g)) (t_sites d).

(** So have [users.plan_id] and [license_orders.plan_id]. *)
#[export] Instance plan_references : References plan_row db :=
  {| fk_cascade _ d := d;
     fk_blocked p d :=
       has_row (λ r : user_row, gone p (t_plans d) (u_plan r)) (t_users d) ||
       has_row (λ r : order_row, gone p (t_plans d) (Some (or_plan r))) (t_orders d) |}.

(** * Facts *)

Ltac db_simpl := cbn [
  tab set_tab t_users t_user_sites t_sessions t_recovery_codes t_service_tokens t_ip_restrictions
  t_jobs t_sites t_databases t_crons t_ssh_users t_audit_logs t_backups t_servers t_reg_tokens
  t_channels t_alerts t_providers t_schedules t_configs t_app_settings t_db_users t_db_servers
  t_notifications t_plans t_orders t_licenses t_flags t_vhosts t_varnish t_security t_job_logs
  t_baselines t_metrics t_cloudflare has_users has_user_sites has_sessions has_recovery_codes
  has_service_tokens has_ip_restrictions has_jobs has_sites has_databases has_crons has_ssh_users
  has_audit_logs has_backups has_servers has_reg_tokens has_channels has_alerts has_providers
  has_schedules has_configs has_app_settings has_db_users has_db_servers has_notifications has_plans
  has_orders has_licenses has_flags has_vhosts has_varnish has_security has_job_logs has_baselines
  has_metrics has_cloudflare] in *.

Lemma delete_where_ext {A} (p q : A → bool) (t : table A) :
  (∀ r, In r (t_rows t) → p r = q r) → delete_where p t = delete_where q t.
Proof. intros H. unfold delete_where. f_equal. apply List.filter_ext_in. intros r Hr. by rewrite H. Qed.

Lemma delete_where_twice {A} (p q : A → bool) (t : table A) :
  delete_where p (delete_where q t) = delete_where (λ r, q r || p r) t.
Proof.
  unfold delete_where. cbn. f_equal. induction (t_rows t) as [|r l IH]; cbn; [done|].
  destruct (q r); cbn; [done|]. destruct (p r); cbn; by rewrite IH.
Qed.

Lemma update_by_id_twice {A} `{HasId A} (i : Z) (f g : A → A) (t : table A) :
  (∀ r, row_id (f r) = row_id r) →
  update_where (by_id i) g (update_where (by_id i) f t) = update_where (by_id i) (λ r, g (f r)) t.
Proof.
  intros Hf. unfold update_where. cbn. f_equal. rewrite map_map. apply map_ext. intros r. unfold by_id.
  destruct (row_id r =? i) eqn:E; [by rewrite Hf, E|by rewrite E].
Qed.

Lemma gone_by_id (i : Z) (t : table site_row) (o : option Z) (s : site_row) :
  get_row i t = Some s → gone (by_id i) t o = bool_decide (o = Some i).
Proof.
  intros Hs. pose proof (get_row_id _ _ _ Hs) as Hi. apply find_spec in Hs as [_ Hin].
  destruct o as [j|]; cbn; [|done]. apply eq_true_iff_eq. rewrite existsb_exists, bool_decide_eq_true. split.
  - intros (r & _ & H). unfold by_id in H. bool_hyps. congruence.
  - intros [= ->]. exists s. split; [done|]. unfold by_id. by rewrite Hi, Z.eqb_refl.
Qed.

Lemma gone_some (i j : Z) (t : table site_row) (s : site_row) :
  get_row i t = Some s → existsb (λ r, by_id i r && by_id j r) (t_rows t) = (j =? i).
Proof.
  intros Hs. change (gone (by_id i) t (Some j) = (j =? i)). rewrite (gone_by_id _ _ _ s Hs). apply eq_true_iff_eq.
  rewrite bool_decide_eq_true, Z.eqb_eq. split; congruence.
Qed.

Lemma Ok_inj {A} (a b : A) : Ok a = Ok b → a = b.
Proof. by intros [= ->]. Qed.

(** ** Deleting a site *)

(** C36: deleting a site removes it with every row that belongs to it, in one step or not at
    all: after a success the tables of grants, jobs, databases, cron jobs, SSH users,
    backups, IP rules and schedules have lost exactly the rows of the site, the users
    of its databases and its audit entries are gone, and every other table is as it
    was; after an error the database is unchanged. *)
Theorem Delete_site_spec (id : Z) (w : world db) (s : site_row) (Hs : get_row id (t_sites (data w)) = Some s) :
  wp (Sites.Delete id) (λ r w', let d := data w in let d' := data w' in match r with
    | Err _ => d' = d
    | Ok _ =>
        d' = DB (t_users d) (delete_where (λ r, us_site r =? id) (t_user_sites d)) (t_sessions d)
               (t_recovery_codes d) (t_service_tokens d)
               (delete_where (λ r, ip_site r =? id) (t_ip_restrictions d))
               (delete_where (λ r, bool_decide (jr_site r = Some id)) (t_jobs d))
               (delete_where (by_id id) (t_sites d))
               (delete_where (λ r, db_site r =? id) (t_databases d))
               (delete_where (λ r, cj_site r =? id) (t_crons d))
               (delete_where (λ r, sh_site r =? id) (t_ssh_users d))
               (delete_where (λ r, (au_resource r =? "site")%string && bool_decide (au_resource_id r = Some id))
                  (t_audit_logs d))
               (delete_where (λ r, b_site r =? id) (t_backups d))
               (t_servers d) (t_reg_tokens d) (t_channels d) (t_alerts d) (t_providers d)
               (delete_where (λ r, sc_site r =? id) (t_schedules d)) (t_configs d) (t_app_settings d)
               (delete_where (λ r, gone (λ q : database_row, db_site q =? id) (t_databases d) (Some (du_database r)))
                  (t_db_users d))
               (t_db_servers d) (t_notifications d) (t_plans d) (t_orders d) (t_licenses d) (t_flags d)
               (delete_where (λ r, vh_site r =? id) (t_vhosts d)) (delete_where (λ r, va_site r =? id) (t_varnish d))
               (delete_where (λ r, sy_site r =? id) (t_security d))
               (delete_where (λ r, gone (λ q : job_row, bool_decide (jr_site q = Some id)) (t_jobs d) (Some (lo_job r)))
                  (t_job_logs d))
               (t_baselines d) (t_metrics d) (t_cloudflare d)
    end) w.
Proof.
  unfold Sites.Delete. eapply wp_mono; [|apply transaction_spec]. intros [u|e] w' [_ H]; [|done].
  revert H. generalize (data w'). intros d' H. revert Hs H. generalize (clock w) (data w). clear w w'. intros n d Hs H.
  assert (E := λ j, gone_some id j _ s Hs). assert (E2 := λ o, gone_by_id id _ o s Hs).
  cbn in H. injection H as <-.
  f_equal; rewrite ?delete_where_twice; apply delete_where_ext; intros r _; rewrite ?E, ?E2, ?orb_diag; try done.
  all: match goal with |- _ || ?b = _ => replace b with false; [by rewrite orb_false_r|] end;
    symmetry; apply existsb_False, List.Forall_forall; intros q [_ Hq]%List.filter_In; apply negb_true_iff in Hq.
  - by rewrite E, Hq.
  - rewrite E2, Hq. done.
Qed.

(** ** Transferring a site *)

Lemma has_row_deleted {A} (p : A → bool) (t : table A) : has_row p (delete_where p t) = false.
Proof.
  unfold has_row, delete_where. cbn. apply existsb_False, List.Forall_forall. intros r [_ H]%List.filter_In.
  by apply negb_true_iff in H.
Qed.

(** a transfer gives the site to the new owner, moves its root under the new owner's
    home and makes the new owner an administrator of it, in one step or not at all; the
    grants of every other user stay as they were, and among them the previous owner's:
    who had a grant on the site still has it. *)
Theorem Transfer_spec (siteID newOwnerID : Z) (w : world db) :
  wp (Sites.Transfer siteID newOwnerID) (λ r w', let d := data w in let d' := data w' in match r with
    | Err _ => d' = d
    | Ok move => ∃ s u,
        get_row siteID (t_sites d) = Some s ∧ get_row newOwnerID (t_users d) = Some u ∧
        let root := "/home/" +:+ u_username u +:+ "/htdocs/" +:+ s_domain s in
        (∃ s', get_row siteID (t_sites d') = Some s' ∧ s_owner s' = Some newOwnerID ∧ s_root_path s' = root ∧
               s_system_user s' = Some (u_username u) ∧ s_domain s' = s_domain s) ∧
        (∀ i, i ≠ siteID → get_row i (t_sites d') = get_row i (t_sites d)) ∧
        (∃ g, select_where (UserSites.is_grant newOwnerID siteID) (t_user_sites d') = [g] ∧ us_permission g = "admin") ∧
        (∀ g, UserSites.is_grant newOwnerID siteID g = false → In g (t_rows (t_user_sites d)) →
              In g (t_rows (t_user_sites d'))) ∧
        (∀ old dir name, move = Some (old, dir, name) → old = s_root_path s ∧ old ≠ root ∧ name = u_username u) ∧
        t_users d' = t_users d ∧ t_jobs d' = t_jobs d
    end) w.
Proof.
  unfold Sites.Transfer, Sites.GetByID. do 4 wp_step; [by wp_run|]. db_simpl. cbn [data clock].
  destruct (get_row siteID (t_sites (data w))) as [s|] eqn:Es; [|by wp_run].
  do 3 wp_step; [by wp_run|]. cbn [data clock].
  destruct (get_row newOwnerID (t_users (data w))) as [u|] eqn:Eu; cbn [fmap option_fmap option_map]; [|by wp_run].
  wp_step. eapply wp_mono; [|apply transaction_spec]. intros [x|e] w' [Hc H]; [|by wp_run].
  wp_step. cbn [data clock] in H. revert H. generalize (data w') (clock w). intros d' n H.
  revert Es Eu H. generalize (data w). clear. intros d Es Eu H. cbn [apply_steps Sites.transfer_steps] in H.
  db_simpl. cbv zeta. exists s, u. split; [done|]. split; [done|].
  destruct (has_row (by_id siteID) (t_sites d)); [|done]. unfold Sites.del_step in H. db_simpl.
  injection H as <-. db_simpl. unfold UserSites.upsert. rewrite has_row_deleted. split; [|split; [|split; [|split; [|split]]]].
  - rewrite get_update_id by done. rewrite Z.eqb_refl, Es. by eexists.
  - intros i Hi. rewrite get_update_id by done. by rewrite (proj2 (Z.eqb_neq i siteID)).
  - eexists. split; [|]. 
    + unfold select_where. cbn [insert_row snd t_rows]. rewrite List.filter_app. unfold delete_where. cbn [t_rows].
      rewrite filter_filter_none by (intros x ->; done). cbn. unfold UserSites.is_grant. cbn.
      by rewrite !Z.eqb_refl.
    + done.
  - intros g Hg Hin. cbn [insert_row snd t_rows]. apply in_app_iff. left. apply List.filter_In. by rewrite Hg.
  - intros old dir name. destruct (_ && _) eqn:E; [|done]. intros [= <- _ <-]. bool_hyps. done.
  - done.
Qed.


(** * Witnesses *)

Definition sample_grant (id user site : Z) (perm : string) : user_site_row := UserSiteRow id user site perm 0.
Definition sample_db_site (id owner : Z) : site_row :=
  new_site (mkSite 1 "shop" "shop.test" "php" "" "active" (Some owner) None None (Some "alice") None None None None None None None None) 0 id.
Definition site_db : db :=
  set_tab (Table [sample_db_site 7 1; sample_db_site 8 1] 8)
 (set_tab (Table [sample_grant 1 2 7 "admin"; sample_grant 2 2 8 "read"] 2)
 (set_tab (Table [DatabaseRow 5 7 "shop" "mysql" "utf8mb4" "" 0 0] 5)
 (set_tab (Table [DBUserRow 3 5 "shop" "" "" "localhost" "ALL" 0] 3) empty_db))).

Lemma Delete_site_spec_witness :
  let d' := data (Sites.Delete 7 (World site_db 0 [])).2 in
  map us_id (t_rows (t_user_sites d')) = [2] ∧ t_rows (t_db_users d') = [] ∧
  wp (Sites.Delete 7) (λ r w', match r with
    | Err _ => data w' = site_db
    | Ok _ => t_sites (data w') = delete_where (by_id 7) (t_sites site_db)
    end) (World site_db 0 []).
Proof.
  split; [reflexivity|]. split; [reflexivity|].
  eapply wp_mono; [|exact (Delete_site_spec 7 (World site_db 0 []) (sample_db_site 7 1) eq_refl)].
  intros [u|e] w' H; [|exact H]. cbv zeta in H. by rewrite H.
Defined.
