(* ===== verification/Fleet.v ===== *)
(** The fleet on the panel's database: one-time registration of agents, alert dispatch and
    health checks.  The code is src/internal/store/agents.go, notify/sender.go and
    jobs/healthcheck.go, modelled in Servers.v. *)
From S2P Require Import Prelude GoStr Sql JobStore Accounts Sites Servers Panel.
Local Open Scope Z_scope.
Local Open Scope panel_scope.

Set Default Proof Using "Type".

(** * Registering a server *)

Section Registration.
Context (time_after_text : Z → Z → bool).

Definition consumed (tokenID : Z) (srv : Server) (now sid : Z) (d d' : db) : Prop :=
  ∃ tok tok', get_row tokenID (t_reg_tokens d) = Some tok ∧ rt_used tok = None ∧
    time_after_text (rt_expires tok) (current_timestamp now) = true ∧
    get_row tokenID (t_reg_tokens d') = Some tok' ∧ rt_used tok' = Some (current_timestamp now) ∧
    (∀ i, i ≠ tokenID → get_row i (t_reg_tokens d') = get_row i (t_reg_tokens d)) ∧
    get_row sid (t_servers d) = None ∧ get_row sid (t_servers d') = Some (new_server srv now sid) ∧
    (∀ i, i ≠ sid → get_row i (t_servers d') = get_row i (t_servers d)) ∧
    table_wf (t_reg_tokens d') ∧ table_wf (t_servers d').

Lemma consume_lemma (tokenID : Z) (srv : Server) (w : world db)
    (Ht : table_wf (t_reg_tokens (data w))) (Hv : table_wf (t_servers (data w))) :
  wp (ConsumeRegistrationTokenAndCreateServer time_after_text tokenID srv) (λ r w',
    match r with
    | Err _ => data w' = data w
    | Ok sid => consumed tokenID srv (clock w) sid (data w) (data w')
    end) w.
Proof.
  unfold ConsumeRegistrationTokenAndCreateServer. destruct (valid_registration srv); [|by wp_run]. cbn [negb].
  wp_step. eapply wp_mono; [|apply transaction_spec]. intros [x|e] w' [_ H]; [|by wp_run].
  unfold wp. revert H. generalize (data w') (clock w). clear w'. intros d' n H. revert Ht Hv H.
  generalize (data w). clear w. intros d Ht Hv H. cbn [apply_steps consume_steps] in H. db_simpl.
  set (q := consumable time_after_text tokenID (current_timestamp n)) in H.
  destruct (Z.eqb_spec (count_where q (t_reg_tokens d)) 1) as [Hc|]; [|done]. apply Ok_inj in H as <-. db_simpl.
  assert ((0 <? count_where q (t_reg_tokens d)) = true) as (tok & Hin & Hq)%count_pos by (rewrite Hc; done).
  unfold q, consumable, RegistrationTokens.unused, by_id in Hq. bool_hyps.
  assert (get_row tokenID (t_reg_tokens d) = Some tok) as Et by (apply get_row_spec; [done|by split]).
  exists tok. eexists. split; [exact Et|]. split; [done|]. split; [done|]. db_simpl.
  rewrite get_update_other, Et by done. cbn [fmap option_fmap option_map]. split; [done|]. split; [|split; [|split; [|split; [|split; [|split]]]]].
  - unfold q, consumable, RegistrationTokens.unused, by_id.
    rewrite (proj2 (Z.eqb_eq _ _)), bool_decide_eq_true_2 by done. cbn. by case_match.
  - intros i Hi. rewrite get_update_other by done. destruct (get_row i (t_reg_tokens d)) as [r|] eqn:Er; [|done].
    cbn. apply get_row_id in Er. unfold q, consumable, RegistrationTokens.unused, by_id.
    by rewrite Er, (proj2 (Z.eqb_neq i tokenID)).
  - destruct (get_row _ (t_servers d)) as [r|] eqn:Er; [|done]. apply get_row_spec in Er as [Hr Hi]; [|done].
    pose proof (wf_range _ Hv) as Hf. rewrite List.Forall_forall in Hf. specialize (Hf r Hr).
    cbn in Hi, Hf. lia.
  - rewrite get_insert by done. cbn [insert_row snd t_seq]. by rewrite Z.eqb_refl.
  - intros i Hi. rewrite get_insert by done. cbn [insert_row snd t_seq] in Hi. by rewrite (proj2 (Z.eqb_neq _ _)).
  - by apply update_wf.
  - by apply insert_wf.
Qed.

(** claiming a registration token and creating its server happen together or not at
    all: on success the token was unused and not expired, it is now marked used, and
    exactly one server, the one described, has been added; on an error neither table
    has changed. *)
Theorem ConsumeRegistrationToken_spec (tokenID : Z) (srv : Server) (w : world db)
    (Ht : table_wf (t_reg_tokens (data w))) (Hv : table_wf (t_servers (data w))) :
  wp (ConsumeRegistrationTokenAndCreateServer time_after_text tokenID srv) (λ r w',
    match r with
    | Err _ => data w' = data w
    | Ok sid => consumed tokenID srv (clock w) sid (data w) (data w')
    end) w.
Proof. exact (consume_lemma tokenID srv w Ht Hv). Qed.

(** Several agents that present the same token; the ids of the servers they got. *)
Fixpoint register_all (tokenID : Z) (l : list Server) : M db (list Z) :=
  match l with
  | [] => mret []
  | srv :: l' =>
      let* r := ConsumeRegistrationTokenAndCreateServer time_after_text tokenID srv in
      let* ids := register_all tokenID l' in
      mret (match r with Ok sid => sid :: ids | Err _ => ids end)
  end.

Lemma register_used (tokenID : Z) (l : list Server) (w : world db) tok :
  table_wf (t_reg_tokens (data w)) → table_wf (t_servers (data w)) →
  get_row tokenID (t_reg_tokens (data w)) = Some tok → rt_used tok ≠ None →
  wp (register_all tokenID l) (λ ids w', ids = [] ∧ data w' = data w) w.
Proof.
  revert w. induction l as [|srv l IH]; intros w Ht Hv Eg Hu; cbn [register_all]; [by wp_run|].
  wp_step. eapply wp_mono; [|by apply consume_lemma]. intros [sid|e] w' H.
  - destruct H as (tok' & _ & E & Hn & _). rewrite E in Eg. injection Eg as ->. done.
  - wp_step. eapply wp_mono; [|apply IH; by rewrite ?H]. intros ids w2 [-> E]. wp_run. by rewrite E, H.
Qed.

(** C37: a registration token is good for one server: however many agents present it, with
    any failing statements, at most one of them gets a server. *)
Theorem register_all_once (tokenID : Z) (l : list Server) (w : world db)
    (Ht : table_wf (t_reg_tokens (data w))) (Hv : table_wf (t_servers (data w))) :
  wp (register_all tokenID l) (λ ids _, (length ids ≤ 1)%nat) w.
Proof.
  revert w Ht Hv. induction l as [|srv l IH]; intros w Ht Hv; cbn [register_all]; [wp_run; cbn; lia|].
  wp_step. eapply wp_mono; [|by apply consume_lemma]. intros [sid|e] w' H.
  - destruct H as (tok & tok' & _ & _ & _ & E & Hu & _ & _ & _ & _ & Ht' & Hv').
    wp_step. eapply wp_mono; [|apply (register_used tokenID l w' tok'); try done; by rewrite Hu].
    intros ids w2 [-> _]. wp_run. cbn. lia.
  - wp_step. eapply wp_mono; [|apply IH; by rewrite H]. intros ids w2 Hl. by wp_run.
Qed.
End Registration.

(** * Alerts *)

Section Alerting.
Context (deliver : channel_row → string → string → string → error).

(** What becomes of an alert sent to a channel. *)
Definition outcome (ch : channel_row) (severity subject message : string) : string * option string :=
  match NewNotifier (ch_type ch) with
  | Some e => ("failed", null_if_empty e)
  | None => match deliver ch severity subject message with
            | Some e => ("failed", null_if_empty e)
            | None => ("sent", None)
            end
  end.
Definition alert_of (severity subject message : string) (n : Z) (ch : channel_row) (id : Z) : alert_row :=
  let '(st, err) := outcome ch severity subject message in
  AlertRow id (ch_id ch) severity subject message st err (current_timestamp n)
    (if (st =? "sent")%string then Some (current_timestamp n) else None).

(** The alerts [mk 1, mk 2, ...] added at the end of the table. *)
Fixpoint add_rows {A} (mks : list (Z → A)) (t : table A) : table A :=
  match mks with [] => t | mk :: l => add_rows l (insert_row mk t).2 end.

Lemma update_inserted (mk : Z → alert_row) (f : alert_row → alert_row) (t : table alert_row) :
  table_wf t → (∀ i, row_id (mk i) = i) →
  update_where (by_id (t_seq t + 1)) f (insert_row mk t).2 = (insert_row (λ i, f (mk i)) t).2.
Proof.
  intros Hw Hi. unfold update_where, insert_row. cbn [snd t_rows t_seq]. f_equal. rewrite map_app. f_equal.
  - rewrite <- (map_id (t_rows t)) at 2. apply map_ext_in. intros r Hr. pose proof (wf_range _ Hw) as Hf.
    rewrite List.Forall_forall in Hf. specialize (Hf r Hr). unfold by_id. by rewrite (proj2 (Z.eqb_neq _ _)) by lia.
  - cbn. unfold by_id. by rewrite Hi, Z.eqb_refl.
Qed.

Lemma send_one_ok (ch : channel_row) (sev sub msg : string) (d : db) (n : Z) :
  table_wf (t_alerts d) →
  (send_one deliver ch sev sub msg (World d n [])).2 =
    World (if ch_enabled ch then set_tab (insert_row (alert_of sev sub msg n ch) (t_alerts d)).2 d else d) n [].
Proof.
  intros Hw. unfold send_one, alert_of, outcome. destruct (ch_enabled ch); [|done].
  unfold Alerts.Create, insert_checked, wrap, mbind, mret. cbn [negb]. rewrite stmt_ok. cbn [insert_row fst snd].
  assert (Hu : ∀ f, set_tab (update_where (by_id (t_seq (t_alerts d) + 1)) f
      (insert_row (Alerts.new_alert (ch_id ch) sev sub msg "pending" n) (t_alerts d)).2) d =
      set_tab (insert_row (λ i, f (Alerts.new_alert (ch_id ch) sev sub msg "pending" n i)) (t_alerts d)).2 d).
  { intros f. by rewrite update_inserted. }
  destruct (NewNotifier (ch_type ch)); [|destruct (deliver ch sev sub msg)];
    unfold Alerts.MarkFailed, Alerts.MarkSent, update_tab, exec, wrap, mbind, mret; rewrite stmt_ok; cbn [fst snd];
    f_equal; apply Hu.
Qed.

Lemma send_lemma (sev sub msg : string) (d : db) (n : Z) (Hw : table_wf (t_alerts d)) :
  (Send deliver sev sub msg (World d n [])).2 =
    World (set_tab (add_rows (map (alert_of sev sub msg n) (List.filter ch_enabled (t_rows (t_channels d))))
             (t_alerts d)) d) n [].
Proof.
  unfold Send, AlertChannels.List, query, wrap, mbind, mret. rewrite stmt_ok. cbn [fst snd]. db_simpl.
  generalize (t_rows (t_channels d)). intros chs. revert d Hw.
  induction chs as [|ch chs IH]; intros d Hw; cbn [mfor List.filter map add_rows]; [by destruct d|].
  unfold mbind. pose proof (send_one_ok ch sev sub msg d n Hw) as E.
  destruct (send_one deliver ch sev sub msg (World d n [])) as [x w]. cbn [snd] in E. subst w.
  destruct (ch_enabled ch); [|by apply IH]. cbn [map add_rows]. rewrite IH; [done|].
  apply insert_wf; [|done]. intros i. unfold alert_of. by destruct (outcome ch sev sub msg).
Qed.
(** without a failing statement every enabled channel gets one alert of the message,
    in the order of the channels, marked sent or failed by its delivery (an unknown
    channel type is a failure), and nothing else in the database changes. *)
Theorem Send_spec (sev sub msg : string) (d : db) (n : Z) (Hw : table_wf (t_alerts d)) :
  (Send deliver sev sub msg (World d n [])).2 =
    World (set_tab (add_rows (map (alert_of sev sub msg n) (List.filter ch_enabled (t_rows (t_channels d))))
             (t_alerts d)) d) n [].
Proof. by apply send_lemma. Qed.

Lemma send_eq (sev sub msg : string) (d : db) (n : Z) (Hw : table_wf (t_alerts d)) :
  Send deliver sev sub msg (World d n []) =
    ((), World (set_tab (add_rows (map (alert_of sev sub msg n) (List.filter ch_enabled (t_rows (t_channels d))))
             (t_alerts d)) d) n []).
Proof. rewrite <- send_lemma by done. by destruct (Send deliver sev sub msg (World d n [])) as [[] ?]. Qed.
End Alerting.

(** * Health checks *)

Section Health.
Context (deliver : channel_row → string → string → string → error).

(** The status of the server a check leaves behind, and the alert it raises. *)
Definition next_status (health old : string) : string :=
  if (health =? "online")%string && str_in ["pending"; "offline"] old then "online"
  else if (health =? "offline")%string && str_in ["online"; "degraded"] old then "offline" else old.
Definition alert_kind (srv : server_row) (health : string) : option (string * string * string) :=
  if (health =? "offline")%string && str_in ["online"; "degraded"; "unknown"] (sv_health srv)
  then Some ("warning", "Server Offline", "Server '" +:+ sv_name srv +:+ "' (" +:+ sv_hostname srv +:+ ") is unreachable")
  else if str_in ["online"; "degraded"] health && (sv_health srv =? "offline")%string
  then Some ("info", "Server Recovered", "Server '" +:+ sv_name srv +:+ "' (" +:+ sv_hostname srv +:+ ") is back online")
  else None.

Lemma health_cases (p : probe) : In (health_of p).1 ["offline"; "degraded"; "online"].
Proof. unfold health_of. repeat case_match; cbn; tauto. Qed.

Lemma next_status_cases (health old : string) :
  (health =? "online")%string && str_in ["pending"; "offline"] old = true →
  (health =? "offline")%string && str_in ["online"; "degraded"] old = false.
Proof. intros H. bool_hyps. by subst health. Qed.

(** The steps of [updateAndAlert] without faults. *)
Definition updated (id : Z) (f : Z → server_row → server_row) (n : Z) (d : db) : db :=
  set_tab (update_where (by_id id) (f (current_timestamp n)) (t_servers d)) d.
Definition alerted (sev sub msg : string) (n : Z) (d : db) : db :=
  set_tab (add_rows (map (alert_of deliver sev sub msg n) (List.filter ch_enabled (t_rows (t_channels d))))
    (t_alerts d)) d.

Lemma alerted_wf (sev sub msg : string) (n : Z) (d : db) :
  table_wf (t_alerts d) → table_wf (t_alerts (alerted sev sub msg n d)).
Proof.
  unfold alerted. db_simpl. generalize (List.filter ch_enabled (t_rows (t_channels d))) (t_alerts d). clear d.
  induction l as [|ch l IH]; intros t Hw; cbn [map add_rows]; [done|]. apply IH, insert_wf; [|done].
  intros i. unfold alert_of. by destruct (outcome deliver ch sev sub msg).
Qed.

Lemma when_status (b : bool) (id : Z) (st : string) (d : db) (n : Z) :
  (if b then let* _ := Servers.UpdateStatus id st in mret () else mret ()) (World d n []) =
    ((), World (if b then updated id (λ n r, sv_touch n (set_sv_status st r)) n d else d) n []).
Proof. by destruct b. Qed.

Lemma when_alert (b : bool) (sev sub msg : string) (d : db) (n : Z) :
  table_wf (t_alerts d) →
  (if b then Send deliver sev sub msg else mret ()) (World d n []) =
    ((), World (if b then alerted sev sub msg n d else d) n []).
Proof. intros Hw. destruct b; [by apply send_eq|done]. Qed.

Lemma alert_excl (health prev : string) :
  (health =? "offline")%string && str_in ["online"; "degraded"; "unknown"] prev = true →
  str_in ["online"; "degraded"] health && (prev =? "offline")%string = false.
Proof. intros H. bool_hyps. by subst health. Qed.

Definition promotes (srv : server_row) (health : string) : bool :=
  (health =? "online")%string && str_in ["pending"; "offline"] (sv_status srv).
Definition demotes (srv : server_row) (health : string) : bool :=
  (health =? "offline")%string && str_in ["online"; "degraded"] (sv_status srv).
Definition checked (srv : server_row) (health : string) (lat n : Z) (d : db) : db :=
  let d0 := updated (sv_id srv) (λ n r, sv_touch n (set_health health lat (Some n) r)) n d in
  let d1 := if promotes srv health then updated (sv_id srv) (λ n r, sv_touch n (set_sv_status "online" r)) n d0 else d0 in
  let d2 := if demotes srv health then updated (sv_id srv) (λ n r, sv_touch n (set_sv_status "offline" r)) n d1 else d1 in
  match alert_kind srv health with Some (sev, sub, msg) => alerted sev sub msg n d2 | None => d2 end.

Lemma updateAndAlert_eq (srv : server_row) (health : string) (lat : Z) (d : db) (n : Z) (Hw : table_wf (t_alerts d)) :
  updateAndAlert deliver srv health lat (World d n []) = ((), World (checked srv health lat n d) n []).
Proof.
  unfold updateAndAlert, Servers.UpdateHealth, wrap, update_tab, exec, mbind at 1 2. rewrite stmt_ok.
  unfold mret at 1. cbv beta iota zeta.
  unfold mbind at 1. rewrite when_status. cbv beta iota. unfold mbind at 1. rewrite when_status. cbv beta iota.
  match goal with |- mbind _ _ (World ?x _ _) = _ => set (d2 := x) end.
  assert (t_alerts d2 = t_alerts d) as Ea by (subst d2; by repeat case_match).
  unfold mbind. rewrite when_alert by (by rewrite Ea). cbv beta iota.
  rewrite when_alert by (case_match; [apply alerted_wf|]; by rewrite Ea).
  pose proof (alert_excl health (sv_health srv)) as Hx. unfold checked, alert_kind.
  destruct ((health =? "offline")%string && str_in ["online"; "degraded"; "unknown"] (sv_health srv)); [by rewrite Hx|].
  by destruct (str_in ["online"; "degraded"] health && (sv_health srv =? "offline")%string).
Qed.

(** what one health check of a server does: its health, latency and check time are those
    of the probe, its status follows the promotion and demotion rules, the other servers
    do not change, and an alert goes to the enabled channels exactly when the server has
    just gone offline or has just recovered. *)
Theorem checkServer_spec (srv : server_row) (p : probe) (d : db) (n : Z)
    (Hs : get_row (sv_id srv) (t_servers d) = Some srv) (Hw : table_wf (t_alerts d)) :
  let d' := data (checkServer deliver srv p (World d n [])).2 in
  let health := (health_of p).1 in
  (∃ r, get_row (sv_id srv) (t_servers d') = Some r ∧ sv_health r = health ∧ sv_latency r = (health_of p).2 ∧
        sv_last_check r = Some (current_timestamp n) ∧ sv_status r = next_status health (sv_status srv) ∧
        sv_name r = sv_name srv ∧ sv_agent_url r = sv_agent_url srv) ∧
  (∀ i, i ≠ sv_id srv → get_row i (t_servers d') = get_row i (t_servers d)) ∧
  t_alerts d' = match alert_kind srv health with
                | Some (sev, sub, msg) =>
                    add_rows (map (alert_of deliver sev sub msg n) (List.filter ch_enabled (t_rows (t_channels d))))
                      (t_alerts d)
                | None => t_alerts d
                end.
Proof.
  unfold checkServer. destruct (health_of p) as [health lat]. rewrite updateAndAlert_eq by done. cbn [fst snd data].
  set (d' := checked srv health lat n d). pose proof (next_status_cases health (sv_status srv)) as Hn.
  unfold next_status. fold (promotes srv health) (demotes srv health) in Hn |- *.
  assert (t_servers d' = update_where (by_id (sv_id srv)) (λ r,
     let r0 := sv_touch (current_timestamp n) (set_health health lat (Some (current_timestamp n)) r) in
     if promotes srv health then sv_touch (current_timestamp n) (set_sv_status "online" r0)
     else if demotes srv health then sv_touch (current_timestamp n) (set_sv_status "offline" r0) else r0)
     (t_servers d)) as ->.
  { subst d'. unfold checked, updated, alerted.
    destruct (promotes srv health); [rewrite Hn by done|destruct (demotes srv health)];
      destruct (alert_kind srv health) as [[[sev sub] msg]|]; db_simpl; rewrite ?update_by_id_twice by done; done. }
  rewrite get_update_id, Z.eqb_refl, Hs by (intros r; by repeat case_match). cbn [fmap option_fmap option_map].
  split; [|split].
  - eexists. split; [done|]. destruct (promotes srv health); [|destruct (demotes srv health)]; done.
  - intros i Hi. rewrite get_update_id by (intros r; by repeat case_match). by rewrite (proj2 (Z.eqb_neq i (sv_id srv))).
  - subst d'. unfold checked. destruct (alert_kind srv health) as [[[sev sub] msg]|]; unfold alerted, updated; db_simpl;
      destruct (promotes srv health), (demotes srv health); done.
Qed.
End Health.

(** * Witnesses *)

Definition sample_server (id : Z) (status health : string) : server_row :=
  ServerRow id "web1" "web1.test" (Some "https://web1:8443") None None 22 "" status None "tok" None health 0 0 0.
Definition sample_channel (id : Z) (type : string) (enabled : bool) : channel_row :=
  ChannelRow id "ops" type enabled "{}" 0 0.
Definition fleet_db : db :=
  set_tab (Table [sample_server 1 "online" "online"; sample_server 2 "pending" "unknown"] 2)
 (set_tab (Table [sample_channel 1 "telegram" true; sample_channel 2 "email" false; sample_channel 3 "sms" true] 3)
 (set_tab (Table [RegRow 4 "hash" None 100 None 0] 4) empty_db)).
Definition sample_agent : Server :=
  mkServer "web3" "web3.test" None None None 22 "" "" None "agent-token" "".
Definition no_delivery (_ : channel_row) (_ _ _ : string) : error := None.

Lemma fleet_tokens_wf : table_wf (t_reg_tokens fleet_db).
Proof. split; [| |done]; cbn; repeat constructor; cbn; lia. Qed.
Lemma fleet_servers_wf : table_wf (t_servers fleet_db).
Proof. split; [| |done]; cbn; repeat constructor; cbn; lia. Qed.

Lemma ConsumeRegistrationToken_spec_witness :
  (ConsumeRegistrationTokenAndCreateServer (λ _ _, true) 4 sample_agent (World fleet_db 0 [])).1 = Ok 3 ∧
  wp (ConsumeRegistrationTokenAndCreateServer (λ _ _, true) 4 sample_agent) (λ r w', match r with
    | Err _ => data w' = fleet_db
    | Ok sid => consumed (λ _ _, true) 4 sample_agent 0 sid fleet_db (data w')
    end) (World fleet_db 0 []).
Proof.
  split; [reflexivity|].
  exact (ConsumeRegistrationToken_spec (λ _ _, true) 4 sample_agent (World fleet_db 0 []) fleet_tokens_wf fleet_servers_wf).
Defined.

(** Two agents with one token: the first gets server 3. *)
Lemma register_all_once_witness :
  (register_all (λ _ _, true) 4 [sample_agent; sample_agent] (World fleet_db 0 [])).1 = [3] ∧
  wp (register_all (λ _ _, true) 4 [sample_agent; sample_agent]) (λ ids _, (length ids ≤ 1)%nat) (World fleet_db 0 []).
Proof.
  split; [reflexivity|].
  exact (register_all_once (λ _ _, true) 4 [sample_agent; sample_agent] (World fleet_db 0 []) fleet_tokens_wf fleet_servers_wf).
Defined.

Lemma Send_spec_witness :
  (Send no_delivery "warning" "s" "m" (World fleet_db 0 [])).2 =
    World (set_tab (add_rows (map (alert_of no_delivery "warning" "s" "m" 0)
             [sample_channel 1 "telegram" true; sample_channel 3 "sms" true]) (t_alerts fleet_db)) fleet_db) 0 [].
Proof. exact (Send_spec no_delivery "warning" "s" "m" fleet_db 0 empty_wf). Defined.

(** A timeout on an online server: it goes offline and the two enabled channels are told. *)
Lemma checkServer_spec_witness :
  let d' := data (checkServer no_delivery (sample_server 1 "online" "online") (Probe true 10000 None) (World fleet_db 0 [])).2 in
  map al_status (t_rows (t_alerts d')) = ["sent"; "failed"] ∧
  (∃ r, get_row 1 (t_servers d') = Some r ∧ sv_health r = "offline" ∧ sv_latency r = 10000 ∧
        sv_last_check r = Some 0 ∧ sv_status r = "offline" ∧ sv_name r = "web1" ∧
        sv_agent_url r = Some "https://web1:8443").
Proof.
  split; [reflexivity|].
  exact (proj1 (checkServer_spec no_delivery (sample_server 1 "online" "online") (Probe true 10000 None) fleet_db 0 eq_refl empty_wf)).
Defined.
