(* ===== verification/Agent.v ===== *)
(** The panel's client of an agent: src/internal/agentclient/client.go.  The HTTP
    round trip is a parameter; what is sent, how the answer is decoded and which
    errors are made of it are the code's. *)
From S2P Require Import Prelude GoStr Json Sql.
Local Open Scope Z_scope.
Local Open Scope panel_scope.

Set Default Proof Using "Type".

Record Client := mkClient { baseURL : string; c_token : string }.

Record TaskResult := mkResult {
  OK : bool; Output : string; Error : string; AppStatus : string; Path : string; S3Path : string;
  S3UploadError : string; SizeBytes : Z; NginxConfig : string; ProxyPassURL : string }.
Definition zero_result : TaskResult := mkResult false "" "" "" "" "" "" 0 "" "".

(** ** JSON of a result *)

Definition omitempty (k s : string) : list (string * json) := if (s =? "")%string then [] else [(k, JStr s)].
Definition marshal_result (r : TaskResult) : string :=
  Marshal (JObj ([("ok", JBool (OK r))] ++ omitempty "output" (Output r) ++ omitempty "error" (Error r) ++
    omitempty "app_status" (AppStatus r) ++ omitempty "path" (Path r) ++ omitempty "s3_path" (S3Path r) ++
    omitempty "s3_upload_error" (S3UploadError r) ++
    (if SizeBytes r =? 0 then [] else [("size_bytes", JInt (SizeBytes r))]) ++
    omitempty "nginx_config" (NginxConfig r) ++ omitempty "proxy_pass_url" (ProxyPassURL r))).

(** One member into the struct; a value of another type is an error, null leaves
    the field. *)
Definition set_field (k : string) (v : json) (r : TaskResult) : option TaskResult :=
  let '(mkResult ok out err app p s3 s3e sz ng px) := r in
  let str (f : string → TaskResult) :=
    match v with JStr s => Some (f s) | JNull => Some r | _ => None end in
  match v, to_lower k with
  | JBool b, "ok" => Some (mkResult b out err app p s3 s3e sz ng px)
  | JNull, "ok" => Some r
  | _, "ok" => None
  | _, "output" => str (λ s, mkResult ok s err app p s3 s3e sz ng px)
  | _, "error" => str (λ s, mkResult ok out s app p s3 s3e sz ng px)
  | _, "app_status" => str (λ s, mkResult ok out err s p s3 s3e sz ng px)
  | _, "path" => str (λ s, mkResult ok out err app s s3 s3e sz ng px)
  | _, "s3_path" => str (λ s, mkResult ok out err app p s s3e sz ng px)
  | _, "s3_upload_error" => str (λ s, mkResult ok out err app p s3 s sz ng px)
  | _, "size_bytes" => (λ n, mkResult ok out err app p s3 s3e n ng px) <$> decode_int (Some sz) v
  | _, "nginx_config" => str (λ s, mkResult ok out err app p s3 s3e sz s px)
  | _, "proxy_pass_url" => str (λ s, mkResult ok out err app p s3 s3e sz ng s)
  | _, _ => Some r
  end.
Definition unmarshal_result (body : string) : option TaskResult :=
  match parse_text body with
  | Some (JObj l) => fold_left (λ acc p, match acc with Some r => set_field p.1 p.2 r | None => None end) l (Some zero_result)
  | Some JNull => Some zero_result
  | _ => None
  end.

(** [struct { Message, Error string }]. *)
Definition message_fields (body : string) : option (string * string) :=
  match parse_text body with
  | Some (JObj l) =>
      fold_left (λ acc p, match acc with
        | None => None
        | Some (m, e) =>
            match to_lower p.1, p.2 with
            | "message", JStr s => Some (s, e)
            | "error", JStr s => Some (m, s)
            | "message", JNull | "error", JNull => Some (m, e)
            | "message", _ | "error", _ => None
            | _, _ => Some (m, e)
            end
        end) l (Some ("", ""))
  | Some JNull => Some ("", "")
  | _ => None
  end.

(** ** Redaction: [agentErrorSecretPattern]

    On ASCII texts: beyond them the pattern also folds two non-ASCII letters. *)

Definition word_char (c : ascii) : bool := is_alnum c || Ascii.eqb c "_".
Definition space_char (c : ascii) : bool := chr_in (String " " (String (byte 9) (String LF (String (byte 12) (String CR EmptyString))))) c.
(** A lower-case keyword at the start, any case; what follows it. *)
Fixpoint strip_fold (kw s : string) : option string :=
  match kw, s with
  | EmptyString, _ => Some s
  | String k kw', String c s' => if Ascii.eqb (lower1 c) k then strip_fold kw' s' else None
  | _, _ => None
  end.
Definition strip_key (s : string) : option string :=
  let alt o1 o2 := match o1 with Some r => Some r | None => o2 end in
  alt (strip_fold "password" s) (alt (strip_fold "secret" s) (alt (strip_fold "token" s)
    (alt (match strip_fold "access" s with
          | Some (String c r as t) =>
              if chr_in "_-" c then strip_fold "key" r else strip_fold "key" t
          | _ => None
          end) (strip_fold "authorization" s)))).
Definition drop_spaces (s : string) : string := (span space_char s).2.
(** What follows a match at the start of [s], and the text it is replaced by. *)
Definition match_secret (s : string) : option (string * string) :=
  match strip_key s with
  | None => None
  | Some r =>
      match drop_spaces r with
      | String sep t =>
          if chr_in ":=" sep then
            let '(v, rest) := span (λ c, negb (space_char c || chr_in ",;" c)) (drop_spaces t) in
            if (v =? "")%string then None
            else Some (rest, str_take (String.length s - String.length r) s +:+ String sep "[REDACTED]")
          else None
      | EmptyString => None
      end
  end.
(** [after_word]: the byte before is a word character, so there is no [\b] before
    a letter. *)
Fixpoint redact (fuel : nat) (after_word : bool) (s : string) : string :=
  match fuel, s with
  | O, _ => s
  | _, EmptyString => EmptyString
  | S f, String c s' =>
      match (if after_word then None else match_secret s) with
      | Some (rest, r) => r +:+ redact f false rest
      | None => String c (redact f (word_char c) s')
      end
  end.
Definition redactAgentError (message : string) : string := redact (String.length message) false message.

(** ** Requests *)

(** [%q]: bytes beyond ASCII are taken as printable. *)
Definition quote_byte (c : ascii) : string :=
  let n := code c in
  if Ascii.eqb c DQ then esc DQ else if Ascii.eqb c BS then esc BS
  else if n =? 7 then esc "a" else if n =? 8 then esc "b" else if n =? 9 then esc "t" else if n =? 10 then esc "n"
  else if n =? 11 then esc "v" else if n =? 12 then esc "f" else if n =? 13 then esc "r"
  else if (n <? 32) || (n =? 127)
  then String BS (String "x" (String (hex_digit (n / 16)) (String (hex_digit (n mod 16)) EmptyString)))
  else String c EmptyString.
Fixpoint quote_body (s : string) : string :=
  match s with EmptyString => EmptyString | String c s' => quote_byte c +:+ quote_body s' end.
Definition go_quote (s : string) : string := String DQ (quote_body s +:+ String DQ EmptyString).

Definition endpointForType (t : string) : string :=
  match t with
  | "site.create" => "/tasks/site/create"
  | "site.delete" => "/tasks/site/delete"
  | "site.deploy" => "/tasks/site/deploy"
  | "ssl.issue" => "/tasks/ssl/issue"
  | "ssl.renew" => "/tasks/ssl/renew"
  | "backup.create" => "/tasks/backup/create"
  | "backup.restore" => "/tasks/backup/restore"
  | "backup.delete" => "/tasks/backup/delete"
  | "db_backup.create" => "/tasks/backup/database"
  | "nginx.reload" => "/tasks/nginx/reload"
  | "database.create" => "/tasks/database/create"
  | "database.delete" => "/tasks/database/delete"
  | "dbuser.create" => "/tasks/dbuser/create"
  | "dbuser.delete" => "/tasks/dbuser/delete"
  | "app.start" => "/tasks/app/start"
  | "app.stop" => "/tasks/app/stop"
  | "app.restart" => "/tasks/app/restart"
  | _ => ""
  end.

Definition agentResponseError (statusCode : Z) (result : TaskResult) (responseBody : string) : string :=
  let m0 := trim_space (Error result) in
  let m1 := if negb (m0 =? "")%string then m0
            else match message_fields responseBody with
                 | Some (m, e) => if (trim_space m =? "")%string then trim_space e else trim_space m
                 | None => ""
                 end in
  let message := redactAgentError m1 in
  let kind := if 500 <=? statusCode then "agent returned " else "agent error " in
  if (message =? "")%string then kind +:+ itoa statusCode
  else kind +:+ itoa statusCode +:+ ": " +:+ message.

Section Execute.
(** The POST of a body with a bearer token: the status code and the body of the
    answer, or the error of the transport. *)
Context (post : string → string → string → res (Z * string)).

(** The result, nil for [None], and the error. *)
Definition Execute (c : Client) (jobType payload : string) : option TaskResult * error :=
  let endpoint := endpointForType jobType in
  if (endpoint =? "")%string then (None, Some ("unknown job type " +:+ go_quote jobType))
  else match post (baseURL c +:+ endpoint) (c_token c) (if (payload =? "")%string then "{}" else payload) with
       | Err e => (None, Some ("do request: " +:+ e))
       | Ok (statusCode, body) =>
           match unmarshal_result body with
           | None => (None, Some "decode response: invalid response")
           | Some result =>
               if statusCode =? 501 then
                 let '(mkResult _ out _ app p s3 s3e sz ng px) := result in
                 (Some (mkResult false out ("agent task not implemented: " +:+ jobType) app p s3 s3e sz ng px), None)
               else if 400 <=? statusCode then (Some result, Some (agentResponseError statusCode result body))
               else (Some result, None)
           end
       end.
End Execute.

Example redact_value : redactAgentError "dump failed: password=top-secret, retry; Access_Key : AKIA" =
  "dump failed: password=[REDACTED], retry; Access_Key:[REDACTED]".
Proof. reflexivity. Qed.
Example redact_boundary : redactAgentError "mytoken=abc token abc" = "mytoken=abc token abc".
Proof. reflexivity. Qed.

(** * Facts *)

(** when a dispatch counts as done: the type has an endpoint, the agent answered with
    a result that decodes, and the status is below 400 or is 501; what the result says
    in its [ok] field plays no part, and a task that the agent does not implement is
    returned without an error. *)
Theorem Execute_no_error (post : string → string → string → res (Z * string)) (c : Client) (ty payload : string) :
  (Execute post c ty payload).2 = None ↔
  endpointForType ty ≠ "" ∧ ∃ code body r,
    post (baseURL c +:+ endpointForType ty) (c_token c) (if (payload =? "")%string then "{}" else payload) = Ok (code, body) ∧
    unmarshal_result body = Some r ∧ (code < 400 ∨ code = 501) ∧
    ∃ r', (Execute post c ty payload).1 = Some r' ∧ (code = 501 → OK r' = false).
Proof.
  unfold Execute. destruct (String.eqb_spec (endpointForType ty) "") as [E|E]; [by split; [|intros [? _]]|].
  destruct (post _ _ _) as [[code body]|e]; [|split; [done|by intros (_ & ? & ? & ? & ? & _)]].
  destruct (unmarshal_result body) as [r|] eqn:Er.
  - destruct (Z.eqb_spec code 501) as [->|Hc]; [|destruct (Z.leb_spec 400 code)].
    + split; [|by destruct r]. intros _. split; [done|]. exists 501, body, r. destruct r.
      split; [done|]. split; [done|]. split; [by right|]. by eexists.
    + split; [done|]. intros (_ & code' & body' & r' & [= <- <-] & _ & [Hl|Hl] & _); lia.
    + split; [|done]. intros _. split; [done|]. exists code, body, r.
      split; [done|]. split; [done|]. split; [by left|]. by exists r.
  - split; [done|]. intros (_ & code' & body' & r' & [= <- <-] & Hr & _). congruence.
Qed.
