(* ===== verification/Nginx.v ===== *)
(** The vhost of a site: src/internal/nginx/template.go.  The templates are the texts of the
    source, cut at the actions of text/template. *)
From S2P Require Import Prelude GoStr Regex SiteInput Json Sql JobStore Accounts Sites BackupPlan Extras Agent AgentValidate.
Local Open Scope Z_scope.
Local Open Scope panel_scope.

Set Default Proof Using "Type".

(** * Templates *)

(** The members of [SiteConfig] the templates print ([FDot]: the element of a range), and
    those they test. *)
Inductive field := FDomain | FRootPath | FPort | FProxyPassURL | FPHPFpmPass | FPHPIni | FMarkerBegin | FMarkerEnd
  | FAuthPath | FDot.
Inductive test := CAuth | CPHPIni.
(** Text, [{{.Field}}], [{{if .Test}} ... {{end}}] and [{{range .BlockedIPs}} ... {{end}}]. *)
Inductive node := T (s : string) | F (f : field) | If (c : test) (body : list node) | Range (body : list node).

Definition markerBegin : string := "# BEGIN SIGARDAPANEL MANAGED BLOCK - DO NOT EDIT".
Definition markerEnd : string := "# END SIGARDAPANEL MANAGED BLOCK".

Definition staticTemplate : list node := [T "server {
    listen 80;
    listen [::]:80;
    listen 443 ssl http2;
    listen [::]:443 ssl http2;
    server_name "; F FDomain; T ";
    client_max_body_size 100M;

    ssl_certificate /etc/nginx/ssl/sigardapanel.crt;
    ssl_certificate_key /etc/nginx/ssl/sigardapanel.key;
    ssl_protocols TLSv1.2 TLSv1.3;
    ssl_ciphers HIGH:!aNULL:!MD5;

    # ACME challenge for Let's Encrypt (future use)
    location /.well-known/acme-challenge/ {
        root /var/www/certbot/"; F FDomain; T ";
    }

    root "; F FRootPath; T ";
    index index.html;

    # SigardaPanel marker
    "; F FMarkerBegin; T "
    access_log /var/log/nginx/"; F FDomain; T ".access.log;
    error_log /var/log/nginx/"; F FDomain; T ".error.log;
    "; F FMarkerEnd; T "
"; If CAuth [T ("
    auth_basic " +:+ String DQ ("Restricted" +:+ String DQ (";
    auth_basic_user_file ")));
F FAuthPath;
T ";
"]; T "

    location / {
"; Range [T "        deny "; F FDot; T ";
"]; T "        try_files $uri $uri/ =404;
    }

    # SigardaPanel marker
    "; F FMarkerBegin; T "
    location ~* \.(jpg|jpeg|png|gif|ico|css|js)$ {
        expires 7d;
        access_log off;
    }
    "; F FMarkerEnd; T "
}
"].

Definition phpTemplate : list node := [T "server {
    listen 80;
    listen [::]:80;
    listen 443 ssl http2;
    listen [::]:443 ssl http2;
    server_name "; F FDomain; T ";
    client_max_body_size 100M;

    ssl_certificate /etc/nginx/ssl/sigardapanel.crt;
    ssl_certificate_key /etc/nginx/ssl/sigardapanel.key;
    ssl_protocols TLSv1.2 TLSv1.3;
    ssl_ciphers HIGH:!aNULL:!MD5;

    # ACME challenge for Let's Encrypt
    location /.well-known/acme-challenge/ {
        root /var/www/certbot/"; F FDomain; T ";
    }

    root "; F FRootPath; T ";
    index index.php index.html;

    # SigardaPanel marker
    "; F FMarkerBegin; T "
    access_log /var/log/nginx/"; F FDomain; T ".access.log;
    error_log /var/log/nginx/"; F FDomain; T ".error.log;
    "; F FMarkerEnd; T "
"; If CAuth [T ("
    auth_basic " +:+ String DQ ("Restricted" +:+ String DQ (";
    auth_basic_user_file ")));
F FAuthPath;
T ";
"]; T "

    location / {
"; Range [T "        deny "; F FDot; T ";
"]; T "        try_files $uri $uri/ /index.php?$query_string;
    }

    location ~ \.php$ {
        fastcgi_split_path_info ^(.+\.php)(/.+)$;
        fastcgi_pass "; F FPHPFpmPass; T ";
        fastcgi_index index.php;
        include fastcgi_params;
        fastcgi_param SCRIPT_FILENAME $document_root$fastcgi_script_name;
        fastcgi_param PATH_INFO $fastcgi_path_info;
        "; If CPHPIni [T ("
        fastcgi_param PHP_VALUE " +:+ String DQ (""));
F FPHPIni;
T (String DQ (";
        "))]; T "
    }
}
"].

Definition nodeTemplate : list node := [T "server {
    listen 80;
    listen [::]:80;
    listen 443 ssl http2;
    listen [::]:443 ssl http2;
    server_name "; F FDomain; T ";
    client_max_body_size 100M;

    ssl_certificate /etc/nginx/ssl/sigardapanel.crt;
    ssl_certificate_key /etc/nginx/ssl/sigardapanel.key;
    ssl_protocols TLSv1.2 TLSv1.3;
    ssl_ciphers HIGH:!aNULL:!MD5;

    # ACME challenge for Let's Encrypt
    location /.well-known/acme-challenge/ {
        root /var/www/certbot/"; F FDomain; T ";
    }

    # SigardaPanel marker
    "; F FMarkerBegin; T "
    access_log /var/log/nginx/"; F FDomain; T ".access.log;
    error_log /var/log/nginx/"; F FDomain; T ".error.log;
    "; F FMarkerEnd; T "
"; If CAuth [T ("
    auth_basic " +:+ String DQ ("Restricted" +:+ String DQ (";
    auth_basic_user_file ")));
F FAuthPath;
T ";
"]; T "

    location / {
"; Range [T "        deny "; F FDot; T ";
"]; T "        proxy_pass http://127.0.0.1:"; F FPort; T ";
        proxy_http_version 1.1;
        proxy_set_header Host $host;
        proxy_set_header X-Real-IP $remote_addr;
        proxy_set_header X-Forwarded-For $proxy_add_x_forwarded_for;
        proxy_set_header X-Forwarded-Proto $scheme;
    }
}
"].

Definition proxyTemplate : list node := [T "server {
    listen 80;
    listen [::]:80;
    listen 443 ssl http2;
    listen [::]:443 ssl http2;
    server_name "; F FDomain; T ";
    client_max_body_size 100M;

    ssl_certificate /etc/nginx/ssl/sigardapanel.crt;
    ssl_certificate_key /etc/nginx/ssl/sigardapanel.key;
    ssl_protocols TLSv1.2 TLSv1.3;
    ssl_ciphers HIGH:!aNULL:!MD5;

    # ACME challenge for Let's Encrypt
    location /.well-known/acme-challenge/ {
        root /var/www/certbot/"; F FDomain; T ";
    }

    # SigardaPanel marker
    "; F FMarkerBegin; T "
    access_log /var/log/nginx/"; F FDomain; T ".access.log;
    error_log /var/log/nginx/"; F FDomain; T ".error.log;
    "; F FMarkerEnd; T "
"; If CAuth [T ("
    auth_basic " +:+ String DQ ("Restricted" +:+ String DQ (";
    auth_basic_user_file ")));
F FAuthPath;
T ";
"]; T "

    location / {
"; Range [T "        deny "; F FDot; T ";
"]; T "        proxy_pass "; F FProxyPassURL; T (";
        proxy_http_version 1.1;
        proxy_set_header Host $host;
        proxy_set_header X-Real-IP $remote_addr;
        proxy_set_header X-Forwarded-For $proxy_add_x_forwarded_for;
        proxy_set_header X-Forwarded-Proto $scheme;
        proxy_set_header Upgrade $http_upgrade;
        proxy_set_header Connection " +:+ String DQ ("upgrade" +:+ String DQ (";
    }
}
")))].


Definition templates (runtime : string) : option (list node) :=
  if (runtime =? "static")%string then Some staticTemplate
  else if (runtime =? "php")%string then Some phpTemplate
  else if str_in ["node"; "python"; "go"] runtime then Some nodeTemplate
  else if str_in ["proxy"; "docker"] runtime then Some proxyTemplate
  else None.

Record SiteConfig := mkSiteConfig {
  Domain : string; RootPath : string; Port : Z; ProxyPassURL : string; PHPFpmPass : string; PHPIniDirectives : string;
  BasicAuthEnabled : bool; BasicAuthPasswordPath : string; BlockedIPs : list string }.

Definition field_value (c : SiteConfig) (dot : string) (f : field) : string :=
  match f with
  | FDomain => Domain c
  | FRootPath => RootPath c
  | FPort => itoa (Port c)
  | FProxyPassURL => ProxyPassURL c
  | FPHPFpmPass => PHPFpmPass c
  | FPHPIni => PHPIniDirectives c
  | FMarkerBegin => markerBegin
  | FMarkerEnd => markerEnd
  | FAuthPath => BasicAuthPasswordPath c
  | FDot => dot
  end.
Definition test_value (c : SiteConfig) (t : test) : bool :=
  match t with CAuth => BasicAuthEnabled c | CPHPIni => negb (PHPIniDirectives c =? "")%string end.

Definition cat_map {A} (f : A → string) (l : list A) : string := join "" (map f l).
(** [t.Execute]. *)
Fixpoint exec_node (c : SiteConfig) (dot : string) (n : node) : string :=
  match n with
  | T s => s
  | F f => field_value c dot f
  | If t body => if test_value c t then cat_map (exec_node c dot) body else ""
  | Range body => cat_map (λ ip, cat_map (exec_node c ip) body) (BlockedIPs c)
  end.
Definition Execute (t : list node) (c : SiteConfig) : string := cat_map (exec_node c "") t.

(** * GenerateVhost *)

Section Vhost.
(** [os.Stat] finds the file; [os.WriteFile], with the directory made first. *)
Context (stat_ok : string → bool) (write_file : string → string → error).

Definition portMap : list (string * Z) := [
  ("7.1", 11000); ("7.2", 12000); ("7.3", 13000); ("7.4", 14000); ("8.0", 15000); ("8.1", 16000); ("8.2", 17000);
  ("8.3", 18000); ("8.4", 19000); ("8.5", 20000)].
Definition socket_path (version : string) : string := "/run/php/php" +:+ version +:+ "-fpm.sock".
Definition phpFpmAddr (version : string) : string :=
  match List.find (λ p, (p.1 =? version)%string) portMap with
  | Some (_, port) =>
      if stat_ok (socket_path version) then "unix:" +:+ socket_path version else "127.0.0.1:" +:+ itoa port
  | None =>
      match List.find (λ v, stat_ok (socket_path v)) ["8.3"; "8.4"; "8.2"; "8.1"; "8.0"] with
      | Some v => "unix:" +:+ socket_path v
      | None => "unix:/run/clp-php-fpm.sock"
      end
  end.

Definition htpasswdPath (domain : string) : string := path_join "/etc/nginx" (".htpasswd_" +:+ domain).
Definition WriteHtpasswd (domain username bcryptHash : string) : error :=
  write_file (htpasswdPath domain) (username +:+ ":" +:+ bcryptHash +:+ String LF "").

Definition unless_unset (f : string → error) (o : option string) : error := unless_empty f (default "" o).
Definition validateSiteForVhost (s : site_row) : error :=
  try SiteInput.Domain (s_domain s) ;;
  try unless_empty SiteInput.RootPath (s_root_path s) ;;
  try unless_unset SiteInput.ProxyPassURL (s_proxy_pass_url s) ;;
  try unless_unset SiteInput.PHPVersion (s_php_version s) ;;
  match s_php_ini s with Some ini => SiteInput.PHPIni ini | None => nil_error end.

Definition auth_enabled (security : option Security.SiteSecurity) : bool :=
  match security with Some sec => Security.BasicAuthEnabled sec | None => false end.
Definition blocked (security : option Security.SiteSecurity) : list string :=
  match security with Some sec => Security.BlockedIPs sec | None => [] end.
Definition vhost_config (s : site_row) (port : Z) (security : option Security.SiteSecurity) : SiteConfig :=
  let proxy := default "" (s_proxy_pass_url s) in
  mkSiteConfig (s_domain s) (s_root_path s) port
    (if (proxy =? "")%string && (s_runtime s =? "proxy")%string then "http://127.0.0.1:7700" else proxy)
    (phpFpmAddr (default "" (s_php_version s))) (default "" (s_php_ini s))
    (auth_enabled security) (if auth_enabled security then htpasswdPath (s_domain s) else "")
    (blocked security).

Definition GenerateVhost (s : site_row) (port : Z) (security : option Security.SiteSecurity) : res string :=
  match templates (s_runtime s) with
  | None => Err ("unsupported runtime " +:+ go_quote (s_runtime s))
  | Some t =>
      match validateSiteForVhost s with
      | Some e => Err e
      | None =>
          let written := match security with
                         | Some sec => if Security.BasicAuthEnabled sec
                                       then WriteHtpasswd (s_domain s) (Security.BasicAuthUsername sec) (Security.BasicAuthPassword sec)
                                       else nil_error
                         | None => nil_error
                         end in
          match written with
          | Some e => Err ("write htpasswd: " +:+ e)
          | None => Ok (Execute t (vhost_config s port security))
          end
      end
  end.
End Vhost.

(** * How nginx reads a configuration *)

(** The states of its reader: between words, in a word, after a dollar sign or a backslash
    in one, in a quoted word (after a backslash in it), in a comment. *)
Inductive mode := Blank | Word | Dollar | Escaped | Quoted (q : ascii) | QuotedEscape (q : ascii) | Comment.
(** The end of a simple directive, the two ends of a block. *)
Inductive event := Semi | Open | Close.

Definition blank (c : ascii) : bool := chr_in (String " " (String (byte 9) (String CR (String LF "")))) c.
Definition in_word (c : ascii) : mode * list event :=
  if blank c then (Blank, []) else if Ascii.eqb c ";" then (Blank, [Semi]) else if Ascii.eqb c "{" then (Blank, [Open])
  else if Ascii.eqb c BS then (Escaped, []) else if Ascii.eqb c "$" then (Dollar, []) else (Word, []).
Definition read1 (m : mode) (c : ascii) : mode * list event :=
  match m with
  | Blank =>
      if Ascii.eqb c "#" then (Comment, []) else if Ascii.eqb c "}" then (Blank, [Close])
      else if Ascii.eqb c DQ || Ascii.eqb c SQ then (Quoted c, []) else in_word c
  | Word => in_word c
  | Dollar => if Ascii.eqb c "{" then (Word, []) else in_word c
  | Escaped => (Word, [])
  | Quoted q => (if Ascii.eqb c BS then QuotedEscape q else if Ascii.eqb c q then Word else m, [])
  | QuotedEscape q => (Quoted q, [])
  | Comment => (if Ascii.eqb c LF then Blank else Comment, [])
  end.
Fixpoint read (m : mode) (s : string) : mode * list event :=
  match s with
  | EmptyString => (m, [])
  | String c s' => let '(m', e) := read1 m c in let '(m'', es) := read m' s' in (m'', e ++ es)
  end.

(** ** The structure of a template *)

(** What is known of the state: it is [m], or between words or in one. *)
Inductive amode := Known (m : mode) | Either.
#[export] Instance mode_eq_dec : EqDecision mode.
Proof. solve_decision. Defined.
#[export] Instance event_eq_dec : EqDecision event.
Proof. solve_decision. Defined.

Definition shape_text (am : amode) (s : string) : option (amode * list event) :=
  match am with
  | Known m => let '(m', e) := read m s in Some (Known m', e)
  | Either => let '(m', e) := read Blank s in if decide (read Word s = (m', e)) then Some (Known m', e) else None
  end.
(** A value that is inert, or, for the directives of PHP, closed in quotes. *)
Definition shape_value (am : amode) (f : field) : option (amode * list event) :=
  match f with
  | FMarkerBegin => shape_text am markerBegin
  | FMarkerEnd => shape_text am markerEnd
  | FPHPIni => match am with Known (Quoted q) => if Ascii.eqb q DQ then Some (am, []) else None | _ => None end
  | _ => match am with Known Word => Some (am, []) | Known Blank | Either => Some (Either, []) | _ => None end
  end.
(** The structure of a template, given the outcome of its tests and the number of blocked
    addresses: a loop must end in the state it began in. *)
Section Shape.
Context (flag : test → bool) (n : nat).

Definition and_then (o : option (amode * list event)) (k : amode → option (amode * list event)) : option (amode * list event) :=
  match o with
  | Some (am, e) => match k am with Some (am', e') => Some (am', e ++ e') | None => None end
  | None => None
  end.
Fixpoint shape_node (nd : node) (am : amode) : option (amode * list event) :=
  let shape_all := (fix go (l : list node) am :=
    match l with [] => Some (am, []) | x :: l' => and_then (shape_node x am) (go l') end) in
  match nd with
  | T s => shape_text am s
  | F f => shape_value am f
  | If t body => if flag t then shape_all body am else Some (am, [])
  | Range body =>
      match am with
      | Known m =>
          match shape_all body am with
          | Some (Known m', e) => if decide (m' = m) then Some (am, concat (repeat e n)) else None
          | _ => None
          end
      | Either => None
      end
  end.
Fixpoint shape (l : list node) (am : amode) : option (amode * list event) :=
  match l with [] => Some (am, []) | x :: l' => and_then (shape_node x am) (shape l') end.
End Shape.

(** * Facts *)

Section NodeInd.
Variable P : node → Prop.
Hypothesis HT : ∀ s, P (T s).
Hypothesis HF : ∀ f, P (F f).
Hypothesis HI : ∀ t body, Forall P body → P (If t body).
Hypothesis HR : ∀ body, Forall P body → P (Range body).

Fixpoint node_nested_ind (n : node) : P n :=
  let all := (fix go l : Forall P l :=
    match l with [] => Forall_nil_2 _ | x :: l' => Forall_cons_2 _ _ _ (node_nested_ind x) (go l') end) in
  match n with T s => HT s | F f => HF f | If t body => HI t body (all body) | Range body => HR body (all body) end.
End NodeInd.

Lemma read_app (m : mode) (s t : string) :
  read m (s +:+ t) = (let '(m', e) := read m s in let '(m'', e') := read m' t in (m'', e ++ e')).
Proof.
  revert m. induction s as [|c s IH]; intros m; [change ("" +:+ t) with t; cbn [read]; by destruct (read m t)|].
  rewrite app_cons. cbn [read]. destruct (read1 m c) as [m' e]. rewrite IH.
  destruct (read m' s) as [m1 e1]. destruct (read m1 t) as [m2 e2]. by rewrite List.app_assoc.
Qed.

Lemma cat_map_cons {A} (f : A → string) (x : A) (l : list A) : cat_map f (x :: l) = f x +:+ cat_map f l.
Proof. unfold cat_map. destruct l; cbn; [by rewrite GoStr.app_nil_r|done]. Qed.

(** ** Values *)

Definition inert (s : string) : Prop := str_all nginx_plain s = true.

Lemma inert_step (c : ascii) :
  nginx_plain c = true → read1 Blank c = (Word, []) ∧ read1 Word c = (Word, []).
Proof. destruct c as [[] [] [] [] [] [] [] []]; intros H; first [discriminate H | done]. Qed.

Lemma read_inert (s : string) :
  inert s → read Word s = (Word, []) ∧ (read Blank s = (Blank, []) ∨ read Blank s = (Word, [])).
Proof.
  unfold inert. induction s as [|c s IH]; [by auto|]. cbn [str_all read]. intros H. bool_hyps.
  destruct (inert_step c) as [-> ->]; [done|]. destruct IH as [-> _]; [done|]. auto.
Qed.

Lemma read_quoted (s : string) :
  bs_paired s = true → str_all (λ c, negb (Ascii.eqb c DQ)) s = true → read (Quoted DQ) s = (Quoted DQ, []).
Proof.
  assert (H : ∀ n s, (String.length s ≤ n)%nat → bs_paired s = true →
    str_all (λ c, negb (Ascii.eqb c DQ)) s = true → read (Quoted DQ) s = (Quoted DQ, [])).
  { clear s. induction n as [|n IH]; intros [|c s] Hl Hb Hq; simpl in Hl; try done; try lia. simpl in Hb, Hq. bool_hyps.
    cbn [read read1]. destruct (Ascii.eqb c BS) eqn:E.
    - destruct s as [|d s]; [done|]. simpl in *. bool_hyps. rewrite IH; [done|lia|done|done].
    - match goal with H : Ascii.eqb c DQ = false |- _ => rewrite H end. rewrite IH; [done|lia|done|done]. }
  by apply (H (String.length s)).
Qed.

Definition holds (am : amode) (m : mode) : Prop :=
  match am with Known m' => m = m' | Either => m = Blank ∨ m = Word end.
Definition reads_as (am : amode) (s : string) (am' : amode) (e : list event) : Prop :=
  ∀ m, holds am m → ∃ m', read m s = (m', e) ∧ holds am' m'.

Lemma reads_as_app am s am1 e1 t am2 e2 :
  reads_as am s am1 e1 → reads_as am1 t am2 e2 → reads_as am (s +:+ t) am2 (e1 ++ e2).
Proof.
  intros H1 H2 m Hm. destruct (H1 m Hm) as (m1 & E1 & Hm1). destruct (H2 m1 Hm1) as (m2 & E2 & Hm2).
  exists m2. by rewrite read_app, E1, E2.
Qed.

Lemma shape_text_sound am s am' e : shape_text am s = Some (am', e) → reads_as am s am' e.
Proof.
  unfold shape_text, reads_as. destruct am as [m|].
  - destruct (read m s) as [m1 e1] eqn:E. intros [= <- <-] ? ->. by exists m1.
  - destruct (read Blank s) as [m1 e1] eqn:E. case_decide; [|done]. intros [= <- <-] m [->| ->]; by exists m1.
Qed.

(** The values a configuration prints outside quotes are inert, and its directives of PHP
    stay in theirs. *)
Record inert_config (c : SiteConfig) : Prop := {
  ic_domain : inert (Domain c); ic_root : inert (RootPath c); ic_proxy : inert (ProxyPassURL c);
  ic_fpm : inert (PHPFpmPass c); ic_auth : inert (BasicAuthPasswordPath c); ic_ips : Forall inert (BlockedIPs c);
  ic_ini : bs_paired (PHPIniDirectives c) = true ∧ str_all (λ d, negb (Ascii.eqb d DQ)) (PHPIniDirectives c) = true }.

Lemma print_pos_inert (f : nat) (n : Z) (acc : string) : inert acc → inert (print_pos f n acc).
Proof.
  revert n acc. induction f as [|f IH]; intros n acc H; [done|]. cbn [print_pos].
  assert (Hd : inert (String (byte (Z.to_nat (48 + n mod 10))) acc)).
  { unfold inert. cbn [str_all]. rewrite H, andb_true_r. pose proof (Z.mod_pos_bound n 10 eq_refl) as Hb.
    assert (n mod 10 ∈ seqZ 0 10) as Hin by (apply elem_of_seqZ; lia). revert Hin. generalize (n mod 10). clear.
    apply Forall_forall. by repeat (constructor; [reflexivity|]). }
  destruct (n <? 10); [done|by apply IH].
Qed.
Lemma itoa_inert (n : Z) : inert (itoa n).
Proof.
  unfold itoa. destruct (n <? 0); [|by apply print_pos_inert].
  unfold inert. cbn [str_all]. by apply andb_true_intro; split; [|apply print_pos_inert].
Qed.

Lemma inert_reads_as (am am' : amode) (e : list event) (s : string) :
  inert s → match am with Known Word => Some (am, []) | Known Blank | Either => Some (Either, []) | _ => None end = Some (am', e) →
  reads_as am s am' e.
Proof.
  intros [H1 H2]%read_inert. destruct am as [[]|]; intros [= <- <-] m Hm; cbn in Hm; subst.
  - destruct H2 as [->| ->]; eexists; (split; [done|]); cbn; auto.
  - by exists Word.
  - destruct Hm as [->| ->]; [|exists Word; cbn; auto]. destruct H2 as [->| ->]; eexists; (split; [done|]); cbn; auto.
Qed.

Lemma shape_value_sound (c : SiteConfig) (dot : string) am f am' e :
  inert_config c → inert dot → shape_value am f = Some (am', e) → reads_as am (field_value c dot f) am' e.
Proof.
  intros [] Hdot. destruct f; cbn [shape_value field_value]; try (by apply inert_reads_as); try (apply shape_text_sound).
  - apply inert_reads_as, itoa_inert.
  - destruct am as [[]|]; try done. destruct (Ascii.eqb q DQ) eqn:E; [|done]. apply Ascii.eqb_eq in E as ->.
    intros [= <- <-] m ->. exists (Quoted DQ). split; [|done]. by apply read_quoted; destruct ic_ini0.
Qed.

Section Soundness.
Context (c : SiteConfig) (Hc : inert_config c).
Context (flag : test → bool) (Hflag : ∀ t, flag t = test_value c t).
Notation n := (length (BlockedIPs c)).

Definition sound (nd : node) : Prop := ∀ dot am am' e,
  inert dot → shape_node flag n nd am = Some (am', e) → reads_as am (exec_node c dot nd) am' e.

Lemma shape_all_sound (l : list node) : Forall sound l → ∀ dot am am' e,
  inert dot → shape flag n l am = Some (am', e) → reads_as am (cat_map (exec_node c dot) l) am' e.
Proof.
  induction 1 as [|x l Hx Hl IH]; intros dot am am' e Hdot; cbn [shape].
  - intros [= <- <-] m Hm. by exists m.
  - unfold and_then. destruct (shape_node _ _ x am) as [[am1 e1]|] eqn:E1; [|done].
    destruct (shape flag n l am1) as [[am2 e2]|] eqn:E2; [|done]. intros [= <- <-].
    rewrite cat_map_cons. eapply reads_as_app; [by eapply Hx|by eapply IH].
Qed.

(** The bodies of a loop, one after the other. *)
Lemma reads_as_repeat (m : mode) (e : list event) (f : string → string) (ips : list string) :
  (∀ ip, inert ip → reads_as (Known m) (f ip) (Known m) e) → Forall inert ips →
  reads_as (Known m) (cat_map f ips) (Known m) (concat (repeat e (length ips))).
Proof.
  intros Hf. induction 1 as [|ip ips Hip Hips IH]; [intros m' ->; by exists m|].
  rewrite cat_map_cons. cbn [length repeat concat]. eapply reads_as_app; [by apply Hf|exact IH].
Qed.

Lemma shape_node_sound (nd : node) : sound nd.
Proof using Hc Hflag.
  induction nd as [s|f|t body IH|body IH] using node_nested_ind; intros dot am am' e Hdot; cbn [exec_node].
  - apply shape_text_sound.
  - by apply shape_value_sound.
  - change (shape_node flag n (If t body) am) with (if flag t then shape flag n body am else Some (am, [])).
    rewrite Hflag. destruct (test_value c t); [by apply shape_all_sound|]. intros [= <- <-] m Hm. by exists m.
  - change (shape_node flag n (Range body) am) with
      (match am with
       | Known m => match shape flag n body am with
                    | Some (Known m', e) => if decide (m' = m) then Some (am, concat (repeat e n)) else None
                    | _ => None
                    end
       | Either => None
       end).
    destruct am as [m|]; [|done]. destruct (shape flag n body (Known m)) as [[[m'|] e1]|] eqn:E; [|done..].
    case_decide as Hm; [|done]. subst m'. intros [= <- <-].
    apply reads_as_repeat; [|apply Hc]. intros ip Hip. by apply shape_all_sound.
Qed.

Lemma Execute_sound (t : list node) am' e :
  shape flag n t (Known Blank) = Some (am', e) → reads_as (Known Blank) (Execute t c) am' e.
Proof using Hc Hflag.
  apply shape_all_sound; [|done]. apply Forall_forall. intros nd _. apply shape_node_sound.
Qed.
End Soundness.

(** ** Generated files *)

Section GenerateFacts.
Context (stat_ok : string → bool) (write_file : string → string → error).

Lemma unless_empty_inert (f : string → error) (s : string) :
  (f s = nil_error → inert s) → unless_empty f s = nil_error → inert s.
Proof. unfold unless_empty. intros H. destruct (s =? "")%string eqn:E; [|done]. by apply String.eqb_eq in E as ->. Qed.

Lemma Domain_no_slash (d : string) : SiteInput.Domain d = nil_error → no_chr "/" d = true.
Proof. intros [H _]%Domain_ok. by within domainRe. Qed.

Lemma htpasswdPath_inert (d : string) : SiteInput.Domain d = nil_error → inert (htpasswdPath d).
Proof.
  intros H. assert (Hs : no_chr "/" (".htpasswd_" +:+ d) = true).
  { unfold no_chr. rewrite str_all_app. cbn. by apply Domain_no_slash. }
  unfold htpasswdPath, path_join. rewrite path_clean_rooted by done. unfold path_segs.
  change ("/etc/nginx" +:+ "/" +:+ (".htpasswd_" +:+ d)) with ("/etc/nginx" +:+ String "/" (".htpasswd_" +:+ d)).
  rewrite split_app_sep, (split_no_chr _ (".htpasswd_" +:+ d)) by done.
  cbn -[append]. change (".htpasswd_" +:+ d) with (String "." (String "h" ("tpasswd_" +:+ d))). cbn -[append]. apply Domain_ok in H as [H _].
  change (str_all nginx_plain ("/etc/nginx/.htpasswd_" +:+ d) = true). rewrite str_all_app. by within domainRe.
Qed.

Lemma phpFpmAddr_inert (v : string) : inert (phpFpmAddr stat_ok v).
Proof.
  unfold phpFpmAddr. destruct (List.find _ portMap) as [[w p]|] eqn:E.
  - apply List.find_some in E as [E Ev]. apply String.eqb_eq in Ev. cbn in Ev. subst v.
    assert (inert ("unix:" +:+ socket_path w) ∧ inert ("127.0.0.1:" +:+ itoa p)) as [? ?]; [|by destruct (stat_ok _)].
    revert E. intros E. repeat (destruct E as [[= <- <-]|E]; [by vm_compute|]). destruct E.
  - destruct (List.find (λ v0, stat_ok (socket_path v0)) _) as [w|] eqn:E'; [|vm_compute; reflexivity]. apply List.find_some in E' as [E' _].
    repeat (destruct E' as [<-|E']; [by vm_compute|]). destruct E'.
Qed.

(** What [GenerateVhost] accepted can be printed. *)
Lemma vhost_inert (s : site_row) (port : Z) (security : option Security.SiteSecurity) :
  validateSiteForVhost s = nil_error → Forall inert (blocked security) → inert_config (vhost_config stat_ok s port security).
Proof.
  unfold validateSiteForVhost, unless_unset. intros H Hips.
  do 4 (case_hyp H; [done|]).
  assert (Hproxy : inert (default "" (s_proxy_pass_url s))).
  { eapply unless_empty_inert; [|exact E1]. intros H'. apply ProxyPassURL_ok in H'. by within proxyPassRe. }
  split; cbn [vhost_config Domain RootPath ProxyPassURL PHPFpmPass BasicAuthPasswordPath BlockedIPs PHPIniDirectives].
  - apply Domain_ok in E as [E _]. by within domainRe.
  - eapply unless_empty_inert; [|exact E0]. intros H'. apply RootPath_ok in H' as [H' _]. by within rootPathRe.
  - by destruct (_ && _).
  - apply phpFpmAddr_inert.
  - destruct (auth_enabled security); [by apply htpasswdPath_inert|done].
  - done.
  - destruct (s_php_ini s) as [ini|]; [|done]. apply PHPIni_ok in H as [Hc Hb]. split; [exact Hb|].
    revert Hc. apply str_all_impl. apply cls_incl_spec. vm_compute. done.
Qed.
End GenerateFacts.

(** The structure of the file of a runtime. *)
Definition vhost_shape (runtime : string) (auth ini : bool) (n : nat) : option (list event) :=
  match templates runtime with
  | Some t =>
      match shape (λ c, match c with CAuth => auth | CPHPIni => ini end) n t (Known Blank) with
      | Some (Known Blank, e) => Some e
      | _ => None
      end
  | None => None
  end.

(** One block at the top of the file and nothing around it: the depth, which starts and
    ends at 0, is positive in between. *)
Fixpoint closes (d : nat) (e : list event) : bool :=
  match e with
  | [] => false
  | Semi :: e' => closes d e'
  | Open :: e' => closes (S d) e'
  | Close :: e' => match d with O => false | S O => match e' with [] => true | _ => false end | S d' => closes d' e' end
  end.
Definition one_block (e : list event) : bool := match e with Open :: e' => closes 1 e' | _ => false end.

Lemma closes_semis (d n : nat) (e : list event) : closes d (concat (repeat [Semi] n) ++ e) = closes d e.
Proof. induction n as [|n IH]; [done|exact IH]. Qed.

Lemma shape_app flag n (l k : list node) am :
  shape flag n (l ++ k) am = and_then (shape flag n l am) (shape flag n k).
Proof.
  revert am. induction l as [|x l IH]; intros am; cbn [app shape].
  - unfold and_then. by destruct (shape flag n k am) as [[? ?]|].
  - unfold and_then. destruct (shape_node flag n x am) as [[am1 e1]|]; [|done]. rewrite IH. unfold and_then.
    destruct (shape flag n l am1) as [[am2 e2]|]; [|done].
    destruct (shape flag n k am2) as [[am3 e3]|]; [|done]. by rewrite List.app_assoc.
Qed.

(** The loop of a template, and what is before and after it. *)
Lemma shape_loop flag n (t l body k : list node) (e1 e2 : list event) :
  t = l ++ Range body :: k → shape flag n l (Known Blank) = Some (Known Blank, e1) →
  shape flag n body (Known Blank) = Some (Known Blank, [Semi]) →
  shape flag n k (Known Blank) = Some (Known Blank, e2) →
  shape flag n t (Known Blank) = Some (Known Blank, e1 ++ concat (repeat [Semi] n) ++ e2).
Proof.
  intros -> H1 H2 H3. rewrite shape_app, H1. cbn [and_then shape].
  change (shape_node flag n (Range body) (Known Blank)) with
    (match shape flag n body (Known Blank) with
     | Some (Known m', e) => if decide (m' = Blank) then Some (Known Blank, concat (repeat e n)) else None
     | _ => None
     end).
  rewrite H2. case_decide; [|done]. cbn [and_then]. by rewrite H3.
Qed.

Ltac block i :=
  match goal with |- context [shape ?flag ?n ?t ?am] =>
    let t' := eval unfold t in t in
    erewrite (shape_loop flag n t (take i t) _ (drop (S i) t) _ _ eq_refl);
      [|vm_compute; reflexivity|vm_compute; reflexivity|vm_compute; reflexivity]
  end; eexists; split; [reflexivity|]; cbn [one_block app closes]; rewrite closes_semis; reflexivity.
Lemma vhost_shape_block (runtime : string) (auth ini : bool) (n : nat) (t : list node) :
  templates runtime = Some t → ∃ e,
    shape (λ c, match c with CAuth => auth | CPHPIni => ini end) n t (Known Blank) = Some (Known Blank, e) ∧ one_block e = true.
Proof.
  intros E. unfold templates in E. destruct auth, ini; repeat case_hyp E; simplify_eq.
  all: first [block 17%nat|block 15%nat].
Qed.

(** C11: the vhost that [GenerateVhost] writes, for every site it accepts, is one server block
    whose nesting of blocks and directives is that of the runtime's template: it depends
    on whether there is basic authentication, whether there are PHP directives and on the
    number of blocked addresses, and on no value of the site; the addresses, which are not
    validated, have to be free of special characters for this. *)
Theorem GenerateVhost_structure (stat_ok : string → bool) (write_file : string → string → error)
    (s : site_row) (port : Z) (security : option Security.SiteSecurity) (config : string)
    (Hg : GenerateVhost stat_ok write_file s port security = Ok config) (Hips : Forall inert (blocked security)) :
  ∃ e, vhost_shape (s_runtime s) (auth_enabled security) (negb (default "" (s_php_ini s) =? "")%string)
         (length (blocked security)) = Some e ∧
       read Blank config = (Blank, e) ∧ one_block e = true.
Proof.
  unfold GenerateVhost in Hg. destruct (templates (s_runtime s)) as [t|] eqn:Et; [|done].
  destruct (validateSiteForVhost s) as [m|] eqn:Ev; [done|].
  cbv zeta in Hg. match type of Hg with match ?w with _ => _ end = _ => destruct w; [done|] end. injection Hg as <-.
  pose proof (vhost_inert stat_ok s port security Ev Hips) as Hc.
  destruct (vhost_shape_block _ (auth_enabled security) (negb (default "" (s_php_ini s) =? "")%string)
              (length (blocked security)) t Et) as (e & He & Hb).
  exists e. split; [by unfold vhost_shape; rewrite Et, He|]. split; [|done].
  destruct (Execute_sound _ Hc (λ c, match c with CAuth => auth_enabled security
              | CPHPIni => negb (default "" (s_php_ini s) =? "")%string end) ltac:(by intros []) t (Known Blank) e He Blank eq_refl)
    as (m & E & ->). exact E.
Qed.

(** ** Witness *)

Definition shop_site : site_row :=
  new_site (mkSite 1 "shop" "shop.example.com" "php" "/home/ann/htdocs/shop" "active" (Some 2) None None (Some "ann") None None
              None None None None (Some "8.3") (Some "memory_limit=256M
 max_execution_time=60")) 0 7.
Definition shop_security : Security.SiteSecurity :=
  Security.mkSecurity true "ann" "hash" ["203.0.113.7"; "2001:db8::/32"].
Lemma GenerateVhost_structure_witness : ∃ config e,
  GenerateVhost (λ _, true) (λ _ _, None) shop_site 0 (Some shop_security) = Ok config ∧
  vhost_shape "php" true true 2 = Some e ∧ read Blank config = (Blank, e).
Proof.
  destruct (GenerateVhost (λ _, true) (λ _ _, None) shop_site 0 (Some shop_security)) as [config|m] eqn:E;
    [|vm_compute in E; discriminate E].
  destruct (GenerateVhost_structure (λ _, true) (λ _ _, None) shop_site 0 (Some shop_security) config E) as (e & H1 & H2 & _).
  - repeat constructor; vm_compute; reflexivity.
  - exists config, e. split; [reflexivity|]. split; [exact H1|exact H2].
Defined.

(** a blocked address is printed as it is: one that ends its directive opens blocks of its
    own in the file, although the generator calls its validation the single choke point
    through which no caller can inject nginx directives. *)
Theorem GenerateVhost_blocked_ip_injects :
  let security := Security.mkSecurity false "" "" ["127.0.0.1; } location /etc { alias /etc/"] in
  match GenerateVhost (λ _, true) (λ _ _, None) shop_site 0 (Some security) with
  | Ok config => contains config "location /etc { alias /etc/;" = true ∧
      ∃ e e', vhost_shape "php" false true 1 = Some e ∧ read Blank config = (Blank, e') ∧ e ≠ e' ∧ one_block e' = true
  | Err _ => False
  end.
Proof.
  vm_compute. split; [reflexivity|]. eexists _, _. split; [reflexivity|]. split; [reflexivity|]. split; [done|reflexivity].
Qed.
