(* ===== verification/Worker.v ===== *)
(** The worker: src/internal/jobs/worker.go.  It claims a job, dispatches it to the
    agent of its server and records the outcome, with retries.  The agent's HTTP
    answer, the delivery of alerts and the removal of local files are parameters; a
    call only logged is left out, and so is [deleteS3Object], which runs a command
    and touches no state of the panel. *)
From S2P Require Import Prelude GoStr Json Sql JobStore Accounts Sites Backups Servers BackupPlan Panel Agent Cron.
Local Open Scope Z_scope.
Local Open Scope panel_scope.

Set Default Proof Using "Type".

(** * Back-off *)

Record backoffConfig := mkBackoff { baseDelay : Z; maxDelay : Z; jitter : Z }.
Definition defaultBackoff : backoffConfig := mkBackoff (1 * Second) (5 * Minute) (500 * (Second / 1000)).

(** [rand] is the value of [rand.Int63n(b.jitter)]; products and sums wrap as
    [time.Duration]s. *)
Definition delay (b : backoffConfig) (attempts rand : Z) : Z :=
  let attempts := if attempts <? 1 then 1 else attempts in
  let shift := if 30 <? attempts - 1 then 30 else attempts - 1 in
  let d := wrap64 (baseDelay b * 2 ^ shift) in
  let d := if (maxDelay b <? d) || (d <? 0) then maxDelay b else d in
  wrap64 (d + rand).

(** * Jobs *)

Definition TypeAppStart := "app.start".
Definition TypeAppStop := "app.stop".
Definition TypeAppRestart := "app.restart".

Definition is_backup (ty : string) : bool := (ty =? TypeBackupCreate)%string || (ty =? TypeDBBackupCreate)%string.

(** The positive [backup_id] of a payload. *)
Definition payload_backup (payload : string) : option Z :=
  match unmarshal_int "backup_id" payload with Some n => if 0 <? n then Some n else None | None => None end.

Section Worker.
Context `{HC : PayloadCipher}.
Context (agent : Client) (post : string → string → string → res (Z * string)).
Context (deliver : channel_row → string → string → string → error).
Context (os_remove : string → bool).
(** The jitter drawn for the job. *)
Context (rand : Z).

Notation "m ;; k" := (mbind m (λ _, k)) (at level 100, k at level 200, right associativity).
Notation done := (mret ()).

Definition send (severity subject message : string) : M db () := Send deliver severity subject message.

Definition job_text (job : Job) : string := itoa (j_id job) +:+ " (" +:+ j_type job +:+ ")".

Definition agentForJob (job : Job) : M db (res Client) :=
  match j_server job with
  | Some sid =>
      if 0 <? sid then
        let* r := Servers.GetByID sid in
        mret match r with
             | Ok (Some server) =>
                 if (sv_agent_token server =? "")%string
                 then Err ("server " +:+ itoa (sv_id server) +:+ " has no agent token")
                 else if (default "" (sv_agent_url server) =? "")%string
                 then Err ("server " +:+ itoa (sv_id server) +:+ " (" +:+ sv_name server +:+
                           ") has no agent URL configured — set agent_url on the server")
                 else Ok (mkClient (default "" (sv_agent_url server)) (sv_agent_token server))
             | _ => Err ("server " +:+ itoa sid +:+ " not found")
             end
      else mret (Ok agent)
  | None => mret (Ok agent)
  end.

Definition maxConcurrentBackups : Z := 1.

(** The beginning of a backup job: its record is set running, and the job is put
    back when its server is busy.  The result: the job was put back. *)
Definition start_backup (job : Job) : M db bool :=
  (match payload_backup (j_payload job) with
   | Some b => Backups.UpdateProgress b "archiving..." ;; Backups.UpdateStatus b "running" ;; done
   | None => done
   end) ;;
  match j_server job with
  | Some sid =>
      if 0 <? sid then
        let* r := JobStore.CountRunningByServer sid in
        let running := match r with Ok n => n | Err _ => 0 end in
        if maxConcurrentBackups <=? running then
          let* now := time_Now in
          JobStore.ScheduleRetry (j_id job) (now + (running - maxConcurrentBackups + 1) * (30 * Second)) ;; mret true
        else mret false
      else mret false
  | None => mret false
  end.

(** A failed attempt with attempts left. *)
Definition retry_later (job : Job) (err : string) : M db () :=
  let d := delay defaultBackoff (j_attempts job) rand in
  let* now := time_Now in
  JobStore.ScheduleRetry (j_id job) (now + d) ;; JobStore.SetError (j_id job) err ;; done.

Definition fail_backup (job : Job) (err : string) : M db () :=
  if is_backup (j_type job) then
    match payload_backup (j_payload job) with Some b => Backups.MarkFailed b err ;; done | None => done end
  else done.

(** The payload of the local backup that replaces a failed one to S3. *)
Definition failover_payload (payload : string) : option string :=
  match Unmarshal payload with
  | Some (JObj l) =>
      match obj_get "s3_config" l with
      | Some _ => Some (Marshal (JObj (obj_insert "failover" (JBool true)
                    (obj_insert "storage" (JStr "local") (obj_delete "s3_config" l)))))
      | None => None
      end
  | _ => None
  end.
Definition failover_job (job : Job) (payload : string) : Job :=
  mkJob 0 (j_server job) (j_site job) TypeBackupCreate StatusQueued payload "" "" "" 0 1 0 0 None None None.
Definition failover (job : Job) : M db () :=
  if (j_type job =? TypeBackupCreate)%string then
    match failover_payload (j_payload job) with
    | Some p => JobStore.Create (failover_job job p) ;; done
    | None => done
    end
  else done.

(** ** After a success *)

Definition ssl_payload (siteID : Z) (domain email : string) : string :=
  String "{" (String DQ "site_id") +:+ String DQ ":" +:+ itoa siteID +:+ "," +:+ String DQ "domain" +:+ String DQ ":" +:+
  go_quote domain +:+ "," +:+ String DQ "email" +:+ String DQ ":" +:+ go_quote email +:+ "}".

Definition after_site_create (siteID : Z) (result : option TaskResult) : M db () :=
  Sites.UpdateStatus siteID "active" ;;
  (match result with
   | Some r => (if negb (NginxConfig r =? "")%string then Sites.UpdateConfFile siteID (NginxConfig r) ;; done else done) ;;
               (if negb (ProxyPassURL r =? "")%string then Sites.UpdateProxyPassURL siteID (ProxyPassURL r) ;; done else done)
   | None => done
   end) ;;
  let* site := Sites.GetByID siteID in
  match site with
  | Ok (Some s) =>
      if (s_domain s =? "")%string then done
      else
        let* email :=
          match s_owner s with
          | Some o => let* u := Users.GetByID o in
                      mret match u with
                           | Ok (Some owner) => if (u_email owner =? "")%string then "admin@sigarda.com" else u_email owner
                           | _ => "admin@sigarda.com"
                           end
          | None => mret "admin@sigarda.com"
          end in
        JobStore.Create (mkJob 0 (Some (s_server s)) (Some (s_id s)) TypeSSLIssue StatusQueued
          (ssl_payload siteID (s_domain s) email) "" "" "" 0 0 0 0 None None None) ;; done
  | _ => done
  end.

Definition after_backup_record (job : Job) (b : Z) (result : option TaskResult) : M db () :=
  let localPath := match result with Some r => Path r | None => "" end in
  let s3Path := match result with Some r => S3Path r | None => "" end in
  let size := match result with Some r => SizeBytes r | None => 0 end in
  (match result with
   | Some r => if negb (S3UploadError r =? "")%string
               then Backups.UpdateProgress b "provider upload failed, local backup saved" ;; done else done
   | None => done
   end) ;;
  Backups.MarkCompleted b size 0 localPath ;;
  (if negb (s3Path =? "")%string then
     let* r := Backups.UpdateS3Path b s3Path in
     match r with
     | Err _ => done
     | Ok _ => if negb (localPath =? "")%string && negb (has_prefix localPath "s3://") && os_remove localPath
               then Backups.ClearStoragePath b ;; done else done
     end
   else done) ;;
  send "info" "Backup Completed"
    ("Backup #" +:+ itoa b +:+ " (" +:+ (if (j_type job =? TypeDBBackupCreate)%string then "Database" else "Site Files") +:+
     ") completed successfully (size: " +:+ itoa size +:+ " bytes)").

(** The retention after a backup; the files of the deleted rows are removed, with
    the provider looked up for the ones on S3. *)
Definition after_backup_retention (job : Job) (result : option TaskResult) : M db () :=
  match j_site job, result with
  | Some site, Some r =>
      if (S3UploadError r =? "")%string || negb (S3Path r =? "")%string then
        let* del := Backups.DeleteOldest site 7 in
        match del with
        | Ok (_ :: _) =>
            let* s := Sites.GetByID site in
            let* provider :=
              match s with
              | Ok (Some s) => match s_backup_provider s with
                               | Some p => if 0 <? p then BackupProviders.GetByID p else mret (Ok None)
                               | None => mret (Ok None)
                               end
              | _ => mret (Ok None)
              end in
            match provider with
            | Ok (Some _) => done
            | _ => BackupProviders.GetDefault ;; done
            end
        | _ => done
        end
      else done
  | _, _ => done
  end.

Definition post_success (job : Job) (result : option TaskResult) : M db () :=
  let ty := j_type job in
  if (ty =? TypeSiteCreate)%string then
    match j_site job with Some site => after_site_create site result | None => done end
  else if (ty =? TypeSSLIssue)%string then
    match j_site job with
    | Some site => let* now := time_Now in
                   Sites.UpdateSSL site "active" "Let's Encrypt" (now + 90 * 24 * Hour) ;; done
    | None => done
    end
  else if is_backup ty then
    (match payload_backup (j_payload job) with Some b => after_backup_record job b result | None => done end) ;;
    after_backup_retention job result
  else if (ty =? TypeBackupRestore)%string then
    match payload_backup (j_payload job) with Some b => Backups.UpdateStatus b "completed" ;; done | None => done end
  else if (ty =? TypeAppStart)%string || (ty =? TypeAppRestart)%string then
    match j_site job with
    | Some site =>
        let appStatus := match result with
                         | Some r => if (AppStatus r =? "")%string then "running" else AppStatus r
                         | None => "running"
                         end in
        Sites.UpdateAppStatus site appStatus ;; done
    | None => done
    end
  else if (ty =? TypeAppStop)%string then
    match j_site job with Some site => Sites.UpdateAppStatus site "stopped" ;; done | None => done end
  else done.

(** ** One job *)

Definition result_json (result : option TaskResult) : string :=
  match result with Some r => marshal_result r | None => "null" end.

Definition agent_failed (job : Job) (err : string) : M db () :=
  if j_attempts job <? j_max_attempts job then retry_later job err
  else
    JobStore.MarkCompleted (j_id job) false "" err ;; fail_backup job err ;;
    send "error" "Job failed" ("Job " +:+ job_text job +:+ ": " +:+ err).

Definition exec_failed (job : Job) (result : option TaskResult) (err : string) : M db () :=
  if j_attempts job <? j_max_attempts job then retry_later job err
  else
    JobStore.MarkCompleted (j_id job) false (result_json result) err ;; failover job ;; fail_backup job err ;;
    send "error" "Job failed permanently" ("Job " +:+ job_text job +:+ ": " +:+ err).

Definition dispatch_payload (job : Job) : string :=
  match DecryptPayload (j_payload job) with Ok dec => dec | Err _ => j_payload job end.

Definition runClaimedJob (job : Job) : M db () :=
  let* requeued := if is_backup (j_type job) then start_backup job else mret false in
  if (requeued : bool) then done
  else
    let* a := agentForJob job in
    match a with
    | Err e => agent_failed job e
    | Ok client =>
        let '(result, execErr) := Execute post client (j_type job) (dispatch_payload job) in
        match execErr with
        | Some e => exec_failed job result e
        | None => JobStore.MarkCompleted (j_id job) true (result_json result) "" ;; post_success job result
        end
    end.

Definition processOne : M db () :=
  let* r := JobStore.ClaimNext "" in
  match r with
  | Ok (Some job) => runClaimedJob job
  | _ => done
  end.
End Worker.

(** * Facts *)

(** ** Back-off *)

(** the delay before the next attempt doubles from one second with every attempt and is
    cut at five minutes, plus the jitter; no attempt number makes it overflow, and it is
    always at least a second and less than five minutes and half a second. *)
Theorem delay_spec (attempts rand : Z) (Hr : 0 ≤ rand < jitter defaultBackoff) :
  delay defaultBackoff attempts rand = Z.min (2 ^ (Z.max 1 attempts - 1) * Second) (5 * Minute) + rand ∧
  1 * Second ≤ delay defaultBackoff attempts rand < 5 * Minute + 500000000.
Proof.
  unfold delay, defaultBackoff in *. cbn [baseDelay maxDelay jitter] in *.
  change (500 * (Second / 1000)) with 500000000 in Hr.
  replace (if attempts <? 1 then 1 else attempts) with (Z.max 1 attempts) by (destruct (Z.ltb_spec attempts 1); lia).
  set (k := Z.max 1 attempts - 1). assert (0 ≤ k) by lia. clearbody k.
  assert (∀ j, 30 ≤ j → 2 ^ 30 ≤ 2 ^ j) as Hpow by (intros j Hj; apply Z.pow_le_mono_r; lia).
  assert (0 < 2 ^ k) as Hpos by (apply Z.pow_pos_nonneg; lia).
  unfold Minute, Second in *. destruct (Z.ltb_spec 30 k) as [Hk|Hk].
  - change (wrap64 (1 * 1000000000 * 2 ^ 30)) with 1073741824000000000.
    destruct (Z.ltb_spec (5 * (60 * 1000000000)) 1073741824000000000); [|lia]. cbn [orb].
    rewrite wrap64_id by (unfold min_int64, max_int64; lia).
    specialize (Hpow k ltac:(lia)). change (2 ^ 30) with 1073741824 in Hpow. lia.
  - assert (2 ^ k ≤ 2 ^ 30) as Hle by (apply Z.pow_le_mono_r; lia). change (2 ^ 30) with 1073741824 in Hle.
    rewrite (wrap64_id (1 * 1000000000 * 2 ^ k)) by (unfold min_int64, max_int64; lia).
    destruct (Z.ltb_spec (5 * (60 * 1000000000)) (1 * 1000000000 * 2 ^ k)); cbn [orb].
    + rewrite wrap64_id by (unfold min_int64, max_int64; lia). lia.
    + destruct (Z.ltb_spec (1 * 1000000000 * 2 ^ k) 0); [lia|].
      rewrite wrap64_id by (unfold min_int64, max_int64; lia). lia.
Qed.

Lemma delay_spec_witness :
  delay defaultBackoff 4 7 = 8 * Second + 7 ∧
  delay defaultBackoff 4 7 = Z.min (2 ^ (Z.max 1 4 - 1) * Second) (5 * Minute) + 7.
Proof. split; [reflexivity|]. apply (delay_spec 4 7). by vm_compute. Defined.

(** ** What leaves a job alone *)

(** The row [r] of job [id] is in the table. *)
Definition holds_job (id : Z) (r : job_row) (w : world db) : Prop :=
  table_wf (t_jobs (data w)) ∧ get_row id (t_jobs (data w)) = Some r.
(** An operation that changes no job, whatever fails; it may add jobs. *)
Definition keeps {A} (m : M db A) : Prop :=
  ∀ id r w, holds_job id r w → wp m (λ _ w', holds_job id r w') w.

Lemma keeps_ret {A} (a : A) : keeps (mret a).
Proof. by intros id r w H. Qed.
Lemma keeps_now : keeps time_Now.
Proof. by intros id r w H. Qed.
Lemma keeps_bind {A B} (m : M db A) (k : A → M db B) : keeps m → (∀ a, keeps (k a)) → keeps (mbind m k).
Proof.
  intros Hm Hk id r w H. apply wp_bind. eapply wp_mono; [|exact (Hm id r w H)]. intros a w' H'. by apply Hk.
Qed.
Lemma keeps_wrap {A} (p : string) (m : M db (res A)) : keeps m → keeps (wrap p m).
Proof. intros H. apply keeps_bind; [done|]. intros a. apply keeps_ret. Qed.
Lemma keeps_query {A} (f : Z → db → A) : keeps (query f).
Proof. intros id r w H. apply wp_query; intros; exact H. Qed.
Lemma keeps_stmt {A} (f : Z → db → res A * db) : (∀ n d, t_jobs (f n d).2 = t_jobs d) → keeps (stmt f).
Proof. intros Hf id r w H. apply wp_stmt; intros; [exact H|]. unfold holds_job. cbn. by rewrite Hf. Qed.
Lemma keeps_exec {A} (f : Z → db → A * db) : (∀ n d, t_jobs (f n d).2 = t_jobs d) → keeps (exec f).
Proof. intros Hf id r w H. apply wp_exec; intros; [exact H|]. unfold holds_job. cbn. by rewrite Hf. Qed.
Lemma keeps_update {A} `{Hh : Has A db} (p : A → bool) (f : Z → A → A) :
  (∀ t d, t_jobs (set_tab (Has := Hh) t d) = t_jobs d) → keeps (update_tab p f).
Proof. intros Hf. apply keeps_exec. intros n d. apply Hf. Qed.
Lemma keeps_insert {A} `{Hh : Has A db} (ok : table A → bool) (mk : Z → Z → A) :
  (∀ t d, t_jobs (set_tab (Has := Hh) t d) = t_jobs d) → keeps (insert_checked ok mk).
Proof. intros Hf. apply keeps_stmt. intros n d. destruct (ok (tab d)); [apply Hf|done]. Qed.
Lemma keeps_mfor {A} (l : list A) (body : A → M db ()) : (∀ x, keeps (body x)) → keeps (mfor l body).
Proof. intros Hb. induction l as [|x l IH]; cbn [mfor]; [apply keeps_ret|]. by apply keeps_bind. Qed.

Lemma keeps_create `{HC : PayloadCipher} (j : Job) : keeps (JobStore.Create j).
Proof.
  intros id r w [Hw Hr]. unfold JobStore.Create. wp_run; [done|]. unfold on_tab. cbn -[insert_row]. split.
  - by apply insert_wf.
  - change (get_row id (insert_row (new_row (job_defaults j) (clock w)) (t_jobs (data w))).2 = Some r).
    rewrite get_insert by done. destruct (Z.eqb_spec id (t_seq (t_jobs (data w)) + 1)) as [->|]; [|done].
    apply get_row_spec in Hr as [Hin Hi]; [|done]. pose proof (wf_range _ Hw) as Hf.
    rewrite List.Forall_forall in Hf. specialize (Hf r Hin). lia.
Qed.

Lemma keeps_send deliver (sev sub msg : string) : keeps (Send (D := db) deliver sev sub msg).
Proof.
  apply keeps_bind; [apply keeps_wrap, keeps_query|]. intros [chs|e]; [|apply keeps_ret].
  apply keeps_mfor. intros ch. unfold send_one. destruct (negb _); [apply keeps_ret|].
  apply keeps_bind; [by apply keeps_wrap, keeps_insert|]. intros [id|e]; [|apply keeps_ret].
  destruct (NewNotifier _); [|destruct (deliver _ _ _ _)];
    (apply keeps_bind; [by apply keeps_wrap, keeps_update|intros ?; apply keeps_ret]).
Qed.

Create HintDb keeps.
#[export] Hint Resolve keeps_ret keeps_now keeps_query keeps_create keeps_send : keeps.

(** One step of the proof that an operation leaves the jobs alone. *)
Ltac keeps_step :=
  lazymatch goal with
  | |- ∀ _, _ => intros ?
  | |- keeps (mbind _ _) => apply keeps_bind
  | |- keeps (wrap _ _) => apply keeps_wrap
  | |- keeps (update_tab _ _) => apply keeps_update; [done]
  | |- keeps (match ?x with _ => _ end) => destruct x
  | |- keeps _ => solve [auto with keeps]
  end.
Ltac keeps_auto := repeat keeps_step.

Section WorkerFacts.
Context `{HC : PayloadCipher}.
Context (agent : Client) (post : string → string → string → res (Z * string)).
Context (deliver : channel_row → string → string → string → error).
Context (os_remove : string → bool) (rand : Z).

Lemma keeps_fail_backup (job : Job) (e : string) : keeps (fail_backup job e).
Proof. unfold fail_backup, Backups.MarkFailed. keeps_auto. Qed.

Lemma keeps_failover (job : Job) : keeps (failover job).
Proof. unfold failover. keeps_auto. Qed.

Lemma keeps_site_create (site : Z) (result : option TaskResult) : keeps (after_site_create site result).
Proof.
  unfold after_site_create, Sites.UpdateStatus, Sites.UpdateConfFile, Sites.UpdateProxyPassURL, Sites.update_site,
    Sites.GetByID, Users.GetByID, Users.scan_query. keeps_auto.
Qed.

Lemma keeps_delete_oldest (site keep : Z) : keeps (Backups.DeleteOldest (D := db) site keep).
Proof.
  unfold Backups.DeleteOldest, delete_tab. keeps_auto. by apply keeps_exec.
Qed.

Lemma keeps_post_success (job : Job) (result : option TaskResult) : keeps (post_success deliver os_remove job result).
Proof.
  unfold post_success, after_backup_record, after_backup_retention, Sites.UpdateSSL, Sites.UpdateAppStatus,
    Sites.update_site, Backups.UpdateProgress, Backups.UpdateStatus, Backups.MarkCompleted, Backups.UpdateS3Path,
    Backups.ClearStoragePath, Sites.GetByID, BackupProviders.GetByID, BackupProviders.GetDefault, send.
  pose proof keeps_site_create. pose proof keeps_delete_oldest. keeps_auto.
Qed.

(** ** The outcome of an attempt *)

(** The agent a job goes to, and the error of the attempt, if any. *)
Definition agent_of (job : Job) (d : db) : res Client := (agentForJob agent job (World d 0 [])).1.
Definition attempt_error (job : Job) (d : db) : error :=
  match agent_of job d with
  | Err e => Some e
  | Ok c => (Execute post c (j_type job) (dispatch_payload job)).2
  end.
(** A backup for a registered server. *)
Definition occupies (job : Job) : bool :=
  is_backup (j_type job) && match j_server job with Some s => 0 <? s | None => false end.

Lemma agentForJob_eq (job : Job) (d d1 : db) (n : Z) :
  t_servers d1 = t_servers d → agentForJob agent job (World d1 n []) = (agent_of job d, World d1 n []).
Proof.
  intros E. unfold agent_of, agentForJob. destruct (j_server job) as [s|]; [|done]. destruct (0 <? s); [|done].
  unfold Servers.GetByID, wrap, query, mbind, mret. rewrite !stmt_ok. db_simpl. by rewrite E.
Qed.

(** One UPDATE of the jobs without faults. *)
Lemma update_job_ok (msg : string) (id : Z) (f : Z → job_row → job_row) (d : db) (n : Z) :
  wrap msg (update_jobs (λ _, by_id id) f) (World d n []) =
    (Ok (), World (set_tab (update_where (by_id id) (f (current_timestamp n)) (t_jobs d)) d) n []).
Proof. reflexivity. Qed.

Lemma start_backup_free (job : Job) (d : db) (n : Z) :
  match j_server job with Some s => 0 <? s | None => false end = false →
  ∃ d1, start_backup job (World d n []) = (false, World d1 n []) ∧ t_jobs d1 = t_jobs d ∧ t_servers d1 = t_servers d.
Proof.
  intros H. unfold start_backup. destruct (payload_backup (j_payload job)) as [b|].
  - eexists. split; [|split].
    + unfold Backups.UpdateProgress, Backups.UpdateStatus, update_tab, exec, wrap, mbind, mret.
      rewrite stmt_ok. cbv beta iota zeta. rewrite stmt_ok. cbv beta iota zeta.
      destruct (j_server job) as [s|]; [|reflexivity]. rewrite H. reflexivity.
    + done.
    + done.
  - exists d. split; [|done]. unfold mbind, mret. destruct (j_server job) as [s|]; [|done]. by rewrite H.
Qed.

Definition outcome_ok (job : Job) (r : job_row) (n : Z) (err : error) (r' : job_row) : Prop :=
  jr_attempts r' = jr_attempts r ∧ jr_payload r' = jr_payload r ∧
  match err with
  | None => jr_status r' = StatusSucceeded ∧ jr_error r' = None
  | Some e =>
      jr_error r' = null_if_empty e ∧
      if j_attempts job <? j_max_attempts job
      then jr_status r' = StatusQueued ∧
           jr_next_retry r' = Some (current_timestamp (n + delay defaultBackoff (j_attempts job) rand))
      else jr_status r' = StatusFailed
  end.

Lemma finish_keeps {A} (m : M db A) (job : Job) (r r' : job_row) (d : db) (n : Z) (err : error) :
  keeps m → table_wf (t_jobs d) → get_row (j_id job) (t_jobs d) = Some r' → outcome_ok job r n err r' →
  wp m (λ _ w', ∃ r', get_row (j_id job) (t_jobs (data w')) = Some r' ∧ outcome_ok job r n err r') (World d n []).
Proof.
  intros Hm Hw Hr Ho. eapply wp_mono; [|exact (Hm (j_id job) r' (World d n []) (conj Hw Hr))]. intros a w' [_ H]. by exists r'.
Qed.

Section Endings.
Context (job : Job) (r : job_row) (d : db) (n : Z).
Hypothesis (Hw : table_wf (t_jobs d)) (Hr : get_row (j_id job) (t_jobs d) = Some r).

Lemma retry_outcome (e : string) : j_attempts job <? j_max_attempts job = true →
  wp (retry_later rand job e) (λ _ w', ∃ r', get_row (j_id job) (t_jobs (data w')) = Some r' ∧ outcome_ok job r n (Some e) r')
    (World d n []).
Proof using Hr.
  intros Ha. unfold retry_later, JobStore.ScheduleRetry, JobStore.SetError, wp, mbind, mret, time_Now. cbn [clock].
  rewrite update_job_ok. cbv beta iota zeta. rewrite update_job_ok. cbn [data]. db_simpl.
  rewrite !get_update_id, Z.eqb_refl, Hr by done. eexists. split; [done|].
  unfold outcome_ok. rewrite Ha. done.
Qed.

Lemma completed_outcome {A} (ok : bool) (res_json e : string) (err : error) (tail : M db A) :
  keeps tail →
  match err with
  | None => ok = true ∧ e = ""
  | Some m => ok = false ∧ e = m ∧ j_attempts job <? j_max_attempts job = false
  end →
  wp (mbind (JobStore.MarkCompleted (j_id job) ok res_json e) (λ _, tail))
    (λ _ w', ∃ r', get_row (j_id job) (t_jobs (data w')) = Some r' ∧ outcome_ok job r n err r') (World d n []).
Proof using Hw Hr.
  intros Ht He. unfold JobStore.MarkCompleted. apply wp_bind. unfold wp at 1. rewrite update_job_ok.
  apply (finish_keeps tail job r (complete_row ok res_json e (current_timestamp n) r)); [done| | |].
  - db_simpl. by apply update_wf.
  - db_simpl. by rewrite get_update_id, Z.eqb_refl, Hr.
  - unfold outcome_ok. destruct err as [m|].
    + destruct He as (-> & -> & ->). done.
    + destruct He as [-> ->]. done.
Qed.
End Endings.

(** C31: how a claimed job ends when no statement fails and it is not a backup for a
    registered server: it succeeds exactly when its agent is known and the dispatch
    returns no error; otherwise the error is recorded and the job is queued again after
    the back-off delay while attempts are left, and failed when they are used up. *)
Theorem runClaimedJob_outcome (job : Job) (r : job_row) (d : db) (n : Z)
    (Hw : table_wf (t_jobs d)) (Hr : get_row (j_id job) (t_jobs d) = Some r) (Ho : occupies job = false) :
  wp (runClaimedJob agent post deliver os_remove rand job) (λ _ w', ∃ r',
    get_row (j_id job) (t_jobs (data w')) = Some r' ∧ outcome_ok job r n (attempt_error job d) r') (World d n []).
Proof.
  assert (∃ d1, (if is_backup (j_type job) then start_backup job else mret false) (World d n []) = (false, World d1 n []) ∧
            t_jobs d1 = t_jobs d ∧ t_servers d1 = t_servers d) as (d1 & E & Ej & Es).
  { unfold occupies in Ho. destruct (is_backup (j_type job)); [by apply start_backup_free|by exists d]. }
  unfold runClaimedJob, wp, mbind at 1. rewrite E. unfold mbind at 1. rewrite (agentForJob_eq job d d1 n Es).
  unfold attempt_error. rewrite <- Ej in Hw, Hr. clear E Ej Es.
  pose proof keeps_post_success as Kp. pose proof keeps_failover as Kf. pose proof keeps_fail_backup as Kb.
  unfold send in *. destruct (agent_of job d) as [c|e]; [destruct (Execute post c (j_type job) (dispatch_payload job)) as [result [e|]]|].
  - unfold exec_failed. destruct (j_attempts job <? j_max_attempts job) eqn:Ea; [by apply retry_outcome|].
    apply completed_outcome; [done|done|unfold send; keeps_auto|done].
  - apply completed_outcome; [done|done|apply Kp|done].
  - unfold agent_failed. destruct (j_attempts job <? j_max_attempts job) eqn:Ea; [by apply retry_outcome|].
    apply completed_outcome; [done|done|unfold send; keeps_auto|done].
Qed.

(** ** Backups of registered servers *)

Lemma ClaimNext_ok (ty : string) (d : db) (n : Z) (r : job_row) :
  select_one (claimable ty (current_timestamp n)) (t_jobs d) = Some r →
  JobStore.ClaimNext ty (World d n []) =
    (Ok (Some (scanJob (upd_attempts (jr_attempts r + 1) (upd_status StatusRunning r)))),
     World (set_tab (update_where (by_id (jr_id r)) (claim_row (current_timestamp n)) (t_jobs d)) d) n []).
Proof.
  intros E. unfold JobStore.ClaimNext, wrap, query, exec, mbind, mret.
  repeat (rewrite stmt_ok; cbv beta iota zeta). db_simpl. rewrite E.
  repeat (rewrite stmt_ok; cbv beta iota zeta). done.
Qed.

(** The worker counts the job it has just claimed. *)
Lemma start_backup_busy (job : Job) (d : db) (n sid : Z) (r : job_row) :
  j_server job = Some sid → 0 < sid → In r (t_rows (t_jobs d)) → running_backup sid r = true →
  ∃ d1 k, start_backup job (World d n []) = (true, World d1 n []) ∧ 1 ≤ k ∧
    t_jobs d1 = update_where (by_id (j_id job))
      (λ r, touch (current_timestamp n)
              (upd_retry (Some (current_timestamp (n + k * (30 * Second)))) (upd_status StatusQueued r)))
      (t_jobs d) ∧ t_alerts d1 = t_alerts d ∧ t_sites d1 = t_sites d.
Proof.
  intros Es Hs Hin Hr.
  assert (1 ≤ count_where (running_backup sid) (t_jobs d)) as Hk.
  { assert ((0 <? count_where (running_backup sid) (t_jobs d)) = true) as H by (apply count_pos; by exists r). bool_hyps. lia. }
  set (k := count_where (running_backup sid) (t_jobs d)) in Hk.
  unfold start_backup. rewrite Es, (proj2 (Z.ltb_lt 0 sid) Hs).
  destruct (payload_backup (j_payload job)) as [b|]; eexists _, k; (split; [|split; [exact Hk|split; [|split]]]).
  all: try (unfold Backups.UpdateProgress, Backups.UpdateStatus, update_tab, JobStore.CountRunningByServer,
      JobStore.ScheduleRetry, update_jobs, query, exec, wrap, mbind, mret, time_Now;
    repeat (rewrite stmt_ok; cbv beta iota zeta); db_simpl; fold k; unfold maxConcurrentBackups;
    rewrite (proj2 (Z.leb_le 1 k) Hk); cbn [clock]; repeat (rewrite stmt_ok; cbv beta iota zeta);
    replace (k - 1 + 1) with k by lia; reflexivity).
  all: done.
Qed.

(** C39: a backup for a registered server is never dispatched: whenever it is the job the
    worker claims next, and no statement fails, the worker finds at least one running
    backup on the server, namely the one it has just claimed, and queues the job again
    for later; no answer of any agent has a part in it, and only the attempt counter,
    past its maximum or not, has grown. *)
Theorem processOne_backup_requeued (d : db) (n sid : Z) (r : job_row) (Hw : table_wf (t_jobs d))
    (Hc : select_one (claimable "" (current_timestamp n)) (t_jobs d) = Some r)
    (Hb : is_backup (jr_type r) = true) (Hs : jr_server r = Some sid) (Hpos : 0 < sid) :
  let d' := data (processOne agent post deliver os_remove rand (World d n [])).2 in
  ∃ r' k, get_row (jr_id r) (t_jobs d') = Some r' ∧ jr_status r' = StatusQueued ∧ 1 ≤ k ∧
    jr_next_retry r' = Some (current_timestamp (n + k * (30 * Second))) ∧
    jr_attempts r' = jr_attempts r + 1 ∧ jr_type r' = jr_type r ∧ jr_server r' = jr_server r ∧
    t_alerts d' = t_alerts d ∧ t_sites d' = t_sites d.
Proof.
  pose proof (find_spec _ _ _ Hc) as [_ Hin].
  set (d0 := set_tab (update_where (by_id (jr_id r)) (claim_row (current_timestamp n)) (t_jobs d)) d).
  set (job := scanJob (upd_attempts (jr_attempts r + 1) (upd_status StatusRunning r))).
  destruct (start_backup_busy job d0 n sid (claim_row (current_timestamp n) r)) as (d1 & k & E & Hk & Ej & Ea & Et);
    [done|done| | |].
  - subst d0. db_simpl. apply in_map_iff. exists r. split; [|done]. unfold by_id. by rewrite Z.eqb_refl.
  - unfold running_backup. cbn. rewrite Hs, bool_decide_eq_true_2 by done. exact Hb.
  - assert (processOne agent post deliver os_remove rand (World d n []) = ((), World d1 n [])) as ->.
    { unfold processOne, mbind at 1. rewrite (ClaimNext_ok "" d n r Hc). cbv beta iota. fold d0 job.
      unfold runClaimedJob, mbind at 1. change (j_type job) with (jr_type r). by rewrite Hb, E. }
    cbn [snd data]. rewrite Ej, Ea, Et. subst d0. db_simpl. change (j_id job) with (jr_id r).
    assert (get_row (jr_id r) (t_jobs d) = Some r) as Er by (by apply get_row_spec).
    rewrite !get_update_id, Z.eqb_refl, Er by done. cbn [fmap option_fmap option_map].
    eexists _, k. split; [done|]. cbn. done.
Qed.

(** ** A new site *)

(** The address a certificate is asked for: the owner's when there is one. *)
Definition owner_email (s : site_row) (d : db) : string :=
  match s_owner s with
  | Some o => match get_row o (t_users d) with
              | Some owner => if (u_email owner =? "")%string then "admin@sigarda.com" else u_email owner
              | None => "admin@sigarda.com"
              end
  | None => "admin@sigarda.com"
  end.

Lemma update_site_ok (msg : string) (id : Z) (f : Z → site_row → site_row) (d : db) (n : Z) :
  Sites.update_site msg id f (World d n []) =
    (Ok (), World (set_tab (update_where (by_id id) (λ r, site_touch (current_timestamp n) (f (current_timestamp n) r))
       (t_sites d)) d) n []).
Proof. reflexivity. Qed.

(** What the answer of the agent changes in the site. *)
Definition created (result : option TaskResult) (n : Z) (s : site_row) : site_row :=
  let t := site_touch n in
  let s1 := t (set_site_status "active" s) in
  match result with
  | Some r =>
      let s2 := if (NginxConfig r =? "")%string then s1 else t (set_conf_file (Some (NginxConfig r)) s1) in
      if (ProxyPassURL r =? "")%string then s2 else t (set_proxy (Some (ProxyPassURL r)) s2)
  | None => s1
  end.

Lemma created_steps (siteID : Z) (result : option TaskResult) (d : db) (n : Z) {B} (k : M db B) :
  mbind (Sites.UpdateStatus siteID "active") (λ _, mbind
    (match result with
     | Some r => mbind (if negb (NginxConfig r =? "")%string then mbind (Sites.UpdateConfFile siteID (NginxConfig r)) (λ _, mret ()) else mret ())
                   (λ _, if negb (ProxyPassURL r =? "")%string then mbind (Sites.UpdateProxyPassURL siteID (ProxyPassURL r)) (λ _, mret ()) else mret ())
     | None => mret ()
     end) (λ _, k)) (World d n []) =
  k (World (set_tab (update_where (by_id siteID) (created result (current_timestamp n)) (t_sites d)) d) n []).
Proof.
  unfold Sites.UpdateStatus, Sites.UpdateConfFile, Sites.UpdateProxyPassURL, mbind, mret, created.
  rewrite update_site_ok. cbv beta iota zeta.
  destruct result as [r|]; [|done]. destruct (NginxConfig r =? "")%string, (ProxyPassURL r =? "")%string; cbn [negb];
    rewrite ?update_site_ok; cbv beta iota zeta; rewrite ?update_site_ok; cbv beta iota zeta; db_simpl;
    rewrite ?update_by_id_twice by done; rewrite ?update_by_id_twice by done; done.
Qed.

(** when the agent has created a site, and no statement fails, the site is active and
    serves what the agent reported, and a certificate job for its domain, its server and
    its owner's address is queued as the newest job; no other job has changed. *)
Theorem after_site_create_spec (siteID : Z) (result : option TaskResult) (s : site_row) (d : db) (n : Z)
    (Hw : table_wf (t_sites d)) (Hs : get_row siteID (t_sites d) = Some s) (Hd : s_domain s ≠ "") :
  let d' := data (after_site_create siteID result (World d n [])).2 in
  (∃ s', get_row siteID (t_sites d') = Some s' ∧ s_status s' = "active" ∧ s_domain s' = s_domain s ∧
     s_conf_file s' = (match result with
                       | Some r => if (NginxConfig r =? "")%string then s_conf_file s else Some (NginxConfig r)
                       | None => s_conf_file s end) ∧
     s_proxy_pass_url s' = (match result with
                            | Some r => if (ProxyPassURL r =? "")%string then s_proxy_pass_url s else Some (ProxyPassURL r)
                            | None => s_proxy_pass_url s end)) ∧
  t_jobs d' = (insert_row (new_row (job_defaults (mkJob 0 (Some (s_server s)) (Some siteID) TypeSSLIssue StatusQueued
                 (ssl_payload siteID (s_domain s) (owner_email s d)) "" "" "" 0 0 0 0 None None None)) n) (t_jobs d)).2.
Proof.
  set (f := created result (current_timestamp n)).
  assert (Hf : ∀ r, row_id (f r) = row_id r) by (intros r; unfold f, created; by repeat case_match).
  set (d1 := set_tab (update_where (by_id siteID) f (t_sites d)) d).
  assert (get_row siteID (t_sites d1) = Some (f s)) as E1.
  { subst d1. db_simpl. by rewrite get_update_id, Z.eqb_refl, Hs. }
  assert (s_domain (f s) = s_domain s ∧ s_owner (f s) = s_owner s ∧ s_server (f s) = s_server s ∧ s_id (f s) = siteID)
    as (Ed & Eo & Esv & Ei).
  { pose proof (get_row_id _ _ _ Hs) as Hi. unfold f, created. by repeat case_match. }
  set (job := mkJob 0 (Some (s_server s)) (Some siteID) TypeSSLIssue StatusQueued
                (ssl_payload siteID (s_domain s) (owner_email s d)) "" "" "" 0 0 0 0 None None None).
  assert (after_site_create siteID result (World d n []) =
    ((), World (set_tab (insert_row (new_row (job_defaults job) n) (t_jobs d)).2 d1) n [])) as ->.
  { unfold after_site_create. rewrite created_steps. fold f. fold d1.
    unfold Sites.GetByID, wrap, query, mbind, mret. rewrite stmt_ok. cbv beta iota zeta.
    change (tab (Has := has_sites) d1) with (t_sites d1). rewrite E1. cbv beta iota zeta. rewrite Ed, Eo, Esv, Ei.
    rewrite (proj2 (String.eqb_neq _ _) Hd). subst job. unfold owner_email.
    destruct (s_owner s) as [o|]; [unfold Users.GetByID, Users.scan_query, wrap, query, mbind, mret; rewrite stmt_ok; cbv beta iota zeta|];
      unfold JobStore.Create, wrap, exec, on_tab, mbind, mret; rewrite stmt_ok; reflexivity. }
  cbn [snd data]. split; [|done]. exists (f s).
  change (t_sites (set_tab _ d1)) with (t_sites d1). split; [exact E1|].
  unfold f, created. destruct result as [r|]; [destruct (NginxConfig r =? "")%string, (ProxyPassURL r =? "")%string|]; done.
Qed.
End WorkerFacts.

(** ** Falling back to a local backup *)

(** the backup that replaces one that could not reach S3 is the same backup without
    S3: its payload has no S3 configuration, is stored locally, is marked as a failover,
    keeps every other member (the backup's id among them), and does not fail over again. *)
Theorem failover_payload_spec (payload p : string) (l : list (string * json))
    (Hu : Unmarshal payload = Some (JObj l)) (Hok : json_ok (JObj l) = true) (Hf : failover_payload payload = Some p) :
  ∃ l', Unmarshal p = Some (JObj l') ∧ obj_get "s3_config" l' = None ∧ failover_payload p = None ∧
    obj_get "storage" l' = Some (JStr "local") ∧ obj_get "failover" l' = Some (JBool true) ∧
    ∀ k, str_in ["s3_config"; "storage"; "failover"] k = false → obj_get k l' = obj_get k l.
Proof.
  unfold failover_payload in Hf. rewrite Hu in Hf. destruct (obj_get "s3_config" l); [|done]. injection Hf as <-.
  set (l1 := obj_delete "s3_config" l). set (l2 := obj_insert "storage" (JStr "local") l1).
  set (l' := obj_insert "failover" (JBool true) l2).
  assert (Hc : canonical (JObj l) = true) by (by eapply Unmarshal_canonical).
  cbn [canonical] in Hc. apply andb_prop in Hc as [Hs%keys_sorted_spec Hv].
  assert (sorted_keys l1) as Hs1 by (by apply obj_delete_sorted).
  assert (sorted_keys l2) as Hs2 by (by apply obj_insert_sorted).
  assert (sorted_keys l') as Hs3 by (by apply obj_insert_sorted).
  assert (∀ q, In q l' → q = ("failover", JBool true) ∨ q = ("storage", JStr "local") ∨ In q l) as Hin.
  { intros q [->|Hq]%obj_insert_in; [by left|]. apply obj_insert_in in Hq as [->|Hq]; [by right; left|].
    right. right. by apply List.filter_In in Hq as [Hq _]. }
  assert (Unmarshal (Marshal (JObj l')) = Some (JObj l')) as Eu.
  { apply Marshal_roundtrip.
    - cbn [json_ok] in *. rewrite forallb_forall in Hok |- *. intros q [->|[->|Hq]]%Hin; [done|done|auto].
    - cbn [canonical]. apply andb_true_iff. split; [by apply keys_sorted_spec|].
      rewrite forallb_forall in Hv |- *. intros q [->|[->|Hq]]%Hin; [done|done|auto]. }
  assert (∀ k, obj_get k l' = if (k =? "failover")%string then Some (JBool true)
                              else if (k =? "storage")%string then Some (JStr "local")
                              else if (k =? "s3_config")%string then None else obj_get k l) as Hg.
  { intros k. unfold l', l2, l1. by rewrite !obj_get_insert, obj_get_delete by done. }
  exists l'. split; [exact Eu|]. split; [by rewrite Hg|]. split; [change (failover_payload (Marshal (JObj l')) = None); unfold failover_payload; by rewrite Eu, Hg|].
  split; [by rewrite Hg|]. split; [by rewrite Hg|]. intros k Hk. rewrite Hg. cbn in Hk. bool_hyps.
  by repeat case_match; bool_hyps.
Qed.

(** * Witnesses *)

Definition local_agent : Client := mkClient "http://127.0.0.1:9000" "t".
Definition say (code : Z) (body : string) (_ _ _ : string) : res (Z * string) := Ok (code, body).
Definition silent (_ : channel_row) (_ _ _ : string) : error := None.
Definition failing_body : string := Marshal (JObj [("ok", JBool false); ("error", JStr "disk full")]).
Definition worker_job (id : Z) (server : option Z) (ty : string) (attempts : Z) : job_row :=
  JobRow id server (Some 7) ty StatusQueued (Some "{}") None None None attempts 3 0 0 None None None.
Definition jobs_db (l : list job_row) : db := set_tab (Table l 9) empty_db.
Definition running_job (r : job_row) : Job := scanJob (upd_attempts (jr_attempts r + 1) (upd_status StatusRunning r)).
Definition deploy_row : job_row := worker_job 4 None "site.deploy" 1.
Definition deploy_job : Job := running_job deploy_row.
Definition claimed_db : db := jobs_db [claim_row 0 deploy_row].

Lemma claimed_wf : table_wf (t_jobs claimed_db).
Proof. split; [| |done]; cbn; repeat constructor; cbn; lia. Qed.

(** The second of three attempts fails: the job waits two seconds. *)
Lemma runClaimedJob_outcome_witness :
  let run := runClaimedJob (HC := plain_cipher) local_agent (say 500 failing_body) silent (λ _, true) 0 deploy_job in
  map jr_next_retry (t_rows (t_jobs (data (run (World claimed_db 0 [])).2))) = [Some 2] ∧
  wp run (λ _ w', ∃ r', get_row 4 (t_jobs (data w')) = Some r' ∧
      outcome_ok 0 deploy_job (claim_row 0 deploy_row) 0 (Some "agent returned 500: disk full") r') (World claimed_db 0 []).
Proof.
  split; [vm_compute; reflexivity|].
  assert (attempt_error (HC := plain_cipher) local_agent (say 500 failing_body) deploy_job claimed_db =
    Some "agent returned 500: disk full") as <- by (vm_compute; reflexivity).
  exact (runClaimedJob_outcome (HC := plain_cipher) local_agent (say 500 failing_body) silent (λ _, true) 0
    deploy_job (claim_row 0 deploy_row) claimed_db 0 claimed_wf eq_refl eq_refl).
Defined.

Definition backup_row_of : job_row := worker_job 5 (Some 2) TypeBackupCreate 8.
Definition backup_db : db := jobs_db [backup_row_of].

Lemma backup_db_wf : table_wf (t_jobs backup_db).
Proof. split; [| |done]; cbn; repeat constructor; cbn; lia. Qed.

(** The only job of the panel, its attempts long used up, goes back to the queue. *)
Lemma processOne_backup_requeued_witness :
  let d' := data (processOne (HC := plain_cipher) local_agent (say 200 "{}") silent (λ _, true) 0 (World backup_db 0 [])).2 in
  ∃ r' k, get_row 5 (t_jobs d') = Some r' ∧ jr_status r' = StatusQueued ∧ 1 ≤ k ∧
    jr_next_retry r' = Some (current_timestamp (0 + k * (30 * Second))) ∧
    jr_attempts r' = 9 ∧ jr_type r' = TypeBackupCreate ∧ jr_server r' = Some 2 ∧
    t_alerts d' = t_alerts backup_db ∧ t_sites d' = t_sites backup_db.
Proof.
  exact (processOne_backup_requeued (HC := plain_cipher) local_agent (say 200 "{}") silent (λ _, true) 0
    backup_db 0 2 backup_row_of backup_db_wf eq_refl eq_refl eq_refl eq_refl).
Defined.

Definition shop : site_row :=
  new_site (mkSite 3 "shop" "shop.test" "node" "" "pending" None None None None None None (Some 30000) None None None None None) 0 7.
Definition shop_db : db := set_tab (Table [shop] 7) empty_db.
Definition shop_result : TaskResult := mkResult true "" "" "" "" "" "" 0 "server {}" "".

Lemma shop_wf : table_wf (t_sites shop_db).
Proof. split; [| |done]; cbn; repeat constructor; cbn; lia. Qed.

Lemma after_site_create_spec_witness :
  let d' := data (after_site_create (HC := plain_cipher) 7 (Some shop_result) (World shop_db 0 [])).2 in
  map jr_type (t_rows (t_jobs d')) = [TypeSSLIssue] ∧
  ∃ s', get_row 7 (t_sites d') = Some s' ∧ s_status s' = "active" ∧ s_domain s' = "shop.test" ∧
    s_conf_file s' = Some "server {}" ∧ s_proxy_pass_url s' = None.
Proof.
  split; [reflexivity|].
  refine (proj1 (after_site_create_spec (HC := plain_cipher) 7 (Some shop_result) shop shop_db 0 shop_wf eq_refl _)).
  done.
Defined.

Definition s3_payload : list (string * json) :=
  [("backup_id", JNum "12"); ("s3_config", JObj [("bucket", JStr "b")]); ("storage", JStr "s3")].

Lemma failover_payload_spec_witness :
  ∃ p l', failover_payload (Marshal (JObj s3_payload)) = Some p ∧ Unmarshal p = Some (JObj l') ∧
    obj_get "s3_config" l' = None ∧ obj_get "backup_id" l' = Some (JNum "12").
Proof.
  destruct (failover_payload (Marshal (JObj s3_payload))) as [p|] eqn:E; [|by vm_compute in E].
  destruct (failover_payload_spec (Marshal (JObj s3_payload)) p s3_payload) as (l' & H1 & H2 & _ & _ & _ & H6);
    [vm_compute; reflexivity|vm_compute; reflexivity|exact E|].
  exists p, l'. split; [done|]. split; [exact H1|]. split; [exact H2|]. rewrite H6; reflexivity.
Defined.
