(* ===== verification/Drain.v ===== *)
(** The queue drains: what the worker of Worker.v makes of a queue that it polls often enough,
    with agents that may answer anything.  Time is that of the polls: the clock stands still
    while an attempt runs. *)
From S2P Require Import Prelude GoStr Json Sql JobStore Accounts Sites Backups Servers Panel Cron Agent Worker Frame.
Local Open Scope Z_scope.
Local Open Scope panel_scope.

Set Default Proof Using "Type".

(** * Operations that at most add one certificate job *)

Notation calm := (frame t_jobs).

(** A row that waits for the next poll, with nothing tried. *)
Definition fresh_ssl (r : job_row) : Prop :=
  jr_type r = TypeSSLIssue ∧ jr_status r = StatusQueued ∧ jr_attempts r = 0 ∧ jr_max_attempts r = 3 ∧ jr_next_retry r = None.
(** The jobs after [m]: those before it, and at most one certificate to issue. *)
Definition adds_ssl (t t' : table job_row) : Prop :=
  t' = t ∨ ∃ mk, t' = (insert_row mk t).2 ∧ (∀ i, jr_id (mk i) = i) ∧ ∀ i, fresh_ssl (mk i).
Definition grows {A} (m : M db A) : Prop := ∀ w, wp m (λ _ w', adds_ssl (t_jobs (data w)) (t_jobs (data w'))) w.

Lemma calm_grows {A} (m : M db A) : calm m → grows m.
Proof. intros H w. eapply wp_mono; [|exact (H w)]. intros a w' [E _]. by left. Qed.
Lemma grows_bind {A B} (m : M db A) (k : A → M db B) : calm m → (∀ a, grows (k a)) → grows (mbind m k).
Proof.
  intros Hm Hk w. apply wp_bind. eapply wp_mono; [|exact (Hm w)]. intros a w' [E _].
  eapply wp_mono; [|exact (Hk a w')]. intros b w''. by rewrite <- E.
Qed.
Lemma grows_create `{HC : PayloadCipher} (server site : option Z) (payload : string) :
  grows (JobStore.Create (mkJob 0 server site TypeSSLIssue StatusQueued payload "" "" "" 0 0 0 0 None None None)).
Proof. intros w. unfold JobStore.Create. wp_run; [by left|]. right. by eexists. Qed.
Lemma grows_last {A B} (m : M db A) (b : B) : grows m → grows (mbind m (λ _, mret b)).
Proof. intros Hm w. apply wp_bind. eapply wp_mono; [|exact (Hm w)]. done. Qed.

Lemma calm_send deliver (sev sub msg : string) : calm (Send (D := db) deliver sev sub msg).
Proof.
  unfold Send, AlertChannels.List. frame_auto. unfold send_one, Alerts.Create, Alerts.MarkFailed, Alerts.MarkSent. frame_auto.
Qed.
#[export] Hint Resolve calm_send : frame.

Section Drain.
Context `{HC : PayloadCipher}.
Context (agent : Client) (deliver : channel_row → string → string → string → error) (os_remove : string → bool).

Lemma grows_site_create (site : Z) (result : option TaskResult) : grows (after_site_create site result).
Proof.
  unfold after_site_create, Sites.UpdateStatus, Sites.UpdateConfFile, Sites.UpdateProxyPassURL, Sites.update_site, Sites.GetByID,
    Users.GetByID, Users.scan_query.
  apply grows_bind; [frame_auto|intros _]. apply grows_bind; [frame_auto|intros _]. apply grows_bind; [frame_auto|intros x].
  destruct x as [[x|]|]; [|apply calm_grows; frame_auto..].
  destruct (_ =? _)%string; [apply calm_grows; frame_auto|].
  apply grows_bind; [frame_auto|intros email]. apply grows_last, grows_create.
Qed.
Lemma calm_post_success (job : Job) (result : option TaskResult) :
  is_backup (j_type job) = false → (j_type job =? TypeSiteCreate)%string = false → calm (post_success deliver os_remove job result).
Proof.
  intros Hb Hs. unfold post_success. rewrite Hb, Hs. unfold Sites.UpdateSSL, Sites.UpdateAppStatus, Sites.update_site, Backups.UpdateStatus.
  frame_auto.
Qed.
Lemma grows_post_success (job : Job) (result : option TaskResult) :
  (j_type job =? TypeSiteCreate)%string = true → grows (post_success deliver os_remove job result).
Proof.
  intros Hs. unfold post_success. rewrite Hs. destruct (j_site job); [apply grows_site_create|apply calm_grows; frame_auto].
Qed.

(** ** One attempt *)

(** What an attempt at time [n] makes of the row [r] it claimed. *)
Definition tried (n : Z) (r r' : job_row) : Prop :=
  jr_id r' = jr_id r ∧ jr_type r' = jr_type r ∧ jr_attempts r' = jr_attempts r ∧ jr_max_attempts r' = jr_max_attempts r ∧
  (terminal (jr_status r') = true ∨
   jr_status r' = StatusQueued ∧ jr_attempts r < jr_max_attempts r ∧
   ∃ t, jr_next_retry r' = Some t ∧ t ≤ current_timestamp (n + 5 * Minute + 500000000)).
(** The jobs after an attempt at [job]. *)
Definition settles (job : Job) (n : Z) (t t' : table job_row) : Prop :=
  ∃ f, (∀ r, jr_attempts r = j_attempts job → jr_max_attempts r = j_max_attempts job → tried n r (f r)) ∧
    (∀ r, row_id (f r) = row_id r) ∧
    let t1 := update_where (by_id (j_id job)) f t in
    (t' = t1 ∨ (j_type job =? TypeSiteCreate)%string = true ∧ (∀ r, terminal (jr_status (f r)) = true) ∧ adds_ssl t1 t').

Lemma retry_settles (rand : Z) (job : Job) (e : string) (d : db) (n : Z) :
  0 ≤ rand < jitter defaultBackoff → j_attempts job <? j_max_attempts job = true →
  wp (retry_later rand job e) (λ _ w', settles job n (t_jobs d) (t_jobs (data w'))) (World d n []).
Proof.
  intros Hr Ha. unfold retry_later, JobStore.ScheduleRetry, JobStore.SetError, wp, mbind, mret, time_Now. cbn [clock].
  rewrite update_job_ok. cbv beta iota zeta. rewrite update_job_ok. cbn [data]. db_simpl.
  rewrite update_by_id_twice by done. eexists. split; [|split; [|left; reflexivity]]; [|done].
  intros r E1 E2. split_and!; [done..|]. right. split_and!; [done|lia|]. eexists. split; [done|].
  destruct (delay_spec (j_attempts job) rand Hr) as [_ Hd]. unfold current_timestamp. apply Z.div_le_mono; lia.
Qed.

Lemma complete_tried (ok : bool) (result e : string) (m n : Z) (r : job_row) :
  tried n r (complete_row ok result e m r) ∧ terminal (jr_status (complete_row ok result e m r)) = true.
Proof. assert (terminal (jr_status (complete_row ok result e m r)) = true) by (by destruct ok). split; [|done]. split_and!; auto. Qed.
Lemma complete_settles {A} (ok : bool) (result e : string) (job : Job) (tail : M db A) (d : db) (n : Z) :
  calm tail ∨ (j_type job =? TypeSiteCreate)%string = true ∧ grows tail →
  wp (mbind (JobStore.MarkCompleted (j_id job) ok result e) (λ _, tail))
    (λ _ w', settles job n (t_jobs d) (t_jobs (data w'))) (World d n []).
Proof.
  intros Ht. unfold JobStore.MarkCompleted. apply wp_bind. unfold wp at 1. rewrite update_job_ok.
  set (f := complete_row ok result e (current_timestamp n)).
  assert (Hf : ∀ r, tried n r (f r) ∧ terminal (jr_status (f r)) = true) by (intros; apply complete_tried).
  destruct Ht as [Hc|[Es Hg]].
  - eapply wp_mono; [|apply Hc]. intros a w' [E _]. exists f. rewrite E. db_simpl. split; [intros; apply Hf|]. split; [done|]. by left.
  - eapply wp_mono; [|apply Hg]. intros a w' H. exists f. revert H. db_simpl. intros H. split; [intros; apply Hf|]. split; [done|].
    right. split_and!; [done|intros; apply Hf|done].
Qed.

Lemma attempt_settles post (rand : Z) (job : Job) (d : db) (n : Z) :
  0 ≤ rand < jitter defaultBackoff → is_backup (j_type job) = false →
  wp (runClaimedJob agent post deliver os_remove rand job) (λ _ w', settles job n (t_jobs d) (t_jobs (data w'))) (World d n []).
Proof.
  intros Hr Hb. unfold runClaimedJob. rewrite Hb. apply wp_bind, wp_ret. cbv beta iota. unfold wp, mbind at 1.
  rewrite (agentForJob_eq agent job d d n eq_refl).
  assert (Hn : (j_type job =? TypeBackupCreate)%string = false) by (unfold is_backup in Hb; by apply orb_false_iff in Hb as [? _]).
  destruct (agent_of agent job d) as [c|e]; [destruct (Execute post c (j_type job) (dispatch_payload job)) as [result [e|]]|].
  - unfold exec_failed. destruct (j_attempts job <? j_max_attempts job) eqn:Ea; [by apply retry_settles|].
    apply complete_settles. left. unfold failover, fail_backup, send. rewrite Hn, Hb. frame_auto.
  - apply complete_settles. destruct (j_type job =? TypeSiteCreate)%string eqn:Es; [right|left].
    + split; [done|by apply grows_post_success].
    + by apply calm_post_success.
  - unfold agent_failed. destruct (j_attempts job <? j_max_attempts job) eqn:Ea; [by apply retry_settles|].
    apply complete_settles. left. unfold fail_backup, send. rewrite Hb. frame_auto.
Qed.

(** ** The load of the queue *)

(** The polls a row may still need: its attempts, and for a site to create those of the
    certificate job that its success queues. *)
Definition work (r : job_row) : Z :=
  if (jr_status r =? StatusQueued)%string
  then Z.max 1 (jr_max_attempts r - jr_attempts r) + (if (jr_type r =? TypeSiteCreate)%string then 3 else 0)
  else 0.
Fixpoint load_of (l : list job_row) : Z := match l with [] => 0 | r :: l' => work r + load_of l' end.
Definition load (t : table job_row) : Z := load_of (t_rows t).
(** A row that is over, or that waits for a poll not after the time [b]; no backups. *)
Definition waiting (b : Z) (r : job_row) : Prop :=
  is_backup (jr_type r) = false ∧
  (terminal (jr_status r) = true ∨ jr_status r = StatusQueued ∧ default b (jr_next_retry r) ≤ b).
Definition patient (b : Z) (t : table job_row) : Prop := table_wf t ∧ Forall (waiting b) (t_rows t).

Lemma work_nonneg (r : job_row) : 0 ≤ work r.
Proof. unfold work. destruct (_ =? _)%string; [|done]. destruct (_ =? _)%string; lia. Qed.
Lemma load_app (l k : list job_row) : load_of (l ++ k) = load_of l + load_of k.
Proof. induction l as [|r l IH]; cbn; [done|]. rewrite IH. lia. Qed.
Lemma load_nonneg (l : list job_row) : 0 ≤ load_of l.
Proof. induction l as [|r l IH]; cbn; [done|]. pose proof (work_nonneg r). lia. Qed.
Lemma terminal_work (r : job_row) : terminal (jr_status r) = true → work r = 0.
Proof.
  unfold work, terminal. intros H. destruct (jr_status r =? StatusQueued)%string eqn:E; [|done].
  apply String.eqb_eq in E. by rewrite E in H.
Qed.
Lemma fresh_work (r : job_row) : fresh_ssl r → work r = 3.
Proof. intros (E1 & E2 & E3 & E4 & _). unfold work. by rewrite E1, E2, E3, E4. Qed.
Lemma fresh_waiting (b : Z) (r : job_row) : fresh_ssl r → waiting b r.
Proof. intros (E1 & E2 & _ & _ & E5). split; [by rewrite E1|]. right. rewrite E5. by split. Qed.
Lemma load_untouched (id : Z) (f : job_row → job_row) (l : list job_row) :
  Forall (λ r, row_id r ≠ id) l → load_of (map (λ r, if by_id id r then f r else r) l) = load_of l.
Proof.
  induction 1 as [|r l Hr Hl IH]; cbn; [done|]. unfold by_id at 1. rewrite (proj2 (Z.eqb_neq _ _) Hr). lia.
Qed.
Lemma load_update (r : job_row) (f : job_row → job_row) (l : list job_row) :
  StronglySorted id_lt l → In r l →
  load_of (map (λ x, if by_id (row_id r) x then f x else x) l) = load_of l - work r + work (f r).
Proof.
  induction 1 as [|y l Hs IH Hy]; [done|]. rewrite List.Forall_forall in Hy. intros [->|Hin]; cbn; unfold by_id at 1.
  - rewrite Z.eqb_refl, load_untouched; [lia|]. apply List.Forall_forall. intros x Hx. specialize (Hy x Hx). unfold id_lt in Hy. lia.
  - specialize (Hy r Hin). unfold id_lt in Hy. rewrite (proj2 (Z.eqb_neq _ _)) by lia. rewrite IH by done. lia.
Qed.

Lemma idle_terminal (b : Z) (t : table job_row) :
  patient b t → load t ≤ 0 → Forall (λ r, terminal (jr_status r) = true) (t_rows t).
Proof.
  unfold patient, load. intros [_ Hf]. induction Hf as [|r l [_ Hr] Hf IH]; cbn; [done|]. intros Hl.
  pose proof (work_nonneg r). pose proof (load_nonneg l). constructor; [|apply IH; lia].
  destruct Hr as [Hr|[Hr _]]; [done|]. exfalso. enough (1 ≤ work r) by lia.
  unfold work. rewrite Hr. cbn. destruct (_ =? _)%string; lia.
Qed.

(** ** One poll *)

(** A poll of the worker: its time, what the agents answer meanwhile, and the jitter drawn. *)
Record poll := Poll { at_time : Z; answer : string → string → string → res (Z * string); draw : Z }.
Definition poll_db (p : poll) (d : db) : db :=
  data (processOne agent (answer p) deliver os_remove (draw p) (World d (at_time p) [])).2.

Lemma waiting_mono (b b' : Z) (r : job_row) : b ≤ b' → waiting b r → waiting b' r.
Proof.
  intros Hb [H1 H2]. split; [done|]. destruct H2 as [H2|[H2 H3]]; [by left|right]. split; [done|].
  destruct (jr_next_retry r); cbn in *; lia.
Qed.
Lemma unclaimable_idle (b : Z) (t : table job_row) :
  patient b t → select_one (claimable "" b) t = None → load t ≤ 0.
Proof.
  unfold patient, select_one, load. intros [_ Hf] Hn. induction Hf as [|r l [_ Hr] Hf IH]; cbn; [done|]. cbn in Hn.
  destruct (claimable "" b r) eqn:E; [done|]. specialize (IH Hn).
  rewrite terminal_work; [lia|]. destruct Hr as [Hr|[Hr Ht]]; [done|]. exfalso. unfold claimable in E. rewrite Hr in E. cbn in E.
  destruct (jr_next_retry r); cbn in *; [lia|done].
Qed.
Lemma ClaimNext_none (ty : string) (d : db) (n : Z) :
  select_one (claimable ty (current_timestamp n)) (t_jobs d) = None → JobStore.ClaimNext ty (World d n []) = (Ok None, World d n []).
Proof.
  intros E. unfold JobStore.ClaimNext, wrap, query, exec, mbind, mret.
  repeat (rewrite stmt_ok; cbv beta iota zeta). db_simpl. by rewrite E.
Qed.

(** The row [r] that a poll claims, and what becomes of it. *)
Definition next_row (f : job_row → job_row) (n : Z) (r : job_row) : job_row := f (claim_row (current_timestamp n) r).
Lemma tried_work (n : Z) (r r' : job_row) :
  jr_status r = StatusQueued → tried n (claim_row (current_timestamp n) r) r' → work r' < work r.
Proof.
  intros Hq (_ & Et & Ea & Em & Hs). destruct Hs as [Hs|(Hs & Hlt & _)].
  - rewrite terminal_work by done. unfold work. rewrite Hq. cbn. destruct (_ =? _)%string; lia.
  - unfold work. rewrite Hs, Hq, Et, Ea, Em. cbn in *. destruct (_ =? _)%string; lia.
Qed.
Lemma tried_waiting (n : Z) (r r' : job_row) (b : Z) :
  is_backup (jr_type r) = false → current_timestamp (n + 5 * Minute + 500000000) ≤ b →
  tried n (claim_row (current_timestamp n) r) r' → waiting b r'.
Proof.
  intros Hb Hn (_ & Et & _ & _ & Hs). split; [by rewrite Et|]. destruct Hs as [Hs|(Hs & _ & t & Hr & Ht)]; [by left|right].
  split; [done|]. rewrite Hr. cbn. lia.
Qed.

(** What the attempt of a poll does to a queue of patient rows. *)
Record progress (b : Z) (t t' : table job_row) : Prop := {
  pr_patient : patient b t';
  pr_load : load t' < load t;
  pr_ids : ∀ r, In r (t_rows t) → ∃ r', In r' (t_rows t') ∧ jr_id r' = jr_id r }.

Lemma update_progress (n b : Z) (r : job_row) (f : job_row → job_row) (t t' : table job_row) :
  patient b t → In r (t_rows t) → jr_status r = StatusQueued → (∀ x, row_id (f x) = row_id x) →
  current_timestamp (n + 5 * Minute + 500000000) ≤ b →
  tried n (claim_row (current_timestamp n) r) (next_row f n r) →
  t' = update_where (by_id (jr_id r)) (next_row f n) t ∨
  (jr_type r =? TypeSiteCreate)%string = true ∧ terminal (jr_status (next_row f n r)) = true ∧
    adds_ssl (update_where (by_id (jr_id r)) (next_row f n) t) t' →
  progress b t t'.
Proof.
  intros [Hw Hf] Hin Hq Hid Hb Htr Ht'. set (t1 := update_where (by_id (jr_id r)) (next_row f n) t) in *.
  assert (Hid' : ∀ x, row_id (next_row f n x) = row_id x) by (intros x; unfold next_row; by rewrite Hid).
  assert (Hw1 : table_wf t1) by (by apply update_wf).
  assert (Hl1 : load t1 = load t - work r + work (next_row f n r)) by (by apply load_update; [apply Hw|]).
  assert (Hwait : waiting b (next_row f n r)).
  { rewrite List.Forall_forall in Hf. by apply (tried_waiting n r); [apply Hf|..]. }
  assert (Hf1 : Forall (waiting b) (t_rows t1)).
  { rewrite List.Forall_forall in Hf |- *. intros x (y & <- & Hy)%in_map_iff. unfold by_id.
    destruct (Z.eqb_spec (row_id y) (jr_id r)) as [E|_]; [by rewrite (wf_unique t y r)|by apply Hf]. }
  assert (Hi1 : ∀ x, In x (t_rows t) → ∃ x', In x' (t_rows t1) ∧ jr_id x' = jr_id x).
  { intros x Hx. eexists. split; [apply in_map, Hx|]. case_goal; [apply Hid'|done]. }
  pose proof (tried_work n r _ Hq Htr) as Hlt. clearbody t1.
  destruct Ht' as [->|(Es & Hte & [->|(mk & -> & Hmk & Hfr)])].
  1,2: by split; [split|lia|].
  split.
  - split; [by apply insert_wf|]. cbn. apply Forall_app. split; [done|]. apply Forall_singleton. by apply fresh_waiting.
  - unfold load. cbn. rewrite load_app. cbn. rewrite (fresh_work _ (Hfr _)). unfold load in Hl1. rewrite Hl1, (terminal_work _ Hte).
    unfold work. rewrite Hq, Es. cbn. lia.
  - intros x Hx. destruct (Hi1 x Hx) as (x' & Hx' & Ei). exists x'. split; [|done]. cbn. apply in_app_iff. by left.
Qed.

(** A poll finds nothing to do and leaves the jobs alone, or makes an attempt. *)
Lemma poll_progress (p : poll) (d : db) (b : Z) :
  0 ≤ draw p < jitter defaultBackoff → patient b (t_jobs d) → current_timestamp (at_time p + 5 * Minute + 500000000) ≤ b →
  select_one (claimable "" (current_timestamp (at_time p))) (t_jobs d) = None ∧ t_jobs (poll_db p d) = t_jobs d ∨
  progress b (t_jobs d) (t_jobs (poll_db p d)).
Proof.
  intros Hr Hp Hb. set (n := at_time p) in *. unfold poll_db, processOne, mbind. fold n.
  destruct (select_one (claimable "" (current_timestamp n)) (t_jobs d)) as [r|] eqn:E.
  - right. rewrite (ClaimNext_ok _ _ _ _ E). set (job := scanJob _). set (d1 := set_tab _ d).
    apply find_spec in E as [Hc Hin]. pose proof Hp as [Hw Hf].
    assert (jr_status r = StatusQueued ∧ is_backup (jr_type r) = false) as [Hq Hnb].
    { rewrite List.Forall_forall in Hf. unfold claimable in Hc. bool_hyps. split; [done|]. by apply Hf. }
    pose proof (attempt_settles (answer p) (draw p) job d1 n Hr Hnb) as Ha. unfold wp in Ha.
    destruct (runClaimedJob _ _ _ _ _ _ _) as [[] w']. cbn [snd]. destruct Ha as (f & Htr & Hid & Ht').
    apply (update_progress n b r f); [done..| |].
    + by apply Htr.
    + revert Ht'. cbv zeta. unfold d1. db_simpl. rewrite update_by_id_twice by done. intros [->|(Es & Ht & Ha)]; [by left|right].
      split_and!; [done|apply Ht|done].
  - left. by rewrite ClaimNext_none.
Qed.

(** ** Many polls *)

(** The longest back-off, and a second for the rounding of the times stored. *)
Definition longest : Z := 5 * Minute + 500000000.
Definition drain (ps : list poll) (d : db) : db := foldl (λ d p, poll_db p d) d ps.
(** A worker that polls at least every [gap] nanoseconds from the time [t] on. *)
Fixpoint polling (gap t : Z) (ps : list poll) : Prop :=
  match ps with
  | [] => True
  | p :: ps' => t ≤ at_time p ≤ t + gap ∧ 0 ≤ draw p < jitter defaultBackoff ∧ polling gap (at_time p) ps'
  end.
(** The time of the last poll. *)
Fixpoint last_time (t : Z) (ps : list poll) : Z := match ps with [] => t | p :: ps' => last_time (at_time p) ps' end.
Definition over (id : Z) (d : db) : Prop := ∃ r, get_row id (t_jobs d) = Some r ∧ terminal (jr_status r) = true.
(** The ids of the jobs of [d] are still there in [d']. *)
Definition keeps_jobs (d d' : db) : Prop :=
  ∀ r, In r (t_rows (t_jobs d)) → ∃ r', In r' (t_rows (t_jobs d')) ∧ jr_id r' = jr_id r.

Lemma patient_mono (b b' : Z) (t : table job_row) : b ≤ b' → patient b t → patient b' t.
Proof. intros Hb [Hw Hf]. split; [done|]. eapply Forall_impl; [exact Hf|]. intros x. by apply waiting_mono. Qed.
Lemma timestamp_mono (n m : Z) : n ≤ m → current_timestamp n ≤ current_timestamp m.
Proof. intros H. unfold current_timestamp. by apply Z.div_le_mono. Qed.
Lemma load_nonneg_table (t : table job_row) : 0 ≤ load t.
Proof. apply load_nonneg. Qed.

(** The time by which a queue of [k] units of work is done, when all of it is due at [due]. *)
Definition done_by (gap due k : Z) : Z := if k <=? 0 then due else due + gap + (k - 1) * (longest + gap).

(** One poll of a queue whose rows are all due at [due]: that time, or the work left, moves. *)
Lemma poll_step (gap t due : Z) (p : poll) (d : db) :
  0 < gap → t ≤ due → t ≤ at_time p ≤ t + gap → 0 ≤ draw p < jitter defaultBackoff → patient (current_timestamp due) (t_jobs d) →
  keeps_jobs d (poll_db p d) ∧ ∃ due', at_time p ≤ due' ∧ patient (current_timestamp due') (t_jobs (poll_db p d)) ∧
    (load (t_jobs (poll_db p d)) ≤ 0 ∨
     done_by gap due' (load (t_jobs (poll_db p d))) ≤ done_by gap due (load (t_jobs d)) ∧ load (t_jobs d) ≠ 0).
Proof.
  intros Hg Ht Hn Hd Hp. assert (0 < longest) as Hl0 by done.
  destruct (poll_progress p d (current_timestamp (Z.max due (at_time p + longest))) Hd) as [[Hs E]|[P1 P2 P3]].
  - eapply patient_mono; [|exact Hp]. apply timestamp_mono. lia.
  - apply timestamp_mono. unfold longest. lia.
  - unfold keeps_jobs. rewrite E. split; [intros r Hr; by exists r|]. destruct (Z.le_gt_cases due (at_time p)) as [Hdue|Hdue].
    + exists (at_time p). split; [done|].
      assert (Hp' : patient (current_timestamp (at_time p)) (t_jobs d)) by (eapply patient_mono; [apply timestamp_mono, Hdue|done]).
      split; [done|]. left. by apply (unclaimable_idle _ _ Hp').
    + exists due. split; [lia|]. split; [done|]. pose proof (load_nonneg_table (t_jobs d)). destruct (Z.eq_dec (load (t_jobs d)) 0); [left; lia|right]. lia.
  - split; [done|]. eexists. split; [|split; [exact P1|]]; [lia|].
    pose proof (load_nonneg_table (t_jobs (poll_db p d))). unfold done_by.
    destruct (Z.leb_spec (load (t_jobs (poll_db p d))) 0), (Z.leb_spec (load (t_jobs d)) 0); [by left..|lia|right]. nia.
Qed.
Lemma drain_progress (gap : Z) (ps : list poll) : ∀ (t due : Z) (d : db),
  0 < gap → t ≤ due → polling gap t ps → patient (current_timestamp due) (t_jobs d) →
  load (t_jobs d) ≤ 0 ∨ done_by gap due (load (t_jobs d)) ≤ last_time t ps →
  keeps_jobs d (drain ps d) ∧ load (t_jobs (drain ps d)) ≤ 0 ∧ ∃ due', patient (current_timestamp due') (t_jobs (drain ps d)).
Proof.
  induction ps as [|p ps IH]; intros t due d Hg Ht Hs Hp Hl.
  - cbn in *. split; [intros r Hr; by exists r|]. split; [|by exists due]. unfold done_by in Hl. destruct (Z.leb_spec (load (t_jobs d)) 0); [done|].
    assert (0 ≤ (load (t_jobs d) - 1) * (longest + gap)) by (apply Z.mul_nonneg_nonneg; [lia|unfold longest, Minute, Second; lia]). lia.
  - destruct Hs as (Hn & Hd & Hs). destruct (poll_step gap t due p d Hg Ht Hn Hd Hp) as [Hk (due' & Hdue & Hp' & Hl')].
    destruct (IH (at_time p) due' (poll_db p d)) as (Hk' & H2 & H3); [done..| |].
    + destruct Hl' as [Hl'|[Hl' Hne]]; [by left|right]. cbn in Hl. pose proof (load_nonneg_table (t_jobs d)). destruct Hl as [Hl|Hl]; lia.
    + split; [|by split]. intros r Hr. destruct (Hk r Hr) as (r1 & H1 & E1). destruct (Hk' r1 H1) as (r2 & H4 & E2). exists r2.
      split; [done|congruence].
Qed.

(** C32: no job waits for ever: take a queue without backups and without running jobs, whose
    retries are due at the time [due], and a worker that polls it at least every [gap]
    nanoseconds (the ticker of the worker polls every 2 seconds).  After as many times the longest
    back-off and a gap as its jobs have attempts left (three more for every site to create),
    every job, those queued on the way included, has succeeded, failed or been canceled,
    whatever the agents answer. *)
Theorem queue_drains (gap start due : Z) (ps : list poll) (d : db)
    (Hg : 0 < gap) (Hdue : start ≤ due) (Hp : patient (current_timestamp due) (t_jobs d)) (Hs : polling gap start ps)
    (Hl : due + load (t_jobs d) * (longest + gap) ≤ last_time start ps) :
  Forall (λ r, terminal (jr_status r) = true) (t_rows (t_jobs (drain ps d))) ∧
  ∀ r, In r (t_rows (t_jobs d)) → over (jr_id r) (drain ps d).
Proof.
  destruct (drain_progress gap ps start due d Hg Hdue Hs Hp) as (H1 & H2 & due' & H3).
  { right. etransitivity; [|exact Hl]. unfold done_by. pose proof (load_nonneg_table (t_jobs d)).
    assert (0 < longest) by done. destruct (Z.leb_spec (load (t_jobs d)) 0); nia. }
  assert (Hall : Forall (λ r, terminal (jr_status r) = true) (t_rows (t_jobs (drain ps d)))) by by eapply idle_terminal.
  split; [done|]. intros r Hr. destruct (H1 r Hr) as (r' & Hin & Ei). exists r'. split.
  - apply get_row_spec; [apply H3|]. by split.
  - rewrite List.Forall_forall in Hall. by apply Hall.
Qed.
End Drain.

(** * Witness *)

(** A site to create and a deploy; the agent is down at first and answers later.  The site
    asks for a certificate, and its server is unknown. *)
Definition waiting_db : db :=
  set_tab (Table [worker_job 4 None "site.deploy" 1; worker_job 7 None TypeSiteCreate 0] 9) shop_db.
Definition down (_ _ _ : string) : res (Z * string) := Err "connection refused".
(** The ticker of the worker; the agent answers after three seconds. *)
Fixpoint ticks (k : nat) (t : Z) : list poll :=
  match k with
  | O => []
  | S k' => Poll t (if t <? 3 * Second then down else say 200 (Marshal (JObj [("ok", JBool true)]))) 0 :: ticks k' (t + 2 * Second)
  end.
Lemma ticks_polling (k : nat) : ∀ t u, u ≤ t ≤ u + 2 * Second → polling (2 * Second) u (ticks k t).
Proof.
  induction k as [|k IH]; intros t u H; [done|]. cbn [ticks polling at_time draw]. split; [done|]. split; [done|]. apply IH. unfold Second. lia.
Qed.
(** Three quarters of an hour of polls. *)
Definition many_polls : list poll := ticks 1400 0.

Lemma queue_drains_witness :
  let d' := drain (HC := plain_cipher) local_agent silent (λ _, true) many_polls waiting_db in
  map (λ r, (jr_id r, jr_type r, jr_status r)) (t_rows (t_jobs d')) =
    [(4, "site.deploy", "failed"); (7, "site.create", "succeeded"); (10, "ssl.issue", "failed")] ∧
  Forall (λ r, terminal (jr_status r) = true) (t_rows (t_jobs d')).
Proof.
  split; [vm_compute; reflexivity|].
  apply (queue_drains (HC := plain_cipher) local_agent silent (λ _, true) (2 * Second) 0 0 many_polls waiting_db).
  - done.
  - done.
  - split; [split; [| |done]; cbn; repeat constructor; cbn; lia|].
    apply Forall_cons. split; [split; [done|by right; split]|]. apply Forall_singleton. split; [done|by right; split].
  - by apply ticks_polling.
  - by vm_compute.
Defined.
