(* ===== verification/Scheduler.v ===== *)
(** The scheduler: src/internal/jobs/scheduler.go.  One tick makes the backups that are
    due, applies the retention, fails what is stuck, scrubs the payloads of finished jobs
    and renews certificates.  A call only logged is left out. *)
From S2P Require Import Prelude GoStr Json Secrets Sql JobStore Accounts Sites Backups Servers BackupPlan Records Panel Agent Cron Worker.
Local Open Scope Z_scope.
Local Open Scope panel_scope.

Set Default Proof Using "Type".

(** * Values *)

(** [fmt.Sscanf(s, "%d", &n)] into an [int]: white space, a sign, digits; what follows
    is not read.  [None]: an error, and [n] is untouched. *)
Fixpoint digits_prefix (s : string) : string :=
  match s with
  | String c s' => if is_digit c then String c (digits_prefix s') else EmptyString
  | EmptyString => EmptyString
  end.
Definition Sscanf_d (s : string) : option Z :=
  let t := trim_left s in
  if chr_in (str_take (String.length s - String.length t) s) LF then None
  else
    let '(sign, body) :=
      match t with
      | String c t' => if Ascii.eqb c "-" || Ascii.eqb c "+" then (String c "", t') else ("", t)
      | EmptyString => ("", t)
      end in
    let '(n, ok) := atoi (sign +:+ digits_prefix body) in if ok then Some n else None.

Definition new_job (server site : option Z) (ty payload : string) (max : Z) : Job :=
  mkJob 0 server site ty StatusQueued payload "" "" "" 0 max 0 0 None None None.
(** The jobs of a site are for its server. *)
Definition site_job (site : site_row) (ty payload : string) (max : Z) : Job :=
  new_job (Some (s_server site)) (Some (s_id site)) ty payload max.

Definition s3_config (p : provider_row) : json :=
  JObj (obj_of_list [("bucket", JStr (pv_bucket p)); ("endpoint", JStr (pv_endpoint p)); ("region", JStr (pv_region p));
                     ("access_key", JStr (pv_access_key p)); ("secret_key", JStr (pv_secret_key p))]).
Definition with_s3 (provider : option provider_row) (l : list (string * json)) : list (string * json) :=
  match provider with Some p => l ++ [("s3_config", s3_config p)] | None => l end.

Definition site_members (backup : Z) (site : site_row) : list (string * json) :=
  [("backup_id", JInt backup); ("site_id", JInt (s_id site)); ("domain", JStr (s_domain site));
   ("root_path", JStr (s_root_path site))].
Definition files_payload (backup : Z) (storage : string) (site : site_row) (provider : option provider_row) : string :=
  marshal_map (with_s3 provider (site_members backup site ++ [("storage", JStr storage); ("scheduled", JBool true)])).
Definition db_payload (backup : Z) (site : site_row) (dbase : database_row) (user password : string)
    (provider : option provider_row) : string :=
  marshal_map (with_s3 provider (site_members backup site ++
    [("db_name", JStr (db_name dbase)); ("db_type", JStr (db_type dbase)); ("db_user", JStr user); ("db_password", JStr password)])).
Definition full_payload (backup : Z) (storage : string) (site : site_row) (dbs : list json)
    (provider : option provider_row) : string :=
  marshal_map (with_s3 provider (site_members backup site ++
    [("storage", JStr storage); ("backup_type", JStr "both"); ("databases", JArr dbs); ("scheduled", JBool true)])).
Definition ssl_renew_payload (siteID : Z) (domain : string) : string :=
  String "{" (String DQ "site_id") +:+ String DQ ":" +:+ itoa siteID +:+ "," +:+ String DQ "domain" +:+ String DQ ":" +:+
  go_quote domain +:+ "," +:+ String DQ "auto" +:+ String DQ ":true}".

(** [time.Until(t).Hours() / 24] as an [int]: the duration saturates, and the division
    truncates (the rounding of the float64 could only show on durations of more than 85
    days that are less than a nanosecond short of a whole day). *)
Definition days_until (t now : Z) : Z := Z.quot (Z.max min_int64 (Z.min max_int64 (t - now))) DayNs.

Definition schedConfigDBIDInSlice (val : Z) (slice : list Z) : bool := existsb (Z.eqb val) slice.
(** [len(cfg.DatabaseIDs) > 0 && !schedConfigDBIDInSlice(db.ID, cfg.DatabaseIDs)]. *)
Definition left_out (cfg : BackupConfig) (dbase : database_row) : bool :=
  match DatabaseIDs cfg with [] => false | _ => negb (schedConfigDBIDInSlice (db_id dbase) (DatabaseIDs cfg)) end.

Definition ok_or {A} (a : A) (r : res A) : A := match r with Ok x => x | Err _ => a end.
Definition provider_type (provider : option provider_row) : string :=
  match provider with Some p => pv_type p | None => "local" end.

Section Scheduler.
Context `{HC : PayloadCipher} `{HA : AEAD}.
(** The SQLite driver and the host, as in the stores. *)
Context (like : string → string → bool) (time_le text_before_time time_before_text time_le_text : Z → Z → bool)
        (last_rowid : Z) (os_remove : string → bool).
(** The delivery of an alert; a connection to a database server. *)
Context (deliver : channel_row → string → string → string → error)
        (accessible : db_server_row → string → string → res bool).
(** For the loops of the cron parser. *)
Context (fuel : nat).

Notation "m ;; k" := (mbind m (λ _, k)) (at level 100, k at level 200, right associativity).
Notation done := (mret ()).

Definition warn (subject message : string) : M db () := Send deliver "warning" subject message.

(** * Certificates *)

Definition renewWindow : Z := 30 * 24 * Hour.

Definition renew_one (site : site_row) : M db () :=
  if negb (s_status site =? "active")%string then done
  else
    let* queued := JobStore.List (mkJobListFilter 0 (s_id site) StatusQueued TypeSSLRenew 0 0) in
    let* running := JobStore.List (mkJobListFilter 0 (s_id site) StatusRunning TypeSSLRenew 0 0) in
    match ok_or [] queued, ok_or [] running with
    | [], [] =>
        let* r := JobStore.Create (site_job site TypeSSLRenew (ssl_renew_payload (s_id site) (s_domain site)) 3) in
        match r with
        | Err _ => done
        | Ok id =>
            let* now := time_Now in
            warn "SSL Certificate Expiring"
              ("SSL for " +:+ s_domain site +:+ " expires in " +:+ itoa (days_until (default 0 (s_ssl_expires site)) now) +:+
               " days. Auto-renewal job queued (job #" +:+ itoa id +:+ ").")
        end
    | _, _ => done
    end.
Definition runSSLAutoRenew : M db () :=
  let* r := Sites.ListSSLEpiring time_le renewWindow in
  match r with Err _ => done | Ok sites => mfor sites renew_one end.

(** * Stuck jobs and backups *)

Definition staleDuration : Z := 30 * Minute.
Definition tell_stuck (subject what : string) (r : res Z) : M db () :=
  match r with
  | Ok n => if 0 <? n then warn subject (itoa n +:+ what +:+ " stuck in 'running' for >30min were marked as failed.") else done
  | Err _ => done
  end.
Definition runStuckCleanup : M db () :=
  let* j := JobStore.CleanupStuckRunning text_before_time staleDuration in
  tell_stuck "Stuck Jobs Cleaned" " job(s)" j ;;
  let* b := Backups.CleanupStuckRunning text_before_time staleDuration in
  tell_stuck "Stuck Backups Cleaned" " backup(s)" b.

(** * Backups of a schedule *)

Definition createBackupJob (backup : Z) (storage : string) (site : site_row) (provider : option provider_row) : M db () :=
  JobStore.Create (site_job site TypeBackupCreate (files_payload backup storage site provider) 0) ;; done.

(** The record and the job of the backup of one database. *)
Definition create_db_backup (site : site_row) (siteID : Z) (storageType : string) (provider : option provider_row)
    (expires : option Z) (dbase : database_row) (c : string * string) : M db () :=
  let* b := Backups.Create last_rowid
    (Backups.mkBackup siteID "pending" ("database_" +:+ storageType) None "database" expires) in
  match b with
  | Err _ => done
  | Ok id => JobStore.Create (site_job site TypeDBBackupCreate (db_payload id site dbase c.1 c.2 provider) 0) ;; done
  end.
Definition schedule_db (site : site_row) (siteID : Z) (storageType : string) (provider : option provider_row)
    (dbase : database_row) : M db () :=
  let* c := DatabaseBackupCredentials dbase in
  match c with Err _ => done | Ok c => create_db_backup site siteID storageType provider None dbase c end.

Definition found {A} (m : M db (res (option A))) : M db (option A) := let* r := m in mret (ok_or None r).

Definition schedule_provider (sched : schedule_row) (site : site_row) : M db (option provider_row) :=
  found match sc_provider sched, s_backup_provider site with
        | Some p, _ => BackupProviders.GetByID p
        | None, Some p => BackupProviders.GetByID p
        | None, None => BackupProviders.GetDefault
        end.

Definition processSchedule (sched : schedule_row) : M db (res ()) :=
  let? s := wrap "get site" (Sites.GetByID (sc_site sched)) in
  match s with
  | None => mret (Err ("site " +:+ itoa (sc_site sched) +:+ " not found"))
  | Some site =>
      let* provider := schedule_provider sched site in
      let storageType := provider_type provider in
      let backup := Backups.mkBackup (sc_site sched) "pending" storageType None (sc_type sched) None in
      let? id := wrap "create backup" (Backups.Create last_rowid backup) in
      let create := createBackupJob id (Backups.StorageType (Backups.backup_defaults backup)) site provider in
      let each := schedule_db site (sc_site sched) storageType provider in
      (if (sc_type sched =? "database")%string then
         let* dbs := Databases.ListBySite (sc_site sched) in
         match ok_or [] dbs with [] => create | l => mfor l each end
       else if (sc_type sched =? "both")%string then
         create ;;
         let* dbs := Databases.ListBySite (sc_site sched) in mfor (ok_or [] dbs) each
       else create) ;;
      mret (Ok ())
  end.

(** * Backups of a configuration *)

(** The credentials of a database the configuration covers and the server has. *)
Definition config_credentials (cfg : BackupConfig) (dbase : database_row) : M db (option (string * string)) :=
  if left_out cfg dbase then mret None
  else
    let* exists_ := BackupDatabaseExists accessible dbase in
    match exists_ with
    | Ok true => let* c := DatabaseBackupCredentials dbase in mret match c with Ok c => Some c | Err _ => None end
    | _ => mret None
    end.
Fixpoint config_databases (cfg : BackupConfig) (l : list database_row) : M db (list json) :=
  match l with
  | [] => mret []
  | dbase :: l' =>
      let* c := config_credentials cfg dbase in
      let* rest := config_databases cfg l' in
      mret match c with
           | Some (user, password) =>
               JObj (obj_of_list [("name", JStr (db_name dbase)); ("type", JStr (db_type dbase)); ("user", JStr user);
                                  ("password", JStr password)]) :: rest
           | None => rest
           end
  end.

Definition config_site (cfg : BackupConfig) (provider : option provider_row) (siteID : Z) : M db () :=
  let storageType := provider_type provider in
  let days := if RetentionDays cfg <=? 0 then 30 else RetentionDays cfg in
  if siteID <=? 0 then done
  else
    let* s := Sites.GetByID siteID in
    match s with
    | Ok (Some site) =>
        if negb (s_status site =? "active")%string then done
        else
          let* active := JobStore.HasActiveJob TypeBackupCreate siteID in
          let* dbActive := JobStore.HasActiveJob TypeDBBackupCreate siteID in
          if ok_or false active || ok_or false dbActive then done
          else
            let* now := time_Now in
            let expires := Some (now + wrap64 (wrap64 (days * 24) * Hour)) in
            let backup storage ty := Backups.Create last_rowid (Backups.mkBackup siteID "pending" storage None ty expires) in
            if (ScopeType cfg =? "both")%string then
              let* dbs := Databases.ListBySite siteID in
              let* payloads := config_databases cfg (ok_or [] dbs) in
              let* b := backup ("full_" +:+ storageType) "both" in
              match b with
              | Err _ => done
              | Ok id => JobStore.Create (site_job site TypeBackupCreate (full_payload id storageType site payloads provider) 0) ;; done
              end
            else if (ScopeType cfg =? "files")%string then
              let* b := backup storageType "files" in
              match b with
              | Err _ => done
              | Ok id => createBackupJob id (if (storageType =? "")%string then "local" else storageType) site provider
              end
            else if (ScopeType cfg =? "database")%string then
              let* dbs := Databases.ListBySite siteID in
              mfor (ok_or [] dbs) (λ dbase,
                let* c := config_credentials cfg dbase in
                match c with Some c => create_db_backup site siteID storageType provider expires dbase c | None => done end)
            else done
    | _ => done
    end.

Definition processBackupConfig (cfg : BackupConfig) : M db (res ()) :=
  let* provider := found match ProviderID cfg with
                         | Some p => BackupProviders.GetByID p
                         | None => BackupProviders.GetDefault
                         end in
  let? ids := wrap "resolve backup config sites" (ResolveBackupConfigSiteIDs like cfg) in
  mbind (mfor ids (config_site cfg provider)) (λ _, mret (Ok ())).

(** * Retention *)

(** The LEFT JOINs of [ListExpiredLocal]: the server of a site, if both exist. *)
Definition server_of (d : db) (site : Z) : option Z :=
  match get_row site (t_sites d) with
  | Some s => sv_id <$> get_row (s_server s) (t_servers d)
  | None => None
  end.

Definition delete_payload (e : Backups.ExpiredLocalBackup) : string :=
  marshal_map [("backup_id", JInt (Backups.e_id e)); ("storage_path", JStr (Backups.e_path e))].
Definition enqueueLocalBackupDeletes (keepLast : Z) : M db () :=
  let* r := Backups.ListExpiredLocal time_before_text server_of keepLast in
  mfor (ok_or [] r) (λ e,
    match Backups.e_server e with
    | None => done
    | Some sv => JobStore.Create (new_job (Some sv) (Some (Backups.e_site e)) TypeBackupDelete (delete_payload e) 0) ;; done
    end).

Definition cleanup_expired (keepLast : Z) : M db () :=
  enqueueLocalBackupDeletes keepLast ;; Backups.CleanupExpired time_before_text keepLast ;; done.

Definition unexpiring (cutoff : Z) (r : backup_row) : bool :=
  (b_status r =? "completed")%string && bool_decide (b_expires r = None) && text_before_time (b_created r) cutoff.
(** [cutoff]: the days are counted in UTC. *)
Definition set_expiry (days : Z) : M db () :=
  let* now := time_Now in
  let cutoff := now - days * DayNs in
  update_tab (unexpiring cutoff) (λ _, set_b_expires (Some cutoff)) ;; done.

Definition runCleanup : M db () :=
  let* retention := Settings.GetSetting "retention_days" in
  let* keepLastStr := Settings.GetSetting "keep_last_per_site" in
  let keepLast := Backups.keep_last (default 0 (Sscanf_d (ok_or "" keepLastStr))) in
  match retention with
  | Err _ => cleanup_expired keepLast
  | Ok s =>
      if (s =? "")%string || (s =? "0")%string then cleanup_expired keepLast
      else
        match Sscanf_d s with
        | None => done
        | Some days =>
            if days <=? 0 then done
            else
              set_expiry days ;;
              cleanup_expired keepLast ;;
              Backups.CleanupLocalAfterS3 os_remove ;;
              let* rows := query (λ _ d, select_where Backups.on_s3 (t_backups d)) in
              Backups.clean_each os_remove (ok_or [] rows) 0 ;;
              Backups.CleanupOrphanedPending text_before_time (1 * Hour) ;; done
        end
  end.

(** * One tick *)

(** [None]: the next run of a cron expression is never found, and the tick hangs. *)
Fixpoint tick_each {A} (process : A → M db (res ())) (mark : A → M db (option (res ()))) (l : list A) : M db (option ()) :=
  match l with
  | [] => mret (Some ())
  | x :: l' =>
      let* r := process x in
      match r with
      | Err _ => tick_each process mark l'
      | Ok _ => let* m := mark x in match m with None => mret None | Some _ => tick_each process mark l' end
      end
  end.

Definition runTick : M db (option ()) :=
  let* due := BackupSchedules.ListDue time_le_text in
  let* a := tick_each processSchedule (λ s, BackupSchedules.MarkRun fuel (sc_id s)) (ok_or [] due) in
  match a with
  | None => mret None
  | Some _ =>
      let* configs := BackupConfigs.ListDue in
      let* b := tick_each processBackupConfig (λ c, BackupConfigs.MarkRun fuel (ID c)) (ok_or [] configs) in
      match b with
      | None => mret None
      | Some _ =>
          runCleanup ;; runStuckCleanup ;; JobStore.ScrubTerminalPayloads (1 * Hour) ;; runSSLAutoRenew ;; mret (Some ())
      end
  end.
End Scheduler.

(** * Facts *)

(** ** Operations without faults *)

(** Without faults the operation ends, at the same time, and leaves what [f] shows of the
    tables as it was. *)
Definition quiet {A X} (f : db → X) (m : M db A) : Prop :=
  ∀ d n, ∃ a d', m (World d n []) = (a, World d' n []) ∧ f d' = f d.

Lemma quiet_ret {A X} (f : db → X) (a : A) : quiet f (mret a).
Proof. intros d n. by exists a, d. Qed.
Lemma quiet_now {X} (f : db → X) : quiet f time_Now.
Proof. intros d n. by exists n, d. Qed.
Lemma quiet_bind {A B X} (f : db → X) (m : M db A) (k : A → M db B) :
  quiet f m → (∀ a, quiet f (k a)) → quiet f (mbind m k).
Proof.
  intros Hm Hk d n. destruct (Hm d n) as (a & d1 & E1 & F1). destruct (Hk a d1 n) as (b & d2 & E2 & F2).
  exists b, d2. unfold mbind. rewrite E1. split; [exact E2|congruence].
Qed.
Lemma quiet_wrap {A X} (f : db → X) (p : string) (m : M db (res A)) : quiet f m → quiet f (wrap p m).
Proof. intros H. apply quiet_bind; [done|]. intros a. apply quiet_ret. Qed.
Lemma quiet_stmt {A X} (f : db → X) (g : Z → db → res A * db) : (∀ n d, f (g n d).2 = f d) → quiet f (stmt g).
Proof.
  intros Hg d n. rewrite stmt_ok. specialize (Hg n d). destruct (g n d) as [r d']. by exists r, d'.
Qed.
Lemma quiet_query {A X} (f : db → X) (g : Z → db → A) : quiet f (query g).
Proof. by apply quiet_stmt. Qed.
Lemma quiet_exec {A X} (f : db → X) (g : Z → db → A * db) : (∀ n d, f (g n d).2 = f d) → quiet f (exec g).
Proof. intros Hg. apply quiet_stmt. intros n d. specialize (Hg n d). by destruct (g n d). Qed.
Lemma quiet_update {A X} `{Hh : Has A db} (f : db → X) (p : A → bool) (g : Z → A → A) :
  (∀ t d, f (set_tab (Has := Hh) t d) = f d) → quiet f (update_tab p g).
Proof. intros Hf. apply quiet_exec. intros n d. apply Hf. Qed.
Lemma quiet_insert {A X} `{Hh : Has A db} (f : db → X) (ok : table A → bool) (mk : Z → Z → A) :
  (∀ t d, f (set_tab (Has := Hh) t d) = f d) → quiet f (insert_checked ok mk).
Proof. intros Hf. apply quiet_stmt. intros n d. destruct (ok (tab d)); [apply Hf|done]. Qed.
Lemma quiet_mfor {A X} (f : db → X) (l : list A) (body : A → M db ()) : (∀ x, quiet f (body x)) → quiet f (mfor l body).
Proof. intros Hb. induction l as [|x l IH]; cbn [mfor]; [apply quiet_ret|]. by apply quiet_bind. Qed.

(** An alert writes to the alerts only. *)
Lemma quiet_send {X} (f : db → X) deliver (sev sub msg : string) :
  (∀ t d, f (set_tab (Has := has_alerts) t d) = f d) → quiet f (Send (D := db) deliver sev sub msg).
Proof.
  intros Hf. apply quiet_bind; [apply quiet_wrap, quiet_query|]. intros [chs|e]; [|apply quiet_ret].
  apply quiet_mfor. intros ch. unfold send_one. destruct (negb _); [apply quiet_ret|].
  apply quiet_bind; [by apply quiet_wrap, quiet_insert|]. intros [id|e]; [|apply quiet_ret].
  destruct (NewNotifier _); [|destruct (deliver _ _ _ _)];
    (apply quiet_bind; [by apply quiet_wrap, quiet_update|intros ?; apply quiet_ret]).
Qed.

Create HintDb quiet.
#[export] Hint Resolve quiet_ret quiet_now quiet_query : quiet.

(** One step of the proof that an operation leaves a part of the tables alone. *)
Ltac quiet_step :=
  lazymatch goal with
  | |- ∀ _, _ => intros ?
  | |- quiet _ (mbind _ _) => apply quiet_bind
  | |- quiet _ (wrap _ _) => apply quiet_wrap
  | |- quiet _ (update_tab _ _) => apply quiet_update; [done]
  | |- quiet _ (exec _) => apply quiet_exec; [done]
  | |- quiet _ (mfor _ _) => apply quiet_mfor
  | |- quiet _ (match ?x with _ => _ end) => destruct x
  | |- quiet _ _ => solve [auto with quiet]
  end.
Ltac quiet_auto := repeat quiet_step.

(** ** Certificates *)

(** The renewals of a site that are queued or running. *)
Definition renewals (i : Z) (t : table job_row) : Z := count_where (active_row TypeSSLRenew i) t.

Section Renewals.
Context `{HC : PayloadCipher} (time_le : Z → Z → bool)
        (deliver : channel_row → string → string → string → error).

Definition renew_row (site : site_row) (n : Z) : Z → job_row :=
  new_row (job_defaults (site_job site TypeSSLRenew (ssl_renew_payload (s_id site) (s_domain site)) 3)) n.
Definition renew_step (n : Z) (t : table job_row) (site : site_row) : table job_row :=
  if (s_status site =? "active")%string && (renewals (s_id site) t =? 0) then (insert_row (renew_row site n) t).2 else t.

Lemma list_nil (i : Z) (st : string) (t : table job_row) : 0 < i → st ≠ "" →
  map scanJob (limit_offset 100 0 (select_desc (job_filter (mkJobListFilter 0 i st TypeSSLRenew 0 0)) t)) = [] ↔
  ∀ r, In r (t_rows t) → (jr_type r =? TypeSSLRenew)%string && bool_decide (jr_site r = Some i) && (jr_status r =? st)%string = false.
Proof.
  intros Hi Hst. unfold limit_offset. cbn [Z.to_nat drop].
  set (p := job_filter _). assert (∀ r, p r = (jr_type r =? TypeSSLRenew)%string && bool_decide (jr_site r = Some i) && (jr_status r =? st)%string) as Hp.
  { intros r. unfold p, job_filter. cbn. rewrite (proj2 (Z.ltb_lt _ _) Hi), (proj2 (String.eqb_neq _ _) Hst). cbn.
    by destruct (bool_decide _), (jr_status r =? st)%string, (jr_type r =? TypeSSLRenew)%string. }
  split.
  - intros E r Hr. rewrite <- Hp. destruct (p r) eqn:Epr; [|done]. exfalso.
    assert (In r (select_desc p t)) as Hin by (unfold select_desc; rewrite <- in_rev; by apply select_where_spec).
    destruct (select_desc p t) as [|x l]; [done|]. by cbn in E.
  - intros H. enough (select_where p t = []) as E by (unfold select_desc; by rewrite E).
    destruct (select_where p t) as [|r l] eqn:E; [done|]. assert (In r (select_where p t)) as Hr by (rewrite E; by left).
    apply select_where_spec in Hr as [Hr Hq]. by rewrite Hp, H in Hq.
Qed.

Lemma renewals_zero (i : Z) (t : table job_row) : 0 < i →
  renewals i t = 0 ↔
  map scanJob (limit_offset 100 0 (select_desc (job_filter (mkJobListFilter 0 i StatusQueued TypeSSLRenew 0 0)) t)) = [] ∧
  map scanJob (limit_offset 100 0 (select_desc (job_filter (mkJobListFilter 0 i StatusRunning TypeSSLRenew 0 0)) t)) = [].
Proof.
  intros Hi. rewrite !list_nil by done. unfold renewals.
  pose proof (count_pos t (active_row TypeSSLRenew i)) as Hp. unfold active_row in *.
  assert (0 ≤ count_where (λ r, (jr_type r =? TypeSSLRenew)%string && bool_decide (jr_site r = Some i) &&
    ((jr_status r =? StatusQueued)%string || (jr_status r =? StatusRunning)%string)) t) as Hc by (unfold count_where; lia).
  split.
  - intros E. rewrite E in Hp. split; intros r Hr; apply not_true_iff_false; intros Ht;
      (assert ((0 <? 0) = true) as Hf; [|done]); apply Hp; exists r; (split; [done|]);
      apply andb_prop in Ht as [Hb Hs]; rewrite Hb, Hs; cbn [andb]; by rewrite ?orb_true_r.
  - intros [H1 H2]. destruct (Z.eqb_spec (count_where (active_row TypeSSLRenew i) t) 0) as [E|E]; [exact E|]. exfalso.
    assert (0 <? count_where (active_row TypeSSLRenew i) t = true) as Hq by (apply Z.ltb_lt; unfold active_row in *; lia).
    apply Hp in Hq as (r & Hr & Hb). specialize (H1 r Hr). specialize (H2 r Hr).
    apply andb_prop in Hb as [Hb Hs]. rewrite Hb in H1, H2. cbn [andb] in *. by rewrite H1, H2 in Hs.
Qed.

Lemma renew_one_step (site : site_row) (d : db) (n : Z) : 0 < s_id site →
  ∃ d', renew_one deliver site (World d n []) = ((), World d' n []) ∧ t_jobs d' = renew_step n (t_jobs d) site.
Proof.
  intros Hi. unfold renew_one, renew_step. destruct (s_status site =? "active")%string; cbn [negb andb]; [|by exists d].
  pose proof (renewals_zero (s_id site) (t_jobs d) Hi) as Hz.
  assert (∀ st, JobStore.List (mkJobListFilter 0 (s_id site) st TypeSSLRenew 0 0) (World d n []) =
    (Ok (map scanJob (limit_offset 100 0 (select_desc (job_filter (mkJobListFilter 0 (s_id site) st TypeSSLRenew 0 0)) (t_jobs d)))),
     World d n [])) as HL by reflexivity.
  unfold mbind at 1. rewrite HL. cbv beta iota. unfold mbind at 1. rewrite HL. cbv beta iota. cbn [ok_or].
  destruct (Z.eqb_spec (renewals (s_id site) (t_jobs d)) 0) as [E|E].
  - apply Hz in E as [-> ->]. unfold mbind at 1.
    assert (∀ j, JobStore.Create j (World d n []) =
      (Ok (t_seq (t_jobs d) + 1), World (set_tab (insert_row (new_row (job_defaults j) n) (t_jobs d)).2 d) n [])) as -> by reflexivity.
    cbv beta iota. unfold mbind at 1, time_Now. cbn [clock].
    destruct (quiet_send t_jobs deliver "warning" "SSL Certificate Expiring"
      ("SSL for " +:+ s_domain site +:+ " expires in " +:+ itoa (days_until (default 0 (s_ssl_expires site)) n) +:+
       " days. Auto-renewal job queued (job #" +:+ itoa (t_seq (t_jobs d) + 1) +:+ ").") ltac:(done)
      (set_tab (insert_row (renew_row site n) (t_jobs d)).2 d) n) as (a & d' & E1 & E2).
    exists d'. destruct a. split; [exact E1|exact E2].
  - repeat match goal with |- context [match map scanJob ?x with _ => _ end] => destruct (map scanJob x) eqn:? end;
      try (by exists d). exfalso. by apply E, Hz.
Qed.

Lemma count_insert {A} (p : A → bool) (mk : Z → A) (t : table A) :
  count_where p (insert_row mk t).2 = count_where p t + Z.b2z (p (mk (t_seq t + 1))).
Proof.
  unfold count_where, select_where. cbn. rewrite List.filter_app, length_app. cbn. destruct (p _); cbn; lia.
Qed.

Lemma renewals_step (n i : Z) (t : table job_row) (site : site_row) :
  renewals i (renew_step n t site) =
    if by_id i site && (s_status site =? "active")%string && (renewals i t =? 0) then 1 else renewals i t.
Proof.
  unfold renew_step, by_id. change (row_id site) with (s_id site).
  destruct (s_status site =? "active")%string; cbn [andb]; [|by rewrite andb_false_r].
  rewrite andb_true_r. destruct (Z.eqb_spec (s_id site) i) as [<-|Hn]; cbn [andb].
  - destruct (Z.eqb_spec (renewals (s_id site) t) 0) as [E|E]; [|done].
    unfold renewals in *. rewrite count_insert, E. unfold active_row. cbn. by rewrite bool_decide_eq_true_2.
  - destruct (renewals (s_id site) t =? 0); [|done]. unfold renewals. rewrite count_insert. unfold active_row. cbn.
    rewrite bool_decide_eq_false_2 by congruence. cbn. lia.
Qed.

Lemma renew_all (l : list site_row) (d : db) (n : Z) : Forall (λ s, 0 < s_id s) l →
  ∃ d', mfor l (renew_one deliver) (World d n []) = ((), World d' n []) ∧
    ∀ i, renewals i (t_jobs d') =
      if existsb (λ s, by_id i s && (s_status s =? "active")%string) l && (renewals i (t_jobs d) =? 0)
      then 1 else renewals i (t_jobs d).
Proof.
  intros Hl. revert d. induction Hl as [|s l Hs Hl IH]; intros d; cbn [mfor existsb]; [by exists d|].
  destruct (renew_one_step s d n Hs) as (d1 & E1 & J1). destruct (IH d1) as (d2 & E2 & J2).
  exists d2. unfold mbind. rewrite E1. split; [exact E2|]. intros i. rewrite J2, J1, renewals_step.
  destruct (by_id i s && _), (existsb _ l), (renewals i (t_jobs d) =? 0) eqn:E; cbn; rewrite ?E; try done.
Qed.

(** the renewal of certificates, when no statement fails: every active site whose
    certificate runs out within thirty days has a renewal that is queued or running
    afterwards, exactly one if it had none; a site that already had one, and every other
    site, gets none, so that a tick every minute does not pile them up. *)
Theorem runSSLAutoRenew_once (d : db) (n : Z) (Hw : table_wf (t_sites d)) :
  ∃ d', runSSLAutoRenew time_le deliver (World d n []) = ((), World d' n []) ∧
    ∀ i, renewals i (t_jobs d') =
      if existsb (λ s, by_id i s && (s_status s =? "active")%string && expiring time_le (n + renewWindow) s) (t_rows (t_sites d))
         && (renewals i (t_jobs d) =? 0)
      then 1 else renewals i (t_jobs d).
Proof.
  set (sel := select_where (expiring time_le (n + renewWindow)) (t_sites d)).
  set (l := order_by (λ a b, time_le (default 0 (s_ssl_expires a)) (default 0 (s_ssl_expires b))) sel).
  assert (∀ s, In s l ↔ In s (t_rows (t_sites d)) ∧ expiring time_le (n + renewWindow) s = true) as Hin.
  { intros s. unfold l. rewrite in_order_by. apply select_where_spec. }
  destruct (renew_all l d n) as (d' & E & H).
  { apply List.Forall_forall. intros s [Hs _]%Hin. pose proof (wf_range _ Hw) as Hr.
    rewrite List.Forall_forall in Hr. specialize (Hr s Hs). change (row_id s) with (s_id s) in Hr. lia. }
  exists d'. split; [exact E|]. intros i. rewrite H.
  enough (existsb (λ s, by_id i s && (s_status s =? "active")%string) l =
    existsb (λ s, by_id i s && (s_status s =? "active")%string && expiring time_le (n + renewWindow) s) (t_rows (t_sites d))) as -> by done.
  apply eq_true_iff_eq. rewrite !existsb_exists. split.
  - intros (s & [Hs He]%Hin & Hb). exists s. by rewrite Hb, He.
  - intros (s & Hs & Hb). apply andb_prop in Hb as [Hb He]. exists s. rewrite Hin. done.
Qed.
End Renewals.

(** ** Payloads *)

Lemma marshal_map_reads (l : list (string * json)) :
  forallb (λ p, ascii_str p.1 && json_ok p.2 && canonical p.2) l = true →
  json_ok (JObj (obj_of_list l)) = true ∧ canonical (JObj (obj_of_list l)) = true.
Proof.
  rewrite forallb_forall. intros H. cbn [json_ok canonical]. split.
  - apply forallb_forall. intros p Hp%obj_of_list_in. specialize (H p Hp). by apply andb_prop in H as [H _].
  - apply andb_true_iff. split; [apply keys_sorted_spec, obj_of_list_sorted|].
    apply forallb_forall. intros p Hp%obj_of_list_in. specialize (H p Hp). by apply andb_prop in H as [_ H].
Qed.

(** The encryption of a payload does not touch its numbers. *)
Lemma walk_int_field fn (name : string) (v v' : json) (i j : nat) :
  walk fn v false i = Ok (v', j) → int_field name v' = int_field name v.
Proof.
  destruct v as [|b|t|x|l|l]; [cbn; intros; by simplify_eq..| |].
  - intros (l' & -> & _)%walk_arr. done.
  - intros (l' & -> & HF)%walk_obj. cbn [int_field]. generalize (Some 0). 
    induction HF as [|[k x] [k' x'] l l' (E & a & b & Hx) HF IH]; intros acc; [done|]. cbn [fold_left fst snd] in *. subst k'.
    enough (decode_int acc x' = decode_int acc x) as -> by apply IH.
    destruct x as [|c|t|s|m|m]; [cbn in Hx; by simplify_eq..| | |].
    + cbn [walk] in Hx. destruct (SensitiveKeys k); [destruct (fn a s)|]; simplify_eq; by destruct acc.
    + apply walk_arr in Hx as (? & -> & _). by destruct acc.
    + apply walk_obj in Hx as (? & -> & _). by destruct acc.
Qed.

Section Payloads.
Context `{HA : AEAD} (rand : random).

(** A number of a payload survives the storage of its job, encrypted or not. *)
Lemma stored_int (name : string) (l : list (string * json)) :
  forallb (λ p, ascii_str p.1 && json_ok p.2 && canonical p.2) l = true →
  unmarshal_int name (stored_payload (HC := payload_cipher rand) (marshal_map l)) = int_field name (JObj (obj_of_list l)).
Proof.
  intros H. destruct (marshal_map_reads l H) as [Hok Hc]. unfold marshal_map.
  set (v := JObj (obj_of_list l)) in *. unfold stored_payload.
  change (JobStore.EncryptPayload (PayloadCipher := payload_cipher rand) (Marshal v)) with (Secrets.EncryptPayload rand (Marshal v)).
  assert (Unmarshal (Marshal v) = Some v) as Hu by (by apply Marshal_roundtrip).
  destruct (walk (encryptStr rand) v false 0) as [[v' j]|e] eqn:Ew.
  - destruct (transform_reads (encryptStr rand) (Marshal v) v v' j (encryptStr_ascii rand) Hu Hok Ew) as [E _].
    unfold Secrets.EncryptPayload. rewrite E.
    destruct (walk_keeps _ _ (encryptStr_ascii rand) _ _ _ _ Ew) as [Hk _].
    rewrite unmarshal_int_marshal by (by apply Hk). by eapply walk_int_field.
  - assert (Secrets.EncryptPayload rand (Marshal v) = Err e) as ->; [|by apply unmarshal_int_marshal].
    unfold Secrets.EncryptPayload, transformPayload. destruct (String.eqb_spec (Marshal v) "") as [E|_]; [by rewrite E in Hu|].
    by rewrite Hu, Ew.
Qed.

Definition ascii_site (s : site_row) : bool := ascii_str (s_domain s) && ascii_str (s_root_path s).
Definition ascii_provider (o : option provider_row) : bool :=
  match o with
  | Some p => ascii_str (pv_bucket p) && ascii_str (pv_endpoint p) && ascii_str (pv_region p) &&
              ascii_str (pv_access_key p) && ascii_str (pv_secret_key p)
  | None => true
  end.

(** what the scheduler asks for is what the worker carries out: a payload built for the
    backup [b] of a site, with ids a [float64] holds exactly (2^53 at most), stored by the queue with its credentials encrypted, still names [b] to the
    worker, which reads it without decrypting it.  This holds of the backups of files, of
    one database and of a whole site, with a provider or none, for ASCII names. *)
Theorem stored_payload_names_backup (b : Z) (storage : string) (site : site_row) (dbase : database_row)
    (user password : string) (dbs : list json) (provider : option provider_row)
    (Hb : 0 < b ≤ 2 ^ 53) (Hi : Z.abs (s_id site) ≤ 2 ^ 53) (Hs : ascii_site site = true) (Hp : ascii_provider provider = true)
    (Hst : ascii_str storage = true)
    (Hd : ascii_str (db_name dbase) && ascii_str (db_type dbase) && ascii_str user && ascii_str password = true)
    (Hl : forallb (λ x, json_ok x && canonical x) dbs = true) :
  let stored := stored_payload (HC := payload_cipher rand) in
  payload_backup (stored (files_payload b storage site provider)) = Some b ∧
  payload_backup (stored (db_payload b site dbase user password provider)) = Some b ∧
  payload_backup (stored (full_payload b storage site dbs provider)) = Some b.
Proof.
  assert (∀ l, forallb (λ p, ascii_str p.1 && json_ok p.2 && canonical p.2) l = true →
    int_field "backup_id" (JObj (obj_of_list l)) = Some b →
    payload_backup (stored_payload (HC := payload_cipher rand) (marshal_map l)) = Some b) as H.
  { intros l H1 H2. unfold payload_backup. rewrite stored_int, H2 by done. by rewrite (proj2 (Z.ltb_lt _ _)) by lia. }
  unfold ascii_site in Hs. apply andb_prop in Hs as [Hs1 Hs2]. rewrite !andb_true_iff in Hd. destruct Hd as [[[Hd1 Hd2] Hd3] Hd4].
  assert (forallb json_ok dbs && forallb canonical dbs = true) as [Hl1 Hl2]%andb_prop.
  { rewrite forallb_forall in Hl. rewrite andb_true_iff, !forallb_forall.
    split; intros x Hx; specialize (Hl x Hx); apply andb_prop in Hl; tauto. }
  destruct (JInt_exact b) as (Jb & Cb & Hib); [lia|]. destruct (JInt_exact _ Hi) as (Ji & Ci & _).
  unfold files_payload, db_payload, full_payload.
  assert (∀ l, forallb (λ p, ascii_str p.1 && json_ok p.2 && canonical p.2) l = true →
    forallb (λ p, ascii_str p.1 && json_ok p.2 && canonical p.2) (with_s3 provider l) = true) as Hw.
  { intros l Hl0. unfold with_s3. destruct provider as [p|]; [|done]. rewrite forallb_app, Hl0. cbn -[ascii_str] in Hp.
    rewrite !andb_true_iff in Hp. destruct Hp as [[[[H1 H2] H3] H4] H5].
    destruct (marshal_map_reads [("bucket", JStr (pv_bucket p)); ("endpoint", JStr (pv_endpoint p)); ("region", JStr (pv_region p));
                     ("access_key", JStr (pv_access_key p)); ("secret_key", JStr (pv_secret_key p))]) as [E1 E2].
    { cbn -[ascii_str]. by rewrite H1, H2, H3, H4, H5. }
    unfold s3_config. cbn [forallb fst snd]. by rewrite E1, E2. }
  split; [|split]; (apply H; [apply Hw|]).
  all: try (cbn -[JInt ascii_str json_ok canonical]; cbn [json_ok canonical]; rewrite Jb, Ji, Cb, Ci, Hs1, Hs2, ?Hst, ?Hd1, ?Hd2, ?Hd3, ?Hd4, ?Hl1, ?Hl2; reflexivity).
  all: destruct provider; cbv -[atoi itoa s_id]; rewrite atoi_itoa by done; reflexivity.
Qed.
End Payloads.

(** ** Scheduled backups *)

Section Schedules.
Context `{HC : PayloadCipher} `{HA : AEAD} (last_rowid : Z).

Lemma bind_step {A B} (m : M db A) (k : A → M db B) w a w' : m w = (a, w') → mbind m k w = k a w'.
Proof. unfold mbind. by intros ->. Qed.

Lemma wrap_step {A} (p : string) (m : M db (res A)) w r w' :
  m w = (r, w') → wrap p m w = (match r with Ok a => Ok a | Err e => Err (p +:+ ": " +:+ e) end, w').
Proof. intros E. unfold wrap. by rewrite (bind_step _ _ _ _ _ E). Qed.

Lemma get_site_ok (i : Z) (d : db) (n : Z) :
  wrap "get site" (Sites.GetByID i) (World d n []) = (Ok (get_row i (t_sites d)), World d n []).
Proof. reflexivity. Qed.

(** The provider a schedule uploads to. *)
Definition provider_for (sched : schedule_row) (site : site_row) (d : db) : option provider_row :=
  (schedule_provider sched site (World d 0 [])).1.

Lemma schedule_provider_eq (sched : schedule_row) (site : site_row) (d : db) (n : Z) :
  schedule_provider sched site (World d n []) = (provider_for sched site d, World d n []).
Proof. unfold provider_for, schedule_provider, found. by destruct (sc_provider sched), (s_backup_provider site). Qed.

Lemma create_backup_ok (b : Backups.BackupInput) (d : db) (n : Z) :
  let b' := Backups.backup_defaults b in
  Backups.may_insert b' (t_backups d) = true → table_wf (t_backups d) →
  Backups.Create last_rowid b (World d n []) =
    (Ok (t_seq (t_backups d) + 1),
     World (set_tab (insert_row (Backups.new_backup b' n) (t_backups d)).2 d) n []).
Proof.
  intros b' Hm Hw. unfold Backups.Create, wrap, exec, on_tab, mbind, mret. rewrite stmt_ok. cbv beta iota zeta.
  fold b'. change (tab (Has := has_backups) d) with (t_backups d). rewrite Hm. cbn.
  pose proof (wf_seq _ Hw). by rewrite (proj2 (Z.eqb_neq _ _)) by lia.
Qed.

Lemma create_backup_refused (b : Backups.BackupInput) (d : db) (n : Z) :
  Backups.may_insert (Backups.backup_defaults b) (t_backups d) = false →
  Backups.Create last_rowid b (World d n []) =
    (if last_rowid =? 0 then Err Backups.ErrDuplicateBackup else Ok last_rowid, World d n []).
Proof.
  intros Hm. unfold Backups.Create, wrap, exec, on_tab, mbind, mret. rewrite stmt_ok. cbv beta iota zeta.
  change (tab (Has := has_backups) d) with (t_backups d). by rewrite Hm.
Qed.

Lemma create_job_ok (j : Job) (d : db) (n : Z) :
  JobStore.Create j (World d n []) =
    (Ok (t_seq (t_jobs d) + 1), World (set_tab (insert_row (new_row (job_defaults j) n) (t_jobs d)).2 d) n []).
Proof. reflexivity. Qed.

(** The record of a schedule's backup. *)
Definition scheduled_backup (sched : schedule_row) (storageType : string) : Backups.BackupInput :=
  Backups.backup_defaults (Backups.mkBackup (sc_site sched) "pending" storageType None (sc_type sched) None).

(** a schedule for files, when no statement fails: unless a backup of the site and the
    type is in progress, it adds one pending backup record and one queued job, whose
    payload names the record, the site and the provider's storage; it changes nothing
    else.  When one is in progress, and the driver reports id 0 for the INSERT that
    inserted nothing, it fails as a duplicate and changes nothing. *)
Theorem processSchedule_files (sched : schedule_row) (site : site_row) (d : db) (n : Z)
    (Hw : table_wf (t_backups d)) (Hs : get_row (sc_site sched) (t_sites d) = Some site)
    (Hty : str_in ["database"; "both"] (sc_type sched) = false) (Hl : last_rowid = 0) :
  let provider := provider_for sched site d in
  let b := scheduled_backup sched (provider_type provider) in
  let id := t_seq (t_backups d) + 1 in
  processSchedule last_rowid sched (World d n []) =
    if has_row (Backups.active_backup (sc_site sched) (Backups.BackupType b)) (t_backups d)
    then (Err ("create backup: " +:+ Backups.ErrDuplicateBackup), World d n [])
    else (Ok (), World (set_tab (insert_row (new_row (job_defaults
             (site_job site TypeBackupCreate (files_payload id (Backups.StorageType b) site provider) 0)) n) (t_jobs d)).2
           (set_tab (insert_row (Backups.new_backup b n) (t_backups d)).2 d)) n []).
Proof.
  intros provider b id. cbn in Hty. bool_hyps.
  unfold processSchedule.
  rewrite (bind_step _ _ _ _ _ (get_site_ok (sc_site sched) d n)), Hs. cbv beta iota.
  rewrite (bind_step _ _ _ _ _ (schedule_provider_eq sched site d n)). fold provider. cbv zeta.
  fold (scheduled_backup sched (provider_type provider)). fold b.
  destruct (has_row _ (t_backups d)) eqn:E.
  - erewrite bind_step; [|apply wrap_step, create_backup_refused; unfold Backups.may_insert; cbn in E |- *; by rewrite E].
    by rewrite Hl.
  - erewrite bind_step; [|apply wrap_step, create_backup_ok; [unfold Backups.may_insert; cbn in E |- *; by rewrite E|done]].
    cbv beta iota.
    rewrite (proj2 (String.eqb_neq (sc_type sched) "database")), (proj2 (String.eqb_neq (sc_type sched) "both")) by done.
    reflexivity.
Qed.

Lemma quiet_credentials {X} (f : db → X) (dbase : database_row) : quiet f (DatabaseBackupCredentials dbase).
Proof.
  unfold DatabaseBackupCredentials, DBServer.GetBackupCredentials, DBUsers.ListByDatabase. quiet_auto.
Qed.

(** A database of a site whose database backup is in progress gets no record of its own. *)
Lemma schedule_db_refused (site : site_row) (siteID : Z) (storageType : string) (provider : option provider_row)
    (dbase : database_row) (d : db) (n : Z) :
  has_row (Backups.active_backup siteID "database") (t_backups d) = true →
  ∃ d', schedule_db last_rowid site siteID storageType provider dbase (World d n []) = ((), World d' n []) ∧
    t_backups d' = t_backups d ∧ (last_rowid = 0 → t_jobs d' = t_jobs d).
Proof.
  intros Ha. unfold schedule_db.
  destruct (quiet_credentials (λ d, (t_backups d, t_jobs d)) dbase d n) as (c & d1 & Ec & F1). injection F1 as Fb Fj.
  rewrite (bind_step _ _ _ _ _ Ec). destruct c as [c|e]; [|by exists d1]. unfold create_db_backup.
  erewrite bind_step.
  2: { apply create_backup_refused. unfold Backups.may_insert. cbn. rewrite Fb. by rewrite Ha. }
  destruct (Z.eqb_spec last_rowid 0) as [->|Hn]; [by exists d1|].
  cbn. eexists. split; [reflexivity|]. by split.
Qed.

Lemma schedule_dbs_refused (site : site_row) (siteID : Z) (storageType : string) (provider : option provider_row)
    (l : list database_row) (d : db) (n : Z) :
  has_row (Backups.active_backup siteID "database") (t_backups d) = true →
  ∃ d', mfor l (schedule_db last_rowid site siteID storageType provider) (World d n []) = ((), World d' n []) ∧
    t_backups d' = t_backups d ∧ (last_rowid = 0 → t_jobs d' = t_jobs d).
Proof.
  revert d. induction l as [|x l IH]; intros d Ha; cbn [mfor]; [by exists d|].
  destruct (schedule_db_refused site siteID storageType provider x d n Ha) as (d1 & E1 & B1 & J1).
  destruct (IH d1) as (d2 & E2 & B2 & J2); [by rewrite B1|].
  exists d2. rewrite (bind_step _ _ _ _ _ E1). split; [exact E2|]. split; [congruence|].
  intros Hz. rewrite J2, J1; done.
Qed.

(** a schedule for databases, when no statement fails: the record it makes first for the
    schedule is itself a database backup in progress, so that of the databases of the site
    none gets a record of its own, however many there are; and when the driver reports
    id 0 for an INSERT that inserted nothing, no job is created: the one record stays
    pending until the cleanup of orphans, and nothing is backed up. *)
Theorem processSchedule_databases (sched : schedule_row) (site : site_row) (d : db) (n : Z)
    (Hw : table_wf (t_backups d)) (Hs : get_row (sc_site sched) (t_sites d) = Some site)
    (Hty : sc_type sched = "database")
    (Hd : select_where (λ r, db_site r =? sc_site sched) (t_databases d) ≠ [])
    (Hf : has_row (Backups.active_backup (sc_site sched) "database") (t_backups d) = false) :
  let b := scheduled_backup sched (provider_type (provider_for sched site d)) in
  ∃ d', processSchedule last_rowid sched (World d n []) = (Ok (), World d' n []) ∧
    t_backups d' = (insert_row (Backups.new_backup b n) (t_backups d)).2 ∧
    (last_rowid = 0 → t_jobs d' = t_jobs d).
Proof.
  intros b. set (d1 := set_tab (insert_row (Backups.new_backup b n) (t_backups d)).2 d).
  destruct (schedule_dbs_refused site (sc_site sched) (provider_type (provider_for sched site d)) (provider_for sched site d)
    (select_where (λ r, db_site r =? sc_site sched) (t_databases d)) d1 n) as (d' & E & B & J).
  { unfold d1, has_row. db_simpl. cbn [insert_row snd t_rows]. rewrite existsb_app. apply orb_true_iff. right.
    cbn. unfold Backups.active_backup. cbn. rewrite Hty. cbn. by rewrite Z.eqb_refl, bool_decide_eq_true_2. }
  exists d'. split; [|split; [exact B|exact J]]. unfold processSchedule.
  rewrite (bind_step _ _ _ _ _ (get_site_ok (sc_site sched) d n)), Hs. cbv beta iota.
  rewrite (bind_step _ _ _ _ _ (schedule_provider_eq sched site d n)). cbv zeta.
  fold (scheduled_backup sched (provider_type (provider_for sched site d))). fold b.
  erewrite bind_step; [|apply wrap_step, create_backup_ok; [|done]].
  2: { unfold Backups.may_insert. cbn. rewrite Hty. cbn. by rewrite Hf. }
  cbv beta iota. rewrite (proj2 (String.eqb_eq (sc_type sched) "database") Hty).
  assert (Databases.ListBySite (sc_site sched) (World d1 n []) =
    (Ok (select_where (λ r, db_site r =? sc_site sched) (t_databases d)), World d1 n [])) as EL by reflexivity.
  fold d1. erewrite bind_step; [reflexivity|]. rewrite (bind_step _ _ _ _ _ EL). cbn [ok_or].
  destruct (select_where _ (t_databases d)) as [|x l] eqn:El; [done|]. exact E.
Qed.
End Schedules.

(** ** Retention *)

Lemma insert_by_map {A} (le : A → A → bool) (f : A → A) (x : A) (l : list A) :
  (∀ a b, le (f a) (f b) = le a b) → insert_by le (f x) (map f l) = map f (insert_by le x l).
Proof. intros Hf. induction l as [|y l IH]; cbn; [done|]. rewrite Hf. destruct (le y x); cbn; [|done]. by rewrite IH. Qed.
Lemma order_by_map {A} (le : A → A → bool) (f : A → A) (l : list A) :
  (∀ a b, le (f a) (f b) = le a b) → order_by le (map f l) = map f (order_by le l).
Proof.
  intros Hf. unfold order_by. change (@nil A) with (map f []) at 1. generalize (@nil A).
  induction l as [|x l IH]; intros acc; cbn; [done|]. by rewrite insert_by_map.
Qed.

(** An update of columns that do not rank the backups. *)
Definition same_rank (g : backup_row → backup_row) : Prop :=
  ∀ r, b_id (g r) = b_id r ∧ b_site (g r) = b_site r ∧ b_status (g r) = b_status r ∧
       b_completed (g r) = b_completed r ∧ b_created (g r) = b_created r.

Lemma ranked_update (site : Z) (p : backup_row → bool) (g : backup_row → backup_row) (t : table backup_row) :
  same_rank g → map b_id (Backups.ranked site (update_where p g t)) = map b_id (Backups.ranked site t).
Proof.
  intros Hg. set (h := λ r, if p r then g r else r).
  assert (same_rank h) as Hh by (intros r; unfold h; destruct (p r); [apply Hg|done]).
  assert (Backups.ranked site (update_where p g t) = map h (Backups.ranked site t)) as ->.
  { unfold Backups.ranked. rewrite <- order_by_map.
    - f_equal. unfold select_where, update_where. cbn. fold h. induction (t_rows t) as [|r l IH]; cbn; [done|].
      destruct (Hh r) as (_ & -> & -> & _). destruct (_ && _); cbn; [by f_equal|done].
    - intros a b. unfold Backups.newer. destruct (Hh a) as (-> & _ & _ & -> & ->). by destruct (Hh b) as (-> & _ & _ & -> & ->). }
  rewrite map_map. apply map_ext. intros r. apply Hh.
Qed.

Section Retention.
Context `{HC : PayloadCipher} (text_before_time time_before_text : Z → Z → bool) (os_remove : string → bool).
Context (site k : Z) (ids : list Z).

(** The backups of the site are the ones that were there, ranked as they were. *)
Definition rank_kept (t : table backup_row) : Prop := table_wf t ∧ map b_id (Backups.ranked site t) = ids.
(** The latest [k] of them are there. *)
Definition latest_kept (t : table backup_row) : Prop :=
  table_wf t ∧ ∀ i, In i (take (Z.to_nat k) ids) → ∃ r, get_row i t = Some r ∧ b_status r = "completed".

(** [m] preserves what [I] says of the backups, whatever fails. *)
Definition stable {A} (I : table backup_row → Prop) (m : M db A) : Prop :=
  ∀ w, I (t_backups (data w)) → wp m (λ _ w', I (t_backups (data w'))) w.

Lemma stable_ret {A} I (a : A) : stable I (mret a).
Proof. by intros w H. Qed.
Lemma stable_now I : stable I time_Now.
Proof. by intros w H. Qed.
Lemma stable_bind {A B} I (m : M db A) (f : A → M db B) : stable I m → (∀ a, stable I (f a)) → stable I (mbind m f).
Proof. intros Hm Hf w H. apply wp_bind. eapply wp_mono; [|exact (Hm w H)]. intros a w' H'. by apply Hf. Qed.
Lemma stable_wrap {A} I (p : string) (m : M db (res A)) : stable I m → stable I (wrap p m).
Proof. intros H. apply stable_bind; [done|]. intros a. apply stable_ret. Qed.
Lemma stable_query {A} I (f : Z → db → A) : stable I (query f).
Proof. intros w H. apply wp_query; intros; exact H. Qed.
Lemma stable_exec {A} I (f : Z → db → A * db) :
  (∀ n d, I (t_backups d) → I (t_backups (f n d).2)) → stable I (exec f).
Proof. intros Hf w H. apply wp_exec; intros; [exact H|]. by apply Hf. Qed.
Lemma stable_mfor {A} I (l : list A) (body : A → M db ()) : (∀ x, stable I (body x)) → stable I (mfor l body).
Proof. intros Hb. induction l as [|x l IH]; cbn [mfor]; [apply stable_ret|]. by apply stable_bind. Qed.
Lemma stable_create I (j : Job) : stable I (JobStore.Create j).
Proof. apply stable_wrap, stable_exec. by intros n d. Qed.

Lemma stable_set_expiry (days : Z) : stable rank_kept (set_expiry text_before_time days).
Proof using Type*.
  apply stable_bind; [apply stable_now|]. intros now. apply stable_bind; [|intros ?; apply stable_ret].
  apply stable_exec. intros n d [Hw Hi]. cbn [snd]. db_simpl. split; [by apply update_wf|]. by rewrite ranked_update.
Qed.

Lemma stable_enqueue I (keepLast : Z) : stable I (enqueueLocalBackupDeletes time_before_text keepLast).
Proof using Type*.
  apply stable_bind; [apply stable_wrap, stable_query|]. intros r. apply stable_mfor. intros e.
  destruct (Backups.e_server e); [|apply stable_ret].
  apply stable_bind; [apply stable_create|intros ?; apply stable_ret].
Qed.

Lemma rank_latest (t : table backup_row) : rank_kept t → latest_kept t.
Proof.
  intros [Hw Hi]. split; [done|]. intros i Hin. rewrite <- Hi in Hin.
  rewrite <- (drop_0 (map b_id _)) in Hin. apply in_take_drop, in_map_iff in Hin as (r & <- & Hr).
  unfold Backups.ranked in Hr. apply in_order_by, select_where_spec in Hr as [Hr Hb]. bool_hyps.
  exists r. split; [|done]. by apply get_row_spec.
Qed.

Lemma cleanup_latest (keepLast : Z) (w : world db) : k ≤ Backups.keep_last keepLast → rank_kept (t_backups (data w)) →
  wp (Backups.CleanupExpired time_before_text keepLast) (λ _ w', latest_kept (t_backups (data w'))) w.
Proof using Type*.
  intros Hk H. unfold Backups.CleanupExpired. wp_run; [by apply rank_latest|]. db_simpl.
  set (t := t_backups (data w)) in *. pose proof (rank_latest t H) as [Hw Hl]. split; [by apply delete_wf|].
  intros i Hi. destruct (Hl i Hi) as (r & Hr & Hs). exists r. split; [|done].
  rewrite get_delete, Hr by done.
  enough (Backups.retained (Backups.keep_last keepLast) t r = true) as -> by by rewrite andb_false_r.
  destruct H as [_ E]. rewrite <- E, firstn_map in Hi. apply in_map_iff in Hi as (x & <- & Hx).
  assert (In x (take (Z.to_nat (Backups.keep_last keepLast)) (Backups.ranked site t))) as Hx'.
  { replace (take (Z.to_nat k) _) with (take (Z.to_nat k) (take (Z.to_nat (Backups.keep_last keepLast)) (Backups.ranked site t))) in Hx
      by (rewrite take_take; f_equal; lia).
    rewrite <- (drop_0 (take (Z.to_nat (Backups.keep_last keepLast)) _)) in Hx. by apply in_take_drop in Hx. }
  assert (x = r) as <-.
  { rewrite <- (drop_0 (Backups.ranked site t)) in Hx'. apply in_take_drop in Hx'.
    unfold Backups.ranked in Hx'. apply in_order_by, select_where_spec in Hx' as [Hx' _].
    apply get_row_spec in Hr as [Hr Hrx]; [|done]. by apply (wf_unique t). }
  assert (b_site x = site) as Hst.
  { rewrite <- (drop_0 (Backups.ranked site t)) in Hx'. apply in_take_drop in Hx'.
    unfold Backups.ranked in Hx'. apply in_order_by, select_where_spec in Hx' as [_ Hb]. by bool_hyps. }
  unfold Backups.retained. apply existsb_exists. exists x. rewrite Hst. split; [done|]. apply Z.eqb_refl.
Qed.

Lemma stable_clear (i : Z) : stable latest_kept (Backups.ClearStoragePath i).
Proof.
  apply stable_exec. intros n d [Hw Hl]. cbn [snd]. db_simpl. split; [by apply update_wf|].
  intros j Hj. destruct (Hl j Hj) as (r & Hr & Hs). rewrite get_update_id by done. rewrite Hr. cbn [fmap option_fmap option_map].
  destruct (j =? i); eexists; (split; [done|]); done.
Qed.

Lemma stable_clean_each (l : list backup_row) (c : Z) : stable latest_kept (Backups.clean_each os_remove l c).
Proof using Type*.
  revert c. induction l as [|r l IH]; intros c; cbn [Backups.clean_each]; [apply stable_ret|].
  destruct (os_remove _); [|apply IH]. apply stable_bind; [apply stable_clear|]. intros ?. apply IH.
Qed.

Lemma stable_local_after : stable latest_kept (Backups.CleanupLocalAfterS3 os_remove).
Proof using Type*.
  apply stable_bind; [apply stable_query|]. intros [l|e]; [|apply stable_ret].
  apply stable_bind; [apply stable_clean_each|]. intros c. apply stable_ret.
Qed.

Lemma stable_orphaned (age : Z) : stable latest_kept (Backups.CleanupOrphanedPending text_before_time age).
Proof using Type*.
  apply stable_bind; [apply stable_now|]. intros now. apply stable_wrap, stable_exec.
  intros n d [Hw Hl]. cbn [snd]. db_simpl. split; [by apply delete_wf|].
  intros j Hj. destruct (Hl j Hj) as (r & Hr & Hs). exists r. split; [|done]. by rewrite get_delete, Hr, Hs.
Qed.

Lemma cleanup_expired_latest (keepLast : Z) (w : world db) : k ≤ Backups.keep_last keepLast → rank_kept (t_backups (data w)) →
  wp (cleanup_expired time_before_text keepLast) (λ _ w', latest_kept (t_backups (data w'))) w.
Proof using Type*.
  intros Hk H. unfold cleanup_expired. wp_step.
  eapply wp_mono; [|exact (stable_enqueue rank_kept keepLast w H)]. intros ? w1 H1. wp_step.
  eapply wp_mono; [|exact (cleanup_latest keepLast w1 Hk H1)]. intros ? w2 H2. exact H2.
Qed.

(** The part of [runCleanup] that follows the settings. *)
Lemma cleanup_rest (keepLast : Z) (retention : res string) (w : world db) :
  k ≤ keepLast → 0 < keepLast → rank_kept (t_backups (data w)) →
  wp (match retention with
      | Err _ => cleanup_expired time_before_text keepLast
      | Ok s =>
          if (s =? "")%string || (s =? "0")%string then cleanup_expired time_before_text keepLast
          else match Sscanf_d s with
               | None => mret ()
               | Some days =>
                   if days <=? 0 then mret ()
                   else mbind (set_expiry text_before_time days) (λ _,
                        mbind (cleanup_expired time_before_text keepLast) (λ _,
                        mbind (Backups.CleanupLocalAfterS3 os_remove) (λ _,
                        mbind (query (λ _ d, select_where Backups.on_s3 (t_backups d))) (λ rows,
                        mbind (Backups.clean_each os_remove (ok_or [] rows) 0) (λ _,
                        mbind (Backups.CleanupOrphanedPending text_before_time (1 * Hour)) (λ _, mret ()))))))
               end
      end) (λ _ w', latest_kept (t_backups (data w'))) w.
Proof using Type*.
  intros Hk Hpos H.
  assert (k ≤ Backups.keep_last keepLast) as Hk' by (unfold Backups.keep_last; destruct (Z.leb_spec keepLast 0); lia).
  destruct retention as [s|e]; [|by apply cleanup_expired_latest].
  destruct (_ || _); [by apply cleanup_expired_latest|].
  destruct (Sscanf_d s) as [days|]; [|by apply wp_ret, rank_latest]. destruct (days <=? 0); [by apply wp_ret, rank_latest|].
  apply wp_bind. eapply wp_mono; [|exact (stable_set_expiry days w H)]. intros ? w1 H1.
  apply wp_bind. eapply wp_mono; [|exact (cleanup_expired_latest keepLast w1 Hk' H1)]. intros ? w2 H2.
  match goal with |- wp ?m _ _ => enough (stable latest_kept m) as Hs by exact (Hs w2 H2) end.
  apply stable_bind; [apply stable_local_after|]. intros ?. apply stable_bind; [apply stable_query|]. intros rows.
  apply stable_bind; [apply stable_clean_each|]. intros ?. apply stable_bind; [apply stable_orphaned|].
  intros ?. apply stable_ret.
Qed.
End Retention.

(** The text of a setting, empty when there is none. *)
Definition setting_text (key : string) (d : db) : string :=
  default "" (se_value <$> select_one (Settings.for_key key) (t_app_settings d)).
(** The number of backups of each site the settings protect. *)
Definition configured_keep (d : db) : Z := Backups.keep_last (default 0 (Sscanf_d (setting_text "keep_last_per_site" d))).

Lemma GetSetting_wp (key : string) (w : world db) :
  wp (Settings.GetSetting key) (λ r w', data w' = data w ∧
    (faults w = [] → faults w' = [] ∧ ok_or "" r = setting_text key (data w)) ∧
    (ok_or "" r = setting_text key (data w) ∨ ok_or "" r = "")) w.
Proof.
  unfold wp, Settings.GetSetting, setting_text, mbind, mret. destruct w as [d n [|[e|] fs]]; cbn;
    (split; [done|split; [intros E|]]); try done; try (by right);
    destruct (select_one _ _); cbn; auto.
Qed.

Lemma keep_last_pos (x : Z) : 0 < Backups.keep_last x.
Proof. unfold Backups.keep_last. destruct (Z.leb_spec x 0); lia. Qed.

(** C35: the cleanup never deletes the latest completed backups of a site: whatever fails,
    the last three (or as many fewer as the settings say) survive it, and when no statement
    fails all those that the settings protect do. *)
Theorem runCleanup_keeps_latest `{HC : PayloadCipher} (text_before_time time_before_text : Z → Z → bool)
    (os_remove : string → bool) (site k : Z) (w : world db)
    (Hw : table_wf (t_backups (data w))) (Hk : k ≤ configured_keep (data w)) (Hf : faults w = [] ∨ k ≤ 3) :
  wp (runCleanup text_before_time time_before_text os_remove) (λ _ w',
    ∀ r, In r (take (Z.to_nat k) (Backups.ranked site (t_backups (data w)))) →
      ∃ r', get_row (b_id r) (t_backups (data w')) = Some r' ∧ b_status r' = "completed") w.
Proof.
  set (ids := map b_id (Backups.ranked site (t_backups (data w)))).
  unfold runCleanup. apply wp_bind. eapply wp_mono; [|apply (GetSetting_wp "retention_days" w)].
  intros retention w1 (E1 & F1 & _). apply wp_bind. eapply wp_mono; [|apply (GetSetting_wp "keep_last_per_site" w1)].
  intros keepLastStr w2 (E2 & F2 & G2). cbv zeta. rewrite E1 in E2, F2, G2.
  set (keepLast := Backups.keep_last (default 0 (Sscanf_d (ok_or "" keepLastStr)))).
  assert (k ≤ keepLast) as Hkl.
  { unfold keepLast. destruct Hf as [Hf|Hf].
    - destruct (F1 Hf) as [Hf1 _]. destruct (F2 Hf1) as [_ ->]. exact Hk.
    - destruct G2 as [-> | ->]; [exact Hk|exact Hf]. }
  eapply wp_mono; [|apply (cleanup_rest text_before_time time_before_text os_remove site k ids keepLast retention w2 Hkl)].
  - intros ? w' [_ Hl] r Hr. apply Hl. unfold ids. rewrite firstn_map. by apply in_map.
  - apply keep_last_pos.
  - rewrite E2. by split.
Qed.

(** * Witnesses *)

Definition cert_site (id : Z) (status : string) (expires : Z) : site_row :=
  set_ssl (Some "active") (Some "Let's Encrypt") (Some expires) None
    (new_site (mkSite 3 "shop" "shop.test" "php" "/srv/shop" status None None None None None None None None None None None None) 0 id).
Definition renew_job (id site : Z) (status : string) : job_row :=
  JobRow id (Some 3) (Some site) TypeSSLRenew status (Some "{}") None None None 1 3 0 0 None None None.
(** Sites 1 and 2 expire soon and 2 is being renewed, 3 expires in a year, 4 is suspended. *)
Definition cert_db : db :=
  set_tab (Table [cert_site 1 "active" (5 * DayNs); cert_site 2 "active" (5 * DayNs); cert_site 3 "active" (365 * DayNs);
                  cert_site 4 "suspended" (5 * DayNs)] 4)
 (set_tab (Table [renew_job 1 2 StatusRunning; renew_job 2 1 StatusFailed] 2) empty_db).

Lemma cert_db_wf : table_wf (t_sites cert_db).
Proof. split; [| |done]; cbn; repeat constructor; cbn; lia. Qed.

Lemma runSSLAutoRenew_once_witness :
  ∃ d', runSSLAutoRenew (HC := plain_cipher) Z.leb silent (World cert_db 0 []) = ((), World d' 0 []) ∧
    map jr_site (t_rows (t_jobs d')) = [Some 2; Some 1; Some 1] ∧
    renewals 1 (t_jobs d') = 1 ∧ renewals 2 (t_jobs d') = 1 ∧ renewals 3 (t_jobs d') = 0 ∧ renewals 4 (t_jobs d') = 0.
Proof.
  destruct (runSSLAutoRenew_once (HC := plain_cipher) Z.leb silent cert_db 0 cert_db_wf) as (d' & E & H).
  exists d'. split; [exact E|]. split; [|rewrite !H; by vm_compute].
  assert (d' = data (runSSLAutoRenew (HC := plain_cipher) Z.leb silent (World cert_db 0 [])).2) as -> by (by rewrite E).
  by vm_compute.
Defined.

Definition s3_provider : provider_row := ProviderRow 1 "r2" "s3" "b" "https://e" "auto" "ak" "sk" true 0 0 0.
Definition one_database : database_row := DatabaseRow 5 1 "shop" "mysql" "utf8mb4" "" 0 0.

Lemma stored_payload_names_backup_witness :
  let stored := stored_payload (HC := payload_cipher (HA := sample_aead) sample_random) in
  Secrets.IsEncrypted "enc:v1:x" = true ∧
  payload_backup (stored (db_payload 12 (cert_site 1 "active" 0) one_database "u" "p" (Some s3_provider))) = Some 12.
Proof.
  intros stored. split; [reflexivity|].
  apply (stored_payload_names_backup (HA := sample_aead) sample_random 12 "s3" (cert_site 1 "active" 0) one_database "u" "p" [] (Some s3_provider));
    by vm_compute.
Defined.

Definition nightly (ty : string) : schedule_row := ScheduleRow 1 1 None "0 2 * * *" ty true None None 0 0.
Definition plan_db : db :=
  set_tab (Table [one_database; DatabaseRow 6 1 "blog" "mysql" "utf8mb4" "" 0 0] 6) cert_db.

Lemma plan_db_wf : table_wf (t_backups plan_db).
Proof. exact empty_wf. Qed.

Lemma processSchedule_files_witness :
  let d' := data (processSchedule (HC := plain_cipher) (HA := sample_aead) 0 (nightly "files") (World plan_db 0 [])).2 in
  map b_status (t_rows (t_backups d')) = ["pending"] ∧
  map (λ r, payload_backup (default "" (jr_payload r))) (t_rows (t_jobs d')) = [None; None; Some 1] ∧
  map jr_type (t_rows (t_jobs d')) = [TypeSSLRenew; TypeSSLRenew; TypeBackupCreate].
Proof.
  cbv zeta. rewrite (processSchedule_files (HC := plain_cipher) (HA := sample_aead) 0 (nightly "files") (cert_site 1 "active" (5 * DayNs))
    plan_db 0 plan_db_wf eq_refl eq_refl eq_refl).
  by vm_compute.
Defined.

(** Two databases, one record, and no job. *)
Lemma processSchedule_databases_witness :
  ∃ d', processSchedule (HC := plain_cipher) (HA := sample_aead) 0 (nightly "database") (World plan_db 0 []) = (Ok (), World d' 0 []) ∧
    map b_storage_type (t_rows (t_backups d')) = ["local"] ∧ t_jobs d' = t_jobs plan_db.
Proof.
  destruct (processSchedule_databases (HC := plain_cipher) (HA := sample_aead) 0 (nightly "database")
    (cert_site 1 "active" (5 * DayNs)) plan_db 0 plan_db_wf eq_refl eq_refl) as (d' & E & B & J); [done|done|].
  exists d'. split; [exact E|]. split; [by rewrite B|by apply J].
Defined.

(** The settings keep one backup of each site and expire what is older than a day. *)
Definition keep_db : db :=
  set_tab (Table [SettingRow 1 "retention_days" "1" 0; SettingRow 2 "keep_last_per_site" " 1" 0] 2)
 (set_tab Backups.sample_backups empty_db).

Lemma runCleanup_keeps_latest_witness :
  let w := World keep_db (100 * DayNs) [] in
  let run := runCleanup (HC := plain_cipher) (λ c n, c * Second <? n) Backups.before_sec (λ _, true) in
  map b_id (t_rows (t_backups (data (run w).2))) = [3] ∧
  wp run (λ _ w', ∀ r, In r (take (Z.to_nat 1) (Backups.ranked 7 (t_backups keep_db))) →
      ∃ r', get_row (b_id r) (t_backups (data w')) = Some r' ∧ b_status r' = "completed") w.
Proof.
  split; [by vm_compute|].
  apply (runCleanup_keeps_latest (HC := plain_cipher) (λ c n, c * Second <? n) Backups.before_sec (λ _, true) 7 1 (World keep_db (100 * DayNs) [])).
  - exact Backups.sample_backups_wf.
  - by vm_compute.
  - by left.
Defined.
