(* ===== verification/Http.v ===== *)
(** Requests, responses and the access middlewares of the API:
    src/internal/apihttp/middleware.go.  A handler reads the request, the echo context
    that the middlewares filled in and the database, and answers. *)
From S2P Require Import Prelude GoStr Json Sql JobStore Accounts Guards.
Local Open Scope Z_scope.
Local Open Scope panel_scope.

Set Default Proof Using "Type".

(** * Responses *)

(** [Success]: the data of a [httpjson.Success], [Failure]: the code and message of a
    [httpjson.ErrorBody], both without the request id; [JSON]: any other body.
    [SetCookie]: a cookie, HttpOnly and SameSite=Strict for the path "/", next to the rest;
    an expiry of [None] deletes it.  [HTTPError]: [echo.NewHTTPError], which [customErrorHandler] renders as a
    [Failure] whose code is [errorCodeFromStatus].  [Panics]: a handler that panics, which
    no middleware recovers from. *)
Record cookie := mkCookie { ck_name : string; ck_value : string; ck_secure : bool; ck_expires : option Z }.

Inductive reply :=
| Success (status : Z) (data : json)
| Failure (status : Z) (code message : string)
| JSON (status : Z) (body : json)
| HTTPError (status : Z) (message : string)
| SetCookie (c : cookie) (r : reply)
| Panics.

Definition errorCodeFromStatus (status : Z) : string :=
  if status =? 401 then "unauthorized" else if status =? 403 then "forbidden" else if status =? 400 then "bad_request"
  else if status =? 404 then "not_found" else if status =? 429 then "rate_limited"
  else if status =? 501 then "not_implemented" else "internal_error".
Definition customErrorHandler (r : reply) : reply :=
  match r with HTTPError s m => Failure s (errorCodeFromStatus s) m | _ => r end.

Fixpoint status (r : reply) : option Z :=
  match r with
  | Success s _ | Failure s _ _ | JSON s _ | HTTPError s _ => Some s
  | SetCookie _ r => status r
  | Panics => None
  end.

(** * The echo context *)

(** What [c.Set] stored under the keys of middleware.go. *)
Record context := mkContext {
  c_session : option session_row; c_user_id : option Z; c_role : option string; c_scopes : option string }.
Definition no_context : context := mkContext None None None None.

Section Middlewares.
Context {D : Type} `{HU : Has user_row D} `{HSE : Has session_row D} `{HTK : Has token_row D}.
(** [auth.HashToken]: the hex digits of SHA-256. *)
Context (HashToken : string → string).

Definition handler : Type := context → M D reply.
Definition middleware : Type := handler → handler.

(** [strings.SplitN(header, " ", 2)], its second half when the first is "bearer". *)
Definition bearer (header : string) : option string :=
  let '(scheme, rest) := split2 " " header in
  match rest with
  | Some t => if (to_lower scheme =? "bearer")%string then Some t else None
  | None => None
  end.
(** The token of a request, or the message it is refused with. *)
Definition request_token (r : request) : string + string :=
  let header := Header r "Authorization" in
  let token :=
    if negb (header =? "")%string then
      match bearer header with Some t => inl t | None => inr "invalid authorization header format" end
    else inl (default "" (Cookie r "sp_session")) in
  match token with
  | inr e => inr e
  | inl t =>
      if (t =? "")%string then inr "missing authorization header"
      else if negb (Z.of_nat (String.length t) =? 64) then inr "invalid token"
      else inl t
  end.

(** The seconds of the zero [time.Time]. *)
Definition zero_time : Z := -62135596800.
(** [time.Now().After(t)], of a time in whole seconds. *)
Definition after_seconds (now t : Z) : bool := t * 1000000000 <? now.

(** The session of a service token: [&store.Session{ID: serviceToken.ID, UserID: 0}]. *)
Definition token_session (t : token_row) : session_row := SessionRow (tk_id t) 0 "" zero_time zero_time None None.

(** The goroutine that notes the use of a service token is run before the handler. *)
Definition RequireAuth (r : request) : middleware := λ next c,
  match request_token r with
  | inr m => mret (HTTPError 401 m)
  | inl token =>
      let tokenHash := HashToken token in
      let* st := ServiceTokens.GetByKeyHash tokenHash in
      let* now := time_Now in
      match st with
      | Ok (Some t) =>
          if match tk_expires t with Some e => after_seconds now e | None => false end
          then mret (HTTPError 401 "service token expired")
          else
            let* _ := ServiceTokens.UpdateLastUsed (tk_id t) in
            next (mkContext (Some (token_session t)) (Some 0) (c_role c) (Some (tk_scopes t)))
      | _ =>
          let* s := Sessions.GetByTokenHash tokenHash in
          match s with
          | Err _ => mret (HTTPError 500 "internal error")
          | Ok None => mret (HTTPError 401 "invalid token")
          | Ok (Some sess) =>
              if bool_decide (se_revoked sess ≠ None) then mret (HTTPError 401 "session revoked")
              else if negb (se_expires sess =? zero_time) && after_seconds now (se_expires sess)
              then mret (HTTPError 401 "session expired")
              else next (mkContext (Some sess) (Some (se_user sess)) (c_role c) (c_scopes c))
          end
      end
  end.

Definition serviceTokenHasScope (scopes required : string) : bool :=
  existsb (λ s0, let s := trim_space s0 in
    if (s =? "*")%string then (required =? RoleAdmin)%string || (required =? RoleUser)%string
    else if (s =? RoleAdmin)%string then (required =? RoleAdmin)%string || (required =? RoleUser)%string
    else if (s =? RoleUser)%string then (required =? RoleUser)%string
    else false) (split "," scopes).

Definition with_role (role : string) (c : context) : context :=
  mkContext (c_session c) (c_user_id c) (Some role) (c_scopes c).

Definition RequireRole (required : string) : middleware := λ next c,
  match c_session c with
  | None => mret (HTTPError 401 "not authenticated")
  | Some sess =>
      if se_user sess =? 0 then
        let scopes := default "" (c_scopes c) in
        if (scopes =? "")%string then mret (HTTPError 403 "service token has no scopes")
        else if negb (serviceTokenHasScope scopes required) then mret (HTTPError 403 "service token lacks required scope")
        else next (with_role "service_token" c)
      else
        let* u := Users.GetByID (se_user sess) in
        match u with
        | Ok (Some user) =>
            if negb (HasRole (u_role user) required) then mret (HTTPError 403 "insufficient permissions")
            else next (with_role (u_role user) c)
        | _ => mret (HTTPError 401 "user not found")
        end
  end.
Definition RequireAdmin : middleware := RequireRole RoleAdmin.

Definition RequireUserSession : middleware := λ next c,
  match c_session c with
  | None => mret (HTTPError 401 "not authenticated")
  | Some sess =>
      if se_user sess =? 0 then mret (HTTPError 403 "service token cannot access this endpoint") else next c
  end.

Definition RequireInternalIP (r : request) : middleware := λ next c,
  if negb (has_prefix (RemoteAddr r) "127.0.0.1:") && negb (has_prefix (RemoteAddr r) "[::1]:")
  then mret (HTTPError 403 "internal endpoint") else next c.

(** echo applies the middlewares of a route in the order they are listed. *)
Definition chain (ms : list middleware) (h : handler) : handler := fold_right (λ m k, m k) h ms.

(** * Facts *)

(** ** Who gets through *)

(** At [n], [token] is the key of a service token that has not expired ... *)
Definition service_grant (n : Z) (token : string) (t : token_row) (d : D) : Prop :=
  In t (t_rows (tab (A := token_row) d)) ∧ tk_key_hash t = HashToken token ∧
  ∀ e, tk_expires t = Some e → n ≤ e * 1000000000.
(** ... or the token of a session that is neither revoked nor expired. *)
Definition session_grant (n : Z) (token : string) (s : session_row) (d : D) : Prop :=
  In s (t_rows (tab (A := session_row) d)) ∧ se_token_hash s = HashToken token ∧ se_revoked s = None ∧
  (se_expires s = zero_time ∨ n ≤ se_expires s * 1000000000).

(** The handler was reached with the context [c'] from a world with the database [d']. *)
Definition reached (next : handler) (c' : context) (d' : D) (w : world D) (rep : reply) (w' : world D) : Prop :=
  ∃ fs, next c' (World d' (clock w) fs) = (rep, w').

Definition noted (t : token_row) (n : Z) (d : D) : D :=
  set_tab (update_where (by_id (tk_id t)) (set_last_used (Some (current_timestamp n))) (tab d)) d.

Lemma find_in {A} (p : A → bool) (t : table A) r : select_one p t = Some r → In r (t_rows t) ∧ p r = true.
Proof. intros H%find_spec. tauto. Qed.

Lemma world_eta (w : world D) : World (data w) (clock w) (faults w) = w.
Proof. by destruct w. Qed.

(** The postcondition of [RequireAuth]. *)
Definition auth_outcome (r : request) (next : handler) (c : context) (w : world D) (rep : reply) (w' : world D) : Prop :=
  (∃ s m, rep = HTTPError s m ∧ (s = 401 ∨ s = 500) ∧ data w' = data w) ∨
  ∃ token, request_token r = inl token ∧
    ((∃ t, service_grant (clock w) token t (data w) ∧
        let c' := mkContext (Some (token_session t)) (Some 0) (c_role c) (Some (tk_scopes t)) in
        reached next c' (noted t (clock w) (data w)) w rep w' ∨ reached next c' (data w) w rep w') ∨
     (∃ s, session_grant (clock w) token s (data w) ∧
        reached next (mkContext (Some s) (Some (se_user s)) (c_role c) (c_scopes c)) (data w) w rep w')).

Lemma auth_outcome_lemma (r : request) (next : handler) (c : context) (w : world D) :
  wp (RequireAuth r next c) (auth_outcome r next c w) w.
Proof.
  unfold RequireAuth. destruct (request_token r) as [token|m] eqn:Et; [|wp_step; left; exists 401, m; auto].
  assert (Hsess : ∀ fs, wp (let* s := Sessions.GetByTokenHash (HashToken token) in
      match s with
      | Err _ => mret (HTTPError 500 "internal error")
      | Ok None => mret (HTTPError 401 "invalid token")
      | Ok (Some sess) =>
          if bool_decide (se_revoked sess ≠ None) then mret (HTTPError 401 "session revoked")
          else if negb (se_expires sess =? zero_time) && after_seconds (clock w) (se_expires sess)
          then mret (HTTPError 401 "session expired")
          else next (mkContext (Some sess) (Some (se_user sess)) (c_role c) (c_scopes c))
      end) (auth_outcome r next c w) (World (data w) (clock w) fs)).
  { intros fs. unfold Sessions.GetByTokenHash. wp_step. wp_step. wp_step; cbn [data clock].
    - wp_step. left. exists 500, "internal error". auto.
    - destruct (select_one _ _) as [s|] eqn:Es; [|wp_step; left; exists 401, "invalid token"; auto].
      apply find_in in Es as [Hin Hl]. unfold Sessions.live_hash in Hl. apply andb_prop in Hl as [Hh Hr].
      rewrite (bool_decide_eq_false_2 (se_revoked s ≠ None)) by (apply bool_decide_eq_true in Hr; tauto).
      destruct (negb (se_expires s =? zero_time) && after_seconds (clock w) (se_expires s)) eqn:Ee.
      + wp_step. left. exists 401, "session expired". auto.
      + unfold wp. destruct (next _ _) as [rep w'] eqn:En. right. exists token. split; [done|]. right. exists s. split.
        * split; [done|]. apply String.eqb_eq in Hh. apply bool_decide_eq_true in Hr.
          split; [done|]. split; [done|]. apply andb_false_iff in Ee as [Ee|Ee].
          { apply negb_false_iff, Z.eqb_eq in Ee. by left. }
          { apply Z.ltb_ge in Ee. by right. }
        * by exists fs0. }
  unfold ServiceTokens.GetByKeyHash. wp_step. wp_step. wp_step; cbn [data clock]; [apply Hsess|].
  destruct (select_one _ _) as [t|] eqn:Es; [|apply Hsess].
  apply find_in in Es as [Hin Hh]. apply String.eqb_eq in Hh.
  wp_step. wp_step. cbn [data clock].
  destruct (match tk_expires t with Some e => after_seconds (clock w) e | None => false end) eqn:Ee.
  { wp_step. left. exists 401, "service token expired". auto. }
  assert (Hg : service_grant (clock w) token t (data w)).
  { split; [done|]. split; [done|]. intros e He. rewrite He in Ee. by apply Z.ltb_ge in Ee. }
  unfold ServiceTokens.UpdateLastUsed, update_tab. wp_step. wp_step. wp_step; cbn [data clock fst snd].
  - unfold wp. destruct (next _ _) as [rep w'] eqn:En.
    right. exists token. split; [done|]. left. exists t. split; [done|]. right. by exists fs0.
  - unfold wp. destruct (next _ _) as [rep w'] eqn:En.
    right. exists token. split; [done|]. left. exists t. split; [done|]. left. by exists fs0.
Qed.
End Middlewares.
