(* ===== verification/Starter.v ===== *)
(** The starter files of a new site: [TemplateForRuntime] of src/internal/nginx/template.go
    and [dockerHelloWorld] of src/internal/agenthttp/router.go. *)
From S2P Require Import Prelude GoStr Sql Json Agent.
Local Open Scope Z_scope.
Local Open Scope panel_scope.

Definition dq : string := String DQ EmptyString.

(** [goModFile] of src/internal/nginx/templates.go. *)
Definition goModFile (domain : string) : string := "module " +:+ domain +:+ "

go 1.22
".

(** The files by name; a Go map, so their order is not the code's. *)
Definition TemplateForRuntime (runtime domain : string) (port : Z) : option (list (string * string)) :=
  if (runtime =? "node")%string then Some [("package.json", "{
  " +:+ dq +:+ "name" +:+ dq +:+ ": " +:+ go_quote domain +:+ ",
  " +:+ dq +:+ "version" +:+ dq +:+ ": " +:+ dq +:+ "1.0.0" +:+ dq +:+ ",
  " +:+ dq +:+ "scripts" +:+ dq +:+ ": {
    " +:+ dq +:+ "start" +:+ dq +:+ ": " +:+ dq +:+ "node server.js" +:+ dq +:+ "
  }
}");
     ("server.js", "const http = require('http');
const PORT = " +:+ itoa port +:+ ";
const server = http.createServer((req, res) => {
  res.writeHead(200, { 'Content-Type': 'text/html' });
  res.end('<h1>" +:+ domain +:+ "</h1><p>Site created via SigardaPanel</p>');
});
server.listen(PORT, () => console.log('Server running on port ' + PORT));
")]
  else
  if (runtime =? "python")%string then Some [("app.py", "from http.server import HTTPServer, SimpleHTTPRequestHandler
import os

PORT = " +:+ itoa port +:+ "

class Handler(SimpleHTTPRequestHandler):
    def do_GET(self):
        self.send_response(200)
        self.send_header('Content-type', 'text/html')
        self.end_headers()
        self.wfile.write(b'<h1>" +:+ domain +:+ "</h1><p>Site created via SigardaPanel</p>')

if __name__ == '__main__':
    os.chdir(os.path.dirname(os.path.abspath(__file__)))
    HTTPServer(('127.0.0.1', PORT), Handler).serve_forever()
")]
  else
  if (runtime =? "go")%string then Some [("go.mod", goModFile domain);
     ("main.go", "package main

import (
    " +:+ dq +:+ "fmt" +:+ dq +:+ "
    " +:+ dq +:+ "net/http" +:+ dq +:+ "
)

func main() {
    http.HandleFunc(" +:+ dq +:+ "/" +:+ dq +:+ ", func(w http.ResponseWriter, r *http.Request) {
        fmt.Fprintf(w, " +:+ dq +:+ "<h1>" +:+ domain +:+ "</h1><p>Site created via SigardaPanel</p>" +:+ dq +:+ ")
    })
    fmt.Println(" +:+ dq +:+ "Server running on port " +:+ itoa port +:+ dq +:+ ")
    http.ListenAndServe(" +:+ dq +:+ ":" +:+ itoa port +:+ dq +:+ ", nil)
}
")]
  else
  None.

Definition dockerHelloWorld (lang domain : string) : list (string * string) :=
  if (lang =? "node")%string then [("package.json", "{
  " +:+ dq +:+ "name" +:+ dq +:+ ": " +:+ go_quote domain +:+ ",
  " +:+ dq +:+ "version" +:+ dq +:+ ": " +:+ dq +:+ "1.0.0" +:+ dq +:+ ",
  " +:+ dq +:+ "scripts" +:+ dq +:+ ": { " +:+ dq +:+ "start" +:+ dq +:+ ": " +:+ dq +:+ "node server.js" +:+ dq +:+ " }
}");
     ("server.js", "const http = require('http');
const PORT = process.env.PORT || 3000;
const server = http.createServer((req, res) => {
  res.writeHead(200, { 'Content-Type': 'text/html' });
  res.end('<h1>" +:+ domain +:+ "</h1><p>Hello from Node.js 🚀</p><p>Runtime: Docker</p>');
});
server.listen(PORT, '0.0.0.0', () => console.log('Listening on port ' + PORT));
")]
  else
  if (lang =? "python")%string then [("app.py", "from http.server import HTTPServer, SimpleHTTPRequestHandler
import os

PORT = int(os.environ.get('PORT', 8000))

class Handler(SimpleHTTPRequestHandler):
    def do_GET(self):
        self.send_response(200)
        self.send_header('Content-type', 'text/html')
        self.end_headers()
        self.wfile.write(b'<h1>" +:+ domain +:+ "</h1><p>Hello from Python 🐍</p><p>Runtime: Docker</p>')

if __name__ == '__main__':
    os.chdir(os.path.dirname(os.path.abspath(__file__)))
    HTTPServer(('0.0.0.0', PORT), Handler).serve_forever()
");
     ("requirements.txt", "")]
  else
  if (lang =? "php")%string then [("index.php", "<!DOCTYPE html>
<html>
<head><title>" +:+ domain +:+ "</title></head>
<body>
  <h1><?php echo '" +:+ domain +:+ "'; ?></h1>
  <p>Hello from PHP 🐘</p>
  <p>Runtime: Docker</p>
</body>
</html>
")]
  else
  if (lang =? "go")%string then [("main.go", "package main

import (
    " +:+ dq +:+ "fmt" +:+ dq +:+ "
    " +:+ dq +:+ "net/http" +:+ dq +:+ "
    " +:+ dq +:+ "os" +:+ dq +:+ "
)

func main() {
    http.HandleFunc(" +:+ dq +:+ "/" +:+ dq +:+ ", func(w http.ResponseWriter, r *http.Request) {
        fmt.Fprintf(w, " +:+ dq +:+ "<h1>" +:+ domain +:+ "</h1><p>Hello from Go 🐹</p><p>Runtime: Docker</p>" +:+ dq +:+ ")
    })
    port := os.Getenv(" +:+ dq +:+ "PORT" +:+ dq +:+ ")
    if port == " +:+ dq +:+ dq +:+ " {
			port = " +:+ dq +:+ "8080" +:+ dq +:+ "
		}
    fmt.Println(" +:+ dq +:+ "Listening on port" +:+ dq +:+ ", port)
    http.ListenAndServe(" +:+ dq +:+ ":" +:+ dq +:+ "+port, nil)
}
");
     ("go.mod", "module " +:+ replace_chr (λ c, if Ascii.eqb c "." then Some "-" else None) domain +:+ "

go 1.22
")]
  else
  if (lang =? "ruby")%string then [("app.rb", "require 'webrick'

server = WEBrick::HTTPServer.new(Port: ENV['PORT'] || 3000, BindAddress: '0.0.0.0')

server.mount_proc '/' do |req, res|
  res.body = '<h1>" +:+ domain +:+ "</h1><p>Hello from Ruby 💎</p><p>Runtime: Docker</p>'
end

trap('INT') { server.shutdown }
server.start
");
     ("Gemfile", "source 'https://rubygems.org'
")]
  else
  if (lang =? "java")%string then [("Main.java", "import com.sun.net.httpserver.HttpServer;
import java.net.InetSocketAddress;

public class Main {
    public static void main(String[] args) throws Exception {
        int port = Integer.parseInt(System.getenv().getOrDefault(" +:+ dq +:+ "PORT" +:+ dq +:+ ", " +:+ dq +:+ "8080" +:+ dq +:+ "));
        HttpServer server = HttpServer.create(new InetSocketAddress(port), 0);
        server.createContext(" +:+ dq +:+ "/" +:+ dq +:+ ", exchange -> {
            String resp = " +:+ dq +:+ "<h1>" +:+ domain +:+ "</h1><p>Hello from Java ☕</p><p>Runtime: Docker</p>" +:+ dq +:+ ";
            exchange.sendResponseHeaders(200, resp.getBytes().length);
            exchange.getResponseBody().write(resp.getBytes());
            exchange.getResponseBody().close();
        });
        System.out.println(" +:+ dq +:+ "Listening on port " +:+ dq +:+ " + port);
        server.start();
    }
}
")]
  else
  if (lang =? "rust")%string then [("main.rs", "use std::net::TcpListener;
use std::io::{Read, Write};

fn main() {
    let port = std::env::var(" +:+ dq +:+ "PORT" +:+ dq +:+ ").unwrap_or_else(|_| " +:+ dq +:+ "8080" +:+ dq +:+ ".to_string());
    let listener = TcpListener::bind(format!(" +:+ dq +:+ "0.0.0.0:{}" +:+ dq +:+ ", port)).unwrap();
    println!(" +:+ dq +:+ "Listening on port {}" +:+ dq +:+ ", port);

    for stream in listener.incoming() {
        if let Ok(mut stream) = stream {
            let body = " +:+ dq +:+ "<h1>" +:+ domain +:+ "</h1><p>Hello from Rust 🦀</p><p>Runtime: Docker</p>" +:+ dq +:+ ";
            let response = format!(" +:+ dq +:+ "HTTP/1.1 200 OK\r\nContent-Length: {}\r\n\r\n{}" +:+ dq +:+ ", body.len(), body);
            stream.write_all(response.as_bytes()).ok();
        }
    }
}
")]
  else
  [("index.html", "<!DOCTYPE html>
<html>
<head><title>" +:+ domain +:+ "</title></head>
<body>
  <h1>" +:+ domain +:+ "</h1>
  <p>Hello from Docker 🐳</p>
  <p>Runtime: Static</p>
</body>
</html>
")].

