(* ===== verification/Host.v ===== *)
(** Programs that act on a server: what the handlers of the agent ask of the operating
    system, and src/internal/executor/executor.go on top of it.  A program is a finite tree
    of effects; what the system answers is left open, so a theorem about all answers holds
    for every state of the host, every failure and every interference of other processes. *)
From S2P Require Import Prelude GoStr Sql AgentValidate.
Local Open Scope Z_scope.
Local Open Scope panel_scope.

Set Default Proof Using "Type".

(** * Effects *)

(** The credentials of a process: uid, gid and groups; [Root]: those of the agent. *)
Inductive cred := Root | User (uid gid : Z) (groups : list Z).
(** The environment: that of the agent with some more variables, or only those given. *)
Inductive environ := Inherit (more : list string) | Only (vars : list string).
(** A process: no shell is involved in starting it. *)
Record cmd := Cmd {
  c_name : string; c_args : list string; c_cred : cred; c_dir : string; c_env : environ; c_input : string;
  c_stdout : option string }.

(** What [os.Stat] and [os.Lstat] tell. *)
Record finfo := FInfo { fi_dir : bool; fi_link : bool; fi_regular : bool; fi_size : Z; fi_uid : Z; fi_gid : Z }.
Inductive stat_result := Found (f : finfo) | NotExist | StatErr (e : string).
(** [os.Remove]. *)
Inductive removal := Removed | Missing | RemoveErr (e : string).

Inductive effect :=
| Exec (c : cmd)                                  (* output and error of a process *)
| OpenExcl (path : string)                        (* O_CREATE|O_EXCL|O_WRONLY, mode 0600 *)
| MkdirAll (path : string)
| WriteFile (path content : string)
| Remove (path : string)
| RemoveAll (path : string)
| Stat (path : string)
| Lstat (path : string)
| EvalSymlinks (path : string)
| MkdirTemp (dir pattern : string)
| Rename (src dst : string)
| CopyPath (src dst : string)                     (* the recursive copy of validate.go *)
| SanitizeTree (root : string) (uid gid : Z)      (* the walk of validate.go *)
| CountFiles (root : string)
| LookPath (name : string)
| Listen (port : string)                          (* a listener can be opened, and is closed *)
| LookupUser (name : string)                      (* uid and gid as texts *)
| LookupId (uid : Z)                              (* home, name and groups as texts *)
| RandomHex (n : Z)
| Now                                            (* nanoseconds *)
| LocalTime (ns : Z).                            (* RFC 3339, in the zone of the host *)

#[export] Instance cred_eq_dec : EqDecision cred.
Proof. solve_decision. Defined.
#[export] Instance environ_eq_dec : EqDecision environ.
Proof. solve_decision. Defined.
#[export] Instance cmd_eq_dec : EqDecision cmd.
Proof. solve_decision. Defined.
#[export] Instance effect_eq_dec : EqDecision effect.
Proof. solve_decision. Defined.

Definition answer (e : effect) : Type :=
  match e with
  | Exec _ => string * error
  | OpenExcl _ | MkdirAll _ | WriteFile _ _ | RemoveAll _ | Rename _ _ | CopyPath _ _ | SanitizeTree _ _ _ => error
  | Remove _ => removal
  | Stat _ | Lstat _ => stat_result
  | EvalSymlinks _ => option string
  | MkdirTemp _ _ => res string
  | CountFiles _ => Z
  | LookPath _ | Listen _ => bool
  | LookupUser _ => option (string * string)
  | LookupId _ => option (string * string * option (list string))
  | RandomHex _ | LocalTime _ => string
  | Now => Z
  end.

(** * Programs *)

Inductive prog (A : Type) : Type :=
| Ret (a : A)
| Do (e : effect) (k : answer e → prog A).
Arguments Ret {A} a.
Arguments Do {A} e k.

Fixpoint bind {A B} (p : prog A) (f : A → prog B) : prog B :=
  match p with
  | Ret a => f a
  | Do e k => Do e (λ x, bind (k x) f)
  end.
Notation "'let!' x := p 'in' k" := (bind p (λ x, k))
  (at level 200, x pattern at level 0, p at level 100, k at level 200) : panel_scope.
Definition perform (e : effect) : prog (answer e) := Do e Ret.

(** One after the other, for their effects. *)
Fixpoint pfor {A} (l : list A) (body : A → prog unit) : prog unit :=
  match l with
  | [] => Ret ()
  | x :: l' => let! _ := body x in pfor l' body
  end.

(** * Reasoning about all answers *)

(** [always G P Q p]: whatever the host answers, as long as the answers are among [G], every
    effect of [p] satisfies [P], and its result satisfies [Q]. *)
Fixpoint always {A} (G : ∀ e, answer e → Prop) (P : effect → Prop) (Q : A → Prop) (p : prog A) : Prop :=
  match p with
  | Ret a => Q a
  | Do e k => P e ∧ ∀ x, G e x → always G P Q (k x)
  end.
(** A host of which nothing is known. *)
Definition any (e : effect) (x : answer e) : Prop := True.

Section Always.
Context {A B : Type} (G : ∀ e, answer e → Prop).
Implicit Types (P : effect → Prop) (p : prog A).

Lemma always_mono P P' (Q Q' : A → Prop) p :
  (∀ e, P e → P' e) → (∀ a, Q a → Q' a) → always G P Q p → always G P' Q' p.
Proof. intros HP HQ. induction p as [a|e k IH]; cbn; [apply HQ|]. intros [He Hk]. split; [by apply HP|]. intros x Hx. by apply IH, Hk. Qed.

Lemma always_weaken (G' : ∀ e, answer e → Prop) P (Q : A → Prop) p :
  (∀ e x, G' e x → G e x) → always G P Q p → always G' P Q p.
Proof. intros HG. induction p as [a|e k IH]; cbn; [done|]. intros [He Hk]. split; [done|]. intros x Hx. by apply IH, Hk, HG. Qed.

Lemma always_bind P (Q : B → Prop) p (f : A → prog B) :
  always G P (λ a, always G P Q (f a)) p → always G P Q (bind p f).
Proof. induction p as [a|e k IH]; cbn; [done|]. intros [He Hk]. split; [done|]. intros x Hx. by apply IH, Hk. Qed.

Lemma always_conj P (Q Q' : A → Prop) p : always G P Q p → always G P Q' p → always G P (λ a, Q a ∧ Q' a) p.
Proof. induction p as [a|e k IH]; cbn; [done|]. intros [He Hk] [_ Hk']. split; [done|]. intros x Hx. by apply IH; [apply Hk|apply Hk']. Qed.
End Always.

Lemma always_any {A} G P (Q : A → Prop) (p : prog A) : always any P Q p → always G P Q p.
Proof. by apply always_weaken. Qed.

Lemma always_for {A} G P (l : list A) (body : A → prog unit) :
  (∀ x, In x l → always G P (λ _, True) (body x)) → always G P (λ _, True) (pfor l body).
Proof.
  induction l as [|x l IH]; cbn; intros H; [done|].
  apply always_bind. eapply always_mono; [done| |apply H; by left]. intros _ _. apply IH. intros y Hy. apply H. by right.
Qed.

(** * Running a program *)

(** A host of states [S]. *)
Section Interp.
Context {S : Type} (step : ∀ e, S → answer e * S).

Fixpoint interp {A} (p : prog A) (s : S) : A * S :=
  match p with
  | Ret a => (a, s)
  | Do e k => let '(x, s') := step e s in interp (k x) s'
  end.

Lemma interp_bind {A B} (p : prog A) (f : A → prog B) s :
  interp (bind p f) s = let '(a, s') := interp p s in interp (f a) s'.
Proof. revert s. induction p as [a|e k IH]; intros s; cbn; [done|]. destruct (step e s) as [x s']. apply IH. Qed.
End Interp.

(** The same, with the effects in the order they happen. *)
Definition logged {S} (step : ∀ e, S → answer e * S) (e : effect) (s : list effect * S) : answer e * (list effect * S) :=
  let '(x, s') := step e s.2 in (x, (s.1 ++ [e], s')).
Definition trace {S A} (step : ∀ e, S → answer e * S) (p : prog A) (s : S) : list effect :=
  (interp (logged step) p ([], s)).2.1.

Lemma logged_sound {S A} (step : ∀ e, S → answer e * S) G P (Q : A → Prop) (p : prog A) (l : list effect) (s : S) :
  (∀ e s, G e (step e s).1) → always G P Q p →
  ∃ l' s', interp (logged step) p (l, s) = ((interp step p s).1, (l ++ l', s')) ∧ Forall P l' ∧ Q (interp step p s).1.
Proof.
  intros HG. revert l s. induction p as [a|e k IH]; intros l s; cbn.
  - intros HQ. exists [], s. rewrite List.app_nil_r. by repeat constructor.
  - intros [He Hk]. pose proof (HG e s) as Hx. destruct (step e s) as [x s1] eqn:E.
    destruct (IH x (l ++ [e]) s1 (Hk x Hx)) as (l' & s' & H & HF & HQ).
    exists (e :: l'), s'. split; [|by repeat constructor]. unfold logged at 1. cbn [fst snd]. rewrite E. cbn.
    by rewrite H, <- List.app_assoc.
Qed.

(** [always] says what it should: on every host that answers within [G] the effects satisfy
    [P] and the result [Q]. *)
Lemma always_sound {S A} (step : ∀ e, S → answer e * S) G P (Q : A → Prop) (p : prog A) (s : S) :
  (∀ e s, G e (step e s).1) → always G P Q p → Forall P (trace step p s) ∧ Q (interp step p s).1.
Proof. intros HG H. unfold trace. destruct (logged_sound step G P Q p [] s HG H) as (l & s' & -> & HF & HQ). by split. Qed.

(** * executor.go *)

Definition not_allowed (name : string) : string * error := ("", errorf ("command not allowed: " +:+ name)).
(** The error of a process that failed is prefixed with its name. *)
Definition run (c : cmd) : prog (string * error) :=
  let! r := perform (Exec c) in
  Ret (let '(out, e) := (r : string * error) in (out, match e with Some m => errorf (c_name c +:+ " failed: " +:+ m) | None => nil_error end)).

(** Whether [RunShell] and the others start the command at all. *)
Definition allowed (name : string) (p : prog (string * error)) : prog (string * error) :=
  if isAllowedCommand name then p else Ret (not_allowed name).
Definition RunShell (name : string) (args : list string) : prog (string * error) :=
  allowed name (run (Cmd name args Root "" (Inherit []) "" None)).
Definition RunWithInput (input name : string) (args : list string) : prog (string * error) :=
  allowed name (run (Cmd name args Root "" (Inherit []) input None)).
Definition RunShellEnv (env : list string) (name : string) (args : list string) : prog (string * error) :=
  allowed name (run (Cmd name args Root "" (Inherit env) "" None)).
Definition RunShellDir (dir name : string) (args : list string) : prog (string * error) :=
  allowed name (run (Cmd name args Root dir (Inherit []) "" None)).
(** The output is what the command wrote to its standard error. *)
Definition RunToFileEnv (env : list string) (outPath name : string) (args : list string) : prog (string * error) :=
  allowed name (
    let! e := perform (OpenExcl outPath) in
    match (e : error) with
    | Some m => Ret ("", errorf ("open output file: " +:+ m))
    | None => run (Cmd name args Root "" (Inherit env) "" (Some outPath))
    end).

(** [strconv.ParseUint(s, 10, 32)]. *)
Definition parse_uint32 (s : string) : option Z :=
  if negb (s =? "")%string && str_all is_digit s then
    let '(n, ok) := atoi s in if ok && (n <? 2 ^ 32) then Some n else None
  else None.
Definition user_groups (l : list string) : list Z :=
  omap (λ g, match parse_uint32 g with Some n => if n =? 0 then None else Some n | None => None end) l.
(** [user.LookupId] is called twice, once for the home and once for the groups. *)
Definition RunAsUser (uid gid : Z) (dir name : string) (args : list string) : prog (string * error) :=
  if negb (isAllowedCommand name) then Ret (not_allowed name)
  else if uid =? 0 then Ret ("", errorf "RunAsUser refuses uid 0")
  else
    let! u := perform (LookupId uid) in
    let! v := perform (LookupId uid) in
    let '(home, login) := match (u : option (string * string * option (list string))) with
                          | Some (h, l, _) => (h, l) | None => ("/tmp", itoa uid) end in
    let groups := match (v : option (string * string * option (list string))) with
                  | Some (_, _, Some gs) => user_groups gs | _ => [] end in
    run (Cmd name args (User uid gid groups) dir
      (Only ["HOME=" +:+ home; "USER=" +:+ login; "LOGNAME=" +:+ login; "PATH=/usr/local/bin:/usr/bin:/bin:/usr/sbin:/sbin";
             "GIT_TERMINAL_PROMPT=0"; "LANG=C.UTF-8"]) "" None).

Definition exists_path (path : string) : prog (bool * error) :=
  let! s := perform (Stat path) in
  Ret (match (s : stat_result) with
       | Found _ => (true, nil_error) | NotExist => (false, nil_error) | StatErr e => (false, errorf e) end).
Definition EnsureDir (path : string) : prog error :=
  let! s := exists_path path in
  match s with
  | (_, Some e) => Ret (Some e)
  | (true, None) => Ret nil_error
  | (false, None) => perform (MkdirAll path)
  end.

(** ** What is never started *)

Lemma RunShell_allowlist (name : string) (args : list string) :
  path_base name ∉ allowedCommands →
  RunShell name args = Ret (not_allowed name) ∧ (∀ input, RunWithInput input name args = Ret (not_allowed name)) ∧
  (∀ env, RunShellEnv env name args = Ret (not_allowed name)) ∧ (∀ dir, RunShellDir dir name args = Ret (not_allowed name)) ∧
  (∀ env out, RunToFileEnv env out name args = Ret (not_allowed name)) ∧
  (∀ uid gid dir, RunAsUser uid gid dir name args = Ret (not_allowed name)).
Proof.
  intros H. apply str_in_false in H. unfold RunShell, RunWithInput, RunShellEnv, RunShellDir, RunToFileEnv, RunAsUser, allowed, isAllowedCommand.
  by rewrite H.
Qed.

(** [rm] is not on the list. *)
Example rm_not_allowed (args : list string) : RunShell "rm" args = Ret ("", errorf "command not allowed: rm").
Proof. reflexivity. Qed.

(** Not the user root, and not with the supplementary group root. *)
Definition unprivileged (c : cred) : Prop :=
  match c with Root => False | User uid _ groups => uid ≠ 0 ∧ 0 ∉ groups end.
Lemma user_groups_nonzero (l : list string) : 0 ∉ user_groups l.
Proof.
  unfold user_groups. intros (g & _ & H)%list_elem_of_omap. destruct (parse_uint32 g); [|done]. case_hyp H; [done|]. bool_hyps. congruence.
Qed.
Lemma RunAsUser_unprivileged (uid gid : Z) (dir name : string) (args : list string) :
  always any (λ e, match e with
               | Exec c => unprivileged (c_cred c) ∧ c_name c = name ∧ c_args c = args ∧ c_dir c = dir
               | LookupId _ => True | _ => False end) (λ _, True) (RunAsUser uid gid dir name args).
Proof.
  unfold RunAsUser. case_goal; [done|]. case_goal; [done|]. cbn. split; [done|]. intros u _. split; [done|]. intros v _.
  destruct u as [[[home login] gs]|]; cbn; (split; [|by intros [? ?]]); bool_hyps; (split; [|done]); (split; [done|]);
    destruct v as [[[? ?] [gs'|]]|]; cbn; first [apply user_groups_nonzero|set_solver].
Qed.
(** The group is not checked, although the comment of [RunAsUser] says that uid:gid is
    never 0. *)
Example RunAsUser_gid_zero :
  (interp (S := list cred) (λ e l, match e return answer e * list cred with
    | Exec c => (("", nil_error), c_cred c :: l) | LookupId _ => (None, l)
    | OpenExcl _ | MkdirAll _ | WriteFile _ _ | RemoveAll _ | Rename _ _ | CopyPath _ _ | SanitizeTree _ _ _ => (nil_error, l)
    | Remove _ => (Missing, l) | Stat _ | Lstat _ => (NotExist, l) | EvalSymlinks _ | LookupUser _ => (None, l)
    | MkdirTemp _ _ => (Err "no", l) | CountFiles _ | Now => (0, l) | LookPath _ | Listen _ => (false, l) | RandomHex _ | LocalTime _ => ("", l) end)
    (RunAsUser 1000 0 "/srv/x" "git" []) []).2 = [User 1000 0 []].
Proof. reflexivity. Qed.
