(* ===== verification/AgentSite.v ===== *)
(** The tasks of the agent about sites: siteCreateTask, siteDeleteTask, siteDeployTask,
    nginxReloadTask, sslIssueTask, sslRenewTask, logsReadTask of
    src/internal/agenthttp/router.go, with runGit and siteUserIDs of git.go.  A request body
    that [c.Bind] refuses is [None]. *)
From S2P Require Import Prelude GoStr Regex SiteInput AgentValidate Json Sql Sites Agent Nginx Http Host Starter.
Local Open Scope Z_scope.
Local Open Scope panel_scope.

Set Default Proof Using "Type".

(** * The router *)

Record AgentRouter := mkAgentRouter {
  ag_router :> Router; nginxConfDir : string; logDir : string; authToken : string; allowStubSSL : bool; testAuth : bool }.
(** Without options, with a token and a site root from the environment. *)
Definition newRouter (token siteRoot : string) (stubSSL : bool) : AgentRouter :=
  mkAgentRouter {| siteRootDir := siteRoot; backupDir := "/var/backups/sigardapanel" |} "/etc/nginx/sites-enabled" "/var/log/nginx"
    token stubSSL false.

Definition requireAgentAuth (r : AgentRouter) (header : string) (next : prog reply) : prog reply :=
  if testAuth r then next
  else if (authToken r =? "")%string then Ret (HTTPError 401 "agent token not configured")
  else if negb (has_prefix header "Bearer ") then Ret (HTTPError 401 "missing agent token")
  else if negb (trim_prefix header "Bearer " =? authToken r)%string then Ret (HTTPError 401 "invalid agent token")
  else next.

Definition invalid_payload : reply := HTTPError 400 "invalid payload".
Definition ok_data (members : list (string * json)) : reply := JSON 200 (JObj (("ok", JBool true) :: members)).
Definition str_list (l : list string) : json := JArr (map JStr l).

(** * Docker sites *)

Definition detectDockerLanguage (image : string) : string :=
  let img := to_lower image in
  if contains img "nginx" then "static"
  else if contains img "node" || contains img "bun" then "node"
  else if contains img "python" then "python"
  else if contains img "php" then "php"
  else if contains img "golang" || contains img "go:" then "go"
  else if contains img "ruby" then "ruby"
  else if contains img "java" || contains img "temurin" then "java"
  else if contains img "rust" then "rust" else "static".
Definition dockerContainerPort (lang image : string) : Z :=
  if str_in ["node"; "ruby"] lang then 3000 else if (lang =? "python")%string then 8000
  else if str_in ["go"; "java"] lang then 8080 else if (lang =? "rust")%string then 8080 else 80.
Definition dockerMountTarget (lang image : string) : string :=
  if contains (to_lower image) "nginx" then "/usr/share/nginx/html"
  else if (lang =? "php")%string then "/var/www/html"
  else if str_in ["node"; "python"; "go"; "ruby"; "java"; "rust"] lang then "/app" else "/var/www/html".
Definition dockerWorkDir (lang : string) : string :=
  if str_in ["node"; "python"; "go"; "ruby"; "java"; "rust"] lang then "/app" else "/".
Definition dockerDefaultCmd (lang : string) : string :=
  if (lang =? "node")%string then "npm install && node server.js"
  else if (lang =? "python")%string then "pip install -r requirements.txt 2>/dev/null; python3 app.py"
  else if (lang =? "go")%string then "go run main.go"
  else if (lang =? "ruby")%string then "bundle install 2>/dev/null; ruby app.rb"
  else if (lang =? "java")%string then "javac Main.java && java Main"
  else if (lang =? "rust")%string then "rustc main.rs -o /app/main && /app/main" else "".

Record SiteCreate := mkSiteCreate {
  sc_site : Z; sc_name : string; sc_domain : string; sc_runtime : string; sc_root : string; sc_port : Z; sc_proxy : string;
  sc_php : string; sc_ini : string; sc_image : string; sc_language : string; sc_docker : string; sc_ports : string;
  sc_env : string; sc_volume : string; sc_restart : string }.

(** A Go map is ranged over in some order. *)
Class MapRange := {
  range : list (string * string) → list (string * string);
  range_in : ∀ l x, In x (range l) → In x l }.

Section Site.
Context `{HR : MapRange}.

(** Files of a site that do not exist yet. *)
Definition file_missing (path : string) : prog bool :=
  let! t := RunShell "test" ["-f"; path] in Ret (negb (is_nil t.2)).
Definition write_missing (path content : string) : prog unit :=
  let! missing := file_missing path in
  if missing : bool then let! _ := perform (WriteFile path content) in Ret () else Ret ().
Definition write_files (root : string) (files : list (string * string)) : prog unit :=
  pfor (range files) (λ f, write_missing (path_join root f.1) f.2).
Definition starter_files (p : SiteCreate) : prog unit :=
  match TemplateForRuntime (sc_runtime p) (sc_domain p) (sc_port p) with
  | Some files => write_files (sc_root p) files
  | None => write_missing (path_join (sc_root p) "index.html") ("<h1>" +:+ sc_domain p +:+ "</h1><p>Site created via SigardaPanel</p>")
  end.

(** The port on the host for the container: the next free one of a hundred, or the first. *)
Definition auto_port (site i : Z) : Z := 10000 + Z.rem (wrap64 (site + i)) 50000.
Fixpoint next_port (n : nat) (i site : Z) : prog (option Z) :=
  match n with
  | O => Ret None
  | S n' =>
      let! free := perform (Listen (itoa (auto_port site i))) in
      if free : bool then Ret (Some (auto_port site i)) else next_port n' (i + 1) site
  end.
Definition port_pair (host container : Z) : string := itoa host +:+ ":" +:+ itoa container.
Definition host_ports (p : SiteCreate) (container : Z) : prog string :=
  let fallback := port_pair (auto_port (sc_site p) 0) container in
  if negb (sc_ports p =? "")%string then
    let! free := perform (Listen (hd "" (split ":" (sc_ports p)))) in
    Ret (if free : bool then sc_ports p else fallback)
  else
    let! port := next_port 100 0 (sc_site p) in
    Ret (match port with Some h => port_pair h container | None => fallback end).

(** The non-empty trimmed parts, each after the flag. *)
Definition flagged (flag : string) (sep : ascii) (s : string) : list string :=
  flat_map (λ v, if (trim_space v =? "")%string then [] else [flag; trim_space v]) (split sep s).
Definition docker_args (p : SiteCreate) (image lang name ports : string) : list string :=
  ["run"; "-d"; "--name"; name; "--security-opt"; "no-new-privileges"] ++
  ["--restart"; if negb (sc_restart p =? "")%string && negb (sc_restart p =? "no")%string then sc_restart p else "unless-stopped"] ++
  ["-p"; ports] ++
  (if negb (sc_root p =? "")%string then ["-v"; sc_root p +:+ ":" +:+ dockerMountTarget lang image] else []) ++
  (if negb (sc_volume p =? "")%string then flagged "-v" "," (sc_volume p) else []) ++
  (if negb (sc_env p =? "")%string then flagged "-e" LF (sc_env p) else []) ++
  (if negb (lang =? "static")%string && negb (lang =? "")%string then ["-w"; dockerWorkDir lang] else []) ++
  [image] ++
  (if negb (dockerDefaultCmd lang =? "")%string && negb (contains (sc_env p) "CMD=" || contains (sc_env p) "ENTRYPOINT=")
   then ["/bin/sh"; "-c"; dockerDefaultCmd lang] else []).

Definition container_name (p : SiteCreate) : string :=
  if (sc_docker p =? "")%string
  then "site-" +:+ replace_chr (λ c, if Ascii.eqb c " " then Some "-" else None) (sc_name p)
  else sc_docker p.
(** The proxied address of the container that was created, or the refusal. *)
Definition create_container (p : SiteCreate) : prog (string + reply) :=
  let image := if (sc_image p =? "")%string then "nginx:alpine" else sc_image p in
  match DockerOptions image (sc_docker p) (sc_ports p) (sc_env p) (sc_volume p) (sc_restart p) (sc_language p) (sc_root p) with
  | Some e => Ret (inr (HTTPError 400 e))
  | None =>
      let lang := if (sc_language p =? "")%string then detectDockerLanguage image else sc_language p in
      let! _ := if contains (to_lower image) "bitnami" then Ret ()
                else let! _ := perform (MkdirAll (sc_root p)) in write_files (sc_root p) (dockerHelloWorld lang (sc_domain p)) in
      let name := container_name p in
      match DockerName name with
      | Some e => Ret (inr (HTTPError 400 e))
      | None =>
          let! pull := RunShell "docker" ["pull"; image] in
          match pull with
          | (out, Some _) => Ret (inr (HTTPError 500 ("docker pull failed: " +:+ trim_space out)))
          | (_, None) =>
              let! _ := RunShell "docker" ["rm"; "-f"; name] in
              let! ports := host_ports p (dockerContainerPort lang image) in
              let! _ := if (sc_root p =? "")%string then Ret nil_error else perform (MkdirAll (sc_root p)) in
              let! created := RunShell "docker" (docker_args p image lang name ports) in
              match created with
              | (out, Some _) => Ret (inr (HTTPError 500 ("docker create failed: " +:+ trim_space out)))
              | (_, None) => Ret (inl (if (sc_proxy p =? "")%string then "http://127.0.0.1:" +:+ hd "" (split ":" ports) else sc_proxy p))
              end
          end
      end
  end.

(** * The virtual host *)

(** The sockets of PHP that [phpFpmAddr] looks for, in its order. *)
Fixpoint find_socket (versions : list string) : prog (string → bool) :=
  match versions with
  | [] => Ret (λ _, false)
  | v :: vs =>
      let! s := perform (Stat (socket_path v)) in
      match (s : stat_result) with Found _ => Ret (λ p, (p =? socket_path v)%string) | _ => find_socket vs end
  end.
Definition php_sockets (version : string) : prog (string → bool) :=
  find_socket (if existsb (λ p, (p.1 =? version)%string) portMap then [version] else ["8.3"; "8.4"; "8.2"; "8.1"; "8.0"]).
(** [nginx.GenerateVhost] of a site without security settings. *)
Definition generate_vhost (s : site_row) (port : Z) : prog (res string) :=
  match GenerateVhost (λ _, false) (λ _ _, nil_error) s port None with
  | Err e => Ret (Err e)
  | Ok _ =>
      let! stat := php_sockets (default "" (s_php_version s)) in
      Ret (GenerateVhost stat (λ _ _, nil_error) s port None)
  end.
(** The [store.Site] of a payload; the other fields are zero. *)
Definition site_of_task (p : SiteCreate) (proxy : string) : site_row :=
  SiteRow 0 0 "" (sc_domain p) (sc_runtime p) (sc_root p) "" None None None None None None None None None None None None None
    (JobStore.null_if_empty proxy) None None None None (JobStore.null_if_empty (sc_php p)) (JobStore.null_if_empty (sc_ini p)) None 0 0.

Definition vhost_path (r : AgentRouter) (domain : string) : string := path_join (nginxConfDir r) (domain +:+ ".conf").
Definition logrotate_path (domain : string) : string := path_join "/etc/logrotate.d" ("sigarda_" +:+ domain).

Definition install_site (r : AgentRouter) (p : SiteCreate) (proxy : string) : prog reply :=
  let! g := generate_vhost (site_of_task p proxy) (sc_port p) in
  match g with
  | Err e => Ret (HTTPError 400 ("config gen failed: " +:+ e))
  | Ok config =>
      let path := vhost_path r (sc_domain p) in
      let! w := perform (WriteFile path config) in
      match (w : error) with
      | Some e => Ret (HTTPError 500 ("write nginx config failed: " +:+ e))
      | None =>
          let! crt := RunShell "test" ["-f"; "/etc/nginx/ssl/sigardapanel.crt"] in
          let! _ := match crt.2 with
                    | None => RunShell "bash" ["/root/SigardaPanel-Enterprise/scripts/regenerate-ssl.sh"]
                    | Some _ => Ret crt
                    end in
          let! _ := RunShell "rm" ["-f"; logrotate_path (sc_domain p)] in
          let! t := RunShell "nginx" ["-t"] in
          match t with
          | (out, Some _) => Ret (HTTPError 500 ("nginx test failed: " +:+ trim_space out))
          | (out, None) =>
              let! _ := RunShell "nginx" ["-s"; "reload"] in
              Ret (ok_data [("message", JStr ("site " +:+ sc_domain p +:+ " created (runtime: " +:+ sc_runtime p +:+ ")"));
                ("root_path", JStr (sc_root p)); ("nginx_config", JStr path); ("proxy_pass_url", JStr proxy);
                ("nginx_test_output", JStr (trim_space out))])
          end
      end
  end.
Definition siteCreateTask (r : AgentRouter) (payload : option SiteCreate) : prog reply :=
  match payload with
  | None => Ret invalid_payload
  | Some p =>
      if negb (isValidDomain (sc_domain p)) || negb (isAllowedSitePath r (sc_root p)) then Ret (HTTPError 400 "invalid domain or path")
      else
        let! m := perform (MkdirAll (sc_root p)) in
        match (m : error) with
        | Some e => Ret (HTTPError 500 ("mkdir failed: " +:+ e))
        | None =>
            let! _ := starter_files p in
            if (sc_runtime p =? "docker")%string then
              let! c := create_container p in
              match c with inr rep => Ret rep | inl proxy => install_site r p proxy end
            else install_site r p (sc_proxy p)
        end
  end.
End Site.

(** * Deleting a site *)

Definition appServiceName (siteID : Z) : string := "sigarda-app-" +:+ itoa siteID.
Definition unit_path (svc : string) : string := path_join "/etc/systemd/system" (svc +:+ ".service").

(** [strings.Trim] with a set of bytes. *)
Definition trim_left_set (cs s : string) : string := (span (chr_in cs) s).2.
Definition trim_set (cs s : string) : string := str_rev (trim_left_set cs (str_rev (trim_left_set cs s))).
(** Every run of other bytes becomes one dash. *)
Definition backup_char (c : ascii) : bool := is_lower c || is_digit c || chr_in ".-_" c.
Fixpoint dash_runs (after_dash : bool) (s : string) : string :=
  match s with
  | EmptyString => EmptyString
  | String c s' =>
      if backup_char c then String c (dash_runs false s')
      else if after_dash then dash_runs true s' else String "-" (dash_runs true s')
  end.
Definition sanitizeBackupName (s : string) : string := trim_set "-_." (dash_runs false (trim_space (to_lower s))).

Record SiteDelete := mkSiteDelete { sd_site : Z; sd_domain : string; sd_root : string }.

Section Tasks.
Variable r : AgentRouter.

(** [removeGeneratedFile]. *)
Definition remove_generated (path root : string) : prog error :=
  match removeGeneratedFile path root with
  | (_, Some target) => perform (RemoveAll target)
  | (e, None) => Ret e
  end.
(** [cleaned] and [errs] grow as the steps succeed and fail. *)
Definition note (label : string) (ok : bool) : list string := if ok then [label] else [].
Definition failure (label : string) (e : error) : list string := match e with Some m => [label +:+ ": " +:+ m] | None => [] end.

Definition htpasswd_path (domain : string) : string := "/etc/nginx/.htpasswd_" +:+ domain.
Definition remove_service (svc : string) : prog bool :=
  let! stop := RunShell "systemctl" ["stop"; svc] in
  if is_nil stop.2 then
    let! _ := RunShell "systemctl" ["disable"; svc] in
    let! _ := RunShell "rm" ["-f"; "/etc/systemd/system/" +:+ svc +:+ ".service"] in
    let! _ := RunShell "systemctl" ["daemon-reload"] in
    Ret true
  else Ret false.
Definition remove_certificate (domain : string) : prog unit :=
  let! certbot := perform (LookPath "certbot") in
  if certbot : bool then let! _ := RunShell "certbot" ["delete"; "--non-interactive"; "--cert-name"; domain] in Ret () else Ret ().
Definition remove_htpasswd (domain : string) : prog bool :=
  let! s := exists_path (htpasswd_path domain) in
  if is_nil s.2 then let! _ := RunShell "rm" ["-f"; htpasswd_path domain] in Ret true else Ret false.
Definition siteDeleteTask (payload : option SiteDelete) : prog reply :=
  match payload with
  | None => Ret invalid_payload
  | Some p =>
      let domain := sd_domain p in
      if negb (isValidDomain domain) || negb (isAllowedSitePath r (sd_root p)) then Ret (HTTPError 400 "invalid domain or path")
      else
        let! service := remove_service (appServiceName (sd_site p)) in
        let! conf := remove_generated (vhost_path r domain) (nginxConfDir r) in
        let! rotate := RunShell "rm" ["-f"; "/etc/logrotate.d/sigarda_" +:+ domain] in
        let! _ := remove_certificate domain in
        let! root := perform (RemoveAll (sd_root p)) in
        let! htpasswd := remove_htpasswd domain in
        let! _ := RunShell "rm" ["-f"; path_join (logDir r) (domain +:+ ".access.log")] in
        let! _ := RunShell "rm" ["-f"; path_join (logDir r) (domain +:+ ".error.log")] in
        let! _ := perform (RemoveAll (path_clean (backupDir r +:+ "/sites/" +:+ sanitizeBackupName domain))) in
        let! _ := perform (RemoveAll ("/var/www/certbot/" +:+ domain)) in
        let! t := RunShell "nginx" ["-t"] in
        let! _ := RunShell "systemctl" ["reload"; "nginx"] in
        let cleaned := note "app service" service ++ note "nginx config" (is_nil conf) ++ note "logrotate config" (is_nil rotate.2) ++
          note "site files" (is_nil root) ++ note "htpasswd" htpasswd in
        let errs := failure "nginx config" conf ++ failure "site root" root ++
          match t with (out, Some _) => ["nginx test: " +:+ trim_space out] | _ => [] end in
        Ret (ok_data [("message", JStr ("site " +:+ domain +:+ " deleted. Cleaned up: " +:+ join ", " cleaned +:+
                        (if (0 <? Z.of_nat (length errs)) then ". Errors: " +:+ join "; " errs else "")));
          ("cleaned", str_list cleaned); ("errors", str_list errs)])
  end.

(** * Git *)

(** The owner of a path, unless it is a symbolic link to refuse. *)
Definition is_symlink (s : stat_result) : bool := match s with Found f => fi_link f | _ => false end.
Definition runGit (rootPath : string) (args : list string) : prog (string * error) :=
  let gitDir := path_join rootPath ".git" in
  let! l := perform (Lstat gitDir) in
  if is_symlink l then Ret ("", errorf "refusing to run git: .git is a symlink")
  else
    let! o := perform (Lstat gitDir) in
    match (o : stat_result) with
    | Found f => if negb (fi_uid f =? 0) then RunAsUser (fi_uid f) (fi_gid f) rootPath "git" (["-C"; rootPath] ++ args)
                 else RunShell "git" (["-C"; rootPath] ++ args)
    | _ => RunShell "git" (["-C"; rootPath] ++ args)
    end.
Definition siteUserIDs (name : string) : prog (option (Z * Z)) :=
  match SiteInput.SystemUser name with
  | Some _ => Ret None
  | None =>
      let! u := perform (LookupUser name) in
      Ret (match (u : option (string * string)) with
           | Some (uid, gid) =>
               if (uid =? "0")%string then None
               else match parse_uint32 uid, parse_uint32 gid with Some a, Some b => Some (a, b) | _, _ => None end
           | None => None
           end)
  end.

(** * Deploying a site *)

Record SiteDeploy := mkSiteDeploy {
  dp_site : Z; dp_domain : string; dp_repo : string; dp_branch : string; dp_root : string; dp_runtime : string;
  dp_status : string; dp_port : Z; dp_command : string; dp_user : string; dp_memory : Z }.

(** The clone, or the pull of what is there; [Some]: the refusal. *)
Definition checkout (p : SiteDeploy) (owner : option (Z * Z)) (is_repo : bool) : prog (option reply) :=
  if is_repo then
    let! o := runGit (dp_root p) ["pull"; "origin"; dp_branch p] in
    Ret (match o with (out, Some _) => Some (HTTPError 500 ("git pull failed: " +:+ trim_space out)) | _ => None end)
  else
    let! o := RunShell "git" ["clone"; "-b"; dp_branch p; "--"; dp_repo p; dp_root p] in
    match o with
    | (out, Some _) => Ret (Some (HTTPError 500 ("git clone failed: " +:+ trim_space out)))
    | (_, None) =>
        match owner with
        | Some (uid, gid) => let! _ := RunShell "chown" ["-R"; itoa uid +:+ ":" +:+ itoa gid; dp_root p] in Ret None
        | None => Ret None
        end
    end.
(** The file that calls for an installation, and its command. *)
Definition installer (runtime : string) : option (string * (string * list string)) :=
  if (runtime =? "node")%string then Some ("package.json", ("npm", ["install"; "--production"]))
  else if (runtime =? "python")%string then Some ("requirements.txt", ("pip", ["install"; "-r"; "requirements.txt"]))
  else if (runtime =? "go")%string then Some ("go.mod", ("go", ["mod"; "download"]))
  else None.
(** [Stat] reports a missing file by its first result, which is not looked at. *)
Definition install_deps (p : SiteDeploy) (owner : option (Z * Z)) : prog string :=
  match installer (dp_runtime p) with
  | None => Ret ""
  | Some (file, (name, args)) =>
      let! s := exists_path (path_join (dp_root p) file) in
      match s.2, owner with
      | Some _, _ => Ret ""
      | None, None => Ret "dependency install skipped: site has no valid non-root system_user"
      | None, Some (uid, gid) => let! o := RunAsUser uid gid (dp_root p) name args in Ret (trim_space o.1)
      end
  end.
Definition restart_app (p : SiteDeploy) : prog string :=
  if (dp_status p =? "running")%string && (0 <? dp_port p) then
    let svc := appServiceName (dp_site p) in
    let! o := RunShell "systemctl" ["restart"; svc] in
    if is_nil o.2 then
      let! a := RunShell "systemctl" ["is-active"; svc] in
      if (trim_space a.1 =? "active")%string then Ret ("app restarted on port " +:+ itoa (dp_port p))
      else
        let! l := RunShell "journalctl" ["-u"; svc; "-n"; "10"; "--no-pager"] in
        Ret ("app restart failed: " +:+ trim_space l.1)
    else Ret "app restart skipped (service not found)"
  else Ret "".
Definition siteDeployTask (payload : option SiteDeploy) : prog reply :=
  match payload with
  | None => Ret invalid_payload
  | Some p =>
      if negb (isValidGitURL (dp_repo p)) then Ret (HTTPError 400 "invalid repo URL")
      else if negb (dp_branch p =? "")%string && negb (isValidGitRef (dp_branch p)) then Ret (HTTPError 400 "invalid branch name")
      else if negb (isAllowedSitePath r (dp_root p)) then Ret (HTTPError 400 "invalid root_path")
      else
        let! e := exists_path (dp_root p) in
        let! g := if e.1 : bool then exists_path (path_join (dp_root p) ".git") else Ret (false, nil_error) in
        let! owner := siteUserIDs (dp_user p) in
        let! refused := checkout p owner (e.1 && g.1) in
        match refused with
        | Some rep => Ret rep
        | None =>
            let! head := runGit (dp_root p) ["rev-parse"; "HEAD"] in
            let commit := trim_space head.1 in
            let! installed := install_deps p owner in
            let! restarted := restart_app p in
            Ret (ok_data ([("message", JStr ("deployed " +:+ dp_branch p +:+ "@" +:+ commit)); ("commit", JStr commit)] ++
              (if (installed =? "")%string then [] else [("install_output", JStr installed)]) ++
              (if (restarted =? "")%string then [] else [("restart", JStr restarted)])))
        end
  end.

(** * nginx, certificates and logs *)

Definition nginxReloadTask : prog reply :=
  let! o := RunShell "systemctl" ["reload"; "nginx"] in
  Ret (match o with
       | (out, Some e) => ok_data [("message", JStr "nginx reload attempted but systemctl may be unavailable");
                                   ("warning", JStr (trim_space (out +:+ " " +:+ e)))]
       | (out, None) => ok_data [("message", JStr "nginx reloaded"); ("output", JStr (trim_space out))]
       end).

Definition webroot (domain : string) : string := "/var/www/certbot/" +:+ domain.
Definition cert_path (domain : string) : string := "/etc/letsencrypt/live/" +:+ domain +:+ "/fullchain.pem".
Definition expiry (o : string * error) : string :=
  match o with (out, None) => match split2 "=" out with (_, Some d) => trim_space d | _ => "" end | _ => "" end.
(** 90 days. *)
Definition stub_lifetime : Z := 90 * 24 * 3600 * 1000000000.
Definition sslIssueTask (payload : option (Z * string * string)) : prog reply :=
  match payload with
  | None => Ret invalid_payload
  | Some (_, domain, email) =>
      if negb (isValidDomain domain) then Ret (HTTPError 400 "invalid domain")
      else
        let! certbot := perform (LookPath "certbot") in
        if negb certbot then
          if negb (allowStubSSL r) then Ret (HTTPError 424 "certbot not installed")
          else
            let! now := perform Now in
            let! expires := perform (LocalTime (now + stub_lifetime)) in
            Ret (ok_data [("message", JStr "certbot not installed on this host — returning stub cert"); ("expires_at", JStr expires);
              ("stub", JBool true)])
        else
          let! _ := perform (MkdirAll (webroot domain)) in
          let! o := RunShell "certbot" ["certonly"; "--webroot"; "-w"; webroot domain; "-d"; domain; "--email"; email;
                      "--agree-tos"; "--no-eff-email"; "--non-interactive"] in
          match o with
          | (out, Some _) => Ret (HTTPError 500 ("certbot failed: " +:+ out))
          | (_, None) =>
              let! x := RunShell "openssl" ["x509"; "-enddate"; "-noout"; "-in"; cert_path domain] in
              Ret (ok_data [("message", JStr "certificate issued"); ("domain", JStr domain); ("cert_path", JStr (cert_path domain));
                ("expires", JStr (expiry x))])
          end
  end.
Definition sslRenewTask (payload : option (Z * string)) : prog reply :=
  match payload with
  | None => Ret invalid_payload
  | Some (_, domain) =>
      if negb (isValidDomain domain) then Ret (HTTPError 400 "invalid domain")
      else
        let! certbot := perform (LookPath "certbot") in
        if negb certbot then
          Ret (if negb (allowStubSSL r) then HTTPError 424 "certbot not installed"
               else ok_data [("message", JStr "certbot not installed — stub response"); ("stub", JBool true)])
        else
          let! o := RunShell "certbot" ["renew"; "--cert-name"; domain; "--non-interactive"] in
          match o with
          | (out, Some _) => Ret (HTTPError 500 ("certbot renew failed: " +:+ out))
          | (out, None) =>
              let! _ := RunShell "nginx" ["-s"; "reload"] in
              Ret (ok_data [("message", JStr "certificate renewed"); ("domain", JStr domain); ("output", JStr out)])
          end
  end.

Record LogsRead := mkLogsRead { lr_site : Z; lr_domain : string; lr_type : string; lr_lines : Z }.
Definition log_path (p : LogsRead) : string := path_join (logDir r) (lr_domain p +:+ "." +:+ lr_type p +:+ ".log").
(** [strings.TrimRight(s, "\n")]. *)
Definition trim_newlines (s : string) : string := str_rev (trim_left_chr LF (str_rev s)).
Definition logsReadTask (payload : option LogsRead) : prog reply :=
  match payload with
  | None => Ret invalid_payload
  | Some p =>
      let lines := if (lr_lines p <=? 0) || (10000 <? lr_lines p) then 100 else lr_lines p in
      if negb (str_in ["access"; "error"] (lr_type p)) then Ret (HTTPError 400 "type must be access or error")
      else if negb (isValidDomain (lr_domain p)) then Ret (HTTPError 400 "invalid domain")
      else
        let! e := exists_path (log_path p) in
        if negb e.1 then
          Ret (ok_data [("path", JStr (log_path p)); ("lines", str_list []); ("message", JStr "log file does not exist yet")])
        else
          let! o := RunShell "tail" ["-n"; itoa lines; log_path p] in
          match o with
          | (out, Some _) => Ret (HTTPError 500 ("tail failed: " +:+ trim_space out))
          | (out, None) =>
              Ret (ok_data [("path", JStr (log_path p));
                ("lines", str_list (if (trim_newlines out =? "")%string then [] else split LF (trim_newlines out)))])
          end
  end.
End Tasks.
