(* ===== verification/AgentApp.v ===== *)
(** App services and git on the agent: src/internal/agenthttp/app_process.go and the tasks of
    git.go. *)
From S2P Require Import Prelude GoStr Paths Regex SiteInput AgentValidate Json Sql Http Host AgentSite.
Local Open Scope Z_scope.
Local Open Scope panel_scope.

Set Default Proof Using "Type".

(** * The unit of an app *)

(** The replacer of [systemdQuote]. *)
Definition systemd_escape (c : ascii) : option string :=
  if Ascii.eqb c BS then Some (String BS (String BS ""))
  else if Ascii.eqb c DQ then Some (String BS (String DQ ""))
  else if Ascii.eqb c "%" then Some "%%"
  else if Ascii.eqb c "$" then Some "$$"
  else if Ascii.eqb c LF then Some (String BS "n")
  else if Ascii.eqb c CR then Some (String BS "r")
  else None.
Definition systemdQuote (s : string) : string := String DQ (replace_chr systemd_escape s +:+ String DQ "").

(** The unit, line by line; the memory limits wrap around like any [int64]. *)
Definition memory_max (memoryMaxMB : Z) : Z := if memoryMaxMB <=? 0 then 512 else memoryMaxMB.
Definition memory_high (memoryMaxMB : Z) : Z := Z.quot (wrap64 (memory_max memoryMaxMB * 3)) 4.
Definition unit_lines (domain systemUser rootPath command : string) (port memoryMaxMB : Z) : list string :=
  ["[Unit]";
   "Description=SigardaPanel App: " +:+ domain;
   "After=network.target postgresql.service redis-server.service";
   "";
   "[Service]";
   "Type=simple";
   "WorkingDirectory=" +:+ rootPath;
   "ExecStart=/bin/sh -lc " +:+ systemdQuote ("exec " +:+ command);
   "Restart=always";
   "RestartSec=5";
   (if (systemUser =? "")%string then "" else "User=" +:+ systemUser);
   "EnvironmentFile=-" +:+ rootPath +:+ "/.env";
   "Environment=PORT=" +:+ itoa port;
   "Environment=NODE_ENV=production";
   "Environment=PATH=/root/.hermes/node/bin:/usr/local/bin:/usr/bin:/bin:/usr/sbin:/sbin";
   "# Resource limits (hemat resource)";
   "MemoryMax=" +:+ itoa (memory_max memoryMaxMB) +:+ "M";
   "MemoryHigh=" +:+ itoa (memory_high memoryMaxMB) +:+ "M";
   "CPUWeight=50";
   "TasksMax=256";
   "# Security hardening";
   "NoNewPrivileges=true";
   "PrivateTmp=true";
   "";
   "[Install]";
   "WantedBy=multi-user.target";
   ""].
Definition systemdUnitContent (domain systemUser rootPath command : string) (port memoryMaxMB : Z) : string :=
  join (String LF "") (unit_lines domain systemUser rootPath command port memoryMaxMB).

(** No control character in the command, decoded as runes: the bytes of the longer
    encodings are not below 128. *)
Definition command_char (c : ascii) : bool := negb ((code c <? 32) || (code c =? 127)).
(** [user.Lookup] finds somebody other than root. *)
Definition known_user (u : option (string * string)) : bool :=
  match u with Some (uid, _) => negb (uid =? "0")%string | None => false end.
Definition validateAppUnitInput (domain systemUser rootPath command : string) : prog error :=
  if negb (isValidDomain domain) then Ret (errorf "invalid domain")
  else match SiteInput.RootPath rootPath with
  | Some e => Ret (Some e)
  | None =>
      match SiteInput.SystemUser systemUser with
      | Some _ => Ret (errorf "a valid non-root system_user is required to run an app")
      | None =>
          let! u := perform (LookupUser systemUser) in
          Ret (if negb (known_user u) then errorf ("system_user " +:+ Agent.go_quote systemUser +:+ " does not exist or is root")
               else if (command =? "")%string || (1024 <? len command) then errorf "invalid app command"
               else if str_all command_char command then nil_error
               else errorf "app command must be a single line without control characters")
      end
  end.

Record AppTask := mkAppTask {
  at_site : Z; at_domain : string; at_root : string; at_user : string; at_port : Z; at_command : string; at_memory : Z }.
Definition unit_of (p : AppTask) : string :=
  systemdUnitContent (at_domain p) (at_user p) (at_root p) (at_command p) (at_port p) (at_memory p).

(** What a started or restarted app answers. *)
Definition app_answer (p : AppTask) (svc verb : string) (suffix : string) : prog reply :=
  let! a := RunShell "systemctl" ["is-active"; svc] in
  if (trim_space a.1 =? "active")%string
  then Ret (ok_data [("app_status", JStr "running"); ("message", JStr ("app " +:+ at_domain p +:+ " " +:+ verb +:+ "ed" +:+ suffix))])
  else
    let! l := RunShell "journalctl" ["-u"; svc; "-n"; "20"; "--no-pager"] in
    Ret (JSON 200 (JObj [("ok", JBool false); ("app_status", JStr "errored");
      ("message", JStr ("app " +:+ at_domain p +:+ " failed to " +:+ verb)); ("logs", JStr (trim_space l.1))])).

Section Tasks.
Variable r : AgentRouter.

Definition start_service (p : AppTask) : prog reply :=
  let svc := appServiceName (at_site p) in
  let! w := perform (WriteFile (unit_path svc) (unit_of p)) in
  match (w : error) with
  | Some e => Ret (HTTPError 500 ("write unit failed: " +:+ e))
  | None =>
      let! d := RunShell "systemctl" ["daemon-reload"] in
      match d with
      | (out, Some _) => Ret (HTTPError 500 ("daemon-reload failed: " +:+ trim_space out))
      | (_, None) =>
          let! _ := RunShell "systemctl" ["enable"; svc] in
          let! s := RunShell "systemctl" ["restart"; svc] in
          match s with
          | (out, Some _) => Ret (HTTPError 500 ("start failed: " +:+ trim_space out))
          | (_, None) => app_answer p svc "start" (" (port " +:+ itoa (at_port p) +:+ ")")
          end
      end
  end.
Definition appStartTask (payload : option AppTask) : prog reply :=
  match payload with
  | None => Ret invalid_payload
  | Some p =>
      if negb (isValidDomain (at_domain p)) || negb (isAllowedSitePath r (at_root p)) then Ret (HTTPError 400 "invalid domain or path")
      else if (at_command p =? "")%string || (at_port p <=? 0) then Ret (HTTPError 400 "missing app command or port")
      else
        let! v := validateAppUnitInput (at_domain p) (at_user p) (at_root p) (at_command p) in
        match v with
        | Some e => Ret (HTTPError 400 e)
        | None => start_service p
        end
  end.

Definition appStopTask (payload : option (Z * string)) : prog reply :=
  match payload with
  | None => Ret invalid_payload
  | Some (site, domain) =>
      let! _ := RunShell "systemctl" ["stop"; appServiceName site] in
      Ret (ok_data [("app_status", JStr "stopped"); ("message", JStr ("app " +:+ domain +:+ " stopped"))])
  end.

(** A unit that does not validate is left as it is, and the service restarted with it. *)
Definition rewrite_unit (p : AppTask) : prog unit :=
  if negb (at_command p =? "")%string && (0 <? at_port p) && isValidDomain (at_domain p) && isAllowedSitePath r (at_root p) then
    let! v := validateAppUnitInput (at_domain p) (at_user p) (at_root p) (at_command p) in
    match v with
    | Some _ => Ret ()
    | None =>
        let! w := perform (WriteFile (unit_path (appServiceName (at_site p))) (unit_of p)) in
        match (w : error) with
        | None => let! _ := RunShell "systemctl" ["daemon-reload"] in Ret ()
        | Some _ => Ret ()
        end
    end
  else Ret ().
Definition appRestartTask (payload : option AppTask) : prog reply :=
  match payload with
  | None => Ret invalid_payload
  | Some p =>
      let svc := appServiceName (at_site p) in
      let! _ := rewrite_unit p in
      let! s := RunShell "systemctl" ["restart"; svc] in
      match s with
      | (out, Some _) => Ret (HTTPError 500 ("restart failed: " +:+ trim_space out))
      | (_, None) => app_answer p svc "restart" ""
      end
  end.

(** * Git *)

Definition not_ok (members : list (string * json)) : reply := JSON 200 (JObj (("ok", JBool false) :: members)).
(** The guards that the four tasks share: the path, and that [.git] can be looked at. *)
Definition allowed_root (path : string) (k : prog reply) : prog reply :=
  if (path =? "")%string || negb (isAllowedSitePath r path) then Ret (HTTPError 400 "invalid root_path") else k.
Definition if_git (path : string) (no : reply) (k : prog reply) : prog reply :=
  let! s := exists_path (path_join path ".git") in
  match s.2 with Some _ => Ret no | None => k end.

Definition git_lines (output : string) : list string :=
  List.filter (λ l, negb (l =? "")%string) (map trim_space (split LF (trim_space output))).
Definition gitBranchesTask (root : string) : prog reply :=
  allowed_root root (if_git root (not_ok [("branches", str_list []); ("error", JStr "not a git repository")]) (
    let! current := runGit root ["branch"; "--show-current"] in
    let! all := runGit root ["branch"; "-a"; "--format"; "%(refname:short)"] in
    Ret (match all with
         | (_, Some e) => not_ok [("branches", str_list []); ("error", JStr e)]
         | (out, None) =>
             ok_data [("branches", match git_lines out with [] => JNull | l => str_list l end); ("current", JStr (trim_space current.1))]
         end))).

(** [strings.SplitN(line, "|", 5)], when there are five parts. *)
Definition log_entry (line : string) : option json :=
  match split2 "|" line with
  | (h, Some r1) => match split2 "|" r1 with
    | (s, Some r2) => match split2 "|" r2 with
      | (m, Some r3) => match split2 "|" r3 with
        | (a, Some d) => Some (JObj [("hash", JStr h); ("short", JStr s); ("message", JStr m); ("author", JStr a); ("date", JStr d)])
        | _ => None end
      | _ => None end
    | _ => None end
  | _ => None
  end.
Definition gitLogTask (root lines : string) : prog reply :=
  allowed_root root (if_git root (not_ok [("commits", JArr []); ("error", JStr "not a git repository")]) (
    let! o := runGit root ["log"; "--pretty=format:%H|%h|%s|%an|%ai"; "-n"; if (lines =? "")%string then "20" else lines] in
    Ret (match o with
         | (_, Some e) => not_ok [("commits", JArr []); ("error", JStr e)]
         | (out, None) =>
             let commits := omap log_entry (split LF (trim_space out)) in
             ok_data [("commits", match commits with [] => JNull | l => JArr l end); ("total", JInt (Z.of_nat (length commits)))]
         end))).

Definition if_ref (ref missing invalid : string) (k : prog reply) : prog reply :=
  if (ref =? "")%string then Ret (HTTPError 400 missing)
  else if negb (isValidGitRef ref) then Ret (HTTPError 400 invalid) else k.
Definition rollback_to (root commit : string) : prog reply :=
  let! b := runGit root ["branch"; "--show-current"] in
  let current := if (trim_space b.1 =? "")%string then "main" else trim_space b.1 in
  let backup := "backup-before-rollback-" +:+ (if 8 <? len commit then str_take 8 commit else commit) in
  let! _ := runGit root ["branch"; backup; current] in
  let! o := runGit root ["checkout"; commit] in
  match o with
  | (out, Some _) => Ret (not_ok [("message", JStr ("rollback failed: " +:+ trim_space out))])
  | (_, None) =>
      let! h := runGit root ["rev-parse"; "--short"; "HEAD"] in
      Ret (ok_data [("message", JStr ("rolled back to " +:+ commit)); ("new_head", JStr (trim_space h.1)); ("backup_branch", JStr backup)])
  end.
Definition gitRollbackTask (payload : option (string * string)) : prog reply :=
  match payload with
  | None => Ret invalid_payload
  | Some (root, commit) =>
      allowed_root root (if_ref commit "commit hash is required" "invalid commit hash" (
        if_git root (HTTPError 400 "not a git repository") (
          let! t := runGit root ["cat-file"; "-t"; commit] in
          match t.2 with
          | Some _ => Ret (HTTPError 400 "invalid commit hash")
          | None => rollback_to root commit
          end)))
  end.
Definition gitCheckoutTask (payload : option (string * string)) : prog reply :=
  match payload with
  | None => Ret invalid_payload
  | Some (root, branch) =>
      allowed_root root (if_ref branch "branch is required" "invalid branch name" (
        if_git root (HTTPError 400 "not a git repository") (
          let! _ := runGit root ["fetch"; "--all"] in
          let! o := runGit root ["checkout"; branch] in
          match o with
          | (out, Some _) => Ret (not_ok [("message", JStr ("checkout failed: " +:+ trim_space out))])
          | (_, None) =>
              let! p := runGit root ["pull"; "origin"; branch] in
              Ret (ok_data [("message", JStr ("switched to branch " +:+ branch)); ("pull", JStr (trim_space p.1))])
          end)))
  end.
End Tasks.
