(* ===== verification/AgentUnit.v ===== *)
(** The unit files of AgentApp.v as systemd reads them: no entry but those of the template,
    an account that exists and is not root, and the command byte for byte. *)
From S2P Require Import Prelude GoStr Paths Regex SiteInput AgentValidate Json Sql Http Host AgentSite AgentApp.
Local Open Scope Z_scope.
Local Open Scope panel_scope.

Set Default Proof Using "Type".

(** * What systemd reads *)

(** The word that systemd makes of a quoted argument of [ExecStart]: C escapes, doubled
    percent and dollar signs; a single one of these would be expanded, and is refused. *)
Fixpoint unquote_body (s : string) : option (string * string) :=
  match s with
  | EmptyString => None
  | String c s1 =>
      if Ascii.eqb c DQ then Some ("", s1)
      else if Ascii.eqb c BS || Ascii.eqb c "%" || Ascii.eqb c "$" then
        match s1 with
        | String d s2 =>
            let value := if Ascii.eqb c BS then
                           if Ascii.eqb d "n" then Some LF else if Ascii.eqb d "r" then Some CR
                           else if Ascii.eqb d BS || Ascii.eqb d DQ then Some d else None
                         else if Ascii.eqb d c then Some c else None in
            v ← value; r ← unquote_body s2; Some (String v r.1, r.2)
        | EmptyString => None
        end
      else r ← unquote_body s1; Some (String c r.1, r.2)
  end.
Definition unquote (s : string) : option (string * string) :=
  match s with String c s' => if Ascii.eqb c DQ then unquote_body s' else None | EmptyString => None end.

Ltac unescaped IH s rest :=
  rewrite app_assoc_s; revert IH; generalize (replace_chr systemd_escape s +:+ String DQ rest); intros t IH;
  match goal with |- _ = Some (String ?c _, _) => transitivity (r ← unquote_body t; Some (String c r.1, r.2)); [reflexivity|by rewrite IH] end.
(** systemd reads a quoted word back as the text it was made of, whatever its bytes. *)
Lemma systemd_reads (s rest : string) : unquote (systemdQuote s +:+ rest) = Some (s, rest).
Proof.
  unfold systemdQuote, unquote. rewrite app_cons. cbn [Ascii.eqb]. rewrite Ascii.eqb_refl, app_assoc_s.
  change (String DQ "" +:+ rest) with (String DQ rest).
  induction s as [|c s IH]; [done|]. cbn [replace_chr]. unfold systemd_escape at 1.
  destruct (Ascii.eqb c BS) eqn:E1; [apply Ascii.eqb_eq in E1 as ->; unescaped IH s rest|].
  destruct (Ascii.eqb c DQ) eqn:E2; [apply Ascii.eqb_eq in E2 as ->; unescaped IH s rest|].
  destruct (Ascii.eqb c "%") eqn:E3; [apply Ascii.eqb_eq in E3 as ->; unescaped IH s rest|].
  destruct (Ascii.eqb c "$") eqn:E4; [apply Ascii.eqb_eq in E4 as ->; unescaped IH s rest|].
  destruct (Ascii.eqb c LF) eqn:E5; [apply Ascii.eqb_eq in E5 as ->; unescaped IH s rest|].
  destruct (Ascii.eqb c CR) eqn:E6; [apply Ascii.eqb_eq in E6 as ->; unescaped IH s rest|].
  rewrite app_cons. cbn [unquote_body]. rewrite E1, E2, E3, E4. cbn [orb]. by rewrite IH.
Qed.

(** * The unit of an app *)

Definition no_break (s : string) : bool := no_chr LF s.
Lemma quote_no_break (s : string) : no_break (systemdQuote s) = true.
Proof.
  unfold no_break, no_chr, systemdQuote. cbn [str_all]. rewrite str_all_app, andb_true_r. cbn [negb Ascii.eqb].
  apply andb_true_intro. split; [done|]. induction s as [|c s IH]; [done|]. cbn [replace_chr].
  unfold systemd_escape at 1. repeat case_goal; rewrite ?str_all_app, ?IH; try done. cbn [str_all]. by rewrite E3, IH.
Qed.
Lemma no_break_app (a b : string) : no_break (a +:+ b) = no_break a && no_break b.
Proof. unfold no_break, no_chr. apply str_all_app. Qed.
Lemma itoa_no_break (n : Z) : no_break (itoa n) = true.
Proof. generalize (itoa_chars n). apply str_all_impl. by apply cls_incl_spec. Qed.
Lemma unit_lines_split domain user root command port mem :
  no_break domain = true → no_break user = true → no_break root = true →
  split LF (systemdUnitContent domain user root command port mem) = unit_lines domain user root command port mem.
Proof.
  intros Hd Hu Hr. unfold systemdUnitContent. apply split_join; [done|].
  assert (∀ s, no_break s = true → no_chr LF s = true) as K by done.
  unfold unit_lines. repeat (constructor; [|]); try done; apply K.
  all: try (case_goal; [done|]).
  all: rewrite ?no_break_app, ?Hd, ?Hu, ?Hr, ?quote_no_break, ?itoa_no_break; done.
Qed.

(** The names of the entries of a unit, and the value of one. *)
Definition unit_keys (content : string) : list string := map (λ l, (split2 "=" l).1) (split LF content).
Definition unit_value (key content : string) : option string :=
  match List.find (λ l, ((split2 "=" l).1 =? key)%string) (split LF content) with Some l => (split2 "=" l).2 | None => None end.
Definition app_keys : list string :=
  ["[Unit]"; "Description"; "After"; ""; "[Service]"; "Type"; "WorkingDirectory"; "ExecStart"; "Restart"; "RestartSec"; "User"; "EnvironmentFile";
   "Environment"; "Environment"; "Environment"; "# Resource limits (hemat resource)"; "MemoryMax"; "MemoryHigh"; "CPUWeight"; "TasksMax";
   "# Security hardening"; "NoNewPrivileges"; "PrivateTmp"; ""; "[Install]"; "WantedBy"; ""].
Definition no_percent (s : string) : Prop := no_chr "%" s = true.

(** The only file is the unit of the site. *)
Record good_unit (users : string → option (string * string)) (p : AppTask) (path content : string) : Prop := {
  gu_path : path = unit_path (appServiceName (at_site p));
  gu_keys : unit_keys content = app_keys;
  gu_user : ∃ uid gid, unit_value "User" content = Some (at_user p) ∧ users (at_user p) = Some (uid, gid) ∧ uid ≠ "0" ∧ at_user p ≠ "root";
  gu_root : unit_value "WorkingDirectory" content = Some (at_root p);
  gu_exec : ∃ word, unit_value "ExecStart" content = Some ("/bin/sh -lc " +:+ word) ∧ unquote word = Some ("exec " +:+ at_command p, "");
  gu_plain : no_percent (at_domain p) ∧ no_percent (at_user p) ∧ no_percent (at_root p) }.
Definition writes_unit (users : string → option (string * string)) (p : AppTask) (e : effect) : Prop :=
  match e with WriteFile path content => good_unit users p path content | _ => True end.
(** The accounts of the host. *)
Definition accounts (users : string → option (string * string)) (e : effect) : answer e → Prop :=
  match e with LookupUser name => λ u, u = users name | _ => λ _, True end.

Lemma unit_good users p uid gid :
  isValidDomain (at_domain p) = true → SiteInput.RootPath (at_root p) = nil_error → SystemUser (at_user p) = nil_error →
  users (at_user p) = Some (uid, gid) → uid ≠ "0" → good_unit users p (unit_path (appServiceName (at_site p))) (unit_of p).
Proof.
  intros Hd [Hr _]%RootPath_ok Hu Hl Huid. unfold SystemUser in Hu. case_hyp Hu; [done|]. bool_hyps.
  assert (Hne : at_user p ≠ "") by (intros Hz; by match goal with H : re_match _ _ = true |- _ => rewrite Hz in H end).
  assert (Hs : split LF (unit_of p) = unit_lines (at_domain p) (at_user p) (at_root p) (at_command p) (at_port p) (at_memory p)).
  { apply unit_lines_split; unfold no_break; [within domainRegex|within systemUserRe|within rootPathRe]. }
  assert (Hue : (at_user p =? "")%string = false) by by apply String.eqb_neq.
  split.
  - done.
  - unfold unit_keys. rewrite Hs. unfold unit_lines. by rewrite Hue.
  - exists uid, gid. unfold unit_value. rewrite Hs. unfold unit_lines. rewrite Hue. split_and!; try done.
    intros Hz. by match goal with H : str_in reservedUsers _ = false |- _ => rewrite Hz in H end.
  - unfold unit_value. rewrite Hs. unfold unit_lines. by rewrite Hue.
  - exists (systemdQuote ("exec " +:+ at_command p)). unfold unit_value. rewrite Hs. unfold unit_lines. rewrite Hue. split; [done|].
    pose proof (systemd_reads ("exec " +:+ at_command p) "") as Hq. by rewrite app_nil_r in Hq.
  - unfold no_percent. split_and!; [within domainRegex|within systemUserRe|within rootPathRe].
Qed.

Lemma validate_ok users domain user root command :
  always (accounts users) (λ e, match e with LookupUser _ => True | _ => False end)
    (λ e, e = nil_error → SiteInput.RootPath root = nil_error ∧ SystemUser user = nil_error ∧
          ∃ uid gid, users user = Some (uid, gid) ∧ uid ≠ "0")
    (validateAppUnitInput domain user root command).
Proof.
  unfold validateAppUnitInput. case_goal; [by intros ?|]. destruct (SiteInput.RootPath root) eqn:Hr; [done|].
  destruct (SystemUser user) eqn:Hu; [done|]. split; [done|]. intros u Hx. cbn in Hx. subst. cbn.
  case_goal; [done|]. intros _. split_and!; [done..|]. bool_hyps. unfold known_user in E0.
  destruct (users user) as [[uid gid]|]; [|done]. bool_hyps. by exists uid, gid.
Qed.

Section Units.
Variables (users : string → option (string * string)) (r : AgentRouter) (p : AppTask).
Notation good q := (always (accounts users) (writes_unit users p) (λ _, True) q).

Lemma good_shell name args : good (RunShell name args).
Proof. unfold RunShell, allowed. case_goal; [|done]. split; [done|]. by intros [? ?]. Qed.
Lemma good_answer svc verb suffix : good (app_answer p svc verb suffix).
Proof.
  unfold app_answer. apply always_bind. eapply always_mono; [done| |apply good_shell]. intros a _. case_goal; [done|].
  apply always_bind. by eapply always_mono; [done| |apply good_shell].
Qed.
Lemma good_seq {A B} (q : prog A) (f : A → prog B) :
  good q → (∀ a, good (f a)) → good (bind q f).
Proof. intros Hq Hf. apply always_bind. eapply always_mono; [done| |exact Hq]. intros a _. apply Hf. Qed.
Lemma good_validated {B} domain user root command (f : error → prog B) :
  (∀ e, good (f (Some e))) →
  (SiteInput.RootPath root = nil_error → SystemUser user = nil_error → (∃ uid gid, users user = Some (uid, gid) ∧ uid ≠ "0") → good (f None)) →
  good (bind (validateAppUnitInput domain user root command) f).
Proof.
  intros Hs Hn. apply always_bind. eapply always_mono; [| |apply (validate_ok users)].
  - by intros [].
  - intros [e|]; [intros _; apply Hs|]. intros H. destruct (H eq_refl) as (? & ? & ?). by apply Hn.
Qed.
End Units.

(** C17: the unit that the start or the restart of an app writes has the entries of its template
    and no others, whatever the request: it runs as the account of the request, which exists on
    the host and is not root, in the site's directory, and systemd hands the command to the shell
    byte for byte.  The units of Python apps, which another route writes, are not meant. *)
Theorem app_units_good (users : string → option (string * string)) (r : AgentRouter) (p : AppTask) :
  always (accounts users) (writes_unit users p) (λ _, True) (appStartTask r (Some p)) ∧
  always (accounts users) (writes_unit users p) (λ _, True) (appRestartTask r (Some p)).
Proof.
  split.
  - cbn [appStartTask]. case_goal; [done|]. case_goal; [done|]. bool_hyps. apply good_validated; [done|].
    intros Hr Hu (uid & gid & Hl & Hid). unfold start_service. cbv zeta. apply good_seq; [split; [by eapply unit_good|done]|].
    intros [e|]; [done|]. apply good_seq; [apply good_shell|]. intros [out [e|]]; [done|].
    apply good_seq; [apply good_shell|]. intros _. apply good_seq; [apply good_shell|]. intros [out' [e|]]; [done|]. apply good_answer.
  - cbn [appRestartTask]. cbv zeta. apply good_seq.
    + unfold rewrite_unit. case_goal; [|done]. bool_hyps. apply good_validated; [done|].
      intros Hr Hu (uid & gid & Hl & Hid). apply good_seq; [split; [by eapply unit_good|done]|].
      intros [e|]; [done|]. by apply good_seq; [apply good_shell|].
    + intros _. apply good_seq; [apply good_shell|]. intros [out [e|]]; [done|]. apply good_answer.
Qed.
