(* ===== verification/AgentDb.v ===== *)
(** The tasks of the agent about databases: databaseCreateTask, databaseDeleteTask,
    dbUserCreateTask, dbUserDeleteTask of src/internal/agenthttp/router.go.  The SQL text goes
    to the standard input of [mysql] or [psql], which run as root. *)
From S2P Require Import Prelude GoStr Regex SiteInput AgentValidate Json Sql Http Host AgentSite.
Local Open Scope Z_scope.
Local Open Scope panel_scope.

Set Default Proof Using "Type".

Definition line (s : string) : string := s +:+ String LF "".
Definition mysql (sql : string) : prog (string * error) := RunWithInput (line sql) "mysql" [].
Definition psql (sql : string) : prog (string * error) := RunWithInput (line sql) "psql" ["-v"; "ON_ERROR_STOP=1"; "-d"; "postgres"].

(** The statements of a kind of server, or its refusal. *)
Definition run_sql (type what done : string) (mysql_sql : string) (postgres_sql : prog string) : prog reply :=
  let finish (server : string) (o : string * error) : prog reply :=
    Ret (match o with
         | (out, Some _) => HTTPError 424 (server +:+ " " +:+ what +:+ " failed: " +:+ trim_space out)
         | (_, None) => ok_data [("message", JStr done)]
         end) in
  if (type =? "mysql")%string then let! o := mysql mysql_sql in finish "mysql" o
  else if (type =? "postgres")%string then let! sql := postgres_sql in let! o := psql sql in finish "postgres" o
  else Ret (HTTPError 400 "unsupported database type").

(** * Databases *)

Definition backticked (name : string) : string := "`" +:+ name +:+ "`".
Definition create_mysql (name : string) : string := "CREATE DATABASE IF NOT EXISTS " +:+ backticked name +:+ ";".
Definition create_postgres (name : string) : string :=
  "SELECT 'CREATE DATABASE " +:+ name +:+ "' WHERE NOT EXISTS (SELECT FROM pg_database WHERE datname = " +:+ sqlQuote name +:+ ")" +:+
  String BS "gexec".
Definition databaseCreateTask (payload : option (string * string)) : prog reply :=
  match payload with
  | None => Ret invalid_payload
  | Some (name, type) =>
      if negb (isValidDBIdentifier name) then Ret (HTTPError 400 "invalid database name")
      else run_sql type "create database" ("database " +:+ name +:+ " (" +:+ type +:+ ") created") (create_mysql name) (Ret (create_postgres name))
  end.

Definition drop_mysql (name : string) : string := "DROP DATABASE IF EXISTS " +:+ backticked name +:+ ";".
Definition drop_postgres (name : string) : string := "DROP DATABASE IF EXISTS " +:+ name +:+ ";".
Definition databaseDeleteTask (payload : option (string * string)) : prog reply :=
  match payload with
  | None => Ret invalid_payload
  | Some (name, type) =>
      if negb (isValidDBIdentifier name) then Ret (HTTPError 400 "invalid database name")
      else run_sql type "drop database" ("database " +:+ name +:+ " deleted") (drop_mysql name) (Ret (drop_postgres name))
  end.

(** * Users *)

Record DBUserCreate := mkDBUserCreate {
  du_database : string; du_type : string; du_user : string; du_password : string; du_host : string; du_privileges : string }.
Definition or_default (s d : string) : string := if (s =? "")%string then d else s.

Definition account (user host : string) : string := sqlQuote user +:+ "@" +:+ sqlQuote host.
Definition create_user_mysql (user host password privileges database : string) : string :=
  "CREATE USER IF NOT EXISTS " +:+ account user host +:+ " IDENTIFIED BY " +:+ sqlQuote password +:+ "; GRANT " +:+ privileges +:+
  " ON " +:+ backticked database +:+ ".* TO " +:+ account user host +:+ "; FLUSH PRIVILEGES;".
Definition create_user_postgres (tag user password database : string) : string :=
  "DO " +:+ tag +:+ " BEGIN CREATE ROLE " +:+ user +:+ " LOGIN PASSWORD " +:+ sqlQuote password +:+
  "; EXCEPTION WHEN duplicate_object THEN ALTER ROLE " +:+ user +:+ " WITH PASSWORD " +:+ sqlQuote password +:+ "; END " +:+ tag +:+
  "; GRANT ALL PRIVILEGES ON DATABASE " +:+ database +:+ " TO " +:+ user +:+ ";".
Definition dollar_tag (hex : string) : string := "$sg" +:+ hex +:+ "$".

(** The checks in their order. *)
Definition check_db_user (p : DBUserCreate) : error :=
  if negb (isValidDBIdentifier (du_database p)) || negb (isValidDBIdentifier (du_user p)) || (du_password p =? "")%string
  then errorf "invalid database user payload"
  else match DBPassword (du_password p) with
  | Some e => Some e
  | None =>
      if negb (isValidDBHostPattern (or_default (du_host p) "localhost")) || negb (isValidDBPrivileges (or_default (du_privileges p) "ALL")) ||
         negb (is_nil (DBPrivileges (or_default (du_privileges p) "ALL")))
      then errorf "invalid database user grants" else nil_error
  end.
Definition dbUserCreateTask (payload : option DBUserCreate) : prog reply :=
  match payload with
  | None => Ret invalid_payload
  | Some p =>
      match check_db_user p with
      | Some e => Ret (HTTPError 400 e)
      | None =>
          run_sql (du_type p) "create user" ("db user " +:+ du_user p +:+ " created")
            (create_user_mysql (du_user p) (or_default (du_host p) "localhost") (du_password p) (or_default (du_privileges p) "ALL") (du_database p))
            (let! hex := perform (RandomHex 8) in
             Ret (create_user_postgres (dollar_tag hex) (du_user p) (du_password p) (du_database p)))
      end
  end.

Definition drop_user_mysql (user host : string) : string := "DROP USER IF EXISTS " +:+ account user host +:+ "; FLUSH PRIVILEGES;".
Definition drop_user_postgres (user : string) : string := "DROP ROLE IF EXISTS " +:+ user +:+ ";".
(** The user, the type of the server and the host. *)
Definition dbUserDeleteTask (payload : option (string * string * string)) : prog reply :=
  match payload with
  | None => Ret invalid_payload
  | Some (user, type, host0) =>
      let host := or_default host0 "localhost" in
      if negb (isValidDBIdentifier user) then Ret (HTTPError 400 "invalid username")
      else if negb (isValidDBHostPattern host) then Ret (HTTPError 400 "invalid host_pattern")
      else run_sql type "drop user" ("db user " +:+ user +:+ " deleted") (drop_user_mysql user host) (Ret (drop_user_postgres user))
  end.
