(* ===== verification/AgentSql.v ===== *)
(** How MySQL and PostgreSQL read the statements of AgentDb.v: a reader of SQL text as an
    automaton over bytes, and the theorem that every text the agent sends is the intended
    statement with the values of the request as single tokens. *)
From S2P Require Import Prelude GoStr Paths Regex SiteInput AgentValidate Json Sql Http Host AgentSite AgentDb.
Local Open Scope Z_scope.
Local Open Scope panel_scope.

Set Default Proof Using "Type".

(** * How a server reads the text *)

(** Words, literals, quoted identifiers, dollar-quoted bodies and the other characters of a
    statement.  A character that could begin a comment or belongs to none of these is
    [Bad]: the reader gives up. *)
Inductive token := Word (w : string) | Str (v : string) | Tick (v : string) | Body (tag body : string) | Sym (c : ascii).
(** In a literal, after a quote or a backslash in it; in a quoted identifier and after it; in
    the tag of a body, in the body. *)
Inductive sql_mode :=
| Between | InWord (w : string) | InStr (v : string) | Escape (v : string) | QuoteIn (v : string) | InTick (v : string)
| TickIn (v : string) | InTag (t : string) | InBody (tag seen : string) | Bad.

Definition word_byte (c : ascii) : bool := is_alnum c || Ascii.eqb c "_".
Definition snoc (s : string) (c : ascii) : string := s +:+ String c "".
Definition between (c : ascii) : sql_mode * list token :=
  if space1 c then (Between, []) else if word_byte c then (InWord (String c ""), [])
  else if Ascii.eqb c SQ then (InStr "", []) else if Ascii.eqb c "`" then (InTick "", [])
  else if Ascii.eqb c "$" then (InTag "$", [])
  else if chr_in ",;().*@=+" c || Ascii.eqb c BS then (Between, [Sym c]) else (Bad, []).
Definition after (t : token) (c : ascii) : sql_mode * list token := let '(m, ts) := between c in (m, t :: ts).

Section Reader.
(** Whether a backslash escapes the next byte of a literal. *)
Variable esc : bool.

Definition sql_step (m : sql_mode) (c : ascii) : sql_mode * list token :=
  match m with
  | Between => between c
  | InWord w => if word_byte c then (InWord (snoc w c), []) else after (Word w) c
  | InStr v => if Ascii.eqb c SQ then (QuoteIn v, []) else if Ascii.eqb c BS && esc then (Escape v, []) else (InStr (snoc v c), [])
  | Escape v => (InStr (snoc v (unescape c)), [])
  | QuoteIn v => if Ascii.eqb c SQ then (InStr (snoc v SQ), []) else after (Str v) c
  | InTick v => if Ascii.eqb c "`" then (TickIn v, []) else (InTick (snoc v c), [])
  | TickIn v => if Ascii.eqb c "`" then (Bad, []) else after (Tick v) c
  | InTag t => if Ascii.eqb c "$" then (InBody (snoc t c) "", []) else if word_byte c then (InTag (snoc t c), []) else (Bad, [])
  | InBody tag seen =>
      let seen' := snoc seen c in
      if has_suffix seen' tag then (Between, [Body tag (str_take (String.length seen' - String.length tag) seen')])
      else (InBody tag seen', [])
  | Bad => (Bad, [])
  end.
Fixpoint sql_run (m : sql_mode) (s : string) : sql_mode * list token :=
  match s with
  | EmptyString => (m, [])
  | String c s' => let '(m1, t1) := sql_step m c in let '(m2, t2) := sql_run m1 s' in (m2, t1 ++ t2)
  end.
(** The tokens of a whole text. *)
Definition read_sql (s : string) : option (list token) :=
  match sql_run Between s with (Between, ts) => Some ts | _ => None end.

Lemma sql_run_app (m : sql_mode) (s t : string) :
  sql_run m (s +:+ t) = let '(m1, t1) := sql_run m s in let '(m2, t2) := sql_run m1 t in (m2, t1 ++ t2).
Proof.
  revert m. induction s as [|c s IH]; intros m; [cbn; change (EmptyString +:+ t) with t; by destruct (sql_run m t)|].
  rewrite app_cons. cbn. destruct (sql_step m c) as [m1 t1]. rewrite IH. destruct (sql_run m1 s) as [m2 t2].
  destruct (sql_run m2 t) as [m3 t3]. by rewrite List.app_assoc.
Qed.

(** Reading one part after the other. *)
Definition reads_to (m : sql_mode) (s : string) (m' : sql_mode) (ts : list token) : Prop := sql_run m s = (m', ts).
Lemma reads_app m s m1 t1 s' m2 t2 : reads_to m s m1 t1 → reads_to m1 s' m2 t2 → reads_to m (s +:+ s') m2 (t1 ++ t2).
Proof. unfold reads_to. rewrite sql_run_app. by intros -> ->. Qed.
Lemma reads_eq m s m' ts ts' : reads_to m s m' ts' → ts' = ts → reads_to m s m' ts.
Proof. by intros H <-. Qed.

Lemma snoc_app (a : string) (c : ascii) (s : string) : snoc a c +:+ s = a +:+ String c s.
Proof. unfold snoc. by rewrite app_assoc_s. Qed.

(** A run of bytes of which each is added to what was read. *)
Lemma reads_run (mk : string → sql_mode) (p : ascii → bool) (a s : string) :
  (∀ a c, p c = true → sql_step (mk a) c = (mk (snoc a c), [])) → str_all p s = true → reads_to (mk a) s (mk (a +:+ s)) [].
Proof.
  intros Hp. unfold reads_to. revert a. induction s as [|c s IH]; intros a H; cbn in *; [by rewrite app_nil_r|].
  bool_hyps. rewrite Hp by done. rewrite IH by done. cbn. by rewrite snoc_app.
Qed.
Lemma reads_word (a w : string) : str_all word_byte w = true → reads_to (InWord a) w (InWord (a +:+ w)) [].
Proof. apply reads_run. intros b c H. cbn. by rewrite H. Qed.
Lemma reads_name (w : string) : w ≠ "" → str_all word_byte w = true → reads_to Between w (InWord w) [].
Proof.
  destruct w as [|c w]; [done|]. intros _ H. cbn in H. bool_hyps. unfold reads_to. cbn.
  assert (between c = (InWord (String c ""), [])) as ->.
  { unfold between. pose proof (cls_incl_spec word_byte (λ c, negb (space1 c)) eq_refl c H) as Hs. cbv beta in Hs.
    bool_hyps. by rewrite Hs, H. }
  change (String c "") with (EmptyString +:+ String c ""). rewrite (reads_word _ w H0). done.
Qed.
Lemma reads_tick (a w : string) : no_chr "`" w = true → reads_to (InTick a) w (InTick (a +:+ w)) [].
Proof. apply reads_run. intros b c H. cbn. bool_hyps. by rewrite H. Qed.
Lemma reads_plain (a w : string) : str_all word_byte w = true → reads_to (InStr a) w (InStr (a +:+ w)) [].
Proof.
  apply reads_run. intros b c H. cbn.
  pose proof (cls_incl_spec word_byte (λ c, negb (Ascii.eqb c SQ) && negb (Ascii.eqb c BS)) eq_refl c H) as Hs. cbv beta in Hs.
  apply andb_true_iff in Hs as [->%negb_true_iff ->%negb_true_iff]. done.
Qed.
Lemma reads_quoted (a v : string) :
  (esc = true → no_chr BS v = true) → reads_to (InStr a) (esc_quote v) (InStr (a +:+ v)) [].
Proof.
  revert a. induction v as [|c v IH]; intros a H; [unfold reads_to; by rewrite app_nil_r|].
  rewrite <- (app_nil_r (esc_quote (String c v))), esc_quote_cons, !app_nil_r.
  assert (Hv : esc = true → no_chr BS v = true) by (intros E; specialize (H E); cbn in H; by bool_hyps).
  assert (Hs : ∀ pre, reads_to (InStr a) pre (InStr (snoc a c)) [] → reads_to (InStr a) (pre +:+ esc_quote v) (InStr (a +:+ String c v)) []).
  { intros pre Hp. rewrite <- snoc_app. apply (reads_app _ _ _ [] _ _ [] Hp). by apply IH. }
  destruct (Ascii.eqb c SQ) eqn:Ec; [apply Ascii.eqb_eq in Ec as ->; by apply (Hs (String SQ (String SQ "")))|].
  apply (Hs (String c "")). unfold reads_to. cbn. rewrite Ec.
  assert (Ascii.eqb c BS && esc = false) as ->; [|done].
  destruct esc; [|by rewrite andb_false_r]. specialize (H eq_refl). cbn in H. by apply andb_true_iff in H as [->%negb_true_iff _].
Qed.
(** A literal, up to its last quote. *)
Lemma reads_literal (v : string) : (esc = true → no_chr BS v = true) → reads_to Between (sqlQuote v) (QuoteIn v) [].
Proof.
  intros H. unfold sqlQuote. fold (esc_quote v). apply (reads_app _ _ (InStr "") []); [done|].
  apply (reads_app _ _ (InStr v) []); [by apply (reads_quoted "")|done].
Qed.
Lemma reads_backticked (w : string) : no_chr "`" w = true → reads_to Between (backticked w) (TickIn w) [].
Proof.
  intros H. unfold backticked. apply (reads_app _ _ (InTick "") []); [done|].
  apply (reads_app _ _ (InTick w) []); [by apply (reads_tick "")|done].
Qed.
End Reader.

(** ** A dollar-quoted body *)

Lemma has_suffix_app (x p : string) : has_suffix (x +:+ p) p = true.
Proof. unfold has_suffix. rewrite str_rev_append. apply prefix_app. Qed.
Lemma has_suffix_inv (s p : string) : has_suffix s p = true → ∃ x, s = x +:+ p.
Proof.
  unfold has_suffix. intros (q & Hq)%prefix_spec. exists (str_rev q).
  by rewrite <- (str_rev_involutive s), Hq, str_rev_append, str_rev_involutive.
Qed.

(** The text of a body is all that comes before the first end tag. *)
Lemma reads_body (esc : bool) (tag body : string) :
  tag ≠ "" → (∀ x y, body +:+ tag = x +:+ tag +:+ y → y = "") →
  reads_to esc (InBody tag "") (body +:+ tag) Between [Body tag body].
Proof.
  intros Ht Hfirst. assert (∀ rest seen, seen +:+ rest = body +:+ tag → rest ≠ "" →
    reads_to esc (InBody tag seen) rest Between [Body tag body]) as H.
  { induction rest as [|c rest IH]; [done|]. intros seen Hs _. unfold reads_to. cbn.
    assert (Hs' : snoc seen c +:+ rest = body +:+ tag) by by rewrite snoc_app.
    destruct (has_suffix (snoc seen c) tag) eqn:E.
    - apply has_suffix_inv in E as (x & Hx). rewrite Hx, app_assoc_s in Hs'. pose proof (Hfirst x rest (eq_sym Hs')) as ->.
      rewrite app_nil_r in Hs'. cbn. rewrite Hx, length_app_s, Nat.add_sub, str_take_app.
      apply (f_equal str_rev) in Hs'. rewrite !str_rev_append in Hs'.
      apply (f_equal (str_drop (String.length (str_rev tag)))) in Hs'. rewrite !str_drop_app in Hs'.
      apply (f_equal str_rev) in Hs'. rewrite !str_rev_involutive in Hs'. by subst.
    - destruct rest as [|d rest]; [|by rewrite IH].
      rewrite app_nil_r in Hs'. rewrite Hs', has_suffix_app in E. done. }
  apply H; [done|]. by destruct body, tag.
Qed.

Section Occurrence.
Variables (tag : string) (c : ascii).
Hypothesis Htag : tag ≠ "".
Hypothesis Hc : no_chr c tag = true.

Lemma prefix_before (a b y : string) : a +:+ String c b = tag +:+ y → ∃ y', a = tag +:+ y'.
Proof using Hc.
  try clear Htag. revert a. induction tag as [|t tag' IH]; intros a H; [by exists a|].
  unfold no_chr in Hc. cbn in Hc. bool_hyps. destruct a as [|d a]; injection H as -> H.
  - by rewrite Ascii.eqb_refl in *.
  - destruct (IH ltac:(done) a H) as (y' & ->). by exists y'.
Qed.
(** A text without the byte occurs on one side of it. *)
Lemma occurs_beside (a b x y : string) :
  a +:+ String c b = x +:+ tag +:+ y → (∃ x' y', a = x' +:+ tag +:+ y') ∨ ∃ x', b = x' +:+ tag +:+ y.
Proof using Htag Hc.
  revert x. induction a as [|d a IH]; intros x H.
  - destruct x as [|e x]; [by destruct (prefix_before "" b y H) as ([|] & ?), tag|]. injection H as _ H. right. by exists x.
  - destruct x as [|e x]; [left; exists ""; by apply (prefix_before (String d a) b y H)|].
    injection H as _ H. destruct (IH x H) as [(x' & y' & ->)|?]; [left; by exists (String d x'), y'|by right].
Qed.
End Occurrence.

Section Quoted.
Variable tag : string.
Hypothesis Htag : tag ≠ "".
Hypothesis Hc : no_chr SQ tag = true.

Lemma quoted_prefix (v y : string) : esc_quote v = tag +:+ y → ∃ y', v = tag +:+ y'.
Proof using Hc.
  try clear Htag. revert v. induction tag as [|t tag' IH]; intros v H; [by exists v|]. unfold no_chr in Hc. cbn in Hc. bool_hyps.
  destruct v as [|c v]; [done|]. rewrite <- (app_nil_r (esc_quote (String c v))), esc_quote_cons, app_nil_r in H.
  destruct (Ascii.eqb c SQ); [by injection H as <- _|injection H as -> H].
  destruct (IH ltac:(done) v H) as (y' & ->). by exists y'.
Qed.
(** Doubling the quotes makes no new occurrence of a text without quotes. *)
Lemma quoted_occurs (v x y : string) : esc_quote v = x +:+ tag +:+ y → ∃ x' y', v = x' +:+ tag +:+ y'.
Proof using Htag Hc.
  revert x. induction v as [|c v IH]; intros x H; [by destruct x, tag|].
  destruct x as [|d x]; [exists ""; by apply (quoted_prefix _ y)|].
  rewrite <- (app_nil_r (esc_quote (String c v))), esc_quote_cons, app_nil_r in H.
  assert (∀ x0, esc_quote v = x0 +:+ tag +:+ y → ∃ x' y', String c v = x' +:+ tag +:+ y') as K
    by (intros x0 (x' & y' & ->)%IH; by exists (String c x'), y').
  destruct (Ascii.eqb c SQ) eqn:E; injection H as _ H; [|by apply (K x)].
  destruct x as [|e x]; [|injection H as _ H; by apply (K x)].
  destruct tag as [|t tag']; [done|]. injection H as <- _. by unfold no_chr in Hc.
Qed.
End Quoted.

Lemma occurs_first (s tag x y : string) (c : ascii) : s = x +:+ String c tag +:+ y → no_chr c s = true → False.
Proof.
  intros -> H. unfold no_chr in H. rewrite str_all_app, app_cons in H. cbn in H. rewrite Ascii.eqb_refl in H. by rewrite andb_false_r in H.
Qed.
(** A tag at the end of a text without its first byte occurs only there. *)
Lemma occurs_last (p tag x y : string) (c : ascii) :
  no_chr c p = true → p +:+ String c tag = x +:+ String c tag +:+ y → y = "".
Proof.
  revert x. induction p as [|d p IH]; intros x Hp H.
  - apply (f_equal String.length) in H. change ("" +:+ String c tag) with (String c tag) in H.
    rewrite !length_app_s in H. destruct y; [done|]. cbn in H. lia.
  - unfold no_chr in Hp. cbn in Hp. bool_hyps. destruct x as [|e x]; injection H as <- H; [by rewrite Ascii.eqb_refl in *|by apply (IH x)].
Qed.

Definition is_hex (c : ascii) : bool := is_digit c || chr_in "abcdef" c.
Definition dollar_free (s : string) : Prop := no_chr "$" s = true.
(** The body of [create_user_postgres]: nothing but its end is the tag. *)
Lemma body_ends (hex pw p1 p2 p3 : string) :
  str_all is_hex hex = true → contains pw (dollar_tag hex) = false → dollar_free p1 → dollar_free p2 → dollar_free p3 →
  ∀ x y, (p1 +:+ sqlQuote pw +:+ p2 +:+ sqlQuote pw +:+ p3) +:+ dollar_tag hex = x +:+ dollar_tag hex +:+ y → y = "".
Proof.
  intros Hh Hpw H1 H2 H3 x y. set (tag := dollar_tag hex) in *.
  assert (Hne : tag ≠ "") by done.
  assert (Hq : no_chr SQ tag = true).
  { unfold tag, dollar_tag, no_chr. rewrite !str_all_app. cbn [str_all]. rewrite !andb_true_r.
    revert Hh. by apply str_all_impl, cls_incl_spec. }
  assert (Hfree : ∀ p a b, dollar_free p → p = a +:+ tag +:+ b → False) by (intros p a b Hp Ho; by apply (occurs_first p _ a b "$" Ho)).
  assert (Hesc : ∀ a b, esc_quote pw = a +:+ tag +:+ b → False).
  { intros a b (x' & y' & Ho)%quoted_occurs; [|done..]. apply contains_intro in Ho. by rewrite Ho in Hpw. }
  rewrite !app_assoc_s, !sqlQuote_app. intros H.
  apply occurs_beside in H as [(? & ? & H)|(x1 & H)]; [by apply Hfree in H| |done..].
  apply occurs_beside in H as [(? & ? & H)|(x2 & H)]; [by apply Hesc in H| |done..].
  apply occurs_beside in H as [(? & ? & H)|(x3 & H)]; [by apply Hfree in H| |done..].
  apply occurs_beside in H as [(? & ? & H)|(x4 & H)]; [by apply Hesc in H| |done..].
  by apply (occurs_last p3 _ x4 y "$") in H.
Qed.

(** * What the statements are *)

Definition kw (s : string) : list token := map Word (split " " s).
Definition account_tokens (user host : string) : list token := [Str user; Sym "@"; Str host].
Definition create_user_tokens (user host password database : string) (privileges : list token) : list token :=
  kw "CREATE USER IF NOT EXISTS" ++ account_tokens user host ++ kw "IDENTIFIED BY" ++ [Str password; Sym ";"] ++
  kw "GRANT" ++ privileges ++ kw "ON" ++ [Tick database; Sym "."; Sym "*"] ++ kw "TO" ++ account_tokens user host ++ [Sym ";"] ++
  kw "FLUSH PRIVILEGES" ++ [Sym ";"].
Definition create_role_tokens (user password : string) : list token :=
  kw "BEGIN CREATE ROLE" ++ [Word user] ++ kw "LOGIN PASSWORD" ++ [Str password; Sym ";"] ++
  kw "EXCEPTION WHEN duplicate_object THEN ALTER ROLE" ++ [Word user] ++ kw "WITH PASSWORD" ++ [Str password; Sym ";"] ++ kw "END".
Definition grant_db_tokens (user database : string) : list token :=
  kw "GRANT ALL PRIVILEGES ON DATABASE" ++ [Word database] ++ kw "TO" ++ [Word user; Sym ";"].

(** A privilege list has words and commas only. *)
Definition bare (t : token) : Prop := match t with Word _ => True | Sym c => c = ","%char | _ => False end.

Ltac chunk := lazymatch goal with |- reads_to ?e ?m ?s _ _ => let r := eval cbv in (sql_run e m s) in
  lazymatch r with (?m', ?ts) => exact (eq_refl : reads_to e m s m' ts) end end.
Ltac reads_part := first [chunk | by apply reads_backticked | by apply reads_literal | by apply reads_name | by apply reads_plain].
Ltac reads_all := first [reads_part | eapply reads_app; [reads_part|reads_all]].
Ltac reads_statement := unfold line; rewrite !app_assoc_s; eapply reads_eq; [reads_all|reflexivity].

Section Statements.
Variable esc : bool.
Notation reads s ts := (reads_to esc Between s Between ts).

Lemma id_name (v : string) : isValidDBIdentifier v = true → v ≠ "" ∧ str_all word_byte v = true ∧ no_chr "`" v = true ∧ no_chr BS v = true.
Proof.
  intros H. split; [by intros ->|]. split; [within dbNameRegex|]. split; within dbNameRegex.
Qed.
Lemma host_plain (v : string) : isValidDBHostPattern v = true → no_chr BS v = true.
Proof. intros H. within dbHostRegex. Qed.
Lemma password_plain (v : string) : DBPassword v = nil_error → no_chr BS v = true.
Proof. by intros (_ & ? & _)%DBPassword_ok. Qed.

Definition priv_char (c : ascii) : bool := is_upper c || chr_in "_, " c.
Definition list_char (c : ascii) : bool := space1 c || word_byte c || Ascii.eqb c ",".
Lemma reads_list (s : string) :
  str_all list_char s = true → ∃ ts, reads (s +:+ " ") ts ∧ Forall bare ts.
Proof.
  intros H. assert (∀ m, m = Between ∨ (∃ w, m = InWord w) → ∃ ts, reads_to esc m (s +:+ " ") Between ts ∧ Forall bare ts) as K;
    [|by apply K; left].
  revert H. induction s as [|c s IH]; intros H m Hm.
  { destruct Hm as [->|(w & ->)]; eexists; (split; [reflexivity|]); by repeat constructor. }
  cbn in H. apply andb_true_iff in H as [Hc H]. rewrite app_cons. specialize (IH H).
  pose proof (cls_incl_spec list_char (λ c, space1 c || (negb (space1 c) && word_byte c) || Ascii.eqb c ",") eq_refl c Hc) as Hs.
  cbv beta in Hs. unfold reads_to.
  assert (∃ m1 t1, sql_step esc m c = (m1, t1) ∧ (m1 = Between ∨ ∃ w, m1 = InWord w) ∧ Forall bare t1) as (m1 & t1 & Hstep & Hm1 & Ht1).
  { apply orb_true_iff in Hs as [Hs|Hs]; [apply orb_true_iff in Hs as [Hs|Hs]|].
    - assert (between c = (Between, [])) as Hb by (unfold between; by rewrite Hs).
      assert (word_byte c = false) as Hw.
      { pose proof (cls_incl_spec space1 (λ c, negb (word_byte c)) eq_refl c Hs) as Hw. by apply negb_true_iff in Hw. }
      destruct Hm as [->|(w & ->)]; cbn; rewrite ?Hw; unfold after; rewrite Hb; do 2 eexists; (split; [done|]); (split; [by left|]); by repeat constructor.
    - apply andb_true_iff in Hs as [Hs%negb_true_iff Hw].
      assert (between c = (InWord (String c ""), [])) as Hb by (unfold between; by rewrite Hs, Hw).
      destruct Hm as [->|(w & ->)]; cbn; rewrite ?Hw, ?Hb; do 2 eexists; (split; [done|]); (split; [right; by eexists|]); by repeat constructor.
    - apply Ascii.eqb_eq in Hs as ->.
      destruct Hm as [->|(w & ->)]; do 2 eexists; (split; [reflexivity|]); (split; [by left|]); by repeat constructor. }
  destruct (IH m1 Hm1) as (ts & Hr & Hts). unfold reads_to in Hr. exists (t1 ++ ts). cbn [sql_run]. rewrite Hstep, Hr.
  split; [done|]. by apply Forall_app.
Qed.

Lemma reads_privileges (s : string) :
  str_all priv_char s = true → ∃ ts, reads (s +:+ " ") ts ∧ Forall bare ts.
Proof. intros H. apply reads_list. revert H. apply str_all_impl. by apply (cls_incl_spec priv_char list_char). Qed.

Lemma reads_create_mysql name : isValidDBIdentifier name = true →
  reads (line (create_mysql name)) (kw "CREATE DATABASE IF NOT EXISTS" ++ [Tick name; Sym ";"]).
Proof. intros (_ & _ & Ht & _)%id_name. unfold create_mysql. reads_statement. Qed.
(** The first column of what is selected is executed by [psql] in its turn. *)
Lemma reads_create_postgres name : isValidDBIdentifier name = true →
  reads (line (create_postgres name)) (kw "SELECT" ++ [Str ("CREATE DATABASE " +:+ name)] ++ kw "WHERE NOT EXISTS" ++ [Sym "("] ++
    kw "SELECT FROM pg_database WHERE datname" ++ [Sym "="; Str name; Sym ")"; Sym BS; Word "gexec"]) ∧
  reads (line ("CREATE DATABASE " +:+ name)) (kw "CREATE DATABASE" ++ [Word name]).
Proof. intros (Hne & Hw & _ & Hb)%id_name. split; [unfold create_postgres|]; reads_statement. Qed.
Lemma reads_drop_mysql name : isValidDBIdentifier name = true →
  reads (line (drop_mysql name)) (kw "DROP DATABASE IF EXISTS" ++ [Tick name; Sym ";"]).
Proof. intros (_ & _ & Ht & _)%id_name. unfold drop_mysql. reads_statement. Qed.
Lemma reads_drop_postgres name : isValidDBIdentifier name = true →
  reads (line (drop_postgres name)) (kw "DROP DATABASE IF EXISTS" ++ [Word name; Sym ";"]).
Proof. intros (Hne & Hw & _)%id_name. unfold drop_postgres. reads_statement. Qed.
Lemma reads_drop_user_mysql user host : isValidDBIdentifier user = true → isValidDBHostPattern host = true →
  reads (line (drop_user_mysql user host))
    (kw "DROP USER IF EXISTS" ++ account_tokens user host ++ [Sym ";"] ++ kw "FLUSH PRIVILEGES" ++ [Sym ";"]).
Proof. intros (_ & _ & _ & Hb)%id_name Hh%host_plain. unfold drop_user_mysql, account. reads_statement. Qed.
Lemma reads_drop_user_postgres user : isValidDBIdentifier user = true →
  reads (line (drop_user_postgres user)) (kw "DROP ROLE IF EXISTS" ++ [Word user; Sym ";"]).
Proof. intros (Hne & Hw & _)%id_name. unfold drop_user_postgres. reads_statement. Qed.
Lemma reads_create_user_mysql user host password privileges database :
  isValidDBIdentifier user = true → isValidDBHostPattern host = true → DBPassword password = nil_error →
  isValidDBPrivileges privileges = true → isValidDBIdentifier database = true →
  ∃ ts, Forall bare ts ∧
    reads (line (create_user_mysql user host password privileges database)) (create_user_tokens user host password database ts).
Proof.
  intros (_ & _ & _ & Hb)%id_name Hh%host_plain Hp%password_plain Hpriv (_ & _ & Ht & _)%id_name.
  assert (str_all priv_char privileges = true) as (ts & Hr & Hts)%reads_privileges by within dbPrivRegex.
  exists ts. split; [done|]. unfold create_user_mysql, account, line. rewrite !app_assoc_s.
  change (privileges +:+ " ON " +:+ ?x) with (privileges +:+ " " +:+ "ON " +:+ x).
  rewrite <- (app_assoc_s privileges " "). eapply reads_eq.
  - do 7 (eapply reads_app; [reads_part|]). eapply reads_app; [exact Hr|]. reads_all.
  - reflexivity.
Qed.
End Statements.

Lemma reads_tag (esc : bool) (hex : string) :
  str_all is_hex hex = true → reads_to esc Between (dollar_tag hex) (InBody (dollar_tag hex) "") [].
Proof.
  intros H. eapply (reads_app esc _ _ _ [] _ _ []); [chunk|]. eapply (reads_app esc _ _ (InTag ("$sg" +:+ hex)) [] _ _ []).
  - apply (reads_run esc InTag is_hex); [|done]. intros b c Hc.
    pose proof (cls_incl_spec is_hex (λ c, negb (Ascii.eqb c "$") && word_byte c) eq_refl c Hc) as Hs. cbv beta in Hs.
    apply andb_true_iff in Hs as [Hd%negb_true_iff Hw]. cbn. by rewrite Hd, Hw.
  - unfold reads_to, dollar_tag. cbn. unfold snoc. by rewrite app_assoc_s.
Qed.

Definition role_body (user password : string) : string :=
  " BEGIN CREATE ROLE " +:+ user +:+ " LOGIN PASSWORD " +:+ sqlQuote password +:+
  "; EXCEPTION WHEN duplicate_object THEN ALTER ROLE " +:+ user +:+ " WITH PASSWORD " +:+ sqlQuote password +:+ "; END ".
Lemma id_dollar (v : string) : isValidDBIdentifier v = true → dollar_free v.
Proof. intros H. unfold dollar_free. within dbNameRegex. Qed.
Lemma reads_role_body (esc : bool) user password :
  isValidDBIdentifier user = true → DBPassword password = nil_error →
  reads_to esc Between (role_body user password) Between (create_role_tokens user password).
Proof.
  intros (Hne & Hw & _)%id_name Hp%password_plain. unfold role_body. eapply reads_eq; [reads_all|reflexivity].
Qed.
Lemma reads_create_user_postgres (esc : bool) hex user password database :
  isValidDBIdentifier user = true → DBPassword password = nil_error → isValidDBIdentifier database = true →
  str_all is_hex hex = true → contains password (dollar_tag hex) = false →
  reads_to esc Between (line (create_user_postgres (dollar_tag hex) user password database)) Between
    (kw "DO" ++ [Body (dollar_tag hex) (role_body user password); Sym ";"] ++ grant_db_tokens user database).
Proof.
  intros Hu Hp (Hne & Hw & _)%id_name Hx Ht. pose proof Hu as (Hne' & Hw' & _)%id_name.
  assert (Hb : reads_to esc (InBody (dollar_tag hex) "") (role_body user password +:+ dollar_tag hex) Between
                 [Body (dollar_tag hex) (role_body user password)]).
  { apply reads_body; [done|].
    replace (role_body user password) with ((" BEGIN CREATE ROLE " +:+ user +:+ " LOGIN PASSWORD ") +:+ sqlQuote password +:+
      ("; EXCEPTION WHEN duplicate_object THEN ALTER ROLE " +:+ user +:+ " WITH PASSWORD ") +:+ sqlQuote password +:+ "; END ")
      by (unfold role_body; by rewrite !app_assoc_s).
    apply body_ends; [done|done| | |done]; unfold dollar_free, no_chr; rewrite !str_all_app; fold (no_chr "$" user);
      by rewrite (id_dollar user Hu). }
  replace (line (create_user_postgres (dollar_tag hex) user password database)) with
    ("DO " +:+ dollar_tag hex +:+ (role_body user password +:+ dollar_tag hex) +:+ "; GRANT ALL PRIVILEGES ON DATABASE " +:+ database +:+
     " TO " +:+ user +:+ ";" +:+ String LF "") by (unfold line, create_user_postgres, role_body; by rewrite !app_assoc_s).
  eapply reads_eq.
  - eapply reads_app; [chunk|]. eapply reads_app; [by apply reads_tag|]. eapply reads_app; [exact Hb|]. reads_all.
  - reflexivity.
Qed.

(** * The tasks *)

(** The only processes are [mysql] and [psql] as root, with a text that reads as one of
    these statements on its standard input, whether or not backslashes escape. *)
Definition statement (mysql_stmt postgres_stmt : list token → Prop) (e : effect) : Prop :=
  match e with
  | Exec c => c_cred c = Root ∧
      ((c_name c = "mysql" ∧ c_args c = [] ∧ ∀ esc, ∃ ts, read_sql esc (c_input c) = Some ts ∧ mysql_stmt ts) ∨
       (c_name c = "psql" ∧ c_args c = ["-v"; "ON_ERROR_STOP=1"; "-d"; "postgres"] ∧
        ∀ esc, ∃ ts, read_sql esc (c_input c) = Some ts ∧ postgres_stmt ts))
  | RandomHex _ => True
  | _ => False
  end.
Lemma read_sql_ok (esc : bool) (s : string) (ts : list token) : reads_to esc Between s Between ts → read_sql esc s = Some ts.
Proof. unfold reads_to, read_sql. by intros ->. Qed.

Lemma run_sql_statement G (my pg : list token → Prop) type what done mysql_sql (postgres_sql : prog string) :
  (∀ esc, ∃ ts, reads_to esc Between (line mysql_sql) Between ts ∧ my ts) →
  always G (statement my pg) (λ sql, ∀ esc, ∃ ts, reads_to esc Between (line sql) Between ts ∧ pg ts) postgres_sql →
  always G (statement my pg) (λ _, True) (run_sql type what done mysql_sql postgres_sql).
Proof.
  intros Hm Hp. unfold run_sql.
  assert (K : ∀ (Q : list token → Prop) s, (∀ esc, ∃ ts, reads_to esc Between s Between ts ∧ Q ts) →
            ∀ esc, ∃ ts, read_sql esc s = Some ts ∧ Q ts).
  { intros Q s H esc. destruct (H esc) as (ts & Hts%read_sql_ok & HQ). by exists ts. }
  case_goal; [|case_goal; [|done]].
  - cbn. split; [split; [done|]; left; split_and!; try done; by apply K|]. by intros [? [?|]].
  - apply always_bind. eapply always_mono; [done| |exact Hp]. intros sql Hs. cbn.
    split; [split; [done|]; right; split_and!; try done; by apply K|]. by intros [? [?|]].
Qed.

(** What a random tag is relied on for: it does not occur in the password. *)
Definition fresh_tag (password : string) (e : effect) : answer e → Prop :=
  match e with
  | RandomHex _ => λ hex, str_all is_hex hex = true ∧ contains password (dollar_tag hex) = false
  | _ => λ _, True
  end.

(** C16: the database tasks of the agent send exactly one statement to one server: whatever the
    request, [mysql] or [psql] runs as root with fixed arguments, and its input reads, with
    and without backslash escapes, as the intended statement in which the name, the user, the
    host and the password of the request are single tokens. *)
Theorem db_tasks_statements :
  (∀ name type, always any
     (statement (eq (kw "CREATE DATABASE IF NOT EXISTS" ++ [Tick name; Sym ";"]))
        (eq (kw "SELECT" ++ [Str ("CREATE DATABASE " +:+ name)] ++ kw "WHERE NOT EXISTS" ++ [Sym "("] ++
             kw "SELECT FROM pg_database WHERE datname" ++ [Sym "="; Str name; Sym ")"; Sym BS; Word "gexec"])))
     (λ _, True) (databaseCreateTask (Some (name, type)))) ∧
  (∀ name type, always any
     (statement (eq (kw "DROP DATABASE IF EXISTS" ++ [Tick name; Sym ";"])) (eq (kw "DROP DATABASE IF EXISTS" ++ [Word name; Sym ";"])))
     (λ _, True) (databaseDeleteTask (Some (name, type)))) ∧
  (∀ p, always (fresh_tag (du_password p))
     (statement (λ ts, ∃ privileges, Forall bare privileges ∧
          ts = create_user_tokens (du_user p) (or_default (du_host p) "localhost") (du_password p) (du_database p) privileges)
        (λ ts, ∃ hex body, ts = kw "DO" ++ [Body (dollar_tag hex) body; Sym ";"] ++ grant_db_tokens (du_user p) (du_database p) ∧
          ∀ esc, read_sql esc body = Some (create_role_tokens (du_user p) (du_password p))))
     (λ _, True) (dbUserCreateTask (Some p))) ∧
  (∀ user type host, always any
     (statement (eq (kw "DROP USER IF EXISTS" ++ account_tokens user (or_default host "localhost") ++ [Sym ";"] ++
                     kw "FLUSH PRIVILEGES" ++ [Sym ";"]))
        (eq (kw "DROP ROLE IF EXISTS" ++ [Word user; Sym ";"])))
     (λ _, True) (dbUserDeleteTask (Some (user, type, host)))).
Proof.
  split_and!.
  - intros name type. cbn. case_goal; [done|]. bool_hyps. apply run_sql_statement; [|cbn]; intros esc; eexists; (split; [|reflexivity]).
    + by apply reads_create_mysql.
    + by apply reads_create_postgres.
  - intros name type. cbn. case_goal; [done|]. bool_hyps. apply run_sql_statement; [|cbn]; intros esc; eexists; (split; [|reflexivity]).
    + by apply reads_drop_mysql.
    + by apply reads_drop_postgres.
  - intros p. cbn. destruct (check_db_user p) eqn:E; [done|]. unfold check_db_user in E.
    case_hyp E; [done|]. destruct (DBPassword (du_password p)) eqn:Hp; [done|]. case_hyp E; [done|]. bool_hyps.
    apply run_sql_statement.
    + intros esc. destruct (reads_create_user_mysql esc (du_user p) (or_default (du_host p) "localhost") (du_password p)
        (or_default (du_privileges p) "ALL") (du_database p)) as (ts & Hts & Hr); [done..|]. eexists. split; [exact Hr|]. by exists ts.
    + cbn. split; [done|]. intros hex [Hx Ht] esc. eexists. split; [by apply reads_create_user_postgres|].
      exists hex, (role_body (du_user p) (du_password p)). split; [done|]. intros esc'. by apply read_sql_ok, reads_role_body.
  - intros user type host. cbn. case_goal; [done|]. case_goal; [done|]. bool_hyps. apply run_sql_statement; [|cbn]; intros esc; eexists; (split; [|reflexivity]).
    + by apply reads_drop_user_mysql.
    + by apply reads_drop_user_postgres.
Qed.

(** A password made to break out. *)
Example hostile_password :
  read_sql false (line (create_user_postgres (dollar_tag "0123456789abcdef") "bob" "x'; DROP DATABASE shop; --" "shop")) =
  Some (kw "DO" ++ [Body (dollar_tag "0123456789abcdef") (role_body "bob" "x'; DROP DATABASE shop; --"); Sym ";"] ++ grant_db_tokens "bob" "shop").
Proof. by vm_compute. Qed.
