(* ===== verification/AgentBackup.v ===== *)
(** The tasks of the agent about backups: backupCreateTask, backupRestoreTask,
    databaseBackupTask, backupDeleteTask of src/internal/agenthttp/router.go, with movePath
    and resolveBackupFile of validate.go. *)
From S2P Require Import Prelude GoStr Regex SiteInput AgentValidate Json Sql Clock Http Host AgentSite.
Local Open Scope Z_scope.
Local Open Scope panel_scope.

Set Default Proof Using "Type".

(** * Names and destinations *)

(** [Format("20060102-150405")] of the time in UTC. *)
Definition stamp (now : Z) : string :=
  List.fold_right (λ c acc, if chr_in "-:" c then acc else if Ascii.eqb c "T" then String "-" acc
                            else if Ascii.eqb c "Z" then acc else String c acc) "" (list_ascii_of_string (format_seconds (now / 1000000000))).
Definition buildBackupFileName (kind : string) (backupID : Z) (ext : string) : prog string :=
  let k := sanitizeBackupName kind in
  let! now := perform Now in
  Ret ((if (k =? "")%string then "backup" else k) +:+ "_" +:+ stamp now +:+ "_" +:+ itoa backupID +:+ ext).
Definition normalizeS3Endpoint (endpoint0 : string) : string :=
  let endpoint := trim_space endpoint0 in
  if (endpoint =? "")%string || has_prefix endpoint "http://" || has_prefix endpoint "https://" then endpoint
  else "https://" +:+ endpoint.

Record S3Config := mkS3 { s3_bucket : string; s3_endpoint : string; s3_region : string; s3_access : string; s3_secret : string }.
(** The configuration, when it is there and names a bucket. *)
Definition s3_target (s3 : option S3Config) : option S3Config :=
  match s3 with Some c => if (s3_bucket c =? "")%string then None else Some c | None => None end.
Definition s3_copy (c : S3Config) (src dst : string) : prog (string * error) :=
  RunShellEnv ["AWS_ACCESS_KEY_ID=" +:+ s3_access c; "AWS_SECRET_ACCESS_KEY=" +:+ s3_secret c] "aws"
    ["s3"; "cp"; src; dst; "--endpoint-url"; normalizeS3Endpoint (s3_endpoint c); "--region"; s3_region c].
(** The members that an upload adds to the answer, whose message it may replace. *)
Definition upload (s3 : option S3Config) (folder domain name file : string) : prog (option string * list (string * json)) :=
  match s3_target s3 with
  | None => Ret (None, [])
  | Some c =>
      let path := "s3://" +:+ s3_bucket c +:+ "/" +:+ folder +:+ "/" +:+ sanitizeBackupName domain +:+ "/" +:+ name in
      let! o := s3_copy c file path in
      Ret (match o with
           | (out, Some _) => (None, [("s3_upload_error", JStr (trim_space out))])
           | (_, None) => (Some path, [("s3_path", JStr path)])
           end)
  end.
Definition backup_answer (message : string) (file : string) (size id : Z) (more : list (string * json))
    (u : option string * list (string * json)) : reply :=
  ok_data ([("message", JStr (message +:+ match u.1 with Some _ => " and uploaded to S3" | None => "" end)); ("path", JStr file);
    ("size_bytes", JInt size); ("backup_id", JInt id)] ++ more ++ u.2).

(** * Dumps *)

Definition unsupported_type : string := "unsupported database type".
Definition dumpDatabase (type user password name file : string) : prog (string * error) :=
  if (type =? "mysql")%string then
    RunToFileEnv (if (password =? "")%string then [] else ["MYSQL_PWD=" +:+ password]) file "mysqldump"
      ["-u" +:+ user; "--no-tablespaces"; "--single-transaction"; "--quick"; "--routines"; "--triggers"; name]
  else if (type =? "postgres")%string then
    RunToFileEnv ["PGPASSWORD=" +:+ password] file "pg_dump" ["-U" +:+ user; "-h"; "localhost"; "--no-owner"; "--no-acl"; name]
  else Ret (unsupported_type, errorf unsupported_type).

Record DumpSpec := mkDump { db_name : string; db_type : string; db_user : string; db_password : string }.
(** Every database into its own file; [Some]: the refusal. *)
Fixpoint dump_all (dir : string) (l : list DumpSpec) : prog (option reply) :=
  match l with
  | [] => Ret None
  | d :: l' =>
      if negb (isValidDBIdentifier (db_name d)) || negb (isValidDBIdentifier (db_user d))
      then Ret (Some (HTTPError 400 "invalid database payload"))
      else
        let! o := dumpDatabase (db_type d) (db_user d) (db_password d) (db_name d)
                    (path_join dir (sanitizeBackupName (db_name d) +:+ ".sql")) in
        match o with
        | (out, Some _) =>
            Ret (Some (if (out =? unsupported_type)%string then HTTPError 400 ("unsupported database type: " +:+ db_type d)
                       else HTTPError 500 ("database dump failed: " +:+ trim_space out)))
        | (_, None) => dump_all dir l'
        end
  end.

(** * Creating *)

Record BackupCreate := mkBackupCreate {
  bc_id : Z; bc_domain : string; bc_root : string; bc_type : string; bc_databases : list DumpSpec; bc_s3 : option S3Config }.

Section Tasks.
Variable r : AgentRouter.

Definition tar_excludes : list string :=
  ["--exclude=backups"; "--exclude=node_modules"; "--exclude=vendor"; "--exclude=.git"; "--exclude=.env"; "--exclude=cache"].
Definition archive (file root : string) (more : list string) : prog (string * error) :=
  RunShell "tar" (["-czf"; file] ++ tar_excludes ++ ["-C"; path_dir root; path_base root] ++ more).
(** The archive with the dumps.  What [tar] answers goes to an [err] of the inner block, which
    hides the one the handler looks at afterwards.  The temporary directory is removed when
    the handler returns. *)
Definition archive_full (p : BackupCreate) (dir file : string) (k : prog reply) : prog reply :=
  let! t := perform (MkdirTemp dir "full-*") in
  match (t : res string) with
  | Err e => Ret (HTTPError 500 ("create bundle temp failed: " +:+ e))
  | Ok bundle =>
      let dumps := path_join bundle "database_dumps" in
      let! m := perform (MkdirAll dumps) in
      let! rep := match (m : error) with
        | Some e => Ret (HTTPError 500 ("create dumps dir failed: " +:+ e))
        | None =>
            let! d := dump_all dumps (bc_databases p) in
            match d with
            | Some rep => Ret rep
            | None =>
                let! _ := archive file (bc_root p) ["-C"; bundle; "database_dumps"] in
                k
            end
        end in
      let! _ := perform (RemoveAll bundle) in
      Ret rep
  end.
Definition archive_files (p : BackupCreate) (file : string) (k : prog reply) : prog reply :=
  let! o := archive file (bc_root p) [] in
  match o with (out, Some _) => Ret (HTTPError 500 ("tar failed: " +:+ trim_space out)) | _ => k end.
Definition finish_backup (p : BackupCreate) (name file : string) : prog reply :=
  let! s := perform (Stat file) in
  match (s : stat_result) with
  | Found f =>
      let! u := upload (bc_s3 p) "sites" (bc_domain p) name file in
      Ret (backup_answer "backup created" file (fi_size f) (bc_id p) [] u)
  | NotExist => Ret (HTTPError 500 "stat backup failed: file does not exist")
  | StatErr e => Ret (HTTPError 500 ("stat backup failed: " +:+ e))
  end.
Definition backupCreateTask (payload : option BackupCreate) : prog reply :=
  match payload with
  | None => Ret invalid_payload
  | Some p =>
      if negb (isAllowedSitePath r (bc_root p)) then Ret (HTTPError 400 "invalid root_path")
      else
        let dir := path_join (bc_root p) "backups" in
        let! e := EnsureDir dir in
        match e with
        | Some e => Ret (HTTPError 500 ("ensure backup dir failed: " +:+ e))
        | None =>
            let full := match bc_databases p with [] => false | _ => true end in
            let! name := buildBackupFileName (if (bc_type p =? "both")%string || full then "full" else "files") (bc_id p) ".tar.gz" in
            let file := path_join dir name in
            if full then archive_full p dir file (finish_backup p name file) else archive_files p file (finish_backup p name file)
        end
  end.

(** * Resolving a backup file *)

Definition resolve_backup_file (path : string) : prog (option string) :=
  if negb (isAllowedBackupPath r path) || negb (existsb (λ ext, has_suffix (to_lower path) ext) backupFileExts) then Ret None
  else
    let! d := perform (EvalSymlinks (path_dir (path_clean path))) in
    match resolveBackupFile (λ _, d) (λ _, None) r path with
    | None => Ret None
    | Some real =>
        let! l := perform (Lstat real) in
        Ret (match (l : stat_result) with Found f => if fi_regular f then Some real else None | _ => Some real end)
    end.

(** * Restoring *)

Definition movePath (src dst : string) : prog error :=
  let! e := perform (Rename src dst) in
  match (e : error) with
  | None => Ret nil_error
  | Some _ =>
      let! c := perform (CopyPath src dst) in
      match (c : error) with Some m => Ret (Some m) | None => perform (RemoveAll src) end
  end.

Record BackupRestore := mkBackupRestore { br_id : Z; br_path : string; br_root : string; br_s3 : option S3Config }.
(** The archive on the disk, downloaded if it is on S3. *)
Definition fetch_archive (p : BackupRestore) : prog (string + reply) :=
  if has_prefix (br_path p) "s3://" then
    match s3_target (br_s3 p) with
    | None => Ret (inr (HTTPError 400 "s3_config required for S3 backup path"))
    | Some c =>
        let dir := path_join (br_root p) "backup" in
        let! e := EnsureDir dir in
        match e with
        | Some e => Ret (inr (HTTPError 500 ("ensure dir failed: " +:+ e)))
        | None =>
            let file := path_join dir ("restore_" +:+ itoa (br_id p) +:+ ".tar.gz") in
            let! o := s3_copy c (br_path p) file in
            Ret (match o with (out, Some _) => inr (HTTPError 500 ("S3 download failed: " +:+ trim_space out)) | _ => inl file end)
        end
    end
  else Ret (inl (br_path p)).

Definition staged_root (p : BackupRestore) : string := br_root p +:+ ".restore-old-" +:+ itoa (br_id p).
(** The swap of the two trees: the current root is moved aside, the new one into its place. *)
Definition put_back_root (p : BackupRestore) (why : string) : prog reply :=
  let! _ := perform (RemoveAll (br_root p)) in
  let! e := movePath (staged_root p) (br_root p) in
  Ret (match e with
       | Some _ => HTTPError 500 ("move restored root failed and rollback failed; original site data preserved at " +:+
                                  staged_root p +:+ ": " +:+ why)
       | None => HTTPError 500 ("move restored root failed: " +:+ why)
       end).
Definition install_root (p : BackupRestore) (extracted : string) (staged : bool) : prog reply :=
  let! e := movePath extracted (br_root p) in
  match e with
  | Some why => if staged then put_back_root p why else Ret (HTTPError 500 ("move restored root failed: " +:+ why))
  | None =>
      let! _ := if staged then perform (RemoveAll (staged_root p)) else Ret nil_error in
      let! n := perform (CountFiles (br_root p)) in
      Ret (ok_data [("files_extracted", JInt n); ("message", JStr "backup restored"); ("root_path", JStr (br_root p))])
  end.
Definition swap_roots (p : BackupRestore) (extracted : string) : prog reply :=
  let! e := exists_path (br_root p) in
  if e.1 : bool then
    let! _ := perform (RemoveAll (staged_root p)) in
    let! m := movePath (br_root p) (staged_root p) in
    match m with
    | Some why => Ret (HTTPError 500 ("stage existing root failed: " +:+ why))
    | None => install_root p extracted true
    end
  else install_root p extracted false.

(** The restored files belong to the owner of the site, or of its parent. *)
Definition reown (p : BackupRestore) (extracted : string) : prog error :=
  let! s := perform (Lstat (br_root p)) in
  let! o := match (s : stat_result) with Found _ => perform (Lstat (br_root p)) | _ => perform (Lstat (path_dir (br_root p))) end in
  match (o : stat_result) with
  | Found f => perform (SanitizeTree extracted (fi_uid f) (fi_gid f))
  | _ => Ret nil_error
  end.
Definition unpack (p : BackupRestore) (file tmp : string) : prog reply :=
  let! o := RunShell "tar" ["-xzf"; file; "-C"; tmp; "--no-same-owner"; "--no-same-permissions"] in
  match o with
  | (out, Some _) => Ret (HTTPError 500 ("extract backup failed: " +:+ trim_space out))
  | (_, None) =>
      let extracted := path_join tmp (path_base (br_root p)) in
      let! e := exists_path extracted in
      if negb e.1 then Ret (HTTPError 500 "backup archive missing expected site root")
      else
        let! m := perform (MkdirAll (path_dir (br_root p))) in
        match (m : error) with
        | Some e => Ret (HTTPError 500 ("create parent dir failed: " +:+ e))
        | None =>
            let! w := reown p extracted in
            match w with
            | Some e => Ret (HTTPError 500 ("sanitize restored files failed: " +:+ e))
            | None => swap_roots p extracted
            end
        end
  end.
Definition restore_from (p : BackupRestore) (file : string) : prog reply :=
  let! s := perform (Stat file) in
  match (s : stat_result) with
  | Found f =>
      if fi_dir f then Ret (HTTPError 404 "backup file not found")
      else
        let! t := perform (MkdirTemp (backupDir r) "restore-*") in
        match (t : res string) with
        | Err e => Ret (HTTPError 500 ("create restore temp dir failed: " +:+ e))
        | Ok tmp =>
            let! rep := unpack p file tmp in
            let! _ := perform (RemoveAll tmp) in
            Ret rep
        end
  | _ => Ret (HTTPError 404 "backup file not found")
  end.
Definition backupRestoreTask (payload : option BackupRestore) : prog reply :=
  match payload with
  | None => Ret invalid_payload
  | Some p =>
      if negb (isAllowedSitePath r (br_root p)) then Ret (HTTPError 400 "invalid root_path")
      else
        let! f := fetch_archive p in
        match f with
        | inr rep => Ret rep
        | inl path =>
            let! real := resolve_backup_file path in
            match real with
            | None => Ret (HTTPError 400 "invalid backup_path")
            | Some file => restore_from p file
            end
        end
  end.

(** * Databases *)

Record DatabaseBackup := mkDatabaseBackup {
  dbk_id : Z; dbk_domain : string; dbk_root : string; dbk_spec : DumpSpec; dbk_s3 : option S3Config }.
(** The directory of the dumps has not been swapped for a link out of the site. *)
Definition dump_dir_inside (p : DatabaseBackup) (dir : string) : prog bool :=
  let! root := perform (EvalSymlinks (dbk_root p)) in
  let! real := perform (EvalSymlinks dir) in
  Ret (match (root : option string), (real : option string) with Some a, Some b => UnderRoot a b | _, _ => false end).
Definition dump_to (p : DatabaseBackup) (dir : string) : prog reply :=
  let d := dbk_spec p in
  let! name := buildBackupFileName ("database_" +:+ sanitizeBackupName (db_name d)) (dbk_id p) ".sql" in
  let file := path_join dir name in
  let! o := dumpDatabase (db_type d) (db_user d) (db_password d) (db_name d) file in
  match o with
  | (out, Some _) =>
      Ret (if (out =? unsupported_type)%string then HTTPError 400 ("unsupported database type: " +:+ db_type d)
           else HTTPError 500 (db_type d +:+ " dump failed: " +:+ trim_space out))
  | (_, None) =>
      let! s := perform (Stat file) in
      match (s : stat_result) with
      | Found f =>
          let! u := upload (dbk_s3 p) "sites-db" (dbk_domain p) name file in
          Ret (backup_answer "database backup created" file (fi_size f) (dbk_id p) [("db_name", JStr (db_name d))] u)
      | NotExist => Ret (HTTPError 500 "dump file not found after export: file does not exist")
      | StatErr e => Ret (HTTPError 500 ("dump file not found after export: " +:+ e))
      end
  end.
Definition databaseBackupTask (payload : option DatabaseBackup) : prog reply :=
  match payload with
  | None => Ret invalid_payload
  | Some p =>
      if negb (isValidDBIdentifier (db_name (dbk_spec p))) || negb (isValidDBIdentifier (db_user (dbk_spec p)))
      then Ret (HTTPError 400 "invalid db_name or db_user")
      else if negb (isAllowedSitePath r (dbk_root p)) then Ret (HTTPError 400 "invalid root_path")
      else
        let dir := path_join (dbk_root p) "backup/db" in
        let! e := EnsureDir dir in
        match e with
        | Some e => Ret (HTTPError 500 ("ensure dir failed: " +:+ e))
        | None =>
            let! inside := dump_dir_inside p dir in
            if negb inside then Ret (HTTPError 400 "backup directory escapes the site root") else dump_to p dir
        end
  end.

(** * Deleting *)

Definition backupDeleteTask (payload : option (Z * string)) : prog reply :=
  match payload with
  | None => Ret invalid_payload
  | Some (id, storage) =>
      let path := trim_space storage in
      let answer (message : string) (more : list (string * json)) :=
        ok_data ([("message", JStr message); ("backup_id", JInt id)] ++ more) in
      if (path =? "")%string || has_prefix path "s3://" then Ret (answer "no local file to delete" [])
      else
        let! real := resolve_backup_file path in
        match real with
        | None => Ret (HTTPError 400 "invalid storage_path")
        | Some file =>
            let! d := perform (Remove file) in
            Ret (match (d : removal) with
                 | Removed => answer "backup deleted" [("path", JStr file)]
                 | Missing => answer "already gone" []
                 | RemoveErr e => HTTPError 500 ("remove backup file failed: " +:+ e)
                 end)
        end
  end.
End Tasks.
