(* ===== verification/AgentTasks.v ===== *)
(** The API of the agent: which task a request is, src/internal/agenthttp/router.go, and how
    its body is decoded. *)
From S2P Require Import Prelude GoStr Json Sql Http Host AgentSite AgentApp AgentDb AgentBackup.
Local Open Scope Z_scope.
Local Open Scope panel_scope.

Set Default Proof Using "Type".

(** * Bodies *)

(** [c.Bind] of an empty body leaves the zero values. *)
Definition bind_body (body : string) : option json := if (body =? "")%string then Some JNull else parse_text body.

Section Decode.
Variable v : json.
Let str (name : string) : option string := str_field name v.
Let int (name : string) : option Z := int_field name v.

Definition decode_site_create : option SiteCreate :=
  site ← int "site_id"; name ← str "name"; domain ← str "domain"; runtime ← str "runtime"; root ← str "root_path";
  port ← int "port"; proxy ← str "proxy_pass_url"; php ← str "php_version"; ini ← str "php_ini"; image ← str "docker_image";
  language ← str "docker_language"; docker ← str "docker_name"; ports ← str "docker_ports"; env ← str "docker_env";
  volume ← str "docker_volume"; restart ← str "docker_restart";
  Some (mkSiteCreate site name domain runtime root port proxy php ini image language docker ports env volume restart).
Definition decode_site_delete : option SiteDelete :=
  site ← int "site_id"; domain ← str "domain"; root ← str "root_path"; Some (mkSiteDelete site domain root).
Definition decode_site_deploy : option SiteDeploy :=
  site ← int "site_id"; domain ← str "domain"; repo ← str "repo"; branch ← str "branch"; root ← str "root_path";
  runtime ← str "runtime"; status ← str "app_status"; port ← int "app_port"; command ← str "app_command";
  user ← str "system_user"; memory ← int "app_memory_max";
  Some (mkSiteDeploy site domain repo branch root runtime status port command user memory).
Definition decode_ssl_issue : option (Z * string * string) :=
  site ← int "site_id"; domain ← str "domain"; email ← str "email"; Some (site, domain, email).
Definition decode_site_domain : option (Z * string) := site ← int "site_id"; domain ← str "domain"; Some (site, domain).
Definition decode_logs : option LogsRead :=
  site ← int "site_id"; domain ← str "domain"; type ← str "type"; lines ← int "lines"; Some (mkLogsRead site domain type lines).
Definition decode_app : option AppTask :=
  site ← int "site_id"; domain ← str "domain"; root ← str "root_path"; user ← str "system_user"; port ← int "app_port";
  command ← str "app_command"; memory ← int "app_memory_max"; Some (mkAppTask site domain root user port command memory).
Definition decode_commit : option (string * string) := root ← str "root_path"; commit ← str "commit"; Some (root, commit).
Definition decode_branch : option (string * string) := root ← str "root_path"; branch ← str "branch"; Some (root, branch).
Definition decode_database : option (string * string) :=
  _ ← int "database_id"; _ ← int "site_id"; name ← str "name"; type ← str "type"; Some (name, type).
Definition decode_database_delete : option (string * string) :=
  _ ← int "database_id"; name ← str "name"; type ← str "type"; Some (name, type).
Definition decode_db_user : option DBUserCreate :=
  _ ← int "user_id"; _ ← int "database_id"; database ← str "database_name"; type ← str "type"; user ← str "username";
  password ← str "password"; host ← str "host_pattern"; privileges ← str "privileges";
  Some (mkDBUserCreate database type user password host privileges).
Definition decode_db_user_delete : option (string * string * string) :=
  _ ← int "user_id"; user ← str "username"; _ ← int "database_id"; _ ← str "database_name"; type ← str "type";
  host ← str "host_pattern"; Some (user, type, host).
Definition decode_backup_delete : option (Z * string) := id ← int "backup_id"; path ← str "storage_path"; Some (id, path).
Definition decode_dump : option DumpSpec :=
  name ← str "name"; type ← str "type"; user ← str "user"; password ← str "password"; Some (mkDump name type user password).
End Decode.

(** A slice, and a pointer to a struct: null makes them nil. *)
Definition decode_dumps (acc : option (list DumpSpec)) (v : json) : option (list DumpSpec) :=
  match acc, v with
  | None, _ => None
  | Some _, JArr l => mapM decode_dump l
  | Some _, JNull => Some []
  | Some _, _ => None
  end.
Definition decode_s3 (acc : option (option S3Config)) (v : json) : option (option S3Config) :=
  match acc, v with
  | None, _ => None
  | Some _, JNull => Some None
  | Some old, _ =>
      let c := default (mkS3 "" "" "" "" "") old in
      let str (zero name : string) : option string := field_with decode_str zero name v in
      bucket ← str (s3_bucket c) "bucket"; endpoint ← str (s3_endpoint c) "endpoint"; region ← str (s3_region c) "region";
      access ← str (s3_access c) "access_key"; secret ← str (s3_secret c) "secret_key";
      Some (Some (mkS3 bucket endpoint region access secret))
  end.
Definition s3_field : json → option (option S3Config) := field_with decode_s3 None "s3_config".

Definition decode_backup_create (v : json) : option BackupCreate :=
  id ← int_field "backup_id" v; _ ← int_field "site_id" v; domain ← str_field "domain" v; root ← str_field "root_path" v;
  _ ← str_field "storage" v; type ← str_field "backup_type" v; databases ← field_with decode_dumps [] "databases" v;
  s3 ← s3_field v; Some (mkBackupCreate id domain root type databases s3).
Definition decode_backup_restore (v : json) : option BackupRestore :=
  id ← int_field "backup_id" v; _ ← int_field "site_id" v; _ ← str_field "domain" v; path ← str_field "backup_path" v;
  root ← str_field "root_path" v; s3 ← s3_field v; Some (mkBackupRestore id path root s3).
Definition decode_database_backup (v : json) : option DatabaseBackup :=
  id ← int_field "backup_id" v; _ ← int_field "site_id" v; domain ← str_field "domain" v; root ← str_field "root_path" v;
  name ← str_field "db_name" v; type ← str_field "db_type" v; user ← str_field "db_user" v; password ← str_field "db_password" v;
  s3 ← s3_field v; Some (mkDatabaseBackup id domain root (mkDump name type user password) s3).

(** * Tasks *)

Inductive task :=
| SiteCreateTask (p : option SiteCreate) | SiteDeleteTask (p : option SiteDelete) | SiteDeployTask (p : option SiteDeploy)
| NginxReloadTask | SSLIssueTask (p : option (Z * string * string)) | SSLRenewTask (p : option (Z * string))
| LogsReadTask (p : option LogsRead)
| BackupCreateTask (p : option BackupCreate) | BackupRestoreTask (p : option BackupRestore)
| DatabaseBackupTask (p : option DatabaseBackup) | BackupDeleteTask (p : option (Z * string))
| DatabaseCreateTask (p : option (string * string)) | DatabaseDeleteTask (p : option (string * string))
| DBUserCreateTask (p : option DBUserCreate) | DBUserDeleteTask (p : option (string * string * string))
| AppStartTask (p : option AppTask) | AppStopTask (p : option (Z * string)) | AppRestartTask (p : option AppTask)
| GitBranchesTask (root : string) | GitLogTask (root lines : string)
| GitRollbackTask (p : option (string * string)) | GitCheckoutTask (p : option (string * string)).

Section Serve.
Context `{HR : MapRange} (r : AgentRouter).

Definition run_task (t : task) : prog reply :=
  match t with
  | SiteCreateTask p => siteCreateTask r p
  | SiteDeleteTask p => siteDeleteTask r p
  | SiteDeployTask p => siteDeployTask r p
  | NginxReloadTask => nginxReloadTask
  | SSLIssueTask p => sslIssueTask r p
  | SSLRenewTask p => sslRenewTask r p
  | LogsReadTask p => logsReadTask r p
  | BackupCreateTask p => backupCreateTask r p
  | BackupRestoreTask p => backupRestoreTask r p
  | DatabaseBackupTask p => databaseBackupTask r p
  | BackupDeleteTask p => backupDeleteTask r p
  | DatabaseCreateTask p => databaseCreateTask p
  | DatabaseDeleteTask p => databaseDeleteTask p
  | DBUserCreateTask p => dbUserCreateTask p
  | DBUserDeleteTask p => dbUserDeleteTask p
  | AppStartTask p => appStartTask r p
  | AppStopTask p => appStopTask p
  | AppRestartTask p => appRestartTask r p
  | GitBranchesTask root => gitBranchesTask r root
  | GitLogTask root lines => gitLogTask r root lines
  | GitRollbackTask p => gitRollbackTask r p
  | GitCheckoutTask p => gitCheckoutTask r p
  end.

(** The tasks posted under /tasks. *)
Definition task_of (path body : string) : option task :=
  let with_body {A} (decode : json → option A) (mk : option A → task) := Some (mk (bind_body body ≫= decode)) in
  if (path =? "/site/create")%string then with_body decode_site_create SiteCreateTask
  else if (path =? "/site/delete")%string then with_body decode_site_delete SiteDeleteTask
  else if (path =? "/site/deploy")%string then with_body decode_site_deploy SiteDeployTask
  else if (path =? "/nginx/reload")%string then Some NginxReloadTask
  else if (path =? "/ssl/issue")%string then with_body decode_ssl_issue SSLIssueTask
  else if (path =? "/ssl/renew")%string then with_body decode_site_domain SSLRenewTask
  else if (path =? "/logs/read")%string then with_body decode_logs LogsReadTask
  else if (path =? "/backup/create")%string then with_body decode_backup_create BackupCreateTask
  else if (path =? "/backup/restore")%string then with_body decode_backup_restore BackupRestoreTask
  else if (path =? "/backup/database")%string then with_body decode_database_backup DatabaseBackupTask
  else if (path =? "/backup/delete")%string then with_body decode_backup_delete BackupDeleteTask
  else if (path =? "/database/create")%string then with_body decode_database DatabaseCreateTask
  else if (path =? "/database/delete")%string then with_body decode_database_delete DatabaseDeleteTask
  else if (path =? "/dbuser/create")%string then with_body decode_db_user DBUserCreateTask
  else if (path =? "/dbuser/delete")%string then with_body decode_db_user_delete DBUserDeleteTask
  else if (path =? "/app/start")%string then with_body decode_app AppStartTask
  else if (path =? "/app/stop")%string then with_body decode_site_domain AppStopTask
  else if (path =? "/app/restart")%string then with_body decode_app AppRestartTask
  else if (path =? "/git/rollback")%string then with_body decode_commit GitRollbackTask
  else if (path =? "/git/checkout")%string then with_body decode_branch GitCheckoutTask
  else None.
(** A request with its [Authorization] header; [None]: the path is none of the above. *)
Definition post_task (header path body : string) : option (prog reply) :=
  (λ t, requireAgentAuth r header (run_task t)) <$> task_of path body.
End Serve.
