(* ===== verification/AgentAnswers.v ===== *)
(** What the agent answers to a job, for every request and every state of the host: the worker
    of the panel can always read it. *)
From S2P Require Import Prelude GoStr SiteInput AgentValidate Json Sql Sites Agent Http Host AgentSite AgentApp AgentDb AgentBackup AgentTasks.
Local Open Scope Z_scope.
Local Open Scope panel_scope.

Set Default Proof Using "Type".

(** * Answers as the client reads them *)

(** The status and the body of an answer; echo renders an [HTTPError] as an object with the
    message. *)
Definition rendered (rep : reply) : option (Z * json) :=
  match rep with
  | JSON status body => Some (status, body)
  | HTTPError status m => Some (status, JObj [("message", JStr m)])
  | _ => None
  end.
(** The members of an object, read one after the other. *)
Definition read_members (l : list (string * json)) (r : option TaskResult) : option TaskResult :=
  fold_left (λ acc p, match acc with Some r => set_field p.1 p.2 r | None => None end) l r.
Definition result_of (v : json) : option TaskResult :=
  match v with JObj l => read_members l (Some zero_result) | JNull => Some zero_result | _ => None end.
Lemma unmarshal_result_of (body : string) : unmarshal_result body = match parse_text body with Some v => result_of v | None => None end.
Proof. unfold unmarshal_result. destruct (parse_text body) as [[]|]; reflexivity. Qed.

(** A member other than [ok] that its field of the result, if any, can take. *)
Definition fits (p : string * json) : Prop := ∀ r, ∃ r', set_field p.1 p.2 r = Some r' ∧ OK r' = OK r.
Lemma fits_read (l : list (string * json)) (r : TaskResult) :
  Forall fits l → ∃ r', read_members l (Some r) = Some r' ∧ OK r' = OK r.
Proof.
  intros Hl. revert r. induction Hl as [|p l Hp Hl IH]; intros r; [by exists r|].
  destruct (Hp r) as (r1 & E1 & O1). destruct (IH r1) as (r2 & E2 & O2). exists r2. unfold read_members in *. cbn [fold_left].
  rewrite E1. split; [done|]. congruence.
Qed.
Lemma fits_app (l m : list (string * json)) : Forall fits l → Forall fits m → Forall fits (l ++ m).
Proof. intros Hl Hm. by apply Forall_app. Qed.
Lemma fits_size (n : Z) : int64 n → fits ("size_bytes", JInt n).
Proof. intros Hn [ok out err app p s3 s3e sz ng px]. eexists. cbn -[atoi itoa]. by rewrite atoi_itoa. Qed.

(** What [Execute] of Agent.v returns to the worker when this is what its request gets: the
    result, with an error unless the status is 200. *)
Definition received (status : Z) (body : json) (result : TaskResult) : Prop := ∀ post c ty payload,
  endpointForType ty ≠ "" → json_ok body = true →
  post (baseURL c +:+ endpointForType ty) (c_token c) (if (payload =? "")%string then "{}" else payload) = Ok (status, Marshal body) →
  Execute post c ty payload = (Some result, if status =? 200 then None else Some (agentResponseError status result (Marshal body))).
Lemma result_received (status : Z) (body : json) (result : TaskResult) :
  result_of body = Some result → status = 200 ∨ 400 ≤ status ∧ status ≠ 501 → received status body result.
Proof.
  intros Hr Hs post c ty payload He Hj Hp. unfold Execute. rewrite (proj2 (String.eqb_neq _ _) He), Hp, unmarshal_result_of, parse_marshal, Hr by done.
  rewrite (proj2 (Z.eqb_neq status 501)) by lia. destruct (Z.leb_spec 400 status), (Z.eqb_spec status 200); [lia|done|done|lia].
Qed.

(** An answer to a job: below 400 with [ok], or with the state [errored] of an app; or an error. *)
Definition answered (rep : reply) : Prop := ∃ status body result,
  rendered rep = Some (status, body) ∧ result_of body = Some result ∧ received status body result ∧
  (status = 200 ∧ (OK result = true ∨ AppStatus result = "errored") ∨ 400 ≤ status < 600 ∧ OK result = false).
Lemma answered_ok (l : list (string * json)) : Forall fits l → answered (ok_data l).
Proof.
  intros Hl. destruct (fits_read l (mkResult true "" "" "" "" "" "" 0 "" "") Hl) as (res & E & O).
  eexists _, _, res. split; [reflexivity|]. split; [exact E|]. split; [by apply result_received; [|left]|]. left. split; [done|]. by left.
Qed.
Lemma answered_error (status : Z) (m : string) : 400 ≤ status < 600 ∧ status ≠ 501 → answered (HTTPError status m).
Proof.
  intros [Hs Hn]. eexists _, _, zero_result. split; [reflexivity|]. split; [reflexivity|].
  split; [apply result_received; [done|right; lia]|]. by right.
Qed.

(** Sizes are 64 bits wide. *)
Definition sized (e : effect) : answer e → Prop :=
  match e with
  | Stat _ | Lstat _ => λ x, match x with Found f => int64 (fi_size f) | _ => True end
  | _ => λ _, True
  end.
Definition ends {A} (Q : A → Prop) (p : prog A) : Prop := always sized (λ _, True) Q p.
Lemma ends_true {A} (p : prog A) : ends (λ _, True) p.
Proof. unfold ends. induction p as [a|e k IH]; cbn; [done|]. split; [done|]. intros x _. apply IH. Qed.
Lemma ends_seq {A B} (R : A → Prop) (Q : B → Prop) (p : prog A) (f : A → prog B) :
  ends R p → (∀ a, R a → ends Q (f a)) → ends Q (bind p f).
Proof. intros Hp Hf. apply always_bind. by eapply always_mono; [| |exact Hp]. Qed.
Lemma ends_bind {A B} (Q : B → Prop) (p : prog A) (f : A → prog B) : (∀ a, ends Q (f a)) → ends Q (bind p f).
Proof. intros Hf. apply (ends_seq (λ _, True)); [apply ends_true|]. intros a _. apply Hf. Qed.
Lemma ends_stat {B} (Q : B → Prop) (path : string) (f : stat_result → prog B) :
  (∀ s, match s with Found i => int64 (fi_size i) | _ => True end → ends Q (f s)) → ends Q (bind (perform (Stat path)) f).
Proof. intros Hf. apply (ends_seq (λ s : stat_result, match s with Found i => int64 (fi_size i) | _ => True end)); [by split|exact Hf]. Qed.

Create HintDb answers.
#[export] Hint Resolve answered_error answered_ok fits_app fits_size : answers.
Ltac fits_all :=
  repeat lazymatch goal with
  | |- Forall _ [] => by apply Forall_nil
  | |- Forall _ (_ :: _) => apply Forall_cons; split; [try (intros []; eexists; split; reflexivity)|]
  | |- Forall _ (_ ++ _) => apply fits_app
  | |- Forall _ (match ?x with _ => _ end) => destruct x
  end.
(** Steps through a handler; it stops at a part that may give the answer. *)
Ltac respond :=
  repeat lazymatch goal with
  | |- ends _ (bind (perform (Stat _)) _) => apply ends_stat; intros ? ?
  | |- ends _ (@bind reply _ _ _) => fail
  | |- ends _ (@bind (option reply) _ _ _) => fail
  | |- ends _ (@bind (_ + reply) _ _ _) => fail
  | |- ends _ (bind (upload _ _ _ _ _) _) => fail
  | |- ends _ (bind _ _) => apply ends_bind; intros ?
  | |- ends _ (let _ := _ in _) => cbv zeta
  | |- ends _ (match ?x with _ => _ end) => destruct x
  | |- ends _ (Ret _) => unfold ends; cbn [always]
  | |- answered (match ?x with _ => _ end) => destruct x
  | |- answered (HTTPError _ _) => by apply answered_error
  | |- answered invalid_payload => by apply answered_error
  | |- True => exact I
  | |- answered (ok_data _) => apply answered_ok; fits_all
  end.

Section Answers.
Context `{HR : MapRange} (r : AgentRouter).
Notation answers p := (ends answered p).

Lemma answers_database p : answers (databaseCreateTask p).
Proof. unfold databaseCreateTask, run_sql. respond. Qed.
Lemma answers_database_delete p : answers (databaseDeleteTask p).
Proof. unfold databaseDeleteTask, run_sql. respond. Qed.
Lemma answers_user p : answers (dbUserCreateTask p).
Proof. unfold dbUserCreateTask, run_sql. respond. Qed.
Lemma answers_user_delete p : answers (dbUserDeleteTask p).
Proof. unfold dbUserDeleteTask, run_sql. respond. Qed.
Lemma answers_nginx : answers nginxReloadTask.
Proof. unfold nginxReloadTask. respond. Qed.
Lemma answers_issue p : answers (sslIssueTask r p).
Proof. unfold sslIssueTask. respond. Qed.
Lemma answers_renew p : answers (sslRenewTask r p).
Proof. unfold sslRenewTask. respond. Qed.
Lemma answers_logs p : answers (logsReadTask r p).
Proof. unfold logsReadTask. respond. Qed.
Lemma answers_site_delete p : answers (siteDeleteTask r p).
Proof. unfold siteDeleteTask. respond. Qed.
Lemma answers_backup_delete p : answers (backupDeleteTask r p).
Proof. unfold backupDeleteTask. respond. Qed.

(** ** Sites *)

(** A part of a handler that may give its answer. *)
Definition on_refusal {A} (x : A + reply) : Prop := match x with inr rep => answered rep | inl _ => True end.
Definition on_answer (x : option reply) : Prop := match x with Some rep => answered rep | None => True end.

Lemma answers_install p proxy : answers (install_site r p proxy).
Proof. unfold install_site. respond. Qed.
Lemma answers_container p : ends on_refusal (create_container p).
Proof. unfold create_container, on_refusal. respond. Qed.
Lemma answers_site_create p : answers (siteCreateTask r p).
Proof.
  unfold siteCreateTask. destruct p as [p|]; respond; try apply answers_install.
  eapply ends_seq; [apply answers_container|]. intros [proxy|rep] H; [apply answers_install|exact H].
Qed.
Lemma answers_checkout p owner b : ends on_answer (checkout p owner b).
Proof. unfold checkout, on_answer. respond; by destruct a as [out [e|]]; respond. Qed.
Lemma answers_deploy p : answers (siteDeployTask r p).
Proof.
  unfold siteDeployTask. destruct p as [p|]; respond. eapply ends_seq; [apply answers_checkout|].
  intros [rep|] H; [exact H|]. respond.
Qed.

(** ** Apps *)

Lemma answers_app_answer p svc verb suffix : answers (app_answer p svc verb suffix).
Proof.
  unfold app_answer. respond. eexists _, _, _. split; [reflexivity|]. split; [reflexivity|]. split; [by apply result_received; [|left]|]. left. split; [done|by right].
Qed.
Lemma answers_app_start p : answers (appStartTask r p).
Proof. unfold appStartTask, start_service. respond. apply answers_app_answer. Qed.
Lemma answers_app_stop p : answers (appStopTask p).
Proof. unfold appStopTask. respond. Qed.
Lemma answers_app_restart p : answers (appRestartTask r p).
Proof. unfold appRestartTask. respond. apply answers_app_answer. Qed.

(** ** Backups *)

Lemma fits_upload s3 folder domain name file : ends (λ u, Forall fits u.2) (upload s3 folder domain name file).
Proof. unfold upload. destruct (s3_target s3); [|by apply Forall_nil]. respond. destruct a as [out [e|]]; cbn [snd]; fits_all. Qed.
Lemma answers_backup_answer message file size id more s3 folder domain name :
  int64 size → Forall fits more →
  answers (let! u := upload s3 folder domain name file in Ret (backup_answer message file size id more u)).
Proof.
  intros Hs Hm. eapply ends_seq; [apply fits_upload|]. intros u Hu. unfold ends, backup_answer. cbn [always]. apply answered_ok.
  fits_all; [by apply fits_size|done|exact Hu].
Qed.
Lemma answers_finish p name file : answers (finish_backup p name file).
Proof. unfold finish_backup. apply ends_stat. intros [i| |e] Hi; [apply answers_backup_answer; [done|by apply Forall_nil]|respond..]. Qed.
Lemma answers_dump_all dir l : ends on_answer (dump_all dir l).
Proof.
  induction l as [|d l IH]; cbn [dump_all]; [done|]. destruct (_ || _); [by apply answered_error|].
  apply ends_bind. intros [out [e|]]; [|exact IH]. unfold ends. cbn. respond.
Qed.
Lemma answers_backup_create p : answers (backupCreateTask r p).
Proof.
  unfold backupCreateTask, archive_full, archive_files. destruct p as [p|]; respond; try apply answers_finish.
  all: apply (ends_seq answered); [|intros rep Hrep; respond; exact Hrep].
  all: respond; eapply ends_seq; [apply answers_dump_all|]; intros [rep|] H; [exact H|]; respond; apply answers_finish.
Qed.
Lemma answers_put_back p why : answers (put_back_root p why).
Proof. unfold put_back_root. respond. Qed.
Lemma answers_install_root p extracted staged : answers (install_root p extracted staged).
Proof. unfold install_root. respond. apply answers_put_back. Qed.
Lemma answers_unpack p file tmp : answers (unpack p file tmp).
Proof. unfold unpack, swap_roots. respond; apply answers_install_root. Qed.
Lemma answers_fetch p : ends on_refusal (fetch_archive p).
Proof. unfold fetch_archive, on_refusal. respond; by destruct a as [out [e|]]; respond. Qed.
Lemma answers_restore p : answers (backupRestoreTask r p).
Proof.
  unfold backupRestoreTask. destruct p as [p|]; respond. eapply ends_seq; [apply answers_fetch|].
  intros [path|rep] H; [|exact H]. unfold restore_from. respond. eapply ends_seq; [apply answers_unpack|]. intros rep Hrep. by respond.
Qed.
Lemma answers_database_backup p : answers (databaseBackupTask r p).
Proof. unfold databaseBackupTask, dump_to. destruct p as [p|]; respond. apply answers_backup_answer; [done|fits_all]. Qed.

(** ** Every job *)

(** The tasks that a job can be; the others are for the pages about repositories. *)
Definition is_job (t : task) : bool :=
  match t with GitBranchesTask _ | GitLogTask _ _ | GitRollbackTask _ | GitCheckoutTask _ => false | _ => true end.
(** C27: the worker can read every answer of the agent to a job, for every request and every state
    of the host: each member has the type of the field that the client decodes it into, and
    what [Execute] returns is that result, with an error unless the status is 200.  An answer is a 200 with [ok], but for an app that did not start, which says [errored], or an
    error status, and then without [ok]. *)
Theorem job_answers_typed (t : task) : is_job t = true →
  always sized (λ _, True) (λ rep, ∃ status body result,
    rendered rep = Some (status, body) ∧ result_of body = Some result ∧ received status body result ∧
    (status = 200 ∧ (OK result = true ∨ AppStatus result = "errored") ∨ 400 ≤ status < 600 ∧ OK result = false)) (run_task r t).
Proof.
  intros Ht. change (answers (run_task r t)). destruct t; try discriminate Ht; cbn [run_task].
  all: eauto using answers_site_create, answers_site_delete, answers_deploy, answers_nginx, answers_issue, answers_renew,
    answers_logs, answers_backup_create, answers_restore, answers_database_backup, answers_backup_delete, answers_database,
    answers_database_delete, answers_user, answers_user_delete, answers_app_start, answers_app_stop, answers_app_restart.
Qed.
End Answers.

Lemma job_answers_typed_witness :
  let r := newRouter "t" "/home" false in
  let t := AppStopTask (Some (7, "x.org")) in
  is_job t = true ∧
  always sized (λ _, True) answered (run_task (HR := {| range l := l; range_in l x H := H |}) r t).
Proof. split; [reflexivity|]. apply (job_answers_typed (newRouter "t" "/home" false) (AppStopTask (Some (7, "x.org")))). reflexivity. Defined.
