(* ===== verification/AgentSafety.v ===== *)
(** What the tasks of the agent can do to a server: the files they write and remove, and the
    processes they start, for every request, every state of the host and every failure. *)
From S2P Require Import Prelude GoStr Paths Regex SiteInput AgentValidate Json Sql Net Clock Nginx Http Host Starter AgentSite AgentApp AgentDb AgentBackup AgentTasks.
Local Open Scope Z_scope.
Local Open Scope panel_scope.

Set Default Proof Using "Type*".

(** * Arguments *)

(** The options that a program is given: alone, with the next argument as their value, and
    with a value in the same argument. *)
Record options := Options { o_flags : list string; o_valued : list string; o_prefixes : list string }.
Definition options_of (name : string) : options :=
  let o (flags valued : list string) := Options flags valued [] in
  if (name =? "test")%string then o ["-f"] []
  else if (name =? "docker")%string then o ["-d"; "-f"] ["--name"; "--security-opt"; "--restart"; "-p"; "-v"; "-e"; "-w"; "-c"]
  else if (name =? "nginx")%string then o ["-t"] ["-s"]
  else if (name =? "certbot")%string then o ["--non-interactive"; "--webroot"; "--agree-tos"; "--no-eff-email"] ["--cert-name"; "-w"; "-d"; "--email"]
  else if (name =? "git")%string then o ["--show-current"; "-a"; "--all"; "--short"; "-t"; "--pretty=format:%H|%h|%s|%an|%ai"] ["-C"; "-b"; "--format"; "-n"]
  else if (name =? "chown")%string then o ["-R"] []
  else if (name =? "npm")%string then o ["--production"] []
  else if (name =? "pip")%string then o [] ["-r"]
  else if (name =? "journalctl")%string then o ["--no-pager"] ["-u"; "-n"]
  else if (name =? "openssl")%string then o ["-enddate"; "-noout"] ["-in"]
  else if (name =? "tail")%string then o [] ["-n"]
  else if (name =? "tar")%string then o (tar_excludes ++ ["--no-same-owner"; "--no-same-permissions"]) ["-czf"; "-xzf"; "-C"]
  else if (name =? "aws")%string then o [] ["--endpoint-url"; "--region"]
  else if (name =? "psql")%string then o [] ["-v"; "-d"]
  else if (name =? "mysqldump")%string
  then Options ["--no-tablespaces"; "--single-transaction"; "--quick"; "--routines"; "--triggers"] [] ["-u"]
  else if (name =? "pg_dump")%string then Options ["--no-owner"; "--no-acl"] ["-h"] ["-U"]
  else o [] [].

Definition is_option (w : string) : bool := has_prefix w "-".
(** Every argument that begins with a dash is one of the options, or the value of one, or
    follows two dashes. *)
Fixpoint argv_ok (o : options) (l : list string) : bool :=
  match l with
  | [] => true
  | w :: l' =>
      if negb (is_option w) then argv_ok o l'
      else if (w =? "--")%string then true
      else if str_in (o_valued o) w then match l' with _ :: l'' => argv_ok o l'' | [] => false end
      else (str_in (o_flags o) w || existsb (has_prefix w) (o_prefixes o)) && argv_ok o l'
  end.
Lemma argv_word o w l : is_option w = false → argv_ok o l = true → argv_ok o (w :: l) = true.
Proof. intros H. cbn. by rewrite H. Qed.
Lemma argv_app o l m : Forall (λ w, is_option w = false) l → argv_ok o m = true → argv_ok o (l ++ m) = true.
Proof. induction 1; [done|]. intros Hm. cbn [app]. apply argv_word; [done|]. by apply IHForall. Qed.

(** Installers run what comes with a repository. *)
Definition installers : list string := ["npm"; "pip"; "go"].
(** [lax]: the arguments of [tar] are not looked at. *)
Definition argv_fine (lax : bool) (name : string) (args : list string) : bool :=
  if (name =? "tar")%string && lax then true else argv_ok (options_of name) args.
Definition exec_ok (lax : bool) (c : cmd) : Prop :=
  isAllowedCommand (c_name c) = true ∧ argv_fine lax (c_name c) (c_args c) = true ∧
  (c_name c ∈ installers → unprivileged (c_cred c)).

(** * Files *)

Definition vhosts : string := "/etc/nginx/sites-enabled".
Definition backups : string := "/var/backups/sigardapanel".
Definition webroots : string := "/var/www/certbot".
(** In a directory made for a restore. *)
Definition in_restore (p : string) : Prop := ∃ s, str_all is_digit s = true ∧ inside (backups +:+ "/restore-" +:+ s) p.

Section Touches.
Variables (lax : bool) (siteRoot : string).

Definition touches (e : effect) : Prop :=
  match e with
  | Exec c => exec_ok lax c
  | WriteFile p _ => below siteRoot p ∨ below vhosts p ∨ ∃ site, p = unit_path (appServiceName site)
  | MkdirAll p => inside siteRoot p ∨ below webroots p
  | OpenExcl p => below siteRoot p
  | Remove p => isAllowedBackupPath {| siteRootDir := siteRoot; backupDir := backups |} p = true
  | RemoveAll p => below siteRoot p ∨ below vhosts p ∨ below (backups +:+ "/sites") p ∨ below webroots p ∨ in_restore p
  | Rename src dst | CopyPath src dst => (below siteRoot src ∨ in_restore src) ∧ below siteRoot dst
  | SanitizeTree p _ _ => in_restore p
  | MkdirTemp dir _ => below siteRoot dir ∨ dir = backups
  | _ => True
  end.

(** What is relied on of the host: a temporary directory is a new entry of the directory that
    was asked for, its name the pattern with digits for the star, and the name of the current
    branch of a repository does not begin with a dash. *)
Definition host_ok (e : effect) : answer e → Prop :=
  match e with
  | MkdirTemp dir pattern => λ x, match x with
      | Ok p => ∃ s, str_all is_digit s = true ∧ p = dir +:+ "/" +:+ str_take (String.length pattern - 1) pattern +:+ s
      | Err _ => True end
  | Exec c => λ x, "--show-current" ∈ c_args c → is_option (trim_space x.1) = false
  | _ => λ _, True
  end.
End Touches.

(** * Reasoning *)

Section Walk.
Variables (lax : bool) (siteRoot : string).
Notation safe Q p := (always host_ok (touches lax siteRoot) Q p).
Definition sure {A} (p : prog A) : Prop := safe (λ _, True) p.

Lemma safe_seq {A B} (R : A → Prop) (Q : B → Prop) (p : prog A) (f : A → prog B) :
  safe R p → (∀ a, R a → safe Q (f a)) → safe Q (bind p f).
Proof. intros Hp Hf. apply always_bind. by eapply always_mono; [| |exact Hp]. Qed.
Lemma sure_seq {A B} (p : prog A) (f : A → prog B) : sure p → (∀ a, sure (f a)) → sure (bind p f).
Proof. intros Hp Hf. by apply (safe_seq (λ _, True)); [|intros a _; apply Hf]. Qed.
Lemma sure_post {A B} (R : A → Prop) (p : prog A) (f : A → prog B) : safe R p → (∀ a, R a → sure (f a)) → sure (bind p f).
Proof. apply safe_seq. Qed.
Lemma sure_ret {A} (a : A) : sure (Ret a).
Proof. done. Qed.
Lemma sure_do (e : effect) : touches lax siteRoot e → sure (perform e).
Proof. by split. Qed.
Lemma sure_of {A} (Q : A → Prop) (p : prog A) : safe Q p → sure p.
Proof. by apply always_mono. Qed.

Lemma sure_run (c : cmd) : exec_ok lax c → sure (run c).
Proof. intros H. split; [done|]. by intros [? ?]. Qed.
Lemma sure_allowed (name : string) (p : prog (string * error)) : (isAllowedCommand name = true → sure p) → sure (allowed name p).
Proof. unfold allowed. intros H. by case_goal; [apply H|]. Qed.
Definition plain_command (name : string) (args : list string) : Prop :=
  str_in installers name = false ∧ argv_fine lax name args = true.
Lemma plain_exec c : isAllowedCommand (c_name c) = true → plain_command (c_name c) (c_args c) → exec_ok lax c.
Proof. intros H [Hi%str_in_false Ha]. by split_and!. Qed.
Lemma sure_shell name args : plain_command name args → sure (RunShell name args).
Proof. intros H. apply sure_allowed. intros Ha. by apply sure_run, plain_exec. Qed.
Lemma sure_shell_input input name args : plain_command name args → sure (RunWithInput input name args).
Proof. intros H. apply sure_allowed. intros Ha. by apply sure_run, plain_exec. Qed.
Lemma sure_shell_env env name args : plain_command name args → sure (RunShellEnv env name args).
Proof. intros H. apply sure_allowed. intros Ha. by apply sure_run, plain_exec. Qed.
Lemma sure_to_file env out name args : below siteRoot out → plain_command name args → sure (RunToFileEnv env out name args).
Proof.
  intros Ho H. apply sure_allowed. intros Ha. apply sure_seq; [by apply sure_do|].
  intros [e|]; [done|]. by apply sure_run, plain_exec.
Qed.
Lemma sure_as_user uid gid dir name args : argv_fine lax name args = true → sure (RunAsUser uid gid dir name args).
Proof.
  intros H. unfold RunAsUser. case_goal; [done|]. case_goal; [done|]. bool_hyps.
  apply sure_seq; [done|]. intros u. apply sure_seq; [done|]. intros v. destruct (match u with Some _ => _ | None => _ end) as [home login].
  apply sure_run. split_and!; [done|done|]. intros _. cbn. split; [done|].
  destruct v as [[[? ?] [gs|]]|]; [apply user_groups_nonzero|set_solver..].
Qed.
Lemma sure_exists path : sure (exists_path path).
Proof. split; [done|]. by intros [| |]. Qed.
Lemma sure_ensure path : inside siteRoot path → sure (EnsureDir path).
Proof. intros H. apply sure_seq; [apply sure_exists|]. intros [[] [|]]; [done..|]. apply sure_do. by left. Qed.
Lemma sure_for {A} (l : list A) body : (∀ x, In x l → sure (body x)) → sure (pfor l body).
Proof. apply always_for. Qed.
End Walk.

(** Steps through a handler: sequences, and branches on what was found out. *)
Create HintDb agent.
#[export] Hint Resolve sure_ret sure_exists : agent.
Ltac walk1 :=
  lazymatch goal with
  | |- sure _ _ (Ret _) => exact I
  | |- sure _ _ (bind _ _) => apply sure_seq; [|intros ?]
  | |- sure _ _ (perform _) => apply sure_do; cbn [touches]
  | |- sure _ _ (RunShell _ _) => apply sure_shell
  | |- sure _ _ (RunWithInput _ _ _) => apply sure_shell_input
  | |- sure _ _ (RunShellEnv _ _ _) => apply sure_shell_env
  | |- sure _ _ (RunToFileEnv _ _ _ _) => apply sure_to_file
  | |- sure _ _ (RunAsUser _ _ _ _ _) => apply sure_as_user
  | |- sure _ _ (exists_path _) => apply sure_exists
  | |- sure _ _ (EnsureDir _) => apply sure_ensure
  | |- sure _ _ (match ?x with _ => _ end) => destruct x eqn:?
  | |- sure _ _ (let _ := _ in _) => cbv zeta
  end.
Ltac walk := repeat (walk1; try done; eauto with agent).

(** * Names *)

Definition some_alnum (s : string) : bool := negb (str_all (λ c, negb (is_alnum c)) s).
Lemma some_alnum_app (a b : string) : some_alnum (a +:+ b) = some_alnum a || some_alnum b.
Proof. unfold some_alnum. by rewrite str_all_app, negb_andb. Qed.
Lemma plain_seg_alnum (w : string) : some_alnum w = true → no_chr "/" w = true → plain_seg w = true.
Proof.
  intros Ha Hs. unfold plain_seg. rewrite Hs, andb_true_r, !(proj2 (String.eqb_neq _ _)); [done|..]; by intros ->.
Qed.
Lemma rooted_word (p : string) : is_rooted p = true → is_option p = false.
Proof. unfold is_rooted, is_option, has_prefix. by intros (r & ->)%prefix_spec. Qed.
Lemma first_word (p : ascii → bool) (q : re) (s : string) :
  re_first p q = true → cls_incl p (λ c, negb (Ascii.eqb c "-")) = true → re_match q s = true → is_option s = false.
Proof.
  intros Hf Hc Hs%re_match_spec. destruct s as [|c s]; [done|].
  pose proof (re_first_sound _ _ _ _ Hf Hs) as Hp. pose proof (cls_incl_spec _ _ Hc c Hp) as Hn. cbv beta in Hn.
  unfold is_option, has_prefix. cbn [String.prefix]. destruct (ascii_dec "-" c) as [<-|]; [done|by destruct s].
Qed.

Definition domain_char (c : ascii) : bool := is_alnum c || chr_in "-." c.
Lemma domain_chars (d : string) : isValidDomain d = true → str_all domain_char d = true ∧ some_alnum d = true ∧ is_option d = false.
Proof.
  intros H. split; [within domainRegex|]. split; [|by apply (first_word is_alnum domainRegex)].
  unfold isValidDomain in H. apply re_match_spec in H. destruct d as [|c d]; [by apply nullable_spec in H|].
  pose proof (re_first_sound is_alnum domainRegex c d eq_refl H) as Hc. unfold some_alnum. cbn. by rewrite Hc.
Qed.
Lemma no_slash (p : ascii → bool) (s : string) : cls_incl p (λ c, negb (Ascii.eqb c "/")) = true → str_all p s = true → no_chr "/" s = true.
Proof. intros Hc. apply str_all_impl. by apply (cls_incl_spec p). Qed.
Lemma domain_seg (d ext : string) : isValidDomain d = true → no_chr "/" ext = true → plain_seg (d +:+ ext) = true.
Proof.
  intros (Hc & Ha & _)%domain_chars He. apply plain_seg_alnum; [by rewrite some_alnum_app, Ha|].
  unfold no_chr in *. rewrite str_all_app, He, andb_true_r. by apply (no_slash domain_char).
Qed.

Lemma trim_with_id f2 f3 (s : string) :
  match s with String a _ => space1 a = false ∧ (∀ b, f2 a b = false) ∧ ∀ b c, f3 a b c = false | EmptyString => True end →
  trim_with f2 f3 s = s.
Proof.
  destruct s as [|a [|b [|c s]]]; [done| | |]; intros (H1 & H2 & H3); cbn; by rewrite ?H1, ?H2, ?H3.
Qed.
Lemma trim_space_id (s : string) : str_all backup_char s = true → trim_space s = s.
Proof.
  assert (K : ∀ a, backup_char a = true → space1 a = false ∧ code a < 128).
  { intros a Ha. pose proof (cls_incl_spec backup_char (λ c, negb (space1 c) && (code c <? 128)) eq_refl a Ha) as H.
    cbv beta in H. by bool_hyps. }
  intros H. unfold trim_space. assert (trim_left s = s) as ->.
  { apply trim_with_id. destruct s as [|a s]; [done|]. cbn in H. apply andb_prop in H as [[Ha Hl]%K _].
    split; [done|]. unfold space2, space3. rewrite !(proj2 (Z.eqb_neq _ _)) by lia. done. }
  unfold trim_right. rewrite trim_with_id; [apply str_rev_involutive|].
  rewrite <- str_rev_all in H. destruct (str_rev s) as [|a t]; [done|]. cbn in H. apply andb_prop in H as [[Ha Hl]%K _].
  split; [done|]. unfold space2, space3. split; intros; rewrite !(proj2 (Z.eqb_neq (code a) _)), ?(proj2 (Z.leb_gt _ (code a))) by lia;
    by rewrite ?andb_false_r.
Qed.

Lemma dash_runs_chars (b : bool) (s : string) : str_all backup_char (dash_runs b s) = true.
Proof. revert b. induction s as [|c s IH]; intros b; [done|]. cbn. repeat case_goal; cbn; rewrite ?E; by rewrite IH. Qed.
Lemma dash_runs_id (b : bool) (s : string) : str_all backup_char s = true → dash_runs b s = s.
Proof. revert b. induction s as [|c s IH]; intros b H; [done|]. cbn in *. bool_hyps. rewrite H. by rewrite IH. Qed.
Lemma trim_left_set_parts (cs s : string) : ∃ x, s = x +:+ trim_left_set cs s ∧ str_all (chr_in cs) x = true.
Proof. exists (span (chr_in cs) s).1. apply Net.span_app. Qed.
Lemma trim_set_parts (cs s : string) : ∃ x y, s = x +:+ trim_set cs s +:+ y ∧ str_all (chr_in cs) (x +:+ y) = true.
Proof.
  unfold trim_set. destruct (trim_left_set_parts cs s) as (x & Hx & Hxs).
  destruct (trim_left_set_parts cs (str_rev (trim_left_set cs s))) as (y & Hy & Hys).
  exists x, (str_rev y). rewrite str_all_app, str_rev_all, Hxs, Hys. split; [|done].
  rewrite Hx at 1. f_equal. rewrite <- str_rev_append, <- Hy. by rewrite str_rev_involutive.
Qed.
Lemma sanitize_chars (s : string) : str_all backup_char (sanitizeBackupName s) = true.
Proof.
  unfold sanitizeBackupName. destruct (trim_set_parts "-_." (dash_runs false (trim_space (to_lower s)))) as (x & y & H & _).
  pose proof (dash_runs_chars false (trim_space (to_lower s))) as Hd. rewrite H in Hd.
  by apply str_all_app_inv in Hd as [_ [Hd _]%str_all_app_inv].
Qed.
Lemma to_lower_all (p q : ascii → bool) (s : string) : (∀ c, p c = true → q (lower1 c) = true) → str_all p s = true → str_all q (to_lower s) = true.
Proof. intros H. induction s as [|c s IH]; [done|]. cbn. intros Hs. bool_hyps. by rewrite H, IH. Qed.
Lemma some_alnum_lower (s : string) : some_alnum (to_lower s) = some_alnum s.
Proof.
  unfold some_alnum. f_equal. induction s as [|c s IH]; [done|]. cbn. rewrite IH. f_equal. f_equal.
  pose proof (forallb_forall (λ c, Bool.eqb (is_alnum (lower1 c)) (is_alnum c)) all_bytes) as [F _].
  apply Bool.eqb_prop, F; [by vm_compute|apply all_bytes_in].
Qed.
(** The directory of a site's backups has a name of its own. *)
Lemma sanitize_domain (d : string) : isValidDomain d = true → plain_seg (sanitizeBackupName d) = true.
Proof.
  intros (Hc & Ha & _)%domain_chars. pose proof (sanitize_chars d) as Hs. apply plain_seg_alnum; [|by apply (no_slash backup_char)].
  unfold sanitizeBackupName in *.
  assert (Hl : str_all backup_char (to_lower d) = true).
  { revert Hc. apply to_lower_all. intros c Hc.
    apply (cls_incl_spec domain_char (λ c, backup_char (lower1 c)) eq_refl c Hc). }
  rewrite trim_space_id, dash_runs_id in * by done.
  destruct (trim_set_parts "-_." (to_lower d)) as (x & y & H & Hxy).
  rewrite <- some_alnum_lower, H, !some_alnum_app in Ha.
  assert (Hno : ∀ z, str_all (chr_in "-_.") z = true → some_alnum z = false).
  { intros z Hz. unfold some_alnum. erewrite str_all_impl; [done| |exact Hz]. by apply cls_incl_spec. }
  rewrite str_all_app in Hxy. bool_hyps. rewrite (Hno x), (Hno y) in Ha by done. destruct Ha as [|Ha]; [done|by rewrite orb_false_r in Ha].
Qed.


Lemma stamp_chars (now : Z) : no_chr "/" (stamp now) = true.
Proof.
  set (p := λ c, is_digit c || chr_in "-:TZ" c).
  assert (Hp : ∀ w n, str_all p (pad w n) = true).
  { intros w n. unfold pad. rewrite str_all_app. apply andb_true_intro. split.
    - induction (w - String.length (itoa n))%nat as [|k IH]; [done|]. cbn [repeat]. destruct k; [done|].
      rewrite join_cons, str_all_app by done. exact IH.
    - generalize (itoa_chars n). apply str_all_impl. by apply cls_incl_spec. }
  assert (Hf : str_all p (format_seconds (now / 1000000000)) = true).
  { unfold format_seconds, date_time. by rewrite !str_all_app, !Hp. }
  unfold stamp. revert Hf. generalize (format_seconds (now / 1000000000)). intros s.
  induction s as [|c s IH]; [done|]. cbn [str_all list_ascii_of_string List.fold_right]. intros [Hc Hs]%andb_prop. specialize (IH Hs).
  unfold no_chr in *. repeat case_goal; [done|by cbn [str_all]|done|]. cbn [str_all]. rewrite IH, andb_true_r.
  by apply (cls_incl_spec p (λ d, negb (Ascii.eqb d "/")) eq_refl c Hc).
Qed.

(** * The tasks *)

Section Tasks.
Context `{HR : MapRange}.
Variables (lax : bool) (token siteRoot : string) (stubSSL : bool).
Hypothesis configured : siteRoot ≠ "".
Let r : AgentRouter := newRouter token siteRoot stubSSL.
Notation safe Q p := (always host_ok (touches lax siteRoot) Q p).
Notation sure p := (sure lax siteRoot p).

Record site_path (p : string) : Prop := {
  sp_below : below siteRoot p; sp_up : contains p ".." = false; sp_word : is_option p = false }.
Lemma allowed_site (p : string) : isAllowedSitePath r p = true → site_path p.
Proof.
  unfold isAllowedSitePath. cbn. intros H. case_hyp H; [done|]. rewrite (proj2 (String.eqb_neq _ _) configured) in H.
  case_hyp H; [done|]. bool_hyps. pose proof (isValidPath_ok p E) as (_ & Hd & Hr).
  destruct (clean_prefix_segs _ _ Hr H) as (_ & rest). split; [by split|done|by apply rooted_word].
Qed.
Lemma below_root (p q : string) : site_path p → no_up (split "/" q) → below siteRoot (path_join p q).
Proof. intros [H _ _] Hq. apply below_clean. apply (inside_below _ p); [done|]. apply inside_append; [by destruct H|done]. Qed.
Lemma below_root_word (p q : string) : site_path p → no_up (split "/" q) → is_option (path_join p q) = false.
Proof. intros Hp Hq. apply rooted_word. by destruct (below_root p q Hp Hq). Qed.
Lemma up_seg (w : string) : plain_seg w = true → no_up (split "/" w).
Proof. intros (-> & Hw & _)%plain_seg_split. by repeat constructor. Qed.

(** ** Sites *)

Lemma sure_write_missing path content : below siteRoot path → sure (write_missing path content).
Proof.
  intros H. unfold write_missing, file_missing. walk.
  split; [done|]. cbn. rewrite (rooted_word path); [done|by destruct H].
Qed.
Lemma sure_write_files root files :
  site_path root → forallb (λ f, plain_seg f.1) files = true → sure (write_files root files).
Proof.
  intros Hr Hf. apply sure_for. intros f Hin%range_in. apply sure_write_missing. rewrite forallb_forall in Hf.
  apply below_root; [done|]. by apply up_seg, Hf.
Qed.
Lemma sure_starter p : site_path (sc_root p) → sure (starter_files p).
Proof.
  intros H. unfold starter_files. destruct (TemplateForRuntime _ _ _) as [files|] eqn:E.
  - apply sure_write_files; [done|]. unfold TemplateForRuntime in E. repeat case_hyp E; by simplify_eq.
  - apply sure_write_missing. by apply below_root; [|repeat constructor].
Qed.

Lemma argv_flagged o flag sep s l :
  is_option flag = true → str_in (o_valued o) flag = true → (flag =? "--")%string = false → argv_ok o (flagged flag sep s ++ l) = argv_ok o l.
Proof.
  intros H1 H2 H3. unfold flagged. induction (split sep s) as [|v vs IH]; [done|]. cbn [flat_map]. case_goal; [done|].
  rewrite <- IH. cbn [app argv_ok]. by rewrite H1, H2, H3.
Qed.
Lemma argv_if o (b : bool) l m : (∀ m, argv_ok o (l ++ m) = argv_ok o m) → argv_ok o ((if b then l else []) ++ m) = argv_ok o m.
Proof. intros H. by destruct b. Qed.
Lemma docker_args_ok p image lang name ports : is_option image = false → plain_command lax "docker" (docker_args p image lang name ports).
Proof.
  intros Hi. split; [done|]. unfold docker_args.
  etrans; [reflexivity|]. cbn [app]. 
  change (argv_ok (options_of "docker") (((if negb (sc_root p =? "")%string then ["-v"; sc_root p +:+ ":" +:+ dockerMountTarget lang image] else []) ++
  (if negb (sc_volume p =? "")%string then flagged "-v" "," (sc_volume p) else []) ++
  (if negb (sc_env p =? "")%string then flagged "-e" LF (sc_env p) else []) ++
  (if negb (lang =? "static")%string && negb (lang =? "")%string then ["-w"; dockerWorkDir lang] else []) ++
  image :: (if negb (dockerDefaultCmd lang =? "")%string && negb (contains (sc_env p) "CMD=" || contains (sc_env p) "ENTRYPOINT=")
   then ["/bin/sh"; "-c"; dockerDefaultCmd lang] else []))) = true).
  rewrite !argv_if by (intros; first [reflexivity|by apply argv_flagged]).
  apply argv_word; [done|]. by case_goal.
Qed.

Lemma image_word image name ports env volumes restart language root :
  DockerOptions image name ports env volumes restart language root = nil_error → is_option image = false.
Proof.
  unfold DockerOptions, unless_empty. destruct (image =? "")%string eqn:E; [by apply String.eqb_eq in E as ->|].
  unfold DockerImage. case_goal; [done|]. intros _. bool_hyps.
  by apply (first_word (λ c, negb (Ascii.eqb c "-")) dockerImageRe).
Qed.
Lemma name_word name : DockerName name = nil_error → is_option name = false.
Proof. unfold DockerName. case_goal; [done|]. intros _. bool_hyps. by apply (first_word (λ c, negb (Ascii.eqb c "-")) dockerNameRe). Qed.
Lemma sure_next_port n i site : sure (next_port n i site).
Proof. revert i. induction n as [|n IH]; intros i; [done|]. cbn [next_port]. walk. Qed.
Lemma sure_host_ports p container : sure (host_ports p container).
Proof. unfold host_ports. walk. apply sure_next_port. Qed.
Lemma sure_container p : site_path (sc_root p) → sure (create_container p).
Proof.
  intros Hr. unfold create_container. destruct (DockerOptions _ _ _ _ _ _ _ _) eqn:E; [done|].
  apply image_word in E. revert E. generalize (if (sc_image p =? "")%string then "nginx:alpine" else sc_image p). intros image Hi.
  assert (Hin : inside siteRoot (sc_root p)) by by apply below_inside; destruct Hr.
  cbv zeta. walk; try by left.
  - apply sure_write_files; [done|]. unfold dockerHelloWorld. by repeat case_goal.
  - split; [done|]. by apply argv_word; [|apply argv_word].
  - split; [done|]. apply argv_word; [done|]. cbn. rewrite (name_word (container_name p)); [done|]. by destruct (DockerName _).
  - apply sure_host_ports.
  - by apply docker_args_ok.
Qed.

Lemma sure_find_socket l : sure (find_socket l).
Proof. induction l as [|v vs IH]; [done|]. cbn [find_socket]. walk. Qed.
Lemma sure_generate s port : sure (generate_vhost s port).
Proof. unfold generate_vhost. walk. apply sure_find_socket. Qed.
Lemma vhost_below d : isValidDomain d = true → below vhosts (vhost_path r d).
Proof. intros H. apply below_clean, below_name; [done|]. by apply domain_seg. Qed.
Lemma sure_install p proxy : isValidDomain (sc_domain p) = true → sure (install_site r p proxy).
Proof.
  intros Hd. unfold install_site. walk.
  - apply sure_generate.
  - right; left. by apply vhost_below.
Qed.
Lemma sure_site_create p : sure (siteCreateTask r p).
Proof.
  unfold siteCreateTask. destruct p as [p|]; [|done]. case_goal; [done|]. bool_hyps. 
  pose proof (allowed_site _ H0) as Hr.
  walk.
  - left. by apply below_inside; destruct Hr.
  - by apply sure_starter.
  - by apply sure_container.
  - by apply sure_install.
  - by apply sure_install.
Qed.

Lemma sure_remove_generated path root : below vhosts path → path_clean root = vhosts → sure (remove_generated path root).
Proof.
  intros (Hp & H) Hr. unfold remove_generated. destruct (removeGeneratedFile path root) as [e [target|]] eqn:E; [|done].
  apply sure_do. right; left. unfold removeGeneratedFile in E. case_hyp E; [done|]. simplify_eq. by apply below_clean.
Qed.
Lemma sure_remove_service svc : is_option svc = false → sure (remove_service svc).
Proof.
  intros H. unfold remove_service. walk; (split; [done|]); apply argv_word; try done; by apply argv_word.
Qed.
Lemma sure_certificate d : sure (remove_certificate d).
Proof. unfold remove_certificate. walk. Qed.
Lemma sure_htpasswd d : sure (remove_htpasswd d).
Proof. unfold remove_htpasswd. walk. Qed.
Lemma svc_word site : is_option (appServiceName site) = false.
Proof. done. Qed.
Lemma sure_site_delete p : sure (siteDeleteTask r p).
Proof.
  unfold siteDeleteTask. destruct p as [p|]; [|done]. cbv zeta. case_goal; [done|]. bool_hyps.
  pose proof (allowed_site _ H0) as Hr.
  walk.
  - by apply sure_remove_service.
  - apply sure_remove_generated; [by apply vhost_below|done].
  - apply sure_certificate.
  - left. by destruct Hr.
  - apply sure_htpasswd.
  - do 2 right; left. change (below (backups +:+ "/sites") (path_clean ((backups +:+ "/sites") +:+ "/" +:+ sanitizeBackupName (sd_domain p)))).
    apply below_clean, below_name; [done|]. by apply sanitize_domain.
  - do 3 right; left. apply (below_name webroots (sd_domain p)); [done|]. rewrite <- (app_nil_r (sd_domain p)). by apply domain_seg.
Qed.

(** ** Git and deploys *)

Lemma digits_nonneg s acc n : digits_val acc s = Some n → 0 ≤ acc → 0 ≤ n.
Proof.
  revert acc. induction s as [|c s IH]; intros acc H Ha; cbn in H; [by simplify_eq|]. case_hyp H; [|done].
  apply (IH _ H). unfold is_digit, chr_range in E. bool_hyps. change (code "0") with 48 in *. lia.
Qed.
Lemma parse_uint32_nonneg s n : parse_uint32 s = Some n → 0 ≤ n.
Proof.
  unfold parse_uint32. destruct s as [|c s]; [done|]. case_goal; [|done]. bool_hyps. unfold atoi.
  cbn in H0. apply andb_prop in H0 as [Hc Hs].
  pose proof (cls_incl_spec is_digit (λ c, negb (Ascii.eqb c "-") && negb (Ascii.eqb c "+")) eq_refl c Hc) as Hn. cbv beta in Hn. bool_hyps.
  repeat match goal with H : (_ =? _)%char = false |- _ => rewrite H; clear H end.
  destruct (digits_val 0 (String c s)) as [k|] eqn:E; [|done]. apply digits_nonneg in E; [|done].
  repeat case_goal; intros ?; simplify_eq; lia.
Qed.
Lemma itoa_word n : 0 ≤ n → is_option (itoa n +:+ ":") = false.
Proof.
  intros H. unfold itoa. rewrite (proj2 (Z.ltb_ge _ _)) by done.
  assert (K : ∀ f m acc, (f ≠ O ∨ ∃ c t, acc = String c t ∧ is_digit c = true) → ∃ c t, print_pos f m acc = String c t ∧ is_digit c = true).
  { intros f. induction f as [|f IH]; intros m acc Hacc; [by destruct Hacc|]. cbn [print_pos].
    assert (Hd : is_digit (byte (Z.to_nat (48 + m mod 10))) = true).
    { pose proof (Z.mod_pos_bound m 10 eq_refl) as Hb. assert (m mod 10 ∈ seqZ 0 10) as Hin by (apply elem_of_seqZ; lia).
      revert Hin. generalize (m mod 10). clear. apply Forall_forall. by repeat (constructor; [reflexivity|]). }
    case_goal; [by do 2 eexists|]. apply IH. right. by do 2 eexists. }
  destruct (K 20%nat n "") as (c & t & -> & Hc); [by left|].
  pose proof (cls_incl_spec is_digit (λ c, negb (Ascii.eqb c "-")) eq_refl c Hc) as Hn. cbv beta in Hn. bool_hyps.
  unfold is_option, has_prefix. rewrite app_cons. cbn [String.prefix]. by destruct (ascii_dec "-" c) as [<-|].
Qed.
Lemma sure_user_ids name : safe (λ u, match u with Some (uid, gid) => 0 ≤ uid | None => True end) (siteUserIDs name).
Proof.
  unfold siteUserIDs. destruct (SystemUser name); [done|]. split; [done|]. intros [[uid gid]|] _; cbn; [|done].
  case_goal; [done|]. destruct (parse_uint32 uid) as [a|] eqn:E1; [|done]. destruct (parse_uint32 gid) eqn:E2; [|done].
  by apply parse_uint32_nonneg in E1.
Qed.
Lemma is_option_app a b : is_option a = false → a ≠ "" → is_option (a +:+ b) = false.
Proof.
  unfold is_option, has_prefix. destruct a as [|c a]; [done|]. intros H _. rewrite app_cons. cbn [String.prefix] in *.
  destruct (ascii_dec "-" c); [|done]. by destruct a.
Qed.
Lemma ref_word ref : isValidGitRef ref = true → is_option ref = false.
Proof. unfold isValidGitRef. intros H. case_hyp H; [done|]. by bool_hyps. Qed.
Lemma sure_git root args : argv_ok (options_of "git") args = true → sure (runGit root args).
Proof. intros H. unfold runGit. assert (argv_ok (options_of "git") (["-C"; root] ++ args) = true) by done. walk. Qed.
Lemma sure_git_words root args : Forall (λ w, is_option w = false) args → sure (runGit root args).
Proof. intros H. apply sure_git. rewrite <- (List.app_nil_r args). by apply argv_app. Qed.
Lemma sure_checkout p owner is_repo :
  is_option (dp_branch p) = false → is_option (dp_root p) = false → match owner with Some (uid, gid) => 0 ≤ uid | None => True end →
  sure (checkout p owner is_repo).
Proof.
  intros Hb Hr Ho. unfold checkout. walk.
  - apply sure_git_words. by repeat constructor.
  - split; [done|]. simplify_eq. enough (argv_ok (options_of "chown") [itoa z +:+ ":" +:+ itoa z0; dp_root p] = true) as H by exact H.
    apply argv_word; [|by apply argv_word]. rewrite <- (app_assoc_s (itoa z)).
    apply is_option_app; [by apply itoa_word|]. by destruct (itoa z).
Qed.
Lemma sure_install_deps p owner : sure (install_deps p owner).
Proof.
  unfold install_deps. destruct (installer (dp_runtime p)) as [[file [name args]]|] eqn:E; [|done]. walk.
  unfold installer in E. repeat case_hyp E; by simplify_eq.
Qed.
Lemma sure_restart_app p : sure (restart_app p).
Proof. unfold restart_app. walk. Qed.
Lemma sure_site_deploy p : sure (siteDeployTask r p).
Proof.
  unfold siteDeployTask. destruct p as [p|]; [|done]. case_goal; [done|]. case_goal; [done|]. case_goal; [done|]. bool_hyps.
  pose proof (allowed_site _ E1) as Hr.
  assert (Hb : is_option (dp_branch p) = false) by (destruct E0 as [E0|E0]; [by apply negb_false_iff, String.eqb_eq in E0 as ->|by apply ref_word, negb_false_iff]).
  apply sure_seq; [apply sure_exists|]. intros e. apply sure_seq; [by walk|]. intros g.
  eapply sure_post; [apply sure_user_ids|]. intros owner Ho.
  walk.
  - by apply sure_checkout; [|destruct Hr|].
  - apply sure_git_words. by repeat constructor.
  - apply sure_install_deps.
  - apply sure_restart_app.
Qed.

Lemma sure_nginx_reload : sure nginxReloadTask.
Proof. unfold nginxReloadTask. walk. Qed.
Lemma webroot_below d : isValidDomain d = true → below webroots (webroot d).
Proof. intros H. apply (below_name webroots d); [done|]. rewrite <- (app_nil_r d). by apply domain_seg. Qed.
Lemma sure_ssl_issue p : sure (sslIssueTask r p).
Proof.
  unfold sslIssueTask. destruct p as [[[site domain] email]|]; [|done]. case_goal; [done|]. bool_hyps. walk.
  right. by apply webroot_below.
Qed.
Lemma sure_ssl_renew p : sure (sslRenewTask r p).
Proof. unfold sslRenewTask. destruct p as [[site domain]|]; [|done]. walk. Qed.
Lemma sure_logs_read p : sure (logsReadTask r p).
Proof.
  unfold logsReadTask. destruct p as [p|]; [|done]. cbv zeta. case_goal; [done|]. case_goal; [done|]. bool_hyps. walk.
Qed.

(** ** Apps *)

Lemma sure_answer p svc verb suffix : is_option svc = false → sure (app_answer p svc verb suffix).
Proof.
  intros H. unfold app_answer. walk. split; [done|]. by do 2 (apply argv_word; [done|]).
Qed.
Lemma sure_start_service p : sure (start_service p).
Proof.
  unfold start_service. cbv zeta. walk. by apply sure_answer.
Qed.
Lemma sure_unit_input domain user root command : sure (validateAppUnitInput domain user root command).
Proof. unfold validateAppUnitInput. walk. Qed.
Lemma sure_app_start p : sure (appStartTask r p).
Proof. unfold appStartTask. walk; [by apply sure_unit_input|by apply sure_start_service]. Qed.
Lemma sure_app_stop p : sure (appStopTask p).
Proof. unfold appStopTask. walk. Qed.
Lemma sure_app_restart p : sure (appRestartTask r p).
Proof.
  unfold appRestartTask, rewrite_unit. cbv zeta. walk; [by apply sure_unit_input|by apply sure_answer].
Qed.

(** ** Git *)

Lemma sure_allowed_root path k : (site_path path → sure k) → sure (allowed_root r path k).
Proof. intros H. unfold allowed_root. case_goal; [done|]. bool_hyps. by apply H, allowed_site. Qed.
Lemma sure_if_git path no k : sure k → sure (if_git path no k).
Proof. intros H. unfold if_git. walk. Qed.
Lemma sure_if_ref ref a b k : (isValidGitRef ref = true → sure k) → sure (if_ref ref a b k).
Proof. intros H. unfold if_ref. case_goal; [done|]. case_goal; [done|]. bool_hyps. by apply H. Qed.
Lemma sure_git_branches root : sure (gitBranchesTask r root).
Proof. apply sure_allowed_root. intros _. apply sure_if_git. walk; by apply sure_git. Qed.
Lemma sure_git_log root lines : sure (gitLogTask r root lines).
Proof. apply sure_allowed_root. intros _. apply sure_if_git. walk; by apply sure_git. Qed.
(** The name of the current branch is an argument later. *)
Lemma safe_current root : safe (λ o, is_option (trim_space o.1) = false) (runGit root ["branch"; "--show-current"]).
Proof.
  assert (K : ∀ c, exec_ok lax c → c_args c = ["-C"; root; "branch"; "--show-current"] → safe (λ o, is_option (trim_space o.1) = false) (run c)).
  { intros c Hc Ha. split; [done|]. intros [out e] Hx. cbn in *. apply Hx. rewrite Ha. set_solver. }
  unfold runGit. split; [done|]. intros l _. cbn [bind]. case_goal; [done|]. split; [done|]. intros o _. cbn [bind].
  assert (Hs : safe (λ o, is_option (trim_space o.1) = false) (RunShell "git" (["-C"; root] ++ ["branch"; "--show-current"]))).
  { apply K; [|done]. by apply plain_exec. }
  destruct o as [f| |]; [|done..]. case_goal; [|done]. unfold RunAsUser. cbn [negb]. case_goal; [done|]. case_goal; [done|].
  apply always_bind. split; [done|]. intros u _. apply always_bind. split; [done|]. intros v _.
  destruct (match u with Some _ => _ | None => _ end) as [home login]. apply K; [|done].
  split_and!; [done|done|]. cbn. intros Hin. by apply str_in_spec in Hin.
Qed.
Lemma sure_git_rollback p : sure (gitRollbackTask r p).
Proof.
  unfold gitRollbackTask. destruct p as [[root commit]|]; [|done].
  apply sure_allowed_root. intros _. apply sure_if_ref. intros Hc%ref_word. apply sure_if_git. walk.
  - apply sure_git, argv_word; [done|]. enough (argv_ok (options_of "git") [commit] = true) as H by exact H. by apply argv_word.
  - unfold rollback_to. eapply sure_post; [apply safe_current|]. intros b Hb. cbv zeta. walk; apply sure_git.
    all: try done.
    + do 2 (apply argv_word; [done|]). by apply argv_word; [case_goal|].
    + by do 2 (apply argv_word; [done|]).
Qed.
Lemma sure_git_checkout p : sure (gitCheckoutTask r p).
Proof.
  unfold gitCheckoutTask. destruct p as [[root branch]|]; [|done].
  apply sure_allowed_root. intros _. apply sure_if_ref. intros Hc%ref_word. apply sure_if_git. walk.
  - by apply sure_git.
  - apply sure_git_words. by repeat constructor.
  - apply sure_git_words. by repeat constructor.
Qed.

(** ** Databases and backups *)

Lemma sure_run_sql type what did mysql_sql postgres_sql : sure postgres_sql → sure (run_sql type what did mysql_sql postgres_sql).
Proof. intros H. unfold run_sql, mysql, psql. cbv zeta. walk. Qed.
Lemma sure_database_create p : sure (databaseCreateTask p).
Proof. unfold databaseCreateTask. walk. by apply sure_run_sql. Qed.
Lemma sure_database_delete p : sure (databaseDeleteTask p).
Proof. unfold databaseDeleteTask. walk. by apply sure_run_sql. Qed.
Lemma sure_db_user_create p : sure (dbUserCreateTask p).
Proof. unfold dbUserCreateTask. walk. apply sure_run_sql. walk. Qed.
Lemma sure_db_user_delete p : sure (dbUserDeleteTask p).
Proof. unfold dbUserDeleteTask. cbv zeta. walk. by apply sure_run_sql. Qed.

Definition seg_name (s : string) : Prop := plain_seg s = true.
Lemma safe_file_name kind id ext : some_alnum ext = true → no_chr "/" ext = true → safe seg_name (buildBackupFileName kind id ext).
Proof.
  intros Ha Hs. unfold buildBackupFileName. split; [done|]. intros now _. apply plain_seg_alnum.
  - rewrite !some_alnum_app, Ha. by rewrite !orb_true_r.
  - unfold no_chr in *. rewrite !str_all_app, Hs. apply andb_true_intro. split; [|apply andb_true_intro; split; [done|]].
    + case_goal; [done|]. apply (no_slash backup_char); [done|apply sanitize_chars].
    + apply andb_true_intro; split; [apply stamp_chars|]. apply andb_true_intro; split; [done|].
      apply andb_true_intro; split; [|done]. eapply no_slash; [|apply itoa_chars]. done.
Qed.
Lemma sure_s3_copy c src dst : is_option src = false → is_option dst = false → sure (s3_copy c src dst).
Proof. intros H1 H2. unfold s3_copy. walk. split; [done|]. do 4 (apply argv_word; [done|]). done. Qed.
Lemma sure_upload s3 folder domain name file : is_option file = false → sure (upload s3 folder domain name file).
Proof. intros H. unfold upload. walk. by apply sure_s3_copy. Qed.
Lemma id_word v : isValidDBIdentifier v = true → is_option v = false.
Proof. by apply (first_word (λ c, negb (Ascii.eqb c "-"))). Qed.
Lemma argv_attached o pre v l :
  is_option (pre +:+ v) = true → (pre +:+ v =? "--")%string = false → str_in (o_valued o) (pre +:+ v) = false → In pre (o_prefixes o) →
  argv_ok o l = true → argv_ok o ((pre +:+ v) :: l) = true.
Proof.
  intros H1 H2 H3 H4 Hl. cbn [argv_ok]. rewrite H1, H2, H3, Hl. cbn [negb].
  rewrite (proj2 (List.existsb_exists _ _)); [by rewrite orb_true_r|]. exists pre. split; [done|apply prefix_app].
Qed.
Lemma sure_dump type user password name file :
  isValidDBIdentifier name = true → below siteRoot file → sure (dumpDatabase type user password name file).
Proof.
  intros Hn%id_word Hf. unfold dumpDatabase.
  assert (Hm : argv_ok (options_of "mysqldump") [name] = true) by by apply argv_word.
  assert (Hp : argv_ok (options_of "pg_dump") [name] = true) by by apply argv_word.
  walk; (split; [done|]); (apply argv_attached; [done|done|done|by left|]); [exact Hm|exact Hp].
Qed.
Lemma dump_name (d : string) : no_up (split "/" (sanitizeBackupName d +:+ ".sql")).
Proof.
  apply up_seg, plain_seg_alnum; [by rewrite some_alnum_app, orb_true_r|].
  unfold no_chr. rewrite str_all_app. apply andb_true_intro; split; [|done]. apply (no_slash backup_char); [done|apply sanitize_chars].
Qed.
Lemma below_join (dir q : string) : below siteRoot dir → no_up (split "/" q) → below siteRoot (path_join dir q).
Proof. intros H Hq. apply below_clean. apply (inside_below _ dir); [done|]. apply inside_append; [by destruct H|done]. Qed.
Lemma sure_dump_all dir l : below siteRoot dir → sure (dump_all dir l).
Proof.
  intros H. induction l as [|d l IH]; [done|]. cbn [dump_all]. case_goal; [done|]. bool_hyps. walk.
  apply sure_dump; [done|]. apply below_join; [done|apply dump_name].
Qed.
(** The last part of the path of an archived site is no option of [tar]. *)
Definition base_ok (root : string) : Prop := lax = true ∨ is_option (path_base root) = false.
Lemma sure_archive file root more : base_ok root → argv_ok (options_of "tar") more = true → sure (archive file root more).
Proof.
  intros Hb Hm. unfold archive. apply sure_shell. split; [done|]. unfold argv_fine. destruct Hb as [->|Hb]; [done|]. case_goal; [done|].
  enough (argv_ok (options_of "tar") (path_base root :: more) = true) as H by exact H. by apply argv_word.
Qed.
Lemma temp_below dir pre s : below siteRoot dir → plain_seg (pre +:+ s) = true → below siteRoot (dir +:+ "/" +:+ pre +:+ s).
Proof. intros H Hs. apply (below_below _ dir); [by apply below_inside|]. apply below_name; [by destruct H|done]. Qed.
Lemma digits_seg pre s : some_alnum pre = true → no_chr "/" pre = true → str_all is_digit s = true → plain_seg (pre +:+ s) = true.
Proof.
  intros Ha Hs Hd. apply plain_seg_alnum; [by rewrite some_alnum_app, Ha|]. unfold no_chr in *. rewrite str_all_app, Hs.
  by apply (no_slash is_digit).
Qed.
Lemma sure_archive_full p dir file k :
  below siteRoot dir → base_ok (bc_root p) → sure k → sure (archive_full p dir file k).
Proof.
  intros Hd Hb Hk. unfold archive_full. apply always_bind. split; [by left|]. intros [bundle|e] Hx; [|done].
  destruct Hx as (s & Hs & ->).
  assert (Hbelow : below siteRoot (dir +:+ "/" +:+ "full-" +:+ s)) by (apply temp_below; [done|]; by apply digits_seg).
  cbv zeta. change (str_take _ "full-*") with "full-" in *. set (bundle := dir +:+ "/" +:+ "full-" +:+ s) in *.
  assert (Hdumps : below siteRoot (path_join bundle "database_dumps")) by (apply below_join; [done|by repeat constructor]).
  change (sure (let! m := perform (MkdirAll (path_join bundle "database_dumps")) in
    let! rep := match (m : error) with
      | Some e => Ret (HTTPError 500 ("create dumps dir failed: " +:+ e))
      | None => let! d := dump_all (path_join bundle "database_dumps") (bc_databases p) in
          match d with
          | Some rep => Ret rep
          | None => let! _ := archive file (bc_root p) ["-C"; bundle; "database_dumps"] in k
          end
      end in
    let! _ := perform (RemoveAll bundle) in Ret rep)).
  walk.
  - left. by apply below_inside.
  - by apply sure_dump_all.
  - by apply sure_archive.
Qed.
Lemma sure_archive_files p file k : base_ok (bc_root p) → sure k → sure (archive_files p file k).
Proof. intros Hb Hk. unfold archive_files. walk. by apply sure_archive. Qed.
Lemma sure_finish p name file : is_option file = false → sure (finish_backup p name file).
Proof. intros H. unfold finish_backup. walk. by apply sure_upload. Qed.
Lemma below_word p : below siteRoot p → is_option p = false.
Proof. intros [H _]. by apply rooted_word. Qed.
Lemma sure_backup_create p :
  match p with Some p => base_ok (bc_root p) | None => True end → sure (backupCreateTask r p).
Proof.
  intros Hb. unfold backupCreateTask. destruct p as [p|]; [|done]. case_goal; [done|]. bool_hyps.
  pose proof (allowed_site _ E) as Hr. cbv zeta.
  assert (Hd : below siteRoot (path_join (bc_root p) "backups")) by by apply below_root; [|repeat constructor].
  apply sure_seq; [by apply sure_ensure, below_inside|]. intros [e|]; [done|].
  eapply sure_post; [by apply safe_file_name|]. intros name Hn%up_seg.
  assert (Hf : is_option (path_join (path_join (bc_root p) "backups") name) = false) by by apply below_word, below_join.
  case_goal; [by apply sure_archive_files, sure_finish|by apply sure_archive_full, sure_finish].
Qed.

Lemma backup_word p : isAllowedBackupPath r p = true → is_option p = false.
Proof. unfold isAllowedBackupPath. case_goal; [done|]. intros _. bool_hyps. apply rooted_word. by apply isValidPath_ok. Qed.
(** The file is an allowed one, also after its directory was resolved. *)
Lemma safe_resolve path : safe (λ f, match f with Some file => isAllowedBackupPath r file = true ∧ is_option file = false | None => True end) (resolve_backup_file r path).
Proof.
  unfold resolve_backup_file. case_goal; [done|]. split; [done|]. intros d _. cbn [bind].
  destruct (resolveBackupFile (λ _, d) (λ _, None) r path) as [real|] eqn:R; [|done].
  assert (Ha : isAllowedBackupPath r real = true ∧ is_option real = false).
  { unfold resolveBackupFile in R. repeat case_hyp R; simplify_eq; bool_hyps; by split; [|apply backup_word]. }
  split; [done|]. intros l _. cbn. destruct l as [f| |]; [|done..]. by destruct (fi_regular f).
Qed.
Lemma sure_backup_delete p : sure (backupDeleteTask r p).
Proof.
  unfold backupDeleteTask. destruct p as [[id storage]|]; [|done]. cbv zeta. case_goal; [done|].
  eapply sure_post; [apply safe_resolve|]. intros [file|]; [|done]. intros [Hf _]. walk.
Qed.

(** ** Restoring *)

Lemma sure_move src dst : below siteRoot src ∨ in_restore src → below siteRoot dst → sure (movePath src dst).
Proof. intros Hs Hd. unfold movePath. walk. destruct Hs; [by left|by do 4 right]. Qed.
Lemma staged_below p : site_path (br_root p) → below siteRoot (staged_root p).
Proof.
  intros [H Hu _]. unfold staged_root. apply below_suffix; [done|done| |].
  - unfold no_chr. rewrite str_all_app. apply andb_true_intro. split; [done|]. eapply no_slash; [|apply itoa_chars]. done.
  - rewrite length_app_s. cbn. lia.
Qed.
Lemma sure_install_root p extracted staged : site_path (br_root p) → in_restore extracted → sure (install_root p extracted staged).
Proof.
  intros Hr He. pose proof (staged_below p Hr) as Hst. destruct Hr as [Hr _ _]. unfold install_root, put_back_root. walk.
  - by apply sure_move; [right|].
  - by apply sure_move; [left|].
Qed.
Lemma sure_swap p extracted : site_path (br_root p) → in_restore extracted → sure (swap_roots p extracted).
Proof.
  intros Hr He. pose proof (staged_below p Hr) as Hst. unfold swap_roots. walk.
  - apply sure_move; [left|done]. by destruct Hr.
  - by apply sure_install_root.
  - by apply sure_install_root.
Qed.
Lemma sure_reown p extracted : in_restore extracted → sure (reown p extracted).
Proof. intros H. unfold reown. walk. Qed.
Lemma sure_fetch p : site_path (br_root p) → sure (fetch_archive p).
Proof.
  intros Hr. unfold fetch_archive. case_goal; [|done]. destruct (s3_target (br_s3 p)) as [c|]; [|done]. cbv zeta.
  assert (Hd : below siteRoot (path_join (br_root p) "backup")) by by apply below_root; [|repeat constructor].
  walk; [by apply below_inside|]. apply sure_s3_copy.
  - unfold is_option, has_prefix in *. apply prefix_spec in E as (t & ->). done.
  - apply below_word, below_join; [done|]. apply up_seg, plain_seg_alnum; [by rewrite some_alnum_app|].
    unfold no_chr. rewrite !str_all_app. apply andb_true_intro. split; [done|]. apply andb_true_intro. split; [|done].
    eapply no_slash; [|apply itoa_chars]. done.
Qed.
Lemma sure_unpack p file s : site_path (br_root p) → is_option file = false → str_all is_digit s = true →
  sure (unpack p file (backups +:+ "/restore-" +:+ s)).
Proof.
  intros Hr Hf Hs. unfold unpack. cbv zeta.
  assert (He : in_restore (path_join (backups +:+ "/restore-" +:+ s) (path_base (br_root p)))).
  { exists s. split; [done|]. apply inside_clean, inside_append; [done|]. apply path_base_no_up. by destruct Hr. }
  walk.
  - split; [done|]. unfold argv_fine. case_goal; [done|]. do 2 (cbn; rewrite ?Hf). done.
  - left. apply path_dir_inside; by destruct Hr.
  - by apply sure_reown.
  - by apply sure_swap.
Qed.
Lemma sure_restore_from p file : site_path (br_root p) → is_option file = false → sure (restore_from r p file).
Proof.
  intros Hr Hf. unfold restore_from. apply sure_seq; [done|]. intros [f| |]; [|done..]. case_goal; [done|].
  apply always_bind. split; [by right|]. intros [tmp|e] Hx; [|done]. destruct Hx as (s & Hs & ->).
  change (backupDir r +:+ "/" +:+ str_take (String.length "restore-*" - 1) "restore-*" +:+ s) with (backups +:+ "/restore-" +:+ s).
  change (sure (let! rep := unpack p file (backups +:+ "/restore-" +:+ s) in let! _ := perform (RemoveAll (backups +:+ "/restore-" +:+ s)) in Ret rep)).
  walk; [by apply sure_unpack|]. do 4 right. exists s. split; [done|]. by apply inside_refl.
Qed.
Lemma sure_backup_restore p : sure (backupRestoreTask r p).
Proof.
  unfold backupRestoreTask. destruct p as [p|]; [|done]. case_goal; [done|]. bool_hyps. pose proof (allowed_site _ E) as Hr.
  apply sure_seq; [by apply sure_fetch|]. intros [path|rep]; [|done].
  eapply sure_post; [apply safe_resolve|]. intros [file|]; [|done]. intros [_ Hf]. by apply sure_restore_from.
Qed.
Lemma sure_database_backup p : sure (databaseBackupTask r p).
Proof.
  unfold databaseBackupTask. destruct p as [p|]; [|done]. case_goal; [done|]. case_goal; [done|]. bool_hyps.
  pose proof (allowed_site _ E0) as Hr. cbv zeta.
  assert (Hd : below siteRoot (path_join (dbk_root p) "backup/db")) by by apply below_root; [|repeat constructor].
  walk; [by apply below_inside|]. unfold dump_to. cbv zeta.
  eapply sure_post; [by apply safe_file_name|]. intros name Hn%up_seg.
  assert (Hf : below siteRoot (path_join (path_join (dbk_root p) "backup/db") name)) by by apply below_join.
  walk; [by apply sure_dump|]. by apply sure_upload, below_word.
Qed.

Definition archived_root (t : task) : Prop := match t with BackupCreateTask (Some p) => base_ok (bc_root p) | _ => True end.
Lemma sure_task t : archived_root t → sure (run_task r t).
Proof.
  intros H. destruct t; cbn [run_task].
  - apply sure_site_create.
  - apply sure_site_delete.
  - apply sure_site_deploy.
  - apply sure_nginx_reload.
  - apply sure_ssl_issue.
  - apply sure_ssl_renew.
  - apply sure_logs_read.
  - by apply sure_backup_create.
  - apply sure_backup_restore.
  - apply sure_database_backup.
  - apply sure_backup_delete.
  - apply sure_database_create.
  - apply sure_database_delete.
  - apply sure_db_user_create.
  - apply sure_db_user_delete.
  - apply sure_app_start.
  - apply sure_app_stop.
  - apply sure_app_restart.
  - apply sure_git_branches.
  - apply sure_git_log.
  - apply sure_git_rollback.
  - apply sure_git_checkout.
Qed.
End Tasks.

(** * What a task does to a server *)

Section Server.
Context `{HR : MapRange} {S : Type} (step : ∀ e, S → answer e * S).
Hypothesis behaves : ∀ e s, host_ok e (step e s).1.


(** C15: no value of a request becomes an option in the 22 tasks of [run_task]: on an agent with a
    site root, in every process that one of them starts, an argument that begins with a dash is
    one of the options the agent means to give or the value of one; the processes are on the
    allowlist, and installers do not run as root.  The archive of a site whose directory has the
    name of an option is the exception, and the current branch of a repository is taken to
    have no such name ([host_ok]).  The other routes of the agent (Docker among them, whose
    names go unchecked into the command line) are not meant. *)
Theorem agent_no_option_injection (token siteRoot : string) (stubSSL : bool) (t : task) (s : S) (c : cmd) :
  siteRoot ≠ "" → archived_root false t →
  Exec c ∈ trace step (run_task (newRouter token siteRoot stubSSL) t) s →
  isAllowedCommand (c_name c) = true ∧ argv_ok (options_of (c_name c)) (c_args c) = true ∧
  (c_name c ∈ installers → unprivileged (c_cred c)).
Proof.
  intros Hs Ht Hc. pose proof (always_sound step host_ok (touches false siteRoot) (λ _, True) _ s behaves
    (sure_task false token siteRoot stubSSL Hs t Ht)) as [Hf _].
  rewrite Forall_forall in Hf. destruct (Hf _ Hc) as (Ha & Hv & Hi). split_and!; [done| |done].
  unfold argv_fine in Hv. by rewrite andb_false_r in Hv.
Qed.
End Server.

(** ** A host *)

(** Everything succeeds; files are found; the first temporary directory is number 1. *)
Definition willing (e : effect) (s : Z) : answer e * Z :=
  match e return answer e * Z with
  | Exec _ => (("", nil_error), s)
  | OpenExcl _ | MkdirAll _ | WriteFile _ _ | RemoveAll _ | Rename _ _ | CopyPath _ _ | SanitizeTree _ _ _ => (nil_error, s)
  | Remove _ => (Removed, s)
  | Stat _ | Lstat _ => (Found (FInfo false false true 10 1000 1000), s)
  | EvalSymlinks p => (Some p, s)
  | MkdirTemp dir pattern => (Ok (dir +:+ "/" +:+ str_take (String.length pattern - 1) pattern +:+ "1"), s + 1)
  | CountFiles _ | Now => (0, s)
  | LookPath _ | Listen _ => (true, s)
  | LookupUser _ => (Some ("1000", "1000"), s)
  | LookupId _ => (None, s)
  | RandomHex _ | LocalTime _ => ("", s)
  end.
Definition in_order : MapRange := {| range l := l; range_in l x H := H |}.
Lemma willing_ok e s : host_ok e (willing e s).1.
Proof. destruct e; cbn; try done. by exists "1". Qed.
Definition sample_deploy : task :=
  SiteDeployTask (Some (mkSiteDeploy 5 "x.org" "https://git.example/x.git" "main" "/home/u/site" "node" "running" 3000 "node a.js" "web1" 256)).
Lemma agent_no_option_injection_witness :
  let c := Cmd "npm" ["install"; "--production"] (User 1000 1000 []) "/home/u/site"
    (Only ["HOME=/tmp"; "USER=1000"; "LOGNAME=1000"; "PATH=/usr/local/bin:/usr/bin:/bin:/usr/sbin:/sbin"; "GIT_TERMINAL_PROMPT=0"; "LANG=C.UTF-8"]) "" None in
  Exec c ∈ trace willing (run_task (HR := in_order) (newRouter "t" "/home" false) sample_deploy) 0 ∧ unprivileged (c_cred c).
Proof.
  intros c. assert (Hc : Exec c ∈ trace willing (run_task (HR := in_order) (newRouter "t" "/home" false) sample_deploy) 0)
    by (apply (bool_decide_unpack _); by vm_compute).
  split; [done|]. apply (agent_no_option_injection (HR := in_order) willing willing_ok "t" "/home" false sample_deploy 0 c); [discriminate|done|done|].
  apply (bool_decide_unpack _). by vm_compute.
Defined.

(** The exception is real: the path is accepted, by the panel as well, and [tar] is given its
    last part as an option. *)
Example option_archived :
  let root := "/home/u/--remove-files" in
  let t := BackupCreateTask (Some (mkBackupCreate 1 "x.org" root "files" [] None)) in
  RootPathAllowed root = nil_error ∧
  existsb (λ e, match e with Exec c => (c_name c =? "tar")%string && negb (argv_ok (options_of "tar") (c_args c)) && str_in (c_args c) "--remove-files" | _ => false end)
    (trace willing (run_task (HR := in_order) (newRouter "t" "/home" false) t) 0) = true.
Proof. split; by vm_compute. Qed.
