(* ===== verification/Access.v ===== *)
(** Who may do what to a site: the access checks of src/internal/apihttp/sites.go, the
    lists of src/internal/store/user_sites.go and the notification of a site's users of
    store/notify_helper.go. *)
From S2P Require Import Prelude GoStr Json Sql JobStore Accounts Sites Backups Servers BackupPlan Records Plans Extras Panel Guards Http.
Local Open Scope Z_scope.
Local Open Scope panel_scope.

Set Default Proof Using "Type".

(** * The joins of user_sites.go *)

(** A grant with the name of its user and the domain of its site; a grant of a user or a
    site that is gone is left out by the joins. *)
Record UserSite := mkUserSite { us_grant : user_site_row; us_username : string; us_domain : string }.
Definition joined (d : db) (g : user_site_row) : option UserSite :=
  match get_row (us_user g) (t_users d), get_row (us_site g) (t_sites d) with
  | Some u, Some s => Some (mkUserSite g (u_username u) (s_domain s))
  | _, _ => None
  end.
Definition ListByUser (userID : Z) : M db (res (list UserSite)) :=
  query (λ _ d, order_by (λ a b, String.leb (us_domain a) (us_domain b))
                  (omap (joined d) (select_where (λ g, us_user g =? userID) (t_user_sites d)))).
Definition ListBySite (siteID : Z) : M db (res (list UserSite)) :=
  query (λ _ d, order_by (λ a b, String.leb (us_username a) (us_username b))
                  (omap (joined d) (select_where (λ g, us_site g =? siteID) (t_user_sites d)))).

Definition NotifySiteUsers (siteID : Z) (type title message severity entity : string) (entityID : Z) : M db () :=
  let* l := ListBySite siteID in
  match l with
  | Ok (u :: us) => mfor (u :: us) (λ x, Notify (us_user (us_grant x)) type title message severity entity entityID)
  | _ => NotifyAdmins type title message severity entity entityID
  end.

(** * The checks of sites.go *)

(** [strconv.ParseInt(c.Param(name), 10, 64)], an error and a value that is not positive alike. *)
Definition parse_id (s : string) : option Z :=
  let '(id, ok) := atoi s in if negb ok || (id <=? 0) then None else Some id.
(** [var userID int64; if sess != nil { userID = sess.UserID }]. *)
Definition caller (c : context) : Z := match c_session c with Some s => se_user s | None => 0 end.

Definition owns (sess : session_row) (site : site_row) : bool := bool_decide (s_owner site = Some (se_user sess)).

Definition canAccess (c : context) (site : site_row) : M db bool :=
  match c_session c with
  | None => mret false
  | Some sess =>
      let* u := Users.GetByID (se_user sess) in
      match u with
      | Ok (Some user) =>
          if (u_role user =? RoleSuperAdmin)%string then mret true
          else if owns sess site then mret true
          else let* r := UserSites.HasAccess (se_user sess) (s_id site) in
               mret match r with Ok b => b | Err _ => false end
      | _ => mret false
      end
  end.

(** What a permission allows. *)
Definition allows (required perm : string) : bool :=
  if (required =? "admin")%string then (perm =? "admin")%string
  else if (required =? "write")%string then str_in ["admin"; "write"] perm
  else if (required =? "read")%string then str_in ["admin"; "write"; "read"] perm
  else false.
Definition checkSitePermission (c : context) (site : site_row) (required : string) : M db bool :=
  match c_session c with
  | None => mret false
  | Some sess =>
      let* u := Users.GetByID (se_user sess) in
      match u with
      | Ok (Some user) =>
          if (u_role user =? RoleSuperAdmin)%string then mret true
          else if owns sess site then mret true
          else let* r := UserSites.GetPermission (se_user sess) (s_id site) in
               mret match r with Ok perm => allows required perm | Err _ => false end
      | _ => mret false
      end
  end.

Definition role_check (p : string → bool) (c : context) : M db bool :=
  match c_session c with
  | None => mret false
  | Some sess =>
      let* u := Users.GetByID (se_user sess) in
      mret match u with Ok (Some user) => p (u_role user) | _ => false end
  end.
Definition isAdmin : context → M db bool := role_check (λ role, HasRole role RoleAdmin).
Definition isSuperAdmin : context → M db bool := role_check (λ role, (role =? RoleSuperAdmin)%string).

(** The beginning of the handlers of one site: the id, the site, the check.  [bad] is the
    message for an id that is no number, [broken] the answer to a failed read. *)
Definition with_site (bad : string) (broken : reply) (id : string) (k : Z → site_row → M db reply) : M db reply :=
  match parse_id id with
  | None => mret (HTTPError 400 bad)
  | Some i =>
      let* r := Sites.GetByID i in
      match r with
      | Err _ => mret broken
      | Ok None => mret (HTTPError 404 "site not found")
      | Ok (Some site) => k i site
      end
  end.
Definition not_found : reply := HTTPError 404 "site not found".
Definition internal : reply := HTTPError 500 "internal error".
Definition if_accessible (c : context) (site : site_row) (k : M db reply) : M db reply :=
  let* ok := canAccess c site in if negb ok then mret not_found else k.
Definition if_permitted (c : context) (required : string) (site : site_row) (k : M db reply) : M db reply :=
  let* ok := checkSitePermission c site required in if negb ok then mret not_found else k.

(** * Facts *)

(** ** What the checks mean *)

(** The caller is a user of the database, and super admin, owner of the site, or holder of
    a grant on it that satisfies [p]. *)
Definition entitled (p : user_site_row → Prop) (c : context) (site : site_row) (d : db) : Prop :=
  ∃ sess user, c_session c = Some sess ∧ get_row (se_user sess) (t_users d) = Some user ∧
    (u_role user = RoleSuperAdmin ∨ s_owner site = Some (se_user sess) ∨
     ∃ g, In g (t_rows (t_user_sites d)) ∧ us_user g = se_user sess ∧ us_site g = s_id site ∧ p g).
Definition may_access : context → site_row → db → Prop := entitled (λ _, True).
Definition may (required : string) : context → site_row → db → Prop :=
  entitled (λ g, allows required (us_permission g) = true).

Lemma may_may_access (required : string) c site d : may required c site d → may_access c site d.
Proof.
  intros (sess & user & E1 & E2 & H). exists sess, user. split; [done|]. split; [done|].
  destruct H as [H|[H|(g & H1 & H2 & H3 & _)]]; [by left|by right; left|right; right; by exists g].
Qed.

(** A service token is nobody's: it acts as user 0. *)
Lemma entitled_user p c site d (Hw : table_wf (t_users d)) : entitled p c site d → 0 < caller c.
Proof.
  intros (sess & user & E1 & E2 & _). unfold caller. rewrite E1.
  pose proof (get_row_id _ _ _ E2) as Hi. apply find_spec in E2 as [_ Hin].
  pose proof (wf_range _ Hw) as Hr. rewrite List.Forall_forall in Hr. specialize (Hr _ Hin). lia.
Qed.

Lemma grant_spec (u s : Z) (g : user_site_row) : UserSites.is_grant u s g = true → us_user g = u ∧ us_site g = s.
Proof. unfold UserSites.is_grant. intros H. by bool_hyps. Qed.

Lemma canAccess_wp (c : context) (site : site_row) (w : world db) :
  wp (canAccess c site) (λ b w', data w' = data w ∧ clock w' = clock w ∧ (b = true → may_access c site (data w))) w.
Proof.
  unfold canAccess, Users.GetByID, Users.scan_query, UserSites.HasAccess. destruct (c_session c) as [sess|] eqn:Es; [|wp_step; done].
  wp_step. wp_step. wp_step; [wp_step; done|]. cbn [data clock].
  destruct (get_row (se_user sess) (tab (data w))) as [user|] eqn:Eu; [|wp_step; done].
  wp_step; [wp_step; split; [done|]; split; [done|]; intros _; exists sess, user; bool_hyps; by eauto|].
  wp_step; [wp_step; split; [done|]; split; [done|]; intros _; exists sess, user; unfold owns in *; bool_hyps; by eauto|].
  wp_step. wp_step; wp_step; (split; [done|]; split; [done|]); [done|]. intros H.
  unfold has_row in H. apply existsb_exists in H as (g & Hg & H). apply grant_spec in H as [H1 H2].
  exists sess, user. split; [done|]. split; [done|]. right. right. by exists g.
Qed.

Lemma checkSitePermission_wp (c : context) (site : site_row) (required : string) (w : world db) :
  wp (checkSitePermission c site required)
    (λ b w', data w' = data w ∧ clock w' = clock w ∧ (b = true → may required c site (data w))) w.
Proof.
  unfold checkSitePermission, Users.GetByID, Users.scan_query, UserSites.GetPermission.
  destruct (c_session c) as [sess|] eqn:Es; [|wp_step; done].
  wp_step. wp_step. wp_step; [wp_step; done|]. cbn [data clock].
  destruct (get_row (se_user sess) (tab (data w))) as [user|] eqn:Eu; [|wp_step; done].
  wp_step; [wp_step; split; [done|]; split; [done|]; intros _; exists sess, user; bool_hyps; by eauto|].
  wp_step; [wp_step; split; [done|]; split; [done|]; intros _; exists sess, user; unfold owns in *; bool_hyps; by eauto|].
  wp_step. wp_step. wp_step; [wp_step; wp_step; done|]. cbn [data clock].
  destruct (select_one _ _) as [g|] eqn:Eg; wp_step; wp_step; (split; [done|]; split; [done|]); [|done].
  intros H. apply find_in in Eg as [Hg Hp]. apply grant_spec in Hp as [H1 H2].
  exists sess, user. split; [done|]. split; [done|]. right. right. by exists g.
Qed.
