(* ===== verification/Routes.v ===== *)
(** The routes of the API, src/internal/apihttp/router.go and src/internal/member/router.go:
    which middlewares stand in front of which handler, and what they let through. *)
From S2P Require Import Prelude GoStr Json Sql JobStore Accounts Sites Backups Servers BackupPlan Records Panel Guards Http.
Local Open Scope Z_scope.
Local Open Scope panel_scope.

Set Default Proof Using "Type".

(** * The table *)

Inductive guard := Auth | Admin | UserSession | LoginLimiter | RegisterLimiter | MemberAuth.
#[export] Instance guard_eq : EqDecision guard.
Proof. solve_decision. Defined.

Record route := mkRoute { r_method : string; r_path : string; r_handler : string; r_guards : list guard }.
Notation GET := (mkRoute "GET").
Notation POST := (mkRoute "POST").
Notation PUT := (mkRoute "PUT").
Notation PATCH := (mkRoute "PATCH").
Notation DELETE := (mkRoute "DELETE").

Definition public_routes : list route := [
  GET "/health" "healthHandler" [];
  GET "/api/v1/health" "healthHandler" [];
  GET "/api/v1/version" "versionHandler" [];
  POST "/api/v1/auth/login" "ah.login" [LoginLimiter];
  POST "/api/v1/auth/register" "ah.register" [RegisterLimiter] ].

Definition account_routes : list route := [
  POST "/api/v1/auth/2fa/setup" "tfaH.setup2FA" [Auth];
  POST "/api/v1/auth/2fa/enable" "tfaH.enable2FA" [Auth];
  POST "/api/v1/auth/2fa/disable" "tfaH.disable2FA" [Auth];
  POST "/api/v1/auth/2fa/verify" "tfaH.verify2FA" [Auth];
  GET "/api/v1/auth/2fa/status" "tfaH.status2FA" [Auth];
  POST "/api/v1/auth/2fa/recovery-codes" "tfaH.generateRecoveryCodes" [Auth];
  GET "/api/v1/auth/me" "ah.me" [Auth];
  PUT "/api/v1/auth/profile" "ah.updateProfile" [Auth];
  POST "/api/v1/auth/logout" "ah.logout" [Auth];
  POST "/api/v1/auth/stop-impersonation" "ah.stopImpersonation" [Auth; UserSession];
  GET "/api/v1/users" "uh.list" [Auth; Admin];
  POST "/api/v1/users" "uh.create" [Auth; Admin];
  DELETE "/api/v1/users/:id" "uh.delete" [Auth; Admin];
  PATCH "/api/v1/users/:id" "uh.update" [Auth; Admin];
  GET "/api/v1/users/:id/usage" "uh.usage" [Auth];
  GET "/api/v1/users/:id/sites" "uh.listUserSites" [Auth; Admin];
  POST "/api/v1/users/:id/sites" "uh.assignUserSite" [Auth; Admin];
  DELETE "/api/v1/users/:id/sites/:siteId" "uh.unassignUserSite" [Auth; Admin];
  PATCH "/api/v1/users/:id/sites/:siteId" "uh.updateSitePermission" [Auth; Admin];
  GET "/api/v1/sites/:id/users" "uh.listSiteUsers" [Auth; Admin];
  POST "/api/v1/users/:id/impersonate" "ah.impersonate" [Auth; Admin; UserSession] ].

Definition server_routes : list route := [
  GET "/api/v1/servers" "sh.list" [Auth];
  POST "/api/v1/servers" "sh.create" [Auth; Admin];
  GET "/api/v1/servers/:id" "sh.get" [Auth];
  PATCH "/api/v1/servers/:id" "sh.update" [Auth; Admin];
  DELETE "/api/v1/servers/:id" "sh.delete" [Auth; Admin];
  GET "/api/v1/servers/health" "sh.getHealthAll" [Auth];
  GET "/api/v1/servers/:id/health" "sh.getHealth" [Auth];
  POST "/api/v1/servers/:id/token" "sh.regenerateToken" [Auth; Admin] ].

Definition site_routes : list route := [
  POST "/api/v1/terminal/tickets" "termH.createTicket" [Auth; UserSession];
  GET "/api/v1/ws/terminal" "termH.serve" [];
  GET "/api/v1/sites" "sitesH.list" [Auth];
  POST "/api/v1/sites" "sitesH.create" [Auth];
  GET "/api/v1/sites/:id" "sitesH.get" [Auth];
  DELETE "/api/v1/sites/:id" "sitesH.delete" [Auth];
  POST "/api/v1/sites/:id/deploy" "sitesH.deploy" [Auth];
  POST "/api/v1/sites/:id/config" "sitesH.updateConfig" [Auth];
  POST "/api/v1/sites/:id/reload-nginx" "sitesH.reloadNginx" [Auth];
  POST "/api/v1/sites/:id/transfer" "sitesH.transfer" [Auth];
  POST "/api/v1/webhooks/deploy/:site_id" "wh.deploy" [];
  GET "/api/v1/jobs" "jh.list" [Auth];
  GET "/api/v1/jobs/:id" "jh.get" [Auth];
  POST "/api/v1/jobs/:id/cancel" "jh.cancel" [Auth];
  POST "/api/v1/jobs/:id/logs" "jobLogH.append" [Auth];
  GET "/api/v1/jobs/:id/logs" "jobLogH.getSince" [Auth];
  GET "/api/v1/sites/:id/ssl" "sslH.status" [Auth];
  POST "/api/v1/sites/:id/ssl/issue" "sslH.issue" [Auth];
  POST "/api/v1/sites/:id/ssl/renew" "sslH.renew" [Auth];
  POST "/api/v1/ssl/renew-all" "sslH.renewAll" [Auth; Admin];
  GET "/api/v1/sites/:id/app/status" "sitesH.appStatus" [Auth];
  POST "/api/v1/sites/:id/app/start" "sitesH.appStart" [Auth];
  POST "/api/v1/sites/:id/app/stop" "sitesH.appStop" [Auth];
  POST "/api/v1/sites/:id/app/restart" "sitesH.appRestart" [Auth];
  PUT "/api/v1/sites/:id/app/config" "sitesH.appUpdateConfig" [Auth];
  GET "/api/v1/sites/:id/app/resource-usage" "sitesH.appResourceUsage" [Auth];
  PUT "/api/v1/sites/:id/app/resource-limits" "sitesH.appUpdateResourceLimits" [Auth; Admin];
  GET "/api/v1/sites/:id/php/config" "sitesH.getPHPConfig" [Auth];
  PUT "/api/v1/sites/:id/php/config" "sitesH.updatePHPConfig" [Auth];
  GET "/api/v1/sites/:id/ssh/info" "sitesH.sshInfo" [Auth] ].

Definition access_routes : list route := [
  GET "/api/v1/sites/:id/vhost" "sitesH.getVhost" [Auth];
  PUT "/api/v1/sites/:id/vhost" "sitesH.updateVhost" [Auth; Admin];
  POST "/api/v1/sites/:id/vhost/validate" "sitesH.validateVhost" [Auth];
  GET "/api/v1/sites/:id/varnish" "sitesH.getVarnish" [Auth];
  POST "/api/v1/sites/:id/varnish/purge" "sitesH.purgeVarnish" [Auth];
  GET "/api/v1/sites/:id/security" "sitesH.getSecurity" [Auth];
  PUT "/api/v1/sites/:id/security" "sitesH.updateSecurity" [Auth];
  GET "/api/v1/sites/:id/ip-restrictions" "ipH.list" [Auth];
  POST "/api/v1/sites/:id/ip-restrictions" "ipH.create" [Auth];
  DELETE "/api/v1/sites/:id/ip-restrictions/:restriction_id" "ipH.delete" [Auth];
  GET "/api/v1/sites/:id/ssh-ftp" "sitesH.getSshFtp" [Auth; Admin];
  POST "/api/v1/sites/:id/ssh-ftp" "sitesH.createSshFtp" [Auth; Admin];
  DELETE "/api/v1/sites/:id/ssh-ftp/:ssh_id" "sitesH.deleteSshFtp" [Auth; Admin];
  GET "/api/v1/sites/:id/ssh-ftp/:ssh_id/key" "sitesH.getSSHPrivateKey" [Auth; Admin];
  GET "/api/v1/sites/:id/cron" "sitesH.listCron" [Auth];
  POST "/api/v1/sites/:id/cron" "sitesH.createCron" [Auth; Admin];
  DELETE "/api/v1/sites/:id/cron/:cron_id" "sitesH.deleteCron" [Auth; Admin];
  GET "/api/v1/sites/:id/logs" "logsH.tail" [Auth];
  GET "/api/v1/sites/:id/usage" "sitesH.usage" [Auth] ].

Definition file_routes : list route := [
  GET "/api/v1/sites/:id/files" "fmH.listFiles" [Auth];
  GET "/api/v1/sites/:id/files/read" "fmH.readFile" [Auth];
  POST "/api/v1/sites/:id/files/write" "fmH.writeFile" [Auth];
  POST "/api/v1/sites/:id/files/create" "fmH.createEntry" [Auth];
  DELETE "/api/v1/sites/:id/files" "fmH.deleteEntry" [Auth];
  POST "/api/v1/sites/:id/files/rename" "fmH.renameEntry" [Auth];
  POST "/api/v1/sites/:id/files/move" "fmH.moveEntries" [Auth];
  POST "/api/v1/sites/:id/files/compress" "fmH.compressEntries" [Auth];
  POST "/api/v1/sites/:id/files/upload" "fmH.uploadFile" [Auth];
  GET "/api/v1/sites/:id/files/download" "fmH.downloadFile" [Auth] ].

Definition backup_routes : list route := [
  GET "/api/v1/backup-providers" "bpH.list" [Auth; Admin];
  POST "/api/v1/backup-providers" "bpH.create" [Auth; Admin];
  PATCH "/api/v1/backup-providers/:id" "bpH.update" [Auth; Admin];
  DELETE "/api/v1/backup-providers/:id" "bpH.delete" [Auth; Admin];
  GET "/api/v1/backup-providers/:id/usage" "bpH.usage" [Auth; Admin];
  POST "/api/v1/backup-providers/:id/test" "bpH.testConnection" [Auth; Admin];
  POST "/api/v1/backups/bulk" "backupH.bulkCreate" [Auth; Admin];
  POST "/api/v1/sites/:id/backups" "backupH.createWithProvider" [Auth];
  GET "/api/v1/sites/:id/backups" "backupH.list" [Auth];
  POST "/api/v1/sites/:id/backups/database" "backupH.createDatabaseBackup" [Auth];
  GET "/api/v1/backups" "backupH.list" [Auth];
  GET "/api/v1/backups/:id/download" "backupH.download" [Auth];
  DELETE "/api/v1/backups/:id" "backupH.delete" [Auth];
  POST "/api/v1/backups/:id/restore" "backupH.restore" [Auth];
  POST "/api/v1/sites/:id/schedules" "bscH.create" [Auth];
  GET "/api/v1/sites/:id/schedules" "bscH.listBySite" [Auth];
  PATCH "/api/v1/schedules/:id" "bscH.update" [Auth];
  DELETE "/api/v1/schedules/:id" "bscH.delete" [Auth];
  GET "/api/v1/backup-configs" "bcfgH.list" [Auth; Admin];
  POST "/api/v1/backup-configs" "bcfgH.create" [Auth; Admin];
  PATCH "/api/v1/backup-configs/:id" "bcfgH.update" [Auth; Admin];
  DELETE "/api/v1/backup-configs/:id" "bcfgH.delete" [Auth; Admin];
  POST "/api/v1/backup-configs/:id/run" "bcfgH.run" [Auth; Admin];
  GET "/api/v1/settings/retention" "getRetention" [Auth; Admin];
  PUT "/api/v1/settings/retention" "setRetention" [Auth; Admin] ].

Definition panel_routes : list route := [
  POST "/api/v1/servers/:id/metrics" "metricH.ingest" [Auth];
  GET "/api/v1/servers/:id/metrics/latest" "metricH.latest" [Auth];
  GET "/api/v1/servers/:id/metrics" "metricH.range_" [Auth];
  GET "/api/v1/servers/:id/gpu" "metricH.gpu" [Auth];
  GET "/api/v1/service-tokens" "stH.list" [Auth; Admin; UserSession];
  POST "/api/v1/service-tokens" "stH.create" [Auth; Admin; UserSession];
  DELETE "/api/v1/service-tokens/:id" "stH.revoke" [Auth; Admin; UserSession];
  POST "/api/v1/alert-channels" "alertH.createChannel" [Auth; Admin];
  GET "/api/v1/alert-channels" "alertH.listChannels" [Auth; Admin];
  DELETE "/api/v1/alert-channels/:id" "alertH.deleteChannel" [Auth; Admin];
  GET "/api/v1/alerts" "alertH.listAlerts" [Auth; Admin];
  GET "/api/v1/notifications" "notifH.list" [Auth];
  GET "/api/v1/notifications/unread-count" "notifH.count" [Auth];
  POST "/api/v1/notifications/:id/read" "notifH.markRead" [Auth];
  POST "/api/v1/notifications/read-all" "notifH.markAllRead" [Auth];
  DELETE "/api/v1/notifications/:id" "notifH.delete" [Auth];
  DELETE "/api/v1/notifications/read" "notifH.deleteAllRead" [Auth] ].

Definition database_routes : list route := [
  GET "/api/v1/databases" "dbH.listAllDatabases" [Auth];
  POST "/api/v1/sites/:id/databases" "dbH.createDatabase" [Auth];
  GET "/api/v1/sites/:id/databases" "dbH.listDatabases" [Auth];
  GET "/api/v1/databases/:id" "dbH.getDatabase" [Auth];
  DELETE "/api/v1/databases/:id" "dbH.deleteDatabase" [Auth];
  POST "/api/v1/databases/:id/users" "dbH.createDBUser" [Auth];
  GET "/api/v1/databases/:id/users" "dbH.listDBUsers" [Auth];
  DELETE "/api/v1/databases/:id/users/:user_id" "dbH.deleteDBUser" [Auth];
  POST "/api/v1/databases/:id/users/:user_id/rotate-password" "dbH.rotateDBUserPassword" [Auth];
  PATCH "/api/v1/databases/:id" "dbH.updateDatabase" [Auth];
  POST "/api/v1/databases/:id/grant-user" "dbH.grantExistingUser" [Auth];
  GET "/api/v1/databases/:id/available-users" "dbH.listAvailableMySQLUsers" [Auth];
  GET "/api/v1/db-users" "dbH.listAllDBUsers" [Auth];
  PATCH "/api/v1/db-users/:id" "dbH.updateDBUser" [Auth];
  GET "/api/v1/databases/:id/pma-credentials" "dbH.pmaCredentials" [Auth];
  POST "/api/v1/databases/exec-sql" "dbH.execSQL" [Auth; Admin];
  POST "/api/v1/databases/phpmyadmin-reset-passwords" "dbH.phpMyAdminResetPasswords" [Auth; Admin];
  GET "/api/v1/database-server" "dbServerH.getDBServer" [Auth];
  POST "/api/v1/database-server/import" "dbServerH.importDatabases" [Auth] ].

Definition fleet_routes : list route := [
  GET "/api/v1/audit-logs" "auditH.List" [Auth; Admin];
  POST "/api/v1/agents/register" "agH.registerAgent" [];
  GET "/api/v1/agents/install" "agH.installScript" [];
  GET "/api/v1/agents/status-dashboard" "agH.statusDashboard" [];
  POST "/api/v1/agents/tokens" "agH.createRegistrationToken" [Auth; Admin];
  GET "/api/v1/cloudflare/config" "cfH.getConfig" [Auth];
  PUT "/api/v1/cloudflare/config" "cfH.saveConfig" [Auth];
  DELETE "/api/v1/cloudflare/config" "cfH.deleteConfig" [Auth];
  GET "/api/v1/cloudflare/verify" "cfH.verify" [Auth];
  GET "/api/v1/cloudflare/zones" "cfH.listZones" [Auth];
  GET "/api/v1/cloudflare/zones/search" "cfH.searchZones" [Auth];
  GET "/api/v1/cloudflare/zones/:id" "cfH.getZone" [Auth];
  GET "/api/v1/cloudflare/zones/:id/dns" "cfH.listDNSRecords" [Auth];
  POST "/api/v1/cloudflare/zones/:id/dns" "cfH.createDNSRecord" [Auth];
  DELETE "/api/v1/cloudflare/zones/:id/dns/:recordId" "cfH.deleteDNSRecord" [Auth];
  PUT "/api/v1/cloudflare/zones/:id/dns/:recordId" "cfH.updateDNSRecord" [Auth];
  PATCH "/api/v1/cloudflare/zones/:id/dns/:recordId" "cfH.patchDNSRecord" [Auth];
  POST "/api/v1/cloudflare/zones/:id/dns/bulk-delete" "cfH.bulkDeleteDNS" [Auth];
  POST "/api/v1/cloudflare/zones/:id/dns/import" "cfH.importDNSRecords" [Auth];
  POST "/api/v1/cloudflare/zones/:id/purge-cache" "cfH.purgeCache" [Auth];
  GET "/api/v1/cloudflare/zones/:id/analytics" "cfH.getAnalytics" [Auth];
  GET "/api/v1/cloudflare/zones/:id/analytics/range" "cfH.getAnalyticsRange" [Auth] ].

Definition license_routes : list route := [
  GET "/api/v1/license" "licH.getLicense" [Auth];
  POST "/api/v1/license/activate" "licH.activateLicense" [Auth; Admin];
  DELETE "/api/v1/license" "licH.deactivateLicense" [Auth; Admin];
  GET "/api/v1/license/features" "licH.getFeatures" [Auth] ].

Definition stack_routes : list route := [
  GET "/api/v1/servers/:id/stack" "stackH.stackInfo" [Auth];
  POST "/api/v1/servers/:id/stack/action" "stackH.stackAction" [Auth; Admin];
  POST "/api/v1/servers/:id/stack/restart" "stackH.stackRestart" [Auth; Admin];
  POST "/api/v1/servers/:id/command" "stackH.commandExec" [Auth; Admin];
  GET "/api/v1/servers/:id/docker/containers" "stackH.dockerContainers" [Auth];
  POST "/api/v1/servers/:id/docker/container/start" "stackH.dockerContainerStart" [Auth; Admin];
  POST "/api/v1/servers/:id/docker/container/stop" "stackH.dockerContainerStop" [Auth; Admin];
  POST "/api/v1/servers/:id/docker/container/restart" "stackH.dockerContainerRestart" [Auth; Admin];
  POST "/api/v1/servers/:id/docker/container/remove" "stackH.dockerContainerRemove" [Auth; Admin];
  POST "/api/v1/servers/:id/docker/container/create" "stackH.dockerContainerCreate" [Auth; Admin];
  GET "/api/v1/servers/:id/docker/container/logs" "stackH.dockerContainerLogs" [Auth];
  POST "/api/v1/servers/:id/docker/container/exec" "stackH.dockerContainerExec" [Auth; Admin];
  GET "/api/v1/servers/:id/docker/images" "stackH.dockerImages" [Auth; Admin];
  GET "/api/v1/servers/:id/docker/images/search" "stackH.dockerSearchImages" [Auth; Admin];
  POST "/api/v1/servers/:id/docker/compose/up" "stackH.dockerComposeUp" [Auth; Admin];
  POST "/api/v1/servers/:id/docker/compose/down" "stackH.dockerComposeDown" [Auth; Admin];
  POST "/api/v1/servers/:id/docker/image/pull" "stackH.dockerImagePull" [Auth; Admin];
  POST "/api/v1/servers/:id/docker/image/remove" "stackH.dockerImageRemove" [Auth; Admin];
  GET "/api/v1/servers/:id/docker/volumes" "stackH.dockerVolumes" [Auth; Admin];
  POST "/api/v1/servers/:id/docker/volume/create" "stackH.dockerVolumeCreate" [Auth; Admin];
  POST "/api/v1/servers/:id/docker/volume/remove" "stackH.dockerVolumeRemove" [Auth; Admin];
  GET "/api/v1/servers/:id/docker/networks" "stackH.dockerNetworks" [Auth; Admin];
  POST "/api/v1/servers/:id/docker/network/create" "stackH.dockerNetworkCreate" [Auth; Admin];
  POST "/api/v1/servers/:id/docker/network/remove" "stackH.dockerNetworkRemove" [Auth; Admin];
  GET "/api/v1/servers/:id/docker/info" "stackH.dockerInfo" [Auth; Admin];
  GET "/api/v1/servers/:id/docker/disk-usage" "stackH.dockerDiskUsage" [Auth; Admin] ].

Definition security_routes : list route := [
  GET "/api/v1/sites/:id/git/branches" "sitesH.gitBranches" [Auth];
  GET "/api/v1/sites/:id/git/log" "sitesH.gitLog" [Auth];
  POST "/api/v1/sites/:id/git/rollback" "sitesH.gitRollback" [Auth; Admin];
  POST "/api/v1/sites/:id/git/checkout" "sitesH.gitCheckout" [Auth; Admin];
  GET "/api/v1/servers/:id/firewall/status" "stackH.firewallStatus" [Auth; Admin];
  POST "/api/v1/servers/:id/firewall/enable" "stackH.firewallEnable" [Auth; Admin];
  POST "/api/v1/servers/:id/firewall/disable" "stackH.firewallDisable" [Auth; Admin];
  POST "/api/v1/servers/:id/firewall/allow" "stackH.firewallAllow" [Auth; Admin];
  POST "/api/v1/servers/:id/firewall/deny" "stackH.firewallDeny" [Auth; Admin];
  POST "/api/v1/servers/:id/firewall/delete" "stackH.firewallDelete" [Auth; Admin];
  GET "/api/v1/servers/:id/firewall/rules" "stackH.firewallRules" [Auth; Admin];
  POST "/api/v1/servers/:id/firewall/reset" "stackH.firewallReset" [Auth; Admin];
  POST "/api/v1/servers/:id/pm2/manage" "stackH.pm2Manage" [Auth; Admin];
  GET "/api/v1/servers/:id/redis/stats" "stackH.redisStats" [Auth; Admin];
  POST "/api/v1/servers/:id/redis/flush" "stackH.redisFlush" [Auth; Admin];
  GET "/api/v1/servers/:id/redis/info" "stackH.redisInfo" [Auth; Admin];
  POST "/api/v1/servers/:id/redis/flushdb" "stackH.redisFlushDB" [Auth; Admin];
  GET "/api/v1/servers/:id/security/monitor" "smH.monitor" [Auth; Admin];
  GET "/api/v1/servers/:id/security/baseline" "smH.getBaseline" [Auth; Admin];
  POST "/api/v1/servers/:id/security/baseline" "smH.saveBaseline" [Auth; Admin];
  GET "/api/v1/servers/:id/fail2ban/status" "stackH.fail2banStatus" [Auth; Admin];
  GET "/api/v1/servers/:id/security/overview" "stackH.securityOverview" [Auth; Admin];
  GET "/api/v1/servers/:id/fail2ban/jail" "stackH.fail2banJail" [Auth; Admin];
  POST "/api/v1/servers/:id/fail2ban/unban" "stackH.fail2banUnban" [Auth; Admin];
  POST "/api/v1/servers/:id/fail2ban/ban" "stackH.fail2banBan" [Auth; Admin];
  POST "/api/v1/servers/:id/fail2ban/enable" "stackH.fail2banEnable" [Auth; Admin];
  POST "/api/v1/servers/:id/fail2ban/disable" "stackH.fail2banDisable" [Auth; Admin];
  POST "/api/v1/servers/:id/bot-blocker/manage" "stackH.botBlockerManage" [Auth; Admin];
  GET "/api/v1/servers/:id/specs" "stackH.serverSpecs" [Auth];
  GET "/api/v1/servers/:id/benchmark" "stackH.serverBenchmark" [Auth; Admin] ].

Definition plan_routes : list route := [
  GET "/api/v1/plans" "planH.listPlans" [Auth];
  POST "/api/v1/plans" "planH.createPlan" [Auth; Admin];
  GET "/api/v1/plans/:id" "planH.getPlan" [Auth];
  PATCH "/api/v1/plans/:id" "planH.updatePlan" [Auth; Admin];
  DELETE "/api/v1/plans/:id" "planH.deletePlan" [Auth; Admin];
  GET "/api/v1/orders" "orderH.listOrders" [Auth];
  POST "/api/v1/orders" "orderH.createOrder" [Auth];
  GET "/api/v1/orders/:id" "orderH.getOrder" [Auth];
  PATCH "/api/v1/orders/:id" "orderH.updateOrderStatus" [Auth; Admin];
  POST "/api/v1/users/:id/assign-plan" "uh.assignPlan" [Auth; Admin] ].

(** [member.RegisterRoutes], which the panel calls only when the members' database is
    configured. *)
Definition member_routes : list route := [
  POST "/api/v1/member/register" "member.Register" [];
  POST "/api/v1/member/login" "member.Login" [];
  GET "/api/v1/member/me" "member.Me" [MemberAuth];
  PUT "/api/v1/member/plan" "member.UpdatePlan" [MemberAuth] ].

Definition NewRouter : list route :=
  public_routes ++ account_routes ++ member_routes ++ server_routes ++ site_routes ++ access_routes ++ file_routes ++
  backup_routes ++ panel_routes ++ database_routes ++ fleet_routes ++ license_routes ++ stack_routes ++
  security_routes ++ plan_routes.

(** * What the middlewares of a route let through *)

Section Access.
Context {D : Type} `{HU : Has user_row D} `{HSE : Has session_row D} `{HTK : Has token_row D}.
Context (HashToken : string → string).
(** The limiters and the members' authentication. *)
Context (other : guard → middleware (D := D)).

Definition guard_middleware (r : request) (g : guard) : middleware (D := D) :=
  match g with
  | Auth => RequireAuth HashToken r
  | Admin => RequireAdmin
  | UserSession => RequireUserSession
  | _ => other g
  end.
(** [e.METHOD(path, handler, guards...)]. *)
Definition serve (rt : route) (h : handler (D := D)) (r : request) : M D reply :=
  chain (map (guard_middleware r) (r_guards rt)) h no_context.

(** ** Facts *)

Definition has_guard (g : guard) (rt : route) : bool := bool_decide (g ∈ r_guards rt).

(** The token of the request is known, at [w], to belong to [c]. *)
Definition granted (r : request) (w : world D) (c : context) : Prop :=
  ∃ token, request_token r = inl token ∧
    ((∃ t, service_grant HashToken (clock w) token t (data w) ∧
           c_session c = Some (token_session t) ∧ c_user_id c = Some 0 ∧ c_scopes c = Some (tk_scopes t)) ∨
     (∃ s, session_grant HashToken (clock w) token s (data w) ∧
           c_session c = Some s ∧ c_user_id c = Some (se_user s) ∧ c_scopes c = None)).

(** Nothing but the time a service token was last used may have changed. *)
Definition only_noted (w : world D) (d : D) : Prop := d = data w ∨ ∃ t, d = noted t (clock w) (data w).

Definition refused (w : world D) (rep : reply) (w' : world D) : Prop :=
  (∃ s m, rep = HTTPError s m ∧ (s = 401 ∨ s = 403 ∨ s = 500)) ∧ only_noted w (data w').
(** The handler ran, for a context in [P]. *)
Definition admitted (h : handler (D := D)) (P : context → D → Prop) (w : world D) (rep : reply) (w' : world D) : Prop :=
  ∃ c d, only_noted w d ∧ P c d ∧ reached h c d w rep w'.

Lemma reached_wp (next : handler (D := D)) c d w rep w' (Q : reply → world D → Prop) :
  reached next c d w rep w' → (∀ fs, wp (next c) Q (World d (clock w) fs)) → Q rep w'.
Proof. intros (fs & E) H. specialize (H fs). unfold wp in H. by rewrite E in H. Qed.

(** Behind [RequireAuth], the rest of the chain runs for a granted context only. *)
Lemma after_auth (r : request) (next : handler (D := D)) (w : world D) (Q : reply → world D → Prop) :
  (∀ rep w', refused w rep w' → Q rep w') →
  (∀ c d fs, granted r w c → only_noted w d → wp (next c) Q (World d (clock w) fs)) →
  wp (RequireAuth HashToken r next no_context) Q w.
Proof.
  intros Hr Hn. eapply wp_mono; [|apply auth_outcome_lemma]. intros rep w' [(s & m & -> & Hs & Hd)|(token & Et & [Hc|Hc])].
  - apply Hr. split; [exists s, m; tauto|by left].
  - destruct Hc as (t & Hg & [Hc|Hc]); eapply reached_wp; try exact Hc; intros fs; apply Hn;
      try (exists token; split; [done|]; left; by exists t); [right; by exists t|by left].
  - destruct Hc as (s & Hg & Hc). eapply reached_wp; [exact Hc|]. intros fs. apply Hn; [|by left].
    exists token. split; [done|]. right. by exists s.
Qed.

(** The caller has the rights of an admin: a service token with such a scope, or a session
    of a user with such a role. *)
Definition has_role (required : string) (c : context) (d : D) : Prop :=
  ∃ s, c_session c = Some s ∧
    ((se_user s = 0 ∧ ∃ scopes, c_scopes c = Some scopes ∧ serviceTokenHasScope scopes required = true) ∨
     (se_user s ≠ 0 ∧ ∃ u, In u (t_rows (tab (A := user_row) d)) ∧ u_id u = se_user s ∧ HasRole (u_role u) required = true)).

Lemma after_role (required : string) (next : handler (D := D)) (c : context) (d : D) (n : Z) fs (Q : reply → world D → Prop) :
  (∀ s m fs', s = 401 ∨ s = 403 → Q (HTTPError s m) (World d n fs')) →
  (∀ role fs', has_role required c d → wp (next (with_role role c)) Q (World d n fs')) →
  wp (RequireRole required next c) Q (World d n fs).
Proof.
  intros Hr Hn. unfold RequireRole. destruct (c_session c) as [s|] eqn:Ec; [|wp_step; auto].
  destruct (Z.eqb_spec (se_user s) 0) as [Hs|Hs].
  - destruct (default "" (c_scopes c) =? "")%string eqn:Ee; [wp_step; auto|].
    destruct (serviceTokenHasScope _ _) eqn:Es; cbn [negb]; [|wp_step; auto]. apply Hn. exists s. split; [done|]. left.
    split; [done|]. destruct (c_scopes c) as [scopes|]; [by exists scopes|done].
  - unfold Users.GetByID, Users.scan_query. wp_step. wp_step. wp_step; cbn [data clock]; [wp_step; auto|].
    destruct (get_row _ _) as [u|] eqn:Eu; [|wp_step; auto].
    destruct (HasRole (u_role u) required) eqn:Eh; cbn [negb]; [|wp_step; auto]. apply Hn. exists s. split; [done|]. right.
    split; [done|]. exists u. split; [by apply find_in in Eu as [? _]|]. split; [|done]. by apply get_row_id in Eu.
Qed.

Definition open_paths : list (string * string) := [
  ("GET", "/health"); ("GET", "/api/v1/health"); ("GET", "/api/v1/version"); ("POST", "/api/v1/auth/login");
  ("POST", "/api/v1/auth/register"); ("POST", "/api/v1/member/register"); ("POST", "/api/v1/member/login");
  ("GET", "/api/v1/member/me"); ("PUT", "/api/v1/member/plan"); ("GET", "/api/v1/ws/terminal");
  ("POST", "/api/v1/webhooks/deploy/:site_id"); ("POST", "/api/v1/agents/register"); ("GET", "/api/v1/agents/install");
  ("GET", "/api/v1/agents/status-dashboard")].

(** In every route the token is looked at first, and roles only after it. *)
Definition well_guarded (rt : route) : bool :=
  if decide (r_guards rt = [Auth]) then true
  else if decide (r_guards rt = [Auth; Admin]) then true
  else if decide (r_guards rt = [Auth; UserSession]) then true
  else if decide (r_guards rt = [Auth; Admin; UserSession]) then true
  else bool_decide ((r_method rt, r_path rt) ∈ open_paths) && negb (has_guard Admin rt).

Lemma all_guarded (rt : route) : In rt NewRouter → well_guarded rt = true.
Proof. assert (forallb well_guarded NewRouter = true) as H by (vm_compute; reflexivity). rewrite forallb_forall in H. apply H. Qed.

Definition outcome (h : handler (D := D)) (P : context → D → Prop) (w : world D) (rep : reply) (w' : world D) : Prop :=
  refused w rep w' ∨ admitted h P w rep w'.

Lemma let_in (h : handler (D := D)) (P : context → D → Prop) (w : world D) c d fs :
  only_noted w d → P c d → wp (h c) (outcome h P w) (World d (clock w) fs).
Proof.
  intros Hd Hp. unfold wp. destruct (h c _) as [rep w'] eqn:E. right. exists c, d. split; [done|]. split; [done|]. by exists fs.
Qed.

Lemma refuse (h : handler (D := D)) (P : context → D → Prop) (w : world D) s m d fs :
  only_noted w d → s = 401 ∨ s = 403 → outcome h P w (HTTPError s m) (World d (clock w) fs).
Proof. intros Hd Hs. left. split; [|done]. exists s, m. split; [done|]. destruct Hs; auto. Qed.

(** [RequireUserSession] behind [RequireAuth]. *)
Lemma after_session (h : handler (D := D)) (P : context → D → Prop) (w : world D) c d fs :
  only_noted w d → P c d → wp (RequireUserSession h c) (outcome h P w) (World d (clock w) fs).
Proof.
  intros Hd Hp. unfold RequireUserSession. destruct (c_session c) as [s|]; [|by apply refuse; [|left]].
  destruct (se_user s =? 0); [by apply refuse; [|right]|by apply let_in].
Qed.

(** C6: the routes that a caller without a token can reach are the health checks, the
    version, login and registration, the members' portal, the terminal's websocket, the
    deploy webhook and the registration, script and dashboard of the agents.  On every
    other route the handler only ever runs for a context built from a service token that
    has not expired or a session that is neither revoked nor expired, whose key is the
    hash of the request's token; anyone else gets a 401, a 403 or a 500, and nothing has
    changed but the time a service token was last used. *)
Theorem route_access (rt : route) (h : handler (D := D)) (r : request) (w : world D)
    (Hin : In rt NewRouter) (Ho : (r_method rt, r_path rt) ∉ open_paths) :
  wp (serve rt h r) (outcome h (λ c _, granted r w c) w) w.
Proof.
  apply all_guarded in Hin. unfold well_guarded in Hin. unfold serve.
  repeat (destruct (decide _) as [->|_]; [|]); cbn [map chain fold_right guard_middleware].
  5: by bool_hyps.
  all: apply after_auth; [by left|]; intros c d fs Hg Hd.
  - by apply let_in.
  - apply after_role; [intros; by apply refuse|]. intros role fs' _. by apply let_in.
  - by apply after_session.
  - apply after_role; [intros; by apply refuse|]. intros role fs' _. by apply after_session.
Qed.

(** C7: on every route marked for admins, the handler only runs for a session of a user whose
    role is admin or super admin, or a service token whose scopes name admin or "*"; the
    role is read from the database, not from the token. *)
Theorem admin_access (rt : route) (h : handler (D := D)) (r : request) (w : world D)
    (Hin : In rt NewRouter) (Ha : has_guard Admin rt = true) :
  wp (serve rt h r) (outcome h (λ c d, granted r w c ∧ has_role RoleAdmin c d) w) w.
Proof.
  apply all_guarded in Hin. unfold well_guarded in Hin. rewrite Ha, andb_false_r in Hin. unfold has_guard in Ha. unfold serve.
  repeat (destruct (decide _) as [E|_]; [rewrite E in *; clear E|]); try done; try (by vm_compute in Ha);
    cbn [map chain fold_right guard_middleware].
  - apply after_auth; [by left|]. intros c d fs Hg Hd.
    apply after_role; [intros; by apply refuse|]. intros role fs' Hr. by apply let_in.
  - apply after_auth; [by left|]. intros c d fs Hg Hd.
    apply after_role; [intros; by apply refuse|]. intros role fs' Hr. by apply after_session.
Qed.
End Access.

(** * Witnesses *)

Definition some_token : string := join "" (repeat "0123456789abcdef" 4).
Definition with_token (token : string) : request :=
  mkRequest "POST" "/" (λ k, if (k =? "Authorization")%string then "Bearer " +:+ token else "") (λ _, None)
    (λ _, "") "10.0.0.1" "10.0.0.1:5000".
(** Two users, the second with a session until second 1000. *)
Definition door_db (role : string) : db :=
  set_tab (Table [SessionRow 1 2 some_token 1000 0 None None] 1)
    (set_tab (Table [sample_user 1 "root" RoleSuperAdmin; sample_user 2 "ann" role] 2) empty_db).
Definition no_other (g : guard) : middleware (D := db) := λ next, next.
Definition answer : handler (D := db) := λ c, mret (Success 200 (JInt (default 0 (c_user_id c)))).

Definition servers_list : route := GET "/api/v1/servers" "sh.list" [Auth].
Definition servers_create : route := POST "/api/v1/servers" "sh.create" [Auth; Admin].
Lemma route_access_witness :
  let go r := (serve id no_other servers_list answer r (World (door_db RoleUser) 0 [])).1 in
  go (with_token some_token) = Success 200 (JInt 2) ∧
  go (with_token "x") = HTTPError 401 "invalid token" ∧
  wp (serve id no_other servers_list answer (with_token some_token))
     (outcome answer (λ c _, granted id (with_token some_token) (World (door_db RoleUser) 0 []) c) (World (door_db RoleUser) 0 []))
     (World (door_db RoleUser) 0 []).
Proof.
  split; [vm_compute; reflexivity|]. split; [vm_compute; reflexivity|].
  apply (route_access id no_other servers_list answer (with_token some_token) (World (door_db RoleUser) 0 [])).
  - vm_compute; tauto.
  - apply (bool_decide_unpack _); vm_compute; exact I.
Defined.

Lemma admin_access_witness :
  let go role := (serve id no_other servers_create answer (with_token some_token) (World (door_db role) 0 [])).1 in
  go RoleUser = HTTPError 403 "insufficient permissions" ∧ go RoleAdmin = Success 200 (JInt 2) ∧
  wp (serve id no_other servers_create answer (with_token some_token))
     (outcome answer (λ c d, granted id (with_token some_token) (World (door_db RoleAdmin) 0 []) c ∧ has_role RoleAdmin c d)
        (World (door_db RoleAdmin) 0 []))
     (World (door_db RoleAdmin) 0 []).
Proof.
  split; [vm_compute; reflexivity|]. split; [vm_compute; reflexivity|].
  apply (admin_access id no_other servers_create answer (with_token some_token) (World (door_db RoleAdmin) 0 [])).
  - vm_compute; tauto.
  - vm_compute; reflexivity.
Defined.
