(* ===== verification/SitesApi.v ===== *)
(** The API of the sites: src/internal/apihttp/sites.go, with src/internal/cloudflare/domain.go.
    A request body that [c.Bind] refuses is [None]. *)
From S2P Require Import Prelude GoStr Regex SiteInput Json Cron Clock Sql JobStore Accounts Sites Backups Servers BackupPlan Secrets Records Plans Extras Panel Agent Guards Http Access.
Local Open Scope Z_scope.
Local Open Scope panel_scope.

Set Default Proof Using "Type".

(** * domain.go *)

Definition multiTLD : list string := [
  "co.uk"; "org.uk"; "ac.uk"; "gov.uk"; "net.uk"; "me.uk"; "ltd.uk"; "plc.uk"; "com.au"; "net.au"; "org.au"; "edu.au";
  "gov.au"; "co.nz"; "net.nz"; "org.nz"; "co.jp"; "ne.jp"; "or.jp"; "co.kr"; "or.kr"; "ne.kr"; "com.br"; "org.br";
  "net.br"; "com.cn"; "net.cn"; "org.cn"; "co.in"; "net.in"; "org.in"; "gen.in"; "com.mx"; "org.mx"; "co.za"; "org.za";
  "net.za"; "gov.za"; "co.il"; "org.il"; "ac.il"; "gov.il"; "com.sg"; "org.sg"; "edu.sg"; "gov.sg"; "com.hk"; "org.hk";
  "edu.hk"; "gov.hk"; "com.ar"; "org.ar"; "co.th"; "or.th"; "go.th"; "com.tr"; "org.tr"; "net.tr"; "gov.tr"].
Definition last_parts (n : nat) (parts : list string) : string := join "." (drop (length parts - n) parts).
Definition RootDomain (domain0 : string) : string :=
  let domain := trim_space (to_lower domain0) in
  let parts := split "." domain in
  let n := length parts in
  if (n <? 2)%nat then domain
  else if (3 <=? n)%nat && str_in multiTLD (last_parts 2 parts) then
    if (4 <=? n)%nat then last_parts 3 parts else domain
  else last_parts 2 parts.

(** A zone of Cloudflare: its id and its name. *)
Record zone := mkZone { zone_id : string; zone_name : string }.
Definition FindMatchingZone (zones : list zone) (domain0 : string) : option zone :=
  let domain := trim_space (to_lower domain0) in
  List.find (λ z, has_suffix domain (zone_name z) || (domain =? zone_name z)%string) zones.

(** Cloudflare's API under a token and an email (src/internal/cloudflare/client.go): the
    zones, the A records of a zone as id and name, and the id of a record made for a name
    and an address. *)
Class DNS := {
  ListZones : string → string → res (list zone);
  CreateDNSRecord : string → string → string → string → string → res string }.

(** * sites.go *)

Definition siteNameRegex : re := Rep (Cls (λ c, is_alnum c || chr_in "_- " c)) 1 64.
(** The pattern is the one of siteinput.go. *)
Definition domainRegex : re := domainRe.
Definition allowedRuntimes : list string := ["static"; "php"; "node"; "go"; "python"; "proxy"; "docker"].

Definition TypeSiteDelete := "site.delete".
Definition TypeSiteDeploy := "site.deploy".
Definition TypeNginxReload := "nginx.reload".
Definition TypeDatabaseDelete := "database.delete".

(** [sql.NullString] and [sql.NullInt64] as [encoding/json] prints the structs. *)
Definition NullString (o : option string) : json := JObj [("String", JStr (default "" o)); ("Valid", JBool (bool_decide (o ≠ None)))].
Definition NullInt64 (o : option Z) : json := JObj [("Int64", JInt (default 0 o)); ("Valid", JBool (bool_decide (o ≠ None)))].

Definition opt_str (k : string) (o : option string) : list (string * json) := match o with Some s => [(k, JStr s)] | None => [] end.
Definition opt_int (k : string) (o : option Z) : list (string * json) := match o with Some n => [(k, JInt n)] | None => [] end.
Definition siteToMap (s : site_row) : json := JObj (
  [("id", JInt (s_id s)); ("server_id", JInt (s_server s)); ("name", JStr (s_name s)); ("domain", JStr (s_domain s));
   ("runtime", JStr (s_runtime s)); ("root_path", JStr (s_root_path s)); ("status", JStr (s_status s));
   ("created_at", JSeconds (s_created s)); ("updated_at", JSeconds (s_updated s))] ++
  opt_int "owner_id" (s_owner s) ++ opt_str "git_repo" (s_git_repo s) ++ opt_str "git_branch" (s_git_branch s) ++
  opt_str "git_commit" (s_git_commit s) ++ opt_str "managed_by" (s_managed_by s) ++ opt_str "system_user" (s_system_user s) ++
  opt_str "conf_file" (s_conf_file s) ++ opt_str "proxy_pass_url" (s_proxy_pass_url s) ++ opt_int "app_port" (s_app_port s) ++
  opt_str "app_command" (s_app_command s) ++ opt_str "app_status" (s_app_status s) ++
  opt_int "app_memory_max" (s_app_memory_max s) ++ opt_str "php_version" (s_php_version s) ++ opt_str "php_ini" (s_php_ini s) ++
  opt_int "backup_provider_id" (s_backup_provider s) ++ opt_str "ssl_status" (s_ssl_status s) ++
  opt_str "ssl_issuer" (s_ssl_issuer s) ++
  match s_ssl_expires s with Some t => [("ssl_expires_at", JTime t)] | None => [] end).

Definition defaultSiteRootPath (username domain : string) : string :=
  "/home/" +:+ (if (username =? "")%string then domain else username) +:+ "/htdocs/" +:+ domain.

(** The query parameters of the list; an absent one is empty. *)
Record list_query := mkListQuery {
  q_server : string; q_owner : string; q_runtime : string; q_status : string; q_search : string; q_limit : string; q_offset : string }.
Definition query_int (ok : Z → bool) (s : string) : Z :=
  if (s =? "")%string then 0 else let '(n, valid) := atoi s in if valid && ok n then n else 0.
Definition list_filter (q : list_query) : SiteListFilter :=
  mkSiteListFilter (query_int (λ _, true) (q_server q)) (query_int (Z.ltb 0) (q_owner q)) (q_runtime q) (q_status q) (q_search q)
    (query_int (Z.ltb 0) (q_limit q)) (query_int (Z.leb 0) (q_offset q)).
Definition set_owner_filter (owner : Z) (f : SiteListFilter) : SiteListFilter :=
  mkSiteListFilter (sf_server f) owner (sf_runtime f) (sf_status f) (sf_search f) (sf_limit f) (sf_offset f).

(** The body of a new site. *)
Record site_body := mkSiteBody {
  sb_server : Z; sb_name : string; sb_domain : string; sb_runtime : string; sb_root : string; sb_managed : string;
  sb_user : string; sb_conf : string; sb_proxy : string; sb_php : string; sb_image : string; sb_language : string;
  sb_docker_name : string; sb_ports : string; sb_env : string; sb_volume : string; sb_restart : string }.
Definition trim_body (b : site_body) : site_body :=
  let managed := trim_space (to_lower (sb_managed b)) in
  mkSiteBody (sb_server b) (trim_space (sb_name b)) (trim_space (to_lower (sb_domain b))) (trim_space (to_lower (sb_runtime b)))
    (trim_space (sb_root b)) (if (managed =? "")%string then "sigardapanel" else managed) (trim_space (sb_user b))
    (trim_space (sb_conf b)) (trim_space (sb_proxy b)) (trim_space (sb_php b)) (sb_image b) (sb_language b)
    (sb_docker_name b) (sb_ports b) (sb_env b) (sb_volume b) (sb_restart b).
Definition set_place (root user conf : string) (b : site_body) : site_body :=
  mkSiteBody (sb_server b) (sb_name b) (sb_domain b) (sb_runtime b) root (sb_managed b) user conf (sb_proxy b) (sb_php b)
    (sb_image b) (sb_language b) (sb_docker_name b) (sb_ports b) (sb_env b) (sb_volume b) (sb_restart b).

(** The command of an app runtime. *)
Definition app_command (runtime : string) : option string :=
  if (runtime =? "node")%string then Some "node server.js" else if (runtime =? "go")%string then Some "./app"
  else if (runtime =? "python")%string then Some "python3 app.py" else None.

Definition site_of_body (userID : Z) (b : site_body) (app : option (Z * string)) : SiteInput :=
  mkSite (sb_server b) (sb_name b) (sb_domain b) (sb_runtime b) (sb_root b) "pending"
    (if 0 <? userID then Some userID else None) None (Some (sb_managed b)) (null_if_empty (sb_user b))
    (null_if_empty (sb_conf b)) (null_if_empty (sb_proxy b))
    (fst <$> app) (snd <$> app) (match app with Some _ => Some "stopped" | None => None end) None
    (null_if_empty (sb_php b)) None.

Definition create_payload (siteID port : Z) (b : site_body) : string :=
  marshal_map [("site_id", JInt siteID); ("name", JStr (sb_name b)); ("domain", JStr (sb_domain b)); ("runtime", JStr (sb_runtime b));
    ("root_path", JStr (sb_root b)); ("port", JInt port); ("proxy_pass_url", JStr (sb_proxy b)); ("php_version", JStr (sb_php b));
    ("docker_image", JStr (sb_image b)); ("docker_language", JStr (sb_language b)); ("docker_name", JStr (sb_docker_name b));
    ("docker_ports", JStr (sb_ports b)); ("docker_env", JStr (sb_env b)); ("docker_volume", JStr (sb_volume b));
    ("docker_restart", JStr (sb_restart b))].

(** A job of a site, for its server. *)
Definition job_of (server site : Z) (type descr payload : string) : Job :=
  mkJob 0 (Some server) (Some site) type StatusQueued payload "" "" descr 0 0 0 0 None None None.


Section SitesApi.
Context `{HC : PayloadCipher} `{HDNS : DNS}.
(** As in Sites.v: SQLite's LIKE, the free ports of the host and [auth.NewToken]. *)
Context (like : string → string → bool) (os_free : Z → bool) (NewToken : res string).

Notation handler := (handler (D := db)).

(** ** Reading *)

(** The sites granted to the caller that are not in the list yet. *)
Fixpoint add_assigned (owned : list Z) (l : list UserSite) : M db (list site_row) :=
  match l with
  | [] => mret []
  | u :: l' =>
      if existsb (Z.eqb (us_site (us_grant u))) owned then add_assigned owned l'
      else
        let* s := Sites.GetByID (us_site (us_grant u)) in
        let* rest := add_assigned owned l' in
        mret match s with Ok (Some site) => site :: rest | _ => rest end
  end.
Definition list_reply (sites : list site_row) : reply :=
  let n := Z.of_nat (length sites) in
  Success 200 (JObj [("sites", JArr (map siteToMap sites)); ("count", JInt n); ("total_count", JInt n)]).
Definition list_sites (q : list_query) : handler := λ c,
  let* _ := isAdmin c in
  let* super := isSuperAdmin c in
  let filter := match c_session c with
                | Some sess => if super : bool then list_filter q else set_owner_filter (se_user sess) (list_filter q)
                | None => list_filter q
                end in
  let* sites := Sites.List like filter in
  match sites with
  | Err _ => mret internal
  | Ok sites =>
      match c_session c with
      | Some sess =>
          if super then mret (list_reply sites)
          else
            let* assigned := ListByUser (se_user sess) in
            match assigned with
            | Ok l => let* more := add_assigned (map s_id sites) l in mret (list_reply (sites ++ more))
            | Err _ => mret (list_reply sites)
            end
      | None => mret (list_reply sites)
      end
  end.

Definition get_site (id : string) : handler := λ c,
  with_site "invalid id" internal id (λ _ site, if_accessible c site (mret (Success 200 (siteToMap site)))).

(** ** Creating *)

(** [requester]: the caller's row, absent when there is none or the read failed. *)
Definition find_user (userID : Z) : M db (option user_row) :=
  if 0 <? userID then
    let* u := Users.GetByID userID in mret match u with Ok o => o | Err _ => None end
  else mret None.

Definition is_privileged (requester : option user_row) : bool :=
  match requester with Some u => HasRole (u_role u) RoleAdmin | None => false end.
(** The system user and the place of the site; an error carries its status. *)
Definition place_site (requester : option user_row) (b : site_body) : site_body + reply :=
  if is_privileged requester then
    let user := if (sb_user b =? "")%string then match requester with Some u => u_username u | None => "" end else sb_user b in
    if is_nil (SiteInput.SystemUser user) then inl (set_place (sb_root b) user (sb_conf b) b)
    else inr (HTTPError 400 "invalid system_user")
  else
    let home := match requester with Some u => "/home/" +:+ u_username u +:+ "/" | None => "/home/" end in
    let user := match requester with
                | Some u => if is_nil (SiteInput.SystemUser (u_username u)) then u_username u else ""
                | None => ""
                end in
    if negb (has_prefix (sb_root b) home) then inr (HTTPError 403 "root_path must be inside your home directory")
    else inl (set_place (sb_root b) user (sb_conf b) b).

(** The checks of the body before the database is asked: the place, the options, and
    [conf_file], which only administrators set. *)
Definition check_options (b : site_body) : error :=
  try unless_empty SiteInput.ProxyPassURL (sb_proxy b) ;;
  try unless_empty SiteInput.PHPVersion (sb_php b) ;;
  try (if (sb_runtime b =? "docker")%string
       then DockerOptions (sb_image b) (sb_docker_name b) (sb_ports b) (sb_env b) (sb_volume b) (sb_restart b)
              (sb_language b) (sb_root b) else nil_error) ;;
  if str_in ["sigardapanel"; "cloudpanel"; "external"] (sb_managed b) then nil_error else errorf "invalid managed_by".

Definition check_fields (b : site_body) : error :=
  if sb_server b <=? 0 then errorf "server_id required"
  else if negb (re_match siteNameRegex (sb_name b)) then errorf "invalid name (1-64 chars, alphanumeric/_- )"
  else if negb (re_match domainRegex (sb_domain b)) then errorf "invalid domain"
  else if negb (str_in allowedRuntimes (sb_runtime b)) then errorf "invalid runtime" else nil_error.

(** The quota of the owner: [None] when another site fits. *)
Definition check_quota (userID : Z) : M db (option reply) :=
  if 0 <? userID then
    let* o := Users.GetByID userID in
    match o with
    | Err _ => mret (Some internal)
    | Ok owner =>
        match match owner with Some u => u_max_sites u | None => None end with
        | Some max =>
            let* n := Sites.CountByOwner userID in
            mret match n with
                 | Err _ => Some internal
                 | Ok count => if max <=? count
                               then Some (HTTPError 403 ("max sites limit reached (" +:+ itoa count +:+ "/" +:+ itoa max +:+ ")"))
                               else None
                 end
        | None => mret None
        end
    end
  else mret None.

(** The port and the command of an app. *)
Definition assign_app (b : site_body) : M db (option (Z * string) + reply) :=
  match app_command (sb_runtime b) with
  | Some cmd =>
      let* p := Sites.FindFreePort os_free 30000 40000 in
      mret match p with
           | Ok port => inl (if 0 <? port then Some (port, cmd) else None)
           | Err _ => inr (HTTPError 500 "no available port")
           end
  | None => mret (if (sb_runtime b =? "proxy")%string && (sb_proxy b =? "")%string
                  then inr (HTTPError 400 "proxy_pass_url required for proxy runtime") else inl None)
  end.

(** The record for the new domain at Cloudflare, when the caller has a token: what the
    answer says about it. *)
Definition dns_state (provisioned : bool) (zone record error : string) : json :=
  JObj [("provisioned", JBool provisioned); ("zone", JStr zone); ("record_id", JStr record); ("error", JStr error)].
Definition provision_dns (token email domain : string) (ip : option string) : json :=
  match ListZones token email with
  | Err e => dns_state false "" "" ("failed to list zones: " +:+ e)
  | Ok zones =>
      match FindMatchingZone zones (RootDomain domain) with
      | None => dns_state false "" "" ("no Cloudflare zone found for " +:+ RootDomain domain)
      | Some z =>
          let ip := default "" ip in
          if (ip =? "")%string then dns_state false "" "" "server has no IP address"
          else
            let suffix := "." +:+ zone_name z in
            let sub := if has_suffix domain suffix then str_take (String.length domain - String.length suffix) domain else domain in
            let name := if (sub =? "")%string || (sub =? domain)%string then "@" else domain in
            match CreateDNSRecord token email (zone_id z) name ip with
            | Err e => dns_state false "" "" e
            | Ok record => dns_state true (zone_name z) record ""
            end
      end
  end.

Definition created_reply (site : site_row) (jobID : Z) (dns : option json) : reply :=
  Success 201 (JObj ([("site", siteToMap site);
    ("job", JObj [("id", JInt jobID); ("type", JStr TypeSiteCreate); ("status", JStr StatusQueued)])] ++
    match dns with Some v => [("cloudflare_dns", v)] | None => [] end)).

(** The rows of the new site: the site, its job, the audit entry, the notifications. *)
Definition store_site (userID : Z) (b : site_body) (server : server_row) (app : option (Z * string)) : M db reply :=
  let input := site_of_body userID b app in
  let* r := Sites.Create input in
  match r with
  | Err _ => mret internal
  | Ok id =>
      let* j := JobStore.Create (job_of (sb_server b) id TypeSiteCreate ("Create site " +:+ sb_domain b)
                  (create_payload id (default 0 (fst <$> app)) b)) in
      match j with
      | Err _ => mret internal
      | Ok jobID =>
          let* _ := Audit.RecordAction userID "site_create" "site" id
            (Some (JObj [("domain", JStr (sb_domain b)); ("runtime", JStr (sb_runtime b)); ("server_id", JInt (sb_server b))])) in
          let* _ := NotifyAdmins "site_created" "Site Created" (sb_domain b +:+ " created") "info" "site" id in
          let* cfg := Cloudflare.GetConfig userID in
          let dns := match cfg with
                     | Ok k => if (Cloudflare.APIToken k =? "")%string then None
                               else Some (provision_dns (Cloudflare.APIToken k) (Cloudflare.Email k) (sb_domain b) (sv_ip server))
                     | Err _ => None
                     end in
          mret (created_reply (new_site input (zero_time * 1000000000) id) jobID dns)
      end
  end.

Definition insert_site (userID : Z) (b : site_body) : M db reply :=
  let* sv := Servers.GetByID (sb_server b) in
  match sv with
  | Err _ => mret internal
  | Ok None => mret (HTTPError 400 "server not found")
  | Ok (Some server) =>
      let* q := check_quota userID in
      match q with
      | Some rep => mret rep
      | None =>
          let* e := Sites.GetByDomain (sb_domain b) in
          match e with
          | Err _ => mret internal
          | Ok (Some _) => mret (HTTPError 409 "domain already exists")
          | Ok None =>
              let* a := assign_app b in
              match a with
              | inr rep => mret rep
              | inl app => store_site userID b server app
              end
          end
      end
  end.

Definition create_site (body : option site_body) : handler := λ c,
  let userID := caller c in
  match body with
  | None => mret (HTTPError 400 "invalid request body")
  | Some b0 =>
      let b := trim_body b0 in
      match check_fields b with
      | Some m => mret (HTTPError 400 m)
      | None =>
          let* root := if (sb_root b =? "")%string then
                         let* o := find_user userID in
                         mret (defaultSiteRootPath match o with Some u => u_username u | None => "" end (sb_domain b))
                       else mret (sb_root b) in
          if negb (is_nil (RootPathAllowed root)) then mret (HTTPError 400 "invalid root_path") else
          let* requester := find_user userID in
          match place_site requester (set_place root (sb_user b) (sb_conf b) b) with
          | inr rep => mret rep
          | inl b =>
              match check_options b with
              | Some m => mret (HTTPError 400 m)
              | None =>
                  insert_site userID
                    (if is_privileged requester then b else set_place (sb_root b) (sb_user b) "" b)
              end
          end
      end
  end.

(** ** Deleting *)

(** The MySQL database itself is dropped through the default server, whose outcome is only
    logged. *)
Definition database_delete_payload (db : database_row) : string :=
  String "{" (String DQ "database_id") +:+ String DQ ":" +:+ itoa (db_id db) +:+ "," +:+ String DQ "site_id" +:+ String DQ ":" +:+
  itoa (db_site db) +:+ "," +:+ String DQ "name" +:+ String DQ ":" +:+ go_quote (db_name db) +:+ "," +:+
  String DQ "type" +:+ String DQ ":" +:+ go_quote (db_type db) +:+ "}".
Definition drop_database (site : site_row) (db : database_row) : M Panel.db () :=
  let* _ := if (db_type db =? "mysql")%string then
              let* _ := DBServer.GetDefault in
              let* _ := JobStore.Create (job_of (s_server site) (s_id site) TypeDatabaseDelete
                          ("Delete database " +:+ db_name db +:+ " (site removal)") (database_delete_payload db)) in
              mret ()
            else mret () in
  let* _ := Databases.Delete (db_id db) in mret ().

Definition delete_payload (site : site_row) : string :=
  marshal_map [("site_id", JInt (s_id site)); ("domain", JStr (s_domain site)); ("root_path", JStr (s_root_path site))].
(** The DNS record at Cloudflare is deleted too; only the read of the caller's token is
    seen here. *)
Definition remove_site (userID id : Z) (site : site_row) : M db reply :=
  let* dbs := Databases.ListBySite id in
  let* _ := mfor (match dbs with Ok l => l | Err _ => [] end) (drop_database site) in
  let* _ := Sites.ClearAppPort id in
  let* _ := Cloudflare.GetConfig userID in
  let* j := JobStore.Create (job_of (s_server site) (s_id site) TypeSiteDelete ("Delete site " +:+ s_domain site) (delete_payload site)) in
  match j with
  | Err _ => mret internal
  | Ok jobID =>
      let* _ := NotifyAdmins "site_deleted" "Site Deleted" (s_domain site +:+ " deleted") "warning" "site" id in
      let* r := Sites.Delete id in
      match r with
      | Err _ => mret internal
      | Ok _ =>
          let* _ := Audit.RecordAction userID "site_delete" "site" id (Some (JObj [("domain", JStr (s_domain site))])) in
          mret (Success 200 (JObj [("site_id", JInt id); ("job_id", JInt jobID)]))
      end
  end.
Definition delete_site (id : string) : handler := λ c,
  with_site "invalid id" internal id (λ i site, if_permitted c "admin" site (remove_site (caller c) i site)).

(** ** Deploying *)

Definition branch_of (site : site_row) : string :=
  let b := default "" (s_git_branch site) in if (b =? "")%string then "main" else b.
Definition deploy_payload (site : site_row) : list (string * json) :=
  [("site_id", JInt (s_id site)); ("domain", JStr (s_domain site)); ("root_path", JStr (s_root_path site));
   ("repo", JStr (default "" (s_git_repo site))); ("branch", JStr (branch_of site)); ("runtime", JStr (s_runtime site));
   ("app_status", NullString (s_app_status site)); ("app_port", NullInt64 (s_app_port site));
   ("app_command", NullString (s_app_command site)); ("system_user", NullString (s_system_user site));
   ("app_memory_max", NullInt64 (s_app_memory_max site))].
Definition enqueue (job : Job) (k : Z → M db reply) : M db reply :=
  let* r := JobStore.Create job in
  match r with Err _ => mret internal | Ok jobID => k jobID end.
Definition deploy_site (id : string) : handler := λ c,
  with_site "invalid id" internal id (λ i site, if_permitted c "write" site (
    if (default "" (s_git_repo site) =? "")%string
    then mret (HTTPError 400 "no git repository configured; set git_repo in site config first")
    else
      enqueue (job_of (s_server site) (s_id site) TypeSiteDeploy ("Deploy site " +:+ s_domain site) (marshal_map (deploy_payload site)))
        (λ jobID,
          let* _ := Audit.RecordAction (caller c) "site_deploy" "site" i (Some (JObj [("domain", JStr (s_domain site))])) in
          mret (Success 202 (JObj [("job_id", JInt jobID)]))))).

(** ** Configuring *)

Record config_body := mkConfigBody {
  cb_repo : string; cb_branch : string; cb_proxy : option string; cb_provider : option Z }.
(** The three updates of [updateConfig]: an error is the answer. *)
Definition update_git (i : Z) (b : config_body) : M db (res () + reply) :=
  if (cb_repo b =? "")%string then mret (inl (Ok ()))
  else if negb (has_prefix (cb_repo b) "https://") then mret (inr (HTTPError 400 "git_repo must be an HTTPS URL"))
  else let* r := Sites.UpdateGitConfig i (cb_repo b) (if (cb_branch b =? "")%string then "main" else cb_branch b) in mret (inl r).
Definition update_proxy (i : Z) (b : config_body) : M db (res () + reply) :=
  match cb_proxy b with
  | None => mret (inl (Ok ()))
  | Some url =>
      match unless_empty SiteInput.ProxyPassURL url with
      | Some m => mret (inr (HTTPError 400 m))
      | None => let* r := Sites.UpdateProxyPassURL i url in mret (inl r)
      end
  end.
Definition update_provider (i : Z) (b : config_body) : M db (res () + reply) :=
  match cb_provider b with
  | None => mret (inl (Ok ()))
  | Some p => let* r := Sites.UpdateBackupProvider i (if 0 <? p then Some p else None) in mret (inl r)
  end.
Definition and_then (m : M db (res () + reply)) (k : M db reply) : M db reply :=
  let* r := m in
  match r with
  | inr rep => mret rep
  | inl (Err _) => mret internal
  | inl (Ok _) => k
  end.
(** The secret of a site without one; a site that is gone by then is a nil pointer. *)
Definition finish_config (c : context) (i : Z) : M db reply :=
  let* r := Sites.GetByID i in
  let site := match r with Ok o => o | Err _ => None end in
  let* secret := match site with
                 | Some s => if bool_decide (s_webhook_secret s = None)
                             then let* t := Sites.GenerateWebhookSecret NewToken i in mret match t with Ok t => t | Err _ => "" end
                             else mret ""
                 | None => mret ""
                 end in
  match site with
  | None => mret Panics
  | Some s =>
      let* _ := Audit.RecordAction (caller c) "site_update" "site" i (Some (JObj [("domain", JStr (s_domain s))])) in
      let* _ := NotifySiteUsers i "config_updated" "Config Updated" "Site configuration was updated" "info" "site" i in
      mret (Success 200 (JObj (("ok", JBool true) :: if (secret =? "")%string then [] else [("webhook_secret", JStr secret)])))
  end.
Definition update_config (id : string) (body : option config_body) : handler := λ c,
  with_site "invalid id" internal id (λ i site, if_permitted c "write" site (
    match body with
    | None => mret (HTTPError 400 "invalid request body")
    | Some b => and_then (update_git i b) (and_then (update_proxy i b) (and_then (update_provider i b) (finish_config c i)))
    end)).

Definition reload_payload (site : site_row) : string :=
  String "{" (String DQ "site_id") +:+ String DQ ":" +:+ itoa (s_id site) +:+ "," +:+ String DQ "domain" +:+ String DQ ":" +:+
  go_quote (s_domain site) +:+ "}".
Definition reload_nginx (id : string) : handler := λ c,
  with_site "invalid id" internal id (λ _ site, if_permitted c "admin" site (
    enqueue (job_of (s_server site) (s_id site) TypeNginxReload ("Reload Nginx for " +:+ s_domain site) (reload_payload site))
      (λ jobID,
        let* _ := Audit.RecordAction (caller c) "site_reload_nginx" "site" (s_id site) None in
        mret (Success 202 (JObj [("job_id", JInt jobID); ("status", JStr StatusQueued)]))))).

(** ** Transferring *)

(** Whether the caller may give the site away. *)
Definition may_transfer (role : string) (sess : session_row) (site : site_row) : M db bool :=
  let* byAdmin := match s_owner site with
                  | Some o => if (role =? RoleAdmin)%string then
                                let* u := Users.GetByID o in
                                mret match u with
                                     | Ok (Some owner) => bool_decide (u_created_by owner = Some (se_user sess))
                                     | _ => false
                                     end
                              else mret false
                  | None => mret false
                  end in
  mret ((role =? RoleSuperAdmin)%string || owns sess site || byAdmin).
Definition transfer_site (id : string) (email : option string) : handler := λ c,
  match c_role c, c_session c with
  | Some role, Some sess =>
      match parse_id id, email with
      | None, _ => mret (HTTPError 400 "invalid site id")
      | _, None => mret (HTTPError 400 "invalid request body")
      | Some i, Some email =>
          if (email =? "")%string then mret (HTTPError 400 "new_owner_email required") else
          let* t := Users.GetByEmail email in
          match t with
          | Ok (Some target) =>
              let* s := Sites.GetByID i in
              match s with
              | Err _ => mret internal
              | Ok None => mret not_found
              | Ok (Some site) =>
                  let* ok := may_transfer role sess site in
                  if negb ok then mret (HTTPError 403 "cannot transfer site you do not own")
                  else if u_id target =? se_user sess then mret (HTTPError 400 "cannot transfer to yourself")
                  else
                    let* r := Sites.Transfer i (u_id target) in
                    match r with
                    | Err _ => mret internal
                    | Ok _ =>
                        let from := default 0 (s_owner site) in
                        let* _ := Audit.RecordAction (se_user sess) "transfer" "site" i
                                    (Some (JObj [("from", JInt from); ("to", JInt (u_id target))])) in
                        let* _ := Notify from "site_transferred" "Site Transferred"
                                    ("Transferred " +:+ s_domain site +:+ " to " +:+ u_username target) "info" "site" i in
                        let* _ := Notify (u_id target) "site_received" "Site Received" ("You received " +:+ s_domain site)
                                    "success" "site" i in
                        mret (Success 200 (JObj [("transferred", JBool true); ("site_id", JInt i);
                               ("new_owner_email", JStr email); ("new_owner_id", JInt (u_id target))]))
                    end
              end
          | _ => mret (HTTPError 400 "user not found with that email")
          end
      end
  | _, _ => mret Panics
  end.

(** ** The proxies to the agent *)

(** The HTTP request to an agent (method, URL, token, body): the status and the body of
    the answer; the output of [du -sb] on a directory. *)
Context (agentRequest : string → string → string → option string → res (Z * string)) (du : string → res string).

Definition usage (id : string) : handler := λ c,
  with_site "invalid site id" internal id (λ i site, if_accessible c site (
    let used := if (s_root_path site =? "")%string then 0
                else match du (s_root_path site) with
                     | Err _ => 0
                     | Ok out => let '(sz, ok) := atoi (split2 (byte 9) out).1 in if ok then sz else 0
                     end in
    mret (Success 200 (JObj [("site_id", JInt i); ("domain", JStr (s_domain site)); ("root_path", JStr (s_root_path site));
                             ("disk_used_bytes", JInt used)])))).

(** The site and its server, or the answer that says why not. *)
Definition resolveSiteAndServer (id : string) (c : context) : M db ((site_row * server_row) + reply) :=
  match parse_id id with
  | None => mret (inr (HTTPError 400 "invalid site id"))
  | Some i =>
      let* r := Sites.GetByID i in
      match r with
      | Ok (Some site) =>
          let* ok := canAccess c site in
          if negb ok then mret (inr not_found) else
          let* sv := Servers.GetByID (s_server site) in
          mret match sv with
               | Ok (Some server) =>
                   if (default "" (sv_agent_url server) =? "")%string then inr (HTTPError 400 "agent URL not configured")
                   else if (sv_agent_token server =? "")%string then inr (HTTPError 400 "agent token not configured")
                   else inl (site, server)
               | _ => inr (HTTPError 404 "server not found")
               end
      | _ => mret (inr not_found)
      end
  end.

(** [strings.TrimRight(url, "/")]. *)
Definition trim_slashes (s : string) : string := str_rev (trim_left_chr "/" (str_rev s)).
Definition agent_url (server : server_row) (path : string) : string :=
  trim_slashes (default "" (sv_agent_url server)) +:+ path.
(** [url.QueryEscape]. *)
Definition upper_hex (n : Z) : ascii := byte (Z.to_nat (if n <? 10 then n + 48 else n + 55)).
Definition escape_byte (c : ascii) : string :=
  if is_alnum c || chr_in "-_.~" c then String c "" else if Ascii.eqb c " " then "+"
  else String "%" (String (upper_hex (code c / 16)) (String (upper_hex (code c mod 16)) "")).
Fixpoint QueryEscape (s : string) : string :=
  match s with EmptyString => "" | String c s' => escape_byte c +:+ QueryEscape s' end.

(** The agent's answer, decoded into a map, as the data of the reply. *)
Definition relayed (r : res (Z * string)) : reply :=
  match r with
  | Err _ => HTTPError 502 "agent unreachable"
  | Ok (code, body) => Success code match Unmarshal body with Some (JObj l) => JObj l | _ => JNull end
  end.
Definition with_agent (id : string) (c : context) (k : site_row → server_row → M db reply) : M db reply :=
  let* r := resolveSiteAndServer id c in
  match r with inr rep => mret rep | inl (site, server) => k site server end.

Definition gitBranches (id : string) : handler := λ c,
  with_agent id c (λ site server, mret (relayed
    (agentRequest "GET" (agent_url server ("/tasks/git/branches?root_path=" +:+ QueryEscape (s_root_path site)))
       (sv_agent_token server) None))).
Definition gitLog (id lines : string) : handler := λ c,
  with_agent id c (λ site server,
    let lines := if (lines =? "")%string then "20" else lines in
    mret (relayed (agentRequest "GET" (agent_url server ("/tasks/git/log?root_path=" +:+ QueryEscape (s_root_path site) +:+
                                                         "&lines=" +:+ QueryEscape lines)) (sv_agent_token server) None))).
(** The body as it was sent: one that is no JSON object leaves the map nil, and storing
    into it panics. *)
Definition git_post (path id body : string) : handler := λ c,
  with_agent id c (λ site server,
    mret match Unmarshal body with
         | Some (JObj l) =>
             relayed (agentRequest "POST" (agent_url server path) (sv_agent_token server)
                        (Some (Marshal (JObj (obj_insert "root_path" (JStr (s_root_path site)) l)))))
         | _ => Panics
         end).
Definition gitRollback : string → string → handler := git_post "/tasks/git/rollback".
Definition gitCheckout : string → string → handler := git_post "/tasks/git/checkout".

(** ** Resources of the app *)

(** A site and its server for the two handlers below, which do not ask who the caller is. *)
Definition app_service (siteID : Z) : string := "sigarda-app-" +:+ itoa siteID.
Definition configured_agent (site : site_row) : M db (option server_row) :=
  let* sv := Servers.GetByID (s_server site) in
  mret match sv with
       | Ok (Some server) => if bool_decide (sv_agent_url server = None) || (sv_agent_token server =? "")%string then None else Some server
       | _ => None
       end.
Definition exec_on (server : server_row) (command : string) : res (Z * string) :=
  agentRequest "POST" (agent_url server "/tasks/command/exec") (sv_agent_token server)
    (Some (marshal_map [("command", JStr command)])).
(** The lines [name=value] of the output of systemctl, a later one over an earlier one. *)
Definition resource_map (output : string) : list (string * string) :=
  omap (λ line, match split2 "=" line with
                | (k, Some v) => Some (trim_space k, trim_space v)
                | _ => None
                end) (split LF output).
Definition resource (m : list (string * string)) (k : string) : json :=
  JStr (default "" (assoc k (rev m))).
Definition show_command (svc : string) : string :=
  "systemctl show " +:+ svc +:+ " --property=MemoryCurrent,MemoryMax,CPUUsageNSec,TaskCurrent,MainPID,ActiveState,SubState,RestartUSec,NRestarts".
Definition appResourceUsage (id : string) : handler := λ c,
  with_site "invalid site id" not_found id (λ i site,
    let* a := configured_agent site in
    match a with
    | None => mret (HTTPError 400 "agent not configured")
    | Some server =>
        let svc := app_service (s_id site) in
        match exec_on server (show_command svc) with
        | Err _ => mret (HTTPError 502 "agent unreachable")
        | Ok (_, body) =>
            let output := match Unmarshal body with
                          | Some (JObj l) => match obj_get "output" l with Some (JStr s) => s | _ => "" end
                          | _ => ""
                          end in
            let get := resource (resource_map output) in
            mret (Success 200 (JObj [("site_id", JInt i); ("domain", JStr (s_domain site)); ("service", JStr svc);
              ("memory_current", get "MemoryCurrent"); ("memory_max", get "MemoryMax"); ("cpu_usage", get "CPUUsageNSec");
              ("task_current", get "TaskCurrent"); ("main_pid", get "MainPID"); ("active_state", get "ActiveState");
              ("sub_state", get "SubState"); ("restart_usec", get "RestartUSec"); ("n_restarts", get "NRestarts");
              ("memory_limit", JInt (default 0 (s_app_memory_max site)))]))
        end
    end).
Definition appUpdateResourceLimits (id : string) (memoryMax : option Z) : handler := λ c,
  with_site "invalid site id" not_found id (λ i site,
    match memoryMax with
    | None => mret (HTTPError 400 "invalid body")
    | Some m =>
        if m <=? 0 then mret (HTTPError 400 "memory_max is required (MB)") else
        let* r := Sites.UpdateAppMemory i m in
        match r with
        | Err _ => mret (HTTPError 500 "update failed")
        | Ok _ =>
            let* a := configured_agent site in
            match a with
            | None => mret (HTTPError 400 "agent not configured")
            | Some _ =>
                let* _ := Audit.RecordAction (caller c) "site_update" "site" i (Some (JObj [("memory_max", JInt m)])) in
                mret (Success 200 (JObj [("site_id", JInt i); ("memory_max", JInt m);
                  ("message", JStr ("Memory limit updated to " +:+ itoa m +:+ "MB. Restarting app."))]))
            end
        end
    end).
End SitesApi.
