(* ===== verification/AppApi.v ===== *)
(** The API of a site's process, its PHP settings and its certificate:
    src/internal/apihttp/app_process.go, php_config.go and ssl.go.  A body that [c.Bind]
    refuses is [None]; where the code ignores that, the parameter is what the body left in
    the field. *)
From S2P Require Import Prelude GoStr Regex SiteInput Json Cron Clock Sql JobStore Accounts Sites Backups Servers BackupPlan Secrets Records Plans Extras Panel Agent Worker Scheduler Guards Http Access SitesApi.
Local Open Scope Z_scope.
Local Open Scope panel_scope.

Set Default Proof Using "Type".

Definition data_reply (status : Z) (data : json) : reply := JSON status (JObj [("data", data)]).

(** * app_process.go *)

Definition appMemoryOrDefault (v fallback : Z) : Z := if 0 <? v then v else fallback.
Definition no_process (site : site_row) : bool := (s_runtime site =? "static")%string || (s_runtime site =? "php")%string.
Definition unsupported : reply := HTTPError 400 "runtime does not support app process management".
Definition app_port (site : site_row) : Z := default 0 (s_app_port site).
Definition memory_or_default (site : site_row) : Z := appMemoryOrDefault (default 0 (s_app_memory_max site)) 512.

(** A job whose status is left to [JobStore.Create]. *)
Definition plain_job (site : site_row) (type descr payload : string) : Job :=
  mkJob 0 (Some (s_server site)) (Some (s_id site)) type "" payload "" "" descr 0 0 0 0 None None None.
Definition app_payload (site : site_row) (command : string) : string :=
  marshal_map [("site_id", JInt (s_id site)); ("domain", JStr (s_domain site)); ("root_path", JStr (s_root_path site));
    ("system_user", JStr (default "" (s_system_user site))); ("app_port", JInt (app_port site)); ("app_command", JStr command);
    ("app_memory_max", JInt (memory_or_default site))].
Definition vhost_members (site : site_row) : list (string * json) :=
  [("site_id", JInt (s_id site)); ("name", JStr (s_name site)); ("domain", JStr (s_domain site)); ("runtime", JStr (s_runtime site));
   ("root_path", JStr (s_root_path site))].

Section AppApi.
Context `{HC : PayloadCipher}.
(** The ports the host has free, the PHP versions with an FPM configuration under /etc/php
    and the order of stored times. *)
Context (os_free : Z → bool) (php_dirs : list string) (time_le : Z → Z → bool).

Notation handler := (handler (D := db)).

(** [getSiteForUser]. *)
Definition for_user (id : string) (c : context) (k : site_row → M db reply) : M db reply :=
  let '(i, ok) := atoi id in
  if negb ok then mret (HTTPError 400 "invalid site id") else
  let* r := Sites.GetByID i in
  match r with
  | Ok (Some site) => if_accessible c site (k site)
  | _ => mret not_found
  end.
Definition with_process (id : string) (c : context) (k : site_row → M db reply) : M db reply :=
  for_user id c (λ site, if no_process site then mret unsupported else k site).

(** The loops of [findSuggestedPort]: the first available one of [n] ports from [p]. *)
Fixpoint first_available (n : nat) (p : Z) : M db (res (option Z)) :=
  match n with
  | O => mret (Ok None)
  | S n' =>
      let? a := Sites.CheckPortAvailable os_free 0 p in
      if fst a then mret (Ok (Some p)) else first_available n' (p + 1)
  end.
Definition findSuggestedPort (startPort : Z) : M db (res Z) :=
  let start := if (startPort <? 30000) || (40000 <? startPort) then 30000 else startPort in
  let? a := first_available (Z.to_nat (40000 - start)) (start + 1) in
  match a with
  | Some p => mret (Ok p)
  | None =>
      let? b := first_available (Z.to_nat (start - 30000)) 30000 in
      mret match b with Some p => Ok p | None => Err "no free port in 30000-40000" end
  end.
(** The check of a port before it is used. *)
Definition if_port_free (site : site_row) (port : Z) (k : M db reply) : M db reply :=
  let* a := Sites.CheckPortAvailable os_free (s_id site) port in
  match a with
  | Err _ => mret (HTTPError 500 "port check failed")
  | Ok (true, _) => k
  | Ok (false, reason) =>
      let* s := findSuggestedPort port in
      mret (HTTPError 409 (reason +:+ match s with
                                      | Ok p => if 0 <? p then ". Suggest using port " +:+ itoa p +:+ " instead" else ""
                                      | Err _ => ""
                                      end))
  end.

Definition start_job (job : Job) (status : string) : M db reply :=
  let* r := JobStore.Create job in
  mret match r with
       | Err _ => HTTPError 500 "failed to enqueue job"
       | Ok id => data_reply 202 (JObj [("job_id", JInt id); ("status", JStr "queued"); ("app_status", JStr status)])
       end.
Definition appStart (id command : string) : handler := λ c,
  with_process id c (λ site,
    if app_port site =? 0 then mret (HTTPError 400 "no app port configured; update app settings first") else
    if_port_free site (app_port site) (
      let cmd := if (command =? "")%string then default "" (s_app_command site) else command in
      let* _ := if (command =? "")%string then Sites.UpdateAppStatus (s_id site) "starting"
                else Sites.UpdateAppConfig (s_id site) (app_port site) cmd "starting" in
      start_job (plain_job site TypeAppStart ("Start app on " +:+ s_domain site) (app_payload site cmd)) "starting")).
Definition appStop (id : string) : handler := λ c,
  with_process id c (λ site,
    let* _ := Sites.UpdateAppStatus (s_id site) "stopping" in
    start_job (plain_job site TypeAppStop ("Stop app on " +:+ s_domain site)
                 (marshal_map [("site_id", JInt (s_id site)); ("domain", JStr (s_domain site))])) "stopping").
Definition appRestart (id : string) : handler := λ c,
  with_process id c (λ site,
    if_port_free site (app_port site) (
      let* _ := Sites.UpdateAppStatus (s_id site) "restarting" in
      start_job (plain_job site TypeAppRestart ("Restart app on " +:+ s_domain site)
                   (app_payload site (default "" (s_app_command site)))) "restarting")).
Definition appStatus (id : string) : handler := λ c,
  with_process id c (λ site, mret (data_reply 200 (JObj [
    ("app_status", JStr (default "" (s_app_status site))); ("app_port", JInt (app_port site));
    ("app_command", JStr (default "" (s_app_command site))); ("app_memory_max", JInt (memory_or_default site))]))).

Record app_config_body := mkAppConfigBody { ab_command : string; ab_port : Z; ab_memory : Z }.
Definition store_app_config (site : site_row) (b : app_config_body) (port : Z) : M db reply :=
  let cmd := if (ab_command b =? "")%string then default "" (s_app_command site) else ab_command b in
  let status := let s := default "" (s_app_status site) in if (s =? "")%string then "stopped" else s in
  let memMax := if 0 <? ab_memory b then ab_memory b else default 0 (s_app_memory_max site) in
  let* _ := if 0 <? ab_memory b then Sites.UpdateAppMemory (s_id site) memMax else mret (Ok ()) in
  let* r := Sites.UpdateAppConfig (s_id site) port cmd status in
  match r with
  | Err _ => mret (HTTPError 500 "failed to update app config")
  | Ok _ =>
      let* _ := if negb (port =? app_port site) && (0 <? port) then
                  JobStore.Create (plain_job site TypeSiteCreate "" (marshal_map (vhost_members site ++ [("port", JInt port)])))
                else mret (Ok 0) in
      mret (data_reply 200 (JObj [("app_port", JInt port); ("app_command", JStr cmd); ("app_status", JStr status);
                                  ("app_memory_max", JInt memMax)]))
  end.
Definition appUpdateConfig (id : string) (body : option app_config_body) : handler := λ c,
  with_process id c (λ site,
    match body with
    | None => mret (HTTPError 400 "invalid body")
    | Some b =>
        if 0 <? ab_port b then if_port_free site (ab_port b) (store_app_config site b (ab_port b))
        else store_app_config site b (app_port site)
    end).

(** * php_config.go *)

(** Not the pattern of siteinput.go: one digit after the dot. *)
Definition phpVersionRe : re := Cat (Cls is_digit) (Cat (Lit ".") (Cls is_digit)).
Definition availablePHPVersions : list string := order_by String.leb (List.filter (re_match phpVersionRe) php_dirs).

(** [sanitizePHPIni]: the text comes from JSON, so a byte under 128 is a rune. *)
Definition ini_drops (c : ascii) : bool := Ascii.eqb c DQ || Ascii.eqb c BS || chr_in ";{}" c || Ascii.eqb c CR.
Fixpoint ini_clean (s : string) : string :=
  match s with EmptyString => "" | String c s' => if ini_drops c then ini_clean s' else String c (ini_clean s') end.
Definition trim_blank_left (s : string) : string := (span (λ c, Ascii.eqb c " " || Ascii.eqb c (byte 9)) s).2.
Definition trimSpace (s : string) : string := str_rev (trim_blank_left (str_rev (trim_blank_left s))).
(** The separator is the two bytes backslash, n, and a blank; [out] can only be longer than
    nothing after the first line. *)
Definition ini_separator : string := String BS "n ".
Fixpoint ini_lines (out : string) (lines : list string) : string :=
  match lines with
  | [] => out
  | l0 :: ls =>
      let l := trimSpace l0 in
      if (l =? "")%string then ini_lines out ls
      else ini_lines ((if negb (out =? "")%string then out +:+ ini_separator else out) +:+ l) ls
  end.
Definition sanitizePHPIni (raw : string) : string :=
  if (raw =? "")%string then "" else ini_lines "" (split LF (ini_clean raw)).

Definition with_php (id : string) (c : context) (k : site_row → M db reply) : M db reply :=
  for_user id c (λ site, if negb (s_runtime site =? "php")%string then mret (HTTPError 400 "site is not a PHP runtime") else k site).
Definition getPHPConfig (id : string) : handler := λ c,
  with_php id c (λ site, mret (data_reply 200 (JObj [
    ("php_version", JStr (default "" (s_php_version site))); ("php_ini", JStr (default "" (s_php_ini site)));
    ("available_versions", JArr (map JStr availablePHPVersions));
    ("default_note", JStr "Empty version = CloudPanel default (clp-php-fpm.sock)")]))).
Definition updatePHPConfig (id : string) (body : option (string * string)) : handler := λ c,
  with_php id c (λ site,
    match body with
    | None => mret (HTTPError 400 "invalid body")
    | Some (version, raw) =>
        if negb (version =? "")%string && negb (re_match phpVersionRe version) then mret (HTTPError 400 "invalid PHP version format")
        else if negb (version =? "")%string && negb (str_in availablePHPVersions version)
        then mret (HTTPError 400 "PHP version not installed on server")
        else
          let ini := sanitizePHPIni raw in
          let* r := Sites.UpdatePHPConfig (s_id site) version ini in
          match r with
          | Err _ => mret (HTTPError 500 "failed to update PHP config")
          | Ok _ =>
              let* j := JobStore.Create (plain_job site TypeSiteCreate ""
                          (marshal_map (vhost_members site ++ [("php_version", JStr version); ("php_ini", JStr ini)]))) in
              mret match j with
                   | Err _ => HTTPError 500 "failed to enqueue vhost regen"
                   | Ok jobID => data_reply 200 (JObj [("php_version", JStr version); ("php_ini", JStr ini); ("job_id", JInt jobID);
                                                       ("status", JStr "queued")])
                   end
          end
    end).

Definition sshInfo (id : string) : handler := λ c,
  for_user id c (λ site,
    let user := let u := default "" (s_system_user site) in if (u =? "")%string then "root" else u in
    let* sv := Servers.GetByID (s_server site) in
    let host := match sv with
                | Ok (Some srv) =>
                    if negb (default "" (sv_ip srv) =? "")%string then default "" (sv_ip srv)
                    else if negb (sv_hostname srv =? "")%string then sv_hostname srv else "your-server-ip"
                | _ => "your-server-ip"
                end in
    mret (data_reply 200 (JObj [("host", JStr host); ("port", JInt 22); ("system_user", JStr user);
      ("root_path", JStr (s_root_path site)); ("ssh_command", JStr ("ssh " +:+ user +:+ "@" +:+ host));
      ("scp_hint", JStr ("scp -r ./local-folder " +:+ user +:+ "@" +:+ host +:+ ":" +:+ s_root_path site));
      ("note", JStr "Use your existing SSH key or server password. SigardaPanel does not store SSH credentials.")]))).

(** * ssl.go *)

(** Not blank and not an at sign: the bytes of white space are those of RE2's class. *)
Definition mail_char : re := Cls (λ c, negb (Ascii.eqb c "@") && negb (space_char c)).
Definition emailRegex : re := Cat (Plus mail_char) (Cat (Lit "@") (Cat (Plus mail_char) (Cat (Lit ".") (Plus mail_char)))).

Definition null_str (o : option string) : json := match o with Some s => JStr s | None => JNull end.
Definition null_time (o : option Z) : json := match o with Some t => JStr (format_seconds (t / 1000000000)) | None => JNull end.
Definition ssl_status (id : string) : handler := λ c,
  with_site "invalid id" internal id (λ _ site, if_accessible c site (mret (Success 200 (JObj [
    ("site_id", JInt (s_id site)); ("domain", JStr (s_domain site)); ("ssl_status", null_str (s_ssl_status site));
    ("ssl_issuer", null_str (s_ssl_issuer site)); ("ssl_expires_at", null_time (s_ssl_expires site));
    ("ssl_last_check", null_time (s_ssl_last_check site))])))).

(** The email of a user, if there is one. *)
Definition email_of (user : Z) : M db (option string) :=
  let* u := Users.GetByID user in
  mret match u with
       | Ok (Some r) => if (u_email r =? "")%string then None else Some (u_email r)
       | _ => None
       end.
Definition resolveSSLEmail (override : string) (site : site_row) (callerID : Z) : M db string :=
  if negb (override =? "")%string && re_match emailRegex override then mret override else
  let* owner := match s_owner site with Some o => email_of o | None => mret None end in
  match owner with
  | Some e => mret e
  | None =>
      if 0 <? callerID then let* e := email_of callerID in mret (default "" e) else mret ""
  end.

(** [fmt.Sprintf] with [%q] quotes like Go. *)
Definition ssl_payload (site : site_row) (rest : string) : string :=
  String "{" (String DQ "site_id") +:+ String DQ ":" +:+ itoa (s_id site) +:+ "," +:+ String DQ "domain" +:+ String DQ ":" +:+
  go_quote (s_domain site) +:+ rest +:+ "}".
Definition ssl_issue (id email0 : string) : handler := λ c,
  with_site "invalid id" internal id (λ _ site, if_accessible c site (
    let* email := resolveSSLEmail email0 site (caller c) in
    if (email =? "")%string then mret (HTTPError 400 "no email available for SSL certificate; set user email first") else
    enqueue (job_of (s_server site) (s_id site) TypeSSLIssue ("Issue SSL certificate for " +:+ s_domain site)
               (ssl_payload site ("," +:+ String DQ "email" +:+ String DQ ":" +:+ go_quote email))) (λ jobID,
      let* _ := Audit.RecordAction (caller c) "ssl_issue" "site" (s_id site) (Some (JObj [("email", JStr email)])) in
      let* _ := NotifySiteUsers (s_id site) "ssl_issued" "SSL Certificate Issued" ("SSL issued for " +:+ s_domain site)
                  "success" "site" (s_id site) in
      mret (Success 202 (JObj [("job_id", JInt jobID); ("status", JStr StatusQueued); ("email", JStr email)]))))).
Definition ssl_renew (id : string) : handler := λ c,
  with_site "invalid id" internal id (λ _ site, if_accessible c site (
    enqueue (job_of (s_server site) (s_id site) TypeSSLRenew ("Renew SSL certificate for " +:+ s_domain site) (ssl_payload site ""))
      (λ jobID,
        let* _ := Audit.RecordAction (caller c) "ssl_renew" "site" (s_id site) None in
        mret (Success 202 (JObj [("job_id", JInt jobID); ("status", JStr StatusQueued)]))))).

(** One site of [renewAll]: whether a job was queued, or the site skipped. *)
Definition renew_site (sess : session_row) (site : site_row) : M db (Z * Z) :=
  if negb (s_status site =? "active")%string then mret (0, 1) else
  let* queued := JobStore.List (mkJobListFilter 0 (s_id site) StatusQueued TypeSSLRenew 0 0) in
  let* running := JobStore.List (mkJobListFilter 0 (s_id site) StatusRunning TypeSSLRenew 0 0) in
  match ok_or [] queued, ok_or [] running with
  | [], [] =>
      let* r := JobStore.Create (site_job site TypeSSLRenew (ssl_renew_payload (s_id site) (s_domain site)) 3) in
      match r with
      | Err _ => mret (0, 0)
      | Ok _ =>
          let* _ := Audit.RecordAction (se_user sess) "ssl_renew" "site" (s_id site) (Some (JObj [("auto", JBool true)])) in
          let* _ := NotifySiteUsers (s_id site) "ssl_auto_renew" "SSL Auto-Renewal"
                      ("SSL for " +:+ s_domain site +:+ " expires soon. Auto-renewal queued.") "warning" "site" (s_id site) in
          mret (1, 0)
      end
  | _, _ => mret (0, 1)
  end.
Fixpoint renew_sites (sess : session_row) (l : list site_row) (queued skipped : Z) : M db (Z * Z) :=
  match l with
  | [] => mret (queued, skipped)
  | s :: l' => let* p := renew_site sess s in renew_sites sess l' (queued + fst p) (skipped + snd p)
  end.
(** The route is behind RequireAuth, so there is a session. *)
Definition ssl_renewAll : handler := λ c,
  let* r := Sites.ListSSLEpiring time_le renewWindow in
  match r with
  | Err _ => mret internal
  | Ok sites =>
      match c_session c with
      | None => mret Panics
      | Some sess =>
          let* p := renew_sites sess sites 0 0 in
          mret (Success 200 (JObj [("queued", JInt (fst p)); ("skipped", JInt (snd p)); ("total", JInt (Z.of_nat (length sites)))]))
      end
  end.
End AppApi.
