(* ===== verification/SiteTools.v ===== *)
(** What the API configures around a site: src/internal/apihttp/sites_advanced.go (the vhost,
    the cache, access control, SSH keys, cron jobs) and ip_restrictions.go. *)
From S2P Require Import Prelude GoStr Regex SiteInput Json Net Cron Clock Sql JobStore Accounts Sites Backups Servers BackupPlan Records Plans Extras Panel Agent AgentValidate Nginx Guards Http Access.
Local Open Scope Z_scope.
Local Open Scope panel_scope.

Set Default Proof Using "Type".

(** * The panel's host *)

(** The database and the files the handlers read and write. *)
Record machine := Machine { m_db : db; m_files : gmap string string }.

(** An operation of the stores, on the machine. *)
Definition on_db {A} (m : M db A) : M machine A := λ w,
  let '(a, w') := m (World (m_db (data w)) (clock w) (faults w)) in
  (a, World (Machine (data w') (m_files (data w))) (clock w') (faults w')).
Definition files_after (f : gmap string string → gmap string string) (d : machine) : machine :=
  Machine (m_db d) (f (m_files d)).

Section Files.
(** What a write that fails leaves of a file. *)
Context (torn : string → string → option string).

Definition read_file (path : string) : M machine (res string) :=
  stmt (λ _ d, (match m_files d !! path with Some s => Ok s | None => Err "no such file or directory" end, d)).
Definition write_file (path content : string) : M machine (res ()) := λ w,
  match faults w with
  | Some e :: fs => (Err e, World (files_after (partial_alter (λ _, torn path content) path) (data w)) (clock w) fs)
  | fs => (Ok (), World (files_after (<[path := content]>) (data w)) (clock w) (tl fs))
  end.
Definition remove_file (path : string) : M machine (res ()) := exec (λ _ d, ((), files_after (delete path) d)).
Definition exists_file (path : string) : M machine (res bool) := query (λ _ d, bool_decide (m_files d !! path ≠ None)).
Definition rename_file (src dst : string) : M machine (res ()) :=
  stmt (λ _ d, match m_files d !! src with
               | Some s => (Ok (), files_after (λ m, <[dst := s]> (delete src m)) d)
               | None => (Err "no such file or directory", d)
               end).

(** * The vhost *)

Section SiteTools.
(** [exec.LookPath] finds nginx; what [nginx -t] reports on the standard error stream
    about the files (nothing: they are accepted), and what the reload reports;
    [bcrypt.GenerateFromPassword]; what [nginx.GenerateVhost] sees of the host. *)
Context (nginx_found : bool) (nginx_test : gmap string string → option string) (reload : option string).
Context (bcrypt : string → res string) (stat_ok : string → bool).

Notation handler := (context → M machine reply).
Notation db_handler := (Http.handler (D := db)).

Definition conf_path (dir : string) (site : site_row) : string := path_join dir (s_domain site +:+ ".conf").
Definition enabled_dir := "/etc/nginx/sites-enabled".
Definition available_dir := "/etc/nginx/sites-available".

(** The beginning of these handlers: a failed read is a missing site. *)
Definition tool_site (id : string) (k : Z → site_row → M db reply) : M db reply := with_site "invalid id" not_found id k.
Definition host_site (id : string) (check : site_row → M db bool) (k : Z → site_row → M machine reply) : M machine reply :=
  match parse_id id with
  | None => mret (HTTPError 400 "invalid id")
  | Some i =>
      let* r := on_db (Sites.GetByID i) in
      match r with
      | Ok (Some site) => let* ok := on_db (check site) in if negb ok then mret not_found else k i site
      | _ => mret not_found
      end
  end.

Definition getVhost (id : string) : handler := λ c,
  host_site id (canAccess c) (λ i site,
    let path := conf_path enabled_dir site in
    let* live := read_file path in
    let* p := match live with
              | Ok config => mret (config, "nginx", true)
              | Err _ => let* v := on_db (Vhosts.GetBySiteID i) in
                         mret match v with Ok v => (vh_config v, "db", true) | Err _ => ("", "db", false) end
              end in
    let '(config, source, exists_) := p in
    mret (Success 200 (JObj [("site_id", JInt i); ("domain", JStr (s_domain site)); ("vhost_config", JStr config);
                             ("source", JStr source); ("exists", JBool exists_); ("config_path", JStr path)]))).

(** [restore]: what was there before, or nothing. *)
Definition put_back (path : string) (prev : res string) : M machine () :=
  let* _ := match prev with Ok s => write_file path s | Err _ => remove_file path end in mret ().
Definition db_only (message : string) : reply :=
  Success 200 (JObj [("status", JStr "saved_db_only"); ("message", JStr message); ("db_only", JBool true)]).
Definition vhost_invalid (stderr path : string) : reply :=
  Success 200 (JObj [("status", JStr "saved_nginx_invalid");
    ("message", JStr ("nginx -t failed, previous config restored. Check syntax:" +:+ String LF stderr));
    ("nginx_error", JStr stderr); ("config_path", JStr path); ("reload_attempt", JBool false)]).
(** The new configuration in both directories, and the test. *)
Definition install_vhost (site : site_row) (config : string) : M machine reply :=
  let enabled := conf_path enabled_dir site in
  let available := conf_path available_dir site in
  let* prevEnabled := read_file enabled in
  let* prevAvailable := read_file available in
  let* w := write_file enabled config in
  match w with
  | Err e => mret (db_only ("Config saved to DB, but failed to write nginx config: " +:+ e))
  | Ok _ =>
      let* _ := write_file available config in
      let* t := query (λ _ d, nginx_test (m_files d)) in
      match t with
      | Err stderr | Ok (Some stderr) =>
          let* _ := put_back enabled prevEnabled in
          let* _ := put_back available prevAvailable in
          mret (vhost_invalid stderr enabled)
      | Ok None =>
          let ok := bool_decide (reload = None) in
          mret (Success 200 (JObj [("status", JStr "success");
            ("message", JStr ("✅ Nginx config written to " +:+ enabled +:+
               if ok then " and nginx reloaded" else " (nginx reload skipped: " +:+ trim_space (default "" reload) +:+ ")"));
            ("config_path", JStr enabled); ("reload_attempt", JBool true); ("reload_ok", JBool ok)]))
      end
  end.
Definition updateVhost (id : string) (body : option string) : handler := λ c,
  host_site id (λ site, checkSitePermission c site "write") (λ i site,
    match body with
    | None => mret (HTTPError 400 "invalid body")
    | Some config =>
        let* r := on_db (Vhosts.Upsert i config) in
        match r with
        | Err _ => mret internal
        | Ok _ =>
            let* _ := on_db (NotifySiteUsers i "vhost_updated" "Vhost Updated" "Nginx vhost configuration was updated" "info" "site" i) in
            if nginx_found then install_vhost site config
            else mret (db_only "Config saved to DB. nginx not available on this server.")
        end
    end).

(** The lines of the report that are worth showing. *)
Definition worth (l : string) : bool :=
  contains l "[emerg]" || contains l "[error]" || contains l "test failed" || contains l "syntax is".
Definition validation (valid warning : bool) (message : string) : reply :=
  Success 200 (JObj [("valid", JBool valid); ("warning", JBool warning); ("message", JStr message)]).
(** The live file gives way to the new one for the time of the test. *)
Definition swap_vhost (site : site_row) (config : string) : M machine reply :=
  let live := conf_path enabled_dir site in
  let backup := live +:+ ".sigarda-bak" in
  let* st := exists_file live in
  let present := match st with Ok b => b | Err _ => false end in
  let* had := if present then rename_file live backup else mret (Ok ()) in
  match had with
  | Err e => mret (HTTPError 500 ("failed to backup live config: " +:+ e))
  | Ok _ =>
      let restore := if present then let* _ := rename_file backup live in mret () else mret () in
      let* w := write_file live config in
      match w with
      | Err e => let* _ := restore in mret (HTTPError 500 ("failed to write test config: " +:+ e))
      | Ok _ =>
          let* t := query (λ _ d, nginx_test (m_files d)) in
          let* _ := remove_file live in
          let* _ := restore in
          mret match t with
               | Err raw | Ok (Some raw) =>
                   let msg := join (String LF "") (List.filter worth (split LF raw)) in
                   validation false false (if (msg =? "")%string then raw else msg)
               | Ok None => validation true false "nginx configuration syntax is valid ✓"
               end
      end
  end.
Definition validateVhost (id : string) (body : option string) : handler := λ c,
  host_site id (canAccess c) (λ _ site,
    match body with
    | None => mret (HTTPError 400 "invalid body")
    | Some config =>
        if nginx_found then swap_vhost site config
        else mret (validation false true "nginx binary not found on this server. Config will be saved to DB.")
    end).

(** * The cache *)

Definition varnish_reply (enabled : bool) (cacheTime : Z) (hitRate : string) : reply :=
  Success 200 (JObj [("enabled", JBool enabled); ("cache_time", JInt cacheTime); ("hit_rate", JStr hitRate)]).
Definition getVarnish (id : string) : db_handler := λ c,
  tool_site id (λ i site, if_accessible c site (
    let* v := Varnish.GetBySiteID i in
    mret match v with
         | Ok v => varnish_reply (va_enabled v) (va_cache_time v) (va_hit_rate v)
         | Err e => if (e =? ErrNoRows)%string then varnish_reply false 3600 "0%" else internal
         end)).
Definition done_reply (message : string) : reply := Success 200 (JObj [("status", JStr "success"); ("message", JStr message)]).
Definition purgeVarnish (id : string) : db_handler := λ c,
  tool_site id (λ _ site, if_permitted c "admin" site (mret (done_reply "Cache purged"))).

(** * Access control *)

Definition security_reply (auth : bool) (username : string) (ips : list string) : reply :=
  Success 200 (JObj [("basic_auth_enabled", JBool auth); ("basic_auth_username", JStr username); ("blocked_ips", JArr (map JStr ips))]).
Definition getSecurity (id : string) : db_handler := λ c,
  tool_site id (λ i site, if_accessible c site (
    let* s := Security.GetBySiteID i in
    mret match s with
         | Ok s => security_reply (Security.BasicAuthEnabled s) (Security.BasicAuthUsername s) (Security.BlockedIPs s)
         | Err e => if (e =? ErrNoRows)%string then security_reply false "" [] else internal
         end)).

(** The file of basic authentication after the settings were stored. *)
Definition write_htpasswd (domain username hash : string) : M machine () :=
  let* _ := write_file (htpasswdPath domain) (username +:+ ":" +:+ hash +:+ String LF "") in mret ().
Definition apply_basic_auth (i : Z) (site : site_row) (b : Security.SiteSecurity) : M machine () :=
  if Security.BasicAuthEnabled b && negb (Security.BasicAuthUsername b =? "")%string && negb (Security.BasicAuthPassword b =? "")%string then
    let* stored := on_db (Security.GetBySiteID i) in
    match stored with
    | Ok s => if (Security.BasicAuthPassword s =? "")%string then mret ()
              else write_htpasswd (s_domain site) (Security.BasicAuthUsername s) (Security.BasicAuthPassword s)
    | Err _ => mret ()
    end
  else let* _ := remove_file (htpasswdPath (s_domain site)) in mret ().
(** [GenerateVhost] with its file written through the host; nothing checks the result
    before it is installed, and the outcome of the test only decides about the reload. *)
Definition generate_vhost (site : site_row) (port : Z) (sec : option Security.SiteSecurity) : M machine (res string) :=
  match templates (s_runtime site), validateSiteForVhost site with
  | Some _, None =>
      let* w := match sec with
                | Some s => if Security.BasicAuthEnabled s
                            then write_file (htpasswdPath (s_domain site))
                                   (Security.BasicAuthUsername s +:+ ":" +:+ Security.BasicAuthPassword s +:+ String LF "")
                            else mret (Ok ())
                | None => mret (Ok ())
                end in
      mret (GenerateVhost stat_ok (λ _ _, res_error w) site port sec)
  | _, _ => mret (GenerateVhost stat_ok (λ _ _, None) site port sec)
  end.
Definition regenerate_vhost (i : Z) (site : site_row) : M machine () :=
  if nginx_found then
    let* stored := on_db (Security.GetBySiteID i) in
    let* g := generate_vhost site (default 0 (s_app_port site)) match stored with Ok s => Some s | Err _ => None end in
    match g with
    | Ok config =>
        let* _ := write_file (conf_path enabled_dir site) config in
        let* _ := write_file (conf_path available_dir site) config in
        mret ()
    | Err _ => mret ()
    end
  else mret ().
(** An absent list of addresses is an empty one. *)
Definition updateSecurity (id : string) (body : option Security.SiteSecurity) : handler := λ c,
  host_site id (λ site, checkSitePermission c site "write") (λ i site,
    match body with
    | None => mret (HTTPError 400 "invalid body")
    | Some b =>
        let* r := on_db (Security.Upsert bcrypt i b) in
        match r with
        | Err _ => mret internal
        | Ok _ =>
            let* _ := on_db (NotifySiteUsers i "security_changed" "Security Updated" "Site security settings were changed" "warning" "site" i) in
            let* _ := apply_basic_auth i site b in
            let* _ := regenerate_vhost i site in
            let* _ := on_db (Audit.RecordAction (caller c) "site_update" "site" i
                               (Some (JObj [("domain", JStr (s_domain site)); ("section", JStr "security")]))) in
            mret (done_reply "Security updated")
        end
    end).
End SiteTools.
End Files.

(** * Keys, jobs, addresses *)

Section SiteTables.
Notation handler := (Http.handler (D := db)).

(** ** SSH users

    Creating and deleting one runs commands on the host, which are not modelled. *)
Definition ssh_json (r : ssh_row) : json := JObj (
  [("id", JInt (sh_id r)); ("site_id", JInt (sh_site r)); ("username", JStr (sh_username r))] ++ omitempty "ssh_keys" (sh_keys r) ++
  omitempty "ssh_private_key" (sh_private r) ++ omitempty "ssh_public_key" (sh_public r) ++
  [("home_dir", JStr (sh_home r)); ("created_at", JSeconds (sh_created r))]).
(** The route is for administrators, and no check of the site is made. *)
Definition getSshFtp (id : string) : handler := λ c,
  tool_site id (λ i _,
    let* l := SSH.ListBySiteID i in
    mret match l with Err _ => internal | Ok l => Success 200 (JObj [("users", JArr (map ssh_json l))]) end).
Definition getSSHPrivateKey (ssh_id : string) : handler := λ c,
  match parse_id ssh_id with
  | None => mret (HTTPError 400 "invalid user id")
  | Some i =>
      let* r := SSH.GetByID i in
      mret match r with
           | Ok (Some u) =>
               if (sh_private u =? "")%string then HTTPError 404 "no private key found for this user"
               else Success 200 (JObj [("private_key", JStr (sh_private u)); ("public_key", JStr (sh_public u)); ("username", JStr (sh_username u))])
           | _ => HTTPError 404 "SSH user not found"
           end
  end.

(** The text of the jails, which ends where the list does: a user without name or home is
    left out. *)
Definition jail (u : ssh_row) : string :=
  if (sh_username u =? "")%string || (sh_home u =? "")%string then ""
  else join (String LF "") ["Match User " +:+ sh_username u; "    ChrootDirectory " +:+ sh_home u; "    X11Forwarding no";
         "    AllowTcpForwarding no"; "    PasswordAuthentication no"; "    AuthenticationMethods publickey"; ""; ""].
Definition sshd_config (users : list ssh_row) : string :=
  join (String LF "") ["# Managed by SigardaPanel - do not edit manually"; "# ChrootDirectory jails for SSH/FTP users"; ""; ""] +:+
  join "" (map jail users).

(** ** Cron jobs *)

Definition cron_json (r : cron_row) : json :=
  JObj [("id", JInt (cj_id r)); ("site_id", JInt (cj_site r)); ("schedule", JStr (cj_schedule r)); ("command", JStr (cj_command r));
        ("created_at", JSeconds (cj_created r))].
Definition listCron (id : string) : handler := λ c,
  tool_site id (λ i site, if_accessible c site (
    let* l := CronJobs.ListBySiteID i in
    mret match l with Err _ => internal | Ok l => Success 200 (JObj [("jobs", JArr (map cron_json l))]) end)).
Definition createCron (id : string) (body : option (string * string)) : handler := λ c,
  tool_site id (λ i site, if_permitted c "write" site (
    match body with
    | None => mret (HTTPError 400 "invalid body")
    | Some (schedule0, command) =>
        if (command =? "")%string then mret (HTTPError 400 "command required") else
        let schedule := if (schedule0 =? "")%string then "* * * * *" else schedule0 in
        let* r := CronJobs.Create i schedule command in
        match r with
        | Err _ => mret internal
        | Ok _ =>
            let* _ := Audit.RecordAction (caller c) "cron_create" "site" i
                        (Some (JObj [("site_id", JInt i); ("schedule", JStr schedule); ("command", JStr command)])) in
            mret (Success 201 (JObj [("status", JStr "success"); ("message", JStr "Cron job created")]))
        end
    end)).
(** The job is deleted whatever site it belongs to. *)
Definition deleteCron (id cron_id : string) : handler := λ c,
  match parse_id cron_id with
  | None => mret (HTTPError 400 "invalid cron id")
  | Some cronID =>
      with_site "invalid site id" not_found id (λ i site, if_permitted c "write" site (
        let* r := CronJobs.Delete cronID in
        match r with
        | Err _ => mret internal
        | Ok _ =>
            let* _ := Audit.RecordAction (caller c) "cron_delete" "site" i
                        (Some (JObj [("site_id", JInt i); ("cron_id", JInt cronID)])) in
            mret (done_reply "Cron job deleted")
        end))
  end.

(** ** ip_restrictions.go *)

Definition error_reply (status : Z) (m : string) : reply := JSON status (JObj [("error", JStr m)]).
Definition ip_json (r : ip_row) : json :=
  JObj [("id", JInt (ip_id r)); ("site_id", JInt (ip_site r)); ("ip", JStr (ip_addr r)); ("action", JStr (ip_action r));
        ("reason", JStr (ip_reason r)); ("created_at", JSeconds (ip_created r))].
Definition ip_site_check (id : string) (c : context) (k : Z → M db reply) : M db reply :=
  match parse_id id with
  | None => mret (error_reply 400 "invalid site id")
  | Some i =>
      let* r := Sites.GetByID i in
      match r with
      | Ok (Some site) =>
          let* ok := canAccess c site in
          if negb ok then mret (error_reply 404 "site not found") else k i
      | _ => mret (error_reply 404 "site not found")
      end
  end.
Definition ip_list (id : string) : handler := λ c,
  ip_site_check id c (λ i,
    let* l := IPRestrictions.List i in
    mret match l with
         | Err e => error_reply 500 e
         | Ok [] => JSON 200 (JObj [("restrictions", JNull)])
         | Ok l => JSON 200 (JObj [("restrictions", JArr (map ip_json l))])
         end).
Record ip_body := mkIPBody { ib_ip : string; ib_action : string; ib_reason : string }.
(** The time of the row is not read back. *)
Definition ip_create (id : string) (body : option ip_body) : handler := λ c,
  ip_site_check id c (λ i,
    match body with
    | None => mret (error_reply 400 "invalid request body")
    | Some b =>
        let ip := trim_space (ib_ip b) in
        if (ip =? "")%string then mret (error_reply 400 "ip is required")
        else if negb (ParseIP ip || ParseCIDR ip) then mret (error_reply 400 "invalid IP address or CIDR notation")
        else if negb ((ib_action b =? "allow")%string || (ib_action b =? "deny")%string)
        then mret (error_reply 400 "action must be 'allow' or 'deny'")
        else
          let* r := IPRestrictions.Create i ip (ib_action b) (trim_space (ib_reason b)) in
          mret match r with
               | Err e => error_reply 500 e
               | Ok rid => JSON 201 (JObj [("restriction", ip_json (IPRow rid i ip (ib_action b) (trim_space (ib_reason b)) zero_time))])
               end
    end).
(** The rule is deleted whatever site it belongs to. *)
Definition ip_delete (id restriction_id : string) : handler := λ c,
  match parse_id restriction_id with
  | None => mret (error_reply 400 "invalid restriction id")
  | Some rid =>
      ip_site_check id c (λ _,
        let* r := IPRestrictions.Delete rid in
        mret match r with
             | Err e => error_reply 500 e
             | Ok _ => JSON 200 (JObj [("message", JStr "IP restriction deleted")])
             end)
  end.
End SiteTables.
