(* ===== verification/JobsApi.v ===== *)
(** The API of the jobs, their logs and the notifications, and the deploy webhook:
    src/internal/apihttp/jobs.go, job_logs.go, notifications.go and webhooks.go. *)
From S2P Require Import Prelude GoStr Json Cron Clock Sql JobStore Accounts Sites Backups Servers BackupPlan Records Plans Extras Panel Agent Worker Scheduler Guards Http Access SitesApi.
Local Open Scope Z_scope.
Local Open Scope panel_scope.

Set Default Proof Using "Type".

(** * What a job shows of its payload *)

Definition sensitivePayloadKeys : list string := ["access_key"; "secret_key"; "db_password"; "password"; "secret"; "token"].
Definition redacted : json := JStr "[REDACTED]".
Fixpoint redactValue (v : json) : json :=
  match v with
  | JObj l => JObj (map (λ p, (fst p, if str_in sensitivePayloadKeys (fst p) then redacted else redactValue (snd p))) l)
  | JArr l => JArr (map redactValue l)
  | _ => v
  end.
(** A text that is not JSON is returned as it is. *)
Definition redactSensitivePayload (payload : string) : string :=
  match Unmarshal payload with None => payload | Some v => Marshal (redactValue v) end.

Definition time_field (k : string) (o : option Z) : list (string * json) :=
  match o with Some t => [(k, JStr (format_seconds t))] | None => [] end.
Definition text_field (k s : string) (f : string → string) : list (string * json) :=
  if (s =? "")%string then [] else [(k, JStr (f s))].
(** The column [error] is read through COALESCE and never NULL. *)
Definition jobToMap (j : Job) : json := JObj (
  [("id", JInt (j_id j)); ("type", JStr (j_type j)); ("status", JStr (j_status j)); ("attempts", JInt (j_attempts j));
   ("max_attempts", JInt (j_max_attempts j)); ("created_at", JStr (format_seconds (j_created j)));
   ("updated_at", JStr (format_seconds (j_updated j)))] ++
  text_field "description" (j_descr j) id ++ opt_int "server_id" (j_server j) ++ opt_int "site_id" (j_site j) ++
  text_field "payload" (j_payload j) redactSensitivePayload ++ text_field "result" (j_result j) redactSensitivePayload ++
  [("error", JStr (j_error j))] ++ time_field "started_at" (j_started j) ++ time_field "completed_at" (j_completed j)).

(** * jobs.go *)

Record job_query := mkJobQuery {
  jq_limit : string; jq_offset : string; jq_status : string; jq_type : string; jq_server : string; jq_site : string }.
(** A number that does not parse is what [strconv] returns with the error. *)
Definition number_or (d : Z) (s : string) : Z := if (s =? "")%string then d else fst (atoi s).
Definition job_filter_of (q : job_query) : option JobListFilter :=
  let '(n, ok) := atoi (jq_limit q) in
  if negb (jq_limit q =? "")%string && (negb ok || (n <? 1) || (1000 <? n)) then None
  else Some (mkJobListFilter (number_or 0 (jq_server q)) (number_or 0 (jq_site q)) (jq_status q) (jq_type q)
               (if (jq_limit q =? "")%string then 100 else n) (number_or 0 (jq_offset q))).

Section JobsApi.
Context `{HC : PayloadCipher}.
Notation handler := (handler (D := db)).

Definition job_list (q : job_query) : handler := λ _,
  match job_filter_of q with
  | None => mret (HTTPError 400 "invalid limit")
  | Some f =>
      let* l := JobStore.List f in
      mret match l with
           | Err _ => internal
           | Ok l => Success 200 (JObj [("jobs", JArr (map jobToMap l)); ("count", JInt (Z.of_nat (length l)))])
           end
  end.
Definition with_job (id : string) (k : Z → Job → M db reply) : M db reply :=
  match parse_id id with
  | None => mret (HTTPError 400 "invalid id")
  | Some i =>
      let* r := JobStore.GetByID i in
      match r with
      | Err _ => mret internal
      | Ok None => mret (HTTPError 404 "job not found")
      | Ok (Some job) => k i job
      end
  end.
Definition job_get (id : string) : handler := λ _, with_job id (λ _ job, mret (Success 200 (jobToMap job))).
(** Whoever is signed in may cancel. *)
Definition job_cancel (id : string) : handler := λ c,
  with_job id (λ i job,
    if negb (j_status job =? StatusQueued)%string then mret (HTTPError 409 ("cannot cancel job in status " +:+ j_status job)) else
    let* r := JobStore.Cancel i in
    match r with
    | Err _ => mret internal
    | Ok _ =>
        let* _ := Audit.RecordAction (caller c) "job_cancel" "job" i None in
        mret (Success 200 (JObj [("canceled", JBool true); ("id", JInt i)]))
    end).

(** * job_logs.go *)

Record log_body := mkLogBody { lb_line : Z; lb_message : string; lb_stream : string }.
Definition log_append (id : string) (body : option log_body) : handler := λ _,
  match parse_id id with
  | None => mret (HTTPError 400 "invalid id")
  | Some i =>
      match body with
      | None => mret (HTTPError 400 "invalid body")
      | Some b =>
          let stream := if (lb_stream b =? "")%string then "stdout" else lb_stream b in
          let* r := JobLogs.Append i (lb_line b) (lb_message b) stream in
          mret match r with
               | Err _ => internal
               | Ok lid => Success 201 (JObj [("id", JInt lid); ("ok", JBool true)])
               end
      end
  end.
Definition log_json (r : log_row) : json :=
  JObj [("line_number", JInt (lo_line r)); ("message", JStr (lo_message r)); ("stream", JStr (lo_stream r));
        ("created_at", JSeconds (lo_created r))].
Definition log_since (id since : string) : handler := λ _,
  match parse_id id with
  | None => mret (HTTPError 400 "invalid id")
  | Some i =>
      let '(n, ok) := if (since =? "")%string then (0, true) else atoi since in
      if negb ok || (n <? 0) then mret (HTTPError 400 "invalid since") else
      let* l := JobLogs.GetSince i n 1000 in
      mret match l with
           | Err _ => internal
           | Ok l => Success 200 (JObj [("logs", JArr (map log_json l)); ("count", JInt (Z.of_nat (length l))); ("since", JInt n)])
           end
  end.

(** * notifications.go *)

(** Behind RequireAuth there is a session; without one the code dereferences nil. *)
Definition with_session (c : context) (k : session_row → M db reply) : M db reply :=
  match c_session c with Some sess => k sess | None => mret Panics end.
Definition ok_reply (k : string) (r : res ()) : reply := match r with Err _ => internal | Ok _ => Success 200 (JObj [(k, JBool true)]) end.
(** An id that is not positive is no error here. *)
Definition any_id (s : string) : option Z := let '(n, ok) := atoi s in if ok then Some n else None.
Definition notif_count : handler := λ c,
  with_session c (λ sess,
    let* n := Notifications.CountUnread (se_user sess) in
    mret match n with Err _ => internal | Ok n => Success 200 (JObj [("count", JInt n)]) end).
Definition notif_markRead (id : string) : handler := λ _,
  match any_id id with
  | None => mret (HTTPError 400 "invalid notification id")
  | Some i => let* r := Notifications.MarkRead i in mret (ok_reply "marked_read" r)
  end.
Definition notif_markAllRead : handler := λ c,
  with_session c (λ sess, let* r := Notifications.MarkAllRead (se_user sess) in mret (ok_reply "marked_all_read" r)).
Definition notif_delete (id : string) : handler := λ _,
  match any_id id with
  | None => mret (HTTPError 400 "invalid notification id")
  | Some i => let* r := Notifications.Delete i in mret (ok_reply "deleted" r)
  end.
Definition notif_deleteAllRead : handler := λ c,
  with_session c (λ sess, let* r := Notifications.DeleteAllRead (se_user sess) in mret (ok_reply "deleted_all_read" r)).

(** * webhooks.go *)

(** [computeHMAC] of a body under a secret: the text sha256= and 64 hex digits. *)
Context (computeHMAC : string → string → string).

Record hook := mkHook { hk_body : res string; hk_github : string; hk_gitea : string; hk_gitlab : string }.
Definition unauthorized (m : string) : reply := JSON 401 (JObj [("ok", JBool false); ("message", JStr m)]).
(** Why the request is refused, given the secret of the site. *)
Definition check_signature (h : hook) (body secret : string) : option reply :=
  if negb (hk_github h =? "")%string then
    if (computeHMAC body secret =? hk_github h)%string then None else Some (unauthorized "invalid signature")
  else if negb (hk_gitea h =? "")%string then
    if (trim_prefix (computeHMAC body secret) "sha256=" =? to_lower (trim_space (hk_gitea h)))%string then None
    else Some (unauthorized "invalid signature")
  else if negb (hk_gitlab h =? "")%string then
    if (hk_gitlab h =? secret)%string then None else Some (unauthorized "invalid token")
  else Some (unauthorized "missing signature").
(** The ref the body names, empty when it names none. *)
Definition pushed_ref (body : string) : string := default "" (unmarshal_str "ref" body).
Definition webhook_payload (site : site_row) (branch : string) : string :=
  String "{" (String DQ "site_id") +:+ String DQ ":" +:+ itoa (s_id site) +:+ "," +:+ String DQ "repo" +:+ String DQ ":" +:+
  go_quote (default "" (s_git_repo site)) +:+ "," +:+ String DQ "branch" +:+ String DQ ":" +:+ go_quote branch +:+ "}".
Definition hook_reply (l : list (string * json)) : reply := JSON 200 (JObj (("ok", JBool true) :: l)).
(** What follows the checks: the branch, and the job. *)
Definition queue_deploy (site : site_row) (body : string) : M db reply :=
  let branch := branch_of site in
  let ref := pushed_ref body in
  if negb (ref =? "")%string && negb (ref =? "refs/heads/" +:+ branch)%string
  then mret (hook_reply [("message", JStr "branch mismatch")])
  else
    let* r := JobStore.Create (job_of (s_server site) (s_id site) TypeSiteDeploy "" (webhook_payload site branch)) in
    mret match r with
         | Err _ => internal
         | Ok jobID => hook_reply [("message", JStr "deploy queued"); ("job_id", JInt jobID)]
         end.
Definition webhook_deploy (id : string) (h : hook) : M db reply :=
  match parse_id id with
  | None => mret (HTTPError 400 "invalid site_id")
  | Some i =>
      let* r := Sites.GetByID i in
      match r with
      | Err _ => mret internal
      | Ok None => mret (hook_reply [])
      | Ok (Some site) =>
          if bool_decide (s_git_repo site = None) then mret (hook_reply []) else
          match hk_body h with
          | Err _ => mret (HTTPError 400 "read body")
          | Ok body =>
              let secret := default "" (s_webhook_secret site) in
              if (secret =? "")%string then mret (unauthorized "webhook secret not configured") else
              match check_signature h body secret with
              | Some rep => mret rep
              | None => queue_deploy site body
              end
          end
      end
  end.
End JobsApi.

(** * Facts *)

(** ** Redaction *)

(** The two values differ at most in what is under sensitive keys. *)
Inductive same_public : json → json → Prop :=
| same_value v : same_public v v
| same_array l l' : Forall2 same_public l l' → same_public (JArr l) (JArr l')
| same_object l l' :
    Forall2 (λ p q, fst p = fst q ∧ (str_in sensitivePayloadKeys (fst p) = true ∨ same_public (snd p) (snd q))) l l' →
    same_public (JObj l) (JObj l').

Lemma same_public_redacted (v : json) : ∀ v', same_public v v' → redactValue v = redactValue v'.
Proof.
  induction v as [| | | |l IH|l IH] using json_nested_ind; intros v' H; inversion H as [|? l' Hl|? l' Hl]; subst; try done.
  - cbn [redactValue]. f_equal. clear H. induction Hl as [|x y l l' Hxy Hl IHl]; [done|].
    apply Forall_cons in IH as [Hx IH]. cbn [map]. f_equal; auto.
  - cbn [redactValue]. f_equal. clear H. induction Hl as [|x y l l' [Hk Hxy] Hl IHl]; [done|].
    apply Forall_cons in IH as [Hx IH]. cbn [map]. f_equal; [|auto]. rewrite <- Hk.
    destruct (str_in _ _) eqn:E; [done|]. destruct Hxy as [Hxy|Hxy]; [congruence|]. f_equal. by apply Hx.
Qed.

(** C13: what the API shows of a payload or a result is independent of the secrets in it: two
    texts whose JSON values differ only under sensitive keys, at whatever depth, are
    shown alike. *)
Theorem redactSensitivePayload_hides (p p' : string) (v v' : json)
    (H : Unmarshal p = Some v) (H' : Unmarshal p' = Some v') (Hs : same_public v v') :
  redactSensitivePayload p = redactSensitivePayload p'.
Proof. unfold redactSensitivePayload. by rewrite H, H', (same_public_redacted v v' Hs). Qed.

Lemma redactSensitivePayload_hides_witness :
  let p secret := marshal_map [("db_name", JStr "shop"); ("s3_config", JObj [("secret_key", JStr secret)])] in
  redactSensitivePayload (p "one") = redactSensitivePayload (p "two") ∧
  redactSensitivePayload (p "one") = marshal_map [("db_name", JStr "shop"); ("s3_config", JObj [("secret_key", redacted)])].
Proof.
  cbv zeta. split; [|vm_compute; reflexivity].
  apply (redactSensitivePayload_hides _ _
           (JObj [("db_name", JStr "shop"); ("s3_config", JObj [("secret_key", JStr "one")])])
           (JObj [("db_name", JStr "shop"); ("s3_config", JObj [("secret_key", JStr "two")])]));
    [vm_compute; reflexivity|vm_compute; reflexivity|].
  apply same_object. constructor; [by split; [|right; apply same_value]|]. constructor; [|constructor].
  split; [done|]. right. apply same_object. constructor; [|constructor]. split; [done|]. by left.
Defined.
