(* ===== verification/Mysql.v ===== *)
(** The direct connection to a database server: the second half of
    src/internal/dbserver/dbserver.go.  The statements that are sent are part of the state;
    what the server answers is a parameter. *)
From S2P Require Import Prelude GoStr SiteInput Json Sql Accounts Sites Secrets Records Panel Cron.
Local Open Scope Z_scope.
Local Open Scope panel_scope.

Set Default Proof Using "Type".

(** * The state: the panel and what it sent to the database server *)

Record site_panel := mkSitePanel { sp_db : db; sp_sent : list string }.

(** A statement on the database of the panel. *)
Definition lift {A} (m : M db A) : M site_panel A := λ w,
  let '(a, w') := m (World (sp_db (data w)) (clock w) (faults w)) in
  (a, World (mkSitePanel (data w') (sp_sent (data w))) (clock w') (faults w')).

(** The server, about which nothing is assumed: whether a connection opens with a password, what
    [SELECT VERSION()] reads (empty: it failed), whether a statement fails after those sent
    before it, how many rows it changed, the columns and rows of a query ([None]: NULL, any
    other value as text), and the accounts of [mysql.user] without those of the system. *)
Class MySQLServer := {
  connects : db_server_row → string → error;
  version : string;
  fails_with : list string → string → error;
  rows_affected : list string → string → Z;
  query_rows : list string → string → res (list string * list (list (option string)));
  user_rows : list string → res (list (string * string)) }.

Section MySQL.
Context `{HM : MySQLServer}.

Definition ExecContext (q : string) : M site_panel error := λ w,
  let d := data w in
  (fails_with (sp_sent d) q, World (mkSitePanel (sp_db d) (sp_sent d ++ [q])) (clock w) (faults w)).
(** A statement whose failure is not looked at. *)
Definition exec_ignored (q : string) : M site_panel () := let* _ := ExecContext q in mret ().
(** [if err != nil { return err }; k]. *)
Definition and_then (m k : M site_panel error) : M site_panel error :=
  let* e := m in match e with Some _ => mret e | None => k end.
Definition check (e : error) (k : M site_panel error) : M site_panel error := match e with Some _ => mret e | None => k end.
Definition prefixed (p : string) (e : error) : error := match e with Some m => Some (p +:+ ": " +:+ m) | None => None end.

(** * Names and texts *)

Definition dropped_in_ident (c : ascii) : bool :=
  Ascii.eqb c "`" || Ascii.eqb c SQ || Ascii.eqb c BS || Ascii.eqb c ";" || Ascii.eqb c LF || Ascii.eqb c CR.
Definition safeIdent (s : string) : string := replace_chr (λ c, if dropped_in_ident c then Some "" else None) s.
Definition safeSQLString (s : string) : string := replace_chr (λ c, if Ascii.eqb c SQ then Some "''" else None) s.
Definition in_quotes (s : string) : string := "'" +:+ s +:+ "'".
Definition in_backquotes (s : string) : string := "`" +:+ s +:+ "`".
Definition sql_account (username host : string) : string := in_quotes (safeIdent username) +:+ "@" +:+ in_quotes (safeIdent host).

(** * MySQLConn: the connection is known by its engine *)

Definition engine_of (version : string) : string :=
  if contains (to_lower version) "mariadb" || contains (to_lower version) "mari" then "MariaDB" else "MySQL".
Definition Connect (svr : db_server_row) (password : string) : res string :=
  match connects svr password with Some e => Err e | None => Ok (engine_of version) end.

Definition or_text (s d : string) : string := if (s =? "")%string then d else s.

Definition create_database_sql (name charset collation : string) : string :=
  "CREATE DATABASE IF NOT EXISTS " +:+ in_backquotes (safeIdent name) +:+ " CHARACTER SET " +:+
  safeIdent (or_text charset "utf8mb4") +:+ " COLLATE " +:+ safeIdent (or_text collation "utf8mb4_unicode_ci").
Definition CreateDatabase (name charset collation : string) : M site_panel error :=
  ExecContext (create_database_sql name charset collation).
Definition drop_database_sql (name : string) : string := "DROP DATABASE IF EXISTS " +:+ in_backquotes (safeIdent name).
Definition DropDatabase (name : string) : M site_panel error := ExecContext (drop_database_sql name).

Definition auth_clause (engine password : string) : string :=
  if contains (to_lower engine) "mariadb" then "IDENTIFIED BY " +:+ in_quotes (safeSQLString password)
  else "IDENTIFIED WITH mysql_native_password BY " +:+ in_quotes (safeSQLString password).
Definition create_user_sql (engine username password host : string) : string :=
  "CREATE USER IF NOT EXISTS " +:+ sql_account username host +:+ " " +:+ auth_clause engine password.
Definition grant_sql (privileges dbName username host : string) : string :=
  "GRANT " +:+ privileges +:+ " ON " +:+ in_backquotes (safeIdent dbName) +:+ ".* TO " +:+ sql_account username host.
Definition grant_all_sql (username host : string) : string :=
  "GRANT ALL PRIVILEGES ON *.* TO " +:+ sql_account username host +:+ " WITH GRANT OPTION".
Definition drop_user_sql (username host : string) : string := "DROP USER IF EXISTS " +:+ sql_account username host.
Definition flush : string := "FLUSH PRIVILEGES".
Definition limits_sql (username host : string) : string :=
  "ALTER USER " +:+ sql_account username host +:+ " REQUIRE NONE WITH MAX_QUERIES_PER_HOUR 0 MAX_CONNECTIONS_PER_HOUR 0 " +:+
  "MAX_UPDATES_PER_HOUR 0 MAX_USER_CONNECTIONS 0".
Definition CreateUser (engine username password host0 dbName privileges0 : string) : M site_panel error :=
  let host := or_text host0 "%" in
  let privileges := or_text privileges0 "ALL" in
  check (prefixed "create user" (SiteInput.DBPrivileges privileges)) (
  check (prefixed "create user" (SiteInput.DBHost host)) (
  check (prefixed "create user" (SiteInput.DBPassword password)) (
    let* e := ExecContext (create_user_sql engine username password host) in
    check (prefixed "create user" e) (
      let* g := if negb (dbName =? "")%string then ExecContext (grant_sql privileges dbName username host) else mret nil_error in
      check (prefixed "grant" g) (
        let* _ := if (username =? "phpmyadmin")%string
                  then exec_ignored (grant_all_sql username host)
                  else mret () in
        let* _ := exec_ignored (limits_sql username host) in
        ExecContext flush))))).

Definition schedule_sql (username host : string) (seconds : Z) : string :=
  "CREATE EVENT `mysql`." +:+ in_backquotes ("cleanup_" +:+ safeIdent username) +:+ " ON SCHEDULE AT CURRENT_TIMESTAMP + INTERVAL " +:+
  itoa seconds +:+ " SECOND ON COMPLETION NOT PRESERVE DO DROP USER IF EXISTS " +:+ sql_account username host.
(** [ttl] in nanoseconds, a whole number of seconds at the only call. *)
Definition ScheduleDeleteUser (username host0 : string) (ttl : Z) : M site_panel error :=
  let host := or_text host0 "%" in
  let seconds := let s := Z.quot ttl Second in if s <? 60 then 60 else s in
  let* e := ExecContext "SET GLOBAL event_scheduler = ON" in
  check (prefixed "enable event scheduler" e) (
    let* e := ExecContext (schedule_sql username host seconds) in mret (prefixed "schedule user cleanup" e)).
Definition DeleteUser (username host0 : string) : M site_panel error :=
  and_then (ExecContext (drop_user_sql username (or_text host0 "%"))) (ExecContext flush).
Definition change_password_sql (username host newPassword : string) : string :=
  "ALTER USER " +:+ sql_account username host +:+ " IDENTIFIED BY " +:+ in_quotes (safeSQLString newPassword).
Definition ChangePassword (username host0 newPassword : string) : M site_panel error :=
  let host := or_text host0 "%" in
  check (SiteInput.DBHost host) (
  check (SiteInput.DBPassword newPassword) (
    and_then (ExecContext (change_password_sql username host newPassword)) (ExecContext flush))).
Definition GrantPrivileges (username host dbName privileges : string) : M site_panel error :=
  and_then (ExecContext (grant_sql privileges dbName username host)) (ExecContext flush).
Definition QueryContext (q : string) : M site_panel (res (list string * list (list (option string)))) := λ w,
  let d := data w in (query_rows (sp_sent d) q, World (mkSitePanel (sp_db d) (sp_sent d ++ [q])) (clock w) (faults w)).
Definition RowsAffected (q : string) : M site_panel Z := λ w, (rows_affected (sp_sent (data w)) q, w).
Definition ListUsers : M site_panel (res (list (string * string))) := λ w, (user_rows (sp_sent (data w)), w).
End MySQL.

(** A server that does what it is told. *)
Definition obedient : MySQLServer :=
  {| connects _ _ := None; version := "8.0.36"; fails_with _ _ := None; rows_affected _ _ := 0;
     query_rows _ _ := Ok ([], []); user_rows _ := Ok [("ann", "%")] |}.
