(* ===== verification/MysqlText.v ===== *)
(** How the database server reads what the panel sends it over its own connection: the
    statements of Mysql.v, read by the reader of AgentSql.v. *)
From S2P Require Import Prelude GoStr Paths Regex SiteInput AgentValidate Json Sql AgentDb AgentSql Accounts Sites Secrets Records Panel Cron Mysql.
Local Open Scope Z_scope.
Local Open Scope panel_scope.

Set Default Proof Using "Type".

(** * An accepted list of privileges, byte by byte *)

Definition is_ascii (c : ascii) : bool := code c <? 128.

Lemma ascii_bytes (P : ascii → bool) : cls_incl is_ascii P = true → ∀ s, str_all is_ascii s = true → str_all P s = true.
Proof. intros H s. apply str_all_impl, cls_incl_spec, H. Qed.
Lemma ascii_no_space2 a b : is_ascii a = true → space2 a b = false.
Proof. unfold is_ascii, space2. intros H. bool_hyps. rewrite (proj2 (Z.eqb_neq (code a) 194)) by lia. done. Qed.
Lemma ascii_no_space3 a b c : is_ascii a = true → space3 a b c = false.
Proof.
  unfold is_ascii, space3. intros H. bool_hyps. generalize dependent (code a). intros x Hx.
  rewrite (proj2 (Z.eqb_neq x 225)), (proj2 (Z.eqb_neq x 226)), (proj2 (Z.eqb_neq x 227)) by lia. done.
Qed.
Lemma fields_from_ascii a s : is_ascii a = true →
  fields_from (String a s) = if space1 a then ("", push_word (fields_from s)) else let '(w, ws) := fields_from s in (String a w, ws).
Proof.
  intros H. cbn [fields_from]. destruct (space1 a); [done|].
  destruct s as [|b s]; [done|]. rewrite ascii_no_space2 by done. destruct s as [|c s]; [done|]. by rewrite ascii_no_space3.
Qed.
Lemma in_fields (P : ascii → bool) (s : string) :
  (∀ c, space1 c = true → P c = true) → str_all is_ascii s = true → Forall (λ w, str_all P w = true) (fields s) → str_all P s = true.
Proof.
  intros Hsp. unfold fields. intros Ha Hf.
  assert (K : str_all P (fields_from s).1 = true ∧ Forall (λ w, str_all P w = true) (fields_from s).2).
  { unfold push_word in Hf. destruct (fields_from s) as [w ws]. case_hyp Hf; [bool_hyps; by subst|]. by apply Forall_cons in Hf. }
  clear Hf. revert Ha K. induction s as [|a s IH]; intros Ha K; [done|]. cbn in Ha. apply andb_true_iff in Ha as [Ha1 Ha2].
  rewrite fields_from_ascii in K by done. cbn [str_all]. destruct (space1 a) eqn:E; cbn in K.
  - rewrite Hsp by done. apply IH; [done|]. destruct K as [_ K]. unfold push_word in K. destruct (fields_from s) as [w ws].
    case_hyp K; [bool_hyps; by subst|]. by apply Forall_cons in K.
  - destruct (fields_from s) as [w ws]. destruct K as [Kw Kws]. cbn in Kw. apply andb_true_iff in Kw as [-> Kw]. by apply IH.
Qed.
Lemma joined (P : ascii → bool) (l : list string) : str_all P (join " " l) = true → Forall (λ w, str_all P w = true) l.
Proof.
  induction l as [|w l IH]; [done|]. destruct l as [|w2 l]; [intros H; by repeat constructor|].
  change (join " " (w :: w2 :: l)) with (w +:+ (" " +:+ join " " (w2 :: l))).
  rewrite !str_all_app. intros H. bool_hyps. constructor; [done|]. by apply IH.
Qed.
Lemma to_upper_ascii a s : is_ascii a = true → to_upper (String a s) = String (upper1 a) (to_upper s).
Proof.
  unfold is_ascii. intros H. bool_hyps. destruct s as [|b s]; [done|]. cbn [to_upper].
  rewrite !(proj2 (Z.eqb_neq (code a) _)) by lia. reflexivity.
Qed.
Lemma upper_ascii (P : ascii → bool) (s : string) :
  cls_incl (λ c, is_ascii c && P (upper1 c)) P = true → str_all is_ascii s = true → str_all P (to_upper s) = true → str_all P s = true.
Proof.
  intros Hu. induction s as [|a s IH]; intros Ha H; [done|]. cbn in Ha. apply andb_true_iff in Ha as [Ha1 Ha2].
  rewrite to_upper_ascii in H by done. cbn [str_all] in *. apply andb_true_iff in H as [H1 H2].
  rewrite IH, andb_true_r by done. apply (cls_incl_spec _ _ Hu). by rewrite Ha1, H1.
Qed.
Lemma upper_stays_ascii s : str_all is_ascii s = true → str_all is_ascii (to_upper s) = true.
Proof.
  induction s as [|a s IH]; intros Ha; [done|]. cbn in Ha. apply andb_true_iff in Ha as [Ha1 Ha2].
  rewrite to_upper_ascii by done. cbn. rewrite IH, andb_true_r by done.
  revert Ha1. by apply (cls_incl_spec is_ascii (λ c, is_ascii (upper1 c))).
Qed.
Lemma split_bytes (P : ascii → bool) (c : ascii) (s : string) :
  P c = true → Forall (λ p, str_all P p = true) (split c s) → str_all P s = true.
Proof.
  intros Hc. induction s as [|a s IH]; intros H; [done|]. cbn in H |- *. destruct (Ascii.eqb_spec a c) as [->|].
  - rewrite Hc. apply Forall_cons in H as [_ H]. by apply IH.
  - pose proof (split_nonempty c s) as Hn. destruct (split c s) as [|w ws]; [done|]. apply Forall_cons in H as [Hw Hws].
    cbn in Hw. apply andb_true_iff in Hw as [-> Hw]. apply IH. by constructor.
Qed.
Lemma split_ascii (c : ascii) (s : string) : str_all is_ascii s = true → Forall (λ p, str_all is_ascii p = true) (split c s).
Proof.
  induction s as [|a s IH]; intros H; [by repeat constructor|]. cbn in H |- *. apply andb_true_iff in H as [Ha Hs]. specialize (IH Hs).
  destruct (Ascii.eqb a c); [by constructor|]. destruct (split c s) as [|w ws]; [by repeat constructor; cbn; rewrite Ha|].
  apply Forall_cons in IH as [Hw Hws]. constructor; [|done]. cbn. by rewrite Ha.
Qed.
(** An accepted list of ASCII bytes has words, blanks and commas only. *)
Lemma privileges_plain (s : string) : str_all is_ascii s = true → DBPrivileges s = nil_error → str_all list_char s = true.
Proof.
  intros Ha H. unfold DBPrivileges in H. case_hyp H; [done|]. case_hyp H; [done|].
  apply (split_bytes list_char ","); [done|]. pose proof (split_ascii "," s Ha) as Hs.
  apply Forall_forall. intros p Hp. rewrite Forall_forall in Hs. specialize (Hs p Hp).
  pose proof (List.find_none _ _ E0 p (proj1 (list_elem_of_In _ _) Hp)) as Hn. cbv beta in Hn. bool_hyps.
  apply str_in_spec in Hn. apply (upper_ascii list_char); [by vm_compute|done|].
  apply in_fields; [by apply (cls_incl_spec space1 list_char)|by apply upper_stays_ascii|].
  apply joined. change (join " " (fields (to_upper p))) with (norm_privilege p). revert Hn. generalize (norm_privilege p).
  apply Forall_forall. apply (bool_decide_unpack _). by vm_compute.
Qed.

(** * Texts in their places *)

Lemma replace_chr_all (P : ascii → bool) (f : ascii → option string) (s : string) :
  (∀ c, match f c with Some r => str_all P r = true | None => P c = true end) → str_all P (replace_chr f s) = true.
Proof.
  intros H. induction s as [|c s IH]; [done|]. cbn [replace_chr]. specialize (H c). destruct (f c).
  - by rewrite str_all_app, H, IH.
  - cbn. by rewrite H, IH.
Qed.
Lemma safeIdent_no (c : ascii) (s : string) : dropped_in_ident c = true → no_chr c (safeIdent s) = true.
Proof.
  intros Hc. apply replace_chr_all. intros a. destruct (dropped_in_ident a) eqn:E; [done|].
  destruct (Ascii.eqb_spec a c) as [->|]; [congruence|done].
Qed.
Lemma safeIdent_quoted (s : string) : in_quotes (safeIdent s) = sqlQuote (safeIdent s).
Proof.
  pose proof (safeIdent_no SQ s eq_refl) as H. unfold in_quotes, sqlQuote. fold (esc_quote (safeIdent s)).
  assert (esc_quote (safeIdent s) = safeIdent s) as ->; [|done]. revert H. generalize (safeIdent s). clear.
  intros s. induction s as [|c s IH]; intros H; [done|]. cbn in H. apply andb_true_iff in H as [Hc Hs].
  rewrite <- (app_nil_r (esc_quote _)), esc_quote_cons, app_nil_r, IH by done. by apply negb_true_iff in Hc as ->.
Qed.
Lemma safeIdent_id (s : string) : str_all (λ c, negb (dropped_in_ident c)) s = true → safeIdent s = s.
Proof.
  induction s as [|c s IH]; intros H; [done|]. cbn in H. apply andb_true_iff in H as [Hc%negb_true_iff Hs].
  unfold safeIdent. cbn [replace_chr]. rewrite Hc. by rewrite (IH Hs : replace_chr _ s = s).
Qed.
Lemma safeIdent_host (h : string) : DBHost h = nil_error → safeIdent h = h.
Proof.
  intros H. unfold DBHost in H. case_hyp H; [done|]. bool_hyps. apply safeIdent_id. within dbHostRe.
Qed.

Section Reading.
Variable esc : bool.

Lemma reads_safe (s : string) : reads_to esc Between (in_quotes (safeIdent s)) (QuoteIn (safeIdent s)) [].
Proof. rewrite safeIdent_quoted. apply reads_literal. intros _. by apply safeIdent_no. Qed.
Lemma reads_password (p : string) : DBPassword p = nil_error → reads_to esc Between (in_quotes (safeSQLString p)) (QuoteIn p) [].
Proof. intros H%password_plain. by apply (reads_literal esc p). Qed.
Lemma reads_safe_tick (s : string) : reads_to esc Between (in_backquotes (safeIdent s)) (TickIn (safeIdent s)) [].
Proof. apply (reads_backticked esc). by apply safeIdent_no. Qed.
End Reading.

(** * The statements *)

(** What a statement on an account should be. *)
Definition auth_tokens (engine : string) : list token :=
  if contains (to_lower engine) "mariadb" then kw "IDENTIFIED BY" else kw "IDENTIFIED WITH mysql_native_password BY".
Definition new_user_tokens (engine user host password : string) : list token :=
  kw "CREATE USER IF NOT EXISTS" ++ account_tokens user host ++ auth_tokens engine ++ [Str password; Sym ";"].
Definition grant_tokens (privileges : list token) (database user host : string) : list token :=
  kw "GRANT" ++ privileges ++ kw "ON" ++ [Tick database; Sym "."; Sym "*"] ++ kw "TO" ++ account_tokens user host ++ [Sym ";"].
Definition grant_all_tokens (user host : string) : list token :=
  kw "GRANT ALL PRIVILEGES ON" ++ [Sym "*"; Sym "."; Sym "*"] ++ kw "TO" ++ account_tokens user host ++ kw "WITH GRANT OPTION" ++ [Sym ";"].
Definition limits_tokens (user host : string) : list token :=
  kw "ALTER USER" ++ account_tokens user host ++
  kw "REQUIRE NONE WITH MAX_QUERIES_PER_HOUR 0 MAX_CONNECTIONS_PER_HOUR 0 MAX_UPDATES_PER_HOUR 0 MAX_USER_CONNECTIONS 0" ++ [Sym ";"].
Definition flush_tokens : list token := kw "FLUSH PRIVILEGES" ++ [Sym ";"].
Definition drop_tokens (user host : string) : list token := kw "DROP USER IF EXISTS" ++ account_tokens user host ++ [Sym ";"].
Definition password_tokens (user host password : string) : list token :=
  kw "ALTER USER" ++ account_tokens user host ++ kw "IDENTIFIED BY" ++ [Str password; Sym ";"].
Definition schedule_tokens (user host seconds : string) : list token :=
  kw "CREATE EVENT" ++ [Tick "mysql"; Sym "."; Tick ("cleanup_" +:+ user)] ++ kw "ON SCHEDULE AT CURRENT_TIMESTAMP" ++ [Sym "+"] ++
  kw "INTERVAL" ++ [Word seconds] ++ kw "SECOND ON COMPLETION NOT PRESERVE DO" ++ drop_tokens user host.
Definition drop_database_tokens (name : string) : list token := kw "DROP DATABASE IF EXISTS" ++ [Tick name; Sym ";"].

(** A statement, closed, as both kinds of literals read it. *)
Definition reads_as (q : string) (ts : list token) : Prop := ∀ esc, read_sql esc (q +:+ ";") = Some ts.

(** From here on the texts between quotes and backquotes count by what they read as. *)
Ltac hide s := let H := fresh "H" in let x := fresh "x" in
  pose proof (λ esc, conj (reads_safe esc s) (reads_safe_tick esc s)) as H; revert H; generalize (safeIdent s); intros x H.
Ltac text_part := first
  [ chunk | match goal with H : ∀ e : bool, _ ∧ _ |- _ => exact (proj1 (H _)) | H : ∀ e : bool, _ ∧ _ |- _ => exact (proj2 (H _)) end
  | by apply reads_password | by apply reads_name ].
Ltac text_all := first [text_part | eapply reads_app; [text_part|text_all]].
Ltac as_tokens := intros esc; apply read_sql_ok; rewrite ?app_assoc_s; eapply reads_eq; [text_all|reflexivity].

Lemma reads_new_user engine user host password : DBPassword password = nil_error →
  reads_as (create_user_sql engine user password host) (new_user_tokens engine (safeIdent user) (safeIdent host) password).
Proof.
  intros Hp. unfold create_user_sql, auth_clause, new_user_tokens, auth_tokens, sql_account. hide user. hide host.
  destruct (contains (to_lower engine) "mariadb"); as_tokens.
Qed.
Lemma reads_flush : reads_as flush flush_tokens.
Proof. unfold flush. as_tokens. Qed.
Lemma reads_limits user host : reads_as (limits_sql user host) (limits_tokens (safeIdent user) (safeIdent host)).
Proof. unfold limits_sql, sql_account. hide user. hide host. as_tokens. Qed.
Lemma reads_grant_all user host : reads_as (grant_all_sql user host) (grant_all_tokens (safeIdent user) (safeIdent host)).
Proof. unfold grant_all_sql, sql_account. hide user. hide host. as_tokens. Qed.
Lemma reads_drop_user user host : reads_as (drop_user_sql user host) (drop_tokens (safeIdent user) (safeIdent host)).
Proof. unfold drop_user_sql, sql_account. hide user. hide host. as_tokens. Qed.
Lemma reads_change_password user host password : DBPassword password = nil_error →
  reads_as (change_password_sql user host password) (password_tokens (safeIdent user) (safeIdent host) password).
Proof. intros Hp. unfold change_password_sql, sql_account. hide user. hide host. as_tokens. Qed.
Lemma reads_drop_database name : reads_as (drop_database_sql name) (drop_database_tokens (safeIdent name)).
Proof. unfold drop_database_sql. hide name. as_tokens. Qed.
Lemma reads_grant privileges database user host : str_all is_ascii privileges = true → DBPrivileges privileges = nil_error →
  ∀ esc, ∃ ts, Forall bare ts ∧
    read_sql esc (grant_sql privileges database user host +:+ ";") =
    Some (grant_tokens ts (safeIdent database) (safeIdent user) (safeIdent host)).
Proof.
  intros Ha Hp esc. destruct (reads_list esc privileges (privileges_plain privileges Ha Hp)) as (ts & Hr & Hts). exists ts. split; [done|].
  unfold grant_sql, sql_account. hide database. hide user. hide host. apply read_sql_ok.
  change (privileges +:+ " ON " +:+ ?x) with (privileges +:+ " " +:+ "ON " +:+ x).
  rewrite ?app_assoc_s. rewrite <- (app_assoc_s privileges " "). eapply reads_eq.
  - eapply reads_app; [chunk|]. eapply reads_app; [exact Hr|]. text_all.
  - reflexivity.
Qed.
(** Numbers. *)
Lemma print_pos_digits f m acc : str_all is_digit acc = true → str_all is_digit (print_pos f m acc) = true ∧ (f ≠ O → print_pos f m acc ≠ "").
Proof.
  revert m acc. induction f as [|f IH]; intros m acc H; [done|]. cbn [print_pos].
  assert (Hd : str_all is_digit (String (byte (Z.to_nat (48 + m mod 10))) acc) = true).
  { cbn [str_all]. rewrite H, andb_true_r. pose proof (Z.mod_pos_bound m 10 eq_refl) as Hb.
    assert (m mod 10 ∈ seqZ 0 10) as Hin by (apply elem_of_seqZ; lia). revert Hin. generalize (m mod 10). clear.
    apply Forall_forall. by repeat (constructor; [reflexivity|]). }
  destruct (m <? 10); [done|]. destruct f as [|f]; [done|]. destruct (IH (m / 10) _ Hd) as [H1 H2]. split; [done|]. intros _. by apply H2.
Qed.
Lemma itoa_digits_word (n : Z) : 0 ≤ n → itoa n ≠ "" ∧ str_all word_byte (itoa n) = true.
Proof.
  intros H. unfold itoa. rewrite (proj2 (Z.ltb_ge _ _)) by done. destruct (print_pos_digits 20 n "" eq_refl) as [Hd Hn].
  split; [by apply Hn|]. revert Hd. apply str_all_impl. by apply (cls_incl_spec is_digit word_byte).
Qed.
Lemma reads_schedule user host seconds : 0 ≤ seconds →
  reads_as (schedule_sql user host seconds) (schedule_tokens (safeIdent user) (safeIdent host) (itoa seconds)).
Proof.
  intros [Hn Hw]%itoa_digits_word.
  assert (Ht : ∀ esc, reads_to esc Between (in_backquotes ("cleanup_" +:+ safeIdent user)) (TickIn ("cleanup_" +:+ safeIdent user)) []).
  { intros esc. apply (reads_backticked esc). cbn. by apply safeIdent_no. }
  unfold schedule_sql, sql_account. revert Ht. hide user. hide host. revert Hn Hw. generalize (itoa seconds). intros n Hn Hw Ht.
  intros esc; apply read_sql_ok; rewrite ?app_assoc_s; eapply reads_eq.
  - eapply reads_app; [chunk|]. eapply reads_app; [apply Ht|]. text_all.
  - reflexivity.
Qed.

(** * Every statement of an operation *)

Section Operations.
Context `{HM : MySQLServer}.

(** An operation that leaves the database of the panel alone and sends only statements in [P]. *)
Definition sends_only {A} (P : string → Prop) (m : M site_panel A) : Prop :=
  ∀ w, wp m (λ _ w', sp_db (data w') = sp_db (data w) ∧ ∃ new, sp_sent (data w') = sp_sent (data w) ++ new ∧ Forall P new) w.
Lemma only_ret {A} P (a : A) : sends_only P (mret a).
Proof. intros w. apply wp_ret. split; [done|]. exists []. by rewrite List.app_nil_r. Qed.
Lemma only_exec P q : P q → sends_only P (ExecContext q).
Proof. intros H w. unfold wp, ExecContext. cbn. split; [done|]. exists [q]. split; [done|]. by repeat constructor. Qed.
Lemma only_bind {A B} P (m : M site_panel A) (k : A → M site_panel B) :
  sends_only P m → (∀ a, sends_only P (k a)) → sends_only P (mbind m k).
Proof.
  intros Hm Hk w. apply wp_bind. eapply wp_mono; [|apply Hm]. intros a w1 [E1 (l1 & L1 & F1)]. cbv beta.
  eapply wp_mono; [|apply Hk]. intros b w2 [E2 (l2 & L2 & F2)]. split; [congruence|].
  exists (l1 ++ l2). split; [by rewrite L2, L1, List.app_assoc|by apply Forall_app].
Qed.
Lemma only_check P e k : (e = None → sends_only P k) → sends_only P (check e k).
Proof. intros H. destruct e; [apply only_ret|by apply H]. Qed.
Lemma only_then P m k : sends_only P m → sends_only P k → sends_only P (and_then m k).
Proof. intros Hm Hk. apply only_bind; [done|]. intros [m'|]; [apply only_ret|done]. Qed.
Lemma only_ignored P q : P q → sends_only P (exec_ignored q).
Proof. intros H. apply only_bind; [by apply only_exec|]. intros _. apply only_ret. Qed.
Lemma only_if {A} P (b : bool) (m k : M site_panel A) : (b = true → sends_only P m) → (b = false → sends_only P k) → sends_only P (if b then m else k).
Proof. destruct b; auto. Qed.
Lemma prefixed_none p e : prefixed p e = None → e = None.
Proof. by destruct e. Qed.

(** The operations on accounts and whole databases. *)
Inductive account_op :=
| OpCreateUser (engine username password host database privileges : string)
| OpGrant (username host database privileges : string)
| OpChangePassword (username host password : string)
| OpDeleteUser (username host : string)
| OpScheduleDelete (username host : string) (ttl : Z)
| OpDropDatabase (name : string).
Definition run_account (o : account_op) : M site_panel error :=
  match o with
  | OpCreateUser engine u p h d v => CreateUser engine u p h d v
  | OpGrant u h d v => GrantPrivileges u h d v
  | OpChangePassword u h p => ChangePassword u h p
  | OpDeleteUser u h => DeleteUser u h
  | OpScheduleDelete u h ttl => ScheduleDeleteUser u h ttl
  | OpDropDatabase n => DropDatabase n
  end.
(** What the caller of an operation has to see to: nothing but privileges in ASCII, and, for the
    one operation that does not look at them, privileges that are allowed. *)
Definition privileges_seen (o : account_op) : Prop :=
  match o with
  | OpCreateUser _ _ _ _ _ v => str_all is_ascii v = true
  | OpGrant _ _ _ v => str_all is_ascii v = true ∧ DBPrivileges v = nil_error
  | _ => True
  end.
(** A host that is looked at stands as it is; [safeIdent] changes nothing in it. *)
Definition is_grant (q database user host : string) : Prop :=
  ∀ esc, ∃ ts, Forall bare ts ∧ read_sql esc (q +:+ ";") = Some (grant_tokens ts (safeIdent database) (safeIdent user) host).
Definition meant (o : account_op) (q : string) : Prop :=
  reads_as q flush_tokens ∨
  match o with
  | OpCreateUser engine u p h d v =>
      let host := or_text h "%" in
      reads_as q (new_user_tokens engine (safeIdent u) host p) ∨ (d ≠ "" ∧ is_grant q d u host) ∨
      (u = "phpmyadmin" ∧ reads_as q (grant_all_tokens u host)) ∨ reads_as q (limits_tokens (safeIdent u) host)
  | OpGrant u h d v => is_grant q d u (safeIdent h)
  | OpChangePassword u h p => reads_as q (password_tokens (safeIdent u) (or_text h "%") p)
  | OpDeleteUser u h => reads_as q (drop_tokens (safeIdent u) (safeIdent (or_text h "%")))
  | OpScheduleDelete u h ttl =>
      reads_as q (kw "SET GLOBAL event_scheduler" ++ [Sym "="] ++ kw "ON" ++ [Sym ";"]) ∨
      ∃ seconds, 60 ≤ seconds ∧ reads_as q (schedule_tokens (safeIdent u) (safeIdent (or_text h "%")) (itoa seconds))
  | OpDropDatabase n => reads_as q (drop_database_tokens (safeIdent n))
  end.

Lemma or_text_ascii v : str_all is_ascii v = true → str_all is_ascii (or_text v "ALL") = true.
Proof. unfold or_text. by case_goal. Qed.

(** A fact about [safeIdent host], the host having been looked at. *)
Ltac as_given E K := let H := fresh in pose proof K as H; rewrite E in H; exact H.

(** C25: every statement that an operation on an account sends over the connection of the panel,
    whatever the server answers, is read by the server as the statement the operation means:
    the user name and the database without the bytes that could end them, the host and the
    password as they were given and single texts, the privileges as words and commas.  The
    privileges are to be ASCII and, for [GrantPrivileges] alone, which does not look at them and
    whose handlers do not either, ones that [DBPrivileges] accepts ([privileges_seen]). *)
Theorem account_statements (o : account_op) : privileges_seen o → sends_only (meant o) (run_account o).
Proof.
  destruct o as [engine u p h d v|u h d v|u h p|u h|u h ttl|n]; cbn [privileges_seen run_account]; intros Hv.
  - unfold CreateUser. apply only_check. intros Hpriv%prefixed_none. apply only_check. intros Hh%prefixed_none.
    apply only_check. intros Hp%prefixed_none. pose proof (safeIdent_host _ Hh) as Eh.
    apply only_bind; [apply only_exec; right; left; as_given Eh (reads_new_user engine u (or_text h "%") p Hp)|]. intros e. apply only_check. intros _.
    apply only_bind.
    { apply only_if; intros Hd; [|apply only_ret]. apply only_exec. right. right. left. bool_hyps. split; [done|].
      as_given Eh (reads_grant (or_text v "ALL") d u (or_text h "%") (or_text_ascii v Hv) Hpriv). }
    intros g. apply only_check. intros _. apply only_bind.
    { apply only_if; intros Hu; [|apply only_ret]. apply only_ignored. right. right. right. left. bool_hyps. subst u. split; [done|].
      as_given Eh (reads_grant_all "phpmyadmin" (or_text h "%")). }
    intros _. apply only_bind; [apply only_ignored; right; right; right; right; as_given Eh (reads_limits u (or_text h "%"))|].
    intros _. apply only_exec. left. apply reads_flush.
  - destruct Hv as [Ha Hp]. apply only_then; apply only_exec; [right; intros esc; by apply reads_grant|left; apply reads_flush].
  - unfold ChangePassword. apply only_check. intros Hh. apply only_check. intros Hp.
    apply only_then; apply only_exec; [right; as_given (safeIdent_host _ Hh) (reads_change_password u (or_text h "%") p Hp)|left; apply reads_flush].
  - apply only_then; apply only_exec; [right; apply reads_drop_user|left; apply reads_flush].
  - unfold ScheduleDeleteUser. apply only_bind; [apply only_exec; right; left; as_tokens|]. intros e. apply only_check. intros _.
    apply only_bind; [apply only_exec|intros; apply only_ret]. right. right.
    set (s := Z.quot _ _). exists (if s <? 60 then 60 else s). split; [case_goal; bool_hyps; lia|]. apply reads_schedule. case_goal; bool_hyps; lia.
  - apply only_exec. right. apply reads_drop_database.
Qed.
End Operations.

(** * Witness *)

(** An account whose every part is made to break out. *)
Definition hostile : account_op := OpCreateUser "MariaDB" "bob`'; DROP USER root --" "x'; DROP DATABASE shop; --" "%" "shop`; --" "select, insert".
Lemma account_statements_witness :
  (let '(e, w) := run_account (HM := obedient) hostile (World (mkSitePanel empty_db []) 0 []) in e = None ∧ length (sp_sent (data w)) = 4%nat) ∧
  sends_only (meant hostile) (run_account (HM := obedient) hostile).
Proof. split; [by vm_compute|]. apply account_statements. by vm_compute. Defined.
