(* ===== verification/DatabasesApi.v ===== *)
(** The databases of the sites and their users: src/internal/apihttp/databases.go.  A handler
    acts on the database of the panel and on the database server of Mysql.v. *)
From S2P Require Import Prelude GoStr SiteInput Json Base64 Cron Clock Sql JobStore Accounts Sites Secrets Records Panel Password Agent Guards Http Access SitesApi Mysql.
Local Open Scope Z_scope.
Local Open Scope panel_scope.

Set Default Proof Using "Type".

Notation "'db!' x := m 'in' k" := (mbind (lift m) (λ x, k))
  (at level 200, x pattern at level 0, m at level 100, k at level 200) : panel_scope.

Definition TypeDatabaseCreate := "database.create".
Definition TypeDatabaseDelete := "database.delete".
Definition TypeDBUserCreate := "dbuser.create".
Definition TypeDBUserDelete := "dbuser.delete".

Definition db_name_byte (c : ascii) : bool := is_alnum c || Ascii.eqb c "_".
Definition dbNameRegex (s : string) : bool := (1 <=? len s) && (len s <=? 64) && str_all db_name_byte s.
Definition canonicalDBHost (host : string) : string :=
  let value := to_lower (trim_space host) in
  if (value =? "")%string then "%"
  else if (value =? "127.0.0.1")%string || (value =? "::1")%string then "localhost"
  else value.
Definition canonicalDBUserKey (username host : string) : string := username +:+ "@" +:+ canonicalDBHost host.

(** What a request draws: the bytes of new passwords, the salt of a hash, the nonces of
    encrypted passwords, the bytes of a user name. *)
Record draws := mkDraws { d_password : nat → string; d_salt : nat → res string; d_nonce : random; d_suffix : res string }.
Fixpoint hex_encode (s : string) : string :=
  match s with EmptyString => "" | String c s' => String (hex_digit (code c / 16)) (String (hex_digit (code c mod 16)) (hex_encode s')) end.
Definition generateDBPassword (b : string) : string := hex_encode b.

(** [v, _ := m], nil for an error. *)
Definition row_of {A} (r : res (option A)) : option A := match r with Ok o => o | Err _ => None end.

Definition json_string (name value : string) : string := String DQ name +:+ String DQ ":" +:+ go_quote value.
Definition json_number (name : string) (value : Z) : string := String DQ name +:+ String DQ ":" +:+ itoa value.
Definition json_object (l : list string) : string := "{" +:+ join "," l +:+ "}".

Record database_body := mkDatabaseBody { bd_name : string; bd_type : string; bd_charset : string; bd_collation : string }.
Record db_user_body := mkDBUserBody { bu_username : string; bu_password : string; bu_host : string; bu_privileges : string }.

Section DatabasesApi.
Context `{HC : PayloadCipher} `{HA : AEAD} `{HP : Argon2} `{HM : MySQLServer}.

Notation handler := (handler (D := site_panel)).
Notation M_ := (M site_panel).

(** ** Access *)

(** [canAccess]: an administrator, or the owner; of a site that could not be read only an
    administrator gets past, anybody else makes the handler panic. *)
Definition can_access (c : context) (site : option site_row) : M_ (option bool) :=
  match c_session c with
  | None => mret (Some false)
  | Some sess =>
      db! u := Users.GetByID (se_user sess) in
      mret match row_of u with
           | None => Some false
           | Some user =>
               if HasRole (u_role user) RoleAdmin then Some true
               else match site with None => None | Some s => Some (owns sess s) end
           end
  end.
Definition if_owner (c : context) (site : option site_row) (refusal : reply) (k : M_ reply) : M_ reply :=
  let* a := can_access c site in
  match a with None => mret Panics | Some false => mret refusal | Some true => k end.
Definition no_database : reply := HTTPError 404 "database not found".
Definition no_user : reply := HTTPError 404 "user not found".

(** The beginning of most handlers: the row of the database, and the site it belongs to. *)
Definition with_database (c : context) (id : Z) (k : database_row → option site_row → M_ reply) : M_ reply :=
  db! r := Databases.GetByID id in
  match row_of r with
  | None => mret no_database
  | Some d => db! s := Sites.GetByID (db_site d) in if_owner c (row_of s) no_database (k d (row_of s))
  end.
Definition with_id (bad id : string) (k : Z → M_ reply) : M_ reply :=
  match parse_id id with None => mret (HTTPError 400 bad) | Some i => k i end.
(** [id, _ := strconv.ParseInt(...)]. *)
Definition loose_id (id : string) : Z := (atoi id).1.

(** ** The server *)

(** [execMySQLConn]: a new connection with the administrator's account of the default server;
    its engine, or why there is none. *)
Definition open_server (svr : db_server_row) (decrypt connect : string) : res string :=
  match DBServer.DecryptPassword (ds_password svr) with
  | Err e => Err (decrypt +:+ ": " +:+ e)
  | Ok pass => match Connect svr pass with Err e => Err (connect +:+ ": " +:+ e) | Ok engine => Ok engine end
  end.
Definition open_conn : M_ (res string) :=
  db! s := DBServer.GetDefault in
  mret match row_of s with None => Err "no database server" | Some svr => open_server svr "decrypt" "connect" end.
Definition execMySQL (fn : string → M_ error) : M_ error :=
  let* conn := open_conn in
  match conn with Err e => mret (Some e) | Ok engine => fn engine end.
Definition is_mysql (type : string) : bool := (type =? "mysql")%string.
(** [if database.Type == "mysql" { _ = h.execMySQL(fn) }]. *)
Definition on_mysql (d : database_row) (fn : string → M_ error) : M_ () :=
  if is_mysql (db_type d) then let* _ := execMySQL fn in mret () else mret ().
Definition mysql_done (type : string) (fn : string → M_ error) : M_ bool :=
  if is_mysql type then let* e := execMySQL fn in mret (bool_decide (e = None)) else mret false.

(** A job for the agent of the site; [Err]: the store failed. *)
Definition queue (site : site_row) (type descr payload : string) : M_ (res Z) :=
  lift (JobStore.Create (job_of (s_server site) (s_id site) type descr payload)).
Definition database_payload (id site : Z) (name type : string) : string :=
  json_object [json_number "database_id" id; json_number "site_id" site; json_string "name" name; json_string "type" type].
Definition user_payload (id database : Z) (d : database_row) (username password host privileges : string) : string :=
  json_object [json_number "user_id" id; json_number "database_id" database; json_string "database_name" (db_name d);
    json_string "type" (db_type d); json_string "username" username; json_string "password" password;
    json_string "host_pattern" host; json_string "privileges" privileges].
Definition user_delete_payload (u : db_user_row) (database : Z) (d : database_row) : string :=
  json_object [json_number "user_id" (du_id u); json_number "database_id" database; json_string "database_name" (db_name d);
    json_string "type" (db_type d); json_string "username" (du_username u); json_string "host_pattern" (du_host u)].
(** The site of a handler that did not check that there is one. *)
Definition deref (site : option site_row) (k : site_row → M_ reply) : M_ reply :=
  match site with None => mret Panics | Some s => k s end.
Definition audit (c : context) (action resource : string) (id : Z) (details : option json) : M_ () :=
  lift (Audit.RecordAction (caller c) action resource id details).

(** ** Databases *)

Definition createDatabase (id : string) (body : option database_body) : handler := λ c,
  with_id "invalid site id" id (λ siteID,
    db! r := Sites.GetByID siteID in
    match r with
    | Err _ => mret internal
    | Ok None => mret not_found
    | Ok (Some site) =>
        if_owner c (Some site) not_found (
          match body with
          | None => mret (HTTPError 400 "invalid body")
          | Some b =>
              if negb (dbNameRegex (bd_name b)) then mret (HTTPError 400 "invalid name (alphanumeric + underscore, 1-64)")
              else if negb (is_mysql (bd_type b)) && negb (bd_type b =? "postgres")%string
              then mret (HTTPError 400 "type must be mysql or postgres")
              else
                let charset := or_text (bd_charset b) "utf8mb4" in
                let collation := or_text (bd_collation b) "utf8mb4_unicode_ci" in
                let* mysqlOK := mysql_done (bd_type b) (λ _, CreateDatabase (bd_name b) charset collation) in
                db! d := Databases.Create siteID ("sp_" +:+ bd_name b) (bd_type b) charset collation 0 in
                match d with
                | Err _ => mret internal
                | Ok databaseID =>
                    let* jobID :=
                      if negb mysqlOK && is_mysql (bd_type b) then
                        let* j := queue site TypeDatabaseCreate ("Create database " +:+ bd_name b +:+ " on " +:+ s_domain site)
                                    (database_payload databaseID siteID (bd_name b) (bd_type b)) in
                        mret match j with Ok i => i | Err _ => 0 end
                      else mret 0 in
                    let* _ := audit c "database_create" "database" databaseID None in
                    db! _ := NotifySiteUsers siteID "db_created" "Database Created" ("Database " +:+ bd_name b +:+ " created")
                               "info" "database" 0 in
                    mret (Success 202 (JObj [("database_id", JInt databaseID); ("job_id", JInt jobID)]))
                end
          end)
    end).

Definition server_address : M_ (string * Z) :=
  db! s := DBServer.GetDefault in
  mret match row_of s with Some svr => (ds_host svr, ds_port svr) | None => ("localhost", 3306) end.
Definition database_members (d : database_row) : list (string * json) :=
  [("name", JStr (db_name d)); ("type", JStr (db_type d)); ("charset", JStr (db_charset d)); ("collation", JStr (db_collation d));
   ("size_bytes", JInt (db_size d)); ("created_at", JSeconds (db_created d))].
Definition address_members (a : string * Z) : list (string * json) := [("server_host", JStr a.1); ("server_port", JInt a.2)].
Definition counted (name : string) (l : list json) : reply :=
  Success 200 (JObj [(name, JArr l); ("count", JInt (Z.of_nat (length l)))]).

Definition listDatabases (id : string) : handler := λ c,
  let siteID := loose_id id in
  db! r := Sites.GetByID siteID in
  match row_of r with
  | None => mret not_found
  | Some site =>
      if_owner c (Some site) not_found (
        db! l := Databases.ListBySite siteID in
        match l with
        | Err _ => mret internal
        | Ok dbs =>
            let* a := server_address in
            mret (counted "databases" (map (λ d, JObj ([("id", JInt (db_id d)); ("site_id", JInt (db_site d))] ++
                                                       database_members d ++ address_members a)) dbs))
        end)
  end.

(** A loop that appends to what it has; [None]: it panicked. *)
Fixpoint collect {A} (l : list A) (body : A → M_ (option (list json))) (out : list json) : M_ (option (list json)) :=
  match l with
  | [] => mret (Some out)
  | x :: l' =>
      let* o := body x in
      match o with None => mret None | Some new => collect l' body (out ++ new) end
  end.
(** A database whose site is gone is shown to everybody. *)
Definition database_entry (c : context) (a : string * Z) (d : database_row) : M_ (option (list json)) :=
  db! r := Sites.GetByID (db_site d) in
  let entry (domain : string) : json :=
    JObj ([("id", JInt (db_id d)); ("site_id", JInt (db_site d)); ("domain", JStr domain)] ++ database_members d ++ address_members a) in
  match row_of r with
  | None => mret (Some [entry ""])
  | Some site =>
      let* ok := can_access c (Some site) in
      mret match ok with None => None | Some false => Some [] | Some true => Some [entry (s_domain site)] end
  end.
Definition listAllDatabases : handler := λ c,
  db! l := Databases.ListAll in
  match l with
  | Err _ => mret internal
  | Ok dbs =>
      let* a := server_address in
      let* out := collect dbs (database_entry c a) [] in
      mret match out with None => Panics | Some l => counted "databases" l end
  end.

(** The handlers that answer 404 for a database without its site. *)
Definition with_site_of (c : context) (d : database_row) (k : site_row → M_ reply) : M_ reply :=
  db! s := Sites.GetByID (db_site d) in
  match row_of s with
  | None => mret not_found
  | Some site => if_owner c (Some site) no_database (k site)
  end.
Definition getDatabase (id : string) : handler := λ c,
  with_id "invalid id" id (λ i,
    db! r := Databases.GetByID i in
    match r with
    | Err _ => mret internal
    | Ok None => mret no_database
    | Ok (Some d) => with_site_of c d (λ _,
        mret (Success 200 (JObj ([("id", JInt (db_id d)); ("site_id", JInt (db_site d))] ++ database_members d))))
    end).

(** [HRF]: what deleting a database deletes with it. *)
Definition deleteDatabase (id : string) : handler := λ c,
  with_id "invalid id" id (λ i,
    db! r := Databases.GetByID i in
    match row_of r with
    | None => mret no_database
    | Some d => with_site_of c d (λ site,
        let* _ := on_mysql d (λ _, DropDatabase (db_name d)) in
        let* j := queue site TypeDatabaseDelete ("Delete database " +:+ db_name d +:+ " on " +:+ s_domain site)
                    (database_payload (db_id d) (db_site d) (db_name d) (db_type d)) in
        match j with
        | Err _ => mret internal
        | Ok jobID =>
            let* _ := audit c "database_delete" "database" i None in
            db! e := Databases.Delete i in
            match e with
            | Err _ => mret internal
            | Ok _ =>
                db! _ := NotifyAdmins "db_deleted" "Database Deleted" ("Database " +:+ db_name d +:+ " deleted") "warning" "database" i in
                mret (Success 202 (JObj [("database_id", JInt i); ("job_id", JInt jobID)]))
            end
        end)
    end).

(** The text goes to the server as it is. *)
Definition alter_database_sql (name charset collation : string) : string :=
  "ALTER DATABASE " +:+ in_backquotes name +:+ " CHARACTER SET " +:+ charset +:+ " COLLATE " +:+ collation.
Definition updateDatabase (id : string) (body : option (option string * option string)) : handler := λ c,
  with_id "invalid id" id (λ i,
    with_database c i (λ d _,
      match body with
      | None => mret (HTTPError 400 "invalid body")
      | Some (charset0, collation0) =>
          let charset := default (db_charset d) charset0 in
          let collation := default (db_collation d) collation0 in
          let* _ := if bool_decide (is_Some charset0) || bool_decide (is_Some collation0)
                    then on_mysql d (λ _, ExecContext (alter_database_sql (db_name d) charset collation)) else mret () in
          db! e := Databases.UpdateCharset i charset collation in
          match e with
          | Err _ => mret internal
          | Ok _ =>
              let* _ := audit c "database_update" "database" i (Some (JObj (obj_of_list [
                ("charset_before", JStr (db_charset d)); ("charset_after", JStr charset);
                ("collation_before", JStr (db_collation d)); ("collation_after", JStr collation)]))) in
              mret (Success 200 (JObj [("id", JInt i); ("charset", JStr charset); ("collation", JStr collation)]))
          end
      end)).

(** ** Users of a database *)

Definition createDBUser (draw : draws) (id : string) (body : option db_user_body) : handler := λ c,
  with_id "invalid database id" id (λ dbID,
    with_database c dbID (λ d site,
      match body with
      | None => mret (HTTPError 400 "invalid body")
      | Some b =>
          if negb (dbNameRegex (bu_username b)) then mret (HTTPError 400 "invalid username") else
          match SiteInput.DBPassword (bu_password b) with Some e => mret (HTTPError 400 e) | None =>
          let host := canonicalDBHost (bu_host b) in
          match SiteInput.DBHost host with Some e => mret (HTTPError 400 e) | None =>
          let privileges := or_text (bu_privileges b) "ALL" in
          match SiteInput.DBPrivileges privileges with Some e => mret (HTTPError 400 e) | None =>
          let* mysqlOK := mysql_done (db_type d) (λ engine,
                            CreateUser engine (bu_username b) (bu_password b) host (db_name d) privileges) in
          match HashPassword (d_salt draw 0) (bu_password b) with
          | Err _ => mret (HTTPError 500 "hash failed")
          | Ok hashed =>
              let encrypted := if mysqlOK then match DBServer.EncryptPassword (d_nonce draw) 0 (bu_password b) with Ok e => e | Err _ => "" end
                               else "" in
              db! u := DBUsers.Create dbID (bu_username b) hashed encrypted host privileges in
              match u with
              | Err _ => mret internal
              | Ok userID =>
                  let finish (jobID : Z) : M_ reply :=
                    let* _ := audit c "dbuser_create" "dbuser" userID None in
                    db! _ := NotifySiteUsers (db_site d) "db_user_created" "DB User Created" ("User " +:+ bu_username b +:+ " created")
                               "info" "database" 0 in
                    mret (Success 202 (JObj [("user_id", JInt userID); ("username", JStr (bu_username b));
                                             ("password", JStr (bu_password b)); ("job_id", JInt jobID)])) in
                  if (mysqlOK : bool) then finish 0
                  else deref site (λ site,
                    let* j := queue site TypeDBUserCreate ("Create user " +:+ bu_username b +:+ " for " +:+ s_domain site)
                                (user_payload userID dbID d (bu_username b) (bu_password b) host privileges) in
                    match j with Err _ => mret internal | Ok jobID => finish jobID end)
              end
          end end end end
      end)).

Definition user_entry (u : db_user_row) : json :=
  JObj [("id", JInt (du_id u)); ("database_id", JInt (du_database u)); ("username", JStr (du_username u));
        ("host_pattern", JStr (du_host u)); ("privileges", JStr (du_privileges u)); ("created_at", JSeconds (du_created u))].
Definition listDBUsers (id : string) : handler := λ c,
  let dbID := loose_id id in
  with_database c dbID (λ d _,
    db! l := DBUsers.ListByDatabase dbID in
    mret match l with Err _ => internal | Ok users => counted "users" (map user_entry users) end).

Definition global_user_entry (d : database_row) (domain : string) (u : db_user_row) : json :=
  JObj [("id", JInt (du_id u)); ("database_id", JInt (du_database u)); ("database_name", JStr (db_name d)); ("site_id", JInt (db_site d));
        ("domain", JStr domain); ("username", JStr (du_username u)); ("host_pattern", JStr (du_host u));
        ("privileges", JStr (du_privileges u)); ("created_at", JSeconds (du_created u))].
Definition users_of_database (c : context) (d : database_row) : M_ (option (list json)) :=
  db! r := Sites.GetByID (db_site d) in
  let site := row_of r in
  let* ok := can_access c site in
  match ok with
  | None => mret None
  | Some false => mret (Some [])
  | Some true =>
      db! l := DBUsers.ListByDatabase (db_id d) in
      mret (Some match l with
                 | Err _ => []
                 | Ok users => map (global_user_entry d (match site with Some s => s_domain s | None => "" end)) users
                 end)
  end.
Definition listAllDBUsers : handler := λ c,
  db! l := Databases.ListAll in
  match l with
  | Err _ => mret internal
  | Ok dbs =>
      let* out := collect dbs (users_of_database c) [] in
      mret match out with None => Panics | Some l => counted "users" l end
  end.

(** The row of a user of the database [dbID]. *)
Definition user_in (dbID : Z) (r : res (option db_user_row)) : option db_user_row :=
  match row_of r with Some u => if du_database u =? dbID then Some u else None | None => None end.
Definition rotateDBUserPassword (draw : draws) (id user_id : string) : handler := λ c,
  let dbID := loose_id id in
  let uID := loose_id user_id in
  with_database c dbID (λ d site,
    db! r := DBUsers.GetByID uID in
    match user_in dbID r with
    | None => mret no_user
    | Some u =>
        let newPassword := generateDBPassword (d_password draw 0) in
        let* _ := on_mysql d (λ _, ChangePassword (du_username u) (du_host u) newPassword) in
        match HashPassword (d_salt draw 0) newPassword with
        | Err _ => mret (HTTPError 500 "hash failed")
        | Ok hashed =>
            db! e := DBUsers.UpdatePassword (du_id u) hashed in
            match e with
            | Err _ => mret internal
            | Ok _ => deref site (λ site,
                let* j := queue site TypeDBUserCreate ("Rotate password for " +:+ du_username u +:+ " on " +:+ s_domain site)
                            (user_payload (du_id u) dbID d (du_username u) newPassword (du_host u) (du_privileges u)) in
                match j with
                | Err _ => mret internal
                | Ok jobID =>
                    let* _ := audit c "dbuser_password_rotate" "dbuser" (du_id u) None in
                    mret (Success 202 (JObj [("user_id", JInt (du_id u)); ("username", JStr (du_username u));
                                             ("password", JStr newPassword); ("job_id", JInt jobID)]))
                end)
            end
        end
    end).

Definition deleteDBUser (id user_id : string) : handler := λ c,
  let dbID := loose_id id in
  db! r := DBUsers.GetByID (loose_id user_id) in
  match user_in dbID r with
  | None => mret no_user
  | Some u =>
      db! o := Databases.GetByID dbID in
      match row_of o with
      | None => mret Panics
      | Some d =>
          db! s := Sites.GetByID (db_site d) in
          if_owner c (row_of s) no_user (
            let* _ := on_mysql d (λ _, DeleteUser (du_username u) (du_host u)) in
            deref (row_of s) (λ site,
              let* j := queue site TypeDBUserDelete ("Delete user " +:+ du_username u +:+ " from " +:+ s_domain site)
                          (user_delete_payload u dbID d) in
              match j with
              | Err _ => mret internal
              | Ok jobID =>
                  let* _ := audit c "dbuser_delete" "dbuser" (du_id u) None in
                  db! e := DBUsers.Delete (du_id u) in
                  mret match e with
                       | Err _ => internal
                       | Ok _ => Success 202 (JObj [("user_id", JInt (du_id u)); ("job_id", JInt jobID)])
                       end
              end))
      end
  end.

Record user_update := mkUserUpdate { uu_host : option string; uu_privileges : option string }.
(** What changes on the server: the account is dropped and, when its password is known, made
    again under the new host, or it is granted the privileges. *)
Definition move_account (u : db_user_row) (d : database_row) (b : user_update) (newHost newPrivs engine : string) : M_ error :=
  if match uu_host b with Some h => negb (h =? du_host u)%string | None => false end then
    and_then (DeleteUser (du_username u) (du_host u)) (
      if (du_encrypted u =? "")%string then mret nil_error
      else match DBServer.DecryptPassword (du_encrypted u) with
           | Err _ => mret nil_error
           | Ok pass => CreateUser engine (du_username u) pass newHost (db_name d) newPrivs
           end)
  else GrantPrivileges (du_username u) newHost (db_name d) newPrivs.
Definition updateDBUser (id : string) (body : option user_update) : handler := λ c,
  with_id "invalid user id" id (λ userID,
    db! r := DBUsers.GetByID userID in
    match row_of r with
    | None => mret no_user
    | Some u =>
        db! o := Databases.GetByID (du_database u) in
        match row_of o with
        | None => mret no_database
        | Some d =>
            db! s := Sites.GetByID (db_site d) in
            if_owner c (row_of s) no_user (
              match body with
              | None => mret (HTTPError 400 "invalid body")
              | Some b =>
                  let newHost := match uu_host b with Some h => canonicalDBHost h | None => du_host u end in
                  let newPrivs := default (du_privileges u) (uu_privileges b) in
                  match (if bool_decide (is_Some (uu_host b)) then SiteInput.DBHost newHost else nil_error) with
                  | Some e => mret (HTTPError 400 e)
                  | None =>
                  match (if bool_decide (is_Some (uu_privileges b)) then SiteInput.DBPrivileges newPrivs else nil_error) with
                  | Some e => mret (HTTPError 400 e)
                  | None =>
                      let needsMySQL := bool_decide (is_Some (uu_host b)) || bool_decide (is_Some (uu_privileges b)) in
                      let* _ := if needsMySQL then on_mysql d (move_account u d b newHost newPrivs) else mret () in
                      db! e := DBUsers.UpdateHostAndPrivileges (du_id u) newHost newPrivs in
                      match e with
                      | Err _ => mret internal
                      | Ok _ =>
                          let* _ := audit c "dbuser_update" "dbuser" (du_id u) (Some (JObj (obj_of_list [
                            ("host_before", JStr (du_host u)); ("host_after", JStr newHost);
                            ("privs_before", JStr (du_privileges u)); ("privs_after", JStr newPrivs)]))) in
                          mret (Success 200 (JObj [("id", JInt (du_id u)); ("username", JStr (du_username u));
                                                   ("host_pattern", JStr newHost); ("privileges", JStr newPrivs)]))
                      end
                  end end
              end)
        end
    end).

(** *** Accounts of the server *)

Definition user_key (u : db_user_row) : string := canonicalDBUserKey (du_username u) (du_host u).
Definition rows_of {A} (r : res (list A)) : list A := match r with Ok l => l | Err _ => [] end.
(** The grant to an account that is not yet a user of the database: it gets a new password. *)
Definition grant_new (draw : draws) (c : context) (dbID : Z) (d : database_row) (b : db_user_body) (host privileges : string) : M_ reply :=
  let* _ := on_mysql d (λ _, let* _ := GrantPrivileges (bu_username b) host (db_name d) privileges in mret nil_error) in
  let newPassword := generateDBPassword (d_password draw 0) in
  let hashed := match HashPassword (d_salt draw 0) newPassword with Ok h => h | Err _ => "" end in
  let encrypted := if is_mysql (db_type d)
                   then match DBServer.EncryptPassword (d_nonce draw) 0 newPassword with Ok e => e | Err _ => "" end else "" in
  let* _ := on_mysql d (λ _, ChangePassword (bu_username b) host newPassword) in
  db! u := DBUsers.Create dbID (bu_username b) hashed encrypted host privileges in
  match u with
  | Err _ => mret internal
  | Ok userID =>
      let* _ := audit c "dbuser_grant" "dbuser" userID None in
      mret (Success 201 (JObj [("user_id", JInt userID); ("username", JStr (bu_username b)); ("password", JStr newPassword)]))
  end.
Definition grantExistingUser (draw : draws) (id : string) (body : option db_user_body) : handler := λ c,
  with_id "invalid database id" id (λ dbID,
    with_database c dbID (λ d _,
      match body with
      | None => mret (HTTPError 400 "invalid body")
      | Some b =>
          if (bu_username b =? "")%string then mret (HTTPError 400 "username required") else
          let host := canonicalDBHost (bu_host b) in
          let privileges := or_text (bu_privileges b) "ALL" in
          db! l := DBUsers.ListByDatabase dbID in
          match List.find (λ u, (user_key u =? canonicalDBUserKey (bu_username b) host)%string) (rows_of l) with
          | Some u =>
              let* _ := on_mysql d (λ _, GrantPrivileges (bu_username b) host (db_name d) privileges) in
              db! e := DBUsers.UpdateHostAndPrivileges (du_id u) host privileges in
              match e with
              | Err _ => mret internal
              | Ok _ =>
                  let* _ := audit c "dbuser_grant_update" "dbuser" (du_id u) None in
                  mret (Success 200 (JObj [("user_id", JInt (du_id u)); ("username", JStr (bu_username b));
                                           ("host_pattern", JStr host); ("action", JStr "updated")]))
              end
          | None => grant_new draw c dbID d b host privileges
          end
      end)).

(** The accounts whose key is not among the ones seen, the first of each key. *)
Fixpoint unassigned (seen : list string) (l : list (string * string)) : list (string * string) :=
  match l with
  | [] => []
  | (username, h) :: l' =>
      let host := canonicalDBHost h in
      let key := canonicalDBUserKey username host in
      if str_in seen key then unassigned seen l' else (username, host) :: unassigned (key :: seen) l'
  end.
Definition listAvailableMySQLUsers (id : string) : handler := λ c,
  with_id "invalid database id" id (λ dbID,
    with_database c dbID (λ d _,
      db! l := DBUsers.ListByDatabase dbID in
      let* accounts :=
        if is_mysql (db_type d) then
          let* conn := open_conn in
          match conn with Err _ => mret [] | Ok _ => let* u := ListUsers in mret (rows_of u) end
        else mret [] in
      mret (counted "users" (map (λ a, JObj [("username", JStr a.1); ("host", JStr a.2)]) (unassigned (map user_key (rows_of l)) accounts))))).

(** *** phpMyAdmin *)

(** [extractPHPVar]: the text between quotes, of either kind, after the first assignment. *)
Definition php_space (c : ascii) : bool := chr_in (String " " (String (byte 9) (String LF (String (byte 12) (String CR ""))))) c.
Definition php_quote (c : ascii) : bool := Ascii.eqb c SQ || Ascii.eqb c DQ.
Definition skip_space (s : string) : string := (span php_space s).2.
Definition php_value (s : string) : option string :=
  match skip_space s with
  | String eq s1 =>
      if Ascii.eqb eq "=" then
        match skip_space s1 with
        | String q s2 =>
            let '(v, rest) := span (λ c, negb (php_quote c)) s2 in
            if php_quote q && negb (v =? "")%string && negb (rest =? "")%string then Some v else None
        | EmptyString => None
        end
      else None
  | EmptyString => None
  end.
Fixpoint extractPHPVar (content varName : string) : string :=
  let here := let p := "$" +:+ varName in if has_prefix content p then php_value (str_drop (String.length p) content) else None in
  match here, content with
  | Some v, _ => v
  | None, String _ s => extractPHPVar s varName
  | None, EmptyString => ""
  end.

(** The first user whose stored password decrypts to one that is not empty. *)
Fixpoint stored_login (l : list db_user_row) : option (string * string * string) :=
  match l with
  | [] => None
  | u :: l' =>
      if (du_encrypted u =? "")%string then stored_login l'
      else match DBServer.DecryptPassword (du_encrypted u) with
           | Ok p => if negb (p =? "")%string then Some (du_username u, p, du_host u) else stored_login l'
           | Err _ => stored_login l'
           end
  end.
Definition login_reply (username password host : string) : reply :=
  Success 200 (JObj [("username", JStr username); ("password", JStr password); ("host", JStr host)]).
(** [config]: the text of /etc/phpmyadmin/config-db.php. *)
Definition control_login (config : option string) : reply :=
  match config with
  | None => HTTPError 500 "phpmyadmin config not found"
  | Some cfg =>
      let user := extractPHPVar cfg "dbuser" in
      let pass := extractPHPVar cfg "dbpass" in
      if (user =? "")%string || (pass =? "")%string then HTTPError 500 "phpmyadmin credentials not configured"
      else login_reply user pass "localhost"
  end.
(** A failed read of four random bytes leaves zeros. *)
Definition suffix_or (zero : string) (s : res string) : string := match s with Ok b => b | Err _ => zero end.
Definition pmaCredentials (draw : draws) (config : option string) (id : string) : handler := λ c,
  match c_session c with
  | None => mret (HTTPError 401 "not authenticated")
  | Some _ =>
      with_id "invalid database id" id (λ dbID,
        with_database c dbID (λ d _,
          db! l := DBUsers.ListByDatabase dbID in
          match stored_login (rows_of l) with
          | Some (username, password, host) => mret (login_reply username password host)
          | None =>
              let username := "pma_" +:+ itoa (db_id d) +:+ "_" +:+
                              hex_encode (suffix_or (String (byte 0) (String (byte 0) (String (byte 0) (String (byte 0) "")))) (d_suffix draw)) in
              let password := generateDBPassword (d_password draw 0) in
              let* ok := mysql_done (db_type d) (λ engine, CreateUser engine username password "localhost" (db_name d) "ALL") in
              mret (if ok : bool then login_reply username password "localhost" else control_login config)
          end))
  end.

Record ticket := mkTicket { ti_database : Z; ti_expires : Z; ti_signature : string }.
(** [mac]: the encoded HMAC-SHA256 of a message under a secret; [secret]: the variable
    SIGARDAPANEL_PMA_SECRET. *)
Definition dedicated_login (username password engine : string) (d : database_row) : M_ error :=
  let* e := CreateUser engine username password "localhost" (db_name d) "ALL" in
  check (prefixed "create dedicated user" e) (
    let* e := ScheduleDeleteUser username "localhost" (Hour + Minute) in
    match e with
    | None => mret nil_error
    | Some m => let* _ := DeleteUser username "localhost" in mret (errorf ("schedule dedicated user cleanup: " +:+ m))
    end).
Definition phpMyAdminCredentials (mac : string → string → string) (secret : string) (draw : draws) (body : option ticket) : M_ reply :=
  match body with
  | None => mret (HTTPError 400 "valid database_id required")
  | Some b =>
      if ti_database b <=? 0 then mret (HTTPError 400 "valid database_id required") else
      let* now := time_Now in
      if (len secret <? 32) || (ti_expires b <=? now / Second) || ((now + 2 * Minute) / Second <? ti_expires b)
      then mret (HTTPError 401 "invalid signed request")
      else if negb (mac secret (itoa (ti_database b) +:+ ":" +:+ itoa (ti_expires b)) =? ti_signature b)%string
      then mret (HTTPError 401 "invalid signed request")
      else
        db! r := Databases.GetByID (ti_database b) in
        match row_of r with
        | None => mret (HTTPError 404 "mysql database not found")
        | Some d =>
            if negb (is_mysql (db_type d)) then mret (HTTPError 404 "mysql database not found") else
            match d_suffix draw with
            | Err _ => mret (HTTPError 500 "credential generation failed")
            | Ok suffix =>
                let username := "sp_pma_" +:+ itoa (db_id d) +:+ "_" +:+ hex_encode suffix in
                let password := generateDBPassword (d_password draw 0) in
                let* e := execMySQL (λ engine, dedicated_login username password engine d) in
                mret match e with
                     | Some _ => HTTPError 500 "failed to prepare phpMyAdmin login"
                     | None => Success 200 (JObj [("username", JStr username); ("password", JStr password)])
                     end
            end
        end
  end.

(** The users of one database, then the next; [i] passwords were drawn and [n] were reset. *)
Definition needs_reset (u : db_user_row) : bool := (du_hash u =? "imported")%string || (du_encrypted u =? "")%string.
Fixpoint reset_users (draw : draws) (l : list db_user_row) (i : nat) (n : Z) : M_ (nat * Z) :=
  match l with
  | [] => mret (i, n)
  | u :: l' =>
      if negb (needs_reset u) then reset_users draw l' i n
      else
        let newPassword := generateDBPassword (d_password draw i) in
        let* e := ChangePassword (du_username u) (du_host u) newPassword in
        match e with
        | Some _ => reset_users draw l' (S i) n
        | None =>
            match DBServer.EncryptPassword (d_nonce draw) i newPassword with
            | Err _ => reset_users draw l' (S i) n
            | Ok encrypted =>
                db! x := DBUsers.UpdateEncryptedPassword (du_id u) encrypted in
                match x with
                | Err _ => reset_users draw l' (S i) n
                | Ok _ =>
                    let* _ := match HashPassword (d_salt draw i) newPassword with
                              | Ok h => if negb (h =? "")%string then db! _ := DBUsers.UpdatePassword (du_id u) h in mret () else mret ()
                              | Err _ => mret ()
                              end in
                    reset_users draw l' (S i) (n + 1)
                end
            end
        end
  end.
Fixpoint reset_databases (draw : draws) (l : list database_row) (i : nat) (n : Z) : M_ Z :=
  match l with
  | [] => mret n
  | d :: l' =>
      db! users := DBUsers.ListByDatabase (db_id d) in
      match users with
      | Err _ => reset_databases draw l' i n
      | Ok us => let* x := reset_users draw us i n in reset_databases draw l' x.1 x.2
      end
  end.
Definition phpMyAdminResetPasswords (draw : draws) : handler := λ c,
  db! s := DBServer.GetDefault in
  match row_of s with
  | None => mret (HTTPError 404 "no database server configured")
  | Some svr =>
      match DBServer.DecryptPassword (ds_password svr) with
      | Err _ => mret (HTTPError 500 "decrypt failed")
      | Ok pass =>
          match Connect svr pass with
          | Err e => mret (HTTPError 424 ("mysql connection failed: " +:+ e))
          | Ok _ =>
              db! dbs := Databases.ListAll in
              let* n := reset_databases draw (rows_of dbs) 0 0 in
              let* _ := audit c "phpmyadmin_reset_passwords" "database" 0 (Some (JObj [("reset_count", JInt n)])) in
              mret (Success 200 (JObj [("reset_count", JInt n)]))
          end
      end
  end.

(** *** SQL of an administrator *)

Definition reads_rows (sql : string) : bool :=
  let upper := to_upper (trim_space sql) in has_prefix upper "SELECT" || has_prefix upper "SHOW" || has_prefix upper "DESCRIBE".
Definition rows_text (q : list string * list (list (option string))) : string :=
  join (String LF "") (map (join (String (byte 9) "")) (q.1 :: map (map (default "NULL")) q.2)).
(** A query has a connection of its own. *)
Definition run_query (sql : string) : M_ (res string) :=
  db! s := DBServer.GetDefault in
  match row_of s with
  | None => mret (Err "no database server configured")
  | Some svr =>
      match DBServer.DecryptPassword (ds_password svr) with
      | Err e => mret (Err ("decrypt failed: " +:+ e))
      | Ok _ => let* q := QueryContext sql in mret match q with Ok q => Ok (rows_text q) | Err e => Err e end
      end
  end.
Definition execSQL (body : option string) : M_ reply :=
  let sql := default "" body in
  if (sql =? "")%string then mret (HTTPError 400 "sql required") else
  let* conn := open_conn in
  let* r := match conn with
            | Err e => mret (Err e)
            | Ok _ =>
                if reads_rows sql then run_query sql
                else let* e := ExecContext sql in
                     match e with
                     | Some m => mret (Err m)
                     | None => let* n := RowsAffected sql in mret (Ok ("OK (" +:+ itoa n +:+ " rows affected)"))
                     end
            end in
  mret match r with Err e => HTTPError 500 e | Ok result => Success 200 (JObj [("result", JStr result)]) end.
End DatabasesApi.

(** * Facts *)

(** ** Statements on the database of the panel *)

Lemma wp_lift {A} (m : M db A) (Q : A → world site_panel → Prop) (w : world site_panel) :
  wp m (λ a w', Q a (World (mkSitePanel (data w') (sp_sent (data w))) (clock w') (faults w')))
    (World (sp_db (data w)) (clock w) (faults w)) → wp (lift m) Q w.
Proof. unfold wp, lift. by destruct (m _). Qed.
(** Looking a row up by its id. *)
Lemma wp_lookup {A B} `{Hh : Has A db} `{HI : HasId A} (msg : string) (i : Z) (k : res (option A) → M site_panel B)
    (Q : B → world site_panel → Prop) (w : world site_panel) :
  (∀ r w', data w' = data w → (∀ x, row_of r = Some x → get_row i (tab (sp_db (data w))) = Some x) → wp (k r) Q w') →
  wp (mbind (lift (wrap msg (query (λ _ d, get_row i (tab (Has := Hh) d))))) k) Q w.
Proof.
  intros H. apply wp_bind, wp_lift. destruct w as [[d s] n fs]. wp_run.
  - by apply H.
  - by apply H.
Qed.

(** ** Who may manage a database *)

Section Isolation.
Context `{HC : PayloadCipher} `{HA : AEAD} `{HP : Argon2} `{HM : MySQLServer}.
(** HMAC, the secret of phpMyAdmin and its configuration; what the request draws. *)
Context (config : option string) (draw : draws).

(** The caller is a user who is an administrator or owns the site. *)
Definition manages (c : context) (site : option site_row) (d : db) : Prop :=
  ∃ sess user, c_session c = Some sess ∧ get_row (se_user sess) (t_users d) = Some user ∧
    (HasRole (u_role user) RoleAdmin = true ∨ ∃ s, site = Some s ∧ s_owner s = Some (se_user sess)).
Lemma can_access_wp c site w :
  wp (can_access c site) (λ b w', data w' = data w ∧ (b = Some true → manages c site (sp_db (data w)))) w.
Proof.
  unfold can_access. destruct (c_session c) as [sess|] eqn:Es; [|wp_step; done].
  unfold Users.GetByID, Users.scan_query. apply wp_lookup. intros r w' Hd Hr. wp_step. split; [done|].
  destruct (row_of r) as [user|]; [|done]. specialize (Hr user eq_refl).
  destruct (HasRole _ _) eqn:E; [intros _; exists sess, user; auto|].
  destruct site as [s|]; [|done]. intros [= Ho]. unfold owns in Ho. bool_hyps. exists sess, user. split; [done|]. split; [done|]. right. by exists s.
Qed.

Definition denied (r : reply) : Prop := r = Panics ∨ ∃ s m, r = HTTPError s m ∧ 400 ≤ s.
Definition guarded (p : Prop) (w : world site_panel) (r : reply) (w' : world site_panel) : Prop :=
  p ∨ data w' = data w ∧ denied r.
Lemma denied_error s m : 400 ≤ s → denied (HTTPError s m).
Proof. intros H. right. by exists s, m. Qed.
Lemma wp_guarded (p : Prop) w w' (m : M site_panel reply) : data w' = data w → p → wp m (guarded p w) w'.
Proof. intros _ H. unfold wp. destruct (m w'). by left. Qed.
Lemma if_owner_guarded (p : Prop) c site refusal k w w' :
  data w' = data w → (manages c site (sp_db (data w)) → p) → denied refusal → wp (if_owner c site refusal k) (guarded p w) w'.
Proof.
  intros Hd Hp Hr. unfold if_owner. apply wp_bind. eapply wp_mono; [|apply can_access_wp]. intros [[]|] w1 [Hd1 Hm]; cbv beta in *.
  - apply wp_guarded; [congruence|]. apply Hp. rewrite Hd in Hm. by apply Hm.
  - wp_step. right. split; [congruence|done].
  - wp_step. right. split; [congruence|by left].
Qed.

(** The requests about one database or one of its users, by the ids in their paths; those
    about the databases of a site have the id of the site. *)
Inductive db_request :=
| DBCreate (site : string) (body : option database_body) | DBList (site : string)
| DBGet (id : string) | DBDelete (id : string) | DBUpdate (id : string) (body : option (option string * option string))
| UserCreate (id : string) (body : option db_user_body) | UserList (id : string)
| UserRotate (id user : string) | UserDelete (id user : string) | UserUpdate (user : string) (body : option user_update)
| UserGrant (id : string) (body : option db_user_body) | UsersAvailable (id : string) | PMACredentials (id : string).
Definition handle_db (r : db_request) : handler (D := site_panel) :=
  match r with
  | DBCreate s b => createDatabase s b
  | DBList s => listDatabases s
  | DBGet i => getDatabase i
  | DBDelete i => deleteDatabase i
  | DBUpdate i b => updateDatabase i b
  | UserCreate i b => createDBUser draw i b
  | UserList i => listDBUsers i
  | UserRotate i u => rotateDBUserPassword draw i u
  | UserDelete i u => deleteDBUser i u
  | UserUpdate u b => updateDBUser u b
  | UserGrant i b => grantExistingUser draw i b
  | UsersAvailable i => listAvailableMySQLUsers i
  | PMACredentials i => pmaCredentials draw config i
  end.
(** The site the request is about: that of the path, of the database, or of the database of the
    user. *)
Definition site_of_database (i : Z) (d : db) : option site_row :=
  match get_row i (t_databases d) with Some x => get_row (db_site x) (t_sites d) | None => None end.
Definition site_of_request (r : db_request) (d : db) : option site_row :=
  match r with
  | DBCreate s _ | DBList s => get_row (loose_id s) (t_sites d)
  | UserUpdate u _ => match get_row (loose_id u) (t_db_users d) with Some x => site_of_database (du_database x) d | None => None end
  | DBGet i | DBDelete i | DBUpdate i _ | UserCreate i _ | UserList i | UserRotate i _ | UserDelete i _ | UserGrant i _
  | UsersAvailable i | PMACredentials i => site_of_database (loose_id i) d
  end.

Lemma manages_some c site (o : option site_row) d : (∀ x, site = Some x → o = Some x) → manages c site d → manages c o d.
Proof.
  intros H (sess & user & H1 & H2 & H3). exists sess, user. split; [done|]. split; [done|].
  destruct H3 as [H3|(s & Hs & Ho)]; [by left|right]. exists s. split; [by apply H|done].
Qed.
Lemma with_id_guarded (p : Prop) bad id k w w' :
  data w' = data w → (∀ i, i = loose_id id → wp (k i) (guarded p w) w') → wp (with_id bad id k) (guarded p w) w'.
Proof.
  intros Hd Hk. unfold with_id, parse_id. destruct (atoi id) as [i ok] eqn:E. destruct (negb ok || _).
  - wp_step. right. split; [done|]. by apply denied_error.
  - apply Hk. unfold loose_id. by rewrite E.
Qed.
Lemma with_database_guarded c i k w w' :
  data w' = data w → wp (with_database c i k) (guarded (manages c (site_of_database i (sp_db (data w))) (sp_db (data w))) w) w'.
Proof.
  intros Hd. unfold with_database, Databases.GetByID. apply wp_lookup. intros r w1 Hd1 Hr.
  destruct (row_of r) as [d|] eqn:Er; [|wp_step; right; split; [congruence|by apply denied_error]].
  unfold Sites.GetByID. apply wp_lookup. intros s w2 Hd2 Hs. apply if_owner_guarded; [congruence| |by apply denied_error].
  apply manages_some. intros x Hx. unfold site_of_database. specialize (Hr d eq_refl). rewrite Hd in Hr. cbn in Hr. rewrite Hr.
  specialize (Hs x Hx). rewrite Hd1, Hd in Hs. exact Hs.
Qed.

Ltac guard_step :=
  lazymatch goal with
  | |- wp (mbind (lift (Sites.GetByID _)) _) _ _ => unfold Sites.GetByID; apply wp_lookup; intros ? ? ? ?
  | |- wp (mbind (lift (Databases.GetByID _)) _) _ _ => unfold Databases.GetByID; apply wp_lookup; intros ? ? ? ?
  | |- wp (mbind (lift (DBUsers.GetByID _)) _) _ _ => unfold DBUsers.GetByID; apply wp_lookup; intros ? ? ? ?
  | |- wp (if_owner _ _ _ _) _ _ => apply if_owner_guarded; [congruence| |by apply denied_error]
  | |- wp (mret Panics) _ _ => wp_step; right; split; [congruence|by left]
  | |- wp (mret _) _ _ => wp_step; right; split; [congruence|by apply denied_error]
  | |- wp (match ?x with _ => _ end) _ _ => let E := fresh "E" in destruct x eqn:E
  end; cbn [row_of] in *.

(** The rows that were looked up are those of the state before the request. *)
Ltac found :=
  apply manages_some; intros ? Hx; unfold site_of_database;
  repeat match goal with H : Some _ = Some _ |- _ => injection H as -> end;
  repeat match goal with
  | H : ∀ x, Some ?s = Some x → _ |- _ => specialize (H s eq_refl)
  | H : ∀ x, ?o = Some x → _, H2 : ?o = Some ?y |- _ => specialize (H y H2)
  | H : data ?a = data ?b, H2 : context [data ?a] |- _ => rewrite H in H2
  end;
  repeat match goal with
  | H : get_row ?i _ = Some ?x |- context [get_row ?i ?t] => change (get_row i t = Some x) in H; rewrite H; clear H
  end; done.

(** C24: who may touch a database: each of the thirteen requests about a database, its users or the
    databases of a site either changes nothing, on the panel and on the database server, and is
    answered with an error, or the caller is an administrator or the owner of the site the
    database belongs to. *)
Theorem databases_isolation (r : db_request) (c : context) (w : world site_panel) :
  wp (handle_db r c) (λ rep w', manages c (site_of_request r (sp_db (data w))) (sp_db (data w)) ∨ data w' = data w ∧ denied rep) w.
Proof.
  change (wp (handle_db r c) (guarded (manages c (site_of_request r (sp_db (data w))) (sp_db (data w))) w) w).
  destruct r; cbn [handle_db site_of_request].
  all: try (apply with_id_guarded; [done|]; intros i ->).
  all: try (by apply with_database_guarded).
  all: try (unfold deleteDBUser, listDatabases, pmaCredentials, with_site_of).
  all: repeat guard_step.
  7: (apply with_id_guarded; [done|]; intros i ->; by apply with_database_guarded).
  all: found.
Qed.
End Isolation.

(** ** The grant of a database to an account of the server *)

Section Grant.
Context `{HC : PayloadCipher} `{HA : AEAD} `{HP : Argon2} `{HM : MySQLServer}.

(** Without faults a query reads what it says. *)
Lemma lift_query {A} (msg : string) (f : Z → db → A) (p : site_panel) (n : Z) :
  lift (wrap msg (query f)) (World p n []) = (Ok (f n (sp_db p)), World p n []).
Proof. by destruct p. Qed.
Lemma can_access_ok c site p n : manages c site (sp_db p) → can_access c site (World p n []) = (Some true, World p n []).
Proof.
  intros (sess & user & Es & Eu & H). unfold can_access. rewrite Es. unfold mbind at 1. unfold Users.GetByID, Users.scan_query.
  rewrite lift_query. cbn [row_of]. change (get_row (se_user sess) (tab (sp_db p))) with (get_row (se_user sess) (t_users (sp_db p))).
  rewrite Eu. unfold mret. destruct (HasRole _ _); [done|]. destruct H as [H|(s & -> & Ho)]; [done|].
  unfold owns. by rewrite bool_decide_eq_true_2.
Qed.

(** The server is reached, and refuses nothing. *)
Record server_obeys (p : site_panel) : Prop := {
  so_server : ∃ svr pass, select_one DBServer.default_server (t_db_servers (sp_db p)) = Some svr ∧
                DBServer.DecryptPassword (ds_password svr) = Ok pass ∧ connects svr pass = None;
  so_fails : ∀ sent q, fails_with sent q = None }.
Lemma open_conn_ok p n : server_obeys p → open_conn (World p n []) = (Ok (engine_of version), World p n []).
Proof.
  intros [(svr & pass & E1 & E2 & E3) _]. unfold open_conn, mbind, DBServer.GetDefault. destruct p as [d s]. unfold lift, query. cbn [data clock faults sp_db] in *.
  rewrite stmt_ok. cbn [row_of data clock faults]. change (select_one DBServer.default_server (tab d)) with (select_one DBServer.default_server (t_db_servers d)).
  rewrite E1. unfold open_server, Connect. by rewrite E2, E3.
Qed.
Lemma exec_obeyed p n q : server_obeys p → ExecContext q (World p n []) = (None, World (mkSitePanel (sp_db p) (sp_sent p ++ [q])) n []).
Proof. intros [_ H]. unfold ExecContext. cbn. by rewrite H. Qed.
Lemma obeys_sent p d s : server_obeys p → sp_db p = d → server_obeys (mkSitePanel d s).
Proof. intros [H1 H2] <-. by split. Qed.

Definition sends (m : M site_panel error) (l : list string) : Prop :=
  ∀ p n, server_obeys p → m (World p n []) = (None, World (mkSitePanel (sp_db p) (sp_sent p ++ l)) n []).
Lemma sends_exec q : sends (ExecContext q) [q].
Proof. intros p n. apply exec_obeyed. Qed.
Lemma sends_then m k l l' : sends m l → sends k l' → sends (and_then m k) (l ++ l').
Proof.
  intros Hm Hk p n H. unfold and_then, mbind. rewrite Hm by done. rewrite Hk by (by apply (obeys_sent p)). cbn. by rewrite List.app_assoc.
Qed.
Lemma sends_grant username host database privileges :
  sends (GrantPrivileges username host database privileges) [grant_sql privileges database username host; flush].
Proof. apply (sends_then _ _ [_] [_]); apply sends_exec. Qed.
Lemma sends_change username host password : SiteInput.DBHost host = nil_error → SiteInput.DBPassword password = nil_error →
  sends (ChangePassword username host password) [change_password_sql username host password; flush].
Proof.
  intros H1 H2. unfold ChangePassword, or_text. replace (if (host =? "")%string then "%" else host) with host.
  - rewrite H1, H2. cbn [check]. apply (sends_then _ _ [_] [_]); apply sends_exec.
  - case_goal; [|done]. bool_hyps. by subst.
Qed.
Lemma sends_on_mysql d fn l p n :
  is_mysql (db_type d) = true → server_obeys p → (∀ engine, ∃ r, ∀ p n, server_obeys p → fn engine (World p n []) = (r, World (mkSitePanel (sp_db p) (sp_sent p ++ l)) n [])) →
  on_mysql d fn (World p n []) = ((), World (mkSitePanel (sp_db p) (sp_sent p ++ l)) n []).
Proof.
  intros Hd Hp Hf. unfold on_mysql, execMySQL, mbind. rewrite Hd, open_conn_ok by done.
  destruct (Hf (engine_of version)) as (r & Hr). by rewrite Hr.
Qed.


Lemma hex_password (b : string) : (4 ≤ String.length b ≤ 64)%nat → SiteInput.DBPassword (hex_encode b) = nil_error.
Proof.
  intros H. assert (len (hex_encode b) = 2 * Z.of_nat (String.length b) ∧
    str_all (λ r, negb ((code r <? 32) || (code r =? 127) || Ascii.eqb r BS)) (hex_encode b) = true) as [Hl Hc].
  { clear H. unfold len. induction b as [|c b [IH1 IH2]]; [done|]. cbn [hex_encode String.length str_all]. rewrite IH2, !andb_true_r. split; [lia|].
    pose proof (forallb_forall (λ c, negb ((code (hex_digit (code c / 16)) <? 32) || (code (hex_digit (code c / 16)) =? 127) || Ascii.eqb (hex_digit (code c / 16)) BS) &&
      negb ((code (hex_digit (code c mod 16)) <? 32) || (code (hex_digit (code c mod 16)) =? 127) || Ascii.eqb (hex_digit (code c mod 16)) BS)) all_bytes) as [F _].
    apply F; [by vm_compute|apply all_bytes_in]. }
  unfold SiteInput.DBPassword. rewrite Hl, Hc. destruct (Z.ltb_spec (2 * Z.of_nat (String.length b)) 8); [lia|].
  destruct (Z.ltb_spec 128 (2 * Z.of_nat (String.length b))); [lia|]. done.
Qed.

(** C26: whoever manages one MySQL database of the panel can take over any account of the database
    server, root included: granting the database to an account that is not among its users sends
    the text of the privileges as it is, gives the account a new password, and answers with it. *)
Theorem grant_takes_over_account (draw : draws) (c : context) (id : string) (i : Z) (b : db_user_body)
    (p : site_panel) (n : Z) (d : database_row)
    (Hid : parse_id id = Some i) (Hd : get_row i (t_databases (sp_db p)) = Some d) (Hm : is_mysql (db_type d) = true)
    (Hc : manages c (get_row (db_site d) (t_sites (sp_db p))) (sp_db p)) (Hs : server_obeys p)
    (Hu : bu_username b ≠ "") (Hh : SiteInput.DBHost (canonicalDBHost (bu_host b)) = nil_error)
    (Hn : List.Forall (λ u, du_database u ≠ i) (t_rows (t_db_users (sp_db p))))
    (Hb : String.length (d_password draw 0) = 12%nat) :
  let host := canonicalDBHost (bu_host b) in
  let password := generateDBPassword (d_password draw 0) in
  let '(rep, w') := grantExistingUser draw id (Some b) c (World p n []) in
  (∃ userID, rep = Success 201 (JObj [("user_id", JInt userID); ("username", JStr (bu_username b)); ("password", JStr password)])) ∧
  sp_sent (data w') = sp_sent p ++ [grant_sql (or_text (bu_privileges b) "ALL") (db_name d) (bu_username b) host; flush;
                                    change_password_sql (bu_username b) host password; flush].
Proof.
  cbv zeta. assert (Hpw : SiteInput.DBPassword (generateDBPassword (d_password draw 0)) = nil_error) by (apply hex_password; lia).
  unfold grantExistingUser, with_id. rewrite Hid. unfold with_database, Databases.GetByID, Sites.GetByID, if_owner.
  unfold mbind at 1. rewrite lift_query. change (get_row i (tab (sp_db p))) with (get_row i (t_databases (sp_db p))). rewrite Hd. cbn [row_of].
  unfold mbind at 1. rewrite lift_query. change (get_row (db_site d) (tab (sp_db p))) with (get_row (db_site d) (t_sites (sp_db p))). cbn [row_of].
  unfold mbind at 1. rewrite can_access_ok by done.
  rewrite (proj2 (String.eqb_neq _ _) Hu). unfold mbind at 1. unfold DBUsers.ListByDatabase. rewrite lift_query. cbn [rows_of].
  change (select_where (λ r, du_database r =? i) (tab (sp_db p))) with (select_where (λ r, du_database r =? i) (t_db_users (sp_db p))).
  assert (Hnone : select_where (λ r, du_database r =? i) (t_db_users (sp_db p)) = []).
  { unfold select_where. clear -Hn. induction Hn as [|u l Hu Hl IH]; [done|]. cbn. by rewrite (proj2 (Z.eqb_neq _ _) Hu). }
  rewrite Hnone. cbn [List.find]. unfold grant_new. unfold mbind at 1.
  set (host := canonicalDBHost (bu_host b)) in *. set (pw := generateDBPassword _) in *. set (privileges := or_text _ _).
  rewrite (sends_on_mysql d _ [grant_sql privileges (db_name d) (bu_username b) host; flush]); [|done|done|].
  2:{ intros engine. exists None. intros p' n' H'. unfold mbind. by rewrite sends_grant. }
  unfold mbind at 1. rewrite (sends_on_mysql d _ [change_password_sql (bu_username b) host pw; flush]); [|done|by apply (obeys_sent p)|].
  2:{ intros engine. exists None. intros p' n' H'. by apply sends_change. }
  unfold DBUsers.Create, audit, Audit.RecordAction, lift, wrap, insert_checked, mbind, mret.
  repeat (cbn [sp_db sp_sent data clock faults]; rewrite stmt_ok; cbv beta iota zeta).
  cbn [sp_db sp_sent data clock faults fst snd]. split; [by eexists|by rewrite <- List.app_assoc].
Qed.
End Grant.

(** * Witness *)

Definition toy_aead : AEAD := {| key_ok := true; Seal _ p := p; Open _ c := Some c |}.
Definition toy_argon : Argon2 := λ _ _ _ _ _ _, "key".
Definition shop_user : user_row := UserRow 2 "ann" "ann@shop.test" "" RoleUser None 0 None None None None None None 0.
Definition shop_site : site_row :=
  SiteRow 7 1 "shop" "shop.test" "php" "/home/ann/htdocs" "active" (Some 2) None None None None
    None None None None None None None None None None None None None None None None 0 0.
Definition shop_panel : db :=
  set_tab (Table [DBServerRow 1 "main" "mysql" "127.0.0.1" 3306 "root" (b64_encode true "nonce-nonce.secret") "" "" true true 0 0] 1)
  (set_tab (Table [DatabaseRow 5 7 "sp_shop" "mysql" "utf8mb4" "utf8mb4_unicode_ci" 0 0] 5)
  (set_tab (Table [shop_site] 7) (set_tab (Table [shop_user] 2) empty_db))).
Definition ann : context := mkContext (Some (SessionRow 9 2 "" 0 0 None None)) (Some 2) None None.
Definition twelve : draws := mkDraws (λ _, "abcdefghijkl") (λ _, Ok "saltsaltsaltsalt") (λ _, Ok "nonce-nonce.") (Ok "sufix!").
Definition take_root : db_user_body := mkDBUserBody "root" "" "localhost" "ALL PRIVILEGES ON *.* TO 'ann'@'%' WITH GRANT OPTION -- ".
Definition as_ann (r : M site_panel reply) : reply * list string :=
  let '(rep, w') := r (World (mkSitePanel shop_panel []) 0 []) in (rep, sp_sent (data w')).

(** Ann, who owns one site, is answered with a new password of the root account. *)
Lemma grant_takes_over_account_witness :
  as_ann (grantExistingUser (HA := toy_aead) (HP := toy_argon) (HM := obedient) twelve "5" (Some take_root) ann) =
    (Success 201 (JObj [("user_id", JInt 1); ("username", JStr "root"); ("password", JStr "6162636465666768696a6b6c")]),
     ["GRANT ALL PRIVILEGES ON *.* TO 'ann'@'%' WITH GRANT OPTION --  ON `sp_shop`.* TO 'root'@'localhost'"; "FLUSH PRIVILEGES";
      "ALTER USER 'root'@'localhost' IDENTIFIED BY '6162636465666768696a6b6c'"; "FLUSH PRIVILEGES"]) ∧
  let '(rep, w') := grantExistingUser (HA := toy_aead) (HP := toy_argon) (HM := obedient) twelve "5" (Some take_root) ann
                      (World (mkSitePanel shop_panel []) 0 []) in
  sp_sent (data w') = [] ++ [grant_sql "ALL PRIVILEGES ON *.* TO 'ann'@'%' WITH GRANT OPTION -- " "sp_shop" "root" "localhost"; flush;
    change_password_sql "root" "localhost" "6162636465666768696a6b6c"; flush].
Proof.
  split; [by vm_compute|].
  pose proof (grant_takes_over_account (HA := toy_aead) (HP := toy_argon) (HM := obedient) twelve ann "5" 5 take_root
    (mkSitePanel shop_panel []) 0 (DatabaseRow 5 7 "sp_shop" "mysql" "utf8mb4" "utf8mb4_unicode_ci" 0 0)) as H.
  cbv zeta in H. destruct (grantExistingUser _ _ _ _ _) as [rep w']. apply H; try reflexivity; try discriminate; try done.
  - exists (SessionRow 9 2 "" 0 0 None None), shop_user. split; [done|]. split; [done|]. right. by exists shop_site.
  - split; [|done]. eexists _, _. split; [reflexivity|]. split; [vm_compute; reflexivity|done].
Defined.
