(* ===== verification/FileSystem.v ===== *)
(** A file system with symbolic links: how the kernel and [filepath.EvalSymlinks] walk a path,
    what the calls of package [os] do to the tree, and the facts on walks that the file
    manager's theorems need. *)
From S2P Require Import Prelude GoStr Paths AgentValidate Sql Accounts.
Local Open Scope Z_scope.
Local Open Scope panel_scope.

Set Default Proof Using "Type".

(** * The tree *)

(** Entries by their real path, the names from the root on; the root is a directory. *)
Inductive node := NFile (content : string) | NDir | NLink (target : string).
Notation fs := (@gmap (list string) (@list_eq_dec string String.eq_dec) (@list_countable string String.eq_dec String.countable) node).
Definition node_at (f : fs) (p : list string) : option node := match p with [] => Some NDir | _ => f !! p end.
(** An entry lies in a directory. *)
Definition fs_wf (f : fs) : Prop := ∀ p w, is_Some (f !! (p ++ [w])) → node_at f p = Some NDir.
Definition real_path (p : list string) : string := "/" +:+ join "/" p.

(** * Walking a path *)

(** An entry; one that is missing in a directory that is there; a component before the last
    that is missing; one that is no directory; too many links. *)
Inductive found := At (p : list string) | Missing (p : list string) | NoEntry | NotDir | Loop.
Definition not_exist (r : found) : bool := match r with Missing _ | NoEntry => true | _ => false end.

(** [follow]: whether a link at the end is followed; [links]: how many may be. *)
Fixpoint walk (f : fs) (follow : bool) (links : nat) : list string → list string → found :=
  fix go (cur todo : list string) {struct todo} : found :=
    match todo with
    | [] => At cur
    | w :: rest =>
        match node_at f cur with
        | Some NDir =>
            if (w =? "")%string || (w =? ".")%string then go cur rest
            else if (w =? "..")%string then go (removelast cur) rest
            else match f !! (cur ++ [w]) with
                 | None => match rest with [] => Missing (cur ++ [w]) | _ => NoEntry end
                 | Some (NLink t) =>
                     if negb follow && bool_decide (rest = []) then At (cur ++ [w])
                     else match links with
                          | O => Loop
                          | S n => walk f follow n (if is_rooted t then [] else cur) (split "/" t ++ rest)
                          end
                 | Some _ => go (cur ++ [w]) rest
                 end
        | _ => NotDir
        end
    end.
(** The kernel follows 40 links, [filepath.EvalSymlinks] 255.  Relative paths start at the root,
    where the process works. *)
Definition kernel_walk (f : fs) (follow : bool) (path : string) : found := walk f follow 40 [] (split "/" path).
Definition eval_walk (f : fs) (path : string) : found := walk f true 255 [] (split "/" path).

(** * The calls *)

(** What a call does when nothing else stops it: an outcome, and the tree after it. *)
Definition Stat (f : fs) (path : string) : option (list string * node) :=
  match kernel_walk f true path with At p => x ← node_at f p; Some (p, x) | _ => None end.
Definition is_dir (x : node) : bool := match x with NDir => true | _ => false end.

Definition Mkdir (path : string) (f : fs) : res () * fs :=
  match kernel_walk f false path with
  | Missing p => (Ok (), <[p := NDir]> f)
  | _ => (Err "mkdir", f)
  end.
(** [os.OpenFile] with O_WRONLY, O_CREATE and O_TRUNC: the file that is open. *)
Definition OpenTrunc (path : string) (f : fs) : res (list string) * fs :=
  match kernel_walk f true path with
  | At p => match node_at f p with Some (NFile _) => (Ok p, <[p := NFile ""]> f) | _ => (Err "is a directory", f) end
  | Missing p => (Ok p, <[p := NFile ""]> f)
  | _ => (Err "open", f)
  end.
Definition Write (p : list string) (content : string) (f : fs) : res () * fs := (Ok (), <[p := NFile content]> f).
Definition ReadFile (f : fs) (path : string) : option string :=
  match Stat f path with Some (_, NFile c) => Some c | _ => None end.

Definition under (dir p : list string) : bool := bool_decide (dir `prefix_of` p).
Definition drop_tree (dir : list string) (f : fs) : fs := filter (λ e, under dir e.1 = false) f.
Definition RemoveAll (path : string) (f : fs) : res () * fs :=
  match kernel_walk f false path with At p => (Ok (), drop_tree p f) | _ => (Ok (), f) end.
(** [os.Remove]: a file, a link or an empty directory. *)
Definition empty_dir (f : fs) (p : list string) : bool := bool_decide (filter (λ e, under p e.1 && negb (bool_decide (e.1 = p)) = true) f = ∅).
Definition Remove (path : string) (f : fs) : res () * fs :=
  match kernel_walk f false path with
  | At p => if empty_dir f p then (Ok (), delete p f) else (Err "directory not empty", f)
  | _ => (Err "remove", f)
  end.
(** The tree below [old] at [new], which nothing is left of. *)
Definition moved (old new : list string) (f : fs) : fs :=
  list_to_map ((λ e, (new ++ drop (length old) e.1, e.2)) <$> map_to_list (filter (λ e, under old e.1 = true) f)).
Definition move_tree (old new : list string) (f : fs) : fs := moved old new f ∪ drop_tree new (drop_tree old f).
Definition may_replace (f : fs) (old new : list string) : bool :=
  match node_at f old, node_at f new with
  | Some NDir, Some NDir => empty_dir f new
  | Some NDir, Some _ | Some _, Some NDir => false
  | _, _ => true
  end.
Definition Rename (old new : string) (f : fs) : res () * fs :=
  match kernel_walk f false old, kernel_walk f false new with
  | At po, (At pn | Missing pn) =>
      if bool_decide (po = pn) then (Ok (), f)
      else if under po pn || bool_decide (po = []) then (Err "invalid argument", f)
      else if may_replace f po pn then (Ok (), move_tree po pn f) else (Err "file exists", f)
  | _, _ => (Err "rename", f)
  end.

(** The names in a directory, in the order of [os.ReadDir]. *)
Definition children (f : fs) (dir : list string) : list (string * node) :=
  omap (λ e, match drop (length dir) e.1 with [w] => if under dir e.1 then Some (w, e.2) else None | _ => None end) (map_to_list f).
Definition name_leb (a b : string * node) : bool := String.leb a.1 b.1.
Definition ReadDir (f : fs) (path : string) : option (list (string * node)) :=
  match Stat f path with Some (p, NDir) => Some (order_by name_leb (children f p)) | _ => None end.
(** The entries below a directory, itself first, in the order of [filepath.Walk]. *)
Fixpoint segs_leb (a b : list string) : bool :=
  match a, b with
  | [], _ => true
  | _, [] => false
  | x :: a', y :: b' => if (x =? y)%string then segs_leb a' b' else String.leb x y
  end.
Definition tree (f : fs) (dir : list string) : list (list string * node) :=
  order_by (λ a b, segs_leb a.1 b.1) (omap (λ e, if under dir e.1 then Some (drop (length dir) e.1, e.2) else None) (map_to_list f)).

(** * Facts about walks *)

Section Walks.
Variable f : fs.

Lemma walk_nil follow n cur : walk f follow n cur [] = At cur.
Proof. by destruct n. Qed.
Lemma walk_cons follow n cur w rest :
  walk f follow n cur (w :: rest) =
  match node_at f cur with
  | Some NDir =>
      if (w =? "")%string || (w =? ".")%string then walk f follow n cur rest
      else if (w =? "..")%string then walk f follow n (removelast cur) rest
      else match f !! (cur ++ [w]) with
           | None => match rest with [] => Missing (cur ++ [w]) | _ => NoEntry end
           | Some (NLink t) =>
               if negb follow && bool_decide (rest = []) then At (cur ++ [w])
               else match n with O => Loop | S n => walk f follow n (if is_rooted t then [] else cur) (split "/" t ++ rest) end
           | Some _ => walk f follow n (cur ++ [w]) rest
           end
  | _ => NotDir
  end.
Proof. by destruct n. Qed.
Opaque walk.

(** More links allowed: the same answer. *)
Lemma walk_more follow n m cur todo r : walk f follow n cur todo = r → r ≠ Loop → (n ≤ m)%nat → walk f follow m cur todo = r.
Proof.
  revert m cur todo. induction n as [n IHn] using lt_wf_ind. intros m cur todo. revert cur.
  induction todo as [|w rest IH]; intros cur H Hr Hm; [by rewrite walk_nil in *|]. rewrite walk_cons in *.
  destruct (node_at f cur) as [[]|]; try done. case_goal; [by apply IH|]. case_goal; [by apply IH|].
  destruct (f !! _) as [[]|]; try done; try by apply IH. case_goal; [done|].
  destruct n as [|n]; [congruence|]. destruct m as [|m]; [lia|]. apply (IHn n ltac:(lia) m); [done|done|lia].
Qed.

(** A path in two parts: what the first leads to decides. *)
Lemma walk_app follow n cur a b : b ≠ [] →
  match walk f true n cur a with
  | At p => ∃ m, (m ≤ n)%nat ∧ walk f follow n cur (a ++ b) = walk f follow m p b
  | Missing _ | NoEntry => walk f follow n cur (a ++ b) = NoEntry
  | NotDir => walk f follow n cur (a ++ b) = NotDir
  | Loop => walk f follow n cur (a ++ b) = Loop
  end.
Proof.
  intros Hb. revert cur a. induction n as [n IHn] using lt_wf_ind. intros cur a. revert cur.
  induction a as [|w a IH]; intros cur; [rewrite walk_nil; by exists n|].
  change ((w :: a) ++ b) with (w :: (a ++ b)). rewrite !walk_cons.
  destruct (node_at f cur) as [[]|]; try done. case_goal; [apply IH|]. case_goal; [apply IH|].
  destruct (f !! _) as [[]|]; try apply IH.
  - cbn [negb andb]. rewrite (bool_decide_eq_false_2 (a ++ b = [])), andb_false_r by (by destruct a).
    destruct n as [|n]; [done|]. rewrite List.app_assoc.
    pose proof (IHn n ltac:(lia) (if is_rooted target then [] else cur) (split "/" target ++ a)) as H.
    destruct (walk f true n _ (split "/" target ++ a)); try done. destruct H as (m & Hm & H). exists m. split; [lia|done].
  - destruct a as [|w' a]; cbn; by destruct b.
Qed.

(** Not following the last link changes nothing but for that link. *)
Lemma walk_nofollow n cur todo p : walk f true n cur todo = At p →
  walk f false n cur todo = At p ∨ ∃ q t, walk f false n cur todo = At q ∧ f !! q = Some (NLink t) ∧
    ∃ m dir, (m ≤ n)%nat ∧ q = dir ++ [List.last q ""] ∧ walk f true m (if is_rooted t then [] else dir) (split "/" t) = At p.
Proof.
  revert cur todo. induction n as [n IHn] using lt_wf_ind. intros cur todo. revert cur.
  induction todo as [|w rest IH]; intros cur H; [rewrite walk_nil in *; auto|]. rewrite walk_cons in *.
  destruct (node_at f cur) as [[]|]; try done. destruct (_ || _); [by apply IH|]. destruct (w =? "..")%string; [by apply IH|].
  destruct (f !! _) as [[]|] eqn:E; [by apply IH|by apply IH| |by destruct rest].
  cbn [negb andb] in *. destruct n as [|n]; [done|]. case_bool_decide as Er.
  - right. exists (cur ++ [w]), target. split; [done|]. split; [done|]. exists n, cur. split; [lia|].
    split; [by rewrite List.last_last|]. subst rest. by rewrite List.app_nil_r in H.
  - destruct (IHn n ltac:(lia) _ _ H) as [H'|(q & t & H1 & H2 & m & dir & H3 & H4)]; [by left|]. right.
    exists q, t. split; [done|]. split; [done|]. exists m, dir. split; [lia|done].
Qed.
Lemma walk_nofollow_fails n cur todo r : walk f false n cur todo = r → (∀ p, r ≠ At p) → walk f true n cur todo = r.
Proof.
  intros H Hr. revert cur todo H. induction n as [n IHn] using lt_wf_ind. intros cur todo. revert cur.
  induction todo as [|w rest IH]; intros cur H; [rewrite walk_nil in H; by edestruct Hr|]. rewrite walk_cons in *.
  destruct (node_at f cur) as [[]|]; try done. destruct (_ || _); [by apply IH|]. destruct (w =? "..")%string; [by apply IH|].
  destruct (f !! _) as [[]|]; [by apply IH|by apply IH| |done].
  cbn [negb andb] in *. case_bool_decide; [by edestruct Hr|]. destruct n as [|n]; [done|]. apply (IHn n); [lia|done].
Qed.
End Walks.

(** * Paths of real entries *)

Definition plain : list string → Prop := Forall (λ w, plain_seg w = true).
Lemma plain_app a b : plain (a ++ b) ↔ plain a ∧ plain b.
Proof. apply Forall_app. Qed.
Lemma plain_one w : plain_seg w = true → plain [w].
Proof. intros H. by repeat constructor. Qed.
Lemma plain_names w : plain_seg w = true → (w =? "")%string = false ∧ (w =? ".")%string = false ∧ (w =? "..")%string = false.
Proof.
  unfold plain_seg. intros H. rewrite !andb_true_iff, !negb_true_iff in H. by destruct H as (((? & ?) & ?) & ?).
Qed.

Lemma split_real q : plain q → split "/" (real_path q) = "" :: match q with [] => [""] | _ => q end.
Proof.
  intros H. unfold real_path. change ("/" +:+ join "/" q) with ("" +:+ String "/" (join "/" q)). rewrite split_app_sep. cbn [split].
  destruct q as [|w q]; [done|]. rewrite split_join; [done|done|by apply plain_seg_no_slash].
Qed.
Lemma rooted_real q : is_rooted (real_path q) = true.
Proof. apply is_rooted_cons. Qed.
Lemma segs_real q : plain q → path_segs (real_path q) = q.
Proof.
  intros H. unfold path_segs. rewrite rooted_real, split_real by done. destruct q as [|w q]; [done|].
  change (clean_segs true [] ("" :: ?l)) with (clean_segs true [] l). rewrite clean_segs_id by done. by rewrite List.app_nil_r, rev_involutive.
Qed.
Lemma clean_real p : is_rooted p = true → path_clean p = real_path (path_segs p).
Proof. apply path_clean_rooted. Qed.
Lemma real_inj a b : plain a → plain b → real_path a = real_path b → a = b.
Proof. intros Ha Hb H. by rewrite <- (segs_real a), H, segs_real. Qed.
Lemma join_segs d b : is_rooted d = true → path_join d b = real_path (rev (clean_segs true (rev (path_segs d)) (split "/" b))).
Proof. intros H. unfold path_join. rewrite clean_real by (by apply is_rooted_app). by rewrite path_segs_append. Qed.
Lemma join_rooted d b : is_rooted d = true → ∃ q, path_join d b = real_path q ∧ plain q.
Proof.
  intros H. unfold path_join. rewrite clean_real by (by apply is_rooted_app). eexists. split; [done|].
  by apply path_segs_plain, is_rooted_app.
Qed.
Lemma join_name q w : plain q → plain_seg w = true → path_join (real_path q) w = real_path (q ++ [w]).
Proof.
  intros Hq Hw. rewrite join_segs by apply rooted_real. rewrite segs_real by done.
  destruct (plain_seg_split w Hw) as (-> & _). rewrite clean_segs_id by (by apply plain_one).
  by rewrite List.rev_app_distr, rev_involutive.
Qed.
(** The last name, behind a slash. *)
Lemma real_snoc q w : ∃ s, real_path (q ++ [w]) = s +:+ String "/" w ∧ ∀ t, path_clean (s +:+ "/" +:+ t) = path_join (real_path q) t.
Proof.
  destruct q as [|v q].
  - exists "". split; [done|]. intros t. unfold path_join. change (real_path []) with "/".
    change ("" +:+ "/" +:+ t) with (String "/" t). change ("/" +:+ "/" +:+ t) with (String "/" (String "/" t)).
    unfold path_clean, path_segs. rewrite !is_rooted_cons. done.
  - exists (real_path (v :: q)). split; [|done]. unfold real_path. rewrite app_assoc_s. f_equal.
    revert v. induction q as [|u q IH]; intros v; [done|]. change ((v :: u :: q) ++ [w]) with (v :: (u :: q) ++ [w]).
    rewrite !join_cons by done. by rewrite IH, !app_assoc_s.
Qed.
Lemma dir_real q w : plain (q ++ [w]) → path_dir (real_path (q ++ [w])) = real_path q.
Proof.
  intros [Hq Hw]%plain_app. destruct (real_snoc q w) as (s & -> & Hs). unfold path_dir.
  apply Forall_cons in Hw as [Hw _]. rewrite last_index_app by (by apply plain_seg_no_slash in Hw || (unfold plain_seg in Hw; by bool_hyps)).
  rewrite str_take_S. change (String "/" "") with ("/" +:+ ""). rewrite Hs. rewrite join_segs by apply rooted_real.
  rewrite segs_real by done. cbn. by rewrite rev_involutive.
Qed.
Lemma dir_rooted q : plain q → is_rooted (path_dir (real_path q)) = true.
Proof.
  intros Hq. destruct (decide (q = [])) as [->|Hne]; [by vm_compute|]. destruct (exists_last Hne) as (x & c & ->).
  rewrite dir_real by done. apply rooted_real.
Qed.
Lemma base_real q w : plain_seg w = true → path_base (real_path (q ++ [w])) = w.
Proof.
  intros Hw. destruct (real_snoc q w) as (s & -> & _). assert (no_chr "/" w = true) as Hn by (unfold plain_seg in Hw; by bool_hyps).
  assert (w ≠ "") as Hne by (intros ->; done). unfold path_base.
  destruct (s +:+ String "/" w) as [|c0 p0] eqn:Ep; [by destruct s|]. rewrite <- Ep.
  assert (str_rev (trim_left_chr "/" (str_rev (s +:+ String "/" w))) = s +:+ String "/" w) as ->.
  { rewrite str_rev_append, str_rev_cons, app_assoc_s.
    assert (trim_left_chr "/" (str_rev w +:+ (String "/" "" +:+ str_rev s)) = str_rev w +:+ (String "/" "" +:+ str_rev s)) as ->.
    { unfold no_chr in Hn. rewrite <- (str_rev_all (λ d, negb (Ascii.eqb d "/")) w) in Hn. destruct (str_rev w) as [|c r] eqn:Er.
      - exfalso. apply Hne. by rewrite <- (str_rev_involutive w), Er.
      - rewrite app_cons. cbn [str_all trim_left_chr] in Hn |- *. apply andb_true_iff in Hn as [Hc%negb_true_iff _]. by rewrite ?Hc, Ascii.eqb_sym, ?Hc. }
    rewrite !str_rev_append, str_rev_involutive, !str_rev_involutive. rewrite app_assoc_s. done. }
  rewrite Ep at 1. rewrite last_index_app by done. rewrite Ep. rewrite <- Ep.
  clear. induction s as [|c s IH]; [done|]. rewrite app_cons. exact IH.
Qed.
(** A path that starts with another and a slash. *)
Lemma real_prefix a b : plain a → plain b → has_prefix (real_path b) (real_path a +:+ "/") = true → a `prefix_of` b.
Proof.
  intros Ha Hb H. assert (Hc : ∀ q, plain q → path_clean (real_path q) = real_path q)
    by (intros q Hq; by rewrite clean_real, segs_real by (done || apply rooted_real)).
  destruct (clean_prefix_segs (real_path a) (real_path b) (rooted_real b)) as (_ & rest & _ & Hs).
  { by rewrite !Hc. }
  rewrite !segs_real in Hs by done. by exists rest.
Qed.

(** ** Walks of real paths *)

Section RealWalks.
Variable f : fs.
Opaque walk.

Lemma walk_real follow n q : plain q → walk f follow n [] (split "/" (real_path q)) = walk f follow n [] q.
Proof.
  intros H. rewrite split_real by done. rewrite walk_cons. cbn [node_at String.eqb orb].
  destruct q as [|w q]; [|done]. rewrite walk_cons. done.
Qed.
(** One more name, of an entry that is no dot. *)
Lemma walk_name follow n p w : plain_seg w = true →
  walk f follow n p [w] =
  match node_at f p with
  | Some NDir =>
      match f !! (p ++ [w]) with
      | None => Missing (p ++ [w])
      | Some (NLink t) =>
          if follow then match n with O => Loop | S n => walk f true n (if is_rooted t then [] else p) (split "/" t) end else At (p ++ [w])
      | Some _ => At (p ++ [w])
      end
  | _ => NotDir
  end.
Proof.
  intros (H1 & H2 & H3)%plain_names. rewrite walk_cons, H1, H2, H3. destruct (node_at f p) as [[]|]; try done. cbn [orb].
  destruct (f !! _) as [[]|]; rewrite ?walk_nil; try done. destruct follow; [|done]. cbn [negb andb]. destruct n; [done|]. by rewrite List.app_nil_r.
Qed.
Lemma walk_missing n cur todo p : walk f true n cur todo = Missing p → f !! p = None.
Proof.
  revert cur todo. induction n as [n IHn] using lt_wf_ind. intros cur todo. revert cur.
  induction todo as [|v rest IH]; intros cur H; [by rewrite walk_nil in H|]. rewrite walk_cons in H.
  destruct (node_at f cur) as [[]|]; try done. destruct (_ || _); [by eapply IH|]. destruct (v =? "..")%string; [by eapply IH|].
  destruct (f !! (cur ++ [v])) as [[]|] eqn:E; [by eapply IH|by eapply IH| |destruct rest; [by injection H as <-|done]].
  cbn [negb andb] in H. destruct n as [|n]; [done|]. by eapply (IHn n); [lia|].
Qed.
Lemma walk_plain follow n cur todo p :
  plain cur → Forall (λ w, no_chr "/" w = true) todo → walk f follow n cur todo = At p → plain p.
Proof.
  revert cur todo. induction n as [n IHn] using lt_wf_ind. intros cur todo. revert cur.
  induction todo as [|w rest IH]; intros cur Hc Ht H; [rewrite walk_nil in H; by injection H as <-|]. rewrite walk_cons in H.
  apply Forall_cons in Ht as [Hw Ht]. destruct (node_at f cur) as [[]|]; try done.
  destruct (_ || _) eqn:E1; [by apply (IH cur)|]. destruct (w =? "..")%string eqn:E2.
  { apply (IH (removelast cur)); [|done..]. destruct (decide (cur = [])) as [->|Hne]; [done|].
    destruct (exists_last Hne) as (c' & l & ->). rewrite List.removelast_last. by apply plain_app in Hc as []. }
  assert (plain (cur ++ [w])) as Hcw.
  { apply plain_app. split; [done|]. apply plain_one. unfold plain_seg. apply orb_false_iff in E1 as [-> ->]. by rewrite E2, Hw. }
  destruct (f !! _) as [[]|]; [by apply (IH (cur ++ [w]))|by apply (IH (cur ++ [w]))| |by destruct rest].
  destruct (_ && _); [by injection H as <-|]. destruct n as [|n]; [done|].
  apply (IHn n ltac:(lia) (if is_rooted target then [] else cur) (split "/" target ++ rest)); [by destruct (is_rooted target); [constructor|]|apply Forall_app; split; [apply split_no_sep|done]|done].
Qed.
(** A directory more does not stop a walk that arrives. *)
Lemma walk_grow g follow n cur todo p : f ⊆ g → walk f follow n cur todo = At p → walk g follow n cur todo = At p.
Proof.
  intros Hg. revert cur todo. induction n as [n IHn] using lt_wf_ind. intros cur todo. revert cur.
  assert (Hl : ∀ q x, f !! q = Some x → g !! q = Some x) by (intros q x Hq; by eapply lookup_weaken).
  assert (Hn : ∀ q x, node_at f q = Some x → node_at g q = Some x) by (intros [|] x Hq; [done|by apply Hl]).
  induction todo as [|w rest IH]; intros cur H; [by rewrite walk_nil in *|]. rewrite walk_cons in *.
  destruct (node_at f cur) as [[]|] eqn:E; try done. rewrite (Hn _ _ E). destruct (_ || _); [by apply IH|].
  destruct (w =? "..")%string; [by apply IH|]. destruct (f !! (cur ++ [w])) as [[]|] eqn:E2; [| | |by destruct rest]; rewrite (Hl _ _ E2); [by apply IH|by apply IH|].
  destruct (_ && _); [done|]. destruct n as [|n]; [done|]. apply (IHn n); [lia|done].
Qed.
Lemma node_at_in (p : list string) : p ≠ [] → node_at f p = f !! p.
Proof. by destruct p. Qed.
(** Two limits, one answer. *)
Lemma walk_less follow n m cur todo : (n ≤ m)%nat → walk f follow n cur todo = Loop ∨ walk f follow n cur todo = walk f follow m cur todo.
Proof.
  intros H. destruct (walk f follow n cur todo) eqn:E; try (by left); right; symmetry; by apply (walk_more f follow n m).
Qed.
End RealWalks.

(** * Staying below a directory *)

Section Confined.
Variable f : fs.
Hypothesis Hwf : fs_wf f.
(** The real path of the directory. *)
Variable rr : list string.
Opaque walk.

(** No link below it leads to a name that is not there. *)
Definition no_dangling : Prop := ∀ p w t, rr `prefix_of` p → f !! (p ++ [w]) = Some (NLink t) →
  not_exist (walk f true 255 (if is_rooted t then [] else p) (split "/" t)) = false.
(** No link from elsewhere leads into it. *)
Definition no_way_in : Prop := ∀ p t, f !! p = Some (NLink t) → ¬ rr `prefix_of` p → ∀ n q,
  walk f true n (if is_rooted t then [] else removelast p) (split "/" t) = At q → ¬ rr `prefix_of` q.

(** What probing a path finds out: its longest part that is there is below the directory. *)
Record probed (q : list string) : Type := mkProbed {
  pb_there : list string; pb_rest : list string; pb_real : list string;
  pb_split : q = pb_there ++ pb_rest;
  pb_walk : walk f true 255 [] pb_there = At pb_real;
  pb_below : rr `prefix_of` pb_real;
  pb_stop : pb_rest = [] ∨ ∃ c more, pb_rest = c :: more ∧ not_exist (walk f true 255 [] (pb_there ++ [c])) = true }.

(** Walking to the part that is there, in a tree that only grew. *)
Lemma walk_there g n x y p : f ⊆ g → (n ≤ 255)%nat → walk f true 255 [] (x ++ y) = At p →
  ∃ p', (y = [] → p' = p) ∧ (walk g true n [] x = At p' ∨ walk g true n [] x = Loop).
Proof.
  intros Hg Hn H. assert (∃ p', (y = [] → p' = p) ∧ walk f true 255 [] x = At p') as (p' & Hp & Hx).
  { destruct y as [|c y]; [rewrite List.app_nil_r in H; by exists p|].
    pose proof (walk_app f true 255 [] x (c :: y) ltac:(done)) as Ha. destruct (walk f true 255 [] x) as [p'| | | |]; try congruence. by exists p'. }
  exists p'. split; [done|]. apply (walk_grow f g) in Hx; [|done]. destruct (walk_less g true n 255 [] x Hn) as [|E]; [by right|left; congruence].
Qed.
(** Where the probing stopped, the tree has nothing. *)
Lemma stop_free q : no_dangling → plain q → ∀ H : probed q, ∀ c more, pb_rest q H = c :: more → f !! (pb_real q H ++ [c]) = None.
Proof.
  intros Hd Hq [a b ra Es Hw Hr Hs] c more Eb. cbn in *. destruct Hs as [|(c' & more' & Eb' & Hne)]; [congruence|]. rewrite Eb in Eb'. injection Eb' as <- <-. subst b.
  rewrite Es in Hq. apply plain_app in Hq as [_ Hc]. apply Forall_cons in Hc as [Hc _].
  pose proof (walk_app f true 255 [] a [c] ltac:(done)) as Ha. rewrite Hw in Ha. destruct Ha as (m & Hm & Ha). rewrite Ha, walk_name in Hne by done.
  destruct (node_at f ra) as [[]|]; try done. destruct (f !! (ra ++ [c])) as [[]|] eqn:E; try done.
  destruct m as [|m]; [done|]. pose proof (Hd _ _ _ Hr E) as H.
  destruct (walk_less f true m 255 (if is_rooted target then [] else ra) (split "/" target) ltac:(lia)) as [El|El]; [by rewrite El in Hne|congruence].
Qed.

(** The tree with directories made on the way down. *)
Record made (ra b : list string) (g : fs) : Prop := mkMade {
  md_grows : f ⊆ g;
  md_new : ∀ p x, g !! p = Some x → f !! p = Some x ∨ x = NDir ∧ ∃ l, l ≠ [] ∧ l `prefix_of` b ∧ p = ra ++ l }.
Lemma made_refl ra b : made ra b f.
Proof. split; [done|auto]. Qed.
Lemma made_insert ra b g l : made ra b g → l ≠ [] → l `prefix_of` b → g !! (ra ++ l) = None → made ra b (<[ra ++ l := NDir]> g).
Proof.
  intros [Hg Hn] Hne Hl Hnone. split; [by apply insert_subseteq_r; [|done]; eapply lookup_weaken_None|].
  intros p x. rewrite lookup_insert_Some. intros [[<- <-]|[_ H]]; [right; eauto|by apply Hn].
Qed.

Section Made.
Variables (q : list string) (H : probed q).
Hypothesis Hq : plain q.
Hypothesis Hd : no_dangling.
Notation a := (pb_there q H).
Notation b := (pb_rest q H).
Notation ra := (pb_real q H).
Variable g : fs.
Hypothesis Hg : made ra b g.

Lemma nothing_below l : l ≠ [] → l `prefix_of` b → f !! (ra ++ l) = None.
Proof using Hwf Hq Hd.
  intros Hne. destruct l as [|c l]; [done|]. clear Hne. induction l as [|w l IH] using rev_ind; intros [more Hb].
  - by apply (stop_free q Hd Hq H c more).
  - assert (Hup : f !! (ra ++ c :: l) = None).
    { apply IH. exists ([w] ++ more). change (c :: l ++ [w]) with ((c :: l) ++ [w]) in Hb. by rewrite <- List.app_assoc in Hb. }
    change (c :: l ++ [w]) with ((c :: l) ++ [w]). rewrite List.app_assoc. destruct (f !! ((ra ++ c :: l) ++ [w])) eqn:E; [|done].
    pose proof (Hwf (ra ++ c :: l) w ltac:(by rewrite E)) as Hdir. rewrite node_at_in in Hdir by (by intros [_ ?]%app_eq_nil). congruence.
Qed.
Lemma new_entry l : l ≠ [] → l `prefix_of` b → g !! (ra ++ l) = None ∨ g !! (ra ++ l) = Some NDir.
Proof using Hwf Hq Hd Hg.
  intros Hne Hl. destruct (g !! (ra ++ l)) as [x|] eqn:E; [|by left]. right.
  destruct (md_new _ _ _ Hg _ _ E) as [Hf|[-> _]]; [|done]. by rewrite nothing_below in Hf.
Qed.
Lemma walk_down follow n l1 l2 : (l1 ++ l2) `prefix_of` b →
  match walk g follow n (ra ++ l1) l2 with At p | Missing p => p = ra ++ l1 ++ l2 | _ => True end.
Proof using Hwf Hq Hd Hg.
  revert l1. induction l2 as [|w l2 IH]; intros l1 Hl; [rewrite walk_nil; by rewrite List.app_nil_r|].
  assert (Hw : plain_seg w = true).
  { rewrite (pb_split q H) in Hq. apply plain_app in Hq as [_ Hb]. destruct Hl as [more Hl]. rewrite Hl in Hb.
    rewrite <- List.app_assoc in Hb. apply plain_app in Hb as [_ Hb]. by apply Forall_cons in Hb as []. }
  destruct (plain_names w Hw) as (H1 & H2 & H3). rewrite walk_cons, H1, H2, H3. cbn [orb].
  destruct (node_at g (ra ++ l1)) as [[]|]; try done. rewrite <- List.app_assoc.
  destruct (new_entry (l1 ++ [w])) as [E|E]; [by destruct l1| |rewrite E; by destruct l2|rewrite E].
  - etrans; [|exact Hl]. exists l2. by rewrite <- List.app_assoc.
  - specialize (IH (l1 ++ [w])). rewrite <- !List.app_assoc in IH. by apply IH.
Qed.
(** A part of the path either was there, or leads straight down. *)
Lemma walk_part n x y : (n ≤ 255)%nat → q = x ++ y →
  match walk g true n [] x with
  | At p => y = [] → rr `prefix_of` p
  | Missing p => ∃ l, l ≠ [] ∧ l `prefix_of` b ∧ p = ra ++ l
  | _ => True
  end.
Proof using Hwf Hq Hd Hg.
  intros Hn Ex. assert (Es : x ++ y = a ++ b) by (rewrite <- Ex; exact (pb_split q H)). pose proof (pb_walk q H) as Hw. pose proof (pb_below q H) as Hr.
  assert ((∃ z, a = x ++ z) ∨ ∃ l, l ≠ [] ∧ x = a ++ l ∧ b = l ++ y) as [(z & Ea)|(l & Hl & El & Eb)].
  { apply app_eq_inv in Es as [(k & Ek & Eb)|(k & Ek & Ey)]; [|left; by exists k].
    destruct k as [|w k]; [left; exists []; by rewrite Ek, !List.app_nil_r|]. right. by exists (w :: k). }
  - rewrite Ea in Hw. destruct (walk_there g n x z ra (md_grows _ _ _ Hg) Hn Hw) as (p' & Hp & [->| ->]); [|done].
    intros ->. rewrite List.app_nil_r in Es. destruct z; [by rewrite Hp|]. exfalso.
    apply (f_equal length) in Ea, Es. rewrite !length_app in *. cbn in Ea. lia.
  - subst x. pose proof (walk_app g true n [] a l Hl) as Ha.
    rewrite <- (List.app_nil_r a) in Hw. destruct (walk_there g n a [] ra (md_grows _ _ _ Hg) Hn Hw) as (p' & Hp & [E|E]); rewrite E in Ha; [|by rewrite Ha].
    rewrite (Hp eq_refl) in Ha. destruct Ha as (m & _ & ->). pose proof (walk_down true m [] l) as K. rewrite List.app_nil_r in K.
    assert (Hpre : l `prefix_of` b) by (by exists y). specialize (K Hpre). cbn [app] in K.
    destruct (walk g true m ra l); try done; subst; [|by exists l]. intros _. etrans; [exact Hr|]. by exists l.
Qed.
End Made.

(** The entry itself, a link at the end not followed. *)
Lemma entry_below q (H : probed q) n : plain q → no_way_in → (n ≤ 255)%nat →
  match walk f false n [] q with At p | Missing p => rr `prefix_of` p | _ => True end.
Proof.
  intros Hq Hb Hn. destruct H as [a b ra Es Hw Hr Hs]. destruct Hs as [->|(c & more & -> & Hne)].
  - rewrite List.app_nil_r in Es. subst a. destruct (walk f false n [] q) eqn:E; try done.
    + apply (walk_more f false n 255) in E; [|done|done].
      destruct (walk_nofollow f _ _ _ _ Hw) as [E'|(p' & t & E' & Hl & m & dir & Hm & Ep & Ht)]; rewrite E in E'; injection E' as <-; [done|].
      destruct (decide (rr `prefix_of` p)) as [|Hno]; [done|]. exfalso. apply (Hb p t Hl Hno m ra); [|done].
      rewrite Ep, List.removelast_last. done.
    + apply walk_nofollow_fails in E; [|done]. apply (walk_more f true n 255) in E; [congruence|done|done].
  - subst q. apply plain_app in Hq as [Ha Hc]. change (c :: more) with ([c] ++ more). rewrite List.app_assoc.
    apply Forall_cons in Hc as [Hc Hmore]. destruct more as [|d more].
    + rewrite List.app_nil_r. pose proof (walk_app f false n [] a [c] ltac:(done)) as K.
      destruct (walk_less f true n 255 [] a Hn) as [E|E]; rewrite ?E, ?Hw in K; [by rewrite K|]. destruct K as (m & _ & ->).
      rewrite walk_name by done. destruct (node_at f ra) as [[]|]; try done.
      assert (rr `prefix_of` ra ++ [c]) by (etrans; [exact Hr|]; by exists [c]). by destruct (f !! (ra ++ [c])) as [[]|].
    + pose proof (walk_app f false n [] (a ++ [c]) (d :: more) ltac:(done)) as K.
      destruct (walk_less f true n 255 [] (a ++ [c]) Hn) as [E|E]; rewrite ?E in K; [by rewrite K|].
      destruct (walk f true 255 [] (a ++ [c])); try done; by rewrite K.
Qed.
(** An entry of a directory that was followed to. *)
Lemma entry_of_dir q rd w n : (n ≤ 255)%nat → plain_seg w = true → walk f true 255 [] q = At rd → rr `prefix_of` rd →
  match walk f false n [] (q ++ [w]) with At p | Missing p => rr `prefix_of` p | _ => True end.
Proof.
  intros Hn Hw Hq Hr. pose proof (walk_app f false n [] q [w] ltac:(done)) as K.
  destruct (walk_less f true n 255 [] q Hn) as [E|E]; rewrite ?E, ?Hq in K; [by rewrite K|]. destruct K as (m & _ & ->).
  rewrite walk_name by done. destruct (node_at f rd) as [[]|]; try done.
  assert (rr `prefix_of` rd ++ [w]) by (etrans; [exact Hr|]; by exists [w]). by destruct (f !! (rd ++ [w])) as [[]|].
Qed.
(** What is followed to and is there is below, too. *)
Lemma found_below q (H : probed q) n p : (n ≤ 255)%nat → walk f true n [] q = At p → rr `prefix_of` p ∧ walk f true 255 [] q = At p.
Proof.
  intros Hn E. apply (walk_more f true n 255) in E; [|done|done]. split; [|done]. destruct H as [a b ra Es Hw Hr Hs].
  destruct Hs as [->|(c & more & -> & Hne)]; [rewrite List.app_nil_r in Es; congruence|]. exfalso. subst q.
  change (c :: more) with ([c] ++ more) in E. rewrite List.app_assoc in E. destruct more as [|d more]; [rewrite List.app_nil_r in E; by rewrite E in Hne|].
  pose proof (walk_app f true 255 [] (a ++ [c]) (d :: more) ltac:(done)) as K. destruct (walk f true 255 [] (a ++ [c])); try done; congruence.
Qed.
End Confined.

(** ** What the calls leave alone *)

Definition confined (rr : list string) (f g : fs) : Prop := ∀ p, ¬ rr `prefix_of` p → g !! p = f !! p.
Lemma confined_refl rr f : confined rr f f.
Proof. done. Qed.
Lemma confined_trans rr f g h : confined rr f g → confined rr g h → confined rr f h.
Proof. intros H1 H2 p Hp. by rewrite H2, H1. Qed.
Lemma confined_insert rr f p x : rr `prefix_of` p → confined rr f (<[p := x]> f).
Proof. intros H q Hq. rewrite lookup_insert_ne; [done|]. by intros <-. Qed.
Lemma under_spec d p : under d p = true ↔ d `prefix_of` p.
Proof. apply bool_decide_eq_true. Qed.
Lemma drop_tree_lookup d f p : ¬ d `prefix_of` p → drop_tree d f !! p = f !! p.
Proof.
  intros H. unfold drop_tree. rewrite map_lookup_filter. destruct (f !! p) as [x|]; [|done]. cbn. rewrite option_guard_True; [done|].
  by apply bool_decide_eq_false.
Qed.
Lemma confined_drop rr d f : rr `prefix_of` d → confined rr f (drop_tree d f).
Proof. intros H p Hp. apply drop_tree_lookup. intros Hd. apply Hp. by (etrans; [|exact Hd]). Qed.
Lemma confined_move rr po pn f : rr `prefix_of` po → rr `prefix_of` pn → confined rr f (move_tree po pn f).
Proof.
  intros Ho Hn p Hp. unfold move_tree. rewrite lookup_union_r.
  - rewrite !drop_tree_lookup; [done|intros K; apply Hp; by (etrans; [|exact K])..].
  - unfold moved. apply not_elem_of_list_to_map_1. rewrite list_elem_of_fmap. intros ((k & x) & -> & Hk).
    apply list_elem_of_fmap in Hk as ((k' & x') & [= -> ->] & _). apply Hp. cbn. etrans; [exact Hn|]. by eexists.
Qed.
Lemma confined_made rr f ra b g : rr `prefix_of` ra → made f ra b g → confined rr f g.
Proof.
  intros Hr [Hg Hn] p Hp. destruct (g !! p) as [x|] eqn:E.
  - destruct (Hn _ _ E) as [->|(_ & l & _ & _ & ->)]; [done|]. exfalso. apply Hp. etrans; [exact Hr|]. by eexists.
  - symmetry. by eapply lookup_weaken_None.
Qed.
