(* ===== verification/FileManager.v ===== *)
(** The file manager of a site: src/internal/apihttp/filemanager.go, on the database of the panel
    and the file system of FileSystem.v.  Every call of the system may fail for reasons of its
    own; between two calls nobody else changes the tree. *)
From S2P Require Import Prelude GoStr Paths SiteInput AgentValidate Json Sql Accounts Sites Records Panel Guards Http Access FileSystem.
Local Open Scope Z_scope.
Local Open Scope panel_scope.

Set Default Proof Using "Type".

Record files_panel := mkFilesPanel { fp_db : db; fp_fs : fs }.
(** A statement on the database of the panel; a call of the system; a look at the tree. *)
Definition on_db {A} (m : M db A) : M files_panel A := λ w,
  let '(a, w') := m (World (fp_db (data w)) (clock w) (faults w)) in
  (a, World (mkFilesPanel (data w') (fp_fs (data w))) (clock w') (faults w')).
Definition sys {A} (g : fs → res A * fs) : M files_panel (res A) :=
  stmt (λ _ d, let '(r, f) := g (fp_fs d) in (r, mkFilesPanel (fp_db d) f)).
Definition look {A} (g : fs → res A) : M files_panel (res A) := sys (λ f, (g f, f)).

(** What [os.FileInfo] says beside the kind: the size of what is no file, mode and time as texts;
    the archive that [archive/zip] writes for names and contents ([None]: a directory). *)
Class FileInfo := {
  other_size : list string → Z;
  mode_text : fs → list string → string;
  mod_time : fs → list string → string;
  zip_of : list (string * option string) → string }.

Section FileManager.
Context `{HF : FileInfo}.
Notation M_ := (M files_panel).
Notation handler := (handler (D := files_panel)).

Definition size_of (p : list string) (x : node) : Z := match x with NFile c => len c | _ => other_size p end.
Definition fileAuditItemType (isDir : bool) : string := if isDir then "folder" else "file".

(** [os.Stat]: the real path and what is there. *)
Definition os_Stat (path : string) : M_ (res (list string * node)) :=
  look (λ f, match Stat f path with Some x => Ok x | None => Err "stat" end).
(** [filepath.EvalSymlinks]; [Ok None]: an error for which [os.IsNotExist] holds. *)
Definition EvalSymlinks (path : string) : M_ (res (option string)) :=
  look (λ f, match eval_walk f path with
             | At p => Ok (Some (real_path p))
             | Missing _ | NoEntry => Ok None
             | NotDir => Err "not a directory"
             | Loop => Err "EvalSymlinks: too many links"
             end).

(** [os.MkdirAll] on a cleaned path; its last step, after the directories above. *)
Definition make_one (path : string) : M_ (res ()) :=
  let* r := sys (Mkdir path) in
  match r with
  | Ok _ => mret (Ok ())
  | Err e =>
      look (λ f, match kernel_walk f false path with
                 | At p => match node_at f p with Some NDir => Ok () | _ => Err e end
                 | _ => Err e
                 end)
  end.
Fixpoint MkdirAll (fuel : nat) (path : string) : M_ (res ()) :=
  match fuel with
  | O => mret (Ok ())
  | S fuel =>
      let* s := os_Stat path in
      match s with
      | Ok (_, x) => mret (if is_dir x then Ok () else Err "not a directory")
      | Err _ =>
          let* up := if (path_dir path =? "/")%string then mret (Ok ()) else MkdirAll fuel (path_dir path) in
          match up with Err e => mret (Err e) | Ok _ => make_one path end
      end
  end.
Definition mkdirs (path : string) : M_ () := let* _ := MkdirAll (S (String.length path)) path in mret ().
(** [os.WriteFile], [os.Create] and [io.Copy]; a write that fails leaves the file empty. *)
Definition WriteFile (path content : string) : M_ (res ()) :=
  let* fd := sys (OpenTrunc path) in
  match fd with Err e => mret (Err e) | Ok p => sys (Write p content) end.

(** ** Paths *)

Definition bad_path : reply := HTTPError 400 "invalid path".
Definition traversal : reply := HTTPError 400 "path traversal not allowed".
Definition outside (root path : string) : bool := negb (path =? root)%string && negb (has_prefix path (root +:+ "/")).
(** The loop of [ensureNoSymlinkEscape]; [None]: the path may be used. *)
Fixpoint probe_loop (fuel : nat) (realRoot probe : string) : M_ (option reply) :=
  match fuel with
  | O => mret (Some bad_path)
  | S fuel =>
      let* r := EvalSymlinks probe in
      match r with
      | Ok (Some resolved) => mret (if outside realRoot resolved then Some traversal else None)
      | Err _ => mret (Some bad_path)
      | Ok None =>
          let parent := path_dir probe in
          if (parent =? probe)%string then mret (Some bad_path) else probe_loop fuel realRoot parent
      end
  end.
Definition ensureNoSymlinkEscape (root full : string) : M_ (option reply) :=
  let* r := EvalSymlinks root in
  match r with
  | Ok (Some realRoot) => probe_loop (S (String.length full)) realRoot full
  | _ => mret (Some (HTTPError 400 "site root not accessible"))
  end.
Definition safePath (root rel0 : string) : M_ (reply + string) :=
  if (root =? "")%string then mret (inl (HTTPError 400 "site root path not configured")) else
  let rel1 := trim_space rel0 in
  let rel := path_clean (if (rel1 =? "")%string then "." else rel1) in
  if (rel =? "..")%string || has_prefix rel ".." || has_prefix rel "/" then mret (inl bad_path) else
  let full := path_join root rel in
  let cleanRoot := path_clean root in
  if outside cleanRoot full then mret (inl traversal) else
  let* e := ensureNoSymlinkEscape cleanRoot full in
  mret match e with Some r => inl r | None => inr full end.
Definition with_path (root rel : string) (k : string → M_ reply) : M_ reply :=
  let* p := safePath root rel in match p with inl r => mret r | inr full => k full end.

(** ** Sites *)

Definition find_site (id : string) : M_ (option site_row) :=
  let* r := on_db (Sites.GetByID (atoi id).1) in mret match r with Ok o => o | Err _ => None end.
(** The site, if there is one and the check lets the caller through. *)
Definition site_for (check : site_row → M db bool) (id : string) : M_ (option site_row) :=
  let* o := find_site id in
  match o with
  | None => mret None
  | Some site => let* ok := on_db (check site) in mret (if ok : bool then Some site else None)
  end.
Definition or_not_found (k : site_row → M_ reply) (o : option site_row) : M_ reply :=
  match o with None => mret not_found | Some site => k site end.
Definition resolveSite (c : context) (id : string) (k : site_row → M_ reply) : M_ reply :=
  let* o := site_for (canAccess c) id in or_not_found k o.
Definition resolveSiteWrite (c : context) (id : string) (k : site_row → M_ reply) : M_ reply :=
  let* o := site_for (λ site, checkSitePermission c site "write") id in or_not_found k o.
Definition file_audit (c : context) (site : site_row) (details : list (string * json)) : M_ () :=
  on_db (Audit.RecordAction (caller c) "site_update" "site" (s_id site) (Some (JObj (obj_of_list (("domain", JStr (s_domain site)) :: details))))).
Definition said (message : string) (more : list (string * json)) : json :=
  JObj ([("status", JStr "success"); ("message", JStr message)] ++ more).
Definition path_required : reply := HTTPError 400 "path required".

(** ** Reading *)

Definition file_entry (f : fs) (dir : list string) (rel : string) (e : string * node) : json :=
  let p := dir ++ [e.1] in
  JObj [("name", JStr e.1); ("path", JStr (path_join rel e.1)); ("size", JInt (size_of p e.2)); ("is_dir", JBool (is_dir e.2));
        ("mode", JStr (mode_text f p)); ("mod_time", JStr (mod_time f p))].
Definition listFiles (id path : string) : handler := λ c,
  resolveSite c id (λ site,
    let relPath := if (path =? "")%string then "." else path in
    with_path (s_root_path site) relPath (λ full,
      let* s := os_Stat full in
      match s with
      | Ok (_, NDir) =>
          let* l := look (λ f, match Stat f full, ReadDir f full with
                               | Some (p, _), Some l => Ok (map (file_entry f p relPath) l)
                               | _, _ => Err "readdir"
                               end) in
          mret match l with
               | Err _ => HTTPError 500 "failed to read directory"
               | Ok files =>
                   Success 200 (JObj [("site_id", JInt (s_id site)); ("domain", JStr (s_domain site)); ("root_path", JStr (s_root_path site));
                     ("current", JStr relPath); ("entries", JArr files); ("total", JInt (Z.of_nat (length files)))])
               end
      | _ => mret (HTTPError 404 "directory not found")
      end)).

Definition MB : Z := 1024 * 1024.
Definition os_ReadFile (path : string) : M_ (res string) :=
  look (λ f, match ReadFile f path with Some c => Ok c | None => Err "read" end).
Definition readFile (id path : string) : handler := λ c,
  resolveSite c id (λ site,
    if (path =? "")%string then mret path_required else
    with_path (s_root_path site) path (λ full,
      let* s := os_Stat full in
      match s with
      | Err _ => mret (HTTPError 404 "file not found")
      | Ok (p, x) =>
          if MB <? size_of p x then mret (HTTPError 400 "file too large (>1MB)")
          else if is_dir x then mret (HTTPError 400 "is a directory")
          else
            let* r := os_ReadFile full in
            let* i := look (λ f, Ok (mod_time f p, mode_text f p)) in
            mret match r with
                 | Err _ => HTTPError 500 "failed to read file"
                 | Ok content =>
                     let '(t, m) := match i with Ok i => i | Err _ => ("", "") end in
                     Success 200 (JObj [("path", JStr path); ("content", JStr content); ("size", JInt (size_of p x));
                                        ("mod_time", JStr t); ("mode", JStr m)])
                 end
      end)).
(** The body of the answer is the file itself. *)
Definition downloadFile (id path : string) (c : context) : M_ (reply + string) :=
  let* o := site_for (canAccess c) id in
  match o with
  | None => mret (inl not_found)
  | Some site =>
      if (path =? "")%string then mret (inl path_required) else
      let* p := safePath (s_root_path site) path in
      match p with
      | inl r => mret (inl r)
      | inr full =>
          let* s := os_Stat full in
          match s with
          | Err _ => mret (inl (HTTPError 404 "file not found"))
          | Ok (_, x) =>
              if is_dir x then mret (inl (HTTPError 400 "cannot download a directory"))
              else let* r := os_ReadFile full in mret match r with Ok content => inr content | Err _ => inl (HTTPError 404 "Not Found") end
          end
      end
  end.

(** ** Writing *)

Definition writeFile (id : string) (body : option (string * string)) : handler := λ c,
  resolveSiteWrite c id (λ site,
    match body with
    | None => mret path_required
    | Some (path, content) =>
        if (path =? "")%string then mret path_required else
        with_path (s_root_path site) path (λ full,
          let* _ := mkdirs (path_dir full) in
          let* r := WriteFile full content in
          match r with
          | Err _ => mret (HTTPError 500 "failed to write")
          | Ok _ =>
              let* _ := file_audit c site [("action", JStr "file_write"); ("path", JStr path); ("item_type", JStr "file"); ("is_dir", JBool false)] in
              mret (Success 200 (said "File saved" []))
          end)
    end).

Definition createEntry (id : string) (body : option (string * bool)) : handler := λ c,
  resolveSiteWrite c id (λ site,
    match body with
    | None => mret path_required
    | Some (path, isDir) =>
        if (path =? "")%string then mret path_required else
        with_path (s_root_path site) path (λ full,
          let* _ := if isDir : bool then mkdirs full
                    else let* _ := mkdirs (path_dir full) in let* _ := WriteFile full "" in mret () in
          let* _ := file_audit c site [("action", JStr "file_create"); ("path", JStr path);
                                       ("item_type", JStr (fileAuditItemType isDir)); ("is_dir", JBool isDir)] in
          mret (Success 201 (said "Created" [])))
    end).

(** [isDir := false; if info, err := os.Stat(full); err == nil { isDir = info.IsDir() }]. *)
Definition stat_dir (full : string) : M_ bool :=
  let* s := os_Stat full in mret match s with Ok (_, x) => is_dir x | Err _ => false end.
Definition deleteEntry (id path : string) : handler := λ c,
  resolveSiteWrite c id (λ site,
    if (path =? "")%string then mret path_required else
    with_path (s_root_path site) path (λ full,
      if (full =? path_clean (s_root_path site))%string then mret (HTTPError 400 "cannot delete site root") else
      let* isDir := stat_dir full in
      let* _ := sys (RemoveAll full) in
      let* _ := file_audit c site [("action", JStr "file_delete"); ("path", JStr path);
                                   ("item_type", JStr (fileAuditItemType isDir)); ("is_dir", JBool isDir)] in
      mret (Success 200 (said "Deleted" [])))).

Definition renameEntry (id : string) (body : option (string * string)) : handler := λ c,
  resolveSiteWrite c id (λ site,
    match body with
    | None => mret (HTTPError 400 "old_path and new_name required")
    | Some (oldPath, newName) =>
        if (oldPath =? "")%string || (newName =? "")%string then mret (HTTPError 400 "old_path and new_name required") else
        with_path (s_root_path site) oldPath (λ oldFull,
          let newFull := path_join (path_dir oldFull) newName in
          let newRel := trim_prefix newFull (path_clean (s_root_path site) +:+ "/") in
          with_path (s_root_path site) newRel (λ _,
            let* isDir := stat_dir oldFull in
            let* r := sys (Rename oldFull newFull) in
            match r with
            | Err _ => mret (HTTPError 500 "failed to rename")
            | Ok _ =>
                let* _ := file_audit c site [("action", JStr "file_rename"); ("old_path", JStr oldPath); ("new_name", JStr newName);
                                             ("item_type", JStr (fileAuditItemType isDir)); ("is_dir", JBool isDir)] in
                mret (Success 200 (said "Renamed" []))
            end))
    end).

(** [file]: the name the client gives it and its content; [None]: there is none. *)
Definition uploadFile (id relDir0 : string) (file : option (string * string)) : handler := λ c,
  resolveSiteWrite c id (λ site,
    let relDir := if (relDir0 =? "")%string then "." else relDir0 in
    with_path (s_root_path site) relDir (λ _,
      match file with
      | None => mret (HTTPError 400 "file field required")
      | Some (name, content) =>
          let filename := path_base name in
          if str_in [""; "."; ".."; "/"] filename then mret (HTTPError 400 "invalid filename") else
          with_path (s_root_path site) (path_join relDir filename) (λ dst,
            let* _ := mkdirs (path_dir dst) in
            let* o := look (λ _, Ok ()) in
            match o with
            | Err _ => mret (HTTPError 500 "failed to open upload")
            | Ok _ =>
                let* fd := sys (OpenTrunc dst) in
                match fd with
                | Err _ => mret (HTTPError 500 "failed to create file")
                | Ok p =>
                    let* r := sys (Write p content) in
                    match r with
                    | Err _ => mret (HTTPError 500 "failed to save file")
                    | Ok _ =>
                        let* s := os_Stat dst in
                        match s with
                        | Err _ => mret Panics
                        | Ok (q, x) =>
                            let where_ := path_join relDir filename in
                            let* _ := file_audit c site [("action", JStr "file_upload"); ("path", JStr where_); ("size", JInt (size_of q x));
                                                         ("item_type", JStr "file"); ("is_dir", JBool false)] in
                            mret (Success 200 (said "Uploaded" [("name", JStr filename); ("size", JInt (size_of q x)); ("path", JStr where_)]))
                        end
                    end
                end
            end)
      end)).

(** ** Several paths *)

(** The loop of [moveEntries]: the answer it stops with, or the names it moved. *)
Fixpoint move_each (root dest : string) (paths : list string) (moved : list string) : M_ (reply + list string) :=
  match paths with
  | [] => mret (inr moved)
  | rel :: paths =>
      let* p := safePath root rel in
      match p with
      | inl r => mret (inl r)
      | inr src =>
          if (src =? path_clean root)%string then mret (inl (HTTPError 400 "cannot move site root")) else
          let base := path_base src in
          let dst := path_join dest base in
          if (src =? dest)%string || has_prefix (dest +:+ "/") (src +:+ "/")
          then mret (inl (HTTPError 400 "cannot move a folder into itself"))
          else if (dst =? src)%string then move_each root dest paths moved
          else
            let* s := os_Stat dst in
            match s with
            | Ok _ => mret (inl (HTTPError 409 ("already exists at destination: " +:+ base)))
            | Err _ =>
                let* r := sys (Rename src dst) in
                match r with
                | Err _ => mret (inl (HTTPError 500 ("failed to move: " +:+ base)))
                | Ok _ => move_each root dest paths (moved ++ [base])
                end
            end
      end
  end.
Definition in_directory (root dest : string) (k : string → M_ reply) : M_ reply :=
  with_path root dest (λ full,
    let* d := stat_dir full in if negb d then mret (HTTPError 400 "destination is not a directory") else k full).
Definition moveEntries (id : string) (body : option (list string * string)) : handler := λ c,
  resolveSiteWrite c id (λ site,
    match body with
    | None => mret (HTTPError 400 "invalid body")
    | Some ([], _) => mret (HTTPError 400 "paths required")
    | Some (paths, dest) =>
        in_directory (s_root_path site) dest (λ destFull,
          let* r := move_each (s_root_path site) destFull paths [] in
          match r with
          | inl r => mret r
          | inr names =>
              let* _ := file_audit c site [("action", JStr "file_move"); ("count", JInt (Z.of_nat (length names))); ("dest", JStr dest)] in
              mret (Success 200 (said "Moved" [("moved", JArr (map JStr names))]))
          end)
    end).

Fixpoint resolve_each (root : string) (paths : list string) (items : list string) : M_ (reply + list string) :=
  match paths with
  | [] => mret (inr items)
  | rel :: paths =>
      let* p := safePath root rel in
      match p with
      | inl r => mret (inl r)
      | inr full =>
          let* s := os_Stat full in
          match s with
          | Err _ => mret (inl (HTTPError 404 ("not found: " +:+ rel)))
          | Ok _ => resolve_each root paths (items ++ [full])
          end
      end
  end.
(** What [addToZip] writes for one path: nothing is said of an error.  A link below a directory
    is opened, and so followed. *)
Definition zip_entry (f : fs) (dir : list string) (base : string) (e : list string * node) : option (list (string * option string)) :=
  let name := match e.1 with [] => base | _ => path_join base (join "/" e.1) end in
  match e.2 with
  | NDir => Some (match e.1 with [] => [] | _ => [(name +:+ "/", None)] end)
  | NFile c => Some [(name, Some c)]
  | NLink _ => match ReadFile f (real_path (dir ++ e.1)) with Some c => Some [(name, Some c)] | None => None end
  end.
Fixpoint all_of {A} (l : list (option (list A))) : option (list A) :=
  match l with [] => Some [] | o :: l => x ← o; y ← all_of l; Some (x ++ y) end.
Definition addToZip (src base : string) (f : fs) : res (list (string * option string)) :=
  let entries :=
    match Stat f src, kernel_walk f false src with
    | Some (_, NFile c), _ => Some [(base, Some c)]
    | Some (_, NDir), At p => match f !! p with Some (NLink _) => None | _ => all_of (map (zip_entry f p base) (tree f p)) end
    | _, _ => None
    end in
  match entries with Some l => Ok l | None => Err "zip" end.
Fixpoint zip_each (items : list string) (out : list (string * option string)) : M_ (string + list (string * option string)) :=
  match items with
  | [] => mret (inr out)
  | src :: items =>
      let* r := look (addToZip src (path_base src)) in
      match r with Err _ => mret (inl (path_base src)) | Ok l => zip_each items (out ++ l) end
  end.
Definition archive_name (name0 : string) : string :=
  let name1 := trim_space name0 in
  let name := path_base (if (name1 =? "")%string then "archive.zip" else name1) in
  if has_suffix (to_lower name) ".zip" then name else name +:+ ".zip".
(** The archive itself, when it is among what it is made of, is read as it was created: empty. *)
Definition compressEntries (id : string) (body : option (list string * string * string)) : handler := λ c,
  resolveSiteWrite c id (λ site,
    match body with
    | None => mret (HTTPError 400 "invalid body")
    | Some ([], _, _) => mret (HTTPError 400 "paths required")
    | Some (paths, name0, dest) =>
        let name := archive_name name0 in
        in_directory (s_root_path site) dest (λ destFull,
          let archive := path_join destFull name in
          let* s := os_Stat archive in
          match s with
          | Ok _ => mret (HTTPError 409 ("archive already exists: " +:+ name))
          | Err _ =>
              let* r := resolve_each (s_root_path site) paths [] in
              match r with
              | inl r => mret r
              | inr items =>
                  let* fd := sys (OpenTrunc archive) in
                  match fd with
                  | Err _ => mret (HTTPError 500 "failed to create archive")
                  | Ok p =>
                      let* z := zip_each items [] in
                      match z with
                      | inl base => let* _ := sys (Remove archive) in mret (HTTPError 500 ("failed to compress: " +:+ base))
                      | inr entries =>
                          let* r := sys (Write p (zip_of entries)) in
                          match r with
                          | Err _ => let* _ := sys (Remove archive) in mret (HTTPError 500 "failed to finalize archive")
                          | Ok _ =>
                              let* s := os_Stat archive in
                              let size := match s with Ok (q, x) => size_of q x | Err _ => 0 end in
                              let* _ := file_audit c site [("action", JStr "file_compress"); ("count", JInt (Z.of_nat (length items)));
                                          ("archive", JStr (if (dest =? "")%string then path_clean name else path_join dest name)); ("size", JInt size)] in
                              mret (Success 200 (said "Compressed" [("archive", JStr name); ("size", JInt size)]))
                          end
                      end
                  end
              end
          end)
    end).
End FileManager.

(** * Facts *)

Section Facts.
Context `{HF : FileInfo}.
Implicit Types w : world files_panel.
Opaque walk.

Lemma wp_on_db {A} (m : M db A) (Q : A → world files_panel → Prop) w :
  wp m (λ a v, Q a (World (mkFilesPanel (data v) (fp_fs (data w))) (clock v) (faults v))) (World (fp_db (data w)) (clock w) (faults w)) →
  wp (on_db m) Q w.
Proof. unfold wp, on_db. by destruct (m _). Qed.
(** The tree after a call, and after a look. *)
Lemma wp_sys {A} (g : fs → res A * fs) (Q : res A → world files_panel → Prop) w :
  (∀ e w', data w' = data w → Q (Err e) w') →
  (∀ w', fp_db (data w') = fp_db (data w) → fp_fs (data w') = (g (fp_fs (data w))).2 → Q (g (fp_fs (data w))).1 w') → wp (sys g) Q w.
Proof.
  intros He Hk. apply wp_stmt; [intros; by apply He|]. intros fs. destruct (g (fp_fs (data w))) as [r f] eqn:E. cbn.
  specialize (Hk (World (mkFilesPanel (fp_db (data w)) f) (clock w) fs) eq_refl). cbn in Hk. by apply Hk.
Qed.
Lemma wp_look {A} (g : fs → res A) (Q : res A → world files_panel → Prop) w :
  (∀ e w', data w' = data w → Q (Err e) w') → (∀ w', data w' = data w → Q (g (fp_fs (data w))) w') → wp (look g) Q w.
Proof.
  intros He Hk. apply wp_sys; [done|]. cbn. intros w' Hd Hf. apply Hk. destruct w as [[] ], w' as [[] ]. cbn in *. congruence.
Qed.

(** ** The check of a path *)

Ltac step := cbv beta iota; wp_step.
Section Site.
Variables (f : fs) (root : string) (rr : list string).
Hypothesis Hroot : is_rooted root = true.
Hypothesis Hreal : walk f true 255 [] (path_segs root) = At rr.

Lemma eval_real q : plain q → eval_walk f (real_path q) = walk f true 255 [] q.
Proof. apply walk_real. Qed.
Lemma rr_plain : plain rr.
Proof using Hroot Hreal.
  eapply (walk_plain f true 255 [] (path_segs root)); [by constructor|by apply plain_seg_no_slash, path_segs_plain|done].
Qed.
Lemma inside_prefix a b : plain a → plain b → outside (real_path a) (real_path b) = false → a `prefix_of` b.
Proof.
  intros Ha Hb H. unfold outside in H. apply andb_false_iff in H as [H|H]; apply negb_false_iff in H.
  - apply String.eqb_eq, real_inj in H; [by subst|done..].
  - by apply real_prefix.
Qed.
Definition refusal (r : reply) : Prop := ∃ s m, r = HTTPError s m.
Lemma probe_loop_wp q fuel x y w :
  plain q → q = x ++ y → fp_fs (data w) = f → (y = [] ∨ ∃ c more, y = c :: more ∧ not_exist (walk f true 255 [] (x ++ [c])) = true) →
  wp (probe_loop fuel (real_path rr) (real_path x)) (λ r w', data w' = data w ∧ match r with None => ∃ H : probed f rr q, True | Some e => refusal e end) w.
Proof using Hroot Hreal.
  intros Hq. revert x y w. induction fuel as [|fuel IH]; intros x y w Es Hf Hy; cbn [probe_loop]; [wp_step; split; [done|by do 2 eexists]|].
  assert (plain x) as Hx by (subst q; by apply plain_app in Hq as []).
  unfold EvalSymlinks. apply wp_bind, wp_look; [intros e w' Hd; step; split; [done|by do 2 eexists]|]. intros w' Hd. cbv beta. rewrite Hf, eval_real by done.
  destruct (walk f true 255 [] x) as [p|p| | |] eqn:E; [wp_step; split; [done|]| | |wp_step; split; [done|by do 2 eexists]..].
  - destruct (outside _ _) eqn:Eo; [by do 2 eexists|]. apply inside_prefix in Eo; [|apply rr_plain|].
    2:{ eapply (walk_plain f true 255 [] x); [by constructor|by apply plain_seg_no_slash|done]. }
    unshelve eexists; [|done]. by apply (mkProbed _ _ _ x y p).
  - destruct (_ =? _)%string; [wp_step; split; [done|by do 2 eexists]|]. destruct (decide (x = [])) as [->|Hne]; [by rewrite walk_nil in E|].
    destruct (exists_last Hne) as (x' & c & ->). rewrite dir_real by done. eapply wp_mono; [|apply (IH x' (c :: y)); [by rewrite <- List.app_assoc in Es|congruence|]].
    + intros r w2 [H1 H2]. split; [congruence|done].
    + right. exists c, y. by rewrite E.
  - destruct (_ =? _)%string; [wp_step; split; [done|by do 2 eexists]|]. destruct (decide (x = [])) as [->|Hne]; [by rewrite walk_nil in E|].
    destruct (exists_last Hne) as (x' & c & ->). rewrite dir_real by done. eapply wp_mono; [|apply (IH x' (c :: y)); [by rewrite <- List.app_assoc in Es|congruence|]].
    + intros r w2 [H1 H2]. split; [congruence|done].
    + right. exists c, y. by rewrite E.
Qed.
(** The path as [safePath] cleans it. *)
Definition cleaned (rel : string) : string := let rel1 := trim_space rel in path_clean (if (rel1 =? "")%string then "." else rel1).
Lemma safePath_wp rel w : fp_fs (data w) = f →
  wp (safePath root rel) (λ r w', data w' = data w ∧ match r with
    | inl e => refusal e
    | inr full => ∃ q (H : probed f rr q), full = real_path q ∧ plain q ∧ full = path_join root (cleaned rel) ∧ has_prefix (cleaned rel) "/" = false
    end) w.
Proof using Hroot Hreal.
  intros Hf. unfold safePath. fold (cleaned rel). destruct (root =? "")%string; [wp_step; split; [done|by do 2 eexists]|].
  destruct (_ || _ || _) eqn:E1; [wp_step; split; [done|by do 2 eexists]|]. apply orb_false_iff in E1 as [_ E1].
  destruct (join_rooted root (cleaned rel) Hroot) as (q & Eq & Hq). rewrite Eq.
  destruct (outside _ _); [wp_step; split; [done|by do 2 eexists]|]. apply wp_bind. unfold ensureNoSymlinkEscape, EvalSymlinks. apply wp_bind.
  apply wp_look; [intros e w' Hd; step; step; split; [done|by do 2 eexists]|]. intros w' Hd. cbv beta. rewrite Hf, clean_real, eval_real, Hreal by (done || by apply path_segs_plain).
  eapply wp_mono; [|apply (probe_loop_wp q _ q []); [done|by rewrite List.app_nil_r|congruence|by left]].
  intros r w2 [H1 H2]. wp_step. split; [congruence|]. destruct r; [done|]. destruct H2 as (H & _). by exists q, H.
Qed.
Lemma with_path_wp rel k (Q : reply → world files_panel → Prop) w : fp_fs (data w) = f →
  (∀ r w', refusal r → data w' = data w → Q r w') →
  (∀ q (H : probed f rr q) w', plain q → real_path q = path_join root (cleaned rel) → has_prefix (cleaned rel) "/" = false → data w' = data w →
     wp (k (real_path q)) Q w') → wp (with_path root rel k) Q w.
Proof using Hroot Hreal.
  intros Hf Hr Hk. unfold with_path. apply wp_bind. eapply wp_mono; [|by apply safePath_wp]. intros [r|full] w' [Hd H]; cbv beta iota.
  - wp_step. by apply Hr.
  - destruct H as (q & Hp & -> & Hq & Ej & Ec). by apply (Hk q Hp).
Qed.

(** ** Calls on a probed path *)

Hypothesis Hwf : fs_wf f.
Hypothesis Hd : no_dangling f rr.
Hypothesis Hb : no_way_in f rr.
Notation stays w := (confined rr f (fp_fs (data w))).

Section Probed.
Variables (q : list string) (H : probed f rr q).
Hypothesis Hq : plain q.
Notation made_below := (made f (pb_real f rr q H) (pb_rest f rr q H)).

Lemma kernel_real follow (g : fs) x : plain x → kernel_walk g follow (real_path x) = walk g follow 40 [] x.
Proof. apply walk_real. Qed.
Lemma make_one_wp x y w : q = x ++ y → made_below (fp_fs (data w)) →
  wp (make_one (real_path x)) (λ _ w', made_below (fp_fs (data w'))) w.
Proof using Hwf Hd Hq.
  intros Es Hm. assert (plain x) as Hx by (subst q; by apply plain_app in Hq as []). apply wp_bind, wp_sys.
  - intros e w' E. apply wp_look; intros; congruence.
  - intros w' _ E. unfold Mkdir in *. rewrite kernel_real in * by done.
    destruct (walk (fp_fs (data w)) false 40 [] x) as [p|p| | |] eqn:Ew; cbn [snd fst] in *; cbv beta iota; try (apply wp_look; intros; congruence).
    step. rewrite E. apply walk_nofollow_fails in Ew; [|done].
    pose proof (walk_part f Hwf rr q H Hq Hd (fp_fs (data w)) Hm 40 x y ltac:(lia) Es) as K. rewrite Ew in K.
    destruct K as (l & Hl & Hpre & ->). apply made_insert; [done..|]. by eapply walk_missing.
Qed.
Lemma MkdirAll_wp fuel x y w : q = x ++ y → made_below (fp_fs (data w)) →
  wp (MkdirAll fuel (real_path x)) (λ _ w', made_below (fp_fs (data w'))) w.
Proof using Hwf Hd Hq.
  revert x y w. induction fuel as [|fuel IH]; intros x y w Es Hm; cbn [MkdirAll]; [by wp_step|].
  assert (plain x) as Hx by (subst q; by apply plain_app in Hq as []).
  assert (Habove : ∀ w, made_below (fp_fs (data w)) →
    wp (if (path_dir (real_path x) =? "/")%string then mret (Ok ()) else MkdirAll fuel (path_dir (real_path x)))
      (λ _ w', made_below (fp_fs (data w'))) w).
  { clear w Hm. intros w Hm. destruct (_ =? _)%string eqn:Er; [by wp_step|]. destruct (decide (x = [])) as [->|Hne]; [by vm_compute in Er|].
    destruct (exists_last Hne) as (x' & c & ->). rewrite dir_real by done. apply (IH x' (c :: y)); [by rewrite <- List.app_assoc in Es|done]. }
  assert (Herr : ∀ w, made_below (fp_fs (data w)) →
    wp (let* up := if (path_dir (real_path x) =? "/")%string then mret (Ok ()) else MkdirAll fuel (path_dir (real_path x)) in
        match up with Err e => mret (Err e) | Ok _ => make_one (real_path x) end) (λ _ w', made_below (fp_fs (data w'))) w).
  { intros w2 Hm2. apply wp_bind. eapply wp_mono; [|by apply Habove]. intros [] w3 Hm3; cbv beta iota; [by eapply make_one_wp|by wp_step]. }
  apply wp_bind. unfold os_Stat. apply wp_look; intros; cbv beta iota; [apply Herr; congruence|].
  destruct (Stat _ _) as [[p z]|]; [wp_step; congruence|apply Herr; congruence].
Qed.
Lemma mkdirs_wp x y w : q = x ++ y → made_below (fp_fs (data w)) → wp (mkdirs (real_path x)) (λ _ w', made_below (fp_fs (data w'))) w.
Proof using Hwf Hd Hq.
  intros Es Hm. apply wp_bind. eapply wp_mono; [|by eapply MkdirAll_wp]. intros. by wp_step.
Qed.
(** The directories above the path. *)
Lemma mkdirs_above_wp w : made_below (fp_fs (data w)) → wp (mkdirs (path_dir (real_path q))) (λ _ w', made_below (fp_fs (data w'))) w.
Proof using Hwf Hd Hq.
  intros Hm. destruct (decide (q = [])) as [E|Hne].
  - assert (path_dir (real_path q) = real_path []) as -> by (rewrite E; by vm_compute). by apply (mkdirs_wp [] q).
  - destruct (exists_last Hne) as (x & c & E). assert (path_dir (real_path q) = real_path x) as ->.
    { rewrite E. apply dir_real. by rewrite <- E. }
    by apply (mkdirs_wp x [c]).
Qed.
Lemma made_stays w : made_below (fp_fs (data w)) → stays w.
Proof. apply confined_made, pb_below. Qed.
Lemma OpenTrunc_wp w (Q : res (list string) → world files_panel → Prop) : made_below (fp_fs (data w)) →
  (∀ e w', stays w' → Q (Err e) w') → (∀ p w', stays w' → rr `prefix_of` p → Q (Ok p) w') → wp (sys (OpenTrunc (real_path q))) Q w.
Proof using Hwf Hd Hq.
  intros Hm He Hk. pose proof (made_stays w Hm) as Hs. apply wp_sys; [intros e w' E; apply He; rewrite E; exact Hs|]. intros w' _ E.
  unfold OpenTrunc in *. rewrite kernel_real in * by done.
  pose proof (walk_part f Hwf rr q H Hq Hd (fp_fs (data w)) Hm 40 q [] ltac:(lia) ltac:(by rewrite List.app_nil_r)) as K.
  destruct (walk (fp_fs (data w)) true 40 [] q) as [p|p| | |]; cbn [fst snd] in *; try (apply He; rewrite E; exact Hs).
  - destruct (node_at _ p) as [[]|]; cbn [fst snd] in *; try (apply He; rewrite E; exact Hs). specialize (K eq_refl).
    apply Hk; [|done]. rewrite E. eapply confined_trans; [exact Hs|]. by apply confined_insert.
  - destruct K as (l & _ & _ & ->). assert (rr `prefix_of` pb_real f rr q H ++ l) by (etrans; [apply (pb_below f rr q H)|]; by exists l).
    apply Hk; [|done]. rewrite E. eapply confined_trans; [exact Hs|]. by apply confined_insert.
Qed.
Lemma Write_wp p content w (Q : res () → world files_panel → Prop) : stays w → rr `prefix_of` p → (∀ r w', stays w' → Q r w') → wp (sys (Write p content)) Q w.
Proof.
  intros Hs Hp Hk. apply wp_sys; [intros e w' E; apply Hk; rewrite E; exact Hs|]. intros w' _ E. apply Hk. rewrite E.
  eapply confined_trans; [exact Hs|]. by apply confined_insert.
Qed.
Lemma WriteFile_wp content w (Q : res () → world files_panel → Prop) : made_below (fp_fs (data w)) → (∀ r w', stays w' → Q r w') →
  wp (WriteFile (real_path q) content) Q w.
Proof using Hwf Hd Hq.
  intros Hm Hk. apply wp_bind, OpenTrunc_wp; [done|..].
  - intros e w' Hs. step. by apply Hk.
  - intros p w' Hs Hp. by apply Write_wp.
Qed.
Lemma RemoveAll_wp w (Q : res () → world files_panel → Prop) : fp_fs (data w) = f →
  (∀ r w', stays w' → Q r w') → wp (sys (RemoveAll (real_path q))) Q w.
Proof using H Hq Hb.
  intros Hf Hk. apply wp_sys; [intros e w' E; apply Hk; rewrite E, Hf; apply confined_refl|]. intros w' _ E. apply Hk.
  rewrite E, Hf. unfold RemoveAll. rewrite kernel_real by done. pose proof (entry_below f rr q H 40 Hq Hb ltac:(lia)) as K.
  destruct (walk f false 40 [] q); try apply confined_refl. by apply confined_drop.
Qed.
Lemma Rename_wp q2 w (Q : res () → world files_panel → Prop) : fp_fs (data w) = f → plain q2 →
  (match walk f false 40 [] q2 with At p | Missing p => rr `prefix_of` p | _ => True end) →
  (∀ r w', stays w' → Q r w') → wp (sys (Rename (real_path q) (real_path q2))) Q w.
Proof using H Hq Hb.
  intros Hf Hq2 K2 Hk. apply wp_sys; [intros e w' E; apply Hk; rewrite E, Hf; apply confined_refl|]. intros w' _ E. apply Hk.
  rewrite E, Hf. unfold Rename. rewrite !kernel_real by done. pose proof (entry_below f rr q H 40 Hq Hb ltac:(lia)) as K.
  destruct (walk f false 40 [] q) as [po|po| | |]; try apply confined_refl.
  destruct (walk f false 40 [] q2) as [pn|pn| | |]; try apply confined_refl; repeat case_goal; try apply confined_refl; by apply confined_move.
Qed.
End Probed.

(** *** What comes after a call *)

Lemma file_audit_wp c site l w : stays w → wp (file_audit c site l) (λ (_ : ()) w', stays w') w.
Proof. intros H. unfold file_audit. apply wp_on_db. unfold Audit.RecordAction, insert_checked. by wp_run. Qed.
Lemma stat_dir_wp path w : wp (stat_dir path) (λ b w', data w' = data w ∧
  (b = true → ∃ p, kernel_walk (fp_fs (data w)) true path = At p)) w.
Proof.
  unfold stat_dir, os_Stat. apply wp_bind, wp_look; intros; step; [done|]. split; [done|]. unfold Stat.
  destruct (kernel_walk _ _ _); try done. by eexists.
Qed.
(** The answer, after the line in the audit log. *)
Lemma audited_wp c site l (r : reply) w : stays w → wp (let* _ := file_audit c site l in mret r) (λ (_ : reply) w', stays w') w.
Proof. intros H. apply wp_bind. eapply wp_mono; [|by apply file_audit_wp]. intros. by wp_step. Qed.

(** *** The requests *)

(** The part of the new name's path below the root. *)
Definition new_rel (oldFull newName : string) : string :=
  trim_prefix (path_join (path_dir oldFull) newName) (path_clean root +:+ "/").
Lemma join_clean s : plain s → s ≠ [] → path_clean (join "/" s) = join "/" s ∧ is_rooted (join "/" s) = false ∧ split "/" (join "/" s) = s.
Proof.
  intros Hs Hne. assert (Hsp : split "/" (join "/" s) = s) by (apply split_join; [done|by apply plain_seg_no_slash]).
  assert (Hr : is_rooted (join "/" s) = false).
  { destruct (is_rooted (join "/" s)) eqn:E; [|done]. unfold is_rooted in E. apply prefix_spec in E as (r & E).
    change ("/" +:+ r) with ("" +:+ String "/" r) in E. rewrite E, split_app_sep in Hsp. subst s. by apply Forall_cons in Hs as []. }
  split; [|done]. unfold path_clean, path_segs. rewrite Hr, Hsp, clean_segs_id by done. rewrite List.app_nil_r, rev_involutive. by destruct s.
Qed.
Lemma below_rel r nf : plain r → plain nf → let x := trim_prefix (real_path nf) (real_path r +:+ "/") in
  (∃ s, s ≠ [] ∧ plain s ∧ nf = r ++ s ∧ x = join "/" s) ∨ x = real_path nf.
Proof.
  intros Hr Hn. unfold trim_prefix. destruct (String.prefix _ _) eqn:Ep; [left|by right].
  pose proof (real_prefix _ _ Hr Hn Ep) as (s & ->). apply plain_app in Hn as [_ Hs]. apply prefix_spec in Ep as (rest & E).
  rewrite E, str_drop_app. exists s. assert (Hsplit : s = split "/" rest).
  { pose proof (f_equal (split "/") E) as Es. rewrite app_assoc_s in Es. change ("/" +:+ rest) with (String "/" rest) in Es.
    rewrite split_app_sep, !split_real in Es by (done || by apply plain_app). destruct r as [|v r].
    - exfalso. cbn in Es. injection Es as Es. destruct s as [|x s]; [by destruct (split_nonempty "/" rest)|].
      injection Es as -> _. by apply Forall_cons in Hs as [].
    - cbn in Es. injection Es as Es. by apply app_inv_head in Es. }
  split; [rewrite Hsplit; apply split_nonempty|]. split; [done|]. split; [done|]. by rewrite Hsplit, join_split.
Qed.
(** A new name that survives the trimming is checked as it is used. *)
Lemma new_name_checked q oldFull newName : is_rooted (path_dir oldFull) = true → plain q →
  trim_space (new_rel oldFull newName) = new_rel oldFull newName →
  real_path q = path_join root (cleaned (new_rel oldFull newName)) → has_prefix (cleaned (new_rel oldFull newName)) "/" = false →
  path_join (path_dir oldFull) newName = real_path q.
Proof using Hroot.
  intros Hdir Hq Ht Eq Hc. destruct (join_rooted _ newName Hdir) as (nf & En & Hn). unfold cleaned in *. rewrite Ht in *.
  unfold new_rel in *. rewrite En, (clean_real root Hroot) in *. pose proof (path_segs_plain root Hroot) as Hr.
  destruct (below_rel (path_segs root) nf Hr Hn) as [(s & Hne & Hs & -> & E)|E]; cbv zeta in E; rewrite E in *.
  - destruct (join_clean s Hs Hne) as (E1 & _ & E3). destruct (_ =? "")%string eqn:Ee.
    { exfalso. apply String.eqb_eq in Ee. rewrite Ee in E3. subst s. by apply Forall_cons in Hs as []. }
    rewrite E1, join_segs, E3, clean_segs_id in Eq by done. by rewrite List.rev_app_distr, !rev_involutive in Eq.
  - exfalso. assert ((real_path nf =? "")%string = false) as En2 by done. rewrite En2, clean_real in Hc by apply rooted_real.
    by rewrite (rooted_real (path_segs (real_path nf)) : has_prefix _ _ = true) in Hc.
Qed.
End Site.

(** The site of the path, when the caller passes the check. *)
Lemma site_for_wp check (P : Prop) id site (Q : option site_row → world files_panel → Prop) w :
  get_row (atoi id).1 (t_sites (fp_db (data w))) = Some site →
  (∀ v, data v = fp_db (data w) → wp (check site) (λ b v', data v' = data v ∧ (b = true → P)) v) →
  (∀ w', data w' = data w → Q None w') → (∀ w', data w' = data w → P → Q (Some site) w') → wp (site_for check id) Q w.
Proof.
  intros Hs Hc Hn Hk. unfold site_for, find_site. apply wp_bind, wp_bind, wp_on_db. unfold Sites.GetByID. wp_step. wp_step; cbn [data clock faults].
  - repeat wp_step. apply Hn. by destruct w as [[]].
  - wp_step. change (tab (fp_db (data w))) with (t_sites (fp_db (data w))). rewrite Hs. wp_step.
    apply wp_on_db. eapply wp_mono; [|by apply Hc]. cbv beta. cbn [data clock faults].
    intros b v (E1 & Hb). assert (Ed : mkFilesPanel (data v) (fp_fs (data w)) = data w) by (rewrite E1; by destruct w as [[]]).
    wp_step. destruct b; [apply Hk; [done|by apply Hb]|by apply Hn].
Qed.

Section Requests.
Variables (f : fs) (d : db) (id : string) (c : context) (site : site_row) (rr : list string).
Hypothesis Hsite : get_row (atoi id).1 (t_sites d) = Some site.
Hypothesis Hroot : is_rooted (s_root_path site) = true.
Hypothesis Hreal : walk f true 255 [] (path_segs (s_root_path site)) = At rr.
Hypothesis Hwf : fs_wf f.
Hypothesis Hd : no_dangling f rr.
Hypothesis Hb : no_way_in f rr.
(** Nothing changed, or the caller may write to the site and only the site changed. *)
Definition allowed_change (w' : world files_panel) : Prop :=
  fp_fs (data w') = f ∨ may "write" c site d ∧ confined rr f (fp_fs (data w')).
Notation good := (λ (_ : reply) (w' : world files_panel), allowed_change w').
Notation w0 w := (data w = mkFilesPanel d f).

Lemma same_allowed w : w0 w → allowed_change w.
Proof. intros E. left. by rewrite E. Qed.
Lemma access_wp (Q : option site_row → world files_panel → Prop) w : w0 w →
  (∀ w', w0 w' → Q None w') → (∀ w', w0 w' → may_access c site d → Q (Some site) w') → wp (site_for (canAccess c) id) Q w.
Proof using Hsite.
  intros E Hn Hk. apply (site_for_wp _ (may_access c site d) id site); [by rewrite E| |intros; apply Hn; congruence|intros; apply Hk; [congruence|done]].
  intros v Ev. eapply wp_mono; [|apply canAccess_wp]. intros b v' (E1 & _ & Hm). split; [done|]. by rewrite Ev, E in Hm.
Qed.
(** A handler after the permission to write, if what comes then stays below the root. *)
Lemma write_wp k w : w0 w → (∀ w', w0 w' → wp (k site) (λ _ w2, confined rr f (fp_fs (data w2))) w') → wp (resolveSiteWrite c id k) good w.
Proof using Hsite.
  intros E Hk. apply wp_bind, (site_for_wp _ (may "write" c site d) id site); [by rewrite E| |intros; cbn [or_not_found]; wp_step; apply same_allowed; congruence|].
  - intros v Ev. eapply wp_mono; [|apply checkSitePermission_wp]. intros b v' (E1 & _ & Hm). split; [done|]. by rewrite Ev, E in Hm.
  - intros w' E' Hm. cbn [or_not_found]. eapply wp_mono; [|apply Hk; congruence]. intros r w2 H. by right.
Qed.
Lemma path_wp rel k (Q : reply → world files_panel → Prop) w : w0 w → (∀ r w', refusal r → w0 w' → Q r w') →
  (∀ q (H : probed f rr q) w', plain q → real_path q = path_join (s_root_path site) (cleaned rel) → has_prefix (cleaned rel) "/" = false → w0 w' →
     wp (k (real_path q)) Q w') → wp (with_path (s_root_path site) rel k) Q w.
Proof using Hroot Hreal.
  intros E Hr Hk. apply (with_path_wp f (s_root_path site) rr Hroot Hreal); [by rewrite E|intros; apply Hr; [done|congruence]|].
  intros q H w' Hq E1 E2 E3. apply (Hk q H); [done..|congruence].
Qed.
Lemma start_confined w : w0 w → confined rr f (fp_fs (data w)).
Proof. intros ->. apply confined_refl. Qed.
Lemma start_made w q (H : probed f rr q) : w0 w → made f (pb_real f rr q H) (pb_rest f rr q H) (fp_fs (data w)).
Proof. intros ->. apply made_refl. Qed.

Lemma writeFile_good body w : w0 w → wp (writeFile id body c) good w.
Proof using Hsite Hroot Hreal Hwf Hd.
  intros E. apply write_wp; [done|]. clear w E. intros w E. destruct body as [[path content]|]; [|wp_step; by apply start_confined].
  destruct (path =? "")%string; [wp_step; by apply start_confined|]. apply path_wp; [done|intros; by apply start_confined|].
  intros q H w1 Hq _ _ E1. apply wp_bind. eapply wp_mono; [|eapply (mkdirs_above_wp f rr Hwf Hd q H Hq); by apply start_made].
  intros u w2 Hm. apply wp_bind, (WriteFile_wp f rr Hwf Hd q H Hq); [done|]. intros [] w3 Hs; cbv beta iota; [by apply audited_wp|by wp_step].
Qed.
Lemma createEntry_good body w : w0 w → wp (createEntry id body c) good w.
Proof using Hsite Hroot Hreal Hwf Hd.
  intros E. apply write_wp; [done|]. clear w E. intros w E. destruct body as [[path isDir]|]; [|wp_step; by apply start_confined].
  destruct (path =? "")%string; [wp_step; by apply start_confined|]. apply path_wp; [done|intros; by apply start_confined|].
  intros q H w1 Hq _ _ E1. apply wp_bind. enough (Hk : wp (if isDir then mkdirs (real_path q) else let* _ := mkdirs (path_dir (real_path q)) in
    let* _ := WriteFile (real_path q) "" in mret ()) (λ _ w', confined rr f (fp_fs (data w'))) w1).
  { eapply wp_mono; [|exact Hk]. intros u w2 Hs. by apply audited_wp. }
  destruct isDir.
  - eapply wp_mono; [|eapply (mkdirs_wp f rr Hwf Hd q H Hq q []); [by rewrite List.app_nil_r|by apply start_made]].
    intros u w2 Hm. exact (made_stays f rr q H w2 Hm).
  - apply wp_bind. eapply wp_mono; [|eapply (mkdirs_above_wp f rr Hwf Hd q H Hq); by apply start_made].
    intros u w2 Hm. apply wp_bind, (WriteFile_wp f rr Hwf Hd q H Hq); [done|]. intros r w3 Hs. by wp_step.
Qed.
Lemma uploadFile_good dir file w : w0 w → wp (uploadFile id dir file c) good w.
Proof using Hsite Hroot Hreal Hwf Hd.
  intros E. apply write_wp; [done|]. clear w E. intros w E. apply path_wp; [done|intros; by apply start_confined|].
  intros q0 _ w1 _ _ _ E1. destruct file as [[name content]|]; [|wp_step; by apply start_confined].
  cbv zeta. destruct (str_in [""; "."; ".."; "/"] (path_base name)); [wp_step; by apply start_confined|]. apply path_wp; [done|intros; by apply start_confined|].
  intros q H w2 Hq _ _ E2. apply wp_bind. eapply wp_mono; [|eapply (mkdirs_above_wp f rr Hwf Hd q H Hq); by apply start_made].
  intros u w3 Hm. apply wp_bind, wp_look; [intros e w4 E4; step; rewrite E4; exact (made_stays f rr q H w3 Hm)|]. intros w4 E4. cbv beta iota.
  apply wp_bind, (OpenTrunc_wp f rr Hwf Hd q H Hq); [by rewrite E4|intros e w5 Hs; by step|]. intros p w5 Hs Hp. cbv beta iota.
  apply wp_bind, (Write_wp f rr p content w5); [done..|]. intros [] w6 Hs6; cbv beta iota; [|by wp_step].
  apply wp_bind, wp_look; [intros e w7 E7; step; by rewrite E7|]. intros w7 E7. destruct (Stat _ _) as [[z x]|]; cbv beta iota; [|wp_step; by rewrite E7].
  apply audited_wp. by rewrite E7.
Qed.
Lemma deleteEntry_good path w : w0 w → wp (deleteEntry id path c) good w.
Proof using Hsite Hroot Hreal Hb.
  intros E. apply write_wp; [done|]. clear w E. intros w E.
  destruct (path =? "")%string; [wp_step; by apply start_confined|]. apply path_wp; [done|intros; by apply start_confined|].
  intros q H w1 Hq _ _ E1. destruct (_ =? _)%string; [wp_step; by apply start_confined|]. apply wp_bind. eapply wp_mono; [|apply stat_dir_wp].
  intros b w2 [E2 _]. apply wp_bind, (RemoveAll_wp f rr Hb q H Hq); [by rewrite E2, E1|]. intros r w3 Hs. by apply audited_wp.
Qed.
Lemma renameEntry_good body w : w0 w →
  (∀ old new, body = Some (old, new) → let n := new_rel (s_root_path site) (path_join (s_root_path site) (cleaned old)) new in trim_space n = n) →
  wp (renameEntry id body c) good w.
Proof using Hsite Hroot Hreal Hb.
  intros E Ht. apply write_wp; [done|]. clear w E. intros w E. destruct body as [[old new]|]; [|wp_step; by apply start_confined].
  specialize (Ht old new eq_refl). cbv zeta in Ht.
  destruct (_ || _); [wp_step; by apply start_confined|]. apply path_wp; [done|intros; by apply start_confined|].
  intros q H w1 Hq Eq _ E1. rewrite <- Eq in Ht. cbv zeta. fold (new_rel (s_root_path site) (real_path q) new).
  apply path_wp; [done|intros; by apply start_confined|]. intros q2 H2 w2 Hq2 Eq2 Ec E2.
  rewrite (new_name_checked (s_root_path site) Hroot q2 (real_path q) new) by (done || by apply dir_rooted).
  apply wp_bind. eapply wp_mono; [|apply stat_dir_wp]. intros b w3 [E3 _].
  apply wp_bind, (Rename_wp f rr Hb q H Hq q2); [by rewrite E3, E2|done|by apply (entry_below f rr q2 H2 40 Hq2 Hb); lia|].
  intros [] w4 Hs; cbv beta iota; [by apply audited_wp|by wp_step].
Qed.
Lemma moveEntries_good path dest w : w0 w → wp (moveEntries id (Some ([path], dest)) c) good w.
Proof using Hsite Hroot Hreal Hb.
  intros E. apply write_wp; [done|]. clear w E. intros w E. apply path_wp; [done|intros; by apply start_confined|].
  intros dq Hp w1 Hdq _ _ E1. apply wp_bind. eapply wp_mono; [|apply stat_dir_wp]. intros b w2 [E2 Hb2]. rewrite E1 in E2, Hb2.
  destruct b; cbn [negb]; [|wp_step; by apply start_confined]. destruct (Hb2 eq_refl) as (rd & Hrd). cbn [fp_fs] in Hrd. rewrite kernel_real in Hrd by done.
  destruct (found_below f rr dq Hp 40 rd ltac:(lia) Hrd) as [Hbelow Hrd2].
  apply wp_bind. eapply wp_mono with (Q := λ _ w', confined rr f (fp_fs (data w'))).
  { intros [r|names] w3 Hs; [by wp_step|by apply audited_wp]. }
  cbn [move_each]. apply wp_bind. eapply wp_mono; [|apply (safePath_wp f (s_root_path site) rr Hroot Hreal); by rewrite E2].
  intros [r|full] w3 [E3 H3]; [wp_step; apply start_confined; congruence|]. destruct H3 as (q & H & -> & Hq & _ & _).
  assert (Hs3 : confined rr f (fp_fs (data w3))) by (apply start_confined; congruence).
  destruct (decide (q = [])) as [Eq|Hne].
  { (* the root of the file system: everything lies below it *)
    assert (rr = []) as Err.
    { destruct H as [a b ra Es Hw Hr _]. rewrite Eq in Es. symmetry in Es. apply app_eq_nil in Es as [-> ->]. rewrite walk_nil in Hw.
      injection Hw as <-. by apply prefix_nil_inv in Hr. }
    unfold wp. destruct (_ w3) as [? ?]. rewrite Err. intros p Hnot. destruct Hnot. apply prefix_nil. }
  destruct (exists_last Hne) as (x & v & Eq). assert (Hv : plain_seg v = true) by (rewrite Eq in Hq; apply plain_app in Hq as [_ Hq]; by apply Forall_cons in Hq as []).
  assert (Edst : path_join (real_path dq) (path_base (real_path q)) = real_path (dq ++ [v])) by (rewrite Eq, base_real by done; by apply join_name).
  destruct (_ =? _)%string; [by wp_step|]. cbv zeta. destruct (_ || _)%string; [by wp_step|]. destruct (_ =? _)%string; [by wp_step|]. rewrite Edst.
  assert (Hdst : plain (dq ++ [v])) by (apply plain_app; split; [done|by apply plain_one]).
  apply wp_bind, wp_look; [intros e w4 E4; cbv beta iota|intros w4 E4; destruct (Stat _ _); cbv beta iota; [wp_step; by rewrite E4|]].
  all: apply wp_bind, (Rename_wp f rr Hb q H Hq (dq ++ [v])); [by rewrite E4, E3, E2|done|by apply (entry_of_dir f rr dq rd v 40); [lia|..]|].
  all: intros [] w5 Hs; cbv beta iota; by wp_step.
Qed.

(** *** Reading *)

(** A handler that reads, after the access check. *)
Lemma read_wp k (Q : reply → world files_panel → Prop) w : w0 w → (∀ w', w0 w' → Q not_found w') →
  (∀ w', w0 w' → may_access c site d → wp (k site) Q w') → wp (resolveSite c id k) Q w.
Proof using Hsite. intros E Hn Hk. apply wp_bind, access_wp; [done|intros; cbn [or_not_found]; wp_step; by apply Hn|done]. Qed.
Lemma same_fs w : w0 w → fp_fs (data w) = f.
Proof. intros E. by rewrite E. Qed.
Lemma listFiles_good path w : w0 w → wp (listFiles id path c) good w.
Proof using Hsite Hroot Hreal.
  intros E. eapply wp_mono with (Q := λ _ w', fp_fs (data w') = f); [by left|]. apply read_wp; [done|intros; by apply same_fs|].
  clear w E. intros w E _. apply path_wp; [done|intros; by apply same_fs|].
  intros q H w1 Hq _ _ E1. apply wp_bind, wp_look; [intros e w2 E2; step; rewrite E2; by apply same_fs|].
  intros w2 E2. rewrite <- E2 in E1. destruct (Stat _ _) as [[p []]|]; cbv beta iota; try (wp_step; by apply same_fs).
  apply wp_bind, wp_look; [intros e w3 E3; step; rewrite E3; by apply same_fs|]. intros w3 E3. wp_step. rewrite E3. by apply same_fs.
Qed.
(** What is read is a file below the root. *)
Definition below_root (content : string) : Prop := ∃ p, rr `prefix_of` p ∧ f !! p = Some (NFile content).
Lemma os_ReadFile_wp q (H : probed f rr q) w : plain q → fp_fs (data w) = f →
  wp (os_ReadFile (real_path q)) (λ r w', data w' = data w ∧ ∀ content, r = Ok content → below_root content) w.
Proof.
  intros Hq Hf. apply wp_look; [done|]. intros w' E. split; [done|]. intros content Hr. rewrite Hf in Hr. unfold ReadFile, Stat in Hr.
  rewrite kernel_real in Hr by done. destruct (walk f true 40 [] q) as [p| | | |] eqn:Ew; try done.
  destruct (found_below f rr q H 40 p ltac:(lia) Ew) as [Hb' _]. destruct (node_at f p) as [[c'| |]|] eqn:En; try done. injection Hr as ->.
  exists p. split; [done|]. by destruct p.
Qed.
Lemma downloadFile_good path w : w0 w →
  wp (downloadFile id path c) (λ r w', fp_fs (data w') = f ∧ ∀ content, r = inr content → may_access c site d ∧ below_root content) w.
Proof using Hsite Hroot Hreal.
  intros E. apply wp_bind, access_wp; [done|intros; step; split; [by apply same_fs|done]|]. clear w E. intros w E Hm.
  destruct (path =? "")%string; [wp_step; split; [by apply same_fs|done]|]. apply wp_bind.
  eapply wp_mono; [|apply (safePath_wp f (s_root_path site) rr Hroot Hreal); by apply same_fs].
  intros [r|full] w1 [E2 H1]; [wp_step; split; [rewrite E2; by apply same_fs|done]|]. destruct H1 as (q & H & -> & Hq & _).
  assert (E1 : w0 w1) by congruence.
  apply wp_bind, wp_look; [intros e w2 E3; step; split; [rewrite E3; by apply same_fs|done]|]. intros w2 E3.
  destruct (Stat _ _) as [[p x]|]; cbv beta iota; [|wp_step; split; [rewrite E3; by apply same_fs|done]].
  destruct (is_dir x); [wp_step; split; [rewrite E3; by apply same_fs|done]|]. apply wp_bind.
  eapply wp_mono; [|apply (os_ReadFile_wp q H); [done|rewrite E3; by apply same_fs]].
  intros r w3 [E4 Hr]. destruct r as [content|]; wp_step; (split; [rewrite E4, E3; by apply same_fs|]); [|done].
  intros c' [= <-]. split; [done|by apply Hr].
Qed.
Lemma readFile_good path w : w0 w →
  wp (readFile id path c) (λ r w', fp_fs (data w') = f ∧ ∀ p content l, r = Success 200 (JObj (p :: ("content", JStr content) :: l)) → may_access c site d ∧ below_root content) w.
Proof using Hsite Hroot Hreal.
  intros E. apply read_wp; [done|intros; split; [by apply same_fs|done]|]. clear w E. intros w E Hm.
  destruct (path =? "")%string; [wp_step; split; [by apply same_fs|done]|].
  apply path_wp; [done| |].
  { intros r w' (s & m & ->) E'. split; [by apply same_fs|done]. }
  intros q H w1 Hq _ _ E1. apply wp_bind, wp_look; [intros e w2 E2; step; split; [rewrite E2; by apply same_fs|done]|]. intros w2 E2.
  destruct (Stat _ _) as [[p x]|]; cbv beta iota; [|wp_step; split; [rewrite E2; by apply same_fs|done]].
  destruct (_ <? _); [wp_step; split; [rewrite E2; by apply same_fs|done]|]. destruct (is_dir x); [wp_step; split; [rewrite E2; by apply same_fs|done]|].
  apply wp_bind. eapply wp_mono; [|apply (os_ReadFile_wp q H); [done|rewrite E2; by apply same_fs]]. intros r w3 [E3 Hr].
  assert (E4 : fp_fs (data w3) = f) by (rewrite E3, E2; by apply same_fs).
  apply wp_bind, wp_look; intros; wp_step; (split; [congruence|]); destruct r as [content|]; try done.
  all: intros p' c' l [= <- <-]; split; [done|by apply Hr].
Qed.
End Requests.
End Facts.

(** * Theorems *)

Inductive file_request :=
| FList (path : string) | FRead (path : string) | FDownload (path : string)
| FWrite (body : option (string * string)) | FCreate (body : option (string * bool)) | FDelete (path : string)
| FRename (body : option (string * string)) | FUpload (dir : string) (file : option (string * string)) | FMove (path dest : string).

Section Theorems.
Context `{HF : FileInfo}.

Definition in_body (m : M files_panel reply) : M files_panel (reply + string) := let* r := m in mret (inl r).
Definition handle_file (r : file_request) (id : string) (c : context) : M files_panel (reply + string) :=
  match r with
  | FList path => in_body (listFiles id path c)
  | FRead path => in_body (readFile id path c)
  | FDownload path => downloadFile id path c
  | FWrite body => in_body (writeFile id body c)
  | FCreate body => in_body (createEntry id body c)
  | FDelete path => in_body (deleteEntry id path c)
  | FRename body => in_body (renameEntry id body c)
  | FUpload dir file => in_body (uploadFile id dir file c)
  | FMove path dest => in_body (moveEntries id (Some ([path], dest)) c)
  end.
(** The content of a file that an answer shows. *)
Definition shows (r : file_request) (answer : reply + string) (content : string) : Prop :=
  match r, answer with
  | FDownload _, inr s => s = content
  | FRead _, inl (Success 200 (JObj (_ :: ("content", JStr s) :: _))) => s = content
  | _, _ => False
  end.
(** A new name that is the same with the white space around its path trimmed off. *)
Definition trimmed_name (root : string) (r : file_request) : Prop :=
  match r with
  | FRename (Some (old, new)) => let n := new_rel root (path_join root (cleaned old)) new in trim_space n = n
  | _ => True
  end.

(** A site with its directory, in a tree without links that dangle below it or lead into it. *)
Record site_in (w : world files_panel) (id : string) (site : site_row) (rr : list string) : Prop := {
  si_site : get_row (atoi id).1 (t_sites (fp_db (data w))) = Some site;
  si_rooted : is_rooted (s_root_path site) = true;
  si_real : eval_walk (fp_fs (data w)) (path_clean (s_root_path site)) = At rr;
  si_wf : fs_wf (fp_fs (data w));
  si_dangling : no_dangling (fp_fs (data w)) rr;
  si_ways : no_way_in (fp_fs (data w)) rr }.

Lemma in_body_wp m (Q : reply + string → world files_panel → Prop) w : wp m (λ r, Q (inl r)) w → wp (in_body m) Q w.
Proof. intros H. apply wp_bind. eapply wp_mono; [|exact H]. intros. by wp_step. Qed.

(** C22: take a site whose root leads to a directory, no link below which leads to a name that does
    not exist and into which no link leads from elsewhere ([site_in]).  Whatever path a request
    to list, read, download, write, create, delete, rename, upload, or move one entry names, a
    new name with white space at its ends apart ([trimmed_name]), and whatever fails, it changes
    nothing but entries below the real directory of the site, and those only for a caller who
    may write to the site; and the file whose content it shows lies below that directory, and
    the caller has access to the site. *)
Theorem files_confined (r : file_request) (id : string) (c : context) (w : world files_panel) (site : site_row) (rr : list string)
    (Hs : site_in w id site rr) (Ht : trimmed_name (s_root_path site) r) :
  wp (handle_file r id c) (λ answer w',
    (fp_fs (data w') = fp_fs (data w) ∨ may "write" c site (fp_db (data w)) ∧ confined rr (fp_fs (data w)) (fp_fs (data w'))) ∧
    ∀ content, shows r answer content → may_access c site (fp_db (data w)) ∧
      ∃ p, rr `prefix_of` p ∧ fp_fs (data w) !! p = Some (NFile content)) w.
Proof.
  destruct Hs as [Hsite Hroot Hreal Hwf Hd Hb].
  rewrite clean_real in Hreal by done. unfold eval_walk in Hreal. rewrite walk_real in Hreal by (by apply path_segs_plain).
  assert (Ew : data w = mkFilesPanel (fp_db (data w)) (fp_fs (data w))) by (by destruct w as [[]]).
  destruct r; cbn [handle_file trimmed_name shows] in *; try apply in_body_wp.
  3: { eapply wp_mono; [|eapply downloadFile_good; done]. intros [rep|s] w' [E H]; (split; [by left|]); [done|]. intros content ->. by apply H. }
  2: { eapply wp_mono; [|eapply readFile_good; done]. intros rep w' [E H]. split; [by left|]. intros content Hc.
       repeat match type of Hc with match ?x with _ => _ end => destruct x; try done end. subst. by eapply H. }
  all: eapply wp_mono; [intros rep w' H; split; [exact H|done]|].
  - by eapply listFiles_good.
  - by eapply writeFile_good.
  - by eapply createEntry_good.
  - by eapply deleteEntry_good.
  - eapply renameEntry_good; try done. by intros old new ->.
  - by eapply uploadFile_good.
  - by eapply moveEntries_good.
Qed.
End Theorems.

(** ** Trees that can be looked through *)

Definition link_ok (f : fs) (rr q : list string) (t : string) : bool :=
  let r := walk f true 255 (if is_rooted t then [] else removelast q) (split "/" t) in
  if under rr q then negb (not_exist r) else match r with At p => negb (under rr p) | Loop => false | _ => true end.
Definition tree_ok (f : fs) (rr : list string) : bool :=
  forallb (λ e, match node_at f (removelast e.1), e.1 with
                | Some NDir, _ :: _ => match e.2 with NLink t => link_ok f rr e.1 t | _ => true end
                | _, _ => false
                end) (map_to_list f).
Lemma tree_ok_sound f rr : tree_ok f rr = true → fs_wf f ∧ no_dangling f rr ∧ no_way_in f rr.
Proof.
  intros H. unfold tree_ok in H. rewrite forallb_forall in H.
  assert (K : ∀ p x, f !! p = Some x → node_at f (removelast p) = Some NDir ∧ ∀ t, x = NLink t → link_ok f rr p t = true).
  { intros p x E. apply elem_of_map_to_list, list_elem_of_In in E. specialize (H _ E). cbn [fst snd] in H.
    destruct (node_at f (removelast p)) as [[]|]; try done. destruct p; [done|]. split; [done|]. by intros t ->. }
  split; [|split].
  - intros p v [x E]. apply K in E as [E _]. by rewrite List.removelast_last in E.
  - intros p v t Hp E. apply K in E as [_ E]. specialize (E t eq_refl). unfold link_ok in E. rewrite List.removelast_last in E.
    rewrite (proj2 (under_spec rr (p ++ [v]))) in E by (etrans; [exact Hp|]; by exists [v]). by apply negb_true_iff in E.
  - intros p t E Hp n q Hw Hq. apply K in E as [_ E]. specialize (E t eq_refl). unfold link_ok in E.
    destruct (under rr p) eqn:Eu; [by apply under_spec in Eu|].
    apply (walk_more f true n (n + 255)) in Hw; [|done|lia].
    destruct (walk_less f true 255 (n + 255) (if is_rooted t then [] else removelast p) (split "/" t) ltac:(lia)) as [El|El]; [by rewrite El in E|].
    rewrite El, Hw in E. apply negb_true_iff in E. apply under_spec in Hq. by rewrite Hq in E.
Qed.
Definition plain_info : FileInfo := {| other_size _ := 4096; mode_text _ _ := "-rw-r--r--"; mod_time _ _ := "2026-01-01T00:00:00Z";
  zip_of l := join "," (map (λ e, e.1 +:+ "=" +:+ default "" e.2) l) |}.
Definition ann_user : user_row := UserRow 2 "ann" "ann@shop.test" "" RoleUser None 0 None None None None None None 0.
Definition ann_site : site_row :=
  SiteRow 7 1 "shop" "shop.test" "php" "/home/ann/htdocs" "active" (Some 2) None None None None
    None None None None None None None None None None None None None None None None 0 0.
Definition ann_panel : db := set_tab (Table [ann_site] 7) (set_tab (Table [ann_user] 2) empty_db).
Definition ann_signed : context := mkContext (Some (SessionRow 9 2 "" 0 0 None None)) (Some 2) None None.
Definition at_ann (p : list string) : list string := ["home"; "ann"; "htdocs"] ++ p.
(** A site with a link to its current release; elsewhere a link out of the way. *)
Definition calm_tree : fs :=
  list_to_map [(["home"], NDir); (["home"; "ann"], NDir); (at_ann [], NDir); (at_ann ["index.html"], NFile "hello");
               (at_ann ["v1"], NDir); (at_ann ["v1"; "a.css"], NFile "a"); (at_ann ["now"], NLink "v1");
               (["etc"], NDir); (["etc"; "hosts"], NFile "localhost"); (["etc"; "h"], NLink "/etc/hosts")].
Definition calm : world files_panel := World (mkFilesPanel ann_panel calm_tree) 0 [].
Lemma calm_site : site_in calm "7" ann_site (at_ann []).
Proof. destruct (tree_ok_sound calm_tree (at_ann [])) as (H1 & H2 & H3); [by vm_compute|]. by split; [vm_compute..| | |]. Qed.

(** Ann writes through the link: the file appears where the link leads. *)
Lemma files_confined_witness :
  (handle_file (HF := plain_info) (FWrite (Some ("now/b.css", "b"))) "7" ann_signed calm).2.(data).(fp_fs) !! at_ann ["v1"; "b.css"] = Some (NFile "b") ∧
  let r := FWrite (Some ("now/b.css", "b")) in
  wp (handle_file (HF := plain_info) r "7" ann_signed) (λ answer w',
    (fp_fs (data w') = fp_fs (data calm) ∨ may "write" ann_signed ann_site (fp_db (data calm)) ∧ confined (at_ann []) (fp_fs (data calm)) (fp_fs (data w'))) ∧
    ∀ content, shows r answer content → may_access ann_signed ann_site (fp_db (data calm)) ∧
      ∃ p, at_ann [] `prefix_of` p ∧ fp_fs (data calm) !! p = Some (NFile content)) calm.
Proof. split; [by vm_compute|]. apply (files_confined (HF := plain_info) _ "7" ann_signed calm ann_site (at_ann [])); [exact calm_site|exact I]. Defined.
