(* ===== verification/FileLinks.v ===== *)
(** What links do to the file manager of FileManager.v: the check of a path looks where its
    part that exists leads, so a link to a name that does not exist passes, and so does a
    directory with links in it. *)
From S2P Require Import Prelude GoStr Paths AgentValidate Json Sql Accounts Sites Records Panel Guards Http Access FileSystem FileManager.
Local Open Scope Z_scope.
Local Open Scope panel_scope.

Set Default Proof Using "Type".

(** * Walks, once more *)

Section Walks.
Variable f : fs.
Opaque walk.

(** The links that the first part of a path does not use are left for the rest. *)
Lemma walk_app_left follow n cur a b p : b ≠ [] → walk f true n cur a = At p →
  ∃ m, ∀ k, walk f follow (n + k) cur (a ++ b) = walk f follow (m + k) p b.
Proof.
  intros Hb. revert cur a. induction n as [n IHn] using lt_wf_ind. intros cur a. revert cur.
  induction a as [|w a IH]; intros cur H; [rewrite walk_nil in H; injection H as <-; by exists n|].
  rewrite walk_cons in H. setoid_rewrite <- app_comm_cons. setoid_rewrite walk_cons.
  destruct (node_at f cur) as [[]|]; try done. destruct (_ || _); [by apply IH|]. destruct (w =? "..")%string; [by apply IH|].
  destruct (f !! _) as [[]|]; [by apply IH|by apply IH| |by destruct a].
  cbn [negb andb] in H. rewrite (bool_decide_eq_false_2 (a ++ b = [])), andb_false_r by (by destruct a).
  destruct n as [|n]; [done|]. rewrite List.app_assoc.
  destruct (IHn n ltac:(lia) _ _ H) as (m & Hm). exists m. intros k. cbn [Nat.add]. apply Hm.
Qed.
Lemma dirs_above (a b : list string) x : fs_wf f → b ≠ [] → f !! (a ++ b) = Some x → node_at f a = Some NDir.
Proof.
  intros Hw. revert x. induction b as [|v b IH] using rev_ind; intros x Hb E; [done|]. rewrite List.app_assoc in E.
  assert (Hd : node_at f (a ++ b) = Some NDir) by (apply (Hw _ v); by rewrite E).
  destruct b as [|u b]; [by rewrite List.app_nil_r in Hd|]. rewrite node_at_in in Hd by (by intros [_ ?]%app_eq_nil). by apply (IH NDir).
Qed.
(** Names of directories are walked through. *)
Lemma walk_dirs follow n b l : fs_wf f → plain l → ∀ cur, node_at f (cur ++ l) = Some NDir →
  walk f follow n cur (l ++ b) = walk f follow n (cur ++ l) b.
Proof.
  intros Hw. induction l as [|v l IH]; intros Hl cur Hd; [by rewrite List.app_nil_r|].
  apply Forall_cons in Hl as [Hv Hl]. destruct (plain_names v Hv) as (H1 & H2 & H3).
  assert (Hs : f !! (cur ++ v :: l) = Some NDir) by (by rewrite node_at_in in Hd by (by intros [_ ?]%app_eq_nil)).
  rewrite <- app_comm_cons, walk_cons, (dirs_above cur (v :: l) NDir), H1, H2, H3 by done. cbn [orb].
  change (v :: l) with ([v] ++ l) in Hs, Hd |- *. rewrite List.app_assoc in Hs, Hd |- *.
  assert (f !! (cur ++ [v]) = Some NDir) as ->.
  { destruct l as [|u l]; [by rewrite List.app_nil_r in Hs|].
    pose proof (dirs_above (cur ++ [v]) (u :: l) NDir Hw ltac:(done) Hs) as K. by rewrite node_at_in in K by (by intros [_ ?]%app_eq_nil). }
  by apply IH.
Qed.
End Walks.

(** * Without faults *)

Section Quiet.
Context `{HF : FileInfo}.
Opaque walk.

Definition quiet (d : db) (f : fs) (n : Z) : world files_panel := World (mkFilesPanel d f) n [].
Lemma sys_quiet {A} (g : fs → res A * fs) d f n : sys g (quiet d f n) = ((g f).1, quiet d (g f).2 n).
Proof. unfold sys, quiet. rewrite stmt_ok. cbn. by destruct (g f). Qed.
Lemma look_quiet {A} (g : fs → res A) d f n : look g (quiet d f n) = (g f, quiet d f n).
Proof. unfold look. by rewrite sys_quiet. Qed.
Lemma on_db_quiet {A} (m : M db A) d f n a d' : m (World d n []) = (a, World d' n []) → on_db m (quiet d f n) = (a, quiet d' f n).
Proof. intros E. unfold on_db, quiet. cbn. by rewrite E. Qed.
Lemma audit_quiet c site l d f n : ∃ d', file_audit c site l (quiet d f n) = ((), quiet d' f n).
Proof. eexists. apply on_db_quiet. reflexivity. Qed.

(** A site, its owner, and the directory its root leads to. *)
Variables (d : db) (f : fs) (n : Z) (id : string) (c : context) (sess : session_row) (user : user_row) (site : site_row) (rr : list string).
Record own_site : Prop := {
  os_session : c_session c = Some sess;
  os_user : get_row (se_user sess) (t_users d) = Some user;
  os_owner : s_owner site = Some (se_user sess);
  os_site : get_row (atoi id).1 (t_sites d) = Some site;
  os_root : is_rooted (s_root_path site) = true ∧ path_segs (s_root_path site) ≠ [];
  os_below : rr ≠ [];
  os_real : walk f true 39 [] (path_segs (s_root_path site)) = At rr;
  os_wf : fs_wf f }.
Hypothesis Hown : own_site.
Notation rs := (path_segs (s_root_path site)).

Lemma permitted : checkSitePermission c site "write" (World d n []) = (true, World d n []).
Proof using Hown.
  destruct Hown as [E1 E2 E3 _ _ _ _ _]. unfold checkSitePermission, Users.GetByID, Users.scan_query, wrap, query, mbind, mret.
  rewrite E1. repeat (rewrite stmt_ok; cbv beta iota zeta). change (tab d) with (t_users d). rewrite E2.
  destruct (_ =? _)%string; [done|]. unfold owns. by rewrite E3, bool_decide_eq_true_2.
Qed.
Lemma write_quiet g k : resolveSiteWrite c id k (quiet d g n) = k site (quiet d g n).
Proof using Hown.
  unfold resolveSiteWrite, site_for, find_site, mbind at 1 2 3. 
  rewrite (on_db_quiet _ d g n (Ok (Some site)) d).
  - cbn [mret]. unfold mbind. rewrite (on_db_quiet _ d g n true d permitted). done.
  - destruct Hown as [_ _ _ E _ _ _ _]. unfold Sites.GetByID, wrap, query, mbind, mret. repeat (rewrite stmt_ok; cbv beta iota zeta).
    change (tab d) with (t_sites d). by rewrite E.
Qed.
Lemma rs_plain : plain rs.
Proof using Hown. apply path_segs_plain, Hown. Qed.

(** A name right below the root. *)
Definition bare (w : string) : Prop := plain_seg w = true ∧ trim_space w = w ∧ has_prefix w ".." = false.
Lemma bare_path w : plain_seg w = true → path_clean w = w ∧ is_rooted w = false.
Proof.
  intros Hw. destruct (join_clean [w] (plain_one w Hw) ltac:(done)) as (E1 & E2 & _). by split.
Qed.
Lemma full_path w : plain_seg w = true → path_join (s_root_path site) w = real_path (rs ++ [w]).
Proof using Hown.
  intros Hw. rewrite join_segs by apply Hown. destruct (plain_seg_split w Hw) as (-> & _). rewrite clean_segs_id by (by apply plain_one).
  by rewrite List.rev_app_distr, rev_involutive.
Qed.
Lemma real_snoc_slash q w : q ≠ [] → real_path (q ++ [w]) = real_path q +:+ "/" +:+ w.
Proof.
  destruct q as [|v q]; [done|]. intros _. unfold real_path. rewrite app_assoc_s. f_equal.
  revert v. induction q as [|u q IH]; intros v; [done|]. change ((v :: u :: q) ++ [w]) with (v :: (u :: q) ++ [w]).
  rewrite !join_cons by done. by rewrite IH, !app_assoc_s.
Qed.
Lemma inside q w : q ≠ [] → outside (real_path q) (real_path (q ++ [w])) = false.
Proof.
  intros Hq. unfold outside. apply andb_false_iff. right. rewrite real_snoc_slash, <- app_assoc_s by done.
  unfold has_prefix. by rewrite prefix_app.
Qed.
Lemma not_itself q w : q ≠ [] → (real_path q =? real_path (q ++ [w]))%string = false.
Proof.
  intros Hq. apply String.eqb_neq. rewrite real_snoc_slash by done. intros E. apply (f_equal String.length) in E. rewrite !length_app_s in E. cbn in E. lia.
Qed.

(** Where the kernel and [filepath.EvalSymlinks] get. *)
Lemma root_walk k : walk f true (39 + k) [] rs = At rr.
Proof using Hown. apply (walk_more f true 39); [apply Hown|done|lia]. Qed.
Lemma child_walk g follow w : f ⊆ g → ∃ m, ∀ k, walk g follow (39 + k) [] (rs ++ [w]) = walk g follow (m + k) rr [w].
Proof using Hown. intros Hg. apply (walk_app_left g); [done|]. apply (walk_grow f g true); [done|apply Hown]. Qed.

Lemma check_root g k : f ⊆ g → probe_loop (S k) (real_path rr) (real_path rs) (quiet d g n) = (None, quiet d g n).
Proof using Hown.
  intros Hg. cbn [probe_loop]. unfold EvalSymlinks, mbind. rewrite look_quiet, eval_real by apply rs_plain.
  rewrite (walk_grow f g true 255 [] rs rr Hg (root_walk 216)). cbn [mret]. unfold outside. by rewrite String.eqb_refl.
Qed.
(** The check lets a name pass that is there, or a link to nothing. *)
Lemma check_name g w : f ⊆ g → plain_seg w = true →
  walk g true 255 [] (rs ++ [w]) = At (rr ++ [w]) ∨ not_exist (walk g true 255 [] (rs ++ [w])) = true →
  ensureNoSymlinkEscape (real_path rs) (real_path (rs ++ [w])) (quiet d g n) = (None, quiet d g n).
Proof using Hown.
  intros Hg Hw H. assert (Hp : plain (rs ++ [w])) by (apply plain_app; split; [apply rs_plain|by apply plain_one]).
  unfold ensureNoSymlinkEscape, EvalSymlinks at 1, mbind at 1. rewrite look_quiet, eval_real by apply rs_plain.
  rewrite (walk_grow f g true 255 [] rs rr Hg (root_walk 216)). cbn [probe_loop]. unfold EvalSymlinks, mbind at 1.
  rewrite look_quiet, eval_real by done. destruct H as [->|H].
  - cbn [mret]. by rewrite inside by apply Hown.
  - assert (Hparent : path_dir (real_path (rs ++ [w])) = real_path rs) by (by apply dir_real).
    destruct (walk g true 255 [] (rs ++ [w])); try done; rewrite Hparent, not_itself by apply Hown; by apply check_root.
Qed.
Lemma safe_name g w : f ⊆ g → bare w →
  walk g true 255 [] (rs ++ [w]) = At (rr ++ [w]) ∨ not_exist (walk g true 255 [] (rs ++ [w])) = true →
  safePath (s_root_path site) w (quiet d g n) = (inr (real_path (rs ++ [w])), quiet d g n).
Proof using Hown.
  intros Hg (Hw & Ht & Hdots) H. destruct (bare_path w Hw) as [Hc Hr]. destruct (plain_names w Hw) as (H1 & _ & H3). unfold safePath.
  assert ((s_root_path site =? "")%string = false) as -> by (destruct (String.eqb_spec (s_root_path site) "") as [E|]; [|done]; destruct Hown as [_ _ _ _ [K _] _ _ _]; by rewrite E in K).
  rewrite Ht, H1, Hc, H3, Hdots. change (has_prefix w "/") with (is_rooted w). rewrite Hr. cbn [orb]. rewrite full_path, clean_real, inside by (done || apply Hown).
  unfold mbind. by rewrite check_name.
Qed.
Lemma rr_dir w x : f !! (rr ++ [w]) = Some x → node_at f rr = Some NDir.
Proof using Hown. intros E. apply (os_wf Hown _ w). by rewrite E. Qed.
Lemma stat_root g : f ⊆ g → node_at f rr = Some NDir → Stat g (real_path rs) = Some (rr, NDir).
Proof using Hown.
  intros Hg Hd. unfold Stat. rewrite kernel_real by apply rs_plain. rewrite (walk_grow f g true 40 [] rs rr Hg (root_walk 1)).
  cbv beta iota. rewrite node_at_in in * by apply Hown. by rewrite (lookup_weaken f g _ _ Hd Hg).
Qed.
Lemma mkdirs_root g : f ⊆ g → node_at f rr = Some NDir → mkdirs (real_path rs) (quiet d g n) = ((), quiet d g n).
Proof using Hown.
  intros Hg Hd. unfold mkdirs. cbn [MkdirAll]. unfold os_Stat, mbind. rewrite look_quiet. by rewrite stat_root.
Qed.

(** ** A link to a name that does not exist *)

Section Dangling.
Variables (w : string) (dq : list string) (v : string).
Hypothesis Hlink : f !! (rr ++ [w]) = Some (NLink (real_path (dq ++ [v]))).
Hypothesis Hv : plain (dq ++ [v]).
Hypothesis Hdir : node_at f dq = Some NDir.
Hypothesis Hnone : f !! (dq ++ [v]) = None.
Hypothesis Hw : bare w.

Lemma link_walk k : walk f true (40 + k) [] (rs ++ [w]) = Missing (dq ++ [v]).
Proof using Hown Hlink Hv Hdir Hnone Hw.
  destruct (child_walk f true w (reflexivity f)) as (m & Hm). replace (40 + k)%nat with (39 + S k)%nat by lia. rewrite Hm, walk_name by apply Hw.
  rewrite (rr_dir w _ Hlink), Hlink. replace (m + S k)%nat with (S (m + k)) by lia. rewrite rooted_real, walk_real by done.
  pose proof Hv as [Hdq Hvv]%plain_app. apply Forall_cons in Hvv as [Hvv _].
  rewrite walk_dirs by (done || apply Hown). cbn [app]. by rewrite walk_name, Hdir, Hnone.
Qed.
Lemma write_through content :
  ∃ d', writeFile id (Some (w, content)) c (quiet d f n) =
    (Success 200 (said "File saved" []), quiet d' (<[dq ++ [v] := NFile content]> f) n).
Proof using Hown Hlink Hv Hdir Hnone Hw.
  pose proof Hw as (Hpw & _). assert (Hp : plain (rs ++ [w])) by (apply plain_app; split; [apply rs_plain|by apply plain_one]).
  unfold writeFile. rewrite write_quiet. destruct (plain_names w Hpw) as (-> & _). unfold with_path, mbind at 1.
  rewrite safe_name; [|done|done|right; by rewrite (link_walk 215 : walk f true 255 [] (rs ++ [w]) = _)]. rewrite dir_real by done.
  unfold mbind at 1. rewrite mkdirs_root; [|done|by eapply rr_dir]. unfold WriteFile, mbind at 1 2. rewrite sys_quiet.
  unfold OpenTrunc. rewrite kernel_real, (link_walk 0 : walk f true 40 [] (rs ++ [w]) = _) by done. cbn [fst snd]. rewrite sys_quiet. cbn [Write fst snd].
  unfold mbind. destruct (audit_quiet c site [("action", JStr "file_write"); ("path", JStr w); ("item_type", JStr "file"); ("is_dir", JBool false)]
    d (<[dq ++ [v] := NFile content]> (<[dq ++ [v] := NFile ""]> f)) n) as (d' & ->).
  exists d'. by rewrite insert_insert_eq.
Qed.
End Dangling.
(** ** A directory with links in it *)

Lemma in_tree g dir e : In e (tree g dir) ↔ g !! (dir ++ e.1) = Some e.2.
Proof using.
  unfold tree. rewrite in_order_by, <- list_elem_of_In, list_elem_of_omap. split.
  - intros ((p & x) & Hp & Hu). apply elem_of_map_to_list in Hp. cbn [fst snd] in Hu. destruct (under dir p) eqn:E; [|done].
    injection Hu as <-. apply under_spec in E as (q & ->). cbn [fst snd]. by rewrite drop_app_length.
  - intros H. exists (dir ++ e.1, e.2). split; [by apply elem_of_map_to_list|]. cbn [fst snd].
    rewrite (proj2 (under_spec dir (dir ++ e.1))) by (by exists e.1). rewrite drop_app_length. by destruct e.
Qed.
Lemma all_of_some {A} (l : list (option (list A))) : (∀ o, In o l → is_Some o) →
  ∃ out, all_of l = Some out ∧ ∀ x y, In (Some x) l → In y x → In y out.
Proof using.
  induction l as [|o l IH]; intros H; [by exists []|]. destruct (H o ltac:(by left)) as [x ->].
  destruct IH as (out & E & Hin); [intros o Ho; apply H; by right|]. exists (x ++ out). cbn. rewrite E. split; [done|].
  intros x' y [[= ->]|Hx] Hy; apply in_app_iff; [by left|right; by eapply Hin].
Qed.

Section Archive.
Variables (w name : string) (ls : list string) (t content : string).
Hypothesis Hw : bare w.
Hypothesis Hdir : f !! (rr ++ [w]) = Some NDir.
Hypothesis Hlink : f !! (rr ++ [w] ++ ls) = Some (NLink t).
(** What a link of the directory leads to can be read. *)
Definition leads (l : list string) (content : string) : Prop := ReadFile f (real_path (rr ++ [w] ++ l)) = Some content.
Hypothesis Hcontent : leads ls content.
Hypothesis Hall : ∀ l t, f !! (rr ++ [w] ++ l) = Some (NLink t) → ∃ s, leads l s.
Notation a := (archive_name name).
Hypothesis Ha : plain_seg a = true.
Hypothesis Hfree : f !! (rr ++ [a]) = None.
Notation g := (<[rr ++ [a] := NFile ""]> f).

Lemma grown : f ⊆ g.
Proof using Hfree. by apply insert_subseteq. Qed.
Lemma read_grown p s : ReadFile f p = Some s → ReadFile g p = Some s.
Proof using Hfree.
  unfold ReadFile, Stat, kernel_walk. destruct (walk f _ _ _ _) as [q| | | |] eqn:E; try done. rewrite (walk_grow f g _ _ _ _ _ grown E).
  destruct q as [|u q]; [done|]. cbn [node_at]. destruct (f !! (u :: q)) as [x|] eqn:Ex; [|done].
  by rewrite (lookup_weaken f g _ _ Ex grown).
Qed.
Lemma zipped : ∃ out, addToZip (real_path (rs ++ [w])) w g = Ok out ∧ In (path_join w (join "/" ls), Some content) out.
Proof using Hown Hw Hdir Hlink Hcontent Hall Ha Hfree.
  assert (Hp : plain (rs ++ [w])) by (apply plain_app; split; [apply rs_plain|apply plain_one, Hw]).
  assert (Hg : g !! (rr ++ [w]) = Some NDir) by (by eapply lookup_weaken, grown).
  assert (Hd : node_at g rr = Some NDir).
  { rewrite node_at_in by apply Hown. eapply lookup_weaken, grown. rewrite <- node_at_in by apply Hown. by eapply rr_dir. }
  assert (Hwalk : ∀ follow, walk g follow 40 [] (rs ++ [w]) = At (rr ++ [w])).
  { intros follow. destruct (child_walk g follow w grown) as (m & Hm). rewrite (Hm 1%nat : walk g follow 40 [] _ = _), walk_name, Hd, Hg by apply Hw. done. }
  unfold addToZip, Stat. rewrite !kernel_real, !Hwalk by done. cbv beta iota. rewrite node_at_in by (by intros [_ ?]%app_eq_nil).
  rewrite Hg. cbn [mbind option_bind]. 
  destruct (all_of_some (map (zip_entry g (rr ++ [w]) w) (tree g (rr ++ [w])))) as (out & -> & Hin).
  - intros o (e & <- & He)%in_map_iff. apply in_tree in He. unfold zip_entry. destruct e as [l [s| |t']]; cbn [fst snd] in *; [done..|].
    rewrite <- List.app_assoc in He. rewrite lookup_insert_Some in He. destruct He as [[_ ?]|[_ He]]; [done|].
    destruct (Hall _ _ He) as (s & Hs). unfold leads in Hs. rewrite List.app_assoc in Hs. by rewrite (read_grown _ _ Hs).
  - exists out. split; [done|]. eapply (Hin [(path_join w (join "/" ls), Some content)]); [|by left].
    apply in_map_iff. exists (ls, NLink t). split.
    + unfold zip_entry. cbn [fst snd]. unfold leads in Hcontent. rewrite List.app_assoc in Hcontent. rewrite (read_grown _ _ Hcontent).
      destruct ls; [|done]. rewrite List.app_nil_r in Hlink. congruence.
    + apply in_tree. cbn [fst snd]. rewrite <- List.app_assoc. eapply lookup_weaken, grown. done.
Qed.
Lemma safe_root k : f ⊆ k → safePath (s_root_path site) "" (quiet d k n) = (inr (real_path rs), quiet d k n).
Proof using Hown.
  intros Hk. unfold safePath.
  assert ((s_root_path site =? "")%string = false) as -> by (destruct (String.eqb_spec (s_root_path site) "") as [E|]; [|done]; destruct Hown as [_ _ _ _ [K _] _ _ _]; by rewrite E in K).
  cbv zeta. change (path_clean (if (trim_space "" =? "")%string then "." else trim_space "")) with ".".
  change (("." =? "..")%string || has_prefix "." ".." || has_prefix "." "/") with false.
  assert (path_join (s_root_path site) "." = real_path rs) as ->.
  { rewrite join_segs by apply Hown. cbn. by rewrite rev_involutive. }
  rewrite clean_real by apply Hown. unfold outside at 1. rewrite String.eqb_refl. cbn [negb andb].
  unfold ensureNoSymlinkEscape, EvalSymlinks at 1, mbind. rewrite look_quiet, eval_real by apply rs_plain.
  rewrite (walk_grow f k true 255 [] rs rr Hk (root_walk 216)). by rewrite check_root.
Qed.
Lemma compress_through : ∃ r d' out,
  compressEntries id (Some ([w], name, "")) c (quiet d f n) = (Success 200 r, quiet d' (<[rr ++ [a] := NFile (zip_of out)]> f) n) ∧
  In (path_join w (join "/" ls), Some content) out.
Proof using Hown Hw Hdir Hlink Hcontent Hall Ha Hfree.
  assert (Hrd : node_at f rr = Some NDir) by (by eapply rr_dir).
  assert (Hpa : plain (rs ++ [a])) by (apply plain_app; split; [apply rs_plain|by apply plain_one]).
  assert (Harch : ∀ k follow, walk f follow (39 + k) [] (rs ++ [a]) = Missing (rr ++ [a])).
  { intros k follow. destruct (child_walk f follow a (reflexivity f)) as (m & Hm). by rewrite Hm, walk_name, Hrd, Hfree. }
  assert (Hdirw : ∀ k, walk f true (39 + k) [] (rs ++ [w]) = At (rr ++ [w])).
  { intros k. destruct (child_walk f true w (reflexivity f)) as (m & Hm). by rewrite Hm, walk_name, Hrd, Hdir by apply Hw. }
  assert (Hpw : plain (rs ++ [w])) by (apply plain_app; split; [apply rs_plain|apply plain_one, Hw]).
  destruct zipped as (out & Hz & Hin). unfold compressEntries. rewrite write_quiet. cbv zeta. unfold in_directory, with_path, mbind at 1.
  rewrite safe_root by done. unfold stat_dir, os_Stat, mbind at 1 2. rewrite look_quiet, stat_root by done. cbn [mret is_dir negb].
  rewrite join_name by (done || apply rs_plain). unfold mbind at 1. rewrite look_quiet. unfold Stat at 1.
  rewrite kernel_real, (Harch 1%nat true : walk f true 40 [] (rs ++ [a]) = _) by done. unfold mbind at 1. cbn [resolve_each].
  unfold mbind at 1. rewrite safe_name; [|done|done|left; exact (Hdirw 216%nat)]. unfold mbind at 1, os_Stat at 1. rewrite look_quiet. unfold Stat at 1.
  rewrite kernel_real, (Hdirw 1%nat : walk f true 40 [] (rs ++ [w]) = _) by done. rewrite node_at_in, Hdir by (by intros [_ ?]%app_eq_nil).
  cbn [base.mbind option_bind mret app]. unfold mbind at 1. rewrite sys_quiet. unfold OpenTrunc. rewrite kernel_real, (Harch 1%nat true : walk f true 40 [] (rs ++ [a]) = _) by done.
  cbn [fst snd zip_each]. unfold mbind at 1 2. rewrite look_quiet, base_real by apply Hw. rewrite Hz. cbn [mret app]. unfold mbind at 1.
  rewrite sys_quiet. cbn [Write fst snd]. unfold mbind at 1. rewrite look_quiet. rewrite insert_insert_eq. unfold mbind.
  match goal with |- context [file_audit ?c ?s ?l (quiet d ?k n)] => destruct (audit_quiet c s l d k n) as (d' & ->) end.
  by eexists _, d', out.
Qed.
End Archive.
End Quiet.

(** * The theorem *)

(** C23: links lead the file manager out of a site.  Take the owner of a site whose root is a
    directory of any tree, and calls that do not fail.  If a name right below the root is a link
    to a path that does not exist, in a directory that does, wherever that is, writing to the
    name answers 200 and creates that file with the content sent.  If it is a directory that
    holds, at any depth, a link to a file, wherever that is, compressing it (into a name that is
    free, every link of the directory leading to a file) answers 200 and puts the content of
    that file into the archive below the root. *)
Theorem links_leave_site `{HF : FileInfo} (d : db) (f : fs) (n : Z) (id : string) (c : context) (sess : session_row) (user : user_row)
    (site : site_row) (rr : list string) (Hown : own_site d f id c sess user site rr) :
  (∀ w dq v content, bare w → f !! (rr ++ [w]) = Some (NLink (real_path (dq ++ [v]))) → plain (dq ++ [v]) →
     node_at f dq = Some NDir → f !! (dq ++ [v]) = None →
     ∃ d', writeFile id (Some (w, content)) c (quiet d f n) =
       (Success 200 (said "File saved" []), quiet d' (<[dq ++ [v] := NFile content]> f) n)) ∧
  (∀ w name ls t content, bare w → f !! (rr ++ [w]) = Some NDir → f !! (rr ++ [w] ++ ls) = Some (NLink t) → leads f rr w ls content →
     (∀ l t, f !! (rr ++ [w] ++ l) = Some (NLink t) → ∃ s, leads f rr w l s) →
     plain_seg (archive_name name) = true → f !! (rr ++ [archive_name name]) = None →
     ∃ r d' out, compressEntries id (Some ([w], name, "")) c (quiet d f n) =
         (Success 200 r, quiet d' (<[rr ++ [archive_name name] := NFile (zip_of out)]> f) n) ∧
       In (path_join w (join "/" ls), Some content) out).
Proof.
  split.
  - intros w dq v content Hw Hl Hp Hdir Hn. by apply (write_through d f n id c sess user site rr Hown).
  - intros w name ls t content Hw Hd Hl Hc Hall Ha Hf. by apply (compress_through d f n id c sess user site rr Hown w name ls t content).
Qed.

(** * Witness *)

Definition up_closed (f : fs) : bool :=
  forallb (λ e, match node_at f (removelast e.1) with Some NDir => true | _ => false end) (map_to_list f).
Lemma up_closed_wf f : up_closed f = true → fs_wf f.
Proof.
  intros H p v [x E]. unfold up_closed in H. rewrite forallb_forall in H. apply elem_of_map_to_list, list_elem_of_In, H in E.
  cbn [fst] in E. rewrite List.removelast_last in E. by destruct (node_at f p) as [[]|].
Qed.
(** Beside the files, a link to a name of /etc/cron.d that is not taken and, in a directory, one
    to a file of the system. *)
Definition ann_tree : fs :=
  list_to_map [(["home"], NDir); (["home"; "ann"], NDir); (at_ann [], NDir); (at_ann ["index.html"], NFile "hello");
               (at_ann ["job"], NLink "/etc/cron.d/job"); (at_ann ["d"], NDir); (at_ann ["d"; "s"], NLink "/etc/shadow");
               (["etc"], NDir); (["etc"; "cron.d"], NDir); (["etc"; "shadow"], NFile "root:secret")].
Lemma ann_d : tree ann_tree (at_ann ["d"]) = [([], NDir); (["s"], NLink "/etc/shadow")].
Proof. by vm_compute. Qed.
Lemma ann_links l t : ann_tree !! (at_ann [] ++ ["d"] ++ l) = Some (NLink t) → l = ["s"].
Proof. intros E. apply (in_tree ann_tree (at_ann ["d"]) (l, NLink t)) in E. rewrite ann_d in E. destruct E as [E|[E|[]]]; congruence. Qed.
Definition ann_session : session_row := SessionRow 9 2 "" 0 0 None None.
Lemma ann_owns : own_site ann_panel ann_tree "7" ann_signed ann_session ann_user ann_site (at_ann []).
Proof. split; [by vm_compute..|split; [by vm_compute|done]|done|by vm_compute|]. apply up_closed_wf. by vm_compute. Qed.

(** Ann adds a job for cron, and gets the passwords of the system. *)
Lemma links_leave_site_witness :
  (∃ d', writeFile "7" (Some ("job", "* * * * * root id")) ann_signed (quiet ann_panel ann_tree 0) =
     (Success 200 (said "File saved" []), quiet d' (<[["etc"; "cron.d"] ++ ["job"] := NFile "* * * * * root id"]> ann_tree) 0)) ∧
  ∃ r d' out, compressEntries (HF := plain_info) "7" (Some (["d"], "x", "")) ann_signed (quiet ann_panel ann_tree 0) =
      (Success 200 r, quiet d' (<[at_ann [] ++ ["x.zip"] := NFile (zip_of (FileInfo := plain_info) out)]> ann_tree) 0) ∧
    In ("d/s", Some "root:secret") out.
Proof.
  destruct (links_leave_site (HF := plain_info) ann_panel ann_tree 0 "7" ann_signed ann_session ann_user ann_site (at_ann []) ann_owns) as [H1 H2].
  split.
  - apply (H1 "job" ["etc"; "cron.d"] "job"); [split; [|split]; by vm_compute|by vm_compute|by repeat constructor|by vm_compute..].
  - apply (H2 "d" "x" ["s"] "/etc/shadow" "root:secret"); [split; [|split]; by vm_compute|by vm_compute..| |by vm_compute|by vm_compute].
    intros l t ->%ann_links. exists "root:secret". by vm_compute.
Defined.
