(* ===== verification/Dispatch.v ===== *)
(** What the agent makes of the payloads that the panel queues for it: the bodies of the jobs
    of SitesApi.v, AppApi.v and JobsApi.v, decoded by AgentTasks.v. *)
From S2P Require Import Prelude GoStr Regex SiteInput AgentValidate Json Sql JobStore Sites Agent Http Host AgentSite AgentApp AgentBackup AgentTasks Worker SitesApi AppApi JobsApi.
Local Open Scope Z_scope.
Local Open Scope panel_scope.

Set Default Proof Using "Type".

(** * Reading what was marshalled *)

Definition sendable (l : list (string * json)) : bool := forallb (λ p, ascii_str p.1 && json_ok p.2) l.
Lemma bind_marshalled (l : list (string * json)) : sendable l = true → bind_body (marshal_map l) = Some (JObj (obj_of_list l)).
Proof.
  unfold sendable. rewrite forallb_forall. intros H. unfold bind_body, marshal_map.
  rewrite parse_marshal; [by destruct (Marshal _) eqn:E|].
  cbn [json_ok]. apply forallb_forall. intros p Hp%obj_of_list_in. by apply H.
Qed.

Definition plain_body (b : site_body) : bool :=
  forallb ascii_str [sb_name b; sb_domain b; sb_runtime b; sb_root b; sb_proxy b; sb_php b; sb_image b; sb_language b; sb_docker_name b;
    sb_ports b; sb_env b; sb_volume b; sb_restart b].
Definition task_of_body (id port : Z) (b : site_body) : SiteCreate :=
  mkSiteCreate id (sb_name b) (sb_domain b) (sb_runtime b) (sb_root b) port (sb_proxy b) (sb_php b) "" (sb_image b) (sb_language b)
    (sb_docker_name b) (sb_ports b) (sb_env b) (sb_volume b) (sb_restart b).
Lemma create_sent (id port : Z) (b : site_body) : int64 id → int64 port → plain_body b = true →
  task_of "/site/create" (create_payload id port b) = Some (SiteCreateTask (Some (task_of_body id port b))).
Proof.
  intros Hi Hp Hb. unfold plain_body in Hb. cbn [forallb] in Hb. bool_hyps.
  change (task_of "/site/create" (create_payload id port b)) with (Some (SiteCreateTask (bind_body (create_payload id port b) ≫= decode_site_create))).
  unfold create_payload. rewrite bind_marshalled.
  - cbv -[atoi itoa Z.ltb]. 
    rewrite !atoi_itoa by done. reflexivity.
  - unfold sendable. cbn [forallb fst snd]. rewrite !JInt_ok by done. cbn [json_ok].
    repeat match goal with H : ascii_str _ = true |- _ => rewrite H; clear H end. reflexivity.
Qed.

(** ** Apps *)

Definition plain_site (s : site_row) : bool :=
  forallb ascii_str [s_domain s; s_root_path s; default "" (s_git_repo s); branch_of s; s_runtime s; default "" (s_app_status s);
    default "" (s_app_command s); default "" (s_system_user s)].
Record small_site (s : site_row) : Prop := {
  ss_id : int64 (s_id s); ss_port : int64 (default 0 (s_app_port s)); ss_memory : int64 (default 0 (s_app_memory_max s)) }.
Definition task_of_app (site : site_row) (command : string) : AppTask :=
  mkAppTask (s_id site) (s_domain site) (s_root_path site) (default "" (s_system_user site)) (app_port site) command (memory_or_default site).
Lemma memory_int64 site : small_site site → int64 (memory_or_default site).
Proof. intros [_ _ H]. unfold memory_or_default, appMemoryOrDefault. case_goal; [done|]. by vm_compute. Qed.
Lemma app_sent (site : site_row) (command : string) : small_site site → plain_site site = true → ascii_str command = true →
  task_of "/app/start" (app_payload site command) = Some (AppStartTask (Some (task_of_app site command))) ∧
  task_of "/app/restart" (app_payload site command) = Some (AppRestartTask (Some (task_of_app site command))).
Proof.
  intros Hs Hb Hc. pose proof (memory_int64 site Hs) as Hm. destruct Hs as [Hi Hp _]. unfold plain_site in Hb. cbn [forallb] in Hb. bool_hyps.
  assert (Hd : bind_body (app_payload site command) ≫= decode_app = Some (task_of_app site command)).
  { unfold app_payload, task_of_app. generalize dependent (memory_or_default site). intros m Hm. rewrite bind_marshalled.
    - cbv -[atoi itoa app_port default s_system_user]. rewrite !atoi_itoa by done. reflexivity.
    - unfold sendable. cbn [forallb fst snd]. rewrite !JInt_ok by done. cbn [json_ok].
      repeat match goal with H : ascii_str _ = true |- _ => rewrite H; clear H end. reflexivity. }
  split.
  - change (task_of "/app/start" (app_payload site command)) with (Some (AppStartTask (bind_body (app_payload site command) ≫= decode_app))).
    by rewrite Hd.
  - change (task_of "/app/restart" (app_payload site command)) with (Some (AppRestartTask (bind_body (app_payload site command) ≫= decode_app))).
    by rewrite Hd.
Qed.

(** ** Deploys *)

Lemma bind_none {A B} (o : option A) (f : A → option B) : (∀ a, f a = None) → o ≫= f = None.
Proof. intros H. destruct o; [apply H|done]. Qed.
Lemma status_undecodable (v : json) : str_field "app_status" v = None → decode_site_deploy v = None.
Proof.
  intros H. unfold decode_site_deploy. cbv zeta.
  do 6 (apply bind_none; intros ?). by rewrite H.
Qed.
Lemma deploy_undecodable (site : site_row) : small_site site → plain_site site = true →
  task_of "/site/deploy" (marshal_map (deploy_payload site)) = Some (SiteDeployTask None).
Proof.
  intros [Hi Hp Hm] Hb. unfold plain_site in Hb. cbn [forallb] in Hb. bool_hyps.
  change (task_of "/site/deploy" (marshal_map (deploy_payload site)))
    with (Some (SiteDeployTask (bind_body (marshal_map (deploy_payload site)) ≫= decode_site_deploy))).
  rewrite bind_marshalled.
  - cbn [mbind option_bind]. match goal with |- Some (SiteDeployTask ?o) = _ => change o with (decode_site_deploy (JObj (obj_of_list (deploy_payload site)))) end.
    by rewrite status_undecodable.
  - unfold sendable, deploy_payload. cbn [forallb fst snd]. rewrite !JInt_ok by done. unfold NullString, NullInt64. cbn [json_ok forallb fst snd].
    rewrite !JInt_ok by done.
    repeat match goal with H : ascii_str _ = true |- _ => rewrite H; clear H end. reflexivity.
Qed.
(** [%q] quotes printable ASCII without [<], [>] and [&] the way [json.Marshal] does. *)
Definition printable (s : string) : bool :=
  str_all (λ c, (32 <=? code c) && (code c <? 127) && negb (chr_in "<>&" c)) s.
Lemma printable_byte (c : ascii) : (32 <=? code c) && (code c <? 127) && negb (chr_in "<>&" c) = true → quote_byte c = print_byte c.
Proof. destruct c as [[] [] [] [] [] [] [] []]; vm_compute; intros; congruence. Qed.
Lemma printable_ascii (s : string) : printable s = true → ascii_str s = true.
Proof. unfold printable, ascii_str. induction s; cbn [str_all]; [done|]. intros H. bool_hyps. rewrite IHs by done. lia. Qed.
Lemma print_ascii_cons (c : ascii) (s : string) : code c <? 127 = true → print_body (String c s) = print_byte c +:+ print_body s.
Proof.
  intros H. destruct s as [|d [|e s]]; [done..|]. cbn [print_body].
  replace (code c =? 226) with false by lia. done.
Qed.
Lemma printable_quotes (s : string) : printable s = true → go_quote s = print_str s.
Proof.
  intros H. unfold go_quote, print_str. do 2 f_equal.
  induction s as [|c s IH]; [done|]. unfold printable in *. cbn [str_all] in H. apply andb_prop in H as [Hc Hs].
  cbn [quote_body]. rewrite IH, printable_byte, print_ascii_cons by (done || (bool_hyps; lia)). done.
Qed.

(** The payload of a webhook names neither the domain nor the root. *)
Definition hook_fields (site : site_row) (branch : string) : json :=
  JObj [("site_id", JInt (s_id site)); ("repo", JStr (default "" (s_git_repo site))); ("branch", JStr branch)].
Definition task_of_hook (site : site_row) (branch : string) : SiteDeploy :=
  mkSiteDeploy (s_id site) "" (default "" (s_git_repo site)) branch "" "" "" 0 "" "" 0.
Lemma hook_sent (site : site_row) (branch : string) :
  int64 (s_id site) → printable (default "" (s_git_repo site)) = true → printable branch = true →
  task_of "/site/deploy" (webhook_payload site branch) = Some (SiteDeployTask (Some (task_of_hook site branch))).
Proof.
  intros Hi Hr Hb.
  change (task_of "/site/deploy" (webhook_payload site branch)) with (Some (SiteDeployTask (bind_body (webhook_payload site branch) ≫= decode_site_deploy))).
  assert (Hm : webhook_payload site branch = Marshal (hook_fields site branch)).
  { unfold webhook_payload, hook_fields. rewrite !printable_quotes by done.
    set (a := JInt (s_id site)). set (b := JStr (default "" (s_git_repo site))). set (d := JStr branch).
    change (print_str (default "" (s_git_repo site))) with (Marshal b). change (print_str branch) with (Marshal d).
    change (itoa (s_id site)) with (Marshal a). clearbody a b d. cbn [Marshal map fst snd]. unfold commas. cbn [join].
    generalize (Marshal a), (Marshal b), (Marshal d). intros x y z. rewrite !app_assoc_s. reflexivity. }
  unfold bind_body. rewrite Hm. change (Marshal (hook_fields site branch) =? "")%string with false.
  rewrite parse_marshal.
  - cbv -[atoi itoa default s_git_repo s_id]. rewrite !atoi_itoa by done. reflexivity.
  - unfold hook_fields. cbn [json_ok forallb fst snd]. rewrite !JInt_ok, !printable_ascii by done. reflexivity.
Qed.

(** ** The answers *)

(** What a job is for the agent that its server runs: [Execute] of Agent.v posts the payload,
    [{}] for an empty one, to the endpoint of the job's type. *)
Definition task_of_job (type payload : string) : option task :=
  task_of (trim_prefix (endpointForType type) "/tasks") (if (payload =? "")%string then "{}" else payload).
Lemma task_of_sent (type payload : string) : (payload =? "")%string = false →
  task_of_job type payload = task_of (trim_prefix (endpointForType type) "/tasks") payload.
Proof. intros H. unfold task_of_job. by rewrite H. Qed.

(** C28: the jobs that the panel queues to create a site and to start or restart its app reach the
    agent as the tasks they describe: every member is read back under the agent's name and at
    the agent's type, whatever the texts contain. *)
Theorem jobs_arrive (id port : Z) (b : site_body) (site : site_row) (command : string) :
  int64 id → int64 port → plain_body b = true → small_site site → plain_site site = true → ascii_str command = true →
  task_of_job TypeSiteCreate (create_payload id port b) = Some (SiteCreateTask (Some (task_of_body id port b))) ∧
  task_of_job TypeAppStart (app_payload site command) = Some (AppStartTask (Some (task_of_app site command))) ∧
  task_of_job TypeAppRestart (app_payload site command) = Some (AppRestartTask (Some (task_of_app site command))).
Proof.
  intros Hi Hp Hb Hs Hps Hc. destruct (app_sent site command Hs Hps Hc) as [H1 H2].
  rewrite !task_of_sent by reflexivity. split_and!; [exact (create_sent _ _ _ Hi Hp Hb)|exact H1|exact H2].
Qed.

Definition sample_body : site_body :=
  mkSiteBody 1 "Blog" "blog.example.org" "nodejs" "/home/blog/htdocs" "sigardapanel" "blog" "" "" "8.2" "" "" "" "" "a<b&c" "" "".
Definition sample_site : site_row :=
  SiteRow 7 1 "Blog" "blog.example.org" "nodejs" "/home/blog/htdocs" "active" (Some 3) None None None None
    (Some "https://git.example.org/blog.git") (Some "main") None None (Some "s3cret") (Some "sigardapanel") (Some "blog") None None (Some 3001)
    (Some "node app.js") (Some "running") None None None None 0 0.
Lemma small_sample : small_site sample_site.
Proof. by split; vm_compute. Qed.
Lemma jobs_arrive_witness :
  task_of_job TypeSiteCreate (create_payload 7 3001 sample_body) = Some (SiteCreateTask (Some (task_of_body 7 3001 sample_body))) ∧
  task_of_job TypeAppStart (app_payload sample_site "node app.js") = Some (AppStartTask (Some (task_of_app sample_site "node app.js"))).
Proof.
  destruct (jobs_arrive 7 3001 sample_body sample_site "node app.js") as (H1 & H2 & _);
    [by vm_compute|by vm_compute|reflexivity|exact small_sample|reflexivity|reflexivity|].
  by split.
Defined.

Section Answers.
Context `{HR : MapRange}.
Variable r : AgentRouter.

(** C29: the agent answers 400 without touching the host to every deploy that the panel queues: to
    that of deploySite because the optional columns of the site arrive as objects where the
    agent reads texts and numbers, and to that of a webhook because it names no root path. *)
Theorem deploys_refused (site : site_row) (branch : string) :
  small_site site → plain_site site = true → printable (default "" (s_git_repo site)) = true → printable branch = true →
  run_task r <$> task_of_job TypeSiteDeploy (marshal_map (deploy_payload site)) = Some (Ret (HTTPError 400 "invalid payload")) ∧
  ∃ msg, run_task r <$> task_of_job TypeSiteDeploy (webhook_payload site branch) = Some (Ret (HTTPError 400 msg)).
Proof.
  intros Hs Hp Hr Hb. rewrite !task_of_sent by reflexivity. change (trim_prefix _ _) with "/site/deploy". split.
  - by rewrite deploy_undecodable.
  - rewrite hook_sent by (done || apply Hs). cbn [fmap option_fmap option_map]. unfold run_task, siteDeployTask, task_of_hook. cbn [dp_repo dp_branch dp_root].
    destruct (negb (isValidGitURL _)); [by eexists|]. destruct (_ && _); [by eexists|].
    change (isAllowedSitePath r "") with false. by eexists.
Qed.
End Answers.

Definition listed : MapRange := {| range l := l; range_in l x H := H |}.
Lemma deploys_refused_witness :
  run_task (HR := listed) (newRouter "t" "/home" false) <$> task_of_job TypeSiteDeploy (marshal_map (deploy_payload sample_site)) =
    Some (Ret (HTTPError 400 "invalid payload")) ∧
  ∃ msg, run_task (HR := listed) (newRouter "t" "/home" false) <$> task_of_job TypeSiteDeploy (webhook_payload sample_site "main") =
    Some (Ret (HTTPError 400 msg)).
Proof. apply (deploys_refused (HR := listed)); [exact small_sample|reflexivity..]. Defined.
