(* ===== verification/Isolation.v ===== *)
(** Who reaches what through the handlers of a site: the theorems about the access checks of
    the API, over Access.v, SitesApi.v, AppApi.v, SiteTools.v and JobsApi.v. *)
From S2P Require Import Prelude GoStr Regex SiteInput Json Cron Clock Sql JobStore Accounts Sites Backups Servers BackupPlan Secrets Records Plans Extras Frame Panel Agent Worker Scheduler Guards Http Access Routes SitesApi AppApi SiteTools JobsApi.
Local Open Scope Z_scope.
Local Open Scope panel_scope.

Set Default Proof Using "Type".

(** * Guarded handlers *)

Section Guarded.
(** The answers that do not depend on the site. *)
Definition refusal (rep : reply) : Prop :=
  rep = not_found ∨ rep = internal ∨ rep = error_reply 404 "site not found" ∨
  ∃ m, m ∈ ["invalid id"; "invalid site id"; "invalid cron id"; "invalid restriction id"] ∧
       (rep = HTTPError 400 m ∨ rep = error_reply 400 m).

(** The caller is refused, with nothing changed, or entitled. *)
Definition guarded (p : context → site_row → db → Prop) (id : string) (c : context) (w : world db) (rep : reply) (w' : world db) : Prop :=
  (refusal rep ∧ data w' = data w) ∨
  ∃ i site, atoi id = (i, true) ∧ get_row i (t_sites (data w)) = Some site ∧ p c site (data w).

Lemma wp_const {A} (m : M db A) (P : Prop) (w : world db) : P → wp m (λ _ _, P) w.
Proof. unfold wp. by destruct (m w). Qed.

Lemma guarded_const p id c w w1 i site (m : M db reply) :
  atoi id = (i, true) → get_row i (t_sites (data w)) = Some site → p c site (data w) → wp m (guarded p id c w) w1.
Proof. intros H1 H2 H3. eapply wp_mono; [|apply wp_const, I]. intros ? ? _. right. by exists i, site. Qed.

Lemma guarded_refused p id c w rep w' : refusal rep → data w' = data w → guarded p id c w rep w'.
Proof. by left. Qed.

Lemma wp_accessible id c w w1 i site (k : M db reply) :
  atoi id = (i, true) → get_row i (t_sites (data w)) = Some site → data w1 = data w →
  wp (if_accessible c site k) (guarded may_access id c w) w1.
Proof.
  intros Hi Hs Hd. unfold if_accessible. apply wp_bind. eapply wp_mono; [|apply canAccess_wp].
  intros [] w2 (E1 & _ & E2); cbn [negb].
  - apply (guarded_const _ _ _ _ _ i site); [done..|]. rewrite <- Hd. by apply E2.
  - apply wp_ret, guarded_refused; [by left|congruence].
Qed.
Lemma wp_permitted required id c w w1 i site (k : M db reply) :
  atoi id = (i, true) → get_row i (t_sites (data w)) = Some site → data w1 = data w →
  wp (if_permitted c required site k) (guarded (may required) id c w) w1.
Proof.
  intros Hi Hs Hd. unfold if_permitted. apply wp_bind. eapply wp_mono; [|apply checkSitePermission_wp].
  intros [] w2 (E1 & _ & E2); cbn [negb].
  - apply (guarded_const _ _ _ _ _ i site); [done..|]. rewrite <- Hd. by apply E2.
  - apply wp_ret, guarded_refused; [by left|congruence].
Qed.

(** A handler that reads the site first. *)
Lemma parse_id_atoi (s : string) (i : Z) : parse_id s = Some i → atoi s = (i, true).
Proof. unfold parse_id. destruct (atoi s) as [n ok]. case_goal; [done|]. intros [= <-]. bool_hyps. by subst ok. Qed.

Lemma wp_site p id c w (bad : string) (broken : reply) (k : Z → site_row → M db reply) :
  bad ∈ ["invalid id"; "invalid site id"] → broken = internal ∨ broken = not_found →
  (∀ i site w1, atoi id = (i, true) → get_row i (t_sites (data w)) = Some site → data w1 = data w →
     wp (k i site) (guarded p id c w) w1) →
  wp (with_site bad broken id k) (guarded p id c w) w.
Proof.
  intros Hbad Hbr Hk. unfold with_site. destruct (parse_id id) as [i|] eqn:Ei.
  - unfold Sites.GetByID. wp_step. wp_step. wp_step.
    + wp_step. apply guarded_refused; [|done]. destruct Hbr as [->| ->]; unfold refusal; auto.
    + destruct (get_row i (tab (data w))) as [site|] eqn:Es; [|wp_step; apply guarded_refused; [by left|done]].
      apply Hk; [by apply parse_id_atoi|exact Es|done].
  - wp_step. apply guarded_refused; [|done]. right. right. right. exists bad. split; [|by left]. set_solver.
Qed.

Lemma wp_for_user id c w (k : site_row → M db reply) : wp (for_user id c k) (guarded may_access id c w) w.
Proof.
  unfold for_user. destruct (atoi id) as [i ok] eqn:Ei. destruct ok; cbn [negb].
  - unfold Sites.GetByID. wp_step. wp_step. wp_step; [wp_step; apply guarded_refused; [by left|done]|].
    destruct (get_row i (tab (data w))) as [site|] eqn:Es; [|wp_step; apply guarded_refused; [by left|done]].
    by eapply wp_accessible.
  - wp_step. apply guarded_refused; [|done]. right. right. right. exists "invalid site id". split; [set_solver|by left].
Qed.

Lemma wp_ip_check id c w (k : Z → M db reply) : wp (ip_site_check id c k) (guarded may_access id c w) w.
Proof.
  unfold ip_site_check. destruct (parse_id id) as [i|] eqn:Ei.
  - assert (refusal (error_reply 404 "site not found")) as Hr by (unfold refusal; auto).
    unfold Sites.GetByID. wp_step. wp_step. wp_step; [wp_step; by apply guarded_refused|].
    destruct (get_row i (tab (data w))) as [site|] eqn:Es; [|wp_step; by apply guarded_refused].
    wp_step. eapply wp_mono; [|apply canAccess_wp]. intros [] w2 (E1 & _ & E2); cbn [negb].
    + apply (guarded_const _ _ _ _ _ i site); [by apply parse_id_atoi|done|by apply E2].
    + wp_step. by apply guarded_refused.
  - wp_step. apply guarded_refused; [|done]. right. right. right. exists "invalid site id". split; [set_solver|by right].
Qed.

Lemma wp_with_agent id c w (k : site_row → server_row → M db reply) : wp (with_agent id c k) (guarded may_access id c w) w.
Proof.
  unfold with_agent, resolveSiteAndServer. wp_step. destruct (parse_id id) as [i|] eqn:Ei.
  - unfold Sites.GetByID. wp_step. wp_step. wp_step; [wp_step; wp_step; apply guarded_refused; [by left|done]|].
    destruct (get_row i (tab (data w))) as [site|] eqn:Es; [|wp_step; wp_step; apply guarded_refused; [by left|done]].
    wp_step. eapply wp_mono; [|apply canAccess_wp]. intros [] w2 (E1 & _ & E2); cbn [negb].
    + eapply wp_mono; [|apply wp_const, I]. intros r w3 _.
      destruct r as [[? ?]|rep]; apply (guarded_const _ _ _ _ _ i site); try done; (by apply parse_id_atoi) || by apply E2.
    + wp_step. wp_step. apply guarded_refused; [by left|done].
  - wp_step. wp_step. apply guarded_refused; [|done]. right. right. right. exists "invalid site id". split; [set_solver|by left].
Qed.
End Guarded.

(** * The requests about one site *)

Section Requests.
Context `{HC : PayloadCipher}.
Context (NewToken : res string) (agentRequest : string → string → string → option string → res (Z * string)) (du : string → res string)
        (os_free : Z → bool) (php_dirs : list string).

(** The handlers that take the id of a site and act on the database, with what else they
    take from the request. *)
Inductive site_request :=
| SiteGet | SiteDelete | SiteDeploy | SiteConfig (body : option config_body) | SiteReload | SiteUsage
| GitBranches | GitLog (lines : string) | GitRollback (body : string) | GitCheckout (body : string)
| AppStart (command : string) | AppStop | AppRestart | AppStatus | AppConfig (body : option app_config_body)
| PHPGet | PHPUpdate (body : option (string * string)) | SSHInfo
| SSLStatus | SSLIssue (email : string) | SSLRenew
| VarnishGet | VarnishPurge | SecurityGet
| CronList | CronCreate (body : option (string * string)) | CronDelete (cron_id : string)
| IPList | IPCreate (body : option ip_body) | IPDelete (restriction_id : string).

Definition handle (r : site_request) (id : string) : handler (D := db) :=
  match r with
  | SiteGet => get_site id
  | SiteDelete => delete_site id
  | SiteDeploy => deploy_site id
  | SiteConfig b => update_config NewToken id b
  | SiteReload => reload_nginx id
  | SiteUsage => usage du id
  | GitBranches => gitBranches agentRequest id
  | GitLog lines => gitLog agentRequest id lines
  | GitRollback b => gitRollback agentRequest id b
  | GitCheckout b => gitCheckout agentRequest id b
  | AppStart cmd => appStart os_free id cmd
  | AppStop => appStop id
  | AppRestart => appRestart os_free id
  | AppStatus => appStatus id
  | AppConfig b => appUpdateConfig os_free id b
  | PHPGet => getPHPConfig php_dirs id
  | PHPUpdate b => updatePHPConfig php_dirs id b
  | SSHInfo => sshInfo id
  | SSLStatus => ssl_status id
  | SSLIssue email => ssl_issue id email
  | SSLRenew => ssl_renew id
  | VarnishGet => getVarnish id
  | VarnishPurge => purgeVarnish id
  | SecurityGet => getSecurity id
  | CronList => listCron id
  | CronCreate b => createCron id b
  | CronDelete cron => deleteCron id cron
  | IPList => ip_list id
  | IPCreate b => ip_create id b
  | IPDelete rid => ip_delete id rid
  end.
(** The permission on the site a request asks for; the others ask for any grant. *)
Definition needs (r : site_request) : option string :=
  match r with
  | SiteDelete | SiteReload | VarnishPurge => Some "admin"
  | SiteDeploy | SiteConfig _ | CronCreate _ | CronDelete _ => Some "write"
  | _ => None
  end.
Definition entitled_to (r : site_request) (c : context) (site : site_row) (d : db) : Prop :=
  match needs r with Some p => may p c site d | None => may_access c site d end.

(** C9: of all requests about one site: whatever fails on the way, either the answer is one of
    the refusals, which are the same for every site and for one that does not exist, and the
    database is as it was, or the caller is a user who is super admin, owns the site, or
    holds a grant on it; for deleting, reloading and purging one with permission admin, for
    deploying, configuring and the cron jobs one with permission write. *)
Theorem tenant_isolation (r : site_request) (id : string) (c : context) (w : world db) :
  wp (handle r id c) (guarded (entitled_to r) id c w) w.
Proof.
  destruct r; unfold entitled_to, needs; cbn [handle].
  all: try (apply wp_site; [set_solver|by auto|]; intros i site w1 Hi Hs Hd; (by eapply wp_accessible) || (by eapply wp_permitted)).
  all: try apply wp_with_agent.
  all: try apply wp_for_user.
  all: try apply wp_ip_check.
  - unfold deleteCron. destruct (parse_id cron_id).
    + apply wp_site; [set_solver|by auto|]. intros i site w1 Hi Hs Hd. by eapply wp_permitted.
    + wp_step. apply guarded_refused; [|done]. right. right. right. exists "invalid cron id". split; [set_solver|by left].
  - unfold ip_delete. destruct (parse_id restriction_id).
    + apply wp_ip_check.
    + wp_step. apply guarded_refused; [|done]. right. right. right. exists "invalid restriction id". split; [set_solver|by right].
Qed.
End Requests.

(** * The list of sites *)

Section ListSites.
Context (like : string → string → bool).

(** Super admin, owner, or holder of a grant. *)
Definition claims_site (user : Z) (d : db) (s : site_row) : Prop :=
  In s (t_rows (t_sites d)) ∧
  ((∃ u, get_row user (t_users d) = Some u ∧ u_role u = RoleSuperAdmin) ∨ s_owner s = Some user ∨
   ∃ g, In g (t_rows (t_user_sites d)) ∧ us_user g = user ∧ us_site g = s_id s).

Lemma add_assigned_spec (user : Z) (owned : list Z) (l : list UserSite) (w : world db) :
  (∀ u, In u l → In (us_grant u) (t_rows (t_user_sites (data w))) ∧ us_user (us_grant u) = user) →
  wp (add_assigned owned l) (λ more w', data w' = data w ∧ Forall (claims_site user (data w)) more) w.
Proof.
  revert w. induction l as [|u l IH]; intros w Hl; cbn [add_assigned]; [by wp_step|].
  destruct (existsb _ owned); [apply IH; intros v Hv; apply Hl; by right|].
  assert (Hrest : ∀ fs, wp (add_assigned owned l) (λ more w', data w' = data w ∧ Forall (claims_site user (data w)) more)
                          (World (data w) (clock w) fs)).
  { intros fs. apply (IH (World (data w) (clock w) fs)). intros v Hv. apply Hl. by right. }
  unfold Sites.GetByID. wp_step. wp_step. wp_step.
  - wp_step. eapply wp_mono; [|apply Hrest]. intros more w' [E H]. by wp_step.
  - wp_step. eapply wp_mono; [|apply Hrest]. intros more w' [E H]. wp_step. split; [done|].
    destruct (get_row _ (tab (data w))) as [s|] eqn:Es; [|done]. constructor; [|done].
    destruct (Hl u (or_introl eq_refl)) as [Hg Hu]. pose proof (get_row_id _ _ _ Es) as Hid.
    apply find_spec in Es as [_ Hin]. split; [exact Hin|]. right. right. by exists (us_grant u).
Qed.

Lemma limit_offset_in {A} (n k : Z) (l : list A) x : In x (limit_offset n k l) → In x l.
Proof. apply in_take_drop. Qed.

Lemma list_rows (f : SiteListFilter) (d : db) (s : site_row) (n k : Z) :
  In s (limit_offset n k (select_desc (Sites.site_filter like f) (t_sites d))) →
  In s (t_rows (t_sites d)) ∧ Sites.site_filter like f s = true.
Proof. intros H%limit_offset_in. unfold select_desc in H. apply in_rev in H. by apply select_where_spec. Qed.

(** The role check of the list. *)
Lemma role_check_spec (p : string → bool) (c : context) (w : world db) :
  wp (role_check p c) (λ b w', data w' = data w ∧ (b = true → ∃ sess u, c_session c = Some sess ∧
    get_row (se_user sess) (t_users (data w)) = Some u ∧ p (u_role u) = true)) w.
Proof.
  unfold role_check. destruct (c_session c) as [sess|]; [|by wp_step].
  unfold Users.GetByID, Users.scan_query. wp_step. wp_step. wp_step; [by wp_step|].
  wp_step. split; [done|]. destruct (get_row (se_user sess) (tab (data w))) as [u|] eqn:E; [|done].
  intros H. by exists sess, u.
Qed.
Lemma isSuperAdmin_spec (c : context) (sess : session_row) (w : world db) :
  c_session c = Some sess →
  wp (isSuperAdmin c) (λ b w', data w' = data w ∧ (b = true → ∃ u, get_row (se_user sess) (t_users (data w)) = Some u ∧
    u_role u = RoleSuperAdmin)) w.
Proof.
  intros Es. eapply wp_mono; [|apply role_check_spec]. intros b w' [E H]. split; [done|].
  intros (s & u & Es' & Hu & Hr)%H. assert (s = sess) as -> by congruence. exists u. split; [done|]. by apply String.eqb_eq.
Qed.

(** C12: the list a user is shown, whatever the query and whatever fails, holds sites of the
    database that the user owns or has a grant on, all of them only for a super admin. *)
Theorem list_sites_entitled (q : list_query) (c : context) (sess : session_row) (w : world db)
    (Hs : c_session c = Some sess) (Hu : 0 < se_user sess) :
  wp (list_sites like q c) (λ rep w', data w' = data w ∧
    (rep = internal ∨ ∃ sites, rep = list_reply sites ∧ Forall (claims_site (se_user sess) (data w)) sites)) w.
Proof.
  unfold list_sites. apply wp_bind. eapply wp_mono; [|apply role_check_spec]. intros _ w1 [E1 _].
  apply wp_bind. eapply wp_mono; [|by eapply isSuperAdmin_spec]. intros super w2 [E2 Hsuper]. rewrite E1 in E2, Hsuper.
  rewrite Hs. unfold Sites.List. wp_step. wp_step. wp_step; [wp_step; by auto|].
  assert (Hown : Forall (claims_site (se_user sess) (data w))
    (limit_offset (if sf_limit (if super then list_filter q else set_owner_filter (se_user sess) (list_filter q)) <=? 0 then 100
                   else sf_limit (if super then list_filter q else set_owner_filter (se_user sess) (list_filter q)))
       (sf_offset (if super then list_filter q else set_owner_filter (se_user sess) (list_filter q)))
       (select_desc (Sites.site_filter like (if super then list_filter q else set_owner_filter (se_user sess) (list_filter q)))
          (t_sites (data w))))).
  { apply List.Forall_forall. intros s [Hin Hf]%list_rows. split; [done|]. destruct super; [left; by apply Hsuper|].
    right. left. unfold Sites.site_filter in Hf. cbn [set_owner_filter sf_owner] in Hf.
    rewrite (proj2 (Z.ltb_lt 0 (se_user sess)) Hu) in Hf. by bool_hyps. }
  cbn [data]. rewrite E2. change (tab (data w)) with (t_sites (data w)).
  destruct super; [wp_step; split; [done|]; right; eexists; by split|].
  unfold ListByUser. wp_step. wp_step; [wp_step; split; [done|]; right; eexists; by split|].
  wp_step. eapply wp_mono; [|apply (add_assigned_spec (se_user sess))].
  - cbn [data]. intros more w' [E H]. wp_step. rewrite ?E2 in *. split; [done|]. right. eexists. split; [done|].
    by apply Forall_app.
  - cbn [data]. intros u H. apply in_order_by in H. apply list_elem_of_In, list_elem_of_omap in H as (g & Hg & Hj).
    apply list_elem_of_In, select_where_spec in Hg as [Hg Hu']. unfold joined in Hj. repeat case_hyp Hj; try done.
    injection Hj as <-. cbn [us_grant]. bool_hyps. by split.
Qed.
End ListSites.

(** * Creating a site *)

Section CreateSite.
Context `{HC : PayloadCipher} `{HDNS : DNS} (os_free : Z → bool).

(** The row of a user, 0 being nobody, and a statement that is to fail. *)
Definition row_of (user : Z) (d : db) : option user_row := if 0 <? user then get_row user (t_users d) else None.
Definition fails (w : world db) : Prop := ∃ e, In (Some e) (faults w).

(** Where a user may put a site: nowhere but in their home directory, or, when their row
    could not be read, in /home. *)
Definition home_prefix (requester : option user_row) : string :=
  match requester with Some u => "/home/" +:+ u_username u +:+ "/" | None => "/home/" end.

(** The new row keeps to what the user is allowed. *)
Record confined (user : Z) (requester : option user_row) (d : db) (r : site_row) : Prop := {
  cf_owner : s_owner r = if 0 <? user then Some user else None;
  cf_server : get_row (s_server r) (t_servers d) ≠ None;
  cf_domain : re_match domainRegex (s_domain r) = true ∧ ∀ s, In s (t_rows (t_sites d)) → s_domain s ≠ s_domain r;
  cf_root : RootPathAllowed (s_root_path r) = nil_error;
  cf_quota : ∀ u max, 0 < user → get_row user (t_users d) = Some u → u_max_sites u = Some max →
    count_where (λ s, bool_decide (s_owner s = Some user)) (t_sites d) < max;
  cf_home : is_privileged requester = false →
    has_prefix (s_root_path r) (home_prefix requester) = true ∧ s_conf_file r = None ∧
    (s_system_user r = None ∨ ∃ u, requester = Some u ∧ s_system_user r = Some (u_username u)) }.

(** The row comes from [b]: what of [confined] is about the body. *)
Definition body_ok (requester : option user_row) (b : site_body) : Prop :=
  re_match domainRegex (sb_domain b) = true ∧ RootPathAllowed (sb_root b) = nil_error ∧
  (is_privileged requester = false →
   has_prefix (sb_root b) (home_prefix requester) = true ∧ sb_conf b = "" ∧
   (sb_user b = "" ∨ ∃ u, requester = Some u ∧ sb_user b = u_username u)).

Lemma find_user_spec (user : Z) (w : world db) :
  wp (find_user user) (λ o w', data w' = data w ∧ (fails w' → fails w) ∧ (o = row_of user (data w) ∨ o = None ∧ fails w)) w.
Proof.
  unfold find_user, row_of. destruct (0 <? user); [|wp_step; by auto].
  unfold wp, Users.GetByID, Users.scan_query, wrap, query, stmt, mbind, mret, fails. destruct w as [d n fs]. cbn [faults data clock].
  destruct fs as [|[e|] fs]; cbn; [by auto| |].
  - split; [done|]. split; [intros (x & Hx); exists x; by right|]. right. split; [done|]. exists e. by left.
  - split; [done|]. split; [intros (x & Hx); exists x; by right|]. by left.
Qed.

Lemma check_quota_spec (user : Z) (w : world db) :
  wp (check_quota user) (λ o w', data w' = data w ∧ (o = None → ∀ u max, 0 < user → get_row user (t_users (data w)) = Some u →
    u_max_sites u = Some max → count_where (λ s, bool_decide (s_owner s = Some user)) (t_sites (data w)) < max)) w.
Proof.
  unfold check_quota. destruct (0 <? user) eqn:E0; [|wp_step; split; [done|]; intros _ ? ? ?; bool_hyps; lia].
  unfold Users.GetByID, Users.scan_query. wp_step. wp_step. wp_step; [by wp_step|]. cbn [data].
  destruct (match _ with Some u => u_max_sites u | None => None end) as [max|] eqn:Em.
  - unfold Sites.CountByOwner. wp_step. wp_step. wp_step; wp_step; [done|]. cbn [data].
    destruct (max <=? _) eqn:Ec; [by split|]. split; [done|]. intros _ u max' _ Hu Hm. bool_hyps.
    change (tab (data w)) with (t_users (data w)) in Em. rewrite Hu in Em. assert (max' = max) as -> by congruence.
    exact Ec.
  - wp_step. split; [done|]. intros _ u max' _ Hu Hm. change (tab (data w)) with (t_users (data w)) in Em. rewrite Hu in Em. congruence.
Qed.

Lemma frame_assign_app (b : site_body) : frame (λ d : db, d) (assign_app os_free b).
Proof. unfold assign_app, Sites.FindFreePort. frame_auto. Qed.

(** The result of the operation on the table of sites. *)
Definition created_by (user : Z) (requester : option user_row) (w w' : world db) : Prop :=
  t_sites (data w') = t_sites (data w) ∨
  ∃ mk, t_sites (data w') = (insert_row mk (t_sites (data w))).2 ∧ ∀ id, confined user requester (data w) (mk id).

Lemma frame_after_create (m : M db reply) (X : table site_row) (w : world db) :
  frame t_sites m → t_sites (data w) = X → wp m (λ _ w', t_sites (data w') = X) w.
Proof. intros Hm <-. eapply wp_mono; [|apply Hm]. by intros ? ? [? _]. Qed.

Lemma store_site_spec (user : Z) (requester : option user_row) (b : site_body) (server : server_row) (app : option (Z * string)) (w : world db) :
  (∀ n id, confined user requester (data w) (Sites.new_site (site_of_body user b app) n id)) →
  wp (store_site user b server app) (λ _ w', created_by user requester w w') w.
Proof.
  intros Hc. unfold store_site, Sites.Create, created_by. wp_step. wp_step.
  apply wp_insert_checked; [intros e fs; cbv beta iota; wp_step; by left|]. intros fs _. cbv beta iota.
  eapply wp_mono with (Q := λ _ w', t_sites (data w') = (insert_row (Sites.new_site (site_of_body user b app) (clock w)) (t_sites (data w))).2).
  - intros ? w' E. right. eexists. split; [exact E|]. intros id. apply Hc.
  - apply frame_after_create; [|done]. unfold JobStore.Create, Audit.RecordAction, NotifyAdmins, Notify, Notifications.Create,
      Users.List, Users.scan_query, Cloudflare.GetConfig. frame_auto.
Qed.

Lemma new_site_confined (user : Z) (requester : option user_row) (b : site_body) (app : option (Z * string)) (d : db) (n id : Z) :
  body_ok requester b → get_row (sb_server b) (t_servers d) ≠ None →
  (∀ s, In s (t_rows (t_sites d)) → s_domain s ≠ sb_domain b) →
  (∀ u max, 0 < user → get_row user (t_users d) = Some u → u_max_sites u = Some max →
    count_where (λ s, bool_decide (s_owner s = Some user)) (t_sites d) < max) →
  confined user requester d (Sites.new_site (site_of_body user b app) n id).
Proof.
  intros (Hd & Hr & Hh) Hsv Hdom Hq.
  assert (Hne : (sb_root b =? "")%string = false) by (apply String.eqb_neq; intros E; rewrite E in Hr; discriminate Hr).
  split; cbn [Sites.new_site site_of_body s_owner s_server s_domain s_root_path s_conf_file s_system_user
    Sites.OwnerID Sites.ServerID Sites.Domain Sites.RootPath Sites.ConfFile Sites.SystemUser]; rewrite ?Hne; try done.
  intros (H1 & H2 & H3)%Hh. split; [done|]. unfold null_if_empty. split; [by rewrite H2|].
  destruct (sb_user b =? "")%string eqn:Eu; [by left|]. right. destruct H3 as [H3|(u & -> & H3)].
  - by rewrite H3 in Eu.
  - exists u. by rewrite H3.
Qed.

Lemma insert_site_spec (user : Z) (requester : option user_row) (b : site_body) (w : world db) :
  body_ok requester b → wp (insert_site os_free user b) (λ _ w', created_by user requester w w') w.
Proof.
  intros Hb. assert (Hsame : ∀ w', data w' = data w → created_by user requester w w') by (intros w' E; left; by rewrite E).
  unfold insert_site, Servers.GetByID. wp_step. wp_step. wp_step; [wp_step; by apply Hsame|]. cbn [data].
  destruct (get_row (sb_server b) (tab (data w))) as [sv|] eqn:Esv; [|wp_step; by apply Hsame].
  wp_step. eapply wp_mono; [|apply check_quota_spec]. intros [rep|] w1 [E1 Hq]; [wp_step; by apply Hsame|].
  specialize (Hq eq_refl). cbn [data] in E1, Hq. unfold Sites.GetByDomain. wp_step. wp_step.
  wp_step; [wp_step; by apply Hsame|]. cbn [data]. rewrite E1.
  destruct (select_one _ (tab (data w))) as [s|] eqn:Edom; [wp_step; by apply Hsame|].
  wp_step. eapply wp_mono; [|apply (frame_assign_app b)]. intros [app|rep] w2 [E2 _]; cbn [data] in E2; [|wp_step; by apply Hsame].
  eapply wp_mono; [|apply (store_site_spec user requester)].
  - intros ? w'. unfold created_by. rewrite E2. auto.
  - rewrite E2. intros n id. apply new_site_confined; [done|by rewrite (Esv : get_row _ (t_servers (data w)) = _)| |done].
    intros s Hs Hd. apply (List.find_none _ _ Edom) in Hs. cbv beta in Hs. by apply String.eqb_neq in Hs.
Qed.

(** C10: a request to create a site, with whatever body, and whatever fails: the table of sites
    is left as it was, or gains one row, which belongs to the caller, is on a server that
    exists, has a valid domain that no other site has, and a root that is allowed; its
    owner was below their quota; unless the row of the caller in the table of users is that
    of an administrator, the root is in the home directory of that row, the configuration
    file is left to the panel and the system user is the caller or nobody.  Only when a
    statement fails may a caller be taken for one without a row, who is held to /home. *)
Theorem create_site_confined (body : option site_body) (c : context) (w : world db) :
  wp (create_site os_free body c) (λ _ w', ∃ requester,
    (requester = row_of (caller c) (data w) ∨ requester = None ∧ fails w) ∧ created_by (caller c) requester w w') w.
Proof.
  assert (Hsame : ∀ w', data w' = data w → ∃ requester,
    (requester = row_of (caller c) (data w) ∨ requester = None ∧ fails w) ∧ created_by (caller c) requester w w').
  { intros w' E. eexists. split; [by left|]. left. by rewrite E. }
  unfold create_site. destruct body as [b0|]; [|wp_step; by apply Hsame].
  cbv zeta. set (b := trim_body b0). destruct (check_fields b) as [m|] eqn:Ef; [wp_step; by apply Hsame|].
  wp_step. eapply wp_mono with (Q := λ _ w', data w' = data w ∧ (fails w' → fails w)).
  2: { destruct (_ =? _)%string; [|by wp_step]. wp_step. eapply wp_mono; [|apply find_user_spec]. intros o w' (E & F & _). by wp_step. }
  intros root w1 [E1 F1]. destruct (RootPathAllowed root) eqn:Er; cbn [is_nil negb]; [wp_step; by apply Hsame|].
  wp_step. eapply wp_mono; [|apply find_user_spec]. intros requester w2 (E2 & _ & Hreq). rewrite E1 in E2, Hreq.
  destruct (place_site requester (set_place root (sb_user b) (sb_conf b) b)) as [b'|rep] eqn:Ep; [|wp_step; by apply Hsame].
  destruct (check_options b'); [wp_step; by apply Hsame|].
  eapply wp_mono; [|apply (insert_site_spec (caller c) requester)].
  - intros ? w'. unfold created_by. rewrite E2. intros H. exists requester. split; [|done]. destruct Hreq as [Hreq|[? ?]]; auto.
  - assert (Hdom : re_match domainRegex (sb_domain b) = true).
    { unfold check_fields in Ef. repeat case_hyp Ef; try done. by bool_hyps. }
    unfold place_site in Ep. cbn [sb_root sb_user sb_conf set_place] in Ep. unfold body_ok.
    destruct (is_privileged requester) eqn:Epr.
    + cbv zeta in Ep. match type of Ep with (if ?x then _ else _) = _ => destruct x; [|done] end.
      injection Ep as <-. by split; [|split].
    + cbv zeta in Ep. fold (home_prefix requester) in Ep.
      destruct (has_prefix root (home_prefix requester)) eqn:Eh; cbn [negb] in Ep; [|done]. injection Ep as <-.
      cbn [sb_root sb_user sb_conf sb_domain set_place]. split; [done|]. split; [done|]. intros _. split; [done|]. split; [done|].
      destruct requester as [u|]; [|by left]. destruct (is_nil _); [right; by exists u|by left].
Qed.
End CreateSite.

(** * What the checks leave open *)

Definition find_route (method path : string) : option route :=
  List.find (λ rt, (r_method rt =? method)%string && (r_path rt =? path)%string) NewRouter.

Section Gaps.
Context `{HC : PayloadCipher}.

(** a site cannot be transferred through the API: the handler reads the caller's role from
    the context of the request, where the only guard of its route does not put it, and
    panics for every caller the guard lets through; no row of a site changes. *)
Theorem transfer_panics (HashToken : string → string) (other : guard → middleware (D := db)) (id : string) (email : option string)
    (r : request) (w : world db) :
  ∃ rt, find_route "POST" "/api/v1/sites/:id/transfer" = Some rt ∧ r_handler rt = "sitesH.transfer" ∧
  wp (serve HashToken other rt (transfer_site id email) r)
    (λ rep w', t_sites (data w') = t_sites (data w) ∧ (rep = Panics ∨ ∃ m, rep = HTTPError 401 m ∨ rep = HTTPError 500 m)) w.
Proof.
  eexists. split; [vm_compute; reflexivity|]. split; [done|]. unfold serve. cbn [map r_guards guard_middleware chain fold_right].
  eapply wp_mono; [|apply auth_outcome_lemma].
  intros rep w' [(s & m & -> & Hs & E)|(token & _ & [(t & _ & H)|(s & _ & H)])].
  - rewrite E. split; [done|]. right. exists m. destruct Hs as [->| ->]; auto.
  - destruct H as [[fs H]|[fs H]]; cbn [transfer_site c_role no_context c_session] in H; injection H as <- <-; by split; [|left].
  - destruct H as [fs H]; cbn [transfer_site c_role no_context c_session] in H; injection H as <- <-; by split; [|left].
Qed.

Lemma get_job_ok (i : Z) (d : db) (n : Z) :
  JobStore.GetByID i (World d n []) = (Ok (scanJob <$> get_row i (t_jobs d)), World d n []).
Proof. reflexivity. Qed.

Lemma get_site_run (i : Z) (d : db) (n : Z) :
  Sites.GetByID i (World d n []) = (Ok (get_row i (t_sites d)), World d n []).
Proof. reflexivity. Qed.

Definition canceled (i n : Z) : table job_row → table job_row :=
  update_where (λ r, by_id i r && (jr_status r =? StatusQueued)%string)
    (λ r, touch (current_timestamp n) (upd_status StatusCanceled r)).
Lemma cancel_ok (i : Z) (d : db) (n : Z) :
  JobStore.Cancel i (World d n []) = (Ok (), World (set_tab (canceled i n (t_jobs d)) d) n []).
Proof. reflexivity. Qed.

Lemma frame_record {X} (f : db → X) (user : Z) (action resource : string) (i : Z) (details : option json) :
  (∀ t d, f (set_tab (Has := has_audit_logs) t d) = f d) → frame f (Audit.RecordAction (D := db) user action resource i details).
Proof. intros H. unfold Audit.RecordAction. apply frame_bind; [by apply frame_insert|]. intros a. apply frame_ret. Qed.

(** every caller that is signed in, a tenant or a service token of any scope, can cancel
    every queued job, of whatever site: neither the handler nor its route asks for more. *)
Theorem job_cancel_any_caller (id : string) (i : Z) (c : context) (d : db) (n : Z) (row : job_row)
    (Hi : parse_id id = Some i) (Hr : get_row i (t_jobs d) = Some row) (Hq : jr_status row = StatusQueued) :
  r_guards <$> find_route "POST" "/api/v1/jobs/:id/cancel" = Some [Auth] ∧
  wp (job_cancel id c) (λ rep w', status rep = Some 200 ∧
    jr_status <$> get_row i (t_jobs (data w')) = Some StatusCanceled) (World d n []).
Proof.
  split; [vm_compute; reflexivity|]. unfold job_cancel, with_job. rewrite Hi.
  unfold wp. rewrite (bind_step _ _ _ _ _ (get_job_ok i d n)), Hr. cbn [fmap option_fmap option_map scanJob j_status].
  rewrite Hq, String.eqb_refl. cbn [negb]. rewrite (bind_step _ _ _ _ _ (cancel_ok i d n)).
  match goal with |- context [mbind ?m ?k ?w0] => change (wp (mbind m k) (λ rep w', status rep = Some 200 ∧
    jr_status <$> get_row i (t_jobs (data w')) = Some StatusCanceled) w0) end.
  apply wp_bind. eapply wp_mono; [|apply (frame_record t_jobs); done]. intros u w' [E _]. wp_step. split; [done|].
  rewrite E. cbn [data]. db_simpl. unfold canceled. rewrite get_update_other by done. rewrite Hr. cbn.
  unfold by_id. rewrite (get_row_id _ _ _ Hr), Z.eqb_refl, Hq. reflexivity.
Qed.

(** a rule for an address is deleted by its own id: whoever may access some site can delete
    the rules of every other. *)
Theorem ip_delete_any_rule (id restriction_id : string) (i rid : Z) (c : context) (d : db) (n : Z) (site : site_row)
    (Hi : parse_id id = Some i) (Hr : parse_id restriction_id = Some rid) (Hs : get_row i (t_sites d) = Some site)
    (Ha : canAccess c site (World d n []) = (true, World d n [])) :
  wp (ip_delete id restriction_id c) (λ rep w', status rep = Some 200 ∧
    t_ip_restrictions (data w') = delete_where (by_id rid) (t_ip_restrictions d)) (World d n []).
Proof.
  unfold ip_delete, ip_site_check, wp. rewrite Hr, Hi.
  rewrite (bind_step _ _ _ _ _ (get_site_run i d n)), Hs.
  erewrite bind_step by exact Ha. split; reflexivity.
Qed.
End Gaps.

(** * On a small panel *)

(** Ann owns the shop, Bob holds a grant on the blog of the administrator. *)
Definition tenant_site (id : Z) (domain : string) (owner : Z) : site_row :=
  Sites.new_site (Sites.mkSite 3 "site" domain "static" "/home/x/htdocs" "active" (Some owner) None None None None None None None None
    None None None) 0 id.
Definition tenants : db :=
  set_tab (Table [ServerRow 3 "one" "host" None (Some "127.0.0.1") None 22 "" "online" None "" None "" 0 0 0] 3)
  (set_tab (Table [tenant_site 1 "shop.test" 2; tenant_site 2 "blog.test" 1] 2)
  (set_tab (Table [UserSiteRow 1 3 2 "read" 0] 1)
  (set_tab (Table [IPRow 1 2 "10.0.0.1" "deny" "" 0] 1)
  (set_tab (Table [sample_row 4 StatusQueued 0 None None None] 4)
  (set_tab (Table [sample_user 1 "root" RoleSuperAdmin; sample_user 2 "ann" RoleUser; sample_user 3 "bob" RoleUser] 3) empty_db))))).
Definition signed_in (user : Z) : context := mkContext (Some (SessionRow 9 user "" 0 0 None None)) (Some user) None None.
Definition no_dns : DNS := {| ListZones _ _ := Err "unreachable"; CreateDNSRecord _ _ _ _ _ := Err "unreachable" |}.

Lemma list_sites_entitled_witness :
  status (list_sites String.eqb (mkListQuery "" "" "" "" "" "" "") (signed_in 3) (World tenants 0 [])).1 = Some 200 ∧
  wp (list_sites String.eqb (mkListQuery "" "" "" "" "" "" "") (signed_in 3)) (λ rep w', data w' = tenants ∧
    (rep = internal ∨ ∃ sites, rep = list_reply sites ∧ Forall (claims_site 3 tenants) sites)) (World tenants 0 []).
Proof. split; [reflexivity|]. by apply (list_sites_entitled String.eqb _ _ (SessionRow 9 3 "" 0 0 None None)). Defined.

(** Bob puts a site in his own home, not in Ann's. *)
Example create_site_homes :
  let body home := Some (mkSiteBody 3 "new" "new.test" "static" ("/home/" +:+ home +:+ "/htdocs/new") "" "" "" "" "" "" "" "" "" "" "" "") in
  let run home := create_site (HC := plain_cipher) (HDNS := no_dns) (λ _, true) (body home) (signed_in 3) (World tenants 0 []) in
  status (run "bob").1 = Some 201 ∧ length (t_rows (t_sites (data (run "bob").2))) = 3%nat ∧
  (run "ann").1 = HTTPError 403 "root_path must be inside your home directory".
Proof. vm_compute. done. Qed.

(** Bob cancels the job of a site that is not his, and drops a rule of the blog as he may
    access the shop. *)
Lemma job_cancel_any_caller_witness :
  canAccess (signed_in 3) (tenant_site 1 "shop.test" 2) (World tenants 0 []) = (false, World tenants 0 []) ∧
  wp (job_cancel "4" (signed_in 3)) (λ rep w', status rep = Some 200 ∧
    jr_status <$> get_row 4 (t_jobs (data w')) = Some StatusCanceled) (World tenants 0 []).
Proof.
  split; [by vm_compute|].
  exact (proj2 (job_cancel_any_caller "4" 4 (signed_in 3) tenants 0 (sample_row 4 StatusQueued 0 None None None) eq_refl eq_refl eq_refl)).
Defined.
Lemma ann_may : canAccess (signed_in 2) (tenant_site 1 "shop.test" 2) (World tenants 0 []) = (true, World tenants 0 []).
Proof. by vm_compute. Qed.
Lemma ip_delete_any_rule_witness :
  (ip_site (hd (IPRow 0 0 "" "" "" 0) (t_rows (t_ip_restrictions tenants))) = 2) ∧
  wp (ip_delete "1" "1" (signed_in 2)) (λ rep w', status rep = Some 200 ∧
    t_ip_restrictions (data w') = delete_where (by_id 1) (t_ip_restrictions tenants)) (World tenants 0 []).
Proof.
  split; [reflexivity|].
  exact (ip_delete_any_rule "1" "1" 1 1 (signed_in 2) tenants 0 (tenant_site 1 "shop.test" 2) eq_refl eq_refl eq_refl ann_may).
Defined.
