(* ===== verification/Login.v ===== *)
(** Logging in: src/internal/apihttp/auth.go, twofa.go, impersonate.go and
    service_tokens.go.  The state is the database and the memory of the login handler. *)
From S2P Require Import Prelude GoStr Json Sql JobStore Accounts Sites Backups Servers BackupPlan Records Panel Password Guards Http.
Local Open Scope Z_scope.
Local Open Scope panel_scope.

Set Default Proof Using "Type".

(** * The state of the process *)

(** The database and the [rateLimiter], [userFailures] and [usedTOTP] of [authHandler]. *)
Record panel := mkPanel {
  p_db : db; p_limiter : rateLimiter; p_failures : failureTracker; p_used : gmap string Z }.

Definition on_db (d : db) (p : panel) : panel := mkPanel d (p_limiter p) (p_failures p) (p_used p).
#[export] Instance has_panel {A} `{H : Has A db} : Has A panel.
Proof.
  refine {| tab p := tab (p_db p); set_tab t p := on_db (set_tab t (p_db p)) p |}; intros; cbn.
  - apply tab_set.
  - by rewrite set_tab_id; destruct d.
  - by rewrite set_tab_twice.
Defined.

Definition newAuthHandler (d : db) : panel :=
  mkPanel d (newRateLimiter 10 (15 * Minute)) (newFailureTracker 20 (15 * Minute)) ∅.

(** One call of the memory, at the time of the world. *)
Definition in_memory {A} (f : Z → panel → A * panel) : M panel A :=
  λ w, let '(a, p) := f (clock w) (data w) in (a, World p (clock w) (faults w)).

Definition allow_login (dev : bool) (ip : string) : M panel bool := in_memory (λ n p,
  let '(b, rl) := allow dev n ip (p_limiter p) in (b, mkPanel (p_db p) rl (p_failures p) (p_used p))).
Definition set_failures (f : failureTracker) (p : panel) : panel := mkPanel (p_db p) (p_limiter p) f (p_used p).
Definition is_blocked (key : string) : M panel bool := in_memory (λ n p,
  let '(b, f) := blocked n key (p_failures p) in (b, set_failures f p)).
Definition note_failure (key : string) : M panel () := in_memory (λ n p, ((), set_failures (fail n key (p_failures p)) p)).
Definition forget_failures (key : string) : M panel () := in_memory (λ _ p, ((), set_failures (reset key (p_failures p)) p)).
Definition mark_used (userID : Z) (code : string) : M panel bool := in_memory (λ n p,
  let '(b, u) := markUsed n userID code (p_used p) in (b, mkPanel (p_db p) (p_limiter p) (p_failures p) u)).

(** * auth.go *)

Definition Hour : Z := 60 * Minute.
Definition DefaultSessionTTL : Z := 7 * 24 * Hour.
Definition RememberMeSessionTTL : Z := 90 * 24 * Hour.
Definition maxSessionsPerUser : Z := 10.

Definition normalizeRecoveryCode (code : string) : string :=
  replace_chr (λ c, if chr_in "- " c then Some "" else None) (to_upper (trim_space code)).

Definition setSessionCookie (dev : bool) (token : string) (expires : Z) : cookie :=
  mkCookie "sp_session" token (negb dev) (Some expires).
Definition clearSessionCookie (dev : bool) : cookie := mkCookie "sp_session" "" (negb dev) None.

Record login_body := mkLogin {
  lg_username : string; lg_password : string; lg_totp_code : string; lg_recovery_code : string; lg_remember_me : bool }.
Record register_body := mkRegister { rg_name : string; rg_email : string; rg_password : string }.
Record profile_body := mkProfile { pf_email : string; pf_old_password : string; pf_new_password : string }.

Section Login.
Context `{HA : Argon2}.
(** SIGARDAPANEL_DEV is "true"; [auth.HashToken]; [totp.Validate] at a time. *)
Context (dev : bool) (HashToken : string → string) (totp_Validate : Z → string → string → bool).

Definition hashRecoveryCode (code : string) : string := HashToken (normalizeRecoveryCode code).

Definition invalid_credentials : reply := Failure 401 "invalid_credentials" "invalid credentials".

(** The second factor of a user: [None] when it is there or not needed. *)
Definition second_factor (user : user_row) (b : login_body) (ip failKey : string) : M panel (option reply) :=
  let invalid := Failure 401 "invalid_2fa_code" "Invalid two-factor authentication code" in
  let decide (valid : bool) : M panel (option reply) :=
    if valid then mret None else let* _ := note_failure failKey in mret (Some invalid) in
  if negb (totp_enabled user) then mret None
  else if (lg_totp_code b =? "")%string && (lg_recovery_code b =? "")%string then
    mret (Some (Failure 401 "2fa_required" "Two-factor authentication code required"))
  else if negb (lg_recovery_code b =? "")%string then
    let* r := TwoFactor.VerifyRecoveryCode (u_id user) (hashRecoveryCode (lg_recovery_code b)) in
    match r with
    | Err _ => mret (Some (HTTPError 500 "internal error"))
    | Ok used =>
        let* _ := if used : bool then
                    Audit.RecordAction (u_id user) "2fa_recovery_code_used" "session" 0 (Some (JObj [("ip", JStr ip)]))
                  else mret () in
        decide used
    end
  else if negb (totp_secret user =? "")%string then
    let* n := time_Now in
    if totp_Validate n (lg_totp_code b) (totp_secret user)
    then let* fresh := mark_used (u_id user) (lg_totp_code b) in decide fresh
    else decide false
  else decide false.

Definition user_data (user : user_row) : list (string * json) :=
  [("id", JInt (u_id user)); ("username", JStr (u_username user)); ("email", JStr (u_email user)); ("role", JStr (u_role user))].

(** The answer to a login. *)
Definition welcome (user : user_row) (token : string) (expiresAt : Z) : reply :=
  SetCookie (setSessionCookie dev token expiresAt)
    (Success 200 (JObj [("token", JStr token);
       ("user", JObj (user_data user ++ [("password_change_required", JBool (bool_decide (u_password_changed user = None)))]))])).

(** From the new token on; [token] is what [auth.NewToken] returns. *)
Definition open_session (user : user_row) (b : login_body) (ip : string) (token : res string) : M panel reply :=
  match token with
  | Err _ => mret (HTTPError 500 "internal error")
  | Ok token =>
      let* n := time_Now in
      let expiresAt := n + (if lg_remember_me b then RememberMeSessionTTL else DefaultSessionTTL) in
      let* c := Sessions.Create (Sessions.mkSession (u_id user) (HashToken token) expiresAt None) in
      match c with
      | Err _ => mret (HTTPError 500 "internal error")
      | Ok sessID =>
          let* _ := Sessions.RevokeOldest (u_id user) maxSessionsPerUser in
          let* _ := Audit.RecordAction (u_id user) "login" "session" sessID (Some (JObj [("ip", JStr ip)])) in
          mret (welcome user token expiresAt)
      end
  end.

(** [body]: the decoded request, [None] when [c.Bind] fails. *)
Definition login (ip : string) (body : option login_body) (token : res string) : M panel reply :=
  let* ok := allow_login dev ip in
  if negb ok then mret (HTTPError 429 "too many login attempts") else
  match body with
  | None => mret (HTTPError 400 "invalid request body")
  | Some b =>
      let failKey := to_lower (trim_space (lg_username b)) in
      let* blocked := is_blocked failKey in
      if blocked : bool then mret (HTTPError 429 "too many failed attempts for this account, try again later") else
      let* u := Users.GetByUsername (lg_username b) in
      match u with
      | Err _ => mret (HTTPError 500 "internal error")
      | Ok None => let* _ := note_failure failKey in mret invalid_credentials
      | Ok (Some user) =>
          match VerifyPassword (u_password user) (lg_password b) with
          | Err _ => mret (HTTPError 500 "internal error")
          | Ok false => let* _ := note_failure failKey in mret invalid_credentials
          | Ok true =>
              let* stop := second_factor user b ip failKey in
              match stop with
              | Some rep => mret rep
              | None => let* _ := forget_failures failKey in open_session user b ip token
              end
          end
      end
  end.

(** [open]: [config.AllowRegistration]; [salt]: what [HashPassword] draws. *)
Definition register (open : bool) (body : option register_body) (salt : res string) : M panel reply :=
  if negb open then mret (HTTPError 403 "registration is disabled on this server") else
  match body with
  | None => mret (HTTPError 400 "invalid request body")
  | Some b =>
      if (rg_name b =? "")%string || (rg_email b =? "")%string || (rg_password b =? "")%string
      then mret (HTTPError 400 "name, email, and password are required")
      else if Z.of_nat (String.length (rg_password b)) <? 8
      then mret (HTTPError 400 "password must be at least 8 characters")
      else
        let* existing := Users.GetByEmail (rg_email b) in
        match existing with
        | Ok (Some _) => mret (HTTPError 409 "email already registered")
        | _ =>
            let* c := Users.Create (HashPassword salt)
                        (Users.mkUser (rg_email b) (rg_email b) (rg_password b) RoleUser (Some 1) None None None) in
            match c with
            | Err _ => mret (HTTPError 500 "failed to create user")
            | Ok id => mret (Success 201 (JObj [("id", JInt id); ("username", JStr (rg_email b)); ("email", JStr (rg_email b));
                                                ("role", JStr RoleUser); ("message", JStr "account created successfully")]))
            end
        end
  end.

Definition logout : handler (D := panel) := λ c,
  match c_session c with
  | None => mret (HTTPError 401 "not authenticated")
  | Some sess =>
      let done := Success 200 (JObj [("ok", JBool true)]) in
      let* r := Sessions.Revoke (Accounts.se_id sess) in
      match r with
      | Err _ => mret done
      | Ok _ =>
          let* _ := Audit.RecordAction (se_user sess) "logout" "session" (Accounts.se_id sess) None in
          mret (SetCookie (clearSessionCookie dev) done)
      end
  end.

Definition me : handler (D := panel) := λ c,
  match c_session c with
  | None => mret (HTTPError 401 "not authenticated")
  | Some sess =>
      let* u := Users.GetByID (se_user sess) in
      match u with
      | Err _ => mret (HTTPError 500 "internal error")
      | Ok None => mret (HTTPError 401 "user not found")
      | Ok (Some user) =>
          match se_impersonated_by sess with
          | None => mret (Success 200 (JObj (user_data user)))
          | Some by_ =>
              let* i := Users.GetByID by_ in
              mret (Success 200 (JObj (user_data user ++
                match i with
                | Ok (Some imp) => [("impersonated_by", JInt by_); ("impersonator", JObj (user_data imp))]
                | _ => []
                end)))
          end
      end
  end.

Definition updateProfile (body : option profile_body) (salt : res string) : handler (D := panel) := λ c,
  match c_session c with
  | None => mret (HTTPError 401 "not authenticated")
  | Some sess =>
      match body with
      | None => mret (HTTPError 400 "invalid request body")
      | Some b =>
          let* u := Users.GetByID (se_user sess) in
          match u with
          | Ok (Some user) =>
              let new_email := negb (pf_email b =? "")%string && negb (pf_email b =? u_email user)%string in
              let* e := if new_email then Users.UpdateEmail (se_user sess) (pf_email b) else mret (Ok ()) in
              match e with
              | Err m => mret (HTTPError 400 m)
              | Ok _ =>
                  let finish (details : list (string * json)) : M panel reply :=
                    match details with
                    | [] => mret (HTTPError 400 "nothing to update")
                    | _ =>
                        let* _ := Audit.RecordAction (se_user sess) "user_update" "user" (se_user sess) (Some (JObj details)) in
                        mret (Success 200 (JObj [("updated", JBool true)]))
                    end in
                  let details := if new_email then [("email", JStr (pf_email b))] else [] in
                  if (pf_new_password b =? "")%string then finish details
                  else if (pf_old_password b =? "")%string then
                    mret (HTTPError 400 "old_password is required to change password")
                  else
                    match VerifyPassword (u_password user) (pf_old_password b) with
                    | Ok true =>
                        match HashPassword salt (pf_new_password b) with
                        | Err _ => mret (HTTPError 500 "internal error")
                        | Ok hash =>
                            let* r := Users.UpdatePassword (se_user sess) hash in
                            match r with
                            | Err _ => mret (HTTPError 500 "internal error")
                            | Ok _ => finish (details ++ [("password_changed", JBool true)])
                            end
                        end
                    | _ => mret (HTTPError 400 "current password is incorrect")
                    end
              end
          | _ => mret (HTTPError 404 "user not found")
          end
      end
  end.

(** * twofa.go *)

Definition json_error (status : Z) (m : string) : reply := JSON status (JObj [("error", JStr m)]).

(** [secret]: the base32 text of 20 random bytes; [totp_Generate]: the provisioning URL
    of an account and secret. *)
Definition setup2FA (totp_Generate : string → string → res string) (secret : res string) : handler (D := panel) := λ c,
  match c_user_id c with
  | None => mret Panics
  | Some userID =>
      match secret with
      | Err _ => mret (json_error 500 "failed to generate secret")
      | Ok secretBase32 =>
          let* u := Users.GetByID userID in
          match u with
          | Err _ => mret (json_error 404 "user not found")
          | Ok None => mret Panics (* user.Email of a nil user *)
          | Ok (Some user) =>
              match totp_Generate (u_email user) secretBase32 with
              | Err _ => mret (json_error 500 "failed to generate TOTP key")
              | Ok url =>
                  let* r := TwoFactor.SetTOTPSecret userID secretBase32 in
                  mret match r with
                  | Err _ => json_error 500 "failed to store secret"
                  | Ok _ => JSON 200 (JObj [("secret", JStr secretBase32); ("qr_url", JStr url); ("issuer", JStr "SigardaPanel");
                              ("account", JStr (u_email user)); ("period", JInt 30); ("digits", JInt 6); ("algorithm", JStr "SHA1")])
                  end
              end
          end
      end
  end.

(** What enable2FA, disable2FA and verify2FA share: the code against the stored secret.
    [body]: the code of the request, [None] when [c.Bind] fails. *)
Definition with_code (not_set : string) (body : option string) (next : Z → M panel reply) : handler (D := panel) := λ c,
  match c_user_id c with
  | None => mret Panics
  | Some userID =>
      match body with
      | None => mret (json_error 400 "invalid request body")
      | Some code =>
          if (code =? "")%string then mret (json_error 400 "code is required") else
          let* s := TwoFactor.GetTOTPSecret userID in
          let* n := time_Now in
          match s with
          | Ok secret =>
              if (secret =? "")%string then mret (json_error 400 not_set)
              else if negb (totp_Validate n code secret) then mret (json_error 401 "invalid TOTP code")
              else next userID
          | Err _ => mret (json_error 400 not_set)
          end
      end
  end.

Definition enable2FA (body : option string) : handler (D := panel) :=
  with_code "2FA not set up. Call /setup first." body (λ userID,
    let* r := TwoFactor.EnableTOTP userID in
    mret match r with
    | Err _ => json_error 500 "failed to enable 2FA"
    | Ok _ => JSON 200 (JObj [("message", JStr "2FA enabled successfully"); ("enabled", JBool true)])
    end).
Definition disable2FA (body : option string) : handler (D := panel) :=
  with_code "2FA not set up" body (λ userID,
    let* r := TwoFactor.DisableTOTP userID in
    mret match r with
    | Err _ => json_error 500 "failed to disable 2FA"
    | Ok _ => JSON 200 (JObj [("message", JStr "2FA disabled successfully"); ("enabled", JBool false)])
    end).
Definition verify2FA (body : option string) : handler (D := panel) :=
  with_code "2FA not set up" body (λ _, mret (JSON 200 (JObj [("verified", JBool true)]))).

Definition status2FA : handler (D := panel) := λ c,
  match c_user_id c with
  | None => mret Panics
  | Some userID =>
      let* e := TwoFactor.IsTOTPEnabled userID in
      match e with
      | Err _ => mret (json_error 500 "failed to check 2FA status")
      | Ok enabled =>
          let* s := TwoFactor.GetTOTPSecret userID in
          let secret := match s with Ok s => s | Err _ => "" end in
          mret (JSON 200 (JObj [("enabled", JBool enabled); ("setup", JBool (negb (secret =? "")%string))]))
      end
  end.

(** [enc[0:4] + "-" + ... + enc[12:16]]. *)
Definition dashed (enc : string) : string :=
  let part i := str_take 4 (str_drop i enc) in part 0%nat +:+ "-" +:+ part 4%nat +:+ "-" +:+ part 8%nat +:+ "-" +:+ part 12%nat.
(** [encs]: the base32 texts of ten times 10 random bytes, 16 characters each. *)
Definition generateRecoveryCodes (encs : res (list string)) : handler (D := panel) := λ c,
  match c_user_id c with
  | None => mret Panics
  | Some userID =>
      let* e := TwoFactor.IsTOTPEnabled userID in
      match e with
      | Ok true =>
          match encs with
          | Err _ => mret (json_error 500 "failed to generate recovery codes")
          | Ok encs =>
              let codes := map dashed encs in
              let* r := TwoFactor.StoreRecoveryCodes userID (map hashRecoveryCode codes) in
              mret match r with
              | Err _ => json_error 500 "failed to store recovery codes"
              | Ok _ => JSON 200 (JObj [("recovery_codes", JArr (map JStr codes));
                          ("message", JStr "Save these codes securely. Each code can only be used once.")])
              end
          end
      | _ => mret (json_error 400 "2FA is not enabled")
      end
  end.

(** * impersonate.go *)

Definition impersonationSessionTTL : Z := 24 * Hour.

(** Why a caller may not act as the target. *)
Definition impersonation_denied (callerRole : string) (callerID : Z) (target : user_row) : option string :=
  if (callerRole =? RoleSuperAdmin)%string then None
  else if (callerRole =? RoleAdmin)%string then
    if negb (bool_decide (u_created_by target = Some callerID)) then Some "you can only impersonate users you created"
    else if (u_role target =? RoleAdmin)%string || (u_role target =? RoleSuperAdmin)%string
    then Some "cannot impersonate admin or super admin"
    else None
  else Some "insufficient permissions".

(** [id]: the path parameter. *)
Definition impersonate (id : string) (token : res string) : handler (D := panel) := λ c,
  match c_session c with
  | None => mret (HTTPError 401 "not authenticated")
  | Some sess =>
      if bool_decide (se_impersonated_by sess ≠ None)
      then mret (HTTPError 400 "cannot impersonate while already impersonating") else
      let '(targetID, ok) := atoi id in
      if negb ok || (targetID <=? 0) then mret (HTTPError 400 "invalid user id") else
      match c_role c with
      | None => mret Panics
      | Some callerRole =>
          let* t := Users.GetByID targetID in
          match t with
          | Err _ => mret (HTTPError 500 "internal error")
          | Ok None => mret (HTTPError 404 "user not found")
          | Ok (Some target) =>
              match impersonation_denied callerRole (se_user sess) target with
              | Some m => mret (HTTPError 403 m)
              | None =>
                  match token with
                  | Err _ => mret (HTTPError 500 "internal error")
                  | Ok token =>
                      let* n := time_Now in
                      let* r := Sessions.Create (Sessions.mkSession (u_id target) (HashToken token)
                                  (n + impersonationSessionTTL) (Some (se_user sess))) in
                      match r with
                      | Err _ => mret (HTTPError 500 "internal error")
                      | Ok _ =>
                          let* _ := Audit.RecordAction (se_user sess) "impersonate" "user" (u_id target)
                            (Some (JObj [("target_username", JStr (u_username target)); ("target_role", JStr (u_role target));
                                         ("impersonator", JInt (se_user sess))])) in
                          mret (Success 200 (JObj [("token", JStr token); ("user", JObj (user_data target));
                                 ("impersonated_by", JInt (se_user sess)); ("expires_in", JInt 86400)]))
                      end
                  end
              end
          end
      end
  end.

Definition stopImpersonation : handler (D := panel) := λ c,
  match c_session c with
  | None => mret (HTTPError 401 "not authenticated")
  | Some sess =>
      match se_impersonated_by sess with
      | None => mret (HTTPError 400 "not currently impersonating")
      | Some by_ =>
          let* r := Sessions.Revoke (Accounts.se_id sess) in
          match r with
          | Err _ => mret (HTTPError 500 "internal error")
          | Ok _ =>
              let* _ := Audit.RecordAction by_ "stop_impersonation" "user" (se_user sess)
                          (Some (JObj [("target_session_id", JInt (Accounts.se_id sess))])) in
              mret (Success 200 (JObj [("ok", JBool true)]))
          end
      end
  end.

(** * service_tokens.go *)

Record token_body := mkToken { tb_name : string; tb_scopes : string; tb_expires_in : Z }.

Definition create_service_token (body : option token_body) (token : res string) : handler (D := panel) := λ c,
  match body with
  | None => mret (HTTPError 400 "invalid request body")
  | Some b =>
      if (tb_name b =? "")%string then mret (HTTPError 400 "name required") else
      let scopes := if (tb_scopes b =? "")%string then "*" else tb_scopes b in
      match token with
      | Err _ => mret (HTTPError 500 "internal error")
      | Ok rawToken =>
          let* n := time_Now in
          let expires := if 0 <? tb_expires_in b then Some (n + wrap64 (tb_expires_in b * 1000000000)) else None in
          let* r := ServiceTokens.Create (tb_name b) (HashToken rawToken) scopes expires in
          mret match r with
          | Err m => HTTPError 400 m
          | Ok id => Success 201 (JObj [("id", JInt id); ("name", JStr (tb_name b)); ("scopes", JStr scopes); ("token", JStr rawToken)])
          end
      end
  end.

Definition revoke_service_token (id : string) : handler (D := panel) := λ c,
  let '(i, ok) := atoi id in
  if negb ok || (i <=? 0) then mret (HTTPError 400 "invalid token id") else
  let* r := ServiceTokens.Delete i in
  mret match r with Err _ => HTTPError 500 "internal error" | Ok _ => Success 200 (JObj [("deleted", JBool true)]) end.

(** * Facts *)

Lemma wp_in_memory {A} (f : Z → panel → A * panel) (Q : A → world panel → Prop) w :
  Q (f (clock w) (data w)).1 (World (f (clock w) (data w)).2 (clock w) (faults w)) → wp (in_memory f) Q w.
Proof. unfold wp, in_memory. by destruct (f _ _). Qed.

Ltac run_step := first [apply wp_in_memory | wp_step].
Ltac run := repeat (run_step; cbn [data clock faults fst snd]).

(** ** Logging in *)

Definition sessions_of (w : world panel) : table session_row := t_sessions (p_db (data w)).

(** The second factor of a login: none is needed, or an unspent recovery code, or a
    one-time password that is valid now and was not used in the last two minutes. *)
Definition second_ok (user : user_row) (b : login_body) (w : world panel) : Prop :=
  totp_enabled user = true →
  (lg_recovery_code b ≠ "" ∧
     has_row (TwoFactor.unused_code (u_id user) (hashRecoveryCode (lg_recovery_code b))) (t_recovery_codes (p_db (data w))) = true) ∨
  (lg_recovery_code b = "" ∧ totp_Validate (clock w) (lg_totp_code b) (totp_secret user) = true ∧
     (markUsed (clock w) (u_id user) (lg_totp_code b) (p_used (data w))).1 = true).

Definition no_cookie (r : reply) : Prop := match r with SetCookie _ _ => False | _ => True end.

Lemma count_has_row {A} (p : A → bool) (t : table A) : count_where p t = 1 → has_row p t = true.
Proof.
  intros H. destruct (has_row p t) eqn:E; [done|]. rewrite count_where_zero in H; [done|].
  intros r Hr. by apply has_row_false with t.
Qed.

Lemma second_factor_spec (user : user_row) (b : login_body) (ip key : string) (w : world panel) :
  wp (second_factor user b ip key) (λ stop w',
    sessions_of w' = sessions_of w ∧ clock w' = clock w ∧
    match stop with None => second_ok user b w | Some r => no_cookie r end) w.
Proof.
  unfold second_factor, note_failure, mark_used, TwoFactor.VerifyRecoveryCode, update_tab_n, Audit.RecordAction, insert_checked, second_ok.
  destruct (totp_enabled user) eqn:Et; cbn [negb]; [|by wp_step].
  destruct (String.eqb_spec (lg_totp_code b) ""), (String.eqb_spec (lg_recovery_code b) ""); cbn [andb negb]; try (by wp_step).
  all: run.
  all: cbn; try done.
  all: try (split; [done|]; split; [done|]; intros _; left; split; [done|]; by apply count_has_row, Z.eqb_eq).
  all: unfold sessions_of; destruct (markUsed _ _ _ _); cbn in *; subst; (split; [done|]); (split; [done|]); try done.
  intros _. by right.
Qed.

(** The session a login opens: for the user, with the hash of the new token, until the
    time to live of the request. *)
Definition opened (user : user_row) (b : login_body) (token : string) (n : Z) (s : session_row) : Prop :=
  se_user s = u_id user ∧ se_token_hash s = HashToken token ∧ se_impersonated_by s = None ∧
  se_expires s = current_timestamp (n + (if lg_remember_me b then RememberMeSessionTTL else DefaultSessionTTL)).

(** Revoking leaves every session in place, at most revoked. *)
Lemma revoke_keeps (u k : Z) (s : session_row) (w : world panel) :
  In s (t_rows (sessions_of w)) →
  wp (Sessions.RevokeOldest u k) (λ _ w', clock w' = clock w ∧
    ∃ r, In (if r : bool then set_revoked (Some (current_timestamp (clock w))) s else s) (t_rows (sessions_of w'))) w.
Proof.
  intros Hs. unfold Sessions.RevokeOldest. run; (split; [done|]); [by exists false|].
  exists (existsb (by_id (Accounts.se_id s)) (Sessions.overflow u k (current_timestamp (clock w)) (sessions_of w))).
  apply in_map_iff. by exists s.
Qed.

Lemma record_action_keeps (u : Z) (a r : string) (i : Z) (o : option json) (w : world panel) :
  wp (Audit.RecordAction u a r i o) (λ _ w', sessions_of w' = sessions_of w ∧ clock w' = clock w) w.
Proof. unfold Audit.RecordAction, insert_checked. run; done. Qed.

Lemma open_session_spec (user : user_row) (b : login_body) (ip : string) (token : res string) (w : world panel) :
  wp (open_session user b ip token) (λ rep w',
    (sessions_of w' = sessions_of w ∧ no_cookie rep) ∨
    ∃ tok s e, token = Ok tok ∧ rep = welcome user tok e ∧ opened user b tok (clock w) s ∧ In s (t_rows (sessions_of w'))) w.
Proof.
  unfold open_session, Sessions.Create. destruct token as [tok|e]; [|wp_step; by left].
  wp_step. wp_step. wp_step. apply wp_wrap, wp_insert_checked; [intros e fs; wp_step; by left|]. intros fs _.
  cbv beta iota. cbn [data clock insert_row snd]. set (n := clock w). set (ses := Sessions.mkSession _ _ _ _).
  set (new := Sessions.new_session ses n _). set (w1 := World _ _ _).
  wp_step. eapply wp_mono; [|apply (revoke_keeps _ _ new)]; [|apply in_app_iff; right; by left].
  intros _ w2 [Hc (r & Hr)]. wp_step. eapply wp_mono; [|apply record_action_keeps]. intros _ w3 [E _]. wp_step.
  right. do 3 eexists. split; [done|]. split; [done|]. rewrite E. split; [|exact Hr]. by destruct r.
Qed.

(** C4: logging in: whatever fails, a login that opens a session (sets the cookie) was allowed
    by the limiter of its address, not blocked for its account, named a user, gave the
    password the stored hash verifies and, when the user has two-factor authentication,
    an unspent recovery code or a valid one-time password not used before; the session
    it opened is the user's, stored by the hash of the token that the answer carries.
    Any other login leaves the sessions alone. *)
Theorem login_sound (ip : string) (body : option login_body) (token : res string) (w : world panel) :
  wp (login ip body token) (λ rep w',
    (sessions_of w' = sessions_of w ∧ no_cookie rep) ∨
    ∃ b user tok s e, body = Some b ∧ token = Ok tok ∧
      (allow dev (clock w) ip (p_limiter (data w))).1 = true ∧
      (blocked (clock w) (to_lower (trim_space (lg_username b))) (p_failures (data w))).1 = false ∧
      In user (t_rows (t_users (p_db (data w)))) ∧ u_username user = lg_username b ∧
      VerifyPassword (u_password user) (lg_password b) = Ok true ∧ second_ok user b w ∧
      rep = welcome user tok e ∧ opened user b tok (clock w) s ∧ In s (t_rows (sessions_of w'))) w.
Proof.
  unfold login, allow_login, is_blocked. wp_step. apply wp_in_memory. cbn [data clock faults fst snd].
  destruct (allow dev (clock w) ip (p_limiter (data w))) as [ok rl] eqn:Ea. cbn [fst snd].
  destruct ok; cbn [negb]; [|wp_step; by left]. destruct body as [b|]; [|wp_step; by left].
  wp_step. apply wp_in_memory. cbn [data clock faults fst snd p_failures].
  destruct (blocked _ _ _) as [bl f] eqn:Eb. cbn [fst snd]. destruct bl; [wp_step; by left|].
  unfold Users.GetByUsername, Users.scan_query. wp_step. wp_step. wp_step; cbn [data clock]; [wp_step; by left|].
  destruct (select_one _ _) as [user|] eqn:Eu; [|unfold note_failure; run; left; split; [reflexivity|exact I]].
  apply find_in in Eu as [Hin Hn]. apply String.eqb_eq in Hn.
  destruct (VerifyPassword (u_password user) (lg_password b)) as [[]|m] eqn:Ev; [|unfold note_failure; run; left; split; [reflexivity|exact I]|wp_step; by left].
  set (w1 := World _ _ _). wp_step. eapply wp_mono; [|apply second_factor_spec]. intros stop w2 (E2 & C2 & Hs).
  destruct stop as [r|]; [wp_step; by left|]. unfold forget_failures. wp_step. apply wp_in_memory. cbn [data clock faults fst snd].
  eapply wp_mono; [|apply open_session_spec]. intros rep w3 [[E3 Hc]|(tok & s & e & -> & -> & Ho & Hr)].
  - left. split; [|done]. rewrite E3. exact E2.
  - right. exists b, user, tok, s, e. cbn [clock] in Ho. rewrite C2 in Ho. rewrite Eb.
    do 7 (split; [done|]). split; [exact Hs|]. by repeat (split; [done|]).
Qed.
End Login.

(** ** A session's life *)

Section Lifecycle.
Context (dev : bool) (HashToken : string → string).

(** The newest session is not among those [RevokeOldest] revokes. *)
Lemma overflow_newest (u k c : Z) (s : session_row) (t : table session_row) :
  table_wf t → 0 < k → Sessions.active u c s = true → t_seq t < Accounts.se_id s →
  existsb (by_id (Accounts.se_id s)) (Sessions.overflow u k c (Table (t_rows t ++ [s]) (Accounts.se_id s))) = false.
Proof.
  intros Hw Hk Ha Hid. apply existsb_False, List.Forall_forall. intros r Hr. apply Z.eqb_neq.
  unfold Sessions.overflow, select_desc, select_where in Hr. cbn in Hr. rewrite List.filter_app in Hr. cbn in Hr.
  rewrite Ha, rev_app_distr in Hr. cbn in Hr. destruct (Z.to_nat k) as [|m] eqn:E; [lia|]. cbn in Hr.
  apply in_drop, in_rev in Hr. apply List.filter_In in Hr as [Hr _].
  pose proof (wf_range _ Hw) as HF. rewrite List.Forall_forall in HF. specialize (HF r Hr). unfold row_id, session_row_id in *. lia.
Qed.

(** The sessions after a login without faults: the new one is there, not revoked. *)
Definition new_row (user : user_row) (b : login_body) (token : string) (n id : Z) : session_row :=
  Sessions.new_session (Sessions.mkSession (u_id user) (HashToken token)
    (n + (if lg_remember_me b then RememberMeSessionTTL else DefaultSessionTTL)) None) n id.

Lemma new_row_active (user : user_row) (b : login_body) (token : string) (n id : Z) :
  Sessions.active (u_id user) (current_timestamp n) (new_row user b token n id) = true.
Proof.
  unfold Sessions.active, new_row, Sessions.new_session, current_timestamp. cbn. rewrite Z.eqb_refl.
  apply Z.ltb_lt.
  unfold RememberMeSessionTTL, DefaultSessionTTL, Hour, Minute. destruct (lg_remember_me b); dlia.
Qed.

Lemma select_none {A} (p : A → bool) (t : table A) : (∀ r, In r (t_rows t) → p r = false) → select_one p t = None.
Proof.
  intros H. unfold select_one. destruct (List.find p (t_rows t)) as [r|] eqn:E; [|done].
  apply List.find_some in E as [Hin E]. by rewrite H in E.
Qed.

Definition fresh_hash (h : string) (t : table session_row) : Prop := ∀ s, In s (t_rows t) → se_token_hash s ≠ h.

(** The sessions a login leaves, without faults. *)
Definition logged_in (user : user_row) (n : Z) (s : session_row) (t : table session_row) : table session_row :=
  let t1 := Table (t_rows t ++ [s]) (Accounts.se_id s) in
  update_where (λ r, existsb (by_id (Accounts.se_id r)) (Sessions.overflow (u_id user) maxSessionsPerUser (current_timestamp n) t1))
    (set_revoked (Some (current_timestamp n))) t1.

Lemma open_session_eq (user : user_row) (b : login_body) (ip tok : string) (p : panel) (n : Z) :
  fresh_hash (HashToken tok) (t_sessions (p_db p)) →
  let s := new_row user b tok n (t_seq (t_sessions (p_db p)) + 1) in
  ∃ d e, open_session dev HashToken user b ip (Ok tok) (World p n []) = (welcome dev user tok e, World (on_db d p) n []) ∧
    t_sessions d = logged_in user n s (t_sessions (p_db p)) ∧ t_service_tokens d = t_service_tokens (p_db p).
Proof.
  intros Hf s. unfold open_session, Sessions.Create, Sessions.RevokeOldest, Audit.RecordAction, wrap, insert_checked, exec, mbind, mret, time_Now.
  rewrite stmt_ok. cbv beta iota zeta. cbn [clock data].
  replace (has_row _ _) with false.
  - cbn. do 2 eexists. split; [reflexivity|]. split; reflexivity.
  - symmetry. unfold has_row. apply existsb_False, List.Forall_forall. intros r Hr. cbn. by apply String.eqb_neq, Hf.
Qed.

Lemma logged_in_live (user : user_row) (b : login_body) (tok : string) (n : Z) (t : table session_row) :
  table_wf t → fresh_hash (HashToken tok) t →
  let s := new_row user b tok n (t_seq t + 1) in
  select_one (Sessions.live_hash (HashToken tok)) (logged_in user n s t) = Some s.
Proof.
  intros Hw Hf s. unfold logged_in, update_where, select_one. cbn [t_rows]. rewrite map_app, find_app. cbn [map].
  rewrite (overflow_newest (u_id user) maxSessionsPerUser (current_timestamp n) s t Hw)
    by (done || (apply new_row_active || (cbn; lia))).
  replace (List.find _ (map _ _)) with (None (A := session_row)).
  - cbn. unfold Sessions.live_hash. cbn. by rewrite String.eqb_refl.
  - symmetry. destruct (List.find _ _) as [r|] eqn:E; [|done]. apply List.find_some in E as [Hin E].
    apply in_map_iff in Hin as (r0 & <- & Hr). specialize (Hf r0 Hr). apply andb_prop in E as [E _]. apply String.eqb_eq in E.
    destruct (existsb _ _) in E; done.
Qed.

(** [RequireAuth] without faults, for a token that is no service token. *)
Lemma auth_session (r : request) (tok : string) (next : handler (D := panel)) (c : context) (q : panel) (n : Z) :
  request_token r = inl tok → (∀ t, In t (t_rows (t_service_tokens (p_db q))) → tk_key_hash t ≠ HashToken tok) →
  RequireAuth HashToken r next c (World q n []) =
    match select_one (Sessions.live_hash (HashToken tok)) (t_sessions (p_db q)) with
    | None => (HTTPError 401 "invalid token", World q n [])
    | Some s =>
        if negb (se_expires s =? zero_time) && after_seconds n (se_expires s)
        then (HTTPError 401 "session expired", World q n [])
        else next (mkContext (Some s) (Some (se_user s)) (c_role c) (c_scopes c)) (World q n [])
    end.
Proof.
  intros Hr Ht. unfold RequireAuth. rewrite Hr.
  unfold ServiceTokens.GetByKeyHash, Sessions.GetByTokenHash, wrap, query, mbind, mret, time_Now. rewrite stmt_ok. cbv beta iota zeta.
  assert (select_one (λ t, (tk_key_hash t =? HashToken tok)%string) (tab (A := token_row) q) = None) as E.
  { apply select_none. intros t Hin. apply String.eqb_neq. by apply Ht. }
  rewrite E. rewrite stmt_ok. cbv beta iota zeta. cbn [clock data].
  change (tab (A := session_row) q) with (t_sessions (p_db q)).
  destruct (select_one (Sessions.live_hash (HashToken tok)) (t_sessions (p_db q))) as [s|] eqn:Es; [|done].
  apply find_in in Es as [_ Hl]. unfold Sessions.live_hash in Hl. apply andb_prop in Hl as [_ Hl]. apply bool_decide_eq_true in Hl.
  rewrite (bool_decide_eq_false_2 (se_revoked s ≠ None)) by tauto. by destruct (_ && _).
Qed.

(** C5: a session's life: after a login with a token no one had, at most ten sessions of the
    user are active, and a request with the token acts as the user on every route until
    the session expires, is refused after it, and is refused at once when the user has
    logged out, whenever that was. *)
Theorem session_lifecycle (user : user_row) (b : login_body) (ip tok : string) (p : panel) (n : Z)
    (Hw : table_wf (t_sessions (p_db p))) (Hf : fresh_hash (HashToken tok) (t_sessions (p_db p)))
    (Ht : ∀ t, In t (t_rows (t_service_tokens (p_db p))) → tk_key_hash t ≠ HashToken tok)
    (Hn : 0 ≤ n) :
  let q := data (open_session dev HashToken user b ip (Ok tok) (World p n [])).2 in
  let s := new_row user b tok n (t_seq (t_sessions (p_db p)) + 1) in
  let acts_as (c : context) := mkContext (Some s) (Some (u_id user)) (c_role c) (c_scopes c) in
  count_where (Sessions.active (u_id user) (current_timestamp n)) (t_sessions (p_db q)) ≤ 10 ∧
  ∀ r next c n', request_token r = inl tok →
    RequireAuth HashToken r next c (World q n' []) =
      (if se_expires s * 1000000000 <? n' then (HTTPError 401 "session expired", World q n' [])
       else next (acts_as c) (World q n' [])) ∧
    ∀ n'', let q' := data (logout dev (acts_as c) (World q n' [])).2 in
      RequireAuth HashToken r next c (World q' n'' []) = (HTTPError 401 "invalid token", World q' n'' []).
Proof.
  destruct (open_session_eq user b ip tok p n Hf) as (d & e & -> & Es & Et). cbn [fst snd data]. cbv zeta.
  set (s := new_row user b tok n (t_seq (t_sessions (p_db p)) + 1)) in *.
  pose proof (logged_in_live user b tok n (t_sessions (p_db p)) Hw Hf) as Hl. fold s in Hl.
  assert (table_wf (Table (t_rows (t_sessions (p_db p)) ++ [s]) (Accounts.se_id s))) as Hw1.
  { apply (insert_wf (new_row user b tok n)); done. }
  split.
  { change (t_sessions (p_db (on_db d p))) with (t_sessions d). rewrite Es. unfold logged_in.
    rewrite count_desc, revoke_desc by done. rewrite length_take. unfold maxSessionsPerUser. lia. }
  intros r next c n' Hr. split.
  - rewrite (auth_session r tok) by (done || (cbn; rewrite Et; exact Ht)).
    change (t_sessions (p_db (on_db d p))) with (t_sessions d). rewrite Es, Hl.
    replace (se_expires s =? zero_time) with false; [done|]. symmetry. apply Z.eqb_neq. unfold s, new_row, zero_time. cbn.
    unfold current_timestamp, RememberMeSessionTTL, DefaultSessionTTL, Hour, Minute. destruct (lg_remember_me b); dlia.
  - intros n''. unfold logout, Sessions.Revoke, Audit.RecordAction, wrap, insert_checked, update_tab, exec, mbind, mret. cbn [c_session].
    rewrite stmt_ok. cbv beta iota zeta. rewrite stmt_ok. cbn [data snd fst insert_row].
    rewrite (auth_session r tok); [|done|cbn; rewrite Et; exact Ht].
    rewrite select_none; [done|]. cbn. rewrite Es. intros x (y & <- & Hy)%in_map_iff.
    unfold logged_in in Hy. cbn in Hy. apply in_map_iff in Hy as (z & <- & Hz).
    set (g := existsb (by_id (Accounts.se_id z)) _). apply in_app_iff in Hz as [Hz|[<-|[]]].
    + unfold Sessions.live_hash. apply andb_false_iff. left. apply String.eqb_neq. specialize (Hf z Hz).
      by destruct (by_id _ _), g.
    + replace (by_id _ _) with true; [apply andb_false_r|]. symmetry. unfold by_id. destruct g; apply Z.eqb_refl.
Qed.
End Lifecycle.

(** ** Acting as another user *)

Section Impersonation.
Context (HashToken : string → string).

(** C8: an impersonation session is opened only by a session that is not one itself, of a super
    admin, who may act as any user, or of an admin for a user that this admin created and who is
    neither admin nor super admin; it is the target's, for a day, and carries the impersonator.
    Otherwise the sessions are left alone and the answer is no success. *)
Theorem impersonate_sound (id : string) (token : res string) (c : context) (w : world panel) :
  wp (impersonate HashToken id token c) (λ rep w',
    (sessions_of w' = sessions_of w ∧ status rep ≠ Some 200) ∨
    ∃ sess target role tok s, c_session c = Some sess ∧ se_impersonated_by sess = None ∧ c_role c = Some role ∧
      In target (t_rows (t_users (p_db (data w)))) ∧ atoi id = (u_id target, true) ∧
      (role = RoleSuperAdmin ∨
       role = RoleAdmin ∧ u_created_by target = Some (se_user sess) ∧ u_role target ≠ RoleAdmin ∧ u_role target ≠ RoleSuperAdmin) ∧
      token = Ok tok ∧ t_rows (sessions_of w') = t_rows (sessions_of w) ++ [s] ∧
      se_user s = u_id target ∧ se_token_hash s = HashToken tok ∧ se_revoked s = None ∧
      se_impersonated_by s = Some (se_user sess) ∧ se_expires s = current_timestamp (clock w + impersonationSessionTTL)) w.
Proof.
  unfold impersonate. destruct (c_session c) as [sess|]; [|wp_step; by left].
  destruct (bool_decide _) eqn:Eb; [wp_step; by left|]. apply bool_decide_eq_false in Eb.
  assert (se_impersonated_by sess = None) as Ei by (destruct (se_impersonated_by sess); [by destruct Eb|done]).
  destruct (atoi id) as [targetID ok] eqn:Ea. destruct (negb ok || (targetID <=? 0)) eqn:Eo; [wp_step; by left|].
  apply orb_false_iff in Eo as [Eo _]. apply negb_false_iff in Eo as ->.
  destruct (c_role c) as [role|]; [|wp_step; by left].
  unfold Users.GetByID, Users.scan_query. wp_step. wp_step. wp_step; cbn [data clock]; [wp_step; by left|].
  destruct (get_row _ _) as [target|] eqn:Et; [|wp_step; by left].
  pose proof (get_row_id _ _ _ Et) as Hid. apply find_in in Et as [Hin _].
  destruct (impersonation_denied role (se_user sess) target) as [m|] eqn:Ed; [wp_step; by left|].
  destruct token as [tok|e]; [|wp_step; by left].
  unfold Sessions.Create. wp_step. wp_step. wp_step. apply wp_wrap, wp_insert_checked; [intros e fs'; wp_step; by left|].
  intros fs' _. cbv beta iota. wp_step. eapply wp_mono; [|apply record_action_keeps]. intros _ w3 [E _]. wp_step.
  right. do 5 eexists. do 4 (split; [done|]). split; [by rewrite <- Hid|]. split; [|split; [done|]].
  - unfold impersonation_denied in Ed. destruct (String.eqb_spec role RoleSuperAdmin); [by left|].
    destruct (String.eqb_spec role RoleAdmin); [|done]. right. split; [done|]. destruct (bool_decide _) eqn:Ec; [|done].
    apply bool_decide_eq_true in Ec. split; [done|]. cbn in Ed. destruct (_ || _) eqn:Er; [done|]. by bool_hyps.
  - rewrite E. split; [reflexivity|]. by repeat (split; [done|]).
Qed.
End Impersonation.

(** ** Setting two-factor authentication up again *)

(** setup2FA asks for no code: of a user who already has two-factor authentication it
    replaces the secret in use, so that the next login takes codes of the new secret.  A
    service token, whose user id is 0, makes it panic. *)
Theorem setup2FA_spec (totp_Generate : string → string → res string) (secret : string) (c : context) (i : Z)
    (p : panel) (n : Z) (Hc : c_user_id c = Some i) :
  match get_row i (t_users (p_db p)) with
  | None => setup2FA totp_Generate (Ok secret) c (World p n []) = (Panics, World p n [])
  | Some user =>
      ∀ url, totp_Generate (u_email user) secret = Ok url →
      let '(rep, w') := setup2FA totp_Generate (Ok secret) c (World p n []) in
      status rep = Some 200 ∧
      ∃ user', get_row i (t_users (p_db (data w'))) = Some user' ∧
        totp_secret user' = secret ∧ totp_enabled user' = totp_enabled user
  end.
Proof.
  unfold setup2FA, Users.GetByID, Users.scan_query, TwoFactor.SetTOTPSecret, update_tab, wrap, query, exec, mbind, mret.
  rewrite Hc. destruct (get_row i (t_users (p_db p))) as [user|] eqn:Eu.
  - intros url Hg. rewrite stmt_ok. cbv beta iota zeta. cbn [clock data]. change (tab p) with (t_users (p_db p)). rewrite Eu, Hg, stmt_ok.
    cbv beta iota zeta. split; [done|]. exists (user_touch (current_timestamp n) (set_totp_secret (Some secret) user)). split; [|done].
    transitivity (get_row i (update_where (by_id i) (λ r, user_touch (current_timestamp n) (set_totp_secret (Some secret) r)) (t_users (p_db p))));
      [done|]. by rewrite get_update_id, Eu, Z.eqb_refl.
  - rewrite stmt_ok. cbv beta iota zeta. cbn [clock data]. change (tab p) with (t_users (p_db p)). by rewrite Eu.
Qed.

(** * Witnesses *)

Definition ann : user_row := UserRow 2 "ann" "ann@example.com" "x" RoleUser None 0 None None None (Some "S") (Some 1) None 0.
Definition ann_panel : panel :=
  newAuthHandler (set_tab (Table [sample_user 1 "root" RoleSuperAdmin; ann] 2) empty_db).
Definition ann_login : login_body := mkLogin "ann" "secret" "123456" "" false.
Definition ann_token : string := join "" (repeat "0123456789abcdef" 4).

Lemma session_lifecycle_witness :
  let q := data (open_session true id ann ann_login "10.0.0.1" (Ok ann_token) (World ann_panel 5 [])).2 in
  let s := new_row id ann ann_login ann_token 5 1 in
  se_expires s = 604800 ∧
  (count_where (Sessions.active (u_id ann) (current_timestamp 5)) (t_sessions (p_db q)) ≤ 10 ∧
   ∀ r next c n', request_token r = inl ann_token →
    RequireAuth id r next c (World q n' []) =
      (if se_expires s * 1000000000 <? n' then (HTTPError 401 "session expired", World q n' [])
       else next (mkContext (Some s) (Some 2) (c_role c) (c_scopes c)) (World q n' [])) ∧
    ∀ n'', let q' := data (logout true (mkContext (Some s) (Some 2) (c_role c) (c_scopes c)) (World q n' [])).2 in
      RequireAuth id r next c (World q' n'' []) = (HTTPError 401 "invalid token", World q' n'' [])).
Proof.
  intros q s. split; [vm_compute; reflexivity|].
  apply (session_lifecycle true id ann ann_login "10.0.0.1" ann_token ann_panel 5).
  - exact empty_wf.
  - intros x [].
  - intros x [].
  - lia.
Defined.

Lemma setup2FA_spec_witness :
  totp_enabled ann = true ∧
  let '(rep, w') := setup2FA (λ _ _, Ok "otpauth://totp/x") (Ok "NEWSECRET") (mkContext None (Some 2) None None) (World ann_panel 5 []) in
  status rep = Some 200 ∧
  ∃ user', get_row 2 (t_users (p_db (data w'))) = Some user' ∧ totp_secret user' = "NEWSECRET" ∧ totp_enabled user' = true.
Proof.
  split; [reflexivity|].
  exact (setup2FA_spec (λ _ _, Ok "otpauth://totp/x") "NEWSECRET" (mkContext None (Some 2) None None) 2 ann_panel 5 eq_refl
    "otpauth://totp/x" eq_refl).
Defined.
