(* ===== verification/UsersApi.v ===== *)
(** The API of the users and of their grants: src/internal/apihttp/users.go and
    user_sites.go, with the assignment of a plan of plans.go. *)
From S2P Require Import Prelude GoStr Regex Json Clock Sql JobStore Accounts Sites Backups Servers BackupPlan Records Plans Extras Panel Frame Guards Password Http Access SitesApi AppApi Login.
Local Open Scope Z_scope.
Local Open Scope panel_scope.

Set Default Proof Using "Type".

(** A slice that was never appended to is printed as null. *)
Definition slice (l : list json) : json := match l with [] => JNull | _ => JArr l end.
Definition null_int (o : option Z) : json := match o with Some n => JInt n | None => JNull end.
Definition counted (name : string) (l : list json) : reply :=
  Success 200 (JObj [(name, slice l); ("count", JInt (Z.of_nat (length l)))]).

(** [c.Get(roleKey).(string)] and a use of [sess.UserID], which panic on nothing. *)
Definition with_role_of (c : context) (k : string → M db reply) : M db reply :=
  match c_role c with None => mret Panics | Some role => k role end.
Definition with_user (c : context) (k : Z → M db reply) : M db reply :=
  match c_session c with None => mret Panics | Some sess => k (se_user sess) end.
Definition if_id (bad id : string) (k : Z → M db reply) : M db reply :=
  match parse_id id with None => mret (HTTPError 400 bad) | Some i => k i end.
Definition bad_user : string := "invalid user id".
Definition bad_body : reply := HTTPError 400 "invalid request body".
Definition user_not_found : reply := HTTPError 404 "user not found".

Section UsersApi.
Context `{HA : Argon2}.
(** The output of [du -sb] on a directory; SQLite's LIKE. *)
Context (du : string → res string) (like : string → string → bool).
Notation handler := (handler (D := db)).

(** * users.go *)

Definition user_limits (r : user_row) : list (string * json) :=
  [("disk_limit", null_int (u_disk_limit r)); ("max_sites", null_int (u_max_sites r)); ("plan_id", null_int (u_plan r))].
Definition user_json (r : user_row) : json := JObj (
  [("id", JInt (u_id r)); ("username", JStr (u_username r)); ("email", JStr (u_email r)); ("role", JStr (u_role r));
   ("created_at", JStr (format_seconds (u_created r)))] ++ user_limits r).
Definition list_users : handler := λ c,
  with_role_of c (λ role,
  let found (creator : Z) :=
    let* l := Users.List creator in
    mret match l with Err _ => internal | Ok l => counted "users" (map user_json l) end in
  if (role =? RoleAdmin)%string then with_user c found else found 0).

Record create_body := mkCreate {
  cb_username : string; cb_email : string; cb_password : string; cb_role : string;
  cb_disk_limit : option Z; cb_max_sites : option Z }.
(** [salt]: what [auth.HashPassword] draws. *)
Definition create_user (body : option create_body) (salt : res string) : handler := λ c,
  with_role_of c (λ callerRole,
  match body with
  | None => mret bad_body
  | Some b =>
      if (cb_username b =? "")%string || (cb_password b =? "")%string
      then mret (HTTPError 400 "username and password required")
      else if (cb_email b =? "")%string || negb (re_match emailRegex (cb_email b))
      then mret (HTTPError 400 "valid email required")
      else
        let role := if (cb_role b =? "")%string then "user" else cb_role b in
        if (role =? RoleSuperAdmin)%string && negb (callerRole =? RoleSuperAdmin)%string
        then mret (HTTPError 403 "cannot create super admin")
        else if (callerRole =? RoleAdmin)%string && negb (role =? RoleUser)%string
        then mret (HTTPError 403 "admins can only create users")
        else with_user c (λ caller,
          let* r := Users.Create (HashPassword salt) (Users.mkUser (cb_username b) (cb_email b) (cb_password b) role
                      (Some caller) (cb_disk_limit b) (cb_max_sites b) None) in
          match r with
          | Err m => mret (HTTPError 400 m)
          | Ok id =>
              let* _ := Audit.RecordAction caller "user_create" "user" id
                          (Some (JObj [("username", JStr (cb_username b)); ("role", JStr role)])) in
              let* _ := NotifyAdmins "user_created" "User Created" ("User " +:+ cb_username b +:+ " created") "info" "user" id in
              mret (Success 201 (JObj [("id", JInt id); ("username", JStr (cb_username b)); ("email", JStr (cb_email b));
                     ("role", JStr role); ("disk_limit", null_int (cb_disk_limit b)); ("max_sites", null_int (cb_max_sites b));
                     ("plan_id", JNull)]))
          end)
  end).

(** An administrator goes on with a user he created only; everybody else with any. *)
Definition if_created_by_caller (c : context) (callerRole : string) (id : Z) (k : M db reply) : M db reply :=
  if (callerRole =? RoleAdmin)%string then
    let* u := Users.GetByID id in
    match u with
    | Ok (Some u) =>
        match u_created_by u with
        | None => mret user_not_found
        | Some creator => with_user c (λ caller, if creator =? caller then k else mret user_not_found)
        end
    | _ => mret user_not_found
    end
  else k.

Definition done_with (what : string) (id : Z) : reply := Success 200 (JObj [(what, JBool true); ("id", JInt id)]).
(** [if err := m; err != nil { return internal error }; k]. *)
Definition or_internal {A} (m : M db (res A)) (k : M db reply) : M db reply :=
  let* r := m in match r with Err _ => mret internal | Ok _ => k end.

Definition delete_user (id : string) : handler := λ c,
  with_role_of c (λ callerRole,
  if_id bad_user id (λ i,
  with_user c (λ caller,
  if caller =? i then mret (HTTPError 400 "cannot delete yourself") else
  if_created_by_caller c callerRole i (
    let* _ := Audit.RecordAction caller "user_delete" "user" i None in
    or_internal (Users.NullifyCreatedBy i) (
    or_internal (Sites.NullifyOwner i) (
    or_internal (Audit.NullifyUser i) (
    or_internal (Users.Delete i) (mret (done_with "deleted" i))))))))).

Record update_body := mkUpdate {
  ub_role : string; ub_password : string; ub_disk_limit : option Z; ub_max_sites : option Z }.
(** A limit of the body: 0 and less is no limit. *)
Definition limit (n : Z) : option Z := if 0 <? n then Some n else None.
Definition if_given {A} (o : option A) (f : A → M db (res ())) : M db (res ()) :=
  match o with Some a => f a | None => mret (Ok ()) end.
Definition update_user (id : string) (body : option update_body) (salt : res string) : handler := λ c,
  with_role_of c (λ callerRole,
  if_id bad_user id (λ i,
  match body with
  | None => mret bad_body
  | Some b =>
      if_created_by_caller c callerRole i (
      if negb (callerRole =? RoleSuperAdmin)%string && ((ub_role b =? RoleAdmin)%string || (ub_role b =? RoleSuperAdmin)%string)
      then mret (HTTPError 403 "only super admin can assign admin role") else
      let* r := if (ub_role b =? "")%string then mret (Ok ()) else Users.UpdateRole i (ub_role b) in
      match r with
      | Err m => mret (HTTPError 400 m)
      | Ok _ =>
          or_internal (if (ub_password b =? "")%string then mret (Ok ())
                       else match HashPassword salt (ub_password b) with
                            | Err e => mret (Err e)
                            | Ok hash => Users.UpdatePassword i hash
                            end) (
          or_internal (if_given (ub_disk_limit b) (λ n, Users.UpdateDiskLimit i (limit n))) (
          or_internal (if_given (ub_max_sites b) (λ n, Users.UpdateMaxSites i (limit n))) (
          mret (done_with "updated" i))))
      end)
  end)).

(** The sites of a list of grants that are not in [counted], each once. *)
Fixpoint granted_sites (grants : list UserSite) (counted : list Z) : M db (list site_row) :=
  match grants with
  | [] => mret []
  | g :: grants' =>
      let i := us_site (us_grant g) in
      if existsb (Z.eqb i) counted then granted_sites grants' counted else
      let* s := Sites.GetByID i in
      match s with
      | Ok (Some site) => let* l := granted_sites grants' (i :: counted) in mret (site :: l)
      | _ => granted_sites grants' counted
      end
  end.
Definition or_none {A} (r : res (list A)) : list A := match r with Ok l => l | Err _ => [] end.
Definition sites_of (owner : Z) : SiteListFilter := mkSiteListFilter 0 owner "" "" "" 500 0.
(** The sites whose disk usage counts for a user, and their number as it is shown. *)
Definition sites_to_measure (user : user_row) (id : Z) : M db (list site_row * Z) :=
  if HasRole (u_role user) RoleAdmin then
    let* all := Sites.List like (sites_of 0) in
    mret (or_none all, Z.of_nat (length (or_none all)))
  else
    let* o := Sites.List like (sites_of id) in
    let owned := or_none o in
    let* a := ListByUser id in
    let assigned := or_none a in
    let* more := granted_sites assigned (map s_id owned) in
    mret (owned ++ more, Z.of_nat (length owned + length assigned)).
Definition disk_used (sites : list site_row) : Z :=
  fold_left (λ n site,
    if (s_root_path site =? "")%string then n else
    match du (s_root_path site) with
    | Err _ => n
    | Ok out => let '(sz, ok) := atoi (split2 (byte 9) out).1 in if ok then wrap64 (n + sz) else n
    end) sites 0.
Definition user_usage (id : string) : handler := λ c,
  if_id bad_user id (λ i,
  with_user c (λ caller,
  let* r := Users.GetByID caller in
  match r with
  | Ok (Some me) =>
      if negb (HasRole (u_role me) RoleAdmin) && negb (caller =? i) then mret (HTTPError 403 "forbidden") else
      let* u := Users.GetByID i in
      match u with
      | Ok (Some user) =>
          let* p := sites_to_measure user i in
          let gb := default 0 (u_disk_limit user) in
          mret (Success 200 (JObj [("user_id", JInt i); ("disk_used_bytes", JInt (disk_used p.1));
            ("disk_limit_bytes", JInt (if 0 <? gb then wrap64 (gb * 1024 * 1024 * 1024) else 0));
            ("disk_limit_gb", JInt gb); ("disk_unlimited", JBool (gb =? 0));
            ("site_count", JInt p.2); ("max_sites", null_int (u_max_sites user))]))
      | _ => mret user_not_found
      end
  | _ => mret internal
  end)).

(** * user_sites.go *)

Definition site_entry (id : Z) (name domain permission : string) (assigned : list (string * json)) (own : bool) : json :=
  JObj ([("site_id", JInt id); ("site_name", JStr name); ("site_domain", JStr domain); ("permission", JStr permission)] ++
        assigned ++ [("is_owner", JBool own)]).
(** The entries after [merged], whose sites are [seen]. *)
Fixpoint granted_entries (grants : list UserSite) (seen : list Z) : M db (list json) :=
  match grants with
  | [] => mret []
  | g :: grants' =>
      let i := us_site (us_grant g) in
      if existsb (Z.eqb i) seen then granted_entries grants' seen else
      let* s := Sites.GetByID i in
      let name := match s with Ok (Some site) => s_name site | _ => us_domain g end in
      let* l := granted_entries grants' (i :: seen) in
      mret (site_entry i name (us_domain g) (us_permission (us_grant g))
              [("assigned_at", JStr (format_seconds (us_created (us_grant g))))] false :: l)
  end.
Definition listUserSites (id : string) : handler := λ c,
  if_id bad_user id (λ i,
  with_role_of c (λ role,
  if negb (HasRole role RoleAdmin) && match c_session c with None => true | Some s => negb (se_user s =? i) end
  then mret (HTTPError 403 "access denied") else
  let* a := ListByUser i in
  let* o := Sites.List like (sites_of i) in
  let owned := or_none o in
  let* l := granted_entries (or_none a) (map s_id owned) in
  mret (counted "sites" (map (λ s, site_entry (s_id s) (s_name s) (s_domain s) "owner" [] true) owned ++ l)))).

Definition user_site_json (u : UserSite) : json :=
  let g := us_grant u in
  JObj ([("id", JInt (us_id g)); ("user_id", JInt (us_user g)); ("site_id", JInt (us_site g));
         ("permission", JStr (us_permission g)); ("created_at", JStr (format_seconds (us_created g)))] ++
        (if (us_username u =? "")%string then [] else [("username", JStr (us_username u))]) ++
        (if (us_domain u =? "")%string then [] else [("domain", JStr (us_domain u))])).
(** A caller without a row is let through. *)
Definition may_list_users (c : context) (site : site_row) (i : Z) : M db bool :=
  match c_session c with
  | None => mret true
  | Some sess =>
      let* u := Users.GetByID (se_user sess) in
      match u with
      | Ok (Some user) =>
          if (u_role user =? RoleSuperAdmin)%string then mret true else
          let* h := UserSites.HasAccess (se_user sess) i in
          mret (owns sess site || match h with Ok b => b | Err _ => false end)
      | _ => mret true
      end
  end.
Definition listSiteUsers (id : string) : handler := λ c,
  if_id "invalid site id" id (λ i,
  let* s := Sites.GetByID i in
  match s with
  | Ok (Some site) =>
      let* ok := may_list_users c site i in
      if negb ok then mret not_found else
      let* l := ListBySite i in
      mret match l with Err _ => internal | Ok l => counted "users" (map user_site_json l) end
  | _ => mret not_found
  end).

Definition invalid_permission : reply := HTTPError 400 "invalid permission (read|write|admin)".
Definition known_permission (p : string) : bool := (p =? "read")%string || (p =? "write")%string || (p =? "admin")%string.
Definition grant_reply (user site : Z) (permission : string) : reply :=
  Success 200 (JObj [("ok", JBool true); ("user_id", JInt user); ("site_id", JInt site); ("permission", JStr permission)]).
Definition audit_grant (caller user : Z) (action : string) (site : Z) (permission : list (string * json)) : M db () :=
  Audit.RecordAction caller "update" "user" user
    (Some (JObj ([("action", JStr action); ("site_id", JInt site)] ++ permission))).

(** [body]: the site and the permission. *)
Definition assignUserSite (id : string) (body : option (Z * string)) : handler := λ c,
  if_id bad_user id (λ i,
  match body with
  | None => mret bad_body
  | Some (site, permission0) =>
      if site <=? 0 then mret (HTTPError 400 "site_id required") else
      let permission := if (permission0 =? "")%string then "read" else permission0 in
      if negb (known_permission permission) then mret invalid_permission else
      or_internal (UserSites.Assign i site permission) (with_user c (λ caller,
      let* _ := audit_grant caller i "assign_site" site [("permission", JStr permission)] in
      let* _ := Notify i "site_assigned" "Site Assigned" ("You were assigned to site " +:+ itoa site) "info" "site" site in
      let* _ := NotifyAdmins "user_site_assigned" "User Assigned"
                  ("User " +:+ itoa i +:+ " assigned to site " +:+ itoa site) "info" "site" site in
      mret (grant_reply i site permission)))
  end).

Definition or_unassigned {A} (m : M db (res A)) (k : M db reply) : M db reply :=
  let* r := m in
  match r with
  | Ok _ => k
  | Err e => mret (if (e =? UserSites.ErrNoRows)%string || (e =? "no rows found")%string
                   then HTTPError 404 "assignment not found" else internal)
  end.
Definition unassignUserSite (id siteId : string) : handler := λ c,
  if_id bad_user id (λ i, if_id "invalid site id" siteId (λ site,
  or_unassigned (UserSites.Unassign i site) (with_user c (λ caller,
  let* _ := audit_grant caller i "unassign_site" site [] in
  let* _ := Notify i "site_removed" "Site Removed" ("You were removed from site " +:+ itoa site) "warning" "site" site in
  mret (Success 200 (JObj [("ok", JBool true); ("user_id", JInt i); ("site_id", JInt site)])))))).
(** [permission]: that of the body, [None] when the body cannot be read. *)
Definition updateSitePermission (id siteId : string) (permission : option string) : handler := λ c,
  if_id bad_user id (λ i, if_id "invalid site id" siteId (λ site,
  match permission with
  | None | Some "" => mret (HTTPError 400 "permission required (read|write|admin)")
  | Some p =>
      if negb (known_permission p) then mret invalid_permission else
      or_unassigned (UserSites.UpdatePermission i site p) (with_user c (λ caller,
      let* _ := audit_grant caller i "update_site_permission" site [("permission", JStr p)] in
      mret (grant_reply i site p)))
  end)).

(** * plans.go *)

(** [plan]: the plan of the body. *)
Definition assignPlan (id : string) (plan : option Z) : handler := λ _,
  if_id bad_user id (λ i,
  let* u := Users.GetByID i in
  match u with
  | Ok (Some _) =>
      match plan with
      | None => mret bad_body
      | Some plan =>
          let assign (p : option Z) :=
            let* r := Users.UpdatePlan i p in
            mret match r with
                 | Err _ => HTTPError 500 "failed to assign plan"
                 | Ok _ => Success 200 (JObj [("updated", JBool true); ("user_id", JInt i); ("plan_id", JInt plan)])
                 end in
          if 0 <? plan then
            let* p := Plans.GetByID plan in
            match p with Ok (Some _) => assign (Some plan) | _ => mret (HTTPError 404 "plan not found") end
          else assign None
      end
  | _ => mret user_not_found
  end).
End UsersApi.

(** * Facts *)

(** ** What an administrator can do to accounts *)

(** [r'] is what a request of the administrator [a] may make of the user [r]: nothing; a
    change of the password, the limits or the role of a user he created, where the role
    stays or becomes that of a plain user; or the loss of the creator, when that one was
    created by [a] and has been deleted. *)
Definition edited (a : Z) (r r' : user_row) : Prop :=
  u_created_by r = Some a ∧ u_created_by r' = Some a ∧ u_id r' = u_id r ∧ u_username r' = u_username r ∧
  u_email r' = u_email r ∧ u_plan r' = u_plan r ∧ (u_role r' = u_role r ∨ u_role r' = RoleUser).
Definition orphaned (a : Z) (t : table user_row) (r r' : user_row) : Prop :=
  r' = set_created_by None r ∧ ∃ m, In m (t_rows t) ∧ u_created_by m = Some a ∧ u_created_by r = Some (u_id m).
Definition kept (a : Z) (t : table user_row) (r r' : user_row) : Prop := r' = r ∨ edited a r r' ∨ orphaned a t r r'.
Definition appointed (a : Z) (t : table user_row) (r' : user_row) : Prop :=
  u_created_by r' = Some a ∧ u_role r' = RoleUser ∧ ∀ r, In r (t_rows t) → u_id r ≠ u_id r'.

Record accounts_within (a : Z) (t t' : table user_row) : Prop := {
  aw_after : ∀ r', In r' (t_rows t') → appointed a t r' ∨ ∃ r, In r (t_rows t) ∧ kept a t r r';
  aw_before : ∀ r, In r (t_rows t) → u_created_by r = Some a ∨ ∃ r', In r' (t_rows t') ∧ kept a t r r' }.
(** The sites: those of a deleted user lose their owner. *)
Definition released (a : Z) (t : table user_row) (s s' : site_row) : Prop :=
  s' = s ∨ ∃ n m, s' = site_touch n (set_owner None s) ∧ In m (t_rows t) ∧ u_created_by m = Some a ∧ s_owner s = Some (u_id m).
Definition within (a : Z) (d d' : db) : Prop :=
  accounts_within a (t_users d) (t_users d') ∧ Forall2 (released a (t_users d)) (t_rows (t_sites d)) (t_rows (t_sites d')).

Lemma accounts_refl a t : accounts_within a t t.
Proof. split; intros r Hr; right; exists r; (split; [done|by left]). Qed.
Lemma released_refl a t l : Forall2 (released a t) l l.
Proof. induction l; constructor; [by left|done]. Qed.

(** Rows that are only edited. *)
Lemma accounts_edited a t t' :
  Forall2 (λ r r', r' = r ∨ edited a r r') (t_rows t) (t_rows t') → accounts_within a t t'.
Proof.
  intros H. split.
  - intros r' (i & Hi)%list_elem_of_In%list_elem_of_lookup. right.
    destruct (Forall2_lookup_r _ _ _ _ _ H Hi) as (r & Hr & Hk). exists r.
    split; [by eapply list_elem_of_In, list_elem_of_lookup_2|]. unfold kept. tauto.
  - intros r (i & Hi)%list_elem_of_In%list_elem_of_lookup. right.
    destruct (Forall2_lookup_l _ _ _ _ _ H Hi) as (r' & Hr & Hk). exists r'.
    split; [by eapply list_elem_of_In, list_elem_of_lookup_2|]. unfold kept. tauto.
Qed.

(** The rows that lose the creator [i], a user [a] created. *)
Lemma accounts_nullified a i t m :
  In m (t_rows t) → u_id m = i → u_created_by m = Some a →
  accounts_within a t (update_where (λ r, bool_decide (u_created_by r = Some i)) (set_created_by None) t).
Proof.
  intros Hm <- Hc.
  assert (∀ r, kept a t r (if bool_decide (u_created_by r = Some (u_id m)) then set_created_by None r else r)) as Hk.
  { intros r. case_bool_decide; [|by left]. right. right. split; [done|]. by exists m. }
  split; cbn [update_where t_rows].
  - intros r' (r & <- & Hr)%in_map_iff. right. exists r. by split.
  - intros r Hr. right. eexists. split; [apply in_map_iff; exists r; by split|apply Hk].
Qed.
(** The deletion of a user [a] created. *)
Lemma accounts_deleted a t t1 i :
  (∀ r, In r (t_rows t) → u_id r = i → u_created_by r = Some a) →
  accounts_within a t t1 → accounts_within a t (delete_where (by_id i) t1).
Proof.
  intros Hi [H1 H2]. split.
  - intros r' [Hr _]%List.filter_In. by apply H1.
  - intros r Hr. destruct (decide (u_id r = i)) as [E|E]; [left; by apply Hi|].
    destruct (H2 r Hr) as [|(r' & Hr' & Hk)]; [by left|]. right. exists r'. split; [|done].
    apply List.filter_In. split; [done|]. apply negb_true_iff, Z.eqb_neq.
    assert (u_id r' = u_id r) as Ei by (destruct Hk as [->|[[_ (_ & ? & _)]|[-> _]]]; done). cbn in *. unfold row_id, user_row_id. congruence.
Qed.
(** A new user. *)
Lemma accounts_added a t mk : table_wf t →
  (∀ i, u_id (mk i) = i ∧ u_created_by (mk i) = Some a ∧ u_role (mk i) = RoleUser) →
  accounts_within a t (insert_row mk t).2.
Proof.
  intros Hw Hm. split; cbn [insert_row snd t_rows].
  - intros r' [Hr|[<-|[]]]%in_app_iff; [right; exists r'; split; [done|by left]|]. left.
    destruct (Hm (t_seq t + 1)) as (Ei & Ec & Er). split; [done|]. split; [done|]. intros r Hr. rewrite Ei.
    pose proof (wf_range _ Hw) as H. rewrite List.Forall_forall in H. specialize (H _ Hr). unfold row_id, user_row_id in H. lia.
  - intros r Hr. right. exists r. split; [apply in_app_iff; by left|by left].
Qed.

Section Admins.
Context `{HA : Argon2} (du : string → res string) (like : string → string → bool).

(** The requests of users.go and user_sites.go, and the one of plans.go about a user. *)
Inductive users_request :=
| ListUsers
| CreateUser (body : option create_body) (salt : res string)
| DeleteUser (id : string)
| UpdateUser (id : string) (body : option update_body) (salt : res string)
| UserUsage (id : string)
| ListUserSites (id : string)
| ListSiteUsers (id : string)
| AssignUserSite (id : string) (body : option (Z * string))
| UnassignUserSite (id siteId : string)
| UpdateSitePermission (id siteId : string) (permission : option string)
| AssignPlan (id : string) (plan : option Z).
Definition serve_users (q : users_request) : handler (D := db) :=
  match q with
  | ListUsers => list_users
  | CreateUser body salt => create_user body salt
  | DeleteUser id => delete_user id
  | UpdateUser id body salt => update_user id body salt
  | UserUsage id => user_usage du like id
  | ListUserSites id => listUserSites like id
  | ListSiteUsers id => listSiteUsers id
  | AssignUserSite id body => assignUserSite id body
  | UnassignUserSite id siteId => unassignUserSite id siteId
  | UpdateSitePermission id siteId permission => updateSitePermission id siteId permission
  | AssignPlan id plan => assignPlan id plan
  end.

Definition accounts (d : db) : table user_row * table site_row := (t_users d, t_sites d).
Notation same := (frame accounts).

Lemma frame_record_action user action resource i details : same (Audit.RecordAction (D := db) user action resource i details).
Proof. unfold Audit.RecordAction. frame_auto. Qed.
Lemma frame_notify user type title message severity entity i : same (Notify (D := db) user type title message severity entity i).
Proof. unfold Notify, Notifications.Create. frame_auto. Qed.
Lemma frame_notify_admins type title message severity entity i : same (NotifyAdmins (D := db) type title message severity entity i).
Proof. unfold NotifyAdmins, Users.List. frame_auto. apply frame_notify. Qed.
Lemma frame_user (i : Z) : same (Users.GetByID (D := db) i).
Proof. unfold Users.GetByID, Users.scan_query. frame_auto. Qed.
Lemma frame_site (i : Z) : same (Sites.GetByID (D := db) i).
Proof. unfold Sites.GetByID. frame_auto. Qed.
#[local] Hint Resolve frame_record_action frame_notify frame_notify_admins frame_user frame_site : frame.

Lemma frame_granted_sites l counted : same (granted_sites l counted).
Proof. revert counted. induction l as [|g l IH]; intros counted; cbn [granted_sites]; frame_auto; auto. Qed.
Lemma frame_granted_entries l seen : same (granted_entries l seen).
Proof. revert seen. induction l as [|g l IH]; intros seen; cbn [granted_entries]; frame_auto; auto. Qed.
#[local] Hint Resolve frame_granted_sites frame_granted_entries : frame.

Definition changes_accounts (q : users_request) : bool :=
  match q with CreateUser _ _ | DeleteUser _ | UpdateUser _ _ _ | AssignPlan _ _ => true | _ => false end.
Lemma frame_serve (q : users_request) (c : context) : changes_accounts q = false → same (serve_users q c).
Proof.
  destruct q; intros [=]; cbn [serve_users];
    unfold list_users, user_usage, listUserSites, listSiteUsers, assignUserSite, unassignUserSite, updateSitePermission,
      sites_to_measure, may_list_users, with_role_of, with_user, if_id, or_internal, or_unassigned, audit_grant,
      Users.List, Sites.List, ListByUser, ListBySite, UserSites.HasAccess, UserSites.Assign, UserSites.Unassign,
      UserSites.UpdatePermission, delete_tab_n; cbv zeta; frame_auto;
    apply frame_stmt; intros n d; repeat case_match; done.
Qed.

Lemma wp_same {A} (m : M db A) (Q : A → world db → Prop) w :
  same m → (∀ r w', t_users (data w') = t_users (data w) → t_sites (data w') = t_sites (data w) → Q r w') → wp m Q w.
Proof. intros Hm H. eapply wp_mono; [|exact (Hm w)]. intros r w' [[= E1 E2] _]. by apply H. Qed.
Lemma wp_or_internal {A} (m : M db (res A)) (k : M db reply) Q w :
  wp m (λ r w', match r with Err _ => Q internal w' | Ok _ => wp k Q w' end) w → wp (or_internal m k) Q w.
Proof. intros H. unfold or_internal. apply wp_bind. eapply wp_mono; [|exact H]. intros [] w' Hq; [done|by wp_step]. Qed.
Lemma wp_created_by (c : context) (sess : session_row) (i : Z) (k : M db reply) (Q : reply → world db → Prop) w :
  c_session c = Some sess →
  (∀ fs, Q user_not_found (World (data w) (clock w) fs)) →
  (∀ m fs, In m (t_rows (t_users (data w))) → u_id m = i → u_created_by m = Some (se_user sess) →
     wp k Q (World (data w) (clock w) fs)) →
  wp (if_created_by_caller c RoleAdmin i k) Q w.
Proof.
  intros Es Hn Hk. unfold if_created_by_caller. cbn. unfold Users.GetByID, Users.scan_query.
  wp_step. wp_step. wp_step; [by wp_step|].
  destruct (get_row i (tab (data w))) as [m|] eqn:Em; [|by wp_step].
  pose proof (get_row_id _ _ _ Em) as Hid. apply find_spec in Em as [_ Hin].
  destruct (u_created_by m) as [creator|] eqn:Ec; [|by wp_step]. unfold with_user. rewrite Es.
  destruct (creator =? se_user sess) eqn:E; [|by wp_step]. bool_hyps. subst creator. by eapply Hk.
Qed.

(** ** The steps of an update *)

Definition edits (a : Z) (w w' : world db) : Prop :=
  t_sites (data w') = t_sites (data w) ∧
  Forall2 (λ r r', r' = r ∨ edited a r r') (t_rows (t_users (data w))) (t_rows (t_users (data w'))).
Lemma edits_within a w w' : edits a w w' → within a (data w) (data w').
Proof. intros [E H]. split; [by apply accounts_edited|]. rewrite E. apply released_refl. Qed.

(** A change of columns that an administrator may change. *)
Definition harmless (f : user_row → user_row) : Prop :=
  ∀ r, u_id (f r) = u_id r ∧ u_created_by (f r) = u_created_by r ∧ u_username (f r) = u_username r ∧
       u_email (f r) = u_email r ∧ u_plan (f r) = u_plan r ∧ (u_role (f r) = u_role r ∨ u_role (f r) = RoleUser).
Lemma edits_map (a i : Z) (g : user_row → user_row) (l l' : list user_row) :
  harmless g → (∀ r, In r l → u_id r = i → u_created_by r = Some a) →
  Forall2 (λ r r', r' = r ∨ edited a r r') l l' →
  Forall2 (λ r r', r' = r ∨ edited a r r') l (map (λ r, if by_id i r then g r else r) l').
Proof.
  intros Hg Hi H. induction H as [|r r' l l' Hr H IH]; cbn [map]; constructor.
  - destruct (by_id i r') eqn:E; [|done]. apply Z.eqb_eq in E. cbv [row_id user_row_id] in E. right.
    destruct (Hg r') as (E1 & E2 & E3 & E4 & E5 & E6).
    destruct Hr as [->|(C1 & C2 & F1 & F2 & F3 & F4 & F5)].
    + assert (u_created_by r = Some a) by (apply Hi; [by left|done]). repeat split; congruence || tauto.
    + repeat split; try congruence. destruct E6, F5; [left|right|right|right]; congruence.
  - apply IH. intros x Hx. apply Hi. by right.
Qed.
Lemma edits_step (a i : Z) (f : Z → user_row → user_row) (msg : string) (w w1 : world db) :
  (∀ r, In r (t_rows (t_users (data w))) → u_id r = i → u_created_by r = Some a) → (∀ n, harmless (f n)) →
  edits a w w1 → wp (wrap msg (update_tab (by_id i) f)) (λ _ w2, edits a w w2) w1.
Proof.
  intros Hi Hf [Es Hr]. unfold update_tab. wp_step. wp_step; [by split|].
  split; [exact Es|]. by apply edits_map.
Qed.

Lemma admin_updates (id : string) (body : option update_body) (salt : res string) (c : context) (sess : session_row) (w : world db) :
  c_session c = Some sess → c_role c = Some RoleAdmin → table_wf (t_users (data w)) →
  wp (update_user id body salt c) (λ _ w', within (se_user sess) (data w) (data w')) w.
Proof.
  intros Es Er Hw. unfold update_user, with_role_of, if_id. rewrite Er.
  assert (∀ w1, data w1 = data w → within (se_user sess) (data w) (data w1)) as H0.
  { intros w1 ->. split; [apply accounts_refl|apply released_refl]. }
  destruct (parse_id id) as [i|]; [|wp_step; by apply H0]. destruct body as [b|]; [|wp_step; by apply H0].
  apply (wp_created_by c sess); [done|intros; by apply H0|]. intros m fs Hm Hid Hc.
  assert (∀ r, In r (t_rows (t_users (data w))) → u_id r = i → u_created_by r = Some (se_user sess)) as Hi.
  { intros r Hr E. assert (r = m) as ->; [|done]. apply (wf_unique _ r m Hw Hr Hm). unfold row_id, user_row_id. congruence. }
  change (negb (RoleAdmin =? RoleSuperAdmin)%string) with true. cbn [andb].
  destruct (_ || _) eqn:Ea; [wp_step; by apply H0|]. bool_hyps.
  set (a := se_user sess) in *. set (w0 := World (data w) (clock w) fs).
  assert (edits a w w0) as Hd0.
  { split; [done|]. apply Forall2_same_length_lookup. split; [done|]. intros j x y E1 E2. left. cbn in E2. congruence. }
  apply wp_bind. eapply (wp_mono _ (λ _ w1, edits a w w1)).
  2:{ destruct (ub_role b =? "")%string; [by wp_step|]. unfold Users.UpdateRole.
      destruct (IsValidRole (ub_role b)) eqn:Ev; cbn [negb]; [|by wp_step]. apply edits_step; [done| |done].
      intros n r. cbn. repeat split. right. unfold IsValidRole in Ev. bool_hyps.
      destruct Ev as [Ev|Ev]; bool_hyps; [|done]. destruct Ev; bool_hyps; congruence. }
  intros r w1 Hd1. destruct r; [|wp_step; by eapply edits_within].
  assert (∀ (m : M db (res ())) k w2,
    (∀ w3, edits a w w3 → wp m (λ _ w4, edits a w w4) w3) →
    (∀ w3, edits a w w3 → wp k (λ _ w4, within a (data w) (data w4)) w3) →
    edits a w w2 → wp (or_internal m k) (λ _ w4, within a (data w) (data w4)) w2) as Hstep.
  { intros m' k w2 Hm' Hk H2. apply wp_or_internal. eapply wp_mono; [|by apply Hm'].
    intros [] w3 H3; [by apply Hk|by apply edits_within]. }
  assert (∀ n : Z → user_row → user_row, (∀ x, harmless (n x)) → ∀ msg w3, edits a w w3 →
            wp (wrap msg (update_tab (by_id i) n)) (λ _ w4, edits a w w4) w3) as Hupd.
  { intros n Hn msg w3 H3. by apply edits_step. }
  apply Hstep; [| |done].
  { intros w3 H3. destruct (ub_password b =? "")%string; [by wp_step|].
    destruct (HashPassword salt (ub_password b)); [|by wp_step]. apply Hupd; [|done]. repeat split; by left. }
  intros w2 Hd2. apply Hstep; [| |done].
  { intros w3 H3. destruct (ub_disk_limit b); cbn [if_given]; [|by wp_step]. apply Hupd; [|done]. repeat split; by left. }
  intros w3 Hd3. apply Hstep; [| |done].
  { intros w4 H4. destruct (ub_max_sites b); cbn [if_given]; [|by wp_step]. apply Hupd; [|done]. repeat split; by left. }
  intros w4 H4. wp_step. by apply edits_within.
Qed.

(** ** The steps of a creation and of a deletion *)

Lemma within_refl a d d' : t_users d' = t_users d → t_sites d' = t_sites d → within a d d'.
Proof. intros E1 E2. split; [rewrite E1; apply accounts_refl|rewrite E2; apply released_refl]. Qed.
Lemma within_same a d d1 d2 : within a d d1 → t_users d2 = t_users d1 → t_sites d2 = t_sites d1 → within a d d2.
Proof. intros [H1 H2] E1 E2. by split; rewrite ?E1, ?E2. Qed.

Lemma admin_creates (body : option create_body) (salt : res string) (c : context) (sess : session_row) (w : world db) :
  c_session c = Some sess → c_role c = Some RoleAdmin → table_wf (t_users (data w)) →
  wp (create_user body salt c) (λ _ w', within (se_user sess) (data w) (data w')) w.
Proof.
  intros Es Er Hw. unfold create_user, with_role_of, with_user. rewrite Er, Es.
  assert (within (se_user sess) (data w) (data w)) as H0 by by apply within_refl.
  destruct body as [b|]; [|by wp_step]. wp_step; [by wp_step|]. wp_step; [by wp_step|].
  set (role := if (cb_role b =? "")%string then "user" else cb_role b).
  wp_step; [by wp_step|]. wp_step; [by wp_step|]. bool_hyps.
  change (RoleAdmin =? RoleAdmin)%string with true in *. cbn [andb] in *. bool_hyps.
  assert (Erole : role = RoleUser) by (destruct E2 as [[=]|E2]; by bool_hyps).
  unfold Users.Create. wp_step. cbn [Users.Role]. destruct (IsValidRole role); cbn [negb]; [|wp_step; by wp_step].
  cbn [Users.Password]. destruct (HashPassword salt (cb_password b)) as [hash|]; [|wp_step; by wp_step].
  wp_step. apply wp_insert_checked; [intros e fs; by wp_step|]. intros fs _.
  wp_step. apply wp_same; [apply frame_record_action|]. intros _ w1 G1 G2.
  wp_step. apply wp_same; [apply frame_notify_admins|]. intros _ w2 F1 F2. wp_step.
  eapply within_same; [|exact (eq_trans F1 G1)|exact (eq_trans F2 G2)]. split; [|apply released_refl].
  apply (accounts_added (se_user sess) (t_users (data w))); [done|]. intros i. split; [done|]. split; [done|exact Erole].
Qed.

Lemma released_none (a i n : Z) (t : table user_row) (m : user_row) (l : list site_row) :
  In m (t_rows t) → u_id m = i → u_created_by m = Some a →
  Forall2 (released a t) l (map (λ s, if bool_decide (s_owner s = Some i) then site_touch n (set_owner None s) else s) l).
Proof.
  intros Hm <- Hc. induction l as [|s l IH]; cbn [map]; constructor; [|done].
  case_bool_decide; [|by left]. right. by exists n, m.
Qed.

Lemma admin_deletes (id : string) (c : context) (sess : session_row) (w : world db) :
  c_session c = Some sess → c_role c = Some RoleAdmin → table_wf (t_users (data w)) →
  wp (delete_user id c) (λ _ w', within (se_user sess) (data w) (data w')) w.
Proof.
  intros Es Er Hw. unfold delete_user, with_role_of, with_user, if_id. rewrite Er, Es.
  assert (∀ fs, within (se_user sess) (data w) (data (World (data w) (clock w) fs))) as H0 by (intros; by apply within_refl).
  destruct (parse_id id) as [i|]; [|wp_step; by apply within_refl].
  destruct (se_user sess =? i) eqn:Ei; [wp_step; by apply within_refl|].
  apply (wp_created_by c sess); [done|done|]. intros m fs Hm Hid Hc. set (a := se_user sess) in *.
  assert (∀ r, In r (t_rows (t_users (data w))) → u_id r = i → u_created_by r = Some a) as Hi.
  { intros r Hr E. assert (r = m) as ->; [|done]. apply (wf_unique _ r m Hw Hr Hm). unfold row_id, user_row_id. congruence. }
  wp_step. apply wp_same; [apply frame_record_action|]. cbn [data]. intros _ w1 E1 E2.
  apply wp_or_internal. unfold Users.NullifyCreatedBy, update_tab.
  wp_step; [by apply within_refl|]. set (t1 := update_where _ _ (tab (data w1))).
  assert (accounts_within a (t_users (data w)) t1) as Ht1.
  { unfold t1. change (tab (data w1)) with (t_users (data w1)). rewrite E1. by eapply accounts_nullified. }
  apply wp_or_internal. unfold Sites.NullifyOwner, update_tab. cbn [data clock snd].
  wp_step; [split; [exact Ht1|cbn; rewrite E2; apply released_refl]|]. set (d2 := set_tab _ _).
  assert (within a (data w) d2 ∧ t_users d2 = t1) as [Hd2 Ed2].
  { split; [|done]. split; [exact Ht1|]. cbn. rewrite E2. by eapply released_none. }
  apply wp_or_internal. apply wp_same; [unfold Audit.NullifyUser; frame_auto|]. cbn [data snd fst]. intros [] w3 F1 F2;
    [|by eapply within_same].
  apply wp_or_internal. unfold Users.Delete, delete_parent, delete_parent_row. wp_step.
  assert (within a (data w) (data w3)) as H3 by by eapply within_same.
  wp_step; [done|]. destruct (fk_blocked _ _); cbn [fst snd]; [done|]. wp_step.
  destruct H3 as [Ha Hb]. split; [by apply accounts_deleted|exact Hb].
Qed.

(** A plan: nobody asks who created the user. *)
Definition planned (id : string) (d d' : db) : Prop :=
  t_sites d' = t_sites d ∧ (t_users d' = t_users d ∨ ∃ i n p, parse_id id = Some i ∧
    t_users d' = update_where (by_id i) (λ r, user_touch n (set_plan p r)) (t_users d) ∧
    ∀ k, p = Some k → ∃ plan, get_row k (t_plans d) = Some plan).
Lemma plan_assigned (id : string) (plan : option Z) (c : context) (w : world db) :
  wp (assignPlan id plan c) (λ _ w', planned id (data w) (data w')) w.
Proof.
  assert (H0 : ∀ fs, planned id (data w) (data (World (data w) (clock w) fs))) by (intros; split; [done|by left]).
  unfold assignPlan, if_id. destruct (parse_id id) as [i|] eqn:Ei; [|wp_step; apply (H0 [])].
  unfold Users.GetByID, Users.scan_query. wp_step. wp_step. wp_step; [by wp_step|]. cbn [data clock].
  destruct (get_row i (tab (data w))) as [u|]; [|by wp_step]. destruct plan as [k|]; [|by wp_step].
  assert (Hup : ∀ p gs, (∀ k, p = Some k → ∃ plan, get_row k (t_plans (data w)) = Some plan) →
    wp (let* r := Users.UpdatePlan i p in mret match r with
        | Err _ => HTTPError 500 "failed to assign plan"
        | Ok _ => Success 200 (JObj [("updated", JBool true); ("user_id", JInt i); ("plan_id", JInt k)])
        end) (λ _ w', planned id (data w) (data w')) (World (data w) (clock w) gs)).
  { intros p gs Hp. wp_step. unfold Users.UpdatePlan. wp_step. unfold update_tab. wp_step.
    - wp_step. apply (H0 gs).
    - wp_step. split; [done|]. right. eexists i, _, p. split; [done|]. split; [reflexivity|done]. }
  cbv zeta. destruct (0 <? k); [|by apply Hup]. unfold Plans.GetByID. wp_step. wp_step. wp_step; [by wp_step|]. cbn [data clock].
  destruct (get_row k (tab (data w))) as [row|] eqn:Ek; [|by wp_step]. apply Hup. intros k' [= <-]. by exists row.
Qed.
(** What a request of the administrator [a] may change. *)
Definition permitted (q : users_request) (a : Z) (d d' : db) : Prop :=
  match q with AssignPlan id _ => planned id d d' | _ => within a d d' end.

(** C18: what an administrator who is no super admin can do to the accounts of others: whatever
    requests of users.go and user_sites.go they send and whatever fails, new accounts are
    plain users that they created; only accounts that they created are changed or deleted,
    and none of them is given a higher role; other accounts lose at most a creator whom they
    created and deleted, and other sites at most such an owner.  The exception is the request
    that assigns a plan: it changes the plan of any account, to none or to one that exists, and
    nothing else. *)
Theorem admins_confined (q : users_request) (c : context) (sess : session_row) (w : world db)
    (Hs : c_session c = Some sess) (Hr : c_role c = Some RoleAdmin) (Hw : table_wf (t_users (data w))) :
  wp (serve_users q c) (λ _ w', permitted q (se_user sess) (data w) (data w')) w.
Proof.
  destruct (changes_accounts q) eqn:Eq.
  - destruct q; try done; [by apply admin_creates|by apply admin_deletes|by apply admin_updates|by apply plan_assigned].
  - apply wp_same; [by apply frame_serve|]. intros r w' E1 E2. destruct q; try done; by apply within_refl.
Qed.
End Admins.

(** ** What a service token can do *)

Lemma get_row_update {A} `{HasId A} (i : Z) (f : A → A) (t : table A) (r : A) :
  (∀ x, row_id (f x) = row_id x) → get_row i t = Some r → get_row i (update_where (by_id i) f t) = Some (f r).
Proof.
  intros Hf. unfold get_row, select_one, update_where. cbn [t_rows]. induction (t_rows t) as [|x l IH]; cbn; [done|].
  destruct (by_id i x) eqn:E; [|by rewrite E]. replace (by_id i (f x)) with true; [by intros [= ->]|].
  unfold by_id in *. by rewrite Hf.
Qed.

Section ServiceTokens.
Context `{HA : Argon2} (HashToken : string → string).

(** The token an administrator makes of [raw] for all scopes, and the request with it that
    sets a password. *)
Definition all_scopes : token_body := mkToken "ci" "*" 0.
Definition set_password_of (id pw : string) (salt : res string) (r : request) : M db reply :=
  chain [RequireAuth HashToken r; RequireAdmin] (update_user id (Some (mkUpdate "" pw None None)) salt) no_context.

Lemma auth_token (r : request) (raw : string) (next : handler (D := db)) (c : context) (d : db) (n : Z) (t : token_row) :
  request_token r = inl raw → select_one (λ t, (tk_key_hash t =? HashToken raw)%string) (t_service_tokens d) = Some t →
  tk_expires t = None →
  RequireAuth HashToken r next c (World d n []) =
    next (mkContext (Some (token_session t)) (Some 0) (c_role c) (Some (tk_scopes t))) (World (noted t n d) n []).
Proof.
  intros Hr Ht He. unfold RequireAuth. rewrite Hr.
  unfold ServiceTokens.GetByKeyHash, ServiceTokens.UpdateLastUsed, wrap, query, update_tab, exec, mbind, mret, time_Now.
  rewrite stmt_ok. cbv beta iota zeta. cbn [clock data]. change (tab (A := token_row) d) with (t_service_tokens d).
  rewrite Ht, He. cbv beta iota zeta. rewrite stmt_ok. done.
Qed.
Lemma admin_token (t : token_row) (role : option string) (next : handler (D := db)) (w : world db) :
  tk_scopes t = "*" →
  let c := mkContext (Some (token_session t)) (Some 0) role (Some (tk_scopes t)) in
  RequireAdmin next c w = next (with_role "service_token" c) w.
Proof. intros E. cbn. by rewrite E. Qed.

(** The update by a service token: nobody asks who created the user. *)
Lemma token_sets_password (id pw h : string) (salt : res string) (i n : Z) (c : context) (d : db) :
  parse_id id = Some i → pw ≠ "" → HashPassword salt pw = Ok h → c_role c = Some "service_token" →
  update_user id (Some (mkUpdate "" pw None None)) salt c (World d n []) =
    (done_with "updated" i,
     World (set_tab (update_where (by_id i) (λ u, user_touch (current_timestamp n) (set_password h (Some (current_timestamp n)) u))
                       (t_users d)) d) n []).
Proof.
  intros Hid Hpw Hh Hr. unfold update_user, with_role_of, if_id, if_created_by_caller. rewrite Hr, Hid.
  cbn [ub_role ub_password ub_disk_limit ub_max_sites if_given].
  change ("service_token" =? RoleAdmin)%string with false. cbv beta iota.
  change (negb ("service_token" =? RoleSuperAdmin)%string && _) with false. cbv beta iota. change ("" =? "")%string with true.
  apply String.eqb_neq in Hpw. rewrite Hpw, Hh.
  unfold or_internal, Users.UpdatePassword, wrap, update_tab, exec, mbind, mret. cbv beta iota zeta. rewrite stmt_ok. done.
Qed.

(** C21: an administrator becomes anybody: with a service token that they make for themselves,
    the update of a user skips the check that the caller created the user, so it sets the
    password of any account, a super administrator's included. *)
Theorem service_token_takes_over (raw id pw h : string) (salt : res string) (i n m : Z) (c : context) (p : panel)
    (user : user_row) (r : request)
    (Hfresh : ∀ t, In t (t_rows (t_service_tokens (p_db p))) → tk_name t ≠ "ci" ∧ tk_key_hash t ≠ HashToken raw)
    (Hr : request_token r = inl raw) (Hid : parse_id id = Some i) (Hu : get_row i (t_users (p_db p)) = Some user)
    (Hpw : pw ≠ "") (Hh : HashPassword salt pw = Ok h) :
  let '(made, w1) := create_service_token HashToken (Some all_scopes) (Ok raw) c (World p n []) in
  let '(done, w2) := set_password_of id pw salt r (World (p_db (data w1)) m []) in
  status made = Some 201 ∧ done = done_with "updated" i ∧
  ∃ user', get_row i (t_users (data w2)) = Some user' ∧ u_username user' = u_username user ∧
    u_role user' = u_role user ∧ u_password user' = h.
Proof.
  unfold create_service_token, ServiceTokens.Create, wrap, insert_checked, mbind, mret, time_Now.
  cbn [tb_name tb_scopes tb_expires_in all_scopes]. change ("ci" =? "")%string with false. change ("*" =? "")%string with false.
  cbv beta iota zeta. rewrite stmt_ok. change (tab (A := token_row) p) with (t_service_tokens (p_db p)).
  set (t0 := t_service_tokens (p_db p)) in *.
  assert (has_row (λ t, (tk_name t =? "ci")%string || (tk_key_hash t =? HashToken raw)%string) t0 = false) as ->.
  { apply existsb_False, List.Forall_forall. intros t Ht. destruct (Hfresh t Ht) as [E1 E2].
    apply String.eqb_neq in E1, E2. by rewrite E1, E2. }
  cbn [negb insert_row fst snd data clock]. cbn.
  pose (tk := TokenRow (t_seq t0 + 1) "ci" (HashToken raw) "*" (current_timestamp n) None None).
  pose (d1 := set_tab (A := token_row) (Table (t_rows t0 ++ [tk]) (t_seq t0 + 1)) (p_db p)).
  lazymatch goal with |- context [World ?d m []] => change d with d1 end.
  unfold set_password_of, chain. cbn [fold_right].
  erewrite (auth_token r raw _ no_context d1 m tk); [|done| |done].
  2:{ unfold select_one. cbn. rewrite find_app. fold t0.
      pose proof (select_none (λ t, (tk_key_hash t =? HashToken raw)%string) t0) as E. unfold select_one in E. rewrite E.
      - cbn. by rewrite String.eqb_refl.
      - intros t Ht. apply String.eqb_neq. by apply Hfresh. }
  rewrite admin_token by done. rewrite (token_sets_password id pw h salt i m) by done.
  split; [done|]. split; [done|].
  eexists. split; [eapply get_row_update; [done|exact Hu]|]. done.
Qed.
End ServiceTokens.

(** ** What an administrator can do to sites *)

Lemma upsert_in (user site n : Z) (p : string) (t : table user_site_row) :
  ∃ g, In g (t_rows (UserSites.upsert user site p n t)) ∧ us_user g = user ∧ us_site g = site ∧ us_permission g = p.
Proof.
  unfold UserSites.upsert. destruct (has_row _ t) eqn:E.
  - apply existsb_exists in E as (g & Hg & Hp). exists (set_permission p g). split.
    + apply in_map_iff. exists g. by rewrite Hp.
    + by apply grant_spec in Hp as [E1 E2].
  - eexists. split; [apply in_app_iff; right; by left|]. done.
Qed.

Definition claims (d : db) : table user_row * table user_site_row := (t_users d, t_user_sites d).
Lemma wp_claims {A} (m : M db A) (Q : A → world db → Prop) w :
  frame claims m → (∀ r w', t_users (data w') = t_users (data w) → t_user_sites (data w') = t_user_sites (data w) → Q r w') → wp m Q w.
Proof. intros Hm H. eapply wp_mono; [|exact (Hm w)]. intros r w' [[= E1 E2] _]. by apply H. Qed.

(** the checks that keep a tenant's site from administrators who were given nothing on it
    do not hold them: whoever may send the request grants himself the highest
    permission on any site, and the request succeeds. *)
Theorem admin_reaches_every_site (id : string) (c : context) (sess : session_row) (user : user_row) (site : site_row) (d : db) (n : Z)
    (Hs : c_session c = Some sess) (Hid : parse_id id = Some (se_user sess))
    (Hu : get_row (se_user sess) (t_users d) = Some user) (Hsite : get_row (s_id site) (t_sites d) = Some site)
    (Hpos : 0 < s_id site) :
  wp (assignUserSite id (Some (s_id site, "admin")) c) (λ rep w',
    rep = grant_reply (se_user sess) (s_id site) "admin" ∧ may "admin" c site (data w')) (World d n []).
Proof.
  unfold assignUserSite, if_id. rewrite Hid. replace (s_id site <=? 0) with false by (symmetry; apply Z.leb_gt; lia).
  change (if ("admin" =? "")%string then "read" else "admin") with "admin".
  change (negb (known_permission _)) with false. cbv beta iota zeta.
  unfold or_internal. apply wp_bind. unfold wp at 1, UserSites.Assign. rewrite stmt_ok.
  change (if ("admin" =? "")%string then "read" else "admin") with "admin". change (negb _) with false. cbv beta iota zeta.
  assert (parents_exist (UserSiteRow 0 (se_user sess) (s_id site) "admin" 0) d = true) as ->.
  { unfold parents_exist, grant_parents, has_row. cbn [us_user us_site].
    apply andb_true_intro. split; apply existsb_exists.
    - exists user. pose proof (get_row_id _ _ _ Hu). apply find_spec in Hu as [_ Hin]. split; [done|]. by apply Z.eqb_eq.
    - exists site. apply find_spec in Hsite as [_ Hin]. split; [done|]. by apply Z.eqb_eq. }
  rewrite orb_true_r. unfold with_user. rewrite Hs.
  set (d1 := set_tab _ d). assert (t_users d1 = t_users d) as E1 by done.
  destruct (upsert_in (se_user sess) (s_id site) n "admin" (t_user_sites d)) as (g & Hg & G1 & G2 & G3).
  assert (In g (t_rows (t_user_sites d1))) as Hg1 by done. clearbody d1.
  wp_step. apply wp_claims; [unfold audit_grant, Audit.RecordAction; frame_auto|]. intros _ w1 U1 V1.
  wp_step. apply wp_claims; [unfold Notify, Notifications.Create; frame_auto|]. intros _ w2 U2 V2.
  wp_step. apply wp_claims; [unfold NotifyAdmins, Notify, Notifications.Create, Users.List; frame_auto|]. intros _ w3 U3 V3.
  wp_step. split; [done|]. exists sess, user. cbn [data] in *. split; [done|]. split; [congruence|]. right. right.
  exists g. rewrite V3, V2, V1. split; [done|]. split; [done|]. split; [done|]. by rewrite G3.
Qed.

(** * Witnesses *)

Definition plain_argon2 : Argon2 := λ pw _ _ _ _ _, pw.
(** A super administrator, an administrator ann, a user bob whom she created, and one she did not. *)
Definition office : db :=
  set_tab (Table [sample_user 1 "root" RoleSuperAdmin; set_created_by (Some 1) (sample_user 2 "ann" RoleAdmin);
                  set_created_by (Some 2) (sample_user 3 "bob" RoleUser); set_created_by (Some 1) (sample_user 4 "eve" RoleUser)] 4)
 (set_tab (Table [sample_db_site 7 3; sample_db_site 8 4] 8) empty_db).
Definition ann_session : session_row := SessionRow 1 2 "h" 9999999999 0 None None.
Definition ann_context : context := mkContext (Some ann_session) (Some 2) (Some RoleAdmin) None.

Lemma office_wf : table_wf (t_users office).
Proof. split; [| |done]; cbn; repeat constructor; cbn; lia. Qed.

(** ann deletes bob, whose site loses its owner, and does not find eve. *)
Lemma admins_confined_witness :
  let w := World office 0 [] in
  let serve q := serve_users (HA := plain_argon2) (λ _, Err "") (λ _ _, true) q ann_context w in
  map u_id (t_rows (t_users (data (serve (DeleteUser "3")).2))) = [1; 2; 4] ∧
  map s_owner (t_rows (t_sites (data (serve (DeleteUser "3")).2))) = [None; Some 4] ∧
  (serve (DeleteUser "4")).1 = user_not_found ∧
  wp (serve_users (HA := plain_argon2) (λ _, Err "") (λ _ _, true) (DeleteUser "3") ann_context)
    (λ _ w', permitted (DeleteUser "3") (se_user ann_session) (data w) (data w')) w.
Proof.
  intros w serve. split; [vm_compute; reflexivity|]. split; [vm_compute; reflexivity|]. split; [vm_compute; reflexivity|].
  exact (admins_confined (HA := plain_argon2) (λ _, Err "") (λ _ _, true) (DeleteUser "3") ann_context ann_session (World office 0 [])
           eq_refl eq_refl office_wf).
Defined.

Definition key_token : string := join "" (repeat "0123456789abcdef" 4).
Definition key_request : request :=
  mkRequest "PATCH" "/" (λ k, if (k =? "Authorization")%string then "Bearer " +:+ key_token else "") (λ _, None)
    (λ _, "") "10.0.0.1" "10.0.0.1:5000".

Definition root_user : user_row := sample_user 1 "root" RoleSuperAdmin.
Definition new_hash : string := match HashPassword (HA := plain_argon2) (Ok "salt") "hunter2!" with Ok h => h | Err _ => "" end.

(** ann sets the password of the super administrator. *)
Lemma service_token_takes_over_witness :
  u_role root_user = RoleSuperAdmin ∧
  let '(made, w1) := create_service_token id (Some all_scopes) (Ok key_token) ann_context (World (newAuthHandler office) 0 []) in
  let '(done, w2) := set_password_of (HA := plain_argon2) id "1" "hunter2!" (Ok "salt") key_request (World (p_db (data w1)) 5 []) in
  status made = Some 201 ∧ done = done_with "updated" 1 ∧
  ∃ user', get_row 1 (t_users (data w2)) = Some user' ∧ u_username user' = u_username root_user ∧
    u_role user' = u_role root_user ∧ u_password user' = new_hash.
Proof.
  split; [reflexivity|].
  apply (service_token_takes_over (HA := plain_argon2) id key_token "1" "hunter2!" new_hash (Ok "salt") 1 0 5 ann_context
           (newAuthHandler office) root_user key_request).
  - intros t [].
  - vm_compute. reflexivity.
  - reflexivity.
  - reflexivity.
  - discriminate.
  - reflexivity.
Defined.

(** eve's site is out of ann's reach before, and in it after the request. *)
Lemma admin_reaches_every_site_witness :
  (checkSitePermission ann_context (sample_db_site 8 4) "read" (World office 0 [])).1 = false ∧
  wp (assignUserSite "2" (Some (8, "admin")) ann_context) (λ rep w',
    rep = grant_reply 2 8 "admin" ∧ may "admin" ann_context (sample_db_site 8 4) (data w')) (World office 0 []).
Proof.
  split; [reflexivity|].
  exact (admin_reaches_every_site "2" ann_context ann_session (set_created_by (Some 1) (sample_user 2 "ann" RoleAdmin)) (sample_db_site 8 4)
           office 0 eq_refl eq_refl eq_refl eq_refl eq_refl).
Defined.
