(* ===== verification/BillingApi.v ===== *)
(** The API of plans, orders and licences: src/internal/apihttp/plans.go, orders.go and
    licenses.go. *)
From S2P Require Import Prelude GoStr Json Clock Sql JobStore Accounts Sites Backups Servers BackupPlan Records Plans Extras Panel Frame Guards Http Access AppApi UsersApi.
Local Open Scope Z_scope.
Local Open Scope panel_scope.

Set Default Proof Using "Type".

Notation handler := (handler (D := db)).

Definition hasAdminRole (c : context) : bool :=
  match c_role c with Some role => (role =? "admin")%string || (role =? "super_admin")%string | None => false end.

(** * plans.go *)

Definition planToJSON (p : plan_row) : json := JObj [
  ("id", JInt (pl_id p)); ("name", JStr (pl_name p)); ("slug", JStr (pl_slug p)); ("price_idr", JInt (pl_price p));
  ("billing_cycle", JStr (pl_cycle p)); ("features", JStr (pl_features p)); ("is_active", JBool (pl_active p));
  ("created_at", JStr (format_seconds (pl_created p))); ("updated_at", JStr (format_seconds (pl_updated p)))].
Definition listPlans : handler := λ c,
  let* l := Plans.List (negb (hasAdminRole c)) in
  mret match l with Err _ => HTTPError 500 "failed to list plans" | Ok l => counted "plans" (map planToJSON l) end.

Record plan_body := mkPlanBody {
  pb_name : string; pb_slug : string; pb_price : Z; pb_cycle : string; pb_features : string; pb_active : option bool }.
(** The times of the plan are those of the struct, which the store does not fill in. *)
Definition createPlan (body : option plan_body) : handler := λ _,
  match body with
  | None => mret bad_body
  | Some b =>
      if (pb_name b =? "")%string || (pb_slug b =? "")%string then mret (HTTPError 400 "name and slug required") else
      let plan := Plans.mkPlan (pb_name b) (pb_slug b) (pb_price b)
                    (if (pb_cycle b =? "")%string then "monthly" else pb_cycle b)
                    (if (pb_features b =? "")%string then "{}" else pb_features b) (default true (pb_active b)) in
      let* r := Plans.Create plan in
      mret match r with
           | Err m => HTTPError 400 m
           | Ok id => Success 201 (planToJSON (PlanRow id (Plans.Name plan) (Plans.Slug plan) (Plans.PriceIDR plan)
                        (Plans.BillingCycle plan) (Plans.Features plan) (Plans.IsActive plan) zero_time zero_time))
           end
  end.

Definition plan_not_found : reply := HTTPError 404 "plan not found".
(** The plan of a path, by its id. *)
Definition with_plan (id : string) (k : Z → plan_row → M db reply) : M db reply :=
  if_id "invalid plan id" id (λ i,
  let* p := Plans.GetByID i in
  match p with Ok (Some plan) => k i plan | _ => mret plan_not_found end).
Definition getPlan (id : string) : handler := λ _, with_plan id (λ _ plan, mret (Success 200 (planToJSON plan))).

Record plan_patch := mkPlanPatch {
  pp_name : option string; pp_slug : option string; pp_price : option Z; pp_cycle : option string;
  pp_features : option string; pp_active : option bool }.
Definition updatePlan (id : string) (body : option plan_patch) : handler := λ _,
  with_plan id (λ i plan,
  match body with
  | None => mret bad_body
  | Some b =>
      let p := Plans.mkPlan (default (pl_name plan) (pp_name b)) (default (pl_slug plan) (pp_slug b))
                 (default (pl_price plan) (pp_price b)) (default (pl_cycle plan) (pp_cycle b))
                 (default (pl_features plan) (pp_features b)) (default (pl_active plan) (pp_active b)) in
      let* r := Plans.Update (pl_id plan) p in
      mret match r with
           | Err m => HTTPError 400 m
           | Ok _ => Success 200 (planToJSON (set_plan_row (Plans.Name p) (Plans.Slug p) (Plans.PriceIDR p)
                       (Plans.BillingCycle p) (Plans.Features p) (Plans.IsActive p) (pl_updated plan) plan))
           end
  end).
Definition deletePlan (id : string) : handler := λ _,
  if_id "invalid plan id" id (λ i,
  let* r := Plans.Delete i in
  mret match r with Err _ => HTTPError 500 "failed to delete plan" | Ok _ => done_with "deleted" i end).

(** * orders.go *)

Definition orderToJSON (o : order_row) (username planName : string) : json := JObj [
  ("id", JInt (or_id o)); ("user_id", JInt (or_user o)); ("username", JStr username); ("plan_id", JInt (or_plan o));
  ("plan_name", JStr planName); ("status", JStr (or_status o)); ("payment_method", null_str (or_method o));
  ("payment_proof", null_str (or_proof o)); ("amount_idr", JInt (or_amount o)); ("notes", null_str (or_notes o));
  ("admin_notes", null_str (or_admin_notes o)); ("approved_by", null_int (or_approved_by o));
  ("created_at", JStr (format_seconds (or_created o))); ("updated_at", JStr (format_seconds (or_updated o)))].

Definition username_of (i : Z) : M db string :=
  let* u := Users.GetByID i in mret match u with Ok (Some user) => u_username user | _ => "" end.
Definition plan_name_of (i : Z) : M db string :=
  let* p := Plans.GetByID i in mret match p with Ok (Some plan) => pl_name plan | _ => "" end.
(** A name through its cache, a map whose missing keys read as the empty text. *)
Definition cached (get : Z → M db string) (cache : Z → string) (i : Z) : M db (string * (Z → string)) :=
  if negb (cache i =? "")%string then mret (cache i, cache) else
  let* s := get i in mret (s, λ j, if j =? i then s else cache j).
Fixpoint named_orders (orders : list order_row) (users plans : Z → string) : M db (list json) :=
  match orders with
  | [] => mret []
  | o :: orders' =>
      let* u := cached username_of users (or_user o) in
      let* p := cached plan_name_of plans (or_plan o) in
      let* l := named_orders orders' u.2 p.2 in
      mret (orderToJSON o u.1 p.1 :: l)
  end.
(** [status]: the query parameter. *)
Definition listOrders (status : string) : handler := λ c,
  let list (user : Z) : M db reply :=
    let* l := Orders.List status user in
    match l with
    | Err _ => mret (HTTPError 500 "failed to list orders")
    | Ok l => let* out := named_orders l (λ _, "") (λ _, "") in mret (counted "orders" out)
    end in
  if hasAdminRole c then list 0 else with_user c list.

Record order_body := mkOrderBody { ob_plan : Z; ob_method : string; ob_proof : string; ob_notes : string }.
Definition non_empty (s : string) : option string := if (s =? "")%string then None else Some s.
Definition createOrder (body : option order_body) : handler := λ c,
  match body with
  | None => mret bad_body
  | Some b =>
      if ob_plan b <=? 0 then mret (HTTPError 400 "plan_id required") else
      let* p := Plans.GetByID (ob_plan b) in
      match p with
      | Ok (Some plan) =>
          if negb (pl_active plan) then mret (HTTPError 400 "plan is not active") else
          with_user c (λ user,
          let* r := Orders.Create (Orders.mkOrder user (ob_plan b) "pending" (non_empty (ob_method b)) (non_empty (ob_proof b))
                                     (pl_price plan) (non_empty (ob_notes b))) in
          mret match r with
               | Err _ => HTTPError 500 "failed to create order"
               | Ok id => Success 201 (orderToJSON (OrderRow id user (ob_plan b) "pending" (non_empty (ob_method b))
                            (non_empty (ob_proof b)) (pl_price plan) (non_empty (ob_notes b)) None None zero_time zero_time)
                            "" (pl_name plan))
               end)
      | _ => mret plan_not_found
      end
  end.

Definition order_not_found : reply := HTTPError 404 "order not found".
Definition getOrder (id : string) : handler := λ c,
  if_id "invalid order id" id (λ i,
  let* o := Orders.GetByID i in
  match o with
  | Ok (Some order) =>
      let show : M db reply :=
        let* username := username_of (or_user order) in
        let* planName := plan_name_of (or_plan order) in
        mret (Success 200 (orderToJSON order username planName)) in
      if hasAdminRole c then show else
      with_user c (λ user, if negb (or_user order =? user) then mret order_not_found else show)
  | _ => mret order_not_found
  end).

Definition validStatuses : list string := ["pending"; "approved"; "rejected"; "expired"].
(** [body]: the status and the notes of the administrator. *)
Definition updateOrderStatus (id : string) (body : option (string * string)) : handler := λ c,
  if_id "invalid order id" id (λ i,
  match body with
  | None => mret bad_body
  | Some (status, notes) =>
      if negb (str_in validStatuses status)
      then mret (HTTPError 400 "invalid status: must be pending, approved, rejected, or expired") else
      let* o := Orders.GetByID i in
      match o with
      | Ok (Some _) =>
          with_user c (λ user,
          let* r := Orders.UpdateStatus i status notes user in
          mret match r with
               | Err _ => HTTPError 500 "failed to update order"
               | Ok _ => Success 200 (JObj [("updated", JBool true); ("id", JInt i); ("status", JStr status)])
               end)
      | _ => mret order_not_found
      end
  end).

(** * licenses.go *)

Definition tier_of (l : option license_row) : string := match l with Some r => li_tier r | None => TierFree end.
Definition masked_key (key : string) : string :=
  if (8 <? String.length key)%nat then String.substring 0 8 key +:+ "..." else key.
Definition getLicense : handler := λ _,
  let* r := Licenses.GetActive in
  match r with
  | Err _ => mret (HTTPError 500 "failed to get license")
  | Ok license =>
      let tier := tier_of license in
      let limits := default (0, 0) (assoc tier TierLimits) in
      let* servers := Servers.List in
      let opt_time (f : license_row → option Z) := null_str (format_seconds <$> (license ≫= f)) in
      mret (Success 200 (JObj [("tier", JStr tier); ("tier_name", JStr (default "" (assoc tier TierDescriptions)));
        ("key", null_str (license ≫= λ l, if (8 <? String.length (li_key l))%nat then Some (masked_key (li_key l)) else None));
        ("activated_at", opt_time li_activated); ("expires_at", opt_time li_expires);
        ("features", JObj (map (λ p, (p.1, JBool p.2)) (TierFeatures tier)));
        ("limits", JObj [
           ("servers", JObj [("current", JInt match servers with Ok l => Z.of_nat (length l) | Err _ => 0 end); ("max", JInt limits.1)]);
           ("sites", JObj [("current", JInt 0); ("max", JInt limits.2)])])]))
  end.

Definition hex_digit (c : ascii) : bool :=
  chr_in "0123456789abcdefABCDEF" c.
Definition activateLicense (key : option string) : handler := λ _,
  match key with
  | None => mret bad_body
  | Some key =>
      if (key =? "")%string then mret (HTTPError 400 "license key is required")
      else if (String.length key <? 32)%nat then mret (HTTPError 400 "license key must be at least 32 characters")
      else if negb (str_all hex_digit key) then mret (HTTPError 400 "license key must be a valid hex string")
      else
        let* r := Licenses.Deactivate in
        match r with
        | Err _ => mret (HTTPError 500 "failed to deactivate old license")
        | Ok _ =>
            let* r := Licenses.Activate key TierPro 10 in
            mret match r with
                 | Err _ => HTTPError 500 "failed to activate license"
                 | Ok _ => Success 200 (JObj [("status", JStr "activated"); ("tier", JStr TierPro); ("key", JStr (masked_key key))])
                 end
        end
  end.
Definition deactivateLicense : handler := λ _,
  let* r := Licenses.Deactivate in
  mret match r with
       | Err _ => HTTPError 500 "failed to deactivate license"
       | Ok _ => Success 200 (JObj [("status", JStr "deactivated"); ("tier", JStr TierFree)])
       end.
(** The features come in the order of Go's map, which is not fixed: here that of the source. *)
Definition getFeatures : handler := λ _,
  let* r := Licenses.GetActive in
  let tier := match r with Ok l => tier_of l | Err _ => TierFree end in
  mret (Success 200 (JObj [("current_tier", JStr tier);
    ("features", JArr (map (λ p, JObj [("name", JStr p.1); ("available", JBool (HasFeature tier p.1));
                                       ("required_tier", JStr p.2)]) FeatureTierMap))])).

(** * Facts *)

(** A time that was never set. *)
Example zero_time_shown : format_seconds zero_time = "0001-01-01T00:00:00Z".
Proof. by vm_compute. Qed.

(** ** Orders *)

Definition shows (l : list order_row) (out : list json) : Prop := Forall2 (λ o j, ∃ u p, j = orderToJSON o u p) l out.

Lemma frame_cached (get : Z → M db string) (cache : Z → string) (i : Z) :
  (∀ j, frame (λ d : db, d) (get j)) → frame (λ d : db, d) (cached get cache i).
Proof. intros Hg. unfold cached. frame_auto. Qed.
Lemma frame_username (i : Z) : frame (λ d : db, d) (username_of i).
Proof. unfold username_of, Users.GetByID, Users.scan_query. frame_auto. Qed.
Lemma frame_plan_name (i : Z) : frame (λ d : db, d) (plan_name_of i).
Proof. unfold plan_name_of, Plans.GetByID. frame_auto. Qed.

Lemma named_orders_spec (l : list order_row) (users plans : Z → string) (w : world db) :
  wp (named_orders l users plans) (λ out w', data w' = data w ∧ shows l out) w.
Proof.
  revert users plans w. induction l as [|o l IH]; intros users plans w; cbn [named_orders]; [wp_step; split; [done|constructor]|].
  wp_step. eapply wp_mono; [|exact (frame_cached _ users (or_user o) frame_username w)]. intros u w1 [E1 _].
  wp_step. eapply wp_mono; [|exact (frame_cached _ plans (or_plan o) frame_plan_name w1)]. intros p w2 [E2 _].
  wp_step. eapply wp_mono; [|apply IH]. intros out w3 [E3 H]. wp_step. split; [congruence|].
  constructor; [by do 2 eexists|done].
Qed.

(** The list of orders behind [RequireAuth] alone, which puts no role into the context: a
    user, administrators included, is shown their own orders, the newest first, and a
    service token, whatever its scopes, those of everybody. *)
Theorem listOrders_spec (c : context) (sess : session_row) (status : string) (w : world db)
    (Hs : c_session c = Some sess) (Hr : c_role c = None) :
  wp (listOrders status c) (λ rep w', data w' = data w ∧
    (rep = HTTPError 500 "failed to list orders" ∨
     ∃ out, rep = counted "orders" out ∧
       shows (select_desc (λ o, (if (status =? "")%string then true else (or_status o =? status)%string) &&
                                (if 0 <? se_user sess then or_user o =? se_user sess else true)) (t_orders (data w))) out)) w.
Proof.
  unfold listOrders, hasAdminRole, with_user. rewrite Hr, Hs. unfold Orders.List. wp_step. wp_step. wp_step; [wp_step; by auto|].
  wp_step. eapply wp_mono; [|apply named_orders_spec]. intros out w1 [E H]. wp_step. split; [done|]. right.
  exists out. split; [done|]. revert H. unfold shows, Orders.order_filter. by destruct (status =? "")%string.
Qed.

(** An order is placed for the caller, pending, at the price of a plan on sale; or nothing
    changes. *)
Theorem createOrder_spec (body : option order_body) (c : context) (w : world db) :
  wp (createOrder body c) (λ _ w', data w' = data w ∨
    ∃ sess b plan o, c_session c = Some sess ∧ body = Some b ∧ get_row (ob_plan b) (t_plans (data w)) = Some plan ∧
      pl_active plan = true ∧ has_row (by_id (se_user sess)) (t_users (data w)) = true ∧
      or_user o = se_user sess ∧ or_plan o = ob_plan b ∧ or_status o = "pending" ∧ or_amount o = pl_price plan ∧
      data w' = set_tab (Table (t_rows (t_orders (data w)) ++ [o]) (t_seq (t_orders (data w)) + 1)) (data w)) w.
Proof.
  unfold createOrder, with_user. destruct body as [b|]; [|wp_step; by left]. wp_step; [wp_step; by left|].
  unfold Plans.GetByID. wp_step. wp_step. wp_step; [wp_step; by left|].
  destruct (get_row (ob_plan b) (tab (data w))) as [plan|] eqn:Ep; [|wp_step; by left].
  destruct (pl_active plan) eqn:Ea; cbn [negb]; [|wp_step; by left].
  destruct (c_session c) as [sess|] eqn:Es; [|wp_step; by left].
  unfold Orders.Create. wp_step. wp_step. wp_step; [wp_step; by left|]. cbn [Orders.UserID Orders.PlanID data].
  destruct (has_row (by_id (se_user sess)) _ && _) eqn:Eh; cbn; [right|by left].
  apply andb_prop in Eh as [Eh _].
  exists sess, b, plan. eexists. do 5 (split; [done|]). do 4 (split; [shelve|]). reflexivity.
  Unshelve. all: reflexivity.
Qed.

(** ** Licences *)

Lemma deactivated (s : Z) (f : license_row → license_row) (t : table license_row) :
  (∀ r, li_activated (f r) = None) → select_where (Licenses.in_force s) (update_where Licenses.activated f t) = [].
Proof.
  intros Hf. unfold select_where, update_where. cbn. induction (t_rows t) as [|r l IH]; cbn; [done|].
  destruct (Licenses.activated r) eqn:E; unfold Licenses.in_force; [|by rewrite E].
  assert (Licenses.activated (f r) = false) as ->; [|done]. unfold Licenses.activated. by rewrite Hf.
Qed.
Lemma no_key (key : string) (p : license_row → bool) (f : license_row → license_row) (t : table license_row) :
  (∀ r, li_key (f r) = li_key r) → (∀ r, In r (t_rows t) → li_key r ≠ key) →
  ∀ r, In r (t_rows (update_where p f t)) → Licenses.has_key key r = false.
Proof.
  intros Hf H r (r0 & <- & Hr)%in_map_iff. apply String.eqb_neq. destruct (p r0); rewrite ?Hf; by apply H.
Qed.

(** Nobody asks who issued a licence: any text of thirty-two hexadecimal digits that was
    not used before is one of the tier pro, which does not expire. *)
Theorem activateLicense_spec (key : string) (c : context) (d : db) (n : Z)
    (Hw : table_wf (t_licenses d)) (Hlen : (32 ≤ String.length key)%nat) (Hhex : str_all hex_digit key = true)
    (Hfresh : ∀ r, In r (t_rows (t_licenses d)) → li_key r ≠ key) :
  let '(rep, w') := activateLicense (Some key) c (World d n []) in
  status rep = Some 200 ∧ ∃ l, (Licenses.GetActive w').1 = Ok (Some l) ∧ li_key l = key ∧ li_expires l = None ∧
    IsPro (tier_of (Some l)) = true.
Proof.
  unfold activateLicense. destruct (String.eqb_spec key "") as [->|_]; [cbn in Hlen; lia|].
  rewrite (proj2 (Nat.ltb_ge _ _) Hlen), Hhex. cbn [negb].
  unfold Licenses.Deactivate, Licenses.Activate, Licenses.GetActive, update_tab, update_tab_n, wrap, query, exec, insert_checked, mbind, mret.
  rewrite stmt_ok. cbv beta iota zeta. rewrite stmt_ok. cbv beta iota zeta. rewrite tab_set.
  change (tab (A := license_row) d) with (t_licenses d). set (t1 := update_where Licenses.activated _ (t_licenses d)).
  assert (∀ r, In r (t_rows t1) → Licenses.has_key key r = false) as H1 by by apply no_key.
  rewrite (count_where_zero (Licenses.has_key key) t1 H1). change (0 <? 0) with false. cbv beta iota zeta.
  rewrite stmt_ok. cbv beta iota zeta. rewrite tab_set. rewrite stmt_ok. rewrite !tab_set.
  set (t3 := update_where Licenses.activated _ (update_where (Licenses.has_key key) _ t1)).
  assert (table_wf t3) as Hw3 by (by repeat apply update_wf).
  assert (∀ r, In r (t_rows t3) → Licenses.has_key key r = false) as H3.
  { apply no_key; [done|]. intros r Hr. apply String.eqb_neq. revert r Hr. apply no_key; [done|].
    intros r Hr. by apply String.eqb_neq, H1. }
  assert (has_row (Licenses.has_key key) t3 = false) as -> by (apply existsb_False, List.Forall_forall; exact H3).
  cbn [negb insert_row]. rewrite stmt_ok. cbv beta iota zeta. rewrite tab_set.
  set (l := LicenseRow _ key _ _ _ _ _ _). set (t4 := Table _ _).
  assert (get_row (t_seq t3 + 1) t4 = Some l) as ->.
  { apply get_row_spec; [exact (insert_wf (λ i, LicenseRow i key TierPro (Some (current_timestamp n)) None 10 "{}" (current_timestamp n)) t3 (λ _, eq_refl) Hw3)|].
    split; [apply in_app_iff; right; by left|done]. }
  split; [done|]. rewrite stmt_ok. cbn [fst]. rewrite tab_set. exists l. split; [|done].
  unfold select_where. cbn [t4 t_rows]. rewrite List.filter_app.
  pose proof (deactivated (current_timestamp n) (set_li_activated None)
                (update_where (Licenses.has_key key) (set_li_active TierPro 10 (Some (current_timestamp n))) t1) (λ _, eq_refl)) as E.
  unfold select_where in E. fold t3 in E. rewrite E. done.
Qed.
