(* ===== verification/BackupsApi.v ===== *)
(** The API of backups: src/internal/apihttp/backups.go and the backup of a site of
    backup_providers.go, on the database and the files of the panel's host. *)
From S2P Require Import Prelude GoStr Json Clock Secrets Sql JobStore Accounts Sites Backups Servers BackupPlan Records Plans Extras Panel Agent Worker Scheduler Guards Http Access SitesApi AppApi SiteTools UsersApi.
Local Open Scope Z_scope.
Local Open Scope panel_scope.

Set Default Proof Using "Type".

(** A backup with the site of its row, which is joined by the same statement. *)
Definition with_site_rows (m : M db (res (list backup_row))) : M db (res (list (backup_row * option site_row))) := λ w,
  let '(r, w') := m w in
  (match r with Ok l => Ok (map (λ b, (b, get_row (b_site b) (t_sites (data w')))) l) | Err e => Err e end, w').

Definition backupToMap (p : backup_row * option site_row) : json :=
  let '(b, site) := p in
  let field (k : string) (s : string) := if (s =? "")%string then [] else [(k, JStr s)] in
  JObj ([("id", JInt (b_id b)); ("site_id", JInt (b_site b));
         ("site", JObj [("name", JStr (default "" (s_name <$> site))); ("domain", JStr (default "" (s_domain <$> site)))]);
         ("status", JStr (b_status b)); ("backup_type", JStr (Backups.type_of b)); ("storage_type", JStr (b_storage_type b));
         ("size_bytes", JInt (b_size b)); ("file_count", JInt (b_file_count b)); ("created_at", JSeconds (b_created b));
         ("progress", JStr (default "" (b_progress b)))] ++
        opt_str "storage_path" (b_storage_path b) ++ field "s3_path" (default "" (b_s3_path b)) ++
        match b_completed b with Some t => [("completed_at", JSeconds t)] | None => [] end ++
        opt_str "error" (b_error b)).

Section BackupsApi.
Context `{HC : PayloadCipher} `{HA : AEAD}.
(** As in Backups.v: what LastInsertId says after an INSERT without a row; as in Records.v: a
    connection to a database server. *)
Context (last_rowid : Z) (accessible : db_server_row → string → string → res bool).
Notation handler := (handler (D := db)).

Definition already_running (message : string) : reply :=
  Success 409 (JObj [("status", JStr "already_running"); ("message", JStr message)]).
Definition site_busy : reply := already_running "A backup for this site is already in progress".
Definition hasPendingBackup (site : Z) : M db bool :=
  let* l := Backups.ListBySite site 50 0 in
  mret match l with Ok l => existsb (λ b, Backups.in_progress (b_status b)) l | Err _ => false end.

Definition pending (site : Z) (storage : string) (path : option string) (type : string) : Backups.BackupInput :=
  Backups.mkBackup site "pending" storage path type None.
Definition audit_backup (c : context) (action : string) (id : Z) : M db () := Audit.RecordAction (caller c) action "backup" id None.
(** The job of a site for a backup, or an internal error. *)
Definition site_task (site : site_row) (type descr payload : string) : Job := job_of (s_server site) (s_id site) type descr payload.

(** * Backups of a site *)

(** [fmt.Sprintf] with [%q]. *)
Definition quoted_member (k v : string) : string := "," +:+ String DQ k +:+ String DQ ":" +:+ go_quote v.
Definition int_members (backup site : Z) : string :=
  String "{" (String DQ "backup_id") +:+ String DQ ":" +:+ itoa backup +:+ "," +:+ String DQ "site_id" +:+ String DQ ":" +:+ itoa site.
Definition create_backup (id : string) : handler := λ c,
  with_site "invalid site id" internal id (λ i site, if_accessible c site (
    let* busy := hasPendingBackup i in
    if busy : bool then mret site_busy else
    let* b := Backups.Create last_rowid (pending i "local" None "files") in
    match b with
    | Err e => mret (if (e =? Backups.ErrDuplicateBackup)%string then site_busy else internal)
    | Ok bid =>
        let payload := int_members bid (s_id site) +:+ quoted_member "domain" (s_domain site) +:+
                       quoted_member "root_path" (s_root_path site) +:+ "}" in
        enqueue (site_task site TypeBackupCreate ("Backup files for " +:+ s_domain site) payload) (λ jobID,
          let* _ := audit_backup c "backup_create" bid in
          mret (Success 202 (JObj [("backup_id", JInt bid); ("job_id", JInt jobID); ("status", JStr "pending")])))
    end)).

(** The storage of a request: the provider that is named, or the default one. *)
Definition chosen_provider (id : Z) : M db (option provider_row + reply) :=
  if 0 <? id then
    let* p := BackupProviders.GetByID id in
    mret match p with
         | Err _ => inr internal
         | Ok None => inr (HTTPError 400 "storage provider not found")
         | Ok (Some p) => inl (Some p)
         end
  else let* p := found BackupProviders.GetDefault in mret (inl p).
Definition upload_payload (backup : Z) (storage : string) (site : site_row) (provider : option provider_row) : string :=
  marshal_map (with_s3 provider (site_members backup site ++ [("storage", JStr storage); ("failover", JBool false)])).

(** [provider]: that of the body, 0 without one or when the body cannot be read. *)
Definition createWithProvider (id : string) (provider : Z) : handler := λ c,
  with_site "invalid site id" internal id (λ i site, if_accessible c site (
    let* p := chosen_provider provider in
    match p with
    | inr rep => mret rep
    | inl p =>
        let storage := provider_type p in
        let* b := Backups.Create last_rowid (pending i storage None "") in
        match b with
        | Err _ => mret internal
        | Ok bid =>
            enqueue (site_task site TypeBackupCreate ("Backup files for " +:+ s_domain site) (upload_payload bid storage site p)) (λ jobID,
              let* _ := audit_backup c "backup_create" bid in
              mret (Success 202 (JObj [("backup_id", JInt bid); ("job_id", JInt jobID); ("status", JStr "pending");
                                       ("storage", JStr storage)])))
        end
    end)).

(** [id]: the parameter of the path; [site_id]: that of the query.  A text that is no number
    is what [strconv] returns with the error. *)
Definition list_site_id (id site_id : string) : Z :=
  let n := if (id =? "")%string then 0 else (atoi id).1 in
  if (n <=? 0) && negb (site_id =? "")%string then (atoi site_id).1 else n.
Definition backup_reply (l : list (backup_row * option site_row)) : reply :=
  Success 200 (JObj [("backups", JArr (map backupToMap l)); ("count", JInt (Z.of_nat (length l)))]).
Definition list_backups (id site_id : string) : handler := λ c,
  let i := list_site_id id site_id in
  let show (m : M db (res (list backup_row))) : M db reply :=
    let* l := with_site_rows m in mret match l with Err _ => internal | Ok l => backup_reply l end in
  if 0 <? i then
    let* s := Sites.GetByID i in
    match s with
    | Ok (Some site) => if_accessible c site (show (Backups.ListBySite i 100 0))
    | _ => mret not_found
    end
  else show (Backups.ListAll 100 0).

(** * One backup *)

Definition backup_not_found : reply := HTTPError 404 "backup not found".
(** The backup of a path with its site, for a caller with access to it. *)
Definition with_backup (id : string) (c : context) (k : backup_row → site_row → M db reply) : M db reply :=
  if_id "invalid id" id (λ i,
  let* b := Backups.GetByID i in
  match b with
  | Err _ => mret internal
  | Ok None => mret backup_not_found
  | Ok (Some backup) =>
      let* s := Sites.GetByID (b_site backup) in
      match s with
      | Ok (Some site) => let* ok := canAccess c site in if negb ok then mret backup_not_found else k backup site
      | _ => mret not_found
      end
  end).
Definition if_completed (backup : backup_row) (k : M db reply) : M db reply :=
  if negb (b_status backup =? "completed")%string
  then mret (HTTPError 409 ("backup not completed (status=" +:+ b_status backup +:+ ")")) else k.

(** The provider of a site, or else the default one; errors are none. *)
Definition provider_of_site (site : site_row) : M db (option provider_row) :=
  let* own := match s_backup_provider site with
              | Some p => if 0 <? p then found (BackupProviders.GetByID p) else mret None
              | None => mret None
              end in
  match own with Some p => mret (Some p) | None => found BackupProviders.GetDefault end.

Definition restore_path (backup : backup_row) : string :=
  let s3 := default "" (b_s3_path backup) in
  if (s3 =? "")%string then default "" (b_storage_path backup) else s3.
Definition restore (id : string) : handler := λ c,
  with_backup id c (λ backup site, if_completed backup (
    let path := restore_path backup in
    let* provider := if has_prefix path "s3://" && negb (b_storage_type backup =? "local")%string
                     then provider_of_site site else mret None in
    let payload := marshal_map (with_s3 provider
      [("backup_id", JInt (b_id backup)); ("site_id", JInt (s_id site)); ("domain", JStr (s_domain site));
       ("backup_path", JStr path); ("root_path", JStr (s_root_path site))]) in
    enqueue (site_task site TypeBackupRestore "" payload) (λ jobID,
      let* _ := audit_backup c "backup_restore" (b_id backup) in
      mret (Success 202 (JObj [("backup_id", JInt (b_id backup)); ("job_id", JInt jobID)]))))).

(** * Backups of many sites *)

Record bulk_body := mkBulk { bb_sites : list Z; bb_provider : Z; bb_type : string }.
Definition failed (site : Z) (message : string) : json * bool :=
  (JObj [("site_id", JInt site); ("error", JStr message)], false).
(** The databases of a site, one entry each. *)
Definition bulk_db (c : context) (site : site_row) (storage : string) (provider : option provider_row) (dbase : database_row) : M db json :=
  let problem (m : string) := JObj [("type", JStr "database"); ("database", JStr (db_name dbase)); ("error", JStr m)] in
  let* cr := DatabaseBackupCredentials dbase in
  match cr with
  | Err _ => mret (problem "database backup credential unavailable")
  | Ok (user, password) =>
      let* b := Backups.Create last_rowid (pending (s_id site) ("database_" +:+ storage) None "database") in
      match b with
      | Err _ => mret (problem "failed to create backup record")
      | Ok bid =>
          let* j := JobStore.Create (site_task site TypeDBBackupCreate ("Backup database " +:+ s_domain site)
                                       (db_payload bid site dbase user password provider)) in
          match j with
          | Err _ => mret (problem "failed to create backup job")
          | Ok jobID =>
              let* _ := audit_backup c "db_backup_create" bid in
              mret (JObj [("type", JStr "database"); ("database", JStr (db_name dbase)); ("backup_id", JInt bid);
                          ("job_id", JInt jobID); ("status", JStr "pending")])
          end
      end
  end.
Fixpoint collect {A B} (f : A → M db B) (l : list A) : M db (list B) :=
  match l with [] => mret [] | x :: l' => let* y := f x in let* ys := collect f l' in mret (y :: ys) end.
(** The files of a site: its entry, or what is said of a failure. *)
Definition bulk_files (c : context) (site : site_row) (storage : string) (provider : option provider_row) : M db (json + string) :=
  let* b := Backups.Create last_rowid (pending (s_id site) storage None "files") in
  match b with
  | Err _ => mret (inr "failed to create backup record")
  | Ok bid =>
      let* j := JobStore.Create (site_task site TypeBackupCreate ("Backup files for " +:+ s_domain site)
                                   (upload_payload bid storage site provider)) in
      match j with
      | Err _ => mret (inr "failed to create backup job")
      | Ok jobID =>
          let* _ := audit_backup c "backup_create" bid in
          mret (inl (JObj [("type", JStr "files"); ("backup_id", JInt bid); ("job_id", JInt jobID); ("status", JStr "pending");
                           ("storage", JStr storage)]))
      end
  end.
(** One site: its result, and whether it counts as created. *)
Definition bulk_site (c : context) (type storage : string) (provider : option provider_row) (i : Z) : M db (json * bool) :=
  if i <=? 0 then mret (failed i "invalid site id") else
  let* s := Sites.GetByID i in
  match s with
  | Err _ => mret (failed i "internal error")
  | Ok None => mret (failed i "site not found")
  | Ok (Some site) =>
      let* ok := canAccess c site in
      if negb ok then mret (failed i "access denied") else
      let* files := if (type =? "files")%string || (type =? "both")%string
                    then let* f := bulk_files c site storage provider in mret match f with inl j => inl [j] | inr m => inr m end
                    else mret (inl []) in
      match files with
      | inr m => mret (failed i m)
      | inl files =>
          let* dbs := if (type =? "database")%string || (type =? "both")%string
                      then let* l := Databases.ListBySite i in
                           match or_none l with
                           | [] => mret (if (type =? "database")%string then None else Some [])
                           | l => let* js := collect (bulk_db c site storage provider) l in mret (Some js)
                           end
                      else mret (Some []) in
          mret match dbs with
               | None => failed i "no databases found for site"
               | Some dbs => (JObj ([("site_id", JInt i)] ++
                                    match files ++ dbs with [] => [] | l => [("backups", JArr l)] end), true)
               end
      end
  end.
Definition bulkCreate (body : option bulk_body) : handler := λ c,
  match body with
  | None | Some (mkBulk [] _ _) => mret (HTTPError 400 "site_ids required and must be non-empty")
  | Some b =>
      let type := if (bb_type b =? "")%string then "files" else bb_type b in
      if negb (str_in ["files"; "database"; "both"] type)
      then mret (HTTPError 400 "backup_type must be 'files', 'database', or 'both'") else
      let* p := chosen_provider (bb_provider b) in
      match p with
      | inr rep => mret rep
      | inl provider =>
          let* results := collect (bulk_site c type (provider_type provider) provider) (bb_sites b) in
          let created := length (List.filter snd results) in
          mret (Success 202 (JObj [("total", JInt (Z.of_nat (length (bb_sites b)))); ("created", JInt (Z.of_nat created));
                                   ("failed", JInt (Z.of_nat (length results - created)));
                                   ("backups", JArr (map fst results))]))
      end
  end.

(** * Backups of the databases of a site *)

Definition names_database (name : string) (b : backup_row) : bool :=
  bool_decide (b_storage_path b = Some name) && Backups.in_progress (b_status b).
(** The databases without a backup in progress; the record of such a backup has the name of
    the database as its path. *)
Fixpoint without_pending (site : Z) (l : list database_row) : M db (list database_row) :=
  match l with
  | [] => mret []
  | dbase :: l' =>
      let* existing := Backups.ListBySite site 10 0 in
      let busy := existsb (names_database (db_name dbase)) (or_none existing) in
      let* rest := without_pending site l' in
      mret (if busy then rest else dbase :: rest)
  end.
Definition db_provider (provider : Z) (site : site_row) : M db (option provider_row) :=
  if 0 <? provider then found (BackupProviders.GetByID provider)
  else match s_backup_provider site with
       | Some p => if 0 <? p then found (BackupProviders.GetByID p) else found BackupProviders.GetDefault
       | None => found BackupProviders.GetDefault
       end.
Definition s3_text (provider : option provider_row) : string :=
  match provider with
  | None => ""
  | Some p =>
      "," +:+ String DQ "s3_config" +:+ String DQ ":{" +:+ String DQ "bucket" +:+ String DQ ":" +:+ go_quote (pv_bucket p) +:+
      quoted_member "endpoint" (pv_endpoint p) +:+ quoted_member "region" (pv_region p) +:+
      quoted_member "access_key" (pv_access_key p) +:+ quoted_member "secret_key" (pv_secret_key p) +:+ "}"
  end.
Definition quoted_db_payload (backup : Z) (site : site_row) (dbase : database_row) (user password : string)
    (provider : option provider_row) : string :=
  int_members backup (s_id site) +:+ quoted_member "domain" (s_domain site) +:+ quoted_member "root_path" (s_root_path site) +:+
  quoted_member "db_name" (db_name dbase) +:+ quoted_member "db_type" (db_type dbase) +:+ quoted_member "db_user" user +:+
  quoted_member "db_password" password +:+ s3_text provider +:+ "}".
(** One database: the ids of the backup and of its job, or nothing. *)
Definition database_backup (site : site_row) (provider : Z) (dbase : database_row) : M db (option (Z * Z)) :=
  let* e := BackupDatabaseExists accessible dbase in
  match e with
  | Ok true =>
      let* cr := DatabaseBackupCredentials dbase in
      match cr with
      | Err _ => mret None
      | Ok (user, password) =>
          let* p := db_provider provider site in
          let* b := Backups.Create last_rowid (pending (s_id site) (provider_type p) (Some (db_name dbase)) "database") in
          match b with
          | Err _ => mret None
          | Ok bid =>
              let* j := JobStore.Create (site_task site TypeDBBackupCreate ("Backup database for " +:+ s_domain site)
                                           (quoted_db_payload bid site dbase user password p)) in
              mret match j with Err _ => None | Ok jobID => Some (bid, jobID) end
          end
      end
  | _ => mret None
  end.
(** The databases a request names: the one of the body, or all of the site. *)
Definition target_databases (site database : Z) : M db (list database_row + reply) :=
  if 0 <? database then
    let* d := Databases.GetByID database in
    mret match d with
         | Err _ => inr internal
         | Ok None => inr (HTTPError 404 "database not found")
         | Ok (Some d) => if negb (db_site d =? site) then inr (HTTPError 400 "database does not belong to this site") else inl [d]
         end
  else
    let* l := Databases.ListBySite site in
    mret match l with
         | Err _ => inr internal
         | Ok [] => inr (HTTPError 400 "no databases found for this site")
         | Ok l => inl l
         end.
(** [body]: the database and the provider. *)
Definition createDatabaseBackup (id : string) (body : option (Z * Z)) : handler := λ c,
  with_site "invalid site id" internal id (λ i site, if_accessible c site (
    match body with
    | None => mret bad_body
    | Some (database, provider) =>
        let* t := target_databases i database in
        match t with
        | inr rep => mret rep
        | inl targets =>
            let* targets := without_pending i targets in
            match targets with
            | [] => mret (already_running "All databases already have a backup in progress")
            | d :: rest =>
                let* made := collect (database_backup site provider) targets in
                let* _ := audit_backup c "database_backup_create" i in
                let ids := omap (λ x, x) made in
                mret (Success 202 (JObj [("backup_ids", slice (map (λ p, JInt p.1) ids)); ("job_ids", slice (map (λ p, JInt p.2) ids));
                  ("status", JStr "pending");
                  ("message", JStr match rest with
                                   | [] => "Database backup started for " +:+ db_name d
                                   | _ => "Database backup started for " +:+ itoa (Z.of_nat (length targets)) +:+ " database(s)"
                                   end);
                  ("count", JInt (Z.of_nat (length targets)))]))
            end
        end
    end)).

(** * Files of the panel's host *)

(** [with_backup] on the host. *)
Definition host_backup {R} (refuse : reply → R) (id : string) (c : context) (k : backup_row → site_row → M machine R) : M machine R :=
  match parse_id id with
  | None => mret (refuse (HTTPError 400 "invalid id"))
  | Some i =>
      let* b := on_db (Backups.GetByID i) in
      match b with
      | Err _ => mret (refuse internal)
      | Ok None => mret (refuse backup_not_found)
      | Ok (Some backup) =>
          let* s := on_db (Sites.GetByID (b_site backup)) in
          match s with
          | Ok (Some site) =>
              let* ok := on_db (canAccess c site) in
              if negb ok then mret (refuse backup_not_found) else k backup site
          | _ => mret (refuse not_found)
          end
      end
  end.
(** What follows the last slash. *)
Definition base_name (path : string) : string := List.last (split "/" path) "".
(** The answer, or the content of the file; the columns hold texts, NULL as none. *)
Definition download (id : string) (c : context) : M machine (reply + string) :=
  host_backup inl id c (λ backup site,
    if negb (b_status backup =? "completed")%string
    then mret (inl (HTTPError 409 ("backup not completed (status=" +:+ b_status backup +:+ ")"))) else
    let local := default "" (b_storage_path backup) in
    let s3 := default "" (b_s3_path backup) in
    if (local =? "")%string && (s3 =? "")%string then mret (inl (HTTPError 404 "backup file not available")) else
    let path := if (local =? "")%string then s3 else local in
    if has_prefix path "s3://" then
      let* p := on_db (provider_of_site site) in
      mret (inl match p with
                | None => HTTPError 500 "S3 provider not configured"
                | Some p => Success 200 (JObj [("type", JStr "s3"); ("s3_path", JStr path); ("bucket", JStr (pv_bucket p));
                              ("endpoint", JStr (pv_endpoint p)); ("region", JStr (pv_region p)); ("file_name", JStr (base_name path))])
                end)
    else
      let* f := read_file path in
      mret match f with Ok content => inr content | Err _ => inl (HTTPError 404 "backup file not found on disk") end).
(** The removal of the object in the bucket of the default provider by [aws s3 rm], whose
    outcome is only logged, is left out. *)
Definition delete_backup (id : string) (c : context) : M machine reply :=
  host_backup (λ r, r) id c (λ backup site,
    let* _ := if (default "" (b_s3_path backup) =? "")%string then mret None else on_db (found BackupProviders.GetDefault) in
    let local := default "" (b_storage_path backup) in
    let* _ := if negb (local =? "")%string && negb (has_prefix local "s3://")
              then let* _ := remove_file local in mret () else mret () in
    let* r := on_db (Backups.Delete (b_id backup)) in
    match r with
    | Err _ => mret internal
    | Ok _ =>
        let* _ := on_db (audit_backup c "backup_delete" (b_id backup)) in
        mret (Success 200 (JObj [("deleted", JBool true)]))
    end).
End BackupsApi.

(** * The retention *)

Definition setting_or (d : Z) (r : res string) : Z :=
  let n := match r with Ok s => default 0 (Sscanf_d s) | Err _ => 0 end in if n <=? 0 then d else n.
Definition retention_reply (days keepLast : Z) : reply :=
  Success 200 (JObj [("retention_days", JInt days); ("keep_last_per_site", JInt keepLast)]).
Definition getRetention : Http.handler (D := db) := λ _,
  let* v := Settings.GetSetting "retention_days" in
  let days := match v with Ok s => if (s =? "")%string || (s =? "0")%string then "30" else s | Err _ => "30" end in
  let* k := Settings.GetSetting "keep_last_per_site" in
  mret (retention_reply (default 0 (Sscanf_d days)) (setting_or 3 k)).
(** [body]: the days and how many backups of a site are kept. *)
Definition setRetention (body : option (Z * Z)) : Http.handler (D := db) := λ _,
  match body with
  | None => mret bad_body
  | Some (days, keepLast) =>
      if negb (days =? 0) && (days <? 7) then mret (HTTPError 400 "retention_days must be 0 (disabled) or at least 7 days") else
      if 3650 <? days then mret (HTTPError 400 "retention_days must be <= 3650") else
      let saved {A} (m : M db (res A)) (k : M db reply) :=
        let* r := m in match r with Err _ => mret (HTTPError 500 "failed to save setting") | Ok _ => k end in
      saved (Settings.SetSetting "retention_days" (itoa days)) (
      if keepLast <? 0 then mret (HTTPError 400 "keep_last_per_site must be >= 0") else
      if 0 <? keepLast then saved (Settings.SetSetting "keep_last_per_site" (itoa keepLast)) (mret (retention_reply days keepLast))
      else let* v := Settings.GetSetting "keep_last_per_site" in mret (retention_reply days (setting_or 3 v)))
  end.


(** * Facts *)

Section Isolation.
Context `{HC : PayloadCipher} `{HA : AEAD}.
Context (last_rowid : Z) (accessible : db_server_row → string → string → res bool).

(** The requests about the backups of one site: the site by the id in the path or in the query,
    the backup by that in the path. *)
Inductive backup_request :=
| BackupSite (site : string) (provider : Z)
| BackupDatabases (site : string) (body : option (Z * Z))
| BackupsOf (site site_id : string)
| Restore (id : string) | Download (id : string) | DeleteBackup (id : string).
Definition answered (m : M db reply) : M machine (reply + string) := let* r := on_db m in mret (inl r).
Definition serve_backup (r : backup_request) (c : context) : M machine (reply + string) :=
  match r with
  | BackupSite s p => answered (createWithProvider last_rowid s p c)
  | BackupDatabases s b => answered (createDatabaseBackup last_rowid accessible s b c)
  | BackupsOf s q => answered (list_backups s q c)
  | Restore i => answered (restore i c)
  | Download i => download i c
  | DeleteBackup i => let* r := delete_backup i c in mret (inl r)
  end.
(** The site the request is about. *)
Definition subject (r : backup_request) (d : db) : option site_row :=
  match r with
  | BackupSite s _ | BackupDatabases s _ => get_row (atoi s).1 (t_sites d)
  | BackupsOf s q => get_row (list_site_id s q) (t_sites d)
  | Restore i | Download i | DeleteBackup i =>
      match get_row (atoi i).1 (t_backups d) with Some b => get_row (b_site b) (t_sites d) | None => None end
  end.
Definition names_site (r : backup_request) : Prop := match r with BackupsOf s q => 0 < list_site_id s q | _ => True end.

Definition refused (a : reply + string) : Prop := ∃ s m, a = inl (HTTPError s m) ∧ 400 ≤ s.
Definition covered (c : context) (o : option site_row) (d : db) : Prop := ∃ site, o = Some site ∧ may_access c site d.

(** On the database alone: the answer is a refusal and nothing has changed, or [P]. *)
Definition guard (P : Prop) (d : db) {R} (refusal : R → Prop) (a : R) (w' : world db) : Prop := P ∨ (data w' = d ∧ refusal a).
Definition refused_reply (r : reply) : Prop := ∃ s m, r = HTTPError s m ∧ 400 ≤ s.
Lemma is_refused s m : 400 ≤ s → refused_reply (HTTPError s m).
Proof. intros H. by exists s, m. Qed.
Lemma guard_const {R} (m : M db R) P d (refusal : R → Prop) w : P → wp m (guard P d refusal) w.
Proof. intros H. unfold wp. destruct (m w). by left. Qed.

Lemma wp_known {A} (m : M machine A) (P : Prop) w : P → wp m (λ _ _, P) w.
Proof. intros H. unfold wp. by destruct (m w). Qed.
Lemma wp_left {A} (m : M machine A) (P : Prop) (Q : A → world machine → Prop) w : P → wp m (λ a w', P ∨ Q a w') w.
Proof. intros H. unfold wp. destruct (m w). by left. Qed.
Lemma with_site_guard (id : string) (c : context) (w : world db) (k : Z → site_row → M db reply) :
  wp (with_site "invalid site id" internal id (λ i site, if_accessible c site (k i site)))
     (guard (covered c (get_row (atoi id).1 (t_sites (data w))) (data w)) (data w) refused_reply) w.
Proof.
  unfold with_site, parse_id. destruct (atoi id) as [i ok] eqn:E. cbn [fst].
  destruct (negb ok || _); [wp_step; right; split; [done|by apply is_refused]|].
  unfold Sites.GetByID. wp_step. wp_step. wp_step; [wp_step; right; split; [done|by apply is_refused]|].
  destruct (get_row i (tab (data w))) as [site|] eqn:Es; [|wp_step; right; split; [done|by apply is_refused]].
  unfold if_accessible. wp_step. eapply wp_mono; [|apply canAccess_wp]. intros [] w2 (E1 & _ & E2); cbn [negb].
  - apply guard_const. exists site. split; [exact Es|by apply E2].
  - wp_step. right. split; [done|by apply is_refused].
Qed.
Lemma wp_host_db {A} (m : M db A) (Q : A → world machine → Prop) (w : world machine) :
  wp m (λ a w', Q a (World (Machine (data w') (m_files (data w))) (clock w') (faults w')))
    (World (m_db (data w)) (clock w) (faults w)) → wp (on_db m) Q w.
Proof. unfold wp, on_db. by destruct (m _). Qed.
Lemma answered_guard (P : Prop) (m : M db reply) (w : world machine) :
  (∀ w1, data w1 = m_db (data w) → wp m (guard P (m_db (data w)) refused_reply) w1) →
  wp (answered m) (λ a w', P ∨ (data w' = data w ∧ refused a)) w.
Proof.
  intros H. unfold answered. apply wp_bind, wp_host_db. eapply wp_mono; [|by apply H]. intros r w1 [Hp|[E (s & e & -> & Hs)]]; wp_step.
  - by left.
  - right. split; [cbn; rewrite E; by destruct (data w)|]. by exists s, e.
Qed.
Lemma host_backup_guard {R} (refuse : reply → R) (id : string) (c : context) (w : world machine) (Q : R → world machine → Prop)
    (k : backup_row → site_row → M machine R) :
  (∀ w', data w' = data w → ∀ r, refused_reply r → Q (refuse r) w') →
  (∀ b site w', get_row (atoi id).1 (t_backups (m_db (data w))) = Some b → get_row (b_site b) (t_sites (m_db (data w))) = Some site →
     may_access c site (m_db (data w)) → wp (k b site) Q w') →
  wp (host_backup refuse id c k) Q w.
Proof.
  intros Hr Hk. unfold host_backup, parse_id. destruct (atoi id) as [i ok] eqn:E. cbn [fst] in Hk.
  destruct (negb ok || _); [wp_step; apply Hr; [done|by apply is_refused]|].
  destruct w as [[d f] n fs]. cbn [data m_db] in *.
  unfold Backups.GetByID. apply wp_bind, wp_host_db. wp_step. wp_step; [wp_step; apply Hr; [done|by apply is_refused]|].
  cbn [data m_db] in *. destruct (get_row i (tab d)) as [b|] eqn:Eb; [|wp_step; apply Hr; [done|by apply is_refused]].
  unfold Sites.GetByID. apply wp_bind, wp_host_db. wp_step. wp_step; [wp_step; apply Hr; [done|by apply is_refused]|].
  cbn [data m_db] in *. destruct (get_row (b_site b) (tab d)) as [site|] eqn:Es; [|wp_step; apply Hr; [done|by apply is_refused]].
  apply wp_bind, wp_host_db. eapply wp_mono; [|apply canAccess_wp]. intros [] w2 (E1 & _ & E2); cbn [negb].
  - by apply (Hk b site _ Eb Es), E2.
  - wp_step. apply Hr; [cbn in *; by rewrite E1|by apply is_refused].
Qed.
Lemma with_backup_guard (id : string) (c : context) (w : world db) (k : backup_row → site_row → M db reply) :
  wp (with_backup id c k)
     (guard (covered c (match get_row (atoi id).1 (t_backups (data w)) with Some b => get_row (b_site b) (t_sites (data w)) | None => None end)
        (data w)) (data w) refused_reply) w.
Proof.
  unfold with_backup, if_id, parse_id. destruct (atoi id) as [i ok] eqn:E. cbn [fst].
  destruct (negb ok || _); [wp_step; right; split; [done|by apply is_refused]|].
  unfold Backups.GetByID. wp_step. wp_step. wp_step; [wp_step; right; split; [done|by apply is_refused]|]. cbn [data].
  change (tab (A := backup_row) (data w)) with (t_backups (data w)).
  destruct (get_row i (t_backups (data w))) as [b|] eqn:Eb; [|wp_step; right; split; [done|by apply is_refused]].
  unfold Sites.GetByID. wp_step. wp_step. wp_step; [wp_step; right; split; [done|by apply is_refused]|]. cbn [data].
  change (tab (A := site_row) (data w)) with (t_sites (data w)).
  destruct (get_row (b_site b) (t_sites (data w))) as [site|] eqn:Es; [|wp_step; right; split; [done|by apply is_refused]].
  wp_step. eapply wp_mono; [|apply canAccess_wp]. intros [] w2 (E1 & _ & E2); cbn [negb].
  - apply guard_const. exists site. split; [done|by apply E2].
  - wp_step. right. split; [done|by apply is_refused].
Qed.
Lemma list_guard (s q : string) (c : context) (w : world db) :
  0 < list_site_id s q →
  wp (list_backups s q c) (guard (covered c (get_row (list_site_id s q) (t_sites (data w))) (data w)) (data w) refused_reply) w.
Proof.
  intros Hi. unfold list_backups. rewrite (proj2 (Z.ltb_lt _ _) Hi).
  unfold Sites.GetByID. wp_step. wp_step. wp_step; [wp_step; right; split; [done|by apply is_refused]|]. cbn [data].
  change (tab (A := site_row) (data w)) with (t_sites (data w)).
  destruct (get_row _ (t_sites (data w))) as [site|] eqn:Es; [|wp_step; right; split; [done|by apply is_refused]].
  unfold if_accessible. wp_step. eapply wp_mono; [|apply canAccess_wp]. intros [] w2 (E1 & _ & E2); cbn [negb].
  - apply guard_const. exists site. split; [done|by apply E2].
  - wp_step. right. split; [done|by apply is_refused].
Qed.

(** C19: who may touch backups: each request about the backups of a site, or about one backup,
    either changes nothing in the database and in the files of the host and is answered
    with an error, or its caller may access the site that is named or that the backup is of. *)
Theorem backups_isolation (r : backup_request) (c : context) (w : world machine) (Hn : names_site r) :
  wp (serve_backup r c) (λ a w', covered c (subject r (m_db (data w))) (m_db (data w)) ∨ (data w' = data w ∧ refused a)) w.
Proof.
  destruct r; cbn [serve_backup subject names_site] in *.
  1-4: apply answered_guard; intros w1 <-.
  - apply with_site_guard.
  - apply with_site_guard.
  - by apply list_guard.
  - apply with_backup_guard.
  - unfold download. apply host_backup_guard.
    + intros w' E rep (s & m & -> & Hs). right. split; [done|]. by exists s, m.
    + intros b site w' Eb Es Hm. apply wp_left. rewrite Eb. by exists site.
  - apply wp_bind. unfold delete_backup. apply host_backup_guard.
    + intros w' E rep (s & m & -> & Hs). wp_step. right. split; [done|]. by exists s, m.
    + intros b site w' Eb Es Hm. eapply wp_mono; [intros a w2 H; wp_step; left; exact H|]. apply wp_known.
      rewrite Eb. by exists site.
Qed.
End Isolation.

(** the list of backups without a site: anybody who sends the request, whoever they are, is
    shown the newest hundred backups of all tenants. *)
Theorem list_backups_all (s q : string) (c : context) (d : db) (n : Z) (Hs : list_site_id s q <= 0) :
  list_backups s q c (World d n []) =
    (backup_reply (map (λ b, (b, get_row (b_site b) (t_sites d))) (limit_offset 100 0 (order_desc b_created (t_rows (t_backups d))))),
     World d n []).
Proof.
  unfold list_backups. rewrite (proj2 (Z.ltb_ge _ _) Hs). unfold with_site_rows, Backups.ListAll, wrap, query, mbind, mret.
  rewrite stmt_ok. done.
Qed.

(** * The retention is read as it was set *)

Lemma upsert_reads (key key' value : string) (n : Z) (t : table setting_row) :
  se_value <$> select_one (Settings.for_key key') (Settings.upsert key value n t) =
  if (key' =? key)%string then Some value else se_value <$> select_one (Settings.for_key key') t.
Proof.
  unfold Settings.upsert, has_row, select_one, update_where, insert_row. destruct t as [l q]. cbn [t_rows t_seq].
  destruct (existsb (Settings.for_key key) l) eqn:E; cbn [snd t_rows]; unfold Settings.for_key in *.
  - induction l as [|[i k v m] l IH]; [done|]. cbn [existsb map find se_key set_se] in *.
    destruct (String.eqb_spec k key) as [->|F]; cbn [se_key set_se] in *; rewrite String.eqb_sym.
    + destruct (String.eqb_spec key' key) as [->|G]; [done|]. clear E IH.
      induction l as [|[i' k' v' m'] l IH]; [done|]. cbn [map find se_key].
      destruct (String.eqb_spec k' key) as [->|H]; cbn [se_key set_se].
      * by rewrite (proj2 (String.eqb_neq key key')) by congruence.
      * by destruct (k' =? key')%string.
    + destruct (String.eqb_spec key' k) as [->|G]; [by rewrite (proj2 (String.eqb_neq _ _) F)|by apply IH].
  - induction l as [|[i k v m] l IH]; cbn [existsb app find se_key] in *.
    + rewrite String.eqb_sym. by destruct (key' =? key)%string.
    + apply orb_false_elim in E as [F E]. destruct (String.eqb_spec k key') as [<-|G]; [by rewrite F|by apply IH].
Qed.
Lemma trim_left_digit (c : ascii) (s : string) : is_digit c = true → trim_left (String c s) = String c s.
Proof.
  intros H. assert (space1 c = false ∧ (∀ b, space2 c b = false) ∧ ∀ b d, space3 c b d = false) as (H1 & H2 & H3).
  { unfold is_digit, chr_range in H. destruct c as [[] [] [] [] [] [] [] []]; try discriminate H; repeat split. }
  unfold trim_left. cbn [trim_with]. rewrite H1. destruct s as [|b [|d s]]; [done| |]; rewrite H2, ?H3; done.
Qed.
Lemma digits_prefix_all (s : string) : str_all is_digit s = true → digits_prefix s = s.
Proof. induction s as [|c s IH]; [done|]. cbn. intros [-> H]%andb_prop. by rewrite IH. Qed.
Lemma Sscanf_itoa (n : Z) : int64 n → 0 <= n → Sscanf_d (itoa n) = Some n.
Proof.
  intros Hn H0. destruct (itoa_numeral n Hn) as (ds & (Ha & _ & Hd) & E). pose proof (atoi_itoa n Hn) as Ea.
  rewrite (proj2 (Z.ltb_ge _ _) H0) in E. rewrite E in *. destruct ds as [|c s]; [done|].
  cbn [str_all] in Ha. apply andb_prop in Ha as [Hc Hs]. unfold Sscanf_d. rewrite (trim_left_digit _ _ Hc).
  rewrite Nat.sub_diag. cbn [str_take chr_in].
  assert (Ascii.eqb c "-" || Ascii.eqb c "+" = false) as ->.
  { destruct (Ascii.eqb_spec c "-") as [->|_]; [discriminate Hc|]. by destruct (Ascii.eqb_spec c "+") as [->|_]. }
  rewrite digits_prefix_all by (cbn; by rewrite Hc, Hs).
  change ("" +:+ String c s) with (String c s). by rewrite Ea.
Qed.

(** the retention of backups is shown as it was set: the days from 7 to 3650 and the count of
    a site are stored as texts, scanned again, and come back as they were. *)
Theorem retention_roundtrip (days keepLast : Z) (c c' : context) (d : db) (n n' : Z)
    (Hd : 7 <= days <= 3650) (Hk : 0 < keepLast <= max_int64) :
  let '(set, w) := setRetention (Some (days, keepLast)) c (World d n []) in
  set = retention_reply days keepLast ∧ (getRetention c' (World (data w) n' [])).1 = set.
Proof.
  unfold setRetention. rewrite (proj2 (Z.eqb_neq days 0)), (proj2 (Z.ltb_ge days 7)), (proj2 (Z.ltb_ge 3650 days)) by lia.
  cbn [negb andb]. rewrite (proj2 (Z.ltb_ge keepLast 0)), (proj2 (Z.ltb_lt 0 keepLast)) by lia.
  unfold Settings.SetSetting, exec, mbind, mret. rewrite !stmt_ok. cbn [data]. split; [done|].
  unfold getRetention, Settings.GetSetting, wrap, query, mbind, mret. rewrite !stmt_ok. cbn [data].
  rewrite !tab_set, !upsert_reads.
  assert (∀ m, 0 < m <= max_int64 → Sscanf_d (itoa m) = Some m) as H by (intros m Hm; apply Sscanf_itoa; [unfold int64, min_int64|]; lia).
  cbn -[itoa Sscanf_d]. unfold setting_or. rewrite (H keepLast Hk). cbn [default from_option id]. cbv zeta.
  rewrite (proj2 (Z.leb_gt keepLast 0)) by lia.
  assert (atoi (itoa days) = (days, true)) as Ea by (apply atoi_itoa; unfold int64, min_int64, max_int64; lia).
  destruct (String.eqb_spec (itoa days) "") as [E|_]; [by rewrite E in Ea|].
  destruct (String.eqb_spec (itoa days) "0") as [E|_]; [rewrite E in Ea; change (atoi "0") with (0, true) in Ea; injection Ea as Ea; lia|].
  cbn [orb]. rewrite H by (unfold max_int64; lia). done.
Qed.

(** * Witnesses *)


Definition clear_payloads : PayloadCipher := {| EncryptPayload := Ok; DecryptPayload := Ok |}.
(** The office with a backup of the file of bob's site, and the file on the host. *)
Definition depot : machine :=
  Machine (set_tab (Table [sample_backup 1 "completed" (Some 20) None] 1) office) {["/backups/a.tgz" := "files of bob"]}.
Definition user_context (id : Z) : context := mkContext (Some (SessionRow id id "h" 9999999999 0 None None)) (Some id) (Some RoleUser) None.

(** bob gets his backup and deletes it; eve, whose site is another one, gets neither. *)
Lemma backups_isolation_witness :
  let w := World depot 30 [] in
  let serve r c := serve_backup (HC := clear_payloads) (HA := sample_aead) 0 (λ _ _ _, Err "") r c w in
  (serve (Download "1") (user_context 3)).1 = inr "files of bob" ∧
  m_files (data (serve (DeleteBackup "1") (user_context 3)).2) = ∅ ∧
  (serve (DeleteBackup "1") (user_context 4)) = (inl backup_not_found, w) ∧
  wp (serve_backup (HC := clear_payloads) (HA := sample_aead) 0 (λ _ _ _, Err "") (DeleteBackup "1") (user_context 4))
    (λ a w', covered (user_context 4) (subject (DeleteBackup "1") (m_db depot)) (m_db depot) ∨ (data w' = depot ∧ refused a)) w.
Proof.
  intros w serve. split; [vm_compute; reflexivity|]. split; [vm_compute; reflexivity|]. split; [vm_compute; reflexivity|].
  exact (backups_isolation (HC := clear_payloads) (HA := sample_aead) 0 (λ _ _ _, Err "") (DeleteBackup "1") (user_context 4) (World depot 30 []) I).
Defined.

(** The caller has no user at all. *)
Lemma list_backups_all_witness :
  list_backups "" "" no_context (World (m_db depot) 30 []) =
    (backup_reply [(sample_backup 1 "completed" (Some 20) None, Some (sample_db_site 7 3))], World (m_db depot) 30 []).
Proof.
  rewrite (list_backups_all "" "" no_context (m_db depot) 30); [vm_compute; reflexivity|]. cbn. lia.
Defined.

(** Three days are refused; a month and the last five backups are kept. *)
Lemma retention_roundtrip_witness :
  (setRetention (Some (3, 5)) no_context (World empty_db 0 [])).1 = HTTPError 400 "retention_days must be 0 (disabled) or at least 7 days" ∧
  let '(set, w) := setRetention (Some (30, 5)) no_context (World empty_db 0 []) in
  set = retention_reply 30 5 ∧ (getRetention no_context (World (data w) 9 [])).1 = set.
Proof. split; [reflexivity|]. apply (retention_roundtrip 30 5 no_context no_context empty_db 0 9); [lia|unfold max_int64; lia]. Defined.
