(* ===== verification/BackupPlansApi.v ===== *)
(** The API of what is backed up, where and when: src/internal/apihttp/backup_providers.go
    (its create of a backup is in BackupsApi.v), backup_configs.go and
    backup_schedules.go.  The schedules of all
    sites are open to every caller. *)
From S2P Require Import Prelude GoStr Float Json Clock Secrets Sql JobStore Accounts Sites Cron Backups Servers BackupPlan Records Plans Extras Panel Agent Worker Scheduler Guards Http Access SitesApi AppApi UsersApi BackupsApi.
Local Open Scope Z_scope.
Local Open Scope panel_scope.

Set Default Proof Using "Type".

Definition if_body {A} (body : option A) (k : A → M db reply) : M db reply :=
  match body with None => mret bad_body | Some b => k b end.
Definition given {A} (o : option A) (a : A) : A := default a o.
(** A [float64] as a JSON number: the shortest decimal that reads as it. *)
Definition JFloat (negative : bool) (f : float) : json :=
  let v := Some (negative && negb (f.1 =? 0), f) in
  JNum (default "0" (List.find (λ t, bool_decide (parse_float t = v)) (candidates v))).

(** * backup_providers.go *)

Definition allowedProviderTypes : list string := ["s3"; "b2"; "r2"; "wasabi"; "digitalocean"; "generic"].
Definition trim_right_slashes (s : string) : string := str_rev (trim_left_chr "/" (str_rev s)).
(** The services that are named after a region: the error without one, the endpoint of a
    region, the domain of an endpoint, the error of another. *)
Definition regional (region endpoint no_region made domain foreign : string) : res (string * string) :=
  if (region =? "")%string || (region =? "auto")%string then Err no_region else
  let endpoint := if (endpoint =? "")%string then made else endpoint in
  if negb (contains endpoint domain) then Err foreign else Ok (endpoint, region).
Definition service_defaults (type endpoint region : string) : res (string * string) :=
  if (type =? "s3")%string then
    Ok (if (endpoint =? "")%string then "s3.amazonaws.com" else endpoint,
        if (region =? "")%string || (region =? "auto")%string then "us-east-1" else region)
  else if (type =? "r2")%string then
    let region := if (region =? "")%string then "auto" else region in
    if (endpoint =? "")%string then Err "endpoint required for Cloudflare R2 (example: <accountid>.r2.cloudflarestorage.com)" else
    if negb (contains endpoint "r2.cloudflarestorage.com")
    then Err "invalid Cloudflare R2 endpoint (expected: <accountid>.r2.cloudflarestorage.com)" else Ok (endpoint, region)
  else if (type =? "b2")%string then
    regional region endpoint "region required for Backblaze B2 (example: us-west-004)" ("s3." +:+ region +:+ ".backblazeb2.com")
      "backblazeb2.com" "invalid Backblaze B2 endpoint (expected: s3.<region>.backblazeb2.com)"
  else if (type =? "wasabi")%string then
    regional region endpoint "region required for Wasabi (example: us-east-1)" ("s3." +:+ region +:+ ".wasabisys.com")
      "wasabisys.com" "invalid Wasabi endpoint (expected: s3.<region>.wasabisys.com)"
  else if (type =? "digitalocean")%string then
    regional region endpoint "region required for DigitalOcean Spaces (example: sgp1)" (region +:+ ".digitaloceanspaces.com")
      "digitaloceanspaces.com" "invalid DigitalOcean Spaces endpoint (expected: <region>.digitaloceanspaces.com)"
  else if (type =? "generic")%string then
    if (endpoint =? "")%string then Err "endpoint required for generic S3-compatible provider"
    else Ok (endpoint, if (region =? "")%string then "auto" else region)
  else Err "invalid provider_type".
Definition normalizeProviderEndpointRegion (type endpoint region : string) : res (string * string) :=
  match service_defaults (trim_space (to_lower type)) (trim_space endpoint) (trim_space region) with
  | Err e => Err e
  | Ok (endpoint, region) =>
      let endpoint := trim_right_slashes (trim_prefix (trim_prefix endpoint "https://") "http://") in
      if negb (contains endpoint ".") then Err "endpoint format appears invalid" else Ok (endpoint, region)
  end.

Definition backupProviderToMap (p : provider_row) : json := JObj [
  ("id", JInt (pv_id p)); ("name", JStr (pv_name p)); ("provider_type", JStr (pv_type p)); ("bucket", JStr (pv_bucket p));
  ("endpoint", JStr (pv_endpoint p)); ("region", JStr (pv_region p)); ("access_key", JStr (pv_access_key p));
  ("is_default", JBool (pv_default p)); ("retention_days", JInt (pv_retention p));
  ("created_at", JSeconds (pv_created p)); ("updated_at", JSeconds (pv_updated p))].
(** The struct of a provider that was filled in by the handler. *)
Definition provider_struct (id created updated : Z) (p : Provider) : provider_row :=
  ProviderRow id (ProviderName p) (ProviderType p) (Bucket p) (Endpoint p) (Region p) (AccessKey p) (SecretKey p)
    (IsDefault p) (ProviderRetention p) created updated.

Definition listed (name : string) (l : list json) : reply :=
  Success 200 (JObj [(name, JArr l); ("count", JInt (Z.of_nat (length l)))]).
Definition deleted : reply := Success 200 (JObj [("deleted", JBool true)]).
Definition list_providers : Http.handler (D := db) := λ _,
  let* l := BackupProviders.List in
  mret match l with Err _ => internal | Ok l => listed "providers" (map backupProviderToMap l) end.
Definition audit_provider (action : string) (id : Z) : M db () := Audit.RecordAction 0 action "backup_provider" id None.

Definition trimmed (p : Provider) : Provider :=
  mkProvider (trim_space (ProviderName p)) (trim_space (to_lower (ProviderType p))) (trim_space (Bucket p))
    (trim_space (Endpoint p)) (trim_space (Region p)) (trim_space (AccessKey p)) (trim_space (SecretKey p))
    (IsDefault p) (ProviderRetention p).
Definition with_address (p : Provider) (a : string * string) : Provider :=
  mkProvider (ProviderName p) (ProviderType p) (Bucket p) a.1 a.2 (AccessKey p) (SecretKey p) (IsDefault p) (ProviderRetention p).
Definition create_provider (body : option Provider) : Http.handler (D := db) := λ _,
  if_body body (λ body,
  let b := trimmed body in
  if existsb (λ s, (s =? "")%string) [ProviderName b; Bucket b; AccessKey b; SecretKey b]
  then mret (HTTPError 400 "name, bucket, access_key, secret_key required") else
  if negb (str_in allowedProviderTypes (ProviderType b))
  then mret (HTTPError 400 "invalid provider_type. Allowed: s3, b2, r2, wasabi, digitalocean, generic") else
  match normalizeProviderEndpointRegion (ProviderType b) (Endpoint b) (Region b) with
  | Err e => mret (HTTPError 400 e)
  | Ok a =>
      let p := with_address b a in
      let* r := BackupProviders.Create p in
      match r with
      | Err _ => mret internal
      | Ok id =>
          let* _ := audit_provider "backup_provider_create" id in
          mret (Success 201 (backupProviderToMap (provider_struct id zero_time zero_time p)))
      end
  end).

Record provider_patch := mkProviderPatch {
  pp_name : option string; pp_type : option string; pp_bucket : option string; pp_endpoint : option string;
  pp_region : option string; pp_access : option string; pp_secret : option string; pp_default : option bool;
  pp_retention : option Z }.
Definition provider_not_found : reply := HTTPError 404 "provider not found".
Definition trim_given (o : option string) (s : string) : string := match o with Some v => trim_space v | None => s end.
Definition update_provider (id : string) (body : option provider_patch) : Http.handler (D := db) := λ _,
  if_id "invalid id" id (λ i,
  let* e := BackupProviders.GetByID i in
  match e with
  | Err _ => mret internal
  | Ok None => mret provider_not_found
  | Ok (Some r) =>
      if_body body (λ b,
      let type := match pp_type b with Some t => trim_space (to_lower t) | None => pv_type r end in
      if bool_decide (pp_type b ≠ None) && negb (str_in allowedProviderTypes type)
      then mret (HTTPError 400 "invalid provider_type") else
      match normalizeProviderEndpointRegion type (trim_given (pp_endpoint b) (pv_endpoint r)) (trim_given (pp_region b) (pv_region r)) with
      | Err e => mret (HTTPError 400 e)
      | Ok (endpoint, region) =>
          let p := mkProvider (trim_given (pp_name b) (pv_name r)) type (trim_given (pp_bucket b) (pv_bucket r)) endpoint region
                     (trim_given (pp_access b) (pv_access_key r)) (trim_given (pp_secret b) (pv_secret_key r))
                     (given (pp_default b) (pv_default r)) (given (pp_retention b) (pv_retention r)) in
          let* u := BackupProviders.Update i p in
          match u with
          | Err _ => mret internal
          | Ok _ =>
              let* _ := audit_provider "backup_provider_update" i in
              mret (Success 200 (backupProviderToMap (provider_struct (pv_id r) (pv_created r) (pv_updated r) p)))
          end
      end)
  end).
Definition delete_provider (id : string) : Http.handler (D := db) := λ _,
  if_id "invalid id" id (λ i,
  let* r := BackupProviders.Delete i in
  match r with
  | Err _ => mret internal
  | Ok _ => let* _ := audit_provider "backup_provider_delete" i in mret deleted
  end).

Definition with_provider (id : string) (k : provider_row → M db reply) : M db reply :=
  if_id "invalid id" id (λ i,
  let* e := BackupProviders.GetByID i in
  match e with
  | Err _ => mret internal
  | Ok None => mret provider_not_found
  | Ok (Some p) => k p
  end).
Definition shown_provider (p : provider_row) (endpoint source : string) : list (string * json) :=
  [("provider_id", JInt (pv_id p)); ("provider_type", JStr (pv_type p)); ("bucket", JStr (pv_bucket p));
   ("endpoint", JStr endpoint); ("source", JStr source)].
(** [float64(n) / 1024.0 / 1024.0]. *)
Definition megabytes (n : Z) : json :=
  JFloat (n <? 0) (float_div (float_div (float_of_int (Z.abs n)) (float_of_int 1024)) (float_of_int 1024)).

(** The backups that count as those of a provider. *)
Definition stored_at (p : provider_row) (b : backup_row) : bool :=
  let path := default "" (b_storage_path b) in
  (b_status b =? "completed")%string &&
  (has_prefix path ("s3://" +:+ pv_bucket p +:+ "/") ||
   ((path =? "")%string && str_in [pv_type p; "database_" +:+ pv_type p; "full_" +:+ pv_type p] (b_storage_type b))).
Definition wrap_sum (l : list Z) : Z := fold_left (λ a n, wrap64 (a + n)) l 0.
(** A map from the keys to what is counted under each. *)
Definition grouped (key : backup_row → string) (count : list backup_row → Z) (l : list backup_row) : json :=
  JObj (obj_of_list (map (λ b, (key b, JInt (count (List.filter (λ x, (key x =? key b)%string) l)))) l)).
(** [latest]: [None] is the nil of before the first backup. *)
Definition latest_completed (l : list backup_row) : option Z :=
  fold_left (λ latest b, match b_completed b, latest with
                         | Some t, _ => Some t
                         | None, None => Some zero_time
                         | None, Some _ => latest
                         end) l None.

Section Tool.
(** The tool of the host, if it is in the path: its output for the arguments and the
    additions to the environment, and its error. *)
Context (aws : option (list string → list string → string * error)).

Definition credentials_env (p : provider_row) : list string :=
  ["AWS_ACCESS_KEY_ID=" +:+ pv_access_key p; "AWS_SECRET_ACCESS_KEY=" +:+ pv_secret_key p].
Definition tool_error (out e : string) : string := let m := trim_space out in if (m =? "")%string then e else m.
(** The number after a label: [fmt.Sscanf] wants a space after the colon. *)
Definition scan_total (label line : string) (n : Z) : Z :=
  if has_prefix line label then
    let rest := str_drop (String.length label) line in
    if (trim_left rest =? rest)%string then n else default n (Sscanf_d rest)
  else n.
Definition scan_line (t : Z * Z) (line : string) : Z * Z :=
  let line := trim_space line in (scan_total "Total Objects:" line t.1, scan_total "Total Size:" line t.2).
Definition scanProviderActualUsage (p : provider_row) : res json :=
  match normalizeProviderEndpointRegion (pv_type p) (pv_endpoint p) (pv_region p), aws with
  | Err e, _ => Err e
  | _, None => Err "aws CLI not installed on server/agent host"
  | Ok (endpoint, region), Some run =>
      let '(out, e) := run ["s3"; "ls"; "s3://" +:+ pv_bucket p; "--recursive"; "--summarize";
                            "--endpoint-url"; "https://" +:+ endpoint; "--region"; region] (credentials_env p) in
      match e with
      | Some e => Err ("provider scan failed: " +:+ tool_error out e)
      | None =>
          let '(objects, total) := fold_left scan_line (split LF out) (0, 0) in
          Ok (JObj (shown_provider p endpoint "actual_provider" ++
                [("region", JStr region); ("connected", JBool true); ("object_count", JInt objects);
                 ("total_bytes", JInt total); ("total_mb", megabytes total)]))
      end
  end.

(** [source]: that of the query. *)
Definition usage (id source : string) : Http.handler (D := db) := λ _,
  with_provider id (λ p,
  if equal_fold source "actual" then
    mret (Success 200 match scanProviderActualUsage p with
                      | Ok j => j
                      | Err e => JObj (shown_provider p (pv_endpoint p) "actual_provider" ++
                                         [("connected", JBool false); ("error", JStr e)])
                      end)
  else
    let* l := Backups.ListAll 10000 0 in
    mret match l with
         | Err _ => internal
         | Ok l =>
             let mine := List.filter (stored_at p) l in
             let total := wrap_sum (map b_size mine) in
             Success 200 (JObj (shown_provider p (pv_endpoint p) "database_estimate" ++
               [("total_bytes", JInt total); ("total_mb", megabytes total); ("backup_count", JInt (Z.of_nat (length mine)));
                ("by_storage_type", grouped b_storage_type (λ l, wrap_sum (map b_size l)) mine);
                ("all_backup_status", grouped b_status (λ l, Z.of_nat (length l)) l);
                ("latest_completed", match latest_completed mine with Some t => JSeconds t | None => JNull end)]))
         end).

Definition connection (connected : bool) (k v : string) (more : list (string * json)) : reply :=
  Success 200 (JObj ([("connected", JBool connected); (k, JStr v)] ++ more)).
Definition testConnection (id : string) : Http.handler (D := db) := λ _,
  with_provider id (λ p, mret (
  if (pv_access_key p =? "")%string || (pv_secret_key p =? "")%string
  then connection false "error" "Access key and secret key are required" [] else
  if (pv_bucket p =? "")%string || (pv_endpoint p =? "")%string
  then connection false "error" "Bucket and endpoint are required" [] else
  match normalizeProviderEndpointRegion (pv_type p) (pv_endpoint p) (pv_region p) with
  | Err e => connection false "error" e []
  | Ok (endpoint, region) =>
      let about := [("provider", JStr (pv_type p)); ("endpoint", JStr endpoint); ("region", JStr region)] in
      match aws with
      | None => connection true "message" ("Provider config valid (aws CLI not available for live test) — " +:+ pv_type p +:+
                                           " endpoint: " +:+ endpoint) about
      | Some run =>
          let '(out, e) := run ["s3"; "ls"; "s3://" +:+ pv_bucket p; "--endpoint-url"; "https://" +:+ endpoint; "--region"; region]
                             (credentials_env p) in
          match e with
          | Some e => connection false "error" ("Connection failed: " +:+ tool_error out e) about
          | None => connection true "message" ("Successfully connected to " +:+ pv_type p +:+ " bucket") about
          end
      end
  end)).
End Tool.

(** * backup_schedules.go *)

Definition schedule_json (s : schedule_row) : json := JObj (
  [("id", JInt (sc_id s)); ("site_id", JInt (sc_site s)); ("cron_expr", JStr (sc_cron s)); ("backup_type", JStr (sc_type s));
   ("enabled", JBool (sc_enabled s)); ("created_at", JSeconds (sc_created s)); ("updated_at", JSeconds (sc_updated s))] ++
  opt_int "provider_id" (sc_provider s) ++
  match sc_last s with Some t => [("last_run_at", JTime t)] | None => [] end ++
  match sc_next s with Some t => [("next_run_at", JTime t)] | None => [] end).
Definition scopes : list string := ["files"; "database"; "both"].
Definition scope_of (s : string) : string := trim_space (to_lower s).
(** The id of a provider; one that is not positive is none. *)
Definition chosen (o : option Z) : option Z := match o with Some p => if 0 <? p then Some p else None | None => None end.
Definition audit_of (kind : string) (c : context) (action : string) (id : Z) : M db () :=
  Audit.RecordAction (caller c) (kind +:+ action) kind id None.

Record schedule_body := mkScheduleBody {
  hb_cron : string; hb_provider : option Z; hb_type : string; hb_enabled : option bool }.
Definition create_schedule (id : string) (body : option schedule_body) : Http.handler (D := db) := λ c,
  with_site "invalid site id" internal id (λ i _,
  if_body body (λ b,
  let cron := trim_space (hb_cron b) in
  let type := if (scope_of (hb_type b) =? "")%string then "files" else scope_of (hb_type b) in
  let enabled := given (hb_enabled b) true in
  let provider := chosen (hb_provider b) in
  if (cron =? "")%string then mret (HTTPError 400 "cron_expr required") else
  if negb (str_in scopes type) then mret (HTTPError 400 "invalid backup_type: must be files, database, or both") else
  let* r := BackupSchedules.Create i provider cron type enabled in
  match r with
  | Err _ => mret internal
  | Ok sid =>
      let* _ := audit_of "backup_schedule" c "_create" sid in
      mret (Success 201 (schedule_json (ScheduleRow sid i provider cron type enabled None None zero_time zero_time)))
  end)).
Definition listBySite (id : string) : Http.handler (D := db) := λ _,
  if_id "invalid site id" id (λ i,
  let* l := BackupSchedules.ListBySite i in
  mret match l with Err _ => internal | Ok l => listed "schedules" (map schedule_json l) end).
Definition with_schedule (id : string) (k : schedule_row → M db reply) : M db reply :=
  if_id "invalid id" id (λ i,
  let* e := BackupSchedules.GetByID i in
  match e with
  | Err _ => mret internal
  | Ok None => mret (HTTPError 404 "schedule not found")
  | Ok (Some s) => k s
  end).
Record schedule_patch := mkSchedulePatch {
  hp_cron : option string; hp_provider : option Z; hp_type : option string; hp_enabled : option bool }.
Definition patched_provider (o : option Z) (now : option Z) : option Z := match o with Some _ => chosen o | None => now end.
Definition update_schedule (id : string) (body : option schedule_patch) : Http.handler (D := db) := λ c,
  with_schedule id (λ s, if_body body (λ b,
  let type := match hp_type b with Some t => scope_of t | None => sc_type s end in
  if bool_decide (hp_type b ≠ None) && negb (str_in scopes type) then mret (HTTPError 400 "invalid backup_type") else
  let cron := trim_given (hp_cron b) (sc_cron s) in
  let provider := patched_provider (hp_provider b) (sc_provider s) in
  let enabled := given (hp_enabled b) (sc_enabled s) in
  let* r := BackupSchedules.Update (sc_id s) provider cron type enabled in
  match r with
  | Err _ => mret internal
  | Ok _ =>
      let* _ := audit_of "backup_schedule" c "_update" (sc_id s) in
      mret (Success 200 (schedule_json (set_sc provider cron type enabled s)))
  end)).
Definition delete_schedule (id : string) : Http.handler (D := db) := λ c,
  with_schedule id (λ s,
  let* r := BackupSchedules.Delete (sc_id s) in
  match r with
  | Err _ => mret internal
  | Ok _ => let* _ := audit_of "backup_schedule" c "_delete" (sc_id s) in mret deleted
  end).

(** * backup_configs.go *)

(** The struct of a configuration: the columns the stores use, whether its slices (sites,
    patterns, databases) are nil, and its times. *)
Record config_struct := ConfigStruct {
  cs_config : BackupConfig; cs_nil : bool * bool * bool; cs_last : option Z; cs_next : option Z; cs_created : Z; cs_updated : Z }.
Definition not_nil (stored : string) : bool := match parse_text stored with Some (JArr _) => true | _ => false end.
Definition nil_text (stored : string) : bool := (stored =? "")%string || (stored =? "null")%string || negb (not_nil stored).
(** What the same statement reads beside the columns of [BackupConfig]. *)
Definition config_struct_of (d : db) (cfg : BackupConfig) : config_struct :=
  match get_row (ID cfg) (t_configs d) with
  | Some r => ConfigStruct cfg (nil_text (cf_sites r), nil_text (cf_exclude r), nil_text (cf_dbs r))
                (cf_last r) (cf_next r) (cf_created r) (cf_updated r)
  | None => ConfigStruct cfg (true, true, true) None None zero_time zero_time
  end.
Definition structs {A B} (f : (BackupConfig → config_struct) → A → B) (m : M db (res A)) : M db (res B) := λ w,
  let '(r, w') := m w in
  (match r with Ok a => Ok (f (config_struct_of (data w')) a) | Err e => Err e end, w').

Definition nilable (is_nil : bool) (l : list json) : json := if is_nil then match l with [] => JNull | _ => JArr l end else JArr l.
Definition backupConfigToMap (s : config_struct) : json :=
  let c := cs_config s in
  let '(no_sites, no_exclude, no_dbs) := cs_nil s in
  JObj ([("id", JInt (ID c)); ("name", JStr (ConfigName c)); ("scope_type", JStr (ScopeType c));
         ("site_ids", nilable no_sites (map JInt (SiteIDs c)));
         ("auto_discover_sites", JBool (match SiteIDs c with [] => true | _ => false end &&
                                        ((ScopeType c =? "database")%string || (ScopeType c =? "both")%string)));
         ("cron_expr", JStr (CronExpr c)); ("enabled", JBool (Enabled c)); ("retention_days", JInt (RetentionDays c));
         ("exclude_patterns", nilable no_exclude (map JStr (ExcludePatterns c)));
         ("database_ids", nilable no_dbs (map JInt (DatabaseIDs c)));
         ("created_at", JSeconds (cs_created s)); ("updated_at", JSeconds (cs_updated s))] ++
        opt_int "provider_id" (ProviderID c) ++
        match cs_last s with Some t => [("last_run_at", JSeconds t)] | None => [] end ++
        match cs_next s with Some t => [("next_run_at", JSeconds t)] | None => [] end).
Definition list_configs : Http.handler (D := db) := λ _,
  let* l := structs (λ f, map f) BackupConfigs.ListAll in
  mret match l with Err _ => internal | Ok l => listed "configs" (map backupConfigToMap l) end.
Definition audit_config (c : context) (action : string) (id : Z) : M db () := audit_of "backup_config" c action id.

Section Configs.
Context `{HC : PayloadCipher} `{HA : AEAD}.
Context (last_rowid : Z) (like : string → string → bool) (accessible : db_server_row → string → string → res bool).
(** For the loops of the cron parser; the reply is [None] when it does not return. *)
Context (fuel : nat).
Notation handler := (context → M db (option reply)).

Definition answer (r : reply) : M db (option reply) := mret (Some r).
Definition is_nil {A} (o : option (list A)) : bool := match o with Some _ => false | None => true end.
(** A list of the body is none when it is null or absent. *)
Record config_body := mkConfigBody {
  fb_name : string; fb_scope : string; fb_sites : option (list Z); fb_provider : option Z; fb_cron : string;
  fb_enabled : option bool; fb_retention : option Z; fb_exclude : option (list string); fb_dbs : option (list Z) }.
Definition create_config (body : option config_body) : handler := λ c,
  match body with
  | None => answer bad_body
  | Some b =>
      let scope := if (scope_of (fb_scope b) =? "")%string then "files" else scope_of (fb_scope b) in
      let cron := trim_space (fb_cron b) in
      if negb (str_in scopes scope) then answer (HTTPError 400 "invalid scope_type: must be files, database, or both") else
      if (cron =? "")%string then answer (HTTPError 400 "cron_expr required") else
      let cfg id := mkConfig id (fb_name b) scope (given (fb_sites b) []) (chosen (fb_provider b)) cron (given (fb_enabled b) true)
                      (given (fb_retention b) 30) (given (fb_exclude b) []) (given (fb_dbs b) []) in
      let* r := BackupConfigs.Create fuel (cfg 0) in
      match r with
      | None => mret None
      | Some (Err _) => answer internal
      | Some (Ok id) =>
          let* _ := audit_config c "_create" id in
          answer (Success 201 (backupConfigToMap
            (ConfigStruct (cfg id) (is_nil (fb_sites b), is_nil (fb_exclude b), is_nil (fb_dbs b)) None None zero_time zero_time)))
      end
  end.

Definition with_config (id : string) (k : config_struct → M db (option reply)) : M db (option reply) :=
  match parse_id id with
  | None => answer (HTTPError 400 "invalid id")
  | Some i =>
      let* e := structs fmap (BackupConfigs.GetByID i) in
      match e with
      | Err _ => answer internal
      | Ok None => answer (HTTPError 404 "backup config not found")
      | Ok (Some s) => k s
      end
  end.
Record config_patch := mkConfigPatch {
  fp_name : option string; fp_scope : option string; fp_sites : option (list Z); fp_provider : option Z;
  fp_cron : option string; fp_enabled : option bool; fp_retention : option Z; fp_exclude : option (list string);
  fp_dbs : option (list Z) }.
Definition patch_config (b : config_patch) (scope : string) (s : config_struct) : config_struct :=
  let e := cs_config s in
  let '(no_sites, no_exclude, no_dbs) := cs_nil s in
  ConfigStruct
    (mkConfig (ID e) (given (fp_name b) (ConfigName e)) scope (given (fp_sites b) (SiteIDs e))
       (patched_provider (fp_provider b) (ProviderID e)) (trim_given (fp_cron b) (CronExpr e)) (given (fp_enabled b) (Enabled e))
       (given (fp_retention b) (RetentionDays e)) (given (fp_exclude b) (ExcludePatterns e)) (given (fp_dbs b) (DatabaseIDs e)))
    (no_sites && is_nil (fp_sites b), no_exclude && is_nil (fp_exclude b), no_dbs && is_nil (fp_dbs b))
    (cs_last s) (cs_next s) (cs_created s) (cs_updated s).
Definition update_config (id : string) (body : option config_patch) : handler := λ c,
  with_config id (λ s,
  match body with
  | None => answer bad_body
  | Some b =>
      let scope := match fp_scope b with Some t => scope_of t | None => ScopeType (cs_config s) end in
      if bool_decide (fp_scope b ≠ None) && negb (str_in scopes scope) then answer (HTTPError 400 "invalid scope_type") else
      let s := patch_config b scope s in
      let* r := BackupConfigs.Update fuel (cs_config s) in
      match r with
      | None => mret None
      | Some (Err _) => answer internal
      | Some (Ok _) =>
          let* _ := audit_config c "_update" (ID (cs_config s)) in
          answer (Success 200 (backupConfigToMap s))
      end
  end).
Definition delete_config (id : string) : handler := λ c,
  with_config id (λ s,
  let* r := BackupConfigs.Delete (ID (cs_config s)) in
  match r with
  | Err _ => answer internal
  | Ok _ => let* _ := audit_config c "_delete" (ID (cs_config s)) in answer deleted
  end).

(** ** A run by hand *)

(** A record, then its job, then the entry of the audit log; whether all were made. *)
Definition run_backup (c : context) (i : Z) (site : site_row) (storage kind type descr action : string) (payload : Z → string) : M db Z :=
  let* b := Backups.Create last_rowid (Backups.mkBackup (s_id site) "pending" storage None kind None) in
  match b with
  | Err _ => mret 0
  | Ok bid =>
      let* j := JobStore.Create (site_task site type (descr +:+ s_domain site) (payload bid)) in
      match j with Err _ => mret 0 | Ok _ => let* _ := audit_config c action i in mret 1 end
  end.
Fixpoint sum_of {A} (f : A → M db Z) (l : list A) : M db Z :=
  match l with [] => mret 0 | x :: l' => let* n := f x in let* m := sum_of f l' in mret (n + m) end.
Definition run_database (c : context) (cfg : BackupConfig) (site : site_row) (provider : option provider_row) (dbase : database_row) : M db Z :=
  let* cr := config_credentials accessible cfg dbase in
  match cr with
  | None => mret 0
  | Some (user, password) =>
      run_backup c (ID cfg) site ("database_" +:+ provider_type provider) "database" TypeDBBackupCreate
        "Scheduled database backup for " "_run_db" (λ bid, db_payload bid site dbase user password provider)
  end.
(** How many backups of files and of databases were made for a site. *)
Definition run_site (c : context) (cfg : BackupConfig) (provider : option provider_row) (siteID : Z) : M db (Z * Z) :=
  let storage := provider_type provider in
  if siteID <=? 0 then mret (0, 0) else
  let* s := Sites.GetByID siteID in
  match s with
  | Ok (Some site) =>
      if (ScopeType cfg =? "both")%string then
        let* dbs := Databases.ListBySite siteID in
        let* payloads := config_databases accessible cfg (ok_or [] dbs) in
        let* n := run_backup c (ID cfg) site ("full_" +:+ storage) "both" TypeBackupCreate "Scheduled backup for " "_run_full"
                    (λ bid, full_payload bid storage site payloads provider) in
        mret (n, 0)
      else if (ScopeType cfg =? "files")%string then
        let* n := run_backup c (ID cfg) site storage "files" TypeBackupCreate "Scheduled files backup for " "_run_files"
                    (λ bid, files_payload bid storage site provider) in
        mret (n, 0)
      else if (ScopeType cfg =? "database")%string then
        let* dbs := Databases.ListBySite siteID in
        let* n := sum_of (run_database c cfg site provider) (ok_or [] dbs) in mret (0, n)
      else mret (0, 0)
  | _ => mret (0, 0)
  end.
Fixpoint run_sites (c : context) (cfg : BackupConfig) (provider : option provider_row) (l : list Z) : M db (Z * Z) :=
  match l with
  | [] => mret (0, 0)
  | i :: l' => let* a := run_site c cfg provider i in let* b := run_sites c cfg provider l' in mret (a.1 + b.1, a.2 + b.2)
  end.
Definition run_config (id : string) : handler := λ c,
  with_config id (λ s,
  let cfg := cs_config s in
  let* provider := found match ProviderID cfg with
                         | Some p => BackupProviders.GetByID p
                         | None => BackupProviders.GetDefault
                         end in
  let* ids := ResolveBackupConfigSiteIDs like cfg in
  match ids with
  | Err _ => answer (HTTPError 500 "resolve backup config sites failed")
  | Ok ids =>
      let* n := run_sites c cfg provider ids in
      let* m := BackupConfigs.MarkRun fuel (ID cfg) in
      match m with
      | None => mret None
      | Some _ => answer (Success 202 (JObj [("config_id", JInt (ID cfg)); ("created_files", JInt n.1); ("created_database", JInt n.2)]))
      end
  end).
End Configs.

(** * Facts *)

(** ** The schedules are open to everybody *)

Section Schedules.
Context `{HC : PayloadCipher} `{HA : AEAD}.
Context (like : string → string → bool) (time_le text_before_time time_before_text time_le_text : Z → Z → bool)
        (os_remove : string → bool)
        (deliver : channel_row → string → string → string → error)
        (accessible : db_server_row → string → string → res bool).

Lemma create_schedule_ok (id : string) (i : Z) (site : site_row) (cron : string) (c : context) (d : db) (n : Z) :
  parse_id id = Some i → get_row i (t_sites d) = Some site → trim_space cron = cron → cron ≠ "" →
  let '(rep, w) := create_schedule id (Some (mkScheduleBody cron None "files" None)) c (World d n []) in
  status rep = Some 201 ∧ t_sites (data w) = t_sites d ∧ t_backups (data w) = t_backups d ∧
  t_schedules (data w) =
    let sid := t_seq (t_schedules d) + 1 in
    Table (t_rows (t_schedules d) ++ [ScheduleRow sid i None cron "files" true None None (current_timestamp n) (current_timestamp n)]) sid.
Proof.
  intros Hi Hs Ht Hc. unfold create_schedule, with_site. rewrite Hi.
  assert (Sites.GetByID i (World d n []) = (Ok (get_row i (t_sites d)), World d n [])) as E by done.
  rewrite (bind_step _ _ _ _ _ E), Hs. cbv beta iota. unfold if_body. cbn [hb_cron hb_type hb_enabled hb_provider].
  rewrite Ht, (proj2 (String.eqb_neq _ _) Hc). repeat split.
Qed.
Lemma runTick_hangs (sched : schedule_row) (rows : list schedule_row) (seq : Z) (site : site_row) (fuel : nat) (d : db) (n : Z) :
  t_schedules d = Table (rows ++ [sched]) seq → table_wf (t_schedules d) → forallb (λ r, negb (sc_enabled r)) rows = true →
  sc_enabled sched = true → sc_next sched = None → sc_type sched = "files" → sc_cron sched = hanging_cron →
  get_row (sc_site sched) (t_sites d) = Some site → table_wf (t_backups d) →
  has_row (Backups.active_backup (sc_site sched) "files") (t_backups d) = false →
  (runTick like time_le text_before_time time_before_text time_le_text 0 os_remove deliver accessible fuel (World d n [])).1 = None.
Proof.
  intros Et Hn Hr He Hx Hty Hc Hs Hw Ha. unfold runTick.
  assert (BackupSchedules.ListDue time_le_text (World d n []) = (Ok [sched], World d n [])) as E.
  { unfold BackupSchedules.ListDue, wrap, query, mbind, mret. rewrite stmt_ok. change (tab d) with (t_schedules d). rewrite Et.
    unfold select_where. cbn [t_rows]. rewrite List.filter_app. cbn [List.filter]. unfold BackupSchedules.due at 2. rewrite He, Hx.
    rewrite forallb_forall in Hr.
    assert (∀ r, In r rows → BackupSchedules.due time_le_text (current_timestamp n) r = false) as Hd.
    { intros r Hi. apply Hr, negb_true_iff in Hi. unfold BackupSchedules.due. by rewrite Hi. }
    clear -Hd. induction rows as [|r rows IH]; [done|]. cbn [List.filter]. rewrite Hd by by left. apply IH. intros r' H. apply Hd. by right. }
  rewrite (bind_step _ _ _ _ _ E). cbn [ok_or].
  assert (str_in ["database"; "both"] (sc_type sched) = false) as Hf by by rewrite Hty.
  pose proof (processSchedule_files 0 sched site d n Hw Hs Hf eq_refl) as P. cbv zeta in P.
  unfold scheduled_backup in P. cbn [Backups.backup_defaults Backups.BackupType] in P. rewrite Hty in P at 1. cbn [String.eqb] in P.
  change (if (_ =? "")%string then _ else _) with (sc_type sched) in P. rewrite Hty, Ha in P. cbv beta iota in P.
  match type of P with _ = (_, World ?x _ _) => set (d1 := x) in P end.
  assert (t_schedules d1 = t_schedules d) as F by done. clearbody d1.
  assert (BackupSchedules.MarkRun fuel (sc_id sched) (World d1 n []) = (None, World d1 n [])) as M.
  { unfold BackupSchedules.MarkRun, wrap, query, mbind, mret. rewrite stmt_ok. change (tab d1) with (t_schedules d1).
    rewrite F.
    rewrite (proj2 (get_row_spec (t_schedules d) (sc_id sched) sched Hn)) by (rewrite Et; split; [apply in_or_app; right; by left|done]).
    cbn [fmap option_fmap option_map]. unfold time_Now. by rewrite Hc, hanging_cron_None. }
  assert (tick_each (processSchedule 0) (λ s, BackupSchedules.MarkRun fuel (sc_id s)) [sched] (World d n []) = (None, World d1 n [])) as T.
  { cbn [tick_each]. rewrite (bind_step _ _ _ _ _ P). cbv beta iota. by rewrite (bind_step _ _ _ _ _ M). }
  by rewrite (bind_step _ _ _ _ _ T).
Qed.

(** C20: whoever is signed in stops the scheduler: a schedule for files with a range up to the
    largest int, which any caller creates for any site, is stored, and when it is due,
    which is at once, the tick never returns, however much time its loop is given: no backup, no
    clean-up and no renewal of a certificate is made any more. *)
Theorem any_user_stops_scheduler (id : string) (i : Z) (site : site_row) (c : context) (d : db) (n n' : Z) (fuel : nat)
    (Hi : parse_id id = Some i) (Hs : get_row i (t_sites d) = Some site) (Hw : table_wf (t_schedules d)) (Hwb : table_wf (t_backups d))
    (Hr : forallb (λ r, negb (sc_enabled r)) (t_rows (t_schedules d)) = true)
    (Ha : has_row (Backups.active_backup i "files") (t_backups d) = false) :
  let '(rep, w) := create_schedule id (Some (mkScheduleBody hanging_cron None "files" None)) c (World d n []) in
  status rep = Some 201 ∧
  (runTick like time_le text_before_time time_before_text time_le_text 0 os_remove deliver accessible fuel (World (data w) n' [])).1 = None.
Proof.
  pose proof (create_schedule_ok id i site hanging_cron c d n Hi Hs eq_refl) as H.
  destruct (create_schedule _ _ _ _) as [rep w]. destruct H as (Hrep & Es & Eb & Et); [done|]. split; [done|].
  apply (runTick_hangs _ _ _ site fuel (data w) n' Et); rewrite ?Es, ?Eb; try done.
  rewrite Et. exact (insert_wf (λ sid, ScheduleRow sid i None hanging_cron "files" true None None (current_timestamp n) (current_timestamp n)) _ (λ _, eq_refl) Hw).
Qed.
End Schedules.

(** eve, who has no grant for bob's site, creates the schedule. *)
Lemma any_user_stops_scheduler_witness :
  (checkSitePermission (user_context 4) (sample_db_site 7 3) "read" (World office 0 [])).1 = false ∧
  let '(rep, w) := create_schedule "7" (Some (mkScheduleBody hanging_cron None "files" None)) (user_context 4) (World office 0 []) in
  status rep = Some 201 ∧
  (runTick (HC := clear_payloads) (HA := sample_aead) (λ _ _, true) Z.leb Z.leb Z.leb Z.leb 0 (λ _, true) (λ _ _ _ _, None) (λ _ _ _, Ok true) 1000
     (World (data w) 9 [])).1 = None.
Proof.
  split; [reflexivity|].
  apply (any_user_stops_scheduler (HC := clear_payloads) (HA := sample_aead) (λ _ _, true) Z.leb Z.leb Z.leb Z.leb (λ _, true) (λ _ _ _ _, None)
           (λ _ _ _, Ok true) "7" 7 (sample_db_site 7 3) (user_context 4) office 0 9 1000); try reflexivity; split; cbn; try constructor; lia.
Defined.

(** ** Providers *)

Lemma regional_ok region endpoint no_region made domain foreign e r :
  regional region endpoint no_region made domain foreign = Ok (e, r) → r ≠ "".
Proof.
  unfold regional. destruct (String.eqb_spec region ""); [done|]. cbn [orb]. destruct (_ =? "auto")%string; [done|].
  destruct (negb _); [done|]. by intros [= _ <-].
Qed.
Lemma normalize_ok (type endpoint region e r : string) :
  normalizeProviderEndpointRegion type endpoint region = Ok (e, r) → contains e "." = true ∧ r ≠ "".
Proof.
  unfold normalizeProviderEndpointRegion. destruct (service_defaults _ _ _) as [[e0 r0]|] eqn:E; [|done].
  destruct (contains (trim_right_slashes _) ".") eqn:Ec; [|done]. intros [= <- <-]. split; [done|]. clear Ec. revert E.
  unfold service_defaults. generalize (trim_space region). intros s. generalize (trim_space endpoint). intros t.
  destruct (_ =? "s3")%string.
  { intros [= _ <-]. destruct (String.eqb_spec s ""); [done|]. cbn [orb]. by destruct (_ =? "auto")%string. }
  destruct (_ =? "r2")%string.
  { destruct (t =? "")%string; [done|]. destruct (negb _); [done|]. intros [= _ <-]. by destruct (String.eqb_spec s ""). }
  do 3 (destruct (_ =? _)%string; [apply regional_ok|]). destruct (_ =? "generic")%string; [|done].
  destruct (t =? "")%string; [done|]. intros [= _ <-]. by destruct (String.eqb_spec s "").
Qed.

(** What every stored provider has. *)
Definition provider_ok (r : provider_row) : Prop :=
  str_in allowedProviderTypes (pv_type r) = true ∧ contains (pv_endpoint r) "." = true ∧ pv_region r ≠ "".
Inductive provider_request :=
| ReqCreate (body : option Provider) | ReqUpdate (id : string) (body : option provider_patch) | ReqDelete (id : string).
Definition serve_provider (r : provider_request) (c : context) : M db () :=
  let* _ := match r with
            | ReqCreate b => create_provider b c | ReqUpdate i b => update_provider i b c | ReqDelete i => delete_provider i c
            end in mret ().


Lemma audit_providers (action : string) (id : Z) (w : world db) :
  wp (audit_provider action id) (λ _ w', t_providers (data w') = t_providers (data w)) w.
Proof.
  unfold audit_provider, Audit.RecordAction. wp_step. apply wp_insert_checked; intros; by wp_run.
Qed.
Notation providers_ok d := (Forall provider_ok (t_rows (t_providers d))).
Lemma audited (action : string) (id : Z) (rep : reply) (w : world db) :
  providers_ok (data w) → wp (let* _ := audit_provider action id in mret rep) (λ _ w', providers_ok (data w')) w.
Proof. intros H. wp_step. eapply wp_mono; [|apply audit_providers]. intros ? w' E. wp_step. by rewrite E. Qed.

Lemma cleared_ok (q : provider_row → bool) (v : bool) (t : table provider_row) :
  Forall provider_ok (t_rows t) → Forall provider_ok (t_rows (update_where q (set_pv_default v) t)).
Proof. intros H. apply (update_all provider_ok); [by intros r _|exact H]. Qed.
Definition provider_good (p : Provider) : Prop :=
  str_in allowedProviderTypes (ProviderType p) = true ∧ contains (Endpoint p) "." = true ∧ Region p ≠ "".
Lemma Create_ok (p : Provider) (w : world db) :
  provider_good p → providers_ok (data w) → wp (BackupProviders.Create p) (λ _ w', providers_ok (data w')) w.
Proof.
  intros Hp H. unfold BackupProviders.Create. wp_step.
  eapply (wp_mono _ (λ _ w', providers_ok (data w'))).
  - intros [u|e] w1 H1; cbv beta iota; [|by wp_run]. repeat wp_step. apply wp_insert_checked; [by intros; wp_run|]. intros fs _. wp_run.
    apply (insert_all provider_ok); done.
  - destruct (IsDefault p); [|by wp_run]. wp_step. unfold update_tab. wp_run; [done|]. by apply cleared_ok.
Qed.
Lemma Update_ok (id : Z) (p : Provider) (w : world db) :
  provider_good p → providers_ok (data w) → wp (BackupProviders.Update id p) (λ _ w', providers_ok (data w')) w.
Proof.
  intros Hp H. unfold BackupProviders.Update. wp_step.
  eapply (wp_mono _ (λ _ w', providers_ok (data w'))).
  - intros [u|e] w1 H1; cbv beta iota; [|by wp_run]. unfold update_tab. wp_run; [done|]. apply (update_all provider_ok); [|done]. intros r _ _. apply Hp.
  - destruct (IsDefault p); [|by wp_run]. wp_step. unfold update_tab. wp_run; [done|]. by apply cleared_ok.
Qed.

(** whatever statements fail, every provider that the API stores has one of the known
    types, an endpoint with a dot and a region: an address that the tool can be called with. *)
Theorem provider_requests_ok (rs : list (provider_request * context)) (w : world db) (H : providers_ok (data w)) :
  wp (mfor rs (λ p, serve_provider p.1 p.2)) (λ _ w', providers_ok (data w')) w.
Proof.
  apply wp_mfor; [|done]. clear w H. intros [r c] w _ H. cbn [fst snd]. unfold serve_provider. wp_step.
  eapply (wp_mono _ (λ _ w', providers_ok (data w'))); [intros; by wp_run|].
  destruct r as [[b|]|i [b|]|i].
  - unfold create_provider, if_body. destruct (existsb _ _); [by wp_run|]. destruct (str_in _ _) eqn:Et; cbn [negb]; [|by wp_run].
    destruct (normalizeProviderEndpointRegion _ _ _) as [[e r]|] eqn:En; [|by wp_run]. apply normalize_ok in En as [He Hr].
    wp_step. eapply wp_mono; [|by apply Create_ok]. intros [id|e'] w1 H1; [by apply audited|by wp_run].
  - by wp_run.
  - unfold update_provider, if_id. destruct (parse_id i); [|by wp_run]. unfold BackupProviders.GetByID. wp_step. wp_step. wp_step; [by wp_run|].
    cbn [data]. change (tab (A := provider_row) (data w)) with (t_providers (data w)).
    destruct (get_row _ (t_providers (data w))) as [row|] eqn:Er; [|by wp_run]. apply find_spec in Er as [_ Hin].
    pose proof (proj1 (List.Forall_forall provider_ok _) H _ Hin) as (Ht0 & _ & _).
    unfold if_body. destruct (bool_decide _ && _) eqn:Ety; [by wp_run|].
    destruct (normalizeProviderEndpointRegion _ _ _) as [[e r]|] eqn:En; [|by wp_run]. apply normalize_ok in En as [He Hr].
    wp_step. eapply wp_mono; [|apply Update_ok; [|done]].
    + intros [?|?] w1 H1; [by apply audited|by wp_run].
    + split; [|by split]. cbn [ProviderType]. destruct (pp_type b); [|done]. cbn in Ety. by apply negb_false_iff in Ety.
  - unfold update_provider, if_id. destruct (parse_id i); [|by wp_run]. unfold BackupProviders.GetByID. wp_step. wp_step. wp_step; [by wp_run|].
    destruct (get_row _ _); by wp_run.
  - unfold delete_provider, if_id. destruct (parse_id i); [|by wp_run]. unfold BackupProviders.Delete, delete_tab. wp_step. wp_step.
    wp_step; [by wp_run|]. apply audited. apply (delete_all provider_ok). done.
Qed.

(** ** The usage of a provider *)

(** what is shown as the latest backup: of completed backups with their times it is the
    last one of the list, which is ordered by the newest first. *)
Lemma latest_is_oldest (l : list backup_row) (b : backup_row) (t : Z) :
  b_completed b = Some t → latest_completed (l ++ [b]) = Some t.
Proof. intros E. unfold latest_completed. rewrite fold_left_app. cbn. by rewrite E. Qed.
Example latest_shown : latest_completed [sample_backup 2 "completed" (Some 90) None; sample_backup 1 "completed" (Some 20) None] = Some 20.
Proof. reflexivity. Qed.
Example half_megabytes : megabytes 1572864 = JNum "1.5".
Proof. vm_compute. reflexivity. Qed.

(** A bucket is created with the defaults of its service; an unknown type is refused. *)
Lemma provider_requests_ok_witness :
  let bucket type := mkProvider " copies" type "b" " https://eu.test/ " "" "ak" "sk" true 0 in
  let rs := [(ReqCreate (Some (bucket "S3")), no_context); (ReqCreate (Some (bucket "ftp")), no_context);
             (ReqUpdate "1" (Some (mkProviderPatch None (Some "b2") None (Some "") (Some "us-west-004") None None None None)), no_context)] in
  map (λ r, (pv_type r, pv_endpoint r, pv_region r)) (t_rows (t_providers (data (mfor (take 2 rs) (λ p, serve_provider p.1 p.2) (World empty_db 0 [])).2)))
    = [("s3", "eu.test", "us-east-1")] ∧
  map (λ r, (pv_type r, pv_endpoint r, pv_region r)) (t_rows (t_providers (data (mfor rs (λ p, serve_provider p.1 p.2) (World empty_db 0 [])).2)))
    = [("b2", "s3.us-west-004.backblazeb2.com", "us-west-004")] ∧
  wp (mfor rs (λ p, serve_provider p.1 p.2)) (λ _ w', providers_ok (data w')) (World empty_db 0 []).
Proof.
  intros bucket rs. split; [vm_compute; reflexivity|]. split; [vm_compute; reflexivity|].
  apply (provider_requests_ok rs (World empty_db 0 [])). constructor.
Defined.
